(* ===== verification/_CoqProject ===== *)
-Q . S2P
Prelude.v
PyStr.v
Bytes.v
SqlTable.v
Paths.v
Floats.v
Scripts.v
NodeLifecycle.v
Connectivity.v
SyncQueue.v
StateCache.v
Proxy.v
QueueProcessor.v
OfflineBoot.v
Approvals.v
Dhcp.v
PiManager.v
Tftp.v
Groups.v
ContentCache.v
BootService.v
Conflicts.v
Controller.v
Throttler.v
Workflows.v
Templates.v
Disks.v
Clone.v
Boot.v
PiBoot.v
Health.v
Inventory.v
AuditTrail.v
FileSync.v
TemplateRecords.v
Sites.v
Scheduler.v
SyncService.v
SyncJobs.v
SyncLife.v
Accounts.v
Access.v
Seed.v
Rules.v
Luns.v
Shares.v
Storage.v
FileRoutes.v
