(* ===== verification/Prelude.v ===== *)
(** * PureBoot: a verification library for the PureBoot controller and site agent

    PureBoot boots, installs and tracks machines over the network.  A central
    controller ([src/src/api], [src/src/core], [src/src/services]) keeps the
    nodes in a database, moves them through a lifecycle and guards dangerous
    operations by approvals.  A PXE front ([src/src/pxe]) answers the machines'
    DHCP and TFTP requests, and boot endpoints ([src/src/api/routes/boot.py],
    [boot_pi.py]) give each machine its script by the state of its node.  At a
    remote site an agent ([src/src/agent]) stands between the machines and the
    controller: it watches the connection, caches node states, queues what it
    cannot send, and replays the queue later.  This library translates the core
    of these parts into Gallina and proves what makes them correct.  Paths below
    are relative to [src/src].

    ** Conventions

    - Code that mutates objects and may raise is [M S E A], a function from a
      state to a result and a state: mutations made before an exception stay,
      as in Python.  [with_db] is the transaction of [db/database.py], [get_db],
      which undoes them.  Pure code returns [result] or [option].
    - A SQL table is the list of its rows in insertion order (SqlTable), with
      the statements the code issues as functions and their laws; a decoded JSON
      value is [json]; a string is a list of 8-bit characters (PyStr); bytes are
      lists of [Z] (Bytes).  Instants are integers, microseconds where the code
      computes with durations.
    - The controller's handlers share one state (Controller): the tables, the
      events broadcast so far and the files of the Pi directories.  [request]
      undoes the tables of a request that fails, and nothing else, as a
      broadcast or a file that is written stays.
    - Rows are records; [r <| f := x |>] is the row with one column changed
      (coqutil's record setters).  Deeper changes are [r <| f ::= g |>].
    - [now] and fresh uuids are arguments.  The network, the central controller,
      the file system, YAML, the certificate authority and the text of
      exceptions are parameters, and theorems quantify over them.  What the code
      relies on is a class of laws ([PydanticLaws]: conversions accept values of
      their own type; [Rounding]: rounding is monotone and keeps doubles) with
      an instance that satisfies it.
    - SQLite's driver returns naive datetimes and others aware ones; where the
      difference decides whether Python raises, it is a boolean parameter,
      [reads_aware].
    - An [await] is where other tasks run.  Components whose awaits matter take
      an oracle indexed by the awaits so far; elsewhere an operation is one step,
      as the code holds the component's lock or the request's transaction.

    ** Files

    Foundations:
    - Prelude: results, the monad, invariants [keeps], JSON, association lists.
    - PyStr, Bytes, SqlTable, Paths, Floats, Scripts: strings, byte buffers,
      tables, lexical paths, floats, boot scripts as text, and their lemmas.

    The controller:
    - NodeLifecycle: [core/state_machine.py], [core/state_service.py],
      [core/event_service.py], and from [api/routes/nodes.py] the dispatch of
      reports, the deploy callbacks, the admin transition and the bulk change.
      The string tables refine an inductive lifecycle relation (C1);
      installation is retried as promised (C4).  The bodies of the callbacks are JSON.
    - Controller: the tables of [db/models.py] the later files share, the
      request, the operations on one node's row, which lift those of
      NodeLifecycle, and Pydantic's conversions as a class.
    - Inventory: the other handlers of [api/routes/nodes.py] with the schemas
      they validate by.  The whole report handler refines the lifecycle's dispatch
      (C5), and unique columns, known values and tags stay well formed over any
      requests (C26).
    - AuditTrail: every modelled request that touches nodes, together, on Inventory, Boot,
      PiBoot, Disks, Clone and Health.  The audit log has every change of a state but
      those that cloning makes (C2), and without force and clones a node only
      follows the lifecycle (C3).
    - Groups: [api/routes/groups.py].  With names in lower case without slashes and
      wildcards the groups stay a forest whose paths and depths are exact; with any
      names parents exist and names are unique (C13).  Path queries are subtrees (C14), settings come
      from the nearest group (C15).  The database's [LIKE] is a parameter.
    - Sites: [api/routes/sites.py], [api/routes/agents.py], on Groups.  Sites stay under
      sites with legal settings, and with names like those of Groups a part of the forest (C22);
      only the token generated last registers an agent (C23), and it is never spent
      ([token_is_never_spent]).
    - Accounts: [api/routes/users.py], [api/routes/auth.py], the groups of
      [services/ldap.py].  An administrator always remains ([an_admin_remains]), others change their
      own address and password only (C17), tokens say who it is ([access_token_identifies]), refreshing rotates
      them (C21), and guessing passwords is never stopped ([guessing_is_never_locked_out]).
      bcrypt, SHA-256 and JWT are a class with laws.
    - Access: the middleware and the dependencies ([api/middleware/auth.py],
      [api/dependencies/auth.py]), roles, user groups, service accounts and API
      keys.  Nothing changes without the permission (C18), system roles stay
      (C19), keys open until they expire or are revoked (C20), tables stay well formed.
    - Seed: [db/seed.py], the default rows.  Seeding succeeds, adds exactly what is
      missing, and does nothing the second time (C16).
    - Approvals: [services/approvals.py], [api/routes/approvals.py],
      [core/escalation_job.py].  The four-eye principle over all runs, for users where the legacy endpoints were not
      used and for names in any case (C6), the end of an approval nobody decides (C27), rule selection, and that
      decisions are final.
    - Rules: [api/routes/approval_rules.py], on Approvals, behind Access.  Rules stay
      well formed (C30), and with the permissions of Seed only
      administrators manage them, since the permission that Seed makes for it is not the
      one that is asked for ([only_administrators_manage_rules], a finding).
    - Health: [core/health_service.py], [core/agent_status_job.py] and the
      acknowledgement of alerts.  Alerts follow health over any interleaving
      (C28), but with an offline threshold of zero the score divides by zero
      ([check_divides_by_zero_there]); scores and penalties keep their bounds.
    - Disks: [api/routes/disks.py].  The queue of partition operations ([queued_operation_is_served_last]) and
      the reading back of reports.
    - Clone: [api/routes/clone.py].  The resize plan fits (C24), sessions stay
      well formed, but for back ends that are deleted under them, whatever happens in between (C25).
    - Workflows, Templates: [core/workflow_service.py],
      [core/variable_resolver.py], [core/template_renderer.py].  Includes are
      inlining (C33); no identifier leaves the workflows directory.
    - TemplateRecords: [api/routes/templates.py].  The store of templates and
      versions stays well formed ([template_store_well_formed]), a new version is read back
      ([created_version_is_current]).
    - Scheduler, SyncService, SyncJobs, SyncLife: [core/scheduler.py],
      [core/sync.py], [api/routes/sync_jobs.py], and the registration of jobs in
      [main.py].  A run is a sequence of requests, calls of the scheduler and
      steps of tasks from await to await.  Tables stay well formed
      (C35), rsyncs and messages are limited (C37), files stay below
      the backend's mount point ([sync_stays_inside_its_backend]), the newest versions are kept ([successful_sync_keeps_its_version]), and
      what an interruption leaves behind is stuck (C36).  APScheduler is a class of
      operations with laws, a finite map its instance.
    - Luns: [api/routes/luns.py], [core/iscsi.py].  The code refines the life of a
      LUN, over any requests, background tasks and restarts (C34); a back end
      never has a third LUN ([third_lun_is_refused]), and what a restart
      interrupts is stuck ([interrupted_lun_stays]).  The programs on the host are
      parameters.
    - Shares, Storage, FileRoutes: [core/storage.py], [api/routes/files.py],
      [api/routes/storage.py].  A share is a tree of files, a service a record of
      operations with laws that every kind of back end keeps ([ServiceLaws]).  An
      uploaded file is downloaded as it was (C38), tables and trees stay well
      formed ([storage_stays_well_formed]), answers hide secrets ([answers_hide_secrets]), and
      what a listing shows is read from its page ([page_is_read_back]).
    - Conflicts: [agent/conflicts.py], on the state cache.  A check finds every
      difference ([check_reports_every_difference]).

    Booting machines:
    - Dhcp: [pxe/dhcp_proxy.py].  An offer reads back as intended (C29) and the
      parser reads encoded options exactly.
    - Tftp: [pxe/tftp_server.py].  A transfer delivers the file to a client that
      acknowledges (C9) and is lockstep on any network (C10); packets round trip
      ([tftp_roundtrip]).
    - Boot: [api/routes/boot.py], on Workflows and NodeLifecycle.  Only pending
      nodes are installed (C11); a clone's source boots into an error.
    - PiManager, PiBoot: [pxe/pi_manager.py], [api/routes/boot_pi.py].  A Pi's
      directory is bootable after any run (C31), and what its registration does
      ([pi_registration]).

    - Throttler: [core/bandwidth_throttler.py], [api/routes/boot_files.py],
      [core/system_settings.py].  A throttled stream delivers exactly the size its
      transfer was registered with (C32); allowances have bounds
      ([allowance_bounds]).

    The site agent:
    - Connectivity: [agent/connectivity.py].  Its hysteresis in closed form and
      what listeners hear.
    - SyncQueue: [agent/queue.py].  FIFO service.
    - StateCache: [agent/cache/state_cache.py].  A map keyed by MAC with exact
      expiry.
    - Proxy: [agent/proxy.py], on the queue and the cache.  Its invariant under
      any controller, no loss offline, reads that survive an outage.
    - QueueProcessor: [agent/queue_processor.py].  The loop is written against
      the interface [SyncClient], whose law is that calls leave the queue alone;
      [proxy_client] is the proxy as an instance.  The loop ends for every
      controller and every pattern of disconnections (C7), and an uninterrupted
      run drains the queue (C8).
    - ContentCache: [agent/cache/content_cache.py].  What is put is got back
      (C39).
    - FileSync: [agent/sync.py], on ContentCache.  Bootloaders are on disk or
      reported (C40); a manual run hangs.
    - OfflineBoot, BootService: [agent/offline_boot.py], [agent/boot_service.py],
      on StateCache and Connectivity.  A machine of a site always gets a script
      that is the controller's or harmless (C12); boot files survive an outage
      ([boot_files_survive_an_outage]).

    Beside these, theorems without a number prove deviations and edges: the
    deploy callbacks that fail on a pending node, the item a crash strands, the
    lock a full cache never releases, what the path guards admit, the completion
    of a clone under naive datetimes, the boot timeout, and others.

    ** Bounds and fuel

    The TFTP theorems hold for transfers of fewer than 65535 blocks: block
    numbers have 16 bits and the code does not wrap them.  The DHCP theorems are
    for hardware addresses of at most 16 bytes, the size of the field.  Recursion
    is structural except for:
    - the processor's loop, whose fuel is the number of attempts left on the
      pending rows ([budget]) plus two: every round uses up an attempt, unless
      the connection is lost, and then the next test ends the loop;
    - the splitting of a file into blocks, whose fuel is the file's length;
    - the walk up the parents of a group, whose fuel is the group's depth;
    - includes, whose fuel is the code's own limit of ten levels;
    - the loops of a throttled stream, for which the length of the content and
      one round more are enough when it ends at all.
    Floats (health scores, priorities) are rationals with a rounding [fl] after
    each operation; the theorems hold for any rounding with the laws of
    [Rounding].
    - the search for matches in a listing, whose fuel is the length of the text
      plus one ([finditer_fuel]).

    ** What is not modelled

    Sockets, HTTP routing, logging, SQL transactions beyond rollback, and
    concurrent requests on one row.  Listings that only read and page.  Time
    stamps that the database computes are left out of most rows, and with them
    whether the ORM has loaded them when an answer reads them (FileRoutes has
    that as a parameter).  A synchronisation's task is said to start after the
    commit of the request that makes it, as the loop's order has it; broadcasts
    to websockets never raise; of the file system's errors only those of starting
    and reading rsync, and those that follow from the tree of a share, are
    there; shares have no symbolic links.

    Whole parts that are left out: the hypervisors, the manager of NFS exports
    and the staging of clones, which drive external services; the workflow
    records, whose endpoints fail at every request; the read-only health routes;
    the websockets; the table of running transfers of the TFTP server; the
    iPXE builder; LDAP and the certificates, which are calls of libraries; the
    start-up of controller and agent, the agent's HTTP client and its heartbeat. *)
From stdpp Require Import base tactics list strings gmap pretty sorting.
From Stdlib Require Import ZArith Lia.

(** ** Results and the state-and-exception monad *)

(** The outcome of fallible code: a value, or the exception it raised. *)
Inductive result (E A : Type) : Type :=
| Ok (a : A)
| Err (e : E).
Arguments Ok {E A} a.
Arguments Err {E A} e.

#[export] Instance result_eq_dec `{EqDecision E, EqDecision A} : EqDecision (result E A).
Proof. solve_decision. Defined.

Definition is_ok {E A} (r : result E A) : bool :=
  match r with Ok _ => true | Err _ => false end.

#[export] Instance result_ret E : MRet (result E) := fun A a => Ok a.
#[export] Instance result_bind E : MBind (result E) :=
  fun A B f r => match r with Ok a => f a | Err e => Err e end.

(** Code that mutates objects and may raise.  Mutations made before an
    exception stay visible, as in Python, so the state is returned in both
    cases. *)
Definition M (S E A : Type) : Type := S -> result E A * S.

#[export] Instance M_ret S E : MRet (M S E) := fun A a s => (Ok a, s).
#[export] Instance M_bind S E : MBind (M S E) :=
  fun A B f m s => match m s with
                   | (Ok a, s') => f a s'
                   | (Err e, s') => (Err e, s')
                   end.

Definition raise {S E A} (e : E) : M S E A := fun s => (Err e, s).
Definition get_state {S E} : M S E S := fun s => (Ok s, s).
Definition put_state {S E} (s : S) : M S E unit := fun _ => (Ok tt, s).
Definition modify {S E} (f : S -> S) : M S E unit := fun s => (Ok tt, f s).
Definition lift_result {S E A} (r : result E A) : M S E A := fun s => (r, s).
(** [try: m except: h e], for every exception. *)
Definition catch {S E E' A} (m : M S E A) (h : E -> M S E' A) : M S E' A :=
  fun s => match m s with
           | (Ok a, s') => (Ok a, s')
           | (Err e, s') => h e s'
           end.

Lemma bind_Ok {S E A B} (m : M S E A) (f : A -> M S E B) s a s' :
  m s = (Ok a, s') -> (m ≫= f) s = f a s'.
Proof. unfold mbind, M_bind. by intros ->. Qed.

Lemma bind_Err {S E A B} (m : M S E A) (f : A -> M S E B) s e s' :
  m s = (Err e, s') -> (m ≫= f) s = (Err e, s').
Proof. unfold mbind, M_bind. by intros ->. Qed.

Lemma bind_assoc {S E A B C} (m : M S E A) (f : A -> M S E B) (g : B -> M S E C) s :
  (m ≫= fun a => f a ≫= g) s = ((m ≫= f) ≫= g) s.
Proof. unfold mbind, M_bind. by destruct (m s) as [[a|e] s']. Qed.

(** A property of the state that a computation keeps, whatever it returns. *)
Definition keeps {S E A} (P : S -> Prop) (m : M S E A) : Prop :=
  forall s, P s -> P (m s).2.

Lemma keeps_ret {S E A} (P : S -> Prop) (a : A) : keeps P (mret (M := M S E) a).
Proof. by intros s Hs. Qed.

Lemma keeps_bind {S E A B} (P : S -> Prop) (m : M S E A) (f : A -> M S E B) :
  keeps P m -> (forall a, keeps P (f a)) -> keeps P (m ≫= f).
Proof.
  intros Hm Hf s Hs. specialize (Hm s Hs). unfold mbind, M_bind.
  destruct (m s) as [[a|e] s'] eqn:E1; simpl in *; [by apply Hf | done].
Qed.

Lemma keeps_catch {S E E' A} (P : S -> Prop) (m : M S E A) (h : E -> M S E' A) :
  keeps P m -> (forall e, keeps P (h e)) -> keeps P (catch m h).
Proof.
  intros Hm Hh s Hs. specialize (Hm s Hs). unfold catch.
  destruct (m s) as [[a|e] s'] eqn:E1; simpl in *; [done | by apply Hh].
Qed.

Lemma keeps_raise {S E A} (P : S -> Prop) (e : E) : keeps P (raise (A := A) e : M S E A).
Proof. by intros x Hx. Qed.
Lemma keeps_get_state {S E} (P : S -> Prop) : keeps P (get_state : M S E S).
Proof. by intros x Hx. Qed.

(** [get_db]: the transaction of a request that raises is rolled back. *)
Definition with_db {S E A} (m : M S E A) : M S E A :=
  fun s => match m s with
           | (Ok a, s') => (Ok a, s')
           | (Err e, _) => (Err e, s)
           end.

Lemma keeps_with_db {S E A} (P : S -> Prop) (m : M S E A) : keeps P m -> keeps P (with_db m).
Proof. intros Hm s Hs. specialize (Hm s Hs). unfold with_db. by destruct (m s) as [[a|e] s']. Qed.

(** ** Tactics *)

(** Unfold the monad's operations, so that a handler computes on a symbolic
    state up to its next branch. *)
Ltac unfold_M :=
  unfold mbind, M_bind, mret, M_ret, raise, get_state, put_state, modify,
    lift_result, catch, result_bind, result_ret in *.

(** The first step of a computation known to succeed, as the equation [H]. *)
Tactic Notation "step_M" simple_intropattern(a) simple_intropattern(s') ident(H) :=
  lazymatch goal with
  | |- (?m ≫= _) ?s = (Ok _, _) -> _ =>
      let e := fresh "e" in
      destruct (m s) as [[a|e] s'] eqn:H;
      [rewrite (bind_Ok _ _ _ _ _ H) | by rewrite (bind_Err _ _ _ _ _ H)]
  end.

(** Take an invariant of a computation apart into those of its operations. *)
Ltac keeps_steps :=
  repeat match goal with
    | |- keeps _ (_ ≫= _) => apply keeps_bind; [|intros ?]
    | |- keeps _ get_state => apply keeps_get_state
    | |- keeps _ (mret _) => apply keeps_ret
    | |- keeps _ (raise _) => apply keeps_raise
    | |- keeps _ (catch _ _) => apply keeps_catch; [|intros ?]
    | |- keeps _ (match ?x with _ => _ end) => destruct x eqn:?
    | |- keeps _ (let _ := _ in _) => cbv zeta
    end.

(** Split every [match] and [if] the goal or a hypothesis still branches on. *)
Ltac split_cases :=
  repeat (case_match; simplify_eq/=).

Create HintDb pyboot discriminated.
Create Rewrite HintDb pyboot.
#[export] Hint Resolve keeps_ret keeps_bind keeps_catch keeps_with_db : pyboot.

(** ** JSON values: what [json.loads] returns and [json.dumps] accepts *)

Inductive json : Type :=
| JNull
| JBool (b : bool)
| JNum (z : Z)
| JStr (s : string)
| JArr (l : list json)
| JObj (kvs : list (string * json)).

Fixpoint assoc_get {A} (k : string) (kvs : list (string * A)) : option A :=
  match kvs with
  | [] => None
  | (k', v) :: rest => if String.eqb k k' then Some v else assoc_get k rest
  end.

(** [d[k] = v] on a dict that keeps insertion order: an existing key keeps its
    place. *)
Fixpoint assoc_set {A} (k : string) (v : A) (kvs : list (string * A)) : list (string * A) :=
  match kvs with
  | [] => [(k, v)]
  | (k', v') :: rest =>
      if String.eqb k k' then (k', v) :: rest else (k', v') :: assoc_set k v rest
  end.

Definition assoc_del {A} (k : string) (kvs : list (string * A)) : list (string * A) :=
  List.filter (fun kv => negb (String.eqb k kv.1)) kvs.

(** Python's truth value of a decoded JSON value. *)
Definition truthy (j : json) : bool :=
  match j with
  | JNull => false
  | JBool b => b
  | JNum z => negb (Z.eqb z 0)
  | JStr s => negb (String.eqb s "")
  | JArr l => negb (bool_decide (length l = 0))
  | JObj kvs => negb (bool_decide (length kvs = 0))
  end.

Definition jopt (o : option string) : json :=
  match o with Some s => JStr s | None => JNull end.

Lemma assoc_get_set_eq {A} k (v : A) kvs : assoc_get k (assoc_set k v kvs) = Some v.
Proof.
  induction kvs as [|[k' v'] kvs IH]; simpl; [by rewrite String.eqb_refl|].
  destruct (String.eqb k k') eqn:E; simpl; by rewrite E.
Qed.

Lemma assoc_get_set_ne {A} k k' (v : A) kvs :
  k ≠ k' -> assoc_get k' (assoc_set k v kvs) = assoc_get k' kvs.
Proof.
  intros Hne. induction kvs as [|[k2 v2] kvs IH]; simpl.
  - by destruct (String.eqb_spec k' k).
  - destruct (String.eqb_spec k k2) as [->|Hk]; simpl.
    + by destruct (String.eqb_spec k' k2).
    + by rewrite IH.
Qed.

Lemma assoc_get_del_eq {A} k (kvs : list (string * A)) : assoc_get k (assoc_del k kvs) = None.
Proof.
  induction kvs as [|[k' v'] kvs IH]; simpl; [done|].
  destruct (String.eqb k k') eqn:E; simpl; [done | by rewrite E].
Qed.

Lemma assoc_get_del_ne {A} k k' (kvs : list (string * A)) :
  k ≠ k' -> assoc_get k' (assoc_del k kvs) = assoc_get k' kvs.
Proof.
  intros Hne. induction kvs as [|[k2 v2] kvs IH]; simpl; [done|].
  destruct (String.eqb_spec k k2) as [->|Hk]; simpl.
  - by destruct (String.eqb_spec k' k2).
  - by rewrite IH.
Qed.

Lemma Forall_assoc_set {A} (P : string * A -> Prop) k v l : P (k, v) -> Forall P l -> Forall P (assoc_set k v l).
Proof.
  intros Hv Hl. induction Hl as [|[k' v'] l Hk Hl IH]; cbn; [by constructor|].
  destruct (String.eqb_spec k k') as [<-|]; by constructor.
Qed.

Lemma Forall_assoc_del {A} (P : string * A -> Prop) k l : Forall P l -> Forall P (assoc_del k l).
Proof. intros Hl. induction Hl as [|x l Hx Hl IH]; cbn; [done|]. destruct (negb _); [by constructor|done]. Qed.

Lemma assoc_get_In {A} k (kvs : list (string * A)) v : assoc_get k kvs = Some v -> In (k, v) kvs.
Proof.
  induction kvs as [|[k' v'] kvs IH]; cbn; [done|].
  destruct (String.eqb_spec k k') as [->|]; [by intros [= ->]; left|]. intros H. right. by apply IH.
Qed.

Lemma assoc_get_set_Some {A} k k' (v : A) kvs w :
  assoc_get k' (assoc_set k v kvs) = Some w -> (k = k' /\ w = v) \/ assoc_get k' kvs = Some w.
Proof.
  destruct (decide (k = k')) as [->|Hne]; [rewrite assoc_get_set_eq; intros [= <-]; by left|].
  rewrite assoc_get_set_ne by done. by right.
Qed.

Lemma assoc_get_del_Some {A} k k' (kvs : list (string * A)) w :
  assoc_get k' (assoc_del k kvs) = Some w -> assoc_get k' kvs = Some w.
Proof.
  destruct (decide (k = k')) as [->|Hne]; [by rewrite assoc_get_del_eq|]. by rewrite assoc_get_del_ne.
Qed.

Lemma assoc_get_None {A} k (kvs : list (string * A)) : assoc_get k kvs = None <-> k ∉ kvs.*1.
Proof.
  induction kvs as [|[k' v] kvs IH]; cbn; [split; [intros _; apply not_elem_of_nil|done]|].
  rewrite not_elem_of_cons. destruct (String.eqb_spec k k'); [split; [done|by intros []]|].
  rewrite IH. by split; [|intros []].
Qed.

Lemma assoc_set_keys {A} k (v : A) kvs :
  (assoc_set k v kvs).*1 = if decide (k ∈ kvs.*1) then kvs.*1 else (kvs.*1 ++ [k])%list.
Proof.
  induction kvs as [|[k' v'] kvs IH]; cbn; [by rewrite decide_False by apply not_elem_of_nil|].
  destruct (String.eqb_spec k k') as [->|Hne]; cbn.
  - by rewrite decide_True by apply list_elem_of_here.
  - rewrite IH. destruct (decide (k ∈ kvs.*1)) as [H|H].
    + by rewrite decide_True by by right.
    + rewrite decide_False; [done|]. by intros [?|?]%elem_of_cons.
Qed.

Lemma NoDup_assoc_set {A} k (v : A) kvs : NoDup kvs.*1 -> NoDup (assoc_set k v kvs).*1.
Proof.
  rewrite assoc_set_keys. case_decide; [done|]. intros Hnd. apply NoDup_app. split; [done|].
  split; [by intros x Hx ->%list_elem_of_singleton|apply NoDup_singleton].
Qed.

Lemma NoDup_assoc_del {A} k (kvs : list (string * A)) : NoDup kvs.*1 -> NoDup (assoc_del k kvs).*1.
Proof.
  unfold assoc_del. induction kvs as [|[k' v] kvs IH]; [done|]. rewrite fmap_cons, NoDup_cons. intros [Hk Hnd].
  cbn. destruct (negb _); [|auto]. cbn. apply NoDup_cons. split; [|auto].
  intros ([k2 v2] & E & [H _]%list_elem_of_In%filter_In)%list_elem_of_fmap. apply Hk.
  cbn in E. subst. apply list_elem_of_fmap. exists (k2, v2). by rewrite list_elem_of_In.
Qed.

#[export] Hint Rewrite @assoc_get_set_eq @assoc_get_del_eq : pyboot.
