(* ===== verification/PyStr.v ===== *)
(** * Python string operations

    The [str] methods the modelled code uses, on 8-bit strings: [lower],
    [strip], [lstrip("/")], [split], [join], [startswith], [endswith], [in] and
    [replace].  Case mapping is the ASCII one. *)
From S2P Require Import Prelude.
From stdpp Require Import base tactics list strings pretty.
From Stdlib Require Import Ascii String ZArith Lia.
Open Scope string_scope.
#[local] Arguments String.append !_ _ : simpl nomatch.

(** ** Character-wise maps *)

Fixpoint str_map (f : ascii -> ascii) (s : string) : string :=
  match s with
  | EmptyString => EmptyString
  | String c r => String (f c) (str_map f r)
  end.

Fixpoint str_forall (p : ascii -> bool) (s : string) : bool :=
  match s with
  | EmptyString => true
  | String c r => p c && str_forall p r
  end.

Definition ascii_lower (c : ascii) : ascii :=
  let n := N_of_ascii c in
  if ((65 <=? n) && (n <=? 90))%N then ascii_of_N (n + 32) else c.

(** [s.lower()] *)
Definition lower (s : string) : string := str_map ascii_lower s.

(** [s.replace(a, b)] for one-character [a] and [b]. *)
Definition replace_char (a b : ascii) (s : string) : string :=
  str_map (fun c => if Ascii.eqb c a then b else c) s.

Lemma str_map_compose f g s : str_map f (str_map g s) = str_map (fun c => f (g c)) s.
Proof. induction s as [|c r IH]; simpl; congruence. Qed.

Lemma str_map_ext f g s : (forall c, f c = g c) -> str_map f s = str_map g s.
Proof. intros H. induction s as [|c r IH]; simpl; [done|]. by rewrite H, IH. Qed.

Lemma str_map_app f s1 s2 : str_map f (s1 ++ s2)%string = (str_map f s1 ++ str_map f s2)%string.
Proof. induction s1 as [|c r IH]; simpl; [done|]. by rewrite IH. Qed.

Lemma str_forall_app p s1 s2 :
  str_forall p (s1 ++ s2)%string = str_forall p s1 && str_forall p s2.
Proof. induction s1 as [|c s1 IH]; simpl; [done|]. by rewrite IH, andb_assoc. Qed.

(** [c not in s] *)
Definition lacks (c : ascii) (s : string) : bool := str_forall (fun d => negb (Ascii.eqb c d)) s.

Lemma lacks_app c x y : lacks c (x ++ y)%string = lacks c x && lacks c y.
Proof. apply str_forall_app. Qed.

Lemma str_map_length f s : String.length (str_map f s) = String.length s.
Proof. induction s; simpl; congruence. Qed.

(** Decide a property of one character by its 256 cases. *)
Ltac all_ascii c := destruct c as [[] [] [] [] [] [] [] []]; vm_compute.

Lemma ascii_lower_idemp c : ascii_lower (ascii_lower c) = ascii_lower c.
Proof. by all_ascii c. Qed.

Lemma lower_idemp s : lower (lower s) = lower s.
Proof. unfold lower. rewrite str_map_compose. apply str_map_ext, ascii_lower_idemp. Qed.

Lemma lower_app s1 s2 : lower (s1 ++ s2)%string = (lower s1 ++ lower s2)%string.
Proof. apply str_map_app. Qed.

(** The MAC normalisation [mac.lower().replace("-", ":")] the agent applies. *)
Definition normalize_mac (mac : string) : string := replace_char "-" ":" (lower mac).

Lemma normalize_mac_idemp mac : normalize_mac (normalize_mac mac) = normalize_mac mac.
Proof.
  unfold normalize_mac, replace_char, lower. rewrite !str_map_compose.
  apply str_map_ext. intros c. by all_ascii c.
Qed.

Lemma lower_normalize_mac mac : lower (normalize_mac mac) = normalize_mac mac.
Proof.
  unfold normalize_mac, replace_char, lower. rewrite !str_map_compose.
  apply str_map_ext. intros c. by all_ascii c.
Qed.

(** ** Prefixes, suffixes, substrings *)

(** [s.startswith(p)] *)
Definition startswith (p s : string) : bool := String.prefix p s.

Fixpoint str_drop (n : nat) (s : string) : string :=
  match n, s with
  | O, _ => s
  | S n', String _ r => str_drop n' r
  | S _, EmptyString => EmptyString
  end.

Fixpoint str_take (n : nat) (s : string) : string :=
  match n, s with
  | O, _ => EmptyString
  | S n', String c r => String c (str_take n' r)
  | S _, EmptyString => EmptyString
  end.

(** [s.endswith(p)] *)
Definition endswith (p s : string) : bool :=
  (String.length p <=? String.length s)%nat
  && String.eqb (str_drop (String.length s - String.length p) s) p.

(** [p in s] *)
Fixpoint str_contains (p s : string) : bool :=
  String.prefix p s ||
  match s with
  | EmptyString => false
  | String _ r => str_contains p r
  end.

Lemma str_prefix_cons a p b s :
  String.prefix (String a p) (String b s) = Ascii.eqb a b && String.prefix p s.
Proof. cbn [String.prefix]. destruct (Ascii.eqb_spec a b), (ascii_dec a b); done. Qed.

Lemma startswith_app p s : startswith p (p ++ s)%string = true.
Proof.
  induction p as [|c p IH]; simpl; [by destruct s|].
  unfold startswith in *; simpl. by destruct (ascii_dec c c).
Qed.

Lemma startswith_spec p s : startswith p s = true <-> exists r, s = (p ++ r)%string.
Proof.
  split; [|intros [r ->]; apply startswith_app].
  revert s; induction p as [|c p IH]; intros s H; simpl in *; [by exists s|].
  destruct s as [|d s]; [done|]. unfold startswith in H; simpl in H.
  destruct (ascii_dec c d) as [->|]; [|done].
  destruct (IH s H) as [r ->]. by exists r.
Qed.

Lemma str_app_assoc s1 s2 s3 : ((s1 ++ s2) ++ s3)%string = (s1 ++ (s2 ++ s3))%string.
Proof. induction s1; simpl; congruence. Qed.

Lemma str_app_nil_r x : String.append x "" = x.
Proof. by induction x as [|c x IH]; [|cbn; rewrite IH]. Qed.

Lemma str_app_length s1 s2 :
  String.length (s1 ++ s2)%string = (String.length s1 + String.length s2)%nat.
Proof. induction s1; simpl; congruence. Qed.

Lemma str_app_inj_l p s1 s2 : (p ++ s1)%string = (p ++ s2)%string -> s1 = s2.
Proof. induction p; simpl; [done|]. intros H; simplify_eq. auto. Qed.

Lemma str_drop_app p s : str_drop (String.length p) (p ++ s)%string = s.
Proof. by induction p. Qed.

Lemma str_take_app p s : str_take (String.length p) (p ++ s)%string = p.
Proof. induction p; simpl; [by destruct s | congruence]. Qed.

Lemma str_take_drop n s : (str_take n s ++ str_drop n s)%string = s.
Proof. revert s; induction n as [|n IH]; intros [|c s]; simpl; [done..|]. by rewrite IH. Qed.

Lemma str_length_drop n s : String.length (str_drop n s) = (String.length s - n)%nat.
Proof. revert s; induction n as [|n IH]; intros [|c s]; simpl; auto. Qed.

Lemma endswith_spec p s : endswith p s = true <-> exists r, s = (r ++ p)%string.
Proof.
  unfold endswith. split.
  - intros [Hl He]%andb_true_iff. apply String.eqb_eq in He.
    exists (str_take (String.length s - String.length p) s).
    rewrite <- He at 2. by rewrite str_take_drop.
  - intros [r ->]. rewrite str_app_length, Nat.add_sub, str_drop_app, String.eqb_refl.
    rewrite andb_true_r. apply Nat.leb_le. lia.
Qed.

(** ** Stripping, splitting, joining, replacing *)

(** [s.lstrip(c)] *)
Fixpoint lstrip (c : ascii) (s : string) : string :=
  match s with
  | String d r => if Ascii.eqb c d then lstrip c r else s
  | EmptyString => EmptyString
  end.

Definition is_space (c : ascii) : bool :=
  let n := N_of_ascii c in ((n =? 32) || ((9 <=? n) && (n <=? 13)) || ((28 <=? n) && (n <=? 31)) || (n =? 133) || (n =? 160))%N.

Fixpoint lstrip_ws (s : string) : string :=
  match s with
  | String d r => if is_space d then lstrip_ws r else s
  | EmptyString => EmptyString
  end.

Fixpoint rstrip_ws (s : string) : string :=
  match s with
  | EmptyString => EmptyString
  | String c r =>
      match rstrip_ws r with
      | EmptyString => if is_space c then EmptyString else String c EmptyString
      | r' => String c r'
      end
  end.

(** [s.rstrip(c)] *)
Fixpoint rstrip (c : ascii) (s : string) : string :=
  match s with
  | EmptyString => EmptyString
  | String d r =>
      match rstrip c r with
      | EmptyString => if Ascii.eqb c d then EmptyString else String d EmptyString
      | r' => String d r'
      end
  end.

(** [s.strip()] *)
Definition strip (s : string) : string := rstrip_ws (lstrip_ws s).

(** Classes of characters. *)
Definition in_range (lo hi : N) (c : ascii) : bool := ((lo <=? N_of_ascii c) && (N_of_ascii c <=? hi))%N.
Definition is_lower : ascii -> bool := in_range 97 122.
Definition is_upper : ascii -> bool := in_range 65 90.
Definition is_digit : ascii -> bool := in_range 48 57.

(** The longest prefix of characters in a class, and the rest. *)
Fixpoint span (p : ascii -> bool) (s : string) : string * string :=
  match s with
  | String c r => if p c then let '(w, r') := span p r in (String c w, r') else (EmptyString, s)
  | EmptyString => (EmptyString, EmptyString)
  end.

(** [s.split(c)]: never empty. *)
Fixpoint split_on (c : ascii) (s : string) : list string :=
  match s with
  | EmptyString => [EmptyString]
  | String d r =>
      if Ascii.eqb c d then EmptyString :: split_on c r
      else match split_on c r with
           | w :: ws => String d w :: ws
           | [] => [String d EmptyString]
           end
  end.

(** [sep.join(l)] *)
Fixpoint join (sep : string) (l : list string) : string :=
  match l with
  | [] => EmptyString
  | [w] => w
  | w :: ws => (w ++ sep ++ join sep ws)%string
  end.

(** [s.replace(old, new, count)] for non-empty [old]: leftmost, non-overlapping
    occurrences; [skip] characters of the match in progress are dropped. *)
Fixpoint replace_aux (old new : string) (count skip : nat) (s : string) : string :=
  match s with
  | EmptyString => EmptyString
  | String c r =>
      match skip with
      | S k => replace_aux old new count k r
      | O =>
          match count with
          | O => s
          | S count' =>
              if String.prefix old s
              then (new ++ replace_aux old new count' (String.length old - 1) r)%string
              else String c (replace_aux old new count 0 r)
          end
      end
  end.

Definition str_replace_n (old new : string) (count : nat) (s : string) : string :=
  replace_aux old new count 0 s.
(** [s.replace(old, new)]: there are at most [len(s)] occurrences. *)
Definition str_replace (old new s : string) : string :=
  replace_aux old new (String.length s) 0 s.

Lemma split_on_nonempty c s : split_on c s ≠ [].
Proof. destruct s; simpl; [done|]. destruct (Ascii.eqb c a); [done|]. by destruct (split_on c s). Qed.

Lemma join_split_on c s : join (String c EmptyString) (split_on c s) = s.
Proof.
  induction s as [|d s IH]; simpl; [done|].
  destruct (Ascii.eqb_spec c d) as [->|Hne].
  - pose proof (split_on_nonempty d s). destruct (split_on d s) eqn:E; [done|]. simpl in *. by rewrite IH.
  - pose proof (split_on_nonempty c s). destruct (split_on c s) as [|w ws] eqn:E; [done|].
    simpl in *. destruct ws; simpl in *; congruence.
Qed.

Lemma span_stop p w c r : str_forall p w = true -> p c = false -> span p (w ++ String c r)%string = (w, String c r).
Proof.
  intros Hw Hc. induction w as [|d w IH]; cbn [String.append span str_forall] in *; [by rewrite Hc|].
  apply andb_true_iff in Hw as [Hd Hw]. by rewrite Hd, IH.
Qed.

Lemma span_forall p s : str_forall p (span p s).1 = true.
Proof. induction s as [|c s IH]; [done|]. cbn [span]. destruct (p c) eqn:E1; [|done]. destruct (span p s). cbn in *. by rewrite E1. Qed.

Lemma span_all p w : str_forall p w = true -> span p w = (w, "").
Proof.
  induction w as [|c w IH]; [done|]. cbn [str_forall span]. intros [Hc Hw]%andb_true_iff. by rewrite Hc, IH.
Qed.

Lemma replace_aux_zero old new skip s :
  replace_aux old new 0 skip s = str_drop skip s.
Proof. revert skip; induction s as [|c s IH]; intros [|k]; simpl; auto. Qed.

Lemma replace_aux_none old new s : replace_aux old new 0 0 s = s.
Proof. by destruct s. Qed.

(** A position where [old] does not start is copied. *)
Lemma replace_aux_step old new count c s :
  String.prefix old (String c s) = false ->
  replace_aux old new count 0 (String c s) = String c (replace_aux old new count 0 s).
Proof. intros H. destruct count; [by rewrite !replace_aux_none|]. cbn [replace_aux]. by rewrite H. Qed.

(** So is text without the first character of [old]. *)
Lemma replace_aux_skip_char c old new count w s :
  str_forall (fun d => negb (Ascii.eqb c d)) w = true ->
  replace_aux (String c old) new count 0 (w ++ s)%string = (w ++ replace_aux (String c old) new count 0 s)%string.
Proof.
  intros Hw. induction w as [|d w IH]; [done|]. cbn [append str_forall] in *.
  apply andb_true_iff in Hw as [Hd Hw]. rewrite replace_aux_step; [by rewrite IH|].
  rewrite str_prefix_cons. apply negb_true_iff in Hd. by rewrite Hd.
Qed.

Lemma replace_aux_skip old new count w s :
  replace_aux old new count (String.length w) (w ++ s)%string = replace_aux old new count 0 s.
Proof. induction w as [|c w IH]; [done|]. cbn. apply IH. Qed.

(** An occurrence is replaced and the search goes on behind it. *)
Lemma replace_aux_match old new count s :
  old ≠ EmptyString ->
  replace_aux old new (S count) 0 (old ++ s)%string = (new ++ replace_aux old new count 0 s)%string.
Proof.
  intros Hne. destruct old as [|c old]; [done|]. pose proof (startswith_app (String c old) s) as Hp.
  unfold startswith in Hp. cbn [append replace_aux] in *. rewrite Hp. f_equal.
  cbn [String.length]. rewrite Nat.sub_succ, Nat.sub_0_r. apply replace_aux_skip.
Qed.

(** Replacing the first occurrence of a leading [old]. *)
Lemma str_replace_1_prefix old new s :
  old ≠ EmptyString -> str_replace_n old new 1 (old ++ s)%string = (new ++ s)%string.
Proof.
  intros Hne. destruct old as [|c old]; [done|]. unfold str_replace_n. cbn [replace_aux append].
  pose proof (startswith_app (String c old) s) as Hp. unfold startswith in Hp. cbn [append] in Hp.
  rewrite Hp, replace_aux_zero. simpl. by rewrite Nat.sub_0_r, str_drop_app.
Qed.

(** ** Numbers and bytes *)

(** Splitting takes a join of words without the separator apart. *)
Lemma split_on_join c ws : ws ≠ [] -> Forall (fun w => str_forall (fun d => negb (Ascii.eqb c d)) w = true) ws ->
  split_on c (join (String c EmptyString) ws) = ws.
Proof.
  assert (Hone : forall w, str_forall (fun d => negb (Ascii.eqb c d)) w = true -> split_on c w = [w]).
  { intros w. induction w as [|d w IH]; [done|]. cbn. intros [H1%negb_true_iff H2]%andb_true_iff. by rewrite H1, (IH H2). }
  assert (Happ : forall w r, str_forall (fun d => negb (Ascii.eqb c d)) w = true ->
    split_on c (w ++ String c r)%string = w :: split_on c r).
  { intros w r. induction w as [|d w IH]; cbn; [by rewrite Ascii.eqb_refl|].
    intros [H1%negb_true_iff H2]%andb_true_iff. by rewrite H1, (IH H2). }
  intros Hne H. induction H as [|w ws Hw _ IH]; [done|]. destruct ws as [|w' ws]; [by apply Hone|].
  change (join (String c "") (w :: w' :: ws)) with (w ++ String c (join (String c "") (w' :: ws)))%string.
  by rewrite Happ, IH.
Qed.

(** What follows a join belongs to its last word. *)
Lemma join_snoc sep ws w x : (join sep (ws ++ [w])%list ++ x)%string = join sep (ws ++ [w ++ x]%string)%list.
Proof.
  induction ws as [|w' ws IH]; [done|]. cbn [app join].
  destruct ((ws ++ [w])%list) as [|y l] eqn:E; [by destruct ws|].
  destruct ((ws ++ [(w ++ x)%string])%list) as [|y' l'] eqn:E'; [by destruct ws|].
  by rewrite !str_app_assoc, IH.
Qed.

Lemma join_end sep ws : ws ≠ [] -> (join sep ws ++ sep)%string = join sep (ws ++ [EmptyString])%list.
Proof.
  intros Hne. induction ws as [|w ws IH]; [done|]. destruct ws as [|w' ws]; [by cbn; rewrite str_app_nil_r|].
  change (join sep (w :: w' :: ws)) with (w ++ sep ++ join sep (w' :: ws))%string.
  change ((w :: w' :: ws) ++ [EmptyString])%list with (w :: w' :: (ws ++ [EmptyString]))%list.
  change (join sep (w :: w' :: (ws ++ [EmptyString])%list))
    with (w ++ sep ++ join sep (((w' :: ws) ++ [EmptyString])%list))%string.
  by rewrite <- IH, !str_app_assoc.
Qed.

(** *** Stripping *)

Lemma lstrip_suffix c s : exists a, s = (a ++ lstrip c s)%string.
Proof.
  induction s as [|d s [a IH]]; [by exists ""|]. cbn [lstrip]. destruct (Ascii.eqb c d); [|by exists ""].
  exists (String d a). by rewrite IH at 1.
Qed.

Lemma rstrip_prefix c s : exists b, s = (rstrip c s ++ b)%string.
Proof.
  induction s as [|d s [b IH]]; [by exists ""|]. cbn [rstrip].
  destruct (rstrip c s) as [|x r] eqn:E.
  - destruct (Ascii.eqb c d); [by exists (String d s)|]. exists s. done.
  - exists b. cbn. f_equal. exact IH.
Qed.

Lemma str_contains_infix p a s b : str_contains p s = true -> str_contains p (a ++ s ++ b) = true.
Proof.
  intros H. induction a as [|c a IH].
  - cbn [String.append]. revert H. induction s as [|c s IHs]; intros H.
    + destruct p; [|done]. by destruct b.
    + cbn [str_contains String.append] in *. apply orb_true_iff in H as [H|H]; [|by rewrite IHs, orb_true_r].
      apply orb_true_iff. left. change (startswith p (String c s) = true) in H. apply startswith_spec in H as [r E].
      change (startswith p (String c (s ++ b)) = true). apply startswith_spec. exists (r ++ b).
      by rewrite <- str_app_assoc, <- E.
  - cbn [str_contains String.append]. by rewrite IH, orb_true_r.
Qed.

Lemma str_contains_spec p s : str_contains p s = true -> exists a b, s = (a ++ p ++ b)%string.
Proof.
  induction s as [|c s IH]; cbn [str_contains]; intros H.
  - exists "", "". by destruct p.
  - apply orb_true_iff in H as [H|H].
    + change (startswith p (String c s) = true) in H. apply startswith_spec in H as [r ->]. by exists "", r.
    + destruct (IH H) as (a & b & ->). by exists (String c a), b.
Qed.

Lemma str_forall_strip p s : str_forall p s = true -> str_forall p (strip s) = true.
Proof.
  assert (Hl : forall s, str_forall p s = true -> str_forall p (lstrip_ws s) = true).
  { intros t. induction t as [|c t IH]; [done|]. cbn. intros [H1 H2]%andb_true_iff.
    destruct (is_space c); [by apply IH|]. cbn. by rewrite H1, H2. }
  assert (Hr : forall s, str_forall p s = true -> str_forall p (rstrip_ws s) = true).
  { intros t. induction t as [|c t IH]; [done|]. cbn. intros [H1 H2]%andb_true_iff. specialize (IH H2).
    destruct (rstrip_ws t); [by destruct (is_space c); cbn; rewrite ?H1|]. cbn in *. by rewrite H1. }
  intros H. by apply Hr, Hl.
Qed.

Lemma strip_id s : str_forall (fun c => negb (is_space c)) s = true -> strip s = s.
Proof.
  intros H. unfold strip. assert (lstrip_ws s = s) as ->.
  { destruct s as [|c s]; [done|]. cbn in *. apply andb_true_iff in H as [H%negb_true_iff _]. by rewrite H. }
  induction s as [|c s IH]; [done|]. cbn in *. apply andb_true_iff in H as [H1%negb_true_iff H2].
  rewrite (IH H2). destruct s; [by rewrite H1|done].
Qed.

Lemma str_forall_map p f s : str_forall p (str_map f s) = str_forall (fun c => p (f c)) s.
Proof. induction s as [|c s IH]; [done|]. cbn. by rewrite IH. Qed.

Lemma str_forall_impl (p q : ascii -> bool) s :
  (forall c, p c = true -> q c = true) -> str_forall p s = true -> str_forall q s = true.
Proof.
  intros H. induction s as [|c s IH]; [done|]. cbn. intros [H1 H2]%andb_true_iff. by rewrite (H c H1), (IH H2).
Qed.

Lemma str_map_id f s : str_forall (fun c => Ascii.eqb (f c) c) s = true -> str_map f s = s.
Proof. induction s as [|c s IH]; [done|]. cbn. intros [H1%Ascii.eqb_eq H2]%andb_true_iff. by rewrite H1, (IH H2). Qed.

Definition digit_value (c : ascii) : option Z :=
  let n := nat_of_ascii c in
  if (48 <=? n)%nat && (n <=? 57)%nat then Some (Z.of_nat (n - 48)) else None.

(** Digits, with single underscores between them. *)
Fixpoint digits_value (s : string) (acc : Z) (after_digit : bool) : option Z :=
  match s with
  | EmptyString => if after_digit then Some acc else None
  | String c r =>
      match digit_value c with
      | Some d => digits_value r (10 * acc + d)%Z true
      | None => if Ascii.eqb c "_" && after_digit then digits_value r acc false else None
      end
  end.

(** [int(s)]; [None] is the [ValueError]. *)
Definition py_int (s : string) : option Z :=
  match strip s with
  | String "+" r => digits_value r 0 false
  | String "-" r => Z.opp <$> digits_value r 0 false
  | s => digits_value s 0 false
  end.

(** [s.encode("ascii")]; [None] is the [UnicodeEncodeError]. *)
Fixpoint encode_ascii (s : string) : option (list Z) :=
  match s with
  | EmptyString => Some []
  | String c r =>
      let n := nat_of_ascii c in
      if (n <? 128)%nat then (fun l => Z.of_nat n :: l) <$> encode_ascii r else None
  end.

(** The string of a list of byte values. *)
Fixpoint of_bytes (l : list Z) : string :=
  match l with
  | [] => EmptyString
  | b :: l => String (ascii_of_nat (Z.to_nat b)) (of_bytes l)
  end.

(** [b.decode("ascii", errors="ignore")] *)
Definition decode_ascii_ignore (l : list Z) : string := of_bytes (List.filter (fun b => b <? 128)%Z l).

(** [b.decode("ascii")]; [None] is the [UnicodeDecodeError]. *)
Definition decode_ascii (l : list Z) : option string :=
  if forallb (fun b => b <? 128)%Z l then Some (of_bytes l) else None.

Lemma encode_ascii_length s l : encode_ascii s = Some l -> List.length l = String.length s.
Proof.
  revert l; induction s as [|c s IH]; intros l; cbn -[nat_of_ascii Nat.ltb]; [by intros [= <-]|].
  destruct (Nat.ltb _ _); [|done]. destruct (encode_ascii s) as [l'|]; [|done].
  intros [= <-]. cbn. by rewrite IH.
Qed.

Lemma encode_ascii_bytes s l : encode_ascii s = Some l -> Forall (fun b => 0 <= b < 128)%Z l.
Proof.
  revert l; induction s as [|c s IH]; intros l; cbn -[nat_of_ascii Nat.ltb]; [by intros [= <-]|].
  destruct (Nat.ltb_spec (nat_of_ascii c) 128); [|done]. destruct (encode_ascii s) as [l'|]; [|done].
  intros [= <-]. constructor; [lia|auto].
Qed.

Lemma of_bytes_encode s l : encode_ascii s = Some l -> of_bytes l = s.
Proof.
  revert l; induction s as [|c s IH]; intros l; cbn -[nat_of_ascii Nat.ltb]; [by intros [= <-]|].
  destruct (Nat.ltb _ _); [|done]. destruct (encode_ascii s) as [l'|]; [|done].
  intros [= <-]. cbn -[nat_of_ascii]. rewrite Nat2Z.id, ascii_nat_embedding. by rewrite (IH l').
Qed.

Lemma decode_encode_ascii s l : encode_ascii s = Some l -> decode_ascii l = Some s.
Proof.
  intros He. unfold decode_ascii. rewrite (of_bytes_encode s l He).
  replace (forallb _ l) with true; [done|]. symmetry. apply forallb_forall.
  intros b Hb%list_elem_of_In. apply encode_ascii_bytes in He.
  rewrite Forall_forall in He. apply Z.ltb_lt. by apply He.
Qed.

(** The characters of a printed integer. *)
Lemma pretty_N_go_forall p x s :
  (forall n, p (pretty_N_char n) = true) -> str_forall p s = true -> str_forall p (pretty_N_go x s) = true.
Proof.
  intros Hp. revert s. induction (N.lt_wf_0 x) as [x _ IH]; intros s Hs.
  destruct (decide (x = 0)%N) as [->|Hx]; [done|]. rewrite pretty_N_go_step by lia.
  apply IH; [apply N.div_lt; lia|]. cbn. by rewrite Hp.
Qed.

Lemma pretty_Z_forall p (z : Z) :
  (forall n, p (pretty_N_char n) = true) -> p "-"%char = true -> str_forall p (pretty z) = true.
Proof.
  intros Hp Hm. destruct z as [|q|q].
  - change (p "0"%char && true = true). rewrite andb_true_r. exact (Hp 0%N).
  - change (pretty (Zpos q)) with (pretty_N_go (Npos q) ""). by apply pretty_N_go_forall.
  - change (pretty (Zneg q)) with (String "-" (pretty_N_go (Npos q) "")). cbn.
    rewrite Hm. by apply pretty_N_go_forall.
Qed.

(** ** Reading printed integers *)

Lemma digit_value_pretty n : (n < 10)%N -> digit_value (pretty_N_char n) = Some (Z.of_N n).
Proof.
  intros Hn. assert (Forall (fun k => digit_value (pretty_N_char (N.of_nat k)) = Some (Z.of_nat k)) (seq 0 10)) as Hall
    by by repeat constructor.
  rewrite Forall_forall in Hall. specialize (Hall (N.to_nat n)). rewrite N2Nat.id, N_nat_Z in Hall.
  apply Hall, elem_of_seq. lia.
Qed.

Lemma digits_value_pretty_go x s : forall acc b, exists k,
  digits_value (pretty_N_go x s) acc b = digits_value s (acc * k + Z.of_N x)%Z (b || (0 <? x)%N).
Proof.
  revert s. induction (N.lt_wf_0 x) as [x _ IH]. intros s acc b.
  destruct (decide (x = 0)%N) as [->|Hx].
  { exists 1%Z. change (pretty_N_go 0 s) with s. rewrite orb_false_r. f_equal. lia. }
  rewrite pretty_N_go_step by lia.
  destruct (IH (x `div` 10)%N) with (s := String (pretty_N_char (x `mod` 10)) s) (acc := acc) (b := b) as [k Hk];
    [apply N.div_lt; lia|].
  exists (10 * k)%Z. rewrite Hk. cbn [digits_value]. rewrite digit_value_pretty by (apply N.mod_lt; lia).
  rewrite (proj2 (N.ltb_lt 0 x)), orb_true_r by lia. f_equal.
  pose proof (N.div_mod x 10 ltac:(lia)). lia.
Qed.

(** The digits of a printed natural, read as [int] reads them. *)
Lemma digits_value_pretty z : (0 <= z)%Z -> digits_value (pretty z) 0 false = Some z.
Proof.
  destruct z as [|p|p]; [done| |lia]. intros _. change (pretty (Zpos p)) with (pretty_N_go (Npos p) "").
  by destruct (digits_value_pretty_go (Npos p) "" 0 false) as [k ->].
Qed.

(** [int(str(z))] *)
Lemma py_int_pretty z : (0 <= z)%Z -> py_int (pretty z) = Some z.
Proof.
  intros Hz. pose proof (digits_value_pretty z Hz) as H. unfold py_int. rewrite strip_id.
  - destruct (pretty z) as [|[[] [] [] [] [] [] [] []] r]; done.
  - apply pretty_Z_forall; [|done]. intros n. unfold pretty_N_char. by repeat case_match.
Qed.

(** ** The order of strings *)

Lemma str_compare_refl x : String.compare x x = Eq.
Proof. induction x as [|c x IH]; [done|]. cbn. unfold Ascii.compare. by rewrite N.compare_refl. Qed.

Lemma str_compare_app x x' y y' : String.length x = String.length x' ->
  String.compare (x ++ y) (x' ++ y') = match String.compare x x' with Eq => String.compare y y' | o => o end.
Proof.
  revert x'. induction x as [|c x IH]; intros [|c' x']; cbn; try done. intros [= Hl].
  destruct (Ascii.compare c c'); [by apply IH|done|done].
Qed.

Lemma str_compare_lt_trans x y z :
  String.compare x y = Lt -> String.compare y z = Lt -> String.compare x z = Lt.
Proof.
  revert y z. induction x as [|a x IH]; intros [|b y] [|c z]; cbn; try done.
  unfold Ascii.compare.
  destruct (N.compare_spec (N_of_ascii a) (N_of_ascii b)) as [E|E|E]; [|intros _|done];
    (destruct (N.compare_spec (N_of_ascii b) (N_of_ascii c)) as [E'|E'|E']; [..|done]).
  - rewrite E, E', N.compare_refl. apply IH.
  - intros _ _. by rewrite (proj2 (N.compare_lt_iff _ _)) by lia.
  - intros _. by rewrite (proj2 (N.compare_lt_iff _ _)) by lia.
  - intros _. by rewrite (proj2 (N.compare_lt_iff _ _)) by lia.
Qed.

Lemma str_leb_spec x y : String.leb x y = true <-> x = y \/ String.compare x y = Lt.
Proof.
  unfold String.leb. destruct (String.compare x y) eqn:E.
  - apply String.compare_eq_iff in E as ->. split; [by left|done].
  - split; [by right|done].
  - split; [done|]. intros [->|]; [by rewrite str_compare_refl in E|done].
Qed.

Lemma str_leb_trans x y z : String.leb x y = true -> String.leb y z = true -> String.leb x z = true.
Proof.
  rewrite !str_leb_spec. intros [->|H1]; [done|]. intros [<-|H2]; [by right|]. right. by eapply str_compare_lt_trans.
Qed.

Lemma str_leb_false x y : String.leb x y = false -> String.compare y x = Lt.
Proof.
  unfold String.leb. rewrite String.compare_antisym. by destruct (String.compare y x).
Qed.
