(* ===== verification/Bytes.v ===== *)
(** * Byte buffers

    Python's [bytes] and [bytearray] as lists of byte values: slices, slice
    assignment, big-endian 16-bit fields ([struct]'s ["!H"]). *)
From S2P Require Import Prelude.
From stdpp Require Import base tactics list.
From Stdlib Require Import ZArith Lia.

(** [l[a:b]] *)
Definition slice {A} (a b : nat) (l : list A) : list A := take (b - a) (drop a l).

(** [l[a:b] = v]: the slice is replaced, so a [v] of another length moves what follows. *)
Definition set_slice {A} (a b : nat) (v l : list A) : list A :=
  take a l ++ v ++ drop (Nat.max a b) l.

(** [struct.pack("!H", n)]; [None] is the [struct.error] of a number out of range. *)
Definition pack_be16 (n : Z) : option (list Z) :=
  if (0 <=? n)%Z && (n <? 65536)%Z then Some [Z.shiftr n 8; Z.land n 255] else None.

(** [struct.unpack("!H", b)[0]]; [None] unless there are two bytes. *)
Definition unpack_be16 (b : list Z) : option Z :=
  match b with
  | [h; l] => Some (Z.lor (Z.shiftl h 8) l)
  | _ => None
  end.

Definition is_byte (b : Z) : Prop := (0 <= b < 256)%Z.

Lemma pack_be16_Some n : (0 <= n < 65536)%Z -> pack_be16 n = Some [(n / 256)%Z; (n mod 256)%Z].
Proof.
  intros Hn. unfold pack_be16. rewrite (proj2 (Z.leb_le _ _)), (proj2 (Z.ltb_lt _ _)) by lia. cbn [andb].
  rewrite Z.shiftr_div_pow2 by lia. change 255%Z with (Z.ones 8). by rewrite Z.land_ones by lia.
Qed.

Lemma unpack_be16_bytes h l : (0 <= h)%Z -> is_byte l -> unpack_be16 [h; l] = Some (h * 256 + l)%Z.
Proof.
  intros Hh [Hl1 Hl2]. cbn [unpack_be16]. f_equal. rewrite Z.shiftl_mul_pow2 by lia.
  assert (Hand : Z.land (h * 2 ^ 8) l = 0%Z).
  { apply Z.bits_inj'. intros n Hn. rewrite Z.land_spec, Z.bits_0.
    destruct (Z.ltb_spec n 8).
    - by rewrite Z.mul_pow2_bits_low.
    - rewrite (Z.bits_above_log2 l n), andb_false_r; try done.
      destruct (decide (l = 0%Z)) as [->|]; [cbn; lia|].
      assert (Z.log2 l < 8)%Z; [|lia]. apply Z.log2_lt_pow2; lia. }
  pose proof (Z.add_lor_land (h * 2 ^ 8) l). lia.
Qed.

(** The two are inverse on 16-bit numbers. *)
Lemma unpack_pack_be16 n :
  (0 <= n < 65536)%Z -> exists b, pack_be16 n = Some b /\ length b = 2%nat /\ unpack_be16 b = Some n.
Proof.
  intros Hn. rewrite pack_be16_Some by done. eexists. split; [done|]. split; [done|].
  rewrite unpack_be16_bytes.
  - f_equal. pose proof (Z.div_mod n 256). lia.
  - apply Z.div_pos; lia.
  - apply Z.mod_pos_bound. lia.
Qed.

Section Slices.
Context {A : Type}.
Implicit Types (l v p q : list A) (a b c d n : nat).

Lemma length_slice a b l : (b <= length l)%nat -> length (slice a b l) = (b - a)%nat.
Proof. intros H. unfold slice. rewrite length_take, length_drop. lia. Qed.

Lemma length_set_slice a b v l :
  (a <= b)%nat -> (b <= length l)%nat -> length v = (b - a)%nat -> length (set_slice a b v l) = length l.
Proof.
  intros Ha Hb Hv. unfold set_slice. rewrite !length_app, length_take, length_drop. lia.
Qed.

Lemma slice_app_l a b p q : (b <= length p)%nat -> slice a b (p ++ q) = slice a b p.
Proof.
  intros Hb. unfold slice. destruct (Nat.le_gt_cases a (length p)).
  - rewrite drop_app_le by done. rewrite take_app_le; [done|]. rewrite length_drop. lia.
  - replace (b - a)%nat with 0%nat by lia. done.
Qed.

Lemma slice_take a b n l : (b <= n)%nat -> slice a b (take n l) = slice a b l.
Proof.
  intros Hb. unfold slice. rewrite skipn_firstn_comm, take_take. f_equal. lia.
Qed.

Lemma slice_set_slice_eq a b v l :
  (a <= length l)%nat -> length v = (b - a)%nat -> slice a b (set_slice a b v l) = v.
Proof.
  intros Ha Hv. unfold slice, set_slice.
  rewrite drop_app_length' by (rewrite length_take; lia). by apply take_app_length'.
Qed.

Lemma slice_set_slice_before a b c d v l :
  (d <= a)%nat -> (a <= length l)%nat -> slice c d (set_slice a b v l) = slice c d l.
Proof.
  intros Hd Ha. unfold set_slice. rewrite slice_app_l by (rewrite length_take; lia).
  by apply slice_take.
Qed.

Lemma slice_set_slice_after a b c d v l :
  (a <= b)%nat -> (b <= c)%nat -> (b <= length l)%nat -> length v = (b - a)%nat ->
  slice c d (set_slice a b v l) = slice c d l.
Proof.
  intros Hab Hbc Hb Hv. unfold slice, set_slice. f_equal.
  rewrite !drop_app, length_take, drop_drop, Hv.
  rewrite (drop_ge (take a l)) by (rewrite length_take; lia).
  rewrite (drop_ge v) by lia. cbn [app]. f_equal. lia.
Qed.

(** Writing at [a] fixes the bytes up to the end of what is written. *)
Lemma take_set_slice a n v l :
  (a <= length l)%nat -> n = (a + length v)%nat -> take n (set_slice a n v l) = take a l ++ v.
Proof.
  intros Ha ->. unfold set_slice. rewrite app_assoc, take_app_length'; [done|].
  rewrite length_app, length_take. lia.
Qed.
End Slices.

(** ** Splitting at a byte *)

(** [l.split(bytes([b]))] *)
Fixpoint split_byte (b : Z) (l : list Z) : list (list Z) :=
  match l with
  | [] => [[]]
  | x :: l =>
      if Z.eqb x b then [] :: split_byte b l
      else match split_byte b l with
           | [] => [[x]]
           | p :: ps => (x :: p) :: ps
           end
  end.

Lemma split_byte_app b p l : b ∉ p -> split_byte b (p ++ b :: l) = p :: split_byte b l.
Proof.
  induction p as [|x p IH]; cbn.
  - by rewrite Z.eqb_refl.
  - intros [Hx Hp]%not_elem_of_cons. rewrite (proj2 (Z.eqb_neq x b)) by congruence. by rewrite IH.
Qed.

Lemma split_byte_none b p : b ∉ p -> split_byte b p = [p].
Proof.
  induction p as [|x p IH]; cbn; [done|].
  intros [Hx Hp]%not_elem_of_cons. rewrite (proj2 (Z.eqb_neq x b)) by congruence. by rewrite IH.
Qed.
