(* ===== verification/SqlTable.v ===== *)
(** * SQL tables with a primary key

    A table is the list of its rows in rowid order.  The statements the agent
    issues to SQLite are [INSERT], [INSERT OR REPLACE], [SELECT .. WHERE],
    [UPDATE .. WHERE], [DELETE .. WHERE], [ORDER BY] and [COUNT]; each has one
    definition here, parameterised by the projection to the key column.
    [ORDER BY] is SQLite's stable sort of the scan.  The stores of the site
    agent (sync queue, state cache, conflicts) and of the controller's
    services are instances. *)
From S2P Require Import Prelude.
From stdpp Require Import base tactics list strings sorting.
From Stdlib Require Import ZArith Lia.

(** ** Statements *)

Section Statements.
Context {R : Type} (key : R -> string).

Definition has_key (k : string) (r : R) : bool := String.eqb (key r) k.

(** [SELECT * FROM t WHERE key = ?], [fetchone()] *)
Definition sql_find (k : string) (t : list R) : option R := List.find (has_key k) t.

(** [INSERT INTO t VALUES r]; [None] is the [IntegrityError] of a taken key. *)
Definition sql_insert (r : R) (t : list R) : option (list R) :=
  match sql_find (key r) t with
  | Some _ => None
  | None => Some (t ++ [r])
  end.

Definition sql_select (P : R -> bool) (t : list R) : list R := List.filter P t.
Definition sql_count (P : R -> bool) (t : list R) : Z := Z.of_nat (length (sql_select P t)).

(** [DELETE FROM t WHERE P]: the table left and [cursor.rowcount]. *)
Definition sql_delete (P : R -> bool) (t : list R) : list R * Z :=
  (List.filter (fun r => negb (P r)) t, sql_count P t).

(** [UPDATE t SET f WHERE P] *)
Definition sql_update (P : R -> bool) (f : R -> R) (t : list R) : list R * Z :=
  (map (fun r => if P r then f r else r) t, sql_count P t).

(** [INSERT OR REPLACE]: the old row of the key goes, the new one is last. *)
Definition sql_replace (r : R) (t : list R) : list R :=
  (sql_delete (has_key (key r)) t).1 ++ [r].

(** [ORDER BY k ASC], stable. *)
Fixpoint insert_by (k : R -> Z) (r : R) (t : list R) : list R :=
  match t with
  | [] => [r]
  | x :: t' => if (k r <=? k x)%Z then r :: x :: t' else x :: insert_by k r t'
  end.
Definition order_by (k : R -> Z) (t : list R) : list R := foldr (insert_by k) [] t.
(** [ORDER BY k DESC], stable. *)
Definition order_by_desc (k : R -> Z) (t : list R) : list R := order_by (fun r => (- k r)%Z) t.

(** The primary key constraint. *)
Definition keys_unique (t : list R) : Prop := NoDup (key <$> t).
End Statements.

(** ** Laws *)

Section Laws.
Context {R : Type} (key : R -> string).
Implicit Types (t : list R) (r : R) (P : R -> bool) (k : string).

Lemma has_key_true k r : has_key key k r = true <-> key r = k.
Proof. apply String.eqb_eq. Qed.
Lemma has_key_false k r : has_key key k r = false <-> key r ≠ k.
Proof. apply String.eqb_neq. Qed.

Lemma elem_of_sql_select P t r : r ∈ sql_select P t <-> r ∈ t /\ P r = true.
Proof. unfold sql_select. rewrite !list_elem_of_In. apply filter_In. Qed.

Lemma sql_find_Some_1 k t r : sql_find key k t = Some r -> r ∈ t /\ key r = k.
Proof.
  intros [H1 H2]%find_some. by rewrite list_elem_of_In, <- has_key_true.
Qed.

Lemma sql_find_None k t : sql_find key k t = None <-> k ∉ key <$> t.
Proof.
  unfold sql_find. split.
  - intros H [r [-> Hr]]%list_elem_of_fmap. rewrite list_elem_of_In in Hr.
    pose proof (find_none _ _ H r Hr) as Hn. by apply has_key_false in Hn.
  - intros H. destruct (List.find _ t) as [r|] eqn:E; [|done].
    apply sql_find_Some_1 in E as [Hr <-]. by destruct H; apply list_elem_of_fmap_2.
Qed.

Lemma sql_find_Some t k r :
  keys_unique key t -> r ∈ t -> key r = k -> sql_find key k t = Some r.
Proof.
  unfold keys_unique, sql_find. intros Hnd Hr <-.
  induction t as [|x t IH]; [by apply not_elem_of_nil in Hr|].
  cbn in *. apply NoDup_cons in Hnd as [Hx Hnd].
  destruct (has_key key (key r) x) eqn:E.
  - apply has_key_true in E. apply elem_of_cons in Hr as [->|Hr]; [done|].
    destruct Hx. rewrite E. by apply list_elem_of_fmap_2.
  - apply has_key_false in E. apply elem_of_cons in Hr as [->|Hr]; [done|]. auto.
Qed.

Lemma keys_unique_nil : keys_unique key [].
Proof. constructor. Qed.

Lemma keys_unique_sublist t t' : sublist t t' -> keys_unique key t' -> keys_unique key t.
Proof. unfold keys_unique. intros Hs Hnd. eapply sublist_NoDup; [exact Hnd|]. by apply fmap_sublist. Qed.

Lemma filter_sublist P t : sublist (List.filter P t) t.
Proof. induction t as [|x t IH]; simpl; [constructor|]. destruct (P x); by constructor. Qed.

Lemma keys_unique_select P t : keys_unique key t -> keys_unique key (sql_select P t).
Proof. apply keys_unique_sublist, filter_sublist. Qed.

Lemma keys_unique_delete P t : keys_unique key t -> keys_unique key (sql_delete P t).1.
Proof. apply keys_unique_sublist, filter_sublist. Qed.

Lemma keys_unique_insert r t t' :
  keys_unique key t -> sql_insert key r t = Some t' -> keys_unique key t'.
Proof.
  unfold sql_insert, keys_unique. intros Hnd H.
  destruct (sql_find key (key r) t) eqn:E; simplify_eq.
  apply sql_find_None in E. rewrite fmap_app, NoDup_app. repeat split; [done| |].
  - intros x Hx ->%list_elem_of_singleton. done.
  - apply NoDup_singleton.
Qed.

Lemma update_keys P f t :
  (forall r, key (f r) = key r) -> key <$> (sql_update P f t).1 = key <$> t.
Proof.
  intros Hf. unfold sql_update; cbn [fst]. induction t as [|x t IH]; [done|].
  cbn [map]. rewrite !fmap_cons, IH. destruct (P x); by rewrite ?Hf.
Qed.

Lemma keys_unique_update P f t :
  (forall r, key (f r) = key r) -> keys_unique key t -> keys_unique key (sql_update P f t).1.
Proof. unfold keys_unique. intros Hf. by rewrite update_keys. Qed.

Lemma keys_unique_replace r t : keys_unique key t -> keys_unique key (sql_replace key r t).
Proof.
  unfold sql_replace, keys_unique. intros Hnd.
  rewrite fmap_app, NoDup_app. repeat split.
  - by apply keys_unique_delete.
  - intros k [x [-> Hx]]%list_elem_of_fmap Heq%list_elem_of_singleton.
    rewrite list_elem_of_In in Hx. apply filter_In in Hx as [_ Hx].
    by rewrite (proj2 (has_key_true _ _) Heq) in Hx.
  - apply NoDup_singleton.
Qed.

Lemma sql_find_app k t1 t2 :
  sql_find key k (t1 ++ t2) = match sql_find key k t1 with Some r => Some r | None => sql_find key k t2 end.
Proof.
  unfold sql_find. induction t1 as [|x t1 IH]; simpl; [done|]. by destruct (has_key key k x).
Qed.

Lemma sql_find_delete_eq k t : sql_find key k (sql_delete (has_key key k) t).1 = None.
Proof.
  apply sql_find_None. intros [r [-> Hr]]%list_elem_of_fmap.
  rewrite list_elem_of_In in Hr. apply filter_In in Hr as [_ Hr].
  by rewrite (proj2 (has_key_true _ _) eq_refl) in Hr.
Qed.

(** Rows the condition spares are found as before. *)
Lemma sql_find_delete_ne k P t :
  (forall r, key r = k -> P r = false) -> sql_find key k (sql_delete P t).1 = sql_find key k t.
Proof.
  intros HP. unfold sql_find, sql_delete; simpl.
  induction t as [|x t IH]; simpl; [done|].
  destruct (P x) eqn:E; simpl.
  - destruct (has_key key k x) eqn:E2; [|done].
    apply has_key_true, HP in E2. congruence.
  - destruct (has_key key k x); [done | apply IH].
Qed.

Lemma sql_find_replace_eq r t : sql_find key (key r) (sql_replace key r t) = Some r.
Proof.
  unfold sql_replace. rewrite sql_find_app, sql_find_delete_eq. unfold sql_find; simpl.
  by rewrite (proj2 (has_key_true _ _) eq_refl).
Qed.

Lemma sql_find_replace_ne k r t :
  key r ≠ k -> sql_find key k (sql_replace key r t) = sql_find key k t.
Proof.
  intros Hne. unfold sql_replace. rewrite sql_find_app, sql_find_delete_ne.
  - destruct (sql_find key k t); [done|]. unfold sql_find; simpl.
    by rewrite (proj2 (has_key_false _ _) Hne).
  - intros x <-. by apply has_key_false.
Qed.

Lemma sql_find_update_on k P f t :
  (forall r, r ∈ t -> P r = true -> key (f r) = key r) ->
  sql_find key k (sql_update P f t).1 = (fun r => if P r then f r else r) <$> sql_find key k t.
Proof.
  intros Hf. unfold sql_find, sql_update; simpl.
  induction t as [|x t IH]; simpl; [done|].
  assert (has_key key k (if P x then f x else x) = has_key key k x) as ->.
  { unfold has_key. destruct (P x) eqn:E; [|done]. by rewrite Hf by (done || apply list_elem_of_here). }
  destruct (has_key key k x); [done|]. apply IH. intros r Hr. apply Hf. by right.
Qed.

Lemma sql_find_update k P f t :
  (forall r, key (f r) = key r) ->
  sql_find key k (sql_update P f t).1 = (fun r => if P r then f r else r) <$> sql_find key k t.
Proof. intros Hf. by apply sql_find_update_on. Qed.

(** With unique keys, [WHERE key = k] touches one row or none. *)
Lemma sql_count_key k t :
  keys_unique key t ->
  sql_count (has_key key k) t = match sql_find key k t with Some _ => 1%Z | None => 0%Z end.
Proof.
  unfold sql_count, sql_select, sql_find, keys_unique. induction t as [|x t IH]; [done|].
  cbn. intros [Hx Hnd]%NoDup_cons. specialize (IH Hnd).
  destruct (has_key key k x) eqn:E; [|done]. apply has_key_true in E as <-.
  apply sql_find_None in Hx. unfold sql_find in Hx. rewrite Hx in IH. cbn. lia.
Qed.

Lemma sql_delete_length P t :
  Z.of_nat (length (sql_delete P t).1) = (Z.of_nat (length t) - (sql_delete P t).2)%Z.
Proof.
  unfold sql_delete, sql_count, sql_select; simpl.
  induction t as [|x t IH]; simpl; [done|]. destruct (P x); simpl; lia.
Qed.

Lemma sql_count_delete P t : sql_count P (sql_delete P t).1 = 0%Z.
Proof.
  unfold sql_count, sql_select, sql_delete; simpl. induction t as [|x t IH]; simpl; [done|].
  destruct (P x) eqn:E; simpl; [done|]. by rewrite E.
Qed.

(** With unique keys, a row is found after a [DELETE] iff the condition spares it. *)
Lemma sql_find_delete P k t :
  keys_unique key t ->
  sql_find key k (sql_delete P t).1
  = match sql_find key k t with Some r => if P r then None else Some r | None => None end.
Proof.
  unfold keys_unique, sql_find, sql_delete; simpl. induction t as [|x t IH]; [done|].
  cbn. intros [Hx Hnd]%NoDup_cons. specialize (IH Hnd).
  destruct (has_key key k x) eqn:E.
  - destruct (P x); cbn; [|by rewrite E]. rewrite IH. apply has_key_true in E as <-.
    apply sql_find_None in Hx. unfold sql_find in Hx. by rewrite Hx.
  - destruct (P x); cbn; [done|]. by rewrite E.
Qed.

(** *** One-row statements *)

Lemma delete_absent k t : k ∉ key <$> t -> (sql_delete (has_key key k) t).1 = t.
Proof.
  intros H. cbn. induction t as [|x t IH]; [done|]. cbn in *. apply not_elem_of_cons in H as [H1 H2].
  rewrite (proj2 (has_key_false k x)) by congruence. cbn. by rewrite IH.
Qed.

Lemma update_absent k f t : k ∉ key <$> t -> (sql_update (has_key key k) f t).1 = t.
Proof.
  intros H. cbn. induction t as [|x t IH]; [done|]. cbn in *. apply not_elem_of_cons in H as [H1 H2].
  rewrite (proj2 (has_key_false k x)) by congruence. by rewrite IH.
Qed.

(** The sum of a weight over the rows. *)
Definition sql_sum (w : R -> nat) (t : list R) : nat := foldr (fun r acc => (w r + acc)%nat) 0%nat t.

Lemma sql_sum_delete_key w t r :
  keys_unique key t -> r ∈ t ->
  sql_sum w t = (w r + sql_sum w (sql_delete (has_key key (key r)) t).1)%nat.
Proof.
  unfold keys_unique. induction t as [|x t IH]; [by intros _ ?%not_elem_of_nil|].
  cbn [fmap list_fmap]. intros [Hx Hnd]%NoDup_cons Hr. cbn.
  apply elem_of_cons in Hr as [<-|Hr].
  - rewrite (proj2 (has_key_true _ r) eq_refl). cbn.
    pose proof (delete_absent (key r) t Hx) as Hd. cbn in Hd. by rewrite Hd.
  - rewrite (proj2 (has_key_false _ x)); [|intros He; apply Hx; rewrite He; by apply list_elem_of_fmap_2].
    specialize (IH Hnd Hr). unfold sql_sum, sql_delete in *. cbn in *. lia.
Qed.

Lemma sql_sum_update_key w f t r :
  keys_unique key t -> r ∈ t ->
  (sql_sum w (sql_update (has_key key (key r)) f t).1 + w r = sql_sum w t + w (f r))%nat.
Proof.
  unfold keys_unique. induction t as [|x t IH]; [by intros _ ?%not_elem_of_nil|].
  cbn [fmap list_fmap]. intros [Hx Hnd]%NoDup_cons Hr. cbn.
  apply elem_of_cons in Hr as [<-|Hr].
  - rewrite (proj2 (has_key_true _ r) eq_refl).
    pose proof (update_absent (key r) f t Hx) as Hd. cbn in Hd. rewrite Hd. lia.
  - rewrite (proj2 (has_key_false _ x)); [|intros He; apply Hx; rewrite He; by apply list_elem_of_fmap_2].
    specialize (IH Hnd Hr). unfold sql_sum, sql_update in *. cbn in *. lia.
Qed.

Lemma elem_of_delete P t x : x ∈ (sql_delete P t).1 <-> x ∈ t /\ P x = false.
Proof. cbn. rewrite !list_elem_of_In, filter_In, negb_true_iff. done. Qed.

Lemma elem_of_update P f t x :
  x ∈ (sql_update P f t).1 <-> exists y, y ∈ t /\ x = (if P y then f y else y).
Proof.
  cbn. rewrite list_elem_of_In, in_map_iff.
  split; intros (y & H1 & H2); exists y; [rewrite list_elem_of_In|rewrite <- list_elem_of_In]; auto.
Qed.

Lemma key_elem_inj t x y : keys_unique key t -> x ∈ t -> y ∈ t -> key x = key y -> x = y.
Proof.
  intros Hu Hx Hy He. pose proof (sql_find_Some t (key y) x Hu Hx He).
  pose proof (sql_find_Some t (key y) y Hu Hy eq_refl). congruence.
Qed.

Lemma sql_update_compose P f g t :
  (forall r, P (f r) = P r) ->
  (sql_update P g (sql_update P f t).1).1 = (sql_update P (fun r => g (f r)) t).1.
Proof.
  intros HP. cbn. rewrite map_map. apply map_ext. intros r. destruct (P r) eqn:E; by rewrite ?HP, E.
Qed.

Lemma sql_delete_update P f t :
  (forall r, P (f r) = P r) -> (sql_delete P (sql_update P f t).1).1 = (sql_delete P t).1.
Proof.
  intros HP. cbn. induction t as [|x t IH]; [done|]. cbn.
  destruct (P x) eqn:E; rewrite ?HP, E; cbn; by rewrite IH.
Qed.

(** An update by key changes one row in place. *)
Lemma update_key_split f t r : keys_unique key t -> r ∈ t ->
  exists l1 l2, t = (l1 ++ r :: l2)%list /\ (sql_update (has_key key (key r)) f t).1 = (l1 ++ f r :: l2)%list.
Proof.
  intros Hu (l1 & l2 & ->)%list_elem_of_split. exists l1, l2. split; [done|].
  unfold keys_unique in Hu. rewrite fmap_app, fmap_cons in Hu. apply NoDup_app in Hu as (_ & H1 & [H2 _]%NoDup_cons).
  assert (Hid : forall l, (key r ∉ key <$> l) -> map (fun x => if has_key key (key r) x then f x else x) l = l).
  { intros l Hl. rewrite <- (map_id l) at 2. apply map_ext_in. intros x Hx%list_elem_of_In.
    destruct (has_key key (key r) x) eqn:E; [|done]. apply has_key_true in E. destruct Hl. rewrite <- E.
    by apply list_elem_of_fmap_2. }
  cbn. rewrite map_app. cbn. rewrite (proj2 (has_key_true _ _) eq_refl), !Hid; [done|done|].
  intros Hin. apply (H1 (key r) Hin). apply list_elem_of_here.
Qed.

(** A deletion by key removes one row. *)
Lemma delete_key_split t r : keys_unique key t -> r ∈ t ->
  exists l1 l2, t = (l1 ++ r :: l2)%list /\ (sql_delete (has_key key (key r)) t).1 = (l1 ++ l2)%list.
Proof.
  intros Hu (l1 & l2 & ->)%list_elem_of_split. exists l1, l2. split; [done|].
  unfold keys_unique in Hu. rewrite fmap_app, fmap_cons in Hu. apply NoDup_app in Hu as (_ & H1 & [H2 _]%NoDup_cons).
  pose proof (delete_absent (key r) l1) as D1. pose proof (delete_absent (key r) l2) as D2. cbn in *.
  rewrite List.filter_app. cbn. rewrite (proj2 (has_key_true _ _) eq_refl). cbn. rewrite D1, D2; [done|done|].
  intros Hin. apply (H1 _ Hin). apply list_elem_of_here.
Qed.

(** A key selects one row. *)
Lemma select_key t x : keys_unique key t -> x ∈ t -> sql_select (has_key key (key x)) t = [x].
Proof.
  intros Hk Hx. pose proof (sql_count_key (key x) t Hk) as Hc. rewrite (sql_find_Some t _ x Hk Hx eq_refl) in Hc. unfold sql_count in Hc.
  assert (x ∈ sql_select (has_key key (key x)) t) as Hin by (apply elem_of_sql_select; by rewrite has_key_true).
  destruct (sql_select _ _) as [|y [|z l]]; cbn in Hc; [by apply not_elem_of_nil in Hin| |lia].
  by apply list_elem_of_singleton in Hin as ->.
Qed.

(** *** Ordering *)

Lemma insert_by_perm (kf : R -> Z) r t : insert_by kf r t ≡ₚ r :: t.
Proof.
  induction t as [|x t IH]; simpl; [done|].
  destruct (Z.leb _ _); [done|]. rewrite IH. constructor.
Qed.

Lemma order_by_perm (kf : R -> Z) t : order_by kf t ≡ₚ t.
Proof.
  unfold order_by. induction t as [|x t IH]; simpl; [done|]. by rewrite insert_by_perm, IH.
Qed.

Definition ordered (kf : R -> Z) (t : list R) : Prop :=
  StronglySorted (fun x y => (kf x <= kf y)%Z) t.

Lemma insert_by_ordered (kf : R -> Z) r t : ordered kf t -> ordered kf (insert_by kf r t).
Proof.
  unfold ordered. induction 1 as [|x t Ht IH Hx]; simpl; [by repeat constructor|].
  destruct (Z.leb_spec (kf r) (kf x)).
  - constructor; [by constructor|]. constructor; [done|].
    eapply Forall_impl; [exact Hx|]. simpl; lia.
  - constructor; [done|]. rewrite insert_by_perm. constructor; [lia|done].
Qed.

Lemma order_by_ordered (kf : R -> Z) t : ordered kf (order_by kf t).
Proof.
  unfold order_by. induction t as [|x t IH]; simpl; [constructor|]. by apply insert_by_ordered.
Qed.

(** A table that is in order stays as it is. *)
Lemma order_by_id (kf : R -> Z) t : ordered kf t -> order_by kf t = t.
Proof.
  unfold order_by. induction 1 as [|x t Ht IH Hx]; cbn; [done|]. rewrite IH.
  destruct t as [|y t]; [done|]. cbn. inversion Hx; subst. by rewrite (proj2 (Z.leb_le _ _)).
Qed.

(** Stability: rows with one sort key keep their scan order. *)
Lemma insert_by_stable (kf : R -> Z) r t v :
  List.filter (fun x => Z.eqb (kf x) v) (insert_by kf r t)
  = List.filter (fun x => Z.eqb (kf x) v) (r :: t).
Proof.
  induction t as [|x t IH]; simpl; [done|].
  destruct (Z.leb_spec (kf r) (kf x)); [done|]. simpl in *. rewrite IH.
  destruct (Z.eqb_spec (kf r) v), (Z.eqb_spec (kf x) v); try done. lia.
Qed.

Lemma order_by_stable (kf : R -> Z) t v :
  List.filter (fun x => Z.eqb (kf x) v) (order_by kf t)
  = List.filter (fun x => Z.eqb (kf x) v) t.
Proof.
  unfold order_by. induction t as [|x t IH]; [done|].
  cbn [foldr]. rewrite insert_by_stable. simpl. by rewrite IH.
Qed.

Lemma keys_unique_perm t t' : t ≡ₚ t' -> keys_unique key t -> keys_unique key t'.
Proof. unfold keys_unique. by intros ->. Qed.

Lemma order_by_nil_inv (kf : R -> Z) t : order_by kf t = [] -> t = [].
Proof. intros H. apply Permutation_nil. by rewrite <- H, order_by_perm. Qed.
End Laws.

(** ** Selections after a statement *)

Lemma select_app {R} (Q : R -> bool) l1 l2 : sql_select Q (l1 ++ l2)%list = (sql_select Q l1 ++ sql_select Q l2)%list.
Proof. unfold sql_select. induction l1 as [|x l1 IH]; cbn; [done|]. rewrite IH. by destruct (Q x). Qed.

Lemma select_sublist {R} (Q : R -> bool) l1 l2 : sublist l1 l2 -> sublist (sql_select Q l1) (sql_select Q l2).
Proof.
  unfold sql_select. induction 1 as [|x l1 l2 H IH|x l1 l2 H IH]; cbn; [constructor|..]; destruct (Q x);
    solve [done|by constructor].
Qed.

(** What an update that makes rows fail [Q] leaves of a selection. *)
Lemma select_update_sublist {R} (Q S : R -> bool) (f : R -> R) t :
  (forall r, S r = true -> Q (f r) = false) -> sublist (sql_select Q (sql_update S f t).1) (sql_select Q t).
Proof.
  intros Hf. unfold sql_select, sql_update. induction t as [|r t IH]; cbn in *; [constructor|].
  destruct (S r) eqn:Es; cbn.
  - rewrite (Hf r Es). destruct (Q r); [by constructor|done].
  - destruct (Q r); [by constructor|done].
Qed.

Lemma select_delete_sublist {R} (Q S : R -> bool) t : sublist (sql_select Q (sql_delete S t).1) (sql_select Q t).
Proof.
  unfold sql_select, sql_delete. induction t as [|r t IH]; cbn in *; [constructor|].
  destruct (S r); cbn; destruct (Q r); solve [done|by constructor].
Qed.

Lemma select_update_map {R} (Q : R -> bool) (f : R -> R) t :
  (forall r, Q (f r) = Q r) -> sql_select Q (sql_update Q f t).1 = map f (sql_select Q t).
Proof.
  intros Hf. unfold sql_select, sql_update. cbn. induction t as [|r t IH]; [done|]. cbn.
  destruct (Q r) eqn:E; rewrite ?Hf, E; cbn; by rewrite IH.
Qed.

Lemma select_update_other {R} (Q S : R -> bool) (f : R -> R) t :
  (forall r, S r = true -> Q (f r) = Q r) -> (forall r, S r = true -> Q r = false) ->
  sql_select Q (sql_update S f t).1 = sql_select Q t.
Proof.
  intros H1 H2. unfold sql_select, sql_update. cbn. induction t as [|r t IH]; [done|]. cbn.
  destruct (S r) eqn:E; rewrite ?(H1 r E), ?(H2 r E), IH; done.
Qed.

Lemma update_row_keys {R} (key : R -> string) (r r' : R) (t : list R) : key r' = key r ->
  key <$> (sql_update (has_key key (key r)) (fun _ => r') t).1 = key <$> t.
Proof.
  intros Hr. cbn. induction t as [|x t IH]; [done|]. cbn. rewrite IH. f_equal.
  destruct (has_key key (key r) x) eqn:E; [|done]. apply has_key_true in E. congruence.
Qed.

(** Replacing a row by one of the same key and a new value of another column. *)
Lemma unique_update {R} (key col : R -> string) (r r' : R) (t : list R) :
  keys_unique key t -> keys_unique col t -> r ∈ t -> key r' = key r ->
  existsb (fun x => negb (has_key key (key r) x) && has_key col (col r') x) t = false ->
  keys_unique col (sql_update (has_key key (key r)) (fun _ => r') t).1.
Proof.
  intros Hk Hc Hin Hr' Hex. destruct (update_key_split key (fun _ => r') t r Hk Hin) as (l1 & l2 & -> & ->).
  assert (forall x, x ∈ (l1 ++ l2)%list -> col x ≠ col r') as Hnew.
  { intros x Hx Heq. apply not_true_iff_false in Hex. apply Hex, existsb_exists. exists x.
    unfold keys_unique in Hk. rewrite fmap_app, fmap_cons, NoDup_app in Hk. destruct Hk as (_ & H1 & [H2 _]%NoDup_cons).
    split; [apply list_elem_of_In; rewrite elem_of_app, elem_of_cons in *; tauto|].
    apply andb_true_iff. split; [|by apply has_key_true]. apply negb_true_iff, has_key_false. intros Hkx.
    apply elem_of_app in Hx as [Hx|Hx].
    - apply (H1 (key r)); [rewrite <- Hkx; by apply list_elem_of_fmap_2|by left].
    - apply H2. rewrite <- Hkx. by apply list_elem_of_fmap_2. }
  unfold keys_unique in *. rewrite fmap_app, fmap_cons, NoDup_app, NoDup_cons in *.
  destruct Hc as (H1 & H2 & H3 & H4). split; [done|]. split.
  - intros x Hx [->|Hx2]%elem_of_cons; [|apply (H2 x Hx); by right].
    apply list_elem_of_fmap in Hx as (y & Hy & Hin'). apply (Hnew y); [apply elem_of_app; by left|done].
  - split; [|done]. intros (y & Hy & Hin')%list_elem_of_fmap. apply (Hnew y); [apply elem_of_app; by right|done].
Qed.

(** The row keeps the value or gets one that nobody else has. *)
Lemma unique_or_free {R} (key col : R -> string) (r r' : R) (t : list R) : keys_unique key t -> keys_unique col t -> r ∈ t -> key r' = key r ->
  (col r' = col r \/ forall x, x ∈ t -> key x ≠ key r -> col x ≠ col r') ->
  keys_unique col (sql_update (has_key key (key r')) (fun _ => r') t).1.
Proof.
  intros Hk Hc Hr Er H. rewrite Er. apply unique_update; [done..|]. apply not_true_iff_false. intros Hex.
  apply existsb_exists in Hex as (x & Hx%list_elem_of_In & [Hne%negb_true_iff%has_key_false Hx2%has_key_true]%andb_true_iff).
  destruct H as [E|H]; [|by apply (H x)]. apply Hne. f_equal. apply (key_elem_inj col t); [done..|congruence].
Qed.

Lemma update_keys_same {R} (key : R -> string) (r r' : R) (t : list R) : key r' = key r ->
  key <$> (sql_update (has_key key (key r')) (fun _ => r') t).1 = key <$> t.
Proof. intros E. rewrite E. by apply update_row_keys. Qed.

(** A column that the new row shares with the old one does not change. *)
Lemma update_column_same {R K} (key : R -> string) (f : R -> K) (r r' : R) (t : list R) : keys_unique key t -> r ∈ t -> f r' = f r ->
  f <$> (sql_update (has_key key (key r)) (fun _ => r') t).1 = f <$> t.
Proof.
  intros Hk Hr E. destruct (update_key_split key (fun _ => r') t r Hk Hr) as (l1 & l2 & -> & ->). by rewrite !fmap_app, !fmap_cons, E.
Qed.

Lemma update_count_same {R} (key : R -> string) (P : R -> bool) (r r' : R) (t : list R) : keys_unique key t -> r ∈ t -> P r' = P r ->
  sql_count P (sql_update (has_key key (key r)) (fun _ => r') t).1 = sql_count P t.
Proof.
  intros Hk Hr E. destruct (update_key_split key (fun _ => r') t r Hk Hr) as (l1 & l2 & -> & ->). unfold sql_count, sql_select.
  rewrite !List.filter_app. cbn. rewrite E. by destruct (P r); rewrite !length_app.
Qed.

#[export] Hint Resolve keys_unique_nil keys_unique_delete keys_unique_select
  keys_unique_replace keys_unique_insert : pyboot.
