(* ===== verification/Paths.v ===== *)
(** * Pure paths

    [pathlib]'s pure POSIX paths: a root and the parts below it.  [path_join] is
    the operator [/], [path_str] is [str]. *)
From S2P Require Import Prelude PyStr.
From stdpp Require Import base tactics list strings countable.
From Stdlib Require Import Ascii ZArith Lia.
Open Scope string_scope.
#[local] Arguments String.append !_ _ : simpl nomatch.

Record PurePath := { root : string; parts : list string }.

#[export] Instance PurePath_eq_dec : EqDecision PurePath.
Proof. solve_decision. Defined.
#[export] Program Instance PurePath_countable : Countable PurePath :=
  inj_countable' (fun p => (root p, parts p)) (fun x => {| root := x.1; parts := x.2 |}) _.
Next Obligation. by intros []. Qed.

(** Two leading slashes are a root of their own in POSIX. *)
Definition path_root (s : string) : string :=
  if startswith "//" s && negb (startswith "///" s) then "//"
  else if startswith "/" s then "/" else "".

Definition path_of (s : string) : PurePath :=
  {| root := path_root s;
     parts := List.filter (fun w => negb (String.eqb w "") && negb (String.eqb w ".")) (split_on "/" s) |}.

(** [p / q]: an absolute [q] replaces [p]. *)
Definition path_join (p q : PurePath) : PurePath :=
  if String.eqb (root q) "" then {| root := root p; parts := (parts p ++ parts q)%list |} else q.

(** [s.rfind(c)] *)
Fixpoint rfind (c : ascii) (s : string) : option nat :=
  match s with
  | EmptyString => None
  | String d r =>
      match rfind c r with
      | Some i => Some (S i)
      | None => if Ascii.eqb d c then Some 0 else None
      end
  end.

(** A name without its suffix: a dot that is neither first nor last starts one. *)
Definition stem (name : string) : string :=
  match rfind "." name with
  | Some i => if (0 <? i)%nat && (i <? String.length name - 1)%nat then str_take i name else name
  | None => name
  end.

(** [p.with_suffix(s)]; [None] is the [ValueError] of an empty name. *)
Definition with_suffix (s : string) (p : PurePath) : option PurePath :=
  match rev (parts p) with
  | [] => None
  | name :: up => Some {| root := root p; parts := (rev up ++ [(stem name ++ s)%string])%list |}
  end.

Definition path_str (p : PurePath) : string :=
  match root p, parts p with
  | "", [] => "."
  | r, l => r ++ PyStr.join "/" l
  end.

(** ** Components are substrings *)

Lemma str_prefix_nil s : String.prefix "" s = true.
Proof. by destruct s. Qed.

Lemma prefix_app_l p q s : String.prefix (p ++ q) s = true -> String.prefix p s = true.
Proof.
  change (startswith (p ++ q) s = true -> startswith p s = true). rewrite !startswith_spec.
  intros [r ->]. exists (q ++ r). apply str_app_assoc.
Qed.

Lemma split_head_prefix c s w ws : split_on c s = w :: ws -> String.prefix w s = true.
Proof.
  revert w ws; induction s as [|d s IH]; intros w ws; cbn [split_on]; [by intros [= <- _]|].
  destruct (Ascii.eqb c d); [by intros [= <- _]; apply str_prefix_nil|].
  pose proof (split_on_nonempty c s). destruct (split_on c s) as [|v vs]; [done|].
  intros [= <- _]. rewrite str_prefix_cons, Ascii.eqb_refl. by eapply IH.
Qed.

Lemma split_contains c s w : w ∈ split_on c s -> str_contains w s = true.
Proof.
  revert w. induction s as [|d s IH]; intros w Hw.
  { cbn in Hw. apply list_elem_of_singleton in Hw as ->. done. }
  cbn [str_contains]. destruct (split_on c (String d s)) as [|v vs] eqn:E; [by apply not_elem_of_nil in Hw|].
  apply elem_of_cons in Hw as [->|Hw]; [by rewrite (split_head_prefix _ _ _ _ E)|].
  rewrite IH; [apply orb_true_r|]. cbn in E. destruct (Ascii.eqb c d); [by injection E as _ <-|].
  destruct (split_on c s) as [|u us]; injection E as _ <-; [by apply not_elem_of_nil in Hw|].
  by apply elem_of_cons; right.
Qed.

