(* ===== verification/Floats.v ===== *)
(** * Floats

    A float is the rational it stands for.  An operation on floats is the exact
    operation followed by [fl], the rounding to the nearest double.  [fl] is a
    parameter; the theorems use that it is monotone, that rounding twice is
    rounding once, and that it keeps the dyadic rationals that are doubles. *)
From S2P Require Import Prelude.
From stdpp Require Import base tactics list.
From Stdlib Require Import ZArith QArith Qround Lia Lqa.
Open Scope Z_scope.

(** [int(x)]: towards zero. *)
Definition trunc (x : Q) : Z := Z.quot (Qnum x) (Zpos (Qden x)).

Definition fadd (fl : Q -> Q) (x y : Q) : Q := fl (x + y)%Q.
Definition fsub (fl : Q -> Q) (x y : Q) : Q := fl (x - y)%Q.
Definition fmul (fl : Q -> Q) (x y : Q) : Q := fl (x * y)%Q.
Definition fdiv (fl : Q -> Q) (x y : Q) : Q := fl (x / y)%Q.

(** [min(1.0, x)] *)
Definition fmin1 (x : Q) : Q := if Qle_bool 1 x then 1 else x.

Class Rounding (fl : Q -> Q) := {
  fl_mono x y : (x <= y)%Q -> (fl x <= fl y)%Q;
  fl_idem x : (fl (fl x) == fl x)%Q;
  fl_dyadic z k : Z.abs z <= 2 ^ 53 -> 0 <= k <= 1000 ->
    (fl (z # Z.to_pos (2 ^ k)) == (z # Z.to_pos (2 ^ k)))%Q
}.

#[export] Instance exact_rounding : Rounding (fun x => x).
Proof. by split. Qed.

(** ** Truncation *)

Lemma trunc_floor x : (0 <= x)%Q -> trunc x = Qfloor x.
Proof.
  destruct x as [a b]. unfold trunc, Qfloor, Qle. cbn. intros H. apply Z.quot_div_nonneg; lia.
Qed.

Lemma trunc_mono x y : (0 <= x)%Q -> (x <= y)%Q -> trunc x <= trunc y.
Proof.
  intros H1 H2. rewrite !trunc_floor; [by apply Qfloor_resp_le|lra|done].
Qed.

Lemma trunc_nonneg x : (0 <= x)%Q -> 0 <= trunc x.
Proof. intros H. by apply (trunc_mono 0 x). Qed.

Lemma trunc_le x : (0 <= x)%Q -> (inject_Z (trunc x) <= x)%Q.
Proof. intros H. rewrite trunc_floor by done. apply Qfloor_le. Qed.

Lemma trunc_int x z : 0 <= z -> (x == inject_Z z)%Q -> trunc x = z.
Proof.
  intros Hz Hx. rewrite trunc_floor; [by rewrite Hx, Qfloor_Z|].
  rewrite Hx. change 0%Q with (inject_Z 0). by rewrite <- Zle_Qle.
Qed.

Lemma fmin1_mono x y : (x <= y)%Q -> (fmin1 x <= fmin1 y)%Q.
Proof.
  intros H. unfold fmin1. destruct (Qle_bool 1 x) eqn:E1, (Qle_bool 1 y) eqn:E2;
    rewrite <- ?not_true_iff_false, ?Qle_bool_iff in *; lra.
Qed.

Lemma fmin1_range x : (0 <= x)%Q -> (0 <= fmin1 x <= 1)%Q.
Proof.
  intros H. unfold fmin1. destruct (Qle_bool 1 x) eqn:E; [lra|].
  rewrite <- not_true_iff_false, Qle_bool_iff in E. lra.
Qed.

Lemma inject_pos z : 0 < z -> (0 < inject_Z z)%Q.
Proof. intros H. change 0%Q with (inject_Z 0). by rewrite <- Zlt_Qlt. Qed.

Lemma inject_nonneg z : 0 <= z -> (0 <= inject_Z z)%Q.
Proof. intros H. change 0%Q with (inject_Z 0). by rewrite <- Zle_Qle. Qed.

(** ** Rounded operations *)

Section Rounded.
Context {fl : Q -> Q} `{!Rounding fl}.

Lemma fl_int z : Z.abs z <= 2 ^ 53 -> (fl (inject_Z z) == inject_Z z)%Q.
Proof. intros H. by apply (fl_dyadic z 0). Qed.

Lemma fl_ext x y : (x == y)%Q -> (fl x == fl y)%Q.
Proof. intros H. apply Qle_antisym; apply fl_mono; lra. Qed.

Lemma fl_nonneg x : (0 <= x)%Q -> (0 <= fl x)%Q.
Proof.
  intros H. apply Qle_trans with (fl 0); [|by apply fl_mono].
  change 0%Q with (inject_Z 0) at 2. rewrite fl_int; [apply Qle_refl|lia].
Qed.

(** A bound that is a double is kept. *)
Lemma fl_ge x z k : Z.abs z <= 2 ^ 53 -> 0 <= k <= 1000 ->
  ((z # Z.to_pos (2 ^ k)) <= x)%Q -> ((z # Z.to_pos (2 ^ k)) <= fl x)%Q.
Proof. intros Hz Hk H. rewrite <- (fl_dyadic z k) by done. by apply fl_mono. Qed.

Lemma fl_le x z k : Z.abs z <= 2 ^ 53 -> 0 <= k <= 1000 ->
  (x <= (z # Z.to_pos (2 ^ k)))%Q -> (fl x <= (z # Z.to_pos (2 ^ k)))%Q.
Proof. intros Hz Hk H. rewrite <- (fl_dyadic z k) by done. by apply fl_mono. Qed.

Lemma fdiv_mono x y z : (0 < z)%Q -> (x <= y)%Q -> (fdiv fl x z <= fdiv fl y z)%Q.
Proof.
  intros Hz H. unfold fdiv. apply fl_mono. unfold Qdiv. apply Qmult_le_compat_r; [done|].
  apply Qlt_le_weak. by apply Qinv_lt_0_compat.
Qed.

Lemma fdiv_nonneg x z : (0 < z)%Q -> (0 <= x)%Q -> (0 <= fdiv fl x z)%Q.
Proof.
  intros Hz H. unfold fdiv. apply fl_nonneg. apply Qle_shift_div_l; [done|]. lra.
Qed.

Lemma fmul_nonneg x y : (0 <= x)%Q -> (0 <= y)%Q -> (0 <= fmul fl x y)%Q.
Proof. intros Hx Hy. unfold fmul. by apply fl_nonneg, Qmult_le_0_compat. Qed.

Lemma fmul_mono x y z : (0 <= x)%Q -> (y <= z)%Q -> (fmul fl x y <= fmul fl x z)%Q.
Proof. intros Hx H. unfold fmul. apply fl_mono. rewrite !(Qmult_comm x). by apply Qmult_le_compat_r. Qed.

Lemma fmul_idem x y : (fl (fmul fl x y) == fmul fl x y)%Q.
Proof. unfold fmul; apply fl_idem. Qed.
End Rounded.
