(* ===== verification/Scripts.v ===== *)
(** * Boot scripts as text

    An iPXE script is a list of lines.  [lines_ok ok] says that every line of a
    script satisfies [ok]; a script built by [unlines] from blocks that are lines
    does if each block does. *)
From S2P Require Import Prelude PyStr.
From stdpp Require Import base tactics list strings pretty.
From Stdlib Require Import Ascii ZArith Lia.
Open Scope string_scope.
#[local] Arguments String.append !_ _ : simpl nomatch.

Definition nl : string := String "010" EmptyString.
Definition dq : string := String "034" EmptyString.

Fixpoint unlines (l : list string) : string :=
  match l with [] => EmptyString | x :: l => x ++ nl ++ unlines l end.

Definition lines_ok (ok : string -> bool) (script : string) : bool := forallb ok (split_on "010" script).

(** Text without a line feed, but for one at its end. *)
Definition clean (s : string) : Prop :=
  lacks "010" s = true \/ exists m, s = m ++ nl /\ lacks "010" m = true.

(** A block is a line, perhaps with a line feed of its own. *)
Definition block_ok (ok : string -> bool) (l : string) : Prop :=
  exists l', (l = l' \/ l = l' ++ nl) /\ lacks "010" l' = true /\ ok l' = true.

Lemma split_on_line x rest : lacks "010" x = true -> split_on "010" (x ++ nl ++ rest) = x :: split_on "010" rest.
Proof.
  induction x as [|c x IH]; intros Hx; [done|]. unfold lacks in *. cbn [str_forall] in Hx.
  apply andb_true_iff in Hx as [Hc Hx]. apply negb_true_iff in Hc.
  cbn [split_on String.append]. rewrite Hc. by rewrite (IH Hx).
Qed.

Lemma pretty_lacks_nl (z : Z) : lacks "010" (pretty z) = true.
Proof. apply pretty_Z_forall; [|done]. intros n. unfold pretty_N_char. by repeat case_match. Qed.

Lemma clean_cons c s : Ascii.eqb "010" c = false -> clean s -> clean (String c s).
Proof.
  intros Hc [Hs|(m & -> & Hm)].
  - left. unfold lacks in *. cbn [str_forall]. by rewrite Hc.
  - right. exists (String c m). split; [done|]. unfold lacks in *. cbn [str_forall]. by rewrite Hc.
Qed.

Section Lines.
Context (ok : string -> bool) (Hempty : ok "" = true).

Lemma lines_ok_cons x rest : lacks "010" x = true -> lines_ok ok (x ++ nl ++ rest) = ok x && lines_ok ok rest.
Proof. intros Hx. unfold lines_ok. by rewrite split_on_line. Qed.

Lemma lines_ok_unlines_app l rest : Forall (block_ok ok) l -> lines_ok ok rest = true -> lines_ok ok (unlines l ++ rest) = true.
Proof.
  intros Hl Hrest. induction Hl as [|x l (y & Hy & Hn & Hh) _ IH]; [done|]. cbn [unlines]. rewrite !str_app_assoc.
  destruct Hy as [-> | ->].
  - by rewrite lines_ok_cons, Hh.
  - rewrite str_app_assoc, lines_ok_cons, Hh by done. cbn [andb].
    change (nl ++ unlines l ++ rest) with ("" ++ nl ++ unlines l ++ rest). by rewrite lines_ok_cons, Hempty.
Qed.

Lemma lines_ok_unlines l : Forall (block_ok ok) l -> lines_ok ok (unlines l) = true.
Proof.
  intros Hl. rewrite <- (str_app_nil_r (unlines l)). apply lines_ok_unlines_app; [done|]. cbn. by rewrite Hempty.
Qed.

Lemma block_line l : lacks "010" l = true -> ok l = true -> block_ok ok l.
Proof. intros H1 H2. exists l. split; [by left|done]. Qed.

(** A line that starts well may go on with anything clean. *)
Lemma block_app w x : lacks "010" w = true -> (forall y, ok (w ++ y) = true) -> clean x -> block_ok ok (w ++ x).
Proof.
  intros Hw Hs [Hx|(m & -> & Hm)].
  - exists (w ++ x). split; [by left|]. by rewrite lacks_app, Hw, Hx, Hs.
  - exists (w ++ m). split; [right; by rewrite str_app_assoc|]. by rewrite lacks_app, Hw, Hm, Hs.
Qed.
End Lines.

(** Prove that every block of a script is a line that is [ok]; [prefix] shows that a
    line that starts in some way is. *)
Ltac ok_lines prefix :=
  repeat (apply Forall_cons_2; [first [ by apply block_line | apply block_app; [done|prefix|by auto] ]|]); try apply Forall_nil_2.
