(* ===== verification/NodeLifecycle.v ===== *)
(** * The node lifecycle

    [core/state_machine.py], [core/state_service.py], [core/event_service.py]
    and the handlers of [api/routes/nodes.py] that drive a node through its
    lifecycle: event and legacy reports, the deploy callbacks, the admin
    transition and the bulk change.  The lifecycle graph is restated as an
    inductive relation on an enumeration, which the code's string tables
    refine. *)
From S2P Require Import Prelude.
From stdpp Require Import base tactics list strings pretty relations.
From Stdlib Require Import ZArith Lia.
Open Scope string_scope.

(** ** [core/state_machine.py] *)

Module NodeStateMachine.

Definition STATES : list string :=
  ["discovered"; "pending"; "installing"; "install_failed"; "installed"; "active";
   "reprovision"; "deprovisioning"; "migrating"; "serving_source"; "cloning_target";
   "retired"].

Definition TRANSITIONS : list (string * list string) :=
  [("discovered", ["pending"; "cloning_target"]);
   ("pending", ["installing"]);
   ("installing", ["installed"; "install_failed"]);
   ("install_failed", ["pending"]);
   ("installed", ["active"; "reprovision"; "retired"]);
   ("active", ["reprovision"; "deprovisioning"; "migrating"; "serving_source"; "cloning_target"]);
   ("reprovision", ["pending"]);
   ("deprovisioning", ["retired"]);
   ("migrating", ["active"]);
   ("serving_source", ["active"]);
   ("cloning_target", ["installed"]);
   ("retired", [])].

(** [cls.TRANSITIONS.get(from_state, [])] *)
Definition targets (from_state : string) : list string :=
  default [] (assoc_get from_state TRANSITIONS).

Definition can_transition (from_state to_state : string) : bool :=
  if String.eqb to_state "retired"
  then negb (String.eqb from_state "retired")
  else existsb (String.eqb to_state) (targets from_state).

(** [InvalidStateTransition], carrying the two states. *)
Record InvalidStateTransition := { from_state : string; to_state : string }.

Definition transition (from_state to_state : string) : result InvalidStateTransition string :=
  if negb (can_transition from_state to_state)
  then Err {| from_state := from_state; to_state := to_state |}
  else Ok to_state.

Definition get_valid_transitions (from_state : string) : list string :=
  let valid := targets from_state in
  if negb (String.eqb from_state "retired") && negb (existsb (String.eqb "retired") valid)
  then (valid ++ ["retired"])%list
  else valid.

End NodeStateMachine.
Import NodeStateMachine.

(** ** The lifecycle as a specification *)

Inductive NodeState : Type :=
| discovered | pending | installing | install_failed | installed | active
| reprovision | deprovisioning | migrating | serving_source | cloning_target | retired.

#[export] Instance NodeState_eq_dec : EqDecision NodeState.
Proof. solve_decision. Defined.

Definition state_name (s : NodeState) : string :=
  match s with
  | discovered => "discovered" | pending => "pending" | installing => "installing"
  | install_failed => "install_failed" | installed => "installed" | active => "active"
  | reprovision => "reprovision" | deprovisioning => "deprovisioning"
  | migrating => "migrating" | serving_source => "serving_source"
  | cloning_target => "cloning_target" | retired => "retired"
  end.

(** One legal step of a node's life. *)
Inductive lifecycle : NodeState -> NodeState -> Prop :=
| lc_assign : lifecycle discovered pending
| lc_clone_new : lifecycle discovered cloning_target
| lc_install : lifecycle pending installing
| lc_done : lifecycle installing installed
| lc_give_up : lifecycle installing install_failed
| lc_retry : lifecycle install_failed pending
| lc_boot : lifecycle installed active
| lc_redo_installed : lifecycle installed reprovision
| lc_redo_active : lifecycle active reprovision
| lc_erase : lifecycle active deprovisioning
| lc_migrate : lifecycle active migrating
| lc_serve : lifecycle active serving_source
| lc_clone_active : lifecycle active cloning_target
| lc_reassign : lifecycle reprovision pending
| lc_migrated : lifecycle migrating active
| lc_served : lifecycle serving_source active
| lc_cloned : lifecycle cloning_target installed
| lc_retire s : s <> retired -> lifecycle s retired.

(** ** [core/state_service.py] and [core/event_service.py] *)

Definition MAX_INSTALL_ATTEMPTS : Z := 3.

(** The columns of the [nodes] table the lifecycle reads or writes. *)
Record Node := {
  n_id : string;
  n_mac_address : string;
  n_state : string;
  n_state_changed_at : option Z;
  n_install_attempts : Z;
  n_last_install_error : option string;
  n_boot_count : Z;
  n_last_boot_at : option Z
}.

Record NodeStateLog := {
  l_node_id : string;
  l_from_state : string;
  l_to_state : string;
  l_triggered_by : string;
  l_user_id : option string;
  l_comment : option string;
  l_metadata_json : option json
}.

Record NodeEvent := {
  e_node_id : string;
  e_event_type : string;
  e_status : string;
  e_message : option string;
  e_progress : option Z;
  e_metadata_json : option json;
  e_ip_address : option string
}.

(** The session: the loaded node and the rows added by the request, oldest
    first. *)
Record Session := {
  s_node : Node;
  s_logs : list NodeStateLog;
  s_events : list NodeEvent
}.

Inductive lifecycle_error : Type :=
| InvalidTransition (e : InvalidStateTransition)
| ValueError (message : string)
| HTTPException (status_code : Z) (detail : string)
| StatementError.              (* a value the driver cannot bind *)

Abbreviation NodeM A := (M Session lifecycle_error A).

Definition set_node (f : Node -> Node) : NodeM unit :=
  modify (fun s => {| s_node := f (s_node s); s_logs := s_logs s; s_events := s_events s |}).
Definition add_log (l : NodeStateLog) : NodeM unit :=
  modify (fun s => {| s_node := s_node s; s_logs := s_logs s ++ [l]; s_events := s_events s |}).
Definition add_event (e : NodeEvent) : NodeM unit :=
  modify (fun s => {| s_node := s_node s; s_logs := s_logs s; s_events := s_events s ++ [e] |}).

Definition with_state (now : Z) (to_state : string) (n : Node) : Node :=
  {| n_id := n_id n; n_mac_address := n_mac_address n; n_state := to_state;
     n_state_changed_at := Some now; n_install_attempts := n_install_attempts n;
     n_last_install_error := n_last_install_error n;
     n_boot_count := n_boot_count n; n_last_boot_at := n_last_boot_at n |}.

Definition with_attempts (attempts : Z) (error : option string) (n : Node) : Node :=
  {| n_id := n_id n; n_mac_address := n_mac_address n; n_state := n_state n;
     n_state_changed_at := n_state_changed_at n; n_install_attempts := attempts;
     n_last_install_error := error;
     n_boot_count := n_boot_count n; n_last_boot_at := n_last_boot_at n |}.

Definition with_boot (now : Z) (n : Node) : Node :=
  {| n_id := n_id n; n_mac_address := n_mac_address n; n_state := n_state n;
     n_state_changed_at := n_state_changed_at n; n_install_attempts := n_install_attempts n;
     n_last_install_error := n_last_install_error n;
     n_boot_count := n_boot_count n + 1; n_last_boot_at := Some now |}.

(** [json.dumps(metadata) if metadata else None] *)
Definition dump_metadata (metadata : option json) : option json :=
  match metadata with
  | Some m => if truthy m then Some m else None
  | None => None
  end.

Module StateTransitionService.

Definition max_attempts_message : string :=
  "Max install attempts (3) exceeded. Use force=true to reset and retry.".

Definition transition (now : Z) (to_state triggered_by : string)
    (user_id comment : option string) (metadata : option json) (force : bool) : NodeM unit :=
  s ← get_state;
  let node := s_node s in
  let from_state := n_state node in
  if String.eqb from_state "install_failed" && String.eqb to_state "pending"
     && negb force && (MAX_INSTALL_ATTEMPTS <=? n_install_attempts node)%Z
  then raise (ValueError max_attempts_message)
  else if negb force && negb (can_transition from_state to_state)
  then raise (InvalidTransition {| from_state := from_state; to_state := to_state |})
  else
    set_node (with_state now to_state);;
    (if force || String.eqb to_state "installed"
     then set_node (with_attempts 0 None)
     else mret tt);;
    add_log {| l_node_id := n_id node; l_from_state := from_state; l_to_state := to_state;
               l_triggered_by := triggered_by; l_user_id := user_id; l_comment := comment;
               l_metadata_json := dump_metadata metadata |}.

(** [stored] is what the column has of the [error]. *)
Definition record_failure (now : Z) (stored : option string) (error : json) : NodeM unit :=
  s ← get_state;
  let attempts := (n_install_attempts (s_node s) + 1)%Z in
  set_node (with_attempts attempts stored);;
  if (MAX_INSTALL_ATTEMPTS <=? attempts)%Z
  then transition now "install_failed" "node_report" None None
         (Some (JObj [("error", error); ("attempt", JNum attempts)])) false
  else mret tt.

Definition handle_install_failure (now : Z) (error : option string) : NodeM unit := record_failure now error (jopt error).

End StateTransitionService.

Module EventService.

Definition log_event (event_type status : string) (message : option string)
    (progress : option Z) (metadata : option json) (ip_address : option string) : NodeM unit :=
  s ← get_state;
  add_event {| e_node_id := n_id (s_node s); e_event_type := event_type; e_status := status;
               e_message := message; e_progress := progress;
               e_metadata_json := dump_metadata metadata; e_ip_address := ip_address |}.

End EventService.

(** ** [api/routes/nodes.py]: the handlers that move a node *)

Inductive event_kind : Type :=
| boot_started | install_started | install_progress | install_complete | install_failed_event
| first_boot | heartbeat.

Definition event_name (e : event_kind) : string :=
  match e with
  | boot_started => "boot_started" | install_started => "install_started"
  | install_progress => "install_progress" | install_complete => "install_complete"
  | install_failed_event => "install_failed" | first_boot => "first_boot"
  | heartbeat => "heartbeat"
  end.

(** The fields of [NodeReport] the handlers read. *)
Record NodeReport := {
  r_event : option event_kind;
  r_status : string;
  r_message : option string;
  r_event_metadata : option json;
  r_installation_status : option string;
  r_installation_progress : option Z;
  r_installation_error : option string
}.

(** [a or b] on optional strings: the empty string is false. *)
Definition or_else (a b : option string) : option string :=
  match a with
  | Some s => if String.eqb s "" then b else Some s
  | None => b
  end.

Definition node_state : NodeM string := s ← get_state; mret (n_state (s_node s)).
Definition in_states (states : list string) : NodeM bool :=
  st ← node_state; mret (existsb (String.eqb st) states).

(** The message after an installation failure. *)
Definition failure_message : NodeM string :=
  s ← get_state;
  let attempts := pretty (n_install_attempts (s_node s)) in
  mret (if String.eqb (n_state (s_node s)) "install_failed"
        then "Installation failed after " ++ attempts ++ " attempts"
        else "Installation failed (attempt " ++ attempts ++ "), will retry").

Definition _handle_event (now : Z) (event_type : event_kind) (report : NodeReport)
    (client_ip : option string) : NodeM string :=
  EventService.log_event (event_name event_type) (r_status report) (r_message report)
    (r_installation_progress report) (r_event_metadata report) client_ip;;
  match event_type with
  | boot_started =>
      set_node (with_boot now);;
      mret "Boot started event logged"
  | install_started =>
      b ← in_states ["pending"];
      if (b : bool) then
        StateTransitionService.transition now "installing" "node_report" None None None false;;
        set_node (fun n => with_attempts 0 (n_last_install_error n) n);;
        mret "Installation started"
      else mret "Event logged"
  | install_progress =>
      mret ("Installation progress: " ++ pretty (default 0%Z (r_installation_progress report)) ++ "%")
  | install_complete =>
      b ← in_states ["installing"];
      if (b : bool) then
        StateTransitionService.transition now "installed" "node_report" None None None false;;
        mret "Installation completed"
      else mret "Event logged"
  | install_failed_event =>
      b ← in_states ["installing"];
      if (b : bool) then
        StateTransitionService.handle_install_failure now
          (or_else (r_message report) (r_installation_error report));;
        failure_message
      else mret "Event logged"
  | first_boot =>
      b ← in_states ["installed"];
      if (b : bool) then
        StateTransitionService.transition now "active" "node_report" None None
          (r_event_metadata report) false;;
        mret "First boot - node now active"
      else mret "Event logged"
  | heartbeat => mret "Heartbeat received"
  end.

Definition legacy_event_type (installation_status : string) : string :=
  default "unknown" (assoc_get installation_status
    [("started", "install_started"); ("progress", "install_progress");
     ("complete", "install_complete"); ("failed", "install_failed")]).

Definition _handle_legacy_installation_status (now : Z) (installation_status : string)
    (report : NodeReport) (client_ip : option string) : NodeM string :=
  EventService.log_event (legacy_event_type installation_status)
    (if negb (String.eqb installation_status "failed") then "success" else "failed")
    (r_installation_error report) (r_installation_progress report) None client_ip;;
  st ← node_state;
  if String.eqb installation_status "started" && String.eqb st "pending" then
    StateTransitionService.transition now "installing" "node_report" None None None false;;
    set_node (fun n => with_attempts 0 (n_last_install_error n) n);;
    mret "Installation started"
  else if String.eqb installation_status "complete" && String.eqb st "installing" then
    StateTransitionService.transition now "installed" "node_report" None None None false;;
    mret "Installation completed"
  else if String.eqb installation_status "failed" && String.eqb st "installing" then
    StateTransitionService.handle_install_failure now (r_installation_error report);;
    failure_message
  else mret "Status reported successfully".

(** The part of [report_node_status] that dispatches the report. *)
Definition report_dispatch (now : Z) (report : NodeReport) (client_ip : option string) : NodeM string :=
  match r_event report with
  | Some e => _handle_event now e report client_ip
  | None =>
      match r_installation_status report with
      | Some st => if String.eqb st "" then mret "Status reported successfully"
                   else _handle_legacy_installation_status now st report client_ip
      | None => mret "Status reported successfully"
      end
  end.

(** [body.get("success", True)], [True] when the body is not a JSON object. *)
Definition body_success (body : option json) : bool :=
  match body with
  | Some (JObj kvs) => truthy (default (JBool true) (assoc_get "success" kvs))
  | _ => true
  end.

Definition node_installed_callback (now : Z) (body : option json) (client_ip : option string)
    : NodeM string :=
  b ← in_states ["pending"; "installing"];
  if body_success body && (b : bool) then
    StateTransitionService.transition now "installed" "deploy_callback" None None None false;;
    EventService.log_event "deploy_complete" "success" (Some "Image deployment completed")
      None None client_ip;;
    mret "Node marked as installed"
  else mret "Callback received".

(** Nothing checks the type of a value of a body: what the driver stores of a value that is neither null nor a text ([None] where it
    refuses it), and what [str] writes of it. *)
Class JsonText := { column_text : json -> option string; json_str : json -> string }.

Section Bodies.
Context `{JT : JsonText}.

Definition py_text (j : json) : string := match j with JNull => "None" | JStr s => s | _ => json_str j end.

(** What the column has after the flush, if the flush succeeds. *)
Definition stored_text (j : json) : result lifecycle_error (option string) :=
  match j with
  | JNull => Ok None
  | JStr s => Ok (Some s)
  | _ => match column_text j with Some s => Ok (Some s) | None => Err StatementError end
  end.

(** [body.get(k, d)], and [d] when the body is not a JSON object. *)
Definition body_get (k : string) (d : json) (body : option json) : json :=
  match body with Some (JObj kvs) => default d (assoc_get k kvs) | _ => d end.

Definition node_install_failed_callback (now : Z) (body : option json) : NodeM string :=
  let error := body_get "error" (JStr "Unknown error") body in
  b ← in_states ["pending"; "installing"];
  (if (b : bool) then
     match stored_text error with
     | Ok stored => StateTransitionService.record_failure now stored error
     | Err e => StateTransitionService.record_failure now None error;; raise e
     end
   else mret tt);;
  mret ("Install failure recorded: " ++ py_text error).

Definition clone_source_ready (body : option json) (client_ip : option string) : NodeM string :=
  let clone_ip := match body with Some (JObj _) => body_get "ip" JNull body | _ => jopt client_ip end in
  let clone_port := body_get "port" (JNum 9999) body in
  let at_ := py_text clone_ip ++ ":" ++ py_text clone_port in
  let log ip := EventService.log_event "clone_source_ready" "ready" (Some ("Clone source ready at " ++ at_)) None
    (Some (JObj [("clone_ip", clone_ip); ("clone_port", clone_port); ("clone_size", body_get "size" JNull body);
                 ("clone_device", body_get "device" JNull body)])) ip in
  (match stored_text clone_ip with Ok ip => log ip | Err e => log None;; raise e end);;
  mret ("Clone source registered at " ++ at_).
End Bodies.

(** [str(e)] of [InvalidStateTransition] and the repr of a list of states. *)
Definition invalid_message (e : InvalidStateTransition) : string :=
  "Invalid state transition from '" ++ from_state e ++ "' to '" ++ to_state e ++ "'".
Definition repr_states (l : list string) : string :=
  "[" ++ String.concat ", " (map (fun s => "'" ++ s ++ "'") l) ++ "]".

Definition transition_node_state (now : Z) (state : string) (comment : option string) (force : bool)
    : NodeM string :=
  catch
    (StateTransitionService.transition now state "admin" None comment None force;;
     mret ("Node transitioned to " ++ state))
    (fun e => match e with
              | InvalidTransition e =>
                  st ← node_state;
                  raise (HTTPException 400
                    (invalid_message e ++ ". Valid transitions: "
                     ++ repr_states (get_valid_transitions st)))
              | ValueError m => raise (HTTPException 400 m)
              | e => raise e
              end).

(** One node of [bulk_change_state]: its error message, if any. *)
Definition bulk_change_one (now : Z) (new_state : string) : NodeM (option string) :=
  catch
    (StateTransitionService.transition now new_state "bulk_operation" None None None false;;
     mret None)
    (fun e => match e with
              | InvalidTransition e => mret (Some (invalid_message e))
              | ValueError m => mret (Some m)
              | e => raise e
              end).

Fixpoint bulk_change_state (now : Z) (new_state : string) (nodes : list Node)
    (logs : list NodeStateLog) : list Node * list NodeStateLog * Z * list (string * string) :=
  match nodes with
  | [] => ([], logs, 0%Z, [])
  | n :: rest =>
      let '(r, s) := bulk_change_one now new_state {| s_node := n; s_logs := logs; s_events := [] |} in
      let '(ns, ls, updated, errors) := bulk_change_state now new_state rest (s_logs s) in
      match r with
      | Ok (Some msg) => (s_node s :: ns, ls, updated, (n_id n, msg) :: errors)
      | _ => (s_node s :: ns, ls, (updated + 1)%Z, errors)
      end
  end.

(** ** Requests and runs *)

(** [StateTransition.validate_state] and [BulkChangeStateRequest.validate_state]: a body with
    another state is refused before the handler runs. *)
Definition validate_state (v : string) : bool := existsb (String.eqb v) STATES.
Definition validated {A} (v : string) (m : NodeM A) : NodeM A :=
  if validate_state v then m else raise (HTTPException 422 ("Invalid state: " ++ v)).

Inductive request : Type :=
| ReqReport (now : Z) (report : NodeReport) (client_ip : option string)
| ReqInstalled (now : Z) (body : option json) (client_ip : option string)
| ReqInstallFailed (now : Z) (body : option json)
| ReqCloneReady (body : option json) (client_ip : option string)
| ReqAdmin (now : Z) (state : string) (comment : option string) (force : bool)
| ReqBulk (now : Z) (new_state : string).

Definition handle `{JT : JsonText} (r : request) : NodeM string :=
  match r with
  | ReqReport now report ip => report_dispatch now report ip
  | ReqInstalled now body ip => node_installed_callback now body ip
  | ReqInstallFailed now body => node_install_failed_callback now body
  | ReqCloneReady body ip => clone_source_ready body ip
  | ReqAdmin now state comment force => validated state (transition_node_state now state comment force)
  | ReqBulk now new_state => validated new_state (e ← bulk_change_one now new_state; mret (default "" e))
  end.

(** The session after a sequence of requests, each in its own transaction. *)
Definition serve `{JT : JsonText} (s : Session) (r : request) : Session := (with_db (handle r) s).2.
Definition serve_all `{JT : JsonText} (rs : list request) (s : Session) : Session := foldl serve s rs.

Definition unforced (r : request) : bool :=
  match r with ReqAdmin _ _ _ force => negb force | _ => true end.

(** The state an admin or bulk request asks for. *)
Definition requested (r : request) : option string :=
  match r with
  | ReqAdmin _ st _ _ => Some st
  | ReqBulk _ st => Some st
  | _ => None
  end.

(** ** The state machine refines the lifecycle *)

Lemma state_name_inj s t : state_name s = state_name t -> s = t.
Proof. by destruct s, t. Qed.

(** C1: on the lifecycle's states, [NodeStateMachine.can_transition] decides exactly the
    lifecycle relation: the transition table plus retirement from any other state. *)
Theorem can_transition_refines_lifecycle (s t : NodeState) :
  can_transition (state_name s) (state_name t) = true <-> lifecycle s t.
Proof.
  split.
  - destruct s, t; intros H; vm_compute in H; try discriminate H; by constructor.
  - intros H; destruct H; try reflexivity. by destruct s.
Qed.

Lemma can_transition_target f t : can_transition f t = true -> t ∈ STATES.
Proof.
  unfold can_transition. destruct (String.eqb_spec t "retired") as [->|Hne].
  - intros _. rewrite list_elem_of_In. simpl. tauto.
  - unfold targets. intros H. apply existsb_exists in H as [x [Hx Heq]].
    apply String.eqb_eq in Heq as <-.
    unfold TRANSITIONS in Hx. cbn [assoc_get] in Hx.
    repeat (destruct (String.eqb _ _) in Hx; [simpl in Hx; rewrite list_elem_of_In; simpl; tauto|]).
    done.
Qed.

Lemma validate_state_spec t : validate_state t = true <-> t ∈ STATES.
Proof.
  unfold validate_state. rewrite existsb_exists, list_elem_of_In. split.
  - by intros [x [Hx <-%String.eqb_eq]].
  - intros H. exists t. by rewrite String.eqb_refl.
Qed.

Lemma STATES_name t : t ∈ STATES -> exists s, t = state_name s.
Proof.
  change STATES with (state_name <$>
    [discovered; pending; installing; install_failed; installed; active; reprovision;
     deprovisioning; migrating; serving_source; cloning_target; retired]).
  intros [s [-> _]]%list_elem_of_fmap. by exists s.
Qed.

Lemma can_transition_lifecycle s t :
  can_transition (state_name s) t = true -> exists t', t = state_name t' /\ lifecycle s t'.
Proof.
  intros H. destruct (STATES_name t) as [t' ->]; [by eapply can_transition_target|].
  exists t'. split; [done|]. by apply can_transition_refines_lifecycle.
Qed.

Lemma targets_spec from_state t :
  can_transition from_state t = (existsb (String.eqb t) (get_valid_transitions from_state)).
Proof.
  unfold can_transition, get_valid_transitions.
  destruct (String.eqb_spec from_state "retired") as [->|Hf].
  - simpl. by destruct (String.eqb t "retired").
  - cbn [negb andb]. destruct (existsb (String.eqb "retired") (targets from_state)) eqn:E; cbn [negb].
    + destruct (String.eqb_spec t "retired") as [->|]; done.
    + rewrite existsb_app. simpl.
      destruct (String.eqb_spec t "retired") as [->|]; simpl;
        by rewrite ?orb_true_r, ?orb_false_r.
Qed.

(** [get_valid_transitions] offers exactly the targets [can_transition] accepts, each once,
    whatever string the current state is. *)
Theorem valid_transitions_exact (from_state : string) :
  (forall t, t ∈ get_valid_transitions from_state <-> can_transition from_state t = true)
  /\ NoDup (get_valid_transitions from_state).
Proof.
  split.
  - intros t. rewrite targets_spec, existsb_exists, list_elem_of_In. split.
    + intros H. exists t. by rewrite String.eqb_refl.
    + intros [x [Hx <-%String.eqb_eq]]. done.
  - unfold get_valid_transitions, targets, TRANSITIONS. cbn [assoc_get].
    repeat match goal with
           | |- context [String.eqb from_state ?k] =>
               destruct (String.eqb_spec from_state k) as [->|?];
               [apply (bool_decide_unpack _); vm_compute; exact I|]
           end.
    apply (bool_decide_unpack _); vm_compute; exact I.
Qed.

(** ** An invariant principle for the handlers

    A property of the node's state and of the audit log is kept by every
    request as soon as it is kept by a logged move to a known state.  [F] says
    whether forced moves may happen. *)

Definition on_log (P : string -> string -> list NodeStateLog -> Prop) (s : Session) : Prop :=
  P (n_id (s_node s)) (n_state (s_node s)) (s_logs s).

Section LogInvariant.
Context (P : string -> string -> list NodeStateLog -> Prop) (F : Prop).
Context (Hmove : forall logs l,
  P (l_node_id l) (l_from_state l) logs ->
  F \/ can_transition (l_from_state l) (l_to_state l) = true ->
  validate_state (l_to_state l) = true ->
  P (l_node_id l) (l_to_state l) (logs ++ [l])).

Lemma keeps_set_node f :
  (forall n, n_state (f n) = n_state n /\ n_id (f n) = n_id n) -> keeps (on_log P) (set_node f).
Proof. intros Hf s Hs. unfold on_log; simpl. by destruct (Hf (s_node s)) as [-> ->]. Qed.

Lemma keeps_add_event e : keeps (on_log P) (add_event e).
Proof. by intros s Hs. Qed.

Lemma keeps_get : keeps (on_log P) (get_state (E := lifecycle_error)).
Proof. by intros s Hs. Qed.

Lemma keeps_transition now to by_ uid c md force :
  (F /\ validate_state to = true) \/ force = false ->
  keeps (on_log P) (StateTransitionService.transition now to by_ uid c md force).
Proof.
  intros HF s Hs. unfold StateTransitionService.transition. unfold_M. simpl.
  case_match; [done|]. case_match eqn:Hcan; [done|].
  assert ((F \/ can_transition (n_state (s_node s)) to = true) /\ validate_state to = true) as [Hok Hto].
  { destruct HF as [[HF Hv]| ->]; [by split; [left|]|]. simpl in Hcan. apply negb_false_iff in Hcan.
    split; [by right|]. by eapply validate_state_spec, can_transition_target. }
  destruct (force || (to =? "installed")%string); simpl;
    unfold on_log; simpl;
    refine (Hmove (s_logs s) (Build_NodeStateLog _ _ _ _ _ _ _) _ _ _); done.
Qed.

#[local] Hint Resolve keeps_set_node keeps_add_event keeps_get keeps_raise : pyboot.
#[local] Hint Extern 1 (keeps _ (StateTransitionService.transition _ _ _ _ _ _ _)) =>
  apply keeps_transition; solve [by right | assumption] : pyboot.
#[local] Hint Extern 1 (keeps _ (if ?b then _ else _)) => destruct b : pyboot.

Lemma keeps_record now stored error : keeps (on_log P) (StateTransitionService.record_failure now stored error).
Proof. unfold StateTransitionService.record_failure. auto 10 with pyboot. Qed.

Lemma keeps_failure now error :
  keeps (on_log P) (StateTransitionService.handle_install_failure now error).
Proof. unfold StateTransitionService.handle_install_failure. apply keeps_record. Qed.

Lemma keeps_log_event ty st m p md ip : keeps (on_log P) (EventService.log_event ty st m p md ip).
Proof. unfold EventService.log_event. auto with pyboot. Qed.

Lemma keeps_in_states l : keeps (on_log P) (in_states l).
Proof. unfold in_states, node_state. auto with pyboot. Qed.

Lemma keeps_failure_message : keeps (on_log P) failure_message.
Proof. unfold failure_message. auto with pyboot. Qed.

#[local] Hint Resolve keeps_failure keeps_record keeps_log_event keeps_in_states keeps_failure_message : pyboot.

Lemma keeps_report now report ip : keeps (on_log P) (report_dispatch now report ip).
Proof.
  unfold report_dispatch, _handle_event, _handle_legacy_installation_status, node_state.
  repeat case_match; auto 20 with pyboot.
Qed.

(** The services that the handlers of the other files run on a row. *)
Lemma keeps_installed now body ip : keeps (on_log P) (node_installed_callback now body ip).
Proof. unfold node_installed_callback. auto 20 with pyboot. Qed.

Lemma keeps_install_failed `{JT : JsonText} now body : keeps (on_log P) (node_install_failed_callback now body).
Proof. unfold node_install_failed_callback. destruct (stored_text _); auto 20 with pyboot. Qed.

Lemma keeps_clone_ready `{JT : JsonText} body ip : keeps (on_log P) (clone_source_ready body ip).
Proof. unfold clone_source_ready. destruct (stored_text _); auto 20 with pyboot. Qed.

Lemma keeps_admin now st comment force : F \/ force = false -> validate_state st = true ->
  keeps (on_log P) (transition_node_state now st comment force).
Proof.
  intros HF Hv. unfold transition_node_state, node_state. apply keeps_catch.
  - apply keeps_bind; [|auto with pyboot]. apply keeps_transition. destruct HF; auto.
  - intros []; auto with pyboot.
Qed.

Lemma keeps_bulk_one now st : keeps (on_log P) (bulk_change_one now st).
Proof. unfold bulk_change_one. apply keeps_catch; [auto with pyboot|]. intros []; auto with pyboot. Qed.

Lemma keeps_handle `{JT : JsonText} r : F \/ unforced r = true -> keeps (on_log P) (handle r).
Proof.
  intros HF. destruct r; simpl in *.
  - apply keeps_report.
  - apply keeps_installed.
  - apply keeps_install_failed.
  - apply keeps_clone_ready.
  - unfold validated. destruct (validate_state state) eqn:Hv; [|apply keeps_raise].
    apply keeps_admin; [|done]. destruct HF as [?|?%negb_true_iff]; auto.
  - unfold validated. destruct (validate_state new_state); [|apply keeps_raise].
    apply keeps_bind; [apply keeps_bulk_one|auto with pyboot].
Qed.

Lemma keeps_serve `{JT : JsonText} r s : F \/ unforced r = true -> on_log P s -> on_log P (serve s r).
Proof.
  intros HF Hs. unfold serve, with_db. pose proof (keeps_handle r HF s Hs) as H.
  by destruct (handle r s) as [[]].
Qed.

Lemma keeps_serve_all `{JT : JsonText} rs s :
  F \/ forallb unforced rs = true -> on_log P s -> on_log P (serve_all rs s).
Proof.
  revert s; induction rs as [|r rs IH]; intros s HF Hs; simpl; [done|].
  assert (F \/ unforced r = true /\ forallb unforced rs = true) as HF'.
  { destruct HF as [?|[? ?]%andb_true_iff]; auto. }
  apply IH; [|apply keeps_serve; [|done]]; destruct HF' as [?|[? ?]]; auto.
Qed.
End LogInvariant.

(** The state an audit trail leads to, when each entry starts where the
    previous one ended. *)
Fixpoint trail_end (start : string) (logs : list NodeStateLog) : option string :=
  match logs with
  | [] => Some start
  | l :: rest => if String.eqb (l_from_state l) start then trail_end (l_to_state l) rest else None
  end.

Lemma trail_end_snoc start logs l :
  trail_end start logs = Some (l_from_state l) -> trail_end start (logs ++ [l]) = Some (l_to_state l).
Proof.
  revert start; induction logs as [|x logs IH]; simpl; intros start H.
  - injection H as ->. by rewrite String.eqb_refl.
  - destruct (String.eqb _ _); [by apply IH | done].
Qed.

(** A node as a request finds it, nothing logged yet. *)
Definition fresh (n : Node) : Session := {| s_node := n; s_logs := []; s_events := [] |}.

(** A driver that refuses what is no text. *)
#[local] Instance strict_driver : JsonText := {| column_text _ := None; json_str _ := "{}" |}.

Definition node0 (st : string) (attempts : Z) : Node :=
  {| n_id := "n1"; n_mac_address := "aa:bb:cc:00:11:22"; n_state := st;
     n_state_changed_at := None; n_install_attempts := attempts; n_last_install_error := None;
     n_boot_count := 0; n_last_boot_at := None |}.

Definition report0 (e : event_kind) : NodeReport :=
  {| r_event := Some e; r_status := "success"; r_message := Some "boom"; r_event_metadata := None;
     r_installation_status := None; r_installation_progress := None; r_installation_error := None |}.

(** ** The retry policy *)

(** What a failure report does to a node that is installing. *)
Lemma failure_report_step `{JT : JsonText} now report ip s a :
  r_event report = Some install_failed_event ->
  n_state (s_node s) = "installing" -> n_install_attempts (s_node s) = a ->
  let s' := serve s (ReqReport now report ip) in
  n_install_attempts (s_node s') = (a + 1)%Z
  /\ (if (a + 1 <? 3)%Z
      then n_state (s_node s') = "installing" /\ s_logs s' = s_logs s
      else n_state (s_node s') = "install_failed"
           /\ length (s_logs s') = S (length (s_logs s))).
Proof.
  intros He Hst Ha. unfold serve, with_db, handle, report_dispatch. rewrite He.
  unfold _handle_event, EventService.log_event, in_states, node_state,
    StateTransitionService.handle_install_failure, StateTransitionService.record_failure, MAX_INSTALL_ATTEMPTS.
  unfold_M. unfold add_event, set_node. unfold_M. simpl. rewrite Hst. simpl. rewrite Ha.
  rewrite Z.leb_antisym. destruct (Z.ltb_spec (a + 1) 3); simpl; [by rewrite Hst|].
  unfold StateTransitionService.transition. unfold_M. simpl. rewrite Hst. simpl.
  by rewrite length_app, Nat.add_comm.
Qed.

(** What a failed attempt does to a node that is installing. *)
Lemma handle_install_failure_run now error s :
  n_state (s_node s) = "installing" ->
  let attempts := (n_install_attempts (s_node s) + 1)%Z in
  exists s', StateTransitionService.handle_install_failure now error s = (Ok tt, s')
    /\ n_id (s_node s') = n_id (s_node s) /\ n_mac_address (s_node s') = n_mac_address (s_node s)
    /\ n_install_attempts (s_node s') = attempts /\ n_last_install_error (s_node s') = error
    /\ n_state (s_node s') = (if (attempts <? 3)%Z then "installing" else "install_failed").
Proof.
  intros Hst attempts. unfold StateTransitionService.handle_install_failure, StateTransitionService.record_failure, MAX_INSTALL_ATTEMPTS.
  unfold_M. unfold set_node. unfold_M. fold attempts. rewrite Z.leb_antisym.
  destruct (Z.ltb_spec attempts 3); simpl; [by eexists|].
  unfold StateTransitionService.transition. unfold_M. simpl. rewrite Hst. simpl. by eexists.
Qed.

(** A failure report leaves any other node's state, counter and log alone. *)
Lemma failure_report_ignored `{JT : JsonText} now report ip s :
  r_event report = Some install_failed_event ->
  n_state (s_node s) <> "installing" ->
  let s' := serve s (ReqReport now report ip) in
  s_node s' = s_node s /\ s_logs s' = s_logs s.
Proof.
  intros He Hst. unfold serve, with_db, handle, report_dispatch. rewrite He.
  unfold _handle_event, EventService.log_event, in_states, node_state.
  unfold_M. unfold add_event. unfold_M. simpl.
  by rewrite (proj2 (String.eqb_neq _ _) Hst).
Qed.

Definition is_failure_report (r : request) : bool :=
  match r with
  | ReqReport _ rep _ => match r_event rep with Some install_failed_event => true | _ => false end
  | _ => false
  end.

Lemma is_failure_report_spec r :
  is_failure_report r = true ->
  exists now rep ip, r = ReqReport now rep ip /\ r_event rep = Some install_failed_event.
Proof.
  destruct r as [now rep ip| | | | |]; simpl; try done. destruct (r_event rep) as [[]|] eqn:E; try done.
  intros _. by exists now, rep, ip.
Qed.

Lemma failure_reports_ignored `{JT : JsonText} rs s :
  forallb is_failure_report rs = true -> n_state (s_node s) <> "installing" ->
  s_node (serve_all rs s) = s_node s /\ s_logs (serve_all rs s) = s_logs s.
Proof.
  revert s; induction rs as [|r rs IH]; intros s Hf Hst; [done|].
  simpl in Hf. apply andb_true_iff in Hf as [Hr Hf].
  apply is_failure_report_spec in Hr as (now & rep & ip & -> & He).
  destruct (failure_report_ignored now rep ip s He Hst) as [Hn Hl].
  cbn [serve_all foldl]. destruct (IH (serve s (ReqReport now rep ip)) Hf) as [Hn' Hl'].
  - by rewrite Hn.
  - unfold serve_all in *. by rewrite Hn', Hl'.
Qed.

(** C4: the install retry policy.  A node installing with [a] failed attempts stays in
    [installing], with nothing logged, until its failure count reaches three; the report that
    reaches it moves the node to [install_failed] with one audit entry, and further failure
    reports change neither the state, the counter nor the log. *)
Theorem install_retry_policy `{JT : JsonText} (n : Node) (rs : list request)
    (Hst : n_state n = "installing") (Ha : (0 <= n_install_attempts n < 3)%Z)
    (Hrs : forallb is_failure_report rs = true) :
  let s := serve_all rs (fresh n) in
  let failures := (n_install_attempts n + Z.of_nat (length rs))%Z in
  n_install_attempts (s_node s) = Z.min failures 3
  /\ n_state (s_node s) = (if (failures <? 3)%Z then "installing" else "install_failed")
  /\ length (s_logs s) = (if (failures <? 3)%Z then 0 else 1)%nat.
Proof.
  assert (Hgen : forall s, n_state (s_node s) = "installing" ->
    n_install_attempts (s_node s) = n_install_attempts n -> s_logs s = [] ->
    let s' := serve_all rs s in
    let failures := (n_install_attempts n + Z.of_nat (length rs))%Z in
    n_install_attempts (s_node s') = Z.min failures 3
    /\ n_state (s_node s') = (if (failures <? 3)%Z then "installing" else "install_failed")
    /\ length (s_logs s') = (if (failures <? 3)%Z then 0 else 1)%nat); [|by apply Hgen].
  clear Hst. revert Ha. generalize (n_install_attempts n) as a.
  induction rs as [|r rs IH]; intros a Ha s Hst Has Hl.
  { cbn. rewrite Hl, Hst, Has, Z.add_0_r. destruct (Z.ltb_spec a 3); [|lia]. split; [lia|done]. }
  simpl in Hrs. apply andb_true_iff in Hrs as [Hr Hrs]. specialize (IH Hrs).
  apply is_failure_report_spec in Hr as (now & rep & ip & -> & He).
  destruct (failure_report_step now rep ip s a He Hst Has) as [Ha' Hs'].
  cbn [serve_all foldl] in *. cbn zeta. destruct (Z.ltb_spec (a + 1) 3) as [Hlt|Hge].
  - destruct Hs' as [Hst' Hl']. specialize (IH (a + 1)%Z ltac:(lia) _ Hst' Ha').
    rewrite Hl', Hl in IH. specialize (IH eq_refl). cbn [length].
    replace (a + Z.of_nat (S (length rs)))%Z with (a + 1 + Z.of_nat (length rs))%Z by lia. exact IH.
  - destruct Hs' as [Hst' Hl']. rewrite Hl in Hl'.
    destruct (failure_reports_ignored rs (serve s (ReqReport now rep ip)) Hrs) as [Hn Hlg].
    { by rewrite Hst'. }
    unfold serve_all in *. rewrite Hn, Hlg, Hst', Ha', Hl'.
    cbn [length]. destruct (Z.ltb_spec (a + Z.of_nat (S (length rs))) 3); [lia|]. split; [lia|done].
Qed.

Lemma install_retry_policy_witness :
  let rs := replicate 4 (ReqReport 9 (report0 install_failed_event) None) in
  forallb is_failure_report rs = true
  /\ n_state (s_node (serve_all rs (fresh (node0 "installing" 1)))) = "install_failed".
Proof.
  intros rs. split; [reflexivity|].
  exact (proj1 (proj2 (install_retry_policy (node0 "installing" 1) rs eq_refl
                         ltac:(split; [intros H; discriminate H | reflexivity]) eq_refl))).
Defined.

(** ** Giving up *)

(** A node in [install_failed] has used its attempts. *)
Definition given_up (s : Session) : Prop :=
  n_state (s_node s) = "install_failed" -> (3 <= n_install_attempts (s_node s))%Z.

Section GivenUp.
Context `{JT : JsonText}.
Lemma gu_transition now to by_ uid c md force s :
  to <> "install_failed" -> given_up s ->
  given_up (StateTransitionService.transition now to by_ uid c md force s).2.
Proof.
  intros Hto Hs. unfold StateTransitionService.transition. unfold_M. simpl.
  case_match; [done|]. case_match; [done|].
  destruct (force || (to =? "installed")%string); by intros ?.
Qed.

Lemma gu_record now stored error s :
  given_up s -> given_up (StateTransitionService.record_failure now stored error s).2.
Proof.
  intros Hs. unfold StateTransitionService.record_failure, MAX_INSTALL_ATTEMPTS.
  unfold_M. unfold set_node. unfold_M. cbn -[StateTransitionService.transition Z.leb].
  destruct (Z.leb_spec 3 (n_install_attempts (s_node s) + 1)).
  - unfold StateTransitionService.transition. unfold_M. simpl. repeat case_match; simpl; try done; intros ?; simpl in *; lia.
  - intros Hf; simpl in *. specialize (Hs Hf). lia.
Qed.

Lemma gu_keeps_transition now to by_ uid c md force :
  to <> "install_failed" ->
  keeps given_up (StateTransitionService.transition now to by_ uid c md force).
Proof. intros Hto s. by apply gu_transition. Qed.

Lemma gu_keeps_failure now error :
  keeps given_up (StateTransitionService.handle_install_failure now error).
Proof. unfold StateTransitionService.handle_install_failure. intros s. apply gu_record. Qed.

Lemma gu_keeps_record now stored error : keeps given_up (StateTransitionService.record_failure now stored error).
Proof. intros s. apply gu_record. Qed.

(** Reading never changes the session; only [f] of the following does. *)
Lemma gu_keeps_guarded l (f : bool -> NodeM string) :
  (forall s b, given_up s -> b = existsb (String.eqb (n_state (s_node s))) l ->
               given_up (f b s).2) ->
  keeps given_up (b ← in_states l; f b).
Proof. intros Hf s Hs. unfold in_states, node_state. unfold_M. simpl. by apply Hf. Qed.

Lemma gu_started now s :
  n_state (s_node s) = "pending" ->
  given_up ((StateTransitionService.transition now "installing" "node_report" None None None false;;
             set_node (fun n => with_attempts 0 (n_last_install_error n) n);;
             mret "Installation started" : NodeM string) s).2.
Proof.
  intros Hst. unfold StateTransitionService.transition, set_node, add_log. unfold_M. simpl.
  rewrite Hst. simpl. by intros ?.
Qed.

Lemma gu_keeps_pure {A} (f : Session -> A) :
  keeps given_up (s ← get_state; mret (M := M Session lifecycle_error) (f s)).
Proof. by intros s. Qed.

Lemma gu_keeps_event e : keeps given_up (add_event e).
Proof. by intros s. Qed.

Lemma gu_keeps_log ty st m p md ip : keeps given_up (EventService.log_event ty st m p md ip).
Proof. by intros s. Qed.

Lemma gu_keeps_raise {A} (e : lifecycle_error) : keeps given_up (raise (A := A) e).
Proof. by intros s. Qed.

Lemma gu_keeps_state : keeps given_up node_state.
Proof. by intros s. Qed.

Lemma gu_keeps_message : keeps given_up failure_message.
Proof. apply gu_keeps_pure. Qed.

#[local] Hint Resolve gu_keeps_failure gu_keeps_record gu_keeps_event gu_keeps_log gu_keeps_raise gu_keeps_state
  gu_keeps_message : pyboot.
#[local] Hint Extern 1 (keeps given_up (StateTransitionService.transition _ _ _ _ _ _ _)) =>
  apply gu_keeps_transition; discriminate : pyboot.

Lemma gu_event now e report ip : keeps given_up (_handle_event now e report ip).
Proof.
  unfold _handle_event. apply keeps_bind; [auto with pyboot|]. intros [].
  destruct e; try (by auto with pyboot); try (by apply keeps_bind; [by intros s|auto with pyboot]);
    apply gu_keeps_guarded; intros s b Hs Hb; destruct b; try done.
  2,3,4: apply (keeps_bind given_up); auto with pyboot.
  apply gu_started. simpl in Hb. rewrite orb_false_r in Hb. by apply String.eqb_eq.
Qed.

Lemma gu_legacy now st report ip :
  keeps given_up (_handle_legacy_installation_status now st report ip).
Proof.
  unfold _handle_legacy_installation_status. apply keeps_bind; [auto with pyboot|]. intros [] s Hs.
  unfold node_state. unfold mbind at 1, M_bind at 1. unfold mbind at 1, M_bind at 1. simpl.
  destruct (String.eqb_spec (n_state (s_node s)) "pending") as [Hp|_]; simpl;
    rewrite ?andb_true_r, ?andb_false_r.
  - destruct (String.eqb st "started"); [by apply gu_started|].
    rewrite Hp. simpl. rewrite !andb_false_r. done.
  - destruct (_ && _); [apply (keeps_bind given_up); auto with pyboot|].
    destruct (_ && _); [apply (keeps_bind given_up); auto with pyboot|]. done.
Qed.

Lemma gu_handle r : requested r <> Some "install_failed" -> keeps given_up (handle r).
Proof.
  intros Hr. destruct r as [now rep ip|now body ip|now body|body ip|now st c force|now st]; simpl in *.
  - unfold report_dispatch. repeat case_match; auto using gu_event, gu_legacy with pyboot.
  - unfold node_installed_callback. apply gu_keeps_guarded. intros s b Hs _.
    destruct (_ && b); [|done]. apply (keeps_bind given_up); auto with pyboot.
  - unfold node_install_failed_callback. apply gu_keeps_guarded. intros s b Hs _.
    apply (keeps_bind given_up); [destruct b; [destruct (stored_text _)|]|..]; auto with pyboot.
  - unfold clone_source_ready. apply (keeps_bind given_up); [destruct (stored_text _)|]; auto with pyboot.
  - unfold validated. destruct (validate_state st); [|by intros s Hs].
    unfold transition_node_state. apply keeps_catch.
    + apply keeps_bind; [apply gu_keeps_transition; congruence|auto with pyboot].
    + intros []; auto with pyboot.
  - unfold validated. destruct (validate_state st); [|by intros s Hs].
    unfold bulk_change_one. apply keeps_bind; [|auto with pyboot]. apply keeps_catch.
    + apply keeps_bind; [apply gu_keeps_transition; congruence|auto with pyboot].
    + intros []; auto with pyboot.
Qed.

Lemma gu_serve_all rs s :
  Forall (fun r => requested r <> Some "install_failed") rs ->
  given_up s -> given_up (serve_all rs s).
Proof.
  revert s; induction rs as [|r rs IH]; intros s Hr Hs; simpl; [done|].
  inversion Hr as [|? ? Hr1 Hr2]; subst. apply IH; [done|].
  unfold serve, with_db. pose proof (gu_handle r Hr1 s Hs) as H.
  by destruct (handle r s) as [[]].
Qed.
End GivenUp.

(** As long as nobody asks for [install_failed] by hand, a node that reached it has used up its
    attempts: an unforced admin request back to [pending] is then refused with a 400 that leaves
    the session as it was, and only a forced one resets the counter and lets the node retry. *)
Theorem install_failed_needs_force `{JT : JsonText} (n : Node) (rs : list request) (now : Z) (c : option string)
    (H0 : n_state n <> "install_failed")
    (Hrs : Forall (fun r => requested r <> Some "install_failed") rs)
    (Hfailed : n_state (s_node (serve_all rs (fresh n))) = "install_failed") :
  let s := serve_all rs (fresh n) in
  with_db (transition_node_state now "pending" c false) s
    = (Err (HTTPException 400 StateTransitionService.max_attempts_message), s)
  /\ exists s', with_db (transition_node_state now "pending" c true) s
                = (Ok "Node transitioned to pending", s')
              /\ n_state (s_node s') = "pending" /\ n_install_attempts (s_node s') = 0%Z.
Proof.
  intros s. assert (Hg : given_up s).
  { apply gu_serve_all; [done|]. by intros ?. }
  specialize (Hg Hfailed). fold s in Hfailed.
  unfold with_db, transition_node_state, StateTransitionService.transition, MAX_INSTALL_ATTEMPTS.
  unfold set_node, add_log. unfold_M. cbn -[Z.leb]. rewrite Hfailed. cbn -[Z.leb].
  rewrite (proj2 (Z.leb_le 3 (n_install_attempts (s_node s))) Hg). cbn.
  split; [done|]. eexists. split; [done|]. done.
Qed.

Lemma install_failed_needs_force_witness :
  let rs := replicate 3 (ReqReport 9 (report0 install_failed_event) None) in
  with_db (transition_node_state 10 "pending" None false) (serve_all rs (fresh (node0 "installing" 0)))
  = (Err (HTTPException 400 StateTransitionService.max_attempts_message),
     serve_all rs (fresh (node0 "installing" 0))).
Proof.
  intros rs.
  refine (proj1 (install_failed_needs_force (node0 "installing" 0) rs 10 None _ _ _)).
  - discriminate.
  - repeat constructor; discriminate.
  - reflexivity.
Defined.

(** ** Where the handlers and the state machine disagree *)

(** The deploy callbacks accept a [pending] node, but no lifecycle edge leaves [pending] for
    [installed] or [install_failed]: a success callback always raises [InvalidStateTransition] and
    is rolled back, and the failure callback that would be the third one does too, so a pending
    node's failure count never gets past two. *)
Theorem deploy_callbacks_fail_on_pending `{JT : JsonText} (s : Session) (now : Z) (body : option json)
    (ip : option string) (Hst : n_state (s_node s) = "pending") :
  (body_success body = true ->
   with_db (node_installed_callback now body ip) s
   = (Err (InvalidTransition {| from_state := "pending"; to_state := "installed" |}), s))
  /\ ((2 <= n_install_attempts (s_node s))%Z ->
      with_db (node_install_failed_callback now body) s
      = (Err (InvalidTransition {| from_state := "pending"; to_state := "install_failed" |}), s)).
Proof.
  split.
  - intros Hb. unfold with_db, node_installed_callback, in_states, node_state,
      StateTransitionService.transition. unfold_M. simpl. rewrite Hst. simpl. rewrite Hb. simpl.
    by rewrite Hst.
  - intros Ha. unfold with_db, node_install_failed_callback, in_states, node_state,
      StateTransitionService.handle_install_failure, StateTransitionService.record_failure, StateTransitionService.transition,
      MAX_INSTALL_ATTEMPTS, set_node. unfold_M. cbn -[Z.leb stored_text]. rewrite Hst. cbn -[Z.leb stored_text].
    destruct (stored_text _); cbn -[Z.leb]; rewrite (proj2 (Z.leb_le 3 _)) by lia; cbn; by rewrite Hst.
Qed.

Lemma deploy_callbacks_fail_on_pending_witness :
  with_db (node_installed_callback 5 None None) (fresh (node0 "pending" 0))
  = (Err (InvalidTransition {| from_state := "pending"; to_state := "installed" |}),
     fresh (node0 "pending" 0)).
Proof.
  exact (proj1 (deploy_callbacks_fail_on_pending (fresh (node0 "pending" 0)) 5 None None eq_refl)
           eq_refl).
Defined.

(** A forced admin request puts a node in any known state, whatever state it is in, and clears its
    attempts; with a state that is not known it changes nothing. *)
Theorem forced_request_reaches_known_states `{JT : JsonText} (s : Session) (now : Z) (st : string) (c : option string) :
  let s' := serve s (ReqAdmin now st c true) in
  if validate_state st then n_state (s_node s') = st /\ n_install_attempts (s_node s') = 0%Z else s' = s.
Proof.
  intros s'. unfold s', serve, with_db, handle, validated. destruct (validate_state st); [|done].
  unfold transition_node_state, StateTransitionService.transition, set_node, add_log. unfold_M.
  cbn -[Z.leb]. by rewrite andb_false_r.
Qed.

(** Whatever requests a node receives, forced or not, a node in a known state stays in known
    states, and so does every entry its audit trail gains. *)
Theorem states_stay_known `{JT : JsonText} (n : Node) (rs : list request) (Hn : validate_state (n_state n) = true) :
  let s := serve_all rs (fresh n) in
  validate_state (n_state (s_node s)) = true
  /\ Forall (fun l => validate_state (l_from_state l) = true /\ validate_state (l_to_state l) = true) (s_logs s).
Proof.
  apply (keeps_serve_all (fun _ st logs => validate_state st = true
    /\ Forall (fun l => validate_state (l_from_state l) = true /\ validate_state (l_to_state l) = true) logs) True);
    [|by left|by split].
  intros logs l [Hf Hl] _ Ht. split; [done|]. apply Forall_app. split; [done|]. by constructor.
Qed.

Lemma states_stay_known_witness :
  validate_state (n_state (s_node (serve_all [ReqAdmin 1 "active" None true; ReqAdmin 2 "banana" None true]
                                     (fresh (node0 "discovered" 0))))) = true.
Proof.
  exact (proj1 (states_stay_known (node0 "discovered" 0)
    [ReqAdmin 1 "active" None true; ReqAdmin 2 "banana" None true] eq_refl)).
Defined.
