(* ===== verification/Connectivity.v ===== *)
(** * The connectivity monitor

    [agent/connectivity.py].  The monitor's fields are a record; a probe of
    the central controller's [/health] endpoint is an input, and so is the
    clock.  Listeners are named; [_notify_listeners] yields the calls it makes,
    in order, and an exception of a listener is swallowed, so it has no effect
    here. *)
From S2P Require Import Prelude.
From stdpp Require Import base tactics list strings.
From Stdlib Require Import ZArith Lia.

(** The outcome of [session.get(url)]: a response's status, or an exception. *)
Inductive probe : Type :=
| Status (code : Z)
| ProbeError.

Record ConnectivityMonitor := {
  check_interval : Z;
  failure_threshold : Z;
  is_online : bool;
  last_online_at : option Z;
  offline_since : option Z;
  consecutive_failures : Z;
  consecutive_successes : Z;
  session : bool;
  running : bool;
  task : bool;
  listeners : list nat
}.

(** [__init__] *)
Definition new_monitor (interval threshold : Z) : ConnectivityMonitor :=
  {| check_interval := interval; failure_threshold := threshold; is_online := true;
     last_online_at := None; offline_since := None; consecutive_failures := 0;
     consecutive_successes := 0; session := false; running := false; task := false;
     listeners := [] |}.

(** A listener and the status it is told. *)
Abbreviation call := (nat * bool)%type.

Definition _notify_listeners (m : ConnectivityMonitor) (online : bool) : list call :=
  map (fun l => (l, online)) (listeners m).

Definition offline_duration (now : Z) (m : ConnectivityMonitor) : option Z :=
  if is_online m then None
  else match offline_since m with None => None | Some t => Some (now - t)%Z end.

(** [int(duration.total_seconds())]: microseconds truncated towards zero. *)
Definition offline_duration_seconds (now : Z) (m : ConnectivityMonitor) : Z :=
  match offline_duration now m with None => 0%Z | Some d => Z.quot d 1000000 end.

Definition set_listeners (ls : list nat) (m : ConnectivityMonitor) : ConnectivityMonitor :=
  {| check_interval := check_interval m; failure_threshold := failure_threshold m;
     is_online := is_online m; last_online_at := last_online_at m; offline_since := offline_since m;
     consecutive_failures := consecutive_failures m; consecutive_successes := consecutive_successes m;
     session := session m; running := running m; task := task m; listeners := ls |}.

Definition add_listener (l : nat) (m : ConnectivityMonitor) : ConnectivityMonitor :=
  set_listeners (listeners m ++ [l]) m.

(** [list.remove]: the first occurrence. *)
Fixpoint remove_first (l : nat) (ls : list nat) : list nat :=
  match ls with
  | [] => []
  | x :: ls' => if Nat.eqb x l then ls' else x :: remove_first l ls'
  end.

Definition remove_listener (l : nat) (m : ConnectivityMonitor) : ConnectivityMonitor :=
  if existsb (Nat.eqb l) (listeners m) then set_listeners (remove_first l (listeners m)) m else m.

Definition check_connectivity (m : ConnectivityMonitor) (p : probe) : bool :=
  if negb (session m) then false
  else match p with
       | Status code => Z.eqb code 200
       | ProbeError => false
       end.

Definition set_status (online : bool) (last since : option Z) (failures successes : Z)
    (m : ConnectivityMonitor) : ConnectivityMonitor :=
  {| check_interval := check_interval m; failure_threshold := failure_threshold m;
     is_online := online; last_online_at := last; offline_since := since;
     consecutive_failures := failures; consecutive_successes := successes;
     session := session m; running := running m; task := task m; listeners := listeners m |}.

Definition _update_state (now : Z) (check_result : bool) (m : ConnectivityMonitor)
    : ConnectivityMonitor * list call :=
  if check_result then
    let successes := (consecutive_successes m + 1)%Z in
    if negb (is_online m)
    then let m' := set_status true (Some now) None 0 successes m in
         (m', _notify_listeners m' true)
    else (set_status (is_online m) (Some now) (offline_since m) 0 successes m, [])
  else
    let failures := (consecutive_failures m + 1)%Z in
    if is_online m && (failure_threshold m <=? failures)%Z
    then let m' := set_status false (last_online_at m) (Some now) failures 0 m in
         (m', _notify_listeners m' false)
    else (set_status (is_online m) (last_online_at m) (offline_since m) failures 0 m, []).

Definition check_and_update (now : Z) (p : probe) (m : ConnectivityMonitor)
    : ConnectivityMonitor * list call :=
  _update_state now (check_connectivity m p) m.

Definition force_check (now : Z) (p : probe) (m : ConnectivityMonitor)
    : bool * ConnectivityMonitor * list call :=
  let '(m', calls) := check_and_update now p m in (is_online m', m', calls).

(** [_run_loop] over the probes it gets: one round per probe while
    [self._running]. *)
Fixpoint _run_loop (rounds : list (Z * probe)) (m : ConnectivityMonitor)
    : ConnectivityMonitor * list call :=
  match rounds with
  | [] => (m, [])
  | (now, p) :: rest =>
      if running m then
        let '(m1, c1) := check_and_update now p m in
        let '(m2, c2) := _run_loop rest m1 in
        (m2, c1 ++ c2)
      else (m, [])
  end.

Definition set_running (sess run tsk : bool) (last : option Z) (m : ConnectivityMonitor)
    : ConnectivityMonitor :=
  {| check_interval := check_interval m; failure_threshold := failure_threshold m;
     is_online := is_online m; last_online_at := last; offline_since := offline_since m;
     consecutive_failures := consecutive_failures m; consecutive_successes := consecutive_successes m;
     session := sess; running := run; task := tsk; listeners := listeners m |}.

Definition start (now : Z) (p : probe) (m : ConnectivityMonitor) : ConnectivityMonitor * list call :=
  if running m then (m, [])
  else
    let m1 := set_running true true (task m) (Some now) m in
    let '(m2, calls) := check_and_update now p m1 in
    (set_running (session m2) (running m2) true (last_online_at m2) m2, calls).

Definition stop (m : ConnectivityMonitor) : ConnectivityMonitor :=
  if negb (running m) then m else set_running false false false (last_online_at m) m.

(** ** Runs of the monitor *)

Inductive op : Type :=
| OpStart (now : Z) (p : probe)
| OpRound (now : Z) (p : probe)      (* one iteration of [_run_loop] *)
| OpForce (now : Z) (p : probe)
| OpStop
| OpAdd (l : nat)
| OpRemove (l : nat).

Definition step (m : ConnectivityMonitor) (o : op) : ConnectivityMonitor * list call :=
  match o with
  | OpStart now p => start now p m
  | OpRound now p => _run_loop [(now, p)] m
  | OpForce now p => let '(_, m', c) := force_check now p m in (m', c)
  | OpStop => (stop m, [])
  | OpAdd l => (add_listener l m, [])
  | OpRemove l => (remove_listener l m, [])
  end.

Fixpoint run (ops : list op) (m : ConnectivityMonitor) : ConnectivityMonitor * list call :=
  match ops with
  | [] => (m, [])
  | o :: rest =>
      let '(m1, c1) := step m o in
      let '(m2, c2) := run rest m1 in (m2, c1 ++ c2)
  end.

(** The check results a monitor has seen, newest first, drive everything. *)
Definition update_all (results : list (Z * bool)) (m : ConnectivityMonitor) : ConnectivityMonitor :=
  foldl (fun m r => (_update_state r.1 r.2 m).1) m results.

(** The length of the run of failures (successes) a history ends with. *)
Definition trailing (b : bool) (results : list bool) : Z :=
  Z.of_nat (foldl (fun n r => if Bool.eqb r b then S n else 0%nat) 0%nat results).

(** The monitor is the hysteresis it documents.  After any history of check results it is offline
    exactly when the history ends with at least [failure_threshold] failures in a row (one, for a
    threshold of zero or less), one success brings it back, and the counters are the lengths of the
    current runs. *)
Theorem online_iff_few_trailing_failures (interval threshold : Z) (results : list (Z * bool)) :
  let m := update_all results (new_monitor interval threshold) in
  let history := map snd results in
  is_online m = (trailing false history <? Z.max 1 threshold)%Z
  /\ consecutive_failures m = trailing false history
  /\ consecutive_successes m = trailing true history
  /\ failure_threshold m = threshold.
Proof.
  induction results as [|[now b] results IH] using rev_ind.
  { cbn -[Z.max Z.ltb trailing]. repeat split. symmetry. apply Z.ltb_lt. unfold trailing; simpl. lia. }
  unfold update_all, trailing in *. rewrite map_app, !foldl_app. cbn [map foldl snd fst].
  destruct IH as (Ho & Hf & Hs & Ht). cbn zeta in *.
  set (m := foldl _ _ results) in *.
  set (f := foldl _ 0%nat (map snd results)) in *.
  set (g := foldl _ 0%nat (map snd results)) in *.
  destruct b; cbn [Bool.eqb]; unfold _update_state.
  - destruct (is_online m); cbn -[Z.of_nat Z.max Z.ltb]; rewrite ?Hs; repeat split; try done; try lia;
      symmetry; apply Z.ltb_lt; lia.
  - rewrite Hf, Ht, Ho.
    destruct (Z.ltb_spec (Z.of_nat f) (Z.max 1 threshold)),
             (Z.leb_spec threshold (Z.of_nat f + 1)); cbn -[Z.of_nat Z.max Z.ltb];
      repeat split; try done; try lia; symmetry;
      first [apply Z.ltb_lt; lia | apply Z.ltb_ge; lia].
Qed.

(** ** Well-formedness and notifications *)

(** Offline exactly when the start of the outage is known. *)
Definition monitor_wf (m : ConnectivityMonitor) : Prop :=
  is_online m = true <-> offline_since m = None.

(** The statuses [b]'s listeners are told, after status [cur]. *)
Fixpoint alternates (cur : bool) (statuses : list bool) : bool :=
  match statuses with
  | [] => true
  | s :: rest => negb (Bool.eqb s cur) && alternates s rest
  end.

Fixpoint last_status (cur : bool) (statuses : list bool) : bool :=
  match statuses with [] => cur | s :: rest => last_status s rest end.

(** What one listener is told. *)
Definition told (l : nat) (calls : list call) : list bool :=
  map snd (List.filter (fun c => Nat.eqb (fst c) l) calls).

Lemma alternates_app cur s1 s2 :
  alternates cur (s1 ++ s2) = alternates cur s1 && alternates (last_status cur s1) s2.
Proof. revert cur; induction s1 as [|s s1 IH]; intros cur; simpl; [done|]. by rewrite IH, andb_assoc. Qed.

Lemma last_status_app cur s1 s2 : last_status cur (s1 ++ s2) = last_status (last_status cur s1) s2.
Proof. revert cur; induction s1 as [|s s1 IH]; intros cur; simpl; auto. Qed.

Lemma told_app l c1 c2 : told l (c1 ++ c2) = told l c1 ++ told l c2.
Proof. unfold told. by rewrite List.filter_app, map_app. Qed.

Definition once (l : nat) (m : ConnectivityMonitor) : Prop :=
  count_occ Nat.eq_dec (listeners m) l = 1%nat.

Lemma told_notify l m b : once l m -> told l (_notify_listeners m b) = [b].
Proof.
  unfold once, told, _notify_listeners. generalize (listeners m) as ls.
  assert (H0 : forall ls, count_occ Nat.eq_dec ls l = 0%nat ->
    map snd (List.filter (fun c : call => Nat.eqb (fst c) l) (map (fun l => (l, b)) ls)) = []).
  { induction ls as [|x ls IH]; cbn; [done|]. destruct (Nat.eq_dec x l) as [|Hne]; [done|].
    intros H. rewrite (proj2 (Nat.eqb_neq x l) Hne). auto. }
  induction ls as [|x ls IH]; cbn; [done|]. destruct (Nat.eq_dec x l) as [->|Hne]; intros H.
  - rewrite Nat.eqb_refl. cbn. rewrite H0; [done|lia].
  - rewrite (proj2 (Nat.eqb_neq x l) Hne). auto.
Qed.

(** What an update tells a registered listener: its new status, if it changed. *)
Lemma update_told l now b m :
  once l m ->
  let '(m', calls) := _update_state now b m in
  once l m' /\ (monitor_wf m -> monitor_wf m')
  /\ alternates (is_online m) (told l calls) = true
  /\ last_status (is_online m) (told l calls) = is_online m'.
Proof.
  intros Hl. unfold _update_state, monitor_wf.
  destruct b, (is_online m) eqn:Eo; cbn [negb andb].
  - cbn. auto.
  - cbn zeta. rewrite told_notify by exact Hl. cbn. intuition congruence.
  - destruct (Z.leb _ _); cbn zeta; [rewrite told_notify by exact Hl|]; cbn;
      intuition congruence.
  - cbn. auto.
Qed.

Lemma remove_first_other l x ls :
  x <> l -> count_occ Nat.eq_dec (remove_first x ls) l = count_occ Nat.eq_dec ls l.
Proof.
  intros Hne. induction ls as [|y ls IH]; cbn; [done|].
  destruct (Nat.eqb_spec y x) as [->|]; cbn.
  - by destruct (Nat.eq_dec x l).
  - destruct (Nat.eq_dec y l); by rewrite IH.
Qed.

(** Operations that keep [l] registered once. *)
Definition leaves (l : nat) (o : op) : bool :=
  match o with OpAdd x | OpRemove x => negb (Nat.eqb x l) | _ => true end.

Lemma step_told l m o :
  once l m -> leaves l o = true ->
  let '(m', calls) := step m o in
  once l m' /\ (monitor_wf m -> monitor_wf m')
  /\ alternates (is_online m) (told l calls) = true
  /\ last_status (is_online m) (told l calls) = is_online m'.
Proof.
  intros Hl Hlv. destruct o as [now p|now p|now p| |x|x]; cbn [step leaves] in *.
  - unfold start, check_and_update. destruct (running m); [cbn; auto|].
    set (m1 := set_running _ _ _ _ m).
    pose proof (update_told l now (check_connectivity m1 p) m1 Hl) as H.
    by destruct (_update_state _ _ m1).
  - cbn [_run_loop]. destruct (running m); [|cbn; auto]. unfold check_and_update.
    pose proof (update_told l now (check_connectivity m p) m Hl) as H.
    destruct (_update_state _ _ m). by rewrite app_nil_r.
  - unfold force_check, check_and_update.
    pose proof (update_told l now (check_connectivity m p) m Hl) as H.
    by destruct (_update_state _ _ m).
  - unfold stop. destruct (negb _); cbn; auto.
  - apply negb_true_iff, Nat.eqb_neq in Hlv. split; [|by cbn].
    unfold once in *; cbn. rewrite count_occ_app. cbn. destruct (Nat.eq_dec x l); [done|]. lia.
  - apply negb_true_iff, Nat.eqb_neq in Hlv. unfold remove_listener.
    destruct (existsb _ _); [|by cbn]. split; [|by cbn].
    unfold once in *; cbn. by rewrite remove_first_other.
Qed.

(** Over any run of starts, rounds, forced checks, stops and other listeners coming and going, a
    listener registered once hears strictly alternating statuses, the last of them (or the status it
    joined under) is the monitor's current status, and the monitor is offline exactly when
    [offline_since] is set. *)
Theorem listeners_hear_every_change_once (l : nat) (m : ConnectivityMonitor) (ops : list op)
    (Hl : once l m) (Hwf : monitor_wf m) (Hops : forallb (leaves l) ops = true) :
  let '(m', calls) := run ops m in
  alternates (is_online m) (told l calls) = true
  /\ last_status (is_online m) (told l calls) = is_online m'
  /\ monitor_wf m'.
Proof.
  revert m Hl Hwf. induction ops as [|o ops IH]; intros m Hl Hwf; cbn [run]; [done|].
  cbn in Hops. apply andb_true_iff in Hops as [Ho Hops].
  pose proof (step_told l m o Hl Ho) as H. destruct (step m o) as [m1 c1].
  destruct H as (Hl1 & Hwf1 & Ha1 & Hs1). specialize (IH Hops m1 Hl1 (Hwf1 Hwf)).
  destruct (run ops m1) as [m2 c2]. destruct IH as (Ha2 & Hs2 & Hwf2).
  rewrite told_app, alternates_app, last_status_app, Hs1, Ha1. auto.
Qed.

Lemma listeners_hear_every_change_once_witness :
  let m := add_listener 7 (new_monitor 30 2) in
  let ops := [OpStart 0 (Status 200); OpRound 1 ProbeError; OpRound 2 (Status 500);
              OpAdd 8; OpRound 3 ProbeError; OpForce 4 (Status 200); OpStop] in
  told 7 (run ops m).2 = [false; true]
  /\ alternates (is_online m) (told 7 (run ops m).2) = true.
Proof.
  intros m ops. split; [reflexivity|].
  exact (proj1 (listeners_hear_every_change_once 7 m ops eq_refl
                  (conj (fun _ => eq_refl) (fun _ => eq_refl)) eq_refl)).
Defined.
