(* ===== verification/SyncQueue.v ===== *)
(** * The offline sync queue

    [agent/queue.py].  The SQLite file is a table of items with their id as
    primary key; [open_] says whether the connection is open, and every
    operation on a closed queue raises.  Timestamps are microseconds since the
    epoch (the code writes them with [isoformat] in UTC, whose text order is
    the order of the instants), and payloads are kept as the JSON values
    [json.dumps] and [json.loads] carry unchanged. *)
From S2P Require Import Prelude SqlTable.
From stdpp Require Import base tactics list strings sorting.
From Stdlib Require Import ZArith Lia.

Inductive item_status : Type := Pending | Processing | Failed.

#[export] Instance item_status_eq_dec : EqDecision item_status.
Proof. solve_decision. Defined.

Record QueueItem := {
  qi_id : string;
  qi_item_type : string;
  qi_payload : list (string * json);   (* a JSON object *)
  qi_created_at : Z;
  qi_attempts : Z;
  qi_last_attempt_at : option Z;
  qi_last_error : option string;
  qi_status : item_status
}.

Record SyncQueue := { rows : list QueueItem; open_ : bool }.

Inductive queue_error : Type :=
| ConnectionClosed
| IntegrityError.

Abbreviation QueueM A := (M SyncQueue queue_error A).

(** [__init__] on a fresh path. *)
Definition new_queue : SyncQueue := {| rows := []; open_ := false |}.

(** [CREATE TABLE IF NOT EXISTS] keeps the rows of an existing file. *)
Definition initialize : QueueM unit := modify (fun q => {| rows := rows q; open_ := true |}).
Definition close : QueueM unit := modify (fun q => {| rows := rows q; open_ := false |}).

(** A statement on the open connection. *)
Definition with_conn {A} (f : list QueueItem -> result queue_error A * list QueueItem) : QueueM A :=
  fun q => if open_ q
           then let '(r, t) := f (rows q) in (r, {| rows := t; open_ := true |})
           else (Err ConnectionClosed, q).

Definition set_qid (id : string) (i : QueueItem) : QueueItem :=
  {| qi_id := id; qi_item_type := qi_item_type i; qi_payload := qi_payload i;
     qi_created_at := qi_created_at i; qi_attempts := qi_attempts i;
     qi_last_attempt_at := qi_last_attempt_at i; qi_last_error := qi_last_error i;
     qi_status := qi_status i |}.

(** The columns the [UPDATE]s set. *)
Definition set_qstatus (st : item_status) (err : option string) (i : QueueItem) : QueueItem :=
  {| qi_id := qi_id i; qi_item_type := qi_item_type i; qi_payload := qi_payload i;
     qi_created_at := qi_created_at i; qi_attempts := qi_attempts i;
     qi_last_attempt_at := qi_last_attempt_at i; qi_last_error := err; qi_status := st |}.

Definition start_attempt (now : Z) (i : QueueItem) : QueueItem :=
  {| qi_id := qi_id i; qi_item_type := qi_item_type i; qi_payload := qi_payload i;
     qi_created_at := qi_created_at i; qi_attempts := qi_attempts i + 1;
     qi_last_attempt_at := Some now; qi_last_error := qi_last_error i; qi_status := Processing |}.

Definition has_status (st : item_status) (i : QueueItem) : bool := bool_decide (qi_status i = st).

Definition enqueue (uuid : string) (item : QueueItem) : QueueM string :=
  let item := if String.eqb (qi_id item) "" then set_qid uuid item else item in
  with_conn (fun t => match sql_insert qi_id item t with
                      | Some t' => (Ok (qi_id item), t')
                      | None => (Err IntegrityError, t)
                      end).

(** [LIMIT ?]: a negative limit is no limit. *)
Definition sql_limit {A} (limit : Z) (l : list A) : list A :=
  if (limit <? 0)%Z then l else take (Z.to_nat limit) l.

Definition pending_in_order (t : list QueueItem) : list QueueItem :=
  order_by qi_created_at (sql_select (has_status Pending) t).

Definition peek (limit : Z) : QueueM (list QueueItem) :=
  with_conn (fun t => (Ok (sql_limit limit (pending_in_order t)), t)).

Definition get_item (queue_id : string) : QueueM (option QueueItem) :=
  with_conn (fun t => (Ok (sql_find qi_id queue_id t), t)).

(** An [UPDATE] or [DELETE] that reports [cursor.rowcount > 0]. *)
Definition affected (r : list QueueItem * Z) : result queue_error bool * list QueueItem :=
  (Ok (0 <? r.2)%Z, r.1).
Definition affected_count (r : list QueueItem * Z) : result queue_error Z * list QueueItem :=
  (Ok r.2, r.1).

Definition dequeue (queue_id : string) : QueueM bool :=
  with_conn (fun t => affected (sql_delete (has_key qi_id queue_id) t)).

Definition mark_processing (now : Z) (queue_id : string) : QueueM bool :=
  with_conn (fun t => affected (sql_update (has_key qi_id queue_id) (start_attempt now) t)).

Definition mark_pending (queue_id : string) : QueueM bool :=
  with_conn (fun t => affected (sql_update (has_key qi_id queue_id)
                                  (fun i => set_qstatus Pending (qi_last_error i) i) t)).

Definition mark_failed (queue_id error : string) : QueueM bool :=
  with_conn (fun t => affected (sql_update (has_key qi_id queue_id)
                                  (set_qstatus Failed (Some error)) t)).

Definition get_pending_count : QueueM Z :=
  with_conn (fun t => (Ok (sql_count (has_status Pending) t), t)).

Definition get_failed_count : QueueM Z :=
  with_conn (fun t => (Ok (sql_count (has_status Failed) t), t)).

Definition get_failed_items : QueueM (list QueueItem) :=
  with_conn (fun t => (Ok (order_by qi_created_at (sql_select (has_status Failed) t)), t)).

Definition clear_failed : QueueM Z :=
  with_conn (fun t => affected_count (sql_delete (has_status Failed) t)).

Definition retry_failed : QueueM Z :=
  with_conn (fun t => affected_count (sql_update (has_status Failed) (set_qstatus Pending None) t)).

Record queue_stats := { st_pending : Z; st_processing : Z; st_failed : Z; st_total : Z }.

(** [SELECT status, COUNT( * ) .. GROUP BY status]: only statuses that occur. *)
Definition status_counts (t : list QueueItem) : list (item_status * Z) :=
  List.filter (fun c => negb (Z.eqb c.2 0))
    (map (fun st => (st, sql_count (has_status st) t)) [Failed; Pending; Processing]).

(** [status_counts.get(st, 0)] *)
Fixpoint count_of (st : item_status) (counts : list (item_status * Z)) : Z :=
  match counts with
  | [] => 0%Z
  | (s, c) :: rest => if bool_decide (s = st) then c else count_of st rest
  end.

Definition get_stats : QueueM queue_stats :=
  with_conn (fun t =>
    let counts := status_counts t in
    (Ok {| st_pending := count_of Pending counts; st_processing := count_of Processing counts;
           st_failed := count_of Failed counts;
           st_total := foldr Z.add 0%Z (map snd counts) |}, t)).

(** ** Runs *)

Inductive queue_op : Type :=
| QEnqueue (uuid : string) (item : QueueItem)
| QDequeue (id : string)
| QMarkProcessing (now : Z) (id : string)
| QMarkPending (id : string)
| QMarkFailed (id error : string)
| QClearFailed
| QRetryFailed
| QRestart
| QRead.    (* peek, get_item, the counts and the statistics *)

Definition queue_step (q : SyncQueue) (o : queue_op) : SyncQueue :=
  match o with
  | QEnqueue uuid item => (enqueue uuid item q).2
  | QDequeue id => (dequeue id q).2
  | QMarkProcessing now id => (mark_processing now id q).2
  | QMarkPending id => (mark_pending id q).2
  | QMarkFailed id error => (mark_failed id error q).2
  | QClearFailed => (clear_failed q).2
  | QRetryFailed => (retry_failed q).2
  | QRestart => ((close;; initialize : QueueM unit) q).2
  | QRead => (peek 10 q).2
  end.
Definition queue_run (ops : list queue_op) (q : SyncQueue) : SyncQueue := foldl queue_step q ops.

Definition queue_wf (q : SyncQueue) : Prop := keys_unique qi_id (rows q).

Lemma with_conn_rows {A} (P : list QueueItem -> Prop) (f : list QueueItem -> result queue_error A * list QueueItem) q :
  (forall t, P t -> P (f t).2) -> P (rows q) -> P (rows (with_conn f q).2).
Proof.
  intros Hf Hq. unfold with_conn. destruct (open_ q); [|done].
  specialize (Hf (rows q) Hq). by destruct (f (rows q)).
Qed.

Lemma with_conn_open {A} (f : list QueueItem -> result queue_error A * list QueueItem) q :
  open_ (with_conn f q).2 = open_ q.
Proof. unfold with_conn. destruct (open_ q) eqn:E; [|done]. by destruct (f (rows q)). Qed.

(** What a primary key buys: every operation keeps the ids distinct. *)
Lemma queue_step_wf q o : queue_wf q -> queue_wf (queue_step q o).
Proof.
  unfold queue_wf. intros Hq. destruct o; cbn [queue_step]; [..|done|];
    apply (with_conn_rows (keys_unique qi_id)); try done; intros t Ht;
    try (by apply keys_unique_update); try (by apply keys_unique_delete); cbn; try done.
  destruct (sql_insert qi_id _ t) eqn:E; [|done]. by eapply keys_unique_insert.
Qed.

Lemma queue_run_wf ops q : queue_wf q -> queue_wf (queue_run ops q).
Proof. revert q; induction ops as [|o ops IH]; intros q Hq; [done|]. by apply IH, queue_step_wf. Qed.

(** ** FIFO *)

Lemma pending_in_order_perm t : pending_in_order t ≡ₚ sql_select (has_status Pending) t.
Proof. apply order_by_perm. Qed.

Lemma elem_of_pending_in_order t i : i ∈ pending_in_order t <-> i ∈ t /\ qi_status i = Pending.
Proof.
  rewrite pending_in_order_perm, elem_of_sql_select. unfold has_status.
  by rewrite bool_decide_eq_true.
Qed.

Lemma sql_limit_prefix {A} limit (l : list A) : exists l', l = sql_limit limit l ++ l'.
Proof.
  unfold sql_limit. destruct (limit <? 0)%Z; [exists []; by rewrite app_nil_r|].
  exists (drop (Z.to_nat limit) l). by rewrite take_drop.
Qed.

Lemma ordered_app_le {A} (k : A -> Z) l1 l2 x y :
  ordered k (l1 ++ l2) -> x ∈ l1 -> y ∈ l2 -> (k x <= k y)%Z.
Proof.
  unfold ordered. induction l1 as [|z l1 IH]; cbn; intros Hs Hx Hy; [by apply not_elem_of_nil in Hx|].
  inversion Hs as [|? ? Hs' Hz]; subst. apply elem_of_cons in Hx as [->|Hx]; [|auto].
  rewrite Forall_forall in Hz. apply Hz, elem_of_app. by right.
Qed.

(** [peek] serves the queue first-in first-out: on a queue reached by any operations it returns
    pending items with distinct ids in order of creation, at most [limit] of them, those created at
    the same instant in insertion order, and it skips nobody: an item left out was created no
    earlier than any item returned and the batch is then full. *)
Theorem peek_is_fifo (ops : list queue_op) (limit : Z) (q : SyncQueue)
    (Hwf : queue_wf q) (Hopen : open_ (queue_run ops q) = true) (Hlimit : (0 <= limit)%Z) :
  exists batch, peek limit (queue_run ops q) = (Ok batch, queue_run ops q)
  /\ Forall (fun i => qi_status i = Pending) batch
  /\ NoDup (map qi_id batch)
  /\ ordered qi_created_at batch
  /\ (Z.of_nat (length batch) <= limit)%Z
  /\ (forall t, List.filter (fun i => Z.eqb (qi_created_at i) t)
                  (pending_in_order (rows (queue_run ops q)))
                = List.filter (fun i => Z.eqb (qi_created_at i) t)
                    (sql_select (has_status Pending) (rows (queue_run ops q))))
  /\ (forall x, x ∈ rows (queue_run ops q) -> qi_status x = Pending -> x ∉ batch ->
        (Z.of_nat (length batch) = limit)%Z
        /\ Forall (fun y => (qi_created_at y <= qi_created_at x)%Z) batch).
Proof.
  pose proof (queue_run_wf ops q Hwf) as Hu. set (q' := queue_run ops q) in *. clearbody q'.
  set (batch := sql_limit limit (pending_in_order (rows q'))).
  destruct (sql_limit_prefix limit (pending_in_order (rows q'))) as [rest Hrest]. fold batch in Hrest.
  assert (Hord : ordered qi_created_at (batch ++ rest)) by (rewrite <- Hrest; apply order_by_ordered).
  assert (Hin : forall i, i ∈ batch -> qi_status i = Pending).
  { intros i Hi. assert (i ∈ pending_in_order (rows q')) as [_ ?]%elem_of_pending_in_order; [|done].
    rewrite Hrest, elem_of_app. by left. }
  assert (Hlen : batch = take (Z.to_nat limit) (pending_in_order (rows q'))).
  { unfold batch, sql_limit. destruct (Z.ltb_spec limit 0); [lia|done]. }
  exists batch. repeat split.
  - unfold peek, with_conn. rewrite Hopen. fold batch. destruct q' as [t o]. cbn in *. by subst o.
  - by apply Forall_forall.
  - change (keys_unique qi_id batch). eapply (keys_unique_sublist _ _ (pending_in_order (rows q'))).
    + rewrite Hrest. by apply sublist_inserts_r.
    + eapply keys_unique_perm; [symmetry; apply pending_in_order_perm|]. by apply keys_unique_select.
  - unfold ordered in *. clear -Hord. induction batch as [|x b IH]; [constructor|].
    cbn in Hord. inversion Hord as [|? ? H1 H2]; subst. constructor; [auto|].
    by apply Forall_app in H2 as [? _].
  - rewrite Hlen, length_take. lia.
  - intros t. apply order_by_stable.
  - assert (x ∈ rest) as Hx.
    { assert (x ∈ pending_in_order (rows q')) as Hp by (by apply elem_of_pending_in_order).
      rewrite Hrest, elem_of_app in Hp. by destruct Hp. }
    assert (length rest ≠ 0%nat). { destruct rest; [by apply not_elem_of_nil in Hx|done]. }
    apply (f_equal length) in Hrest. rewrite length_app in Hrest.
    apply (f_equal length) in Hlen. rewrite length_take in Hlen. lia.
  - apply Forall_forall. intros y Hy. eapply ordered_app_le; [exact Hord|done|].
    assert (x ∈ pending_in_order (rows q')) as Hp by (by apply elem_of_pending_in_order).
    rewrite Hrest, elem_of_app in Hp. by destruct Hp.
Qed.

Definition item0 (id : string) (created : Z) (st : item_status) : QueueItem :=
  {| qi_id := id; qi_item_type := "event"; qi_payload := []; qi_created_at := created;
     qi_attempts := 0; qi_last_attempt_at := None; qi_last_error := None; qi_status := st |}.

Lemma peek_is_fifo_witness :
  let q := {| rows := []; open_ := true |} in
  let ops := [QEnqueue "u" (item0 "b" 20 Pending); QEnqueue "u" (item0 "a" 10 Pending);
              QEnqueue "u" (item0 "c" 20 Pending); QMarkFailed "a" "no"; QRetryFailed] in
  (peek 2 (queue_run ops q)).1 = Ok [item0 "a" 10 Pending; item0 "b" 20 Pending]
  /\ exists batch, peek 2 (queue_run ops q) = (Ok batch, queue_run ops q).
Proof.
  intros q ops. split; [reflexivity|].
  destruct (peek_is_fifo ops 2 q (keys_unique_nil qi_id) eq_refl ltac:(discriminate)) as (b & Hb & _).
  by exists b.
Defined.

(** ** Items left in [processing] *)

(** The operations the processor issues for one item by its id. *)
Definition names (id : string) (o : queue_op) : bool :=
  match o with
  | QDequeue x | QMarkProcessing _ x | QMarkPending x | QMarkFailed x _ => String.eqb x id
  | _ => false
  end.

Lemma processing_step i q o :
  i ∈ rows q -> qi_status i = Processing -> names (qi_id i) o = false ->
  i ∈ rows (queue_step q o).
Proof.
  intros Hi Hp Hn.
  assert (Hdel : forall (P : QueueItem -> bool) t, P i = false -> i ∈ t -> i ∈ (sql_delete P t).1).
  { intros P t HP Ht. cbn. rewrite list_elem_of_In, filter_In. split; [by apply list_elem_of_In|].
    by rewrite HP. }
  assert (Hupd : forall (P : QueueItem -> bool) f t, P i = false -> i ∈ t -> i ∈ (sql_update P f t).1).
  { intros P f t HP Ht. cbn. rewrite list_elem_of_In, in_map_iff. exists i.
    rewrite HP. split; [done|]. by apply list_elem_of_In. }
  assert (Hk : forall x, String.eqb x (qi_id i) = false -> has_key qi_id x i = false).
  { intros x Hx. unfold has_key. by rewrite String.eqb_sym. }
  assert (Hst : has_status Failed i = false) by (unfold has_status; by rewrite Hp).
  destruct o; cbn [queue_step names] in *; [..|done|];
    apply (with_conn_rows (fun t => i ∈ t)); try done; intros t Ht; cbn [affected affected_count snd];
    auto.
  destruct (sql_insert qi_id _ t) as [t'|] eqn:E; [|done]. cbn.
  unfold sql_insert in E. destruct (sql_find _ _ _); simplify_eq. apply elem_of_app. by left.
Qed.

(** An item is stranded when its processor dies after [mark_processing]: whatever else happens to
    the queue, restarts, retries of failed items and clean-ups included, the item stays in the
    table in status [processing], and no [peek] returns it, until an operation names its id. *)
Theorem interrupted_item_is_stranded (ops : list queue_op) (q : SyncQueue) (i : QueueItem)
    (Hi : i ∈ rows q) (Hp : qi_status i = Processing)
    (Hops : forallb (fun o => negb (names (qi_id i) o)) ops = true) :
  let q' := queue_run ops q in
  i ∈ rows q' /\ (forall limit batch, (peek limit q').1 = Ok batch -> i ∉ batch).
Proof.
  intros q'. split.
  - subst q'. revert q Hi. induction ops as [|o ops IH]; intros q Hi; [done|].
    cbn in Hops. apply andb_true_iff in Hops as [Ho%negb_true_iff Hops].
    by apply (IH Hops), processing_step.
  - intros limit batch. unfold peek, with_conn. destruct (open_ q'); cbn; [|done].
    intros H Hb. injection H as <-.
    destruct (sql_limit_prefix limit (pending_in_order (rows q'))) as [r Hr].
    assert (i ∈ pending_in_order (rows q')) as [_ Hs]%elem_of_pending_in_order.
    { rewrite Hr, elem_of_app. by left. }
    congruence.
Qed.

Lemma interrupted_item_is_stranded_witness :
  let q := {| rows := [item0 "a" 1 Processing]; open_ := true |} in
  let ops := [QRestart; QRetryFailed; QEnqueue "u" (item0 "b" 2 Pending); QClearFailed; QRead] in
  (peek 10 (queue_run ops q)).1 = Ok [item0 "b" 2 Pending]
  /\ item0 "a" 1 Processing ∈ rows (queue_run ops q).
Proof.
  intros q ops. split; [reflexivity|].
  refine (proj1 (interrupted_item_is_stranded ops q (item0 "a" 1 Processing) _ eq_refl eq_refl)).
  apply list_elem_of_singleton. reflexivity.
Defined.
