(* ===== verification/StateCache.v ===== *)
(** * The node state cache

    [agent/cache/state_cache.py].  The SQLite table [nodes] has the MAC address
    as primary key.  The keyword arguments of [set_node] come from decoded JSON,
    so they are JSON values here and Pydantic's type checks are explicit:
    [CachedNode] accepts strings (and [None] where optional) and raises
    otherwise. *)
From S2P Require Import Prelude PyStr SqlTable.
From stdpp Require Import base tactics list strings.
From Stdlib Require Import ZArith Lia.
Open Scope string_scope.

Definition DEFAULT_TTL_SECONDS : Z := 300.

Record CachedNode := {
  cn_mac_address : string;
  cn_node_id : option string;
  cn_state : string;
  cn_workflow_id : option string;
  cn_group_id : option string;
  cn_ip_address : option string;
  cn_vendor : option string;
  cn_model : option string;
  cn_cached_at : Z;
  cn_expires_at : Z;
  cn_raw_data : list (string * json)
}.

Definition is_expired (now : Z) (n : CachedNode) : bool := (cn_expires_at n <? now)%Z.

(** [max(0, int(remaining))], in whole seconds. *)
Definition ttl_seconds (now : Z) (n : CachedNode) : Z :=
  Z.max 0 (Z.quot (cn_expires_at n - now) 1000000).

Inductive cache_error : Type :=
| CacheValueError (message : string)
| CacheAttributeError
| CacheValidationError.

Record NodeStateCache := { default_ttl : Z; nodes : list CachedNode }.

Abbreviation CacheM A := (M NodeStateCache cache_error A).

Definition set_nodes (t : list CachedNode) (c : NodeStateCache) : NodeStateCache :=
  {| default_ttl := default_ttl c; nodes := t |}.

(** [get_node]: expired entries are returned too; the caller decides. *)
Definition get_node (mac : string) (c : NodeStateCache) : option CachedNode :=
  sql_find cn_mac_address (normalize_mac mac) (nodes c).

(** The keyword arguments of [set_node]. *)
Record node_fields := {
  f_mac_address : json;
  f_node_id : json;
  f_state : json;
  f_workflow_id : json;
  f_group_id : json;
  f_ip_address : json;
  f_vendor : json;
  f_model : json;
  f_raw_data : json;
  f_ttl : option Z
}.

Definition as_opt_str (j : json) : result cache_error (option string) :=
  match j with
  | JNull => Ok None
  | JStr s => Ok (Some s)
  | _ => Err CacheValidationError
  end.
Definition as_str (j : json) : result cache_error string :=
  match j with JStr s => Ok s | _ => Err CacheValidationError end.
(** [raw_data or {}], a dict. *)
Definition as_dict (j : json) : result cache_error (list (string * json)) :=
  if negb (truthy j) then Ok []
  else match j with JObj kvs => Ok kvs | _ => Err CacheValidationError end.

(** The node [set_node] builds from its keyword arguments. *)
Definition build_node (now : Z) (ttl_default : Z) (f : node_fields) : result cache_error CachedNode :=
  match f_mac_address f, f_state f with
  | JNull, _ | _, JNull =>
      Err (CacheValueError "mac_address and state required when node not provided")
  | JStr mac, _ =>
      let ttl_secs := match f_ttl f with Some t => t | None => ttl_default end in
      node_id ← as_opt_str (f_node_id f);
      state ← as_str (f_state f);
      workflow_id ← as_opt_str (f_workflow_id f);
      group_id ← as_opt_str (f_group_id f);
      ip_address ← as_opt_str (f_ip_address f);
      vendor ← as_opt_str (f_vendor f);
      model ← as_opt_str (f_model f);
      raw_data ← as_dict (f_raw_data f);
      Ok {| cn_mac_address := normalize_mac mac; cn_node_id := node_id; cn_state := state;
            cn_workflow_id := workflow_id; cn_group_id := group_id; cn_ip_address := ip_address;
            cn_vendor := vendor; cn_model := model; cn_cached_at := now;
            cn_expires_at := (now + ttl_secs * 1000000)%Z; cn_raw_data := raw_data |}
  | _, _ => Err CacheAttributeError
  end.

(** [set_node(node=...)]: the object is stored as it is. *)
Definition set_node_object (n : CachedNode) : CacheM CachedNode :=
  fun c => (Ok n, set_nodes (sql_replace cn_mac_address n (nodes c)) c).

(** [set_node(mac_address=..., ...)] *)
Definition set_node (now : Z) (f : node_fields) : CacheM CachedNode :=
  fun c => match build_node now (default_ttl c) f with
           | Ok n => set_node_object n c
           | Err e => (Err e, c)
           end.

Definition get_nodes_by_group (group_id : string) (c : NodeStateCache) : list CachedNode :=
  sql_select (fun n => match cn_group_id n with Some g => String.eqb g group_id | None => false end)
    (nodes c).

Definition get_all_nodes (c : NodeStateCache) : list CachedNode := nodes c.

Definition invalidate (mac : string) : CacheM bool :=
  fun c => let '(t, n) := sql_delete (has_key cn_mac_address (normalize_mac mac)) (nodes c) in
           (Ok (0 <? n)%Z, set_nodes t c).

Definition invalidate_expired (now : Z) : CacheM Z :=
  fun c => let '(t, n) := sql_delete (is_expired now) (nodes c) in (Ok n, set_nodes t c).

Record cache_stats := {
  total_entries : Z; expired_entries : Z; valid_entries : Z; oldest_entry : option Z
}.

(** [SELECT MIN(cached_at)] *)
Definition min_cached_at (t : list CachedNode) : option Z :=
  match t with
  | [] => None
  | n :: rest => Some (foldr (fun m acc => Z.min (cn_cached_at m) acc) (cn_cached_at n) rest)
  end.

Definition get_stats (now : Z) (c : NodeStateCache) : cache_stats :=
  let total := Z.of_nat (length (nodes c)) in
  let expired := sql_count (is_expired now) (nodes c) in
  {| total_entries := total; expired_entries := expired;
     valid_entries := (total - expired)%Z; oldest_entry := min_cached_at (nodes c) |}.

Definition clear : CacheM Z :=
  fun c => (Ok (Z.of_nat (length (nodes c))), set_nodes [] c).

(** ** Invariant *)

(** One entry per MAC address, each under its normal form. *)
Definition cache_wf (c : NodeStateCache) : Prop :=
  keys_unique cn_mac_address (nodes c)
  /\ Forall (fun n => normalize_mac (cn_mac_address n) = cn_mac_address n) (nodes c).

Lemma build_node_mac now ttl f n :
  build_node now ttl f = Ok n ->
  exists mac, f_mac_address f = JStr mac /\ cn_mac_address n = normalize_mac mac
              /\ f_state f = JStr (cn_state n) /\ cn_cached_at n = now.
Proof.
  unfold build_node. destruct (f_mac_address f) as [| | |mac| |]; try (by destruct (f_state f)).
  destruct (f_state f) as [| | |st| |]; try done; unfold mbind, result_bind;
    repeat case_match; intros; simplify_eq/=; eauto.
  all: try (unfold as_str in *; congruence).
Qed.

Lemma Forall_filter_sub {A} (P : A -> Prop) (f : A -> bool) l : Forall P l -> Forall P (List.filter f l).
Proof. induction 1; simpl; [constructor|]. destruct (f x); auto. Qed.

Lemma cache_wf_delete P c : cache_wf c -> cache_wf (set_nodes (sql_delete P (nodes c)).1 c).
Proof. intros [H1 H2]. split; cbn; [by apply keys_unique_delete | by apply Forall_filter_sub]. Qed.

Lemma cache_wf_set_node now f c : cache_wf c -> cache_wf (set_node now f c).2.
Proof.
  intros [H1 H2]. unfold set_node. destruct (build_node _ _ f) as [n|] eqn:E; [|done].
  apply build_node_mac in E as (mac & _ & Hmac & _). split; cbn.
  - by apply keys_unique_replace.
  - apply Forall_app. split; [by apply Forall_filter_sub|]. constructor; [|done].
    by rewrite Hmac, normalize_mac_idemp.
Qed.

(** ** The cache as a map from MAC addresses *)

(** Caching a node by fields is an update of a map keyed by the normalised MAC.  If [set_node]
    succeeds, every spelling of the MAC (case, dashes or colons) then finds the node it returned,
    which expires [ttl] seconds later, every other MAC finds what it found before, and if it fails
    the cache is unchanged. *)
Theorem set_node_updates_one_mac (now : Z) (f : node_fields) (c : NodeStateCache) :
  match set_node now f c with
  | (Ok n, c') =>
      exists mac, f_mac_address f = JStr mac
      /\ cn_expires_at n = (now + default (default_ttl c) (f_ttl f) * 1000000)%Z
      /\ (forall m, get_node m c' =
            if String.eqb (normalize_mac m) (normalize_mac mac) then Some n else get_node m c)
      /\ default_ttl c' = default_ttl c
  | (Err _, c') => c' = c
  end.
Proof.
  unfold set_node. destruct (build_node now (default_ttl c) f) as [n|e] eqn:E; [|done].
  cbn. assert (Hexp : cn_expires_at n = (now + default (default_ttl c) (f_ttl f) * 1000000)%Z).
  { revert E. unfold build_node, mbind, result_bind. repeat case_match; intros; simplify_eq/=; done. }
  apply build_node_mac in E as (mac & Hf & Hmac & _). exists mac. repeat split; [done..|].
  intros m. unfold get_node; cbn. destruct (String.eqb_spec (normalize_mac m) (normalize_mac mac)) as [->|Hne].
  - rewrite <- Hmac. apply sql_find_replace_eq.
  - apply sql_find_replace_ne. rewrite Hmac. congruence.
Qed.

(** Expiry is exact.  [invalidate_expired] returns the number of entries it removes, removes the
    expired entries and no other, and afterwards the statistics report no expired entry; the
    entries left can be looked up as before. *)
Theorem invalidate_expired_exact (now : Z) (c : NodeStateCache) (Hwf : cache_wf c) :
  let '(r, c') := invalidate_expired now c in
  r = Ok (expired_entries (get_stats now c))
  /\ expired_entries (get_stats now c') = 0%Z
  /\ total_entries (get_stats now c') = valid_entries (get_stats now c)
  /\ (forall m, get_node m c' =
        match get_node m c with
        | Some n => if is_expired now n then None else Some n
        | None => None
        end)
  /\ cache_wf c'.
Proof.
  pose proof (cache_wf_delete (is_expired now) c Hwf) as Hwf'.
  pose proof (sql_count_delete (is_expired now) (nodes c)) as Hcount.
  pose proof (sql_delete_length (is_expired now) (nodes c)) as Hlen.
  assert (Hfind : forall k, sql_find cn_mac_address k (sql_delete (is_expired now) (nodes c)).1 = _)
    by (intros k; apply sql_find_delete, Hwf).
  unfold invalidate_expired, get_stats, get_node. destruct (sql_delete _ _) as [t k] eqn:Ed.
  assert (k = sql_count (is_expired now) (nodes c)) as -> by (by inversion Ed).
  cbn in *. split; [done|]. split; [done|]. split; [done|]. split; [|done].
  intros m. apply Hfind.
Qed.

Lemma invalidate_expired_exact_witness :
  let n mac exp := {| cn_mac_address := mac; cn_node_id := None; cn_state := "active";
    cn_workflow_id := None; cn_group_id := None; cn_ip_address := None; cn_vendor := None;
    cn_model := None; cn_cached_at := 0; cn_expires_at := exp; cn_raw_data := [] |} in
  let c := {| default_ttl := 300; nodes := [n "aa:01" 50%Z; n "aa:02" 150%Z] |} in
  (invalidate_expired 100 c).1 = Ok 1%Z
  /\ get_node "AA-02" (invalidate_expired 100 c).2 = Some (n "aa:02" 150%Z).
Proof.
  intros n c. split; [reflexivity|].
  assert (Hwf : cache_wf c).
  { split; [apply (bool_decide_unpack _); vm_compute; exact I|]. repeat constructor. }
  exact (proj1 (proj2 (proj2 (proj2 (invalidate_expired_exact 100 c Hwf)))) "AA-02").
Defined.
