(* ===== verification/Proxy.v ===== *)
(** * The agent's proxy to the central controller

    [agent/proxy.py].  The proxy owns the state cache, may have a sync queue
    and a connectivity monitor, counts its requests, and talks to the central
    controller over HTTP.  The controller and the network between are a
    parameter: [central history request] is what the session yields for
    [request] after the requests of [history].  The requests made are recorded
    in the state, so that a theorem can say that none was made. *)
From S2P Require Import Prelude PyStr SqlTable SyncQueue StateCache.
From stdpp Require Import base tactics list strings.
From Stdlib Require Import ZArith Lia.
Open Scope string_scope.

(** ** Requests, outcomes, errors *)

(** [path] lists the parts of the f-string, interpolated values included. *)
Record http_request := {
  method : string;
  path : list json;
  params : list (string * json);
  req_body : option json
}.

Inductive http_outcome : Type :=
| HttpResponse (status : Z) (data : json)   (* [JNull] for a body that is not JSON *)
| HttpClientError (message : string)        (* [aiohttp.ClientError] *)
| HttpOtherError (message : string).        (* any other exception, timeouts included *)

Inductive proxy_error : Type :=
| CentralUnavailableError (message : string)
| ProxyCacheError (e : cache_error)
| ProxyQueueError (e : queue_error)
| ProxyAttributeError
| ProxyTypeError
| ProxyValidationError
| ProxyHttpError (message : string).

(** ** Metrics *)

Record ProxyMetrics := {
  requests_total : Z;
  requests_proxied : Z;
  requests_from_cache : Z;
  requests_queued : Z;
  requests_failed : Z;
  central_errors : Z
}.

Definition new_metrics : ProxyMetrics :=
  {| requests_total := 0; requests_proxied := 0; requests_from_cache := 0; requests_queued := 0;
     requests_failed := 0; central_errors := 0 |}.

Definition record_request (from_cache queued failed : bool) (m : ProxyMetrics) : ProxyMetrics :=
  let b2z (b : bool) := if b then 1%Z else 0%Z in
  {| requests_total := requests_total m + 1;
     requests_proxied := requests_proxied m + b2z (negb failed && negb queued && negb from_cache);
     requests_from_cache := requests_from_cache m + b2z (negb failed && negb queued && from_cache);
     requests_queued := requests_queued m + b2z (negb failed && queued);
     requests_failed := requests_failed m + b2z failed;
     central_errors := central_errors m |}.

Definition record_central_error (m : ProxyMetrics) : ProxyMetrics :=
  {| requests_total := requests_total m; requests_proxied := requests_proxied m;
     requests_from_cache := requests_from_cache m; requests_queued := requests_queued m;
     requests_failed := requests_failed m; central_errors := central_errors m + 1 |}.

(** [get_stats]: the counters, and the cache rate as a fraction. *)
Definition metrics_stats (m : ProxyMetrics) : ProxyMetrics * (Z * Z) :=
  (m, if (0 <? requests_total m)%Z then (requests_from_cache m, requests_total m) else (0%Z, 1%Z)).

(** ** State *)

Record CentralProxy := {
  site_id : string;
  connectivity : option bool;     (* no monitor, or its [is_online] *)
  queue : option SyncQueue;
  state_cache : NodeStateCache;
  metrics : ProxyMetrics;
  sent : list http_request        (* requests made, oldest first *)
}.

Abbreviation ProxyM A := (M CentralProxy proxy_error A).

Definition is_online (p : CentralProxy) : bool :=
  match connectivity p with None => true | Some b => b end.

Definition set_offline_components (online : bool) (q : SyncQueue) (p : CentralProxy) : CentralProxy :=
  {| site_id := site_id p; connectivity := Some online; queue := Some q;
     state_cache := state_cache p; metrics := metrics p; sent := sent p |}.

Definition set_cache (c : NodeStateCache) (p : CentralProxy) : CentralProxy :=
  {| site_id := site_id p; connectivity := connectivity p; queue := queue p; state_cache := c;
     metrics := metrics p; sent := sent p |}.
Definition set_queue (q : SyncQueue) (p : CentralProxy) : CentralProxy :=
  {| site_id := site_id p; connectivity := connectivity p; queue := Some q;
     state_cache := state_cache p; metrics := metrics p; sent := sent p |}.
Definition set_metrics (m : ProxyMetrics) (p : CentralProxy) : CentralProxy :=
  {| site_id := site_id p; connectivity := connectivity p; queue := queue p;
     state_cache := state_cache p; metrics := m; sent := sent p |}.
Definition add_sent (r : http_request) (p : CentralProxy) : CentralProxy :=
  {| site_id := site_id p; connectivity := connectivity p; queue := queue p;
     state_cache := state_cache p; metrics := metrics p; sent := sent p ++ [r] |}.

Definition count_request (from_cache queued failed : bool) : ProxyM unit :=
  modify (fun p => set_metrics (record_request from_cache queued failed (metrics p)) p).

(** [self.state_cache.set_node(...)] *)
Definition cache_node (now : Z) (f : node_fields) : ProxyM CachedNode :=
  fun p => let '(r, c) := set_node now f (state_cache p) in
           (match r with Ok n => Ok n | Err e => Err (ProxyCacheError e) end, set_cache c p).

(** [self.queue.enqueue(item)] *)
Definition enqueue_item (q : SyncQueue) (item : QueueItem) : ProxyM string :=
  fun p => let '(r, q') := enqueue "" item q in
           (match r with Ok i => Ok i | Err e => Err (ProxyQueueError e) end, set_queue q' p).

(** [d.get(k)] and [d.get(k, default)] on a decoded value: only a dict has [get]. *)
Definition dict_get (k : string) (dflt : json) (d : json) : ProxyM json :=
  match d with
  | JObj kvs => mret (default dflt (assoc_get k kvs))
  | _ => raise ProxyAttributeError
  end.

Record ProxyResponse := { status_code : Z; data : json; error : option string; from_cache : bool }.

(** [data: dict | list | None] *)
Definition valid_data (j : json) : bool :=
  match j with JNull | JArr _ | JObj _ => true | _ => false end.

Section Proxy.
Variable central : list http_request -> http_request -> http_outcome.

Definition _request (r : http_request) : ProxyM (Z * json) :=
  p ← get_state;
  modify (add_sent r);;
  match central (sent p) r with
  | HttpResponse status d => mret (status, d)
  | HttpClientError m =>
      modify (fun p => set_metrics (record_central_error (metrics p)) p);;
      raise (CentralUnavailableError ("Central unavailable: " ++ m))
  | HttpOtherError m => raise (ProxyHttpError m)
  end.

(** [except CentralUnavailableError] *)
Definition catch_unavailable {A} (m : ProxyM A) (h : string -> ProxyM A) : ProxyM A :=
  catch m (fun e => match e with CentralUnavailableError msg => h msg | e => raise e end).

Definition proxy_request (r : http_request) : ProxyM ProxyResponse :=
  catch_unavailable
    ('(status, d) ← _request r;
     count_request false false false;;
     if valid_data d
     then mret {| status_code := status; data := d; error := None; from_cache := false |}
     else raise ProxyValidationError)
    (fun msg =>
       count_request false false true;;
       mret {| status_code := 503; data := JNull; error := Some msg; from_cache := false |}).

Definition no_ttl (mac node_id state wf grp ip vendor model raw : json) : node_fields :=
  {| f_mac_address := mac; f_node_id := node_id; f_state := state; f_workflow_id := wf;
     f_group_id := grp; f_ip_address := ip; f_vendor := vendor; f_model := model;
     f_raw_data := raw; f_ttl := None |}.

Definition get_node_by_mac (now : Z) (mac : string) : ProxyM (option CachedNode) :=
  let mac := normalize_mac mac in
  p ← get_state;
  let cached := get_node mac (state_cache p) in
  let fresh := match cached with Some n => negb (is_expired now n) | None => false end in
  if fresh then count_request true false false;; mret cached
  else
    catch_unavailable
      ('(status, d) ← _request {| method := "GET"; path := [JStr "/api/v1/nodes"];
                                  params := [("mac", JStr mac)]; req_body := None |};
       if Z.eqb status 200 && truthy d then
         let node_data := match d with
                          | JArr (x :: _) => Some x
                          | JObj _ => Some d
                          | _ => None
                          end in
         match node_data with
         | None => count_request false false false;; mret None
         | Some nd =>
             id ← dict_get "id" JNull nd;
             state ← dict_get "state" (JStr "discovered") nd;
             wf ← dict_get "workflow_id" JNull nd;
             grp ← dict_get "group_id" JNull nd;
             ip ← dict_get "ip_address" JNull nd;
             vendor ← dict_get "vendor" JNull nd;
             model ← dict_get "model" JNull nd;
             node ← cache_node now (no_ttl (JStr mac) id state wf grp ip vendor model nd);
             count_request false false false;;
             mret (Some node)
         end
       else count_request false false false;; mret None)
      (fun _ => match cached with
                | Some n => count_request true false false;; mret (Some n)
                | None => count_request false false true;; mret None
                end).

(** The registration built from the keyword arguments, [None]s removed. *)
Definition build_registration (mac ip vendor model serial uuid : option string) (site : string)
    : list (string * json) :=
  omap (fun kv => match kv.2 with Some v => Some (kv.1, JStr v) | None => None end)
    [("mac_address", mac); ("ip_address", ip); ("vendor", vendor); ("model", model);
     ("serial_number", serial); ("system_uuid", uuid); ("site_id", Some site)].

(** [if not self.is_online and self.queue and not offline_sync] *)
Definition should_queue (offline_sync : bool) (p : CentralProxy) : option SyncQueue :=
  if negb (is_online p) && negb offline_sync then queue p else None.

Definition new_item (uuid ty : string) (payload : list (string * json)) (now : Z) : QueueItem :=
  {| qi_id := uuid; qi_item_type := ty; qi_payload := payload; qi_created_at := now;
     qi_attempts := 0; qi_last_attempt_at := None; qi_last_error := None; qi_status := Pending |}.

Definition queued_result (id : string) : json :=
  JObj [("status", JStr "queued"); ("offline", JBool true); ("queue_id", JStr id)].
Definition failed_result (r : ProxyResponse) : json :=
  JObj [("success", JBool false); ("status_code", JNum (status_code r)); ("error", jopt (error r))].

(** [{"success": True, **data}]: later keys win, in their first position. *)
Definition merge_success (kvs : list (string * json)) : json :=
  JObj (foldl (fun acc kv => assoc_set kv.1 kv.2 acc) [("success", JBool true)] kvs).

(** [register_node(registration)] once the dict is built; [mac_address] is the
    keyword argument. *)
Definition register_node (now : Z) (uuid : string) (registration : list (string * json))
    (mac_address : json) (offline_sync : bool) : ProxyM json :=
  let reg k := default JNull (assoc_get k registration) in
  let mac := default mac_address (assoc_get "mac_address" registration) in
  p ← get_state;
  match should_queue offline_sync p with
  | Some q =>
      id ← enqueue_item q (new_item uuid "registration" registration now);
      count_request false true false;;
      mret (queued_result id)
  | None =>
      r ← proxy_request {| method := "POST"; path := [JStr "/api/v1/nodes/register"];
                           params := []; req_body := Some (JObj registration) |};
      if (Z.eqb (status_code r) 200 || Z.eqb (status_code r) 201) && truthy (data r) then
        id ← dict_get "id" JNull (data r);
        state ← dict_get "state" (JStr "discovered") (data r);
        wf ← dict_get "workflow_id" JNull (data r);
        grp ← dict_get "group_id" JNull (data r);
        cache_node now (no_ttl mac id state wf grp (reg "ip_address") (reg "vendor") (reg "model")
                          (data r));;
        match data r with
        | JObj kvs => mret (merge_success kvs)
        | _ => raise ProxyAttributeError
        end
      else mret (failed_result r)
  end.

(** [register_node] called with the node's fields. *)
Definition register_node_fields (now : Z) (uuid : string)
    (mac ip vendor model serial suuid : option string) (offline_sync : bool) : ProxyM json :=
  p ← get_state;
  register_node now uuid (build_registration mac ip vendor model serial suuid (site_id p))
    (jopt mac) offline_sync.

(** The cache update of [update_node_state]: only when the MAC is given and cached. *)
Definition update_cached_state (now : Z) (node_id new_state : json) (mac_address : option string)
    : ProxyM unit :=
  match mac_address with
  | None => mret tt
  | Some mac =>
      if String.eqb mac "" then mret tt
      else
        p ← get_state;
        match get_node mac (state_cache p) with
        | None => mret tt
        | Some c =>
            cache_node now (no_ttl (JStr mac) node_id new_state (jopt (cn_workflow_id c))
              (jopt (cn_group_id c)) (jopt (cn_ip_address c)) (jopt (cn_vendor c))
              (jopt (cn_model c)) (JObj (cn_raw_data c)));;
            mret tt
        end
  end.

Definition update_node_state (now : Z) (uuid : string) (node_id new_state : json)
    (mac_address : option string) (offline_sync : bool) : ProxyM json :=
  p ← get_state;
  match should_queue offline_sync p with
  | Some q =>
      id ← enqueue_item q (new_item uuid "state_update"
             [("node_id", node_id); ("new_state", new_state); ("mac_address", jopt mac_address)] now);
      count_request false true false;;
      update_cached_state now node_id new_state mac_address;;
      mret (queued_result id)
  | None =>
      r ← proxy_request {| method := "PATCH";
                           path := [JStr "/api/v1/nodes/"; node_id; JStr "/state"];
                           params := []; req_body := Some (JObj [("state", new_state)]) |};
      if Z.eqb (status_code r) 200 then
        update_cached_state now node_id new_state mac_address;;
        mret (JObj [("success", JBool true)])
      else mret (failed_result r)
  end.

(** [event], built from the other arguments when it is [None], with its site;
    [in] and item assignment on what is not a dict behave as in Python. *)
Definition event_with_site (site : string) (event_type event_data event : json) : ProxyM json :=
  match event with
  | JNull =>
      mret (JObj [("event_type", event_type);
                  ("event_data", if truthy event_data then event_data else JObj []);
                  ("site_id", JStr site)])
  | JObj kvs =>
      mret (match assoc_get "site_id" kvs with
            | Some _ => event
            | None => JObj (assoc_set "site_id" (JStr site) kvs)
            end)
  | JStr s => if str_contains "site_id" s then mret event else raise ProxyTypeError
  | JArr l =>
      if existsb (fun x => match x with JStr s => String.eqb s "site_id" | _ => false end) l
      then mret event else raise ProxyTypeError
  | _ => raise ProxyTypeError
  end.

Definition report_node_event (now : Z) (uuid : string) (node_id event event_type event_data : json)
    (offline_sync : bool) : ProxyM json :=
  p ← get_state;
  event ← event_with_site (site_id p) event_type event_data event;
  match should_queue offline_sync p with
  | Some q =>
      id ← enqueue_item q (new_item uuid "event" [("node_id", node_id); ("event", event)] now);
      count_request false true false;;
      mret (queued_result id)
  | None =>
      r ← proxy_request {| method := "POST";
                           path := [JStr "/api/v1/nodes/"; node_id; JStr "/event"];
                           params := []; req_body := Some event |};
      if Z.eqb (status_code r) 200 || Z.eqb (status_code r) 201
      then mret (JObj [("success", JBool true)])
      else mret (failed_result r)
  end.

Definition get_workflow (workflow_id : string) : ProxyM (option json) :=
  r ← proxy_request {| method := "GET"; path := [JStr "/api/v1/workflows/"; JStr workflow_id];
                       params := []; req_body := None |};
  mret (if Z.eqb (status_code r) 200 then Some (data r) else None).

Definition invalidate_node_cache (mac_address : string) : ProxyM unit :=
  modify (fun p => set_cache (invalidate mac_address (state_cache p)).2 p).
End Proxy.

(** ** Well-formedness: balanced counters, keyed tables *)

Definition metrics_balanced (m : ProxyMetrics) : Prop :=
  (requests_total m = requests_proxied m + requests_from_cache m + requests_queued m
                      + requests_failed m)%Z
  /\ (0 <= requests_proxied m /\ 0 <= requests_from_cache m /\ 0 <= requests_queued m
      /\ 0 <= requests_failed m)%Z.

Definition proxy_wf (p : CentralProxy) : Prop :=
  metrics_balanced (metrics p) /\ cache_wf (state_cache p)
  /\ match queue p with Some q => queue_wf q | None => True end.

Section Wf.
Variable central : list http_request -> http_request -> http_outcome.

Lemma wf_count a b c : keeps proxy_wf (count_request a b c).
Proof.
  intros p (Hm & Hc & Hq). split; [|done]. unfold metrics_balanced in *. destruct a, b, c; cbn in *; lia.
Qed.

Lemma wf_cache_node now f : keeps proxy_wf (cache_node now f).
Proof.
  intros p (Hm & Hc & Hq). unfold cache_node. pose proof (cache_wf_set_node now f _ Hc) as H.
  by destruct (set_node now f (state_cache p)).
Qed.

Lemma wf_enqueue q item p :
  proxy_wf p -> queue p = Some q -> proxy_wf (enqueue_item q item p).2.
Proof.
  intros (Hm & Hc & Hq) Eq. rewrite Eq in Hq. unfold enqueue_item.
  pose proof (queue_step_wf q (QEnqueue "" item) Hq) as H. cbn [queue_step] in H.
  by destruct (enqueue "" item q).
Qed.

Lemma wf_get : keeps proxy_wf (get_state (E := proxy_error)).
Proof. by intros p. Qed.
Lemma wf_raise {A} (e : proxy_error) : keeps proxy_wf (raise (A := A) e).
Proof. by intros p. Qed.
Lemma wf_dict_get k d j : keeps proxy_wf (dict_get k d j).
Proof. destruct j; by intros p. Qed.

#[local] Hint Resolve wf_count wf_cache_node wf_get wf_raise wf_dict_get : pyboot.
#[local] Hint Extern 1 (keeps _ (if ?b then _ else _)) => destruct b : pyboot.
#[local] Hint Extern 1 (keeps _ (match ?b with _ => _ end)) => destruct b : pyboot.

Lemma wf_request r : keeps proxy_wf (_request central r).
Proof.
  unfold _request. apply keeps_bind; [auto with pyboot|]. intros p.
  apply keeps_bind; [by intros p'|]. intros _. destruct (central _ r); auto with pyboot.
Qed.

Lemma wf_catch {A} (m : ProxyM A) h :
  keeps proxy_wf m -> (forall e, keeps proxy_wf (h e)) -> keeps proxy_wf (catch_unavailable m h).
Proof. intros Hm Hh. unfold catch_unavailable. apply keeps_catch; [done|]. intros []; auto with pyboot. Qed.

#[local] Hint Resolve wf_request wf_catch : pyboot.

Lemma wf_proxy_request r : keeps proxy_wf (proxy_request central r).
Proof.
  unfold proxy_request. apply wf_catch; [|auto with pyboot].
  apply keeps_bind; [auto with pyboot|]. intros [status d]. auto with pyboot.
Qed.

Lemma wf_get_node now mac : keeps proxy_wf (get_node_by_mac central now mac).
Proof.
  unfold get_node_by_mac. apply keeps_bind; [auto with pyboot|]. intros p.
  destruct (match get_node _ _ with Some _ => _ | None => _ end); [auto with pyboot|].
  apply wf_catch; [|intros; destruct (get_node _ _); auto with pyboot].
  apply keeps_bind; [auto with pyboot|]. intros [status d].
  destruct (_ && _); [|auto with pyboot]. destruct d as [| | | |[|x l]|kvs]; cbn; auto 60 with pyboot.
Qed.

Lemma wf_update_cached now id st mac : keeps proxy_wf (update_cached_state now id st mac).
Proof.
  unfold update_cached_state. destruct mac as [mac|]; [|auto with pyboot].
  destruct (String.eqb mac ""); [auto with pyboot|].
  apply keeps_bind; [auto with pyboot|]. intros p. destruct (get_node _ _); auto with pyboot.
Qed.

#[local] Hint Resolve wf_proxy_request wf_update_cached : pyboot.

(** The branch every queueing operation has. *)
Lemma wf_or_queue {A} sync item (f : string -> ProxyM A) (g : CentralProxy -> ProxyM A) p :
  (forall id, keeps proxy_wf (f id)) -> (forall p', keeps proxy_wf (g p')) -> proxy_wf p ->
  proxy_wf (match should_queue sync p with
            | Some q => id ← enqueue_item q item; f id
            | None => g p
            end p).2.
Proof.
  intros Hf Hg Hp. destruct (should_queue sync p) as [q|] eqn:E; [|by apply Hg].
  unfold should_queue in E. destruct (_ && _); [|done].
  pose proof (wf_enqueue q item p Hp E) as H. unfold mbind, M_bind.
  destruct (enqueue_item q item p) as [[id|] p']; [by apply Hf|done].
Qed.

Lemma wf_register now uuid reg mac sync : keeps proxy_wf (register_node central now uuid reg mac sync).
Proof.
  intros p Hp. unfold register_node. unfold mbind at 1, M_bind at 1. cbn [get_state].
  apply (wf_or_queue sync _ _ (fun p => _)); [auto with pyboot| |done]. intros _.
  apply keeps_bind; [auto with pyboot|]. intros r. destruct (_ && _); auto 60 with pyboot.
Qed.

Lemma wf_update now uuid id st mac sync :
  keeps proxy_wf (update_node_state central now uuid id st mac sync).
Proof.
  intros p Hp. unfold update_node_state. unfold mbind at 1, M_bind at 1. cbn [get_state].
  apply (wf_or_queue sync _ _ (fun p => _)); [auto with pyboot| |done]. intros _. auto 20 with pyboot.
Qed.

Lemma wf_event now uuid id ev ty dt sync :
  keeps proxy_wf (report_node_event central now uuid id ev ty dt sync).
Proof.
  intros p Hp. unfold report_node_event. unfold mbind at 1, M_bind at 1. cbn [get_state].
  unfold mbind at 1, M_bind at 1.
  assert (forall s, exists r, event_with_site s ty dt ev p = (r, p)) as He.
  { intros s. unfold event_with_site. repeat case_match; eexists; reflexivity. }
  destruct (He (site_id p)) as [[e|e] ->]; [|done].
  apply (wf_or_queue sync _ _ (fun p => _)); [auto with pyboot| |done]. intros _. auto 20 with pyboot.
Qed.
End Wf.

(** ** Direct calls leave the queue alone

    With [offline_sync=True], as the queue processor calls, nothing is queued:
    the queue and the connectivity are those of the caller. *)

Section Direct.
Variable central : list http_request -> http_request -> http_outcome.
Context (Q : option SyncQueue) (C : option bool).

Definition same_queue (p : CentralProxy) : Prop := queue p = Q /\ connectivity p = C.

Lemma sq_count a b c : keeps same_queue (count_request a b c).
Proof. by intros p. Qed.
Lemma sq_cache_node now f : keeps same_queue (cache_node now f).
Proof. intros p Hp. unfold cache_node. by destruct (set_node now f (state_cache p)). Qed.
Lemma sq_get : keeps same_queue (get_state (E := proxy_error)).
Proof. by intros p. Qed.
Lemma sq_raise {A} (e : proxy_error) : keeps same_queue (raise (A := A) e).
Proof. by intros p. Qed.
Lemma sq_dict_get k d j : keeps same_queue (dict_get k d j).
Proof. destruct j; by intros p. Qed.

#[local] Hint Resolve sq_count sq_cache_node sq_get sq_raise sq_dict_get : pyboot.
#[local] Hint Extern 1 (keeps _ (if ?b then _ else _)) => destruct b : pyboot.
#[local] Hint Extern 1 (keeps _ (match ?b with _ => _ end)) => destruct b : pyboot.

Lemma sq_proxy_request r : keeps same_queue (proxy_request central r).
Proof.
  unfold proxy_request, catch_unavailable. apply keeps_catch; [|intros []; auto with pyboot].
  apply keeps_bind; [|intros [status d]; auto with pyboot].
  unfold _request. apply keeps_bind; [auto with pyboot|]. intros p.
  apply keeps_bind; [by intros p'|]. intros _. destruct (central _ r); auto with pyboot.
Qed.

Lemma sq_update_cached now id st mac : keeps same_queue (update_cached_state now id st mac).
Proof.
  unfold update_cached_state. destruct mac as [mac|]; [|auto with pyboot].
  destruct (String.eqb mac ""); [auto with pyboot|].
  apply keeps_bind; [auto with pyboot|]. intros p. destruct (get_node _ _); auto with pyboot.
Qed.

#[local] Hint Resolve sq_proxy_request sq_update_cached : pyboot.

Lemma should_queue_sync p : should_queue true p = None.
Proof. unfold should_queue. by rewrite andb_false_r. Qed.

Lemma sq_register now uuid reg mac : keeps same_queue (register_node central now uuid reg mac true).
Proof.
  unfold register_node. apply keeps_bind; [auto with pyboot|]. intros p.
  rewrite should_queue_sync. apply keeps_bind; [auto with pyboot|]. intros r.
  destruct (_ && _); auto 60 with pyboot.
Qed.

Lemma sq_update now uuid id st mac : keeps same_queue (update_node_state central now uuid id st mac true).
Proof.
  unfold update_node_state. apply keeps_bind; [auto with pyboot|]. intros p.
  rewrite should_queue_sync. auto 20 with pyboot.
Qed.

Lemma sq_event now uuid id ev ty dt :
  keeps same_queue (report_node_event central now uuid id ev ty dt true).
Proof.
  unfold report_node_event. apply keeps_bind; [auto with pyboot|]. intros p.
  apply keeps_bind; [unfold event_with_site; repeat case_match; auto with pyboot|]. intros e.
  rewrite should_queue_sync. auto 20 with pyboot.
Qed.
End Direct.

(** ** Runs of the proxy *)

Inductive proxy_op : Type :=
| PGetNode (now : Z) (mac : string)
| PRegister (now : Z) (uuid : string) (registration : list (string * json)) (mac : json) (sync : bool)
| PUpdate (now : Z) (uuid : string) (node_id new_state : json) (mac : option string) (sync : bool)
| PEvent (now : Z) (uuid : string) (node_id event ty data : json) (sync : bool)
| PWorkflow (id : string)
| PInvalidate (mac : string)
| POnline (online : bool).     (* the monitor changes its mind *)

Definition proxy_step (central : list http_request -> http_request -> http_outcome)
    (p : CentralProxy) (o : proxy_op) : CentralProxy :=
  match o with
  | PGetNode now mac => (get_node_by_mac central now mac p).2
  | PRegister now uuid reg mac sync => (register_node central now uuid reg mac sync p).2
  | PUpdate now uuid id st mac sync => (update_node_state central now uuid id st mac sync p).2
  | PEvent now uuid id ev ty dt sync => (report_node_event central now uuid id ev ty dt sync p).2
  | PWorkflow id => (get_workflow central id p).2
  | PInvalidate mac => (invalidate_node_cache mac p).2
  | POnline b => {| site_id := site_id p; connectivity := Some b; queue := queue p;
                    state_cache := state_cache p; metrics := metrics p; sent := sent p |}
  end.

(** Whatever the central controller answers, and however requests fail or raise, the proxy's
    counters stay balanced (every request is counted once, under one heading), the cache keeps one
    normalised entry per MAC and the queue keeps its ids distinct. *)
Theorem proxy_invariant (central : list http_request -> http_request -> http_outcome)
    (ops : list proxy_op) (p : CentralProxy) (Hp : proxy_wf p) :
  proxy_wf (foldl (proxy_step central) p ops).
Proof.
  revert p Hp. induction ops as [|o ops IH]; intros p Hp; [done|]. cbn. apply IH.
  destruct o; cbn [proxy_step].
  - by apply wf_get_node.
  - by apply wf_register.
  - by apply wf_update.
  - by apply wf_event.
  - unfold get_workflow. apply (keeps_bind proxy_wf); [apply wf_proxy_request|intros; apply keeps_ret|done].
  - destruct Hp as (Hm & Hc & Hq). split; [done|]. split; [by apply cache_wf_delete|done].
  - done.
Qed.

Definition proxy0 (online : bool) : CentralProxy :=
  {| site_id := "site-001"; connectivity := Some online;
     queue := Some {| rows := []; open_ := true |};
     state_cache := {| default_ttl := DEFAULT_TTL_SECONDS; nodes := [] |};
     metrics := new_metrics; sent := [] |}.

Lemma proxy0_wf b : proxy_wf (proxy0 b).
Proof. split; [|split]; cbn; [done| |constructor]. split; constructor. Qed.

(** A controller that cannot be reached. *)
Definition unreachable : list http_request -> http_request -> http_outcome :=
  fun _ _ => HttpClientError "refused".

Lemma proxy_invariant_witness :
  let ops := [PRegister 1 "u1" [("mac_address", JStr "AA-01")] JNull false;
              PGetNode 2 "AA-01"; POnline true; PEvent 3 "u2" (JStr "n") (JObj []) JNull JNull true] in
  proxy_wf (foldl (proxy_step unreachable) (proxy0 false) ops)
  /\ requests_total (metrics (foldl (proxy_step unreachable) (proxy0 false) ops)) = 3%Z.
Proof.
  intros ops. split; [|reflexivity].
  apply (proxy_invariant unreachable ops (proxy0 false) (proxy0_wf false)).
Defined.

(** ** Offline operation *)

Lemma enqueue_fresh uuid ty payload now q p :
  open_ q = true -> uuid <> "" -> sql_find qi_id uuid (rows q) = None ->
  enqueue_item q (new_item uuid ty payload now) p
  = (Ok uuid, set_queue {| rows := (rows q ++ [new_item uuid ty payload now])%list; open_ := true |} p).
Proof.
  intros Ho Hu Hf. unfold enqueue_item, enqueue. cbn.
  rewrite (proj2 (String.eqb_neq _ _) Hu). unfold with_conn, sql_insert. rewrite Ho. cbn.
  by rewrite Hf.
Qed.

(** The queue of a proxy that is offline and whose queue is open. *)
Definition offline_with (q : SyncQueue) (p : CentralProxy) : Prop :=
  connectivity p = Some false /\ queue p = Some q /\ open_ q = true.

Lemma should_queue_offline q p : offline_with q p -> should_queue false p = Some q.
Proof. intros (Hc & Hq & _). unfold should_queue, is_online. by rewrite Hc. Qed.

(** Offline, nothing is sent and nothing is lost.  Registering a node, updating its state or
    reporting an event while offline makes no HTTP request, answers [queued] with the item's id,
    and appends exactly one pending item with the full payload to the queue. *)
Theorem offline_operations_are_queued (central : list http_request -> http_request -> http_outcome)
    (p : CentralProxy) (q : SyncQueue) (now : Z) (uuid : string)
    (Hoff : offline_with q p) (Hu : uuid <> "") (Hfresh : sql_find qi_id uuid (rows q) = None) :
  let queued ty payload p' :=
    sent p' = sent p /\ queue p' = Some {| rows := (rows q ++ [new_item uuid ty payload now])%list;
                                           open_ := true |}
    /\ requests_queued (metrics p') = (requests_queued (metrics p) + 1)%Z in
  (forall reg mac, exists p',
     register_node central now uuid reg mac false p = (Ok (queued_result uuid), p')
     /\ queued "registration" reg p' /\ state_cache p' = state_cache p)
  /\ (forall id kvs ty dt, exists p' ev,
     report_node_event central now uuid id (JObj kvs) ty dt false p = (Ok (queued_result uuid), p')
     /\ queued "event" [("node_id", id); ("event", JObj ev)] p' /\ state_cache p' = state_cache p
     /\ assoc_get "site_id" ev = Some (default (JStr (site_id p)) (assoc_get "site_id" kvs)))
  /\ (forall id st mac, exists p',
     update_node_state central now uuid (JStr id) (JStr st) (Some mac) false p
       = (Ok (queued_result uuid), p')
     /\ queued "state_update" [("node_id", JStr id); ("new_state", JStr st); ("mac_address", JStr mac)] p'
     /\ (mac <> "" -> is_Some (get_node mac (state_cache p)) ->
         exists n, get_node mac (state_cache p') = Some n /\ cn_state n = st
                   /\ cn_node_id n = Some id)).
Proof.
  intros queued. pose proof (should_queue_offline q p Hoff) as Hq. destruct Hoff as (Hc & Hqp & Ho).
  split; [|split].
  - intros reg mac. unfold register_node. unfold_M. rewrite Hq, enqueue_fresh by done.
    eexists. split; [reflexivity|]. by repeat split.
  - intros id kvs ty dt.
    set (ev := match assoc_get "site_id" kvs with
               | Some _ => kvs
               | None => assoc_set "site_id" (JStr (site_id p)) kvs
               end).
    unfold report_node_event. unfold_M. unfold event_with_site. unfold_M.
    replace (match assoc_get "site_id" kvs with Some _ => JObj kvs | None => JObj _ end)
      with (JObj ev) by (unfold ev; by destruct (assoc_get _ _)).
    rewrite Hq, enqueue_fresh by done. eexists _, ev. split; [reflexivity|].
    split; [by repeat split|]. split; [done|].
    unfold ev. destruct (assoc_get "site_id" kvs) eqn:E; cbn; [done|by rewrite assoc_get_set_eq].
  - intros id st mac. unfold update_node_state. unfold_M. rewrite Hq.
    rewrite enqueue_fresh by done. unfold count_request. unfold_M. unfold update_cached_state.
    destruct (String.eqb_spec mac "") as [->|Hmac].
    { eexists. split; [done|]. split; [by repeat split|]. done. }
    unfold_M. cbn [state_cache set_metrics set_queue].
    destruct (get_node mac (state_cache p)) as [c|] eqn:Eg.
    + unfold cache_node. set (f := no_ttl _ _ _ _ _ _ _ _ _).
      pose proof (set_node_updates_one_mac now f (state_cache p)) as Hset.
      cbn [state_cache set_metrics set_queue].
      destruct (set_node now f (state_cache p)) as [[n|e] c'] eqn:Es.
      * eexists. split; [done|]. split; [by repeat split|]. intros _ _. cbn.
        destruct Hset as (m & Hm & _ & Hget & _). injection Hm as <-.
        exists n. rewrite Hget, String.eqb_refl. split; [done|].
        unfold set_node in Es. destruct (build_node _ _ _) as [n'|] eqn:Eb; [|done].
        injection Es as <- _. unfold f, build_node, mbind, result_bind in Eb; cbn in Eb.
        destruct c as [? ? ? [] [] [] [] [] ? ? raw], raw; cbn in Eb; injection Eb as <-; done.
      * exfalso. unfold set_node, f, build_node, mbind, result_bind in Es; cbn in Es.
        destruct c as [? ? ? [] [] [] [] [] ? ? raw], raw; cbn in Es; done.
    + eexists. split; [done|]. split; [by repeat split|]. intros _ [? ?]. done.
Qed.

Lemma offline_operations_are_queued_witness :
  (exists p', register_node unreachable 5 "u1" [("mac_address", JStr "AA-01")] JNull false (proxy0 false)
              = (Ok (queued_result "u1"), p'))
  /\ sent (register_node unreachable 5 "u1" [("mac_address", JStr "AA-01")] JNull false
             (proxy0 false)).2 = [].
Proof.
  split; [|reflexivity].
  destruct (proj1 (offline_operations_are_queued unreachable (proxy0 false)
                     {| rows := []; open_ := true |} 5 "u1"
                     (conj eq_refl (conj eq_refl eq_refl)) ltac:(discriminate) eq_refl)
              [("mac_address", JStr "AA-01")] JNull) as (p' & H & _).
  exists p'. exact H.
Defined.

(** Reading a node survives the loss of the controller.  A cached entry within its TTL is served
    without any request.  When the controller cannot be reached the answer is whatever the cache
    holds, expired or not, found under any spelling of the MAC; nothing is raised and the cache is
    left as it was. *)
Theorem get_node_survives_outage (central : list http_request -> http_request -> http_outcome)
    (now : Z) (mac : string) (p : CentralProxy) :
  (forall n, get_node mac (state_cache p) = Some n -> is_expired now n = false ->
     exists p', get_node_by_mac central now mac p = (Ok (Some n), p')
     /\ sent p' = sent p /\ state_cache p' = state_cache p)
  /\ ((forall h r, exists m, central h r = HttpClientError m) ->
     exists p', get_node_by_mac central now mac p = (Ok (get_node mac (state_cache p)), p')
     /\ state_cache p' = state_cache p /\ queue p' = queue p).
Proof.
  assert (Hnorm : forall c, get_node (normalize_mac mac) c = get_node mac c).
  { intros c. unfold get_node. by rewrite normalize_mac_idemp. }
  split.
  - intros n Hn He. unfold get_node_by_mac. unfold_M. rewrite Hnorm, Hn, He. cbn.
    eexists. split; [reflexivity|]. by split.
  - intros Hdown. unfold get_node_by_mac. unfold_M. rewrite Hnorm.
    destruct (get_node mac (state_cache p)) as [n|] eqn:En; [destruct (is_expired now n)|]; cbn;
      try (eexists; split; [reflexivity|]; by split);
      unfold catch_unavailable, _request; unfold_M;
      match goal with |- context [central ?h ?r] => destruct (Hdown h r) as [m Hm]; rewrite Hm end;
      cbn; eexists; (split; [reflexivity|]; by split).
Qed.

Lemma get_node_survives_outage_witness :
  let p := (cache_node 0 (no_ttl (JStr "AA-01") (JStr "n1") (JStr "active") JNull JNull JNull JNull JNull
                            JNull) (proxy0 true)).2 in
  exists p', get_node_by_mac unreachable 400000000 "aa:01" p
             = (Ok (get_node "aa:01" (state_cache p)), p').
Proof.
  intros p.
  destruct (proj2 (get_node_survives_outage unreachable 400000000 "aa:01" p)
              (fun _ _ => ex_intro _ "refused" eq_refl)) as (p' & H & _).
  exists p'. exact H.
Defined.

(** ** The controller's list envelope *)

(** [ApiListResponse], what the controller's [GET /nodes] returns. *)
Definition ApiListResponse (nodes : list json) : json :=
  JObj [("success", JBool true); ("data", JArr nodes);
        ("total", JNum (Z.of_nat (length nodes)))].

(** [get_node_by_mac] does not unwrap the controller's list response.  Whatever nodes the
    controller lists, a node not freshly cached is cached and returned with no id and in state
    [discovered], the envelope being taken for the node. *)
Theorem get_node_misreads_envelope (central : list http_request -> http_request -> http_outcome)
    (listed : list json) (now : Z) (mac : string) (p : CentralProxy)
    (Hcentral : forall h r, central h r = HttpResponse 200 (ApiListResponse listed))
    (Hmiss : get_node mac (state_cache p) = None) :
  exists n p', get_node_by_mac central now mac p = (Ok (Some n), p')
  /\ cn_state n = "discovered" /\ cn_node_id n = None
  /\ get_node mac (state_cache p') = Some n.
Proof.
  assert (Hnorm : get_node (normalize_mac mac) (state_cache p) = None).
  { unfold get_node in *. by rewrite normalize_mac_idemp. }
  unfold get_node_by_mac. unfold_M. rewrite Hnorm.
  unfold catch_unavailable, _request. unfold_M. rewrite Hcentral. cbn.
  eexists _, _. split; [reflexivity|]. split; [done|]. split; [done|].
  unfold get_node. cbn.
  rewrite <- (normalize_mac_idemp mac) at 1.
  set (n := Build_CachedNode _ _ _ _ _ _ _ _ _ _ _).
  exact (sql_find_replace_eq cn_mac_address n (nodes (state_cache p))).
Qed.

Lemma get_node_misreads_envelope_witness :
  let listed := [JObj [("id", JStr "n1"); ("mac_address", JStr "aa:01"); ("state", JStr "active")]] in
  let central (_ : list http_request) (_ : http_request) := HttpResponse 200 (ApiListResponse listed) in
  exists n p', get_node_by_mac central 7 "aa:01" (proxy0 true) = (Ok (Some n), p')
               /\ cn_state n = "discovered".
Proof.
  intros listed central.
  destruct (get_node_misreads_envelope central listed 7 "aa:01" (proxy0 true)
              (fun _ _ => eq_refl) eq_refl) as (n & p' & H & Hs & _).
  exists n, p'. split; [exact H|exact Hs].
Defined.
