(* ===== verification/QueueProcessor.v ===== *)
(** * The queue processor

    [agent/queue_processor.py].  The processor is written against an interface,
    [SyncClient]: a world that holds the sync queue and can register a node,
    update a state and report an event at the central controller without
    queueing ([offline_sync=True]).  Its one law is that these calls leave the
    queue alone; the proxy satisfies it.

    Time is the number of awaits so far.  [alive t] is the value of
    [self._running and self.connectivity.is_online] at time [t]: other tasks
    may change it at an await and only there, so the [break] of the inner loop
    and the test of the outer one that follows it read the same value. *)
From S2P Require Import Prelude PyStr SqlTable SyncQueue StateCache Proxy Connectivity.
From stdpp Require Import base tactics list strings pretty sorting.
From Stdlib Require Import ZArith Lia.
Open Scope string_scope.

(** ** The interface *)

Class SyncClient (W : Type) : Type := {
  sc_queue : W -> SyncQueue;
  sc_set_queue : SyncQueue -> W -> W;
  (** [None] when the call raised. *)
  sc_register : Z -> list (string * json) -> W -> option json * W;
  sc_update_state : Z -> json -> json -> W -> option json * W;
  sc_report_event : Z -> json -> json -> W -> option json * W
}.

Class SyncClientLaws (W : Type) `{SyncClient W} : Prop := {
  sc_get_set q w : sc_queue (sc_set_queue q w) = q;
  sc_register_queue now p w : sc_queue (sc_register now p w).2 = sc_queue w;
  sc_update_queue now i s w : sc_queue (sc_update_state now i s w).2 = sc_queue w;
  sc_event_queue now i e w : sc_queue (sc_report_event now i e w).2 = sc_queue w
}.

Inductive process_status : Type := StSuccess | StPartial | StFailed | StEmpty.

Record ProcessResult := {
  res_processed : Z;
  res_failed : Z;
  res_remaining : Z;
  res_errors : list string;
  res_duration : Z;
  res_status : process_status
}.

Definition queue_error_str (e : queue_error) : string :=
  match e with
  | ConnectionClosed => "'NoneType' object has no attribute 'execute'"
  | IntegrityError => "UNIQUE constraint failed: sync_queue.id"
  end.

Section Processor.
Context {W : Type} `{SyncClient W}.
Variable batch_size max_retries : Z.
Variable clock : nat -> Z.
Variable alive : nat -> bool.

Abbreviation WorldM A := (M W queue_error A).

Definition on_queue {A} (m : QueueM A) : WorldM A :=
  fun w => let '(r, q) := m (sc_queue w) in (r, sc_set_queue q w).

(** [payload.get(k, default)] *)
Definition pget (k : string) (dflt : json) (payload : list (string * json)) : json :=
  default dflt (assoc_get k payload).

(** The verdict on a call's result: a call still queued, or one that raised,
    is no success. *)
Definition verdict (ok : list (string * json) -> bool) (r : option json) : bool :=
  match r with
  | Some (JObj kvs) =>
      match pget "status" JNull kvs with
      | JStr "queued" => false
      | _ => ok kvs
      end
  | _ => false
  end.

Definition _process_registration (now : Z) (payload : list (string * json)) (w : W) : bool * W :=
  let '(r, w) := sc_register now payload w in
  (verdict (fun kvs => truthy (pget "success" (JBool false) kvs)
                       || match assoc_get "id" kvs with Some _ => true | None => false end) r, w).

Definition _process_state_update (now : Z) (payload : list (string * json)) (w : W) : bool * W :=
  let node_id := pget "node_id" JNull payload in
  let new_state := pget "new_state" JNull payload in
  if negb (truthy node_id) || negb (truthy new_state) then (false, w)
  else
    let '(r, w) := sc_update_state now node_id new_state w in
    (verdict (fun kvs => truthy (pget "success" (JBool false) kvs)) r, w).

Definition _process_event (now : Z) (payload : list (string * json)) (w : W) : bool * W :=
  let node_id := pget "node_id" JNull payload in
  let event := pget "event" (JObj []) payload in
  if negb (truthy node_id) then (false, w)
  else
    let '(r, w) := sc_report_event now node_id event w in
    (verdict (fun kvs => truthy (pget "success" (JBool false) kvs)) r, w).

Definition handle_item (now : Z) (item : QueueItem) : WorldM bool :=
  fun w =>
    let '(b, w) :=
      if String.eqb (qi_item_type item) "registration" then
        _process_registration now (qi_payload item) w
      else if String.eqb (qi_item_type item) "state_update" then
        _process_state_update now (qi_payload item) w
      else if String.eqb (qi_item_type item) "event" then
        _process_event now (qi_payload item) w
      else (false, w) in
    (Ok b, w).

(** What becomes of an item that was not delivered; [item.attempts] is the
    count before this attempt. *)
Definition retry_or_fail (item : QueueItem) (why : string) : WorldM bool :=
  if (max_retries <=? qi_attempts item)%Z
  then on_queue (mark_failed (qi_id item) why)
  else on_queue (mark_pending (qi_id item)).

Definition max_retries_message : string :=
  "Max retries (" ++ pretty max_retries ++ ") exceeded".

Definition _process_item (now : Z) (item : QueueItem) : WorldM bool :=
  on_queue (mark_processing now (qi_id item));;
  catch
    (success ← handle_item now item;
     if (success : bool) then
       on_queue (dequeue (qi_id item));;
       mret true
     else
       retry_or_fail item max_retries_message;;
       mret false)
    (fun e => retry_or_fail item (queue_error_str e);; mret false).

Record loop := { lp_t : nat; lp_world : W; lp_processed : Z; lp_failed : Z }.

(** A step that awaits. *)
Definition awaiting {A} (m : WorldM A) : M loop queue_error A :=
  fun st => let '(r, w) := m (lp_world st) in
            (r, {| lp_t := S (lp_t st); lp_world := w; lp_processed := lp_processed st;
                   lp_failed := lp_failed st |}).

Definition count_item (success : bool) (st : loop) : loop :=
  {| lp_t := lp_t st; lp_world := lp_world st;
     lp_processed := lp_processed st + (if success then 1 else 0);
     lp_failed := lp_failed st + (if success then 0 else 1) |}.

Fixpoint for_items (items : list QueueItem) : M loop queue_error unit :=
  match items with
  | [] => mret tt
  | item :: rest =>
      st ← get_state;
      if negb (alive (lp_t st)) then mret tt
      else
        success ← awaiting (_process_item (clock (lp_t st)) item);
        modify (count_item success);;
        for_items rest
  end.

Fixpoint while_loop (fuel : nat) (st : loop) : option (result queue_error unit * loop) :=
  match fuel with
  | O => None
  | S fuel =>
      if negb (alive (lp_t st)) then Some (Ok tt, st)
      else
        match awaiting (on_queue (peek batch_size)) st with
        | (Err e, st) => Some (Err e, st)
        | (Ok [], st) => Some (Ok tt, st)
        | (Ok items, st) =>
            match for_items items st with
            | (Err e, st) => Some (Err e, st)
            | (Ok _, st) => while_loop fuel st
            end
        end
  end.

Definition final_status (processed failed : Z) : process_status :=
  if (processed =? 0)%Z && (failed =? 0)%Z then StEmpty
  else if (failed =? 0)%Z then StSuccess
  else if (0 <? processed)%Z then StPartial
  else StFailed.

Record Processor := {
  qp_world : W;
  qp_processing : bool;
  qp_last_result : option ProcessResult
}.

Definition empty_result : ProcessResult :=
  {| res_processed := 0; res_failed := 0; res_remaining := 0; res_errors := [];
     res_duration := 0; res_status := StEmpty |}.

(** [process_queue] started at time [t0]; [None] if the loop has not ended
    within [fuel] rounds. *)
Definition process_queue (fuel t0 : nat) (qp : Processor) : option (ProcessResult * Processor) :=
  if qp_processing qp then Some (empty_result, qp)
  else
    match while_loop fuel {| lp_t := t0; lp_world := qp_world qp; lp_processed := 0; lp_failed := 0 |} with
    | None => None
    | Some (Err e, st) =>
        let res := {| res_processed := lp_processed st; res_failed := lp_failed st;
                      res_remaining := 0; res_errors := [queue_error_str e]; res_duration := 0;
                      res_status := StFailed |} in
        Some (res, {| qp_world := lp_world st; qp_processing := false; qp_last_result := Some res |})
    | Some (Ok _, st) =>
        let '(r, w) := on_queue get_pending_count (lp_world st) in
        let res :=
          match r with
          | Ok remaining =>
              {| res_processed := lp_processed st; res_failed := lp_failed st;
                 res_remaining := remaining; res_errors := [];
                 res_duration := (clock (S (lp_t st)) - clock t0)%Z;
                 res_status := final_status (lp_processed st) (lp_failed st) |}
          | Err e =>
              {| res_processed := lp_processed st; res_failed := lp_failed st;
                 res_remaining := 0; res_errors := [queue_error_str e]; res_duration := 0;
                 res_status := StFailed |}
          end in
        Some (res, {| qp_world := w; qp_processing := false; qp_last_result := Some res |})
    end.
End Processor.

Arguments Processor : clear implicits.
Arguments loop : clear implicits.

(** ** Starting, stopping, reacting to the monitor *)

(** [start]: [self._running] after it, the monitor with the processor's
    listener, and whether a processing task is created. *)
Definition start_processor (listener : nat) (qp_running : bool) (m : ConnectivityMonitor)
    : bool * ConnectivityMonitor * bool :=
  if qp_running then (true, m, false)
  else (true, add_listener listener m, Connectivity.is_online m).

Definition stop_processor (listener : nat) (qp_running : bool) (m : ConnectivityMonitor)
    : bool * ConnectivityMonitor :=
  if negb qp_running then (qp_running, m) else (false, remove_listener listener m).

(** [_on_connectivity_change]: whether a processing task is created. *)
Definition _on_connectivity_change (qp_running is_online : bool) : bool := is_online && qp_running.

(** [_process_with_delay] after its sleep: whether the queue is processed. *)
Definition _process_with_delay (qp_running is_online_now : bool) : bool := qp_running && is_online_now.

(** ** One item *)

Section Item.
Context {W : Type} `{SyncClientLaws W}.
Variable batch_size max_retries : Z.
Variable clock : nat -> Z.
Variable alive : nat -> bool.

(** The row of an item whose delivery failed. *)
Definition after_failure (now a : Z) (why : string) (i : QueueItem) : QueueItem :=
  let i := start_attempt now i in
  if (max_retries <=? a)%Z then set_qstatus Failed (Some why) i
  else set_qstatus Pending (qi_last_error i) i.

Definition attempted (now : Z) (ok : bool) (item : QueueItem) (t : list QueueItem) : list QueueItem :=
  if ok then (sql_delete (has_key qi_id (qi_id item)) t).1
  else (sql_update (has_key qi_id (qi_id item))
          (after_failure now (qi_attempts item) (max_retries_message max_retries)) t).1.

Lemma handle_item_queue now item (w : W) :
  exists ok w', handle_item now item w = (Ok ok, w') /\ sc_queue w' = sc_queue w.
Proof.
  pose proof (sc_register_queue now (qi_payload item) w) as H1.
  pose proof (fun i s => sc_update_queue now i s w) as H2.
  pose proof (fun i e => sc_event_queue now i e w) as H3.
  unfold handle_item, _process_registration, _process_state_update, _process_event.
  destruct (String.eqb _ _); [|destruct (String.eqb _ _); [|destruct (String.eqb _ _)]].
  - destruct (sc_register _ _ _) as [r w']. by do 2 eexists.
  - destruct (_ || _); [by do 2 eexists|].
    specialize (H2 (pget "node_id" JNull (qi_payload item)) (pget "new_state" JNull (qi_payload item))).
    destruct (sc_update_state _ _ _ _) as [r w']. by do 2 eexists.
  - destruct (negb _); [by do 2 eexists|].
    specialize (H3 (pget "node_id" JNull (qi_payload item)) (pget "event" (JObj []) (qi_payload item))).
    destruct (sc_report_event _ _ _ _) as [r w']. by do 2 eexists.
  - by do 2 eexists.
Qed.

Lemma on_queue_with_conn {A} (f : list QueueItem -> result queue_error A * list QueueItem) (w : W) :
  open_ (sc_queue w) = true ->
  on_queue (with_conn f) w
  = ((f (rows (sc_queue w))).1,
     sc_set_queue {| rows := (f (rows (sc_queue w))).2; open_ := true |} w).
Proof. intros Ho. unfold on_queue, with_conn. rewrite Ho. by destruct (f _). Qed.

Lemma update_same_key id f g t :
  (forall i, qi_id (f i) = qi_id i) ->
  (sql_update (has_key qi_id id) g (sql_update (has_key qi_id id) f t).1).1
  = (sql_update (has_key qi_id id) (fun i => g (f i)) t).1.
Proof. intros Hf. apply sql_update_compose. intros r. unfold has_key. by rewrite Hf. Qed.

(** [_process_item] on an open queue: the item leaves the table, or its row
    records the failed attempt. *)
Lemma _process_item_spec now item (w : W) :
  open_ (sc_queue w) = true ->
  exists ok w', _process_item max_retries now item w = (Ok ok, w')
    /\ sc_queue w' = {| rows := attempted now ok item (rows (sc_queue w)); open_ := true |}.
Proof.
  intros Ho. unfold _process_item, mark_processing. unfold_M.
  rewrite (on_queue_with_conn _ w Ho). cbn [affected fst snd].
  set (q1 := {| rows := _; open_ := true |}).
  destruct (handle_item_queue now item (sc_set_queue q1 w)) as (ok & w1 & Hh & Hq).
  rewrite sc_get_set in Hq. rewrite Hh. cbv beta iota.
  assert (Ho1 : open_ (sc_queue w1) = true) by (by rewrite Hq).
  destruct ok; [|unfold retry_or_fail; destruct (Z.leb_spec max_retries (qi_attempts item))];
    unfold dequeue, mark_failed, mark_pending; rewrite (on_queue_with_conn _ w1 Ho1);
    cbn [affected fst snd]; [exists true|exists false..]; eexists; (split; [reflexivity|]);
    rewrite sc_get_set, Hq; subst q1; unfold attempted; cbn [rows]; f_equal.
  - apply sql_delete_update. intros r. by unfold has_key.
  - rewrite update_same_key by done. unfold after_failure.
    by rewrite (proj2 (Z.leb_le _ _)) by done.
  - rewrite update_same_key by done. unfold after_failure.
    by rewrite (proj2 (Z.leb_gt _ _)) by done.
Qed.

(** *** What an attempt does to the table *)

Definition weight (i : QueueItem) : nat :=
  if has_status Pending i then S (Z.to_nat (max_retries - qi_attempts i)) else 0.
(** The attempts left on the pending rows. *)
Definition budget (t : list QueueItem) : nat := sql_sum weight t.

Lemma after_failure_id now a why i : qi_id (after_failure now a why i) = qi_id i.
Proof. unfold after_failure. by destruct (Z.leb _ _). Qed.

Lemma attempted_keys now ok item t :
  keys_unique qi_id t -> keys_unique qi_id (attempted now ok item t).
Proof.
  intros Hu. unfold attempted. destruct ok; [by apply keys_unique_delete|].
  apply keys_unique_update; [|done]. intros. apply after_failure_id.
Qed.

Lemma attempted_budget now ok item t :
  keys_unique qi_id t -> item ∈ t -> qi_status item = Pending ->
  (budget (attempted now ok item t) < budget t)%nat.
Proof.
  intros Hu Hin Hp. unfold budget, attempted. destruct ok.
  - rewrite (sql_sum_delete_key qi_id weight t item Hu Hin). assert (0 < weight item)%nat; [|lia].
    unfold weight, has_status. rewrite Hp, bool_decide_true by done. lia.
  - pose proof (sql_sum_update_key qi_id weight
      (after_failure now (qi_attempts item) (max_retries_message max_retries)) t item Hu Hin) as Hs.
    assert (weight (after_failure now (qi_attempts item) (max_retries_message max_retries) item)
            < weight item)%nat; [|lia].
    unfold weight, has_status, after_failure. rewrite Hp, (bool_decide_true (Pending = Pending)) by done.
    destruct (Z.leb_spec max_retries (qi_attempts item)); cbn -[Z.sub Z.add Z.to_nat bool_decide].
    + rewrite bool_decide_false by done. lia.
    + rewrite bool_decide_true by done. lia.
Qed.

Lemma attempted_spares now ok item t x :
  x ∈ t -> qi_id x ≠ qi_id item -> x ∈ attempted now ok item t.
Proof.
  intros Hx Hne. apply has_key_false in Hne. unfold attempted. destruct ok.
  - by apply elem_of_delete.
  - apply elem_of_update. exists x. by rewrite Hne.
Qed.

Lemma attempted_length now ok item t :
  keys_unique qi_id t -> item ∈ t ->
  Z.of_nat (length (attempted now ok item t)) = (Z.of_nat (length t) - if ok then 1 else 0)%Z.
Proof.
  intros Hu Hin. unfold attempted. destruct ok.
  - rewrite sql_delete_length. cbn [sql_delete snd]. rewrite (sql_count_key qi_id _ _ Hu).
    by rewrite (sql_find_Some qi_id t _ item Hu Hin eq_refl).
  - cbn. rewrite length_map. lia.
Qed.

(** How a row may have come from a row of an earlier table. *)
Definition evolved (i0 i : QueueItem) : Prop :=
  i = i0
  \/ qi_status i0 = Pending
     /\ qi_id i = qi_id i0 /\ qi_item_type i = qi_item_type i0
     /\ qi_payload i = qi_payload i0 /\ qi_created_at i = qi_created_at i0
     /\ (qi_status i = Pending /\ (qi_attempts i0 < qi_attempts i <= max_retries)%Z
         \/ qi_status i = Failed /\ qi_attempts i = (Z.max (qi_attempts i0) max_retries + 1)%Z).

Definition evolves (t0 t : list QueueItem) : Prop :=
  (forall i, i ∈ t -> exists i0, i0 ∈ t0 /\ evolved i0 i)
  /\ (forall i0, i0 ∈ t0 -> qi_status i0 ≠ Pending -> i0 ∈ t).

Lemma evolved_trans i0 i1 i2 : evolved i0 i1 -> evolved i1 i2 -> evolved i0 i2.
Proof.
  unfold evolved. intros [->|H1] [->|H2]; [by left|by right..|]. right.
  destruct H1 as (? & ? & ? & ? & ? & [[? ?]|[? ?]]), H2 as (? & ? & ? & ? & ? & H2);
    [|congruence].
  repeat split; try congruence. destruct H2 as [[? ?]|[? ?]]; [left|right]; split; try done; lia.
Qed.

Lemma evolves_refl t : evolves t t.
Proof. split; [|done]. intros i Hi. exists i. split; [done|]. by left. Qed.

Lemma evolves_trans t0 t1 t2 : evolves t0 t1 -> evolves t1 t2 -> evolves t0 t2.
Proof.
  intros [H1 H2] [H3 H4]. split; [|auto].
  intros i (i1 & (i0 & ? & ?)%H1 & ?)%H3. exists i0. split; [done|]. by eapply evolved_trans.
Qed.

Lemma attempted_evolves now ok item t :
  keys_unique qi_id t -> item ∈ t -> qi_status item = Pending ->
  evolves t (attempted now ok item t).
Proof.
  intros Hu Hin Hp. split.
  - intros i Hi. unfold attempted in Hi. destruct ok.
    + apply elem_of_delete in Hi as [Hi _]. exists i. split; [done|]. by left.
    + apply elem_of_update in Hi as (y & Hy & ->). exists y. split; [done|].
      destruct (has_key _ _ y) eqn:E; [|by left]. apply has_key_true in E.
      assert (y = item) as -> by (by eapply key_elem_inj). right.
      unfold after_failure. destruct (Z.leb_spec max_retries (qi_attempts item)); cbn.
      * repeat split; try done. right. split; [done|]. lia.
      * repeat split; try done. left. split; [done|]. lia.
  - intros i0 Hi0 Hs. apply attempted_spares; [done|]. intros He.
    by rewrite (key_elem_inj qi_id t i0 item Hu Hi0 Hin He) in Hs.
Qed.

(** *** The loops *)

Abbreviation loop_rows st := (rows (sc_queue (lp_world st))).

Definition loop_ok (st : loop W) : Prop :=
  open_ (sc_queue (lp_world st)) = true /\ keys_unique qi_id (loop_rows st).

(** What holds between two states of a run. *)
Definition loop_rel (st st' : loop W) : Prop :=
  evolves (loop_rows st) (loop_rows st')
  /\ (lp_processed st' + Z.of_nat (length (loop_rows st'))
      = lp_processed st + Z.of_nat (length (loop_rows st)))%Z.

Lemma loop_rel_refl st : loop_rel st st.
Proof. split; [apply evolves_refl|done]. Qed.

Lemma loop_rel_trans st1 st2 st3 : loop_rel st1 st2 -> loop_rel st2 st3 -> loop_rel st1 st3.
Proof. intros [? ?] [? ?]. split; [by eapply evolves_trans|lia]. Qed.

Lemma one_item_spec (st : loop W) item :
  loop_ok st -> item ∈ loop_rows st -> qi_status item = Pending ->
  exists ok st', awaiting (_process_item max_retries (clock (lp_t st)) item) st = (Ok ok, st')
    /\ loop_ok (count_item ok st') /\ loop_rel st (count_item ok st')
    /\ (budget (loop_rows (count_item ok st')) < budget (loop_rows st))%nat
    /\ forall x, x ∈ loop_rows st -> qi_id x ≠ qi_id item -> x ∈ loop_rows (count_item ok st').
Proof.
  intros [Ho Hu] Hin Hp.
  destruct (_process_item_spec (clock (lp_t st)) item (lp_world st) Ho) as (ok & w' & He & Hq).
  exists ok. eexists. unfold awaiting. rewrite He. split; [reflexivity|].
  unfold loop_ok, loop_rel, count_item. cbn [lp_world lp_processed]. rewrite Hq. cbn [rows open_].
  repeat split.
  - by apply attempted_keys.
  - by apply attempted_evolves.
  - by apply attempted_evolves.
  - rewrite (attempted_length _ _ _ _ Hu Hin). destruct ok; lia.
  - by apply attempted_budget.
  - intros x Hx Hne. by apply attempted_spares.
Qed.

Lemma for_items_spec items (st : loop W) :
  loop_ok st -> Forall (fun i => i ∈ loop_rows st /\ qi_status i = Pending) items ->
  NoDup (map qi_id items) ->
  exists st', for_items max_retries clock alive items st = (Ok tt, st')
    /\ loop_ok st' /\ loop_rel st st'
    /\ (budget (loop_rows st') <= budget (loop_rows st))%nat
    /\ (items = [] \/ alive (lp_t st) = false -> st' = st)
    /\ (items ≠ [] -> alive (lp_t st) = true -> (budget (loop_rows st') < budget (loop_rows st))%nat).
Proof.
  revert st. induction items as [|item items IH]; intros st Hok Hall Hnd.
  { exists st. split; [reflexivity|]. repeat split; try done; apply loop_rel_refl || by apply Hok. }
  cbn [for_items]. unfold_M. destruct (alive (lp_t st)) eqn:Ea; cbn [negb].
  2:{ exists st. split; [reflexivity|]. repeat split; try done; apply loop_rel_refl || by apply Hok. }
  inversion Hall as [|? ? [Hin Hp] Hall']; subst.
  cbn [map] in Hnd. apply NoDup_cons in Hnd as [Hnotin Hnd].
  destruct (one_item_spec st item Hok Hin Hp) as (ok & st1 & He & Hok1 & Hrel & Hlt & Hsp).
  rewrite He. destruct (IH (count_item ok st1) Hok1) as (st' & Hf & ? & Hrel' & Hle & _); [|done|].
  - rewrite !Forall_forall in Hall' |- *. intros x Hx. destruct (Hall' x Hx) as [? ?].
    split; [|done]. apply Hsp; [done|]. intros Heq. apply Hnotin. rewrite <- Heq.
    by apply list_elem_of_fmap_2.
  - exists st'. rewrite Hf. split; [reflexivity|]. split_and!; [done|by eapply loop_rel_trans|lia| |].
    + by intros [?|?].
    + intros _ _. lia.
Qed.

Lemma peek_batch (st : loop W) :
  loop_ok st ->
  let items := sql_limit batch_size (pending_in_order (loop_rows st)) in
  exists st1, awaiting (on_queue (peek batch_size)) st = (Ok items, st1)
    /\ lp_t st1 = S (lp_t st) /\ loop_rows st1 = loop_rows st /\ loop_ok st1 /\ loop_rel st st1
    /\ Forall (fun i => i ∈ loop_rows st1 /\ qi_status i = Pending) items
    /\ NoDup (map qi_id items).
Proof.
  intros [Ho Hu] items. unfold awaiting, peek. rewrite (on_queue_with_conn _ _ Ho). cbn [fst snd].
  eexists. split; [reflexivity|]. unfold loop_ok, loop_rel. cbn [lp_t lp_world lp_processed].
  rewrite sc_get_set. cbn [rows open_]. fold items.
  destruct (sql_limit_prefix batch_size (pending_in_order (loop_rows st))) as [rest Hrest].
  fold items in Hrest. split_and!; try done; try apply evolves_refl.
  - apply Forall_forall. intros i Hi. apply elem_of_pending_in_order. rewrite Hrest, elem_of_app. by left.
  - change (keys_unique qi_id items). eapply (keys_unique_sublist _ _ (pending_in_order (loop_rows st))).
    + rewrite Hrest. by apply sublist_inserts_r.
    + eapply keys_unique_perm; [symmetry; apply pending_in_order_perm|]. by apply keys_unique_select.
Qed.

(** The loop ends within as many rounds as there are attempts left, and two. *)
Lemma while_loop_ends fuel (st : loop W) :
  loop_ok st -> (budget (loop_rows st) + 2 <= fuel)%nat ->
  exists st', while_loop batch_size max_retries clock alive fuel st = Some (Ok tt, st')
    /\ loop_ok st' /\ loop_rel st st'
    /\ (alive (lp_t st') = false
        \/ sql_limit batch_size (pending_in_order (loop_rows st')) = []).
Proof.
  revert st. induction fuel as [|fuel IH]; intros st Hok Hf; [lia|]. cbn [while_loop].
  destruct (alive (lp_t st)) eqn:Ea; cbn [negb].
  2:{ exists st. split_and!; try done; [apply loop_rel_refl|by left]. }
  destruct (peek_batch st Hok) as (st1 & He & Ht & Hr & Hok1 & Hrel1 & Hall & Hnd).
  rewrite He. destruct (sql_limit _ _) as [|i items] eqn:Ei.
  { exists st1. split_and!; try done. right. by rewrite Hr, Ei. }
  destruct (for_items_spec _ st1 Hok1 Hall Hnd) as (st2 & Hfi & Hok2 & Hrel2 & Hle & Hsame & Hlt).
  rewrite Hfi. destruct (alive (lp_t st1)) eqn:Ea1.
  - specialize (Hlt ltac:(done) eq_refl). rewrite Hr in Hlt.
    destruct (IH st2 Hok2) as (st' & ? & ? & ? & ?); [lia|]. exists st'.
    split_and!; try done. do 2 (eapply loop_rel_trans; [eassumption|]). done.
  - specialize (Hsame (or_intror eq_refl)). subst st2. destruct fuel as [|fuel]; [lia|].
    cbn [while_loop]. rewrite Ea1. exists st1. split_and!; try done. by left.
Qed.

End Item.

(** ** The proxy as a client *)

#[export] Instance proxy_client (central : list http_request -> http_request -> http_outcome) :
    SyncClient CentralProxy := {
  sc_queue p := default new_queue (queue p);
  sc_set_queue q p := set_queue q p;
  sc_register now payload p :=
    let '(r, p) := register_node central now "" payload JNull true p in
    (match r with Ok j => Some j | Err _ => None end, p);
  sc_update_state now node_id st p :=
    let '(r, p) := update_node_state central now "" node_id st None true p in
    (match r with Ok j => Some j | Err _ => None end, p);
  sc_report_event now node_id ev p :=
    let '(r, p) := report_node_event central now "" node_id ev JNull JNull true p in
    (match r with Ok j => Some j | Err _ => None end, p)
}.

#[export] Instance proxy_client_laws central : @SyncClientLaws _ (proxy_client central).
Proof.
  split; [done|intros now x p|intros now x y p..]; cbn.
  - destruct (sq_register central (queue p) (connectivity p) now "" x JNull p (conj eq_refl eq_refl)) as [H _].
    destruct (register_node _ _ _ _ _ _ _) as [r p']. cbn in *. by rewrite H.
  - destruct (sq_update central (queue p) (connectivity p) now "" x y None p (conj eq_refl eq_refl)) as [H _].
    destruct (update_node_state _ _ _ _ _ _ _ _) as [r p']. cbn in *. by rewrite H.
  - destruct (sq_event central (queue p) (connectivity p) now "" x y JNull JNull p (conj eq_refl eq_refl)) as [H _].
    destruct (report_node_event _ _ _ _ _ _ _ _ _) as [r p']. cbn in *. by rewrite H.
Qed.

(** ** Termination and outcome *)

Abbreviation processor_rows qp := (rows (sc_queue (qp_world qp))).

(** C7: [process_queue] always returns.  Whatever the controller answers, whenever connectivity
    comes and goes and whether or not the queue is open, the loop over batches ends, within the
    number of attempts the pending items have left plus two rounds; the processor is then idle again,
    its last result is the one returned, and the queue's ids are still distinct. *)
Theorem process_queue_terminates {W : Type} `{SyncClientLaws W} (batch_size max_retries : Z)
    (clock : nat -> Z) (alive : nat -> bool) (t0 fuel : nat) (qp : Processor W)
    (Hwf : queue_wf (sc_queue (qp_world qp))) (Hidle : qp_processing qp = false)
    (Hfuel : (budget max_retries (processor_rows qp) + 2 <= fuel)%nat) :
  exists res qp', process_queue batch_size max_retries clock alive fuel t0 qp = Some (res, qp')
    /\ qp_processing qp' = false /\ qp_last_result qp' = Some res
    /\ queue_wf (sc_queue (qp_world qp')).
Proof.
  unfold process_queue. rewrite Hidle.
  set (st := {| lp_t := t0 |}). destruct (open_ (sc_queue (qp_world qp))) eqn:Ho.
  - destruct (while_loop_ends batch_size max_retries clock alive fuel st) as (st' & -> & [Ho' Hu] & _ & _);
      [by split|done|].
    unfold get_pending_count. rewrite (on_queue_with_conn _ _ Ho'). cbn [fst snd].
    do 2 eexists. split; [reflexivity|]. cbn [qp_world qp_processing qp_last_result]. split_and!; try done. by rewrite sc_get_set.
  - destruct fuel as [|fuel]; [lia|]. cbn [while_loop].
    unfold awaiting, on_queue, peek, get_pending_count, with_conn. cbn [lp_world st]. rewrite Ho.
    destruct (alive (lp_t st)); cbn [negb lp_world st]; rewrite ?Ho; do 2 eexists; (split; [reflexivity|]);
      cbn [qp_world qp_processing qp_last_result lp_world]; split_and!; try done; unfold queue_wf in *; by rewrite sc_get_set.
Qed.

(** A queue of an event that cannot be sent and one already failed. *)
Definition backlog : list QueueItem :=
  [new_item "q1" "event" [("node_id", JStr "n1"); ("event", JObj [])] 5;
   new_item "q2" "rename" [] 6;
   set_qstatus Failed (Some "old") (new_item "q0" "event" [] 1)].

Definition processor0 : Processor CentralProxy :=
  {| qp_world := set_queue {| rows := backlog; open_ := true |} (proxy0 true);
     qp_processing := false; qp_last_result := None |}.

Lemma backlog_unique : keys_unique qi_id backlog.
Proof. apply (bool_decide_unpack _). by vm_compute. Qed.

Lemma process_queue_terminates_witness :
  exists res qp',
    @process_queue _ (proxy_client unreachable) 10 3 Z.of_nat (fun t => Nat.ltb t 4) 10 0 processor0
      = Some (res, qp') /\ qp_processing qp' = false.
Proof.
  destruct (process_queue_terminates (H := proxy_client unreachable) 10 3 Z.of_nat
              (fun t => Nat.ltb t 4) 0 10 processor0 backlog_unique eq_refl
              ltac:(apply Nat.leb_le; vm_compute; reflexivity))
    as (res & qp' & He & Hi & _ & _).
  exists res, qp'. split; [exact He|exact Hi].
Defined.

(** C8: an uninterrupted run drains the queue.  If the connection stays up and the queue is open,
    [process_queue] ends with no pending item.  Every item that was pending has been delivered and
    removed, or is kept as failed, its payload unchanged, after exactly [max_retries + 1] attempts (one
    more if it had already used them up); items that were not pending are untouched; and the
    reported figures are exact: [processed] is the number of items that left the table, [remaining]
    is zero and there is no error. *)
Theorem uninterrupted_run_drains {W : Type} `{SyncClientLaws W} (batch_size max_retries : Z)
    (clock : nat -> Z) (t0 fuel : nat) (qp : Processor W)
    (Hwf : queue_wf (sc_queue (qp_world qp))) (Hidle : qp_processing qp = false)
    (Hopen : open_ (sc_queue (qp_world qp)) = true) (Hbatch : batch_size <> 0%Z)
    (Hfuel : (budget max_retries (processor_rows qp) + 2 <= fuel)%nat) :
  exists res qp',
    process_queue batch_size max_retries clock (fun _ => true) fuel t0 qp = Some (res, qp')
    /\ (forall i, i ∈ processor_rows qp' ->
          (qi_status i <> Pending /\ i ∈ processor_rows qp)
          \/ (qi_status i = Failed
              /\ exists i0, i0 ∈ processor_rows qp /\ qi_status i0 = Pending
                 /\ qi_id i = qi_id i0 /\ qi_item_type i = qi_item_type i0
                 /\ qi_payload i = qi_payload i0
                 /\ qi_attempts i = (Z.max (qi_attempts i0) max_retries + 1)%Z))
    /\ (forall i, i ∈ processor_rows qp -> qi_status i <> Pending -> i ∈ processor_rows qp')
    /\ res_processed res
       = (Z.of_nat (length (processor_rows qp)) - Z.of_nat (length (processor_rows qp')))%Z
    /\ res_remaining res = 0%Z /\ res_errors res = [].
Proof.
  unfold process_queue. rewrite Hidle. set (st := {| lp_t := t0 |}).
  destruct (while_loop_ends batch_size max_retries clock (fun _ => true) fuel st)
    as (st' & -> & [Ho' Hu] & [[Hev1 Hev2] Hcount] & [?|Hnil]); [by split|done|done|].
  assert (Hnp : sql_select (has_status Pending) (rows (sc_queue (lp_world st'))) = []).
  { apply (order_by_nil_inv qi_created_at). unfold sql_limit, pending_in_order in Hnil.
    destruct (Z.ltb_spec batch_size 0); [done|].
    destruct (order_by _ _) as [|x l] eqn:E; [done|].
    destruct (Z.to_nat batch_size) eqn:Eb; [lia|done]. }
  assert (Hno : forall i, i ∈ rows (sc_queue (lp_world st')) -> qi_status i <> Pending).
  { intros i Hi Hp. assert (i ∈ sql_select (has_status Pending) (rows (sc_queue (lp_world st')))) as Hin.
    { apply elem_of_sql_select. split; [done|]. unfold has_status. by rewrite bool_decide_true. }
    rewrite Hnp in Hin. by apply not_elem_of_nil in Hin. }
  unfold get_pending_count. rewrite (on_queue_with_conn _ _ Ho'). cbn [fst snd].
  do 2 eexists. split; [reflexivity|]. cbn [qp_world res_processed res_remaining res_errors].
  rewrite sc_get_set. cbn [rows]. split_and!; try done.
  - intros i Hi. destruct (Hev1 i Hi) as (i0 & Hi0 & Hevo). specialize (Hno i Hi).
    destruct Hevo as [->|(Hp & ? & ? & ? & _ & [[? ?]|[? ?]])]; [by left|done|].
    right. split; [done|]. by exists i0.
  - cbn [lp_processed lp_world st] in Hcount. lia.
  - unfold sql_count. by rewrite Hnp.
Qed.

Lemma uninterrupted_run_drains_witness :
  exists res qp',
    @process_queue _ (proxy_client unreachable) 10 3 Z.of_nat (fun _ => true) 20 0 processor0
      = Some (res, qp') /\ res_remaining res = 0%Z.
Proof.
  destruct (uninterrupted_run_drains (H := proxy_client unreachable) 10 3 Z.of_nat 0 20 processor0
              backlog_unique eq_refl eq_refl ltac:(discriminate)
              ltac:(apply Nat.leb_le; vm_compute; reflexivity))
    as (res & qp' & He & _ & _ & _ & Hr & _).
  exists res, qp'. split; [exact He|exact Hr].
Defined.
