(* ===== verification/OfflineBoot.v ===== *)
(** * Booting while the controller is away

    [agent/offline_boot.py]: the scripts a site agent gives its machines from the
    cached state of their nodes.  [strftime] formats an instant,
    [strftime("%Y-%m-%d %H:%M:%S UTC")].  Durations are exact in microseconds. *)
From S2P Require Import Prelude PyStr Scripts SqlTable StateCache.
From stdpp Require Import base tactics list strings pretty.
From Stdlib Require Import Ascii ZArith Lia.
Open Scope string_scope.
#[local] Arguments String.append !_ _ : simpl nomatch.

Inductive default_action : Type := ActLocal | ActDiscovery | ActLastKnown.

Record OfflineBootGenerator := {
  ob_site_id : string;
  ob_default_action : default_action;
  ob_offline_since : option Z
}.

Definition set_offline_since (offline_since : option Z) (g : OfflineBootGenerator) : OfflineBootGenerator :=
  {| ob_site_id := ob_site_id g; ob_default_action := ob_default_action g; ob_offline_since := offline_since |}.

Definition local_disk : string := "sanboot --drive 0x80 || exit".

Section Generator.
Variable strftime : Z -> string.
Variable g : OfflineBootGenerator.

Definition _script_header (mac : string) : string :=
  unlines [
    "#!ipxe"; "# PureBoot Site Agent - OFFLINE MODE"; "# MAC: " ++ mac; "# Site: " ++ ob_site_id g; EmptyString;
    "echo"; "echo *** PureBoot Site Agent - OFFLINE ***"; "echo"; "echo   Central controller is unreachable.";
    "echo   Operating from cached state."; "echo"].

Definition _get_offline_info (now : Z) : string :=
  match ob_offline_since g with
  | Some since =>
      let total_seconds := ((now - since) / 1000000)%Z in
      let hours := (total_seconds / 3600)%Z in
      let minutes := (total_seconds mod 3600 / 60)%Z in
      "# Offline Since: " ++ strftime since ++ " (" ++ pretty hours ++ "h " ++ pretty minutes ++ "m)"
  | None => "# Offline Duration: Unknown"
  end.

(** The comments of a script made from the cache, and what follows them. *)
Definition cached_script (now : Z) (node : CachedNode) (state : string) (body : list string) : string :=
  _script_header (cn_mac_address node)
  ++ unlines (EmptyString :: ("# Cached State: " ++ state) :: ("# Cached At: " ++ strftime (cn_cached_at node))
                :: _get_offline_info now :: EmptyString :: body).

Definition _generate_cached_script (now : Z) (node : CachedNode) : string :=
  let state := cn_state node in
  if existsb (String.eqb state) ["discovered"; "pending"] then
    cached_script now node state [
      "echo   Node is in '" ++ state ++ "' state."; "echo   Cannot provision while offline.";
      "echo   Booting from local disk..."; "echo"; EmptyString; "sleep 5"; local_disk]
  else if String.eqb state "installing" then
    cached_script now node state [
      "echo   *** WARNING ***"; "echo   Node was in '" ++ state ++ "' state when offline began.";
      "echo   Cannot continue installation without central.";
      "echo   Booting from local disk (installation may be incomplete)."; "echo"; EmptyString; "sleep 10"; local_disk]
  else if existsb (String.eqb state) ["installed"; "active"] then
    cached_script now node state [
      "echo   Node is in '" ++ state ++ "' state."; "echo   Booting from local disk..."; "echo"; EmptyString;
      "sleep 3"; local_disk]
  else if String.eqb state "reprovision" then
    cached_script now node state [
      "echo   Node is marked for reprovisioning."; "echo   Cannot reprovision while offline.";
      "echo   Booting from local disk..."; "echo"; EmptyString; "sleep 5"; local_disk]
  else if String.eqb state "retired" then
    cached_script now node state [
      "echo   Node is retired."; "echo   No boot action configured."; "echo"; EmptyString; "sleep 3"; "exit"]
  else
    cached_script now node (state ++ " (unknown)") [
      "echo   Unknown node state: " ++ state; "echo   Booting from local disk..."; "echo"; EmptyString; "sleep 3";
      local_disk].

Definition _generate_discovery_script (now : Z) (mac : string) : string :=
  _script_header mac
  ++ unlines [
    EmptyString; "# Discovery Mode (Offline)"; _get_offline_info now; EmptyString;
    "echo   Running offline discovery..."; "echo"; "echo   MAC Address: " ++ mac;
    "echo   Vendor: ${manufacturer:undef}"; "echo   Model: ${product:undef}"; "echo   Serial: ${serial:undef}";
    "echo   UUID: ${uuid:undef}"; "echo"; "echo   Discovery data will be synced when online.";
    "echo   Booting from local disk..."; "echo"; EmptyString; "sleep 10"; local_disk].

Definition unknown_local_script (now : Z) (mac : string) : string :=
  _script_header mac
  ++ unlines [
    EmptyString; "# Node not in cache"; _get_offline_info now; EmptyString; "echo   This node is not registered.";
    "echo   Cannot register while offline."; "echo   Booting from local disk..."; "echo"; EmptyString; "sleep 5";
    local_disk].

Definition _generate_unknown_script (now : Z) (mac : string) (cache : NodeStateCache) : string :=
  match ob_default_action g with
  | ActDiscovery => _generate_discovery_script now mac
  | ActLastKnown =>
      match get_node mac cache with
      | Some cached => _generate_cached_script now cached
      | None => unknown_local_script now mac
      end
  | ActLocal => unknown_local_script now mac
  end.

(** The hardware information is passed on and never used. *)
Definition generate_script (now : Z) (mac : string) (cache : NodeStateCache) : string :=
  let mac := normalize_mac mac in
  match get_node mac cache with
  | Some cached_node => _generate_cached_script now cached_node
  | None => _generate_unknown_script now mac cache
  end.
End Generator.

(** ** [OfflineBootScripts] *)

Definition local_boot (mac site_id reason : string) : string :=
  unlines [
    "#!ipxe"; "# PureBoot Site Agent - Local Boot"; "# MAC: " ++ mac; "# Site: " ++ site_id; EmptyString; "echo";
    "echo *** PureBoot - Local Boot ***"; "echo";
    if String.eqb reason "" then EmptyString else "echo   Reason: " ++ reason;
    "echo   Booting from local disk..."; "echo"; EmptyString; "sleep 2"; local_disk].

Definition maintenance_mode (mac site_id message : string) : string :=
  unlines [
    "#!ipxe"; "# PureBoot Site Agent - Maintenance Mode"; "# MAC: " ++ mac; "# Site: " ++ site_id; EmptyString; "echo";
    "echo *** PureBoot - MAINTENANCE MODE ***"; "echo";
    if String.eqb message "" then "echo   System under maintenance." else "echo   " ++ message;
    "echo   Booting from local disk..."; "echo"; EmptyString; "sleep 5"; local_disk].

Definition error_script (mac site_id error : string) : string :=
  unlines [
    "#!ipxe"; "# PureBoot Site Agent - Error"; "# MAC: " ++ mac; "# Site: " ++ site_id; EmptyString; "echo";
    "echo *** PureBoot - ERROR ***"; "echo"; "echo   Error: " ++ error; "echo   Booting from local disk..."; "echo";
    EmptyString; "sleep 10"; local_disk].

(** ** What the scripts may do *)

(** A line that reports, waits, leaves, or boots from the first disk. *)
Definition stays_local_line (l : string) : bool :=
  String.eqb l "" || startswith "#" l || startswith "echo" l || startswith "sleep " l || String.eqb l "exit"
  || String.eqb l local_disk.
Definition stays_local (script : string) : bool := lines_ok stays_local_line script.

Lemma stays_local_app w x : startswith "#" w || startswith "echo" w = true -> stays_local_line (w ++ x) = true.
Proof.
  unfold stays_local_line. rewrite orb_true_iff, !startswith_spec.
  intros [[r ->]|[r ->]]; rewrite str_app_assoc, startswith_app; by rewrite ?orb_true_r.
Qed.

Ltac local_lines := ok_lines ltac:(intros y; by apply stays_local_app).

(** One line of text. *)
Abbreviation one_line s := (lacks "010" s = true).

Lemma one_line_clean s : one_line s -> clean s.
Proof. by left. Qed.
#[local] Hint Resolve one_line_clean : core.

Lemma one_line_app x y : one_line x -> one_line y -> one_line (x ++ y).
Proof. intros Hx Hy. by rewrite lacks_app, Hx, Hy. Qed.
#[local] Hint Resolve one_line_app : core.

Section Local.
Context (strftime : Z -> string) (Htime : forall t, one_line (strftime t)).
Context (g : OfflineBootGenerator) (Hsite : one_line (ob_site_id g)).

Lemma offline_info_block now : block_ok stays_local_line (_get_offline_info strftime g now).
Proof.
  unfold _get_offline_info. destruct (ob_offline_since g) as [t|]; [|by apply block_line].
  apply block_app; [done|intros y; by apply stays_local_app|]. apply one_line_clean.
  repeat apply one_line_app; try done; apply pretty_lacks_nl.
Qed.
#[local] Hint Resolve offline_info_block : core.

Lemma header_then mac rest : one_line mac -> lines_ok stays_local_line rest = true ->
  stays_local (_script_header g mac ++ rest) = true.
Proof. intros Hm Hr. unfold stays_local, _script_header. apply lines_ok_unlines_app; [done| |done]. local_lines. Qed.

Lemma cached_script_local now node state body : one_line (cn_mac_address node) -> one_line state ->
  Forall (block_ok stays_local_line) body -> stays_local (cached_script strftime g now node state body) = true.
Proof.
  intros Hm Hs Hb. unfold cached_script. apply header_then; [done|]. apply lines_ok_unlines; [done|].
  apply Forall_cons_2; [by apply block_line|].
  do 2 (apply Forall_cons_2; [apply block_app; [done|intros y; by apply stays_local_app|by auto]|]).
  apply Forall_cons_2; [done|]. by apply Forall_cons_2; [apply block_line|].
Qed.

Lemma cached_local now node : one_line (cn_mac_address node) -> one_line (cn_state node) ->
  stays_local (_generate_cached_script strftime g now node) = true.
Proof.
  intros Hm Hs. unfold _generate_cached_script. cbv zeta.
  repeat match goal with |- context [if ?b then _ else _] => destruct b end.
  all: apply cached_script_local; [done|by auto|local_lines].
Qed.

Lemma unknown_local now mac : one_line mac -> stays_local (unknown_local_script strftime g now mac) = true.
Proof.
  intros Hm. unfold unknown_local_script. apply header_then; [done|]. apply lines_ok_unlines; [done|].
  do 2 (apply Forall_cons_2; [by apply block_line|]). apply Forall_cons_2; [done|]. local_lines.
Qed.

Lemma discovery_local now mac : one_line mac -> stays_local (_generate_discovery_script strftime g now mac) = true.
Proof.
  intros Hm. unfold _generate_discovery_script. apply header_then; [done|]. apply lines_ok_unlines; [done|].
  do 2 (apply Forall_cons_2; [by apply block_line|]). apply Forall_cons_2; [done|]. local_lines.
Qed.

(** Every cached text is one line. *)
Definition cache_plain (c : NodeStateCache) : Prop :=
  Forall (fun n => one_line (cn_mac_address n) /\ one_line (cn_state n)) (nodes c).

Lemma generate_script_local now mac cache : one_line (normalize_mac mac) -> cache_plain cache ->
  stays_local (generate_script strftime g now mac cache) = true.
Proof.
  intros Hm Hc.
  assert (forall k n, get_node k cache = Some n -> stays_local (_generate_cached_script strftime g now n) = true) as H.
  { intros k n Hn. apply sql_find_Some_1 in Hn as [Hn _]. destruct (proj1 (Forall_forall _ _) Hc n Hn). by apply cached_local. }
  unfold generate_script. destruct (get_node (normalize_mac mac) cache) as [n|] eqn:E; [by eapply H|].
  unfold _generate_unknown_script. destruct (ob_default_action g); [by apply unknown_local|by apply discovery_local|].
  rewrite E. by apply unknown_local.
Qed.
End Local.

(** The action [last_known] is the action [local]: it looks again for the entry that
    was not found, and expired entries were served before. *)
Theorem last_known_is_local strftime g now mac cache :
  ob_default_action g = ActLastKnown ->
  generate_script strftime g now mac cache
  = generate_script strftime {| ob_site_id := ob_site_id g; ob_default_action := ActLocal;
                                ob_offline_since := ob_offline_since g |} now mac cache.
Proof.
  intros Hg. unfold generate_script, _generate_unknown_script. rewrite Hg. cbn [ob_default_action].
  by destruct (get_node (normalize_mac mac) cache).
Qed.
