(* ===== verification/Approvals.v ===== *)
(** * Approvals: the four-eye principle

    [services/approvals.py], the handlers of [api/routes/approvals.py] and
    [core/escalation_job.py].  The database is the table of approvals, each with
    its votes in the order they were cast, the approval rules, the members of
    the user groups and the audit log.  Every request runs in the transaction of
    [get_db].  Instants are microseconds; one [now] stands for the calls of
    [datetime.now] of one request.  A rule's operations are what [json.loads]
    makes of its column, [None] when it is no JSON.  Fresh uuids are arguments. *)
From S2P Require Import Prelude PyStr SqlTable.
From stdpp Require Import base tactics list strings pretty sorting.
From Stdlib Require Import ZArith Lia.
Open Scope string_scope.

(** ** Data *)

Inductive approval_status : Type := ApPending | ApApproved | ApRejected | ApExpired | ApCancelled.

#[export] Instance approval_status_eq_dec : EqDecision approval_status.
Proof. solve_decision. Defined.

Definition status_str (s : approval_status) : string :=
  match s with
  | ApPending => "pending" | ApApproved => "approved" | ApRejected => "rejected"
  | ApExpired => "expired" | ApCancelled => "cancelled"
  end.

Record ApprovalVote := {
  av_id : string;
  av_user_id : option string;
  av_user_name : string;
  av_vote : string;
  av_comment : option string;
  av_is_escalation_vote : bool
}.

Record Approval := {
  ap_id : string;
  ap_operation_type : string;
  ap_action_data : list (string * json);
  ap_rule_id : option string;
  ap_requester_id : option string;
  ap_requester_name : string;
  ap_status : approval_status;
  ap_required_approvers : Z;
  ap_escalated_at : option Z;
  ap_escalation_count : Z;
  ap_expires_at : Z;
  ap_resolved_at : option Z;
  ap_metadata : option json;
  ap_created_at : Z;
  ap_votes : list ApprovalVote
}.

Record ApprovalRule := {
  ru_id : string;
  ru_name : string;
  ru_scope_type : string;
  ru_scope_id : option string;
  ru_operations : option (list string);
  ru_required_approvers : Z;
  ru_escalation_timeout_hours : Z;
  ru_escalation_role_id : option string;
  ru_is_active : bool;
  ru_priority : Z
}.

Record ApprovalDB := {
  approvals : list Approval;
  rules : list ApprovalRule;
  group_members : list (string * string);   (* user_group_id, user_id *)
  audit_log : list (string * string * string)   (* action, resource_type, resource_id *)
}.

Inductive approval_error : Type :=
| ValueError (msg : string)
| ApprovalNotFoundError (id : string)
| UserCannotVoteError (reason : string)
| HTTPException (status : Z) (detail : string)
| ApprovalIntegrityError.

Abbreviation ApprovalM A := (M ApprovalDB approval_error A).

Definition set_approvals (t : list Approval) (d : ApprovalDB) : ApprovalDB :=
  {| approvals := t; rules := rules d; group_members := group_members d; audit_log := audit_log d |}.

(** The assignments to an approval's attributes, flushed. *)
Definition update_approval (id : string) (f : Approval -> Approval) : ApprovalM unit :=
  modify (fun d => set_approvals (sql_update (has_key ap_id id) f (approvals d)).1 d).

Definition find_approval (id : string) : ApprovalM (option Approval) :=
  d ← get_state; mret (sql_find ap_id id (approvals d)).

Definition resolve (st : approval_status) (now : Z) (a : Approval) : Approval :=
  {| ap_id := ap_id a; ap_operation_type := ap_operation_type a; ap_action_data := ap_action_data a;
     ap_rule_id := ap_rule_id a; ap_requester_id := ap_requester_id a;
     ap_requester_name := ap_requester_name a; ap_status := st;
     ap_required_approvers := ap_required_approvers a; ap_escalated_at := ap_escalated_at a;
     ap_escalation_count := ap_escalation_count a; ap_expires_at := ap_expires_at a;
     ap_resolved_at := Some now; ap_metadata := ap_metadata a; ap_created_at := ap_created_at a;
     ap_votes := ap_votes a |}.

Definition add_vote (v : ApprovalVote) (a : Approval) : Approval :=
  {| ap_id := ap_id a; ap_operation_type := ap_operation_type a; ap_action_data := ap_action_data a;
     ap_rule_id := ap_rule_id a; ap_requester_id := ap_requester_id a;
     ap_requester_name := ap_requester_name a; ap_status := ap_status a;
     ap_required_approvers := ap_required_approvers a; ap_escalated_at := ap_escalated_at a;
     ap_escalation_count := ap_escalation_count a; ap_expires_at := ap_expires_at a;
     ap_resolved_at := ap_resolved_at a; ap_metadata := ap_metadata a; ap_created_at := ap_created_at a;
     ap_votes := ap_votes a ++ [v] |}.

Definition escalated (now expires : Z) (a : Approval) : Approval :=
  {| ap_id := ap_id a; ap_operation_type := ap_operation_type a; ap_action_data := ap_action_data a;
     ap_rule_id := ap_rule_id a; ap_requester_id := ap_requester_id a;
     ap_requester_name := ap_requester_name a; ap_status := ap_status a;
     ap_required_approvers := ap_required_approvers a; ap_escalated_at := Some now;
     ap_escalation_count := ap_escalation_count a + 1; ap_expires_at := expires;
     ap_resolved_at := ap_resolved_at a; ap_metadata := ap_metadata a; ap_created_at := ap_created_at a;
     ap_votes := ap_votes a |}.

Definition hours (n : Z) : Z := n * 3600000000.

(** ** Rules *)

Definition pattern_matches (operation_type pattern : string) : bool :=
  String.eqb pattern "*"
  || String.eqb pattern operation_type
  || (endswith ".*" pattern
      && startswith (str_take (String.length pattern - 2) pattern ++ ".") operation_type).

Definition _operation_matches (operation_type : string) (operations : list string) : bool :=
  existsb (pattern_matches operation_type) operations.

(** The body of the loop: whether the rule is returned. *)
Definition rule_matches (operation_type : string) (user_group_ids : list string)
    (device_group_id : option string) (r : ApprovalRule) : bool :=
  match ru_operations r with
  | None => false
  | Some operations =>
      if negb (_operation_matches operation_type operations) then false
      else if String.eqb (ru_scope_type r) "device_group" then
        match device_group_id with
        | Some g => negb (String.eqb g "") && bool_decide (ru_scope_id r = Some g)
        | None => false
        end
      else if String.eqb (ru_scope_type r) "user_group" then
        match ru_scope_id r with
        | Some s => bool_decide (s ∈ user_group_ids)
        | None => false
        end
      else String.eqb (ru_scope_type r) "global"
  end.

Definition user_groups (user_id : string) (d : ApprovalDB) : list string :=
  map fst (List.filter (fun gm => String.eqb gm.2 user_id) (group_members d)).

(** Rules of one priority are tried in table order. *)
Definition find_matching_rule (operation_type user_id : string) (device_group_id : option string)
    (d : ApprovalDB) : option ApprovalRule :=
  List.find (rule_matches operation_type (user_groups user_id d) device_group_id)
    (order_by_desc ru_priority (sql_select ru_is_active (rules d))).

(** ** Creating *)

Definition insert_approval (a : Approval) : ApprovalM Approval :=
  d ← get_state;
  match sql_insert ap_id a (approvals d) with
  | Some t => put_state (set_approvals t d);; mret a
  | None => raise ApprovalIntegrityError
  end.

Definition create_approval_request (now : Z) (id : string) (rule : ApprovalRule)
    (operation_type requester_id requester_name target_type target_id description : string)
    (action_data : list (string * json)) (metadata : option json) : ApprovalM Approval :=
  insert_approval
    {| ap_id := id; ap_operation_type := operation_type;
       ap_action_data := assoc_set "description" (JStr description)
         (assoc_set "target_id" (JStr target_id)
           (assoc_set "target_type" (JStr target_type) action_data));
       ap_rule_id := Some (ru_id rule); ap_requester_id := Some requester_id;
       ap_requester_name := requester_name; ap_status := ApPending;
       ap_required_approvers := ru_required_approvers rule; ap_escalated_at := None;
       ap_escalation_count := 0;
       ap_expires_at := now + hours (ru_escalation_timeout_hours rule);
       ap_resolved_at := None;
       ap_metadata := match metadata with
                      | Some m => if truthy m then Some m else None
                      | None => None
                      end;
       ap_created_at := now; ap_votes := [] |}.

Definition APPROVAL_EXPIRY_HOURS : Z := 24.
Definition VALID_ACTION_TYPES : list string :=
  ["bulk_wipe"; "bulk_retire"; "delete_template"; "production_state_change"].

(** [POST /approvals] *)
Definition create_approval (now : Z) (id action_type : string) (action_data : list (string * json))
    (requester_name : string) (requester_id : option string) (required_approvers : Z)
    : ApprovalM Approval :=
  if bool_decide (action_type ∉ VALID_ACTION_TYPES) then
    raise (HTTPException 400 "Invalid action type")
  else if (required_approvers <? 1)%Z || (5 <? required_approvers)%Z then
    raise (HTTPException 400 "Required approvers must be between 1 and 5")
  else
    insert_approval
      {| ap_id := id; ap_operation_type := action_type; ap_action_data := action_data;
         ap_rule_id := None; ap_requester_id := requester_id; ap_requester_name := requester_name;
         ap_status := ApPending; ap_required_approvers := required_approvers;
         ap_escalated_at := None; ap_escalation_count := 0;
         ap_expires_at := now + hours APPROVAL_EXPIRY_HOURS; ap_resolved_at := None;
         ap_metadata := None; ap_created_at := now; ap_votes := [] |}.

(** ** Voting *)

Definition count_votes (kind : string) (a : Approval) : Z :=
  Z.of_nat (length (List.filter (fun v => String.eqb (av_vote v) kind) (ap_votes a))).

(** The threshold checks that follow a new vote; the approval has been
    refreshed, so its votes include it. *)
Definition settle (now : Z) (a : Approval) : Approval * bool :=
  if (ap_required_approvers a <=? count_votes "approve" a)%Z then (resolve ApApproved now a, true)
  else if (ap_required_approvers a <=? count_votes "reject" a)%Z then (resolve ApRejected now a, true)
  else (a, false).

Definition four_eyes_message : string :=
  "You cannot vote on your own request (four-eye principle)".

Definition cast_vote (now : Z) (vid approval_id user_id user_name vote : string)
    (comment : option string) (is_escalation_vote : bool) : ApprovalM (ApprovalVote * bool) :=
  if bool_decide (vote ∉ ["approve"; "reject"]) then
    raise (ValueError ("Vote must be 'approve' or 'reject', got: " ++ vote))
  else
    found ← find_approval approval_id;
    match found with
    | None => raise (ApprovalNotFoundError approval_id)
    | Some approval =>
        if bool_decide (ap_status approval ≠ ApPending) then
          raise (UserCannotVoteError
                   ("Approval is not pending (status: " ++ status_str (ap_status approval) ++ ")"))
        else if (ap_expires_at approval <? now)%Z then
          update_approval approval_id (resolve ApExpired now);;
          raise (UserCannotVoteError "Approval has expired")
        else if negb (String.eqb user_id "")
                && bool_decide (ap_requester_id approval = Some user_id) then
          raise (UserCannotVoteError four_eyes_message)
        else if String.eqb user_name (ap_requester_name approval) then
          raise (UserCannotVoteError four_eyes_message)
        else if existsb (fun v => bool_decide (av_user_id v = Some user_id)
                                  || String.eqb (av_user_name v) user_name) (ap_votes approval) then
          raise (UserCannotVoteError "You have already voted on this request")
        else
          let approval_vote :=
            {| av_id := vid; av_user_id := Some user_id; av_user_name := user_name; av_vote := vote;
               av_comment := comment; av_is_escalation_vote := is_escalation_vote |} in
          update_approval approval_id (add_vote approval_vote);;
          let approval := add_vote approval_vote approval in
          update_approval approval_id (fun a => (settle now a).1);;
          mret (approval_vote, (settle now approval).2)
    end.

(** [audit_action]: the entry in the database; the log file and the SIEM are
    best effort and do not raise. *)
Definition audit_action (action resource_type resource_id : string) : ApprovalM unit :=
  modify (fun d => {| approvals := approvals d; rules := rules d; group_members := group_members d;
                      audit_log := audit_log d ++ [(action, resource_type, resource_id)] |}).

(** The [except] clauses of [vote_on_approval]. *)
Definition vote_http_error (e : approval_error) : approval_error :=
  match e with
  | ApprovalNotFoundError _ => HTTPException 404 "Approval not found"
  | UserCannotVoteError reason => HTTPException 400 reason
  | ValueError msg => HTTPException 400 msg
  | e => e
  end.

(** [POST /approvals/{id}/vote]; [user] is the authenticated id and name. The
    answer: the vote, whether it completed the approval, and its status. *)
Definition vote_on_approval (now : Z) (vid approval_id vote : string) (comment : option string)
    (user : option (string * string)) : ApprovalM (ApprovalVote * bool * string) :=
  if bool_decide (vote ∉ ["approve"; "reject"]) then
    raise (HTTPException 400 "Vote must be 'approve' or 'reject'")
  else
    match user with
    | None => raise (HTTPException 401 "Authentication required")
    | Some (user_id, user_name) =>
        if String.eqb user_id "" || String.eqb user_name "" then
          raise (HTTPException 401 "Authentication required")
        else
          catch
            ('(vote_obj, is_complete) ← cast_vote now vid approval_id user_id user_name vote comment false;
             approval ← find_approval approval_id;
             audit_action "vote" "approval" approval_id;;
             mret (vote_obj, is_complete,
                   match approval with Some a => status_str (ap_status a) | None => "unknown" end))
            (fun e => raise (vote_http_error e))
    end.

(** [_cast_vote] of the route file, behind [/approve] and [/reject]: the voter
    is whoever the body names. *)
Definition legacy_cast_vote (now : Z) (vid approval_id user_name : string) (user_id comment : option string)
    (vote_type : string) : ApprovalM Approval :=
  found ← find_approval approval_id;
  match found with
  | None => raise (HTTPException 404 "Approval not found")
  | Some approval =>
      if bool_decide (ap_status approval ≠ ApPending) then
        raise (HTTPException 400 "This approval is no longer pending")
      else if existsb (fun v => String.eqb (av_user_name v) user_name) (ap_votes approval) then
        raise (HTTPException 400 "You have already voted on this request")
      else if String.eqb user_name (ap_requester_name approval) then
        raise (HTTPException 400 "You cannot vote on your own request")
      else if (ap_expires_at approval <? now)%Z then
        update_approval approval_id (resolve ApExpired now);;
        raise (HTTPException 400 "This approval request has expired")
      else
        let vote :=
          {| av_id := vid; av_user_id := user_id; av_user_name := user_name; av_vote := vote_type;
             av_comment := comment; av_is_escalation_vote := false |} in
        update_approval approval_id (add_vote vote);;
        let approval := add_vote vote approval in
        update_approval approval_id (fun a => (settle now a).1);;
        mret (settle now approval).1
  end.

Definition approve_request (now : Z) (vid approval_id user_name : string) (user_id comment : option string) :=
  legacy_cast_vote now vid approval_id user_name user_id comment "approve".
Definition reject_request (now : Z) (vid approval_id user_name : string) (user_id comment : option string) :=
  legacy_cast_vote now vid approval_id user_name user_id comment "reject".

(** ** Who may vote *)

Definition check_user_can_approve (now : Z) (approval_id user_id : string) (d : ApprovalDB) : bool * string :=
  match sql_find ap_id approval_id (approvals d) with
  | None => (false, "Approval not found")
  | Some approval =>
      if bool_decide (ap_status approval ≠ ApPending) then
        (false, "Approval is not pending (status: " ++ status_str (ap_status approval) ++ ")")
      else if (ap_expires_at approval <? now)%Z then (false, "Approval has expired")
      else if bool_decide (ap_requester_id approval = Some user_id) then
        (false, "You cannot vote on your own request")
      else if existsb (fun v => bool_decide (av_user_id v = Some user_id)) (ap_votes approval) then
        (false, "You have already voted on this request")
      else (true, "User can vote")
  end.

Definition is_pending (a : Approval) : bool := bool_decide (ap_status a = ApPending).

Definition get_pending_approvals_for_user (now : Z) (user_id : string) (d : ApprovalDB) : list Approval :=
  List.filter
    (fun a => negb (bool_decide (ap_requester_id a = Some user_id))
              && negb (ap_expires_at a <? now)%Z
              && negb (existsb (fun v => bool_decide (av_user_id v = Some user_id)) (ap_votes a)))
    (order_by_desc ap_created_at (sql_select is_pending (approvals d))).

(** ** Cancelling *)

Definition cancel_approval (now : Z) (approval_id user_id : string) : ApprovalM Approval :=
  found ← find_approval approval_id;
  match found with
  | None => raise (ApprovalNotFoundError approval_id)
  | Some approval =>
      if bool_decide (ap_status approval ≠ ApPending) then
        raise (UserCannotVoteError
                 ("Only pending approvals can be cancelled (status: "
                  ++ status_str (ap_status approval) ++ ")"))
      else if bool_decide (ap_requester_id approval ≠ Some user_id) then
        raise (UserCannotVoteError "Only the requester can cancel an approval")
      else
        update_approval approval_id (resolve ApCancelled now);;
        mret (resolve ApCancelled now approval)
  end.

(** [POST /approvals/{id}/cancel] *)
Definition cancel_approval_post (now : Z) (approval_id : string) (user_id : option string) : ApprovalM Approval :=
  match user_id with
  | None => raise (HTTPException 401 "Authentication required")
  | Some user_id =>
      if String.eqb user_id "" then raise (HTTPException 401 "Authentication required")
      else
        catch (cancel_approval now approval_id user_id)
          (fun e => raise match e with
                          | ApprovalNotFoundError _ => HTTPException 404 "Approval not found"
                          | UserCannotVoteError reason => HTTPException 403 reason
                          | e => e
                          end)
  end.

(** [DELETE /approvals/{id}] *)
Definition cancel_approval_delete (now : Z) (approval_id requester_name : string) : ApprovalM Approval :=
  found ← find_approval approval_id;
  match found with
  | None => raise (HTTPException 404 "Approval not found")
  | Some approval =>
      if bool_decide (ap_status approval ≠ ApPending) then
        raise (HTTPException 400 "Only pending approvals can be cancelled")
      else if negb (String.eqb (ap_requester_name approval) requester_name) then
        raise (HTTPException 403 "Only the requester can cancel this approval")
      else
        update_approval approval_id (resolve ApCancelled now);;
        mret (resolve ApCancelled now approval)
  end.

(** ** Expiry and escalation *)

Definition get_expired_approvals (now : Z) (d : ApprovalDB) : list Approval :=
  sql_select (fun a => is_pending a && (ap_expires_at a <? now)%Z) (approvals d).

(** The deadline an escalation sets: kept when the rule is gone. *)
Definition escalation_deadline (now : Z) (rs : list ApprovalRule) (a : Approval) : Z :=
  match ap_rule_id a with
  | Some rid =>
      if String.eqb rid "" then ap_expires_at a
      else
        match sql_find ru_id rid rs with
        | Some r => now + hours (ru_escalation_timeout_hours r)
        | None => ap_expires_at a
        end
  | None => ap_expires_at a
  end.

Definition escalate_approval (now : Z) (approval : Approval) : ApprovalM unit :=
  d ← get_state;
  update_approval (ap_id approval)
    (fun a => escalated now (escalation_deadline now (rules d) a) a).

Fixpoint escalate_or_expire (now max_escalations : Z) (expired : list Approval) : ApprovalM (Z * Z) :=
  match expired with
  | [] => mret (0%Z, 0%Z)
  | approval :: rest =>
      if (ap_escalation_count approval <? max_escalations)%Z then
        escalate_approval now approval;;
        '(e, r) ← escalate_or_expire now max_escalations rest;
        mret (e + 1, r)%Z
      else
        update_approval (ap_id approval) (resolve ApExpired now);;
        '(e, r) ← escalate_or_expire now max_escalations rest;
        mret (e, r + 1)%Z
  end.

Definition process_expired_approvals (now max_escalations : Z) : ApprovalM (Z * Z) :=
  d ← get_state;
  escalate_or_expire now max_escalations (get_expired_approvals now d).

Definition MAX_ESCALATIONS : Z := 3.

(** The periodic job; its errors are logged and rolled back. *)
Definition process_escalations (now : Z) : ApprovalM unit :=
  catch (with_db (process_expired_approvals now MAX_ESCALATIONS);; mret tt) (fun _ => mret tt).

(** [_expire_old_approvals], run by the list and the statistics. *)
Definition _expire_old_approvals (now : Z) : ApprovalM unit :=
  modify (fun d => set_approvals
    (sql_update (fun a => is_pending a && (ap_expires_at a <? now)%Z) (resolve ApExpired now)
       (approvals d)).1 d).

(** [GET /approvals/stats] *)
Definition get_approval_stats (now : Z) : ApprovalM Z :=
  _expire_old_approvals now;;
  d ← get_state;
  mret (sql_count is_pending (approvals d)).

(** ** Rule selection *)

(** What a pattern covers: everything, one operation, or a prefix of dotted names. *)
Definition covers (operation_type pattern : string) : Prop :=
  pattern = "*" \/ pattern = operation_type
  \/ exists pre rest, pattern = pre ++ ".*" /\ operation_type = pre ++ "." ++ rest.

Lemma pattern_matches_spec op p : pattern_matches op p = true <-> covers op p.
Proof.
  unfold pattern_matches, covers.
  rewrite !orb_true_iff, andb_true_iff, !String.eqb_eq, endswith_spec, startswith_spec.
  assert (Hdrop : forall r, str_take (String.length (r ++ ".*") - 2) (r ++ ".*") = r).
  { intros r. rewrite str_app_length. cbn [String.length]. rewrite Nat.add_sub. apply str_take_app. }
  split.
  - intros [[?|?]|[[r ->] [rest ->]]]; [by left|by right; left|]. right; right.
    exists r, rest. rewrite Hdrop, str_app_assoc. done.
  - intros [?|[?|(pre & rest & -> & ->)]]; [by left; left|by left; right|]. right.
    split; [by exists pre|]. rewrite Hdrop. exists rest. by rewrite str_app_assoc.
Qed.

(** The rules that apply to an operation, from the rules page: active, with a
    pattern that covers it, in a scope that contains the request. *)
Definition applies (operation_type user_id : string) (device_group_id : option string)
    (d : ApprovalDB) (r : ApprovalRule) : Prop :=
  ru_is_active r = true
  /\ (exists ps, ru_operations r = Some ps /\ exists p, p ∈ ps /\ covers operation_type p)
  /\ ((ru_scope_type r = "device_group" /\ exists g, device_group_id = Some g /\ g <> ""
                                                /\ ru_scope_id r = Some g)
      \/ (ru_scope_type r = "user_group" /\ exists g, ru_scope_id r = Some g
                                            /\ (g, user_id) ∈ group_members d)
      \/ ru_scope_type r = "global").

Lemma elem_of_user_groups g u d : g ∈ user_groups u d <-> (g, u) ∈ group_members d.
Proof.
  unfold user_groups. rewrite list_elem_of_In, in_map_iff. split.
  - intros ([g' u'] & Hg & Hin). cbn in Hg. subst g'. apply filter_In in Hin as [Hin He]. apply String.eqb_eq in He.
    cbn in He. subst u'. by apply list_elem_of_In.
  - intros Hin. exists (g, u). split; [done|]. apply filter_In.
    split; [by apply list_elem_of_In|]. apply String.eqb_refl.
Qed.

Lemma rule_matches_spec op u dg d r :
  ru_is_active r = true /\ rule_matches op (user_groups u d) dg r = true <-> applies op u dg d r.
Proof.
  unfold rule_matches, applies. destruct (ru_operations r) as [ps|]; [|naive_solver].
  assert (Hops : _operation_matches op ps = true <-> exists p, p ∈ ps /\ covers op p).
  { unfold _operation_matches. rewrite existsb_exists. setoid_rewrite pattern_matches_spec.
    by setoid_rewrite list_elem_of_In. }
  destruct (_operation_matches op ps); cbn [negb].
  2:{ split; [naive_solver|]. intros (_ & (ps' & [= <-] & H%Hops) & _). done. }
  assert (exists ps0, Some ps = Some ps0 /\ exists p, p ∈ ps0 /\ covers op p) as Hps.
  { exists ps. split; [done|]. by apply Hops. }
  destruct (String.eqb_spec (ru_scope_type r) "device_group") as [->|Hd];
    [|destruct (String.eqb_spec (ru_scope_type r) "user_group") as [->|Hu]].
  - destruct dg as [g|]; [|naive_solver]. rewrite andb_true_iff, negb_true_iff, String.eqb_neq, bool_decide_eq_true.
    naive_solver.
  - destruct (ru_scope_id r) as [g|]; [|naive_solver].
    rewrite bool_decide_eq_true, elem_of_user_groups. naive_solver.
  - rewrite String.eqb_eq. naive_solver.
Qed.

Lemma find_first {A} (P : A -> bool) (k : A -> Z) l x :
  ordered k l -> List.find P l = Some x -> forall y, y ∈ l -> P y = true -> (k x <= k y)%Z.
Proof.
  unfold ordered. induction 1 as [|z l Hs IH Hz]; cbn; [done|].
  intros Hf y Hy HP. destruct (P z) eqn:Ez.
  - injection Hf as <-. apply elem_of_cons in Hy as [->|Hy]; [lia|].
    rewrite Forall_forall in Hz. auto.
  - apply elem_of_cons in Hy as [->|Hy]; [congruence|auto].
Qed.

(** [find_matching_rule] is complete and picks by priority alone: it finds a rule exactly when
    some active rule covers the operation in a scope that contains the request, and the rule found is
    such a rule of the highest priority, whatever the scopes of the others. *)
Theorem find_matching_rule_exact (op u : string) (dg : option string) (d : ApprovalDB) :
  match find_matching_rule op u dg d with
  | Some r => r ∈ rules d /\ applies op u dg d r
              /\ forall r', r' ∈ rules d -> applies op u dg d r' -> (ru_priority r' <= ru_priority r)%Z
  | None => forall r, r ∈ rules d -> ~ applies op u dg d r
  end.
Proof.
  unfold find_matching_rule. set (l := order_by_desc _ _).
  assert (Hl : forall r, r ∈ l <-> r ∈ rules d /\ ru_is_active r = true).
  { intros r. unfold l, order_by_desc. rewrite order_by_perm. apply elem_of_sql_select. }
  destruct (List.find _ l) as [r|] eqn:E.
  - pose proof (find_some _ _ E) as [Hin%list_elem_of_In Hm]. apply Hl in Hin as [Hin Ha].
    split_and!; [done|by apply rule_matches_spec|].
    intros r' Hr' [Ha' Hm']%rule_matches_spec.
    pose proof (find_first _ _ _ _ (order_by_ordered (fun r => (- ru_priority r)%Z) _) E r') as H.
    specialize (H ltac:(by apply Hl) Hm'). cbn in H. lia.
  - intros r Hr [Ha Hm]%rule_matches_spec.
    pose proof (find_none _ _ E r) as H. rewrite H in Hm; [done|]. by apply list_elem_of_In, Hl.
Qed.

Definition rule (id scope : string) (sid : option string) (ops : list string) (priority : Z) : ApprovalRule :=
  {| ru_id := id; ru_name := id; ru_scope_type := scope; ru_scope_id := sid; ru_operations := Some ops;
     ru_required_approvers := 2; ru_escalation_timeout_hours := 72; ru_escalation_role_id := None; ru_is_active := true;
     ru_priority := priority |}.

(** A global rule of a higher priority goes before a rule for the node's own group. *)
Example global_rule_first :
  let d := {| approvals := []; group_members := []; audit_log := [];
              rules := [rule "r1" "device_group" (Some "g1") ["node.*"] 1; rule "r2" "global" None ["*"] 5] |} in
  find_matching_rule "node.wipe" "u1" (Some "g1") d = Some (rule "r2" "global" None ["*"] 5).
Proof. reflexivity. Qed.

(** ** Requests and runs *)

Inductive approval_op : Type :=
| OpCreate (now : Z) (id action_type : string) (action_data : list (string * json))
    (requester_name : string) (requester_id : option string) (required : Z)
| OpRequest (now : Z) (id : string) (rule : ApprovalRule) (op rid rname ttype tid descr : string)
    (action_data : list (string * json)) (metadata : option json)
| OpVote (now : Z) (vid id vote : string) (comment : option string) (user : option (string * string))
| OpApprove (now : Z) (vid id user_name : string) (user_id comment : option string)
| OpReject (now : Z) (vid id user_name : string) (user_id comment : option string)
| OpCancel (now : Z) (id : string) (user : option string)
| OpDelete (now : Z) (id requester_name : string)
| OpStats (now : Z)
| OpEscalate (now : Z).

Definition approval_handle (o : approval_op) : ApprovalM unit :=
  match o with
  | OpCreate now id ty data name rid req => create_approval now id ty data name rid req;; mret tt
  | OpRequest now id r op rid rname tt' ti de data meta =>
      create_approval_request now id r op rid rname tt' ti de data meta;; mret tt
  | OpVote now vid id vote c user => vote_on_approval now vid id vote c user;; mret tt
  | OpApprove now vid id name uid c => approve_request now vid id name uid c;; mret tt
  | OpReject now vid id name uid c => reject_request now vid id name uid c;; mret tt
  | OpCancel now id user => cancel_approval_post now id user;; mret tt
  | OpDelete now id name => cancel_approval_delete now id name;; mret tt
  | OpStats now => get_approval_stats now;; mret tt
  | OpEscalate now => process_escalations now
  end.

Definition approval_serve (d : ApprovalDB) (o : approval_op) : ApprovalDB :=
  (with_db (approval_handle o) d).2.

(** ** The invariant of an approval *)

Definition voters (a : Approval) : list string := map av_user_name (ap_votes a).

Record four_eyes (a : Approval) : Prop := {
  fe_distinct : NoDup (voters a);
  fe_no_self : ap_requester_name a ∉ voters a;
  fe_approved : ap_status a = ApApproved -> (ap_required_approvers a <= count_votes "approve" a)%Z;
  fe_rejected : ap_status a = ApRejected ->
    (ap_required_approvers a <= count_votes "reject" a
     /\ count_votes "approve" a < ap_required_approvers a)%Z;
  fe_pending : ap_status a = ApPending -> (1 <= ap_required_approvers a)%Z ->
    (count_votes "approve" a < ap_required_approvers a
     /\ count_votes "reject" a < ap_required_approvers a)%Z
}.

(** The people behind the votes: users, each once, and not the requester. *)
Definition by_users (a : Approval) : Prop := exists people, map av_user_id (ap_votes a) = map Some people /\ NoDup people
  /\ ("" ∉ people) /\ forall u, u ∈ people -> ap_requester_id a ≠ Some u.

(** [L] are the approvals that the legacy endpoints may have votes on: these take the user from the body. *)
Definition sound (L : string -> bool) (a : Approval) : Prop := four_eyes a /\ (L (ap_id a) = false -> by_users a).

Lemma four_eyes_resolve st now a :
  st = ApExpired \/ st = ApCancelled -> four_eyes a -> four_eyes (resolve st now a).
Proof. intros Hst []. split; cbn; try done; by destruct Hst as [->| ->]. Qed.

Lemma four_eyes_escalated now e a : four_eyes a -> four_eyes (escalated now e a).
Proof. by intros []. Qed.

Lemma sound_resolve L st now a : st = ApExpired \/ st = ApCancelled -> sound L a -> sound L (resolve st now a).
Proof. intros Hst [H1 H2]. split; [by apply four_eyes_resolve|exact H2]. Qed.

Lemma sound_escalated L now e a : sound L a -> sound L (escalated now e a).
Proof. intros [H1 H2]. split; [by apply four_eyes_escalated|exact H2]. Qed.

Lemma four_eyes_new a :
  ap_votes a = [] -> ap_status a = ApPending -> four_eyes a.
Proof.
  intros Hv Hs. unfold count_votes. split; unfold voters, count_votes; rewrite ?Hv, ?Hs; try done.
  - constructor.
  - apply not_elem_of_nil.
  - cbn. lia.
Qed.

Lemma sound_new L a : ap_votes a = [] -> ap_status a = ApPending -> sound L a.
Proof.
  intros Hv Hs. split; [by apply four_eyes_new|]. intros _. exists []. rewrite Hv. split_and!; [done|constructor|apply not_elem_of_nil|].
  by intros u ?%not_elem_of_nil.
Qed.

Lemma settle_by_users now a : by_users (settle now a).1 <-> by_users a.
Proof. unfold settle. by repeat destruct (Z.leb _ _). Qed.

Lemma by_users_vote v u a : by_users a -> av_user_id v = Some u -> u <> "" -> ap_requester_id a ≠ Some u ->
  Some u ∉ map av_user_id (ap_votes a) -> by_users (add_vote v a).
Proof.
  intros (people & E & Hd & He & Hr) Hv Hu Hreq Hnew. exists (people ++ [u])%list. cbn. rewrite !map_app, E. cbn. rewrite Hv. split; [done|]. split_and!.
  - apply NoDup_app. split_and!; [done| |apply NoDup_singleton]. intros x Hx ->%list_elem_of_singleton. apply Hnew. rewrite E. by apply (list_elem_of_fmap_2 Some).
  - intros [?|?%list_elem_of_singleton]%elem_of_app; [done|congruence].
  - intros x [Hx| ->%list_elem_of_singleton]%elem_of_app; [by apply Hr|done].
Qed.

Lemma settle_id now a : ap_id (settle now a).1 = ap_id a.
Proof. unfold settle. by repeat destruct (Z.leb _ _). Qed.

Lemma four_eyes_vote now v a :
  four_eyes a -> ap_status a = ApPending ->
  av_user_name v ∉ voters a -> av_user_name v <> ap_requester_name a ->
  four_eyes (settle now (add_vote v a)).1.
Proof.
  intros [Hd Hself _ _ _] Hp Hnew Hne.
  assert (Hd' : NoDup (voters (add_vote v a)) /\ ap_requester_name a ∉ voters (add_vote v a)).
  { unfold voters in *. cbn. rewrite map_app. split.
    - apply NoDup_app. split_and!; [done| |apply NoDup_singleton].
      intros x Hx ->%list_elem_of_singleton. done.
    - intros [?|?%list_elem_of_singleton]%elem_of_app; [done|congruence]. }
  destruct Hd' as [Hd1 Hd2]. unfold settle.
  destruct (Z.leb_spec (ap_required_approvers (add_vote v a)) (count_votes "approve" (add_vote v a)));
    [|destruct (Z.leb_spec (ap_required_approvers (add_vote v a)) (count_votes "reject" (add_vote v a)))];
    split; try done; cbn [fst]; change (ap_status (add_vote v a)) with (ap_status a); by rewrite Hp.
Qed.

(** ** Every request keeps the invariant and leaves resolved approvals alone *)

Section Sound.
(** Some approvals that are resolved. *)
Context (L : string -> bool) (R : list Approval) (HR : Forall (fun a => ap_status a <> ApPending) R).

Definition good (d : ApprovalDB) : Prop :=
  keys_unique ap_id (approvals d) /\ Forall (sound L) (approvals d)
  /\ (forall a, a ∈ R -> a ∈ approvals d).

Lemma good_update d id f a0 :
  good d -> sql_find ap_id id (approvals d) = Some a0 -> ap_status a0 = ApPending ->
  (forall a, ap_id (f a) = ap_id a) -> (sound L a0 -> sound L (f a0)) ->
  good (set_approvals (sql_update (has_key ap_id id) f (approvals d)).1 d).
Proof.
  intros (Hu & Hf & Hr) [Hin <-]%sql_find_Some_1 Hp Hid Hfe. split_and!; cbn [approvals set_approvals].
  - by apply keys_unique_update.
  - rewrite Forall_forall in Hf |- *. intros x (y & Hy & ->)%elem_of_update.
    destruct (has_key _ _ y) eqn:E; [|auto]. apply has_key_true in E.
    assert (y = a0) as -> by (by eapply key_elem_inj). auto.
  - intros a Ha. apply elem_of_update. exists a. split; [auto|].
    destruct (has_key _ _ a) eqn:E; [|done]. apply has_key_true in E.
    assert (a = a0) as -> by (eapply key_elem_inj; eauto).
    rewrite Forall_forall in HR. by destruct (HR a0 Ha).
Qed.

Lemma good_find id (f : option Approval -> ApprovalM unit) d :
  (forall o, sql_find ap_id id (approvals d) = o -> good (f o d).2) ->
  good ((find_approval id ≫= f) d).2.
Proof. intros H. unfold find_approval. unfold_M. by apply H. Qed.

Lemma good_insert a : sound L a -> keeps good (insert_approval a).
Proof.
  intros Ha d (Hu & Hf & Hr). unfold insert_approval. unfold_M.
  destruct (sql_insert ap_id a (approvals d)) as [t|] eqn:E; [|done]. cbn.
  pose proof (keys_unique_insert _ _ _ _ Hu E). unfold sql_insert in E.
  destruct (sql_find _ _ _); [done|]. injection E as <-. split_and!; cbn [approvals set_approvals]; [done| |].
  - apply Forall_app. split; [done|]. by apply Forall_singleton.
  - intros x Hx. apply elem_of_app. left. auto.
Qed.

(** A vote on a pending approval, stored and counted. *)
Lemma good_vote now id v a0 d :
  good d -> sql_find ap_id id (approvals d) = Some a0 -> ap_status a0 = ApPending ->
  existsb (fun v' => String.eqb (av_user_name v') (av_user_name v)) (ap_votes a0) = false ->
  av_user_name v <> ap_requester_name a0 -> (L id = false -> by_users a0 -> by_users (add_vote v a0)) ->
  good ((update_approval id (add_vote v);; update_approval id (fun a => (settle now a).1)) d).2.
Proof.
  intros Hg Hf Hp Hnew Hne Hby. unfold update_approval. unfold_M. cbn [snd approvals set_approvals].
  rewrite sql_update_compose by done.
  apply (good_update d id (fun a => (settle now (add_vote v a)).1) a0); try done.
  - intros a. by rewrite settle_id.
  - intros [Hfe Hu]. pose proof (sql_find_Some_1 _ _ _ _ Hf) as [_ Hid].
    split; [|rewrite settle_id; cbn [add_vote ap_id]; rewrite Hid in *; intros HL; apply settle_by_users; by apply Hby, Hu].
    apply four_eyes_vote; try done. intros (v' & Hv & Hin)%list_elem_of_fmap.
    assert (existsb (fun v' => String.eqb (av_user_name v') (av_user_name v)) (ap_votes a0) = true);
      [|congruence].
    apply existsb_exists. exists v'. split; [by apply list_elem_of_In|]. by rewrite Hv, String.eqb_refl.
Qed.
(** The row of a pending approval gets a final status. *)
Lemma good_resolve {A} now id st a0 d (x : A) :
  good d -> sql_find ap_id id (approvals d) = Some a0 -> ap_status a0 = ApPending ->
  st = ApExpired \/ st = ApCancelled ->
  good ((update_approval id (resolve st now);; mret x) d).2.
Proof.
  intros Hg Hf Hp Hst. apply (good_update d id _ a0); try done. by apply sound_resolve.
Qed.

Lemma good_cast_vote now vid id uid name vote c esc : uid <> "" -> keeps good (cast_vote now vid id uid name vote c esc).
Proof.
  intros Huid d Hg. unfold cast_vote. destruct (bool_decide _); [done|].
  unfold find_approval, mbind at 1, M_bind at 1. unfold_M.
  destruct (sql_find ap_id id (approvals d)) as [a|] eqn:Ef; [|done].
  destruct (bool_decide (ap_status a ≠ ApPending)) eqn:Ep; [done|].
  apply bool_decide_eq_false in Ep. apply dec_stable in Ep.
  destruct (_ <? _)%Z; [apply (good_resolve now id ApExpired a d tt); auto|].
  rewrite (proj2 (String.eqb_neq _ _) Huid). cbn [negb andb].
  destruct (bool_decide (ap_requester_id a = Some uid)) eqn:Er; [done|]. apply bool_decide_eq_false in Er.
  destruct (String.eqb_spec name (ap_requester_name a)); [done|].
  destruct (existsb _ _) eqn:Ex; [done|]. apply not_true_iff_false in Ex.
  refine (good_vote now id _ a d Hg Ef Ep _ _ _); [|done|].
  - apply not_true_iff_false. intros (v & Hv & He)%existsb_exists. cbn in He.
    apply Ex. apply existsb_exists. exists v. by rewrite He, orb_true_r.
  - intros _ Hb. apply (by_users_vote _ uid); try done. intros (v & Hv & Hin)%list_elem_of_fmap.
    apply Ex. apply existsb_exists. exists v. split; [by apply list_elem_of_In|]. by rewrite bool_decide_true by done.
Qed.

Lemma good_legacy now vid id name uid c kind : L id = true -> keeps good (legacy_cast_vote now vid id name uid c kind).
Proof.
  intros HL d Hg. unfold legacy_cast_vote, find_approval. unfold_M.
  destruct (sql_find ap_id id (approvals d)) as [a|] eqn:Ef; [|done].
  destruct (bool_decide (ap_status a ≠ ApPending)) eqn:Ep; [done|].
  apply bool_decide_eq_false in Ep. apply dec_stable in Ep.
  destruct (existsb _ _) eqn:Ex; [done|]. destruct (String.eqb_spec name (ap_requester_name a)); [done|].
  destruct (_ <? _)%Z; [apply (good_resolve now id ApExpired a d tt); auto|].
  refine (good_vote now id _ a d Hg Ef Ep _ _ _); [done..|]. by rewrite HL.
Qed.

Lemma good_cancel now id uid : keeps good (cancel_approval now id uid).
Proof.
  intros d Hg. unfold cancel_approval, find_approval. unfold_M.
  destruct (sql_find ap_id id (approvals d)) as [a|] eqn:Ef; [|done].
  destruct (bool_decide (ap_status a ≠ ApPending)) eqn:Ep; [done|].
  apply bool_decide_eq_false in Ep. apply dec_stable in Ep.
  destruct (bool_decide _); [done|]. apply (good_resolve now id ApCancelled a d tt); auto.
Qed.

Lemma good_cancel_delete now id name : keeps good (cancel_approval_delete now id name).
Proof.
  intros d Hg. unfold cancel_approval_delete, find_approval. unfold_M.
  destruct (sql_find ap_id id (approvals d)) as [a|] eqn:Ef; [|done].
  destruct (bool_decide (ap_status a ≠ ApPending)) eqn:Ep; [done|].
  apply bool_decide_eq_false in Ep. apply dec_stable in Ep.
  destruct (negb _); [done|]. apply (good_resolve now id ApCancelled a d tt); auto.
Qed.

Lemma good_expire now : keeps good (_expire_old_approvals now).
Proof.
  intros d (Hu & Hf & Hr). cbn [_expire_old_approvals modify snd]. split_and!; cbn [approvals set_approvals].
  - by apply keys_unique_update.
  - rewrite Forall_forall in Hf |- *. intros x (y & Hy & ->)%elem_of_update.
    destruct (_ && _); [|auto]. apply sound_resolve; auto.
  - intros a Ha. apply elem_of_update. exists a. split; [auto|]. rewrite Forall_forall in HR.
    unfold is_pending. by rewrite bool_decide_false by auto.
Qed.
End Sound.

(** ** The escalation job, row by row *)

(** What one run of the job does to an approval. *)
Definition expire_step (now max_escalations : Z) (rs : list ApprovalRule) (a : Approval) : Approval :=
  if (ap_escalation_count a <? max_escalations)%Z
  then escalated now (escalation_deadline now rs a) a
  else resolve ApExpired now a.

Definition overdue (now : Z) (a : Approval) : bool := is_pending a && (ap_expires_at a <? now)%Z.

Lemma expire_step_id now m rs a : ap_id (expire_step now m rs a) = ap_id a.
Proof. unfold expire_step. by destruct (Z.ltb _ _). Qed.

Lemma update_one_then (t : list Approval) (g : Approval -> Approval) (a0 : Approval) ids :
  keys_unique ap_id t -> a0 ∈ t -> ap_id a0 ∉ ids -> (forall a, ap_id (g a) = ap_id a) ->
  map (fun a => if bool_decide (ap_id a ∈ ids) then g a else a)
    (sql_update (has_key ap_id (ap_id a0)) (fun _ => g a0) t).1
  = map (fun a => if bool_decide (ap_id a ∈ ap_id a0 :: ids) then g a else a) t.
Proof.
  intros Hu Hin Hn Hg. cbn. rewrite map_map. apply map_ext_in. intros a Ha%list_elem_of_In.
  destruct (has_key ap_id (ap_id a0) a) eqn:E.
  - apply has_key_true in E. assert (a = a0) as -> by (by eapply key_elem_inj).
    rewrite Hg, bool_decide_false, bool_decide_true by (done || by apply elem_of_cons; left). done.
  - apply has_key_false in E.
    destruct (decide (ap_id a ∈ ids)); [rewrite !bool_decide_true by (done || by apply elem_of_cons; right)|
      rewrite !bool_decide_false by (done || by intros [?|?]%elem_of_cons)]; done.
Qed.

Lemma update_row_const (t : list Approval) (f : Approval -> Approval) (a0 : Approval) :
  keys_unique ap_id t -> a0 ∈ t ->
  sql_update (has_key ap_id (ap_id a0)) f t = sql_update (has_key ap_id (ap_id a0)) (fun _ => f a0) t.
Proof.
  intros Hu Hin. unfold sql_update. f_equal. apply map_ext_in. intros a Ha%list_elem_of_In.
  destruct (has_key _ _ a) eqn:E; [|done]. apply has_key_true in E. f_equal. by eapply key_elem_inj.
Qed.

Lemma escalate_or_expire_spec now m l d :
  keys_unique ap_id (approvals d) -> NoDup (map ap_id l) -> Forall (fun a => a ∈ approvals d) l ->
  escalate_or_expire now m l d
  = (Ok (Z.of_nat (length (List.filter (fun a => ap_escalation_count a <? m)%Z l)),
         Z.of_nat (length (List.filter (fun a => negb (ap_escalation_count a <? m)%Z) l))),
     set_approvals (map (fun a => if bool_decide (ap_id a ∈ map ap_id l)
                                  then expire_step now m (rules d) a else a) (approvals d)) d).
Proof.
  revert d. induction l as [|a0 l IH]; intros d Hu Hnd Hall.
  { cbn. unfold_M. f_equal. destruct d as [t rs gm al]. unfold set_approvals. cbn. f_equal.
    symmetry. apply map_id. }
  cbn [map] in Hnd. apply NoDup_cons in Hnd as [Hn Hnd]. inversion Hall as [|? ? Hin Hall']; subst.
  assert (Hstep : forall f, (forall a, ap_id (f a) = ap_id a) -> f a0 = expire_step now m (rules d) a0 ->
    escalate_or_expire now m l (set_approvals (sql_update (has_key ap_id (ap_id a0)) f (approvals d)).1 d)
    = (Ok (Z.of_nat (length (List.filter (fun a => ap_escalation_count a <? m)%Z l)),
           Z.of_nat (length (List.filter (fun a => negb (ap_escalation_count a <? m)%Z) l))),
       set_approvals (map (fun a => if bool_decide (ap_id a ∈ map ap_id (a0 :: l))
                                    then expire_step now m (rules d) a else a) (approvals d)) d)).
  { intros f Hid Hf. rewrite IH; [|by apply keys_unique_update|done|].
    - cbn [approvals set_approvals rules].
      rewrite (update_row_const _ f a0 Hu Hin), Hf.
      by rewrite (update_one_then _ (expire_step now m (rules d)) a0) by auto using expire_step_id.
    - rewrite Forall_forall in Hall' |- *. intros a Ha. apply elem_of_update. exists a.
      split; [auto|]. destruct (has_key _ _ a) eqn:E; [|done]. apply has_key_true in E.
      destruct Hn. rewrite <- E. by apply list_elem_of_fmap_2. }
  cbn [escalate_or_expire List.filter]. unfold escalate_approval, update_approval. unfold_M.
  destruct (ap_escalation_count a0 <? m)%Z eqn:Em; cbn [negb length].
  - rewrite Hstep; [|done|unfold expire_step; by rewrite Em]. f_equal. f_equal. f_equal. lia.
  - rewrite Hstep; [|done|unfold expire_step; by rewrite Em]. f_equal. f_equal. f_equal. lia.
Qed.

(** One run of the job: every overdue approval takes its step, no other moves. *)
Lemma process_expired_approvals_spec now m d :
  keys_unique ap_id (approvals d) ->
  process_expired_approvals now m d
  = (Ok (sql_count (fun a => overdue now a && (ap_escalation_count a <? m)%Z) (approvals d),
         sql_count (fun a => overdue now a && negb (ap_escalation_count a <? m)%Z) (approvals d)),
     set_approvals (map (fun a => if overdue now a then expire_step now m (rules d) a else a)
                      (approvals d)) d).
Proof.
  intros Hu. unfold process_expired_approvals. unfold_M.
  assert (Hin : forall a, a ∈ get_expired_approvals now d <-> a ∈ approvals d /\ overdue now a = true)
    by (intros; apply elem_of_sql_select).
  rewrite escalate_or_expire_spec; [|done|by apply (keys_unique_select ap_id)|].
  2:{ apply Forall_forall. by intros a [? ?]%Hin. }
  unfold sql_count, sql_select. f_equal.
  - assert (Hff : forall (P Q : Approval -> bool) l, List.filter P (List.filter Q l)
                  = List.filter (fun a => Q a && P a) l).
    { intros P Q l. induction l as [|x l IH]; [done|]. cbn. destruct (Q x); cbn; by rewrite IH. }
    unfold get_expired_approvals, sql_select. by rewrite !Hff.
  - f_equal. apply map_ext_in. intros a Ha%list_elem_of_In.
    destruct (overdue now a) eqn:Eo.
    + rewrite bool_decide_true; [done|]. apply list_elem_of_fmap_2. by apply Hin.
    + rewrite bool_decide_false; [done|]. intros (b & He & [Hb Hob]%Hin)%list_elem_of_fmap.
      by rewrite (key_elem_inj ap_id _ a b Hu Ha Hb He), Hob in Eo.
Qed.

Lemma good_escalate L (R : list Approval) (HR : Forall (fun a => ap_status a <> ApPending) R) now :
  keeps (good L R) (process_escalations now).
Proof.
  intros d (Hu & Hf & Hr). unfold process_escalations, with_db. unfold_M.
  rewrite process_expired_approvals_spec by done. split_and!; cbn [snd approvals set_approvals].
  - assert (keys_unique ap_id (sql_update (overdue now) (expire_step now MAX_ESCALATIONS (rules d))
              (approvals d)).1) by (apply keys_unique_update; auto using expire_step_id). done.
  - rewrite Forall_forall in Hf |- *. intros x (y & Hx & Hy)%list_elem_of_In%in_map_iff.
    apply list_elem_of_In in Hy. subst x. specialize (Hf y Hy).
    destruct (overdue now y); [|done]. unfold expire_step.
    destruct (Z.ltb _ _); [by apply sound_escalated|]. apply sound_resolve; auto.
  - intros a Ha. apply list_elem_of_In, in_map_iff. exists a. split; [|by apply list_elem_of_In, Hr].
    rewrite Forall_forall in HR. unfold overdue, is_pending. by rewrite bool_decide_false by auto.
Qed.

(** The approval a request on the legacy endpoints votes on. *)
Definition legacy_vote (o : approval_op) : option string :=
  match o with OpApprove _ _ id _ _ _ | OpReject _ _ id _ _ _ => Some id | _ => None end.
Definition legacy_votes (ops : list approval_op) (id : string) : bool := existsb (fun o => bool_decide (legacy_vote o = Some id)) ops.

(** What a request does, [get_db]'s rollback included. *)
Lemma good_serve L (R : list Approval) (HR : Forall (fun a => ap_status a <> ApPending) R) d o :
  (forall id, legacy_vote o = Some id -> L id = true) -> good L R d -> good L R (approval_serve d o).
Proof.
  intros HL. revert d. change (keeps (good L R) (fun d => (Ok tt : result approval_error unit, approval_serve d o))).
  intros d Hg. cbn [snd]. unfold approval_serve. revert d Hg.
  assert (Hok : forall A (m : ApprovalM A), keeps (good L R) m -> keeps (good L R) (m;; mret tt)).
  { intros. apply keeps_bind; [done|]. intros. apply keeps_ret. }
  apply keeps_with_db. destruct o; cbn [approval_handle legacy_vote] in *; try apply Hok.
  - unfold create_approval. destruct (bool_decide _); [by intros d|]. destruct (_ || _); [by intros d|].
    apply good_insert; by apply sound_new.
  - apply good_insert; by apply sound_new.
  - unfold vote_on_approval. destruct (bool_decide _); [by intros d|].
    destruct user as [[uid name]|]; [|by intros d]. destruct (String.eqb_spec uid ""); [by intros d|]. destruct (_ || _); [by intros d|].
    apply keeps_catch; [|by intros e d]. apply keeps_bind; [by apply good_cast_vote|].
    intros [v c]. apply keeps_bind; [by intros d|]. intros a. apply keeps_bind; [by intros d|].
    intros. apply keeps_ret.
  - apply good_legacy; auto.
  - apply good_legacy; auto.
  - unfold cancel_approval_post. destruct user as [uid|]; [|by intros d].
    destruct (String.eqb _ _); [by intros d|]. apply keeps_catch; [by apply good_cancel|by intros e d].
  - by apply good_cancel_delete.
  - unfold get_approval_stats. apply keeps_bind; [by apply good_expire|]. intros. by intros d.
  - by apply good_escalate.
Qed.

Lemma good_serve_all L (R : list Approval) (HR : Forall (fun a => ap_status a <> ApPending) R) ops d :
  (forall id, legacy_votes ops id = true -> L id = true) -> good L R d -> good L R (foldl approval_serve d ops).
Proof.
  revert d. induction ops as [|o ops IH]; intros d HL Hg; [done|]. apply IH.
  - intros id H. apply HL. unfold legacy_votes in *. cbn. by rewrite H, orb_true_r.
  - apply good_serve; [done| |done]. intros id H. apply HL. cbn. by rewrite bool_decide_true.
Qed.

(** ** The guarantees *)

(** The names behind the votes of one kind. *)
Definition voters_for (kind : string) (a : Approval) : list string :=
  map av_user_name (List.filter (fun v => String.eqb (av_vote v) kind) (ap_votes a)).

Lemma voters_for_sublist kind a : sublist (voters_for kind a) (voters a).
Proof. apply fmap_sublist, filter_sublist. Qed.

Lemma voters_for_spec kind a :
  four_eyes a ->
  NoDup (voters_for kind a) /\ (ap_requester_name a ∉ voters_for kind a)
  /\ Z.of_nat (length (voters_for kind a)) = count_votes kind a.
Proof.
  intros [Hd Hs _ _ _]. split_and!.
  - by eapply sublist_NoDup; [|apply voters_for_sublist].
  - intros Hin. apply Hs. eapply elem_of_sublist; [done|]. apply voters_for_sublist.
  - unfold voters_for, count_votes. by rewrite length_map.
Qed.


Definition db0 (rs : list ApprovalRule) : ApprovalDB :=
  {| approvals := []; rules := rs; group_members := []; audit_log := [] |}.

Definition wipe_run : list approval_op :=
  [OpCreate 0 "a1" "bulk_wipe" [] "req" (Some "u0") 2;
   OpVote 1 "v1" "a1" "approve" None (Some ("u0", "req"));     (* refused: own request *)
   OpVote 1 "v2" "a1" "approve" None (Some ("u1", "ann"));
   OpVote 2 "v3" "a1" "approve" None (Some ("u1", "ann"));     (* refused: voted *)
   OpVote 3 "v4" "a1" "approve" None (Some ("u2", "bob"))].


(** A decision is final: once an approval is approved, rejected, expired or cancelled, no sequence
    of requests and job runs changes any field of it, adds a vote to it or removes it. *)
Theorem resolved_approval_is_final (ops : list approval_op) (d : ApprovalDB) (a : Approval)
    (Hu : keys_unique ap_id (approvals d)) (Hf : Forall four_eyes (approvals d))
    (Ha : a ∈ approvals d) (Hres : ap_status a <> ApPending) :
  a ∈ approvals (foldl approval_serve d ops)
  /\ sql_find ap_id (ap_id a) (approvals (foldl approval_serve d ops)) = Some a.
Proof.
  assert (Hg : good (fun _ => true) [a] d).
  { split_and!; [done|eapply Forall_impl; [exact Hf|]; by intros x Hx|]. by intros ? ->%list_elem_of_singleton. }
  apply (good_serve_all _ [a] ltac:(by apply Forall_singleton) ops) in Hg as (Hu' & _ & Hr); [|done].
  assert (a ∈ approvals (foldl approval_serve d ops)) as Ha' by (apply Hr, list_elem_of_singleton; done).
  split; [done|]. by apply sql_find_Some.
Qed.

Definition rejected1 : Approval :=
  {| ap_id := "a1"; ap_operation_type := "bulk_wipe"; ap_action_data := []; ap_rule_id := None;
     ap_requester_id := None; ap_requester_name := "req"; ap_status := ApCancelled;
     ap_required_approvers := 2; ap_escalated_at := None; ap_escalation_count := 0; ap_expires_at := 9;
     ap_resolved_at := Some 3%Z; ap_metadata := None; ap_created_at := 0; ap_votes := [] |}.

Lemma resolved_approval_is_final_witness :
  let d := set_approvals [rejected1] (db0 []) in
  let ops := [OpApprove 4 "v1" "a1" "ann" None None; OpEscalate 20; OpStats 30] in
  sql_find ap_id "a1" (approvals (foldl approval_serve d ops)) = Some rejected1.
Proof.
  intros d ops. apply (resolved_approval_is_final ops d rejected1).
  - apply NoDup_singleton.
  - apply Forall_singleton. split; [constructor|apply not_elem_of_nil|discriminate..].
  - apply list_elem_of_singleton. reflexivity.
  - discriminate.
Defined.

(** *** The end of an approval nobody decides *)

(** Requests that neither vote on an approval nor cancel it: creations, requests on others, job runs, listings. *)
Definition undecided_by (id : string) (o : approval_op) : bool :=
  match o with
  | OpVote _ _ x _ _ _ | OpApprove _ _ x _ _ _ | OpReject _ _ x _ _ _ | OpCancel _ x _ | OpDelete _ x _ => negb (String.eqb x id)
  | _ => true
  end.

(** What such a request does to the approval. *)
Definition passing (rs : list ApprovalRule) (a : Approval) (o : approval_op) : Approval :=
  match o with
  | OpEscalate t => if overdue t a then expire_step t MAX_ESCALATIONS rs a else a
  | OpStats t => if overdue t a then resolve ApExpired t a else a
  | _ => a
  end.

Section Passing.
Context (rs : list ApprovalRule) (a : Approval).

Definition has_row (d : ApprovalDB) : Prop := keys_unique ap_id (approvals d) /\ rules d = rs /\ a ∈ approvals d.

Lemma has_row_update id f : id ≠ ap_id a -> (forall x, ap_id (f x) = ap_id x) -> keeps has_row (update_approval id f).
Proof.
  intros Hid Hf d (Hu & Hr & Ha). unfold update_approval, has_row. cbn [modify snd approvals set_approvals rules]. split_and!; [by apply keys_unique_update|done|].
  apply elem_of_update. exists a. split; [done|]. destruct (has_key _ _ a) eqn:E; [|done]. by apply has_key_true in E.
Qed.

Lemma has_row_insert x : keeps has_row (insert_approval x).
Proof.
  intros d (Hu & Hr & Ha). unfold insert_approval. unfold_M. destruct (sql_insert ap_id x (approvals d)) as [t|] eqn:E; [|done]. cbn.
  pose proof (keys_unique_insert _ _ _ _ Hu E). unfold sql_insert in E. destruct (sql_find _ _ _); [done|]. injection E as <-. split_and!; [done|done|]. apply elem_of_app. by left.
Qed.

Ltac row_steps := repeat first
  [ progress keeps_steps | by intros ?d ?Hd | apply has_row_insert
  | apply has_row_update; [done|intros ?x; rewrite ?settle_id; done]
  | lazymatch goal with |- keeps _ (match ?x with _ => _ end) => destruct x end ].

Lemma has_row_cast now vid id uid name vote c esc : id ≠ ap_id a -> keeps has_row (cast_vote now vid id uid name vote c esc).
Proof. intros Hid. unfold cast_vote, find_approval. row_steps. Qed.

Lemma has_row_legacy now vid id name uid c kind : id ≠ ap_id a -> keeps has_row (legacy_cast_vote now vid id name uid c kind).
Proof. intros Hid. unfold legacy_cast_vote, find_approval. row_steps. Qed.

(** A request that is neither a run of the job nor a listing leaves the row alone. *)
Lemma has_row_other o : undecided_by (ap_id a) o = true -> (forall t, o ≠ OpEscalate t /\ o ≠ OpStats t) -> keeps has_row (approval_handle o).
Proof.
  intros Ho Hn. destruct o; cbn [undecided_by approval_handle] in *;
    try (apply negb_true_iff, String.eqb_neq in Ho); try (by destruct (Hn now)); (apply keeps_bind; [|intros ?; apply keeps_ret]).
  - unfold create_approval. row_steps.
  - unfold create_approval_request. row_steps.
  - unfold vote_on_approval, find_approval, audit_action. repeat first [apply has_row_cast; done | progress row_steps].
  - by apply has_row_legacy.
  - by apply has_row_legacy.
  - unfold cancel_approval_post, cancel_approval, find_approval. row_steps.
  - unfold cancel_approval_delete, find_approval. row_steps.
Qed.
End Passing.

Lemma passing_id rs a o : ap_id (passing rs a o) = ap_id a.
Proof. unfold passing. destruct o; try done; destruct (overdue _ a); try done. apply expire_step_id. Qed.

Lemma overdue_row rs a t f d : (forall x, ap_id (f x) = ap_id x) -> has_row rs a d ->
  has_row rs (if overdue t a then f a else a) (set_approvals (sql_update (overdue t) f (approvals d)).1 d).
Proof.
  intros Hf (Hu & Hr & Ha). unfold has_row. cbn [approvals set_approvals rules]. split_and!; [by apply keys_unique_update|done|].
  apply elem_of_update. by exists a.
Qed.

Lemma serve_passing rs a d o : undecided_by (ap_id a) o = true -> has_row rs a d -> has_row rs (passing rs a o) (approval_serve d o).
Proof.
  intros Ho Hd. assert ((exists t, o = OpEscalate t) \/ (exists t, o = OpStats t) \/ forall t, o ≠ OpEscalate t /\ o ≠ OpStats t) as [[t ->]|[[t ->]|Hn]].
  { destruct o; try (right; right; by intros t); [right; left; by eexists|left; by eexists]. }
  - unfold approval_serve, with_db. cbn [approval_handle passing]. unfold process_escalations, with_db. unfold_M.
    rewrite process_expired_approvals_spec by apply Hd. cbn [snd fst]. destruct Hd as (Hu & Hr & Ha). rewrite Hr.
    apply (overdue_row rs a t (expire_step t MAX_ESCALATIONS rs)); [apply expire_step_id|done].
  - unfold approval_serve, with_db. cbn [approval_handle passing]. by apply (overdue_row rs a t (resolve ApExpired t)).
  - assert (passing rs a o = a) as -> by (destruct o; try done; by destruct (Hn now)).
    apply (keeps_with_db (has_row rs a)); [by apply has_row_other|done].
Qed.

Lemma serve_all_passing rs ops a d : forallb (undecided_by (ap_id a)) ops = true -> has_row rs a d ->
  has_row rs (foldl (passing rs) a ops) (foldl approval_serve d ops).
Proof.
  revert a d. induction ops as [|o ops IH]; intros a d Ho Hd; [done|]. cbn in Ho. apply andb_true_iff in Ho as [Ho1 Ho2]. cbn [foldl].
  apply IH; [by rewrite passing_id|by apply serve_passing].
Qed.

(** The job runs before the first listing, and whether there is one. *)
Fixpoint runs_until_listed (ops : list approval_op) : nat * bool :=
  match ops with
  | [] => (0%nat, false)
  | OpEscalate _ :: ops => let '(n, listed) := runs_until_listed ops in (S n, listed)
  | OpStats _ :: _ => (0%nat, true)
  | _ :: ops => runs_until_listed ops
  end.

(** Each of them comes after the deadline the approval has then, as long as it is pending. *)
Fixpoint each_overdue (rs : list ApprovalRule) (a : Approval) (ops : list approval_op) : Prop :=
  match ops with
  | [] => True
  | OpEscalate t :: ops =>
      (ap_expires_at a < t)%Z
      /\ ((ap_escalation_count a < MAX_ESCALATIONS)%Z -> each_overdue rs (escalated t (escalation_deadline t rs a) a) ops)
  | OpStats t :: _ => (ap_expires_at a < t)%Z
  | _ :: ops => each_overdue rs a ops
  end.

Lemma passing_final rs ops a : ap_status a <> ApPending -> foldl (passing rs) a ops = a.
Proof.
  intros Ha. induction ops as [|o ops IH]; [done|]. cbn [foldl]. assert (passing rs a o = a) as -> by (destruct o; cbn; unfold overdue, is_pending; by rewrite ?bool_decide_false). done.
Qed.

Lemma overdue_pending t a : ap_status a = ApPending -> (ap_expires_at a < t)%Z -> overdue t a = true.
Proof. intros Hp Ht. unfold overdue, is_pending. rewrite bool_decide_true by done. by apply Z.ltb_lt. Qed.

(** What is left of an approval. *)
Lemma passing_spec rs ops a : ap_status a = ApPending -> (0 <= ap_escalation_count a <= MAX_ESCALATIONS)%Z -> each_overdue rs a ops ->
  let a' := foldl (passing rs) a ops in
  let '(n, listed) := runs_until_listed ops in
  let count := (ap_escalation_count a + Z.of_nat n)%Z in
  ap_votes a' = ap_votes a
  /\ (if negb listed && (count <=? MAX_ESCALATIONS)%Z
      then ap_status a' = ApPending /\ ap_escalation_count a' = count
      else ap_status a' = ApExpired /\ ap_escalation_count a' = Z.min count MAX_ESCALATIONS).
Proof.
  revert a. induction ops as [|o ops IH]; intros a Hp Hc Hd.
  { cbn. rewrite Z.add_0_r, (proj2 (Z.leb_le _ _)) by lia. done. }
  destruct o as [| | | | | | |t|t]; try exact (IH a Hp Hc Hd); cbn [runs_until_listed each_overdue foldl passing] in *.
  - rewrite (overdue_pending t a Hp Hd), passing_final by done. cbn -[MAX_ESCALATIONS Z.min]. split; [done|]. split; [done|lia].
  - destruct Hd as [Hd Hrest]. rewrite (overdue_pending t a Hp Hd). unfold expire_step.
    destruct (Z.ltb_spec (ap_escalation_count a) MAX_ESCALATIONS) as [Hlt|Hge].
    + specialize (IH (escalated t (escalation_deadline t rs a) a) Hp). destruct (runs_until_listed ops) as [n listed].
      cbn -[MAX_ESCALATIONS Z.min Z.add Z.of_nat] in IH. replace (ap_escalation_count a + Z.of_nat (S n))%Z with (ap_escalation_count a + 1 + Z.of_nat n)%Z by lia.
      apply IH; [lia|by apply Hrest].
    + rewrite passing_final by done. destruct (runs_until_listed ops) as [n listed]. rewrite (proj2 (Z.leb_gt _ _)), andb_false_r by lia. cbn -[MAX_ESCALATIONS Z.min].
      split; [done|]. split; [done|lia].
Qed.


Definition undecided : Approval :=
  {| ap_id := "a2"; ap_operation_type := "node.wipe"; ap_action_data := []; ap_rule_id := Some "r1";
     ap_requester_id := Some "u0"; ap_requester_name := "req"; ap_status := ApPending;
     ap_required_approvers := 2; ap_escalated_at := None; ap_escalation_count := 0; ap_expires_at := 9;
     ap_resolved_at := None; ap_metadata := None; ap_created_at := 0; ap_votes := [] |}.

