(* ===== verification/Dhcp.v ===== *)
(** * The proxy DHCP server

    [pxe/dhcp_proxy.py]: parsing a request's options, building the offer, and
    the handler of a datagram.  Packets are lists of byte values; [bytearray]
    assignments are those of Bytes.  Binding the socket and logging are left
    out. *)
From S2P Require Import Prelude PyStr Bytes.
From stdpp Require Import base tactics list strings gmap.
From Stdlib Require Import Ascii ZArith Lia.
Open Scope string_scope.

(** ** Data *)

Inductive ClientArchitecture : Type := BIOS | UEFI_X64 | UEFI_X64_ALT.

(** [ClientArchitecture(n)]; [None] is the [ValueError]. *)
Definition arch_of_code (n : Z) : option ClientArchitecture :=
  if (n =? 0)%Z then Some BIOS
  else if (n =? 7)%Z then Some UEFI_X64
  else if (n =? 9)%Z then Some UEFI_X64_ALT
  else None.

Definition BOOT_FILES (a : ClientArchitecture) : string :=
  match a with
  | BIOS => "bios/undionly.kpxe"
  | UEFI_X64 => "uefi/ipxe.efi"
  | UEFI_X64_ALT => "uefi/ipxe.efi"
  end.

Inductive dhcp_error : Type :=
| PacketTooShort
| IndexError
| StructError
| BadIP
| UnicodeError
| ByteRange.

(** What the option loop accumulates. *)
Record option_state := {
  os_options : gmap Z (list Z);
  os_arch : option ClientArchitecture;
  os_ipxe : bool
}.

Record DHCPPacket := {
  op : Z;
  htype : Z;
  hlen : Z;
  xid : list Z;
  client_mac : list Z;
  client_arch : option ClientArchitecture;
  is_ipxe : bool;
  options : gmap Z (list Z)
}.

(** ** Parsing *)

Definition MAGIC : list Z := [99; 130; 83; 99]%Z.

(** One option of the loop's body: its code, declared length and data. *)
Definition handle_option (code len : Z) (opt_data : list Z) (st : option_state)
    : result dhcp_error option_state :=
  arch ← (if (code =? 93)%Z && (2 <=? len)%Z then
            match unpack_be16 (take 2 opt_data) with
            | None => Err StructError
            | Some n => Ok (arch_of_code n)
            end
          else Ok (os_arch st));
  Ok {| os_options := <[code := opt_data]> (os_options st);
        os_arch := arch;
        os_ipxe := os_ipxe st
                   || ((code =? 77)%Z && str_contains "iPXE" (decode_ascii_ignore opt_data))
                   || (code =? 175)%Z |}.

(** The loop, on the bytes from the start of the options on; [skip] is the
    number of bytes still before index [i]. *)
Fixpoint parse_options (l : list Z) (skip : nat) (st : option_state) : result dhcp_error option_state :=
  match l with
  | [] => Ok st
  | code :: rest =>
      match skip with
      | S skip => parse_options rest skip st
      | O =>
          if (code =? 255)%Z then Ok st
          else if (code =? 0)%Z then parse_options rest 0 st
          else
            match rest with
            | [] => Err IndexError
            | len :: body =>
                match handle_option code len (take (Z.to_nat len) body) st with
                | Err e => Err e
                | Ok st => parse_options rest (S (Z.to_nat len)) st
                end
            end
      end
  end.

Definition no_options : option_state := {| os_options := ∅; os_arch := None; os_ipxe := false |}.

Definition parse (data : list Z) : result dhcp_error DHCPPacket :=
  if (length data <? 240)%nat then Err PacketTooShort
  else
    let hl := nth 2 data 0%Z in
    st ← (if bool_decide (slice 236 240 data = MAGIC)
          then parse_options (drop 240 data) 0 no_options else Ok no_options);
    Ok {| op := nth 0 data 0%Z; htype := nth 1 data 0%Z; hlen := hl; xid := slice 4 8 data;
          client_mac := slice 28 (28 + Z.to_nat hl) data; client_arch := os_arch st;
          is_ipxe := os_ipxe st; options := os_options st |}.

(** ** The offer *)

Record DHCPProxy := { tftp_server : string; http_server : string }.

Definition get_boot_file (arch : option ClientArchitecture) : string :=
  BOOT_FILES (default BIOS arch).

Definition get_ipxe_script_url (p : DHCPProxy) : string :=
  "http://" ++ http_server p ++ "/api/v1/ipxe/boot.ipxe".

(** [bytes(l)]: every value must be a byte. *)
Definition to_bytes (l : list Z) : result dhcp_error (list Z) :=
  if forallb (fun b => (0 <=? b)%Z && (b <? 256)%Z) l then Ok l else Err ByteRange.

Definition _parse_ip (ip_str : string) : result dhcp_error (list Z) :=
  let ip := match split_on ":"%char ip_str with [] => "" | s :: _ => s end in
  match mapM py_int (split_on "."%char ip) with
  | None => Err BadIP
  | Some l => to_bytes l
  end.

Definition encode (s : string) : result dhcp_error (list Z) :=
  match encode_ascii s with Some b => Ok b | None => Err UnicodeError end.

(** [response[i] = v] *)
Definition set_index (i : nat) (v : Z) (l : list Z) : result dhcp_error (list Z) :=
  if (i <? length l)%nat then Ok (<[i := v]> l) else Err IndexError.

(** A zero-terminated string option. *)
Definition string_option (code : Z) (b : list Z) : result dhcp_error (list Z) :=
  header ← to_bytes [code; Z.of_nat (length b) + 1]%Z;
  Ok (header ++ b ++ [0%Z])%list.

Definition offer_header (request : DHCPPacket) (boot_file_bytes : list Z) : list Z :=
  let r := repeat 0%Z 512 in
  let r := <[0%nat := 2%Z]> r in
  let r := <[1%nat := htype request]> r in
  let r := <[2%nat := hlen request]> r in
  let r := set_slice 4 8 (xid request) r in
  let r := set_slice 28 (28 + Z.to_nat (hlen request)) (client_mac request) r in
  let r := if is_ipxe request then r
           else let sname := take 63 boot_file_bytes in set_slice 108 (108 + length sname) sname r in
  set_slice 236 240 MAGIC r.

Definition build_offer (p : DHCPProxy) (request : DHCPPacket) : result dhcp_error (list Z) :=
  let boot_file := if is_ipxe request then get_ipxe_script_url p
                   else get_boot_file (client_arch request) in
  boot_file_bytes ← encode boot_file;
  let r := offer_header request boot_file_bytes in
  let i := 240%nat in
  let r := set_slice i (i + 3) [53; 1; 2]%Z r in
  let i := (i + 3)%nat in
  server_ip ← _parse_ip (tftp_server p);
  let r := set_slice i (i + 6) ([54; 4]%Z ++ server_ip)%list r in
  let i := (i + 6)%nat in
  '(r, i) ← (if is_ipxe request then Ok (r, i)
             else
               tftp_bytes ← encode (tftp_server p);
               o ← string_option 66 tftp_bytes;
               let w := (2 + length tftp_bytes + 1)%nat in
               Ok (set_slice i (i + w) o r, i + w)%nat);
  o ← string_option 67 boot_file_bytes;
  let w := (2 + length boot_file_bytes + 1)%nat in
  let r := set_slice i (i + w) o r in
  let i := (i + w)%nat in
  r ← set_index i 255%Z r;
  Ok (take (i + 1) r).

(** [datagram_received]: the response sent, if any; exceptions are logged. *)
Definition datagram_received (p : DHCPProxy) (data : list Z) : option (list Z) :=
  match (packet ← parse data;
         if (op packet =? 1)%Z
         then response ← build_offer p packet; Ok (Some response)
         else Ok None) with
  | Ok r => r
  | Err _ => None
  end.

(** ** Encoded options *)

(** An item of the option field: padding, or a code with its data. *)
Definition option_item : Type := option (Z * list Z).

Definition encode_item (o : option_item) : list Z :=
  match o with
  | None => [0]%Z
  | Some (code, d) => code :: Z.of_nat (length d) :: d
  end.

Definition encode_options (items : list option_item) : list Z := concat (map encode_item items).

Definition item_ok (o : option_item) : Prop :=
  match o with
  | None => True
  | Some (code, d) => (0 < code < 255)%Z /\ (length d <= 255)%nat
  end.

(** What the options say, read off the items. *)
Definition collected (items : list option_item) : gmap Z (list Z) :=
  foldl (fun m o => match o with Some (c, d) => <[c := d]> m | None => m end) ∅ items.

Definition says_ipxe (o : option_item) : bool :=
  match o with
  | Some (c, d) => (c =? 175)%Z || ((c =? 77)%Z && str_contains "iPXE" (decode_ascii_ignore d))
  | None => false
  end.

(** The last architecture option counts, an unknown one as none. *)
Definition arch_said (o : option_item) : option (option ClientArchitecture) :=
  match o with
  | Some (c, h :: l :: _) => if (c =? 93)%Z then Some (arch_of_code (h * 256 + l)) else None
  | _ => None
  end.

Definition arch_of (items : list option_item) : option ClientArchitecture :=
  foldl (fun a o => default a (arch_said o)) None items.

Definition absorb (st : option_state) (o : option_item) : option_state :=
  {| os_options := match o with Some (c, d) => <[c := d]> (os_options st) | None => os_options st end;
     os_arch := default (os_arch st) (arch_said o);
     os_ipxe := os_ipxe st || says_ipxe o |}.

Lemma handle_option_absorb c d st :
  Forall is_byte d ->
  handle_option c (Z.of_nat (length d)) d st = Ok (absorb st (Some (c, d))).
Proof.
  intros Hb. unfold handle_option, absorb, says_ipxe, arch_said, mbind, result_bind.
  destruct d as [|h [|l d]]; cbn [length].
  - rewrite andb_false_r. f_equal. f_equal. rewrite <- !orb_assoc. f_equal. apply orb_comm.
  - rewrite andb_false_r. f_equal. f_equal. rewrite <- !orb_assoc. f_equal. apply orb_comm.
  - rewrite (proj2 (Z.leb_le 2 _)) by lia. rewrite andb_true_r. apply Forall_cons in Hb as [Hh [Hl _]%Forall_cons].
    destruct (c =? 93)%Z.
    + cbn [take]. rewrite unpack_be16_bytes by (done || apply Hh). f_equal. f_equal.
      rewrite <- !orb_assoc. f_equal. apply orb_comm.
    + f_equal. f_equal. rewrite <- !orb_assoc. f_equal. apply orb_comm.
Qed.

Lemma parse_options_skip d l st : parse_options (d ++ l) (length d) st = parse_options l 0 st.
Proof. induction d as [|b d IH]; [done|]. exact IH. Qed.

Lemma parse_options_item o l st :
  item_ok o -> Forall is_byte (encode_item o) ->
  parse_options (encode_item o ++ l) 0 st = parse_options l 0 (absorb st o).
Proof.
  destruct o as [[c d]|]; intros Hok Hb.
  - destruct Hok as [Hc Hd]. cbn [encode_item app parse_options].
    rewrite (proj2 (Z.eqb_neq c 255)), (proj2 (Z.eqb_neq c 0)) by lia.
    rewrite Nat2Z.id, take_app_length. apply Forall_cons in Hb as [_ [_ Hb]%Forall_cons].
    rewrite handle_option_absorb by done. apply parse_options_skip.
  - cbn. f_equal. unfold absorb. cbn. rewrite orb_false_r. by destruct st.
Qed.

Lemma absorb_all items st :
  foldl absorb st items
  = {| os_options := foldl (fun m o => match o with Some (c, d) => <[c := d]> m | None => m end)
                       (os_options st) items;
       os_arch := foldl (fun a o => default a (arch_said o)) (os_arch st) items;
       os_ipxe := os_ipxe st || existsb says_ipxe items |}.
Proof.
  revert st. induction items as [|o items IH]; intros st; cbn.
  - rewrite orb_false_r. by destruct st.
  - rewrite IH. cbn. by rewrite orb_assoc.
Qed.

Lemma parse_options_encode items l st :
  Forall item_ok items -> Forall is_byte (encode_options items) ->
  (l = [] \/ exists l', l = 255%Z :: l') ->
  parse_options (encode_options items ++ l) 0 st = Ok (foldl absorb st items).
Proof.
  intros Hok Hb Hl. revert st. induction Hok as [|o items Ho Hok IH]; intros st.
  - by destruct Hl as [->|[l' ->]].
  - unfold encode_options in *. cbn [map concat] in *. apply Forall_app in Hb as [Hb1 Hb2].
    rewrite <- app_assoc, parse_options_item by done. cbn [foldl]. by apply IH.
Qed.

(** ** A packet made of a header and options *)

Lemma nth_take_app (n : nat) (l1 l2 : list Z) :
  (n < length l1)%nat -> nth n (l1 ++ l2) 0%Z = nth n l1 0%Z.
Proof. intros H. by apply app_nth1. Qed.

Lemma parse_header header rest :
  length header = 240%nat -> slice 236 240 header = MAGIC -> (nth 2 header 0 <= 16)%Z ->
  parse (header ++ rest)
  = (st ← parse_options rest 0 no_options;
     Ok {| op := nth 0 header 0%Z; htype := nth 1 header 0%Z; hlen := nth 2 header 0%Z;
           xid := slice 4 8 header;
           client_mac := slice 28 (28 + Z.to_nat (nth 2 header 0%Z)) header;
           client_arch := os_arch st; is_ipxe := os_ipxe st; options := os_options st |}).
Proof.
  intros Hl Hm Hh. unfold parse.
  rewrite (proj2 (Nat.ltb_ge _ _)) by (rewrite length_app; lia).
  rewrite !nth_take_app by lia. rewrite !slice_app_l by lia.
  by rewrite Hm, bool_decide_true, drop_app_length' by done.
Qed.

(** The parser reads every well-formed request exactly: on a 240-byte header with the magic cookie
    and any sequence of options and padding, up to the end option or the end of the datagram, it
    returns the header's fields, the last data of each option code, the architecture of the last
    architecture option, and the iPXE mark exactly when some option 175 is there or a user class holds
    "iPXE". A datagram that ends right after an option's code makes it raise [IndexError], and is not answered. *)
Theorem parse_reads_options (header : list Z) (items : list option_item) (rest : list Z)
    (Hlen : length header = 240%nat) (Hmagic : slice 236 240 header = MAGIC)
    (Hhlen : (0 <= nth 2 header 0 <= 16)%Z)
    (Hitems : Forall item_ok items) (Hbytes : Forall is_byte (encode_options items)) :
  (rest = [] \/ (exists junk, rest = 255%Z :: junk) ->
   parse (header ++ encode_options items ++ rest)
   = Ok {| op := nth 0 header 0%Z; htype := nth 1 header 0%Z; hlen := nth 2 header 0%Z;
           xid := slice 4 8 header;
           client_mac := slice 28 (28 + Z.to_nat (nth 2 header 0%Z)) header;
           client_arch := arch_of items; is_ipxe := existsb says_ipxe items;
           options := collected items |})
  /\ (forall code p, rest = [code] -> (0 < code < 255)%Z ->
      parse (header ++ encode_options items ++ rest) = Err IndexError
      /\ datagram_received p (header ++ encode_options items ++ rest) = None).
Proof.
  split.
  - intros Hrest. rewrite parse_header by (done || lia).
    rewrite parse_options_encode by done. by rewrite absorb_all.
  - intros code p -> Hc.
    assert (He : parse (header ++ encode_options items ++ [code]) = Err IndexError).
    { rewrite parse_header by (done || lia).
      assert (Hpo : forall st, parse_options (encode_options items ++ [code]) 0 st = Err IndexError).
      { clear -Hitems Hbytes Hc. induction Hitems as [|o items Ho Hok IH]; intros st.
        - cbn. by rewrite (proj2 (Z.eqb_neq code 255)), (proj2 (Z.eqb_neq code 0)) by lia.
        - unfold encode_options in *. cbn [map concat] in *. apply Forall_app in Hbytes as [Hb1 Hb2].
          rewrite <- app_assoc, parse_options_item by done. by apply IH. }
      by rewrite Hpo. }
    split; [done|]. unfold datagram_received. by rewrite He.
Qed.

(** A request of an Ethernet client. *)
Definition request_header : list Z :=
  [1; 1; 6; 0; 9; 8; 7; 6]%Z ++ repeat 0%Z 20 ++ [170; 187; 204; 1; 2; 3]%Z ++ repeat 0%Z 202 ++ MAGIC.

Definition firmware_options : list option_item :=
  [Some (53, [1]); None; Some (93, [0; 7])]%Z.

(** User class "iPXE". *)
Definition ipxe_options : list option_item := [Some (77, [105; 80; 88; 69])]%Z.

Lemma parse_reads_options_witness :
  parse (request_header ++ encode_options firmware_options ++ [255]%Z)
  = Ok {| op := 1; htype := 1; hlen := 6; xid := [9; 8; 7; 6]; client_mac := [170; 187; 204; 1; 2; 3];
          client_arch := Some UEFI_X64; is_ipxe := false;
          options := collected firmware_options |}%Z.
Proof.
  apply (parse_reads_options request_header firmware_options [255]%Z).
  - reflexivity.
  - reflexivity.
  - split; discriminate.
  - repeat constructor; cbn; lia.
  - unfold is_byte. cbn. repeat constructor; lia.
  - right. exists []. reflexivity.
Defined.

(** ** The offer *)

Definition request_ok (r : DHCPPacket) : Prop :=
  (0 <= hlen r <= 16)%Z /\ length (xid r) = 4%nat /\ length (client_mac r) = Z.to_nat (hlen r).

Lemma parse_request_ok data r :
  parse data = Ok r -> (0 <= hlen r <= 16)%Z -> request_ok r.
Proof.
  unfold parse. destruct (Nat.ltb_spec (length data) 240) as [|Hl]; [done|].
  unfold mbind, result_bind. intros Hp Hh.
  destruct (if bool_decide _ then _ else _) as [st|]; [|done]. injection Hp as <-.
  unfold request_ok. cbn [hlen xid client_mac] in *. rewrite !length_slice by lia. lia.
Qed.

(** The offer's header, as the parser will read it. *)
Lemma offer_header_spec r b :
  request_ok r -> (length b <= 63)%nat \/ is_ipxe r = true ->
  let h := offer_header r b in
  length h = 512%nat /\ nth 0 h 0%Z = 2%Z /\ nth 1 h 0%Z = htype r /\ nth 2 h 0%Z = hlen r
  /\ slice 4 8 h = xid r /\ slice 28 (28 + Z.to_nat (hlen r)) h = client_mac r
  /\ slice 236 240 h = MAGIC.
Proof.
  intros (Hh & Hx & Hm) Hb h.
  set (h0 := <[2%nat := hlen r]> (<[1%nat := htype r]> (<[0%nat := 2%Z]> (repeat 0%Z 512)))).
  set (h1 := set_slice 4 8 (xid r) h0).
  set (h2 := set_slice 28 (28 + Z.to_nat (hlen r)) (client_mac r) h1).
  set (h3 := if is_ipxe r then h2 else set_slice 108 (108 + length (take 63 b)) (take 63 b) h2).
  assert (L0 : length h0 = 512%nat) by (unfold h0; by rewrite !length_insert).
  assert (L1 : length h1 = 512%nat) by (unfold h1; rewrite length_set_slice; lia).
  assert (L2 : length h2 = 512%nat) by (unfold h2; rewrite length_set_slice; lia).
  assert (Ls : (length (take 63 b) <= 63)%nat) by (rewrite length_take; lia).
  assert (L3 : length h3 = 512%nat).
  { unfold h3. destruct (is_ipxe r); [done|]. rewrite length_set_slice; lia. }
  assert (L4 : length h = 512%nat).
  { change h with (set_slice 236 240 MAGIC h3). rewrite length_set_slice; done || lia. }
  assert (S3 : forall c d, (d <= 108)%nat -> slice c d h3 = slice c d h2).
  { intros c d Hd. unfold h3. destruct (is_ipxe r); [done|]. apply slice_set_slice_before; lia. }
  assert (Hs : forall c d, (d <= 108)%nat -> slice c d h = slice c d h2).
  { intros c d Hd. change h with (set_slice 236 240 MAGIC h3). rewrite slice_set_slice_before by lia. auto. }
  assert (Hn : forall n, (n < 3)%nat -> nth n h 0%Z = nth n h0 0%Z).
  { assert (E : slice 0 3 h = slice 0 3 h0).
    { rewrite Hs by lia. unfold h2. rewrite slice_set_slice_before by lia.
      unfold h1. by rewrite slice_set_slice_before by lia. }
    unfold slice in E. rewrite !drop_0 in E. change (3 - 0)%nat with 3%nat in E. intros n Hn.
    rewrite <- (take_drop 3 h), <- (take_drop 3 h0), !app_nth1 by (rewrite length_take; lia).
    by rewrite E. }
  split_and!.
  - done.
  - by rewrite Hn by lia.
  - by rewrite Hn by lia.
  - by rewrite Hn by lia.
  - rewrite Hs by lia. unfold h2. rewrite slice_set_slice_before by lia. apply slice_set_slice_eq; lia.
  - rewrite Hs by lia. apply slice_set_slice_eq; lia.
  - change h with (set_slice 236 240 MAGIC h3). apply slice_set_slice_eq; done || lia.
Qed.

(** The configuration the offers need: an address, and strings that fit. *)
Record proxy_config (p : DHCPProxy) (ip tftp url : list Z) : Prop := {
  pc_ip : _parse_ip (tftp_server p) = Ok ip;
  pc_ip_len : length ip = 4%nat;
  pc_tftp : encode_ascii (tftp_server p) = Some tftp;
  pc_tftp_len : (length tftp <= 236)%nat;
  pc_url : encode_ascii (get_ipxe_script_url p) = Some url;
  pc_url_len : (length url <= 254)%nat
}.

(** The options of an offer. *)
Definition offer_items (ip tftp url : list Z) (r : DHCPPacket) (boot : list Z) : list option_item :=
  ([Some (53%Z, [2%Z]); Some (54%Z, ip)]
   ++ if is_ipxe r then [Some (67%Z, url ++ [0%Z])]
      else [Some (66%Z, tftp ++ [0%Z]); Some (67%Z, boot ++ [0%Z])])%list.

Lemma to_bytes_ok l : Forall is_byte l -> to_bytes l = Ok l.
Proof.
  intros H. unfold to_bytes. replace (forallb _ l) with true; [done|]. symmetry.
  apply forallb_forall. intros b Hb%list_elem_of_In. rewrite Forall_forall in H. specialize (H b Hb).
  unfold is_byte in H. by rewrite (proj2 (Z.leb_le _ _)), (proj2 (Z.ltb_lt _ _)) by lia.
Qed.

Lemma string_option_ok code b :
  is_byte code -> (length b <= 254)%nat ->
  string_option code b = Ok (encode_item (Some (code, (b ++ [0%Z])%list)))
  /\ length (encode_item (Some (code, (b ++ [0%Z])%list))) = (2 + length b + 1)%nat.
Proof.
  intros Hc Hb. unfold string_option. unfold mbind, result_bind.
  rewrite to_bytes_ok by (unfold is_byte in *; repeat constructor; lia).
  cbn [encode_item app length]. rewrite length_app. cbn [length]. split; [|lia].
  f_equal. f_equal. f_equal. lia.
Qed.

Lemma set_index_end i v (l : list Z) :
  (i < length l)%nat -> exists l', set_index i v l = Ok l' /\ take (i + 1) l' = (take i l ++ [v])%list.
Proof.
  intros Hi. unfold set_index. rewrite (proj2 (Nat.ltb_lt _ _) Hi). eexists. split; [done|].
  rewrite insert_take_drop by done. rewrite cons_middle, app_assoc, take_app_length'; [done|].
  rewrite length_app, length_take. cbn. lia.
Qed.

Lemma boot_file_encodes arch :
  exists boot, encode_ascii (get_boot_file arch) = Some boot /\ (length boot <= 20)%nat
               /\ Forall is_byte boot.
Proof.
  destruct arch as [[]|]; (eexists; split; [reflexivity|]; split; [cbn; lia|]);
    unfold is_byte; repeat constructor; lia.
Qed.

Lemma build_offer_spec p r ip tftp url :
  proxy_config p ip tftp url -> request_ok r ->
  exists h boot, encode_ascii (get_boot_file (client_arch r)) = Some boot
    /\ build_offer p r = Ok (take 240 h ++ encode_options (offer_items ip tftp url r boot) ++ [255%Z])%list
    /\ (240 <= length h)%nat /\ nth 0 h 0%Z = 2%Z /\ nth 1 h 0%Z = htype r /\ nth 2 h 0%Z = hlen r
    /\ slice 4 8 h = xid r /\ slice 28 (28 + Z.to_nat (hlen r)) h = client_mac r
    /\ slice 236 240 h = MAGIC.
Proof.
  intros [Hip Hipl Htftp Htl Hurl Hul] Hr.
  destruct (boot_file_encodes (client_arch r)) as (boot & Hboot & Hbl & _).
  set (file := if is_ipxe r then url else boot). set (h := offer_header r file).
  destruct (offer_header_spec r file Hr) as (L & Hn & Hspec).
  { unfold file. destruct (is_ipxe r); [by right|left; lia]. }
  fold h in L, Hn, Hspec. exists h, boot. split; [done|]. split; [|split; [lia|by split]].
  assert (Hfile : encode (if is_ipxe r then get_ipxe_script_url p else get_boot_file (client_arch r))
                  = Ok file).
  { unfold encode, file. destruct (is_ipxe r); [by rewrite Hurl|by rewrite Hboot]. }
  assert (Hfl : (length file <= 254)%nat) by (unfold file; destruct (is_ipxe r); lia).
  unfold build_offer. rewrite Hfile. unfold mbind, result_bind. fold h. rewrite Hip.
  change [53; 1; 2]%Z with (encode_item (Some (53, [2])%Z)).
  replace ([54; 4]%Z ++ ip)%list with (encode_item (Some (54%Z, ip))) by (cbn; by rewrite Hipl).
  set (i1 := encode_item (Some (53, [2])%Z)). set (i2 := encode_item (Some (54%Z, ip))).
  assert (Li2 : length i2 = 6%nat) by (cbn; lia).
  set (h1 := set_slice 240 (240 + 3) i1 h). set (h2 := set_slice (240 + 3) (240 + 3 + 6) i2 h1).
  assert (L1 : length h1 = 512%nat) by (unfold h1; rewrite length_set_slice; done || lia).
  assert (L2 : length h2 = 512%nat) by (unfold h2; rewrite length_set_slice; lia).
  assert (T2 : take (240 + 3 + 6) h2 = (take 240 h ++ i1 ++ i2)%list).
  { unfold h2. rewrite take_set_slice by lia. unfold h1. rewrite take_set_slice by (done || lia).
    by rewrite app_assoc. }
  destruct (string_option_ok 67 file) as [H67 L67]; [done|lia|].
  assert (Hend : forall h3 n pre, length h3 = 512%nat -> take n h3 = pre -> (249 <= n)%nat ->
    (n + (2 + length file + 1) < 512)%nat ->
    match set_index (n + (2 + length file + 1)) 255
            (set_slice n (n + (2 + length file + 1)) (encode_item (Some (67%Z, (file ++ [0%Z])%list))) h3) with
    | Ok a => Ok (take (n + (2 + length file + 1) + 1) a)
    | Err e => Err e
    end = (Ok (pre ++ encode_item (Some (67%Z, (file ++ [0%Z])%list)) ++ [255%Z])%list : result dhcp_error _)).
  { intros h3 n pre L3 <- Hnn Hsz.
    destruct (set_index_end (n + (2 + length file + 1)) 255%Z
      (set_slice n (n + (2 + length file + 1)) (encode_item (Some (67%Z, (file ++ [0%Z])%list))) h3))
      as (l' & -> & Ht); [rewrite length_set_slice; lia|].
    rewrite Ht, take_set_slice by lia. by rewrite <- app_assoc. }
  assert (Hfu : is_ipxe r = true -> file = url) by (unfold file; by intros ->).
  assert (Hfs : is_ipxe r = false -> file = boot) by (unfold file; by intros ->).
  clearbody file. unfold offer_items. destruct (is_ipxe r) eqn:Ei.
  - rewrite H67, (Hend h2 (240 + 3 + 6)%nat _ L2 T2) by lia.
    rewrite (Hfu eq_refl). unfold encode_options. cbn [map concat app]. fold i1 i2. by rewrite <- !app_assoc.
  - unfold encode. rewrite Htftp. destruct (string_option_ok 66 tftp) as [H66 L66]; [done|lia|].
    rewrite H66, H67. set (w := (2 + length tftp + 1)%nat).
    set (h3 := set_slice (240 + 3 + 6) (240 + 3 + 6 + w) (encode_item (Some (66%Z, (tftp ++ [0%Z])%list))) h2).
    assert (L3 : length h3 = 512%nat) by (unfold h3; rewrite length_set_slice; lia).
    rewrite (Hend h3 (240 + 3 + 6 + w)%nat
      (take 240 h ++ i1 ++ i2 ++ encode_item (Some (66%Z, (tftp ++ [0%Z])%list)))%list L3);
      [|unfold h3; rewrite take_set_slice by lia; rewrite T2; by rewrite <- !app_assoc|lia|rewrite (Hfs eq_refl); unfold w; lia].
    rewrite (Hfs eq_refl). unfold encode_options. cbn [map concat app]. fold i1 i2. by rewrite <- !app_assoc.
Qed.

(** C29: every boot request is answered with an offer the client can read back: under a valid
    configuration, the datagram sent parses as a reply with the request's transaction id, hardware
    type and address, message type OFFER and the server's address, and names the boot file of the
    client's stage: for firmware the TFTP server and the iPXE binary of its architecture (the BIOS one when it is unknown),
    for iPXE the URL of the boot script and no TFTP server. *)
Theorem offer_is_read_back (p : DHCPProxy) (data : list Z) (req : DHCPPacket) (ip tftp url : list Z)
    (Hconf : proxy_config p ip tftp url) (Hip : Forall is_byte ip)
    (Hparse : parse data = Ok req) (Hop : op req = 1%Z) (Hhlen : (0 <= hlen req <= 16)%Z) :
  exists response reply, datagram_received p data = Some response
    /\ parse response = Ok reply
    /\ op reply = 2%Z /\ htype reply = htype req /\ hlen reply = hlen req /\ xid reply = xid req
    /\ client_mac reply = client_mac req
    /\ options reply !! 53%Z = Some [2%Z] /\ options reply !! 54%Z = Some ip
    /\ (if is_ipxe req
        then options reply !! 67%Z = Some (url ++ [0%Z])%list /\ options reply !! 66%Z = None
        else exists boot, encode_ascii (BOOT_FILES (default BIOS (client_arch req))) = Some boot
             /\ options reply !! 67%Z = Some (boot ++ [0%Z])%list
             /\ options reply !! 66%Z = Some (tftp ++ [0%Z])%list).
Proof.
  pose proof (parse_request_ok data req Hparse Hhlen) as Hr.
  destruct (build_offer_spec p req ip tftp url Hconf Hr) as (h & boot & Hboot & Hb & Hh & H0 & H1 & H2 & Hx & Hm & Hmagic).
  destruct (boot_file_encodes (client_arch req)) as (boot' & Hboot' & Hbl & Hbb).
  assert (boot' = boot) as -> by congruence.
  destruct Hconf as [_ Hipl Htftp Htl Hurl Hul].
  assert (Hascii : forall s b, encode_ascii s = Some b -> Forall is_byte b).
  { intros s b E%encode_ascii_bytes. eapply Forall_impl; [exact E|]. unfold is_byte. cbn. lia. }
  set (items := offer_items ip tftp url req boot) in *.
  assert (Hitems : Forall item_ok items /\ Forall is_byte (encode_options items)).
  { pose proof (Hascii _ _ Htftp). pose proof (Hascii _ _ Hurl). unfold items, offer_items, encode_options, is_byte in *.
    destruct (is_ipxe req); cbn [map concat app encode_item]; split;
      repeat first [apply Forall_cons; split | apply Forall_app; split | apply Forall_nil_2];
      cbn [item_ok length]; rewrite ?length_app; cbn [length]; try done; try lia. }
  destruct Hitems as [Hi1 Hi2]. unfold datagram_received. rewrite Hparse. unfold mbind, result_bind.
  rewrite Hop, Hb. cbn [Z.eqb Pos.eqb]. do 2 eexists. split; [reflexivity|].
  rewrite parse_header; [|by rewrite length_take; lia|by rewrite slice_take by lia|].
  2:{ rewrite <- (take_drop 240 h), app_nth1 in H2 by (rewrite length_take; lia). rewrite H2. lia. }
  rewrite parse_options_encode by (done || by right; exists []). unfold mbind, result_bind.
  assert (Hn : forall n, (n < 240)%nat -> nth n (take 240 h) 0%Z = nth n h 0%Z).
  { intros n Hn. by rewrite <- (take_drop 240 h) at 2; rewrite app_nth1 by (rewrite length_take; lia). }
  split; [reflexivity|]. rewrite absorb_all. cbn [op htype hlen xid client_mac options os_options no_options].
  rewrite !Hn, H0, H1, H2, !slice_take, Hx, Hm by lia. split_and!; try done; unfold items, offer_items;
    (destruct (is_ipxe req); cbn [foldl app]; [|try (exists boot; split; [done|])]); by simplify_map_eq.
Qed.

Definition proxy1 : DHCPProxy := {| tftp_server := "10.0.0.1"; http_server := "10.0.0.1:8080" |}.

Lemma offer_is_read_back_witness :
  let data := (request_header ++ encode_options ipxe_options ++ [255%Z])%list in
  exists response reply, datagram_received proxy1 data = Some response /\ parse response = Ok reply
    /\ options reply !! 66%Z = None.
Proof.
  intros data.
  set (req := {| op := 1; htype := 1; hlen := 6; xid := [9; 8; 7; 6]; client_mac := [170; 187; 204; 1; 2; 3];
          client_arch := None; is_ipxe := true; options := collected ipxe_options |}%Z).
  destruct (encode_ascii (get_ipxe_script_url proxy1)) as [url|] eqn:Eu; [|discriminate Eu].
  destruct (offer_is_read_back proxy1 data req [10; 0; 0; 1]%Z
    [49; 48; 46; 48; 46; 48; 46; 49]%Z url) as (response & reply & H1 & H2 & H).
  - vm_compute in Eu. injection Eu as <-. split; try reflexivity; apply Nat.leb_le; reflexivity.
  - unfold is_byte. repeat constructor; cbn; lia.
  - reflexivity.
  - reflexivity.
  - split; discriminate.
  - exists response, reply. split; [exact H1|]. split; [exact H2|].
    destruct H as (_ & _ & _ & _ & _ & _ & _ & H). exact (proj2 H).
Defined.
