(* ===== verification/PiManager.v ===== *)
(** * Raspberry Pi network boot

    [pxe/pi_manager.py]: the detection of a Pi's requests, the directory with
    boot files that every Pi has below [nodes_dir], and the discovery directory.
    A directory maps names to entries; a symbolic link is known by the source
    directory and the name it points to, and exists as long as its target does.
    Which files the firmware and the deploy directory hold is an argument.
    [re]'s [$] also matches before a final newline. *)
From S2P Require Import Prelude PyStr.
From stdpp Require Import base tactics list strings gmap sorting.
From Stdlib Require Import Ascii ZArith Lia.
Open Scope string_scope.
#[local] Arguments String.append !_ _ : simpl nomatch.

(** ** Requests *)

Definition newline : ascii := "010"%char.

(** The string [$] may end before: a final newline is dropped. *)
Fixpoint before_final_newline (s : string) : string :=
  match s with
  | EmptyString => EmptyString
  | String c EmptyString => if Ascii.eqb c newline then EmptyString else s
  | String c r => String c (before_final_newline r)
  end.

Definition is_digit (c : ascii) : bool := (48 <=? nat_of_ascii c)%nat && (nat_of_ascii c <=? 57)%nat.
Definition is_lower_hex (c : ascii) : bool :=
  is_digit c || ((97 <=? nat_of_ascii c)%nat && (nat_of_ascii c <=? 102)%nat).

(** [^[0-9a-f]{8}$] *)
Definition SERIAL_PATTERN (s : string) : bool :=
  let s := before_final_newline s in
  Nat.eqb (String.length s) 8 && str_forall is_lower_hex s.

Definition PI_BOOT_FILES : list string :=
  ["bootcode.bin";
   "start.elf"; "start4.elf"; "start_x.elf"; "start4x.elf";
   "start_db.elf"; "start4db.elf"; "start_cd.elf"; "start4cd.elf";
   "fixup.dat"; "fixup4.dat"; "fixup_x.dat"; "fixup4x.dat";
   "fixup_db.dat"; "fixup4db.dat"; "fixup_cd.dat"; "fixup4cd.dat";
   "config.txt"; "cmdline.txt";
   "kernel.img"; "kernel7.img"; "kernel7l.img"; "kernel8.img";
   "initramfs.img"; "initrd.img";
   "bcm2710-rpi-3-b.dtb"; "bcm2710-rpi-3-b-plus.dtb";
   "bcm2710-rpi-cm3.dtb"; "bcm2711-rpi-4-b.dtb";
   "bcm2712-rpi-5-b.dtb"].

(** [^bcm27\d{2}.*\.dtb$] *)
Definition DTB_PATTERN (s : string) : bool :=
  let s := before_final_newline s in
  startswith "bcm27" s
  && match str_drop 5 s with
     | String a (String b rest) => is_digit a && is_digit b && endswith ".dtb" rest
                                   && str_forall (fun c => negb (Ascii.eqb c newline)) rest
     | _ => false
     end.

Definition validate_serial (serial : string) : bool := SERIAL_PATTERN (lower serial).

Definition is_pi_boot_file (filename : string) : bool :=
  let filename_lower := lower filename in
  existsb (String.eqb filename_lower) PI_BOOT_FILES || DTB_PATTERN filename_lower.

(** [None] for [(False, "", "")]. *)
Definition is_pi_serial_request (path : string) : option (string * string) :=
  match split_on "/"%char (lstrip "/"%char path) with
  | (first :: _ :: _) as parts =>
      let potential_serial := lower first in
      let filename := List.last parts "" in
      if validate_serial potential_serial && is_pi_boot_file filename
      then Some (potential_serial, filename) else None
  | _ => None
  end.

Example pi4_boot : is_pi_serial_request "/DC2E8F01/start4.elf" = Some ("dc2e8f01", "start4.elf").
Proof. reflexivity. Qed.
Example not_a_serial : is_pi_serial_request "uefi/ipxe.efi" = None.
Proof. reflexivity. Qed.
Example any_dtb : is_pi_serial_request "dc2e8f01/overlays/bcm2712-custom.dtb" = Some ("dc2e8f01", "bcm2712-custom.dtb").
Proof. reflexivity. Qed.

(** ** Directories *)

Inductive pi_source : Type := Firmware | Deploy.
Inductive pi_entry : Type :=
| Link (s : pi_source) (name : string)
| Text (content : string).
Abbreviation pi_dir := (gmap string pi_entry).

(** What is below [nodes_dir]. *)
Abbreviation pi_tree := (gmap string pi_dir).

#[export] Instance pi_source_eq_dec : EqDecision pi_source.
Proof. solve_decision. Defined.
#[export] Instance pi_entry_eq_dec : EqDecision pi_entry.
Proof. solve_decision. Defined.

Inductive pi_error : Type :=
| PiValueError (message : string)
| FileNotFoundError
| FileExistsError.

Abbreviation PiM A := (M pi_tree pi_error A).

Record pi_model_config := {
  firmware_files : list string;
  dtb : string;
  arm_64bit : bool;
  requires_otp : bool
}.

Definition PI_MODELS : list (string * pi_model_config) :=
  [("pi3", {| firmware_files := ["bootcode.bin"; "start.elf"; "fixup.dat"]; dtb := "bcm2710-rpi-3-b.dtb";
              arm_64bit := true; requires_otp := true |});
   ("pi3b+", {| firmware_files := ["bootcode.bin"; "start.elf"; "fixup.dat"]; dtb := "bcm2710-rpi-3-b-plus.dtb";
                arm_64bit := true; requires_otp := false |});
   ("cm3", {| firmware_files := ["bootcode.bin"; "start.elf"; "fixup.dat"]; dtb := "bcm2710-rpi-cm3.dtb";
              arm_64bit := true; requires_otp := true |});
   ("pi4", {| firmware_files := ["start4.elf"; "fixup4.dat"]; dtb := "bcm2711-rpi-4-b.dtb";
              arm_64bit := true; requires_otp := false |});
   ("pi5", {| firmware_files := ["start4.elf"; "fixup4.dat"]; dtb := "bcm2712-rpi-5-b.dtb";
              arm_64bit := true; requires_otp := false |})].

Definition pi_nl : string := String newline EmptyString.

(** [serial.lower().strip()], validated. *)
Definition _validate_serial (serial : string) : result pi_error string :=
  let serial := strip (lower serial) in
  if validate_serial serial then Ok serial
  else Err (PiValueError ("Invalid serial number: '" ++ serial ++ "'. Must be 8 lowercase hex characters.")).

(** *** Configuration files *)

Definition config_lines (serial pi_model : string) (c : pi_model_config) : list string :=
  (["# PureBoot auto-generated config.txt"; ("# Pi Serial: " ++ serial)%string; ("# Pi Model: " ++ pi_model)%string; "";
    "# Boot configuration"]
   ++ (if arm_64bit c then ["arm_64bit=1"] else [])
   ++ [""; "# Kernel"; "kernel=kernel8.img"; "initramfs initramfs.img followkernel";
       ""; "# Device tree"; ("device_tree=" ++ dtb c)%string;
       ""; "# UART console (for debugging)"; "enable_uart=1"; "uart_2ndstage=1";
       ""; "# GPU memory (minimal for headless)"; "gpu_mem=16";
       ""; "# Fast boot"; "disable_splash=1"; "boot_delay=0"])%list.

Definition generate_config_txt (serial pi_model : string) : result pi_error string :=
  serial ← _validate_serial serial;
  match assoc_get pi_model PI_MODELS with
  | None => Err (PiValueError ("Unknown Pi model: '" ++ pi_model ++ "'"))
  | Some c => Ok (PyStr.join pi_nl (config_lines serial pi_model c) ++ pi_nl)
  end.

Definition given (x : option string) (f : string -> list string) : list string :=
  match x with Some s => if String.eqb s "" then [] else f s | None => [] end.

Definition cmdline_params (serial : string) (controller_url : option string) : list string :=
  (["console=serial0,115200"; "console=tty1"; "ip=dhcp"; ("pureboot.serial=" ++ serial)%string]
   ++ given controller_url (fun u => [("pureboot.url=" ++ u)%string])
   ++ ["root=/dev/ram0"; "rootfstype=ramfs"; "quiet"; "loglevel=4"])%list.

Definition generate_cmdline_txt (serial : string) (controller_url : option string) : result pi_error string :=
  serial ← _validate_serial serial;
  Ok (PyStr.join " " (cmdline_params serial controller_url) ++ pi_nl).

(** The keyword arguments of [generate_cmdline_for_state]. *)
Record cmdline_args := {
  a_controller_url : option string;
  a_node_id : option string;
  a_mac : option string;
  a_image_url : option string;
  a_target_device : option string;
  a_callback_url : option string;
  a_nfs_server : option string;
  a_nfs_path : option string
}.

Definition ramfs : list string := ["root=/dev/ram0"; "rootfstype=ramfs"].

Definition set_text (x : option string) : bool := match x with Some s => negb (String.eqb s "") | None => false end.

Definition state_params (serial state : string) (a : cmdline_args) : list string :=
  (["console=serial0,115200"; "console=tty1"; "ip=dhcp"; ("pureboot.serial=" ++ serial)%string; ("pureboot.state=" ++ state)%string]
   ++ given (a_controller_url a) (fun u => [("pureboot.url=" ++ u)%string])
   ++ (if String.eqb state "installing" && set_text (a_image_url a) then
         ["pureboot.mode=install"; ("pureboot.image_url=" ++ default "" (a_image_url a))%string]
         ++ given (a_target_device a) (fun t => [("pureboot.target=" ++ t)%string])
         ++ given (a_node_id a) (fun n => [("pureboot.node_id=" ++ n)%string])
         ++ given (a_mac a) (fun m => [("pureboot.mac=" ++ m)%string])
         ++ given (a_callback_url a) (fun c => [("pureboot.callback=" ++ c)%string])
         ++ ramfs
       else if set_text (a_nfs_server a) && set_text (a_nfs_path a) then
         ["root=/dev/nfs";
          ("nfsroot=" ++ default "" (a_nfs_server a) ++ ":" ++ default "" (a_nfs_path a) ++ ",vers=4,tcp")%string; "rw"]
       else ramfs)
   ++ ["quiet"; "loglevel=4"])%list.

Definition generate_cmdline_for_state (serial state : string) (a : cmdline_args) : result pi_error string :=
  serial ← _validate_serial serial;
  Ok (PyStr.join " " (state_params serial state a) ++ pi_nl).

Section PiManager.
Variable has : pi_source -> string -> bool.

(** [dst.exists()], which follows a link. *)
Definition entry_exists (d : pi_dir) (name : string) : bool :=
  match d !! name with
  | Some (Link s n) => has s n
  | Some (Text _) => true
  | None => false
  end.

Abbreviation DirM A := (M pi_dir pi_error A).

(** [dst.symlink_to(src)]: what has the name, even a link without a target, is in
    the way. *)
Definition symlink (s : pi_source) (name : string) : DirM unit :=
  d ← get_state;
  match d !! name with
  | Some _ => raise FileExistsError
  | None => put_state (<[name := Link s name]> d)
  end.

Definition link_file (s : pi_source) (name : string) : DirM unit :=
  d ← get_state;
  if has s name && negb (entry_exists d name) then symlink s name else mret tt.

Fixpoint link_files (s : pi_source) (names : list string) : DirM unit :=
  match names with
  | [] => mret tt
  | n :: names => link_file s n;; link_files s names
  end.

Definition deploy_files : list string := ["kernel8.img"; "initramfs.img"].

Definition write_text (name content : string) : DirM unit := modify (<[name := Text content]>).

(** A computation on one directory, made if it is not there. *)
Definition on_dir {A} (serial : string) (m : DirM A) : PiM A :=
  fun t => let '(r, d) := m (default ∅ (t !! serial)) in (r, <[serial := d]> t).

Definition node_exists (serial : string) : PiM bool :=
  serial ← lift_result (_validate_serial serial);
  t ← get_state; mret (bool_decide (is_Some (t !! serial))).

(** [sorted] of the names that are serial numbers. *)
Definition list_nodes (t : pi_tree) : list string :=
  merge_sort (fun a b => Is_true (String.leb a b)) (List.filter validate_serial (elements (dom t))).

(** The links and files of a node's directory, made one after the other. *)
Definition fill_directory (serial pi_model : string) (c : pi_model_config) (controller_url : option string) : DirM unit :=
  link_files Firmware (firmware_files c);;
  link_file Firmware (dtb c);;
  link_files Deploy deploy_files;;
  config_txt ← lift_result (generate_config_txt serial pi_model);
  write_text "config.txt" config_txt;;
  cmdline_txt ← lift_result (generate_cmdline_txt serial controller_url);
  write_text "cmdline.txt" cmdline_txt.

(** The directory made is given by its serial number. *)
Definition create_node_directory (serial pi_model : string) (controller_url : option string) : PiM string :=
  serial ← lift_result (_validate_serial serial);
  match assoc_get pi_model PI_MODELS with
  | None => raise (PiValueError ("Unknown Pi model: '" ++ pi_model ++ "'. Valid models: "
                                 ++ "['" ++ PyStr.join "', '" (map fst PI_MODELS) ++ "']"))
  | Some c => on_dir serial (fill_directory serial pi_model c controller_url);; mret serial
  end.

Definition delete_node_directory (serial : string) : PiM unit :=
  match _validate_serial serial with
  | Err _ => mret tt
  | Ok serial => modify (base.delete serial)
  end.

Definition update_file (serial name : string) (content : string -> result pi_error string) : PiM unit :=
  serial ← lift_result (_validate_serial serial);
  t ← get_state;
  match t !! serial with
  | None => raise FileNotFoundError
  | Some _ => text ← lift_result (content serial); on_dir serial (write_text name text)
  end.

Definition update_cmdline_txt (serial : string) (controller_url : option string) : PiM unit :=
  update_file serial "cmdline.txt" (fun serial => generate_cmdline_txt serial controller_url).
Definition update_config_txt (serial pi_model : string) : PiM unit :=
  update_file serial "config.txt" (fun serial => generate_config_txt serial pi_model).
Definition update_cmdline_for_state (serial state : string) (a : cmdline_args) : PiM unit :=
  update_file serial "cmdline.txt" (fun serial => generate_cmdline_for_state serial state a).

(** *** Discovery *)

(** The discovery directory and the manager's [controller_url]. *)
Record PiDiscoveryManager := { discovery_dir : option pi_dir; controller_url : option string }.

Definition _generate_discovery_config : string :=
  PyStr.join pi_nl
    ["# PureBoot Discovery Mode config.txt"; "# This configuration supports Pi 3, 4, and 5 models"; "";
     "# Boot configuration"; "arm_64bit=1"; ""; "# Kernel"; "kernel=kernel8.img";
     "initramfs initramfs.img followkernel"; ""; "# UART console (for debugging)"; "enable_uart=1";
     "uart_2ndstage=1"; ""; "# GPU memory (minimal for headless)"; "gpu_mem=16"; ""; "# Fast boot";
     "disable_splash=1"; "boot_delay=0"] ++ pi_nl.

Definition _generate_discovery_cmdline (controller_url : option string) : string :=
  PyStr.join " " (["console=serial0,115200"; "console=tty1"; "ip=dhcp"; "pureboot.mode=discovery"; "pureboot.state=discovered"]
            ++ given controller_url (fun u => [("pureboot.url=" ++ u)%string])
            ++ ramfs ++ ["quiet"; "loglevel=4"])%list ++ pi_nl.

(** [dtbs]: the firmware directory's files that match [*.dtb]; they exist, so that
    only the entry is looked at. *)
Fixpoint link_found (names : list string) : DirM unit :=
  match names with
  | [] => mret tt
  | n :: names =>
      d ← get_state;
      (if entry_exists d n then mret tt else symlink Firmware n);;
      link_found names
  end.

Definition discovery_files (dtbs : list string) (url : option string) : DirM unit :=
  link_files Firmware ["bootcode.bin"; "start.elf"; "fixup.dat"];;
  link_files Firmware ["start4.elf"; "fixup4.dat"];;
  link_found dtbs;;
  link_files Deploy deploy_files;;
  write_text "config.txt" _generate_discovery_config;;
  write_text "cmdline.txt" (_generate_discovery_cmdline url).

Definition ensure_discovery_directory (dtbs : list string) : M PiDiscoveryManager pi_error unit := fun m =>
  match discovery_dir m with
  | Some _ => (Ok tt, m)
  | None =>
      let '(r, d) := discovery_files dtbs (controller_url m) ∅ in
      (r, {| discovery_dir := Some d; controller_url := controller_url m |})
  end.

Definition update_controller_url (url : string) : M PiDiscoveryManager pi_error unit :=
  modify (fun m =>
    {| discovery_dir := <["cmdline.txt" := Text (_generate_discovery_cmdline (Some url))]> <$> discovery_dir m;
       controller_url := Some url |}).

End PiManager.

(** ** Serial numbers *)

Lemma rstrip_no_newline s : before_final_newline (rstrip_ws s) = rstrip_ws s.
Proof.
  induction s as [|c s IH]; [done|]. cbn. destruct (rstrip_ws s) as [|d r] eqn:E.
  - destruct (is_space c) eqn:Es; [done|]. cbn. destruct (Ascii.eqb_spec c newline) as [->|]; [done|done].
  - change (before_final_newline (String c (String d r))) with (String c (before_final_newline (String d r))).
    by rewrite IH.
Qed.

Lemma lower_lower s : str_forall (fun c => Ascii.eqb (ascii_lower c) c) (lower s) = true.
Proof. unfold lower. rewrite str_forall_map. induction s as [|c s IH]; [done|]. cbn. by rewrite ascii_lower_idemp, Ascii.eqb_refl. Qed.

Lemma lower_hex_plain c : is_lower_hex c = true ->
  negb (is_space c) = true /\ negb (Ascii.eqb " " c) = true /\ negb (Ascii.eqb newline c) = true.
Proof. destruct c as [[] [] [] [] [] [] [] []]; vm_compute; done. Qed.

(** A validated serial number is eight hexadecimal digits, and stays as it is. *)
Lemma validate_serial_Ok s s' : _validate_serial s = Ok s' ->
  String.length s' = 8%nat /\ str_forall is_lower_hex s' = true /\ _validate_serial s' = Ok s'.
Proof.
  unfold _validate_serial. set (x := strip (lower s)).
  assert (Hlow : lower x = x) by (apply str_map_id, str_forall_strip, lower_lower).
  destruct (validate_serial x) eqn:E; [|done]. intros [= <-].
  unfold validate_serial in E. rewrite Hlow in E. unfold SERIAL_PATTERN in E.
  assert (Hn : before_final_newline x = x) by apply rstrip_no_newline.
  rewrite Hn in E. apply andb_true_iff in E as [E1%Nat.eqb_eq E2]. split; [done|]. split; [done|].
  assert (strip x = x) as Hs.
  { apply strip_id. eapply str_forall_impl; [|exact E2]. intros c Hc. by apply lower_hex_plain. }
  rewrite Hlow, Hs. unfold validate_serial, SERIAL_PATTERN. rewrite Hlow, Hn, E2.
  by rewrite (proj2 (Nat.eqb_eq _ _) E1).
Qed.

Lemma generate_config_run serial m c : _validate_serial serial = Ok serial -> assoc_get m PI_MODELS = Some c ->
  generate_config_txt serial m = Ok (PyStr.join pi_nl (config_lines serial m c) ++ pi_nl).
Proof. intros Hs Hm. unfold generate_config_txt. rewrite Hs. cbn [mbind result_bind]. by rewrite Hm. Qed.

Lemma generate_cmdline_run serial url : _validate_serial serial = Ok serial ->
  generate_cmdline_txt serial url = Ok (PyStr.join " " (cmdline_params serial url) ++ pi_nl).
Proof. intros Hs. unfold generate_cmdline_txt. by rewrite Hs. Qed.

(** ** Runs of the manager *)

Inductive pi_op : Type :=
| Create (serial pi_model : string) (url : option string)
| Delete (serial : string)
| UpdateCmdline (serial : string) (url : option string)
| UpdateConfig (serial pi_model : string)
| UpdateForState (serial state : string) (a : cmdline_args).

Definition pi_step (has : pi_source -> string -> bool) (op : pi_op) : PiM unit :=
  match op with
  | Create s m u => create_node_directory has s m u;; mret tt
  | Delete s => delete_node_directory s
  | UpdateCmdline s u => update_cmdline_txt s u
  | UpdateConfig s m => update_config_txt s m
  | UpdateForState s st a => update_cmdline_for_state s st a
  end.

Definition pi_run (has : pi_source -> string -> bool) (ops : list pi_op) (t : pi_tree) : pi_tree :=
  foldl (fun t op => (pi_step has op t).2) t ops.

(** Where a file comes from, and the files a model needs. *)
Definition home (name : string) : pi_source := if existsb (String.eqb name) deploy_files then Deploy else Firmware.
Definition wanted (c : pi_model_config) : list string := (firmware_files c ++ dtb c :: deploy_files)%list.

(** Every link has the name of the file it points to. *)
Definition linked (d : pi_dir) : Prop := forall n s m, d !! n = Some (Link s m) -> m = n /\ s = home n.
Definition tree_linked (t : pi_tree) : Prop := map_Forall (fun _ d => linked d) t.

Section Directories.
Variable has : pi_source -> string -> bool.

Definition add_link (s : pi_source) (n : string) (d : pi_dir) : pi_dir :=
  match d !! n with
  | Some _ => d
  | None => if has s n then <[n := Link s n]> d else d
  end.

Lemma linked_empty : linked ∅.
Proof. intros n s m H. by rewrite lookup_empty in H. Qed.

Lemma linked_text d n t : linked d -> linked (<[n := Text t]> d).
Proof.
  intros H n' s m. destruct (decide (n' = n)) as [->|Hn].
  - by rewrite lookup_insert_eq.
  - rewrite lookup_insert_ne by done. apply H.
Qed.

Lemma linked_add s n d : linked d -> s = home n -> linked (add_link s n d).
Proof.
  intros H Hs. unfold add_link. destruct (d !! n) eqn:E; [done|]. destruct (has s n); [|done].
  intros n' s' m. destruct (decide (n' = n)) as [->|Hn].
  - rewrite lookup_insert_eq. by intros [= <- <-].
  - rewrite lookup_insert_ne by done. apply H.
Qed.

(** In a directory whose links are named after their targets nothing is in the way
    of a link. *)
Lemma link_file_run s n d : linked d -> s = home n -> link_file has s n d = (Ok tt, add_link s n d).
Proof.
  intros H Hs. unfold link_file, add_link, entry_exists, symlink. unfold_M.
  destruct (d !! n) as [[s' m|t]|] eqn:E.
  - destruct (H _ _ _ E) as [-> ->]. rewrite Hs. by destruct (has (home n) n).
  - by rewrite andb_false_r.
  - destruct (has s n); cbn; [by rewrite E|done].
Qed.

Lemma add_link_lookup s n d n' : add_link s n d !! n' =
  match d !! n' with Some e => Some e | None => if String.eqb n' n && has s n then Some (Link s n) else None end.
Proof.
  unfold add_link. destruct (String.eqb_spec n' n) as [->|Hn].
  - destruct (d !! n) as [e|] eqn:E; [by rewrite E|]. destruct (has s n); [by rewrite lookup_insert_eq|by rewrite E].
  - destruct (d !! n) as [e|] eqn:E; [by destruct (d !! n')|].
    destruct (has s n); [rewrite lookup_insert_ne by done|]; by destruct (d !! n').
Qed.

Lemma link_files_run s names d : linked d -> Forall (fun n => s = home n) names ->
  exists d', link_files has s names d = (Ok tt, d') /\ linked d' /\
    forall n, d' !! n = match d !! n with
                        | Some e => Some e
                        | None => if existsb (String.eqb n) names && has s n then Some (Link s n) else None
                        end.
Proof.
  revert d. induction names as [|x names IH]; intros d Hd Hn.
  - exists d. split; [done|]. split; [done|]. intros n. cbn. by destruct (d !! n).
  - apply Forall_cons in Hn as [Hx Hn]. destruct (IH (add_link s x d)) as (d' & E & Hl & Hspec); [by apply linked_add|done|].
    exists d'. cbn [link_files]. rewrite (bind_Ok _ _ _ _ _ (link_file_run s x d Hd Hx)). split; [done|]. split; [done|].
    intros n. rewrite Hspec, add_link_lookup. destruct (d !! n); [done|]. cbn [existsb].
    destruct (String.eqb_spec n x) as [->|]; cbn; [|done]. destruct (has s x); [done|]. by rewrite andb_false_r.
Qed.

Lemma pi_models_home m c : assoc_get m PI_MODELS = Some c ->
  Forall (fun n => Firmware = home n) (firmware_files c) /\ Firmware = home (dtb c) /\
  arm_64bit c = true /\ Forall (fun n => n ≠ "config.txt" /\ n ≠ "cmdline.txt") (wanted c).
Proof.
  unfold PI_MODELS. cbn [assoc_get]. repeat case_match; intros [= <-].
  all: cbn; split_and!; try done; repeat (apply Forall_cons_2; [done|]); apply Forall_nil_2.
Qed.

(** The directory of a Pi: links to what the firmware and the deploy directory have
    of the model's files, and the two configuration files; what was there before stays. *)
Lemma fill_directory_run serial m c url d config cmdline :
  assoc_get m PI_MODELS = Some c -> linked d ->
  generate_config_txt serial m = Ok config -> generate_cmdline_txt serial url = Ok cmdline ->
  exists d', fill_directory has serial m c url d = (Ok tt, d') /\ linked d' /\
    d' !! "config.txt" = Some (Text config) /\ d' !! "cmdline.txt" = Some (Text cmdline) /\
    forall n, n ≠ "config.txt" -> n ≠ "cmdline.txt" ->
      d' !! n = match d !! n with
                | Some e => Some e
                | None => if existsb (String.eqb n) (wanted c) && has (home n) n then Some (Link (home n) n) else None
                end.
Proof.
  intros Hm Hd Hc Hl. destruct (pi_models_home m c Hm) as (Hf & Hdtb & _ & _).
  unfold fill_directory. destruct (link_files_run Firmware (firmware_files c) d Hd Hf) as (d1 & E1 & L1 & S1).
  rewrite (bind_Ok _ _ _ _ _ E1), (bind_Ok _ _ _ _ _ (link_file_run Firmware (dtb c) d1 L1 Hdtb)).
  pose proof (linked_add Firmware (dtb c) d1 L1 Hdtb) as L2.
  destruct (link_files_run Deploy deploy_files (add_link Firmware (dtb c) d1) L2) as (d3 & E3 & L3 & S3).
  { by repeat apply Forall_cons_2. }
  rewrite (bind_Ok _ _ _ _ _ E3), Hc, Hl. unfold_M. cbn.
  eexists. split; [done|]. split; [by do 2 apply linked_text|].
  split; [by rewrite lookup_insert_ne, lookup_insert_eq by done|]. split; [by rewrite lookup_insert_eq|].
  intros n H1 H2. rewrite !lookup_insert_ne by done. rewrite S3, add_link_lookup, S1.
  destruct (d !! n); [done|]. unfold wanted. rewrite existsb_app. cbn [existsb].
  assert (Hdep : existsb (String.eqb n) deploy_files = true -> home n = Deploy) by (unfold home; by intros ->).
  assert (Hfw : existsb (String.eqb n) (firmware_files c) = true -> home n = Firmware).
  { intros (x & Hx & Heq%String.eqb_eq)%existsb_exists. subst x. rewrite Forall_forall in Hf. symmetry. apply Hf.
    by apply list_elem_of_In. }
  destruct (existsb (String.eqb n) (firmware_files c)) eqn:Ef; cbn [andb orb].
  - rewrite (Hfw eq_refl). destruct (has Firmware n) eqn:Eh; [done|].
    destruct (String.eqb_spec n (dtb c)) as [->|_]; cbn [andb]; [rewrite Eh|];
      destruct (existsb _ deploy_files) eqn:Ed; try done; by rewrite (Hfw eq_refl) in Hdep; specialize (Hdep eq_refl).
  - destruct (String.eqb_spec n (dtb c)) as [->|_]; cbn [andb orb].
    + rewrite <- Hdtb. destruct (has Firmware (dtb c)) eqn:Eh; [done|].
      destruct (existsb _ deploy_files) eqn:Ed; [|done]. rewrite <- Hdtb in Hdep. by specialize (Hdep eq_refl).
    + destruct (existsb _ deploy_files) eqn:Ed; [|done]. by rewrite (Hdep eq_refl).
Qed.

(** *** Runs keep the directories linked *)

Lemma tree_linked_lookup t serial : tree_linked t -> linked (default ∅ (t !! serial)).
Proof.
  intros H. destruct (t !! serial) as [d|] eqn:E; cbn; [by apply (H serial d)|apply linked_empty].
Qed.

Lemma tree_linked_insert t serial d : tree_linked t -> linked d -> tree_linked (<[serial := d]> t).
Proof. intros H Hd. by apply map_Forall_insert_2. Qed.

Lemma create_run serial m c url t s : tree_linked t -> _validate_serial serial = Ok s -> assoc_get m PI_MODELS = Some c ->
  exists d, create_node_directory has serial m url t = (Ok s, <[s := d]> t) /\ linked d /\
    d !! "config.txt" = Some (Text (PyStr.join pi_nl (config_lines s m c) ++ pi_nl)) /\
    d !! "cmdline.txt" = Some (Text (PyStr.join " " (cmdline_params s url) ++ pi_nl)) /\
    forall n, n ≠ "config.txt" -> n ≠ "cmdline.txt" ->
      d !! n = match default ∅ (t !! s) !! n with
               | Some e => Some e
               | None => if existsb (String.eqb n) (wanted c) && has (home n) n then Some (Link (home n) n) else None
               end.
Proof.
  intros Ht Hs Hm. destruct (validate_serial_Ok _ _ Hs) as (_ & _ & Hs').
  destruct (fill_directory_run s m c url (default ∅ (t !! s)) _ _ Hm (tree_linked_lookup t s Ht)
    (generate_config_run s m c Hs' Hm) (generate_cmdline_run s url Hs')) as (d & E & Hd & Hspec).
  exists d. split; [|done]. unfold create_node_directory. rewrite Hs, Hm.
  rewrite (bind_Ok (lift_result (Ok s)) _ t s t eq_refl). unfold on_dir, mbind, M_bind. by rewrite E.
Qed.

Lemma update_file_cases serial name content t : tree_linked t ->
  (exists e, update_file serial name content t = (Err e, t) /\ (e = FileNotFoundError \/ (exists m, e = PiValueError m)
     \/ exists s, _validate_serial serial = Ok s /\ content s = Err e)) \/
  exists s d text, t !! s = Some d /\ content s = Ok text /\ update_file serial name content t = (Ok tt, <[s := <[name := Text text]> d]> t).
Proof.
  intros Ht. unfold update_file. destruct (_validate_serial serial) as [s|e] eqn:Es.
  - rewrite (bind_Ok (lift_result (Ok s)) _ t s t eq_refl), (bind_Ok get_state _ t t t eq_refl).
    destruct (t !! s) as [d|] eqn:Et.
    + destruct (content s) as [text|e] eqn:Ec.
      * right. exists s, d, text. split; [done|]. split; [done|].
        rewrite (bind_Ok (lift_result (Ok text)) _ t text t eq_refl). unfold on_dir. by rewrite Et.
      * left. exists e. split; [done|]. right; right. by exists s.
    + left. exists FileNotFoundError. split; [done|by left].
  - left. exists e. split; [done|]. right; left. unfold _validate_serial in Es.
    destruct (validate_serial _); [done|]. injection Es as <-. eauto.
Qed.

Lemma update_file_linked serial name content t : tree_linked t -> tree_linked (update_file serial name content t).2.
Proof.
  intros Ht. destruct (update_file_cases serial name content t Ht) as [(e & -> & _)|(s & d & text & Hd & _ & ->)]; [done|].
  apply tree_linked_insert; [done|]. apply linked_text. by apply (Ht s d).
Qed.

Lemma pi_step_linked op t : tree_linked t -> tree_linked (pi_step has op t).2.
Proof.
  intros Ht. destruct op as [s m u|s|s u|s m|s st a]; cbn [pi_step]; try by apply update_file_linked.
  - destruct (_validate_serial s) as [s'|e] eqn:Es; [destruct (assoc_get m PI_MODELS) as [c|] eqn:Em|].
    + destruct (create_run s m c u t s' Ht Es Em) as (d & E & Hd & _). rewrite (bind_Ok _ _ _ _ _ E).
      by apply tree_linked_insert.
    + unfold create_node_directory. by rewrite Es, Em.
    + unfold create_node_directory. by rewrite Es.
  - unfold delete_node_directory. destruct (_validate_serial s); [|done]. by apply map_Forall_delete.
Qed.

Lemma pi_run_linked ops t : tree_linked t -> tree_linked (pi_run has ops t).
Proof. revert t. induction ops as [|op ops IH]; intros t Ht; [done|]. cbn. by apply IH, pi_step_linked. Qed.

Lemma hex_lacks s : str_forall is_lower_hex s = true ->
  str_forall (fun d => negb (Ascii.eqb " " d)) s = true /\ str_forall (fun d => negb (Ascii.eqb newline d)) s = true.
Proof. intros H. split; (eapply str_forall_impl; [|exact H]); intros c Hc; by apply lower_hex_plain. Qed.

Lemma config_reads_back s m c : str_forall is_lower_hex s = true -> assoc_get m PI_MODELS = Some c ->
  split_on newline (PyStr.join pi_nl (config_lines s m c) ++ pi_nl) = (config_lines s m c ++ [""])%list.
Proof.
  intros Hs Hm. destruct (hex_lacks s Hs) as [_ Hn].
  assert (PyStr.join pi_nl (config_lines s m c) ++ pi_nl = PyStr.join pi_nl (config_lines s m c ++ [""])%list) as ->.
  { by apply join_end. }
  unfold pi_nl. apply split_on_join; [by destruct (config_lines s m c)|].
  unfold PI_MODELS in Hm. cbn [assoc_get] in Hm.
  repeat case_match; try discriminate Hm; injection Hm as <-; repeat match goal with H : String.eqb _ _ = true |- _ => apply String.eqb_eq in H; subst end.
  all: cbn [config_lines arm_64bit dtb app].
  all: repeat (apply Forall_cons_2; [first [ reflexivity | rewrite str_forall_app; cbn [str_forall andb]; exact Hn ]|]); apply Forall_nil_2.
Qed.

Lemma cmdline_reads_back s url : str_forall is_lower_hex s = true ->
  str_forall (fun x => negb (Ascii.eqb " " x)) (default "" url) = true ->
  split_on " " (PyStr.join " " (cmdline_params s url) ++ pi_nl)
  = ((["console=serial0,115200"; "console=tty1"; "ip=dhcp"; ("pureboot.serial=" ++ s)%string]
      ++ given url (fun u => [("pureboot.url=" ++ u)%string]) ++ ["root=/dev/ram0"; "rootfstype=ramfs"; "quiet"])
     ++ [("loglevel=4" ++ pi_nl)%string])%list.
Proof.
  intros Hs Hu. destruct (hex_lacks s Hs) as [Hsp _]. unfold cmdline_params.
  assert (Forall (fun w => str_forall (fun x => negb (Ascii.eqb " " x)) w = true)
    (given url (fun u => [("pureboot.url=" ++ u)%string]))) as Hg.
  { unfold given. destruct url as [u|]; [|apply Forall_nil_2]. destruct (String.eqb u ""); [apply Forall_nil_2|].
    apply Forall_cons_2; [|apply Forall_nil_2]. rewrite str_forall_app. exact Hu. }
  revert Hg. generalize (given url (fun u => [("pureboot.url=" ++ u)%string])). intros g Hg.
  set (front := (["console=serial0,115200"; "console=tty1"; "ip=dhcp"; ("pureboot.serial=" ++ s)%string] ++ g
                 ++ ["root=/dev/ram0"; "rootfstype=ramfs"; "quiet"])%list).
  assert ((["console=serial0,115200"; "console=tty1"; "ip=dhcp"; ("pureboot.serial=" ++ s)%string] ++ g
           ++ ["root=/dev/ram0"; "rootfstype=ramfs"; "quiet"; "loglevel=4"])%list = (front ++ ["loglevel=4"])%list) as ->.
  { unfold front. by rewrite <- !app_assoc. }
  rewrite join_snoc. apply split_on_join; [by destruct front|].
  apply Forall_app. split; [|by apply Forall_cons_2; [reflexivity|apply Forall_nil_2]].
  unfold front. apply Forall_app. split; [|apply Forall_app; split; [exact Hg|]].
  - do 3 (apply Forall_cons_2; [reflexivity|]). apply Forall_cons_2; [|apply Forall_nil_2]. rewrite str_forall_app. exact Hsp.
  - do 3 (apply Forall_cons_2; [reflexivity|]). apply Forall_nil_2.
Qed.

(** C31: The boot directory of a Raspberry Pi.  After any run of the manager from an
    empty [nodes_dir], making the directory of a valid serial number and a known
    model succeeds (no link is ever in the way of another one); the directories of
    the other Pis stay as they were; every file the model needs that the firmware or
    the deploy directory holds can be opened in it, [config.txt] names the model's
    device tree, the kernel and the initramfs, [cmdline.txt] the serial number; and
    what else was there is kept. *)
Theorem pi_directory_is_bootable ops serial s m c url :
  _validate_serial serial = Ok s -> assoc_get m PI_MODELS = Some c ->
  let t := pi_run has ops ∅ in
  exists d, create_node_directory has serial m url t = (Ok s, <[s := d]> t) /\
    (forall n, n ∈ wanted c -> has (home n) n = true -> entry_exists has d n = true) /\
    (exists config cmdline, d !! "config.txt" = Some (Text config) /\ d !! "cmdline.txt" = Some (Text cmdline) /\
       (forall l, l ∈ ["kernel=kernel8.img"; "initramfs initramfs.img followkernel"; "device_tree=" ++ dtb c] ->
          l ∈ split_on newline config) /\
       (str_forall (fun x => negb (Ascii.eqb " " x)) (default "" url) = true ->
          "pureboot.serial=" ++ s ∈ split_on " " cmdline)) /\
    (forall n e, n ≠ "config.txt" -> n ≠ "cmdline.txt" -> default ∅ (t !! s) !! n = Some e -> d !! n = Some e).
Proof.
  intros Hs Hm t. destruct (validate_serial_Ok _ _ Hs) as (_ & Hhex & _).
  assert (Ht : tree_linked t) by (apply pi_run_linked, map_Forall_empty).
  destruct (create_run serial m c url t s Ht Hs Hm) as (d & E & Hd & Hc & Hl & Hspec).
  destruct (pi_models_home m c Hm) as (_ & _ & _ & Hw). exists d. split; [done|].
  assert (Hkeep : forall n e, n ≠ "config.txt" -> n ≠ "cmdline.txt" -> default ∅ (t !! s) !! n = Some e -> d !! n = Some e)
    by (intros n e H1 H2 He; by rewrite Hspec, He).
  split; [|split; [|done]].
  - intros n Hn Hh. rewrite Forall_forall in Hw. destruct (Hw n Hn) as [H1 H2].
    unfold entry_exists. rewrite (Hspec n H1 H2).
    destruct (default ∅ (t !! s) !! n) as [[s' m'|]|] eqn:Ee; [|done|].
    + destruct (tree_linked_lookup t s Ht _ _ _ Ee) as [-> ->]. done.
    + assert (existsb (String.eqb n) (wanted c) = true) as ->.
      { apply existsb_exists. exists n. by rewrite String.eqb_refl, <- list_elem_of_In. }
      by rewrite Hh.
  - eexists _, _. split; [exact Hc|]. split; [exact Hl|]. split.
    + intros l Hin. rewrite (config_reads_back s m c Hhex Hm). apply elem_of_app. left.
      unfold config_lines. rewrite !elem_of_app. right. right.
      apply list_elem_of_In. apply list_elem_of_In in Hin. cbn in Hin |- *. tauto.
    + intros Hu. rewrite (cmdline_reads_back s url Hhex Hu). apply elem_of_app. left.
      do 3 apply list_elem_of_further. apply list_elem_of_here.
Qed.
End Directories.

Definition all_files (s : pi_source) (name : string) : bool := true.

Lemma pi_directory_is_bootable_witness :
  let t := pi_run all_files [Create "DC2E8F01" "pi4" None; UpdateConfig "dc2e8f01" "pi5"] ∅ in
  exists d, create_node_directory all_files " 12AB34CD" "pi3" (Some "http://lab:8080") t
            = (Ok "12ab34cd", <["12ab34cd" := d]> t) /\ entry_exists all_files d "bootcode.bin" = true.
Proof.
  destruct (pi_directory_is_bootable all_files
    [Create "DC2E8F01" "pi4" None; UpdateConfig "dc2e8f01" "pi5"] " 12AB34CD" "12ab34cd" "pi3"
    {| firmware_files := ["bootcode.bin"; "start.elf"; "fixup.dat"]; dtb := "bcm2710-rpi-3-b.dtb";
       arm_64bit := true; requires_otp := true |} (Some "http://lab:8080") eq_refl eq_refl) as (d & E & H & _).
  exists d. split; [exact E|]. exact (H "bootcode.bin" (list_elem_of_here _ _) eq_refl).
Defined.
