(* ===== verification/Tftp.v ===== *)
(** * The TFTP server

    [pxe/tftp_server.py]: packets, path resolution, the transfer of a file and
    the dispatch of requests.

    The network is a parameter: [net sent t] lists what happens, in order, on
    the transfer's socket during its [t]-th await, after the datagrams of [sent]
    have been sent.  The file system is the record
    [FileSystem]: [fs_resolve dir name] is [str((dir / name).resolve())].
    Strings that come from a packet are ASCII.  The text of an exception,
    [str(e)], is the parameter [str_of]. *)
From S2P Require Import Prelude PyStr Bytes PiManager.
From stdpp Require Import base tactics list strings pretty.
From Stdlib Require Import Ascii ZArith Lia.
Open Scope string_scope.

Definition DEFAULT_BLKSIZE : Z := 512.
Definition MAX_BLKSIZE : Z := 65464.

(** ** Packets *)

Inductive OpCode : Type := RRQ | WRQ | DATA | ACK | ERROR | OACK.

#[export] Instance OpCode_eq_dec : EqDecision OpCode.
Proof. solve_decision. Defined.

Definition opcode_value (o : OpCode) : Z :=
  match o with RRQ => 1 | WRQ => 2 | DATA => 3 | ACK => 4 | ERROR => 5 | OACK => 6 end.

(** [OpCode(n)]; [None] is the [ValueError]. *)
Definition opcode_of (n : Z) : option OpCode :=
  if (n =? 1)%Z then Some RRQ else if (n =? 2)%Z then Some WRQ else if (n =? 3)%Z then Some DATA
  else if (n =? 4)%Z then Some ACK else if (n =? 5)%Z then Some ERROR else if (n =? 6)%Z then Some OACK
  else None.

(** The members of [ErrorCode] in use. *)
Definition NOT_DEFINED : Z := 0.
Definition FILE_NOT_FOUND : Z := 1.
Definition ACCESS_VIOLATION : Z := 2.

Record TFTPPacket := {
  opcode : OpCode;
  filename : string;
  mode : string;
  block_num : Z;
  data : list Z;
  error_code : Z;
  error_message : string;
  options : list (string * string)
}.

Definition packet (o : OpCode) : TFTPPacket :=
  {| opcode := o; filename := ""; mode := "octet"; block_num := 0; data := []; error_code := 0;
     error_message := ""; options := [] |}.

Inductive tftp_error : Type :=
| PacketTooShort
| BadOpcode
| StructError
| UnicodeDecodeError
| UnicodeEncodeError
| BadInteger (s : string)
| FileNotFoundError (name : string)
| PermissionError (msg : string).

Definition ascii_or_error (b : list Z) : result tftp_error string :=
  match decode_ascii b with Some s => Ok s | None => Err UnicodeDecodeError end.

(** The option loop: [parts] from index 2 on. *)
Fixpoint parse_request_options (parts : list (list Z)) (acc : list (string * string))
    : result tftp_error (list (string * string)) :=
  match parts with
  | k :: v :: parts =>
      match k with
      | [] => Ok acc
      | _ =>
          match ascii_or_error k, ascii_or_error v with
          | Ok key, Ok value => parse_request_options parts (assoc_set (lower key) value acc)
          | _, _ => Err UnicodeDecodeError
          end
      end
  | _ => Ok acc
  end.

Definition _parse_request (o : OpCode) (b : list Z) : result tftp_error TFTPPacket :=
  let parts := split_byte 0 b in
  name ← ascii_or_error (nth 0 parts []);
  mode ← (if (1 <? length parts)%nat
          then m ← ascii_or_error (nth 1 parts []); Ok (lower m) else Ok "octet");
  opts ← parse_request_options (drop 2 parts) [];
  Ok {| opcode := o; filename := name; mode := mode; block_num := 0; data := []; error_code := 0;
        error_message := ""; options := opts |}.

Definition unpack (b : list Z) : result tftp_error Z :=
  match unpack_be16 b with Some n => Ok n | None => Err StructError end.

Definition _parse_data (b : list Z) : result tftp_error TFTPPacket :=
  n ← unpack (take 2 b);
  Ok {| opcode := DATA; filename := ""; mode := "octet"; block_num := n; data := drop 2 b;
        error_code := 0; error_message := ""; options := [] |}.

Definition _parse_ack (b : list Z) : result tftp_error TFTPPacket :=
  n ← unpack (take 2 b);
  Ok {| opcode := ACK; filename := ""; mode := "octet"; block_num := n; data := [];
        error_code := 0; error_message := ""; options := [] |}.

Definition _parse_error (b : list Z) : result tftp_error TFTPPacket :=
  n ← unpack (take 2 b);
  msg ← ascii_or_error (nth 0 (split_byte 0 (drop 2 b)) []);
  Ok {| opcode := ERROR; filename := ""; mode := "octet"; block_num := 0; data := [];
        error_code := n; error_message := msg; options := [] |}.

Definition parse (b : list Z) : result tftp_error TFTPPacket :=
  if (length b <? 2)%nat then Err PacketTooShort
  else
    n ← unpack (take 2 b);
    match opcode_of n with
    | None => Err BadOpcode
    | Some RRQ => _parse_request RRQ (drop 2 b)
    | Some WRQ => _parse_request WRQ (drop 2 b)
    | Some DATA => _parse_data (drop 2 b)
    | Some ACK => _parse_ack (drop 2 b)
    | Some ERROR => _parse_error (drop 2 b)
    | Some OACK => Err BadOpcode
    end.

(** [struct.pack("!HH", opcode, n)] *)
Definition pack (o : OpCode) (n : Z) : result tftp_error (list Z) :=
  match pack_be16 n with
  | Some b => Ok ([0; opcode_value o] ++ b)%Z%list
  | None => Err StructError
  end.

Definition encode (s : string) : result tftp_error (list Z) :=
  match encode_ascii s with Some b => Ok b | None => Err UnicodeEncodeError end.

Definition build_data (block_num : Z) (b : list Z) : result tftp_error (list Z) :=
  h ← pack DATA block_num; Ok (h ++ b)%list.

Definition build_ack (block_num : Z) : result tftp_error (list Z) := pack ACK block_num.

Definition build_error (code : Z) (message : string) : result tftp_error (list Z) :=
  h ← pack ERROR code; m ← encode message; Ok (h ++ m ++ [0%Z])%list.

Fixpoint encode_pairs (opts : list (string * string)) : result tftp_error (list Z) :=
  match opts with
  | [] => Ok []
  | (k, v) :: opts =>
      bk ← encode k; bv ← encode v; rest ← encode_pairs opts;
      Ok (bk ++ [0%Z] ++ bv ++ [0%Z] ++ rest)%list
  end.

Definition build_oack (opts : list (string * string)) : result tftp_error (list Z) :=
  body ← encode_pairs opts; Ok ([0; opcode_value OACK] ++ body)%Z%list.

(** ** Files *)

Record FileSystem := {
  fs_resolve : string -> string -> string;
  fs_exists : string -> bool;
  fs_is_file : string -> bool;
  fs_content : string -> list Z
}.

Record TFTPHandler := {
  root : string;
  pi_discovery_enabled : bool;
  pi_discovery_dir : option string;
  pi_nodes_dir : option string
}.

(** ** The transfer *)

Inductive net_event : Type :=
| Datagram (b : list Z)
| SocketError          (* [error_received] *)
| ConnectionLost.

Record transfer := {
  t_last_ack : Z;
  t_done : bool;
  t_awaits : nat;                          (* awaits so far *)
  t_sent : list (list Z);                  (* datagrams sent, oldest first *)
  t_discovered : list (string * string)    (* [on_pi_discovery] calls *)
}.

Definition new_transfer : transfer :=
  {| t_last_ack := -1; t_done := false; t_awaits := 0; t_sent := []; t_discovered := [] |}.

Abbreviation TransferM A := (M transfer tftp_error A).

Definition set_done (t : transfer) : transfer :=
  {| t_last_ack := t_last_ack t; t_done := true; t_awaits := t_awaits t; t_sent := t_sent t;
     t_discovered := t_discovered t |}.

(** The callbacks: the transfer, and whether they set [ack_event]. *)
Definition datagram_received (b : list Z) (t : transfer) : transfer * bool :=
  match parse b with
  | Ok p =>
      match opcode p with
      | ACK => ({| t_last_ack := block_num p; t_done := t_done t; t_awaits := t_awaits t;
                   t_sent := t_sent t; t_discovered := t_discovered t |}, true)
      | ERROR => if (0 <=? t_last_ack t)%Z then (set_done t, true) else (t, false)
      | _ => (t, false)
      end
  | Err _ => (t, false)
  end.

Definition on_event (t : transfer) (e : net_event) : transfer * bool :=
  match e with
  | Datagram b => datagram_received b t
  | SocketError => (set_done t, true)
  | ConnectionLost => (set_done t, true)
  end.

Definition on_events (es : list net_event) (t : transfer) : transfer * bool :=
  foldl (fun tw e => let '(t, w) := on_event tw.1 e in (t, tw.2 || w)) (t, false) es.

Definition tick (t : transfer) : transfer :=
  {| t_last_ack := t_last_ack t; t_done := t_done t; t_awaits := S (t_awaits t); t_sent := t_sent t;
     t_discovered := t_discovered t |}.

Definition sendto (b : list Z) : TransferM unit :=
  modify (fun t => {| t_last_ack := t_last_ack t; t_done := t_done t; t_awaits := t_awaits t;
                      t_sent := t_sent t ++ [b]; t_discovered := t_discovered t |}).

Definition MAX_RETRIES : nat := 3.

(** [f.read(blksize)] until it returns nothing: a negative size reads all. *)
Fixpoint chunks_of (fuel n : nat) (l : list Z) : list (list Z) :=
  match fuel, l with
  | S fuel, _ :: _ => take n l :: chunks_of fuel n (drop n l)
  | _, _ => []
  end.

Definition read_chunks (blksize : Z) (content : list Z) : list (list Z) :=
  if (blksize <? 0)%Z then match content with [] => [] | _ => [content] end
  else if (blksize =? 0)%Z then []
  else chunks_of (length content) (Z.to_nat blksize) content.

Section Transfer.
Variable fs : FileSystem.
Variable h : TFTPHandler.
Variable net : list (list Z) -> nat -> list net_event.
Variable str_of : tftp_error -> string.

(** An await: the events of the meantime are handled; whether [ack_event],
    cleared before, was set. *)
Definition await : TransferM bool :=
  fun t => let '(t', woken) := on_events (net (t_sent t) (t_awaits t)) t in (Ok woken, tick t').

Definition discovered (serial boot_file : string) : TransferM unit :=
  modify (fun t => {| t_last_ack := t_last_ack t; t_done := t_done t; t_awaits := t_awaits t;
                      t_sent := t_sent t; t_discovered := t_discovered t ++ [(serial, boot_file)] |}).

(** [(dir / name).resolve()], refused when its text does not start with [dir]'s. *)
Definition guarded_resolve (dir name : string) : TransferM string :=
  let requested := fs_resolve fs dir name in
  if startswith dir requested then mret requested
  else raise (PermissionError ("Access denied: " ++ name)).

Definition _resolve_path (name0 : string) : TransferM string :=
  let name := lstrip "/"%char name0 in
  match (if pi_discovery_enabled h then pi_discovery_dir h else None), is_pi_serial_request name0 with
  | Some dir, Some (serial, boot_file) =>
      if match pi_nodes_dir h with
         | Some nodes => fs_exists fs (nodes ++ "/" ++ serial)
         | None => false
         end
      then guarded_resolve (root h) name
      else discovered serial boot_file;; guarded_resolve dir boot_file
  | _, _ => guarded_resolve (root h) name
  end.

(** [read_file] up to its first [read]. *)
Definition open_file (name : string) : TransferM (list Z) :=
  path ← _resolve_path name;
  if negb (fs_exists fs path) then raise (FileNotFoundError name)
  else if negb (fs_is_file fs path) then raise (PermissionError ("Not a file: " ++ name))
  else mret (fs_content fs path).

Definition get_file_size (name : string) : TransferM Z :=
  path ← _resolve_path name;
  if negb (fs_exists fs path) then raise (FileNotFoundError name)
  else mret (Z.of_nat (length (fs_content fs path))).

Fixpoint ack_rounds (rounds : nat) (expected_block : Z) : TransferM bool :=
  match rounds with
  | O => mret false
  | S rounds =>
      woken ← await;
      t ← get_state;
      if negb woken then ack_rounds rounds expected_block
      else if t_done t then mret false
      else if (t_last_ack t =? expected_block)%Z then mret true
      else ack_rounds rounds expected_block
  end.

Definition wait_for_ack (expected_block : Z) : TransferM bool := ack_rounds MAX_RETRIES expected_block.

(** Sending one packet until it is acknowledged; [false] when the retries are used up. *)
Fixpoint send_until_acked (retries : nat) (b : list Z) (block : Z) : TransferM bool :=
  match retries with
  | O => mret false
  | S retries =>
      sendto b;;
      ok ← wait_for_ack block;
      if (ok : bool) then mret true else send_until_acked retries b block
  end.

(** The [async for]: each [read] is an await. The answer is the number of the
    next block and the last chunk, [None] when a block was not acknowledged. *)
Fixpoint send_chunks (block : Z) (last : list Z) (chunks : list (list Z))
    : TransferM (option (Z * list Z)) :=
  await;;
  match chunks with
  | [] => mret (Some (block, last))
  | chunk :: chunks =>
      b ← lift_result (build_data block chunk);
      ok ← send_until_acked MAX_RETRIES b block;
      if (ok : bool) then send_chunks (block + 1) chunk chunks else mret None
  end.

(** The options of the request: the block size, the options acknowledged. *)
Definition negotiate (name : string) (opts : list (string * string))
    : TransferM (Z * list (string * string)) :=
  ack ← match assoc_get "tsize" opts with
        | None => mret []
        | Some _ =>
            catch (n ← get_file_size name; mret [("tsize", pretty n)])
              (fun e => match e with FileNotFoundError _ => mret [] | e => raise e end)
        end;
  match assoc_get "blksize" opts with
  | None => mret (DEFAULT_BLKSIZE, ack)
  | Some v =>
      match py_int v with
      | None => raise (BadInteger v)
      | Some requested =>
          let blksize := Z.min requested MAX_BLKSIZE in
          mret (blksize, assoc_set "blksize" (pretty blksize) ack)
      end
  end.

Definition send_data (name : string) (blksize : Z) : TransferM bool :=
  content ← open_file name;
  r ← send_chunks 1 [] (read_chunks (Z.min blksize MAX_BLKSIZE) content);
  match r with
  | None => mret false
  | Some (block, last) =>
      if (Z.of_nat (length last) =? blksize)%Z then
        b ← lift_result (build_data block []);
        sendto b;;
        wait_for_ack block;;
        mret true
      else mret true
  end.

Definition try_send (name : string) (opts : list (string * string)) : TransferM bool :=
  match opts with
  | [] => send_data name DEFAULT_BLKSIZE
  | _ =>
      '(blksize, oack) ← negotiate name opts;
      match oack with
      | [] => send_data name blksize
      | _ =>
          b ← lift_result (build_oack oack);
          sendto b;;
          ok ← wait_for_ack 0;
          if (ok : bool) then send_data name blksize else mret false
      end
  end.

Definition send_error (code : Z) (message : string) : TransferM bool :=
  b ← lift_result (build_error code message); sendto b;; mret false.

Definition send_file (name : string) (opts : list (string * string)) : TransferM bool :=
  catch (try_send name opts)
    (fun e => match e with
              | FileNotFoundError _ => send_error FILE_NOT_FOUND "File not found"
              | PermissionError m => send_error ACCESS_VIOLATION m
              | e => send_error NOT_DEFINED (str_of e)
              end).
End Transfer.

(** ** The server socket *)

Inductive server_action : Type :=
| StartTransfer (name : string) (opts : list (string * string))
| SendError (b : list Z)
| Nothing
| Raised (e : tftp_error).

Definition error_action (code : Z) (message : string) : server_action :=
  match build_error code message with Ok b => SendError b | Err e => Raised e end.

(** [TFTPServerProtocol.datagram_received] *)
Definition server_datagram_received (str_of : tftp_error -> string) (b : list Z) : server_action :=
  match parse b with
  | Ok p =>
      match opcode p with
      | RRQ => StartTransfer (filename p) (options p)
      | WRQ => error_action ACCESS_VIOLATION "Write not supported"
      | _ => Nothing
      end
  | Err e => error_action NOT_DEFINED (str_of e)
  end.

(** ** Round trips *)

(** A string that is ASCII and holds no zero byte. *)
Definition clean (s : string) : Prop := exists b, encode_ascii s = Some b /\ (0%Z ∉ b).

Definition wire (s : string) : list Z := default [] (encode_ascii s).

(** A request as a client writes it. *)
Definition encode_request (o : OpCode) (name md : string) (opts : list (string * string)) : list Z :=
  ([0; opcode_value o]%Z ++ wire name ++ [0%Z] ++ wire md ++ [0%Z]
   ++ concat (map (fun kv => wire kv.1 ++ [0%Z] ++ wire kv.2 ++ [0%Z]) opts))%list.

Lemma clean_wire s : clean s -> encode_ascii s = Some (wire s) /\ (0%Z ∉ wire s) /\ decode_ascii (wire s) = Some s.
Proof.
  intros (b & He & Hb). unfold wire. rewrite He. cbn. split_and!; [done..|]. by apply decode_encode_ascii.
Qed.

Lemma split_wire s l : clean s -> split_byte 0 (wire s ++ 0%Z :: l) = wire s :: split_byte 0 l.
Proof. intros (_ & H & _)%clean_wire. by apply split_byte_app. Qed.

Lemma parse_options_wire opts acc :
  Forall (fun kv => kv.1 <> "" /\ clean kv.1 /\ clean kv.2) opts ->
  parse_request_options
    (split_byte 0 (concat (map (fun kv => wire kv.1 ++ [0%Z] ++ wire kv.2 ++ [0%Z])%list opts))) acc
  = Ok (foldl (fun acc kv => assoc_set (lower kv.1) kv.2 acc) acc opts).
Proof.
  intros H. revert acc. induction H as [|[k v] opts (Hk & Hck & Hcv) Hopts IH]; intros acc; [done|].
  cbn [map concat foldl fst snd] in *. repeat (rewrite <- app_assoc; cbn [app]).
  rewrite !split_wire by done.
  cbn [parse_request_options].
  destruct (clean_wire k Hck) as (_ & _ & Hdk). destruct (clean_wire v Hcv) as (_ & _ & Hdv).
  destruct (wire k) as [|x wk] eqn:Ek; [cbn in Hdk; congruence|].
  unfold ascii_or_error. rewrite Hdk, Hdv. apply IH.
Qed.

Lemma pack_ok o n : (0 <= n < 65536)%Z -> pack o n = Ok [0; opcode_value o; n / 256; n mod 256]%Z.
Proof. intros Hn. unfold pack. by rewrite pack_be16_Some. Qed.

Lemma unpack_ok n : (0 <= n < 65536)%Z -> unpack [n / 256; n mod 256]%Z = Ok n.
Proof.
  intros Hn. unfold unpack. rewrite unpack_be16_bytes.
  - f_equal. pose proof (Z.div_mod n 256). lia.
  - apply Z.div_pos; lia.
  - apply Z.mod_pos_bound. lia.
Qed.

(** packets survive the wire. DATA, ACK and ERROR packets parse back to the block number, data, code
    and message they were built from, for every 16-bit number; a number out of that range is
    refused, not wrapped; and a read or write request as a client writes it parses to its file name,
    its mode in lower case, and its options under lower-case names, the last value of each. *)
Theorem tftp_roundtrip :
  (forall n b, (0 <= n < 65536)%Z ->
    exists w, build_data n b = Ok w
      /\ parse w = Ok {| opcode := DATA; filename := ""; mode := "octet"; block_num := n; data := b;
                         error_code := 0; error_message := ""; options := [] |})
  /\ (forall n, (0 <= n < 65536)%Z ->
    exists w, build_ack n = Ok w
      /\ parse w = Ok {| opcode := ACK; filename := ""; mode := "octet"; block_num := n; data := [];
                         error_code := 0; error_message := ""; options := [] |})
  /\ (forall n msg, (0 <= n < 65536)%Z -> clean msg ->
    exists w, build_error n msg = Ok w
      /\ parse w = Ok {| opcode := ERROR; filename := ""; mode := "octet"; block_num := 0; data := [];
                         error_code := n; error_message := msg; options := [] |})
  /\ (forall n b, (n < 0 \/ 65536 <= n)%Z -> build_data n b = Err StructError)
  /\ (forall o name md opts, o = RRQ \/ o = WRQ -> clean name -> clean md ->
        Forall (fun kv => kv.1 <> "" /\ clean kv.1 /\ clean kv.2) opts ->
      parse (encode_request o name md opts)
      = Ok {| opcode := o; filename := name; mode := lower md; block_num := 0; data := [];
              error_code := 0; error_message := "";
              options := foldl (fun acc kv => assoc_set (lower kv.1) kv.2 acc) [] opts |}).
Proof.
  split_and!.
  - intros n b Hn. unfold build_data, mbind, result_bind. rewrite pack_ok by done.
    eexists. split; [reflexivity|]. unfold parse, mbind, result_bind. cbn -[unpack Z.div Z.modulo].
    change (unpack [0%Z; 3%Z]) with (Ok 3%Z : result tftp_error Z). cbn -[unpack Z.div Z.modulo].
    unfold _parse_data, mbind, result_bind. cbn -[unpack Z.div Z.modulo]. by rewrite unpack_ok.
  - intros n Hn. unfold build_ack. rewrite pack_ok by done.
    eexists. split; [reflexivity|]. unfold parse, mbind, result_bind. cbn -[unpack Z.div Z.modulo].
    change (unpack [0%Z; 4%Z]) with (Ok 4%Z : result tftp_error Z). cbn -[unpack Z.div Z.modulo].
    unfold _parse_ack, mbind, result_bind. cbn -[unpack Z.div Z.modulo]. by rewrite unpack_ok.
  - intros n msg Hn Hm. unfold build_error, mbind, result_bind. rewrite pack_ok by done.
    pose proof (split_wire msg [] Hm) as Hsp. destruct (clean_wire msg Hm) as (He & H0 & Hd).
    unfold encode. rewrite He. eexists. split; [reflexivity|].
    unfold parse, mbind, result_bind. cbn -[unpack Z.div Z.modulo split_byte].
    change (unpack [0%Z; 5%Z]) with (Ok 5%Z : result tftp_error Z). cbn -[unpack Z.div Z.modulo split_byte].
    unfold _parse_error, mbind, result_bind. cbn -[unpack Z.div Z.modulo split_byte]. rewrite unpack_ok by done.
    rewrite drop_0, Hsp. cbn. unfold ascii_or_error. by rewrite Hd.
  - intros n b Hn. unfold build_data, pack, pack_be16, mbind, result_bind.
    destruct (Z.leb_spec 0 n), (Z.ltb_spec n 65536); try done. lia.
  - intros o name md opts Ho Hname Hmd Hopts.
    assert (Hp : parse (encode_request o name md opts)
                 = _parse_request o (drop 2 (encode_request o name md opts))) by (by destruct Ho as [->| ->]).
    rewrite Hp. unfold encode_request, _parse_request. cbn [app]. rewrite !skipn_cons, drop_0.
    rewrite split_wire, split_wire by done. rewrite !skipn_cons, drop_0. cbn [nth length Nat.ltb Nat.leb].
    unfold ascii_or_error, mbind, result_bind. destruct (clean_wire name Hname) as (_ & _ & ->).
    destruct (clean_wire md Hmd) as (_ & _ & ->).
    pose proof (parse_options_wire opts [] Hopts) as Hpo. cbn [app] in Hpo. by rewrite Hpo.
Qed.

Lemma tftp_roundtrip_witness :
  parse (encode_request RRQ "uefi/ipxe.efi" "OCTET" [("BlkSize", "1432"); ("tsize", "0")])
  = Ok {| opcode := RRQ; filename := "uefi/ipxe.efi"; mode := "octet"; block_num := 0; data := [];
          error_code := 0; error_message := "";
          options := [("blksize", "1432"); ("tsize", "0")] |}.
Proof.
  assert (Hc : forall s, match encode_ascii s with
                         | Some b => forallb (fun x => negb (Z.eqb x 0)) b | None => false end = true -> clean s).
  { intros s H. destruct (encode_ascii s) as [b|] eqn:E; [|discriminate H]. exists b. split; [exact E|].
    intros Hin. rewrite forallb_forall in H. apply list_elem_of_In, H in Hin. discriminate Hin. }
  apply (proj2 (proj2 (proj2 (proj2 tftp_roundtrip))) RRQ "uefi/ipxe.efi" "OCTET").
  - left. reflexivity.
  - apply Hc. reflexivity.
  - apply Hc. reflexivity.
  - repeat (apply Forall_cons; split; [split; [discriminate|split; apply Hc; reflexivity]|]). apply Forall_nil_2.
Defined.

(** ** Lockstep *)

Definition data_packet (n : Z) (b : list Z) : list Z := ([0; 3; n / 256; n mod 256]%Z ++ b)%list.

Lemma build_data_ok n b : (0 <= n < 65536)%Z -> build_data n b = Ok (data_packet n b).
Proof. intros Hn. unfold build_data, mbind, result_bind. by rewrite pack_ok. Qed.

(** What arrives in the [a]-th await, when [sent] has been sent, has an acknowledgement of [block]. *)
Definition acknowledged (net : list (list Z) -> nat -> list net_event) (sent : list (list Z)) (a : nat) (block : Z) : Prop :=
  exists b p, Datagram b ∈ net sent a /\ parse b = Ok p /\ opcode p = ACK /\ block_num p = block.

(** What may be on the wire for the blocks from [block] on, when [before] has been sent and [a] awaits are over: every block is sent
    at least once and at most [MAX_RETRIES] times; the next one only after an acknowledgement of it has arrived since it was last sent; and
    a block given up on was sent [MAX_RETRIES] times and is the last.  [e] awaits are over at the end. *)
Inductive lockstep (net : list (list Z) -> nat -> list net_event) : list (list Z) -> nat -> Z -> list (list Z) -> list (list Z) -> bool -> nat -> Prop :=
| ls_end before a block e : (a <= e)%nat -> lockstep net before a block [] [] true e
| ls_block before a block c cs n k a' sent ok e :
    (1 <= n <= MAX_RETRIES)%nat -> let after := (before ++ repeat (data_packet block c) n)%list in
    (a <= k < a')%nat -> acknowledged net after k block -> lockstep net after a' (block + 1) cs sent ok e ->
    lockstep net before a block (c :: cs) (repeat (data_packet block c) n ++ sent) ok e
| ls_give_up before a block c cs e : (a <= e)%nat ->
    lockstep net before a block (c :: cs) (repeat (data_packet block c) MAX_RETRIES) false e.

Lemma on_event_sent t e : t_sent (on_event t e).1 = t_sent t.
Proof.
  destruct e as [b| |]; [|done..]. cbn. unfold datagram_received.
  destruct (parse b) as [p|]; [|done]. destruct (opcode p); try done. by destruct (0 <=? t_last_ack t)%Z.
Qed.

Lemma on_events_sent es t : t_sent (on_events es t).1 = t_sent t.
Proof.
  unfold on_events. change (t_sent t) with (t_sent (t, false).1). generalize (t, false) as tw.
  induction es as [|e es IH]; intros tw; [done|]. cbn [foldl]. rewrite IH.
  pose proof (on_event_sent tw.1 e) as H. by destruct (on_event tw.1 e).
Qed.

Lemma on_events_awaits es t : t_awaits (on_events es t).1 = t_awaits t.
Proof.
  unfold on_events. change (t_awaits t) with (t_awaits (t, false).1). generalize (t, false) as tw.
  induction es as [|e es IH]; intros tw; [done|]. cbn [foldl]. rewrite IH.
  assert (t_awaits (on_event tw.1 e).1 = t_awaits tw.1) as H; [|by destruct (on_event tw.1 e)].
  destruct e as [b| |]; [|done..]. cbn. unfold datagram_received.
  destruct (parse b) as [p|]; [|done]. destruct (opcode p); try done. by destruct (0 <=? t_last_ack _)%Z.
Qed.

(** What wakes a transfer that goes on is an acknowledgement, and the last one counts. *)
Lemma on_events_ack es t : let '(t', woken) := on_events es t in woken = true -> t_done t' = false ->
  exists b p, Datagram b ∈ es /\ parse b = Ok p /\ opcode p = ACK /\ block_num p = t_last_ack t'.
Proof.
  induction es as [|e es IH] using rev_ind; [done|]. unfold on_events in *. rewrite foldl_app. cbn [foldl].
  destruct (foldl _ (t, false) es) as [t1 w1]. cbn [fst snd].
  assert (forall w2, w1 || w2 = true -> t_done t1 = false -> w2 = false ->
    exists b p, Datagram b ∈ (es ++ [e])%list /\ parse b = Ok p /\ opcode p = ACK /\ block_num p = t_last_ack t1) as Hold.
  { intros w2 Hw Hd ->. rewrite orb_false_r in Hw. destruct (IH Hw Hd) as (b & p & Hin & H). exists b, p. split; [|done]. apply elem_of_app. by left. }
  destruct e as [b| |]; cbn [on_event set_done t_done]; [|done..]. unfold datagram_received.
  destruct (parse b) as [p|] eqn:Ep; [|by intros; apply (Hold false)].
  destruct (opcode p) eqn:Eo; try by intros; apply (Hold false).
  - intros _ _. exists b, p. split; [apply elem_of_app; right; by apply list_elem_of_singleton|done].
  - destruct (0 <=? t_last_ack t1)%Z; [done|]. by intros; apply (Hold false).
Qed.

Section Safety.
Variable fs : FileSystem.
Variable h : TFTPHandler.
Variable net : list (list Z) -> nat -> list net_event.

Lemma await_sent t : exists w t', await net t = (Ok w, t') /\ t_sent t' = t_sent t /\ t_awaits t' = S (t_awaits t)
  /\ (w = true -> t_done t' = false -> acknowledged net (t_sent t) (t_awaits t) (t_last_ack t')).
Proof.
  unfold await. pose proof (on_events_sent (net (t_sent t) (t_awaits t)) t) as H. pose proof (on_events_awaits (net (t_sent t) (t_awaits t)) t) as Hw.
  pose proof (on_events_ack (net (t_sent t) (t_awaits t)) t) as Ha.
  destruct (on_events _ t) as [t' w]. exists w, (tick t'). cbn in *. by rewrite Hw.
Qed.

Lemma ack_rounds_sent n block t :
  exists ok t', ack_rounds net n block t = (Ok ok, t') /\ t_sent t' = t_sent t /\ (t_awaits t <= t_awaits t')%nat
    /\ (ok = true -> exists k, (t_awaits t <= k < t_awaits t')%nat /\ acknowledged net (t_sent t) k block).
Proof.
  revert t. induction n as [|n IH]; intros t; cbn [ack_rounds]; [by exists false, t|].
  destruct (await_sent t) as (w & t1 & Ha & Hs & Hw & Hk). unfold_M. rewrite Ha.
  assert (exists ok t', ack_rounds net n block t1 = (Ok ok, t') /\ t_sent t' = t_sent t /\ (t_awaits t <= t_awaits t')%nat
    /\ (ok = true -> exists k, (t_awaits t <= k < t_awaits t')%nat /\ acknowledged net (t_sent t) k block)) as Hlater.
  { destruct (IH t1) as (ok & t' & E & Hs' & Hw' & Hok). exists ok, t'. rewrite Hs in *. split_and!; [done|done|lia|].
    intros H. destruct (Hok H) as (k & ? & ?). exists k. split; [lia|done]. }
  destruct w; cbn [negb]; [|exact Hlater]. destruct (t_done t1) eqn:Ed; [exists false, t1; split_and!; [done|done|lia|done]|].
  destruct (Z.eqb_spec (t_last_ack t1) block) as [<-|]; [|exact Hlater].
  exists true, t1. split_and!; [done|done|lia|]. intros _. exists (t_awaits t). split; [lia|]. by apply Hk.
Qed.

Lemma send_until_acked_spec n b block t :
  exists ok k t', send_until_acked net n b block t = (Ok ok, t')
    /\ t_sent t' = (t_sent t ++ repeat b k)%list /\ (k <= n)%nat /\ (t_awaits t <= t_awaits t')%nat
    /\ (if ok then (1 <= k)%nat /\ exists i, (t_awaits t <= i < t_awaits t')%nat /\ acknowledged net (t_sent t') i block else k = n).
Proof.
  revert t. induction n as [|n IH]; intros t; cbn [send_until_acked].
  { exists false, 0%nat, t. cbn. by rewrite app_nil_r. }
  unfold sendto, wait_for_ack. unfold_M.
  set (t1 := {| t_last_ack := t_last_ack t |}).
  destruct (ack_rounds_sent MAX_RETRIES block t1) as (ok & t2 & -> & Hs & Hw & Hok). change (t_awaits t1) with (t_awaits t) in *. destruct ok.
  - exists true, 1%nat, t2. rewrite Hs. split_and!; [done|done|lia|done|lia|by apply Hok].
  - destruct (IH t2) as (ok & k & t3 & -> & Hs3 & Hk & Hw3 & Hok3). exists ok, (S k), t3.
    split; [done|]. rewrite Hs3 in *. rewrite Hs. cbn [t1 t_sent repeat]. rewrite <- app_assoc.
    split_and!; [done|lia|lia|]. destruct ok; [|lia]. destruct Hok3 as (H1 & i & Hi & Ha). split; [lia|]. exists i. split; [lia|].
    rewrite Hs in Ha. cbn [t1 t_sent] in Ha. by rewrite <- app_assoc in Ha.
Qed.

Lemma send_chunks_spec chunks block last t :
  (0 <= block)%Z -> (block + Z.of_nat (length chunks) <= 65536)%Z ->
  exists r sent t', send_chunks net block last chunks t = (Ok r, t')
    /\ t_sent t' = (t_sent t ++ sent)%list
    /\ lockstep net (t_sent t) (t_awaits t) block chunks sent (match r with Some _ => true | None => false end) (t_awaits t')
    /\ match r with
       | Some (b, l) => b = (block + Z.of_nat (length chunks))%Z /\ l = List.last chunks last
       | None => True
       end.
Proof.
  revert block last t. induction chunks as [|c cs IH]; intros block last t Hb Hn; cbn [send_chunks];
    destruct (await_sent t) as (w & t1 & Ha & Hs & Hw & _).
  - unfold_M. rewrite Ha.
    exists (Some (block, last)), [], t1. rewrite app_nil_r. split_and!; try done; [constructor; lia|]. cbn [length]. lia.
  - cbn [length] in Hn. unfold_M.
    rewrite Ha, build_data_ok by lia.
    destruct (send_until_acked_spec MAX_RETRIES (data_packet block c) block t1)
      as (ok & k & t2 & -> & Hs2 & Hk & Hw2 & Hok). rewrite Hs in Hs2. destruct ok.
    + destruct Hok as (Hk1 & i & Hi & Hack).
      destruct (IH (block + 1)%Z c t2) as (r & sent & t3 & -> & Hs3 & Hl & Hr); [lia..|].
      exists r, (repeat (data_packet block c) k ++ sent)%list, t3. rewrite Hs2 in *.
      rewrite Hs3, <- app_assoc. split_and!; try done.
      * apply (ls_block net _ _ _ _ _ _ i (t_awaits t2)); [lia|lia|done|done].
      * destruct r as [[b l]|]; [|done]. destruct Hr as [-> ->]. cbn [length]. split; [lia|].
        destruct cs as [|c' cs]; [done|]. cbn [List.last]. clear. revert c'.
        induction cs as [|c2 cs IH]; intros c'; [done|]. apply IH.
    + exists None, (repeat (data_packet block c) MAX_RETRIES), t2.
      rewrite Hs2, Hok. split_and!; try done. constructor. lia.
Qed.
End Safety.

(** *** Blocks of a file *)

Lemma chunks_of_spec fuel n l :
  (0 < n)%nat -> (length l <= fuel)%nat ->
  concat (chunks_of fuel n l) = l
  /\ Forall (fun c => (0 < length c <= n)%nat) (chunks_of fuel n l)
  /\ (forall pre c c' post, chunks_of fuel n l = (pre ++ c :: c' :: post)%list -> length c = n).
Proof.
  intros Hn. revert l. induction fuel as [|fuel IH]; intros [|x l] Hl; cbn [chunks_of length] in *;
    try lia; try (split_and!; [done|constructor|intros [|? [|? ?]]; discriminate]).
  destruct (IH (drop n (x :: l))) as (Hc & Hf & Hpre). { rewrite length_drop. cbn [length]. lia. }
  split_and!.
  - cbn [concat]. rewrite Hc. apply take_drop.
  - constructor; [rewrite length_take; cbn [length]; lia|done].
  - intros [|p pre] c c' post E.
    + injection E as <- E. rewrite length_take. destruct (Nat.le_gt_cases n (length (x :: l))); [lia|].
      rewrite drop_ge in E by lia. by destruct fuel.
    + injection E as _ E. by eapply Hpre.
Qed.

Lemma read_chunks_spec blksize content :
  (0 < blksize)%Z ->
  concat (read_chunks blksize content) = content
  /\ Forall (fun c => (0 < Z.of_nat (length c) <= blksize)%Z) (read_chunks blksize content)
  /\ (forall pre c c' post, read_chunks blksize content = (pre ++ c :: c' :: post)%list ->
        Z.of_nat (length c) = blksize).
Proof.
  intros Hb. unfold read_chunks. destruct (Z.ltb_spec blksize 0); [lia|]. destruct (Z.eqb_spec blksize 0); [lia|].
  destruct (chunks_of_spec (length content) (Z.to_nat blksize) content) as (H1 & H2 & H3); [lia..|].
  split_and!; [done| |].
  - eapply Forall_impl; [exact H2|]. cbn. lia.
  - intros pre c c' post E%H3. lia.
Qed.

(** The packet that ends a file whose last block is full. *)
Definition closing (blksize : Z) (chunks : list (list Z)) : list (list Z) :=
  if (Z.of_nat (length (List.last chunks [])) =? blksize)%Z
  then [data_packet (1 + Z.of_nat (length chunks)) []] else [].

(** C10: the transfer is lockstep on any network, whatever is lost, repeated, reordered or forged. Once
    the file is open, the blocks of the file, whose concatenation is its content, are sent in order
    from number 1; each is sent between once and three times; the next one only when a datagram that acknowledges it has
    arrived since it was last sent; a block never acknowledged ends the transfer with failure after its third sending; and the empty closing
    packet is sent only after every block, when the last one was full. *)
Theorem transfer_is_lockstep (fs : FileSystem) (h : TFTPHandler) (net : list (list Z) -> nat -> list net_event)
    (name : string) (blksize : Z) (content : list Z) (t t1 : transfer)
    (Hopen : open_file fs h name t = (Ok content, t1)) (Hblk : (0 < blksize <= MAX_BLKSIZE)%Z)
    (Hsize : (Z.of_nat (length (read_chunks blksize content)) < 65535)%Z) :
  exists ok blocks t', send_data fs h net name blksize t = (Ok ok, t')
    /\ t_sent t' = (t_sent t1 ++ blocks
                     ++ if (ok : bool) then closing blksize (read_chunks blksize content) else [])%list
    /\ (exists e, (e <= t_awaits t')%nat /\ lockstep net (t_sent t1) (t_awaits t1) 1 (read_chunks blksize content) blocks ok e)
    /\ concat (read_chunks blksize content) = content.
Proof.
  unfold send_data. unfold_M. rewrite Hopen, Z.min_l by lia.
  destruct (send_chunks_spec net (read_chunks blksize content) 1 [] t1) as (r & sent & t2 & -> & Hs & Hl & Hr); [lia..|].
  pose proof (proj1 (read_chunks_spec blksize content (proj1 Hblk))) as Hcat.
  destruct r as [[b l]|].
  - destruct Hr as [-> ->]. unfold closing. destruct (_ =? blksize)%Z.
    + rewrite build_data_ok by lia. unfold sendto, wait_for_ack. unfold_M.
      set (t3 := {| t_last_ack := t_last_ack t2 |}).
      destruct (ack_rounds_sent net MAX_RETRIES (1 + Z.of_nat (length (read_chunks blksize content))) t3)
        as (ok & t4 & -> & Hs4 & Hw4 & _).
      exists true, sent, t4. rewrite Hs4. cbn [t3 t_sent]. rewrite Hs, <- app_assoc. split_and!; try done. by exists (t_awaits t2).
    + exists true, sent, t2. rewrite Hs, app_nil_r. split_and!; try done. by exists (t_awaits t2).
  - exists false, sent, t2. rewrite Hs, app_nil_r. split_and!; try done. by exists (t_awaits t2).
Qed.

(** A file system of one directory. *)
Definition fs1 (content : list Z) : FileSystem :=
  {| fs_resolve := fun dir name => dir ++ "/" ++ name; fs_exists := String.eqb "/srv/tftp/boot.img";
     fs_is_file := fun _ => true; fs_content := fun _ => content |}.
Definition handler1 : TFTPHandler :=
  {| root := "/srv/tftp"; pi_discovery_enabled := false; pi_discovery_dir := None; pi_nodes_dir := None |}.

(** A client that acknowledges the first block, and then nothing. *)
Definition one_ack (sent : list (list Z)) (_ : nat) : list net_event :=
  match sent with [_] => [Datagram [0; 4; 0; 1]%Z] | _ => [] end.

Lemma transfer_is_lockstep_witness :
  exists ok blocks t' e, send_data (fs1 [1; 2; 3]%Z) handler1 one_ack "boot.img" 2 new_transfer = (Ok ok, t')
    /\ length (t_sent t') = 4%nat /\ lockstep one_ack [] 0 1 [[1; 2]; [3]]%Z blocks ok e.
Proof.
  destruct (transfer_is_lockstep (fs1 [1; 2; 3]%Z) handler1 one_ack "boot.img" 2 [1; 2; 3]%Z
              new_transfer new_transfer) as (ok & blocks & t' & H1 & _ & (e & _ & H2) & _).
  - reflexivity.
  - split; [reflexivity|discriminate].
  - reflexivity.
  - exists ok, blocks, t', e. split; [exact H1|]. split; [|exact H2]. vm_compute in H1. injection H1 as _ <-. reflexivity.
Defined.

(** ** Delivery *)

Definition ack_packet (n : Z) : list Z := [0; 4; n / 256; n mod 256]%Z.

(** The block a client acknowledges: the number of a DATA packet, 0 for an OACK. *)
Definition acked_block (sent : list (list Z)) : Z :=
  match List.last sent [] with
  | 0 :: 3 :: h :: l :: _ => h * 256 + l
  | _ => 0
  end%Z.

(** A client that acknowledges the last packet sent within three time-outs and
    sends nothing else; acknowledgements may come twice. *)
Definition answers (net : list (list Z) -> nat -> list net_event) : Prop :=
  forall sent a,
    (net sent a = [] \/ net sent a = [Datagram (ack_packet (acked_block sent))])
    /\ exists i, (i < 3)%nat /\ net sent (a + i)%nat = [Datagram (ack_packet (acked_block sent))].

(** The block size and the options a request agrees on. *)
Definition agreed (size : Z) (opts : list (string * string)) : option (Z * list (string * string)) :=
  let ack := match assoc_get "tsize" opts with Some _ => [("tsize", pretty size)] | None => [] end in
  match assoc_get "blksize" opts with
  | None => Some (DEFAULT_BLKSIZE, ack)
  | Some v =>
      match py_int v with
      | None => None
      | Some r => let b := Z.min r MAX_BLKSIZE in Some (b, assoc_set "blksize" (pretty b) ack)
      end
  end.

Fixpoint data_packets (block : Z) (chunks : list (list Z)) : list (list Z) :=
  match chunks with
  | [] => []
  | c :: cs => data_packet block c :: data_packets (block + 1) cs
  end.

Lemma acked_data sent n b : (0 <= n < 65536)%Z -> acked_block (sent ++ [data_packet n b])%list = n.
Proof.
  intros Hn. unfold acked_block. rewrite List.last_last. unfold data_packet. cbn [app].
  pose proof (Z.div_mod n 256). lia.
Qed.

Lemma on_ack n t :
  (0 <= n < 65536)%Z -> t_done t = false ->
  on_events [Datagram (ack_packet n)] t
  = ({| t_last_ack := n; t_done := false; t_awaits := t_awaits t; t_sent := t_sent t;
        t_discovered := t_discovered t |}, true).
Proof.
  intros Hn Hd. unfold on_events, on_event, datagram_received. cbn [foldl fst snd].
  assert (parse (ack_packet n) = Ok {| opcode := ACK; filename := ""; mode := "octet"; block_num := n; data := [];
            error_code := 0; error_message := ""; options := [] |}) as ->.
  { unfold parse, mbind, result_bind, ack_packet. cbn -[unpack Z.div Z.modulo].
    change (unpack [0%Z; 4%Z]) with (Ok 4%Z : result tftp_error Z). cbn -[unpack Z.div Z.modulo].
    unfold _parse_ack, mbind, result_bind. cbn -[unpack Z.div Z.modulo]. by rewrite unpack_ok. }
  cbn. by rewrite Hd.
Qed.

Section Delivery.
Variable fs : FileSystem.
Variable h : TFTPHandler.
Variable net : list (list Z) -> nat -> list net_event.
Hypothesis Hnet : answers net.

(** A transfer in progress whose last packet has a 16-bit number. *)
Definition live (t : transfer) : Prop := t_done t = false /\ (0 <= acked_block (t_sent t) < 65536)%Z.

Lemma await_live t :
  live t -> exists w t', await net t = (Ok w, t') /\ live t' /\ t_sent t' = t_sent t
    /\ t_awaits t' = S (t_awaits t)
    /\ (w = false <-> net (t_sent t) (t_awaits t) = [])
    /\ (w = true -> t_last_ack t' = acked_block (t_sent t)).
Proof.
  intros [Hd Hb]. unfold await. destruct (Hnet (t_sent t) (t_awaits t)) as [[E|E] _]; rewrite E.
  - exists false, (tick t). cbn. split_and!; try done.
  - rewrite on_ack by done. do 2 eexists. split; [reflexivity|]. cbn. split_and!; try done.
Qed.

Lemma ack_rounds_live n block t :
  live t -> block = acked_block (t_sent t) ->
  (exists i, (i < n)%nat /\ net (t_sent t) (t_awaits t + i)%nat <> []) ->
  exists t', ack_rounds net n block t = (Ok true, t') /\ live t' /\ t_sent t' = t_sent t.
Proof.
  revert t. induction n as [|n IH]; intros t Hl Hb (i & Hi & Hne); [lia|]. cbn [ack_rounds]. unfold_M.
  destruct (await_live t Hl) as (w & t1 & Ha & Hl1 & Hs1 & Hw1 & Hnil & Hack). rewrite Ha.
  destruct w; cbn [negb].
  - rewrite (proj1 Hl1), (Hack eq_refl), <- Hb, Z.eqb_refl. by exists t1.
  - destruct (IH t1 Hl1) as (t2 & He & Hl2 & Hs2); [by rewrite Hs1| |].
    + destruct i as [|i]; [rewrite Nat.add_0_r in Hne; destruct Hne; by apply Hnil|].
      exists i. split; [lia|]. rewrite Hs1, Hw1. by replace (S (t_awaits t) + i)%nat with (t_awaits t + S i)%nat by lia.
    + exists t2. by rewrite Hs2.
Qed.

Lemma wait_live block t :
  live t -> block = acked_block (t_sent t) ->
  exists t', wait_for_ack net block t = (Ok true, t') /\ live t' /\ t_sent t' = t_sent t.
Proof.
  intros Hl Hb. apply ack_rounds_live; [done..|].
  destruct (Hnet (t_sent t) (t_awaits t)) as [_ (i & Hi & E)]. exists i. by rewrite E.
Qed.

(** Sending [b] and waiting for the acknowledgement of what it carries. *)
Lemma send_and_wait b block t :
  t_done t = false -> block = acked_block (t_sent t ++ [b])%list -> (0 <= block < 65536)%Z ->
  exists t', wait_for_ack net block (sendto b t).2 = (Ok true, t') /\ live t'
    /\ t_sent t' = (t_sent t ++ [b])%list.
Proof.
  intros Hd Hb Hr. destruct (wait_live block (sendto b t).2) as (t' & ? & ? & Hs).
  - split; [done|]. cbn. by rewrite <- Hb.
  - done.
  - exists t'. by rewrite Hs.
Qed.

Lemma send_chunks_live chunks block last t :
  live t -> (0 <= block)%Z -> (block + Z.of_nat (length chunks) <= 65536)%Z ->
  exists t', send_chunks net block last chunks t
             = (Ok (Some (block + Z.of_nat (length chunks), List.last chunks last))%Z, t')
    /\ live t' /\ t_sent t' = (t_sent t ++ data_packets block chunks)%list.
Proof.
  revert block last t. induction chunks as [|c cs IH]; intros block last t Hl Hb Hn; cbn [send_chunks];
    destruct (await_live t Hl) as (w & t1 & Ha & Hl1 & Hs1 & _); unfold_M; rewrite Ha.
  - exists t1. cbn [data_packets]. rewrite app_nil_r. split_and!; try done. f_equal. f_equal. f_equal. f_equal. cbn. lia.
  - cbn [length] in Hn. rewrite build_data_ok by lia. unfold MAX_RETRIES. cbn [send_until_acked].
    destruct (send_and_wait (data_packet block c) block t1) as (t2 & Hw & Hl2 & Hs2);
      [apply Hl1|by rewrite acked_data by lia|lia|].
    unfold sendto in *. unfold_M. cbn [snd] in Hw. rewrite Hw.
    destruct (IH (block + 1)%Z c t2 Hl2) as (t3 & He & Hl3 & Hs3); [lia..|]. rewrite He.
    exists t3. rewrite Hs3, Hs2, Hs1, <- app_assoc. cbn [data_packets app length]. split_and!; try done.
    f_equal. f_equal. f_equal. f_equal; [lia|]. destruct cs as [|c' cs]; [done|]. clear. cbn [List.last]. revert c'.
    induction cs as [|c2 cs IH]; intros c'; [done|]. apply IH.
Qed.
(** *** Negotiation *)

Variable name path : string.
Hypothesis Hpath : forall t, (_resolve_path fs h name t).1 = Ok path.
Hypothesis Hexists : fs_exists fs path = true.
Hypothesis Hfile : fs_is_file fs path = true.

(** Only the discovery log may change. *)
Definition same_transfer (t t' : transfer) : Prop :=
  t_sent t' = t_sent t /\ t_done t' = t_done t /\ t_last_ack t' = t_last_ack t /\ t_awaits t' = t_awaits t.

Lemma resolve_ok t : exists t', _resolve_path fs h name t = (Ok path, t') /\ same_transfer t t'.
Proof.
  pose proof (Hpath t) as Hp.
  assert (Hs : same_transfer t (_resolve_path fs h name t).2).
  { unfold _resolve_path, guarded_resolve, discovered. unfold_M.
    repeat (case_match; simplify_eq/=); done. }
  destruct (_resolve_path fs h name t) as [r t']. cbn in *. subst r. by exists t'.
Qed.

Lemma open_ok t : exists t', open_file fs h name t = (Ok (fs_content fs path), t') /\ same_transfer t t'.
Proof.
  destruct (resolve_ok t) as (t' & E & Hs). exists t'. unfold open_file. unfold_M.
  by rewrite E, Hexists, Hfile.
Qed.

Lemma negotiate_ok opts blksize oack t :
  agreed (Z.of_nat (length (fs_content fs path))) opts = Some (blksize, oack) ->
  exists t', negotiate fs h name opts t = (Ok (blksize, oack), t') /\ same_transfer t t'.
Proof.
  unfold agreed, negotiate. intros Hag.
  destruct (resolve_ok t) as (t1 & E & Hs).
  assert (Hsize : exists t',
    match assoc_get "tsize" opts with
    | None => mret []
    | Some _ => catch (n ← get_file_size fs h name; mret [("tsize", pretty n)])
                  (fun e => match e with FileNotFoundError _ => mret [] | e => raise e end)
    end t = (Ok match assoc_get "tsize" opts with
                | Some _ => [("tsize", pretty (Z.of_nat (length (fs_content fs path))))]
                | None => [] end, t') /\ same_transfer t t').
  { destruct (assoc_get "tsize" opts); [|by exists t]. exists t1. unfold get_file_size. unfold_M.
    by rewrite E, Hexists. }
  destruct Hsize as (t2 & Hz & Hs2). rewrite (bind_Ok _ _ _ _ _ Hz). exists t2. split; [|done].
  destruct (assoc_get "blksize" opts) as [v|]; [|by injection Hag as <- <-].
  destruct (py_int v); [|done]. by injection Hag as <- <-.
Qed.
End Delivery.

Lemma data_packets_payload block chunks : concat (map (drop 4) (data_packets block chunks)) = concat chunks.
Proof. revert block. induction chunks as [|c cs IH]; intros block; [done|]. cbn. by rewrite IH. Qed.

Lemma acked_data_packets sent block chunks :
  chunks <> [] -> (0 <= block)%Z -> (block + Z.of_nat (length chunks) <= 65536)%Z ->
  exists n, (0 <= n < 65536)%Z /\ acked_block (sent ++ data_packets block chunks)%list = n.
Proof.
  revert sent block. induction chunks as [|c cs IH]; intros sent block Hne Hb Hn; [done|]. cbn [data_packets length] in *.
  destruct cs as [|c' cs].
  - exists block. split; [lia|]. cbn [data_packets]. apply acked_data. lia.
  - rewrite cons_middle, app_assoc. apply IH; done || lia.
Qed.

(** The whole of [send_data] against a client that answers. *)
Lemma send_data_live fs h net (Hnet : answers net) name content blksize t t1 :
  open_file fs h name t = (Ok content, t1) -> live t1 -> (0 < blksize <= MAX_BLKSIZE)%Z ->
  (Z.of_nat (length (read_chunks blksize content)) < 65535)%Z ->
  exists t', send_data fs h net name blksize t = (Ok true, t')
    /\ t_sent t' = (t_sent t1 ++ data_packets 1 (read_chunks blksize content)
                     ++ closing blksize (read_chunks blksize content))%list.
Proof.
  intros Hopen Hl Hblk Hsize. unfold send_data. unfold_M. rewrite Hopen, Z.min_l by lia.
  destruct (send_chunks_live net Hnet (read_chunks blksize content) 1 [] t1 Hl) as (t2 & -> & Hl2 & Hs2); [lia..|].
  unfold closing. destruct (_ =? blksize)%Z eqn:Efull; [|exists t2; by rewrite app_nil_r].
  rewrite build_data_ok by lia.
  destruct (send_and_wait net Hnet (data_packet (1 + Z.of_nat (length (read_chunks blksize content))) [])
              (1 + Z.of_nat (length (read_chunks blksize content)))%Z t2) as (t3 & Hw & _ & Hs3);
    [apply Hl2|by rewrite acked_data by lia|lia|].
  unfold sendto in *. unfold_M. cbn [snd] in Hw. rewrite Hw. exists t3. split; [done|].
  by rewrite Hs3, Hs2, <- app_assoc.
Qed.

(** The packets that acknowledge options. *)
Definition oack_packets (oack : list (string * string)) : list (list Z) :=
  match oack with
  | [] => []
  | _ => match build_oack oack with Ok b => [b] | Err _ => [] end
  end.

Lemma pretty_N_go_ascii x s : is_Some (encode_ascii s) -> is_Some (encode_ascii (pretty_N_go x s)).
Proof.
  revert s. induction (N.lt_wf_0 x) as [x _ IH]; intros s Hs.
  destruct (decide (x = 0)%N) as [->|Hx]; [done|]. rewrite pretty_N_go_step by lia.
  apply IH; [apply N.div_lt; lia|]. destruct Hs as [b Hb].
  assert (Hc : (nat_of_ascii (pretty_N_char (x `mod` 10)) <? 128)%nat = true)
    by (unfold pretty_N_char; repeat case_match; reflexivity).
  cbn -[nat_of_ascii pretty_N_char N.modulo Nat.ltb]. rewrite Hc, Hb. by eexists.
Qed.

Lemma pretty_Z_ascii (z : Z) : is_Some (encode_ascii (pretty z)).
Proof.
  destruct z as [|p|p]; [by eexists|..].
  - change (pretty (Zpos p)) with (pretty_N_go (Npos p) ""). by apply pretty_N_go_ascii.
  - change (pretty (Zneg p)) with (String "-" (pretty_N_go (Npos p) "")).
    destruct (pretty_N_go_ascii (Npos p) "") as [b Hb]; [done|]. cbn -[nat_of_ascii pretty_N_go Nat.ltb].
    change (nat_of_ascii "-" <? 128)%nat with true. cbv iota. rewrite Hb. by eexists.
Qed.

Lemma build_oack_ok size opts blksize oack :
  agreed size opts = Some (blksize, oack) ->
  exists b, build_oack oack = Ok ([0; 6] ++ b)%Z%list.
Proof.
  intros Hag. assert (Hp : exists b, encode_pairs oack = Ok b); [|destruct Hp as [b Hb]; exists b;
    unfold build_oack, mbind, result_bind; by rewrite Hb].
  unfold agreed in Hag. destruct (pretty_Z_ascii size) as [bs Hbs].
  assert (Henc : forall v b, encode_ascii v = Some b -> forall rest, is_ok (encode_pairs rest) = true ->
            forall k, is_Some (encode_ascii k) -> is_ok (encode_pairs ((k, v) :: rest)) = true).
  { intros v b Hv rest Hr k [bk Hk]. cbn. unfold encode, mbind, result_bind. rewrite Hk, Hv.
    by destruct (encode_pairs rest). }
  assert (Hok : is_ok (encode_pairs oack) = true); [|destruct (encode_pairs oack); [by eexists|done]].
  destruct (assoc_get "blksize" opts) as [v|].
  - destruct (py_int v) as [r|]; [|done]. injection Hag as _ <-.
    destruct (pretty_Z_ascii (Z.min r MAX_BLKSIZE)) as [br Hbr].
    destruct (assoc_get "tsize" opts); cbn [assoc_set]; simpl String.eqb; cbv iota.
    + eapply Henc; [done| |by eexists]. eapply Henc; [done|done|by eexists].
    + eapply Henc; [done|done|by eexists].
  - injection Hag as _ <-. destruct (assoc_get "tsize" opts); [|done]. eapply Henc; [done|done|by eexists].
Qed.

(** The blocks of a file that is not empty, the last one apart. *)
Lemma packets_shape blksize content :
  (0 < blksize)%Z -> content <> [] ->
  let chunks := read_chunks blksize content in
  exists blocks final,
    (data_packets 1 chunks ++ closing blksize chunks
     = data_packets 1 blocks ++ [data_packet (1 + Z.of_nat (length blocks)) final])%list
    /\ Forall (fun b => Z.of_nat (length b) = blksize) blocks /\ (Z.of_nat (length final) < blksize)%Z.
Proof.
  intros Hb Hne chunks. destruct (read_chunks_spec blksize content Hb) as (Hcat & Hlen & Hfull).
  fold chunks in Hcat, Hlen, Hfull.
  destruct (exists_last (l := chunks)) as (pre & last & Hch). { intros E. rewrite E in Hcat. by subst content. }
  assert (Hpre : Forall (fun b => Z.of_nat (length b) = blksize) pre).
  { apply Forall_forall. intros b (l1 & l2 & ->)%list_elem_of_split.
    destruct l2 as [|c l2]; [apply (Hfull l1 b last []); by rewrite Hch, <- app_assoc|].
    apply (Hfull l1 b c (l2 ++ [last])%list). by rewrite Hch, <- app_assoc. }
  assert (Happ : forall n l1 l2, data_packets n (l1 ++ l2)%list
                 = (data_packets n l1 ++ data_packets (n + Z.of_nat (length l1)) l2)%list).
  { intros n l1. revert n. induction l1 as [|c l1 IH]; intros n l2; cbn [app data_packets length].
    - by rewrite Z.add_0_r.
    - rewrite IH. do 3 f_equal. lia. }
  unfold closing. rewrite Hch, List.last_last. destruct (Z.eqb_spec (Z.of_nat (length last)) blksize) as [E|E].
  - exists chunks, []. rewrite Hch. split_and!; [done| |cbn; lia]. apply Forall_app. split; [done|].
    by apply Forall_singleton.
  - exists pre, last. rewrite app_nil_r, Happ. split_and!; [done|done|].
    rewrite Hch in Hlen. apply Forall_app in Hlen as [_ Hlen]. apply Forall_cons in Hlen as [Hlen _]. lia.
Qed.

Lemma try_send_live fs h net (Hnet : answers net) name path opts blksize oack :
  (forall t, (_resolve_path fs h name t).1 = Ok path) ->
  fs_exists fs path = true -> fs_is_file fs path = true ->
  agreed (Z.of_nat (length (fs_content fs path))) opts = Some (blksize, oack) ->
  (0 < blksize <= MAX_BLKSIZE)%Z ->
  (Z.of_nat (length (read_chunks blksize (fs_content fs path))) < 65535)%Z ->
  exists t', try_send fs h net name opts new_transfer = (Ok true, t')
    /\ t_sent t' = (oack_packets oack ++ data_packets 1 (read_chunks blksize (fs_content fs path))
                     ++ closing blksize (read_chunks blksize (fs_content fs path)))%list.
Proof.
  intros Hpath Hex Hf Hag Hblk Hsize.
  assert (Hdata : forall t, live t -> exists t', send_data fs h net name blksize t = (Ok true, t')
    /\ t_sent t' = (t_sent t ++ data_packets 1 (read_chunks blksize (fs_content fs path))
                     ++ closing blksize (read_chunks blksize (fs_content fs path)))%list).
  { intros t Hl. destruct (open_ok fs h name path Hpath Hex Hf t) as (t1 & Ho & Hs1 & Hd1 & _).
    destruct (send_data_live fs h net Hnet name _ blksize t t1 Ho) as (t' & ? & Hs'); try done.
    - destruct Hl as [? ?]. split; [by rewrite Hd1|by rewrite Hs1].
    - exists t'. by rewrite Hs', Hs1. }
  assert (Hl0 : forall t, same_transfer new_transfer t -> live t).
  { intros t (Hs & Hd & _). split; [by rewrite Hd|]. rewrite Hs. done. }
  destruct (negotiate_ok fs h name path Hpath Hex opts blksize oack new_transfer Hag) as (t1 & Hn & Hsame).
  pose proof (Hl0 t1 Hsame) as Hl1. unfold try_send. destruct opts as [|o opts].
  - injection Hag as <- <-. apply Hdata. by apply Hl0.
  - rewrite (bind_Ok _ _ _ _ _ Hn). destruct oack as [|p oack].
    { destruct (Hdata t1 Hl1) as (t' & He & Hs). exists t'. rewrite He, Hs. by destruct Hsame as [-> _]. }
    destruct (build_oack_ok _ _ _ _ Hag) as [b Hb]. unfold oack_packets. rewrite Hb.
    rewrite (bind_Ok _ _ t1 ([0; 6] ++ b)%Z%list t1) by done.
    destruct (send_and_wait net Hnet ([0; 6] ++ b)%Z%list 0 t1) as (t2 & Hw & Hl2 & Hs2);
      [apply Hl1|unfold acked_block; by rewrite List.last_last|lia|].
    rewrite (bind_Ok _ _ t1 tt (sendto ([0; 6] ++ b)%Z%list t1).2) by done.
    rewrite (bind_Ok _ _ _ _ _ Hw). destruct (Hdata t2 Hl2) as (t' & He & Hs). exists t'.
    rewrite He, Hs, Hs2. by destruct Hsame as [-> _].
Qed.

(** C9: a client that acknowledges gets the file. When the requested path resolves to a file and the
    block size agreed on is positive, the transfer to a client that acknowledges every packet within
    three time-outs succeeds: it sends the acknowledgement of the options, if any, then every DATA
    packet once, numbered from 1, whose payloads concatenate to the content. A file that is not empty ends, as
    the protocol asks, with the only packet shorter than a block; for an empty file no DATA packet is
    sent at all. *)
Theorem acknowledged_transfer_delivers (fs : FileSystem) (h : TFTPHandler)
    (net : list (list Z) -> nat -> list net_event) (str_of : tftp_error -> string)
    (name path : string) (opts oack : list (string * string)) (blksize : Z) (Hnet : answers net)
    (Hpath : forall t, (_resolve_path fs h name t).1 = Ok path)
    (Hexists : fs_exists fs path = true) (Hfile : fs_is_file fs path = true)
    (Hag : agreed (Z.of_nat (length (fs_content fs path))) opts = Some (blksize, oack))
    (Hblk : (0 < blksize)%Z)
    (Hsize : (Z.of_nat (length (read_chunks blksize (fs_content fs path))) < 65535)%Z) :
  exists t' packets, send_file fs h net str_of name opts new_transfer = (Ok true, t')
    /\ t_sent t' = (oack_packets oack ++ packets)%list
    /\ concat (map (drop 4) packets) = fs_content fs path
    /\ (fs_content fs path = [] -> packets = [])
    /\ (fs_content fs path <> [] -> exists blocks final n,
          packets = (data_packets 1 blocks ++ [data_packet n final])%list
          /\ n = (1 + Z.of_nat (length blocks))%Z
          /\ Forall (fun b => Z.of_nat (length b) = blksize) blocks
          /\ (Z.of_nat (length final) < blksize)%Z).
Proof.
  assert (Hmax : (blksize <= MAX_BLKSIZE)%Z).
  { unfold agreed in Hag. destruct (assoc_get "blksize" opts) as [v|]; [|by injection Hag as <- _].
    destruct (py_int v); [|done]. injection Hag as <- _. lia. }
  set (content := fs_content fs path) in *. set (chunks := read_chunks blksize content) in *.
  destruct (try_send_live fs h net Hnet name path opts blksize oack) as (t' & Ht & Hs); try done.
  fold content chunks in Hs. exists t', (data_packets 1 chunks ++ closing blksize chunks)%list.
  unfold send_file, catch. rewrite Ht. split_and!; [done|done| | |].
  - rewrite map_app, concat_app, data_packets_payload. unfold chunks at 1.
    rewrite (proj1 (read_chunks_spec blksize content Hblk)). unfold closing.
    destruct (_ =? blksize)%Z; cbn; by rewrite ?app_nil_r.
  - intros Hnil. assert (chunks = []) as ->.
    { unfold chunks. rewrite Hnil. unfold read_chunks.
      destruct (blksize <? 0)%Z; [done|]. by destruct (blksize =? 0)%Z. }
    unfold closing. cbn [List.last length data_packets app]. by rewrite (proj2 (Z.eqb_neq _ _)) by lia.
  - intros Hne. destruct (packets_shape blksize content Hblk Hne) as (blocks & final & E & Hf & Hl).
    by exists blocks, final, (1 + Z.of_nat (length blocks))%Z.
Qed.

(** A client that answers at once. *)
Definition prompt_client (sent : list (list Z)) (_ : nat) : list net_event :=
  [Datagram (ack_packet (acked_block sent))].

Lemma acknowledged_transfer_delivers_witness :
  exists t', send_file (fs1 [1; 2; 3; 4]%Z) handler1 prompt_client (fun _ => "") "boot.img"
               [("blksize", "2"); ("tsize", "0")] new_transfer = (Ok true, t')
    /\ length (t_sent t') = 4%nat.
Proof.
  destruct (acknowledged_transfer_delivers (fs1 [1; 2; 3; 4]%Z) handler1 prompt_client (fun _ => "")
    "boot.img" "/srv/tftp/boot.img" [("blksize", "2"); ("tsize", "0")] [("tsize", "4"); ("blksize", "2")] 2)
    as (t' & packets & H & _).
  - intros sent a. split; [right; reflexivity|]. exists 0%nat. split; [apply Nat.leb_le; reflexivity|reflexivity].
  - reflexivity.
  - reflexivity.
  - reflexivity.
  - reflexivity.
  - reflexivity.
  - reflexivity.
  - exists t'. split; [exact H|]. vm_compute in H. injection H as <-. reflexivity.
Defined.

(** ** What may be served *)

(** The traversal guard compares texts. A path the server resolves starts with the text of its
    root, or, for a Pi boot request with discovery on, with that of the discovery directory; anything
    else is refused. But the text need not go on with a separator: outside discovery, every path whose text
    starts with the root's is served, those in a sibling directory like [root ++ "-private"] included. *)
Theorem resolve_guard_is_textual (fs : FileSystem) (h : TFTPHandler) (name : string) (t : transfer) :
  match (_resolve_path fs h name t).1 with
  | Ok p => startswith (root h) p = true
            \/ exists dir serial file, pi_discovery_enabled h = true /\ pi_discovery_dir h = Some dir
                 /\ is_pi_serial_request name = Some (serial, file) /\ startswith dir p = true
  | Err e => exists msg, e = PermissionError msg
  end
  /\ (pi_discovery_enabled h = false ->
      forall suffix, fs_resolve fs (root h) (lstrip "/"%char name) = root h ++ suffix ->
      (_resolve_path fs h name t).1 = Ok (root h ++ suffix)).
Proof.
  assert (Hg : forall dir n t, match (guarded_resolve fs dir n t).1 with
                               | Ok p => startswith dir p = true
                               | Err e => exists msg, e = PermissionError msg end).
  { intros dir n t0. unfold guarded_resolve. destruct (startswith dir (fs_resolve fs dir n)) eqn:E; [done|]. by eexists. }
  split.
  - unfold _resolve_path.
    assert (Hroot : forall n, match (guarded_resolve fs (root h) n t).1 with
      | Ok p => startswith (root h) p = true
                \/ exists dir serial file, pi_discovery_enabled h = true /\ pi_discovery_dir h = Some dir
                     /\ is_pi_serial_request name = Some (serial, file) /\ startswith dir p = true
      | Err e => exists msg, e = PermissionError msg end).
    { intros n. specialize (Hg (root h) n t). destruct (guarded_resolve _ _ _ _).1; [by left|done]. }
    destruct (pi_discovery_enabled h); [|apply Hroot].
    destruct (pi_discovery_dir h) as [dir|]; [|apply Hroot].
    destruct (is_pi_serial_request name) as [[serial file]|]; [|apply Hroot].
    destruct (match pi_nodes_dir h with Some _ => _ | None => _ end); [apply Hroot|].
    unfold discovered. unfold_M. set (t1 := {| t_last_ack := t_last_ack t |}).
    specialize (Hg dir file t1). destruct (guarded_resolve fs dir file t1).1; [|done]. right. by exists dir, serial, file.
  - intros Hd suffix Hs. unfold _resolve_path. rewrite Hd. unfold guarded_resolve. rewrite Hs.
    by rewrite startswith_app.
Qed.

(** [(dir / name).resolve()] of the one path of the example, links apart. *)
Definition fs_sibling : FileSystem :=
  {| fs_resolve := fun dir name => if String.eqb name "../tftp-private/key" then "/srv/tftp-private/key"
                                   else dir ++ "/" ++ name;
     fs_exists := fun _ => true; fs_is_file := fun _ => true; fs_content := fun _ => [7%Z] |}.

Lemma resolve_guard_is_textual_witness :
  (_resolve_path fs_sibling handler1 "../tftp-private/key" new_transfer).1 = Ok "/srv/tftp-private/key".
Proof.
  apply (proj2 (resolve_guard_is_textual fs_sibling handler1 "../tftp-private/key" new_transfer)
               eq_refl "-private/key").
  reflexivity.
Defined.
