(* ===== verification/Groups.v ===== *)
(** * Device groups

    [api/routes/groups.py]: a tree of groups with materialised paths.  The
    database is the table of groups and the group of each node.  Foreign keys
    are not enforced (SQLite's default); the primary key, the unique names and
    [NOT NULL] are.  [path.startswith(x)] in a query is the database's
    [LIKE x || '%'], the parameter [like]; in Python it is [startswith]. *)
From S2P Require Import Prelude PyStr SqlTable.
From stdpp Require Import base tactics list strings pretty sorting relations.
From Stdlib Require Import Ascii ZArith Lia.
Open Scope string_scope.
#[local] Arguments String.append !_ _ : simpl nomatch.

(** ** Data *)

Record DeviceGroup := {
  g_id : string;
  g_name : string;
  g_description : option string;
  g_parent_id : option string;
  g_path : string;
  g_depth : Z;
  g_default_workflow_id : option string;
  g_auto_provision : option bool
}.

#[export] Instance DeviceGroup_eq_dec : EqDecision DeviceGroup.
Proof. solve_decision. Defined.

Record GroupDB := { groups : list DeviceGroup; node_groups : list (string * string) }.

Inductive group_error : Type :=
| HTTPException (status : Z) (detail : string)
| NoResultFound
| GroupIntegrityError.

Abbreviation GroupM A := (M GroupDB group_error A).

Record DeviceGroupCreate := {
  gc_name : string;
  gc_description : option string;
  gc_parent_id : option string;
  gc_default_workflow_id : option string;
  gc_auto_provision : option bool
}.

(** The fields of [DeviceGroupUpdate]; the outer [None] is an unset field. *)
Record DeviceGroupUpdate := {
  gu_name : option (option string);
  gu_description : option (option string);
  gu_parent_id : option (option string);
  gu_default_workflow_id : option (option string);
  gu_auto_provision : option (option bool)
}.

Definition set_groups (t : list DeviceGroup) (d : GroupDB) : GroupDB :=
  {| groups := t; node_groups := node_groups d |}.

Definition get_groups : GroupM (list DeviceGroup) := d ← get_state; mret (groups d).

(** [if x] for an optional string. *)
Definition truthy_id (x : option string) : option string :=
  match x with Some s => if String.eqb s "" then None else Some s | None => None end.

(** What a constraint check at [flush] finds. *)
Definition flush : GroupM unit :=
  t ← get_groups;
  if bool_decide (NoDup (map g_name t)) && bool_decide (NoDup (map g_id t))
  then mret tt else raise GroupIntegrityError.

(** ** Creating *)

Definition validate_name (v : string) : bool :=
  negb (String.eqb v "") && (String.length v <=? 100)%nat.

Definition create_group (id : string) (c : DeviceGroupCreate) : GroupM DeviceGroup :=
  t ← get_groups;
  if negb (validate_name (gc_name c)) then raise (HTTPException 422 "Name must be 1-100 characters")
  else
    match sql_find g_name (gc_name c) t with
    | Some _ => raise (HTTPException 409 ("Group '" ++ gc_name c ++ "' already exists"))
    | None =>
        parent ← match truthy_id (gc_parent_id c) with
                 | None => mret None
                 | Some pid =>
                     match sql_find g_id pid t with
                     | None => raise (HTTPException 404 "Parent group not found")
                     | Some p => mret (Some p)
                     end
                 end;
        let '(path, depth) :=
          match parent with
          | Some p => (g_path p ++ "/" ++ gc_name c, g_depth p + 1)%Z
          | None => ("/" ++ gc_name c, 0%Z)
          end in
        let group :=
          {| g_id := id; g_name := gc_name c; g_description := gc_description c;
             g_parent_id := gc_parent_id c; g_path := path; g_depth := depth;
             g_default_workflow_id := gc_default_workflow_id c;
             g_auto_provision := gc_auto_provision c |} in
        modify (fun d => set_groups (groups d ++ [group]) d);;
        flush;;
        mret group
    end.

Section Queries.
Variable like : string -> string -> bool.

(** ** Updating *)

Definition move_row (old_path new_path : string) (depth_diff : Z) (d : DeviceGroup) : DeviceGroup :=
  {| g_id := g_id d; g_name := g_name d; g_description := g_description d;
     g_parent_id := g_parent_id d; g_path := str_replace_n old_path new_path 1 (g_path d);
     g_depth := g_depth d + depth_diff; g_default_workflow_id := g_default_workflow_id d;
     g_auto_provision := g_auto_provision d |}.

Definition place_row (path : string) (depth : Z) (parent_id : option string) (d : DeviceGroup) : DeviceGroup :=
  {| g_id := g_id d; g_name := g_name d; g_description := g_description d;
     g_parent_id := parent_id; g_path := path; g_depth := depth;
     g_default_workflow_id := g_default_workflow_id d; g_auto_provision := g_auto_provision d |}.

(** The descendants' paths, then the group's own place. *)
Definition move_subtree (group : DeviceGroup) (new_path : string) (new_depth : Z)
    (parent_id : option string) : GroupM unit :=
  modify (fun d =>
    let t := (sql_update (fun r => like (g_path group ++ "/") (g_path r))
                (move_row (g_path group) new_path (new_depth - g_depth group)) (groups d)).1 in
    set_groups (sql_update (has_key g_id (g_id group)) (place_row new_path new_depth parent_id) t).1 d).

(** The name in an f-string. *)
Definition name_str (n : option string) : string := default "None" n.

Definition reparent (group : DeviceGroup) (new_name : string) (new_parent_id : option string) : GroupM unit :=
  t ← get_groups;
  if bool_decide (new_parent_id = Some (g_id group)) then
    raise (HTTPException 400 "Cannot set group as its own parent")
  else
    match truthy_id new_parent_id with
    | Some pid =>
        match sql_find g_id pid t with
        | None => raise (HTTPException 404 "Parent group not found")
        | Some new_parent =>
            if startswith (g_path group ++ "/") (g_path new_parent)
               || String.eqb (g_id new_parent) (g_id group) then
              raise (HTTPException 400 "Cannot move group under itself or its descendant")
            else
              move_subtree group (g_path new_parent ++ "/" ++ new_name) (g_depth new_parent + 1)
                new_parent_id
        end
    | None => move_subtree group ("/" ++ new_name) 0 new_parent_id
    end.

Definition rename (group : DeviceGroup) (new_name : string) : GroupM unit :=
  t ← get_groups;
  new_path ← match truthy_id (g_parent_id group) with
             | Some pid =>
                 match sql_find g_id pid t with
                 | None => raise NoResultFound
                 | Some parent => mret (g_path parent ++ "/" ++ new_name)
                 end
             | None => mret ("/" ++ new_name)
             end;
  move_subtree group new_path (g_depth group) (g_parent_id group).

(** The [setattr]s; the name is checked before. *)
Definition apply_fields (u : DeviceGroupUpdate) (d : DeviceGroup) : DeviceGroup :=
  {| g_id := g_id d;
     g_name := match gu_name u with Some (Some n) => n | _ => g_name d end;
     g_description := default (g_description d) (gu_description u);
     g_parent_id := g_parent_id d; g_path := g_path d; g_depth := g_depth d;
     g_default_workflow_id := default (g_default_workflow_id d) (gu_default_workflow_id u);
     g_auto_provision := default (g_auto_provision d) (gu_auto_provision u) |}.

Definition update_group (group_id : string) (u : DeviceGroupUpdate) : GroupM (option DeviceGroup) :=
  t ← get_groups;
  match sql_find g_id group_id t with
  | None => raise (HTTPException 404 "Group not found")
  | Some group =>
      let given_name := match gu_name u with Some n => truthy_id n | None => None end in
      if match given_name with
         | Some n => negb (String.eqb n (g_name group))
                     && match sql_find g_name n t with Some _ => true | None => false end
         | None => false
         end
      then raise (HTTPException 409 ("Group '" ++ default "" given_name ++ "' already exists"))
      else
        (match gu_parent_id u with
         | Some new_parent_id =>
             reparent group (match gu_name u with Some n => name_str n | None => g_name group end)
               new_parent_id
         | None =>
             match gu_name u with
             | Some n => rename group (name_str n)
             | None => mret tt
             end
         end);;
        (match gu_name u with
         | Some None => raise GroupIntegrityError      (* NOT NULL *)
         | _ => mret tt
         end);;
        modify (fun d => set_groups (sql_update (has_key g_id group_id) (apply_fields u) (groups d)).1 d);;
        flush;;
        t ← get_groups;
        mret (sql_find g_id group_id t)
  end.

(** ** Deleting *)

Definition delete_group (group_id : string) : GroupM unit :=
  d ← get_state;
  match sql_find g_id group_id (groups d) with
  | None => raise (HTTPException 404 "Group not found")
  | Some _ =>
      let children_count := sql_count (fun r => bool_decide (g_parent_id r = Some group_id)) (groups d) in
      let node_count := sql_count (fun n : string * string => String.eqb n.2 group_id) (node_groups d) in
      if (0 <? children_count)%Z then
        raise (HTTPException 400 ("Cannot delete group with " ++ pretty children_count
                                  ++ " child group(s). Remove children first."))
      else if (0 <? node_count)%Z then
        raise (HTTPException 400 ("Cannot delete group with " ++ pretty node_count
                                  ++ " node(s). Remove nodes first."))
      else modify (fun d => set_groups (sql_delete (has_key g_id group_id) (groups d)).1 d)
  end.

(** ** Reading the tree *)

(** [get_group_descendants], before the ordering by depth and name. *)
Definition get_group_descendants (group_id : string) (t : list DeviceGroup) : option (list DeviceGroup) :=
  group ← sql_find g_id group_id t;
  Some (sql_select (fun r => like (g_path group ++ "/") (g_path r)) t).

(** [list_group_nodes]: the ids of the nodes. *)
Definition list_group_nodes (group_id : string) (include_descendants : bool) (d : GroupDB)
    : option (list string) :=
  group ← sql_find g_id group_id (groups d);
  let ids := group_id :: (if include_descendants
                          then map g_id (sql_select (fun r => like (g_path group ++ "/") (g_path r)) (groups d))
                          else []) in
  Some (map fst (sql_select (fun n : string * string => bool_decide (n.2 ∈ ids)) (node_groups d))).
End Queries.

(** The walk up the parents; [None] when it has not ended within [fuel] steps. *)
Fixpoint walk_up (fuel : nat) (t : list DeviceGroup) (current_id : option string)
    : option (list DeviceGroup) :=
  match truthy_id current_id with
  | None => Some []
  | Some pid =>
      match sql_find g_id pid t with
      | None => Some []
      | Some parent =>
          match fuel with
          | O => None
          | S fuel => (fun l => parent :: l) <$> walk_up fuel t (g_parent_id parent)
          end
      end
  end.

Definition get_group_ancestors (fuel : nat) (group_id : string) (t : list DeviceGroup)
    : option (list DeviceGroup) :=
  group ← sql_find g_id group_id t;
  walk_up fuel t (g_parent_id group).

Definition or_some {A} (a b : option A) : option A := match a with Some _ => a | None => b end.

(** The loop of [compute_effective_settings]: it stops early when both are known. *)
Fixpoint inherit (fuel : nat) (t : list DeviceGroup) (current_id : option string)
    (wf : option string) (auto : option bool) : option (option string * option bool) :=
  match truthy_id current_id, wf, auto with
  | None, _, _ => Some (wf, auto)
  | _, Some _, Some _ => Some (wf, auto)
  | Some pid, _, _ =>
      match sql_find g_id pid t with
      | None => Some (wf, auto)
      | Some parent =>
          match fuel with
          | O => None
          | S fuel => inherit fuel t (g_parent_id parent) (or_some wf (g_default_workflow_id parent))
                        (or_some auto (g_auto_provision parent))
          end
      end
  end.

Definition compute_effective_settings (fuel : nat) (group : DeviceGroup) (t : list DeviceGroup)
    : option (option string * bool) :=
  '(wf, auto) ← inherit fuel t (g_parent_id group) (g_default_workflow_id group) (g_auto_provision group);
  Some (wf, default false auto).

(** ** Requests *)

Inductive group_request : Type :=
| Create (id : string) (c : DeviceGroupCreate)
| Update (id : string) (u : DeviceGroupUpdate)
| Delete (id : string).

(** One request in its own transaction. *)
Definition serve (like : string -> string -> bool) (r : group_request) (d : GroupDB) : GroupDB :=
  match r with
  | Create id c => (with_db (create_group id c) d).2
  | Update id u => (with_db (update_group like id u) d).2
  | Delete id => (with_db (delete_group id) d).2
  end.

Definition serve_all (like : string -> string -> bool) (rs : list group_request) (d : GroupDB) : GroupDB :=
  foldl (fun d r => serve like r d) d rs.

Definition no_groups : GroupDB := {| groups := []; node_groups := [] |}.

(** ** The tree the table stands for *)

Definition no_slash (s : string) : bool := str_forall (fun c => negb (Ascii.eqb c "/")) s.

(** Characters [LIKE] compares as they are. *)
Definition like_literal (c : ascii) : bool :=
  Ascii.eqb (ascii_lower c) c && negb (Ascii.eqb c "%") && negb (Ascii.eqb c "_")
  && negb (Ascii.eqb c "\") .

Definition plain (s : string) : bool := str_forall like_literal s.
Definition clean_name (n : string) : bool := no_slash n && plain n.

Definition clean_request (r : group_request) : bool :=
  match r with
  | Create _ c => clean_name (gc_name c)
  | Update _ u => match gu_name u with Some (Some n) => clean_name n | _ => true end
  | Delete _ => true
  end.

(** Where a row of [name] under [parent_id] belongs. *)
Definition placed (t : list DeviceGroup) (parent_id : option string) (name path : string) (depth : Z) : Prop :=
  match truthy_id parent_id with
  | None => path = "/" ++ name /\ depth = 0%Z
  | Some pid =>
      exists p, p ∈ t /\ g_id p = pid /\ path = g_path p ++ "/" ++ name /\ depth = (g_depth p + 1)%Z
  end.

Record tree_wf (t : list DeviceGroup) : Prop := {
  wf_ids : NoDup (g_id <$> t);
  wf_names : NoDup (g_name <$> t);
  wf_clean r : r ∈ t -> clean_name (g_name r) = true;
  wf_placed r : r ∈ t -> placed t (g_parent_id r) (g_name r) (g_path r) (g_depth r)
}.

Definition child_of (t : list DeviceGroup) (r p : DeviceGroup) : Prop :=
  r ∈ t /\ p ∈ t /\ truthy_id (g_parent_id r) = Some (g_id p).

(** [g] is a proper ancestor of [r]. *)
Definition below (t : list DeviceGroup) (r g : DeviceGroup) : Prop := tc (child_of t) r g.

(** The first value set along a chain. *)
Definition first_set {A B} (f : A -> option B) (l : list A) : option B := head (omap f l).

(** ** Paths *)

Lemma no_slash_cut a b : no_slash (a ++ String "/" b) = false.
Proof. unfold no_slash. rewrite str_forall_app. cbn. apply andb_false_r. Qed.

Lemma last_component a1 n1 a2 n2 :
  no_slash n1 = true -> no_slash n2 = true ->
  a1 ++ "/" ++ n1 = a2 ++ "/" ++ n2 -> a1 = a2 /\ n1 = n2.
Proof.
  intros H1 H2. revert a2; induction a1 as [|c a1 IH]; intros [|c2 a2] H; cbn in H; injection H.
  - by intros ->.
  - intros -> _. by rewrite (no_slash_cut a2 n2) in H1.
  - intros <- _. by rewrite (no_slash_cut a1 n1) in H2.
  - intros H' ->. by destruct (IH a2 H') as [-> ->].
Qed.

Lemma startswith_child q p n :
  no_slash n = true ->
  startswith (q ++ "/") (p ++ "/" ++ n) = true <-> q = p \/ startswith (q ++ "/") p = true.
Proof.
  intros Hn. rewrite !startswith_spec. split.
  - intros [r Hr]. rewrite str_app_assoc in Hr. revert p Hr.
    induction q as [|c q IH]; intros [|c2 p] H; cbn in H; injection H.
    + by left.
    + intros H' <-. right. by exists p.
    + intros -> _. by rewrite (no_slash_cut q r) in Hn.
    + intros H' ->. destruct (IH p H') as [->|[r' ->]]; [by left|right; by exists r'].
  - intros [->|[r ->]]; [exists n; by rewrite str_app_assoc|].
    exists (r ++ "/" ++ n). by rewrite !str_app_assoc.
Qed.

(** ** The tree *)

Section Tree.
Context (t : list DeviceGroup) (Hwf : tree_wf t).

Lemma wf_no_slash r : r ∈ t -> no_slash (g_name r) = true.
Proof. intros H. by apply (wf_clean _ Hwf), andb_true_iff in H as [? _]. Qed.

Lemma by_id r1 r2 : r1 ∈ t -> r2 ∈ t -> g_id r1 = g_id r2 -> r1 = r2.
Proof.
  intros H1 H2 E. pose proof (sql_find_Some g_id t _ _ (wf_ids _ Hwf) H1 E).
  pose proof (sql_find_Some g_id t _ _ (wf_ids _ Hwf) H2 eq_refl). congruence.
Qed.

Lemma by_name r1 r2 : r1 ∈ t -> r2 ∈ t -> g_name r1 = g_name r2 -> r1 = r2.
Proof.
  intros H1 H2 E. pose proof (sql_find_Some g_name t _ _ (wf_names _ Hwf) H1 E).
  pose proof (sql_find_Some g_name t _ _ (wf_names _ Hwf) H2 eq_refl). congruence.
Qed.

(** A row is a root or the child of a row. *)
Lemma root_or_child r :
  r ∈ t ->
  (truthy_id (g_parent_id r) = None /\ g_path r = "/" ++ g_name r /\ g_depth r = 0%Z)
  \/ exists p, child_of t r p /\ g_path r = g_path p ++ "/" ++ g_name r /\ g_depth r = (g_depth p + 1)%Z.
Proof.
  intros Hr. pose proof (wf_placed _ Hwf r Hr) as H. unfold placed in H.
  destruct (truthy_id _) as [pid|] eqn:E; [right|by left].
  destruct H as (p & Hp & <- & H). by exists p.
Qed.

Lemma child_place r p :
  child_of t r p -> g_path r = g_path p ++ "/" ++ g_name r /\ g_depth r = (g_depth p + 1)%Z.
Proof.
  intros (Hr & Hp & E). destruct (root_or_child r Hr) as [[E' _]|(p' & (_ & Hp' & E') & H)]; [congruence|].
  replace p with p'; [done|]. apply by_id; congruence.
Qed.

Lemma parent_unique r p p' : child_of t r p -> child_of t r p' -> p = p'.
Proof. intros (_ & Hp & E) (_ & Hp' & E'). apply by_id; congruence. Qed.

Lemma child_longer r p : child_of t r p -> (String.length (g_path p) < String.length (g_path r))%nat.
Proof. intros [-> _]%child_place. rewrite !str_app_length. cbn. lia. Qed.

(** Induction from the roots down. *)
Lemma tree_ind (P : DeviceGroup -> Prop) :
  (forall r, r ∈ t -> truthy_id (g_parent_id r) = None -> P r) ->
  (forall r p, child_of t r p -> P p -> P r) ->
  forall r, r ∈ t -> P r.
Proof.
  intros Hroot Hchild r. remember (String.length (g_path r)) as n eqn:En. revert r En.
  induction (lt_wf n) as [n _ IH]. intros r -> Hr.
  destruct (root_or_child r Hr) as [(E & _)|(p & Hp & _)]; [by apply Hroot|].
  apply (Hchild r p Hp). eapply IH; [by apply child_longer|done|apply Hp].
Qed.

Lemma path_ends_in_name r : r ∈ t -> exists a, g_path r = a ++ "/" ++ g_name r.
Proof. intros [(_ & -> & _)|(p & _ & -> & _)]%root_or_child; [by exists ""|by eexists]. Qed.

Lemma by_path r1 r2 : r1 ∈ t -> r2 ∈ t -> g_path r1 = g_path r2 -> r1 = r2.
Proof.
  intros H1 H2 E. destruct (path_ends_in_name r1 H1) as [a1 E1], (path_ends_in_name r2 H2) as [a2 E2].
  rewrite E1, E2 in E. apply last_component in E as [_ E]; auto using wf_no_slash, by_name.
Qed.

Lemma path_nonempty r : r ∈ t -> g_path r ≠ "".
Proof. intros [a ->]%path_ends_in_name. by destruct a. Qed.

Lemma plain_path r : r ∈ t -> plain (g_path r) = true.
Proof.
  assert (forall r, r ∈ t -> plain (g_name r) = true) as Hn.
  { intros x Hx. by apply (wf_clean _ Hwf), andb_true_iff in Hx as [_ ?]. }
  revert r. apply tree_ind; unfold plain in *.
  - intros r Hr E. destruct (root_or_child r Hr) as [(_ & -> & _)|(p & (_ & _ & E') & _)]; [|congruence].
    rewrite str_forall_app. apply andb_true_iff; auto.
  - intros r p Hp IH. pose proof (child_place r p Hp) as [-> _].
    rewrite !str_forall_app, IH. cbn. apply Hn, Hp.
Qed.

(** Prefixes of paths are ancestors. *)
Lemma prefix_of_child g r p :
  g ∈ t -> child_of t r p ->
  startswith (g_path g ++ "/") (g_path r) = true <-> p = g \/ startswith (g_path g ++ "/") (g_path p) = true.
Proof.
  intros Hg Hc. pose proof (child_place r p Hc) as [-> _].
  rewrite startswith_child by apply wf_no_slash, Hc. split; (intros [E|E]; [left|by right]).
  - symmetry. apply by_path; [done|apply Hc|done].
  - by rewrite E.
Qed.

Lemma prefix_of_root g r :
  g ∈ t -> r ∈ t -> truthy_id (g_parent_id r) = None -> startswith (g_path g ++ "/") (g_path r) = false.
Proof.
  intros Hg Hr E. destruct (root_or_child r Hr) as [(_ & Ep & _)|(p & (_ & _ & E') & _)]; [|congruence].
  apply not_true_iff_false. rewrite Ep. intros H. apply (startswith_child _ "") in H; [|by apply wf_no_slash].
  destruct H as [H|H]; [by apply (path_nonempty g Hg)|].
  apply startswith_spec in H as [x H]. by destruct (g_path g).
Qed.

Lemma prefix_below g r :
  g ∈ t -> r ∈ t -> startswith (g_path g ++ "/") (g_path r) = true <-> below t r g.
Proof.
  intros Hg. revert r. apply (tree_ind (fun r => _ <-> below t r g)).
  - intros r Hr E. rewrite prefix_of_root by done. split; [done|].
    intros H. destruct H as [r g (_ & _ & H)|r p g (_ & _ & H) _]; congruence.
  - intros r p Hc IH. rewrite (prefix_of_child g r p) by done. rewrite IH. split.
    + intros [->|H]; [by apply tc_once|by eapply tc_l].
    + intros H. destruct H as [r g H|r p' g H H']; [left|right].
      * by eapply parent_unique.
      * by rewrite (parent_unique r p p').
Qed.
End Tree.

(** ** Moving a subtree *)

(** A place for [g] that is not inside [g]. *)
Definition new_home (t : list DeviceGroup) (g : DeviceGroup) (parent_id : option string)
    (name path : string) (depth : Z) : Prop :=
  match truthy_id parent_id with
  | None => path = "/" ++ name /\ depth = 0%Z
  | Some pid =>
      exists p, p ∈ t /\ g_id p = pid /\ p ≠ g /\ startswith (g_path g ++ "/") (g_path p) = false
           /\ path = g_path p ++ "/" ++ name /\ depth = (g_depth p + 1)%Z
  end.

(** What the three [UPDATE]s of a request do to a row. *)
Definition relocate (g : DeviceGroup) (path : string) (depth : Z) (parent_id : option string)
    (u : DeviceGroupUpdate) (r : DeviceGroup) : DeviceGroup :=
  if String.eqb (g_id r) (g_id g) then apply_fields u (place_row path depth parent_id r)
  else if startswith (g_path g ++ "/") (g_path r) then move_row (g_path g) path (depth - g_depth g) r
  else r.

Definition updated_name (u : DeviceGroupUpdate) (g : DeviceGroup) : string := g_name (apply_fields u g).

Section Move.
Context (t : list DeviceGroup) (Hwf : tree_wf t).
Context (g : DeviceGroup) (Hg : g ∈ t) (u : DeviceGroupUpdate).
Context (parent_id : option string) (path : string) (depth : Z).
Abbreviation F := (relocate g path depth parent_id u).

Lemma relocate_id r : g_id (F r) = g_id r.
Proof. unfold relocate. by repeat case_match. Qed.

Lemma relocate_self : F g = apply_fields u (place_row path depth parent_id g).
Proof. unfold relocate. by rewrite String.eqb_refl. Qed.

Lemma relocate_other r :
  r ∈ t -> r ≠ g ->
  F r = if startswith (g_path g ++ "/") (g_path r) then move_row (g_path g) path (depth - g_depth g) r else r.
Proof.
  intros Hr Hne. unfold relocate. destruct (String.eqb_spec (g_id r) (g_id g)) as [E|_]; [|done].
  destruct Hne. by eapply by_id.
Qed.

Lemma relocate_other_keys r :
  r ∈ t -> r ≠ g -> g_name (F r) = g_name r /\ g_parent_id (F r) = g_parent_id r.
Proof. intros Hr Hne. rewrite relocate_other by done. by case_match. Qed.

Lemma move_row_path s r :
  g_path r = g_path g ++ s -> g_path (move_row (g_path g) path (depth - g_depth g) r) = path ++ s.
Proof. intros E. cbn. rewrite E. apply str_replace_1_prefix. by apply (path_nonempty t). Qed.

Lemma relocate_child r p :
  child_of t r p -> r ≠ g ->
  g_path (F r) = g_path (F p) ++ "/" ++ g_name r /\ g_depth (F r) = (g_depth (F p) + 1)%Z.
Proof.
  intros Hc Hne. destruct (child_place t Hwf r p Hc) as [Ep Ed].
  pose proof (prefix_of_child t Hwf g r p Hg Hc) as Hpre.
  rewrite (relocate_other r) by (try apply Hc; done).
  destruct (decide (p = g)) as [->|Hpg].
  - rewrite (proj2 Hpre) by by left. rewrite relocate_self. split; [by apply move_row_path|cbn; lia].
  - rewrite (relocate_other p) by (try apply Hc; done).
    destruct (startswith _ (g_path p)) eqn:E.
    + rewrite (proj2 Hpre) by by right. split; [|cbn; lia].
      apply startswith_spec in E as [s Es]. rewrite str_app_assoc in Es.
      rewrite (move_row_path ("/" ++ s) p Es), str_app_assoc. apply move_row_path.
      by rewrite Ep, Es, !str_app_assoc.
    + destruct (startswith _ (g_path r)); [|by split].
      destruct (proj1 Hpre eq_refl) as [?|?]; [done|congruence].
Qed.

Lemma relocate_wf :
  new_home t g parent_id (updated_name u g) path depth ->
  clean_name (updated_name u g) = true ->
  NoDup (g_name <$> map F t) ->
  tree_wf (map F t).
Proof.
  intros Hhome Hclean Hnames.
  assert (forall r', r' ∈ map F t -> exists r, r' = F r /\ r ∈ t) as Hin.
  { intros r' H. by apply list_elem_of_fmap in H. }
  assert (forall r, r ∈ t -> F r ∈ map F t) as Hin' by (intros r; apply (list_elem_of_fmap_2 F)).
  constructor; [| done| |].
  - replace (g_id <$> map F t) with (g_id <$> t); [apply (wf_ids _ Hwf)|].
    change (map F t) with (F <$> t). rewrite <- list_fmap_compose. apply list_fmap_ext.
    intros _ r _. symmetry. apply relocate_id.
  - intros r' (r & -> & Hr)%Hin. destruct (decide (r = g)) as [->|Hne]; [by rewrite relocate_self|].
    destruct (relocate_other_keys r Hr Hne) as [-> _]. by apply (wf_clean _ Hwf).
  - intros r' (r & -> & Hr)%Hin. unfold placed. destruct (decide (r = g)) as [->|Hne].
    + rewrite relocate_self. unfold new_home in Hhome. cbn [apply_fields place_row g_parent_id g_path g_depth].
      destruct (truthy_id parent_id) as [pid|]; [|done].
      destruct Hhome as (p & Hp & <- & Hpg & Hs & Ep & Ed). exists (F p).
      assert (F p = p) as E by by rewrite relocate_other, Hs.
      rewrite relocate_id, E. specialize (Hin' p Hp). rewrite E in Hin'. by repeat split.
    + destruct (relocate_other_keys r Hr Hne) as [-> ->].
      destruct (root_or_child t Hwf r Hr) as [(E & Ep & Ed)|(p & Hc & _)].
      * rewrite E, relocate_other, (prefix_of_root t) by done. done.
      * destruct (relocate_child r p Hc Hne) as [-> ->]. destruct Hc as (_ & Hp & ->).
        exists (F p). rewrite relocate_id. auto.
Qed.
End Move.

(** Updates that leave the tree's columns alone. *)
Lemma same_columns_wf t (F : DeviceGroup -> DeviceGroup) :
  tree_wf t ->
  (forall r, g_id (F r) = g_id r /\ g_name (F r) = g_name r /\ g_parent_id (F r) = g_parent_id r
        /\ g_path (F r) = g_path r /\ g_depth (F r) = g_depth r) ->
  tree_wf (map F t).
Proof.
  intros Hwf HF.
  assert (forall A (c : DeviceGroup -> A), (forall r, c (F r) = c r) -> c <$> map F t = c <$> t) as Hcol.
  { intros A c Hc. change (map F t) with (F <$> t). rewrite <- list_fmap_compose.
    apply list_fmap_ext. intros _ r _. apply Hc. }
  constructor.
  - rewrite Hcol by apply HF. apply Hwf.
  - rewrite Hcol by apply HF. apply Hwf.
  - intros r' (r & -> & Hr)%list_elem_of_fmap. destruct (HF r) as (_ & -> & _). by apply Hwf.
  - intros r' (r & -> & Hr)%list_elem_of_fmap. destruct (HF r) as (_ & -> & -> & -> & ->).
    pose proof (wf_placed _ Hwf r Hr) as H. unfold placed in *. destruct (truthy_id _); [|done].
    destruct H as (p & Hp & <- & -> & ->). exists (F p). destruct (HF p) as (-> & _ & _ & -> & ->).
    by repeat split; [apply (list_elem_of_fmap_2 F)|..].
Qed.

Lemma parent_not_inside t g p :
  tree_wf t -> child_of t g p -> p ≠ g /\ startswith (g_path g ++ "/") (g_path p) = false.
Proof.
  intros Hwf Hc. pose proof (child_longer t Hwf g p Hc) as Hl. split; [intros ->; lia|].
  apply not_true_iff_false. intros [r Hr]%startswith_spec. rewrite Hr, !str_app_length in Hl. lia.
Qed.

(** ** Requests keep the tree *)

Section Requests.
Context (like : string -> string -> bool).
Hypothesis like_plain : forall q s, plain q = true -> plain s = true -> like q s = startswith q s.

Lemma like_below t g r :
  tree_wf t -> g ∈ t -> r ∈ t -> like (g_path g ++ "/") (g_path r) = startswith (g_path g ++ "/") (g_path r).
Proof.
  intros Hwf Hg Hr. apply like_plain; [|by apply (plain_path t)].
  unfold plain. rewrite str_forall_app. apply andb_true_iff. split; [by apply (plain_path t)|done].
Qed.

Lemma moved_table g path depth parent_id u d x d1 :
  tree_wf (groups d) -> g ∈ groups d ->
  move_subtree like g path depth parent_id d = (Ok x, d1) ->
  (sql_update (has_key g_id (g_id g)) (apply_fields u) (groups d1)).1
  = map (relocate g path depth parent_id u) (groups d).
Proof.
  intros Hwf Hg [= _ <-]. unfold sql_update; cbn [fst set_groups groups]. rewrite !map_map. apply map_ext_in.
  intros r Hr%list_elem_of_In. rewrite (like_below (groups d)) by done. unfold relocate, has_key.
  destruct (startswith _ _); cbn [move_row g_id]; destruct (String.eqb (g_id r) (g_id g)) eqn:E;
    cbn [place_row move_row g_id]; by rewrite ?E.
Qed.

Lemma flush_Ok d x d' : flush d = (Ok x, d') -> d' = d /\ NoDup (g_name <$> groups d) /\ NoDup (g_id <$> groups d).
Proof.
  unfold flush, get_groups. unfold_M. destruct (bool_decide _ && _) eqn:E; [|done]. intros [= _ <-].
  by apply andb_true_iff in E as [?%bool_decide_eq_true ?%bool_decide_eq_true].
Qed.

Lemma reparent_Ok g n parent_id d x d' :
  reparent like g n parent_id d = (Ok x, d') ->
  exists path depth, new_home (groups d) g parent_id n path depth
    /\ move_subtree like g path depth parent_id d = (Ok x, d').
Proof.
  unfold reparent, get_groups, new_home. unfold_M. case_bool_decide; [done|].
  destruct (truthy_id parent_id) as [pid|]; [|by intros; do 2 eexists].
  destruct (sql_find g_id pid (groups d)) as [p|] eqn:Ef; [|done].
  destruct (_ || _) eqn:E; [done|]. apply orb_false_iff in E as [E1 E2].
  apply sql_find_Some_1 in Ef as [Hp <-]. intros H'. do 2 eexists. split; [|exact H'].
  exists p. repeat split; [done| |done]. intros ->. by rewrite String.eqb_refl in E2.
Qed.

Lemma rename_Ok g n d x d' :
  tree_wf (groups d) -> g ∈ groups d ->
  rename like g n d = (Ok x, d') ->
  exists path depth, new_home (groups d) g (g_parent_id g) n path depth
    /\ move_subtree like g path depth (g_parent_id g) d = (Ok x, d').
Proof.
  intros Hwf Hg. unfold rename, get_groups, new_home. unfold_M.
  destruct (root_or_child _ Hwf g Hg) as [(E & _ & Ed)|(p & Hc & _ & Ed)].
  - rewrite E. intros H. do 2 eexists. split; [|exact H]. done.
  - destruct (parent_not_inside _ g p Hwf Hc) as [Hne Hs]. destruct Hc as (_ & Hp & E).
    rewrite E, (sql_find_Some g_id _ _ p (wf_ids _ Hwf) Hp eq_refl).
    intros H. do 2 eexists. split; [|exact H]. by exists p.
Qed.

(** The end of [update_group]: the remaining fields and the [flush]. *)
Lemma finish_update_Ok {A} id u (k : GroupM A) d x d' :
  (forall d0, (k d0).2 = d0) ->
  (modify (fun d => set_groups (sql_update (has_key g_id id) (apply_fields u) (groups d)).1 d);; flush;; k) d
    = (Ok x, d') ->
  groups d' = (sql_update (has_key g_id id) (apply_fields u) (groups d)).1
  /\ NoDup (g_name <$> groups d').
Proof.
  intros Hk. unfold mbind, M_bind, modify.
  destruct (flush _) as [[[]|e] d1] eqn:Ef; [|done].
  apply flush_Ok in Ef as (-> & Hn & _). intros H. pose proof (Hk (set_groups (sql_update (has_key g_id id) (apply_fields u) (groups d)).1 d)) as Hd.
  rewrite H in Hd. cbn [snd] in Hd. subst d'. by split.
Qed.

Lemma moved_update_wf g u parent_id path depth d x d1 t' :
  tree_wf (groups d) -> g ∈ groups d -> clean_name (updated_name u g) = true ->
  new_home (groups d) g parent_id (updated_name u g) path depth ->
  move_subtree like g path depth parent_id d = (Ok x, d1) ->
  t' = (sql_update (has_key g_id (g_id g)) (apply_fields u) (groups d1)).1 ->
  NoDup (g_name <$> t') -> tree_wf t'.
Proof.
  intros Hwf Hg Hc Hhome Hm -> Hn.
  rewrite (moved_table _ _ _ _ _ _ _ _ Hwf Hg Hm) in *. by apply relocate_wf.
Qed.

Lemma update_group_wf id u d x d' :
  clean_request (Update id u) = true -> tree_wf (groups d) ->
  update_group like id u d = (Ok x, d') -> tree_wf (groups d').
Proof.
  intros Hc Hwf. unfold update_group, get_groups.
  rewrite (bind_Ok _ _ d (groups d) d) by done.
  destruct (sql_find g_id id (groups d)) as [g|] eqn:Ef; [|by intros [=]].
  apply sql_find_Some_1 in Ef as [Hg <-].
  lazymatch goal with |- (if ?b then _ else _) _ = _ -> _ => destruct b end; [by intros [=]|].
  step_M [] d1 Emid.
  destruct (gu_name u) as [[n|]|] eqn:En; [|by intros [=]|];
    rewrite (bind_Ok _ _ _ tt d1) by done; intros [Et Hn]%finish_update_Ok; try done.
  - assert (updated_name u g = n) as Eu by (unfold updated_name, apply_fields; cbn; by rewrite En).
    cbn [name_str default] in Emid. cbn in Hc. rewrite En in Hc. rewrite <- Eu in *.
    destruct (gu_parent_id u) as [np|].
    + apply reparent_Ok in Emid as (path & depth & Hh & Hm). by eapply moved_update_wf.
    + apply rename_Ok in Emid as (path & depth & Hh & Hm); [|done..]. by eapply moved_update_wf.
  - assert (updated_name u g = g_name g) as Eu by (unfold updated_name, apply_fields; cbn; by rewrite En).
    destruct (gu_parent_id u) as [np|].
    + apply reparent_Ok in Emid as (path & depth & Hh & Hm). rewrite <- Eu in Hh.
      eapply moved_update_wf; [done|done| |done..]. rewrite Eu. by apply Hwf.
    + injection Emid as <-. rewrite Et. apply same_columns_wf; [done|].
      intros r. case_match; [|done]. unfold apply_fields; cbn. by rewrite En.
Qed.

Lemma insert_row_wf t g :
  tree_wf t -> clean_name (g_name g) = true -> placed t (g_parent_id g) (g_name g) (g_path g) (g_depth g) ->
  NoDup (g_name <$> (t ++ [g])%list) -> NoDup (g_id <$> (t ++ [g])%list) -> tree_wf (t ++ [g])%list.
Proof.
  intros Hwf Hc Hg Hn Hi.
  assert (forall np n path depth, placed t np n path depth -> placed (t ++ [g])%list np n path depth) as Hmono.
  { unfold placed. intros np n path depth. destruct (truthy_id np); [|done]. intros (p & ? & H).
    exists p. split; [apply elem_of_app; by left|done]. }
  constructor; [done|done| |]; intros r [Hr| ->%list_elem_of_singleton]%elem_of_app.
  - by apply Hwf.
  - done.
  - by apply Hmono, Hwf.
  - by apply Hmono.
Qed.

Lemma create_group_wf id c d x d' :
  clean_request (Create id c) = true -> tree_wf (groups d) ->
  create_group id c d = (Ok x, d') -> tree_wf (groups d').
Proof.
  intros Hc Hwf. unfold create_group, get_groups.
  rewrite (bind_Ok _ _ d (groups d) d) by done.
  destruct (negb _); [by intros [=]|]. destruct (sql_find g_name _ _); [by intros [=]|].
  step_M parent d1 Ep.
  assert (d1 = d /\ match parent with
          | Some p => p ∈ groups d /\ truthy_id (gc_parent_id c) = Some (g_id p)
          | None => truthy_id (gc_parent_id c) = None end) as [-> Hp].
  { destruct (truthy_id (gc_parent_id c)) as [pid|].
    - destruct (sql_find g_id pid (groups d)) as [p|] eqn:E; [|done].
      apply sql_find_Some_1 in E as [? <-]. by injection Ep as <- <-.
    - by injection Ep as <- <-. }
  intros Hrun.
  destruct parent as [p|]; revert Hrun; unfold mbind, M_bind, modify;
    (destruct (flush _) as [[[]|e] d1] eqn:Ef; [|done]);
    apply flush_Ok in Ef as (-> & Hn & Hi); intros [= _ <-]; apply insert_row_wf; try done;
    cbn [g_name g_parent_id g_path g_depth]; unfold placed.
  - destruct Hp as [Hp ->]. by exists p.
  - by rewrite Hp.
Qed.

Lemma truthy_id_Some x s : truthy_id x = Some s -> x = Some s.
Proof. destruct x as [y|]; cbn; [|done]. by destruct (String.eqb y ""). Qed.

Lemma delete_leaf_wf t id :
  tree_wf t -> (forall r, r ∈ t -> truthy_id (g_parent_id r) ≠ Some id) ->
  tree_wf (sql_delete (has_key g_id id) t).1.
Proof.
  intros Hwf Hleaf. constructor.
  - apply keys_unique_delete, Hwf.
  - apply (keys_unique_delete g_name), Hwf.
  - intros r [Hr _]%elem_of_delete. by apply Hwf.
  - intros r [Hr _]%elem_of_delete. pose proof (wf_placed _ Hwf r Hr) as H. unfold placed in *.
    destruct (truthy_id _) as [pid|] eqn:E; [|done]. destruct H as (p & Hp & Hid & H).
    exists p. split; [|by split]. apply elem_of_delete. split; [done|]. apply has_key_false. intros <-.
    by apply (Hleaf r Hr); rewrite E, Hid.
Qed.

Lemma delete_group_wf id d x d' :
  tree_wf (groups d) -> delete_group id d = (Ok x, d') -> tree_wf (groups d').
Proof.
  intros Hwf. unfold delete_group. rewrite (bind_Ok _ _ d d d) by done.
  destruct (sql_find g_id id (groups d)); [|done].
  destruct (Z.ltb_spec 0 (sql_count (fun r => bool_decide (g_parent_id r = Some id)) (groups d))) as [|Hc]; [done|].
  destruct (0 <? _)%Z; [done|]. intros [= _ <-]. cbn [set_groups groups].
  apply delete_leaf_wf; [done|]. intros r Hr E%truthy_id_Some. unfold sql_count in Hc.
  destruct (sql_select _ _) as [|y l] eqn:Es; [|cbn in Hc; lia].
  apply (not_elem_of_nil r). rewrite <- Es. apply elem_of_sql_select. split; [done|].
  by apply bool_decide_eq_true.
Qed.

Lemma serve_wf r d : clean_request r = true -> tree_wf (groups d) -> tree_wf (groups (serve like r d)).
Proof.
  intros Hc Hwf. destruct r as [id c|id u|id]; cbn [serve]; unfold with_db.
  - destruct (create_group id c d) as [[x|e] d'] eqn:E; [by eapply create_group_wf|done].
  - destruct (update_group like id u d) as [[x|e] d'] eqn:E; [by eapply update_group_wf|done].
  - destruct (delete_group id d) as [[x|e] d'] eqn:E; [by eapply delete_group_wf|done].
Qed.

Lemma serve_all_wf rs d :
  forallb clean_request rs = true -> tree_wf (groups d) -> tree_wf (groups (serve_all like rs d)).
Proof.
  revert d; induction rs as [|r rs IH]; intros d; [done|]. cbn [forallb]. intros [Hr Hrs]%andb_true_iff Hwf.
  apply IH; [done|]. by apply serve_wf.
Qed.
End Requests.

(** *** Whatever the names *)

(** What no request can break: ids and names are unique and every parent exists. *)
Record linked (t : list DeviceGroup) : Prop := {
  lk_ids : NoDup (g_id <$> t);
  lk_names : NoDup (g_name <$> t);
  lk_parents r pid : r ∈ t -> truthy_id (g_parent_id r) = Some pid -> pid ∈ g_id <$> t
}.

(** Every parent is among [ids]. *)
Definition parents_in (ids : list string) (t : list DeviceGroup) : Prop :=
  forall r pid, r ∈ t -> truthy_id (g_parent_id r) = Some pid -> pid ∈ ids.

Section AnyNames.
Variable like : string -> string -> bool.

Lemma update_parents ids P f t : parents_in ids t ->
  (forall r pid, r ∈ t -> truthy_id (g_parent_id (f r)) = Some pid -> g_parent_id (f r) = g_parent_id r \/ pid ∈ ids) ->
  parents_in ids (sql_update P f t).1.
Proof.
  intros Ht Hf x pid (r & Hr & ->)%elem_of_update. destruct (P r); [|by apply Ht].
  intros E. destruct (Hf r pid Hr E) as [E'|]; [|done]. apply (Ht r); [done|congruence].
Qed.

Lemma move_subtree_linked g path depth np d x d' :
  parents_in (g_id <$> groups d) (groups d) -> (forall pid, truthy_id np = Some pid -> pid ∈ g_id <$> groups d) ->
  move_subtree like g path depth np d = (Ok x, d') ->
  g_id <$> groups d' = g_id <$> groups d /\ parents_in (g_id <$> groups d) (groups d').
Proof.
  intros Hp Hnp Hm. apply (f_equal snd) in Hm. unfold move_subtree, modify in Hm. cbn [snd] in Hm. subst d'. cbn [groups set_groups].
  split; [by rewrite !update_keys|].
  apply update_parents; [apply update_parents; [done|by left]|]. intros r pid _ E. right. by apply Hnp.
Qed.

Lemma found_id pid t p : sql_find g_id pid t = Some p -> pid ∈ g_id <$> t.
Proof. intros [Hp <-]%sql_find_Some_1. by apply list_elem_of_fmap_2. Qed.

Lemma reparent_linked g n np d x d' : parents_in (g_id <$> groups d) (groups d) ->
  reparent like g n np d = (Ok x, d') ->
  g_id <$> groups d' = g_id <$> groups d /\ parents_in (g_id <$> groups d) (groups d').
Proof.
  intros Hp (path & depth & Hh & Hm)%reparent_Ok. apply (move_subtree_linked g path depth np d x); [done| |done].
  intros pid E. unfold new_home in Hh. rewrite E in Hh. destruct Hh as (p & Hin & <- & _). by apply list_elem_of_fmap_2.
Qed.

Lemma rename_linked g n d x d' : g ∈ groups d -> parents_in (g_id <$> groups d) (groups d) ->
  rename like g n d = (Ok x, d') ->
  g_id <$> groups d' = g_id <$> groups d /\ parents_in (g_id <$> groups d) (groups d').
Proof.
  intros Hg Hp. unfold rename, get_groups. rewrite (bind_Ok _ _ d (groups d) d) by done.
  step_M path d1 E. intros Hm. assert (d1 = d) as -> by (by repeat case_match; injection E).
  apply (move_subtree_linked g path (g_depth g) (g_parent_id g) d x); [done| |done]. intros pid. by apply Hp.
Qed.

Lemma update_group_linked id u d x d' : linked (groups d) -> update_group like id u d = (Ok x, d') -> linked (groups d').
Proof.
  intros Hl. pose proof (lk_parents _ Hl) as Hp. unfold update_group, get_groups. rewrite (bind_Ok _ _ d (groups d) d) by done.
  destruct (sql_find g_id id (groups d)) as [g|] eqn:Ef; [|by intros [=]]. apply sql_find_Some_1 in Ef as [Hg _].
  lazymatch goal with |- (if ?b then _ else _) _ = _ -> _ => destruct b end; [by intros [=]|].
  step_M [] d1 Emid. step_M [] d2 En. assert (d2 = d1) as -> by (by repeat case_match; injection En).
  intros [Et Hn]%finish_update_Ok; [|done].
  assert (g_id <$> groups d1 = g_id <$> groups d /\ parents_in (g_id <$> groups d) (groups d1)) as [Ei Hp1].
  { destruct (gu_parent_id u); [by eapply reparent_linked|]. destruct (gu_name u); [by eapply rename_linked|]. by injection Emid as <-. }
  constructor; [|done|]; rewrite Et, ?update_keys, Ei by done; [apply Hl|].
  apply update_parents; [done|by left].
Qed.

Lemma create_group_linked id c d x d' : linked (groups d) -> create_group id c d = (Ok x, d') -> linked (groups d').
Proof.
  intros Hl. pose proof (lk_parents _ Hl) as Hp. unfold create_group, get_groups. rewrite (bind_Ok _ _ d (groups d) d) by done.
  destruct (negb _); [by intros [=]|]. destruct (sql_find g_name _ _); [by intros [=]|]. step_M parent d1 Ep.
  assert (d1 = d /\ forall pid, truthy_id (gc_parent_id c) = Some pid -> pid ∈ g_id <$> groups d) as [-> Hnew].
  { destruct (truthy_id (gc_parent_id c)) as [pid|]; [|by injection Ep as _ <-].
    destruct (sql_find g_id pid (groups d)) as [p|] eqn:E; [|done]. injection Ep as _ <-. split; [done|].
    intros ? [= <-]. by eapply found_id. }
  destruct (match parent with Some _ => _ | None => _ end) as [path depth]. unfold mbind, M_bind, modify.
  destruct (flush _) as [[[]|e] d1] eqn:Ef; [|done]. apply flush_Ok in Ef as (-> & Hn & Hi). intros [= _ <-].
  constructor; [done|done|]. cbn [groups set_groups]. rewrite fmap_app.
  intros r pid [Hr| ->%list_elem_of_singleton]%elem_of_app E; apply elem_of_app; left; [by eapply Hp|by apply Hnew].
Qed.

Lemma delete_group_linked id d x d' : linked (groups d) -> delete_group id d = (Ok x, d') -> linked (groups d').
Proof.
  intros Hl. unfold delete_group. rewrite (bind_Ok _ _ d d d) by done.
  destruct (sql_find g_id id (groups d)); [|done].
  destruct (Z.ltb_spec 0 (sql_count (fun r => bool_decide (g_parent_id r = Some id)) (groups d))) as [|Hc]; [done|].
  destruct (0 <? _)%Z; [done|]. intros [= _ <-]. cbn [set_groups groups].
  constructor; [apply keys_unique_delete, Hl|apply (keys_unique_delete g_name), Hl|].
  intros r pid [Hr _]%elem_of_delete E. pose proof (lk_parents _ Hl r pid Hr E) as (p & -> & Hp)%list_elem_of_fmap.
  apply list_elem_of_fmap_2, elem_of_delete. split; [done|]. apply has_key_false. intros Eid.
  unfold sql_count in Hc. destruct (sql_select _ _) as [|y l] eqn:Es; [|cbn in Hc; lia].
  apply (not_elem_of_nil r). rewrite <- Es. apply elem_of_sql_select. split; [done|].
  apply bool_decide_eq_true. rewrite <- Eid. by apply truthy_id_Some.
Qed.

Lemma serve_all_linked rs d : linked (groups d) -> linked (groups (serve_all like rs d)).
Proof.
  revert d. induction rs as [|r rs IH]; intros d Hl; [done|]. apply IH. clear IH. destruct r as [id c|id u|id]; cbn [serve]; unfold with_db.
  - destruct (create_group id c d) as [[x|e] d'] eqn:E; [by eapply create_group_linked|done].
  - destruct (update_group like id u d) as [[x|e] d'] eqn:E; [by eapply update_group_linked|done].
  - destruct (delete_group id d) as [[x|e] d'] eqn:E; [by eapply delete_group_linked|done].
Qed.
End AnyNames.

Lemma tree_linked t : tree_wf t -> linked t.
Proof.
  intros Hwf. constructor; [apply Hwf|apply Hwf|]. intros r pid Hr E. pose proof (wf_placed _ Hwf r Hr) as H.
  unfold placed in H. rewrite E in H. destruct H as (p & Hp & <- & _). by apply list_elem_of_fmap_2.
Qed.

Lemma below_longer t r g :
  tree_wf t -> below t r g -> (String.length (g_path g) < String.length (g_path r))%nat.
Proof. intros Hwf. induction 1 as [r g H|r p g H _ IH]; apply (child_longer _ Hwf) in H; lia. Qed.

(** ** Requests of the controller

    A group tree used by the witnesses. *)

Definition plain_create (name : string) (parent_id : option string) : DeviceGroupCreate :=
  {| gc_name := name; gc_description := None; gc_parent_id := parent_id;
     gc_default_workflow_id := None; gc_auto_provision := None |}.

Definition move_to (parent_id : option string) : DeviceGroupUpdate :=
  {| gu_name := None; gu_description := None; gu_parent_id := Some parent_id;
     gu_default_workflow_id := None; gu_auto_provision := None |}.

Definition sample_requests : list group_request :=
  [Create "1" (plain_create "eu" None); Create "2" (plain_create "paris" (Some "1"));
   Create "3" (plain_create "rack1" (Some "2")); Create "4" (plain_create "us" None);
   Update "2" (move_to (Some "4"));
   Update "3" {| gu_name := Some (Some "row1"); gu_description := None; gu_parent_id := None;
                 gu_default_workflow_id := Some (Some "wf"); gu_auto_provision := None |};
   Update "4" (move_to (Some "3")); Delete "2"; Delete "1"].

Example sample_paths :
  map (fun r => (g_path r, g_depth r)) (groups (serve_all startswith sample_requests no_groups))
  = [("/us/paris", 1%Z); ("/us/paris/row1", 2%Z); ("/us", 0%Z)].
Proof. vm_compute. reflexivity. Qed.

Lemma no_groups_wf : tree_wf (groups no_groups).
Proof. constructor; try constructor; intros r Hr; by apply not_elem_of_nil in Hr. Qed.

(** ** Ancestors and settings *)

Lemma ancestors_chain t : tree_wf t -> forall r, r ∈ t ->
  exists anc,
    walk_up (Z.to_nat (g_depth r)) t (g_parent_id r) = Some anc
    /\ Z.of_nat (length anc) = g_depth r
    /\ (forall i a b, (r :: anc) !! i = Some a -> (r :: anc) !! S i = Some b -> child_of t a b)
    /\ (forall wf auto,
          inherit (Z.to_nat (g_depth r)) t (g_parent_id r) wf auto
          = Some (or_some wf (first_set g_default_workflow_id anc), or_some auto (first_set g_auto_provision anc))).
Proof.
  intros Hwf. apply (tree_ind t Hwf).
  - intros r Hr E. destruct (root_or_child t Hwf r Hr) as [(_ & _ & ->)|(p & (_ & _ & E') & _)]; [|congruence].
    exists []. change (Z.to_nat 0) with 0%nat. cbn [walk_up inherit]. rewrite E. split; [done|]. split; [done|]. split; [by intros [|i]|].
    by intros [?|] [?|].
  - intros r p Hc (anc & Hwalk & Hlen & Hchain & Hinh).
    pose proof (child_place t Hwf r p Hc) as [_ Hd]. pose proof Hc as (Hr & Hp & E).
    replace (Z.to_nat (g_depth r)) with (S (Z.to_nat (g_depth p))) by lia.
    pose proof (sql_find_Some g_id t _ p (wf_ids _ Hwf) Hp eq_refl) as Hf.
    exists (p :: anc). cbn [walk_up inherit]. rewrite E, Hf, Hwalk.
    split; [done|]. split; [cbn [length]; lia|]. split.
    + intros [|i] a b Ha Hb; [|by eapply Hchain]. cbn in Ha, Hb. by simplify_eq.
    + intros wf auto. rewrite Hinh. unfold first_set. cbn [omap list_omap].
      by destruct wf, auto, (g_default_workflow_id p), (g_auto_provision p).
Qed.

(** ** The properties *)



(** C14: in a well-formed table the query by path prefix returns exactly the
    groups below the given one, and listing a group's nodes with its
    descendants returns exactly the nodes of the group and of those groups. *)
Theorem descendants_are_the_subtree like d g
  (Hlike : forall q s, plain q = true -> plain s = true -> like q s = startswith q s)
  (Hwf : tree_wf (groups d)) (Hg : g ∈ groups d) :
  (exists l, get_group_descendants like (g_id g) (groups d) = Some l
        /\ forall r, r ∈ l <-> below (groups d) r g)
  /\ exists ns, list_group_nodes like (g_id g) true d = Some ns
        /\ forall n, n ∈ ns <-> exists gid, (n, gid) ∈ node_groups d
                        /\ (gid = g_id g \/ exists r, below (groups d) r g /\ g_id r = gid).
Proof.
  pose proof (sql_find_Some g_id _ _ g (wf_ids _ Hwf) Hg eq_refl) as Hf.
  assert (forall r, r ∈ sql_select (fun r => like (g_path g ++ "/") (g_path r)) (groups d) <-> below (groups d) r g) as Hsel.
  { intros r. rewrite elem_of_sql_select. split.
    - intros [Hr E]. rewrite (like_below like Hlike (groups d)) in E by done. by apply (prefix_below (groups d)).
    - intros H. assert (r ∈ groups d) as Hr by (destruct H as [? ? H|? ? ? H]; apply H).
      split; [done|]. rewrite (like_below like Hlike (groups d)) by done. by apply (prefix_below (groups d)). }
  unfold get_group_descendants, list_group_nodes. rewrite Hf. split; (eexists; split; [reflexivity|]); [done|].
  intros n. change (map fst) with (fmap (M := list) (@fst string string)).
  rewrite list_elem_of_fmap. split.
  - intros ([n' gid] & -> & [Hn E%bool_decide_eq_true]%elem_of_sql_select). exists gid. split; [done|].
    apply elem_of_cons in E as [E|E]; [by left|right].
    apply list_elem_of_fmap in E as (r & E & Hr%Hsel). by exists r.
  - intros (gid & Hn & E). exists (n, gid). split; [done|]. apply elem_of_sql_select. split; [done|].
    apply bool_decide_eq_true, elem_of_cons. cbn [snd]. destruct E as [E|(r & Hr%Hsel & <-)]; [by left|right].
    by apply (list_elem_of_fmap_2 g_id).
Qed.

(** C15: the walk up the parents ends after as many steps as the group is deep,
    in a root, and the effective workflow and provisioning flag are those of the
    nearest group that sets them, the flag being false when none does. *)
Theorem effective_settings_nearest t g (Hwf : tree_wf t) (Hg : g ∈ t) :
  exists anc,
    get_group_ancestors (Z.to_nat (g_depth g)) (g_id g) t = Some anc
    /\ Z.of_nat (length anc) = g_depth g
    /\ (forall i a b, (g :: anc) !! i = Some a -> (g :: anc) !! S i = Some b -> child_of t a b)
    /\ compute_effective_settings (Z.to_nat (g_depth g)) g t
       = Some (first_set g_default_workflow_id (g :: anc),
               default false (first_set g_auto_provision (g :: anc))).
Proof.
  destruct (ancestors_chain t Hwf g Hg) as (anc & Hwalk & Hlen & Hchain & Hinh).
  exists anc. unfold get_group_ancestors, compute_effective_settings.
  rewrite (sql_find_Some g_id t _ g (wf_ids _ Hwf) Hg eq_refl), Hinh.
  split; [done|]. split; [done|]. split; [exact Hchain|]. unfold first_set. cbn.
  by destruct (g_default_workflow_id g), (g_auto_provision g).
Qed.

Definition settings_requests : list group_request :=
  [Create "1" {| gc_name := "eu"; gc_description := None; gc_parent_id := None;
                 gc_default_workflow_id := Some "wf"; gc_auto_provision := Some true |};
   Create "2" (plain_create "paris" (Some "1"));
   Create "3" {| gc_name := "rack1"; gc_description := None; gc_parent_id := Some "2";
                 gc_default_workflow_id := None; gc_auto_provision := Some false |}].

Definition settings_db : GroupDB := serve_all startswith settings_requests no_groups.

Definition rack1 : DeviceGroup :=
  {| g_id := "3"; g_name := "rack1"; g_description := None; g_parent_id := Some "2";
     g_path := "/eu/paris/rack1"; g_depth := 2; g_default_workflow_id := None;
     g_auto_provision := Some false |}.

Lemma settings_db_wf : tree_wf (groups settings_db).
Proof. apply serve_all_wf; [done|reflexivity|apply no_groups_wf]. Qed.

Lemma rack1_in_settings_db : rack1 ∈ groups settings_db.
Proof. vm_compute. do 2 constructor 2. constructor 1. Qed.

Example rack1_settings :
  compute_effective_settings 2 rack1 (groups settings_db) = Some (Some "wf", false).
Proof. reflexivity. Qed.

Lemma descendants_are_the_subtree_witness :
  (exists l, get_group_descendants startswith "3" (groups settings_db) = Some l
        /\ forall r, r ∈ l <-> below (groups settings_db) r rack1)
  /\ exists ns, list_group_nodes startswith "3" true settings_db = Some ns
        /\ forall n, n ∈ ns <-> exists gid, (n, gid) ∈ node_groups settings_db
                        /\ (gid = "3" \/ exists r, below (groups settings_db) r rack1 /\ g_id r = gid).
Proof.
  exact (descendants_are_the_subtree startswith settings_db rack1 (fun q s _ _ => eq_refl)
           settings_db_wf rack1_in_settings_db).
Defined.

Lemma effective_settings_nearest_witness :
  exists anc,
    get_group_ancestors 2 "3" (groups settings_db) = Some anc
    /\ Z.of_nat (length anc) = 2%Z
    /\ (forall i a b, (rack1 :: anc) !! i = Some a -> (rack1 :: anc) !! S i = Some b -> child_of (groups settings_db) a b)
    /\ compute_effective_settings 2 rack1 (groups settings_db)
       = Some (first_set g_default_workflow_id (rack1 :: anc),
               default false (first_set g_auto_provision (rack1 :: anc))).
Proof. exact (effective_settings_nearest (groups settings_db) rack1 settings_db_wf rack1_in_settings_db). Defined.

(** *** Names that differ in case *)

Definition no_wildcard (s : string) : bool :=
  str_forall (fun c => negb (Ascii.eqb c "%") && negb (Ascii.eqb c "_")) s.

Definition case_requests : list group_request :=
  [Create "1" (plain_create "web" None); Create "2" (plain_create "Web" None);
   Create "3" (plain_create "cache" (Some "2")); Create "4" (plain_create "top" None);
   Update "1" (move_to (Some "4"))].

(** A request's query is by the path of its group only. *)
Lemma move_subtree_ext like like' g path depth parent_id d :
  (forall s, like (g_path g ++ "/") s = like' (g_path g ++ "/") s) ->
  move_subtree like g path depth parent_id d = move_subtree like' g path depth parent_id d.
Proof.
  intros H. unfold move_subtree, modify, sql_update. cbn [fst].
  erewrite (map_ext (fun r => if like _ _ then _ else _)); [done|]. intros r. cbv beta. by rewrite H.
Qed.

Lemma update_group_ext like like' id u d :
  (forall g, sql_find g_id id (groups d) = Some g -> forall s, like (g_path g ++ "/") s = like' (g_path g ++ "/") s) ->
  update_group like id u d = update_group like' id u d.
Proof.
  intros H. unfold update_group, get_groups. rewrite !(bind_Ok _ _ d (groups d) d) by done.
  destruct (sql_find g_id id (groups d)) as [g|]; [|done]. specialize (H g eq_refl).
  lazymatch goal with |- (if ?b then _ else _) _ = _ => destruct b end; [done|].
  lazymatch goal with |- (?m ≫= _) d = (?m' ≫= _) d => assert (m d = m' d) as E end;
    [|unfold mbind at 1, M_bind at 1; rewrite E; reflexivity].
  destruct (gu_parent_id u) as [np|]; [|destruct (gu_name u) as [n|]; [|done]].
  - unfold reparent, get_groups. unfold_M. case_bool_decide; [done|].
    repeat case_match; try done; by apply move_subtree_ext.
  - unfold rename, get_groups. rewrite !(bind_Ok _ _ d (groups d) d) by done. unfold mbind, M_bind.
    lazymatch goal with |- match ?r with _ => _ end = _ => destruct r as [[path|e] d'] end; [|done].
    by apply move_subtree_ext.
Qed.

(** On a database whose [LIKE] ignores the case of letters, as SQLite's
    does, moving the group "web" changes the depth of a group below "Web", and
    the tree is no longer well-formed. *)
Theorem move_disturbs_names_of_other_case like
  (Hlike : forall q s, no_wildcard q = true -> like q s = startswith (lower q) (lower s)) :
  let t := groups (serve_all like case_requests no_groups) in
  (exists g p, sql_find g_id "3" t = Some g /\ sql_find g_id "2" t = Some p
          /\ g_parent_id g = Some "2" /\ g_depth p = 0%Z /\ g_depth g = 2%Z)
  /\ ~ tree_wf t.
Proof.
  set (t := groups _).
  assert (t = groups (serve_all (fun q s => startswith (lower q) (lower s)) case_requests no_groups)) as ->.
  { subst t. unfold serve_all, case_requests. cbn [foldl serve].
    set (d := snd (with_db (create_group "4" _) _)). vm_compute in d. unfold with_db.
    rewrite (update_group_ext like (fun q s => startswith (lower q) (lower s))); [done|].
    intros g [= <-] s. by apply Hlike. }
  clear Hlike. set (t := groups _).
  assert (exists g p, sql_find g_id "3" t = Some g /\ sql_find g_id "2" t = Some p
          /\ g_parent_id g = Some "2" /\ g_depth p = 0%Z /\ g_depth g = 2%Z) as H
    by by (do 2 eexists; repeat split; reflexivity).
  split; [done|]. intros Hwf. destruct H as (g & p & Hg & Hp & E & Dp & Dg).
  apply sql_find_Some_1 in Hg as [Hg _], Hp as [Hp Ep].
  destruct (child_place t Hwf g p) as [_ D]; [|lia]. split; [done|]. split; [done|]. by rewrite E, Ep.
Qed.

Lemma move_disturbs_names_of_other_case_witness :
  let t := groups (serve_all (fun q s => startswith (lower q) (lower s)) case_requests no_groups) in
  (exists g p, sql_find g_id "3" t = Some g /\ sql_find g_id "2" t = Some p
          /\ g_parent_id g = Some "2" /\ g_depth p = 0%Z /\ g_depth g = 2%Z)
  /\ ~ tree_wf t.
Proof. exact (move_disturbs_names_of_other_case _ (fun q s _ => eq_refl)). Defined.

(** A root named "a/b" is listed among the descendants of the root "a". *)
Example slash_name_is_taken_for_a_descendant :
  let t := groups (serve_all startswith [Create "1" (plain_create "a" None); Create "2" (plain_create "a/b" None)] no_groups) in
  option_map (map g_id) (get_group_descendants startswith "1" t) = Some ["2"]
  /\ map g_parent_id t = [None; None].
Proof. by split. Qed.
