(* ===== verification/ContentCache.v ===== *)
(** * The agent's content cache

    [agent/cache/content_cache.py]: boot files on disk with their metadata.
    The state holds the object's fields, the files on disk and the metadata file
    as last saved.  Paths are [pathlib]'s pure POSIX paths; files are a map from
    paths to contents, so directories and the file system's own errors are not
    modelled.  The [asyncio] lock is a flag: a task that waits for a lock nobody
    will release gets [Deadlock] and the lock stays taken. *)
From S2P Require Import Prelude PyStr SqlTable Paths.
From stdpp Require Import base tactics list strings gmap countable.
From Stdlib Require Import Ascii ZArith Lia.
Open Scope string_scope.
#[local] Arguments String.append !_ _ : simpl nomatch.

(** ** Patterns *)

Definition in_range (lo hi c : ascii) : bool :=
  (N_of_ascii lo <=? N_of_ascii c)%N && (N_of_ascii c <=? N_of_ascii hi)%N.

(** The inside of [[...]]: ranges and single characters. *)
Fixpoint in_set (items : list ascii) (c : ascii) : bool :=
  match items with
  | [] => false
  | lo :: rest =>
      match rest with
      | "-"%char :: hi :: rest' => in_range lo hi c || in_set rest' c
      | _ => Ascii.eqb lo c || in_set rest c
      end
  end.

(** The characters up to the closing bracket, and the rest of the pattern; a
    bracket in first place does not close. *)
Fixpoint set_body (first : bool) (p : list ascii) : option (list ascii * list ascii) :=
  match p with
  | [] => None
  | c :: p' =>
      if Ascii.eqb c "]" && negb first then Some ([], p')
      else '(b, rest) ← set_body false p'; Some (c :: b, rest)
  end.

(** [fnmatch.fnmatch(name, pattern)] on lists of characters. *)
Fixpoint glob (fuel : nat) (p s : list ascii) : bool :=
  match fuel with
  | O => false
  | S fuel =>
      match p, s with
      | [], [] => true
      | [], _ => false
      | "*"%char :: p', [] => glob fuel p' []
      | "*"%char :: p', _ :: s' => glob fuel p' s || glob fuel p s'
      | "?"%char :: p', _ :: s' => glob fuel p' s'
      | "["%char :: p', d :: s' =>
          let '(neg, q) := match p' with "!"%char :: q => (true, q) | _ => (false, p') end in
          match set_body true q with
          | Some (b, rest) => xorb neg (in_set b d) && glob fuel rest s'
          | None => Ascii.eqb d "[" && glob fuel p' s'
          end
      | c :: p', d :: s' => Ascii.eqb c d && glob fuel p' s'
      | _ :: _, [] => false
      end
  end.

Definition fnmatch (name pattern : string) : bool :=
  let p := String.list_ascii_of_string pattern in
  let s := String.list_ascii_of_string name in
  glob (S (length p + length s)) p s.

(** ** Data *)

(** [OtherPolicy] is a string [update_config] may set that is none of the four. *)
Inductive CachePolicy : Type := Minimal | Assigned | Mirror | Pattern | OtherPolicy (s : string).

Record CacheCategory := {
  cc_name : string;
  cc_always_cache : bool;
  cc_max_age_days : option Z;
  cc_priority : Z
}.

Definition DEFAULT_CATEGORIES : list (string * CacheCategory) :=
  [("bootloaders", {| cc_name := "bootloaders"; cc_always_cache := true; cc_max_age_days := None; cc_priority := 100 |});
   ("scripts", {| cc_name := "scripts"; cc_always_cache := false; cc_max_age_days := Some 1%Z; cc_priority := 10 |});
   ("templates", {| cc_name := "templates"; cc_always_cache := false; cc_max_age_days := Some 7%Z; cc_priority := 50 |});
   ("images", {| cc_name := "images"; cc_always_cache := false; cc_max_age_days := Some 30%Z; cc_priority := 30 |})].

Record CacheEntry := {
  ce_path : string;
  ce_category : string;
  ce_size_bytes : Z;
  ce_cached_at : Z;
  ce_last_accessed : Z;
  ce_expires_at : option Z
}.

Record ContentCache := {
  cache_dir : PurePath;
  max_size_bytes : Z;
  policy : CachePolicy;
  patterns : list string;
  categories : list (string * CacheCategory);
  locked : bool;
  metadata : list (string * CacheEntry);
  files : gmap PurePath (list Z);
  saved : option (list (string * CacheEntry))     (* the metadata file, when it can be read *)
}.

Inductive cache_error : Type :=
| ValueError (message : string)
| Deadlock.

Abbreviation CacheM A := (M ContentCache cache_error A).

Definition set_locked (b : bool) (c : ContentCache) : ContentCache :=
  {| cache_dir := cache_dir c; max_size_bytes := max_size_bytes c; policy := policy c; patterns := patterns c;
     categories := categories c; locked := b; metadata := metadata c; files := files c; saved := saved c |}.
Definition set_metadata (m : list (string * CacheEntry)) (c : ContentCache) : ContentCache :=
  {| cache_dir := cache_dir c; max_size_bytes := max_size_bytes c; policy := policy c; patterns := patterns c;
     categories := categories c; locked := locked c; metadata := m; files := files c; saved := saved c |}.
Definition set_files (f : gmap PurePath (list Z)) (c : ContentCache) : ContentCache :=
  {| cache_dir := cache_dir c; max_size_bytes := max_size_bytes c; policy := policy c; patterns := patterns c;
     categories := categories c; locked := locked c; metadata := metadata c; files := f; saved := saved c |}.

(** [__init__], on a disk with [disk] and the metadata file [meta]. *)
Definition new_cache (dir : string) (max_size_gb : Z) (p : CachePolicy) (pats : list string)
    (disk : gmap PurePath (list Z)) (meta : option (list (string * CacheEntry))) : ContentCache :=
  {| cache_dir := path_of dir; max_size_bytes := max_size_gb * 1024 * 1024 * 1024; policy := p;
     patterns := pats; categories := DEFAULT_CATEGORIES; locked := false; metadata := [];
     files := disk; saved := meta |}.

(** ** Operations *)

(** [async with self._lock] *)
Definition with_lock {A} (m : CacheM A) : CacheM A :=
  fun c =>
    if locked c then (Err Deadlock, c)
    else match m (set_locked true c) with
         | (Err Deadlock, c') => (Err Deadlock, c')
         | (r, c') => (r, set_locked false c')
         end.

Definition _load_metadata : CacheM unit := modify (fun c => set_metadata (default [] (saved c)) c).

Definition _save_metadata : CacheM unit :=
  modify (fun c =>
    {| cache_dir := cache_dir c; max_size_bytes := max_size_bytes c; policy := policy c; patterns := patterns c;
       categories := categories c; locked := locked c; metadata := metadata c; files := files c;
       saved := Some (metadata c) |}).

Definition initialize : CacheM unit := _load_metadata.

Definition _get_cache_key (category path : string) : string := category ++ "/" ++ path.

Definition safe_path (path : string) : string := str_replace ".." "" (lstrip "/" path).

Definition _get_file_path (dir : PurePath) (category path : string) : PurePath :=
  path_join (path_join dir (path_of category)) (path_of (safe_path path)).

Definition file_exists (p : PurePath) (c : ContentCache) : bool := bool_decide (is_Some (files c !! p)).

Definition evict (category path : string) : CacheM bool :=
  with_lock (
    c ← get_state;
    let cache_key := _get_cache_key category path in
    let file_path := _get_file_path (cache_dir c) category path in
    let deleted := file_exists file_path c in
    modify (set_files (delete file_path (files c)));;
    (match assoc_get cache_key (metadata c) with
     | Some _ => modify (fun c => set_metadata (assoc_del cache_key (metadata c)) c);; _save_metadata
     | None => mret tt
     end);;
    mret deleted).

Definition touch (now : Z) (e : CacheEntry) : CacheEntry :=
  {| ce_path := ce_path e; ce_category := ce_category e; ce_size_bytes := ce_size_bytes e;
     ce_cached_at := ce_cached_at e; ce_last_accessed := now; ce_expires_at := ce_expires_at e |}.

Definition expired (now : Z) (e : CacheEntry) : bool :=
  match ce_expires_at e with Some t => (t <? now)%Z | None => false end.

Definition get (now : Z) (category path : string) : CacheM (option PurePath) :=
  c ← get_state;
  let cache_key := _get_cache_key category path in
  let file_path := _get_file_path (cache_dir c) category path in
  if negb (file_exists file_path c) then
    modify (set_metadata (assoc_del cache_key (metadata c)));; mret None
  else
    match assoc_get cache_key (metadata c) with
    | None => mret (Some file_path)
    | Some entry =>
        if expired now entry then evict category path;; mret None
        else
          modify (set_metadata (assoc_set cache_key (touch now entry) (metadata c)));;
          _save_metadata;;
          mret (Some file_path)
    end.

Definition should_cache (category path : string) (c : ContentCache) : bool :=
  if match assoc_get category (categories c) with Some cat => cc_always_cache cat | None => false end then true
  else
    match policy c with
    | Minimal => false
    | Assigned | Mirror => true
    | Pattern => existsb (fnmatch (category ++ "/" ++ path)) (patterns c)
    | OtherPolicy _ => false
    end.

Definition get_total_size (c : ContentCache) : Z :=
  fold_right Z.add 0%Z (map (fun kv => ce_size_bytes kv.2) (metadata c)).

(** [categories.get(category, CacheCategory(name="")).priority] *)
Definition priority_of (cats : list (string * CacheCategory)) (category : string) : Z :=
  match assoc_get category cats with Some cat => cc_priority cat | None => 0 end.

Definition always_cached (cats : list (string * CacheCategory)) (e : CacheEntry) : bool :=
  match assoc_get (ce_category e) cats with Some cat => cc_always_cache cat | None => false end.

(** By priority, then by last access: two stable sorts. *)
Definition eviction_order (c : ContentCache) : list CacheEntry :=
  order_by (fun e => priority_of (categories c) (ce_category e))
    (order_by ce_last_accessed (map snd (metadata c))).

Fixpoint evict_until (cats : list (string * CacheCategory)) (target_size current_size : Z)
    (entries : list CacheEntry) : CacheM unit :=
  match entries with
  | [] => mret tt
  | entry :: entries =>
      if (target_size <? current_size)%Z then
        if always_cached cats entry then evict_until cats target_size current_size entries
        else
          evict (ce_category entry) (ce_path entry);;
          evict_until cats target_size (current_size - ce_size_bytes entry) entries
      else mret tt
  end.

Definition _ensure_space (needed_bytes : Z) : CacheM unit :=
  c ← get_state;
  let current_size := get_total_size c in
  if (current_size + needed_bytes <=? max_size_bytes c)%Z then mret tt
  else evict_until (categories c) (max_size_bytes c - needed_bytes) current_size (eviction_order c).

Definition day : Z := 24 * 60 * 60 * 1000000.

(** [if x] for an optional number. *)
Definition truthy_num (x : option Z) : option Z :=
  match x with Some d => if Z.eqb d 0 then None else Some d | None => None end.

Definition expires_at (now : Z) (category : string) (expires_in : option Z) (c : ContentCache) : option Z :=
  match truthy_num expires_in with
  | Some d => Some (now + d)%Z
  | None =>
      cat ← assoc_get category (categories c);
      n ← truthy_num (cc_max_age_days cat);
      Some (now + n * day)%Z
  end.

Definition put (now : Z) (category path : string) (content : list Z) (expires_in : option Z) : CacheM PurePath :=
  with_lock (
    c ← get_state;
    if negb (should_cache category path c) then
      raise (ValueError ("Cache policy does not allow caching: " ++ category ++ "/" ++ path))
    else
      _ensure_space (Z.of_nat (length content));;
      let file_path := _get_file_path (cache_dir c) category path in
      match with_suffix ".tmp" file_path with
      | None => raise (ValueError "empty name")
      | Some temp_path =>
          modify (fun c => set_files (<[file_path := content]> (delete temp_path (files c))) c);;
          let entry :=
            {| ce_path := path; ce_category := category; ce_size_bytes := Z.of_nat (length content);
               ce_cached_at := now; ce_last_accessed := now;
               ce_expires_at := expires_at now category expires_in c |} in
          modify (fun c => set_metadata (assoc_set (_get_cache_key category path) entry (metadata c)) c);;
          _save_metadata;;
          mret file_path
      end).

(** [evict] over a list of entries, counting the files deleted. *)
Fixpoint evict_all (entries : list CacheEntry) : CacheM Z :=
  match entries with
  | [] => mret 0%Z
  | e :: entries =>
      deleted ← evict (ce_category e) (ce_path e);
      n ← evict_all entries;
      mret (if deleted : bool then n + 1 else n)%Z
  end.

Definition evict_expired (now : Z) : CacheM Z :=
  c ← get_state;
  evict_all (List.filter (expired now) (map snd (metadata c))).

Definition in_category (category : option string) (e : CacheEntry) : bool :=
  match category with
  | Some cat => String.eqb cat "" || String.eqb (ce_category e) cat
  | None => true
  end.

Definition clear (category : option string) : CacheM Z :=
  c ← get_state;
  evict_all (List.filter (in_category category) (map snd (metadata c))).

Definition list_entries (category : option string) (c : ContentCache) : list CacheEntry :=
  order_by_desc ce_cached_at (List.filter (in_category category) (map snd (metadata c))).

(** The count and size of each category, in order of first appearance. *)
Fixpoint by_category (entries : list CacheEntry) (acc : list (string * (Z * Z))) : list (string * (Z * Z)) :=
  match entries with
  | [] => acc
  | e :: entries =>
      let '(n, size) := default (0, 0)%Z (assoc_get (ce_category e) acc) in
      by_category entries (assoc_set (ce_category e) (n + 1, size + ce_size_bytes e)%Z acc)
  end.

(** [CacheStats], without the percentage, a float of the two sizes. *)
Record CacheStats := {
  total_size : Z; max_size : Z; total_entries : Z; stat_categories : list (string * (Z * Z))
}.

Definition get_stats (c : ContentCache) : CacheStats :=
  {| total_size := get_total_size c; max_size := max_size_bytes c;
     total_entries := Z.of_nat (length (metadata c));
     stat_categories := by_category (map snd (metadata c)) [] |}.

Example glob_1 : fnmatch "images/ubuntu-22.iso" "images/*.is[n-p]" = true. Proof. reflexivity. Qed.
Example glob_2 : fnmatch "images/a" "images/[!a]" = false. Proof. reflexivity. Qed.
Example suffix_1 : with_suffix ".tmp" (path_of "/c/a.b.img") = Some (path_of "/c/a.b.tmp"). Proof. reflexivity. Qed.
Example escape : _get_file_path (path_of "/var/cache") "images" "../etc/passwd" = path_of "/etc/passwd". Proof. reflexivity. Qed.

(** ** The lock *)

Lemma with_lock_taken {A} (m : CacheM A) c : locked c = true -> with_lock m c = (Err Deadlock, c).
Proof. unfold with_lock. by intros ->. Qed.

Lemma with_lock_free {A} (m : CacheM A) c r c' :
  locked c = false -> m (set_locked true c) = (r, c') -> r ≠ Err Deadlock ->
  with_lock m c = (r, set_locked false c').
Proof. unfold with_lock. intros -> -> Hr. by destruct r as [|[]]. Qed.

(** What a task that holds the lock can still evict: nothing. *)
Lemma evict_taken category path c : locked c = true -> evict category path c = (Err Deadlock, c).
Proof. apply with_lock_taken. Qed.

Lemma evict_until_taken cats target current entries c :
  locked c = true -> (target < current)%Z ->
  evict_until cats target current entries c
  = if existsb (fun e => negb (always_cached cats e)) entries then (Err Deadlock, c) else (Ok tt, c).
Proof.
  intros Hl Hlt. induction entries as [|e entries IH]; [done|].
  cbn [evict_until existsb]. rewrite (proj2 (Z.ltb_lt _ _) Hlt).
  destruct (always_cached cats e); [exact IH|]. cbn [negb orb].
  by rewrite (bind_Err _ _ _ _ _ (evict_taken _ _ _ Hl)).
Qed.

Definition evictable (c : ContentCache) : bool :=
  existsb (fun e => negb (always_cached (categories c) e)) (map snd (metadata c)).

Definition too_full (n : Z) (c : ContentCache) : bool := (max_size_bytes c <? get_total_size c + n)%Z.

Lemma existsb_perm {A} (f : A -> bool) l l' : l ≡ₚ l' -> existsb f l = existsb f l'.
Proof.
  induction 1 as [|x l l' _ IH|x y l|l1 l2 l3 _ IH1 _ IH2]; cbn; [done|by rewrite IH| |by rewrite IH1].
  by destruct (f x), (f y).
Qed.

Lemma ensure_space_taken n c :
  locked c = true ->
  _ensure_space n c = if too_full n c && evictable c then (Err Deadlock, c) else (Ok tt, c).
Proof.
  intros Hl. unfold _ensure_space, too_full, evictable. rewrite (bind_Ok _ _ c c c) by done.
  destruct (Z.leb_spec (get_total_size c + n) (max_size_bytes c)) as [H|H].
  - by rewrite (proj2 (Z.ltb_ge _ _) H).
  - rewrite (proj2 (Z.ltb_lt _ _) H), evict_until_taken by (done || lia).
    by rewrite (existsb_perm _ (eviction_order c) (map snd (metadata c)))
      by (unfold eviction_order; by rewrite !order_by_perm).
Qed.

(** ** What [put] and [get] do *)

Definition new_entry (now : Z) (category path : string) (content : list Z) (expires_in : option Z)
    (c : ContentCache) : CacheEntry :=
  {| ce_path := path; ce_category := category; ce_size_bytes := Z.of_nat (length content);
     ce_cached_at := now; ce_last_accessed := now; ce_expires_at := expires_at now category expires_in c |}.

Definition stored (now : Z) (category path : string) (content : list Z) (expires_in : option Z)
    (temp_path : PurePath) (c : ContentCache) : ContentCache :=
  let m := assoc_set (_get_cache_key category path) (new_entry now category path content expires_in c) (metadata c) in
  {| cache_dir := cache_dir c; max_size_bytes := max_size_bytes c; policy := policy c; patterns := patterns c;
     categories := categories c; locked := false; metadata := m;
     files := <[_get_file_path (cache_dir c) category path := content]> (delete temp_path (files c));
     saved := Some m |}.

(** Every outcome of [put] on an unlocked cache. *)
Lemma put_outcome now category path content expires_in c :
  locked c = false ->
  let file_path := _get_file_path (cache_dir c) category path in
  put now category path content expires_in c
  = if should_cache category path c then
      if too_full (Z.of_nat (length content)) c && evictable c then (Err Deadlock, set_locked true c)
      else match with_suffix ".tmp" file_path with
           | None => (Err (ValueError "empty name"), c)
           | Some temp_path => (Ok file_path, stored now category path content expires_in temp_path c)
           end
    else (Err (ValueError ("Cache policy does not allow caching: " ++ category ++ "/" ++ path)), c).
Proof.
  intros Hl file_path. assert (set_locked false (set_locked true c) = c) as Hc by by (destruct c; cbn in Hl; subst).
  unfold put, with_lock. rewrite Hl.
  rewrite (bind_Ok _ _ (set_locked true c) (set_locked true c) (set_locked true c)) by done.
  change (should_cache category path (set_locked true c)) with (should_cache category path c).
  destruct (should_cache category path c); cbn [negb]; [|by rewrite <- Hc at 2].
  pose proof (ensure_space_taken (Z.of_nat (length content)) (set_locked true c) eq_refl) as He.
  change (too_full _ (set_locked true c)) with (too_full (Z.of_nat (length content)) c) in He.
  change (evictable (set_locked true c)) with (evictable c) in He.
  destruct (_ && _); [by rewrite (bind_Err _ _ _ _ _ He)|]. rewrite (bind_Ok _ _ _ _ _ He).
  change (cache_dir (set_locked true c)) with (cache_dir c). fold file_path.
  destruct (with_suffix ".tmp" file_path); [done|]. by rewrite <- Hc at 2.
Qed.

(** Keys are unique and name their entries; sizes are sizes. *)
Definition entry_ok (kv : string * CacheEntry) : Prop :=
  kv.1 = _get_cache_key (ce_category kv.2) (ce_path kv.2) /\ (0 <= ce_size_bytes kv.2)%Z.

Definition metadata_wf (m : list (string * CacheEntry)) : Prop := Forall entry_ok m.

Lemma metadata_wf_set m k e : metadata_wf m -> entry_ok (k, e) -> metadata_wf (assoc_set k e m).
Proof.
  intros Hm He. induction Hm as [|[k' e'] m Hk Hm IH]; cbn [assoc_set]; [by apply Forall_singleton|].
  destruct (String.eqb_spec k k') as [->|]; by apply Forall_cons.
Qed.

Lemma metadata_wf_del m k : metadata_wf m -> metadata_wf (assoc_del k m).
Proof. intros Hm. induction Hm as [|kv m Hk Hm IH]; cbn; [constructor|]. destruct (negb _); [by constructor|done]. Qed.

Definition sizes (m : list (string * CacheEntry)) : Z := fold_right Z.add 0%Z (map (fun kv => ce_size_bytes kv.2) m).

Lemma sizes_set m k e : metadata_wf m -> (0 <= ce_size_bytes e)%Z -> (sizes (assoc_set k e m) <= sizes m + ce_size_bytes e)%Z.
Proof.
  unfold sizes. intros Hm He. induction Hm as [|[k' e'] m [_ Hk] Hm IH]; cbn in *; [lia|].
  destruct (String.eqb_spec k k') as [->|]; cbn; lia.
Qed.

Lemma get_cached now category path c e content :
  locked c = false ->
  files c !! _get_file_path (cache_dir c) category path = Some content ->
  assoc_get (_get_cache_key category path) (metadata c) = Some e ->
  let p := _get_file_path (cache_dir c) category path in
  let '(r, c') := get now category path c in
  if expired now e then r = Ok None /\ files c' !! p = None
  else r = Ok (Some p) /\ files c' = files c.
Proof.
  intros Hl Hf He p. unfold get. rewrite (bind_Ok _ _ c c c) by done.
  unfold file_exists. rewrite Hf, bool_decide_true by done. cbn [negb]. rewrite He.
  destruct (expired now e); [|done].
  assert (exists b c', evict category path c = (Ok b, c') /\ files c' !! p = None) as (b & c' & Hev & Hfc).
  { do 2 eexists. split.
    - unfold evict. apply with_lock_free; [done| |done].
      rewrite (bind_Ok _ _ _ (set_locked true c) (set_locked true c)) by done. unfold_M. cbn. by rewrite He.
    - cbn. apply lookup_delete_eq. }
  by rewrite (bind_Ok _ _ _ _ _ Hev).
Qed.

(** ** Sanitised paths *)

Lemma no_dots_unchanged n s : str_contains ".." s = false -> replace_aux ".." "" n 0 s = s.
Proof.
  revert n; induction s as [|c s IH]; intros [|n]; [done..|].
  cbn [str_contains replace_aux]. intros [Hp Hs]%orb_false_iff.
  rewrite Hp. by rewrite IH.
Qed.

Lemma replace_dots_head n c s r :
  c ≠ "."%char -> replace_aux ".." "" n 0 (String c s) ≠ String "." r.
Proof.
  intros Hc. destruct n; cbn [replace_aux]; [congruence|].
  rewrite str_prefix_cons. destruct (Ascii.eqb_spec "." c); [congruence|]. cbn [andb]. congruence.
Qed.

Lemma replace_dots_free m n s :
  (String.length s <= m)%nat -> (String.length s <= n)%nat ->
  str_contains ".." (replace_aux ".." "" n 0 s) = false.
Proof.
  revert n s. induction m as [|m IH]; intros n s Hm Hn; [by destruct s; cbn in Hm; [destruct n|lia]|].
  destruct s as [|c s]; [by destruct n|]. cbn in Hm, Hn. destruct n as [|n]; [lia|]. cbn [replace_aux].
  destruct (String.prefix ".." (String c s)) eqn:Hp.
  - rewrite str_prefix_cons in Hp. destruct s as [|d s]; [by rewrite andb_false_r in Hp|].
    cbn -[str_contains]. cbn in Hm, Hn. apply IH; lia.
  - cbn [str_contains]. rewrite (IH (S n) s), orb_false_r by lia.
    rewrite str_prefix_cons in *. destruct (Ascii.eqb_spec "." c) as [<-|_]; [|done]. cbn [andb] in *.
    destruct s as [|d s]; [done|]. rewrite str_prefix_cons, str_prefix_nil, andb_true_r in Hp.
    apply Ascii.eqb_neq in Hp.
    destruct (replace_aux ".." "" (S n) 0 (String d s)) as [|x r] eqn:E; [done|].
    rewrite str_prefix_cons. destruct (Ascii.eqb_spec "." x) as [<-|]; [|done].
    by destruct (replace_dots_head (S n) d s r (not_eq_sym Hp)).
Qed.

Lemma safe_path_free path : str_contains ".." (safe_path path) = false.
Proof. unfold safe_path, str_replace. by apply (replace_dots_free (String.length (lstrip "/" path))). Qed.

(** ** The properties *)

(** C39: when [put] succeeds the content is on disk under the returned path, its entry is new and is
    written out with the others, which stay as they are, no file but this one and its temporary is touched, and
    the cache's set-up stays. The size is within the limit or nothing in the cache could be evicted: a file
    that does not fit is stored then all the same. Until the entry expires [get] returns the file; after
    that [get] deletes it. *)
Theorem put_then_get now category path content expires_in c p c'
  (Hfree : locked c = false) (Hwf : metadata_wf (metadata c))
  (Hput : put now category path content expires_in c = (Ok p, c')) :
  p = _get_file_path (cache_dir c) category path
  /\ locked c' = false /\ metadata_wf (metadata c')
  /\ ((get_total_size c' <= max_size_bytes c)%Z \/ evictable c = false)
  /\ (forall q, q ≠ p -> with_suffix ".tmp" p ≠ Some q -> files c' !! q = files c !! q)
  /\ assoc_get (_get_cache_key category path) (metadata c') = Some (new_entry now category path content expires_in c)
  /\ (forall k, k ≠ _get_cache_key category path -> assoc_get k (metadata c') = assoc_get k (metadata c))
  /\ saved c' = Some (metadata c')
  /\ c' = {| cache_dir := cache_dir c; max_size_bytes := max_size_bytes c; policy := policy c; patterns := patterns c;
            categories := categories c; locked := false; metadata := metadata c'; files := files c'; saved := saved c' |}
  /\ forall later,
      let '(r, c'') := get later category path c' in
      if expired later (new_entry now category path content expires_in c)
      then r = Ok None /\ files c'' !! p = None
      else r = Ok (Some p) /\ files c'' !! p = Some content.
Proof.
  rewrite put_outcome in Hput by done. destruct (should_cache category path c); [|done].
  destruct (_ && _) eqn:Hfull; [done|].
  destruct (with_suffix ".tmp" _) as [t|] eqn:Ht; [|done]. injection Hput as <- <-.
  split; [done|]. split; [done|]. split; [|split; [|split]].
  - apply metadata_wf_set; [done|]. split; cbn; [done|lia].
  - apply andb_false_iff in Hfull as [H%Z.ltb_ge|H]; [left|by right].
    pose proof (sizes_set (metadata c) (_get_cache_key category path)
                  (new_entry now category path content expires_in c) Hwf) as Hs.
    unfold get_total_size, sizes, stored in *. cbn [ce_size_bytes new_entry metadata] in *. lia.
  - intros q Hq Hqt. rewrite Ht in Hqt. cbn. rewrite lookup_insert_ne, lookup_delete_ne by congruence. done.
  - split; [apply assoc_get_set_eq|]. split; [intros k Hk; by apply assoc_get_set_ne, not_eq_sym|].
    split; [done|]. split; [done|]. intros later. pose proof (get_cached later category path
      (stored now category path content expires_in t c) (new_entry now category path content expires_in c) content) as H.
    cbn [stored files locked cache_dir metadata] in H. specialize (H eq_refl).
    rewrite lookup_insert_eq, assoc_get_set_eq in H. specialize (H eq_refl eq_refl).
    destruct (get later category path _) as [r c'']. destruct (expired _ _); [done|].
    destruct H as [-> ->]. split; [done|]. apply lookup_insert_eq.
Qed.

Definition sample_cache : ContentCache :=
  new_cache "/var/cache" 1 Mirror [] ∅ None.

Lemma put_then_get_witness :
  let c' := stored 5 "images" "a.iso" [1; 2]%Z None (path_of "/var/cache/images/a.tmp") sample_cache in
  let '(r, c'') := get 6 "images" "a.iso" c' in
  r = Ok (Some (path_of "/var/cache/images/a.iso"))
  /\ files c'' !! path_of "/var/cache/images/a.iso" = Some [1; 2]%Z.
Proof.
  exact (proj2 (proj2 (proj2 (proj2 (proj2 (proj2 (proj2 (proj2 (proj2
    (put_then_get 5 "images" "a.iso" [1; 2]%Z None sample_cache (path_of "/var/cache/images/a.iso") _
       eq_refl (Forall_nil_2 _) eq_refl))))))))) 6%Z).
Defined.

(** [put] never returns exactly when the policy admits the file, the file
    does not fit and some entry may be evicted: the eviction waits for the lock
    [put] holds.  From then on every [put] and every eviction hangs too. *)
Theorem full_cache_deadlocks now category path content expires_in c (Hfree : locked c = false) :
  let '(r, c') := put now category path content expires_in c in
  (r = Err Deadlock <->
     should_cache category path c = true
     /\ (max_size_bytes c < get_total_size c + Z.of_nat (length content))%Z
     /\ exists e, e ∈ map snd (metadata c) /\ always_cached (categories c) e = false)
  /\ (r = Err Deadlock ->
      files c' = files c /\ metadata c' = metadata c
      /\ forall later category' path' content' expires_in',
           put later category' path' content' expires_in' c' = (Err Deadlock, c')
           /\ evict category' path' c' = (Err Deadlock, c')
           /\ (metadata c' ≠ [] -> clear None c' = (Err Deadlock, c'))).
Proof.
  rewrite put_outcome by done.
  assert (evictable c = true <-> exists e, e ∈ map snd (metadata c) /\ always_cached (categories c) e = false) as Hev.
  { unfold evictable. rewrite existsb_exists. split; intros (e & H1 & H2); exists e;
      by rewrite ?negb_true_iff, ?list_elem_of_In in *. }
  assert ((should_cache category path c = true
     /\ (max_size_bytes c < get_total_size c + Z.of_nat (length content))%Z
     /\ exists e, e ∈ map snd (metadata c) /\ always_cached (categories c) e = false)
     <-> should_cache category path c = true
         /\ too_full (Z.of_nat (length content)) c = true /\ evictable c = true) as Hst
    by (unfold too_full; by rewrite Z.ltb_lt, Hev).
  clear Hev. revert Hst. generalize (should_cache category path c = true
     /\ (max_size_bytes c < get_total_size c + Z.of_nat (length content))%Z
     /\ exists e, e ∈ map snd (metadata c) /\ always_cached (categories c) e = false) as stuck.
  intros stuck. destruct (should_cache category path c), (too_full _ c), (evictable c); cbn [andb]; intros Hst;
    try (assert (~ stuck) by (rewrite Hst; by intros (? & ? & ?)); 
         try destruct (with_suffix _ _); (split; [by split|done])).
  split; [by rewrite Hst|]. intros _.
  split; [done|]. split; [done|]. intros. split; [by apply with_lock_taken|].
  split; [by apply with_lock_taken|]. intros Hne. unfold clear.
  rewrite (bind_Ok _ _ (set_locked true c) (set_locked true c) (set_locked true c)) by done.
  destruct (metadata (set_locked true c)) as [|kv m]; [done|].
  cbn [map List.filter in_category evict_all]. by rewrite (bind_Err _ _ _ _ _ (evict_taken _ _ (set_locked true c) eq_refl)).
Qed.

Lemma full_cache_deadlocks_witness :
  let c := stored 5 "images" "a.iso" [1; 2]%Z None (path_of "/var/cache/images/a.tmp")
             (new_cache "/var/cache" 0 Mirror [] ∅ None) in
  (put 6 "images" "b.iso" [3]%Z None c).1 = Err Deadlock.
Proof.
  intros c. refine (proj2 (proj1 (full_cache_deadlocks 6 "images" "b.iso" [3]%Z None c eq_refl)) _).
  split; [reflexivity|]. split; [reflexivity|]. eexists. split; [constructor 1|reflexivity].
Defined.

Lemma parts_of_safe_path path : ".." ∉ parts (path_of (safe_path path)).
Proof.
  intros H. apply list_elem_of_In, filter_In in H as [H _]. apply list_elem_of_In, split_contains in H.
  by rewrite safe_path_free in H.
Qed.

(** A sanitised path has no [..] component, and one that is relative stays
    below its category's directory; but the leading slashes are stripped before
    the dots are, so ["../etc/passwd"] becomes the absolute path itself, whatever
    the cache directory, for reading, writing and deleting. *)
Theorem sanitised_path_can_be_absolute dir category path :
  (".." ∉ parts (path_of (safe_path path)))
  /\ (startswith "/" (safe_path path) = false ->
      root (_get_file_path dir category path) = root (path_join dir (path_of category))
      /\ parts (_get_file_path dir category path)
         = (parts (path_join dir (path_of category)) ++ parts (path_of (safe_path path)))%list)
  /\ forall target, str_contains ".." target = false ->
       _get_file_path dir category ("../" ++ target) = path_of ("/" ++ target).
Proof.
  split; [apply parts_of_safe_path|]. split.
  - intros H. assert (path_root (safe_path path) = "") as Hr.
    { unfold path_root. rewrite H. destruct (startswith "//" (safe_path path)) eqn:E; [|done].
      apply startswith_spec in E as [r E]. by rewrite E in H. }
    unfold _get_file_path. generalize (path_join dir (path_of category)) as p. intros p.
    unfold path_join. cbn [path_of root]. by rewrite Hr.
  - intros target Ht. assert (safe_path ("../" ++ target) = "/" ++ target) as Hs.
    { unfold safe_path, str_replace. cbn. f_equal. rewrite no_dots_unchanged by done. done. }
    unfold _get_file_path. rewrite Hs. unfold path_join at 1. cbn [path_of root].
    assert (path_root ("/" ++ target) ≠ "") as Hr.
    { unfold path_root. destruct (_ && _); [done|]. by rewrite startswith_app. }
    by apply String.eqb_neq in Hr as ->.
Qed.

Lemma sanitised_path_can_be_absolute_witness :
  _get_file_path (path_of "/var/cache") "images" "../etc/passwd" = path_of "/etc/passwd".
Proof.
  exact (proj2 (proj2 (sanitised_path_can_be_absolute (path_of "/var/cache") "images" "")) "etc/passwd" eq_refl).
Defined.
