(* ===== verification/BootService.v ===== *)
(** * The agent's boot service

    [agent/boot_service.py]: boot scripts and boot files for the machines of a
    site, from the controller while it answers, from the caches when it does not.
    [central_boot] and [central_file] are the controller: what its [n]-th request
    gets.  [settings.host] and [settings.port] make [local_server].  Reading a file
    that exists does not fail; the lock of the metrics is never held across an
    await. *)
From S2P Require Import Prelude Floats PyStr Scripts SqlTable Paths ContentCache StateCache Connectivity OfflineBoot.
From stdpp Require Import base tactics list strings gmap countable pretty.
From Stdlib Require Import Ascii ZArith QArith Lia.
From coqutil Require Export Datatypes.RecordSettersUsingExistingGetters.
#[global] Arguments RecordSettersUsingExistingGetters.const {E} newValue _ /.
#[global] Arguments RecordSettersUsingExistingGetters.set {R E} getter {Setter} fieldUpdater r /.
Open Scope string_scope.
Open Scope Z_scope.
#[local] Arguments String.append !_ _ : simpl nomatch.

Record BootMetrics := {
  nodes_seen : gset string;
  active_boots : Z;
  cache_hits : Z;
  cache_misses : Z;
  last_reset : Z
}.

(** [resp.status] and the body, or an exception: [aiohttp.ClientError] or another
    one, as the [TimeoutError] of the session's total timeout. *)
Inductive fetch (A : Type) : Type :=
| Response (status : Z) (body : A)
| ClientError
| OtherError.
Arguments Response {A} status body.
Arguments ClientError {A}.
Arguments OtherError {A}.

Inductive agent_error : Type :=
| AgentHTTP (status : Z) (detail : string)
| AgentAttributeError
| AgentTimeout
| AgentValueError.

(** The metrics, the files of the cache, whether the session is open, and the
    requests sent to the controller. *)
Record site := {
  metrics : BootMetrics;
  disk : gmap PurePath (list Z);
  http_session : bool;
  requests : list string
}.

Abbreviation SiteM A := (M site agent_error A).

(** ** Metrics *)

Definition on_metrics (f : BootMetrics -> BootMetrics) : SiteM unit := modify (fun s => s <| metrics ::= f |>).

Definition new_metrics (now : Z) : BootMetrics :=
  {| nodes_seen := ∅; active_boots := 0; cache_hits := 0; cache_misses := 0; last_reset := now |}.

Definition record_boot_request (mac : string) : SiteM unit :=
  on_metrics (fun m => m <| nodes_seen ::= fun x => {[mac]} ∪ x |> <| active_boots ::= fun n => n + 1 |>).
Definition complete_boot_request : SiteM unit :=
  on_metrics (fun m => m <| active_boots ::= fun n => Z.max 0 (n - 1) |>).
Definition record_cache_hit : SiteM unit := on_metrics (fun m => m <| cache_hits ::= fun n => n + 1 |>).
Definition record_cache_miss : SiteM unit := on_metrics (fun m => m <| cache_misses ::= fun n => n + 1 |>).
Definition reset_period (now : Z) : SiteM unit :=
  on_metrics (fun m => m <| nodes_seen := ∅ |> <| last_reset := now |>).

Definition get_cache_hit_rate (fl : Q -> Q) (m : BootMetrics) : Q :=
  let total := cache_hits m + cache_misses m in
  if total =? 0 then 0%Q else fdiv fl (inject_Z (cache_hits m)) (inject_Z total).
Definition get_nodes_seen_count (m : BootMetrics) : nat := size (nodes_seen m).

(** ** The cache of boot files *)

Section BootService.
Variable cache_dir : PurePath.
Variables (central_url site_id local_server : string).
Variable central_boot : nat -> list (string * string) -> fetch string.
Variable central_file : nat -> string -> fetch (list Z).
Variable strftime : Z -> string.

Definition get_cached_path (category filename : string) : PurePath :=
  let safe_name := str_replace ".." "" (lstrip "/" filename) in
  path_join (path_join cache_dir (path_of category)) (path_of safe_name).

Definition is_cached (category filename : string) (s : site) : bool :=
  bool_decide (is_Some (disk s !! get_cached_path category filename)).

Definition get_cached_file (category filename : string) (s : site) : option PurePath :=
  let path := get_cached_path category filename in
  if bool_decide (is_Some (disk s !! path)) then Some path else None.

(** The temporary file is renamed at once. *)
Definition cache_file (category filename : string) (content : list Z) : SiteM PurePath :=
  let path := get_cached_path category filename in
  match with_suffix ".tmp" path with
  | None => raise AgentValueError
  | Some temp_path => modify (fun s => s <| disk ::= fun d => <[path := content]> (delete temp_path d) |>);; mret path
  end.

(** [sum] over [cache_dir.rglob]. *)
Definition below (dir p : PurePath) : bool :=
  String.eqb (root dir) (root p) && bool_decide (take (length (parts dir)) (parts p) = parts dir).
Definition get_cache_size (s : site) : Z :=
  map_fold (fun p content n => if below cache_dir p then n + Z.of_nat (length content) else n) 0 (disk s).

(** ** The service *)

Definition start : SiteM unit := modify (fun s => s <| http_session := true |>).
Definition stop : SiteM unit := modify (fun s => s <| http_session := false |>).

(** Without a session there is no [get]. *)
Definition send {A} (url : string) (answer : nat -> fetch A) : SiteM (fetch A) :=
  s ← get_state;
  if negb (http_session s) then raise AgentAttributeError
  else
    modify (fun s => s <| requests ::= fun l => (l ++ [url])%list |>);;
    mret (answer (length (requests s))).

Definition is_online_now (connectivity : option ConnectivityMonitor) : bool :=
  match connectivity with None => true | Some m => is_online m end.

Definition hardware_keys : list string := ["vendor"; "model"; "serial"; "uuid"].
Definition _extract_hardware_info (query : list (string * string)) : list (string * string) :=
  omap (fun key => value ← assoc_get key query; Some (key, value)) hardware_keys.

Definition _rewrite_urls (script : string) : string :=
  str_replace (central_url ++ "/tftp/") (local_server ++ "/tftp/") script.

Definition _generate_fallback_script (mac : string) : string :=
  unlines [
    "#!ipxe"; "# PureBoot Agent - Central Error"; ("# MAC: " ++ mac)%string; ("# Site: " ++ site_id)%string;
    EmptyString; "echo"; "echo *** PureBoot Site Agent ***"; "echo"; "echo   Central controller returned an error.";
    "echo   Booting from local disk..."; "echo"; "sleep 3"; "exit"].

Definition _generate_offline_script (mac : string) : string :=
  unlines [
    "#!ipxe"; "# PureBoot Agent - Offline Mode"; ("# MAC: " ++ mac)%string; ("# Site: " ++ site_id)%string;
    EmptyString; "echo"; "echo *** PureBoot Site Agent - Offline ***"; "echo"; "echo   Cannot reach central controller.";
    "echo   Site agent is operating in offline mode."; "echo   Booting from local disk..."; "echo"; "sleep 5"; "exit"].

(** [try: ... finally: f] *)
Definition finally {A} (m : SiteM A) (f : SiteM unit) : SiteM A := fun s =>
  match m s with
  | (r, s) => match f s with (Ok _, s) => (r, s) | (Err e, s) => (Err e, s) end
  end.

(** [offline] is the generator with the state cache it reads. *)
Definition get_boot_script (now : Z) (connectivity : option ConnectivityMonitor)
    (offline : option (OfflineBootGenerator * NodeStateCache)) (mac : string) (query : list (string * string)) : SiteM string :=
  record_boot_request mac;;
  finally
    (match is_online_now connectivity, offline with
     | false, Some (g, cache) => mret (generate_script strftime g now mac cache)
     | _, _ =>
         let params := ("mac", mac) :: _extract_hardware_info query in
         resp ← send (central_url ++ "/api/v1/boot") (fun n => central_boot n params);
         match resp with
         | Response status text =>
             if status =? 200 then mret (_rewrite_urls text) else mret (_generate_fallback_script mac)
         | ClientError =>
             match offline with
             | Some (g, cache) => mret (generate_script strftime g now mac cache)
             | None => mret (_generate_offline_script mac)
             end
         | OtherError => raise AgentTimeout
         end
     end)
    complete_boot_request.

Definition serve_tftp_file (path : string) : SiteM (list Z) :=
  s ← get_state;
  match get_cached_file "tftp" path s with
  | Some cached => record_cache_hit;; mret (default [] (disk s !! cached))
  | None =>
      record_cache_miss;;
      resp ← send (central_url ++ "/tftp/" ++ path) (fun n => central_file n path);
      match resp with
      | Response status content =>
          if status =? 200 then cache_file "tftp" path content;; mret content
          else if status =? 404 then raise (AgentHTTP 404 "File not found")
          else raise (AgentHTTP 502 ("Central returned " ++ pretty status))
      | ClientError => raise (AgentHTTP 503 "Cannot reach central controller")
      | OtherError => raise AgentTimeout
      end
  end.
End BootService.

(** ** Laws *)

Section Laws.
Context (cache_dir : PurePath) (central_url site_id local_server : string).
Context (central_boot : nat -> list (string * string) -> fetch string) (central_file : nat -> string -> fetch (list Z)).
Context (strftime : Z -> string).
#[local] Abbreviation boot := (get_boot_script central_url site_id local_server central_boot strftime).

Lemma normalize_one_line mac : one_line mac -> one_line (normalize_mac mac).
Proof.
  unfold lacks, normalize_mac, replace_char, lower. rewrite !str_forall_map. apply str_forall_impl.
  intros c. destruct c as [[] [] [] [] [] [] [] []]; vm_compute; congruence.
Qed.

Lemma fallback_local mac : one_line site_id -> one_line mac -> stays_local (_generate_fallback_script site_id mac) = true.
Proof.
  intros Hs Hm. apply one_line_clean in Hs, Hm. unfold stays_local, _generate_fallback_script.
  apply lines_ok_unlines; [done|]. local_lines.
Qed.

Lemma offline_local mac : one_line site_id -> one_line mac -> stays_local (_generate_offline_script site_id mac) = true.
Proof.
  intros Hs Hm. apply one_line_clean in Hs, Hm. unfold stays_local, _generate_offline_script.
  apply lines_ok_unlines; [done|]. local_lines.
Qed.

#[local] Opaque _extract_hardware_info _generate_fallback_script generate_script.

(** C12: a machine always gets an answer, unless the controller neither answers nor
    fails in time.  What the controller sends with status 200 is passed on with its
    file addresses changed; in every other case the script only reports, waits and
    boots from the machine's own disk.  While the site knows that it is offline the
    controller is not asked at all.  The request leaves no boot active, and counts
    its machine. *)
Theorem site_always_boots now connectivity g cache mac query s :
  (forall t, one_line (strftime t)) -> one_line site_id -> one_line (ob_site_id g) -> one_line mac ->
  cache_plain cache -> http_session s = true -> 0 <= active_boots (metrics s) ->
  let answer := central_boot (length (requests s)) (("mac", mac) :: _extract_hardware_info query) in
  let '(r, s') := boot now connectivity (Some (g, cache)) mac query s in
  metrics s' = (metrics s) <| nodes_seen := {[mac]} ∪ nodes_seen (metrics s) |>
  /\ disk s' = disk s
  /\ requests s' = (requests s ++ if is_online_now connectivity then [central_url ++ "/api/v1/boot"]%string else [])%list
  /\ if is_online_now connectivity then
       match answer with
       | OtherError => r = Err AgentTimeout
       | Response status script =>
           if status =? 200 then r = Ok (str_replace (central_url ++ "/tftp/") (local_server ++ "/tftp/") script)
           else exists script, r = Ok script /\ stays_local script = true
       | ClientError => exists script, r = Ok script /\ stays_local script = true
       end
     else exists script, r = Ok script /\ stays_local script = true.
Proof.
  intros Htime Hsite Hg Hmac Hcache Hopen Hactive answer.
  pose proof (generate_script_local strftime Htime g Hg now mac cache (normalize_one_line mac Hmac) Hcache) as Hoff.
  pose proof (fallback_local mac Hsite Hmac) as Hfall.
  destruct s as [m d o q]. cbn in Hopen, Hactive. subst o.
  assert (Z.max 0 (active_boots m + 1 - 1) = active_boots m) as Hdone by lia.
  unfold get_boot_script, finally, send, record_boot_request, complete_boot_request, on_metrics. unfold_M.
  destruct (is_online_now connectivity); cbn [length requests metrics http_session negb]; [|cbn].
  2: { rewrite Hdone, app_nil_r. split_and!; [by destruct m|done|done|by eexists]. }
  cbn. cbn in answer. fold answer. destruct answer as [status text| |]; cbn.
  - destruct (status =? 200); cbn; rewrite Hdone; split_and!; try done. by eexists.
  - rewrite Hdone. split_and!; try done. by eexists.
  - by rewrite Hdone.
Qed.

(** The file of a request is in the cache after an answer with status 200. *)
Lemma serve_cached path s content : disk s !! get_cached_path cache_dir "tftp" path = Some content ->
  serve_tftp_file cache_dir central_url central_file path s
  = (Ok content, s <| metrics ::= fun m => m <| cache_hits ::= fun n => n + 1 |> |>).
Proof.
  intros Hd. unfold serve_tftp_file, get_cached_file, record_cache_hit, on_metrics. unfold_M.
  rewrite Hd, bool_decide_eq_true_2 by done. cbv iota. by rewrite Hd.
Qed.

Lemma serve_fetched path s tmp : disk s !! get_cached_path cache_dir "tftp" path = None -> http_session s = true ->
  with_suffix ".tmp" (get_cached_path cache_dir "tftp" path) = Some tmp ->
  let s1 := s <| metrics ::= fun m => m <| cache_misses ::= fun n => n + 1 |> |>
              <| requests ::= fun l => (l ++ [(central_url ++ "/tftp/" ++ path)%string])%list |> in
  serve_tftp_file cache_dir central_url central_file path s
  = match central_file (length (requests s)) path with
    | Response status content =>
        if status =? 200 then
          (Ok content, s1 <| disk ::= fun d => <[get_cached_path cache_dir "tftp" path := content]> (delete tmp d) |>)
        else (Err (if status =? 404 then AgentHTTP 404 "File not found" else AgentHTTP 502 ("Central returned " ++ pretty status)), s1)
    | ClientError => (Err (AgentHTTP 503 "Cannot reach central controller"), s1)
    | OtherError => (Err AgentTimeout, s1)
    end.
Proof.
  intros Hd Ho Ht s1. destruct s as [m d o q]. cbn in Hd, Ho. subst o.
  unfold serve_tftp_file, get_cached_file, record_cache_miss, on_metrics, send, cache_file. unfold_M.
  cbn [disk http_session]. rewrite Hd, bool_decide_eq_false_2 by (intros [? [=]]). cbn -[get_cached_path with_suffix]. rewrite Ht.
  destruct (central_file (length q) path) as [status content| |]; [|done|done].
  destruct (status =? 200); [done|]. by destruct (status =? 404).
Qed.
End Laws.

(** Boot files survive the loss of the controller.  A file that is not in the cache is
    asked for once; what comes with status 200 is handed on and kept, so that from
    then on it is served as it came, without asking, whatever the controller would
    answer, until a file of the same place (or its temporary file's) is stored; files
    in other places stay as they were.  Other answers are reported as 404, 502 and
    503, and keep nothing. *)
Theorem boot_files_survive_an_outage cache_dir central_url central_file path s tmp :
  disk s !! get_cached_path cache_dir "tftp" path = None -> http_session s = true ->
  with_suffix ".tmp" (get_cached_path cache_dir "tftp" path) = Some tmp ->
  let '(r, s1) := serve_tftp_file cache_dir central_url central_file path s in
  requests s1 = (requests s ++ [(central_url ++ "/tftp/" ++ path)%string])%list
  /\ match central_file (length (requests s)) path with
     | Response status content =>
         if status =? 200 then
           r = Ok content
           /\ (forall central_file' s2, disk s2 !! get_cached_path cache_dir "tftp" path = disk s1 !! get_cached_path cache_dir "tftp" path ->
                let '(r', s3) := serve_tftp_file cache_dir central_url central_file' path s2 in
                r' = Ok content /\ requests s3 = requests s2 /\ disk s3 = disk s2)
           /\ (forall p, p ≠ get_cached_path cache_dir "tftp" path -> p ≠ tmp -> disk s1 !! p = disk s !! p)
         else (exists status' detail, r = Err (AgentHTTP status' detail) /\ (status' = 404 <-> status = 404)) /\ disk s1 = disk s
     | ClientError => (exists detail, r = Err (AgentHTTP 503 detail)) /\ disk s1 = disk s
     | OtherError => r = Err AgentTimeout /\ disk s1 = disk s
     end.
Proof.
  intros Hd Ho Ht. rewrite (serve_fetched cache_dir central_url central_file path s tmp Hd Ho Ht). cbv zeta.
  destruct (central_file (length (requests s)) path) as [status content| |]; [|split; [done|]; split; [by eexists|done]|done].
  destruct (Z.eqb_spec status 200) as [->|_].
  - split; [done|]. split; [done|]. cbn [disk]. split.
    + intros central_file' s2 H2. rewrite (serve_cached _ _ _ path s2 content); [done|]. rewrite H2. cbn. apply lookup_insert_eq.
    + intros p Hp1 Hp2. cbn. by rewrite lookup_insert_ne, lookup_delete_ne.
  - split; [done|]. split; [|done]. destruct (Z.eqb_spec status 404) as [->|Hne]; do 2 eexists; (split; [done|]); [done|].
    split; [discriminate|done].
Qed.

(** ** Examples *)

Definition lab_site (files : gmap PurePath (list Z)) : site :=
  {| metrics := new_metrics 0; disk := files; http_session := true; requests := [] |}.
Definition lab_generator : OfflineBootGenerator :=
  {| ob_site_id := "lab"; ob_default_action := ActLocal; ob_offline_since := Some 0 |}.
Definition lab_cache : NodeStateCache := {| default_ttl := 300; nodes := [] |}.
Definition clock_text (t : Z) : string := pretty t.

(** A controller that refuses connections: the machine boots from its disk. *)
Lemma site_always_boots_witness :
  exists script s',
    get_boot_script "http://central" "lab" "http://agent" (fun _ _ => ClientError) clock_text 5 None
      (Some (lab_generator, lab_cache)) "aa:bb:cc:dd:ee:ff" [] (lab_site ∅) = (Ok script, s')
    /\ stays_local script = true /\ active_boots (metrics s') = 0.
Proof.
  pose proof (site_always_boots "http://central" "lab" "http://agent" (fun _ _ => ClientError) clock_text 5 None
    lab_generator lab_cache "aa:bb:cc:dd:ee:ff" [] (lab_site ∅) (fun t => pretty_lacks_nl t) eq_refl eq_refl eq_refl
    (Forall_nil_2 _) eq_refl (Z.le_refl 0)) as H.
  destruct (get_boot_script _ _ _ _ _ _ _ _ _ _ _) as [r s']. destruct H as (Hm & _ & _ & script & -> & Hs).
  exists script, s'. split; [reflexivity|]. split; [exact Hs|]. rewrite Hm. reflexivity.
Defined.

Lemma boot_files_survive_an_outage_witness :
  exists s1, serve_tftp_file (path_of "/cache") "http://central" (fun _ _ => Response 200 [1; 2; 3]) "grub/grub.cfg" (lab_site ∅)
    = (Ok [1; 2; 3], s1)
  /\ (serve_tftp_file (path_of "/cache") "http://central" (fun _ _ => ClientError) "grub/grub.cfg" s1).1 = Ok [1; 2; 3].
Proof.
  pose proof (boot_files_survive_an_outage (path_of "/cache") "http://central" (fun _ _ => Response 200 [1; 2; 3]) "grub/grub.cfg"
    (lab_site ∅) (path_of "/cache/tftp/grub/grub.tmp") eq_refl eq_refl eq_refl) as H.
  destruct (serve_tftp_file _ _ _ _ _) as [r s1]. destruct H as (_ & -> & H & _). exists s1. split; [reflexivity|].
  specialize (H (fun _ _ => ClientError) s1 eq_refl).
  destruct (serve_tftp_file _ _ (fun _ _ => ClientError) _ _) as [r' s2]. exact (proj1 H).
Defined.

(** The sanitised name of [../etc/passwd] is absolute, and replaces the directory. *)
Example traversal_reads_any_file :
  (serve_tftp_file (path_of "/cache") "http://central" (fun _ _ => ClientError) "../etc/passwd"
     (lab_site {[path_of "/etc/passwd" := [114; 111; 111; 116]]})).1 = Ok [114; 111; 111; 116].
Proof. by vm_compute. Qed.

(** The addresses are changed to the address the agent listens on, which by default
    is no machine's. *)
Example files_are_fetched_from_nowhere :
  _rewrite_urls "http://central" "http://0.0.0.0:8080" "kernel http://central/tftp/vmlinuz"
  = "kernel http://0.0.0.0:8080/tftp/vmlinuz".
Proof. by vm_compute. Qed.
