(* ===== verification/Conflicts.v ===== *)
(** * Conflicts after an outage

    [agent/conflicts.py]: the comparison of the site's cached nodes with the
    controller's list, and the table of conflicts.  The controller's nodes are
    decoded JSON objects.  [fromisoformat] is the parser of ISO dates,
    [as_datetime] Pydantic's conversion of a JSON value that is not a string;
    [uuid i] is the id of the [i]-th conflict of a check. *)
From S2P Require Import Prelude PyStr SqlTable StateCache.
From stdpp Require Import base tactics list strings.
From Stdlib Require Import ZArith Lia.
Open Scope string_scope.

(** ** Data *)

Inductive conflict_type : Type := StateMismatch | MissingLocal | MissingCentral.
Inductive resolution_kind : Type := KeepLocal | KeepCentral | Merge.

Record Conflict := {
  cf_id : string;
  cf_node_mac : string;
  cf_node_id : option string;
  cf_local_state : string;
  cf_central_state : string;
  cf_local_updated_at : Z;
  cf_central_updated_at : Z;
  cf_type : conflict_type;
  cf_detected_at : Z;
  cf_resolved : bool;
  cf_resolution : option resolution_kind;
  cf_resolved_at : option Z;
  cf_resolved_by : option string
}.

Record ConflictDetector := { conflicts : list Conflict; connected : bool }.

Inductive conflict_error : Type :=
| NotInitialized            (* [self._conn] is [None] *)
| AttributeError
| ValueError
| ValidationError.

Abbreviation ConflictM A := (M ConflictDetector conflict_error A).

Definition new_detector (disk : list Conflict) : ConflictDetector := {| conflicts := disk; connected := false |}.

Definition initialize : ConflictM unit := modify (fun d => {| conflicts := conflicts d; connected := true |}).
Definition close : ConflictM unit := modify (fun d => {| conflicts := conflicts d; connected := false |}).

(** A statement on the open connection. *)
Definition with_conn {A} (f : list Conflict -> A * list Conflict) : ConflictM A :=
  fun d => if connected d
           then let '(r, t) := f (conflicts d) in (Ok r, {| conflicts := t; connected := true |})
           else (Err NotInitialized, d).

(** ** Storing and resolving *)

Definition mark_conflict (c : Conflict) : ConflictM unit :=
  with_conn (fun t => (tt, sql_replace cf_id c t)).

Definition unresolved (c : Conflict) : bool := negb (cf_resolved c).

Definition get_pending_conflicts : ConflictM (list Conflict) :=
  with_conn (fun t => (order_by_desc cf_detected_at (sql_select unresolved t), t)).

Definition get_conflict (conflict_id : string) : ConflictM (option Conflict) :=
  with_conn (fun t => (sql_find cf_id conflict_id t, t)).

Definition resolve (now : Z) (res : resolution_kind) (by_ : string) (c : Conflict) : Conflict :=
  {| cf_id := cf_id c; cf_node_mac := cf_node_mac c; cf_node_id := cf_node_id c;
     cf_local_state := cf_local_state c; cf_central_state := cf_central_state c;
     cf_local_updated_at := cf_local_updated_at c; cf_central_updated_at := cf_central_updated_at c;
     cf_type := cf_type c; cf_detected_at := cf_detected_at c; cf_resolved := true;
     cf_resolution := Some res; cf_resolved_at := Some now; cf_resolved_by := Some by_ |}.

Definition resolve_conflict (now : Z) (conflict_id : string) (res : resolution_kind) (by_ : string)
    : ConflictM bool :=
  with_conn (fun t => let '(t', n) := sql_update (has_key cf_id conflict_id) (resolve now res by_) t in
                      ((0 <? n)%Z, t')).

Definition get_conflict_count : ConflictM Z := with_conn (fun t => (sql_count unresolved t, t)).

Definition get_conflicts_for_node (mac : string) : ConflictM (list Conflict) :=
  with_conn (fun t =>
    (order_by_desc cf_detected_at (sql_select (fun c => String.eqb (cf_node_mac c) (lower mac)) t), t)).

Definition day : Z := 24 * 60 * 60 * 1000000.

(** [resolved = 1 AND julianday('now') - julianday(resolved_at) > ?] *)
Definition old_resolved (now older_than_days : Z) (c : Conflict) : bool :=
  cf_resolved c
  && match cf_resolved_at c with Some t => (older_than_days * day <? now - t)%Z | None => false end.

Definition clear_resolved (now older_than_days : Z) : ConflictM Z :=
  with_conn (fun t => let '(t', n) := sql_delete (old_resolved now older_than_days) t in (n, t')).

(** ** Detecting *)

Definition node_dict : Type := list (string * json).

(** [central.get(k)] *)
Definition dict_get (k : string) (d : node_dict) : json := default JNull (assoc_get k d).

(** [node.get("mac_address", "").lower()] *)
Definition central_mac (node : node_dict) : result conflict_error string :=
  match assoc_get "mac_address" node with
  | None => Ok ""
  | Some (JStr s) => Ok (lower s)
  | Some _ => Err AttributeError
  end.

Fixpoint central_by_mac (nodes : list node_dict) (acc : list (string * node_dict))
    : result conflict_error (list (string * node_dict)) :=
  match nodes with
  | [] => Ok acc
  | node :: nodes =>
      mac ← central_mac node;
      central_by_mac nodes (if String.eqb mac "" then acc else assoc_set mac node acc)
  end.

(** A field of [Conflict] that must be a string, or a string or [None]. *)
Definition str_field (j : json) : result conflict_error string :=
  match j with JStr s => Ok s | _ => Err ValidationError end.
Definition opt_str_field (j : json) : result conflict_error (option string) :=
  match j with JStr s => Ok (Some s) | JNull => Ok None | _ => Err ValidationError end.

Section Detect.
Variable fromisoformat : string -> option Z.
Variable as_datetime : json -> option Z.
Variable uuid : nat -> string.
Variable now : Z.

Definition central_updated_at (central : node_dict) : result conflict_error Z :=
  let j := dict_get "updated_at" central in
  if negb (truthy j) then Ok now
  else
    match j with
    | JStr s => match fromisoformat (str_replace "Z" "+00:00" s) with Some t => Ok t | None => Err ValueError end
    | _ => match as_datetime j with Some t => Ok t | None => Err ValidationError end
    end.

(** [central.get("state", "unknown")] *)
Definition central_state (central : node_dict) : json := default (JStr "unknown") (assoc_get "state" central).

Definition new_conflict (i : nat) (mac : string) (node_id : option string) (local central : string)
    (local_at central_at : Z) (ty : conflict_type) : Conflict :=
  {| cf_id := uuid i; cf_node_mac := mac; cf_node_id := node_id; cf_local_state := local;
     cf_central_state := central; cf_local_updated_at := local_at; cf_central_updated_at := central_at;
     cf_type := ty; cf_detected_at := now; cf_resolved := false; cf_resolution := None;
     cf_resolved_at := None; cf_resolved_by := None |}.

Definition state_mismatch (i : nat) (mac : string) (cached : CachedNode) (central : node_dict)
    : result conflict_error Conflict :=
  central_at ← central_updated_at central;
  node_id ← match cn_node_id cached with
            | Some s => if String.eqb s "" then opt_str_field (dict_get "id" central) else Ok (Some s)
            | None => opt_str_field (dict_get "id" central)
            end;
  central_st ← str_field (central_state central);
  Ok (new_conflict i mac node_id (cn_state cached) central_st (cn_cached_at cached) central_at StateMismatch).

Definition missing_local (i : nat) (mac : string) (central : node_dict) : result conflict_error Conflict :=
  central_at ← central_updated_at central;
  node_id ← opt_str_field (dict_get "id" central);
  central_st ← str_field (central_state central);
  Ok (new_conflict i mac node_id "missing" central_st now central_at MissingLocal).

Definition missing_central (i : nat) (mac : string) (cached : CachedNode) : Conflict :=
  new_conflict i mac (cn_node_id cached) (cn_state cached) "missing" (cn_cached_at cached) now MissingCentral.

(** [cached.state != central.get("state")] *)
Definition states_differ (cached : CachedNode) (central : node_dict) : bool :=
  match dict_get "state" central with JStr s => negb (String.eqb (cn_state cached) s) | _ => true end.

(** What a cached node is compared to; [None] is agreement. *)
Definition compare_cached (i : nat) (mac : string) (cached : CachedNode) (central : option node_dict)
    : result conflict_error (option Conflict) :=
  match central with
  | None => Ok (Some (missing_central i mac cached))
  | Some central =>
      if states_differ cached central then c ← state_mismatch i mac cached central; Ok (Some c) else Ok None
  end.

(** [conflicts.append(conflict); await self.mark_conflict(conflict)] *)
Definition record_conflict (found : list Conflict) (c : Conflict) : ConflictM (list Conflict) :=
  mark_conflict c;; mret (found ++ [c])%list.

Fixpoint check_cached (cached : list CachedNode) (by_mac : list (string * node_dict)) (found : list Conflict)
    : ConflictM (list (string * node_dict) * list Conflict) :=
  match cached with
  | [] => mret (by_mac, found)
  | n :: cached =>
      let mac := lower (cn_mac_address n) in
      o ← lift_result (compare_cached (length found) mac n (assoc_get mac by_mac));
      found ← match o with Some c => record_conflict found c | None => mret found end;
      check_cached cached (assoc_del mac by_mac) found
  end.

Fixpoint check_central (by_mac : list (string * node_dict)) (found : list Conflict) : ConflictM (list Conflict) :=
  match by_mac with
  | [] => mret found
  | (mac, central) :: by_mac =>
      c ← lift_result (missing_local (length found) mac central);
      found ← record_conflict found c;
      check_central by_mac found
  end.

Definition check_conflicts (central_nodes : list node_dict) (state_cache : NodeStateCache)
    : ConflictM (list Conflict) :=
  by_mac ← lift_result (central_by_mac central_nodes []);
  '(by_mac, found) ← check_cached (get_all_nodes state_cache) by_mac [];
  check_central by_mac found.
End Detect.

(** ** What a check should report *)

Definition node_state (d : node_dict) : string :=
  match dict_get "state" d with JStr s => s | _ => "" end.

(** The conflict between what the site and the controller know of one MAC. *)
Definition verdict (cached : option CachedNode) (central : option node_dict)
    : list (conflict_type * string * string) :=
  match cached, central with
  | Some n, None => [(MissingCentral, cn_state n, "missing")]
  | Some n, Some d =>
      if String.eqb (cn_state n) (node_state d) then [] else [(StateMismatch, cn_state n, node_state d)]
  | None, Some d => [(MissingLocal, "missing", node_state d)]
  | None, None => []
  end.

Definition reported (mac : string) (l : list Conflict) : list (conflict_type * string * string) :=
  map (fun c => (cf_type c, cf_local_state c, cf_central_state c))
    (List.filter (fun c => String.eqb (cf_node_mac c) mac) l).

Lemma reported_app mac l1 l2 : reported mac (l1 ++ l2) = (reported mac l1 ++ reported mac l2)%list.
Proof. unfold reported. by rewrite List.filter_app, map_app. Qed.

Section Checking.
Context (fromisoformat : string -> option Z) (as_datetime : json -> option Z) (uuid : nat -> string) (now : Z).
Context (rows0 : list Conflict).
Context (uuid_inj : forall i j, uuid i = uuid j -> i = j) (uuid_fresh : forall i, uuid i ∉ (cf_id <$> rows0)).

(** A controller's node with the types of its API. *)
Record central_ok (d : node_dict) : Prop := {
  ok_mac : exists mac, central_mac d = Ok mac;
  ok_state : exists s, assoc_get "state" d = Some (JStr s);
  ok_id : exists i, opt_str_field (dict_get "id" d) = Ok i;
  ok_updated : exists t, central_updated_at fromisoformat as_datetime now d = Ok t
}.

(** The conflicts found so far carry the first ids and are fresh. *)
Definition found_ok (found : list Conflict) : Prop :=
  forall c, c ∈ found -> (exists i, (i < length found)%nat /\ cf_id c = uuid i)
                  /\ cf_resolved c = false /\ cf_detected_at c = now.

Definition stored (found : list Conflict) : ConflictDetector :=
  {| conflicts := (rows0 ++ found)%list; connected := true |}.

Lemma record_fresh found mac node_id local central la ca ty :
  found_ok found ->
  let c := new_conflict uuid now (length found) mac node_id local central la ca ty in
  record_conflict found c (stored found) = (Ok (found ++ [c])%list, stored (found ++ [c]))
  /\ found_ok (found ++ [c]).
Proof.
  intros Hf c. split.
  - unfold record_conflict, mark_conflict, with_conn, stored. unfold_M. cbn [connected conflicts].
    unfold sql_replace. rewrite delete_absent, <- app_assoc; [done|].
    rewrite fmap_app, elem_of_app. intros [H|H]; [by apply (uuid_fresh (length found))|].
    apply list_elem_of_fmap in H as (c' & E & Hc'). destruct (Hf c' Hc') as ((i & Hi & Hid) & _).
    rewrite Hid in E. apply uuid_inj in E. lia.
  - intros c' [Hc' | ->%list_elem_of_singleton]%elem_of_app; rewrite length_app; cbn [length].
    + destruct (Hf c' Hc') as ((i & Hi & Hid) & H). split; [|done]. exists i. split; [lia|done].
    + split; [|done]. exists (length found). split; [lia|done].
Qed.

Lemma central_state_ok d : central_ok d -> str_field (central_state d) = Ok (node_state d).
Proof. intros [_ [s Hs] _ _]. unfold central_state, node_state, dict_get. by rewrite Hs. Qed.

Lemma states_differ_ok n d : central_ok d -> states_differ n d = negb (String.eqb (cn_state n) (node_state d)).
Proof. intros [_ [s Hs] _ _]. unfold states_differ, node_state, dict_get. by rewrite Hs. Qed.

(** Comparing one cached node: at most one conflict, of the right kind. *)
Lemma compare_ok i mac n o :
  (forall d, o = Some d -> central_ok d) ->
  (compare_cached fromisoformat as_datetime uuid now i mac n o = Ok None /\ verdict (Some n) o = [])
  \/ exists node_id local central la ca ty,
      compare_cached fromisoformat as_datetime uuid now i mac n o
      = Ok (Some (new_conflict uuid now i mac node_id local central la ca ty))
      /\ verdict (Some n) o = [(ty, local, central)].
Proof.
  intros Hok. unfold compare_cached, verdict. destruct o as [d|]; [|right; do 6 eexists; split; reflexivity].
  specialize (Hok d eq_refl). rewrite states_differ_ok by done.
  destruct (String.eqb _ _); cbn [negb]; [by left|right].
  unfold state_mismatch. destruct (ok_updated d Hok) as [t ->], (ok_id d Hok) as [nid ->].
  rewrite central_state_ok by done. unfold mbind, result_bind.
  destruct (cn_node_id n) as [s|]; [destruct (String.eqb s "")|]; do 6 eexists; split; reflexivity.
Qed.

Lemma missing_local_ok i mac d :
  central_ok d ->
  exists node_id la ca,
    missing_local fromisoformat as_datetime uuid now i mac d
    = Ok (new_conflict uuid now i mac node_id "missing" (node_state d) la ca MissingLocal).
Proof.
  intros Hok. unfold missing_local. destruct (ok_updated d Hok) as [t ->], (ok_id d Hok) as [nid ->].
  rewrite central_state_ok by done. by do 3 eexists.
Qed.

Definition dicts_ok (by_mac : list (string * node_dict)) : Prop :=
  forall mac d, assoc_get mac by_mac = Some d -> central_ok d.

Lemma dicts_ok_del k by_mac : dicts_ok by_mac -> dicts_ok (assoc_del k by_mac).
Proof.
  intros H mac d. destruct (String.eqb_spec k mac) as [->|Hne]; [by rewrite assoc_get_del_eq|].
  rewrite assoc_get_del_ne by done. apply H.
Qed.

Definition drop_cached (cached : list CachedNode) (by_mac : list (string * node_dict)) : list (string * node_dict) :=
  foldl (fun b n => assoc_del (cn_mac_address n) b) by_mac cached.

Lemma drop_cached_get cached by_mac mac :
  assoc_get mac (drop_cached cached by_mac)
  = match sql_find cn_mac_address mac cached with Some _ => None | None => assoc_get mac by_mac end.
Proof.
  revert by_mac; induction cached as [|n cached IH]; intros by_mac; [done|].
  unfold drop_cached in *. cbn [foldl]. rewrite IH.
  unfold sql_find. cbn. destruct (has_key cn_mac_address mac n) eqn:E.
  - apply has_key_true in E as ->. rewrite assoc_get_del_eq. by destruct (List.find _ _).
  - apply has_key_false in E. by rewrite assoc_get_del_ne.
Qed.

Lemma drop_cached_nodup cached by_mac : NoDup by_mac.*1 -> NoDup (drop_cached cached by_mac).*1.
Proof. revert by_mac; induction cached as [|n cached IH]; intros by_mac H; [done|]. by apply IH, NoDup_assoc_del. Qed.

Lemma reported_one mac i m node_id local central la ca ty :
  reported mac [new_conflict uuid now i m node_id local central la ca ty]
  = if String.eqb m mac then [(ty, local, central)] else [].
Proof. unfold reported. cbn. by destruct (String.eqb m mac). Qed.

Lemma check_cached_spec cached by_mac found :
  NoDup (cn_mac_address <$> cached) ->
  Forall (fun n => lower (cn_mac_address n) = cn_mac_address n) cached ->
  dicts_ok by_mac -> found_ok found ->
  exists l,
    check_cached fromisoformat as_datetime uuid now cached by_mac found (stored found)
    = (Ok (drop_cached cached by_mac, found ++ l)%list, stored (found ++ l))
    /\ found_ok (found ++ l)
    /\ forall mac, reported mac l
          = match sql_find cn_mac_address mac cached with
            | Some n => verdict (Some n) (assoc_get mac by_mac)
            | None => []
            end.
Proof.
  revert by_mac found. induction cached as [|n cached IH]; intros by_mac found Hnd Hlow Hok Hf.
  { exists []. rewrite app_nil_r. by split. }
  apply Forall_cons in Hlow as [Hn Hlow]. rewrite fmap_cons in Hnd. apply NoDup_cons in Hnd as [Hnew Hnd].
  cbn [check_cached]. rewrite Hn. specialize (IH (assoc_del (cn_mac_address n) by_mac)).
  assert (forall mac, mac ≠ cn_mac_address n -> sql_find cn_mac_address mac (n :: cached) = sql_find cn_mac_address mac cached) as Hfind.
  { intros mac Hne. unfold sql_find. cbn. by rewrite (proj2 (has_key_false _ _ _)) by congruence. }
  assert (sql_find cn_mac_address (cn_mac_address n) (n :: cached) = Some n) as Hself.
  { unfold sql_find. cbn. by rewrite (proj2 (has_key_true _ _ _)) by done. }
  apply (sql_find_None cn_mac_address) in Hnew.
  destruct (compare_ok (length found) (cn_mac_address n) n (assoc_get (cn_mac_address n) by_mac) (Hok _))
    as [[E Hv]|(nid & local & central & la & ca & ty & E & Hv)].
  - destruct (IH found Hnd Hlow (dicts_ok_del _ _ Hok) Hf) as (l & Hrun & Hf' & Hrep).
    exists l. rewrite E. split; [exact Hrun|]. split; [done|]. intros mac. rewrite Hrep.
    destruct (decide (mac = cn_mac_address n)) as [->|Hne]; [by rewrite Hself, Hnew, Hv|].
    rewrite Hfind by done. by rewrite assoc_get_del_ne by congruence.
  - destruct (record_fresh found (cn_mac_address n) nid local central la ca ty Hf) as [Hrec Hf1].
    destruct (IH _ Hnd Hlow (dicts_ok_del _ _ Hok) Hf1) as (l & Hrun & Hf' & Hrep).
    eexists (_ :: l). rewrite E. split; [|split].
    + rewrite (bind_Ok _ _ _ _ _ (eq_refl : lift_result (Ok _) (stored found) = _)).
      rewrite (bind_Ok _ _ _ _ _ Hrec), Hrun, <- app_assoc. reflexivity.
    + rewrite <- app_assoc in Hf'. exact Hf'.
    + intros mac. change (?c :: l) with ([c] ++ l)%list. rewrite reported_app, reported_one, Hrep.
      destruct (String.eqb_spec (cn_mac_address n) mac) as [<-|Hne].
      * by rewrite Hself, Hnew, Hv.
      * rewrite Hfind, assoc_get_del_ne by done. done.
Qed.

Lemma check_central_spec by_mac found :
  NoDup by_mac.*1 -> dicts_ok by_mac -> found_ok found ->
  exists l,
    check_central fromisoformat as_datetime uuid now by_mac found (stored found)
    = (Ok (found ++ l)%list, stored (found ++ l))
    /\ found_ok (found ++ l)
    /\ forall mac, reported mac l = verdict None (assoc_get mac by_mac).
Proof.
  revert found. induction by_mac as [|[m d] by_mac IH]; intros found Hnd Hok Hf.
  { exists []. rewrite app_nil_r. by split. }
  rewrite fmap_cons in Hnd. apply NoDup_cons in Hnd as [Hnew Hnd]. apply assoc_get_None in Hnew. cbn in Hnew.
  assert (dicts_ok by_mac) as Hok'.
  { intros k e He. apply (Hok k). cbn. destruct (String.eqb_spec k m) as [->|]; [congruence|done]. }
  destruct (missing_local_ok (length found) m d) as (nid & la & ca & E);
    [apply (Hok m); cbn; by rewrite String.eqb_refl|].
  destruct (record_fresh found m nid "missing" (node_state d) la ca MissingLocal Hf) as [Hrec Hf1].
  destruct (IH _ Hnd Hok' Hf1) as (l & Hrun & Hf' & Hrep).
  eexists (_ :: l). cbn [check_central]. rewrite E. split; [|split].
  - rewrite (bind_Ok _ _ _ _ _ (eq_refl : lift_result (Ok _) (stored found) = _)).
    rewrite (bind_Ok _ _ _ _ _ Hrec), Hrun, <- app_assoc. reflexivity.
  - rewrite <- app_assoc in Hf'. exact Hf'.
  - intros mac. change (?c :: l) with ([c] ++ l)%list. rewrite reported_app, reported_one, Hrep. cbn [assoc_get].
    destruct (String.eqb_spec m mac) as [->|Hne]; [by rewrite String.eqb_refl, Hnew|].
    by rewrite (proj2 (String.eqb_neq mac m)) by congruence.
Qed.

Definition has_mac (mac : string) (d : node_dict) : bool :=
  match central_mac d with Ok m => String.eqb m mac | Err _ => false end.

(** The controller's node of a MAC: the last one of its list. *)
Definition known_centrally (mac : string) (nodes : list node_dict) : option node_dict :=
  if String.eqb mac "" then None else List.find (has_mac mac) (rev nodes).

Lemma find_app {A} (f : A -> bool) l1 l2 :
  List.find f (l1 ++ l2) = match List.find f l1 with Some x => Some x | None => List.find f l2 end.
Proof. induction l1 as [|x l1 IH]; cbn; [done|]. by destruct (f x). Qed.

Lemma central_by_mac_ok nodes acc :
  Forall central_ok nodes -> dicts_ok acc -> NoDup acc.*1 -> assoc_get "" acc = None ->
  exists by_mac, central_by_mac nodes acc = Ok by_mac /\ dicts_ok by_mac /\ NoDup by_mac.*1
    /\ forall mac, assoc_get mac by_mac
         = match known_centrally mac nodes with Some d => Some d | None => assoc_get mac acc end.
Proof.
  intros Hn. revert acc. induction Hn as [|d nodes Hd Hn IH]; intros acc Hok Hnd Hempty.
  { exists acc. split; [done|]. split; [done|]. split; [done|]. intros mac. unfold known_centrally. by destruct (String.eqb mac ""). }
  destruct (ok_mac d Hd) as [m Hm]. cbn [central_by_mac]. rewrite Hm.
  unfold mbind at 1, result_bind at 1. destruct (String.eqb_spec m "") as [->|Hne].
  - destruct (IH acc Hok Hnd Hempty) as (bm & E & Hok' & Hnd' & Hget). exists bm.
    split; [done|]. split; [done|]. split; [done|].
    intros mac. rewrite Hget. unfold known_centrally. cbn [rev]. rewrite find_app.
    destruct (String.eqb_spec mac "") as [|Hne]; [done|]. destruct (List.find _ (rev nodes)); [done|].
    cbn. unfold has_mac. rewrite Hm. by rewrite (proj2 (String.eqb_neq "" mac)) by congruence.
  - destruct (IH (assoc_set m d acc)) as (bm & E & Hok' & Hnd' & Hget).
    + intros k e. destruct (decide (m = k)) as [->|Hk]; [rewrite assoc_get_set_eq; by intros [= <-]|].
      rewrite assoc_get_set_ne by done. apply Hok.
    + by apply NoDup_assoc_set.
    + by rewrite assoc_get_set_ne.
    + exists bm.
    split; [done|]. split; [done|]. split; [done|]. intros mac. rewrite Hget. unfold known_centrally. cbn [rev].
      rewrite find_app. destruct (String.eqb_spec mac "") as [->|Hmac]; [by rewrite assoc_get_set_ne|].
      destruct (List.find _ (rev nodes)); [done|]. cbn. unfold has_mac. rewrite Hm.
      destruct (String.eqb_spec m mac) as [->|Hk]; [by rewrite assoc_get_set_eq|by rewrite assoc_get_set_ne].
Qed.

Lemma check_conflicts_spec central_nodes cache :
  cache_wf cache -> Forall central_ok central_nodes ->
  exists l,
    check_conflicts fromisoformat as_datetime uuid now central_nodes cache (stored []) = (Ok l, stored l)
    /\ found_ok l
    /\ forall mac, reported mac l
         = verdict (sql_find cn_mac_address mac (nodes cache)) (known_centrally mac central_nodes).
Proof.
  intros [Hkeys Hnorm] Hc.
  destruct (central_by_mac_ok central_nodes [] Hc) as (bm & E & Hok & Hnd & Hget);
    [done|apply NoDup_nil_2|done|].
  assert (forall mac, assoc_get mac bm = known_centrally mac central_nodes) as Hbm
    by (intros mac; rewrite Hget; by destruct (known_centrally mac central_nodes)).
  assert (Forall (fun n => lower (cn_mac_address n) = cn_mac_address n) (nodes cache)) as Hlow.
  { eapply Forall_impl; [exact Hnorm|]. cbn. intros n <-. apply lower_normalize_mac. }
  assert (found_ok []) as Hf0 by by intros c ?%not_elem_of_nil.
  destruct (check_cached_spec (nodes cache) bm [] Hkeys Hlow Hok Hf0) as (l1 & Hrun1 & Hf1 & Hrep1).
  destruct (check_central_spec (drop_cached (nodes cache) bm) l1) as (l2 & Hrun2 & Hf2 & Hrep2).
  - by apply drop_cached_nodup.
  - intros mac d. rewrite drop_cached_get. destruct (sql_find _ _ _); [done|]. apply Hok.
  - exact Hf1.
  - exists (l1 ++ l2)%list. split; [|split; [done|]].
    + unfold check_conflicts. rewrite E.
      rewrite (bind_Ok _ _ _ _ _ (eq_refl : lift_result (Ok bm) (stored []) = _)).
      unfold get_all_nodes. rewrite (bind_Ok _ _ _ _ _ Hrun1). exact Hrun2.
    + intros mac. rewrite reported_app, Hrep1, Hrep2, drop_cached_get, Hbm.
      destruct (sql_find cn_mac_address mac (nodes cache)) as [n|]; cbn; [|done].
      by rewrite app_nil_r.
Qed.
End Checking.

(** ** Operations on the table *)

Inductive conflict_op : Type :=
| Store (c : Conflict)
| Resolve (now : Z) (id : string) (res : resolution_kind) (by_ : string)
| ClearResolved (now days : Z)
| Reconnect
| Disconnect.

(** The detector after an operation, which an unconnected one refuses. *)
Definition apply_op (o : conflict_op) (d : ConflictDetector) : ConflictDetector :=
  match o with
  | Store c => (mark_conflict c d).2
  | Resolve now id res by_ => (resolve_conflict now id res by_ d).2
  | ClearResolved now days => (clear_resolved now days d).2
  | Reconnect => (initialize d).2
  | Disconnect => (close d).2
  end.

(** The operation names the conflict. *)
Definition names (id : string) (o : conflict_op) : bool :=
  match o with
  | Store c => String.eqb (cf_id c) id
  | Resolve _ id' _ _ => String.eqb id' id
  | _ => false
  end.

Definition detector_wf (d : ConflictDetector) : Prop := keys_unique cf_id (conflicts d).

Lemma apply_op_wf o d : detector_wf d -> detector_wf (apply_op o d).
Proof.
  unfold detector_wf. intros H. destruct o; cbn; unfold mark_conflict, resolve_conflict, clear_resolved, with_conn;
    try (destruct (connected d); [|done]); cbn; try done.
  - by apply keys_unique_replace.
  - by apply (keys_unique_update cf_id).
  - by apply (keys_unique_delete cf_id).
Qed.

Lemma apply_op_keeps o d c :
  sql_find cf_id (cf_id c) (conflicts d) = Some c -> detector_wf d -> cf_resolved c = false ->
  names (cf_id c) o = false ->
  sql_find cf_id (cf_id c) (conflicts (apply_op o d)) = Some c.
Proof.
  intros Hc Hwf Hr Hn. destruct o as [c'|now id res by_|now days| |]; cbn;
    unfold mark_conflict, resolve_conflict, clear_resolved, with_conn;
    try (destruct (connected d); [|done]); cbn; try done.
  - change (sql_find cf_id (cf_id c) (sql_replace cf_id c' (conflicts d)) = Some c).
    rewrite sql_find_replace_ne; [done|]. by apply String.eqb_neq.
  - pose proof (sql_find_update cf_id (cf_id c) (has_key cf_id id) (resolve now res by_) (conflicts d)) as H.
    cbn in H. rewrite H, Hc by done. cbn. unfold has_key. cbn in Hn.
    by rewrite String.eqb_sym, Hn.
  - pose proof (sql_find_delete cf_id (old_resolved now days) (cf_id c) (conflicts d) Hwf) as H.
    cbn in H. rewrite H, Hc. unfold old_resolved. by rewrite Hr.
Qed.

(** ** The properties *)

(** After an outage a check reports, for every MAC, exactly the difference
    between the cache and the controller's list: one conflict when the node is
    only here, only there, or in another state there, and none otherwise.  The
    conflicts it returns are the rows it adds to the table, all unresolved. *)
Theorem check_reports_every_difference fromisoformat as_datetime uuid now central_nodes cache d
  (Hconn : connected d = true) (Hcache : cache_wf cache)
  (Hcentral : Forall (central_ok fromisoformat as_datetime now) central_nodes)
  (Hinj : forall i j, uuid i = uuid j -> i = j) (Hfresh : forall i, uuid i ∉ (cf_id <$> conflicts d)) :
  exists l,
    check_conflicts fromisoformat as_datetime uuid now central_nodes cache d
    = (Ok l, {| conflicts := (conflicts d ++ l)%list; connected := true |})
    /\ Forall (fun c => unresolved c = true /\ cf_detected_at c = now) l
    /\ forall mac, reported mac l
         = verdict (sql_find cn_mac_address mac (nodes cache)) (known_centrally mac central_nodes).
Proof.
  destruct (check_conflicts_spec fromisoformat as_datetime uuid now (conflicts d) Hinj Hfresh
              central_nodes cache Hcache Hcentral) as (l & Hrun & Hf & Hrep).
  exists l. split; [|split; [|done]].
  - unfold stored in Hrun. rewrite app_nil_r in Hrun. destruct d as [t b]. cbn in *. by subst b.
  - apply Forall_forall. intros c Hc. destruct (Hf c Hc) as (_ & E & ?). unfold unresolved. by rewrite E.
Qed.

(** Ids of growing length. *)
Fixpoint ones (n : nat) : string := match n with O => "" | S n => "1" ++ ones n end.

Lemma ones_inj i j : ones i = ones j -> i = j.
Proof. revert j; induction i as [|i IH]; intros [|j]; cbn; [done..|]. intros [= H]. f_equal. by apply IH. Qed.

Definition cached_node (mac state : string) : CachedNode :=
  {| cn_mac_address := mac; cn_node_id := None; cn_state := state; cn_workflow_id := None;
     cn_group_id := None; cn_ip_address := None; cn_vendor := None; cn_model := None;
     cn_cached_at := 3; cn_expires_at := 9; cn_raw_data := [] |}.

Definition central_node (mac state : string) : node_dict :=
  [("id", JStr "n"); ("mac_address", JStr mac); ("state", JStr state); ("updated_at", JNull)].

Lemma central_node_ok f g now mac state : central_ok f g now (central_node mac state).
Proof. constructor; by eexists. Qed.

Lemma check_reports_every_difference_witness :
  let cache := {| default_ttl := 300; nodes := [cached_node "aa:01" "active"; cached_node "aa:02" "installing"] |} in
  let central := [central_node "AA:02" "active"; central_node "aa:03" "pending"] in
  exists l,
    check_conflicts (fun _ => None) (fun _ => None) ones 7 central cache {| conflicts := []; connected := true |}
    = (Ok l, {| conflicts := l; connected := true |})
    /\ Forall (fun c => unresolved c = true /\ cf_detected_at c = 7%Z) l
    /\ forall mac, reported mac l = verdict (sql_find cn_mac_address mac (nodes cache)) (known_centrally mac central).
Proof.
  intros cache central. refine (check_reports_every_difference (fun _ => None) (fun _ => None) ones 7 central cache
    {| conflicts := []; connected := true |} eq_refl _ _ ones_inj _).
  - split; [apply (bool_decide_unpack _); vm_compute; exact I|]. repeat constructor.
  - constructor; [apply central_node_ok|]. constructor; [apply central_node_ok|constructor].
  - intros i. apply not_elem_of_nil.
Defined.

Example check_result :
  (check_conflicts (fun _ => None) (fun _ => None) ones 7
     [central_node "AA:02" "active"; central_node "aa:03" "pending"]
     {| default_ttl := 300; nodes := [cached_node "aa:01" "active"; cached_node "aa:02" "installing"] |}
     {| conflicts := []; connected := true |}).1
  = Ok [new_conflict ones 7 0 "aa:01" None "active" "missing" 3 7 MissingCentral;
        new_conflict ones 7 1 "aa:02" (Some "n") "installing" "active" 3 7 StateMismatch;
        new_conflict ones 7 2 "aa:03" (Some "n") "missing" "pending" 7 7 MissingLocal].
Proof. reflexivity. Qed.

(** A pending conflict stays in the table and in the pending list until an
    operation names it; resolving it by its id reports success, takes it off the
    list and keeps the record of how and by whom. *)
Theorem pending_until_resolved d c ops
  (Hwf : detector_wf d) (Hc : c ∈ conflicts d) (Hr : cf_resolved c = false)
  (Hops : forallb (fun o => negb (names (cf_id c) o)) ops = true) :
  let d' := foldl (fun d o => apply_op o d) d ops in
  sql_find cf_id (cf_id c) (conflicts d') = Some c
  /\ (connected d' = true ->
      (exists l, (get_pending_conflicts d').1 = Ok l /\ c ∈ l)
      /\ forall now res by_,
           let '(r, d'') := resolve_conflict now (cf_id c) res by_ d' in
           r = Ok true
           /\ sql_find cf_id (cf_id c) (conflicts d'') = Some (resolve now res by_ c)
           /\ forall l, (get_pending_conflicts d'').1 = Ok l -> cf_id c ∉ (cf_id <$> l)).
Proof.
  intros d'. assert (detector_wf d' /\ sql_find cf_id (cf_id c) (conflicts d') = Some c) as [Hwf' Hf].
  { subst d'. pose proof (sql_find_Some cf_id _ _ c Hwf Hc eq_refl) as Hf. clear Hc. revert d Hwf Hf.
    induction ops as [|o ops IH]; intros d Hwf Hf; [done|]. cbn in Hops. apply andb_true_iff in Hops as [Ho Hops].
    apply negb_true_iff in Ho. cbn. apply IH; [done|by apply apply_op_wf|by apply apply_op_keeps]. }
  split; [done|]. intros Hconn. unfold get_pending_conflicts, resolve_conflict, with_conn. rewrite Hconn. split.
  - eexists. split; [reflexivity|]. unfold order_by_desc. rewrite order_by_perm.
    apply elem_of_sql_select. split; [by apply sql_find_Some_1 in Hf as [? _]|]. unfold unresolved. by rewrite Hr.
  - intros now res by_. destruct (sql_update _ _ _) as [t n] eqn:E.
    assert (n = sql_count (has_key cf_id (cf_id c)) (conflicts d')) as -> by by injection E.
    assert (t = (sql_update (has_key cf_id (cf_id c)) (resolve now res by_) (conflicts d')).1) as Et by by rewrite E.
    rewrite (sql_count_key cf_id), Hf by done. split; [done|]. cbn [conflicts connected].
    pose proof (sql_find_update cf_id (cf_id c) (has_key cf_id (cf_id c)) (resolve now res by_) (conflicts d')) as Hu.
    rewrite Et, Hu, Hf by done. cbn [fmap option_fmap option_map]. rewrite (proj2 (has_key_true _ _ _)) by done.
    split; [done|]. intros l [= <-] (x & Ex & Hx)%list_elem_of_fmap.
    unfold order_by_desc in Hx. rewrite order_by_perm in Hx. apply elem_of_sql_select in Hx as [Hx Hu'].
    apply elem_of_update in Hx as (y & Hy & ->). destruct (has_key cf_id (cf_id c) y) eqn:Ey; [done|].
    apply has_key_false in Ey. congruence.
Qed.

Lemma pending_until_resolved_witness :
  let c := new_conflict ones 7 0 "aa:01" None "active" "missing" 3 7 MissingCentral in
  let c' := new_conflict ones 8 1 "aa:02" None "active" "missing" 3 7 MissingCentral in
  let d := {| conflicts := [c]; connected := true |} in
  sql_find cf_id (cf_id c)
    (conflicts (foldl (fun d o => apply_op o d) d [Store c'; Resolve 9 "1" Merge "ops"; ClearResolved 999999999999999 1]))
  = Some c.
Proof.
  intros c c' d.
  exact (proj1 (pending_until_resolved d c [Store c'; Resolve 9 "1" Merge "ops"; ClearResolved 999999999999999 1]
                  (NoDup_singleton _) (list_elem_of_here c []) eq_refl eq_refl)).
Defined.
