(* ===== verification/Controller.v ===== *)
(** * The controller's database

    The rows of [db/models.py] that the boot, disk, clone and health handlers
    share, and the session they run in.  A request is a transaction on the
    database ([request], after [get_db]); what it broadcasts on the web sockets
    ([core/websocket.py]) is out even if it fails later.  [node.state] and the
    other columns of the lifecycle are the [Node] of NodeLifecycle, whose
    services run on one row of the table by [on_node].

    A column with JSON text holds the value that was dumped: the code writes
    these columns with [json.dumps] only, so that [json.loads] gives it back.  A
    datetime column holds microseconds; whether the driver returns it with a
    time zone is an argument where the code depends on it. *)
From S2P Require Import Prelude PyStr SqlTable NodeLifecycle PiManager.
From stdpp Require Import base tactics list sorting strings gmap.
From Stdlib Require Import ZArith Lia.
From coqutil Require Export Datatypes.RecordSettersUsingExistingGetters.
Open Scope string_scope.
#[global] Arguments RecordSettersUsingExistingGetters.const {E} newValue _ /.
#[global] Arguments RecordSettersUsingExistingGetters.set {R E} getter {Setter} fieldUpdater r /.

(** ** Rows *)

Record NodeRow := {
  core : Node;
  hostname : option string;
  ip_address : option string;
  workflow_id : option string;
  vendor : option string;
  hw_model : option string;
  serial_number : option string;
  system_uuid : option string;
  arch : string;
  boot_mode : string;
  health_status : string;
  health_score : Z;
  group_id : option string;
  last_seen_at : option Z;
  disk_scan_requested_at : option Z;
  pending_command : option string;
  pi_model : option string;
  previous_ip_address : option string;
  last_ip_change_at : option Z;
  created_at : Z
}.

Record NodeTag := { nt_id : string; nt_node_id : string; nt_tag : string }.

Record StorageBackend := {
  sb_id : string;
  sb_name : string;
  sb_type : string;
  sb_config_json : json
}.

Record CloneSession := {
  cs_id : string;
  cs_name : option string;
  cs_status : string;
  cs_clone_mode : string;
  cs_source_node_id : string;
  cs_target_node_id : option string;
  cs_source_device : string;
  cs_target_device : string;
  cs_source_ip : option string;
  cs_source_port : Z;
  cs_source_cert_pem : option string;
  cs_source_key_pem : option string;
  cs_target_cert_pem : option string;
  cs_target_key_pem : option string;
  cs_staging_backend_id : option string;
  cs_staging_size_bytes : option Z;
  cs_staging_status : option string;
  cs_resize_mode : string;
  cs_partition_plan_json : option json;
  cs_bytes_total : option Z;
  cs_bytes_transferred : Z;
  cs_transfer_rate_bps : option Z;
  cs_error_message : option string;
  cs_created_at : Z;
  cs_started_at : option Z;
  cs_completed_at : option Z
}.

Record DiskInfo := {
  di_id : string;
  di_node_id : string;
  di_device : string;
  di_size_bytes : Z;
  di_model : option string;
  di_serial : option string;
  di_partition_table : option string;
  di_partitions_json : option json;
  di_scanned_at : Z
}.

Record PartitionOperation := {
  po_id : string;
  po_node_id : string;
  po_device : string;
  po_operation : string;
  po_params_json : json;
  po_sequence : Z;
  po_status : string;
  po_error_message : option string;
  po_executed_at : option Z
}.

Record HealthAlert := {
  ha_id : string;
  ha_node_id : string;
  ha_alert_type : string;
  ha_severity : string;
  ha_status : string;
  ha_message : string;
  ha_acknowledged_at : option Z;
  ha_resolved_at : option Z
}.

Record NodeHealthSnapshot := {
  hs_node_id : string;
  hs_health_status : string;
  hs_health_score : Z;
  hs_last_seen_seconds_ago : Z;
  hs_boot_count : Z;
  hs_install_attempts : Z;
  hs_ip_address : option string
}.

Record Database := {
  nodes : list NodeRow;
  node_tags : list NodeTag;
  node_logs : list NodeStateLog;
  node_events : list NodeEvent;
  storage_backends : list StorageBackend;
  clone_sessions : list CloneSession;
  disk_info : list DiskInfo;
  partition_operations : list PartitionOperation;
  health_alerts : list HealthAlert;
  health_snapshots : list NodeHealthSnapshot
}.

(** The database as a request sees it, what was broadcast so far, and the boot
    directories of the Raspberry Pis. *)
Record Controller := { db : Database; sent : list (string * json); pi_nodes : pi_tree }.

Definition node_id (r : NodeRow) : string := n_id (core r).
Definition mac_address (r : NodeRow) : string := n_mac_address (core r).
Definition node_state (r : NodeRow) : string := n_state (core r).

(** A row as [Node(mac_address=...)] makes it; the database dates it ([created_at]). *)
Definition new_node (id mac : string) : NodeRow :=
  {| core := {| n_id := id; n_mac_address := mac; n_state := "discovered"; n_state_changed_at := None;
                n_install_attempts := 0; n_last_install_error := None; n_boot_count := 0; n_last_boot_at := None |};
     hostname := None; ip_address := None; workflow_id := None; vendor := None; hw_model := None;
     serial_number := None; system_uuid := None; arch := "x86_64"; boot_mode := "bios";
     health_status := "unknown"; health_score := 100; group_id := None; last_seen_at := None;
     disk_scan_requested_at := None; pending_command := None;
     pi_model := None; previous_ip_address := None; last_ip_change_at := None; created_at := 0 |}.

Definition empty_db : Database :=
  {| nodes := []; node_tags := []; node_logs := []; node_events := []; storage_backends := []; clone_sessions := [];
     disk_info := []; partition_operations := []; health_alerts := []; health_snapshots := [] |}.

(** ** Sessions and requests *)

Inductive server_error : Type :=
| HTTPException (status : Z) (detail : string)
| LifecycleError (e : lifecycle_error)
| TypeError
| AttributeError
| KeyError
| ValueError
| ZeroDivisionError
| ValidationError
| RuntimeError
| OSError
| StatementError              (* a value the driver cannot bind *)
| IntegrityError
| MultipleResultsFound
| NoResultFound
| MissingGreenlet.           (* a row that is not loaded is read outside an await *)

Abbreviation ControllerM A := (M Controller server_error A).

Definition get_db : ControllerM Database := c ← get_state; mret (db c).
Definition set_db (f : Database -> Database) : ControllerM unit := modify (fun c => c <| db ::= f |>).

Definition broadcast (event : string) (data : json) : ControllerM unit :=
  modify (fun c => c <| sent ::= fun l => (l ++ [(event, data)])%list |>).

(** One request: the session is rolled back if the handler raises. *)
Definition request {A} (m : ControllerM A) : ControllerM A :=
  fun c => match m c with
           | (Ok a, c') => (Ok a, c')
           | (Err e, c') => (Err e, c' <| db := db c |>)
           end.

(** [result.scalar_one_or_none()] *)
Definition scalar_one_or_none {R} (rows : list R) : ControllerM (option R) :=
  match rows with
  | [] => mret None
  | [r] => mret (Some r)
  | _ => raise MultipleResultsFound
  end.

(** [select(Node).where(Node.id == id)], by primary key, with the handlers' 404. *)
Definition find_node (id : string) : ControllerM (option NodeRow) :=
  d ← get_db; mret (sql_find node_id id (nodes d)).

Definition need_node (id : string) : ControllerM NodeRow :=
  r ← find_node id;
  match r with
  | Some n => mret n
  | None => raise (HTTPException 404 "Node not found")
  end.

(** Assignments to the attributes of a loaded row. *)
Definition update_node (id : string) (f : NodeRow -> NodeRow) : ControllerM unit :=
  set_db (fun d => d <| nodes ::= fun t => (sql_update (has_key node_id id) f t).1 |>).

(** Run a service of the lifecycle on one row. *)
Definition on_node {A} (id : string) (m : NodeM A) : ControllerM A :=
  fun c =>
    match sql_find node_id id (nodes (db c)) with
    | None => (Err NoResultFound, c)
    | Some r =>
        let '(res, s) := m {| s_node := core r; s_logs := node_logs (db c); s_events := node_events (db c) |} in
        (match res with Ok a => Ok a | Err e => Err (LifecycleError e) end,
         c <| db ::= fun d =>
           d <| nodes ::= fun t => (sql_update (has_key node_id id) (fun r => r <| core := s_node s |>) t).1 |>
             <| node_logs := s_logs s |> <| node_events := s_events s |> |>)
    end.

(** Run the Pi manager; its files are not part of the transaction. *)
Definition on_pi {A} (m : M pi_tree pi_error A) : ControllerM (result pi_error A) :=
  fun c => let '(r, t) := m (pi_nodes c) in (Ok r, c <| pi_nodes := t |>).

(** [db.add(node)] and [db.flush()], with the table's unique columns. *)
Definition insert_node (r : NodeRow) : ControllerM unit :=
  d ← get_db;
  match sql_insert node_id r (nodes d) with
  | None => raise IntegrityError
  | Some t =>
      if existsb (fun n => String.eqb (mac_address n) (mac_address r)) (nodes d) then raise IntegrityError
      else set_db (fun d => d <| nodes := t |>)
  end.

(** Subtraction of a column from [datetime.now(timezone.utc)]: a [TypeError]
    when the driver returns naive datetimes. *)
Definition elapsed_since (reads_aware : bool) (now column : Z) : ControllerM Z :=
  if reads_aware then mret (now - column)%Z else raise TypeError.

(** ** Python values *)

(** [if x] for an optional string and an optional integer. *)
Definition is_set (x : option string) : bool :=
  match x with Some s => negb (String.eqb s "") | None => false end.
Definition nonzero (x : option Z) : bool :=
  match x with Some z => negb (z =? 0)%Z | None => false end.

Definition jnum (x : option Z) : json := match x with Some z => JNum z | None => JNull end.

(** [d.get(k, dflt)] on a decoded object; [None] is the [AttributeError] of
    another value. *)
Definition jget (k : string) (dflt : json) (j : json) : option json :=
  match j with
  | JObj kvs => Some (default dflt (assoc_get k kvs))
  | _ => None
  end.

(** [for x in j]; [None] is the [TypeError] of a value that is no iterable. *)
Definition iterate (j : json) : option (list json) :=
  match j with
  | JArr l => Some l
  | JObj kvs => Some (map (fun kv => JStr kv.1) kvs)
  | JStr s => Some (map (fun c => JStr (String c EmptyString)) (String.list_ascii_of_string s))
  | _ => None
  end.

(** A required field of a keyword construction, and one with a default. *)
Definition required {A} (conv : json -> option A) (k : string) (kvs : list (string * json)) : option A :=
  assoc_get k kvs ≫= conv.
Definition with_default {A} (conv : json -> option A) (d : A) (k : string) (kvs : list (string * json)) : option A :=
  match assoc_get k kvs with Some j => conv j | None => Some d end.

(** [ORDER BY] a text column, stable. *)
Fixpoint insert_by_text {R} (k : R -> string) (r : R) (t : list R) : list R :=
  match t with
  | [] => [r]
  | x :: t' => if String.leb (k r) (k x) then r :: x :: t' else x :: insert_by_text k r t'
  end.
Definition order_by_text {R} (k : R -> string) (t : list R) : list R := foldr (insert_by_text k) [] t.

Lemma insert_by_text_perm {R} (k : R -> string) r t : insert_by_text k r t ≡ₚ r :: t.
Proof. induction t as [|x t IH]; cbn; [done|]. destruct (String.leb _ _); [done|]. rewrite IH. constructor. Qed.

Lemma order_by_text_perm {R} (k : R -> string) t : order_by_text k t ≡ₚ t.
Proof. unfold order_by_text. induction t as [|x t IH]; cbn; [done|]. by rewrite insert_by_text_perm, IH. Qed.

Definition ordered_by_text {R} (k : R -> string) (t : list R) : Prop :=
  StronglySorted (fun x y => String.leb (k x) (k y) = true) t.

Lemma order_by_text_ordered {R} (k : R -> string) t : ordered_by_text k (order_by_text k t).
Proof.
  unfold order_by_text. induction t as [|r t IH]; cbn; [constructor|].
  revert IH. generalize (foldr (insert_by_text k) [] t). clear t. unfold ordered_by_text.
  induction 1 as [|x t Ht IH Hx]; cbn; [by repeat constructor|].
  destruct (String.leb (k r) (k x)) eqn:E.
  - constructor; [by constructor|]. constructor; [done|]. eapply Forall_impl; [exact Hx|].
    intros y Hy. by eapply str_leb_trans.
  - constructor; [done|]. rewrite insert_by_text_perm. constructor; [|done].
    apply str_leb_spec. right. by apply str_leb_false.
Qed.

(** Code that raises without touching the session. *)
Definition lift {A} (r : result server_error A) : ControllerM A := lift_result r.

(** [[f(x) for x in l]] where [f] may raise. *)
Fixpoint map_result {A B} (f : A -> result server_error B) (l : list A) : result server_error (list B) :=
  match l with
  | [] => Ok []
  | x :: l => y ← f x; ys ← map_result f l; Ok (y :: ys)
  end.

(** What pydantic makes of a decoded value for a field of type [int], [bool],
    [float], [str] and [list[str]]; [None] is a validation error.  The library's lax
    conversions of values of other types are its own. *)
Class Pydantic := {
  to_int : json -> option Z;
  to_bool : json -> option bool;
  to_float : json -> option Z;
  to_str : json -> option string;
  to_strs : json -> option (list string)
}.
Class PydanticLaws (P : Pydantic) := {
  to_int_num z : to_int (JNum z) = Some z;
  to_float_num z : to_float (JNum z) = Some z;
  to_bool_bool b : to_bool (JBool b) = Some b;
  to_str_str s : to_str (JStr s) = Some s;
  to_strs_arr l : to_strs (JArr (map JStr l)) = Some l
}.

(** The conversions with no laxity. *)
Definition strict_pydantic : Pydantic :=
  {| to_int j := match j with JNum z => Some z | _ => None end;
     to_bool j := match j with JBool b => Some b | _ => None end;
     to_float j := match j with JNum z => Some z | _ => None end;
     to_str j := match j with JStr s => Some s | _ => None end;
     to_strs j := match j with
                  | JArr l => mapM (fun x => match x with JStr s => Some s | _ => None end) l
                  | _ => None
                  end |}.

(** A field of type [t | None]. *)
Definition optional {A} (conv : json -> option A) (j : json) : option (option A) :=
  match j with JNull => Some None | _ => Some <$> conv j end.

(** ** Laws *)

#[export] Instance strict_pydantic_laws : PydanticLaws strict_pydantic.
Proof.
  split; [done..|]. intros l. cbn. induction l as [|s l IH]; [done|]. cbn. by rewrite IH.
Qed.

Lemma optional_jopt {P : Pydantic} {L : PydanticLaws P} (x : option string) : optional to_str (jopt x) = Some x.
Proof. destruct x; [|done]. cbn. by rewrite to_str_str. Qed.

Lemma optional_jnum {P : Pydantic} {L : PydanticLaws P} (x : option Z) : optional to_int (jnum x) = Some x.
Proof. destruct x; [|done]. cbn. by rewrite to_int_num. Qed.

Lemma optional_float {P : Pydantic} {L : PydanticLaws P} (x : option Z) : optional to_float (jnum x) = Some x.
Proof. destruct x; [|done]. cbn. by rewrite to_float_num. Qed.

Create Rewrite HintDb controller.
#[export] Hint Rewrite @to_int_num @to_bool_bool @to_str_str @to_strs_arr @optional_jopt @optional_jnum
  @to_float_num @optional_float
  using (typeclasses eauto) : controller.

Lemma map_result_Ok {A B} (f : A -> result server_error B) (g : A -> B) l :
  (forall x, x ∈ l -> f x = Ok (g x)) -> map_result f l = Ok (map g l).
Proof.
  induction l as [|x l IH]; [done|]. intros H. cbn.
  rewrite (H x) by apply list_elem_of_here. cbn. rewrite IH; [done|]. intros y Hy. apply H. by right.
Qed.

Lemma request_Ok {A} (m : ControllerM A) c a c' : request m c = (Ok a, c') <-> m c = (Ok a, c').
Proof. unfold request. by destruct (m c) as [[x|e] c2]; split; intros [= -> ->]. Qed.

Lemma request_Err {A} (m : ControllerM A) c e c' : request m c = (Err e, c') -> db c' = db c.
Proof. unfold request. destruct (m c) as [[x|e2] c2]; [done|]. by intros [= _ <-]. Qed.

(** A property of the database that the code before any exception keeps. *)
Definition keeps_db {A} (P : Database -> Prop) (m : ControllerM A) : Prop :=
  forall c a c', P (db c) -> m c = (Ok a, c') -> P (db c').

Lemma keeps_db_ret {A} P (a : A) : keeps_db P (mret a).
Proof. by intros c b c' Hc [= _ <-]. Qed.

Lemma keeps_db_raise {A} P e : keeps_db (A := A) P (raise e).
Proof. by intros c a c' _ [=]. Qed.

Lemma keeps_db_bind {A B} P (m : ControllerM A) (f : A -> ControllerM B) :
  keeps_db P m -> (forall a, keeps_db P (f a)) -> keeps_db P (m ≫= f).
Proof.
  intros Hm Hf c b c' Hc. unfold mbind, M_bind. destruct (m c) as [[a|e] c1] eqn:E; [|done].
  intros H. exact (Hf a c1 b c' (Hm c a c1 Hc E) H).
Qed.

Lemma keeps_db_get_state P : keeps_db P get_state.
Proof. by intros c a c' Hc [= _ <-]. Qed.

Lemma keeps_db_get_db P : keeps_db P get_db.
Proof. by intros c a c' Hc [= _ <-]. Qed.

Lemma keeps_db_broadcast P e d : keeps_db P (broadcast e d).
Proof. by intros c a c' Hc [= _ <-]. Qed.

Lemma keeps_db_find_node P id : keeps_db P (find_node id).
Proof. by intros c a c' Hc [= _ <-]. Qed.

Lemma keeps_db_need_node P id : keeps_db P (need_node id).
Proof. apply keeps_db_bind; [apply keeps_db_find_node|]. intros [n|]; [apply keeps_db_ret|apply keeps_db_raise]. Qed.

Lemma keeps_db_scalar {R} P (rows : list R) : keeps_db P (scalar_one_or_none rows).
Proof. destruct rows as [|r [|]]; [apply keeps_db_ret..|apply keeps_db_raise]. Qed.

Lemma keeps_db_elapsed P b n t : keeps_db P (elapsed_since b n t).
Proof. destruct b; [apply keeps_db_ret|apply keeps_db_raise]. Qed.

Lemma keeps_db_lift {A} P (r : result server_error A) : keeps_db P (lift r).
Proof. by intros c a c' Hc [= _ <-]. Qed.

(** Every request keeps what its handler keeps. *)
Lemma keeps_db_request {A} (P : Database -> Prop) (m : ControllerM A) :
  keeps_db P m -> forall c, P (db c) -> P (db (request m c).2).
Proof.
  intros Hm c Hc. unfold request. destruct (m c) as [[a|e] c'] eqn:E; [by eapply Hm|done].
Qed.

(** Follow a handler down to the steps that change the database. *)
Ltac keeps_db_steps :=
  repeat first
    [ apply keeps_db_ret | apply keeps_db_raise | apply keeps_db_get_state | apply keeps_db_get_db
    | apply keeps_db_broadcast | apply keeps_db_find_node | apply keeps_db_need_node | apply keeps_db_scalar
    | apply keeps_db_elapsed | apply keeps_db_lift | (apply keeps_db_bind; [|intros ?])
    | lazymatch goal with |- keeps_db _ (match ?x with _ => _ end) => destruct x eqn:? end ].

Lemma find_node_run id c : find_node id c = (Ok (sql_find node_id id (nodes (db c))), c).
Proof. done. Qed.

Lemma need_node_run id c :
  need_node id c = match sql_find node_id id (nodes (db c)) with
                   | Some n => (Ok n, c)
                   | None => (Err (HTTPException 404 "Node not found"), c)
                   end.
Proof. unfold need_node. rewrite (bind_Ok _ _ _ _ _ (find_node_run id c)). by destruct (sql_find _ _ _). Qed.

Lemma on_pi_run {A} (m : M pi_tree pi_error A) c :
  on_pi m c = (Ok (m (pi_nodes c)).1, c <| pi_nodes := (m (pi_nodes c)).2 |>).
Proof. unfold on_pi. by destruct (m (pi_nodes c)). Qed.

Lemma insert_node_run r c :
  insert_node r c = if existsb (fun n => String.eqb (mac_address n) (mac_address r)) (nodes (db c))
                       || bool_decide (node_id r ∈ map node_id (nodes (db c)))
                    then (Err IntegrityError, c)
                    else (Ok tt, c <| db ::= fun d => d <| nodes := (nodes (db c) ++ [r])%list |> |>).
Proof.
  unfold insert_node. rewrite (bind_Ok get_db _ c (db c) c eq_refl). unfold sql_insert.
  destruct (sql_find node_id (node_id r) (nodes (db c))) as [x|] eqn:E.
  - apply sql_find_Some_1 in E as [Hin Hk]. rewrite bool_decide_eq_true_2 by (rewrite <- Hk; by apply list_elem_of_In, in_map, list_elem_of_In).
    by rewrite orb_true_r.
  - apply sql_find_None in E. rewrite bool_decide_eq_false_2 by done. rewrite orb_false_r. by destruct (existsb _ _).
Qed.
