(* ===== verification/Throttler.v ===== *)
(** * The bandwidth throttler

    [core/bandwidth_throttler.py], and [serve_boot_file] of
    [api/routes/boot_files.py], which streams through it.  The dict of transfers
    keeps insertion order; priorities and shares are floats (Floats), and
    [fsum], Python's [sum], is a parameter, as it compensates rounding errors in
    some versions and not in others.

    An async generator runs until it yields or awaits.  [others t] is what other
    tasks do to the throttler at the [t]-th suspension, [closes n] whether the
    consumer closes the generator when it has [n] chunks.  The lock is never held
    across an await, so that taking it does not suspend. *)
From S2P Require Import Prelude Floats PyStr Controller.
From stdpp Require Import base tactics list strings pretty.
From Stdlib Require Import Ascii ZArith QArith Qround Lia Lqa.
Open Scope string_scope.
Open Scope Z_scope.

Definition MIN_BANDWIDTH_MBPS : Z := 1.
Definition MIN_BANDWIDTH_BYTES_PER_SEC : Z := MIN_BANDWIDTH_MBPS * 125000.

Record ActiveTransfer := {
  at_transfer_id : string;
  at_file_path : string;
  at_total_bytes : Z;
  at_bytes_transferred : Z;
  at_started_at : Q;
  at_priority : Q
}.

Record BandwidthThrottler := {
  total_bandwidth_bytes_per_sec : Z;
  transfers : list (string * ActiveTransfer)
}.

Definition new_throttler (total_bandwidth_mbps : Z) : BandwidthThrottler :=
  {| total_bandwidth_bytes_per_sec := total_bandwidth_mbps * 125000; transfers := [] |}.

Definition total_bandwidth_mbps (h : BandwidthThrottler) : Z := total_bandwidth_bytes_per_sec h / 125000.
Definition set_total_bandwidth_mbps (value : Z) (h : BandwidthThrottler) : BandwidthThrottler :=
  h <| total_bandwidth_bytes_per_sec := value * 125000 |>.

Definition remaining_bytes (t : ActiveTransfer) : Z := Z.max 0 (at_total_bytes t - at_bytes_transferred t).

Section Throttler.
Variable fl : Q -> Q.
Variable fsum : list Q -> Q.

Definition progress (t : ActiveTransfer) : Q :=
  if at_total_bytes t <=? 0 then 0
  else fmin1 (fdiv fl (inject_Z (at_bytes_transferred t)) (inject_Z (at_total_bytes t))).

Definition calculate_priority (t : ActiveTransfer) : Q :=
  let small := 10 * 1024 * 1024 in
  let priority := 1%Q in
  let priority :=
    if at_total_bytes t <? small
    then fadd fl priority (fsub fl 1 (fdiv fl (inject_Z (at_total_bytes t)) (inject_Z small)))
    else priority in
  if Qle_bool (progress t) (fl (8 # 10)) then priority
  else fadd fl priority (fdiv fl (fsub fl (progress t) (fl (8 # 10))) (fl (2 # 10))).

Definition with_priority (t : ActiveTransfer) : ActiveTransfer := t <| at_priority := calculate_priority t |>.

Definition register_transfer (now : Q) (transfer_id file_path : string) (total_bytes : Z) (h : BandwidthThrottler) :
    BandwidthThrottler :=
  let transfer := {| at_transfer_id := transfer_id; at_file_path := file_path; at_total_bytes := total_bytes;
                     at_bytes_transferred := 0; at_started_at := now; at_priority := 1 |} in
  h <| transfers ::= assoc_set transfer_id (with_priority transfer) |>.

Definition unregister_transfer (transfer_id : string) (h : BandwidthThrottler) : BandwidthThrottler :=
  match assoc_get transfer_id (transfers h) with
  | Some _ => h <| transfers ::= assoc_del transfer_id |>
  | None => h
  end.

Definition update_progress (transfer_id : string) (bytes_sent : Z) (h : BandwidthThrottler) : BandwidthThrottler :=
  match assoc_get transfer_id (transfers h) with
  | Some transfer =>
      h <| transfers ::= assoc_set transfer_id
             (with_priority (transfer <| at_bytes_transferred ::= fun n => n + bytes_sent |>)) |>
  | None => h
  end.

(** The floor of one interval. *)
Definition min_allowed (interval_seconds : Q) : Z :=
  trunc (fmul fl (inject_Z MIN_BANDWIDTH_BYTES_PER_SEC) interval_seconds).

(** No sum of priorities is zero, see [throttler_wf], so the division is defined. *)
Definition get_allowed_bytes (transfer_id : string) (interval_seconds : Q) (h : BandwidthThrottler) : Z :=
  match assoc_get transfer_id (transfers h) with
  | None => 0
  | Some transfer =>
      if Nat.eqb (length (transfers h)) 0 then 0
      else
        let total_priority := fsum (map (fun t => at_priority t.2) (transfers h)) in
        let priority_share := fdiv fl (at_priority transfer) total_priority in
        let total_bytes_this_interval := fmul fl (inject_Z (total_bandwidth_bytes_per_sec h)) interval_seconds in
        let allowed := trunc (fmul fl total_bytes_this_interval priority_share) in
        Z.min (Z.max allowed (min_allowed interval_seconds)) (remaining_bytes transfer)
  end.

Definition get_active_transfer_count (h : BandwidthThrottler) : nat := length (transfers h).
Definition get_transfer_info (transfer_id : string) (h : BandwidthThrottler) : option ActiveTransfer :=
  assoc_get transfer_id (transfers h).

(** The global throttler, [_throttler]. *)
Definition get_throttler (global : option BandwidthThrottler) : BandwidthThrottler := default (new_throttler 1000) global.
Definition configure_throttler (bandwidth_mbps : Z) (global : option BandwidthThrottler) : option BandwidthThrottler :=
  Some (match global with
        | None => new_throttler bandwidth_mbps
        | Some h => set_total_bandwidth_mbps bandwidth_mbps h
        end).

(** ** Other tasks *)

Inductive throttle_op : Type :=
| Register (now : Q) (transfer_id file_path : string) (total_bytes : Z)
| Unregister (transfer_id : string)
| Progress (transfer_id : string) (bytes_sent : Z)
| Configure (bandwidth_mbps : Z).

Definition run_op (o : throttle_op) (h : BandwidthThrottler) : BandwidthThrottler :=
  match o with
  | Register now id path n => register_transfer now id path n h
  | Unregister id => unregister_transfer id h
  | Progress id n => update_progress id n h
  | Configure mbps => set_total_bandwidth_mbps mbps h
  end.

Definition run_ops (os : list throttle_op) (h : BandwidthThrottler) : BandwidthThrottler := foldl (flip run_op) h os.

Definition concerns (transfer_id : string) (o : throttle_op) : bool :=
  match o with
  | Register _ id _ _ | Unregister id | Progress id _ => String.eqb transfer_id id
  | Configure _ => false
  end.

(** ** Streams *)

Inductive stream_stop : Type :=
| StillRunning   (** out of fuel *)
| GeneratorExit  (** closed by the consumer *)
| ContentError.  (** raised by the content's iterator *)

#[export] Instance stream_stop_eq_dec : EqDecision stream_stop.
Proof. solve_decision. Defined.

Record stream := {
  throttler : BandwidthThrottler;
  suspensions : nat;
  yielded : list (list Z)
}.

Abbreviation StreamM := (M stream stream_stop).

Variables (others : nat -> list throttle_op) (closes : nat -> bool).
Variables (transfer_id : string) (chunk_size : Z).

Definition suspend : StreamM unit :=
  modify (fun s => s <| throttler ::= run_ops (others (suspensions s)) |> <| suspensions ::= S |>).

Definition yield_chunk (chunk : list Z) : StreamM unit :=
  modify (fun s => s <| yielded ::= fun l => (l ++ [chunk])%list |>);;
  suspend;;
  s ← get_state;
  if closes (length (yielded s)) then raise GeneratorExit else mret tt.

(** The two loops: [whole] is the one after the last chunk, which empties the
    buffer and does not sleep when it has. *)
Fixpoint drain (fuel : nat) (whole : bool) (buffer : list Z) : StreamM (list Z) :=
  match fuel with
  | O => raise StillRunning
  | S fuel =>
      if (if whole then negb (bool_decide (buffer = [])) else chunk_size <=? Z.of_nat (length buffer)) then
        s ← get_state;
        let allowed := get_allowed_bytes transfer_id (fl (1 # 10)) (throttler s) in
        if allowed <=? 0 then suspend;; drain fuel whole buffer
        else
          let send_size := Z.to_nat (Z.min (Z.min (Z.of_nat (length buffer)) allowed) chunk_size) in
          let to_send := take send_size buffer in
          let buffer := drop send_size buffer in
          modify (fun s => s <| throttler ::= update_progress transfer_id (Z.of_nat (length to_send)) |>);;
          yield_chunk to_send;;
          (if whole && bool_decide (buffer = []) then mret tt else suspend);;
          drain fuel whole buffer
      else mret buffer
  end.

(** [async for chunk in content_iterator]; the iterator raises at its end if [fails]. *)
Fixpoint feed (fuel : nat) (content : list (list Z)) (fails : bool) (buffer : list Z) : StreamM (list Z) :=
  suspend;;
  match content with
  | [] => if fails then raise ContentError else mret buffer
  | chunk :: content =>
      buffer ← drain fuel false (buffer ++ chunk)%list;
      feed fuel content fails buffer
  end.

(** [try: ... finally: unregister] *)
Definition throttled_iterator (fuel : nat) (content : list (list Z)) (fails : bool) : StreamM unit := fun s =>
  match (buffer ← feed fuel content fails []; drain fuel true buffer;; mret tt) s with
  | (Err StillRunning, s) => (Err StillRunning, s)
  | (r, s) => (r, s <| throttler ::= unregister_transfer transfer_id |>)
  end.
End Throttler.

(** ** Serving boot files *)

(** [core/system_settings.py]: the table of settings, by key. *)
Definition system_settings : Type := list (string * option string).

Definition DEFAULT_BANDWIDTH_MBPS : Z := 1000.

Definition get_setting (key : string) (t : system_settings) : option string := default None (assoc_get key t).
Definition set_setting (key : string) (value : option string) (t : system_settings) : system_settings := assoc_set key value t.
Definition get_default_boot_backend_id (t : system_settings) : option string := get_setting "default_boot_backend_id" t.
Definition get_file_serving_bandwidth_mbps (t : system_settings) : Z :=
  match get_setting "file_serving_bandwidth_mbps" t with
  | Some value => if String.eqb value "" then DEFAULT_BANDWIDTH_MBPS else default DEFAULT_BANDWIDTH_MBPS (py_int value)
  | None => DEFAULT_BANDWIDTH_MBPS
  end.

Inductive download_error : Type := DownloadNotFound | DownloadValueError (message : string).

Record boot_response := {
  br_content : list (list Z);
  br_media_type : string;
  br_headers : list (string * string);
  br_transfer_id : string
}.

Section Serving.
Variable fl : Q -> Q.
(** The backend rows, what a backend's service gives for a path (the content, its
    type and the size it tells), and the stored checksums. *)
Variable backends : string -> option StorageBackend.
Variable download_file : StorageBackend -> string -> result download_error (list (list Z) * string * Z).
Variable checksums : string -> string -> option string.

Definition quoted (x : string) : string := String "034"%char (x ++ String "034"%char "").

Definition get_default_backend (settings : system_settings) : result server_error (string * StorageBackend) :=
  let backend_id := get_default_boot_backend_id settings in
  if negb (is_set backend_id) then
    Err (HTTPException 503
           "No default boot backend configured. Set default_boot_backend_id in system settings.")
  else
    let id := default "" backend_id in
    match backends id with
    | None => Err (HTTPException 503 ("Default boot backend '" ++ id ++ "' not found."))
    | Some backend => Ok (id, backend)
    end.

Definition file_headers (size : Z) (checksum : option string) (file_path : string) : list (string * string) :=
  ((if 0 <? size then [("Content-Length", pretty size)] else [])
   ++ (if is_set checksum then
         [("ETag", quoted ("sha256:" ++ default "" checksum)%string); ("X-Checksum-SHA256", default "" checksum)] else [])
   ++ [("Content-Disposition", ("inline; filename=" ++ quoted (List.last (split_on "/"%char file_path) ""))%string)])%list.

(** [clock] is [str(time.time())]. *)
Definition serve_boot_file (settings : system_settings) (now : Q) (clock path : string) :
    M BandwidthThrottler server_error boot_response :=
  let file_path := "/" ++ lstrip "/"%char path in
  backend ← lift_result (get_default_backend settings);
  match download_file backend.2 file_path with
  | Err DownloadNotFound => raise (HTTPException 404 ("File not found: " ++ file_path))
  | Err (DownloadValueError m) => raise (HTTPException 400 m)
  | Ok (content, mime_type, size) =>
      let transfer_id := "boot-" ++ file_path ++ "-" ++ clock in
      modify (register_transfer fl now transfer_id file_path size);;
      mret {| br_content := content; br_media_type := mime_type;
              br_headers := file_headers size (checksums backend.1 file_path) file_path;
              br_transfer_id := transfer_id |}
  end.
End Serving.

(** ** Laws *)

(** What the theorems use of [sum] on floats. *)
Class FloatSum (fl : Q -> Q) (fsum : list Q -> Q) := {
  fsum_ge l x : Forall (fun y => 0 <= y /\ fl y == y)%Q l -> x ∈ l -> (x <= fsum l)%Q;
  fsum_one x : (fl x == x)%Q -> (fsum [x] == x)%Q
}.

(** Adding up from the left, rounding every sum. *)
Definition float_sum (fl : Q -> Q) (l : list Q) : Q := foldl (fadd fl) 0%Q l.

Section Laws.
Context (fl : Q -> Q) `{!Rounding fl}.

Lemma float_sum_from l acc : (fl acc == acc)%Q -> Forall (fun y => 0 <= y /\ fl y == y)%Q l ->
  (acc <= foldl (fadd fl) acc l)%Q /\ forall x, (0 <= acc)%Q -> x ∈ l -> (x <= foldl (fadd fl) acc l)%Q.
Proof.
  revert acc. induction l as [|y l IH]; intros acc Hacc Hl; [cbn; split; [lra|by intros x _ ?%not_elem_of_nil]|].
  apply Forall_cons in Hl as [[Hy1 Hy2] Hl]. cbn [foldl].
  destruct (IH (fadd fl acc y)) as [H1 H2]; [unfold fadd; apply fl_idem|done|].
  assert (acc <= fadd fl acc y)%Q by (unfold fadd; apply Qle_trans with (fl acc); [lra|apply fl_mono; lra]).
  split; [lra|]. intros x H0 Hx. apply elem_of_cons in Hx as [->|Hx].
  - assert (y <= fadd fl acc y)%Q by (unfold fadd; apply Qle_trans with (fl y); [lra|apply fl_mono; lra]). lra.
  - apply H2; [lra|done].
Qed.

#[export] Instance float_sum_laws : FloatSum fl (float_sum fl).
Proof.
  assert (fl 0 == 0)%Q by (apply (fl_int 0); lia).
  split; [intros l x Hl Hx; by apply float_sum_from|].
  intros x Hx. cbn. unfold fadd. rewrite <- Hx at 2. apply fl_ext. lra.
Qed.

Lemma priority_ge t : (1 <= calculate_priority fl t)%Q.
Proof.
  unfold calculate_priority. cbv zeta. set (base := if at_total_bytes t <? _ then _ else _).
  assert (1 <= base)%Q as Hb.
  { unfold base. destruct (Z.ltb_spec (at_total_bytes t) (10 * 1024 * 1024)) as [Hs|_]; [|lra].
    unfold fadd. apply (fl_ge _ 1 0); [lia..|]. unfold fsub. change (1 # Z.to_pos (2 ^ 0))%Q with 1%Q.
    enough (0 <= fl (1 - fdiv fl (inject_Z (at_total_bytes t)) (inject_Z (10 * 1024 * 1024))))%Q by lra.
    apply fl_nonneg. enough (fdiv fl (inject_Z (at_total_bytes t)) (inject_Z (10 * 1024 * 1024)) <= 1)%Q by lra.
    unfold fdiv. apply (fl_le _ 1 0); [lia..|]. apply Qle_shift_div_r; [done|].
    change (1 # Z.to_pos (2 ^ 0))%Q with 1%Q. rewrite Qmult_1_l, <- Zle_Qle. lia. }
  clearbody base. destruct (Qle_bool (progress fl t) (fl (8 # 10))) eqn:E; [done|].
  rewrite <- not_true_iff_false, Qle_bool_iff in E.
  unfold fadd. apply (fl_ge _ 1 0); [lia..|]. change (1 # Z.to_pos (2 ^ 0))%Q with 1%Q.
  enough (0 <= fdiv fl (fsub fl (progress fl t) (fl (8 # 10))) (fl (2 # 10)))%Q by lra.
  apply fdiv_nonneg; [|unfold fsub; apply fl_nonneg; lra].
  apply Qlt_le_trans with (1 # 8)%Q; [done|]. by apply (fl_ge _ 1 3).
Qed.

Lemma priority_rounded t : (fl (calculate_priority fl t) == calculate_priority fl t)%Q.
Proof.
  assert (fl 1 == 1)%Q as H1 by (apply (fl_int 1); lia).
  unfold calculate_priority, fadd. cbv zeta. destruct (Qle_bool _ _); [destruct (_ <? _); [|done]|]; apply fl_idem.
Qed.

(** Keys are distinct and priorities are current. *)
Definition throttler_wf (h : BandwidthThrottler) : Prop :=
  NoDup (transfers h).*1 /\ Forall (fun t => at_priority t.2 = calculate_priority fl t.2) (transfers h).

Lemma wf_set k t h : throttler_wf h -> throttler_wf (h <| transfers ::= assoc_set k (with_priority fl t) |>).
Proof.
  intros [H1 H2]. split; [by apply NoDup_assoc_set|]. by apply Forall_assoc_set.
Qed.

Lemma wf_unregister id h : throttler_wf h -> throttler_wf (unregister_transfer id h).
Proof.
  intros [H1 H2]. unfold unregister_transfer. destruct (assoc_get _ _); [|done].
  split; [by apply NoDup_assoc_del|]. by apply Forall_assoc_del.
Qed.

Lemma wf_progress id n h : throttler_wf h -> throttler_wf (update_progress fl id n h).
Proof. intros H. unfold update_progress. destruct (assoc_get _ _); [by apply wf_set|done]. Qed.

Lemma wf_run_ops os h : throttler_wf h -> throttler_wf (run_ops fl os h).
Proof.
  revert h. induction os as [|o os IH]; intros h H; [done|]. apply IH.
  destruct o; [by apply wf_set|by apply wf_unregister|by apply wf_progress|exact H].
Qed.

Lemma run_ops_entry id os h : forallb (fun o => negb (concerns id o)) os = true ->
  assoc_get id (transfers (run_ops fl os h)) = assoc_get id (transfers h).
Proof.
  revert h. induction os as [|o os IH]; intros h H; [done|]. cbn in H. apply andb_prop in H as [H1 H2].
  cbn [run_ops foldl]. etransitivity; [by apply IH|]. destruct o as [now k path n|k|k n|mbps]; cbn in H1 |- *; [| | |done].
  - apply assoc_get_set_ne. intros ->. by rewrite String.eqb_refl in H1.
  - unfold unregister_transfer. destruct (assoc_get k _); [|done]. cbn.
    apply assoc_get_del_ne. intros ->. by rewrite String.eqb_refl in H1.
  - unfold update_progress. destruct (assoc_get k _); [|done]. cbn.
    apply assoc_get_set_ne. intros ->. by rewrite String.eqb_refl in H1.
Qed.

(** *** Allowances *)

Lemma min_allowed_pos : 0 < min_allowed fl (fl (1 # 10)).
Proof.
  assert (1 # 16 <= fl (1 # 10))%Q as H by (by apply (fl_ge _ 1 4)).
  enough (7812 <= min_allowed fl (fl (1 # 10))) by lia.
  unfold min_allowed, fmul. apply (trunc_mono (inject_Z 7812)); [done|]. apply (fl_ge _ 7812 0); [lia..|].
  change (7812 # Z.to_pos (2 ^ 0))%Q with (inject_Z 7812). change (inject_Z MIN_BANDWIDTH_BYTES_PER_SEC) with 125000%Q.
  apply Qle_trans with (125000 * (1 # 16))%Q; [done|]. apply Qmult_le_l; [done|exact H].
Qed.

Context {fsum : list Q -> Q} `{!FloatSum fl fsum}.

Lemma entry_priority id t h : throttler_wf h -> assoc_get id (transfers h) = Some t ->
  (1 <= at_priority t)%Q /\ (at_priority t <= fsum (map (fun t => at_priority t.2) (transfers h)))%Q.
Proof.
  intros [_ Hp] Ht.
  assert ((id, t) ∈ transfers h) as Hin.
  { clear Hp. induction (transfers h) as [|[k v] l IH]; [done|]. cbn in Ht.
    destruct (String.eqb_spec id k) as [<-|]; [injection Ht as <-; left|right; auto]. }
  pose proof (proj1 (Forall_forall _ _) Hp _ Hin) as E. cbn in E. rewrite E at 1. split; [apply priority_ge|].
  apply fsum_ge; [|change (at_priority t) with ((fun t => at_priority t.2) (id, t)); by apply list_elem_of_fmap_2].
  apply Forall_forall. intros y Hy. apply list_elem_of_fmap in Hy as (x & -> & Hx).
  rewrite (proj1 (Forall_forall _ _) Hp _ Hx). pose proof (priority_ge x.2). split; [lra|apply priority_rounded].
Qed.

Definition allowance (h : BandwidthThrottler) (interval : Q) (priority : Q) : Z :=
  trunc (fmul fl (fmul fl (inject_Z (total_bandwidth_bytes_per_sec h)) interval)
           (fdiv fl priority (fsum (map (fun t => at_priority t.2) (transfers h))))).

Lemma allowed_run id t interval h : assoc_get id (transfers h) = Some t ->
  get_allowed_bytes fl fsum id interval h
  = Z.min (Z.max (allowance h interval (at_priority t)) (min_allowed fl interval)) (remaining_bytes t).
Proof.
  intros Ht. unfold get_allowed_bytes, allowance. rewrite Ht.
  destruct (transfers h) as [|x l] eqn:E; [discriminate Ht|done].
Qed.

(** More priority, more bytes, and never more than there are. *)
Lemma allowance_mono h interval p q sum :
  (0 <= interval)%Q -> 0 <= total_bandwidth_bytes_per_sec h ->
  sum = fsum (map (fun t => at_priority t.2) (transfers h)) -> (0 < sum)%Q -> (0 <= p)%Q -> (p <= q)%Q -> (q <= sum)%Q ->
  0 <= allowance h interval p <= allowance h interval q
  /\ allowance h interval q <= trunc (fmul fl (inject_Z (total_bandwidth_bytes_per_sec h)) interval).
Proof.
  intros Hi Hb -> Hs Hp Hpq Hq. unfold allowance. set (sum := fsum _) in *.
  set (all := fmul fl (inject_Z _) interval).
  assert (0 <= all)%Q as Ha by (apply fmul_nonneg; [by apply inject_nonneg|done]).
  assert (fl all == all)%Q as Hall by apply fmul_idem.
  assert (0 <= fdiv fl p sum)%Q by (by apply fdiv_nonneg).
  assert (fdiv fl p sum <= fdiv fl q sum)%Q by (by apply fdiv_mono).
  assert (fdiv fl q sum <= 1)%Q.
  { unfold fdiv. apply (fl_le _ 1 0); [lia..|]. change (1 # Z.to_pos (2 ^ 0))%Q with 1%Q.
    apply Qle_shift_div_r; [done|]. lra. }
  assert (0 <= fmul fl all (fdiv fl p sum))%Q by (by apply fmul_nonneg).
  assert (fmul fl all (fdiv fl p sum) <= fmul fl all (fdiv fl q sum))%Q by (by apply fmul_mono).
  split; [split|].
  - by apply trunc_nonneg.
  - by apply trunc_mono.
  - apply trunc_mono; [lra|]. apply Qle_trans with (fl all); [unfold fmul at 1; apply fl_mono; nra|lra].
Qed.

(** The allowance of a registered transfer.  It is at least the floor and at most
    the whole bandwidth of the interval (or the floor, if that is more), unless
    fewer bytes are left; a transfer of no less priority may send no less, unless
    fewer bytes are left; a transfer that is alone has the whole bandwidth; and in
    the interval the streams use, it is positive exactly while bytes are left. *)
Theorem allowance_bounds h id t interval :
  throttler_wf h -> assoc_get id (transfers h) = Some t -> 0 <= total_bandwidth_bytes_per_sec h -> (0 <= interval)%Q ->
  let allowed id := get_allowed_bytes fl fsum id interval h in
  let least := min_allowed fl interval in
  let most := Z.max (trunc (fmul fl (inject_Z (total_bandwidth_bytes_per_sec h)) interval)) least in
  Z.min least (remaining_bytes t) <= allowed id <= Z.min most (remaining_bytes t)
  /\ (forall id' t', assoc_get id' (transfers h) = Some t' -> (at_priority t <= at_priority t')%Q ->
        Z.min (allowed id) (remaining_bytes t') <= allowed id')
  /\ (transfers h = [(id, t)] -> allowed id = Z.min most (remaining_bytes t))
  /\ (interval = fl (1 # 10) -> (0 < allowed id <-> 0 < remaining_bytes t)).
Proof.
  intros Hwf Ht Hb Hi allowed least most. destruct (entry_priority id t h Hwf Ht) as [H1 H2].
  unfold allowed. rewrite (allowed_run id t) by done. fold least.
  destruct (allowance_mono h interval (at_priority t) (at_priority t) _ Hi Hb eq_refl) as [Hp Hm]; [lra..|].
  split; [unfold most; lia|]. split; [|split].
  - intros id' t' Ht' Hle. rewrite (allowed_run id' t') by done. fold least. destruct (entry_priority id' t' h Hwf Ht') as [H3 H4].
    destruct (allowance_mono h interval (at_priority t) (at_priority t') _ Hi Hb eq_refl) as [Hq _]; [lra..|]. lia.
  - intros Hone. unfold most. do 2 f_equal. unfold allowance. rewrite Hone. cbn [map snd].
    set (all := fmul fl (inject_Z _) interval).
    assert (0 <= all)%Q as Ha by (apply fmul_nonneg; [by apply inject_nonneg|done]).
    assert (fl all == all)%Q as Hall by apply fmul_idem.
    assert (fl (at_priority t) == at_priority t)%Q as Hr.
    { destruct Hwf as [_ Hw]. rewrite Hone in Hw. apply Forall_cons in Hw as [E _]. cbn in E. rewrite E. apply priority_rounded. }
    assert (fmul fl all (fdiv fl (at_priority t) (fsum [at_priority t])) == all)%Q as E.
    { apply Qeq_trans with (fl all); [|done]. unfold fmul at 1. apply fl_ext. enough (fdiv fl (at_priority t) (fsum [at_priority t]) == 1)%Q as -> by lra.
      apply Qeq_trans with (fl 1); [|apply (fl_int 1); lia]. unfold fdiv. apply fl_ext.
      rewrite fsum_one by done. field. lra. }
    apply Z.le_antisymm; apply trunc_mono; lra.
  - intros ->. pose proof min_allowed_pos. unfold least. lia.
Qed.
End Laws.

(** *** Streams *)

Section Streams.
Context (fl : Q -> Q) `{!Rounding fl} (fsum : list Q -> Q).
Context (others : nat -> list throttle_op) (closes : nat -> bool) (id : string) (chunk_size : Z).
Hypothesis Hothers : forall t, forallb (fun o => negb (concerns id o)) (others t) = true.
Hypothesis Hchunk : 0 < chunk_size.
#[local] Abbreviation drain_ := (drain fl fsum others closes id chunk_size).
#[local] Abbreviation feed_ := (feed fl fsum others closes id chunk_size).

(** The stream's own entry says that [k] of [n] bytes are sent. *)
Definition sent_of (n k : Z) (h : BandwidthThrottler) : Prop :=
  throttler_wf fl h /\ exists t, assoc_get id (transfers h) = Some t /\ at_total_bytes t = n /\ at_bytes_transferred t = k.

Lemma sent_run_ops n k i h : sent_of n k h -> sent_of n k (run_ops fl (others i) h).
Proof.
  intros (Hwf & t & Ht & Hn). split; [by apply wf_run_ops|]. exists t. by rewrite run_ops_entry.
Qed.

Lemma sent_progress n k m h : sent_of n k h -> sent_of n (k + m) (update_progress fl id m h).
Proof.
  intros (Hwf & t & Ht & Hn & Hk). split; [by apply wf_progress|]. unfold update_progress. rewrite Ht.
  eexists. split; [apply assoc_get_set_eq|]. cbn. by rewrite Hk.
Qed.

Lemma sent_allowed n k h : sent_of n k h ->
  let a := get_allowed_bytes fl fsum id (fl (1 # 10)) h in
  a <= Z.max 0 (n - k) /\ (0 < a <-> k < n).
Proof.
  intros (Hwf & t & Ht & <- & <-) a. unfold a. rewrite (allowed_run fl (fsum := fsum) id t) by done.
  pose proof (min_allowed_pos fl). unfold remaining_bytes. lia.
Qed.

Definition chunk_ok (c : list Z) : Prop := 1 <= Z.of_nat (length c) <= chunk_size.
Definition bytes (out : list (list Z)) : Z := Z.of_nat (length (concat out)).

(** What a part of the stream does between two states: the chunks [out]. *)
Definition emits (n k : Z) (s : stream) (out : list (list Z)) (s' : stream) : Prop :=
  yielded s' = (yielded s ++ out)%list /\ Forall chunk_ok out /\ sent_of n (k + bytes out) (throttler s') /\ k + bytes out <= n.

Lemma emits_nil n k s s' : k <= n -> sent_of n k (throttler s') -> yielded s' = yielded s -> emits n k s [] s'.
Proof. intros Hk Hs Hy. unfold emits. rewrite Hy, app_nil_r. change (bytes []) with 0. by rewrite Z.add_0_r. Qed.

Lemma emits_app n k s1 out s2 out' s3 :
  emits n k s1 out s2 -> emits n (k + bytes out) s2 out' s3 -> emits n k s1 (out ++ out')%list s3.
Proof.
  intros (Y1 & C1 & _ & _) (Y2 & C2 & S2 & B2). unfold emits, bytes in *. rewrite concat_app, length_app.
  replace (k + Z.of_nat (length (concat out) + length (concat out')))
    with (k + Z.of_nat (length (concat out)) + Z.of_nat (length (concat out'))) by lia.
  rewrite Y2, Y1, app_assoc. split_and!; [done|by apply Forall_app|done|done].
Qed.

Lemma suspend_run s : exists s', suspend fl others s = (Ok tt, s') /\ yielded s' = yielded s /\
  throttler s' = run_ops fl (others (suspensions s)) (throttler s).
Proof. eexists. by split_and!. Qed.

(** One round that sends something. *)
Lemma send_round n k s c : chunk_ok c -> sent_of n k (throttler s) -> k + Z.of_nat (length c) <= n ->
  exists r s', (modify (fun s => s <| throttler ::= update_progress fl id (Z.of_nat (length c)) |>);;
                yield_chunk fl others closes c) s = (r, s')
    /\ emits n k s [c] s' /\ (r = Ok tt \/ r = Err GeneratorExit /\ exists m, closes m = true).
Proof.
  intros Hc Hs Hk. unfold modify, yield_chunk, get_state, raise. unfold_M. cbn.
  match goal with |- context [if closes ?m then _ else _] => destruct (closes m) eqn:E end.
  all: do 2 eexists; (split; [reflexivity|]); (split; [|eauto]).
  all: unfold emits, bytes; cbn; rewrite app_nil_r; split_and!; [done|by constructor| |lia].
  all: by apply sent_run_ops, sent_progress.
Qed.

(** How a part of the stream can end, when [todo] is what it has to send. *)
Definition stopped (n k : Z) (fuel : nat) (todo : list Z) (out : list (list Z)) (e : stream_stop) : Prop :=
  (exists rest, todo = (concat out ++ rest)%list) /\
  (e = GeneratorExit -> exists m, closes m = true) /\
  (e = StillRunning -> n - k < Z.of_nat (length todo) \/ (fuel <= length todo)%nat).

Lemma drain_spec fuel whole buffer s n k : sent_of n k (throttler s) -> k <= n ->
  exists out r s', drain_ fuel whole buffer s = (r, s') /\ emits n k s out s' /\
    match r with
    | Ok b => buffer = (concat out ++ b)%list /\ (whole = true -> b = [])
    | Err e => stopped n k fuel buffer out e /\ e ≠ ContentError
    end.
Proof.
  revert buffer s k. induction fuel as [|fuel IH]; intros buffer s k Hs Hk.
  { exists [], (Err StillRunning), s. split; [done|]. split; [by apply emits_nil|].
    split; [|done]. split; [by exists buffer|]. split; [done|]. right. lia. }
  cbn [drain].
  destruct (if whole then _ else _) eqn:Hguard.
  2: { exists [], (Ok buffer), s. split; [done|]. split; [by apply emits_nil|]. split; [done|]. intros ->.
       apply negb_false_iff, bool_decide_eq_true in Hguard. done. }
  assert (buffer ≠ []) as Hne.
  { intros ->. destruct whole; [by rewrite bool_decide_eq_true_2 in Hguard|]. apply Z.leb_le in Hguard. cbn [length Z.of_nat] in Hguard. lia. }
  assert (0 < Z.of_nat (length buffer)) as Hlen by (destruct buffer; [done|rewrite length_cons; lia]).
  rewrite (bind_Ok get_state _ s s s eq_refl). cbv zeta. destruct (sent_allowed n k _ Hs) as [Ha1 Ha2].
  set (allowed := get_allowed_bytes _ _ _ _ _) in *. destruct (Z.leb_spec allowed 0) as [Hz|Hpos].
  - destruct (suspend_run s) as (s1 & E1 & Y1 & T1). rewrite (bind_Ok _ _ _ _ _ E1).
    destruct (IH buffer s1 k) as (out & r & s' & E & (Y & C & S & B) & H); [by rewrite T1; apply sent_run_ops|done|].
    exists out, r, s'. split; [done|]. split; [unfold emits; by rewrite Y, Y1|].
    destruct r as [b|e]; [done|].
    destruct H as [(Hr & Hc & _) He]. split; [split; [done|]; split; [done|]|done]. intros _. left. lia.
  - set (size := Z.to_nat (Z.min (Z.min (Z.of_nat (length buffer)) allowed) chunk_size)).
    assert (1 <= size <= length buffer)%nat as Hsize by (unfold size; lia).
    assert (length (take size buffer) = size) as Htake by (rewrite length_take; lia).
    assert (chunk_ok (take size buffer)) as Hok by (unfold chunk_ok; rewrite Htake; unfold size; lia).
    destruct (send_round n k s (take size buffer) Hok Hs) as (r1 & s1 & E1 & M1 & R1); [rewrite Htake; unfold size; lia|].
    assert (bytes [take size buffer] = Z.of_nat size) as Hbytes by (unfold bytes; cbn; by rewrite app_nil_r, Htake).
    pose proof (take_drop size buffer) as Hsplit.
    rewrite bind_assoc. destruct R1 as [->|[-> Hcl]].
    + rewrite (bind_Ok _ _ _ _ _ E1). set (rest := drop size buffer) in *.
      destruct M1 as (Y1 & C1 & S1 & B1).
      assert (exists s2, (if whole && bool_decide (rest = []) then mret tt else suspend fl others) s1 = (Ok tt, s2)
                /\ emits n (k + bytes [take size buffer]) s1 [] s2) as (s2 & E2 & M2).
      { destruct (_ && _); [by exists s1; split; [|apply emits_nil]|].
        destruct (suspend_run s1) as (s2 & E2 & Y2 & T2). exists s2. split; [done|].
        apply emits_nil; [done|rewrite T2; by apply sent_run_ops|done]. }
      rewrite (bind_Ok _ _ _ _ _ E2). destruct M2 as (Y2 & C2 & S2 & B2).
      destruct (IH rest s2 (k + bytes [take size buffer])) as (out & r & s' & E & M3 & H);
        [by rewrite Z.add_0_r in S2|lia|].
      exists (take size buffer :: out), r, s'. split; [exact E|]. split.
      { apply (emits_app n k s [take size buffer] s1 out s'); [by split_and!|].
        apply (emits_app n _ s1 [] s2 out s'); [by split_and!|]. by rewrite Z.add_0_r. }
      assert (forall x, rest = (concat out ++ x)%list -> buffer = (concat (take size buffer :: out) ++ x)%list) as Hcat.
      { intros x Hx. rewrite <- Hsplit at 1. cbn [concat]. by rewrite Hx, app_assoc. }
      destruct r as [b|e]; [destruct H; split; [by apply Hcat|done]|].
      destruct H as [((x & Hx) & Hc & Hrun) He]. split; [|done]. split; [exists x; by apply Hcat|]. split; [done|].
      intros E0. assert (length rest = length buffer - size)%nat as Hl by apply length_drop.
      destruct (Hrun E0); [left; lia|right; lia].
    + rewrite (bind_Err _ _ _ _ _ E1). exists [take size buffer], (Err GeneratorExit), s1. split; [done|]. split; [done|].
      split; [|done]. split; [exists (drop size buffer); cbn; by rewrite app_nil_r|]. split; [done|discriminate].
Qed.

Lemma feed_spec fuel content fails buffer s n k : sent_of n k (throttler s) -> k <= n ->
  exists out r s', feed_ fuel content fails buffer s = (r, s') /\ emits n k s out s' /\
    match r with
    | Ok b => (buffer ++ concat content = concat out ++ b)%list
    | Err e => stopped n k fuel (buffer ++ concat content)%list out e /\ (e = ContentError -> fails = true)
    end.
Proof.
  revert buffer s k. induction content as [|c content IH]; intros buffer s k Hs Hk; cbn [feed concat];
    destruct (suspend_run s) as (s1 & E1 & Y1 & T1); rewrite (bind_Ok _ _ _ _ _ E1);
    assert (sent_of n k (throttler s1)) as Hs1 by (rewrite T1; by apply sent_run_ops).
  - rewrite app_nil_r. exists []. destruct fails.
    + exists (Err ContentError), s1. split; [done|]. split; [by apply emits_nil|].
      split; [|done]. split; [by exists buffer|]. split; discriminate.
    + exists (Ok buffer), s1. split; [done|]. split; [by apply emits_nil|done].
  - destruct (drain_spec fuel false (buffer ++ c)%list s1 n k Hs1 Hk) as (out & r & s2 & E2 & M2 & H2).
    assert (emits n k s out s2) as M by (unfold emits in *; by rewrite <- Y1).
    rewrite app_assoc. destruct r as [b|e].
    + rewrite (bind_Ok _ _ _ _ _ E2). destruct H2 as [Hb _]. destruct M2 as (Y2 & C2 & S2 & B2).
      destruct (IH b s2 (k + bytes out) S2 B2) as (out' & r & s3 & E3 & M3 & H3).
      exists (out ++ out')%list, r, s3. split; [exact E3|]. split; [by eapply emits_app|].
      assert (forall x, (b ++ concat content)%list = (concat out' ++ x)%list ->
                ((buffer ++ c) ++ concat content)%list = (concat (out ++ out') ++ x)%list) as Hcat.
      { intros x Hx. by rewrite concat_app, Hb, <- !app_assoc, Hx. }
      destruct r as [b'|e]; [by apply Hcat|]. destruct H3 as [((x & Hx) & Hc & Hrun) He].
      split; [|done]. split; [exists x; by apply Hcat|]. split; [done|]. intros E0.
      rewrite Hb, <- app_assoc, length_app. unfold bytes in Hrun. destruct (Hrun E0); [left; lia|right; lia].
    + rewrite (bind_Err _ _ _ _ _ E2). exists out, (Err e), s2. split; [done|]. split; [done|].
      destruct H2 as [((x & Hx) & Hc & Hrun) He]. split; [|done].
      split; [exists (x ++ concat content)%list; by rewrite Hx, app_assoc|]. split; [done|].
      intros E0. rewrite length_app. destruct (Hrun E0); [left; lia|right; lia].
Qed.

(** Both loops, before the [finally]. *)
Lemma loops_spec fuel content fails s0 n : sent_of n 0 (throttler s0) -> 0 <= n ->
  exists out r s', (buffer ← feed_ fuel content fails []; drain_ fuel true buffer;; mret tt) s0 = (r, s') /\
    emits n 0 s0 out s' /\
    match r with
    | Ok _ => concat content = concat out
    | Err e => stopped n 0 fuel (concat content) out e /\ (e = ContentError -> fails = true)
    end.
Proof.
  intros Hs Hn. destruct (feed_spec fuel content fails [] s0 n 0 Hs Hn) as (out & r & s1 & E1 & M1 & H1).
    destruct r as [b|e]; [|rewrite (bind_Err _ _ _ _ _ E1); by exists out, (Err e), s1].
    rewrite (bind_Ok _ _ _ _ _ E1). cbn [app] in H1. pose proof M1 as (Y1 & C1 & S1 & B1).
    destruct (drain_spec fuel true b s1 n (0 + bytes out) S1 B1) as (out' & r & s2 & E2 & M2 & H2).
    pose proof (emits_app _ _ _ _ _ _ _ M1 M2) as M. destruct r as [b'|e].
    - rewrite (bind_Ok _ _ _ _ _ E2). exists (out ++ out')%list, (Ok tt), s2. split; [done|]. split; [done|].
      destruct H2 as [Hb Hnil]. by rewrite H1, Hb, (Hnil eq_refl), app_nil_r, concat_app.
    - rewrite (bind_Err _ _ _ _ _ E2). exists (out ++ out')%list, (Err e), s2. split; [done|]. split; [done|].
      destruct H2 as [((x & Hx) & Hc & Hrun) He]. split; [|done].
      split; [exists x; by rewrite H1, Hx, concat_app, app_assoc|]. split; [done|]. intros E0.
      rewrite H1, length_app. unfold bytes in Hrun. destruct (Hrun E0); [left; lia|right; lia].
Qed.

(** C32: a stream delivers the registered number of bytes, and no more.  Whatever other
    transfers do, what is yielded is the beginning of the content, in chunks of at
    most [chunk_size] bytes; when the stream ends, normally or not, the transfer is
    forgotten, and when it ends normally everything was delivered.  If nobody stops
    it, it ends normally when the content is no longer than the registered size, and
    it never ends when the content is longer. *)
Theorem stream_delivers_registered_size now path n h fuel content fails :
  throttler_wf fl h -> 0 <= n ->
  let s0 := {| throttler := register_transfer fl now id path n h; suspensions := 0; yielded := [] |} in
  let '(r, s) := throttled_iterator fl fsum others closes id chunk_size fuel content fails s0 in
  (exists rest, concat content = (concat (yielded s) ++ rest)%list) /\
  Forall (fun c => 1 <= Z.of_nat (length c) <= chunk_size) (yielded s) /\
  Z.of_nat (length (concat (yielded s))) <= n /\
  (r = Ok tt -> concat (yielded s) = concat content) /\
  (r ≠ Err StillRunning -> get_transfer_info id (throttler s) = None) /\
  ((forall m, closes m = false) -> fails = false ->
     (Z.of_nat (length (concat content)) <= n -> (length (concat content) < fuel)%nat -> r = Ok tt) /\
     (n < Z.of_nat (length (concat content)) -> r = Err StillRunning)).
Proof.
  intros Hwf Hn s0.
  assert (sent_of n 0 (throttler s0)) as Hs.
  { split; [by apply wf_set|]. eexists. split; [apply assoc_get_set_eq|done]. }
  destruct (loops_spec fuel content fails s0 n Hs Hn) as (out & r & s & E & (Y & C & (_ & t & Ht & _) & B) & H).
  unfold throttled_iterator. rewrite E. change (yielded s = out) in Y. change (0 + bytes out) with (bytes out) in B.
  assert (get_transfer_info id (unregister_transfer id (throttler s)) = None) as Hgone.
  { unfold unregister_transfer. rewrite Ht. apply assoc_get_del_eq. }
  destruct r as [[]|e].
  - cbn. rewrite Y. split; [exists []; by rewrite app_nil_r|]. split_and!; try done.
    intros _ _. split; [done|]. rewrite H. unfold bytes in B. lia.
  - destruct H as [((x & Hx) & Hc & Hrun) Hf].
    assert ((forall m, closes m = false) -> fails = false -> e = StillRunning) as He.
    { intros Hno ->. destruct e; [done| |by specialize (Hf eq_refl)]. destruct (Hc eq_refl) as [m Hm]. by rewrite Hno in Hm. }
    assert (exists s', match e with
              | StillRunning => (Err StillRunning, s)
              | _ => (Err e, s <| throttler ::= unregister_transfer id |>)
              end = (Err e : result stream_stop unit, s') /\ yielded s' = out /\
              (e ≠ StillRunning -> get_transfer_info id (throttler s') = None)) as (s' & -> & -> & Hg)
      by (destruct e; eexists; by split_and!).
    split; [by exists x|]. split; [done|]. split; [done|]. split; [done|]. split.
    { intros Hne. apply Hg. congruence. }
    intros Hno Hfails. rewrite (He Hno Hfails). split; [|done]. intros Hsize Hfuel. destruct (Hrun (He Hno Hfails)); lia.
Qed.
End Streams.

(** A boot file whose backend tells its size is delivered: the body is the file, its
    length is the one announced, and the transfer is forgotten.  When the backend
    tells a smaller size, 0 for instance as it does not know, the body never ends. *)
Theorem boot_file_is_delivered fl `{!Rounding fl} fsum backends download_file checksums settings now clock path h h' resp
    content mime size b others fuel :
  serve_boot_file fl backends download_file checksums settings now clock path h = (Ok resp, h') ->
  get_default_backend backends settings = Ok b -> download_file b.2 ("/" ++ lstrip "/"%char path) = Ok (content, mime, size) ->
  throttler_wf fl h -> 0 <= size ->
  (forall t, forallb (fun o => negb (concerns (br_transfer_id resp) o)) (others t) = true) ->
  let s0 := {| throttler := h'; suspensions := 0; yielded := [] |} in
  let '(r, s) := throttled_iterator fl fsum others (fun _ => false) (br_transfer_id resp) 8192 fuel (br_content resp) false s0 in
  let length := Z.of_nat (length (concat content)) in
  (size = length -> (Z.to_nat length < fuel)%nat ->
     r = Ok tt /\ concat (yielded s) = concat content /\
     (0 < length -> assoc_get "Content-Length" (br_headers resp) = Some (pretty length)) /\
     get_transfer_info (br_transfer_id resp) (throttler s) = None) /\
  (size < length -> r = Err StillRunning).
Proof.
  intros Hserve Hb Hd Hwf Hsize Hoth s0.
  assert (h' = register_transfer fl now (br_transfer_id resp) ("/" ++ lstrip "/"%char path) size h /\ br_content resp = content
          /\ br_headers resp = file_headers size (checksums b.1 ("/" ++ lstrip "/"%char path)) ("/" ++ lstrip "/"%char path))
    as (-> & -> & ->).
  { revert Hserve. unfold serve_boot_file, lift_result, modify. unfold_M. rewrite Hb, Hd. intros [= <- <-]. by cbn. }
  pose proof (stream_delivers_registered_size fl fsum others (fun _ => false) (br_transfer_id resp) 8192 Hoth ltac:(lia)
    now ("/" ++ lstrip "/"%char path) size h fuel content false Hwf Hsize) as H.
  revert H. unfold s0. destruct (throttled_iterator _ _ _ _ _ _ _ _ _ _) as [r s]. intros (_ & _ & _ & H1 & H2 & H3).
  destruct (H3 (fun _ => eq_refl) eq_refl) as [H4 H5]. split; [|intros Hlt; by apply H5].
  intros -> Hf. assert (r = Ok tt) as -> by (apply H4; lia). split; [done|]. split; [by apply H1|]. split; [|by apply H2].
  intros Hpos. unfold file_headers. by rewrite (proj2 (Z.ltb_lt _ _) Hpos).
Qed.

(** ** Examples *)

(** Another transfer starts at every suspension. *)
Definition busy (t : nat) : list throttle_op := [Register 0 "b" "/initrd" 5000; Progress "b" 1000].

Definition demo_stream (n : Z) : stream :=
  {| throttler := register_transfer (fun x => x) 0 "a" "/vmlinuz" n (new_throttler 1000); suspensions := 0; yielded := [] |}.

Definition demo_run (n : Z) (content : list (list Z)) : result stream_stop unit * stream :=
  throttled_iterator (fun x => x) (float_sum (fun x => x)) busy (fun _ => false) "a" 4 50 content false (demo_stream n).

Example chunks_of_four : (demo_run 7 [[1; 2; 3]; [4; 5]; [6; 7]]).1 = Ok tt
  /\ yielded (demo_run 7 [[1; 2; 3]; [4; 5]; [6; 7]]).2 = [[1; 2; 3; 4]; [5; 6; 7]].
Proof. by vm_compute. Qed.

Lemma stream_delivers_registered_size_witness :
  concat (yielded (demo_run 7 [[1; 2; 3]; [4; 5]; [6; 7]]).2) = [1; 2; 3; 4; 5; 6; 7]
  /\ (demo_run 0 [[1; 2; 3]]).1 = Err StillRunning.
Proof.
  assert (throttler_wf (fun x => x) (new_throttler 1000)) as Hwf by (split; constructor).
  pose proof (fun n => stream_delivers_registered_size (fun x => x) (float_sum (fun x => x)) busy (fun _ => false) "a" 4
                (fun _ => eq_refl) eq_refl 0 "/vmlinuz" n (new_throttler 1000) 50) as H.
  split.
  - specialize (H 7 [[1; 2; 3]; [4; 5]; [6; 7]] false Hwf ltac:(done)). unfold demo_run, demo_stream.
    revert H. cbv zeta. destruct (throttled_iterator _ _ _ _ _ _ _ _ _ _) as [r s]. intros (_ & _ & _ & H1 & _ & H2).
    apply H1, H2; [done|done| |]; vm_compute; [discriminate|lia].
  - specialize (H 0 [[1; 2; 3]] false Hwf ltac:(done)). unfold demo_run, demo_stream.
    revert H. cbv zeta. destruct (throttled_iterator _ _ _ _ _ _ _ _ _ _) as [r s]. intros (_ & _ & _ & _ & _ & H2).
    by apply H2.
Defined.

Lemma allowance_bounds_witness :
  get_allowed_bytes (fun x => x) (float_sum (fun x => x)) "a" (1 # 10) (throttler (demo_stream 999999999)) = 12500000.
Proof.
  assert (throttler_wf (fun x => x) (throttler (demo_stream 999999999))) as Hwf.
  { apply wf_set. split; constructor. }
  destruct (allowance_bounds (fun x => x) (fsum := float_sum (fun x => x)) (throttler (demo_stream 999999999)) "a" _ (1 # 10) Hwf
              eq_refl ltac:(done) ltac:(done)) as (_ & _ & H & _).
  etransitivity; [apply H|]; by vm_compute.
Defined.

(** The floor takes no notice of the limit: ten transfers share 1 Mbps, 12500 bytes
    in a tenth of a second, and may send as many each. *)
Example floors_exceed_the_limit :
  let h := foldl (fun h id => register_transfer (fun x => x) 0 id "/f" 99999999 h) (new_throttler 1)
             ["0"; "1"; "2"; "3"; "4"; "5"; "6"; "7"; "8"; "9"] in
  map (fun t => get_allowed_bytes (fun x => x) (float_sum (fun x => x)) t.1 (1 # 10) h) (transfers h) = repeat 12500 10.
Proof. by vm_compute. Qed.
