(* ===== verification/Workflows.v ===== *)
(** * Workflow definitions

    [core/workflow_service.py]: finding a workflow's file, loading it, and
    substituting the node's values in it.  [Path.resolve], the existence of a
    file and the JSON or YAML parser's verdict on its text are parameters. *)
From S2P Require Import Prelude PyStr Paths Controller.
From stdpp Require Import base tactics list strings.
From Stdlib Require Import Ascii ZArith Lia.
Open Scope string_scope.
#[local] Arguments String.append !_ _ : simpl nomatch.

Record Workflow := {
  w_id : string;
  w_name : string;
  w_description : string;
  w_kernel_path : string;
  w_initrd_path : string;
  w_cmdline : string;
  w_architecture : string;
  w_boot_mode : string;
  w_install_method : string;
  w_boot_url : string;
  w_image_url : string;
  w_target_device : string;
  w_source_device : string;
  w_post_script_url : string;
  w_boot_params : list (string * string)
}.

#[export] Instance Workflow_eq_dec : EqDecision Workflow.
Proof. solve_decision. Defined.

(** What reading and parsing a file gives: its value, a [ValueError] or
    [YAMLError], or another exception such as [OSError]. *)
Inductive load_result : Type :=
| Loaded (data : json)
| Malformed
| LoadError (e : server_error).

Inductive workflow_error : Type :=
| WorkflowNotFoundError (id : string)
| InvalidWorkflowId (id : string)         (* the [ValueError] of a path traversal *)
| OtherError (e : server_error).

Section Workflows.
Context {P : Pydantic}.
Variable workflows_dir : PurePath.
Variable resolve : PurePath -> PurePath.
Variable exists_ : PurePath -> bool.
Variable load : PurePath -> load_result.
Variable listing : string -> list PurePath.      (* [glob] of a pattern in the directory *)

(** [Workflow( **data)]; [TypeError] if the data is no mapping. *)
Definition str_map_of (j : json) : option (list (string * string)) :=
  match j with
  | JObj kvs => mapM (fun kv => v ← to_str kv.2; Some (kv.1, v)) kvs
  | _ => None
  end.

Definition workflow_of (data : json) : result server_error Workflow :=
  match data with
  | JObj kvs =>
      match
        id ← required to_str "id" kvs;
        name ← required to_str "name" kvs;
        description ← with_default to_str "" "description" kvs;
        kernel_path ← with_default to_str "" "kernel_path" kvs;
        initrd_path ← with_default to_str "" "initrd_path" kvs;
        cmdline ← with_default to_str "" "cmdline" kvs;
        architecture ← with_default to_str "x86_64" "architecture" kvs;
        boot_mode ← with_default to_str "bios" "boot_mode" kvs;
        install_method ← with_default to_str "kernel" "install_method" kvs;
        boot_url ← with_default to_str "" "boot_url" kvs;
        image_url ← with_default to_str "" "image_url" kvs;
        target_device ← with_default to_str "/dev/sda" "target_device" kvs;
        source_device ← with_default to_str "/dev/sda" "source_device" kvs;
        post_script_url ← with_default to_str "" "post_script_url" kvs;
        boot_params ← with_default str_map_of [] "boot_params" kvs;
        Some {| w_id := id; w_name := name; w_description := description; w_kernel_path := kernel_path;
                w_initrd_path := initrd_path; w_cmdline := cmdline; w_architecture := architecture;
                w_boot_mode := boot_mode; w_install_method := install_method; w_boot_url := boot_url;
                w_image_url := image_url; w_target_device := target_device; w_source_device := source_device;
                w_post_script_url := post_script_url; w_boot_params := boot_params |}
      with
      | Some w => Ok w
      | None => Err ValidationError
      end
  | _ => Err TypeError
  end.

Definition extensions : list string := [".json"; ".yaml"; ".yml"].

Definition workflow_path (workflow_id ext : string) : PurePath :=
  resolve (path_join workflows_dir (path_of (workflow_id ++ ext))).

Definition inside_dir (p : PurePath) : bool :=
  startswith (path_str (resolve workflows_dir) ++ "/") (path_str p).

Fixpoint try_extensions (workflow_id : string) (exts : list string) : result workflow_error (option PurePath) :=
  match exts with
  | [] => Ok None
  | ext :: exts =>
      let p := workflow_path workflow_id ext in
      if negb (inside_dir p) then Err (InvalidWorkflowId workflow_id)
      else if exists_ p then Ok (Some p)
      else try_extensions workflow_id exts
  end.

Definition _validate_workflow_path (workflow_id : string) : result workflow_error (option PurePath) :=
  try_extensions workflow_id extensions.

(** Loading a file and validating it; what is no [ValueError] passes through. *)
Definition load_workflow (p : PurePath) : result (option server_error) Workflow :=
  match load p with
  | Loaded data =>
      match workflow_of data with
      | Ok w => Ok w
      | Err ValidationError => Err None
      | Err e => Err (Some e)
      end
  | Malformed => Err None
  | LoadError e => Err (Some e)
  end.

Definition get_workflow (workflow_id : string) : result workflow_error Workflow :=
  p ← _validate_workflow_path workflow_id;
  match p with
  | None => Err (WorkflowNotFoundError workflow_id)
  | Some p =>
      match load_workflow p with
      | Ok w => Ok w
      | Err None => Err (WorkflowNotFoundError workflow_id)
      | Err (Some e) => Err (OtherError e)
      end
  end.

(** The loop over the files, with the workflows kept so far. *)
Fixpoint collect (files : list PurePath) (workflows : list Workflow) : result server_error (list Workflow) :=
  match files with
  | [] => Ok workflows
  | p :: files =>
      match load_workflow p with
      | Ok w => collect files (if existsb (fun x => String.eqb (w_id x) (w_id w)) workflows
                               then workflows else (workflows ++ [w])%list)
      | Err None => collect files workflows
      | Err (Some e) => Err e
      end
  end.

Definition list_workflows : result server_error (list Workflow) :=
  if exists_ workflows_dir
  then collect (listing "*.json" ++ listing "*.yaml" ++ listing "*.yml")%list []
  else Ok [].

End Workflows.

(** ** Variables *)

(** [if ip:] *)
Definition replace_ip (ip : option string) (s : string) : string :=
  match ip with
  | Some i => if String.eqb i "" then s else str_replace "${ip}" i s
  | None => s
  end.

Definition resolve_text (server node_id mac : string) (ip : option string) (s : string) : string :=
  replace_ip ip (str_replace "${mac}" mac (str_replace "${node_id}" node_id (str_replace "${server}" server s))).

(** The result is a new workflow; description and boot parameters are not
    passed on. *)
Definition resolve_variables (w : Workflow) (server node_id mac : string) (ip : option string) : Workflow :=
  let f s := if String.eqb s "" then s else resolve_text server node_id mac ip s in
  {| w_id := w_id w; w_name := w_name w; w_description := ""; w_kernel_path := w_kernel_path w;
     w_initrd_path := w_initrd_path w; w_cmdline := resolve_text server node_id mac ip (w_cmdline w);
     w_architecture := w_architecture w; w_boot_mode := w_boot_mode w; w_install_method := w_install_method w;
     w_boot_url := f (w_boot_url w); w_image_url := f (w_image_url w); w_target_device := w_target_device w;
     w_source_device := w_source_device w; w_post_script_url := f (w_post_script_url w); w_boot_params := [] |}.

(** ** Files stay in the directory *)

Section Confinement.
Context {P : Pydantic}.
Variables (dir : PurePath) (resolve : PurePath -> PurePath).

(** The file that is tried first and exists, if the tries before it stay inside. *)
Lemma try_extensions_ext ex ex' id exts :
  (forall p, inside_dir dir resolve p = true -> ex p = ex' p) ->
  try_extensions dir resolve ex id exts = try_extensions dir resolve ex' id exts.
Proof.
  intros H. induction exts as [|e exts IH]; cbn; [done|].
  destruct (inside_dir _ _ _) eqn:E; cbn; [|done]. by rewrite (H _ E), IH.
Qed.

Lemma try_extensions_inside ex id exts p :
  try_extensions dir resolve ex id exts = Ok (Some p) -> inside_dir dir resolve p = true /\ ex p = true.
Proof.
  induction exts as [|e exts IH]; cbn; [done|]. set (q := workflow_path dir resolve id e).
  destruct (inside_dir dir resolve q) eqn:E; cbn; [|done]. destruct (ex q) eqn:Ex; [|done]. by intros [= <-].
Qed.

(** A workflow identifier, whatever it contains, never reaches a file outside
    the workflows directory: the outcome is the same for any two file systems
    that agree inside it. *)
Theorem get_workflow_stays_inside ex ex' load load' id :
  (forall p, inside_dir dir resolve p = true -> ex p = ex' p /\ load p = load' p) ->
  get_workflow dir resolve ex load id = get_workflow dir resolve ex' load' id.
Proof.
  intros H. unfold get_workflow, _validate_workflow_path.
  rewrite (try_extensions_ext ex ex') by (intros p Hp; by apply H).
  destruct (try_extensions dir resolve ex' id extensions) as [[p|]|e] eqn:E; [|done..]. cbn.
  apply try_extensions_inside in E as [Hp _]. unfold load_workflow. by rewrite (proj2 (H p Hp)).
Qed.
End Confinement.

(** ** Substitution *)

(** A template as text and references. *)
Inductive token : Type :=
| Lit (s : string)
| Var (name : string).

Definition render (t : token) : string := match t with Lit s => s | Var n => "${" ++ n ++ "}" end.
Fixpoint render_all (ts : list token) : string :=
  match ts with [] => "" | t :: ts => render t ++ render_all ts end.

Definition plain_token (t : token) : Prop :=
  match t with Lit s => lacks "$" s = true | Var n => lacks "$" n = true /\ lacks "}" n = true end.

(** All references at once. *)
Definition substitute (env : string -> option string) (t : token) : token :=
  match t with
  | Var n => match env n with Some v => Lit v | None => t end
  | Lit s => t
  end.

Definition workflow_env (server node_id mac : string) (ip : option string) (n : string) : option string :=
  if String.eqb n "server" then Some server else if String.eqb n "node_id" then Some node_id
  else if String.eqb n "mac" then Some mac
  else if String.eqb n "ip" then match ip with Some i => if String.eqb i "" then None else Some i | None => None end
  else None.

Definition env1 (name v : string) (n : string) : option string := if String.eqb n name then Some v else None.

Lemma prefix_delimited n1 n2 r :
  lacks "}" n1 = true -> lacks "}" n2 = true -> String.prefix (n1 ++ "}") (n2 ++ String "}" r) = true -> n1 = n2.
Proof.
  revert n2. induction n1 as [|c n1 IH]; intros [|d n2]; cbn [lacks str_forall String.append]; intros H1 H2; rewrite str_prefix_cons; try done.
  - intros [E _]%andb_true_iff. apply Ascii.eqb_eq in E as <-. cbn in H2. done.
  - intros [E _]%andb_true_iff. apply Ascii.eqb_eq in E as ->. cbn in H1. done.
  - unfold lacks in *. cbn in H1, H2. apply andb_true_iff in H1 as [_ H1], H2 as [_ H2].
    intros [E Hp]%andb_true_iff. apply Ascii.eqb_eq in E as ->. f_equal. by apply IH.
Qed.

Lemma render_var n : render (Var n) = String "$" (String "{" (n ++ "}")).
Proof. done. Qed.

(** One [str.replace] substitutes one variable. *)
Lemma replace_variable name v ts k :
  lacks "$" name = true -> lacks "}" name = true -> Forall plain_token ts ->
  (String.length (render_all ts) <= k)%nat ->
  replace_aux (render (Var name)) v k 0 (render_all ts) = render_all (map (substitute (env1 name v)) ts).
Proof.
  intros H1 H2 Hts. revert k. induction Hts as [|t ts Ht _ IH]; intros k Hk; [by destruct k|].
  cbn [render_all map] in *. rewrite str_app_length in Hk. destruct t as [s|n]; cbn [substitute plain_token] in *.
  - rewrite render_var, (replace_aux_skip_char "$") by done. rewrite <- render_var, IH by lia. done.
  - unfold env1 at 1. destruct Ht as [Hn1 Hn2]. rewrite (render_var n) in Hk. cbn [String.length] in Hk.
    destruct k as [|k]; [lia|]. destruct (String.eqb_spec n name) as [->|Hne].
    + rewrite replace_aux_match by done. rewrite IH by lia. done.
    + rewrite (render_var n). cbn [String.append]. rewrite replace_aux_step.
      2: { rewrite render_var, !str_prefix_cons, str_app_assoc. cbn. apply not_true_iff_false.
           intros H. apply Hne. symmetry. by eapply prefix_delimited. }
      f_equal. change (String "{" ((n ++ "}") ++ render_all ts)) with (("{" ++ n ++ "}") ++ render_all ts)%string.
      rewrite !str_app_assoc, (render_var name), (replace_aux_skip_char "$" _ _ _ "{"), (replace_aux_skip_char "$" _ _ _ n),
        (replace_aux_skip_char "$" _ _ _ "}") by done.
      rewrite <- render_var, IH by lia. by rewrite <- !str_app_assoc.
Qed.

Lemma str_replace_variable name v ts :
  lacks "$" name = true -> lacks "}" name = true -> Forall plain_token ts ->
  str_replace ("${" ++ name ++ "}") v (render_all ts) = render_all (map (substitute (env1 name v)) ts).
Proof. intros. by apply replace_variable. Qed.

Lemma substitute_plain env ts :
  (forall n v, env n = Some v -> lacks "$" v = true) -> Forall plain_token ts -> Forall plain_token (map (substitute env) ts).
Proof.
  intros He Hts. apply Forall_map. eapply Forall_impl; [exact Hts|]. intros [s|n] Ht; [done|]. cbn.
  destruct (env n) as [v|] eqn:E; [by apply (He n)|done].
Qed.

Lemma env1_plain name v : lacks "$" v = true -> forall n w, env1 name v n = Some w -> lacks "$" w = true.
Proof. intros Hv n w. unfold env1. destruct (String.eqb n name); [by intros [= <-]|done]. Qed.

(** If no value contains a dollar sign, the replacements one after the other
    are one simultaneous substitution of the known variables: the order does not
    matter and nothing that was substituted is substituted again. *)
Theorem resolve_text_simultaneous server node_id mac ip ts :
  Forall plain_token ts -> Forall (fun v => lacks "$" v = true) [server; node_id; mac; default "" ip] ->
  resolve_text server node_id mac ip (render_all ts)
  = render_all (map (substitute (workflow_env server node_id mac ip)) ts).
Proof.
  intros Hts Hv. inversion_clear Hv as [|? ? Hs Hv1]. inversion_clear Hv1 as [|? ? Hn Hv2].
  inversion_clear Hv2 as [|? ? Hm Hv3]. inversion_clear Hv3 as [|? ? Hi _]. unfold resolve_text.
  pose proof (substitute_plain _ _ (env1_plain "server" _ Hs) Hts) as H1.
  pose proof (substitute_plain _ _ (env1_plain "node_id" _ Hn) H1) as H2.
  pose proof (substitute_plain _ _ (env1_plain "mac" _ Hm) H2) as H3.
  rewrite (str_replace_variable "server") by done. rewrite (str_replace_variable "node_id") by done.
  rewrite (str_replace_variable "mac") by done.
  assert (E : forall l, Forall plain_token l ->
    replace_ip ip (render_all l) = render_all (map (substitute (fun n => if String.eqb n "ip" then workflow_env "" "" "" ip "ip" else None)) l)).
  { intros l Hl. unfold replace_ip, workflow_env. cbn. destruct ip as [i|]; [destruct (String.eqb i "") eqn:Ei|].
    - f_equal. symmetry. rewrite <- (map_id l) at 2. apply map_ext. intros [s|n]; [done|]. cbn. by destruct (String.eqb n "ip").
    - by rewrite (str_replace_variable "ip").
    - f_equal. symmetry. rewrite <- (map_id l) at 2. apply map_ext. intros [s|n]; [done|]. cbn. by destruct (String.eqb n "ip"). }
  rewrite E by done. f_equal. rewrite !map_map. apply map_ext. intros [s|n]; [done|].
  unfold workflow_env, env1. cbn [substitute].
  destruct (String.eqb n "server"); [done|]. cbn [substitute]. destruct (String.eqb n "node_id"); [done|]. cbn [substitute].
  destruct (String.eqb n "mac"); [done|]. cbn [substitute]. destruct (String.eqb n "ip"); [|done].
  destruct ip as [i|]; [|done]. cbn. by destruct (String.eqb i "").
Qed.

Lemma resolve_text_simultaneous_witness :
  resolve_text "http://s" "7" "aa:bb" None (render_all [Lit "ip="; Var "ip"; Lit " url="; Var "server"; Lit "/"; Var "mac"])
  = "ip=${ip} url=http://s/aa:bb".
Proof.
  rewrite (resolve_text_simultaneous "http://s" "7" "aa:bb" None [Lit "ip="; Var "ip"; Lit " url="; Var "server"; Lit "/"; Var "mac"]);
    [reflexivity| |]; repeat constructor.
Defined.

(** A value with a reference in it is substituted again. *)
Example values_are_substituted_again :
  resolve_text "http://${mac}" "7" "aa" None "${server}" = "http://aa".
Proof. reflexivity. Qed.

Lemma get_workflow_stays_inside_witness :
  let dir := path_of "/w" in
  let secret := path_of "/etc/x.json" in
  let ex (p : PurePath) := false in
  let ex' (p : PurePath) := bool_decide (p = secret) in
  let load (p : PurePath) := Malformed in
  get_workflow (P := strict_pydantic) dir id ex load "../etc/x" = get_workflow (P := strict_pydantic) dir id ex' load "../etc/x"
  /\ get_workflow (P := strict_pydantic) dir id ex' load "/etc/x" = Err (InvalidWorkflowId "/etc/x").
Proof.
  intros dir secret ex ex' load. split; [|reflexivity].
  apply (get_workflow_stays_inside (P := strict_pydantic) dir id ex ex' load load "../etc/x").
  intros p Hp. split; [|reflexivity]. unfold ex, ex'. destruct (bool_decide_reflect (p = secret)) as [->|]; [|done].
  vm_compute in Hp. discriminate.
Defined.
