(* ===== verification/Templates.v ===== *)
(** * Templates

    [core/variable_resolver.py] and [core/template_renderer.py]: references to
    variables in a text, with defaults, and the inclusion of other templates.
    A regular expression is a function that matches at the front of a string;
    [scan] cuts a string at its leftmost matches, as [re.sub] and [finditer] do.
    The store of templates is a parameter, and so is the text of a value that
    is no string. *)
From S2P Require Import Prelude PyStr Controller.
From stdpp Require Import base tactics list strings.
From Stdlib Require Import Ascii ZArith Lia.
Open Scope string_scope.
#[local] Arguments String.append !_ _ : simpl nomatch.

(** ** Matching *)

Inductive piece (A : Type) : Type :=
| Chr (c : ascii)
| Hit (a : A) (text : string).
Arguments Chr {A} c.
Arguments Hit {A} a text.

(** Cut a string at the matches of [m], which gives a value and the length of a
    match at the front; [skip] characters of a match are left. *)
Fixpoint scan {A} (m : string -> option (A * nat)) (skip : nat) (s : string) : list (piece A) :=
  match s with
  | EmptyString => []
  | String c r =>
      match skip with
      | S k => scan m k r
      | O =>
          match m s with
          | Some (a, n) => Hit a (str_take n s) :: scan m (n - 1) r
          | None => Chr c :: scan m 0 r
          end
      end
  end.

Fixpoint text_of {A} (ps : list (piece A)) : string :=
  match ps with
  | [] => EmptyString
  | Chr c :: ps => String c (text_of ps)
  | Hit _ t :: ps => t ++ text_of ps
  end.

Definition hits {A} (ps : list (piece A)) : list A :=
  omap (fun p => match p with Hit a _ => Some a | Chr _ => None end) ps.

(** ** [core/variable_resolver.py] *)

Record reference := { r_namespace : string; r_key : string; r_default : option string }.

Definition is_key_char (c : ascii) : bool := is_lower c || Ascii.eqb c "_".
Definition not_brace (c : ascii) : bool := negb (Ascii.eqb "}" c).

(** A dollar sign and in braces a namespace of lower-case letters, a dot, a key
    of lower-case letters and underscores, and optionally a bar and a default
    without closing braces. *)
Definition VARIABLE_PATTERN (s : string) : option (reference * nat) :=
  match s with
  | String "$" (String "{" r) =>
      let '(ns, r1) := span is_lower r in
      match r1 with
      | String "." r2 =>
          let '(key, r3) := span is_key_char r2 in
          if String.eqb ns "" || String.eqb key "" then None
          else
            let n := (4 + String.length ns + String.length key)%nat in
            match r3 with
            | String "}" _ => Some ({| r_namespace := ns; r_key := key; r_default := None |}, n)
            | String "|" r4 =>
                let '(d, r5) := span not_brace r4 in
                match r5 with
                | String "}" _ => Some ({| r_namespace := ns; r_key := key; r_default := Some d |}, (n + 1 + String.length d)%nat)
                | _ => None
                end
            | _ => None
            end
      | _ => None
      end
  | _ => None
  end.

Definition KNOWN_NAMESPACES : list (string * list string) :=
  [("node", ["id"; "mac"; "ip"; "hostname"; "uuid"; "serial"; "vendor"; "model"; "architecture"; "boot_mode"; "state"]);
   ("group", ["id"; "name"; "description"]); ("workflow", ["id"; "name"; "description"]);
   ("server", ["url"; "tftp_url"; "http_url"]); ("template", ["id"; "name"; "version"]);
   ("execution", ["id"; "step_id"; "step_name"]); ("meta", []); ("secret", [])].

Abbreviation context := (list (string * list (string * json))).

Section Resolver.
Variable py_text : json -> string.

(** [str(value)] *)
Definition str_of (j : json) : string := match j with JStr s => s | _ => py_text j end.

(** [self.context.get(namespace, {}).get(key)], where an absent key is [None]. *)
Definition lookup_value (ctx : context) (r : reference) : json :=
  default JNull (assoc_get (r_key r) (default [] (assoc_get (r_namespace r) ctx))).

Definition replacement (ctx : context) (r : reference) (text : string) : string :=
  match lookup_value ctx r with
  | JNull => default text (r_default r)
  | v => str_of v
  end.

Definition substitute (ctx : context) (p : piece reference) : string :=
  match p with Chr c => String c EmptyString | Hit r text => replacement ctx r text end.

Fixpoint concat_map (f : piece reference -> string) (ps : list (piece reference)) : string :=
  match ps with [] => EmptyString | p :: ps => f p ++ concat_map f ps end.

Definition resolve (ctx : context) (content : string) : string :=
  concat_map (substitute ctx) (scan VARIABLE_PATTERN 0 content).

Definition list_variables (content : string) : list string :=
  map (fun r => r_namespace r ++ "." ++ r_key r) (hits (scan VARIABLE_PATTERN 0 content)).

Definition reference_error (r : reference) : option string :=
  match assoc_get (r_namespace r) KNOWN_NAMESPACES with
  | None => Some ("Unknown namespace: " ++ r_namespace r)
  | Some keys =>
      if negb (existsb (String.eqb (r_namespace r)) ["meta"; "secret"]) && negb (existsb (String.eqb (r_key r)) keys)
      then Some ("Unknown variable: " ++ r_namespace r ++ "." ++ r_key r) else None
  end.

Definition validate (content : string) : list string := omap reference_error (hits (scan VARIABLE_PATTERN 0 content)).

(** *** The context of a node *)

Record GroupRow := { gr_id : string; gr_name : string; gr_description : option string }.
Record WorkflowRow := { wr_id : string; wr_name : string; wr_description : option string }.
Record ExecutionRow := { er_id : string; er_current_step_id : option string; er_current_step_name : option string }.

Definition node_context (n : NodeRow) : list (string * json) :=
  [("id", JStr (node_id n)); ("mac", JStr (mac_address n)); ("ip", jopt (ip_address n)); ("hostname", jopt (hostname n));
   ("uuid", jopt (system_uuid n)); ("serial", jopt (serial_number n)); ("vendor", jopt (vendor n));
   ("model", jopt (hw_model n)); ("architecture", JStr (arch n)); ("boot_mode", JStr (boot_mode n));
   ("state", JStr (node_state n))].

Definition build_context (node : option NodeRow) (group : option GroupRow) (workflow : option WorkflowRow)
    (execution : option ExecutionRow) (server_url tftp_url http_url : string) (metadata : list (string * json)) : context :=
  [("node", match node with Some n => node_context n | None => [] end);
   ("group", match node, group with
             | Some _, Some g => [("id", JStr (gr_id g)); ("name", JStr (gr_name g)); ("description", jopt (gr_description g))]
             | _, _ => []
             end);
   ("workflow", match workflow with
                | Some w => [("id", JStr (wr_id w)); ("name", JStr (wr_name w)); ("description", jopt (wr_description w))]
                | None => []
                end);
   ("server", [("url", JStr server_url); ("tftp_url", JStr tftp_url); ("http_url", JStr http_url)]);
   ("execution", match execution with
                 | Some e => [("id", JStr (er_id e)); ("step_id", jopt (er_current_step_id e));
                              ("step_name", jopt (er_current_step_name e))]
                 | None => []
                 end);
   ("meta", metadata)].
End Resolver.

(** ** [core/template_renderer.py] *)

Record include_ref := { i_name : string; i_version : option string }.

Definition is_name_char (c : ascii) : bool :=
  is_lower c || is_upper c || is_digit c || Ascii.eqb c "_" || Ascii.eqb c "-".

(** The version after the name: [(?::v?(\d+)(?:\.(\d+))?)?\}], with its length. *)
Definition include_version (s : string) : option (option string * nat) :=
  match s with
  | String "}" _ => Some (None, 1%nat)
  | String ":" r =>
      let '(v, r0) := match r with String "v" r' => (1%nat, r') | _ => (0%nat, r) end in
      let '(major, r1) := span is_digit r0 in
      if String.eqb major "" then None
      else
        match r1 with
        | String "}" _ => Some (Some ("v" ++ major), (2 + v + String.length major)%nat)
        | String "." r2 =>
            let '(minor, r3) := span is_digit r2 in
            if String.eqb minor "" then None
            else
              match r3 with
              | String "}" _ => Some (Some ("v" ++ major ++ "." ++ minor), (3 + v + String.length major + String.length minor)%nat)
              | _ => None
              end
        | _ => None
        end
  | _ => None
  end.

(** [\$\{include:([a-zA-Z0-9_-]+)(?::v?(\d+)(?:\.(\d+))?)?\}] *)
Definition INCLUDE_PATTERN (s : string) : option (include_ref * nat) :=
  if startswith "${include:" s then
    let '(name, r) := span is_name_char (str_drop 10 s) in
    if String.eqb name "" then None
    else
      match include_version r with
      | Some (version, n) => Some ({| i_name := name; i_version := version |}, (10 + String.length name + n)%nat)
      | None => None
      end
  else None.

Definition MAX_INCLUDE_DEPTH : nat := 10.

Inductive render_error (E : Type) : Type :=
| CircularIncludeError (ref_key : string)
| MaxIncludeDepthError
| IncludeLoadError (name : string) (version : option string) (e : E)    (* the [RuntimeError] *)
| ContentError (e : E).
Arguments CircularIncludeError {E} ref_key.
Arguments MaxIncludeDepthError {E}.
Arguments IncludeLoadError {E} name version e.
Arguments ContentError {E} e.

Definition ref_key (i : include_ref) : string :=
  match i_version i with Some v => i_name i ++ ":" ++ v | None => i_name i end.

Section Renderer.
Context {E : Type}.
Variable get_content : string -> option string -> result E string.

(** The loop over the pieces of a content, given how to include a reference. *)
Fixpoint include_pieces (inc : include_ref -> result (render_error E) string) (ps : list (piece include_ref)) :
    result (render_error E) string :=
  match ps with
  | [] => Ok EmptyString
  | Chr c :: ps => rest ← include_pieces inc ps; Ok (String c rest)
  | Hit i _ :: ps => text ← inc i; rest ← include_pieces inc ps; Ok (text ++ rest)
  end.

(** [_resolve_includes] with [levels = MAX_INCLUDE_DEPTH + 1 - depth]. *)
Fixpoint resolve_includes (levels : nat) (content : string) (visited : list string) : result (render_error E) string :=
  match levels with
  | O => Err MaxIncludeDepthError
  | S levels =>
      include_pieces (fun i =>
        if existsb (String.eqb (ref_key i)) visited then Err (CircularIncludeError (ref_key i))
        else
          match get_content (i_name i) (i_version i) with
          | Err e => Err (IncludeLoadError (i_name i) (i_version i) e)
          | Ok included => resolve_includes levels included (ref_key i :: visited)
          end) (scan INCLUDE_PATTERN 0 content)
  end.

Definition _resolve_includes (content : string) (visited : list string) : result (render_error E) string :=
  resolve_includes (S MAX_INCLUDE_DEPTH) content visited.

Variable py_text : json -> string.

Definition render (template_name : string) (version : option string) (ctx : context) (content : option string) :
    result (render_error E) string :=
  content ← match content with
            | Some c => Ok c
            | None => match get_content template_name version with Ok c => Ok c | Err e => Err (ContentError e) end
            end;
  content ← _resolve_includes content [];
  Ok (resolve py_text ctx content).
End Renderer.

(** ** References in a text *)

Inductive template_token : Type :=
| Text (s : string)
| Ref (r : reference).

Definition show_reference (r : reference) : string :=
  "${" ++ r_namespace r ++ "." ++ r_key r ++ match r_default r with Some d => "|" ++ d | None => "" end ++ "}".

Definition show_token (t : template_token) : string := match t with Text s => s | Ref r => show_reference r end.
Fixpoint show_tokens (ts : list template_token) : string :=
  match ts with [] => "" | t :: ts => show_token t ++ show_tokens ts end.

Definition reference_ok (r : reference) : Prop :=
  str_forall is_lower (r_namespace r) = true /\ r_namespace r ≠ ""
  /\ str_forall is_key_char (r_key r) = true /\ r_key r ≠ ""
  /\ (forall d, r_default r = Some d -> str_forall not_brace d = true).
Definition no_dollar (s : string) : bool := str_forall (fun c => negb (Ascii.eqb "$" c)) s.
Definition token_ok (t : template_token) : Prop :=
  match t with Text s => no_dollar s = true | Ref r => reference_ok r end.

Lemma str_take_exact t rest : str_take (String.length t) (t ++ rest) = t.
Proof. apply str_take_app. Qed.

Lemma scan_skip {A} (m : string -> option (A * nat)) w s : scan m (String.length w) (w ++ s) = scan m 0 s.
Proof. induction w as [|c w IH]; [done|]. exact IH. Qed.

(** A match at the front. *)
Lemma scan_hit {A} (m : string -> option (A * nat)) t rest a :
  t ≠ "" -> m (t ++ rest) = Some (a, String.length t) -> scan m 0 (t ++ rest) = Hit a t :: scan m 0 rest.
Proof.
  intros Ht Hm. destruct t as [|c t]; [done|]. cbn [String.append] in *. cbn [scan]. rewrite Hm. f_equal.
  - f_equal. cbn [String.length str_take]. by rewrite str_take_app.
  - cbn [String.length]. rewrite Nat.sub_succ, Nat.sub_0_r. apply scan_skip.
Qed.

Lemma scan_text_of {A} (m : string -> option (A * nat)) s :
  (forall s a n, m s = Some (a, n) -> exists t r, s = t ++ r /\ n = String.length t /\ t ≠ "") ->
  text_of (scan m 0 s) = s.
Proof.
  intros Hm. remember (String.length s) as k eqn:Ek. revert s Ek.
  induction (lt_wf k) as [k _ IH]. intros s ->. destruct s as [|c s]; [done|].
  destruct (m (String c s)) as [[a n]|] eqn:E.
  - destruct (Hm _ _ _ E) as (t & r & Er & -> & Ht). rewrite Er in E |- *. rewrite (scan_hit m t r a Ht E). cbn [text_of].
    f_equal. apply (IH (String.length r)); [|done]. rewrite Er, str_app_length. destruct t; [done|]. cbn. lia.
  - cbn [scan]. rewrite E. cbn [text_of]. f_equal. apply (IH (String.length s)); [cbn; lia|done].
Qed.

Lemma variable_needs_dollar c s : Ascii.eqb "$" c = false -> VARIABLE_PATTERN (String c s) = None.
Proof. destruct c as [[] [] [] [] [] [] [] []]; intros H; try done. Qed.

Lemma scan_no_dollar t rest :
  no_dollar t = true -> scan VARIABLE_PATTERN 0 (t ++ rest) = (map Chr (String.list_ascii_of_string t) ++ scan VARIABLE_PATTERN 0 rest)%list.
Proof.
  unfold no_dollar. induction t as [|c t IH]; [done|]. cbn [str_forall]. intros [Hc%negb_true_iff Ht]%andb_true_iff.
  cbn [String.append scan String.list_ascii_of_string map]. by rewrite variable_needs_dollar, IH.
Qed.

Lemma variable_matches r rest :
  reference_ok r -> VARIABLE_PATTERN (show_reference r ++ rest) = Some (r, String.length (show_reference r)).
Proof.
  destruct r as [ns key d]. intros (Hns & Hns0 & Hkey & Hkey0 & Hd). unfold show_reference. cbn [r_namespace r_key r_default] in *.
  apply String.eqb_neq in Hns0, Hkey0. destruct d as [d|]; rewrite !str_app_assoc; cbn [String.append VARIABLE_PATTERN];
    rewrite (span_stop is_lower ns "." _ Hns) by done.
  - rewrite (span_stop is_key_char key "|" _ Hkey) by done. rewrite Hns0, Hkey0. cbn [orb].
    rewrite (span_stop not_brace d "}") by (done || by apply Hd). do 2 f_equal.
    repeat (cbn [String.length]; rewrite ?str_app_length). cbn. lia.
  - rewrite (span_stop is_key_char key "}" _ Hkey) by done. rewrite Hns0, Hkey0. cbn [orb]. do 2 f_equal.
    repeat (cbn [String.length]; rewrite ?str_app_length). cbn. lia.
Qed.

Definition pieces_of (t : template_token) : list (piece reference) :=
  match t with Text s => map Chr (String.list_ascii_of_string s) | Ref r => [Hit r (show_reference r)] end.

Lemma scan_tokens ts : Forall token_ok ts -> scan VARIABLE_PATTERN 0 (show_tokens ts) = flat_map pieces_of ts.
Proof.
  induction 1 as [|t ts Ht _ IH]; [done|]. cbn [show_tokens flat_map]. destruct t as [s|r]; cbn [show_token pieces_of token_ok] in *.
  - by rewrite scan_no_dollar, IH.
  - rewrite (scan_hit _ _ _ r) by (done || by apply variable_matches). by rewrite IH.
Qed.

Definition refs_of (ts : list template_token) : list reference :=
  omap (fun t => match t with Ref r => Some r | Text _ => None end) ts.

Lemma hits_app {A} (l1 l2 : list (piece A)) : hits (l1 ++ l2)%list = (hits l1 ++ hits l2)%list.
Proof. apply omap_app. Qed.

Lemma hits_chars {A} s : hits (A := A) (map Chr s) = [].
Proof. by induction s. Qed.

Lemma hits_tokens ts : hits (flat_map pieces_of ts) = refs_of ts.
Proof.
  induction ts as [|[s|r] ts IH]; [done|..]; cbn [flat_map pieces_of]; rewrite hits_app, IH; [by rewrite hits_chars|done].
Qed.

Section ResolverProofs.
Variable py_text : json -> string.

Definition value_of (ctx : context) (t : template_token) : string :=
  match t with Text s => s | Ref r => replacement py_text ctx r (show_reference r) end.
Fixpoint values_of (ctx : context) (ts : list template_token) : string :=
  match ts with [] => "" | t :: ts => value_of ctx t ++ values_of ctx ts end.

Lemma concat_map_app f l1 l2 : concat_map f (l1 ++ l2)%list = concat_map f l1 ++ concat_map f l2.
Proof. induction l1 as [|p l1 IH]; [done|]. cbn [concat_map app]. rewrite str_app_assoc. f_equal. exact IH. Qed.

Lemma concat_chars ctx s : concat_map (substitute py_text ctx) (map Chr (String.list_ascii_of_string s)) = s.
Proof. induction s as [|c s IH]; [done|]. cbn. f_equal. exact IH. Qed.

(** A template made of text and references is resolved reference by
    reference: each becomes its value, else its default, else stays, and the text
    between them is kept.  The variables it lists are its references in order,
    and it is valid exactly if all of them are known. *)
Theorem resolver_reads_templates ctx ts :
  Forall token_ok ts ->
  resolve py_text ctx (show_tokens ts) = values_of ctx ts
  /\ list_variables (show_tokens ts) = map (fun r => r_namespace r ++ "." ++ r_key r) (refs_of ts)
  /\ validate (show_tokens ts) = omap reference_error (refs_of ts).
Proof.
  intros Hts. unfold resolve, list_variables, validate. rewrite !scan_tokens, hits_tokens by done. split; [|done].
  clear Hts. induction ts as [|[s|r] ts IH]; [done|..]; cbn [flat_map pieces_of values_of value_of]; rewrite concat_map_app, IH.
  - by rewrite concat_chars.
  - cbn [concat_map substitute]. by rewrite str_app_nil_r.
Qed.
End ResolverProofs.

(** ** Includes *)

(** The reference definition: the text with every include replaced by the text of
    its template, for inclusions nested fewer than [levels] deep. *)
Section Inline.
Context {E : Type}.
Variable get_content : string -> option string -> result E string.

Fixpoint inline_pieces (inc : include_ref -> option string) (ps : list (piece include_ref)) : option string :=
  match ps with
  | [] => Some EmptyString
  | Chr c :: ps => rest ← inline_pieces inc ps; Some (String c rest)
  | Hit i _ :: ps => text ← inc i; rest ← inline_pieces inc ps; Some (text ++ rest)
  end.

Fixpoint inline (levels : nat) (content : string) : option string :=
  match levels with
  | O => None
  | S levels =>
      inline_pieces (fun i => match get_content (i_name i) (i_version i) with
                              | Ok included => inline levels included
                              | Err _ => None
                              end) (scan INCLUDE_PATTERN 0 content)
  end.

Definition includes (content : string) (i : include_ref) : Prop := i ∈ hits (scan INCLUDE_PATTERN 0 content).
Definition name_ok (i : include_ref) : Prop := str_forall is_name_char (i_name i) = true.

Lemma scan_hits_from {A} (m : string -> option (A * nat)) k s a :
  a ∈ hits (scan m k s) -> exists s' n, m s' = Some (a, n).
Proof.
  revert k. induction s as [|c s IH]; intros k H; [by apply elem_of_nil in H|]. cbn [scan] in H.
  destruct k as [|k]; [|by apply (IH k)]. destruct (m (String c s)) as [[a' n]|] eqn:Em.
  - cbn in H. apply elem_of_cons in H as [->|H]; [by exists (String c s), n|by apply (IH (n - 1)%nat)].
  - by apply (IH 0%nat).
Qed.

Lemma includes_name content i : includes content i -> name_ok i.
Proof.
  intros (s & n & H)%scan_hits_from. unfold INCLUDE_PATTERN in H. destruct (startswith _ s); [|done].
  pose proof (span_forall is_name_char (str_drop 10 s)) as Hf. destruct (span is_name_char (str_drop 10 s)) as [name r].
  destruct (String.eqb name ""); [done|]. destruct (include_version r) as [[v k]|]; [|done]. by injection H as <- _.
Qed.

(** A reference is known by its key: a name has no colon. *)
Lemma ref_key_inj i j : name_ok i -> name_ok j -> ref_key i = ref_key j -> i = j.
Proof.
  assert (Hs : forall i, name_ok i -> span is_name_char (ref_key i)
            = (i_name i, match i_version i with Some v => String ":" v | None => "" end)).
  { intros [n v] Hn. unfold ref_key, name_ok in *. cbn [i_name i_version] in *.
    destruct v as [v|]; [by apply span_stop|by apply span_all]. }
  intros Hi Hj Hk. pose proof (Hs i Hi) as H1. rewrite Hk, (Hs j Hj) in H1. injection H1 as H2 H3.
  destruct i as [n v], j as [n' v']. cbn in *. subst n'. f_equal. destruct v, v'; try done. by injection H3 as ->.
Qed.

Lemma inline_pieces_Some inc ps out : inline_pieces inc ps = Some out -> forall i, i ∈ hits ps -> is_Some (inc i).
Proof.
  revert out. induction ps as [|[c|i t] ps IH]; intros out; cbn; [by intros _ i ?%elem_of_nil|..].
  - destruct (inline_pieces inc ps) as [r|]; [|done]. intros _. by apply (IH r).
  - destruct (inc i) as [x|] eqn:Ei; [|done]. cbn. destruct (inline_pieces inc ps) as [r|]; [|done].
    intros _ j [->|Hj]%elem_of_cons; [by rewrite Ei|by apply (IH r)].
Qed.

Lemma include_pieces_inline (inc : include_ref -> result (render_error E) string) inc' ps out :
  (forall i o, i ∈ hits ps -> inc' i = Some o -> inc i = Ok o) ->
  inline_pieces inc' ps = Some out -> include_pieces inc ps = Ok out.
Proof.
  revert out. induction ps as [|[c|i t] ps IH]; intros out H; cbn; [by intros [= <-]|..].
  - destruct (inline_pieces inc' ps) as [r|]; [|done]. intros [= <-]. by rewrite (IH r).
  - destruct (inc' i) as [x|] eqn:Ei; [|done]. cbn. destruct (inline_pieces inc' ps) as [r|]; [|done]. intros [= <-].
    rewrite (H i x) by (done || apply list_elem_of_here). cbn. rewrite (IH r); [done| |done].
    intros j o Hj. apply H. cbn. by right.
Qed.

Lemma inline_include_pieces (inc : include_ref -> result (render_error E) string) inc' ps out :
  (forall i o, i ∈ hits ps -> inc i = Ok o -> inc' i = Some o) ->
  include_pieces inc ps = Ok out -> inline_pieces inc' ps = Some out.
Proof.
  revert out. induction ps as [|[c|i t] ps IH]; intros out H; cbn; [by intros [= <-]|..].
  - destruct (include_pieces inc ps) as [r|]; [|done]. intros [= <-]. by rewrite (IH r).
  - destruct (inc i) as [x|] eqn:Ei; [|done]. cbn. destruct (include_pieces inc ps) as [r|]; [|done]. intros [= <-].
    rewrite (H i x) by (done || apply list_elem_of_here). cbn. rewrite (IH r); [done| |done].
    intros j o Hj. apply H. cbn. by right.
Qed.

Definition able (k : nat) (content : string) : Prop := is_Some (inline k content).

Lemma inline_S k content :
  inline (S k) content =
  inline_pieces (fun i => match get_content (i_name i) (i_version i) with Ok included => inline k included | Err _ => None end)
    (scan INCLUDE_PATTERN 0 content).
Proof. done. Qed.

Lemma inline_mono k content out : inline k content = Some out -> inline (S k) content = Some out.
Proof.
  revert content out. induction k as [|k IH]; intros content out; [done|].
  rewrite (inline_S k), (inline_S (S k)). generalize (scan INCLUDE_PATTERN 0 content). intros ps. revert out. induction ps as [|[c|i t] ps IHp]; intros out; cbn [inline_pieces]; [done|..].
  - destruct (inline_pieces _ ps) as [r|] eqn:Er; [|done]. by rewrite (IHp r eq_refl).
  - destruct (get_content (i_name i) (i_version i)) as [d|]; [|done]. destruct (inline k d) as [x|] eqn:Ex; [|done].
    rewrite (IH d x Ex). cbn [mbind option_bind]. destruct (inline_pieces _ ps) as [r|] eqn:Er; [|done]. by rewrite (IHp r eq_refl).
Qed.

(** What a text includes needs one level less. *)
Lemma able_include k content i d :
  includes content i -> get_content (i_name i) (i_version i) = Ok d -> able (S k) content -> able k d.
Proof.
  intros Hi Hd [out H]. cbn [inline] in H. destruct (inline_pieces_Some _ _ _ H i Hi) as [o Ho]. rewrite Hd in Ho. by exists o.
Qed.

(** The templates on the way down need at least the levels of the text. *)
Definition above (visited : list string) (content : string) : Prop :=
  forall i d, name_ok i -> ref_key i ∈ visited -> get_content (i_name i) (i_version i) = Ok d ->
    forall k, able k d -> able k content.

Lemma no_cycle visited content i d k :
  above visited content -> includes content i -> get_content (i_name i) (i_version i) = Ok d -> able k d ->
  ref_key i ∉ visited.
Proof.
  intros Ha Hi Hd Hk Hin. pose proof (Ha i d (includes_name _ _ Hi) Hin Hd) as Hup. clear Hin Ha.
  induction k as [|k IH]; [by destruct Hk|]. apply IH. apply (able_include k content i d Hi Hd). by apply Hup.
Qed.

Lemma inline_resolves levels content visited out :
  inline levels content = Some out -> above visited content -> resolve_includes get_content levels content visited = Ok out.
Proof.
  revert content visited out. induction levels as [|levels IH]; intros content visited out H Ha; [done|].
  revert H. cbn [inline resolve_includes]. apply include_pieces_inline.
  intros i o Hi. destruct (get_content (i_name i) (i_version i)) as [d|] eqn:Hd; [|done]. intros Ho.
  pose proof (no_cycle visited content i d levels Ha Hi Hd (ex_intro _ o Ho)) as Hnot.
  destruct (existsb (String.eqb (ref_key i)) visited) eqn:Ex.
  - apply existsb_exists in Ex as (y & Hy & <-%String.eqb_eq). destruct Hnot. by apply list_elem_of_In.
  - apply IH; [done|]. intros j d' Hj Hin Hd' k Hk. apply elem_of_cons in Hin as [Ej|Hin].
    + apply (ref_key_inj j i Hj (includes_name _ _ Hi)) in Ej as ->. rewrite Hd in Hd'. by injection Hd' as ->.
    + pose proof (Ha j d' Hj Hin Hd' k Hk) as Hc. destruct k as [|k]; [by destruct Hk|].
      destruct (able_include k content i d Hi Hd Hc) as [x Hx]. exists x. by apply inline_mono.
Qed.

Lemma resolves_inline levels content visited out :
  resolve_includes get_content levels content visited = Ok out -> inline levels content = Some out.
Proof.
  revert content visited out. induction levels as [|levels IH]; intros content visited out; [done|].
  cbn [inline resolve_includes]. apply inline_include_pieces. intros i o _.
  destruct (existsb _ visited); [done|]. destruct (get_content _ _) as [d|]; [|done]. apply IH.
Qed.

(** C33: the includes of a text are resolved exactly if all templates below it can
    be fetched and nest at most ten deep, and then the result is the text with
    every include replaced by its template's; a cycle is always an error, and the
    check for cycles never rejects anything else. *)
Theorem includes_are_inlined content out :
  _resolve_includes get_content content [] = Ok out <-> inline (S MAX_INCLUDE_DEPTH) content = Some out.
Proof.
  unfold _resolve_includes. split; [apply resolves_inline|]. intros H. apply inline_resolves; [done|].
  intros i d _ Hin. by apply elem_of_nil in Hin.
Qed.

(** A template that includes itself is never resolved. *)
Lemma self_include_fails content i :
  includes content i -> get_content (i_name i) (i_version i) = Ok content -> forall k, ~ able k content.
Proof.
  intros Hi Hd k. induction k as [|k IH]; [by intros []|]. intros H. apply IH. by apply (able_include k content i content).
Qed.
End Inline.

(** ** Examples *)

Definition demo_store (name : string) (version : option string) : result unit string :=
  if String.eqb name "head" then Ok "H${include:os:2.1}"
  else if String.eqb name "os" then Ok (default "latest" version)
  else if String.eqb name "loop" then Ok "${include:loop}"
  else Err tt.

Example render_example :
  render demo_store (fun _ => "") "t" None [("node", [("mac", JStr "aa:bb")])]
    (Some "<${include:head}> ${node.mac} ${node.ip|dhcp} ${x.y}") = Ok "<Hv2.1> aa:bb dhcp ${x.y}".
Proof. vm_compute. reflexivity. Qed.

Example loop_is_an_error :
  _resolve_includes demo_store "${include:loop}" [] = Err (CircularIncludeError "loop").
Proof. reflexivity. Qed.

Lemma resolver_reads_templates_witness :
  let ref d := {| r_namespace := "node"; r_key := "ip"; r_default := d |} in
  resolve (fun _ => "") [("node", [("ip", JNull)])] (show_tokens [Text "ip="; Ref (ref (Some "dhcp")); Text " "; Ref (ref None)])
  = "ip=dhcp ${node.ip}".
Proof.
  intros ref. refine (eq_trans (proj1 (resolver_reads_templates (fun _ => "") [("node", [("ip", JNull)])]
    [Text "ip="; Ref (ref (Some "dhcp")); Text " "; Ref (ref None)] _)) eq_refl).
  repeat constructor; try discriminate; intros d H; by injection H as <-.
Defined.

(** References to the known namespaces [template] and [secret] are valid, but no
    context the code builds has them: they stay in the text. *)
Example valid_references_stay py_text n g w e u1 u2 u3 meta :
  validate "${template.name} ${secret.key}" = []
  /\ resolve py_text (build_context n g w e u1 u2 u3 meta) "${template.name} ${secret.key}" = "${template.name} ${secret.key}".
Proof. split; reflexivity. Qed.
