(* ===== verification/Disks.v ===== *)
(** * Disks and partition operations

    [api/routes/disks.py]: the disk report of a node and the listings made from
    it, the scan request, the queue of partition operations per device, and the
    partition mode.  A device is the path segment after [unquote].  A reported
    size is an integer and the names are strings or null; the partitions are any
    JSON, which the handler takes apart itself.  The texts of sizes come from
    float formatting and are parameters. *)
From S2P Require Import Prelude PyStr SqlTable NodeLifecycle Controller.
From stdpp Require Import base tactics list gmap strings pretty sorting.
From Stdlib Require Import ZArith Lia.
Open Scope string_scope.

(** ** [api/schemas.py] *)

Record PartitionInfo := {
  pi_number : Z;
  pi_start_bytes : Z;
  pi_end_bytes : Z;
  pi_size_bytes : Z;
  pi_size_human : string;
  pi_type : string;
  pi_filesystem : option string;
  pi_label : option string;
  pi_flags : list string;
  pi_used_bytes : option Z;
  pi_used_percent : option Z;
  pi_can_shrink : bool;
  pi_min_size_bytes : option Z
}.

Record DiskInfoResponse := {
  dr_id : string;
  dr_node_id : string;
  dr_device : string;
  dr_size_bytes : Z;
  dr_size_human : string;
  dr_model : option string;
  dr_serial : option string;
  dr_partition_table : option string;
  dr_partitions : list PartitionInfo;
  dr_scanned_at : Z
}.

Record PartitionOperationCreate := { oc_operation : string; oc_params : list (string * json) }.

(** One entry of [DiskScanReport.disks]; [None] is an absent key. *)
Record DiskData := {
  dd_device : option string;
  dd_size_bytes : option Z;
  dd_model : option (option string);
  dd_serial : option (option string);
  dd_partition_table : option (option string);
  dd_partitions : json
}.

Section Disks.
Context {P : Pydantic}.
Variable partition_human : Z -> string.        (* "%.1f GB" or "%.1f MB" *)
Variable disk_human : Z -> string.             (* "%.1f GB" or "%.1f TB" *)

(** [PartitionInfo( **p)] *)
Definition partition_of (p : json) : result server_error PartitionInfo :=
  match p with
  | JObj kvs =>
      match
        number ← required to_int "number" kvs;
        start_bytes ← required to_int "start_bytes" kvs;
        end_bytes ← required to_int "end_bytes" kvs;
        size_bytes ← required to_int "size_bytes" kvs;
        size_human ← with_default to_str "" "size_human" kvs;
        type ← required to_str "type" kvs;
        filesystem ← with_default (optional to_str) None "filesystem" kvs;
        label ← with_default (optional to_str) None "label" kvs;
        flags ← with_default to_strs [] "flags" kvs;
        used_bytes ← with_default (optional to_int) None "used_bytes" kvs;
        used_percent ← with_default (optional to_float) None "used_percent" kvs;
        can_shrink ← with_default to_bool false "can_shrink" kvs;
        min_size_bytes ← with_default (optional to_int) None "min_size_bytes" kvs;
        Some {| pi_number := number; pi_start_bytes := start_bytes; pi_end_bytes := end_bytes;
                pi_size_bytes := size_bytes; pi_size_human := size_human; pi_type := type;
                pi_filesystem := filesystem; pi_label := label; pi_flags := flags;
                pi_used_bytes := used_bytes; pi_used_percent := used_percent; pi_can_shrink := can_shrink;
                pi_min_size_bytes := min_size_bytes |}
      with
      | Some p => Ok p
      | None => Err ValidationError
      end
  | _ => Err TypeError
  end.

(** The [try] of [from_disk_info]: a [TypeError] leaves no partitions, a
    validation error is not caught. *)
Definition disk_partitions (d : DiskInfo) : result server_error (list PartitionInfo) :=
  match di_partitions_json d with
  | None => Ok []
  | Some j =>
      match iterate j with
      | None => Ok []
      | Some l => match map_result partition_of l with Err TypeError => Ok [] | r => r end
      end
  end.

Definition from_disk_info (d : DiskInfo) : result server_error DiskInfoResponse :=
  partitions ← disk_partitions d;
  Ok {| dr_id := di_id d; dr_node_id := di_node_id d; dr_device := di_device d;
        dr_size_bytes := di_size_bytes d; dr_size_human := disk_human (di_size_bytes d);
        dr_model := di_model d; dr_serial := di_serial d; dr_partition_table := di_partition_table d;
        dr_partitions := partitions; dr_scanned_at := di_scanned_at d |}.

(** ** Disk endpoints *)

Definition on_disk (node device : string) (d : DiskInfo) : bool :=
  String.eqb (di_node_id d) node && String.eqb (di_device d) device.

Definition list_node_disks (node_id : string) : ControllerM (list DiskInfoResponse) :=
  need_node node_id;;
  d ← get_db;
  lift (map_result from_disk_info
          (order_by_text di_device (sql_select (fun r => String.eqb (di_node_id r) node_id) (disk_info d)))).

Definition get_node_disk (node_id device : string) : ControllerM DiskInfoResponse :=
  need_node node_id;;
  d ← get_db;
  disk ← scalar_one_or_none (sql_select (on_disk node_id device) (disk_info d));
  match disk with
  | None => raise (HTTPException 404 ("Disk " ++ device ++ " not found for node " ++ node_id))
  | Some r => lift (from_disk_info r)
  end.

Definition trigger_disk_scan (now : Z) (id : string) : ControllerM unit :=
  node ← need_node id;
  update_node id (fun n => n <| disk_scan_requested_at := Some now |>);;
  broadcast "partition.scan_requested"
    (JObj [("node_id", JStr id); ("mac_address", JStr (mac_address node))]).

Definition check_scan_status (id : string) : ControllerM (bool * option Z) :=
  node ← need_node id;
  mret (bool_decide (is_Some (disk_scan_requested_at node)), disk_scan_requested_at node).

(** [size_bytes / 1024 ** 3] needs a number; [True] is one. *)
Definition numeric (j : json) : option Z :=
  match j with JNum z => Some z | JBool b => Some (if b then 1 else 0)%Z | _ => None end.

(** One entry of [validated_partitions]; [None] is the exception that skips it. *)
Definition partition_info (p : json) : option json :=
  match p with
  | JObj kvs =>
      let get k dflt := default dflt (assoc_get k kvs) in
      let size_bytes := get "size_bytes" (JNum 0) in
      match numeric size_bytes with
      | None => None
      | Some size =>
          Some (JObj [("number", get "number" (JNum 0)); ("start_bytes", get "start_bytes" (JNum 0));
                      ("end_bytes", get "end_bytes" (JNum 0)); ("size_bytes", size_bytes);
                      ("size_human", JStr (partition_human size)); ("type", get "type" (JStr "unknown"));
                      ("filesystem", get "filesystem" JNull); ("label", get "label" JNull);
                      ("flags", get "flags" (JArr [])); ("used_bytes", get "used_bytes" JNull);
                      ("used_percent", get "used_percent" JNull);
                      ("can_shrink", get "can_shrink" (JBool false));
                      ("min_size_bytes", get "min_size_bytes" JNull)])
      end
  | _ => None
  end.

Definition report_partitions (partitions : json) : result server_error (option json) :=
  if truthy partitions then
    match iterate partitions with
    | None => Err TypeError
    | Some l => Ok (Some (JArr (omap partition_info l)))
    end
  else Ok None.

(** What the loop over the report has done so far. *)
Record ReportLoop := {
  rl_rows : list DiskInfo;
  rl_reported : list string;
  rl_created : nat;
  rl_updated : nat
}.

Definition report_one (now : Z) (ids : nat -> string) (node : string) (existing : list string)
    (st : ReportLoop) (dd : DiskData) : result server_error ReportLoop :=
  match dd_device dd with
  | None => Ok st
  | Some device =>
      if String.eqb device "" then Ok st
      else
        partitions_json ← report_partitions (dd_partitions dd);
        let reported := device :: rl_reported st in
        if existsb (String.eqb device) existing then
          Ok {| rl_rows := (sql_update (on_disk node device)
                              (fun d => d <| di_size_bytes := default (di_size_bytes d) (dd_size_bytes dd) |>
                                          <| di_model := default (di_model d) (dd_model dd) |>
                                          <| di_serial := default (di_serial d) (dd_serial dd) |>
                                          <| di_partition_table := default (di_partition_table d) (dd_partition_table dd) |>
                                          <| di_partitions_json := partitions_json |>
                                          <| di_scanned_at := now |>) (rl_rows st)).1;
                rl_reported := reported; rl_created := rl_created st; rl_updated := S (rl_updated st) |}
        else
          Ok {| rl_rows := (rl_rows st ++
                  [{| di_id := ids (rl_created st); di_node_id := node; di_device := device;
                      di_size_bytes := default 0%Z (dd_size_bytes dd); di_model := default None (dd_model dd);
                      di_serial := default None (dd_serial dd);
                      di_partition_table := default None (dd_partition_table dd);
                      di_partitions_json := partitions_json; di_scanned_at := now |}])%list;
                rl_reported := reported; rl_created := S (rl_created st); rl_updated := rl_updated st |}
  end.

Fixpoint report_all (now : Z) (ids : nat -> string) (node : string) (existing : list string)
    (st : ReportLoop) (disks : list DiskData) : result server_error ReportLoop :=
  match disks with
  | [] => Ok st
  | dd :: disks => st' ← report_one now ids node existing st dd; report_all now ids node existing st' disks
  end.

(** The unique constraint on node and device. *)
Definition disk_key (d : DiskInfo) : string * string := (di_node_id d, di_device d).

Definition receive_disk_report (now : Z) (ids : nat -> string) (id : string) (disks : list DiskData) : ControllerM (nat * nat * nat) :=
  need_node id;;
  d ← get_db;
  let existing := map di_device (sql_select (fun r => String.eqb (di_node_id r) id) (disk_info d)) in
  st ← lift (report_all now ids id existing
               {| rl_rows := disk_info d; rl_reported := []; rl_created := 0; rl_updated := 0 |} disks);
  set_db (fun d => d <| disk_info := rl_rows st |>);;
  update_node id (fun n => n <| disk_scan_requested_at := None |>);;
  if bool_decide (NoDup (map disk_key (rl_rows st))) then
    let count := length (remove_dups (rl_reported st)) in
    broadcast "partition.scan_complete"
      (JObj [("node_id", JStr id); ("disk_count", JNum (Z.of_nat count));
             ("created", JNum (Z.of_nat (rl_created st))); ("updated", JNum (Z.of_nat (rl_updated st)))]);;
    mret (count, rl_created st, rl_updated st)
  else raise IntegrityError.

(** ** Partition operations *)

Definition on_device (node device : string) (o : PartitionOperation) : bool :=
  String.eqb (po_node_id o) node && String.eqb (po_device o) device.
Definition has_status (status : string) (o : PartitionOperation) : bool := String.eqb (po_status o) status.
Definition is_pending (node device : string) (o : PartitionOperation) : bool :=
  on_device node device o && has_status "pending" o.

(** [func.max(sequence)], [or 0] *)
Definition max_sequence (ops : list PartitionOperation) : Z :=
  match ops with
  | [] => 0
  | o :: ops => foldr (fun o m => Z.max (po_sequence o) m) (po_sequence o) ops
  end.

Definition set_operations (f : list PartitionOperation -> list PartitionOperation) : ControllerM unit :=
  set_db (fun d => d <| partition_operations ::= f |>).

Definition queue_partition_operation (id node_id device : string) (op : PartitionOperationCreate) :
    ControllerM PartitionOperation :=
  if bool_decide (oc_params op = []) then raise (HTTPException 422 "params cannot be empty") else
  need_node node_id;;
  d ← get_db;
  let new_sequence := (max_sequence (sql_select (is_pending node_id device) (partition_operations d)) + 1)%Z in
  let operation := {| po_id := id; po_node_id := node_id; po_device := device; po_operation := oc_operation op;
                      po_params_json := JObj (oc_params op); po_sequence := new_sequence; po_status := "pending";
                      po_error_message := None; po_executed_at := None |} in
  set_operations (fun t => (t ++ [operation])%list);;
  broadcast "partition.operation_queued"
    (JObj [("node_id", JStr node_id); ("device", JStr device); ("operation_id", JStr id);
           ("operation", JStr (oc_operation op)); ("sequence", JNum new_sequence)]);;
  mret operation.

Definition valid_statuses : list string := ["completed"; "failed"; "pending"; "running"].

(** The status filter of the two listings. *)
Definition filter_status (status : option string) (ops : list PartitionOperation) : ControllerM (list PartitionOperation) :=
  match status with
  | Some s =>
      if String.eqb s "" then mret ops
      else if existsb (String.eqb s) valid_statuses then mret (sql_select (has_status s) ops)
      else raise (HTTPException 400 ("Invalid status. Must be one of: " ++ PyStr.join ", " valid_statuses))
  | None => mret ops
  end.

Definition list_partition_operations (node_id device : string) (status : option string) :
    ControllerM (list PartitionOperation) :=
  need_node node_id;;
  d ← get_db;
  ops ← filter_status status (sql_select (on_device node_id device) (partition_operations d));
  mret (order_by po_sequence ops).

Definition list_all_node_partition_operations (node_id : string) (status : option string) :
    ControllerM (list PartitionOperation) :=
  need_node node_id;;
  d ← get_db;
  ops ← filter_status status (sql_select (fun o => String.eqb (po_node_id o) node_id) (partition_operations d));
  mret (order_by_text po_device (order_by po_sequence ops)).

Definition remove_partition_operation (node_id device operation_id : string) : ControllerM unit :=
  need_node node_id;;
  d ← get_db;
  operation ← scalar_one_or_none
    (sql_select (fun o => has_key po_id operation_id o && on_device node_id device o) (partition_operations d));
  match operation with
  | None => raise (HTTPException 404 "Operation not found")
  | Some o =>
      if negb (String.eqb (po_status o) "pending")
      then raise (HTTPException 400 ("Cannot remove operation with status '" ++ po_status o
                                     ++ "'. Only pending operations can be removed."))
      else set_operations (fun t => (sql_delete (has_key po_id operation_id) t).1)
  end.

Definition apply_partition_operations (id device : string) : ControllerM Z :=
  node ← need_node id;
  d ← get_db;
  let pending_count := sql_count (is_pending id device) (partition_operations d) in
  if (pending_count =? 0)%Z then raise (HTTPException 400 "No pending operations to apply")
  else
    broadcast "partition.operations_apply_requested"
      (JObj [("node_id", JStr id); ("mac_address", JStr (mac_address node)); ("device", JStr device);
             ("pending_count", JNum pending_count)]);;
    mret pending_count.

Definition event_map : list (string * string) :=
  [("running", "partition.operation_started"); ("completed", "partition.operation_complete");
   ("failed", "partition.operation_failed")].

Definition update_operation_status (now : Z) (node_id operation_id status : string) (error_message : option string) : ControllerM unit :=
  need_node node_id;;
  d ← get_db;
  operation ← scalar_one_or_none
    (sql_select (fun o => has_key po_id operation_id o && String.eqb (po_node_id o) node_id) (partition_operations d));
  match operation with
  | None => raise (HTTPException 404 "Operation not found")
  | Some o =>
      match assoc_get status event_map with
      | None => raise (HTTPException 400 "Invalid status. Must be one of: completed, failed, running")
      | Some event_type =>
          set_operations (fun t => (sql_update (has_key po_id operation_id)
            (fun o => o <| po_status := status |>
                        <| po_error_message ::= fun e => if is_set error_message then error_message else e |>
                        <| po_executed_at ::= fun e => if existsb (String.eqb status) ["completed"; "failed"]
                                                       then Some now else e |>) t).1);;
          broadcast event_type
            (JObj ([("node_id", JStr node_id); ("operation_id", JStr operation_id); ("device", JStr (po_device o));
                    ("operation", JStr (po_operation o)); ("status", JStr status)]
                   ++ (if is_set error_message then [("error_message", jopt error_message)] else []))%list)
      end
  end.

(** ** Partition mode *)

Definition update_partition_mode_status (id status : string) (device : option string) : ControllerM unit :=
  node ← need_node id;
  if negb (existsb (String.eqb status) ["online"; "offline"])
  then raise (HTTPException 400 "Invalid status. Must be one of: offline, online")
  else
    broadcast (if String.eqb status "online" then "partition.mode_online" else "partition.mode_offline")
      (JObj [("node_id", JStr id); ("mac_address", JStr (mac_address node)); ("status", JStr status);
             ("device", jopt device)]).

(** The handler sets [node.last_seen], which is no column of the table, so that
    no row changes. *)
Definition partition_mode_heartbeat (now : Z) (id : string) : ControllerM Z :=
  need_node id;;
  mret now.

(** ** Requests *)

Inductive disk_request : Type :=
| QueueOp (id node device : string) (op : PartitionOperationCreate)
| RemoveOp (node device id : string)
| OpStatus (now : Z) (node id status : string) (error : option string)
| ApplyOps (node device : string)
| Report (now : Z) (ids : nat -> string) (node : string) (disks : list DiskData)
| Scan (now : Z) (node : string)
| ModeStatus (node status : string) (device : option string)
| Heartbeat (now : Z) (node : string).

Definition handle (r : disk_request) : ControllerM unit :=
  match r with
  | QueueOp id node device op => queue_partition_operation id node device op;; mret tt
  | RemoveOp node device id => remove_partition_operation node device id
  | OpStatus now node id status error => update_operation_status now node id status error
  | ApplyOps node device => apply_partition_operations node device;; mret tt
  | Report now ids node disks => receive_disk_report now ids node disks;; mret tt
  | Scan now node => trigger_disk_scan now node
  | ModeStatus node status device => update_partition_mode_status node status device
  | Heartbeat now node => partition_mode_heartbeat now node;; mret tt
  end.

Definition run_requests (rs : list disk_request) (c : Controller) : Controller :=
  fold_left (fun c r => (request (handle r) c).2) rs c.

(** ** The queue of operations *)

Definition pending (node device : string) (d : Database) : list PartitionOperation :=
  sql_select (is_pending node device) (partition_operations d).

(** Per device, pending operations are numbered in the order they were queued. *)
Definition queue_ordered (d : Database) : Prop :=
  forall node device, StronglySorted Z.lt (map po_sequence (pending node device d)).

Lemma sorted_sublist (l l' : list PartitionOperation) :
  sublist l l' -> StronglySorted Z.lt (map po_sequence l') -> StronglySorted Z.lt (map po_sequence l).
Proof.
  intros Hs. induction Hs as [|x l1 l2 Hs IH|x l1 l2 Hs IH]; cbn; [constructor|..];
    intros Hl; inversion Hl as [|? ? Hl1 Hx]; subst; [|auto].
  constructor; [auto|]. rewrite Forall_forall in *.
  intros y (o & -> & Ho)%list_elem_of_fmap. apply Hx, list_elem_of_fmap. exists o. split; [done|].
  by eapply elem_of_submseteq, sublist_submseteq.
Qed.

Lemma max_sequence_ge ops o : o ∈ ops -> (po_sequence o <= max_sequence ops)%Z.
Proof.
  destruct ops as [|o1 ops]; [by intros ?%elem_of_nil|]. cbn.
  intros [->|Ho]%elem_of_cons.
  - induction ops; cbn; lia.
  - induction ops as [|o2 ops IH]; [by apply elem_of_nil in Ho|]. cbn.
    apply elem_of_cons in Ho as [->|Ho]; [lia|]. specialize (IH Ho). lia.
Qed.

Lemma queue_step id node device op c o c' :
  queue_partition_operation id node device op c = (Ok o, c') ->
  is_Some (sql_find node_id node (nodes (db c))) /\ is_pending node device o = true /\ po_node_id o = node
  /\ po_device o = device
  /\ po_sequence o = (max_sequence (pending node device (db c)) + 1)%Z
  /\ nodes (db c') = nodes (db c) /\ partition_operations (db c') = (partition_operations (db c) ++ [o])%list.
Proof.
  unfold queue_partition_operation. destruct (bool_decide _); [done|].
  step_M n c1 E1. rewrite need_node_run in E1. destruct (sql_find _ _ _) as [n'|] eqn:En; [|done].
  injection E1 as -> <-. step_M d c1 E2. injection E2 as <- <-. unfold set_operations, set_db. intros H.
  cbn in H. injection H as <- <-. split; [by eexists|]. split; [|done].
  unfold is_pending, on_device, has_status. cbn. by rewrite !String.eqb_refl.
Qed.

Lemma queue_ordered_snoc d d' o :
  queue_ordered d -> partition_operations d' = (partition_operations d ++ [o])%list ->
  po_sequence o = (max_sequence (pending (po_node_id o) (po_device o) d) + 1)%Z -> queue_ordered d'.
Proof.
  intros Hd Ht Ho node device. unfold pending. rewrite Ht, select_app.
  change (sql_select (is_pending node device) [o]) with (if is_pending node device o then [o] else []).
  destruct (is_pending node device o) eqn:E; [|rewrite app_nil_r; apply Hd].
  unfold is_pending, on_device in E. apply andb_true_iff in E as [[E1 E2]%andb_true_iff _].
  apply String.eqb_eq in E1, E2. subst. rewrite map_app. cbn.
  specialize (Hd (po_node_id o) (po_device o)). unfold pending in Hd.
  set (l := sql_select _ _) in *.
  assert (Hm : forall x, x ∈ l -> (po_sequence x < po_sequence o)%Z).
  { intros x Hx%max_sequence_ge. rewrite Ho. unfold pending. fold l. lia. }
  clearbody l. clear Ho. induction l as [|x l IH]; cbn; [by repeat constructor|].
  cbn in Hd. inversion Hd; subst. constructor.
  - apply IH; [done|]. intros y Hy. apply Hm. by right.
  - apply Forall_app. split; [done|]. constructor; [|constructor]. apply Hm, list_elem_of_here.
Qed.

Lemma queue_ordered_sublist d d' :
  queue_ordered d -> (forall node device, sublist (pending node device d') (pending node device d)) -> queue_ordered d'.
Proof. intros Hd Hs node device. by apply (sorted_sublist _ (pending node device d)). Qed.

Lemma queue_ordered_same d d' :
  partition_operations d' = partition_operations d -> queue_ordered d -> queue_ordered d'.
Proof. intros E Hd node device. unfold pending. rewrite E. apply Hd. Qed.

Lemma set_db_queue f : (forall d, partition_operations (f d) = partition_operations d) -> keeps_db queue_ordered (set_db f).
Proof. intros Hf c a c' Hc [= _ <-]. apply (queue_ordered_same (db c)); [apply Hf|done]. Qed.

Lemma set_operations_queue f :
  (forall t node device, sublist (sql_select (is_pending node device) (f t)) (sql_select (is_pending node device) t)) ->
  keeps_db queue_ordered (set_operations f).
Proof. intros Hf c a c' Hc [= _ <-]. apply (queue_ordered_sublist (db c)); [done|]. intros node device. apply Hf. Qed.

Lemma handle_keeps_queue r : keeps_db queue_ordered (handle r).
Proof.
  destruct r; cbn [handle];
    unfold remove_partition_operation, update_operation_status, apply_partition_operations,
      receive_disk_report, trigger_disk_scan, update_partition_mode_status, partition_mode_heartbeat;
    keeps_db_steps.
  - intros c o c' Hc H. apply queue_step in H as (_ & _ & E1 & E2 & Hs & _ & Ht).
    apply (queue_ordered_snoc (db c) _ o Hc Ht). by rewrite E1, E2.
  - apply set_operations_queue. intros. apply select_delete_sublist.
  - apply set_operations_queue. intros t node' device. apply select_update_sublist. intros o _.
    unfold is_pending, has_status. cbn -[String.eqb].
    destruct (String.eqb_spec status "pending") as [->|]; [done|]. apply andb_false_r.
  - by apply set_db_queue.
  - by apply set_db_queue.
  - by apply set_db_queue.
Qed.

Lemma run_keeps_queue rs c : queue_ordered (db c) -> queue_ordered (db (run_requests rs c)).
Proof.
  revert c. induction rs as [|r rs IH]; intros c Hc; [done|]. cbn. apply IH.
  apply keeps_db_request; [apply handle_keeps_queue|done].
Qed.

Lemma select_pending_device node device t :
  sql_select (has_status "pending") (sql_select (on_device node device) t) = sql_select (is_pending node device) t.
Proof.
  unfold sql_select, is_pending. induction t as [|o t IH]; [done|]. cbn -[has_status].
  destruct (on_device node device o); cbn -[has_status]; [|done]. destruct (has_status "pending" o); by rewrite IH.
Qed.

Lemma list_pending_ordered node device c :
  queue_ordered (db c) -> is_Some (sql_find node_id node (nodes (db c))) ->
  list_partition_operations node device (Some "pending") c = (Ok (pending node device (db c)), c).
Proof.
  intros Hq [n Hn]. unfold list_partition_operations.
  rewrite (bind_Ok _ _ _ n c) by (by rewrite need_node_run, Hn).
  rewrite (bind_Ok _ _ _ (db c) c) by done. unfold filter_status. cbn -[sql_select order_by].
  rewrite select_pending_device. unfold mret, M_ret, mbind, M_bind. do 2 f_equal. apply order_by_id. specialize (Hq node device).
  unfold pending, ordered in *. induction (sql_select _ _) as [|o l IH]; [constructor|].
  cbn in Hq. inversion Hq as [|? ? Hl Ho]; subst. constructor; [auto|].
  apply Forall_forall. intros x Hx. rewrite Forall_forall in Ho.
  apply Z.lt_le_incl, Ho, list_elem_of_fmap. by exists x.
Qed.

(** Whatever was requested before, an operation that is queued for a device
    is the last of the pending operations the node is served, and the others
    are served before it as they were. *)
Theorem queued_operation_is_served_last rs c0 id node device op o c' :
  partition_operations (db c0) = [] ->
  let c := run_requests rs c0 in
  queue_partition_operation id node device op c = (Ok o, c') ->
  exists served,
    list_partition_operations node device (Some "pending") c = (Ok served, c)
    /\ list_partition_operations node device (Some "pending") c' = (Ok (served ++ [o])%list, c')
    /\ StronglySorted Z.lt (map po_sequence (served ++ [o])%list).
Proof.
  intros H0 c H. assert (Hc : queue_ordered (db c)).
  { apply run_keeps_queue. intros n d. unfold pending. rewrite H0. constructor. }
  pose proof (queue_step _ _ _ _ _ _ _ H) as (Hn & Hp & E1 & E2 & Hs & Hns & Ht).
  assert (Hc' : queue_ordered (db c')) by (apply (queue_ordered_snoc (db c) _ o Hc Ht); by rewrite E1, E2).
  assert (Hl : pending node device (db c') = (pending node device (db c) ++ [o])%list).
  { unfold pending. rewrite Ht, select_app. f_equal. cbn. by rewrite Hp. }
  exists (pending node device (db c)). rewrite <- Hl. split; [by apply list_pending_ordered|].
  split; [apply list_pending_ordered; [done|by rewrite Hns]|apply Hc'].
Qed.

(** The number is one more than the pending ones only: with the first operation
    running, the next one is number 1 again. *)
Example sequence_restarts :
  let c0 := {| db := empty_db <| nodes := [new_node "n" "m"] |>; sent := []; pi_nodes := ∅ |} in
  let op := {| oc_operation := "resize"; oc_params := [("n", JNum 1)] |} in
  map po_sequence (partition_operations (db (run_requests
    [QueueOp "a" "n" "/dev/sda" op; OpStatus 0 "n" "a" "running" None; QueueOp "b" "n" "/dev/sda" op] c0))) = [1%Z; 1%Z].
Proof. reflexivity. Qed.

(** ** Reports *)

(** A partition as the scan script reports it. *)
Definition reported (p : PartitionInfo) : json :=
  JObj [("number", JNum (pi_number p)); ("start_bytes", JNum (pi_start_bytes p)); ("end_bytes", JNum (pi_end_bytes p));
        ("size_bytes", JNum (pi_size_bytes p)); ("type", JStr (pi_type p)); ("filesystem", jopt (pi_filesystem p));
        ("label", jopt (pi_label p)); ("flags", JArr (map JStr (pi_flags p))); ("used_bytes", jnum (pi_used_bytes p));
        ("used_percent", jnum (pi_used_percent p)); ("can_shrink", JBool (pi_can_shrink p));
        ("min_size_bytes", jnum (pi_min_size_bytes p))].

Definition with_human (p : PartitionInfo) : PartitionInfo :=
  p <| pi_size_human := partition_human (pi_size_bytes p) |>.

Lemma partition_roundtrip {L : PydanticLaws P} p :
  exists j, partition_info (reported p) = Some j /\ partition_of j = Ok (with_human p).
Proof.
  eexists. split; [reflexivity|]. unfold partition_of, required, with_default. cbn.
  autorewrite with controller. done.
Qed.

Lemma partitions_roundtrip {L : PydanticLaws P} ps :
  map_result partition_of (omap partition_info (map reported ps)) = Ok (map with_human ps).
Proof.
  induction ps as [|p ps IH]; [done|]. destruct (partition_roundtrip p) as (j & E1 & E2).
  cbn -[partition_info]. rewrite E1. cbn. rewrite E2. cbn. by rewrite IH.
Qed.

Definition rows_of (node device : string) (t : list DiskInfo) : list DiskInfo := sql_select (on_disk node device) t.

Lemma on_disk_true node device r : on_disk node device r = true <-> disk_key r = (node, device).
Proof.
  unfold on_disk, disk_key. rewrite andb_true_iff, !String.eqb_eq.
  split; [by intros [-> ->]|by intros [= -> ->]].
Qed.

Lemma rows_of_unique node device t :
  NoDup (map disk_key t) -> rows_of node device t = [] \/ exists r, rows_of node device t = [r].
Proof.
  unfold rows_of, sql_select. induction t as [|r t IH]; [by left|]. cbn -[on_disk]. rewrite NoDup_cons. intros [Hr Ht].
  destruct (on_disk node device r) eqn:E; [|by apply IH]. right. exists r.
  destruct (List.filter (on_disk node device) t) as [|x l] eqn:El; [done|]. exfalso. apply Hr.
  assert (Hx : In x (List.filter (on_disk node device) t)) by (rewrite El; by left).
  apply filter_In in Hx as [Hx1 Hx2]. apply on_disk_true in E, Hx2. rewrite E, <- Hx2.
  by apply list_elem_of_In, in_map.
Qed.

Lemma update_disk_keys (S : DiskInfo -> bool) (f : DiskInfo -> DiskInfo) t :
  (forall r, disk_key (f r) = disk_key r) -> map disk_key (sql_update S f t).1 = map disk_key t.
Proof. intros Hf. cbn. rewrite map_map. apply map_ext. intros r. by destruct (S r). Qed.

(** What the handler stores of an entry whose partitions are the list [l]. *)
Definition stored_partitions (l : list json) : option json :=
  match l with [] => None | _ => Some (JArr (omap partition_info l)) end.

Lemma report_partitions_arr l : report_partitions (JArr l) = Ok (stored_partitions l).
Proof. by destruct l. Qed.

Lemma disk_partitions_stored {L : PydanticLaws P} r ps :
  di_partitions_json r = stored_partitions (map reported ps) -> disk_partitions r = Ok (map with_human ps).
Proof.
  unfold disk_partitions. intros ->. destruct ps as [|p ps]; [done|]. cbn [stored_partitions map iterate].
  change (reported p :: map reported ps) with (map reported (p :: ps)). by rewrite partitions_roundtrip.
Qed.

Definition stored (node device : string) (dd : DiskData) (l : list json) (r : DiskInfo) : Prop :=
  di_partitions_json r = stored_partitions l /\ (forall z, dd_size_bytes dd = Some z -> di_size_bytes r = z).

Lemma report_one_spec now ids node existing st dd device l :
  NoDup (map disk_key (rl_rows st)) ->
  existsb (String.eqb device) existing = negb (bool_decide (rows_of node device (rl_rows st) = [])) ->
  dd_device dd = Some device -> device ≠ "" -> dd_partitions dd = JArr l ->
  exists st' r, report_one now ids node existing st dd = Ok st' /\ NoDup (map disk_key (rl_rows st'))
    /\ rows_of node device (rl_rows st') = [r] /\ stored node device dd l r
    /\ (forall n d, (n, d) ≠ (node, device) -> rows_of n d (rl_rows st') = rows_of n d (rl_rows st)).
Proof.
  intros Hnd Hex Hdev Hne Hp. unfold report_one. rewrite Hdev, Hp, (proj2 (String.eqb_neq _ _) Hne), Hex.
  rewrite report_partitions_arr. cbn [mbind result_bind].
  destruct (bool_decide_reflect (rows_of node device (rl_rows st) = [])) as [Hr|Hr]; cbn [negb].
  - eexists _, _. split; [reflexivity|]. cbn [rl_rows]. split.
    + rewrite map_app. apply NoDup_app. split; [done|]. split; [|apply NoDup_singleton].
      intros k (r & -> & H1)%list_elem_of_fmap H2%list_elem_of_singleton.
      apply (elem_of_nil r). rewrite <- Hr. apply elem_of_sql_select. split; [done|]. by apply on_disk_true.
    + unfold rows_of in *. rewrite select_app, Hr. split; [unfold sql_select, on_disk; cbn; by rewrite !String.eqb_refl|].
      split; [split; [done|by intros z ->]|]. intros n d Hnd'. rewrite select_app.
      rewrite <- (app_nil_r (sql_select (on_disk n d) (rl_rows st))) at 2. f_equal. unfold sql_select. cbn -[on_disk].
      lazymatch goal with |- (if on_disk n d ?r then _ else _) = _ => destruct (on_disk n d r) eqn:E end; [|done].
      apply on_disk_true in E. by injection E as -> ->.
  - destruct (rows_of_unique node device _ Hnd) as [?|[r Er]]; [done|]. unfold rows_of in *.
    eexists _, _. split; [reflexivity|]. cbn [rl_rows]. split; [by rewrite update_disk_keys|].
    rewrite select_update_map by done. rewrite Er. cbn [map]. split; [reflexivity|].
    split; [split; [done|by intros z Hz; cbn; rewrite Hz]|]. intros n d Hnd'.
    apply select_update_other; intros x Hx%on_disk_true; [done|].
    destruct (on_disk n d x) eqn:E; [|done]. apply on_disk_true in E. congruence.
Qed.

(** A report with one entry per device, each with a list of partitions. *)
Definition good_report (disks : list DiskData) : Prop :=
  NoDup (map dd_device disks)
  /\ Forall (fun dd => exists device l, dd_device dd = Some device /\ device ≠ "" /\ dd_partitions dd = JArr l) disks.

Lemma report_all_spec now ids node existing disks st :
  NoDup (map disk_key (rl_rows st)) -> good_report disks ->
  (forall dd device, dd ∈ disks -> dd_device dd = Some device ->
     existsb (String.eqb device) existing = negb (bool_decide (rows_of node device (rl_rows st) = []))) ->
  exists st', report_all now ids node existing st disks = Ok st' /\ NoDup (map disk_key (rl_rows st'))
    /\ (forall dd device l, dd ∈ disks -> dd_device dd = Some device -> dd_partitions dd = JArr l ->
          exists r, rows_of node device (rl_rows st') = [r] /\ stored node device dd l r)
    /\ (forall n d, n ≠ node \/ Some d ∉ map dd_device disks -> rows_of n d (rl_rows st') = rows_of n d (rl_rows st)).
Proof.
  revert st. induction disks as [|dd disks IH]; intros st Hnd [Hdev Hgood] Hex.
  { exists st. split; [done|]. split; [done|]. split; [by intros ? ? ? ?%elem_of_nil|done]. }
  cbn in Hdev. apply NoDup_cons in Hdev as [Hd Hdev]. inversion Hgood as [|? ? (device & l & E1 & E2 & E3) Hg]; subst.
  destruct (report_one_spec now ids node existing st dd device l) as (st1 & r & Es & Hnd1 & Hr & Hst & Ho);
    [done|by apply (Hex dd); [apply list_elem_of_here|]|done..|].
  assert (Hlater : forall dd' d', dd' ∈ disks -> dd_device dd' = Some d' -> d' ≠ device).
  { intros dd' d' Hin E ->. apply Hd. rewrite E1, <- E. by apply list_elem_of_fmap_2. }
  destruct (IH st1) as (st' & Ea & Hnd' & Hall & Hoth); [done|done|..].
  { intros dd' d' Hin E. rewrite Ho; [|intros [= ->]; by eapply Hlater]. apply (Hex dd'); [by right|done]. }
  exists st'. cbn. rewrite Es. cbn. split; [done|]. split; [done|]. split.
  - intros dd' d' l' Hin E El. apply elem_of_cons in Hin as [->|Hin]; [|by apply Hall].
    rewrite E1 in E. injection E as <-. rewrite E3 in El. injection El as <-. exists r.
    rewrite Hoth; [done|]. right. by rewrite <- E1.
  - intros n d Hn. rewrite Hoth, Ho; [done|..].
    + intros [= -> ->]. destruct Hn as [?|Hn]; [done|]. apply Hn. rewrite E1. apply list_elem_of_here.
    + destruct Hn as [?|Hn]; [by left|]. right. intros H. apply Hn. by right.
Qed.

Lemma get_node_disk_run node device c n :
  sql_find node_id node (nodes (db c)) = Some n ->
  get_node_disk node device c =
  match rows_of node device (disk_info (db c)) with
  | [] => (Err (HTTPException 404 ("Disk " ++ device ++ " not found for node " ++ node)), c)
  | [r] => (from_disk_info r, c)
  | _ => (Err MultipleResultsFound, c)
  end.
Proof.
  intros Hn. unfold get_node_disk. rewrite (bind_Ok _ _ _ n c) by (by rewrite need_node_run, Hn).
  rewrite (bind_Ok _ _ _ (db c) c) by done. fold (rows_of node device (disk_info (db c))).
  by destruct (rows_of _ _ _) as [|r [|]].
Qed.

(** A report with one entry per device is stored: reading a reported disk
    gives the partitions and the size the node sent, each with a readable size;
    what is stored for other devices and nodes stays, and the scan request is
    answered. *)
Theorem disk_report_roundtrip {L : PydanticLaws P} now ids node disks c n :
  sql_find node_id node (nodes (db c)) = Some n -> NoDup (map disk_key (disk_info (db c))) -> good_report disks ->
  exists counts c', receive_disk_report now ids node disks c = (Ok counts, c')
    /\ (forall dd device ps, dd ∈ disks -> dd_device dd = Some device -> dd_partitions dd = JArr (map reported ps) ->
          exists r, get_node_disk node device c' = (Ok r, c') /\ dr_partitions r = map with_human ps
            /\ (forall z, dd_size_bytes dd = Some z -> dr_size_bytes r = z))
    /\ (forall device, Some device ∉ map dd_device disks ->
          (get_node_disk node device c').1 = (get_node_disk node device c).1)
    /\ (check_scan_status node c').1 = Ok (false, None).
Proof.
  intros Hn Hnd Hg. unfold receive_disk_report.
  rewrite (bind_Ok _ _ _ n c) by (by rewrite need_node_run, Hn). rewrite (bind_Ok _ _ _ (db c) c) by done.
  destruct (report_all_spec now ids node (map di_device (sql_select (fun r => String.eqb (di_node_id r) node) (disk_info (db c))))
              disks {| rl_rows := disk_info (db c); rl_reported := []; rl_created := 0; rl_updated := 0 |})
    as (st & Es & Hnd' & Hall & Hoth); [done|done|..].
  { intros dd device _ _. cbn [rl_rows]. apply eq_iff_eq_true. rewrite negb_true_iff, bool_decide_eq_false, existsb_exists.
    split.
    - intros (x & Hx & ->%String.eqb_eq). apply in_map_iff in Hx as (r & <- & [Hr Ei]%filter_In).
      intros E. apply (elem_of_nil r). rewrite <- E. apply elem_of_sql_select. split; [by apply list_elem_of_In|].
      unfold on_disk. by rewrite Ei, String.eqb_refl.
    - intros Hne. destruct (rows_of_unique node device _ Hnd) as [?|[r Er]]; [done|]. exists device.
      rewrite String.eqb_refl. split; [|done].
      assert (Hr : r ∈ rows_of node device (disk_info (db c))) by (rewrite Er; apply list_elem_of_here).
      apply elem_of_sql_select in Hr as [Hr E]. unfold on_disk in E. apply andb_true_iff in E as [E1 E2].
      apply String.eqb_eq in E2. apply in_map_iff. exists r. split; [done|]. apply filter_In.
      split; [by apply list_elem_of_In|done]. }
  rewrite (bind_Ok _ _ _ st c) by (unfold lift, lift_result; by rewrite Es).
  rewrite (bind_Ok _ _ c tt (c <| db ::= fun d => d <| disk_info := rl_rows st |> |>)) by done.
  set (c1 := c <| db ::= _ |>). unfold update_node at 1.
  set (f := fun n => n <| disk_scan_requested_at := None |>).
  set (c' := c1 <| db ::= fun d => d <| nodes ::= fun t => (sql_update (has_key node_id node) f t).1 |> |>).
  rewrite (bind_Ok _ _ c1 tt c') by done. rewrite bool_decide_true by done.
  assert (Hn' : sql_find node_id node (nodes (db c')) = Some (f n)).
  { change (nodes (db c')) with (sql_update (has_key node_id node) f (nodes (db c))).1.
    rewrite sql_find_update by done. rewrite Hn. cbn.
    apply sql_find_Some_1 in Hn as [_ Hk]. unfold has_key. by rewrite Hk, String.eqb_refl. }
  eexists _, _. split; [reflexivity|].
  lazymatch goal with |- context [check_scan_status node ?x] =>
    assert (Hx : nodes (db x) = nodes (db c') /\ disk_info (db x) = rl_rows st) by (split; reflexivity);
    revert Hx; generalize x end.
  intros c2 [En Ed]. rewrite <- En in Hn'. split; [|split].
  - intros dd device ps Hdd Hdev Hps. destruct (Hall dd device _ Hdd Hdev Hps) as (r & Hr & Hst & Hsz).
    rewrite (get_node_disk_run _ _ _ (f n)), Ed, Hr by done.
    unfold from_disk_info. rewrite (disk_partitions_stored r ps) by done. cbn. by eexists.
  - intros device Hd. rewrite (get_node_disk_run _ _ _ (f n)), (get_node_disk_run _ _ c n), Ed, Hoth by auto.
    cbn [rl_rows]. by destruct (rows_of _ _ _) as [|r [|]].
  - unfold check_scan_status. by rewrite (bind_Ok _ _ _ (f n) c2) by (by rewrite need_node_run, Hn').
Qed.

End Disks.

(** ** Examples *)

Definition demo : Controller := {| db := empty_db <| nodes := [new_node "n" "m"] |>; sent := []; pi_nodes := ∅ |}.
Definition demo_op : PartitionOperationCreate := {| oc_operation := "resize"; oc_params := [("n", JNum 1)] |}.

Lemma queued_operation_is_served_last_witness :
  let rs := [QueueOp "a" "n" "/dev/sda" demo_op; QueueOp "b" "n" "/dev/sda" demo_op] in
  let r := queue_partition_operation "x" "n" "/dev/sda" demo_op (run_requests (fun _ => "") rs demo) in
  exists o served,
    list_partition_operations "n" "/dev/sda" (Some "pending") r.2 = (Ok (served ++ [o])%list, r.2) /\ po_id o = "x".
Proof.
  intros rs r. assert (exists o, r = (Ok o, r.2) /\ po_id o = "x") as (o & E & Ei) by (eexists; split; vm_compute; reflexivity).
  destruct (queued_operation_is_served_last (fun _ => "") rs demo "x" "n" "/dev/sda" demo_op o r.2 eq_refl E)
    as (served & _ & H & _).
  exists o, served. split; [exact H|exact Ei].
Defined.

Definition demo_partition : PartitionInfo :=
  {| pi_number := 1; pi_start_bytes := 0; pi_end_bytes := 9; pi_size_bytes := 10; pi_size_human := "";
     pi_type := "linux"; pi_filesystem := Some "ext4"; pi_label := None; pi_flags := ["boot"];
     pi_used_bytes := Some 5%Z; pi_used_percent := None; pi_can_shrink := true; pi_min_size_bytes := Some 6%Z |}.
Definition demo_report (number : json) : DiskData :=
  {| dd_device := Some "/dev/sda"; dd_size_bytes := Some 100%Z; dd_model := None; dd_serial := None;
     dd_partition_table := Some (Some "gpt");
     dd_partitions := match reported demo_partition with
                      | JObj (_ :: kvs) => JArr [JObj (("number", number) :: kvs)]
                      | j => j
                      end |}.

Lemma disk_report_roundtrip_witness :
  exists counts c' r,
    receive_disk_report (fun _ => "") 7 (fun _ => "d") "n" [demo_report (JNum 1)] demo = (Ok counts, c')
    /\ get_node_disk (P := strict_pydantic) (fun _ => "") "n" "/dev/sda" c' = (Ok r, c')
    /\ dr_partitions r = [demo_partition] /\ dr_size_bytes r = 100%Z.
Proof.
  destruct (disk_report_roundtrip (P := strict_pydantic) (fun _ => "") (fun _ => "") 7 (fun _ => "d") "n"
              [demo_report (JNum 1)] demo (new_node "n" "m")) as (counts & c' & E & H & _).
  - reflexivity.
  - constructor.
  - split; [apply NoDup_singleton|]. constructor; [|constructor]. eexists _, _. split; [reflexivity|].
    split; [discriminate|reflexivity].
  - destruct (H (demo_report (JNum 1)) "/dev/sda" [demo_partition]) as (r & E2 & Ep & Ez);
      [apply list_elem_of_here|reflexivity|reflexivity|].
    exists counts, c', r. split; [exact E|]. split; [exact E2|]. split; [exact Ep|by apply Ez].
Defined.

(** The handler builds a [PartitionInfo] dict "for validation" but never
    validates it: a partition numbered "x" is stored, and from then on the disks
    of the node cannot be listed. *)
Example unvalidated_partition_breaks_listing :
  let r := receive_disk_report (fun _ => "") 7 (fun _ => "d") "n" [demo_report (JStr "x")] demo in
  is_ok r.1 = true /\ (list_node_disks (P := strict_pydantic) (fun _ => "") "n" r.2).1 = Err ValidationError.
Proof. vm_compute. by split. Qed.

(** The same new device twice in a report is two rows, and the unique
    constraint fails the request. *)
Example repeated_device_fails :
  (receive_disk_report (fun _ => "") 7 (fun i => match i with O => "d" | _ => "e" end) "n"
     [demo_report (JNum 1); demo_report (JNum 1)] demo).1 = Err IntegrityError.
Proof. reflexivity. Qed.
