(* ===== verification/Clone.v ===== *)
(** * Clone sessions and the resize plan

    [api/routes/clone.py]: the life of a clone session from its creation to its
    end, the plan that fits the source's partitions on the target, and the
    staging of an image.  The certificate authority ([core/ca.py]) is a
    parameter, and so are the float arithmetic of a percentage and the text of
    a configured value that is no string.  Arguments [now] and [id] are the
    clock and the fresh uuid. *)
From S2P Require Import Prelude PyStr SqlTable NodeLifecycle Controller Disks.
From stdpp Require Import base tactics list gmap strings pretty.
From Stdlib Require Import ZArith Lia.
Open Scope string_scope.
Open Scope Z_scope.
#[local] Arguments String.append !_ _ : simpl nomatch.

(** ** [api/schemas.py] *)

Record CloneSessionCreate := {
  cc_name : option string;
  cc_source_node_id : string;
  cc_target_node_id : option string;
  cc_source_device : string;
  cc_target_device : string;
  cc_clone_mode : string;
  cc_staging_backend_id : option string;
  cc_resize_mode : string
}.

Record CloneSessionUpdate := {
  cu_name : option string;
  cu_target_node_id : option string;
  cu_target_device : option string;
  cu_resize_mode : option string
}.

Record CloneSourceReady := { sr_ip : string; sr_port : Z; sr_size_bytes : Z; sr_device : string }.

Record CloneProgressUpdate := {
  pu_role : string;
  pu_bytes_transferred : Z;
  pu_transfer_rate_bps : option Z;
  pu_status : option string
}.

Record PartitionPlanItem := {
  partition : Z;
  current_size_bytes : Z;
  new_size_bytes : Z;
  filesystem : option string;
  action : string;
  min_size_bytes : option Z;
  can_resize : bool
}.

Record ResizePlan := {
  source_disk_bytes : Z;
  target_disk_bytes : Z;
  resize_mode : string;
  partitions : list PartitionPlanItem;
  feasible : bool;
  error_message : option string
}.

Definition clone_modes : list string := ["staged"; "direct"].
Definition resize_modes : list string := ["none"; "shrink_source"; "grow_target"].
Definition plan_actions : list string := ["keep"; "shrink"; "grow"; "delete"].

(** The [Literal] fields and the model validator. *)
Definition create_valid (r : CloneSessionCreate) : bool :=
  existsb (String.eqb (cc_clone_mode r)) clone_modes && existsb (String.eqb (cc_resize_mode r)) resize_modes
  && negb (String.eqb (cc_clone_mode r) "staged" && negb (is_set (cc_staging_backend_id r)))
  && negb (String.eqb (cc_clone_mode r) "direct" && negb (is_set (cc_target_node_id r))).

Definition update_valid (r : CloneSessionUpdate) : bool :=
  match cu_resize_mode r with Some m => existsb (String.eqb m) resize_modes | None => true end.

(** ** The resize plan *)

Section Plan.
Context {P : Pydantic}.

(** One entry of the source's partition data as a plan item. *)
Definition plan_item (p : json) : result server_error PartitionPlanItem :=
  match p with
  | JObj kvs =>
      let get k dflt := default dflt (assoc_get k kvs) in
      match
        number ← to_int (get "number" (JNum 0));
        size ← to_int (get "size_bytes" (JNum 0));
        fs ← optional to_str (get "filesystem" JNull);
        min ← optional to_int (get "min_size_bytes" JNull);
        can ← to_bool (get "can_shrink" (JBool false));
        Some {| partition := number; current_size_bytes := size; new_size_bytes := size; filesystem := fs;
                action := "keep"; min_size_bytes := min; can_resize := can |}
      with
      | Some i => Ok i
      | None => Err ValidationError
      end
  | _ => Err AttributeError
  end.

Definition source_partitions (source_disk : DiskInfo) : result server_error (list PartitionPlanItem) :=
  match di_partitions_json source_disk with
  | None => Ok []
  | Some j => match iterate j with None => Ok [] | Some l => map_result plan_item l end
  end.

Definition growable_filesystems : list string := ["ext4"; "xfs"; "btrfs"; "ntfs"].

Definition growable (p : PartitionPlanItem) : bool :=
  can_resize p && match filesystem p with
                  | Some f => existsb (String.eqb f) growable_filesystems
                  | None => false
                  end.

(** The first growable item of the reversed list gets the space. *)
Fixpoint grow_first (extra_space : Z) (l : list PartitionPlanItem) : list PartitionPlanItem :=
  match l with
  | [] => []
  | p :: l =>
      if growable p then p <| new_size_bytes := current_size_bytes p + extra_space |> <| action := "grow" |> :: l
      else p :: grow_first extra_space l
  end.

(** How much an item can give, if it can be shrunk at all. *)
Definition shrink_potential (p : PartitionPlanItem) : option Z :=
  match min_size_bytes p with
  | Some m => if can_resize p && (0 <? current_size_bytes p - m) then Some (current_size_bytes p - m) else None
  | None => None
  end.

Fixpoint total_shrinkable (l : list PartitionPlanItem) : Z :=
  match l with [] => 0 | p :: l => default 0 (shrink_potential p) + total_shrinkable l end.

Fixpoint shrink_from (remaining_to_shrink : Z) (l : list PartitionPlanItem) : list PartitionPlanItem :=
  match l with
  | [] => []
  | p :: l =>
      if remaining_to_shrink <=? 0 then p :: l
      else
        match shrink_potential p with
        | Some potential =>
            let shrink_amount := Z.min potential remaining_to_shrink in
            p <| new_size_bytes := current_size_bytes p - shrink_amount |> <| action := "shrink" |>
            :: shrink_from (remaining_to_shrink - shrink_amount) l
        | None => p :: shrink_from remaining_to_shrink l
        end
  end.

Definition infeasible_message (size_to_reduce shrinkable : Z) : string :=
  "Cannot shrink partitions enough. Need to reduce " ++ pretty size_to_reduce ++ " bytes but only "
  ++ pretty shrinkable ++ " bytes available for shrinking.".

Definition _generate_resize_plan (source_disk : DiskInfo) (target_disk : option DiskInfo) (mode : string) :
    result server_error ResizePlan :=
  let source_size := di_size_bytes source_disk in
  let target_size := match target_disk with Some t => di_size_bytes t | None => source_size end in
  parts ← source_partitions source_disk;
  if source_size <=? target_size then
    Ok {| source_disk_bytes := source_size; target_disk_bytes := target_size; resize_mode := mode;
          partitions := if String.eqb mode "grow_target" && (source_size <? target_size)
                        then rev (grow_first (target_size - source_size) (rev parts)) else parts;
          feasible := true; error_message := None |}
  else
    let size_to_reduce := source_size - target_size in
    let shrinkable := total_shrinkable parts in
    if shrinkable <? size_to_reduce then
      Ok {| source_disk_bytes := source_size; target_disk_bytes := target_size; resize_mode := "shrink_source";
            partitions := parts; feasible := false;
            error_message := Some (infeasible_message size_to_reduce shrinkable) |}
    else
      Ok {| source_disk_bytes := source_size; target_disk_bytes := target_size; resize_mode := "shrink_source";
            partitions := rev (shrink_from size_to_reduce (rev parts)); feasible := true; error_message := None |}.

(** [plan.model_dump_json()] and [ResizePlan( **json.loads(text))]. *)
Definition item_json (p : PartitionPlanItem) : json :=
  JObj [("partition", JNum (partition p)); ("current_size_bytes", JNum (current_size_bytes p));
        ("new_size_bytes", JNum (new_size_bytes p)); ("filesystem", jopt (filesystem p));
        ("action", JStr (action p)); ("min_size_bytes", jnum (min_size_bytes p)); ("can_resize", JBool (can_resize p))].

Definition plan_json (p : ResizePlan) : json :=
  JObj [("source_disk_bytes", JNum (source_disk_bytes p)); ("target_disk_bytes", JNum (target_disk_bytes p));
        ("resize_mode", JStr (resize_mode p)); ("partitions", JArr (map item_json (partitions p)));
        ("feasible", JBool (feasible p)); ("error_message", jopt (error_message p))].

Definition literal (values : list string) (j : json) : option string :=
  match j with JStr s => if existsb (String.eqb s) values then Some s else None | _ => None end.

Definition item_of (j : json) : option PartitionPlanItem :=
  match j with
  | JObj kvs =>
      number ← required to_int "partition" kvs;
      current ← required to_int "current_size_bytes" kvs;
      new ← required to_int "new_size_bytes" kvs;
      fs ← with_default (optional to_str) None "filesystem" kvs;
      act ← with_default (literal plan_actions) "keep" "action" kvs;
      min ← with_default (optional to_int) None "min_size_bytes" kvs;
      can ← with_default to_bool true "can_resize" kvs;
      Some {| partition := number; current_size_bytes := current; new_size_bytes := new; filesystem := fs;
              action := act; min_size_bytes := min; can_resize := can |}
  | _ => None
  end.

Definition items_of (j : json) : option (list PartitionPlanItem) :=
  match j with JArr l => mapM item_of l | _ => None end.

Definition plan_of (j : json) : option ResizePlan :=
  match j with
  | JObj kvs =>
      source ← required to_int "source_disk_bytes" kvs;
      target ← required to_int "target_disk_bytes" kvs;
      mode ← required (literal resize_modes) "resize_mode" kvs;
      parts ← required items_of "partitions" kvs;
      ok ← with_default to_bool true "feasible" kvs;
      err ← with_default (optional to_str) None "error_message" kvs;
      Some {| source_disk_bytes := source; target_disk_bytes := target; resize_mode := mode; partitions := parts;
              feasible := ok; error_message := err |}
  | _ => None
  end.
End Plan.

(** ** The plan fits *)

Fixpoint sum_of (f : PartitionPlanItem -> Z) (l : list PartitionPlanItem) : Z :=
  match l with [] => 0 | p :: l => f p + sum_of f l end.

(** What a plan may make of a partition. *)
Inductive resized (p : PartitionPlanItem) : PartitionPlanItem -> Prop :=
| kept : new_size_bytes p = current_size_bytes p -> resized p p
| shrunk m n : can_resize p = true -> min_size_bytes p = Some m -> m <= n < current_size_bytes p ->
    resized p (p <| new_size_bytes := n |> <| action := "shrink" |>)
| grown n : growable p = true -> current_size_bytes p < n ->
    resized p (p <| new_size_bytes := n |> <| action := "grow" |>).

Definition unchanged (p : PartitionPlanItem) : Prop := new_size_bytes p = current_size_bytes p.

Lemma sum_of_app f l1 l2 : sum_of f (l1 ++ l2)%list = sum_of f l1 + sum_of f l2.
Proof. induction l1 as [|p l1 IH]; cbn; [done|]. rewrite IH. lia. Qed.

Lemma sum_of_rev f l : sum_of f (rev l) = sum_of f l.
Proof. induction l as [|p l IH]; cbn; [done|]. rewrite sum_of_app, IH. cbn. lia. Qed.

Lemma shrink_potential_pos p z : shrink_potential p = Some z ->
  0 < z /\ can_resize p = true /\ min_size_bytes p = Some (current_size_bytes p - z).
Proof.
  unfold shrink_potential. destruct (min_size_bytes p) as [m|]; [|done].
  destruct (can_resize p); [|done]. cbn -[Z.ltb]. destruct (Z.ltb_spec 0 (current_size_bytes p - m)); [|done].
  intros [= <-]. split; [done|]. split; [done|]. f_equal. lia.
Qed.

Lemma total_shrinkable_sum l : total_shrinkable l = sum_of (fun p => default 0 (shrink_potential p)) l.
Proof. induction l; cbn; congruence. Qed.

Lemma total_shrinkable_nonneg l : 0 <= total_shrinkable l.
Proof.
  induction l as [|p l IH]; cbn; [done|]. destruct (shrink_potential p) as [z|] eqn:E; cbn; [|done].
  apply shrink_potential_pos in E. lia.
Qed.

Lemma unchanged_sum l : Forall unchanged l -> sum_of new_size_bytes l = sum_of current_size_bytes l.
Proof. induction 1 as [|p l Hp _ IH]; cbn; [done|]. rewrite Hp, IH. done. Qed.

Lemma unchanged_resized l : Forall unchanged l -> Forall2 resized l l.
Proof. induction 1; constructor; [by constructor|done]. Qed.

Lemma shrink_from_spec r l :
  Forall unchanged l -> 0 <= r <= total_shrinkable l ->
  Forall2 resized l (shrink_from r l) /\ sum_of new_size_bytes (shrink_from r l) = sum_of current_size_bytes l - r.
Proof.
  intros Hl. revert r. induction Hl as [|p l Hp Hl IH]; intros r Hr.
  { cbn in *. split; [constructor|lia]. }
  cbn [shrink_from total_shrinkable] in *.
  destruct (Z.leb_spec r 0).
  { split; [by apply unchanged_resized; constructor|]. cbn. rewrite (unchanged_sum l Hl), Hp. lia. }
  destruct (shrink_potential p) as [z|] eqn:E; cbn in Hr |- *.
  - pose proof (total_shrinkable_nonneg l).
    apply shrink_potential_pos in E as (Hz & Hc & Hm). destruct (IH (r - Z.min z r)) as [H1 H2]; [lia|].
    split; [|rewrite H2; lia]. constructor; [|done]. apply (shrunk p _ (current_size_bytes p - Z.min z r) Hc Hm). lia.
  - destruct (IH r) as [H1 H2]; [lia|]. split; [constructor; [by constructor|done]|]. rewrite H2, Hp. lia.
Qed.

Lemma grow_first_spec x l :
  Forall unchanged l -> 0 < x ->
  Forall2 resized l (grow_first x l) /\ sum_of new_size_bytes (grow_first x l) <= sum_of current_size_bytes l + x.
Proof.
  intros Hl Hx. induction Hl as [|p l Hp Hl IH]; cbn; [split; [constructor|lia]|].
  destruct (growable p) eqn:E; cbn.
  - split; [|rewrite (unchanged_sum l Hl); lia]. constructor; [|by apply unchanged_resized].
    apply (grown p (current_size_bytes p + x) E). lia.
  - destruct IH as [H1 H2]. split; [constructor; [by constructor|done]|]. rewrite Hp. lia.
Qed.

Lemma resized_rev l k : Forall2 resized (rev l) k -> Forall2 resized l (rev k).
Proof.
  intros H. rewrite <- (rev_involutive l), rev_alt, (rev_alt k). by apply Forall2_reverse.
Qed.

Section PlanProofs.
Context {P : Pydantic}.

Lemma plan_item_unchanged j p : plan_item j = Ok p -> unchanged p.
Proof.
  destruct j as [| | | | |kvs]; try done. unfold plan_item.
  destruct (to_int (default (JNum 0) (assoc_get "number" kvs))); [|done].
  destruct (to_int (default (JNum 0) (assoc_get "size_bytes" kvs))); [|done].
  destruct (optional to_str _); [|done]. destruct (optional to_int _); [|done]. destruct (to_bool _); [|done].
  by intros [= <-].
Qed.

Lemma map_result_Forall {A B} (f : A -> result server_error B) (Q : B -> Prop) l l' :
  (forall x y, f x = Ok y -> Q y) -> map_result f l = Ok l' -> Forall Q l'.
Proof.
  intros Hf. revert l'. induction l as [|x l IH]; intros l'; cbn; [by intros [= <-]|].
  destruct (f x) as [y|] eqn:E; [|done]. cbn. destruct (map_result f l) as [ys|]; [|done]. cbn.
  intros [= <-]. constructor; [by apply (Hf x)|by apply IH].
Qed.

Lemma source_partitions_unchanged d l : source_partitions d = Ok l -> Forall unchanged l.
Proof.
  unfold source_partitions. destruct (di_partitions_json d) as [j|]; [|by intros [= <-]].
  destruct (iterate j); [|by intros [= <-]]. apply map_result_Forall. apply plan_item_unchanged.
Qed.

(** C24: a resize plan is feasible exactly if the partitions can give up what
    the target lacks.  A feasible plan keeps every partition, shrinks one not
    below its minimum and grows one only where the file system can grow, and
    partitions that fit on the source fit on the target; when the target is
    smaller, exactly the difference is given up. *)
Theorem resize_plan_fits source target mode parts plan :
  source_partitions source = Ok parts -> _generate_resize_plan source target mode = Ok plan ->
  let lacking := source_disk_bytes plan - target_disk_bytes plan in
  (feasible plan = true <-> lacking <= total_shrinkable parts)
  /\ (feasible plan = true ->
        Forall2 resized parts (partitions plan)
        /\ (0 < lacking -> sum_of new_size_bytes (partitions plan) = sum_of current_size_bytes parts - lacking)
        /\ (sum_of current_size_bytes parts <= source_disk_bytes plan ->
              sum_of new_size_bytes (partitions plan) <= target_disk_bytes plan)).
Proof.
  intros Hp. pose proof (source_partitions_unchanged _ _ Hp) as Hu. unfold _generate_resize_plan. rewrite Hp. cbn [mbind result_bind].
  set (s := di_size_bytes source). set (t := match target with Some t => di_size_bytes t | None => s end).
  pose proof (total_shrinkable_nonneg parts) as Ht. apply Forall_rev in Hu as Hr.
  destruct (Z.leb_spec s t).
  - intros [= <-]. cbn. split; [split; [lia|done]|]. intros _.
    destruct (String.eqb mode "grow_target"); cbn -[Z.ltb]; [destruct (Z.ltb_spec s t)|].
    + destruct (grow_first_spec (t - s) (rev parts) Hr) as [H1 H2]; [lia|].
      rewrite sum_of_rev in H2 |- *. split; [by apply resized_rev|]. lia.
    + rewrite (unchanged_sum _ Hu). split; [by apply unchanged_resized|]. lia.
    + rewrite (unchanged_sum _ Hu). split; [by apply unchanged_resized|]. lia.
  - destruct (Z.ltb_spec (total_shrinkable parts) (s - t)); intros [= <-]; cbn; [split; [split; [done|lia]|done]|].
    split; [split; [lia|done]|]. intros _.
    assert (Hs : forall l, total_shrinkable (rev l) = total_shrinkable l) by (intros l; rewrite !total_shrinkable_sum; apply sum_of_rev).
    destruct (shrink_from_spec (s - t) (rev parts) Hr) as [H1 H2]; [rewrite Hs; lia|].
    rewrite sum_of_rev in H2 |- *. split; [by apply resized_rev|]. lia.
Qed.

Lemma item_of_json {L : PydanticLaws P} i :
  existsb (String.eqb (action i)) plan_actions = true -> item_of (item_json i) = Some i.
Proof.
  intros Ha. unfold item_of, item_json, required, with_default, literal. cbn -[plan_actions].
  autorewrite with controller. rewrite Ha. by destruct i.
Qed.

Lemma plan_of_json {L : PydanticLaws P} p :
  existsb (String.eqb (resize_mode p)) resize_modes
  && forallb (fun i => existsb (String.eqb (action i)) plan_actions) (partitions p) = true ->
  plan_of (plan_json p) = Some p.
Proof.
  intros [Hm Ha]%andb_true_iff.
  assert (E : items_of (JArr (map item_json (partitions p))) = Some (partitions p)).
  { cbn. induction (partitions p) as [|i l IH]; [done|]. cbn [forallb] in Ha. apply andb_true_iff in Ha as [Hi Hl].
    cbn -[item_of item_json]. rewrite (item_of_json i Hi). cbn -[item_of item_json]. by rewrite (IH Hl). }
  unfold plan_of, plan_json, required, with_default, literal. cbn -[resize_modes items_of].
  autorewrite with controller. rewrite Hm. cbn -[items_of]. rewrite E. cbn. by destruct p.
Qed.
End PlanProofs.

(** ** Sessions *)

Section Sessions.
Context {P : Pydantic}.
Variable partition_human : Z -> string.
Variable disk_human : Z -> string.
Variable percent : Z -> Z -> Z.                (* 100 * a / b in floats, in tenths *)
Variable py_text : json -> string.             (* an f-string of a value that is no string *)
Variable ca_initialized : bool.
(** The subject's name holds the session's id, which is [None] before a flush. *)
Variable issue_session_cert : option string -> string -> string * string.
Variable ca_cert_pem : string.
Variable reads_aware : bool.                   (* the driver returns aware datetimes *)

Definition find_session (id : string) : ControllerM (option CloneSession) :=
  d ← get_db; mret (sql_find cs_id id (clone_sessions d)).

Definition need_session (id : string) : ControllerM CloneSession :=
  r ← find_session id;
  match r with
  | Some s => mret s
  | None => raise (HTTPException 404 "Clone session not found")
  end.

Definition update_session (id : string) (f : CloneSession -> CloneSession) : ControllerM unit :=
  set_db (fun d => d <| clone_sessions ::= fun t => (sql_update (has_key cs_id id) f t).1 |>).

(** The relationships of a loaded session. *)
Definition related_node (d : Database) (id : option string) : option NodeRow :=
  match id with Some i => sql_find node_id i (nodes d) | None => None end.
Definition related_backend (d : Database) (id : option string) : option StorageBackend :=
  match id with Some i => sql_find sb_id i (storage_backends d) | None => None end.

(** [bytes_total and bytes_total > 0] *)
Definition progress_percent (s : CloneSession) : Z :=
  match cs_bytes_total s with
  | Some total => if 0 <? total then percent (cs_bytes_transferred s) total else 0
  | None => 0
  end.

(** [CloneSessionResponse.from_session] *)
Definition from_session (d : Database) (s : CloneSession) : json :=
  JObj [("id", JStr (cs_id s)); ("name", jopt (cs_name s)); ("status", JStr (cs_status s));
        ("clone_mode", JStr (cs_clone_mode s)); ("source_node_id", JStr (cs_source_node_id s));
        ("source_node_name", jopt (related_node d (Some (cs_source_node_id s)) ≫= hostname));
        ("target_node_id", jopt (cs_target_node_id s));
        ("target_node_name", jopt (related_node d (cs_target_node_id s) ≫= hostname));
        ("source_device", JStr (cs_source_device s)); ("target_device", JStr (cs_target_device s));
        ("source_ip", jopt (cs_source_ip s)); ("source_port", JNum (cs_source_port s));
        ("staging_backend_id", jopt (cs_staging_backend_id s));
        ("staging_backend_name", jopt (sb_name <$> related_backend d (cs_staging_backend_id s)));
        ("staging_status", jopt (cs_staging_status s)); ("resize_mode", JStr (cs_resize_mode s));
        ("bytes_total", jnum (cs_bytes_total s)); ("bytes_transferred", JNum (cs_bytes_transferred s));
        ("transfer_rate_bps", jnum (cs_transfer_rate_bps s)); ("progress_percent", JNum (progress_percent s));
        ("error_message", jopt (cs_error_message s)); ("created_at", JNum (cs_created_at s));
        ("started_at", jnum (cs_started_at s)); ("completed_at", jnum (cs_completed_at s))].

Definition session_response (id : string) : ControllerM json :=
  s ← need_session id; d ← get_db; mret (from_session d s).

(** [if x: ... scalar_one_or_none() ... 404] *)
Definition check_node (id : option string) (detail : string) : ControllerM unit :=
  match id with
  | Some i =>
      r ← find_node i;
      match r with Some _ => mret tt | None => raise (HTTPException 404 detail) end
  | None => mret tt
  end.

Definition truthy_id (x : option string) : option string :=
  match x with Some s => if String.eqb s "" then None else Some s | None => None end.

Definition create_clone_session (now : Z) (id : string) (r : CloneSessionCreate) : ControllerM json :=
  if negb (create_valid r) then raise (HTTPException 422 "validation error") else
  check_node (Some (cc_source_node_id r)) "Source node not found";;
  check_node (truthy_id (cc_target_node_id r)) "Target node not found";;
  d ← get_db;
  (if String.eqb (cc_clone_mode r) "staged" && is_set (cc_staging_backend_id r)
      && negb (bool_decide (is_Some (related_backend d (cc_staging_backend_id r))))
   then raise (HTTPException 404 "Storage backend not found") else mret tt);;
  let certs := String.eqb (cc_clone_mode r) "direct" && ca_initialized in
  let source := issue_session_cert None "source" in
  let target := issue_session_cert None "target" in
  let pem {A} (x : A) : option A := if certs then Some x else None in
  match sql_insert cs_id
    {| cs_id := id; cs_name := cc_name r; cs_status := "pending"; cs_clone_mode := cc_clone_mode r;
       cs_source_node_id := cc_source_node_id r; cs_target_node_id := cc_target_node_id r;
       cs_source_device := cc_source_device r; cs_target_device := cc_target_device r; cs_source_ip := None;
       cs_source_port := 9999; cs_source_cert_pem := pem source.1; cs_source_key_pem := pem source.2;
       cs_target_cert_pem := pem target.1; cs_target_key_pem := pem target.2;
       cs_staging_backend_id := cc_staging_backend_id r; cs_staging_size_bytes := None; cs_staging_status := None;
       cs_resize_mode := cc_resize_mode r; cs_partition_plan_json := None; cs_bytes_total := None;
       cs_bytes_transferred := 0; cs_transfer_rate_bps := None; cs_error_message := None; cs_created_at := now;
       cs_started_at := None; cs_completed_at := None |} (clone_sessions d) with
  | None => raise IntegrityError
  | Some t => set_db (fun d => d <| clone_sessions := t |>);; session_response id
  end.

Definition list_clone_sessions (status : option string) (limit offset : nat) : ControllerM (list json * nat) :=
  d ← get_db;
  let rows := match truthy_id status with
              | Some st => sql_select (fun s => String.eqb (cs_status s) st) (clone_sessions d)
              | None => clone_sessions d
              end in
  mret (map (from_session d) (take limit (drop offset (order_by_desc cs_created_at rows))), length rows).

Definition get_clone_session (session_id : string) : ControllerM json := session_response session_id.

Definition update_clone_session (session_id : string) (r : CloneSessionUpdate) : ControllerM json :=
  if negb (update_valid r) then raise (HTTPException 422 "validation error") else
  session ← need_session session_id;
  if negb (String.eqb (cs_status session) "pending")
  then raise (HTTPException 400 ("Cannot update session in " ++ cs_status session ++ " status"))
  else
    check_node (cu_target_node_id r) "Target node not found";;
    update_session session_id (fun s =>
      s <| cs_name ::= fun x => match cu_name r with Some n => Some n | None => x end |>
        <| cs_target_node_id ::= fun x => match cu_target_node_id r with Some t => Some t | None => x end |>
        <| cs_target_device ::= fun x => default x (cu_target_device r) |>
        <| cs_resize_mode ::= fun x => default x (cu_resize_mode r) |>);;
    session_response session_id.

Definition delete_clone_session (now : Z) (session_id : string) : ControllerM unit :=
  session ← need_session session_id;
  if String.eqb (cs_status session) "cloning" then
    update_session session_id (fun s => s <| cs_status := "cancelled" |> <| cs_completed_at := Some now |>);;
    broadcast "clone.cancelled" (JObj [("session_id", JStr session_id)])
  else
    set_db (fun d => d <| clone_sessions ::= fun t => (sql_delete (has_key cs_id session_id) t).1 |>).

Definition get_clone_certs (session_id role : string) : ControllerM (string * string * string) :=
  if negb (existsb (String.eqb role) ["source"; "target"])
  then raise (HTTPException 400 "Role must be 'source' or 'target'") else
  session ← need_session session_id;
  if negb (String.eqb (cs_clone_mode session) "direct")
  then raise (HTTPException 400 "Certificates only available for direct mode sessions") else
  if negb ca_initialized then raise (HTTPException 503 "CA service not initialized") else
  let '(cert_pem, key_pem) :=
    if String.eqb role "source" then (cs_source_cert_pem session, cs_source_key_pem session)
    else (cs_target_cert_pem session, cs_target_key_pem session) in
  match truthy_id cert_pem, truthy_id key_pem with
  | Some c, Some k => mret (c, k, ca_cert_pem)
  | _, _ => raise (HTTPException 400 ("Certificates not yet generated for " ++ role ++ ". Start the session first."))
  end.

(** The assignments that make a node boot into a clone environment. *)
Definition clone_boot_states : list string := ["discovered"; "active"; "installed"].

Definition trigger_clone_boot (now : Z) (workflow : string) (n : NodeRow) : NodeRow :=
  let n := n <| workflow_id := Some workflow |> in
  if existsb (String.eqb (node_state n)) clone_boot_states
  then n <| core ::= with_state now "pending" |> else n.

Definition clone_source_ready (now : Z) (session_id : string) (r : CloneSourceReady) : ControllerM bool :=
  session ← need_session session_id;
  d ← get_db;
  update_session session_id (fun s =>
    s <| cs_status := "source_ready" |> <| cs_source_ip := Some (sr_ip r) |> <| cs_source_port := sr_port r |>
      <| cs_bytes_total := Some (sr_size_bytes r) |>
      <| cs_started_at ::= fun t => match t with Some _ => t | None => Some now end |>);;
  let triggers := String.eqb (cs_clone_mode session) "direct" && is_set (cs_target_node_id session) in
  target_boot_triggered ←
    match related_node d (cs_target_node_id session) with
    | Some target_node =>
        if triggers then
          update_node (node_id target_node) (trigger_clone_boot now
            ("clone-target:" ++ cs_id session ++ ":" ++ cs_target_device session ++ ":" ++ sr_ip r ++ ":"
             ++ pretty (sr_port r)));;
          mret true
        else mret false
    | None => mret false
    end;
  broadcast "clone.source_ready"
    (JObj [("session_id", JStr session_id); ("source_ip", JStr (sr_ip r)); ("source_port", JNum (sr_port r));
           ("size_bytes", JNum (sr_size_bytes r)); ("target_boot_triggered", JBool target_boot_triggered)]);;
  mret target_boot_triggered.

Definition progress_valid (r : CloneProgressUpdate) : bool :=
  existsb (String.eqb (pu_role r)) ["source"; "target"] && (0 <=? pu_bytes_transferred r)
  && match pu_transfer_rate_bps r with Some z => 0 <=? z | None => true end
  && match pu_status r with Some s => existsb (String.eqb s) ["transferring"; "verifying"; "resizing"] | None => true end.

Definition clone_progress (session_id : string) (r : CloneProgressUpdate) : ControllerM Z :=
  if negb (progress_valid r) then raise (HTTPException 422 "validation error") else
  session ← need_session session_id;
  let f s := s <| cs_bytes_transferred := pu_bytes_transferred r |>
               <| cs_transfer_rate_bps ::= fun x => match pu_transfer_rate_bps r with Some z => Some z | None => x end |>
               <| cs_status ::= fun st => if String.eqb st "source_ready" then "cloning" else st |> in
  update_session session_id f;;
  let after := f session in
  broadcast "clone.progress"
    (JObj [("session_id", JStr session_id); ("bytes_transferred", JNum (cs_bytes_transferred after));
           ("bytes_total", jnum (cs_bytes_total after)); ("progress_percent", JNum (progress_percent after));
           ("transfer_rate_bps", jnum (cs_transfer_rate_bps after)); ("status", jopt (pu_status r))]);;
  mret (progress_percent after).

Definition clone_complete (now : Z) (session_id : string) : ControllerM Z :=
  session ← need_session session_id;
  update_session session_id (fun s =>
    s <| cs_status := "completed" |> <| cs_completed_at := Some now |>
      <| cs_bytes_transferred ::= fun x => if nonzero (cs_bytes_total s) then default x (cs_bytes_total s) else x |>);;
  duration_seconds ←
    match cs_started_at session with
    | Some t => duration ← elapsed_since reads_aware now t; mret (Z.quot duration 1000000)
    | None => mret 0
    end;
  broadcast "clone.completed" (JObj [("session_id", JStr session_id); ("duration_seconds", JNum duration_seconds)]);;
  mret duration_seconds.

Definition clone_failed (now : Z) (session_id error : string) (error_code : option string) : ControllerM unit :=
  need_session session_id;;
  update_session session_id (fun s =>
    s <| cs_status := "failed" |> <| cs_error_message := Some error |> <| cs_completed_at := Some now |>);;
  broadcast "clone.failed"
    (JObj [("session_id", JStr session_id); ("error", JStr error); ("error_code", jopt error_code)]).

Definition start_clone_session (now : Z) (session_id : string) : ControllerM string :=
  session ← need_session session_id;
  d ← get_db;
  if negb (String.eqb (cs_status session) "pending")
  then raise (HTTPException 400 ("Cannot start session in '" ++ cs_status session ++ "' status. Must be 'pending'."))
  else
    let source := issue_session_cert (Some (cs_id session)) "source" in
    let target := issue_session_cert (Some (cs_id session)) "target" in
    update_session session_id (fun s =>
      let s := if ca_initialized
               then s <| cs_source_cert_pem := Some source.1 |> <| cs_source_key_pem := Some source.2 |> else s in
      let s := if ca_initialized && is_set (cs_target_node_id s)
               then s <| cs_target_cert_pem := Some target.1 |> <| cs_target_key_pem := Some target.2 |> else s in
      s <| cs_started_at := Some now |>);;
    let source_node := related_node d (Some (cs_source_node_id session)) in
    match source_node with
    | Some n => update_node (node_id n) (trigger_clone_boot now
                  ("clone-source:" ++ cs_id session ++ ":" ++ cs_source_device session))
    | None => mret tt
    end;;
    broadcast "clone.started"
      (JObj [("session_id", JStr session_id); ("source_node_id", JStr (cs_source_node_id session));
             ("target_node_id", jopt (cs_target_node_id session)); ("clone_mode", JStr (cs_clone_mode session));
             ("source_device", JStr (cs_source_device session))]);;
    mret match source_node with
         | Some n => if String.eqb (boot_mode n) "" then "bios" else boot_mode n
         | None => "bios"
         end.

(** *** Analysis and plan *)

Record CloneAnalysis := {
  source_disk : DiskInfoResponse;
  target_disk : option DiskInfoResponse;
  size_difference_bytes : Z;
  resize_needed : bool;
  suggested_plan : ResizePlan
}.

Definition analyze_clone_session (session_id : string) : ControllerM CloneAnalysis :=
  session ← need_session session_id;
  d ← get_db;
  source ← scalar_one_or_none (sql_select (on_disk (cs_source_node_id session) (cs_source_device session)) (disk_info d));
  match source with
  | None => raise (HTTPException 404 ("No disk info found for source node device " ++ cs_source_device session
                                      ++ ". Run disk scan on source node first."))
  | Some source =>
      target ← match truthy_id (cs_target_node_id session) with
               | Some t => scalar_one_or_none (sql_select (on_disk t (cs_target_device session)) (disk_info d))
               | None => mret None
               end;
      let target_size := match target with Some t => di_size_bytes t | None => di_size_bytes source end in
      plan ← lift (_generate_resize_plan source target (cs_resize_mode session));
      source_dict ← lift (from_disk_info disk_human source);
      target_dict ← match target with
                    | Some t => r ← lift (from_disk_info disk_human t); mret (Some r)
                    | None => mret None
                    end;
      mret {| source_disk := source_dict; target_disk := target_dict;
              size_difference_bytes := di_size_bytes source - target_size;
              resize_needed := 0 <? di_size_bytes source - target_size; suggested_plan := plan |}
  end.

Definition get_resize_plan (session_id : string) : ControllerM (option ResizePlan) :=
  session ← need_session session_id;
  match cs_partition_plan_json session with
  | None => mret None
  | Some j =>
      match plan_of j with
      | Some plan => mret (Some plan)
      | None => raise (HTTPException 500 "Error parsing stored resize plan")
      end
  end.

Definition plan_valid (p : ResizePlan) : bool :=
  existsb (String.eqb (resize_mode p)) resize_modes
  && forallb (fun i => existsb (String.eqb (action i)) plan_actions) (partitions p).

Definition update_resize_plan (session_id : string) (plan : ResizePlan) : ControllerM ResizePlan :=
  if negb (plan_valid plan) then raise (HTTPException 422 "validation error") else
  session ← need_session session_id;
  if negb (existsb (String.eqb (cs_status session)) ["pending"; "source_ready"])
  then raise (HTTPException 400 ("Cannot update plan for session in '" ++ cs_status session ++ "' status"))
  else if negb (feasible plan)
  then raise (HTTPException 400 ("Cannot save infeasible plan: " ++ default "None" (error_message plan)))
  else
    update_session session_id (fun s => s <| cs_partition_plan_json := Some (plan_json plan) |>
                                          <| cs_resize_mode := resize_mode plan |>);;
    mret plan.

Definition get_resize_plan_alias (session_id : string) : ControllerM (option ResizePlan) := get_resize_plan session_id.

(** *** Staging *)

(** [config.get(k, dflt)]; a configuration that is no object has no [get]. *)
Definition config_get (config : json) (k : string) (dflt : json) : ControllerM json :=
  match jget k dflt config with Some j => mret j | None => raise AttributeError end.

Definition format_value (j : json) : string := match j with JStr s => s | _ => py_text j end.

Definition get_staging_info (session_id : string) : ControllerM json :=
  session ← need_session session_id;
  d ← get_db;
  if negb (is_set (cs_staging_backend_id session))
  then raise (HTTPException 400 "No storage backend configured for this session")
  else
    match related_backend d (cs_staging_backend_id session) with
    | None => raise (HTTPException 404 "Storage backend not found")
    | Some backend =>
        let config := sb_config_json backend in
        if String.eqb (sb_type backend) "nfs" then
          server ← config_get config "server" JNull;
          export ← config_get config "export" JNull;
          export_path ← config_get config "export_path" export;
          options ← config_get config "mount_options" (JStr "rw,sync,noatime");
          mret (JObj [("type", JStr "nfs"); ("server", server); ("export", export_path);
                      ("path", JStr ("clone-" ++ cs_id session)); ("options", options);
                      ("image_filename", JStr "disk.raw.gz")])
        else if String.eqb (sb_type backend) "iscsi" then
          target ← config_get config "target" JNull;
          portal ← config_get config "portal" JNull;
          host ← config_get config "host" portal;
          port ← config_get config "port" (JNum 3260);
          chap ← config_get config "chap_enabled" JNull;
          username ← config_get config "username" JNull;
          password ← config_get config "password" JNull;
          mret (JObj [("type", JStr "iscsi"); ("target", target);
                      ("portal", JStr (format_value host ++ ":" ++ format_value port));
                      ("username", if truthy chap then username else JNull);
                      ("password", if truthy chap then password else JNull); ("lun", JNum 0)])
        else raise (HTTPException 400 ("Unsupported storage backend type for staging: " ++ sb_type backend))
    end.

Definition staging_statuses : list string := ["cleanup"; "deleted"; "downloading"; "ready"; "uploading"].

Definition update_staging_status (session_id status : string) (size_bytes : option Z) : ControllerM unit :=
  session ← need_session session_id;
  if negb (existsb (String.eqb status) staging_statuses)
  then raise (HTTPException 400 ("Invalid staging status. Must be one of: " ++ PyStr.join ", " staging_statuses))
  else
    let f s := s <| cs_staging_status := Some status |>
                 <| cs_staging_size_bytes ::= fun x => match size_bytes with Some z => Some z | None => x end |> in
    update_session session_id f;;
    broadcast ("clone.staging_" ++ status)
      (JObj [("session_id", JStr session_id); ("staging_status", JStr status);
             ("staging_size_bytes", jnum (cs_staging_size_bytes (f session)))]).

Definition source_complete (session_id : string) (size_bytes : Z) (duration_seconds compression_ratio : json) : ControllerM unit :=
  need_session session_id;;
  update_session session_id (fun s => s <| cs_staging_status := Some "ready" |> <| cs_staging_size_bytes := Some size_bytes |>);;
  broadcast "clone.source_upload_complete"
    (JObj [("session_id", JStr session_id); ("staging_status", JStr "ready"); ("size_bytes", JNum size_bytes);
           ("duration_seconds", duration_seconds); ("compression_ratio", compression_ratio)]).

(** ** Requests *)

Inductive clone_request : Type :=
| Create (now : Z) (id : string) (r : CloneSessionCreate)
| Update (id : string) (r : CloneSessionUpdate)
| Delete (now : Z) (id : string)
| SourceReady (now : Z) (id : string) (r : CloneSourceReady)
| Progress (id : string) (r : CloneProgressUpdate)
| Complete (now : Z) (id : string)
| Failed (now : Z) (id error : string) (code : option string)
| Start (now : Z) (id : string)
| PutPlan (id : string) (plan : ResizePlan)
| StagingStatus (id status : string) (size : option Z)
| SourceComplete (id : string) (size : Z) (duration ratio : json).

Definition handle (r : clone_request) : ControllerM unit :=
  match r with
  | Create now id r => create_clone_session now id r;; mret tt
  | Update id r => update_clone_session id r;; mret tt
  | Delete now id => delete_clone_session now id
  | SourceReady now id r => clone_source_ready now id r;; mret tt
  | Progress id r => clone_progress id r;; mret tt
  | Complete now id => clone_complete now id;; mret tt
  | Failed now id error code => clone_failed now id error code
  | Start now id => start_clone_session now id;; mret tt
  | PutPlan id plan => update_resize_plan id plan;; mret tt
  | StagingStatus id status size => update_staging_status id status size
  | SourceComplete id size duration ratio => source_complete id size duration ratio
  end.

Definition run_requests (rs : list clone_request) (c : Controller) : Controller :=
  fold_left (fun c r => (request (handle r) c).2) rs c.

(** ** What a session looks like *)

Definition clone_statuses : list string :=
  ["pending"; "source_ready"; "cloning"; "completed"; "failed"; "cancelled"].

Definition node_known (d : Database) (id : string) : Prop := is_Some (sql_find node_id id (nodes d)).

Definition backend_known (d : Database) (b : string) : Prop := is_Some (sql_find sb_id b (storage_backends d)).

(** A session; [K] holds of the back ends it may refer to. *)
Record session_wf (K : string -> Prop) (d : Database) (s : CloneSession) : Prop := {
  wf_status : cs_status s ∈ clone_statuses;
  wf_mode : cs_clone_mode s ∈ clone_modes;
  wf_resize : cs_resize_mode s ∈ resize_modes;
  wf_staging : forall st, cs_staging_status s = Some st -> st ∈ staging_statuses;
  wf_source : node_known d (cs_source_node_id s);
  wf_target : cs_clone_mode s = "direct" -> exists t, cs_target_node_id s = Some t /\ node_known d t;
  wf_backend : cs_clone_mode s = "staged" -> exists b, cs_staging_backend_id s = Some b /\ K b;
  wf_plan : forall j, cs_partition_plan_json s = Some j -> exists p, plan_of j = Some p /\ feasible p = true;
  wf_running : cs_status s ∈ ["source_ready"; "cloning"] -> is_Some (cs_started_at s) /\ is_Some (cs_bytes_total s);
  wf_ended : cs_status s ∈ ["completed"; "failed"; "cancelled"] -> is_Some (cs_completed_at s)
}.

Record sessions_wf (K : string -> Prop) (d : Database) : Prop := {
  ss_backends b : backend_known d b -> K b;
  ss_sessions : Forall (session_wf K d) (clone_sessions d)
}.

Lemma existsb_elem x l : existsb (String.eqb x) l = true -> x ∈ l.
Proof. intros (y & Hy & ->%String.eqb_eq)%existsb_exists. by apply list_elem_of_In. Qed.

Lemma existsb_elem_2 x l : x ∈ l -> existsb (String.eqb x) l = true.
Proof. intros H%list_elem_of_In. apply existsb_exists. exists x. split; [done|apply String.eqb_refl]. Qed.

Lemma session_wf_mono (K K' : string -> Prop) d d' s :
  (forall i, node_known d i -> node_known d' i) -> (forall b, K b -> K' b) -> session_wf K d s -> session_wf K' d' s.
Proof.
  intros Hn Hb []. split; try done; [by apply Hn|..].
  - intros Hd. destruct wf_target0 as (t & Ht & Hk); [done|]. exists t. split; [done|by apply Hn].
  - intros Hs. destruct wf_backend0 as (b & Hid & Hk); [done|]. exists b. split; [done|by apply Hb].
Qed.

Section Known.
Variable K : string -> Prop.

Lemma set_sessions_wf f :
  (forall d, sessions_wf K d -> sessions_wf K (f d)) -> keeps_db (sessions_wf K) (set_db f).
Proof. intros Hf c a c' Hc [= _ <-]. by apply Hf. Qed.

(** An update of the columns of a session, whoever it is. *)
Lemma update_session_wf id f :
  (forall d s, session_wf K d s -> session_wf K d (f s)) -> keeps_db (sessions_wf K) (update_session id f).
Proof.
  intros Hf. apply set_sessions_wf. intros d [Hb Hd]. split; [exact Hb|]. cbn. apply Forall_map.
  eapply Forall_impl; [exact Hd|]. intros s Hs.
  assert (H : session_wf K d (if has_key cs_id id s then f s else s)) by (destruct (has_key cs_id id s); [by apply Hf|done]).
  by apply (session_wf_mono K K d).
Qed.

Lemma node_known_update d id f i :
  (forall n, node_id (f n) = node_id n) -> node_known d i ->
  node_known (d <| nodes ::= fun t => (sql_update (has_key node_id id) f t).1 |>) i.
Proof.
  intros Hf. unfold node_known. cbn [nodes]. intros [n Hn].
  change (nodes (d <| nodes ::= fun t => (sql_update (has_key node_id id) f t).1 |>))
    with (sql_update (has_key node_id id) f (nodes d)).1.
  rewrite sql_find_update by done. rewrite Hn. by eexists.
Qed.

Lemma update_node_wf id f : (forall n, node_id (f n) = node_id n) -> keeps_db (sessions_wf K) (update_node id f).
Proof.
  intros Hf. apply set_sessions_wf. intros d [Hb Hd]. split; [exact Hb|]. cbn [clone_sessions].
  eapply Forall_impl; [exact Hd|]. intros s Hs. apply (session_wf_mono K K d); [|done|done].
  intros i Hi. by apply node_known_update.
Qed.

Lemma trigger_clone_boot_id now w n : node_id (trigger_clone_boot now w n) = node_id n.
Proof. unfold trigger_clone_boot. by destruct (existsb _ _). Qed.

(** Creation and update are guarded by look-ups. *)
Lemma check_node_Ok id detail c a c' :
  check_node id detail c = (Ok a, c') -> c' = c /\ forall i, id = Some i -> node_known (db c) i.
Proof.
  unfold check_node. destruct id as [i|]; [|by intros [= _ <-]].
  rewrite (bind_Ok _ _ _ _ _ (find_node_run i c)). destruct (sql_find _ _ _) as [n|] eqn:E; [|done].
  intros [= _ <-]. split; [done|]. intros j [= <-]. by exists n.
Qed.

Lemma need_session_run id c :
  need_session id c = match sql_find cs_id id (clone_sessions (db c)) with
                      | Some s => (Ok s, c)
                      | None => (Err (HTTPException 404 "Clone session not found"), c)
                      end.
Proof. unfold need_session, find_session, get_db. unfold_M. cbn. by destruct (sql_find cs_id _ _). Qed.

Lemma need_session_Ok id c s c' : need_session id c = (Ok s, c') -> c' = c /\ sql_find cs_id id (clone_sessions (db c)) = Some s.
Proof. rewrite need_session_run. destruct (sql_find cs_id _ _) as [x|]; [|done]. by intros [= -> <-]. Qed.

Lemma session_response_db id c a c' : session_response id c = (Ok a, c') -> c' = c.
Proof.
  unfold session_response. step_M s c1 E. apply need_session_Ok in E as [-> _]. by intros [= _ <-].
Qed.

Lemma create_wf now id r : keeps_db (sessions_wf K) (create_clone_session now id r).
Proof.
  intros c a c' Hc. unfold create_clone_session. destruct (create_valid r) eqn:Ev; [|done]. cbn [negb].
  step_M u1 c1 E1. apply check_node_Ok in E1 as [-> H1].
  step_M u2 c2 E2. apply check_node_Ok in E2 as [-> H2].
  step_M d c3 E3. injection E3 as <- <-.
  lazymatch goal with |- ((if ?b then _ else _) ≫= _) _ = _ -> _ => destruct b eqn:Eb end; [done|].
  rewrite (bind_Ok _ _ _ tt c) by done. unfold sql_insert. destruct (sql_find _ _ _); [done|].
  lazymatch goal with |- (set_db ?f ≫= _) _ = _ -> _ => rewrite (bind_Ok _ _ c tt (c <| db ::= f |>)) by done end.
  intros ->%session_response_db.
  unfold create_valid in Ev. apply andb_true_iff in Ev as [[[Em Er]%andb_true_iff Es]%andb_true_iff Ed].
  destruct Hc as [Hback Hc]. split; [exact Hback|]. cbn. apply Forall_app. split.
  - eapply Forall_impl; [exact Hc|]. intros s Hs. by apply (session_wf_mono K K (db c)).
  - constructor; [|constructor]. split; cbn [cs_status cs_clone_mode cs_resize_mode cs_staging_status cs_source_node_id cs_target_node_id
      cs_staging_backend_id cs_partition_plan_json cs_started_at cs_bytes_total cs_completed_at].
    + apply list_elem_of_here.
    + by apply existsb_elem.
    + by apply existsb_elem.
    + done.
    + by apply H1.
    + intros E. rewrite E in Ed. cbn in Ed. destruct (cc_target_node_id r) as [t|]; [|done]. exists t. split; [done|].
      apply H2. cbn in Ed |- *. by destruct (String.eqb t "").
    + intros E. rewrite E in Eb, Es. cbn in Eb, Es. rewrite negb_involutive in Es. rewrite Es in Eb. cbn in Eb.
      apply negb_false_iff, bool_decide_eq_true in Eb. unfold related_backend in Eb.
      destruct (cc_staging_backend_id r) as [b|]; [|by destruct Eb]. exists b. split; [done|by apply Hback].
    + done.
    + by intros H%existsb_elem_2.
    + by intros H%existsb_elem_2.
Qed.

Lemma keeps_db_need_session Q id : keeps_db Q (need_session id).
Proof. unfold need_session, find_session. keeps_db_steps. Qed.

Lemma keeps_db_response Q id : keeps_db Q (session_response id).
Proof. unfold session_response. apply keeps_db_bind; [apply keeps_db_need_session|]. intros s. keeps_db_steps. Qed.

(** An update of sessions in a database that knows a node. *)
Lemma update_session_wf_in id f c a c' :
  (forall s, session_wf K (db c) s -> session_wf K (db c) (f s)) ->
  sessions_wf K (db c) -> update_session id f c = (Ok a, c') -> sessions_wf K (db c').
Proof.
  intros Hf [Hb Hc] [= _ <-]. split; [exact Hb|]. cbn. apply Forall_map.
  eapply Forall_impl; [exact Hc|]. intros s Hs. cbn.
  apply (session_wf_mono K K (db c)); [done|done|]. destruct (has_key cs_id id s); [by apply Hf|done].
Qed.

Lemma update_wf id r : keeps_db (sessions_wf K) (update_clone_session id r).
Proof.
  intros c a c' Hc. unfold update_clone_session. destruct (update_valid r) eqn:Ev; [|done]. cbn [negb].
  step_M s c1 E1. apply need_session_Ok in E1 as [-> _].
  destruct (negb _); [done|]. step_M u c2 E2. apply check_node_Ok in E2 as [-> Hk].
  step_M u2 c3 E3. intros ->%session_response_db. revert E3. apply update_session_wf_in; [|done].
  intros x []. unfold update_valid in Ev. split; cbn; try done.
  - destruct (cu_resize_mode r); [by apply existsb_elem|done].
  - intros H. destruct (cu_target_node_id r) as [t|]; [|auto]. exists t. split; [done|by apply Hk].
Qed.

(** The fields a constant update leaves well formed. *)
Ltac wf_fields :=
  intros ? s []; split; cbn; try done; try (by apply existsb_elem); try (by intros ?%existsb_elem_2);
  try (by intros _; eexists).

Lemma handle_keeps_wf {L : PydanticLaws P} r : keeps_db (sessions_wf K) (handle r).
Proof.
  destruct r; cbn [handle];
    unfold delete_clone_session, clone_source_ready, clone_progress, clone_complete, clone_failed,
      start_clone_session, update_resize_plan, update_staging_status, source_complete;
    repeat (first [ apply create_wf | apply update_wf | apply keeps_db_need_session | apply keeps_db_response
                  | apply (update_node_wf _ _ (trigger_clone_boot_id _ _)) | progress keeps_db_steps ]).
  all: try (apply update_session_wf).
  - wf_fields.
  - apply set_sessions_wf. intros d [Hb Hd]. split; [exact Hb|]. cbn. rewrite Forall_forall in *.
    intros s [Hs _]%list_elem_of_In%filter_In. apply (session_wf_mono K K d); [done|done|]. by apply Hd, list_elem_of_In.
  - wf_fields. intros _. split; [|by eexists]. by destruct (cs_started_at s); eexists.
  - wf_fields.
    + destruct (String.eqb_spec (cs_status s) "source_ready"); [by apply existsb_elem|done].
    + destruct (String.eqb_spec (cs_status s) "source_ready") as [E|]; [|auto].
      intros _. apply wf_running0. rewrite E. by apply existsb_elem.
    + destruct (String.eqb_spec (cs_status s) "source_ready"); [by intros ?%existsb_elem_2|auto].
  - wf_fields.
  - wf_fields.
  - intros d s H. destruct ca_initialized, (is_set (cs_target_node_id s)) eqn:E; cbn; rewrite ?E; destruct H;
      split; cbn; try done; intros Hr; destruct (wf_running0 Hr); by split; [eexists|].
  - wf_fields; [by apply existsb_elem; destruct (andb_prop _ _ (proj1 (negb_false_iff _) Heqb))|].
    intros j [= <-]. exists plan. split; [|by apply negb_false_iff].
    apply plan_of_json. by apply negb_false_iff.
  - wf_fields. intros st [= <-]. apply existsb_elem. by apply negb_false_iff.
  - wf_fields. intros st [= <-]. by apply existsb_elem.
Qed.

End Known.

(** *** Any history *)

Lemma set_keeps_backends l f : (forall d, storage_backends (f d) = storage_backends d) ->
  keeps_db (fun d => storage_backends d = l) (set_db f).
Proof. intros Hf c x c' <- [= _ <-]. apply Hf. Qed.

(** No request on clones touches the table of back ends. *)
Lemma handle_keeps_backends l r : keeps_db (fun d => storage_backends d = l) (handle r).
Proof.
  destruct r; cbn [handle];
    unfold create_clone_session, update_clone_session, delete_clone_session, clone_source_ready, clone_progress, clone_complete,
      clone_failed, start_clone_session, update_resize_plan, update_staging_status, source_complete, check_node;
    repeat (first [ apply keeps_db_need_session | apply keeps_db_response | progress keeps_db_steps
                  | (apply set_keeps_backends; done) ]).
Qed.

(** What any other request or task may do: the sessions are the clone endpoints' own, and rows of nodes
    are never deleted; back ends are (api/routes/storage.py). *)
Definition elsewhere (c c' : Controller) : Prop :=
  clone_sessions (db c') = clone_sessions (db c) /\ forall id, node_known (db c) id -> node_known (db c') id.

Definition clone_step (c c' : Controller) : Prop := (exists r, c' = (request (handle r) c).2) \/ elsewhere c c'.

(** The back end is in the table, or another request on the way to [c] deleted it. *)
Definition backend_or_deleted (c : Controller) (b : string) : Prop :=
  backend_known (db c) b
  \/ exists c1 c2, rtc clone_step c1 c2 /\ rtc clone_step c2 c /\ elsewhere c1 c2 /\ backend_known (db c1) b /\ ~ backend_known (db c2) b.

Lemma clone_step_wf {L : PydanticLaws P} c c' : clone_step c c' ->
  sessions_wf (backend_or_deleted c) (db c) -> sessions_wf (backend_or_deleted c') (db c').
Proof.
  intros Hstep [_ Hs].
  assert (forall b, backend_or_deleted c b -> backend_or_deleted c' b) as Hmono.
  { intros b [Hb|(c1 & c2 & H12 & H2 & H)]; [|right; exists c1, c2; split; [done|]; split; [by eapply rtc_r|done]].
    destruct (decide (is_Some (sql_find sb_id b (storage_backends (db c'))))) as [|Hn]; [by left|right].
    exists c, c'. split; [by apply rtc_once|]. split; [done|]. split; [|done]. destruct Hstep as [[r ->]|]; [|done].
    destruct Hn. pose proof (keeps_db_request _ _ (handle_keeps_backends (storage_backends (db c)) r) c eq_refl) as E.
    cbn in E. by rewrite E. }
  assert (sessions_wf (backend_or_deleted c') (db c)) as Hc.
  { split; [intros b Hb; apply Hmono; by left|]. eapply Forall_impl; [exact Hs|]. intros s. by apply session_wf_mono. }
  destruct Hstep as [[r ->]|[Es Hn]].
  - pose proof (keeps_db_request _ _ (handle_keeps_wf (backend_or_deleted (request (handle r) c).2) r) c Hc) as H. exact H.
  - split; [by left|]. rewrite Es. eapply Forall_impl; [apply Hc|]. intros s. by apply session_wf_mono.
Qed.


(** ** Plans, completion and the start *)

Lemma find_updated_session id f d s :
  (forall s, cs_id (f s) = cs_id s) -> sql_find cs_id id (clone_sessions d) = Some s ->
  sql_find cs_id id (sql_update (has_key cs_id id) f (clone_sessions d)).1 = Some (f s).
Proof.
  intros Hf Hs. rewrite sql_find_update, Hs by done. cbn. apply sql_find_Some_1 in Hs as [_ Hk].
  unfold has_key. by rewrite Hk, String.eqb_refl.
Qed.

(** A plan that is accepted is feasible, belongs to a session that has not
    started to copy, and reads back as it was put; any other plan changes
    nothing. *)
Theorem saved_plan_reads_back {L : PydanticLaws P} id plan c :
  match update_resize_plan id plan c with
  | (Ok p, c') =>
      p = plan /\ feasible plan = true
      /\ (exists s, sql_find cs_id id (clone_sessions (db c)) = Some s /\ cs_status s ∈ ["pending"; "source_ready"])
      /\ get_resize_plan id c' = (Ok (Some plan), c') /\ get_resize_plan_alias id c' = (Ok (Some plan), c')
  | (Err _, c') => c' = c
  end.
Proof.
  unfold update_resize_plan. destruct (plan_valid plan) eqn:Ev; [|done]. cbn [negb].
  unfold mbind, M_bind. rewrite need_session_run. destruct (sql_find cs_id id _) as [s|] eqn:Es; [|done].
  destruct (existsb _ ["pending"; "source_ready"]) eqn:Est; [|done]. cbn [negb].
  destruct (feasible plan) eqn:Ef; [|done]. cbn [negb update_session set_db modify mret M_ret].
  split; [done|]. split; [done|]. split; [exists s; split; [done|by apply existsb_elem]|].
  unfold get_resize_plan_alias, get_resize_plan, mbind, M_bind.
  rewrite need_session_run. cbn [db clone_sessions]. cbn -[sql_find sql_update plan_of].
  rewrite (find_updated_session id _ (db c) s) by done. cbn [cs_partition_plan_json]. by rewrite plan_of_json.
Qed.

(** A started session is completed and timed if the driver returns aware
    datetimes; if it returns naive ones, as SQLite's does, every completion fails
    and is rolled back. *)
Theorem completion_needs_aware_datetimes now id s t c :
  sql_find cs_id id (clone_sessions (db c)) = Some s -> cs_started_at s = Some t ->
  if reads_aware then
    exists c' s', request (clone_complete now id) c = (Ok (Z.quot (now - t) 1000000), c')
      /\ sql_find cs_id id (clone_sessions (db c')) = Some s' /\ cs_status s' = "completed"
      /\ cs_completed_at s' = Some now
  else request (clone_complete now id) c = (Err TypeError, c).
Proof.
  intros Hs Ht. unfold request, clone_complete. unfold mbind, M_bind. rewrite need_session_run, Hs.
  cbn [update_session set_db modify]. rewrite Ht. unfold elapsed_since. destruct reads_aware; [|by destruct c].
  cbn -[sql_find sql_update Z.quot]. eexists _, _. split; [reflexivity|]. cbn -[sql_find sql_update].
  rewrite (find_updated_session id _ (db c) s) by done. done.
Qed.

(** A session that starts points its source at the clone workflow and sets the
    node to [pending] itself: no service of the lifecycle runs and nothing is
    logged. *)
Lemma start_clone_session_run now id s n c :
  sql_find cs_id id (clone_sessions (db c)) = Some s -> cs_status s = "pending" ->
  sql_find node_id (cs_source_node_id s) (nodes (db c)) = Some n ->
  exists mode c', start_clone_session now id c = (Ok mode, c')
    /\ node_logs (db c') = node_logs (db c)
    /\ nodes (db c') = (sql_update (has_key node_id (cs_source_node_id s))
                          (trigger_clone_boot now ("clone-source:" ++ cs_id s ++ ":" ++ cs_source_device s)) (nodes (db c))).1.
Proof.
  intros Hs Hp Hn. unfold start_clone_session.
  rewrite (bind_Ok _ _ _ s c) by (by rewrite need_session_run, Hs).
  rewrite (bind_Ok _ _ _ (db c) c) by done. rewrite Hp. cbn [related_node]. rewrite Hn.
  pose proof (sql_find_Some_1 _ _ _ _ Hn) as [_ Hk]. rewrite Hk.
  eexists _, _. split; [reflexivity|]. split; reflexivity.
Qed.

End Sessions.

(** ** Examples *)

Definition demo_part (number size : Z) (can : bool) (min : Z) : json :=
  JObj [("number", JNum number); ("size_bytes", JNum size); ("filesystem", JStr "ext4");
        ("can_shrink", JBool can); ("min_size_bytes", JNum min)].
Definition demo_disk (node : string) (size : Z) : DiskInfo :=
  {| di_id := "d"; di_node_id := node; di_device := "/dev/sda"; di_size_bytes := size; di_model := None; di_serial := None;
     di_partition_table := Some "gpt";
     di_partitions_json := Some (JArr [demo_part 1 100 false 0; demo_part 2 500 true 200; demo_part 3 300 true 100]);
     di_scanned_at := 0 |}.

Lemma resize_plan_fits_witness :
  exists parts plan,
    _generate_resize_plan (P := strict_pydantic) (demo_disk "s" 1000) (Some (demo_disk "t" 600)) "none" = Ok plan
    /\ map new_size_bytes (partitions plan) = [100; 300; 100] /\ Forall2 resized parts (partitions plan).
Proof.
  destruct (source_partitions (P := strict_pydantic) (demo_disk "s" 1000)) as [parts|] eqn:Ep; [|discriminate].
  destruct (_generate_resize_plan (P := strict_pydantic) (demo_disk "s" 1000) (Some (demo_disk "t" 600)) "none") as [plan|] eqn:E;
    [|discriminate].
  exists parts, plan. split; [reflexivity|].
  pose proof (resize_plan_fits (P := strict_pydantic) _ _ _ parts plan Ep E) as [_ H].
  vm_compute in E. injection E as <-. split; [reflexivity|]. by apply H.
Defined.

Definition demo_session : CloneSession :=
  {| cs_id := "s"; cs_name := None; cs_status := "cloning"; cs_clone_mode := "direct"; cs_source_node_id := "a";
     cs_target_node_id := Some "b"; cs_source_device := "/dev/sda"; cs_target_device := "/dev/sda"; cs_source_ip := None;
     cs_source_port := 9999; cs_source_cert_pem := None; cs_source_key_pem := None; cs_target_cert_pem := None;
     cs_target_key_pem := None; cs_staging_backend_id := None; cs_staging_size_bytes := None; cs_staging_status := None;
     cs_resize_mode := "none"; cs_partition_plan_json := None; cs_bytes_total := Some 10; cs_bytes_transferred := 0;
     cs_transfer_rate_bps := None; cs_error_message := None; cs_created_at := 0; cs_started_at := Some 5;
     cs_completed_at := None |}.

Definition demo_db (s : CloneSession) : Controller :=
  {| db := empty_db <| nodes := [new_node "a" "m1"; new_node "b" "m2"] |> <| clone_sessions := [s] |>; sent := []; pi_nodes := ∅ |}.

(** A staged session outlives its back end. *)
Definition staged_request : CloneSessionCreate :=
  {| cc_name := None; cc_source_node_id := "a"; cc_target_node_id := Some "b"; cc_source_device := "/dev/sda";
     cc_target_device := "/dev/sda"; cc_clone_mode := "staged"; cc_staging_backend_id := Some "nas"; cc_resize_mode := "none" |}.


Lemma saved_plan_reads_back_witness :
  let plan := {| source_disk_bytes := 10; target_disk_bytes := 8; resize_mode := "shrink_source";
                 partitions := [{| partition := 1; current_size_bytes := 9; new_size_bytes := 7; filesystem := None;
                                   action := "shrink"; min_size_bytes := Some 3; can_resize := true |}];
                 feasible := true; error_message := None |} in
  let r := update_resize_plan "s" plan (demo_db (demo_session <| cs_status := "pending" |>)) in
  get_resize_plan (P := strict_pydantic) "s" r.2 = (Ok (Some plan), r.2).
Proof.
  intros plan r.
  pose proof (saved_plan_reads_back (P := strict_pydantic) "s" plan (demo_db (demo_session <| cs_status := "pending" |>))) as H.
  fold r in H. destruct r as [[p|e] c'] eqn:E; [|vm_compute in E; discriminate].
  destruct H as (_ & _ & _ & H & _). exact H.
Defined.

Lemma completion_needs_aware_datetimes_witness :
  request (clone_complete false 9 "s") (demo_db demo_session) = (Err TypeError, demo_db demo_session)
  /\ exists c', request (clone_complete true 9 "s") (demo_db demo_session) = (Ok 0, c').
Proof.
  split.
  - exact (completion_needs_aware_datetimes false 9 "s" demo_session 5 (demo_db demo_session) eq_refl eq_refl).
  - destruct (completion_needs_aware_datetimes true 9 "s" demo_session 5 (demo_db demo_session) eq_refl eq_refl)
      as (c' & s' & H & _). exists c'. exact H.
Defined.

(** Certificates issued at creation name no session: the id is made at the flush. *)
Example created_certificates_name_no_session :
  let cert (id : option string) (role : string) := ("clone-" ++ default "None" id ++ "-" ++ role, "key") in
  let r := create_clone_session (fun _ _ => 0) true cert 0 "s"
             {| cc_name := None; cc_source_node_id := "a"; cc_target_node_id := Some "b";
                cc_source_device := "/dev/sda"; cc_target_device := "/dev/sda"; cc_clone_mode := "direct";
                cc_staging_backend_id := None; cc_resize_mode := "none" |}
             {| db := empty_db <| nodes := [new_node "a" "m1"; new_node "b" "m2"] |>; sent := []; pi_nodes := ∅ |} in
  map cs_source_cert_pem (clone_sessions (db r.2)) = [Some "clone-None-source"].
Proof. reflexivity. Qed.

(** No status guards the reports of the nodes: a session that is over can be made
    ready and run again. *)
Example ended_session_runs_again :
  let c := demo_db (demo_session <| cs_status := "completed" |>) in
  let r := clone_source_ready 7 "s" {| sr_ip := "10.0.0.1"; sr_port := 9999; sr_size_bytes := 10; sr_device := "/dev/sda" |} c in
  map cs_status (clone_sessions (db r.2)) = ["source_ready"].
Proof. reflexivity. Qed.
