(* ===== verification/Boot.v ===== *)
(** * Boot scripts

    [api/routes/boot.py]: what a machine is told to boot.  iPXE asks [/boot] for
    a script by MAC address, GRUB asks [/grub] for its menu, and a machine that
    waits polls [/boot/status].  The answer depends on the node's state, its
    workflow and, while it installs, on the time; unknown machines are
    registered.  The settings, the server's address and the workflow service are
    arguments; [now] and [id] are the clock and the fresh uuid. *)
From S2P Require Import Prelude PyStr Scripts SqlTable Paths NodeLifecycle Controller Workflows Clone.
From stdpp Require Import base tactics list gmap strings pretty.
From Stdlib Require Import Ascii ZArith Lia.
Open Scope string_scope.
#[local] Arguments String.append !_ _ : simpl nomatch.

(** ** MAC addresses *)

Definition is_hex (c : ascii) : bool :=
  let n := N_of_ascii c in
  (((48 <=? n) && (n <=? 57)) || ((65 <=? n) && (n <=? 70)) || ((97 <=? n) && (n <=? 102)))%N.

(** [^([0-9A-Fa-f]{2}[:-]){5}([0-9A-Fa-f]{2})$], for [n] groups before the last;
    [$] also matches before a final line feed. *)
Fixpoint mac_groups (n : nat) (s : string) : bool :=
  match n, s with
  | O, String a (String b r) => is_hex a && is_hex b && (String.eqb r "" || String.eqb r (String "010" ""))
  | S n, String a (String b (String c r)) =>
      is_hex a && is_hex b && (Ascii.eqb c ":" || Ascii.eqb c "-") && mac_groups n r
  | _, _ => false
  end.

Definition MAC_PATTERN (s : string) : bool := mac_groups 5 s.

Definition normalize_mac (mac : string) : string := lower (replace_char "-" ":" mac).

Definition validate_mac (mac : string) : ControllerM string :=
  if negb (MAC_PATTERN mac) then raise (HTTPException 400 ("Invalid MAC address: " ++ mac))
  else mret (normalize_mac mac).

(** ** Text *)

Definition upper_char (c : ascii) : ascii :=
  let n := N_of_ascii c in if ((97 <=? n) && (n <=? 122))%N then ascii_of_N (n - 32) else c.

Fixpoint remove_char (c : ascii) (s : string) : string :=
  match s with
  | EmptyString => EmptyString
  | String d r => if Ascii.eqb c d then remove_char c r else String d (remove_char c r)
  end.

(** [mac.replace(":", EMPTY)[-6:].upper()] *)
Definition short_id_of (mac : string) : string :=
  let s := remove_char ":" mac in str_map upper_char (str_drop (String.length s - 6) s).

(** [x or dflt], and an optional column in an f-string. *)
Definition or_text (x : option string) (dflt : string) : string :=
  match x with Some s => if String.eqb s "" then dflt else s | None => dflt end.
Definition opt_text (x : option string) : string := default "None" x.
Definition workflow_or (dflt : string) (node : NodeRow) : string := or_text (workflow_id node) dflt.

(** ** Scripts *)

Definition generate_local_boot_script : string :=
  unlines [
    "#!ipxe"; "# PureBoot - Boot from local disk"; "echo Booting from local disk..."; "exit"].

Definition generate_discovery_script (mac server : string) : string :=
  let short_id := short_id_of mac in
  unlines [
    "#!ipxe"; "# PureBoot - Node discovered"; "# MAC: " ++ mac; EmptyString; "echo";
    "echo  ************************************************************";
    "echo  *                    P U R E B O O T                       *";
    "echo  *              Network Boot Management System              *";
    "echo  ************************************************************"; "echo";
    "echo   Node ID:  " ++ short_id; "echo   MAC:      " ++ mac; "echo   IP:       ${net0/ip}";
    "echo   Server:   " ++ server; "echo"; "echo   Status: Discovered - booting from local disk"; "echo";
    "exit"].

Definition generate_pending_script (node : NodeRow) (server : string) : string :=
  let short_id := short_id_of (mac_address node) in
  unlines [
    "#!ipxe"; "# PureBoot - Installation pending"; "# MAC: " ++ mac_address node;
    "# Workflow: " ++ workflow_or "none" node; "echo"; "echo ========================================";
    "echo   PureBoot - Pending Installation"; "echo ========================================"; "echo";
    "echo   Node ID:  " ++ short_id; "echo   MAC:      " ++ mac_address node; "echo   IP:       ${net0/ip}";
    "echo   Workflow: " ++ workflow_or "Not assigned" node; "echo";
    "echo   Installation will begin on next boot."; "echo   Booting from local disk in 5 seconds..."; "echo";
    "sleep 5"; "exit"].

Definition generate_workflow_error_script (node : NodeRow) (error_message : string) : string :=
  unlines [
    "#!ipxe"; "# PureBoot - Installation Error"; "# MAC: " ++ mac_address node; "# Error: " ++ error_message;
    "echo"; "echo *** ERROR ***"; "echo"; "echo Node: " ++ mac_address node; "echo Error: " ++ error_message;
    "echo"; "echo Manual intervention may be required."; "echo";
    "echo Booting from local disk in 30 seconds..."; "echo Press any key to enter iPXE shell.";
    "sleep 30 || shell"; "exit"].

Definition generate_install_retry_script (node : NodeRow) (server : string) : string :=
  unlines [
    "#!ipxe"; "# PureBoot - Installation Retry"; "# MAC: " ++ mac_address node;
    "# Attempt: " ++ pretty (n_install_attempts (core node)); "echo";
    "echo Previous installation attempt timed out.";
    "echo Retrying installation (attempt " ++ pretty (n_install_attempts (core node)) ++ ")..."; "echo";
    "echo Booting from local disk..."; "echo Installation will restart on next provisioning cycle.";
    "sleep 5"; "exit"].

Definition install_header (node : NodeRow) (workflow : Workflow) : string :=
  let short_id := short_id_of (mac_address node) in
  unlines [
    "#!ipxe"; "# PureBoot - Installing " ++ w_name workflow; "# Node: " ++ mac_address node;
    "# Workflow: " ++ w_id workflow; "# Method: " ++ w_install_method workflow; "echo";
    "echo ========================================"; "echo   PureBoot - OS Installation";
    "echo ========================================"; "echo"; "echo   Node ID:  " ++ short_id;
    "echo   MAC:      " ++ mac_address node; "echo   IP:       ${net0/ip}";
    "echo   Workflow: " ++ w_name workflow; "echo   Method:   " ++ w_install_method workflow; "echo"].

Definition sanboot_commands (boot_url : string) : string :=
  unlines [
    "echo Booting from ISO: " ++ boot_url; "echo"; "echo This may take several minutes to download...";
    "echo"; "sanboot " ++ boot_url ++ " || goto error"; EmptyString; ":error"; "echo";
    "echo *** BOOT FAILED ***"; "echo Failed to boot from ISO."; "echo Press any key to enter iPXE shell.";
    "sleep 30 || shell"; "exit"].

Definition chain_commands (boot_url : string) : string :=
  unlines [
    "echo Chainloading: " ++ boot_url; "echo"; "chain " ++ boot_url ++ " || goto error"; EmptyString;
    ":error"; "echo"; "echo *** CHAIN FAILED ***"; "echo Failed to chainload boot script.";
    "echo Press any key to enter iPXE shell."; "sleep 30 || shell"; "exit"].

Definition image_commands (workflow : Workflow) (server : string) : string :=
  let image_url := w_image_url workflow in
  let grub_efi := server ++ "/api/v1/files/tftp/uefi/grubx64.efi" in
  unlines [
    "echo Image-based deployment"; "echo"; "echo   Image:  " ++ image_url;
    "echo   Target: " ++ w_target_device workflow; "echo"; "echo Chainloading GRUB bootloader...";
    "echo GRUB will load the Linux kernel."; "echo"; "chain " ++ grub_efi ++ " || goto grub_error";
    EmptyString; ":grub_error"; "echo"; "echo *** GRUB LOAD FAILED ***";
    "echo Could not chainload GRUB EFI bootloader."; "echo Press any key for shell..."; "prompt"; "shell"].

(** The kernel command line of a clone source. *)
Definition clone_cmdline (node : NodeRow) (workflow : Workflow) (server : string) : string :=
  "ip=dhcp pureboot.server=" ++ server ++ " pureboot.node_id=" ++ node_id node ++ " pureboot.mac=" ++ mac_address node
  ++ " pureboot.mode=clone_source pureboot.source_device=" ++ w_source_device workflow
  ++ " pureboot.callback=" ++ server ++ "/api/v1/nodes/" ++ node_id node ++ "/clone-ready console=ttyS0 console=tty0".

Definition clone_commands (node : NodeRow) (workflow : Workflow) (server : string) : string :=
  let deploy_kernel := server ++ "/api/v1/files/tftp/deploy/vmlinuz-virt" in
  let deploy_initrd := server ++ "/api/v1/files/tftp/deploy/initramfs-virt" in
  let grub_efi := server ++ "/api/v1/files/tftp/uefi/grubx64.efi" in
  let deploy_cmdline := clone_cmdline node workflow server in
  unlines [
    "echo Clone Source Mode"; "echo"; "echo   This node will serve its disk for cloning";
    "echo   Source: " ++ w_source_device workflow; "echo"; "echo   Other nodes can clone from this machine.";
    "echo   Do NOT shut down until cloning is complete."; "echo"; "echo Chainloading GRUB bootloader...";
    "echo GRUB will load the Linux kernel."; "echo"; "chain " ++ grub_efi ++ " || goto grub_error";
    EmptyString; ":grub_error"; "echo"; "echo *** GRUB LOAD FAILED ***";
    "echo Could not chainload GRUB EFI bootloader."; "echo";
    "echo Trying direct kernel boot (may not work on all UEFI)..."; "echo";
    "kernel " ++ deploy_kernel ++ " " ++ deploy_cmdline ++ " || goto kerror";
    "initrd " ++ deploy_initrd ++ " || goto ierror"; "boot || goto booterror"; EmptyString; ":kerror";
    "echo"; "echo *** KERNEL LOAD FAILED ***"; "echo Could not load: " ++ deploy_kernel;
    "echo Press any key for shell..."; "prompt"; "shell"; EmptyString; ":ierror"; "echo";
    "echo *** INITRD LOAD FAILED ***"; "echo Could not load: " ++ deploy_initrd;
    "echo Press any key for shell..."; "prompt"; "shell"; EmptyString; ":booterror"; "echo";
    "echo *** BOOT FAILED ***"; "echo Failed to start kernel."; "echo Press any key for shell..."; "prompt";
    "shell"].

Definition kernel_commands (workflow : Workflow) (server : string) : string :=
  let kernel_url := server ++ "/api/v1/files" ++ w_kernel_path workflow in
  let initrd_url := server ++ "/api/v1/files" ++ w_initrd_path workflow in
  unlines [
    "echo Loading kernel..."; "kernel " ++ kernel_url ++ " " ++ w_cmdline workflow ++ " || goto error";
    "echo Loading initrd..."; "initrd " ++ initrd_url ++ " || goto error"; "echo";
    "echo Starting installation..."; "boot"; EmptyString; ":error"; "echo"; "echo *** BOOT FAILED ***";
    "echo Failed to load kernel or initrd."; "echo Press any key to enter iPXE shell."; "sleep 30 || shell";
    "exit"].

Definition generate_install_script (node : NodeRow) (workflow : Workflow) (server : string) : string :=
  let method := w_install_method workflow in
  if String.eqb method "sanboot" then
    if String.eqb (w_boot_url workflow) "" then generate_workflow_error_script node "sanboot method requires boot_url"
    else install_header node workflow ++ sanboot_commands (w_boot_url workflow)
  else if String.eqb method "chain" then
    if String.eqb (w_boot_url workflow) "" then generate_workflow_error_script node "chain method requires boot_url"
    else install_header node workflow ++ chain_commands (w_boot_url workflow)
  else if String.eqb method "image" then
    if String.eqb (w_image_url workflow) "" then generate_workflow_error_script node "image method requires image_url"
    else install_header node workflow ++ image_commands workflow server
  else if String.eqb method "clone" then install_header node workflow ++ clone_commands node workflow server
  else install_header node workflow ++ kernel_commands workflow server.

Definition generate_pending_no_workflow_script (node : NodeRow) (server : string) : string :=
  let short_id := short_id_of (mac_address node) in
  let mac := mac_address node in
  let ip_addr := or_text (ip_address node) "${net0/ip}" in
  let kernel_url := server ++ "/api/v1/files/tftp/deploy/vmlinuz-virt" in
  let initrd_url := server ++ "/api/v1/files/tftp/deploy/initramfs-virt" in
  let cmdline := "pureboot.mode=pending pureboot.server=" ++ server ++ " pureboot.mac=" ++ mac ++ " pureboot.node_id="
                 ++ node_id node ++ " ip=dhcp console=tty0 console=ttyS0,115200" in
  unlines [
    "#!ipxe"; "# PureBoot - Pending (no workflow assigned)"; "# Node: " ++ mac;
    "# Booting into deploy environment for disk discovery"; EmptyString; "console --x 800 --y 600 ||";
    "clear ||"; EmptyString; "echo"; "echo ========================================";
    "echo   PureBoot - Booting Deploy Environment"; "echo ========================================"; "echo";
    "echo   Node ID:  " ++ short_id; "echo   MAC:      " ++ mac; "echo   IP:       " ++ ip_addr;
    "echo   Status:   Pending"; "echo   Server:   " ++ server; "echo";
    "echo ========================================"; "echo"; "echo Loading kernel...";
    "kernel " ++ kernel_url ++ " " ++ cmdline ++ " || goto poll"; "echo Loading initrd...";
    "initrd " ++ initrd_url ++ " || goto poll"; "echo Booting deploy environment..."; "boot || goto poll";
    EmptyString; ":poll"; "console --x 800 --y 600 ||"; "clear ||"; "echo";
    "echo ========================================"; "echo   PureBoot - Awaiting Workflow";
    "echo ========================================"; "echo"; "echo   Node ID:  " ++ short_id;
    "echo   MAC:      " ++ mac; "echo   IP:       " ++ ip_addr; "echo   Status:   Pending";
    "echo   Server:   " ++ server; "echo"; "echo   Assign a workflow in the PureBoot UI."; "echo";
    "echo ========================================"; "echo"; "echo Deploy environment boot failed.";
    "echo Falling back to iPXE polling mode..."; "echo"; EmptyString;
    "chain " ++ server ++ "/api/v1/boot/status?mac=" ++ mac ++ " || goto retry"; "goto poll"; EmptyString;
    ":retry"; "sleep 5"; "goto poll"].

(** ** Endpoints *)

Section Boot.
Context {P : Pydantic}.
Variable auto_register : bool.
Variable default_group_id : option string.
Variable install_timeout_minutes : Z.
Variable server : string.                            (* [get_server_url()] *)
Variable reads_aware : bool.                         (* the driver returns aware datetimes *)
Variables (workflows_dir : PurePath) (resolve : PurePath -> PurePath) (exists_ : PurePath -> bool)
  (load : PurePath -> load_result).

Definition find_by_mac (mac : string) : ControllerM (option NodeRow) :=
  d ← get_db; mret (sql_find mac_address mac (nodes d)).

(** A column that is set if the request has a value and the row has none. *)
Definition fill (request_value row_value : option string) : option string :=
  if is_set request_value && negb (is_set row_value) then request_value else row_value.

Definition register_node (now : Z) (id mac : string) (client_ip vendor_ model_ serial uuid : option string) : NodeRow :=
  (new_node id mac) <| ip_address := client_ip |> <| vendor := vendor_ |> <| hw_model := model_ |>
                  <| serial_number := serial |> <| system_uuid := uuid |> <| group_id := default_group_id |>
                  <| created_at := now |>.

Definition touch_node (now : Z) (client_ip vendor_ model_ serial uuid : option string) (n : NodeRow) : NodeRow :=
  n <| last_seen_at := Some now |>
    <| ip_address ::= fun x => if is_set client_ip then client_ip else x |>
    <| vendor ::= fill vendor_ |> <| hw_model ::= fill model_ |> <| serial_number ::= fill serial |>
    <| system_uuid ::= fill uuid |>.

(** The workflow of a node with the node's values in it, or the exception. *)
Definition node_workflow (node : NodeRow) (workflow : string) : result workflow_error Workflow :=
  w ← get_workflow workflows_dir resolve exists_ load workflow;
  Ok (resolve_variables w server (node_id node) (mac_address node) (ip_address node)).

Definition not_found_message (node : NodeRow) : string := "Workflow '" ++ opt_text (workflow_id node) ++ "' not found".

Definition pending_script (node : NodeRow) : ControllerM string :=
  match workflow_id node with
  | Some w =>
      if String.eqb w "" then mret (generate_pending_no_workflow_script node server)
      else
        match node_workflow node w with
        | Ok workflow => mret (generate_install_script node workflow server)
        | Err (OtherError e) => raise e
        | Err _ => mret (generate_workflow_error_script node (not_found_message node))
        end
  | None => mret (generate_pending_no_workflow_script node server)
  end.

Definition timeout_error : string := "Installation timed out after " ++ pretty install_timeout_minutes ++ " minutes".

Definition installing_script (now : Z) (node : NodeRow) : ControllerM string :=
  match n_state_changed_at (core node) with
  | Some changed =>
      if (0 <? install_timeout_minutes)%Z then
        elapsed ← elapsed_since reads_aware now changed;
        if (install_timeout_minutes * 60 * 1000000 <? elapsed)%Z then
          on_node (node_id node) (StateTransitionService.handle_install_failure now (Some timeout_error));;
          r ← find_node (node_id node);
          let node := default node r in
          if String.eqb (node_state node) "install_failed"
          then mret (generate_workflow_error_script node ("Timeout after " ++ pretty install_timeout_minutes ++ "m"))
          else mret (generate_install_retry_script node server)
        else mret generate_local_boot_script
      else mret generate_local_boot_script
  | None => mret generate_local_boot_script
  end.

(** The [match] on the state: all other states boot from the local disk. *)
Definition script_for_state (now : Z) (node : NodeRow) : ControllerM string :=
  if String.eqb (node_state node) "pending" then pending_script node
  else if String.eqb (node_state node) "installing" then installing_script now node
  else mret generate_local_boot_script.

Definition get_boot_script (now : Z) (id mac : string) (client_ip vendor_ model_ serial uuid : option string) : ControllerM string :=
  mac ← validate_mac mac;
  found ← find_by_mac mac;
  match found with
  | None =>
      if negb auto_register then mret generate_local_boot_script
      else
        d ← get_db;
        match sql_insert node_id (register_node now id mac client_ip vendor_ model_ serial uuid) (nodes d) with
        | None => raise IntegrityError
        | Some t => set_db (fun d => d <| nodes := t |>);; mret generate_local_boot_script
        end
  | Some node =>
      let f := touch_node now client_ip vendor_ model_ serial uuid in
      update_node (node_id node) f;;
      script_for_state now (f node)
  end.

(** *** GRUB *)

Definition grub_unknown : string :=
  unlines [
    "set default=0"; "set timeout=5"; EmptyString;
    "menuentry " ++ dq ++ "Boot from local disk" ++ dq ++ " {"; "    exit"; "}"].

Definition grub_deploy (node : NodeRow) : string :=
  let deploy_kernel := server ++ "/api/v1/files/tftp/deploy/vmlinuz-virt" in
  let deploy_initrd := server ++ "/api/v1/files/tftp/deploy/initramfs-virt" in
  let cmdline := "ip=dhcp pureboot.server=" ++ server ++ " pureboot.node_id=" ++ node_id node ++ " pureboot.mac="
                 ++ mac_address node ++ " pureboot.mode=pending console=ttyS0 console=tty0" in
  unlines [
    "set default=0"; "set timeout=3"; EmptyString;
    "menuentry " ++ dq ++ "PureBoot Deploy Environment - " ++ mac_address node ++ dq ++ " {";
    "    echo " ++ dq ++ "Loading deploy kernel..." ++ dq; "    linux " ++ deploy_kernel ++ " " ++ cmdline;
    "    echo " ++ dq ++ "Loading initrd..." ++ dq; "    initrd " ++ deploy_initrd;
    "    echo " ++ dq ++ "Booting..." ++ dq; "}"; EmptyString;
    "menuentry " ++ dq ++ "Boot from local disk" ++ dq ++ " {"; "    exit"; "}"].

Definition grub_not_found (node : NodeRow) : string :=
  unlines [
    "set default=0"; "set timeout=5"; EmptyString;
    "menuentry " ++ dq ++ "Error: Workflow not found" ++ dq ++ " {";
    "    echo " ++ dq ++ "Workflow '" ++ opt_text (workflow_id node) ++ "' not found" ++ dq; "    sleep 10";
    "    exit"; "}"].

Definition image_cmdline (node : NodeRow) (workflow : Workflow) : string :=
  "ip=dhcp pureboot.server=" ++ server ++ " pureboot.node_id=" ++ node_id node ++ " pureboot.mac=" ++ mac_address node
  ++ " pureboot.image_url=" ++ w_image_url workflow ++ " pureboot.target=" ++ w_target_device workflow
  ++ " pureboot.callback=" ++ server ++ "/api/v1/nodes/" ++ node_id node ++ "/installed console=ttyS0 console=tty0".

Definition grub_menu (title deploy_kernel deploy_initrd cmdline : string) : string :=
  unlines [
    "set default=0"; "set timeout=3"; EmptyString; "menuentry " ++ dq ++ title ++ dq ++ " {";
    "    echo " ++ dq ++ "Loading kernel..." ++ dq; "    linux " ++ deploy_kernel ++ " " ++ cmdline;
    "    echo " ++ dq ++ "Loading initrd..." ++ dq; "    initrd " ++ deploy_initrd;
    "    echo " ++ dq ++ "Booting..." ++ dq; "}"; EmptyString;
    "menuentry " ++ dq ++ "Boot from local disk" ++ dq ++ " {"; "    exit"; "}"].

Definition grub_workflow (node : NodeRow) (workflow : Workflow) : string :=
  let deploy_kernel := server ++ "/api/v1/files/tftp/deploy/vmlinuz-virt" in
  let deploy_initrd := server ++ "/api/v1/files/tftp/deploy/initramfs-virt" in
  if String.eqb (w_install_method workflow) "clone" then
    grub_menu ("PureBoot Clone Source - " ++ mac_address node) deploy_kernel deploy_initrd (clone_cmdline node workflow server)
  else if String.eqb (w_install_method workflow) "image" then
    grub_menu ("PureBoot Image Deploy - " ++ mac_address node) deploy_kernel deploy_initrd (image_cmdline node workflow)
  else
    grub_menu ("PureBoot Install - " ++ w_name workflow) (server ++ "/api/v1/files" ++ w_kernel_path workflow)
      (server ++ "/api/v1/files" ++ w_initrd_path workflow) (w_cmdline workflow).

Definition get_grub_config (mac : string) : ControllerM string :=
  mac ← validate_mac mac;
  found ← find_by_mac mac;
  match found with
  | None => mret grub_unknown
  | Some node =>
      match workflow_id node with
      | None => mret (grub_deploy node)
      | Some w =>
          if String.eqb w "" then mret (grub_deploy node)
          else
            match node_workflow node w with
            | Ok workflow => mret (grub_workflow node workflow)
            | Err (OtherError e) => raise e
            | Err _ => mret (grub_not_found node)
            end
      end
  end.

(** *** Polling *)

Definition poweroff_script (short_id : string) : string :=
  unlines [
    "#!ipxe"; "# Command: poweroff"; "echo [" ++ short_id ++ "] Poweroff command received";
    "echo Shutting down in 3 seconds..."; "sleep 3"; "poweroff"].

Definition reboot_script (short_id : string) : string :=
  unlines [
    "#!ipxe"; "# Command: reboot"; "echo [" ++ short_id ++ "] Reboot command received";
    "echo Rebooting in 3 seconds..."; "sleep 3"; "reboot"].

Definition assigned_script (mac short_id : string) (node : NodeRow) : string :=
  unlines [
    "#!ipxe"; "# Workflow assigned - proceeding to install"; ":start";
    "echo [" ++ short_id ++ "] Workflow assigned: " ++ opt_text (workflow_id node);
    "echo Starting installation..."; "chain " ++ server ++ "/api/v1/boot?mac=" ++ mac ++ " || goto retry";
    EmptyString; ":retry"; "echo [" ++ short_id ++ "] Failed to load boot script, retrying in 5s...";
    "sleep 5"; "goto start"].

Definition waiting_script (mac short_id : string) (node : NodeRow) : string :=
  let ip_addr := or_text (ip_address node) "${net0/ip}" in
  unlines [
    "#!ipxe"; "# Still waiting for workflow assignment"; "console --x 800 --y 600 ||"; "clear ||";
    EmptyString; "echo"; "echo ========================================";
    "echo   PureBoot - Awaiting Workflow"; "echo ========================================"; "echo";
    "echo   Node ID:  " ++ short_id; "echo   MAC:      " ++ mac; "echo   IP:       " ++ ip_addr;
    "echo   Status:   Pending"; "echo   Server:   " ++ server; "echo";
    "echo   Assign a workflow in the PureBoot UI."; "echo"; "echo ========================================";
    "echo"; "echo Polling for workflow assignment..."; "echo"; EmptyString; "sleep 10";
    "chain " ++ server ++ "/api/v1/boot/status?mac=" ++ mac ++ " || goto retry"; EmptyString; ":retry";
    "echo Server unreachable, retrying..."; "sleep 5";
    "chain " ++ server ++ "/api/v1/boot/status?mac=" ++ mac ++ " || goto retry"].

Definition wait_or_install (mac short_id : string) (node : NodeRow) : ControllerM string :=
  mret (if String.eqb (node_state node) "pending" && is_set (workflow_id node)
        then assigned_script mac short_id node else waiting_script mac short_id node).

(** [client] is [request.client.host], or [None] if there is no client. *)
Definition get_boot_status (now : Z) (mac : string) (client : option string) : ControllerM string :=
  mac ← validate_mac mac;
  let short_id := short_id_of mac in
  found ← find_by_mac mac;
  match found with
  | None => mret generate_local_boot_script
  | Some node =>
      let f n := n <| last_seen_at := Some now |>
                   <| ip_address ::= fun x => match client with Some c => Some c | None => x end |> in
      update_node (node_id node) f;;
      if is_set (pending_command node) then
        update_node (node_id node) (fun n => n <| pending_command := None |>);;
        let command := opt_text (pending_command node) in
        if String.eqb command "poweroff" then mret (poweroff_script short_id)
        else if String.eqb command "reboot" then mret (reboot_script short_id)
        else wait_or_install mac short_id (f node)
      else wait_or_install mac short_id (f node)
  end.

End Boot.

(** ** Scripts that do not install *)

(** A line that reports, waits or leaves for the local disk. *)
Definition harmless_line (l : string) : bool :=
  String.eqb l "" || startswith "#" l || startswith "echo" l || startswith "sleep " l || String.eqb l "exit".

Definition harmless (script : string) : bool := lines_ok harmless_line script.

(** A line that starts harmlessly may go on with anything. *)
Lemma harmless_line_app w x : startswith "#" w || startswith "echo" w = true -> harmless_line (w ++ x) = true.
Proof.
  unfold harmless_line. rewrite orb_true_iff, !startswith_spec. intros [[r ->]|[r ->]]; rewrite str_app_assoc, startswith_app; by rewrite ?orb_true_r.
Qed.

Lemma timeout_text_lacks (z : Z) : lacks "010" ("Timeout after " ++ pretty z ++ "m") = true.
Proof. rewrite !lacks_app, pretty_lacks_nl. done. Qed.

(** Prove that every line of a script is harmless. *)
Ltac harmless_lines := apply lines_ok_unlines; [done|]; ok_lines ltac:(intros y; by apply harmless_line_app).

Lemma error_script_harmless node msg : clean (mac_address node) -> lacks "010" msg = true ->
  harmless (generate_workflow_error_script node msg) = true.
Proof. intros Hm Hg. assert (clean msg) by (by left). unfold generate_workflow_error_script. harmless_lines. Qed.

Lemma retry_script_harmless node server : clean (mac_address node) -> harmless (generate_install_retry_script node server) = true.
Proof.
  intros Hm. unfold generate_install_retry_script. set (p := pretty _).
  assert (Hp : clean p) by (left; apply pretty_lacks_nl).
  assert (Hp2 : clean (p ++ ")...")) by (left; rewrite lacks_app; unfold p; by rewrite pretty_lacks_nl).
  harmless_lines.
Qed.

Lemma local_script_harmless : harmless generate_local_boot_script = true.
Proof. reflexivity. Qed.

(** ** MAC addresses are clean *)

Lemma hex_not_nl c : is_hex c = true -> Ascii.eqb "010" (ascii_lower (if Ascii.eqb c "-" then ":" else c)) = false.
Proof. destruct c as [[] [] [] [] [] [] [] []]; vm_compute; congruence. Qed.

Lemma mac_sep_not_nl c : Ascii.eqb c ":" || Ascii.eqb c "-" = true ->
  Ascii.eqb "010" (ascii_lower (if Ascii.eqb c "-" then ":" else c)) = false.
Proof. destruct c as [[] [] [] [] [] [] [] []]; vm_compute; congruence. Qed.

Lemma normalize_cons c s :
  normalize_mac (String c s) = String (ascii_lower (if Ascii.eqb c "-" then ":" else c)) (normalize_mac s).
Proof. done. Qed.

Lemma mac_groups_clean n s : mac_groups n s = true -> clean (normalize_mac s).
Proof.
  revert s. induction n as [|n IH]; intros s; (destruct s as [|a [|b r]]; [done|done|]).
  - cbn [mac_groups]. intros [[Ha Hb]%andb_true_iff Hr]%andb_true_iff.
    rewrite !normalize_cons. apply clean_cons; [by apply hex_not_nl|]. apply clean_cons; [by apply hex_not_nl|].
    apply orb_true_iff in Hr as [->%String.eqb_eq | ->%String.eqb_eq]; [by left|right; by exists ""].
  - destruct r as [|c r]; [done|]. cbn [mac_groups]. intros [[[Ha Hb]%andb_true_iff Hc]%andb_true_iff Hr]%andb_true_iff.
    rewrite !normalize_cons. apply clean_cons; [by apply hex_not_nl|]. apply clean_cons; [by apply hex_not_nl|].
    apply clean_cons; [by apply mac_sep_not_nl|]. by apply IH.
Qed.

(** ** The endpoints step by step *)

(** The keys of the table. *)
Definition nodes_keyed (d : Database) : Prop :=
  keys_unique node_id (nodes d) /\ keys_unique mac_address (nodes d).

Definition update_nodes (id : string) (f : NodeRow -> NodeRow) (c : Controller) : Controller :=
  c <| db ::= fun d => d <| nodes ::= fun t => (sql_update (has_key node_id id) f t).1 |> |>.

Lemma find_updated_node (key : NodeRow -> string) n f c k :
  (forall r, r ∈ nodes (db c) -> node_id r = node_id n -> key (f r) = key r) ->
  sql_find key k (nodes (db c)) = Some n ->
  sql_find key k (nodes (db (update_nodes (node_id n) f c))) = Some (f n).
Proof.
  intros Hk Hn. change (nodes (db (update_nodes (node_id n) f c))) with (sql_update (has_key node_id (node_id n)) f (nodes (db c))).1.
  rewrite sql_find_update_on, Hn by (intros r Hr ?%has_key_true; by apply Hk). cbn. by rewrite (proj2 (has_key_true node_id _ n)).
Qed.

Lemma find_by_id d n mac :
  keys_unique node_id (nodes d) -> sql_find mac_address mac (nodes d) = Some n ->
  sql_find node_id (node_id n) (nodes d) = Some n.
Proof. intros Hu Hn. apply sql_find_Some; [done| |done]. by apply sql_find_Some_1 in Hn as [? _]. Qed.

(** A failed attempt of the node in row [n]. *)
Lemma failure_on_node now error n c :
  keys_unique node_id (nodes (db c)) ->
  sql_find node_id (node_id n) (nodes (db c)) = Some n -> node_state n = "installing" ->
  exists n' c', on_node (node_id n) (StateTransitionService.handle_install_failure now error) c = (Ok tt, c')
    /\ node_id n' = node_id n /\ mac_address n' = mac_address n
    /\ (forall key k, key n' = key n -> sql_find key k (nodes (db c)) = Some n -> sql_find key k (nodes (db c')) = Some n')
    /\ map node_id (nodes (db c')) = map node_id (nodes (db c))
    /\ map mac_address (nodes (db c')) = map mac_address (nodes (db c))
    /\ n_install_attempts (core n') = (n_install_attempts (core n) + 1)%Z
    /\ node_state n' = (if (n_install_attempts (core n) + 1 <? 3)%Z then "installing" else "install_failed").
Proof.
  intros Hu Hn Hs. unfold on_node. rewrite Hn.
  destruct (handle_install_failure_run now error
              {| s_node := core n; s_logs := node_logs (db c); s_events := node_events (db c) |} Hs)
    as (s' & E & Ei & Em & Ea & _ & Es).
  rewrite E. set (f := fun r => r <| core := s_node s' |>). exists (f n). eexists. split; [reflexivity|].
  assert (Heq : forall r, r ∈ nodes (db c) -> node_id r = node_id n -> r = n).
  { intros r Hr. apply (key_elem_inj node_id (nodes (db c)) r n Hu Hr). by apply sql_find_Some_1 in Hn as [? _]. }
  assert (Hmap : forall (key : NodeRow -> string), key (f n) = key n ->
            map key (map (fun r => if has_key node_id (node_id n) r then f r else r) (nodes (db c))) = map key (nodes (db c))).
  { intros key Hk. rewrite map_map. apply map_ext_in. intros r Hr.
    destruct (has_key node_id (node_id n) r) eqn:Ek; [|done]. apply has_key_true in Ek.
    apply list_elem_of_In in Hr. by rewrite (Heq r Hr Ek). }
  split; [exact Ei|]. split; [exact Em|]. split; [|split; [by apply Hmap|split; [by apply Hmap|by split]]].
  intros key k Hk Hf.
  apply (find_updated_node key n f c k); [|done]. intros r Hr Hi. by rewrite (Heq r Hr Hi).
Qed.

#[local] Opaque generate_local_boot_script generate_workflow_error_script generate_install_retry_script
  generate_install_script generate_pending_no_workflow_script.

Section BootProofs.
Context {P : Pydantic}.
Variable auto_register : bool.
Variable default_group_id : option string.
Variable install_timeout_minutes : Z.
Variable server : string.
Variable reads_aware : bool.
Variables (workflows_dir : PurePath) (resolve : PurePath -> PurePath) (exists_ : PurePath -> bool)
  (load : PurePath -> load_result).

#[local] Abbreviation boot := (get_boot_script auto_register default_group_id install_timeout_minutes server
  reads_aware workflows_dir resolve exists_ load).
#[local] Abbreviation state_script := (script_for_state install_timeout_minutes server reads_aware
  workflows_dir resolve exists_ load).

Lemma boot_run now id mac ip v m s u c :
  boot now id mac ip v m s u c =
  if MAC_PATTERN mac then
    match sql_find mac_address (normalize_mac mac) (nodes (db c)) with
    | None =>
        if auto_register then
          match sql_insert node_id (register_node default_group_id now id (normalize_mac mac) ip v m s u) (nodes (db c)) with
          | None => (Err IntegrityError, c)
          | Some t => (Ok generate_local_boot_script, c <| db ::= fun d => d <| nodes := t |> |>)
          end
        else (Ok generate_local_boot_script, c)
    | Some n =>
        let f := touch_node now ip v m s u in
        state_script now (f n) (update_nodes (node_id n) f c)
    end
  else (Err (HTTPException 400 ("Invalid MAC address: " ++ mac)), c).
Proof.
  unfold get_boot_script, validate_mac. destruct (MAC_PATTERN mac); [|done]. cbn [negb].
  rewrite (bind_Ok _ _ c (normalize_mac mac) c) by done.
  rewrite (bind_Ok _ _ c (sql_find mac_address (normalize_mac mac) (nodes (db c))) c) by done.
  destruct (sql_find _ _ _) as [n|]; [done|]. destruct auto_register; [|done]. cbn [negb].
  rewrite (bind_Ok _ _ c (db c) c) by done. by destruct (sql_insert _ _ _).
Qed.

Lemma touch_node_keys now ip v m s u n :
  node_id (touch_node now ip v m s u n) = node_id n /\ mac_address (touch_node now ip v m s u n) = mac_address n
  /\ core (touch_node now ip v m s u n) = core n /\ workflow_id (touch_node now ip v m s u n) = workflow_id n.
Proof. done. Qed.

(** The installing branch, when the node's clock started at [t]. *)
Definition timed_out (now t : Z) : bool :=
  (0 <? install_timeout_minutes)%Z && (install_timeout_minutes * 60 * 1000000 <? now - t)%Z.

Lemma installing_run now n c :
  keys_unique node_id (nodes (db c)) -> sql_find node_id (node_id n) (nodes (db c)) = Some n ->
  node_state n = "installing" ->
  match n_state_changed_at (core n) with
  | Some t =>
      if (0 <? install_timeout_minutes)%Z then
        if reads_aware then
          if timed_out now t then
            exists n' c', installing_script install_timeout_minutes server reads_aware now n c
              = (Ok (if (n_install_attempts (core n) + 1 <? 3)%Z then generate_install_retry_script n' server
                     else generate_workflow_error_script n' ("Timeout after " ++ pretty install_timeout_minutes ++ "m")), c')
              /\ mac_address n' = mac_address n
              /\ (forall key k, key n' = key n -> sql_find key k (nodes (db c)) = Some n -> sql_find key k (nodes (db c')) = Some n')
              /\ map node_id (nodes (db c')) = map node_id (nodes (db c))
              /\ map mac_address (nodes (db c')) = map mac_address (nodes (db c))
              /\ n_install_attempts (core n') = (n_install_attempts (core n) + 1)%Z
              /\ node_state n' = (if (n_install_attempts (core n) + 1 <? 3)%Z then "installing" else "install_failed")
          else installing_script install_timeout_minutes server reads_aware now n c = (Ok generate_local_boot_script, c)
        else installing_script install_timeout_minutes server reads_aware now n c = (Err TypeError, c)
      else installing_script install_timeout_minutes server reads_aware now n c = (Ok generate_local_boot_script, c)
  | None => installing_script install_timeout_minutes server reads_aware now n c = (Ok generate_local_boot_script, c)
  end.
Proof.
  intros Hu Hn Hs. unfold installing_script, timed_out. destruct (n_state_changed_at (core n)) as [t|]; [|done].
  destruct (0 <? install_timeout_minutes)%Z; [|done]. unfold elapsed_since. destruct reads_aware; [|done].
  rewrite (bind_Ok _ _ c (now - t)%Z c) by done. cbn [andb]. destruct (_ <? now - t)%Z; [|done].
  destruct (failure_on_node now (Some (timeout_error install_timeout_minutes)) n c Hu Hn Hs)
    as (n' & c' & E & Hi & Hm & Hk & H1 & H2 & Ha & Hst).
  exists n', c'. rewrite (bind_Ok _ _ _ _ _ E).
  rewrite (bind_Ok _ _ c' (Some n') c') by (rewrite find_node_run, (Hk node_id) by done; done).
  cbn [default from_option id]. rewrite Hst. destruct (_ <? 3)%Z; by split.
Qed.

(** Below [pending], only harmless scripts. *)
Lemma state_script_harmless now n c script c' :
  keys_unique node_id (nodes (db c)) -> sql_find node_id (node_id n) (nodes (db c)) = Some n ->
  clean (mac_address n) -> node_state n ≠ "pending" -> state_script now n c = (Ok script, c') -> harmless script = true.
Proof.
  intros Hu Hn Hmac Hst. unfold script_for_state. rewrite (proj2 (String.eqb_neq _ _) Hst).
  destruct (String.eqb_spec (node_state n) "installing") as [E|_]; [|intros [= <- _]; apply local_script_harmless].
  pose proof (installing_run now n c Hu Hn E) as Hr. clear Hst.
  destruct (n_state_changed_at (core n)) as [t|]; [|rewrite Hr; intros [= <- _]; apply local_script_harmless].
  destruct (0 <? install_timeout_minutes)%Z; [|rewrite Hr; intros [= <- _]; apply local_script_harmless].
  destruct reads_aware; [|by rewrite Hr].
  destruct (timed_out now t); [|rewrite Hr; intros [= <- _]; apply local_script_harmless].
  destruct Hr as (n' & c2 & Hr & Hm & _). rewrite Hr. intros [= <- _].
  destruct (_ <? 3)%Z; [apply retry_script_harmless; by rewrite Hm|].
  apply error_script_harmless; [by rewrite Hm|apply timeout_text_lacks].
Qed.

Lemma state_script_installing now n c :
  node_state n = "installing" ->
  state_script now n c = installing_script install_timeout_minutes server reads_aware now n c.
Proof. intros E. unfold script_for_state. by rewrite E. Qed.

(** The row of a machine after it was touched. *)
Lemma touched_row mac now ip v m s u n c :
  keys_unique node_id (nodes (db c)) -> sql_find mac_address mac (nodes (db c)) = Some n ->
  let n1 := touch_node now ip v m s u n in
  let c1 := update_nodes (node_id n) (touch_node now ip v m s u) c in
  keys_unique node_id (nodes (db c1)) /\ sql_find node_id (node_id n1) (nodes (db c1)) = Some n1
  /\ sql_find mac_address mac (nodes (db c1)) = Some n1 /\ mac_address n1 = mac.
Proof.
  intros Hu Hn n1 c1. split; [by apply keys_unique_update|].
  split; [|split; [by apply find_updated_node|by apply sql_find_Some_1 in Hn as [_ E]]].
  apply find_updated_node; [done|]. exact (find_by_id (db c) n mac Hu Hn).
Qed.

(** C11: a machine whose node is not waiting for an installation is only ever told
    to report, wait and boot from its disk: a script with any other command goes
    to a registered node in state [pending]. *)
Theorem only_pending_nodes_are_installed now id mac ip v m s u c script c' :
  keys_unique node_id (nodes (db c)) -> boot now id mac ip v m s u c = (Ok script, c') ->
  harmless script = true \/
  exists n, sql_find mac_address (normalize_mac mac) (nodes (db c)) = Some n /\ node_state n = "pending".
Proof.
  intros Hu. rewrite boot_run. destruct (MAC_PATTERN mac) eqn:Ep; [|done]. apply mac_groups_clean in Ep.
  destruct (sql_find _ _ _) as [n|] eqn:En.
  - destruct (touched_row _ now ip v m s u n c Hu En) as (Hu1 & Hn1 & _ & Hm). intros H.
    destruct (String.eqb_spec (node_state n) "pending") as [E|Hst]; [right; by exists n|]. left.
    refine (state_script_harmless now _ _ script c' Hu1 Hn1 _ Hst H). by rewrite Hm.
  - destruct auto_register; [destruct (sql_insert _ _ _); [|done]|]; intros [= <- _]; left; apply local_script_harmless.
Qed.

(** The boot of a node that installs longer than the timeout is a failed
    attempt: it is counted, and the third one ends in [install_failed].  Below
    the timeout nothing happens.  With a driver that returns naive datetimes the
    request fails instead, timed out or not. *)
Theorem boot_timeout_is_a_failed_attempt now id mac ip v m s u c n t :
  keys_unique node_id (nodes (db c)) -> MAC_PATTERN mac = true ->
  sql_find mac_address (normalize_mac mac) (nodes (db c)) = Some n -> node_state n = "installing" ->
  n_state_changed_at (core n) = Some t -> (0 < install_timeout_minutes)%Z ->
  let r := request (boot now id mac ip v m s u) c in
  if reads_aware then
    exists n', sql_find mac_address (normalize_mac mac) (nodes (db r.2)) = Some n'
    /\ if timed_out now t then
         n_install_attempts (core n') = (n_install_attempts (core n) + 1)%Z
         /\ (if (n_install_attempts (core n) + 1 <? 3)%Z
             then r.1 = Ok (generate_install_retry_script n' server) /\ node_state n' = "installing"
             else r.1 = Ok (generate_workflow_error_script n' ("Timeout after " ++ pretty install_timeout_minutes ++ "m"))
                  /\ node_state n' = "install_failed")
       else r.1 = Ok generate_local_boot_script /\ core n' = core n
  else r.1 = Err TypeError /\ db r.2 = db c.
Proof.
  intros Hu Hp Hn Hs Ht Hto. destruct (touched_row _ now ip v m s u n c Hu Hn) as (Hu1 & Hn1 & Hm1 & _).
  unfold request. rewrite boot_run, Hp, Hn. cbv zeta. revert Hu1 Hn1 Hm1.
  set (n1 := touch_node now ip v m s u n). set (c1 := update_nodes _ _ c). intros Hu1 Hn1 Hm1.
  rewrite (state_script_installing now n1 c1 Hs).
  pose proof (installing_run now n1 c1 Hu1 Hn1 Hs) as Hr. change (core n1) with (core n) in Hr.
  rewrite Ht, (proj2 (Z.ltb_lt _ _) Hto) in Hr. destruct reads_aware; [|by rewrite Hr].
  destruct (timed_out now t); [|rewrite Hr; by exists n1].
  destruct Hr as (n' & c2 & Hr & Hm & Hk & _ & _ & Ha & Hst). rewrite Hr. exists n'.
  split; [apply (Hk mac_address); [exact Hm|exact Hm1]|]. split; [exact Ha|]. by destruct (_ <? 3)%Z.
Qed.

(** *** Registration *)

Lemma state_script_keys now n c script c' :
  keys_unique node_id (nodes (db c)) -> sql_find node_id (node_id n) (nodes (db c)) = Some n ->
  state_script now n c = (Ok script, c') ->
  map node_id (nodes (db c')) = map node_id (nodes (db c)) /\ map mac_address (nodes (db c')) = map mac_address (nodes (db c)).
Proof.
  intros Hu Hn. unfold script_for_state. destruct (String.eqb_spec (node_state n) "pending") as [_|_].
  - unfold pending_script. destruct (workflow_id n) as [w|]; [|by intros [= _ <-]].
    destruct (String.eqb w ""); [by intros [= _ <-]|]. destruct (node_workflow _ _ _ _ _ _ _) as [x|[]]; by intros [= _ <-].
  - destruct (String.eqb_spec (node_state n) "installing") as [E|_]; [|by intros [= _ <-]].
    pose proof (installing_run now n c Hu Hn E) as Hr.
    destruct (n_state_changed_at (core n)) as [t|]; [|rewrite Hr; by intros [= _ <-]].
    destruct (0 <? install_timeout_minutes)%Z; [|rewrite Hr; by intros [= _ <-]].
    destruct reads_aware; [|by rewrite Hr]. destruct (timed_out now t); [|rewrite Hr; by intros [= _ <-]].
    destruct Hr as (n' & c2 & Hr & _ & _ & H1 & H2 & _). rewrite Hr. by intros [= _ <-].
Qed.

Record boot_request := {
  b_now : Z; b_id : string; b_mac : string; b_ip : option string; b_vendor : option string;
  b_model : option string; b_serial : option string; b_uuid : option string
}.

Definition serve_boot (r : boot_request) : ControllerM string :=
  boot (b_now r) (b_id r) (b_mac r) (b_ip r) (b_vendor r) (b_model r) (b_serial r) (b_uuid r).

Definition run_boots (rs : list boot_request) (c : Controller) : Controller :=
  fold_left (fun c r => (request (serve_boot r) c).2) rs c.

(** A boot request leaves the keys as they are or adds the machine. *)
Lemma boot_step r c :
  nodes_keyed (db c) ->
  let c' := (request (serve_boot r) c).2 in
  nodes_keyed (db c')
  /\ (forall m, m ∈ map mac_address (nodes (db c)) -> m ∈ map mac_address (nodes (db c')))
  /\ (is_ok (request (serve_boot r) c).1 = true -> auto_register = true ->
        normalize_mac (b_mac r) ∈ map mac_address (nodes (db c'))).
Proof.
  intros [Hu Hm] c'. subst c'. unfold request. destruct (serve_boot r c) as [[script|e] c'] eqn:E; cbn [fst snd is_ok]; [|by split].
  unfold serve_boot in E. rewrite boot_run in E. destruct (MAC_PATTERN (b_mac r)); [|done].
  destruct (sql_find _ _ _) as [n|] eqn:En.
  - cbv zeta in E. destruct (touched_row _ (b_now r) (b_ip r) (b_vendor r) (b_model r) (b_serial r) (b_uuid r) n c Hu En) as (Hu1 & Hn1 & _ & _).
    destruct (state_script_keys _ _ _ _ _ Hu1 Hn1 E) as [H1 H2].
    assert (K1 : map node_id (nodes (db c')) = map node_id (nodes (db c))) by (rewrite H1; by apply update_keys).
    assert (K2 : map mac_address (nodes (db c')) = map mac_address (nodes (db c))) by (rewrite H2; by apply update_keys).
    split; [|split].
    + unfold nodes_keyed, keys_unique in *. change (NoDup (map node_id (nodes (db c'))) /\ NoDup (map mac_address (nodes (db c')))).
      by rewrite K1, K2.
    + intros m. by rewrite K2.
    + intros _ _. rewrite K2. apply sql_find_Some_1 in En as [Hin <-]. by apply list_elem_of_In, in_map, list_elem_of_In.
  - destruct auto_register; [|by injection E as _ <-].
    destruct (sql_insert _ _ _) as [t|] eqn:Ei; [|done]. injection E as _ <-. cbn [db nodes]. cbn -[sql_insert].
    pose proof (keys_unique_insert node_id _ _ _ Hu Ei) as Hu'. unfold sql_insert in Ei.
    destruct (sql_find node_id _ _); [done|]. injection Ei as <-. rewrite map_app. split; [split; [done|]|split].
    + unfold keys_unique. cbn [nodes]. rewrite fmap_app. apply NoDup_app. split; [done|]. split; [|apply NoDup_singleton].
      intros m Hin ->%list_elem_of_singleton. by apply sql_find_None in En.
    + intros m H. apply elem_of_app. by left.
    + intros _ _. apply elem_of_app. right. apply list_elem_of_here.
Qed.

(** A machine is registered once and for all: after a boot that was answered,
    whatever boots later and however the address is spelled, its address is in
    the table, and no address and no identifier is there twice. *)
Theorem machines_are_registered_once r rs c :
  nodes_keyed (db c) -> auto_register = true -> is_ok (request (serve_boot r) c).1 = true ->
  let d := db (run_boots (r :: rs) c) in
  nodes_keyed d /\ normalize_mac (b_mac r) ∈ map mac_address (nodes d).
Proof.
  intros Hk Ha Hok d. subst d. cbn [run_boots fold_left].
  destruct (boot_step r c Hk) as (H1 & _ & H3). specialize (H3 Hok Ha). revert H1 H3.
  generalize (request (serve_boot r) c).2. clear -Ha. intros c H1 H3. revert c H1 H3.
  induction rs as [|x rs IH]; intros c H1 H3; [done|]. cbn [fold_left].
  destruct (boot_step x c H1) as (H4 & H5 & _). apply IH; [done|by apply H5].
Qed.

(** *** Cloning *)

(** The scripts of a node that waits for a workflow nobody can load. *)
Lemma pending_without_file now n c w :
  node_state n = "pending" -> workflow_id n = Some w -> w ≠ "" ->
  (forall ext, exists_ (workflow_path workflows_dir resolve w ext) = false) ->
  state_script now n c = (Ok (generate_workflow_error_script n ("Workflow '" ++ w ++ "' not found")), c).
Proof.
  intros Hs Hw Hne Hex. unfold script_for_state. rewrite Hs. change (String.eqb "pending" "pending") with true. cbv iota.
  unfold pending_script, not_found_message. rewrite Hw, (proj2 (String.eqb_neq _ _) Hne). cbn [opt_text default from_option id].
  assert (H : exists e, get_workflow workflows_dir resolve exists_ load w = Err e /\ forall x, e ≠ OtherError x).
  { unfold get_workflow, _validate_workflow_path. assert (Ht : exists o, try_extensions workflows_dir resolve exists_ w extensions = o
      /\ (o = Ok None \/ o = Err (InvalidWorkflowId w))) by (cbn; rewrite !Hex; repeat case_match; eauto).
    destruct Ht as (o & -> & [-> | ->]); eexists; by split. }
  destruct H as (e & He & Hne2). unfold node_workflow. rewrite He. cbn. by destruct e; [..|destruct (Hne2 e)].
Qed.

(** Starting a clone session makes the source boot nothing.  The start puts
    the node in [pending] behind the back of the lifecycle: nothing is logged,
    and from [active] and [installed] the step is illegal.  The workflow it
    assigns names a session and not a file, and the boot endpoint, which knows
    no such names, answers the node's next boot with an error. *)
Theorem clone_source_boots_into_an_error init cert now now2 sid s n mac id ip v m se u c :
  keys_unique node_id (nodes (db c)) -> sql_find cs_id sid (clone_sessions (db c)) = Some s -> cs_status s = "pending" ->
  sql_find node_id (cs_source_node_id s) (nodes (db c)) = Some n ->
  node_state n ∈ clone_boot_states ->
  MAC_PATTERN mac = true -> sql_find mac_address (normalize_mac mac) (nodes (db c)) = Some n ->
  let w := "clone-source:" ++ cs_id s ++ ":" ++ cs_source_device s in
  (forall ext, exists_ (workflow_path workflows_dir resolve w ext) = false) ->
  exists mode c1 n2 c2,
    start_clone_session init cert now sid c = (Ok mode, c1)
    /\ node_logs (db c1) = node_logs (db c)
    /\ (node_state n = "discovered" \/ NodeStateMachine.can_transition (node_state n) "pending" = false)
    /\ boot now2 id mac ip v m se u c1 = (Ok (generate_workflow_error_script n2 ("Workflow '" ++ w ++ "' not found")), c2)
    /\ node_id n2 = node_id n /\ node_state n2 = "pending".
Proof.
  intros Hu Hs Hp Hn Hst Hmac Hnm w Hex.
  destruct (start_clone_session_run init cert now sid s n c Hs Hp Hn) as (mode & c1 & E & El & En). fold w in En.
  pose proof (sql_find_Some_1 _ _ _ _ Hn) as [_ Hid]. rewrite <- Hid in En.
  set (f := trigger_clone_boot now w) in *.
  assert (Ef : f n = (n <| workflow_id := Some w |>) <| core ::= with_state now "pending" |>).
  { unfold f, trigger_clone_boot. change (node_state (n <| workflow_id := Some w |>)) with (node_state n).
    by rewrite (existsb_elem_2 _ _ Hst). }
  assert (Hn1 : sql_find mac_address (normalize_mac mac) (nodes (db c1)) = Some (f n)).
  { rewrite En. apply (find_updated_node mac_address n f c); [|done]. intros r _ _. unfold f, trigger_clone_boot. by destruct (existsb _ _). }
  assert (Hu1 : keys_unique node_id (nodes (db c1))) by (rewrite En; apply keys_unique_update; [apply trigger_clone_boot_id|done]).
  assert (Hc : node_state n = "discovered" \/ NodeStateMachine.can_transition (node_state n) "pending" = false).
  { apply elem_of_cons in Hst as [->|Hst]; [by left|right].
    apply elem_of_cons in Hst as [->|Hst]; [done|]. by apply list_elem_of_singleton in Hst as ->. }
  set (n2 := touch_node now2 ip v m se u (f n)). exists mode, c1, n2. eexists. split; [exact E|]. split; [exact El|].
  split; [exact Hc|]. rewrite boot_run, Hmac, Hn1. cbv zeta. split.
  - apply pending_without_file; [|unfold n2; rewrite Ef; done|done|done]. unfold n2. by rewrite Ef.
  - unfold n2. rewrite Ef. done.
Qed.

End BootProofs.

(** ** Examples *)

Definition demo_node (st : string) (changed : option Z) : NodeRow :=
  (new_node "n" "aa:bb:cc:dd:ee:ff") <| core ::= fun x =>
    {| n_id := n_id x; n_mac_address := n_mac_address x; n_state := st; n_state_changed_at := changed;
       n_install_attempts := 2; n_last_install_error := None; n_boot_count := 0; n_last_boot_at := None |} |>.
Definition demo_db (n : NodeRow) : Controller := {| db := empty_db <| nodes := [n] |>; sent := []; pi_nodes := ∅ |}.
Definition no_file (p : PurePath) : bool := false.
Definition no_text (p : PurePath) : load_result := Malformed.

#[local] Abbreviation demo_boot aware := (get_boot_script (P := strict_pydantic) true None 60 "http://s" aware
  (path_of "/w") id no_file no_text).

Lemma only_pending_nodes_are_installed_witness :
  exists script c', demo_boot true 5 "x" "AA-BB-CC-DD-EE-FF" None None None None None (demo_db (demo_node "active" None))
    = (Ok script, c') /\ harmless script = true.
Proof.
  destruct (demo_boot true 5 "x" "AA-BB-CC-DD-EE-FF" None None None None None (demo_db (demo_node "active" None)))
    as [[script|e] c'] eqn:E; [|vm_compute in E; discriminate].
  exists script, c'. split; [reflexivity|].
  destruct (only_pending_nodes_are_installed (P := strict_pydantic) true None 60 "http://s" true (path_of "/w") id no_file no_text
              5 "x" "AA-BB-CC-DD-EE-FF" None None None None None (demo_db (demo_node "active" None)) script c') as [H|(n & H & Hs)].
  - apply NoDup_singleton.
  - exact E.
  - exact H.
  - vm_compute in H. injection H as <-. vm_compute in Hs. discriminate.
Defined.

(** The third timeout, 61 minutes after the installation started. *)
Lemma boot_timeout_is_a_failed_attempt_witness :
  let c := demo_db (demo_node "installing" (Some 0%Z)) in
  let r aware := request (demo_boot aware 3660000001 "x" "aa:bb:cc:dd:ee:ff" None None None None None) c in
  (exists n', sql_find mac_address "aa:bb:cc:dd:ee:ff" (nodes (db (r true).2)) = Some n' /\ node_state n' = "install_failed")
  /\ (r false).1 = Err TypeError.
Proof.
  intros c r.
  pose proof (fun aware => boot_timeout_is_a_failed_attempt (P := strict_pydantic) true None 60 "http://s" aware (path_of "/w") id
    no_file no_text 3660000001 "x" "aa:bb:cc:dd:ee:ff" None None None None None c (demo_node "installing" (Some 0%Z)) 0
    (NoDup_singleton _) eq_refl eq_refl eq_refl eq_refl eq_refl) as H.
  split; [|exact (proj1 (H false))].
  destruct (H true) as (n' & Hn & Ht). exists n'. split; [exact Hn|exact (proj2 (proj2 Ht))].
Defined.

Definition demo_request (mac : string) : boot_request :=
  {| b_now := 1; b_id := "x"; b_mac := mac; b_ip := None; b_vendor := None; b_model := None; b_serial := None; b_uuid := None |}.

Lemma machines_are_registered_once_witness :
  let c := {| db := empty_db; sent := []; pi_nodes := ∅ |} in
  let d := db (run_boots (P := strict_pydantic) true None 60 "http://s" true (path_of "/w") id no_file no_text
                 [demo_request "AA-BB-CC-DD-EE-FF"; demo_request "aa:bb:cc:dd:ee:ff"] c) in
  nodes_keyed d /\ map mac_address (nodes d) = ["aa:bb:cc:dd:ee:ff"].
Proof.
  intros c d. split; [|vm_compute; reflexivity].
  refine (proj1 (machines_are_registered_once (P := strict_pydantic) true None 60 "http://s" true (path_of "/w") id no_file no_text
    (demo_request "AA-BB-CC-DD-EE-FF") [demo_request "aa:bb:cc:dd:ee:ff"] c _ eq_refl _)); [split; constructor|].
  vm_compute. reflexivity.
Defined.

Lemma clone_source_boots_into_an_error_witness :
  let s := Clone.demo_session <| cs_status := "pending" |> <| cs_source_node_id := "n" |> in
  let c := (demo_db (demo_node "active" None)) <| db ::= fun d => d <| clone_sessions := [s] |> |> in
  exists mode c1 n2 c2,
    start_clone_session false (fun _ _ => ("", "")) 1 "s" c = (Ok mode, c1)
    /\ demo_boot true 5 "x" "aa:bb:cc:dd:ee:ff" None None None None None c1
       = (Ok (generate_workflow_error_script n2 "Workflow 'clone-source:s:/dev/sda' not found"), c2).
Proof.
  intros s c.
  destruct (clone_source_boots_into_an_error (P := strict_pydantic) true None 60 "http://s" true (path_of "/w") id no_file no_text
    false (fun _ _ => ("", "")) 1 5 "s" s (demo_node "active" None) "aa:bb:cc:dd:ee:ff" "x" None None None None None c
    (NoDup_singleton _) eq_refl eq_refl eq_refl) as (mode & c1 & n2 & c2 & H1 & _ & _ & H2 & _).
  - apply list_elem_of_further, list_elem_of_here.
  - reflexivity.
  - reflexivity.
  - reflexivity.
  - exists mode, c1, n2, c2. split; [exact H1|exact H2].
Defined.

(** GRUB's menu does not look at the state: an installed node that still has its
    workflow is offered the installation. *)
Example grub_ignores_the_state :
  let n := (demo_node "active" None) <| workflow_id := Some "w" |> in
  let file := JObj [("id", JStr "w"); ("name", JStr "W")] in
  exists w, (get_grub_config (P := strict_pydantic) "http://s" (path_of "/w") id (fun _ => true) (fun _ => Loaded file)
              "aa:bb:cc:dd:ee:ff" (demo_db n)).1 = Ok (grub_workflow "http://s" n w) /\ w_id w = "w".
Proof. eexists. split; reflexivity. Qed.
