(* ===== verification/PiBoot.v ===== *)
(** * Booting Raspberry Pis

    [api/routes/boot_pi.py]: what a Pi is told to do, by serial number, and the
    registration of Pis, which also writes their boot directories (PiManager).
    The files are not part of the database's transaction: what was written stays
    when the request fails.  The workflow service is that of Workflows; [now] and
    [id] are the clock and the fresh uuid. *)
From S2P Require Import Prelude PyStr SqlTable Paths NodeLifecycle PiManager Controller Workflows Boot.
From stdpp Require Import base tactics list gmap strings pretty.
From Stdlib Require Import Ascii ZArith Lia.
Open Scope string_scope.
#[local] Arguments String.append !_ _ : simpl nomatch.

Record PiBootResponse := {
  pr_state : string;
  pr_message : option string;
  pr_action : option string;
  pr_image_url : option string;
  pr_target_device : option string;
  pr_callback_url : option string;
  pr_nfs_server : option string;
  pr_nfs_path : option string
}.

(** A response with the fields that are given; the others are [None]. *)
Definition plain (state message : string) (action : option string) : PiBootResponse :=
  {| pr_state := state; pr_message := Some message; pr_action := action; pr_image_url := None;
     pr_target_device := None; pr_callback_url := None; pr_nfs_server := None; pr_nfs_path := None |}.

(** The validated body of a registration. *)
Record PiRegisterRequest := { rr_serial : string; rr_mac : string; rr_model : string; rr_ip_address : option string }.

Definition valid_models : list string := ["pi3"; "pi3b+"; "cm3"; "pi4"; "pi5"].

(** [None] is a validation error. *)
Definition register_request (serial mac model : string) (ip : option string) : option PiRegisterRequest :=
  if SERIAL_PATTERN (lower serial) && MAC_PATTERN mac && existsb (String.eqb model) valid_models
  then Some {| rr_serial := lower serial; rr_mac := Boot.normalize_mac mac; rr_model := model; rr_ip_address := ip |}
  else None.

Section PiBoot.
Context {P : Pydantic}.
Variable auto_register : bool.
Variable default_group_id : option string.
Variable server : string.                            (* [get_server_url()] *)
Variables (workflows_dir : PurePath) (resolve : PurePath -> PurePath) (exists_ : PurePath -> bool)
  (load : PurePath -> load_result).
Variable default_nfs_server : string.                (* the host, or the primary address *)
Variable nfs_root_path : string.                     (* [str(settings.nfs.root_path)] *)
Variable has : pi_source -> string -> bool.          (* the firmware and the deploy directory *)

Definition has_serial (serial : string) (n : NodeRow) : bool := bool_decide (serial_number n = Some serial).

Definition find_by_serial (serial : string) : ControllerM (option NodeRow) :=
  d ← get_db; scalar_one_or_none (sql_select (has_serial serial) (nodes d)).

(** A flush checks the unique column of the table. *)
Definition flush_nodes : ControllerM unit :=
  d ← get_db; if bool_decide (NoDup (map mac_address (nodes d))) then mret tt else raise IntegrityError.

Definition with_mac (mac : string) (n : Node) : Node :=
  {| n_id := n_id n; n_mac_address := mac; n_state := n_state n; n_state_changed_at := n_state_changed_at n;
     n_install_attempts := n_install_attempts n; n_last_install_error := n_last_install_error n;
     n_boot_count := n_boot_count n; n_last_boot_at := n_last_boot_at n |}.

Definition new_pi (now : Z) (id serial mac model : string) (ip : option string) : NodeRow :=
  (new_node id mac) <| serial_number := Some serial |> <| ip_address := ip |> <| arch := "aarch64" |>
    <| boot_mode := "pi" |> <| pi_model := Some model |> <| group_id := default_group_id |> <| created_at := now |>.

(** The attributes a boot request updates. *)
Definition touch_pi (now : Z) (client_ip mac : option string) (n : NodeRow) : NodeRow :=
  let n := n <| last_seen_at := Some now |> <| ip_address ::= fun x => if is_set client_ip then client_ip else x |> in
  if is_set mac && (String.eqb (mac_address n) "" || startswith "pi-" (mac_address n))
  then n <| core ::= with_mac (default "" mac) |> else n.

Definition first_set (xs : list (option string)) (dflt : string) : string := foldr or_text dflt xs.

Definition _get_workflow_response (node : NodeRow) (workflow : Workflow) : PiBootResponse :=
  let callback_url := server ++ "/api/v1/nodes/" ++ node_id node ++ "/installed" in
  if String.eqb (w_install_method workflow) "image" then
    {| pr_state := "installing"; pr_message := Some ("Deploying " ++ w_name workflow); pr_action := Some "deploy_image";
       pr_image_url := Some (w_image_url workflow); pr_target_device := Some (w_target_device workflow);
       pr_callback_url := Some callback_url; pr_nfs_server := None; pr_nfs_path := None |}
  else if String.eqb (w_install_method workflow) "nfs" then
    let params k := assoc_get k (w_boot_params workflow) in
    {| pr_state := "installing"; pr_message := Some ("NFS boot: " ++ w_name workflow); pr_action := Some "nfs_boot";
       pr_image_url := None; pr_target_device := None; pr_callback_url := Some callback_url;
       pr_nfs_server := Some (first_set [params "nfs_server"] default_nfs_server);
       pr_nfs_path := Some (first_set [params "nfs_path"; params "nfs_base_path"] nfs_root_path) |}
  else plain "pending" ("Workflow method '" ++ w_install_method workflow ++ "' not supported for Pi") (Some "local_boot").

Definition pending_response (node : NodeRow) : ControllerM PiBootResponse :=
  if negb (is_set (workflow_id node))
  then mret (plain "pending" "Pending but no workflow assigned" (Some "local_boot"))
  else
    let w := default "" (workflow_id node) in
    match node_workflow server workflows_dir resolve exists_ load node w with
    | Ok workflow => mret (_get_workflow_response node workflow)
    | Err (OtherError e) => raise e
    | Err _ => mret (plain "pending" ("Workflow '" ++ w ++ "' not found") (Some "local_boot"))
    end.

Definition response_for_state (node : NodeRow) : ControllerM PiBootResponse :=
  let st := node_state node in
  if String.eqb st "discovered" then mret (plain "discovered" "Awaiting workflow assignment" None)
  else if String.eqb st "pending" then pending_response node
  else if String.eqb st "installing" then mret (plain "installing" "Installation in progress" (Some "wait"))
  else if String.eqb st "installed" || String.eqb st "active"
       then mret (plain st "Boot from local storage" (Some "local_boot"))
  else mret (plain st ("State: " ++ st) (Some "local_boot")).

Definition valid_mac (mac : option string) : ControllerM (option string) :=
  match mac with
  | Some m =>
      if String.eqb m "" then mret mac
      else if MAC_PATTERN m then mret (Some (Boot.normalize_mac m))
      else raise (HTTPException 400 ("Invalid MAC address format: " ++ m))
  | None => mret None
  end.

(** [serial] has eight characters, which the query parameter's type sees to. *)
Definition get_pi_boot_instructions (now : Z) (id serial : string) (mac mode client_ip : option string)
    : ControllerM PiBootResponse :=
  let serial := lower serial in
  if negb (validate_serial serial)
  then raise (HTTPException 400 ("Invalid Pi serial number: " ++ serial ++ ". Must be 8 hexadecimal characters."))
  else
    mac ← valid_mac mac;
    found ← find_by_serial serial;
    match found with
    | None =>
        if negb (bool_decide (mode = Some "discovery") || auto_register)
        then mret (plain "unknown" "Node not registered. Auto-registration disabled." (Some "local_boot"))
        else
          insert_node (new_pi now id serial (or_text mac ("pi-" ++ serial)) "pi4" client_ip);;
          on_pi (create_node_directory has serial "pi4" (Some server));;
          mret (plain "discovered" "Node registered. Awaiting workflow assignment." None)
    | Some node =>
        let f := touch_pi now client_ip mac in
        update_node (node_id node) f;;
        r ← response_for_state (f node);
        flush_nodes;;
        mret r
    end.

(** The files of a node that registers again. *)
Definition refresh_directory (serial model : string) : M pi_tree pi_error unit :=
  e ← node_exists serial;
  if (e : bool) then update_config_txt serial model;; update_cmdline_txt serial (Some server)
  else create_node_directory has serial model (Some server);; mret tt.

Definition registered (now : Z) (r : PiRegisterRequest) (ip : option string) (n : NodeRow) : NodeRow :=
  n <| core ::= with_mac (rr_mac r) |> <| pi_model := Some (rr_model r) |>
    <| ip_address ::= fun x => if is_set ip then ip else x |> <| last_seen_at := Some now |>.

Definition register_pi_node (now : Z) (id : string) (r : PiRegisterRequest) (client_ip : option string) : ControllerM string :=
  let serial := rr_serial r in
  let ip := or_else (rr_ip_address r) client_ip in
  found ← find_by_serial serial;
  match found with
  | Some node =>
      update_node (node_id node) (registered now r ip);;
      on_pi (refresh_directory serial (rr_model r));;
      flush_nodes;;
      mret ("Pi node " ++ serial ++ " updated")
  | None =>
      insert_node (new_pi now id serial (rr_mac r) (rr_model r) ip);;
      on_pi (create_node_directory has serial (rr_model r) (Some server));;
      mret ("Pi node " ++ serial ++ " registered")
  end.

End PiBoot.

(** ** Laws *)

Section PiProofs.
Context {P : Pydantic}.
Variable auto_register : bool.
Variable default_group_id : option string.
Variable server : string.
Variables (workflows_dir : PurePath) (resolve : PurePath -> PurePath) (exists_ : PurePath -> bool)
  (load : PurePath -> load_result).
Variable default_nfs_server : string.
Variable nfs_root_path : string.
Variable has : pi_source -> string -> bool.

#[local] Abbreviation pi_boot := (get_pi_boot_instructions auto_register default_group_id server workflows_dir resolve
  exists_ load default_nfs_server nfs_root_path has).
#[local] Abbreviation respond := (response_for_state server workflows_dir resolve exists_ load default_nfs_server nfs_root_path).
Lemma flush_nodes_run c :
  flush_nodes c = (if bool_decide (NoDup (map mac_address (nodes (db c)))) then Ok tt else Err IntegrityError, c).
Proof. unfold flush_nodes. rewrite (bind_Ok get_db _ c (db c) c eq_refl). by case_bool_decide. Qed.

Lemma find_by_serial_run s c :
  find_by_serial s c = scalar_one_or_none (sql_select (has_serial s) (nodes (db c))) c.
Proof. unfold find_by_serial. by rewrite (bind_Ok get_db _ c (db c) c eq_refl). Qed.

Lemma respond_run n c : (respond n c).2 = c.
Proof.
  unfold response_for_state, pending_response. repeat case_match; try done.
  all: unfold mret, M_ret, raise; cbn; repeat case_match; done.
Qed.

(** Only a pending node with a workflow is told to install or to boot a root over NFS. *)
Lemma respond_action n c r c' : respond n c = (Ok r, c') -> pr_action r ∈ [Some "deploy_image"; Some "nfs_boot"] ->
  node_state n = "pending" /\ is_set (workflow_id n) = true.
Proof.
  assert (Hno : forall r a, a ∉ [Some "deploy_image"; Some "nfs_boot"] -> pr_action r = a ->
    pr_action r ∈ [Some "deploy_image"; Some "nfs_boot"] -> False) by (intros x a Ha -> Hin; done).
  assert (Hno2 : forall st m a, (a = None \/ a = Some "local_boot" \/ a = Some "wait") ->
    pr_action (plain st m a) ∈ [Some "deploy_image"; Some "nfs_boot"] -> False).
  { intros st m a Ha Hin. cbn in Hin. apply list_elem_of_In in Hin. destruct Ha as [-> | [-> | ->]]; cbn in Hin; naive_solver. }
  unfold response_for_state. destruct (String.eqb (node_state n) "discovered").
  { intros [= <- _] H. destruct (Hno2 _ _ _ (or_introl eq_refl) H). }
  destruct (String.eqb_spec (node_state n) "pending") as [Hp|_].
  - unfold pending_response. destruct (is_set (workflow_id n)) eqn:Ew; [done|].
    intros [= <- _] H. destruct (Hno2 _ _ _ (or_intror (or_introl eq_refl)) H).
  - destruct (String.eqb (node_state n) "installing").
    { intros [= <- _] H. destruct (Hno2 _ _ _ (or_intror (or_intror eq_refl)) H). }
    destruct (_ || _); intros [= <- _] H; destruct (Hno2 _ _ _ (or_intror (or_introl eq_refl)) H).
Qed.

Lemma touch_pi_keeps now ip mac n : node_id (touch_pi now ip mac n) = node_id n /\ node_state (touch_pi now ip mac n) = node_state n
  /\ workflow_id (touch_pi now ip mac n) = workflow_id n /\ serial_number (touch_pi now ip mac n) = serial_number n.
Proof. unfold touch_pi. by destruct (is_set mac && _). Qed.

Definition mac_value (mac : option string) : option string :=
  match mac with Some m => if String.eqb m "" then mac else Some (Boot.normalize_mac m) | None => None end.

Lemma valid_mac_run mac c : exists e, valid_mac mac c = (match e with None => Ok (mac_value mac) | Some x => Err x end, c).
Proof.
  unfold valid_mac, mac_value. destruct mac as [m|]; [|by exists None]. destruct (String.eqb m ""); [by exists None|].
  destruct (MAC_PATTERN m); [by exists None|by eexists (Some _)].
Qed.

(** The boot instructions of a Pi in full. *)
Lemma pi_boot_run now id serial mac mode ip c :
  match request (pi_boot now id serial mac mode ip) c with
  | (Err e, c') => db c' = db c
  | (Ok r, c') =>
      (db c' = db c /\ pr_action r = Some "local_boot") \/
      (exists n, nodes (db c') = (nodes (db c) ++ [n])%list /\ node_state n = "discovered" /\ node_logs (db c') = node_logs (db c)
         /\ pr_action r = None) \/
      (exists n f, sql_select (has_serial (lower serial)) (nodes (db c)) = [n] /\ f = touch_pi now ip (mac_value mac) /\
         db c' = (db c) <| nodes ::= fun t => (sql_update (has_key node_id (node_id n)) f t).1 |> /\
         respond (f n) c' = (Ok r, c'))
  end.
Proof.
  destruct (request _ c) as [[r|e] c'] eqn:E; [|by eapply request_Err].
  apply (proj1 (request_Ok _ _ _ _)) in E. unfold get_pi_boot_instructions in E.
  destruct (negb (validate_serial (lower serial))); [done|].
  set (mac2 := mac_value mac). destruct (valid_mac_run mac c) as [ev Ev]. fold mac2 in Ev.
  destruct ev as [x|]; [by rewrite (bind_Err _ _ _ _ _ Ev) in E|]. rewrite (bind_Ok _ _ _ _ _ Ev) in E.
  destruct (sql_select (has_serial (lower serial)) (nodes (db c))) as [|n [|]] eqn:Es.
  - rewrite (bind_Ok _ _ c None c) in E by (rewrite find_by_serial_run, Es; done).
    destruct (negb _); [left; by injection E as <- <-|]. right; left.
    revert E. unfold mbind at 1, M_bind at 1. rewrite insert_node_run. destruct (existsb _ _ || _); [done|].
    rewrite (bind_Ok _ _ _ _ _ (on_pi_run _ _)). intros [= <- <-]. eexists. by split.
  - rewrite (bind_Ok _ _ c (Some n) c) in E by (rewrite find_by_serial_run, Es; done). right; right. exists n, (touch_pi now ip mac2).
    set (f := touch_pi now ip mac2) in *. set (c1 := c <| db ::= fun d => d <| nodes ::= fun t => (sql_update (has_key node_id (node_id n)) f t).1 |> |>).
    rewrite (bind_Ok _ _ c tt c1) in E by done. pose proof (respond_run (f n) c1) as H2.
    destruct (respond (f n) c1) as [[r'|e'] c2] eqn:Er; cbn in H2; subst c2; [|by rewrite (bind_Err _ _ _ _ _ Er) in E].
    rewrite (bind_Ok _ _ _ _ _ Er) in E. revert E. unfold mbind, M_bind at 1. rewrite flush_nodes_run. case_bool_decide; [|done].
    intros [= <- <-]. by split; [|split; [|split]].
  - revert E. unfold mbind at 1, M_bind at 1. by rewrite find_by_serial_run, Es.
Qed.

(** Asking for boot instructions never moves a Pi.  Whatever the answer, every node
    keeps its state and nothing is logged, at most one node is added, as discovered;
    an answer to deploy an image or boot over NFS is given only for a node with that
    serial number that is pending and has a workflow. *)
Theorem pi_boot_moves_no_node now id serial mac mode ip c :
  keys_unique node_id (nodes (db c)) ->
  let '(r, c') := request (pi_boot now id serial mac mode ip) c in
  node_logs (db c') = node_logs (db c) /\
  (exists added, map (fun n => (node_id n, node_state n)) (nodes (db c'))
     = (map (fun n => (node_id n, node_state n)) (nodes (db c)) ++ added)%list /\
     (length added <= 1)%nat /\ Forall (fun p => p.2 = "discovered") added) /\
  forall a, r = Ok a -> pr_action a ∈ [Some "deploy_image"; Some "nfs_boot"] ->
    exists n, n ∈ nodes (db c) /\ serial_number n = Some (lower serial) /\ node_state n = "pending" /\ is_set (workflow_id n) = true.
Proof.
  intros Hu. pose proof (pi_boot_run now id serial mac mode ip c) as H. destruct (request _ c) as [[r|e] c'].
  2:{ rewrite H. split; [done|]. split; [|done]. exists []. rewrite app_nil_r. by split; [|split; [cbn; lia|]]. }
  destruct H as [[Hd Ha]|[(n & Hn & Hst & Hl & Ha)|(n & f & Hs & Hf & Hd & Hr)]].
  - rewrite Hd. split; [done|]. split; [exists []; rewrite app_nil_r; by split; [|split; [cbn; lia|]]|].
    intros a [= <-]. rewrite Ha. intros H%list_elem_of_In. cbn in H. naive_solver.
  - split; [done|]. split.
    + rewrite Hn. exists [(node_id n, node_state n)]. rewrite map_app. split; [done|]. split; [done|].
      apply Forall_cons_2; [exact Hst|apply Forall_nil_2].
    + intros a [= <-]. rewrite Ha. intros H%list_elem_of_In. cbn in H. naive_solver.
  - assert (Hin : n ∈ sql_select (has_serial (lower serial)) (nodes (db c))) by (rewrite Hs; apply list_elem_of_here).
    apply elem_of_sql_select in Hin as [Hin Hser]. unfold has_serial in Hser. apply bool_decide_eq_true in Hser.
    rewrite Hd. split; [done|]. split.
    + exists []. rewrite app_nil_r. split; [|split; [cbn; lia|done]]. cbn. rewrite map_map. apply map_ext. intros x.
      destruct (has_key _ _ _); [|done]. rewrite Hf. by destruct (touch_pi_keeps now ip (mac_value mac) x) as (-> & -> & _).
    + intros a [= <-] Ha. destruct (respond_action _ _ _ _ Hr Ha) as [H1 H2]. exists n. split; [done|]. split; [done|].
      rewrite Hf in H1, H2. destruct (touch_pi_keeps now ip (mac_value mac) n) as (_ & H3 & H4 & _).
      by rewrite H3 in H1; rewrite H4 in H2.
Qed.

(** The workflow's own NFS parameters never reach a Pi: substituting the node's values
    makes a workflow without parameters, so the answer has the defaults. *)
Theorem nfs_parameters_are_ignored node w workflow :
  node_workflow server workflows_dir resolve exists_ load node w = Ok workflow ->
  w_install_method workflow = "nfs" ->
  let r := _get_workflow_response server default_nfs_server nfs_root_path node workflow in
  pr_nfs_server r = Some default_nfs_server /\ pr_nfs_path r = Some nfs_root_path.
Proof.
  unfold node_workflow. destruct (get_workflow _ _ _ _ w) as [x|]; [|done]. cbn [mbind result_bind].
  intros [= <-] Hm. unfold _get_workflow_response. rewrite Hm. done.
Qed.
End PiProofs.

(** *** Registration *)

Section Registration.
Variable default_group_id : option string.
Variable server : string.
Variable has : pi_source -> string -> bool.

#[local] Abbreviation register := (register_pi_node default_group_id server has).

Lemma update_file_run serial s name content t d text :
  _validate_serial serial = Ok s -> t !! s = Some d -> content s = Ok text ->
  update_file serial name content t = (Ok tt, <[s := <[name := Text text]> d]> t).
Proof.
  intros Hs Ht Hc. unfold update_file. rewrite Hs, (bind_Ok (lift_result (Ok s)) _ t s t eq_refl).
  rewrite (bind_Ok get_state _ t t t eq_refl), Ht, Hc, (bind_Ok (lift_result (Ok text)) _ t text t eq_refl).
  unfold on_dir. by rewrite Ht.
Qed.

Definition config_of (s model : string) (c : pi_model_config) : pi_entry :=
  Text (PyStr.join pi_nl (config_lines s model c) ++ pi_nl).

Lemma refresh_run serial s model c t : tree_linked t -> _validate_serial serial = Ok s -> assoc_get model PI_MODELS = Some c ->
  exists t' d, refresh_directory server has serial model t = (Ok tt, t') /\ tree_linked t' /\
    t' !! s = Some d /\ d !! "config.txt" = Some (config_of s model c).
Proof.
  intros Ht Hs Hm. destruct (validate_serial_Ok _ _ Hs) as (_ & _ & Hs').
  unfold refresh_directory, node_exists. rewrite Hs.
  destruct (t !! s) as [d|] eqn:E.
  - rewrite (bind_Ok _ _ t true t).
    2:{ rewrite (bind_Ok (lift_result (Ok s)) _ t s t eq_refl), (bind_Ok get_state _ t t t eq_refl), E. done. }
    set (d1 := <["config.txt" := config_of s model c]> d). set (t1 := <[s := d1]> t).
    assert (update_config_txt serial model t = (Ok tt, t1)) as E1.
    { apply update_file_run; [done|done|by apply generate_config_run]. }
    assert (update_cmdline_txt serial (Some server) t1
            = (Ok tt, <[s := <["cmdline.txt" := Text (PyStr.join " " (cmdline_params s (Some server)) ++ pi_nl)]> d1]> t1)) as E2.
    { apply update_file_run; [done|by apply lookup_insert_eq|by apply generate_cmdline_run]. }
    cbv iota. rewrite (bind_Ok _ _ _ _ _ E1), E2. eexists _, _. split; [done|].
    assert (linked d1) as L by (apply linked_text; by apply (Ht s d)).
    split; [apply tree_linked_insert; [by apply tree_linked_insert|by apply linked_text]|].
    split; [by rewrite lookup_insert_eq|]. rewrite lookup_insert_ne by done. by apply lookup_insert_eq.
  - rewrite (bind_Ok _ _ t false t).
    2:{ rewrite (bind_Ok (lift_result (Ok s)) _ t s t eq_refl), (bind_Ok get_state _ t t t eq_refl), E. done. }
    destruct (create_run has serial model c (Some server) t s Ht Hs Hm) as (d & E1 & Hd & Hc & _).
    cbv iota. rewrite (bind_Ok _ _ _ _ _ E1). eexists _, d. split; [done|].
    split; [by apply tree_linked_insert|]. split; [by rewrite lookup_insert_eq|exact Hc].
Qed.

Definition serials_unique (c : Controller) : Prop := forall s, (length (sql_select (has_serial s) (nodes (db c))) <= 1)%nat.

Lemma select_cons (Q : NodeRow -> bool) x l : sql_select Q (x :: l) = ((if Q x then [x] else []) ++ sql_select Q l)%list.
Proof. unfold sql_select. cbn. by destruct (Q x). Qed.

(** Replacing a row by one with the same serial number. *)
Lemma replace_row l1 n n' l2 : serial_number n' = serial_number n ->
  (forall s, (length (sql_select (has_serial s) (l1 ++ n :: l2)%list) <= 1)%nat) ->
  forall s, (length (sql_select (has_serial s) (l1 ++ n' :: l2)%list) <= 1)%nat.
Proof.
  intros Hn H s. specialize (H s). revert H. rewrite !select_app, !select_cons, !length_app.
  unfold has_serial at 2 5. rewrite Hn. by destruct (bool_decide _).
Qed.

(** Some other node has the MAC address. *)
Definition taken (r : PiRegisterRequest) (c : Controller) : bool :=
  existsb (fun n => String.eqb (mac_address n) (rr_mac r) && negb (has_serial (rr_serial r) n)) (nodes (db c)).

Lemma taken_spec r c : taken r c = true <->
  exists n, n ∈ nodes (db c) /\ mac_address n = rr_mac r /\ serial_number n ≠ Some (rr_serial r).
Proof.
  unfold taken. rewrite existsb_exists. split; intros (n & Hn).
  - destruct Hn as (Hin & [H1%String.eqb_eq H2%negb_true_iff]%andb_true_iff). exists n.
    split; [by apply list_elem_of_In|]. split; [done|]. by apply bool_decide_eq_false in H2.
  - destruct Hn as (Hin & H1 & H2). exists n. split; [by apply list_elem_of_In|]. apply andb_true_iff.
    split; [by apply String.eqb_eq|]. apply negb_true_iff. by apply bool_decide_eq_false.
Qed.

(** What a successful registration leaves. *)
Definition registered_ok (r : PiRegisterRequest) (s : string) (c : pi_model_config) (k k' : Controller) : Prop :=
  nodes_keyed (db k') /\ serials_unique k' /\
  (exists n, sql_select (has_serial (rr_serial r)) (nodes (db k')) = [n] /\ mac_address n = rr_mac r /\
     pi_model n = Some (rr_model r)) /\
  (forall n, n ∈ nodes (db k) -> serial_number n ≠ Some (rr_serial r) -> n ∈ nodes (db k')) /\
  (exists d, pi_nodes k' !! s = Some d /\ d !! "config.txt" = Some (config_of s (rr_model r) c)).

Lemma register_new now id r ip s m k :
  nodes_keyed (db k) -> serials_unique k -> (id ∉ map node_id (nodes (db k))) -> tree_linked (pi_nodes k) ->
  _validate_serial (rr_serial r) = Ok s -> assoc_get (rr_model r) PI_MODELS = Some m ->
  sql_select (has_serial (rr_serial r)) (nodes (db k)) = [] ->
  if taken r k then exists k', register now id r ip k = (Err IntegrityError, k')
  else exists msg k', register now id r ip k = (Ok msg, k') /\ registered_ok r s m k k'.
Proof.
  intros [Hu Hm] Hsu Hid Ht Hs Hmod Hsel. unfold register_pi_node.
  rewrite (bind_Ok _ _ k None k) by (rewrite find_by_serial_run, Hsel; done).
  set (x := new_pi default_group_id now id (rr_serial r) (rr_mac r) (rr_model r) (or_else (rr_ip_address r) ip)).
  pose proof (insert_node_run x k) as Hins. rewrite (bool_decide_eq_false_2 _ Hid), orb_false_r in Hins.
  assert (Hno : forall n, n ∈ nodes (db k) -> serial_number n ≠ Some (rr_serial r)).
  { intros n Hn Hser. assert (n ∈ sql_select (has_serial (rr_serial r)) (nodes (db k))) as Hin.
    { apply elem_of_sql_select. split; [done|]. by apply bool_decide_eq_true. }
    rewrite Hsel in Hin. by apply elem_of_nil in Hin. }
  assert (existsb (fun n => String.eqb (mac_address n) (mac_address x)) (nodes (db k)) = taken r k) as Heq.
  { apply eq_true_iff_eq. rewrite taken_spec, existsb_exists. split; intros (n & Hn).
    - destruct Hn as (Hin%list_elem_of_In & H1%String.eqb_eq). exists n. split; [done|]. split; [exact H1|by apply Hno].
    - destruct Hn as (Hin & H1 & _). exists n. split; [by apply list_elem_of_In|]. by apply String.eqb_eq. }
  rewrite Heq in Hins. destruct (taken r k) eqn:Et.
  { exists k. by rewrite (bind_Err _ _ _ _ _ Hins). }
  rewrite (bind_Ok _ _ _ _ _ Hins), (bind_Ok _ _ _ _ _ (on_pi_run _ _)).
  destruct (create_run has (rr_serial r) (rr_model r) m (Some server) (pi_nodes k) s Ht Hs Hmod) as (d & E & _ & Hc & _).
  cbn [pi_nodes db]. change (pi_nodes (k <| db ::= _ |>)) with (pi_nodes k). rewrite E. cbn [snd].
  eexists _, _. split; [done|].
  change (?a (k <| db ::= ?f |> <| pi_nodes := ?t |>)) with (a (k <| db ::= f |> <| pi_nodes := t |>)).
  split; [|split; [|split; [|split]]].
  - split.
    + change (NoDup (map node_id (nodes (db k) ++ [x])%list)). rewrite map_app. apply NoDup_app. split; [exact Hu|].
      split; [|apply NoDup_singleton]. intros y Hy ->%list_elem_of_singleton. by apply Hid.
    + change (NoDup (map mac_address (nodes (db k) ++ [x])%list)). rewrite map_app. apply NoDup_app.
      split; [exact Hm|]. split; [|apply NoDup_singleton].
      intros y Hy ->%list_elem_of_singleton. apply (list_elem_of_fmap mac_address) in Hy as (n & Hn & Hin).
      assert (taken r k = true) by (apply taken_spec; exists n; split; [done|]; split; [done|by apply Hno]). congruence.
  - intros s'. cbn. rewrite select_app, length_app. specialize (Hsu s'). rewrite select_cons.
    destruct (has_serial s' x) eqn:Ex; [|cbn; lia]. apply bool_decide_eq_true in Ex. injection Ex as <-. by rewrite Hsel.
  - exists x. cbn. rewrite select_app, Hsel, select_cons. cbn. unfold has_serial at 1. cbn.
    rewrite bool_decide_eq_true_2 by done. by split.
  - intros n Hn _. cbn. apply elem_of_app. by left.
  - exists d. cbn. by rewrite lookup_insert_eq.
Qed.

Lemma NoDup_replace {A} (l1 l2 : list A) x y : NoDup (l1 ++ x :: l2) ->
  (NoDup (l1 ++ y :: l2) <-> (y ∉ l1) /\ (y ∉ l2)).
Proof.
  intros (H1 & H2 & [H3 H4]%NoDup_cons)%NoDup_app. split.
  - intros (_ & K2 & [K3 _]%NoDup_cons)%NoDup_app. split; [|done]. intros Hin. apply (K2 y Hin). apply list_elem_of_here.
  - intros [K1 K2]. apply NoDup_app. split; [done|]. split; [|by apply NoDup_cons].
    intros z Hz [->|Hin]%elem_of_cons; [done|]. apply (H2 z Hz). by right.
Qed.

Lemma register_known now id r ip s m k n :
  nodes_keyed (db k) -> serials_unique k -> tree_linked (pi_nodes k) ->
  _validate_serial (rr_serial r) = Ok s -> assoc_get (rr_model r) PI_MODELS = Some m ->
  sql_select (has_serial (rr_serial r)) (nodes (db k)) = [n] ->
  if taken r k then exists k', register now id r ip k = (Err IntegrityError, k')
  else exists msg k', register now id r ip k = (Ok msg, k') /\ registered_ok r s m k k'.
Proof.
  intros [Hu Hm] Hsu Ht Hs Hmod Hsel.
  assert (Hin : n ∈ sql_select (has_serial (rr_serial r)) (nodes (db k))) by (rewrite Hsel; apply list_elem_of_here).
  apply elem_of_sql_select in Hin as [Hin Hser]. pose proof Hser as Hser'. apply bool_decide_eq_true in Hser'.
  set (f := registered now r (or_else (rr_ip_address r) ip)).
  destruct (update_key_split node_id f (nodes (db k)) n Hu Hin) as (l1 & l2 & Hl & Hl').
  assert (Hother : forall x, (x ∈ l1 \/ x ∈ l2) -> serial_number x ≠ Some (rr_serial r)).
  { intros x Hx Hsx. rewrite Hl in Hsel. rewrite select_app, select_cons, Hser in Hsel.
    assert (Hx' : x ∈ (sql_select (has_serial (rr_serial r)) l1 ++ sql_select (has_serial (rr_serial r)) l2)%list).
    { apply elem_of_app. destruct Hx as [Hx|Hx]; [left|right]; apply elem_of_sql_select; (split; [done|by apply bool_decide_eq_true]). }
    destruct (sql_select _ l1) as [|a [|b l]]; cbn in Hsel; [injection Hsel as Hsel; rewrite Hsel in Hx'; by apply elem_of_nil in Hx'|..];
      by injection Hsel. }
  assert (Htk : taken r k = false <-> (rr_mac r ∉ map mac_address l1) /\ (rr_mac r ∉ map mac_address l2)).
  { rewrite <- not_true_iff_false, taken_spec. split.
    - intros Hno. split; intros (x & Hx & Hxin)%(list_elem_of_fmap mac_address); apply Hno; exists x;
        (split; [rewrite Hl; apply elem_of_app; rewrite elem_of_cons; naive_solver|]); split; [done|apply Hother; by left|done|apply Hother; by right].
    - intros [H1 H2] (x & Hx & Hxm & Hxs). rewrite Hl in Hx.
      apply elem_of_app in Hx as [Hx|[->|Hx]%elem_of_cons]; [apply H1|done|apply H2]; rewrite <- Hxm; by apply list_elem_of_fmap_2. }
  set (d1 := (db k) <| nodes := (l1 ++ f n :: l2)%list |>).
  set (k1 := k <| db := d1 |>).
  unfold register_pi_node.
  rewrite (bind_Ok _ _ k (Some n) k) by (rewrite find_by_serial_run, Hsel; done).
  rewrite (bind_Ok (update_node (node_id n) f) _ k tt k1).
  2:{ unfold k1, d1. rewrite <- Hl'. done. }
  rewrite (bind_Ok _ _ _ _ _ (on_pi_run _ _)).
  destruct (refresh_run (rr_serial r) s (rr_model r) m (pi_nodes k) Ht Hs Hmod) as (t' & d & E & _ & Hd & Hc).
  change (pi_nodes k1) with (pi_nodes k). rewrite E. cbn [snd].
  set (k2 := k1 <| pi_nodes := t' |>).
  assert (Hnd : NoDup (map mac_address (nodes (db k2))) <-> taken r k = false).
  { rewrite Htk. change (nodes (db k2)) with (l1 ++ f n :: l2)%list. rewrite map_app. cbn [map].
    apply (NoDup_replace _ _ (mac_address n)). unfold keys_unique in Hm. rewrite Hl, fmap_app in Hm. exact Hm. }
  pose proof (flush_nodes_run k2) as Hf. destruct (taken r k) eqn:Et.
  - rewrite bool_decide_eq_false_2 in Hf by (rewrite Hnd; done). exists k2. by rewrite (bind_Err _ _ _ _ _ Hf).
  - rewrite bool_decide_eq_true_2 in Hf by (rewrite Hnd; done). rewrite (bind_Ok _ _ _ _ _ Hf).
    eexists _, k2. split; [done|]. change (nodes (db k2)) with (l1 ++ f n :: l2)%list.
    split; [|split; [|split; [|split]]].
    + split; [|by apply Hnd]. change (NoDup (map node_id (l1 ++ f n :: l2)%list)).
      unfold keys_unique in Hu. rewrite Hl in Hu. rewrite map_app. cbn [map]. rewrite fmap_app in Hu. exact Hu.
    + unfold serials_unique in Hsu. rewrite Hl in Hsu. intros s'. exact (replace_row l1 n (f n) l2 eq_refl Hsu s').
    + exists (f n). split; [|by split]. rewrite Hl in Hsel.
      change (sql_select (has_serial (rr_serial r)) (l1 ++ f n :: l2)%list = [f n]).
      rewrite select_app, select_cons in Hsel |- *.
      change (has_serial (rr_serial r) (f n)) with (has_serial (rr_serial r) n). rewrite Hser in Hsel |- *.
      destruct (sql_select _ l1) as [|a [|b l]]; cbn [app] in *; [injection Hsel as Hsel; by rewrite Hsel|by injection Hsel|by injection Hsel].
    + intros x Hx Hxs. rewrite Hl in Hx. change (x ∈ (l1 ++ f n :: l2)%list).
      rewrite elem_of_app, elem_of_cons in Hx |- *. destruct Hx as [|[->|]]; [by left|done|by right; right].
    + by exists d.
Qed.

(** Registering a Pi.  On a table where identifiers, MAC addresses and serial
    numbers are unique, a registration with a valid serial number and a known model
    fails exactly when another node has the MAC address, and then the database is as
    before; otherwise there is one node with the serial number, with this MAC address
    and model, every other node is still there, the table's columns stay unique, and
    the Pi's boot directory is configured for the model. *)
Theorem pi_registration now id r ip s m k :
  nodes_keyed (db k) -> serials_unique k -> (id ∉ map node_id (nodes (db k))) -> tree_linked (pi_nodes k) ->
  _validate_serial (rr_serial r) = Ok s -> assoc_get (rr_model r) PI_MODELS = Some m ->
  let '(res, k') := request (register now id r ip) k in
  if taken r k then res = Err IntegrityError /\ db k' = db k
  else is_ok res = true /\ registered_ok r s m k k'.
Proof.
  intros Hk Hsu Hid Ht Hs Hm.
  assert (H : if taken r k then exists k', register now id r ip k = (Err IntegrityError, k')
              else exists msg k', register now id r ip k = (Ok msg, k') /\ registered_ok r s m k k').
  { pose proof (Hsu (rr_serial r)) as Hl.
    destruct (sql_select (has_serial (rr_serial r)) (nodes (db k))) as [|n [|]] eqn:E; [..|cbn in Hl; lia].
    - by apply register_new.
    - by apply (register_known _ _ _ _ _ _ _ n). }
  unfold request. destruct (taken r k).
  - destruct H as (k' & ->). done.
  - destruct H as (msg & k' & -> & H). done.
Qed.

End Registration.

(** ** Examples *)

Definition lab_files (s : pi_source) (name : string) : bool := true.
Definition other_node : NodeRow := new_node "n0" "aa:bb:cc:dd:ee:00".
Definition pi_lab : Controller := {| db := empty_db <| nodes := [other_node] |>; sent := []; pi_nodes := ∅ |}.
Definition a_pi (model mac : string) : PiRegisterRequest :=
  {| rr_serial := "d83add36"; rr_mac := mac; rr_model := model; rr_ip_address := None |}.
Definition after_register (id model mac : string) (k : Controller) : Controller :=
  (request (register_pi_node None "http://lab" lab_files 5 id (a_pi model mac) None) k).2.

#[local] Abbreviation lab_boot := (get_pi_boot_instructions (P := strict_pydantic) true None "http://lab" (path_of "/w")
  id no_file no_text "10.0.0.1" "/srv/nfsroot" lab_files).

Lemma pi_boot_moves_no_node_witness :
  let '(r, c') := request (lab_boot 9 "n1" "D83ADD36" None (Some "discovery") None) pi_lab in
  r = Ok (plain "discovered" "Node registered. Awaiting workflow assignment." None) /\ node_logs (db c') = [].
Proof.
  pose proof (pi_boot_moves_no_node (P := strict_pydantic) true None "http://lab" (path_of "/w") id no_file no_text "10.0.0.1"
    "/srv/nfsroot" lab_files 9 "n1" "D83ADD36" None (Some "discovery") None pi_lab (NoDup_singleton _)) as H.
  destruct (request _ pi_lab) as [r c'] eqn:E. split; [|exact (proj1 H)].
  apply (f_equal fst) in E. vm_compute in E. cbn [fst] in E. by rewrite <- E.
Defined.

Lemma pi_registration_witness :
  let k := after_register "n1" "pi4" "dc:a6:32:00:00:01" pi_lab in
  exists n, sql_select (has_serial "d83add36") (nodes (db k)) = [n] /\ mac_address n = "dc:a6:32:00:00:01".
Proof.
  assert (Hk : nodes_keyed (db pi_lab)) by (split; apply NoDup_singleton).
  assert (Hs : serials_unique pi_lab) by (intros s; cbn; unfold has_serial; rewrite bool_decide_eq_false_2 by done; cbn; lia).
  assert (Hid : "n1" ∉ map node_id (nodes (db pi_lab))) by (intros H%list_elem_of_singleton; discriminate).
  pose proof (pi_registration None "http://lab" lab_files 5 "n1" (a_pi "pi4" "dc:a6:32:00:00:01") None "d83add36"
    {| firmware_files := ["start4.elf"; "fixup4.dat"]; dtb := "bcm2711-rpi-4-b.dtb"; arm_64bit := true; requires_otp := false |}
    pi_lab Hk Hs Hid (map_Forall_empty _) eq_refl eq_refl) as H.
  unfold after_register. destruct (request _ pi_lab) as [res k'].
  destruct H as (_ & _ & _ & (n & H1 & H2 & _) & _). exists n. split; [exact H1|exact H2].
Defined.

(** A Pi that registers again as another model gets a [config.txt] that names the new
    model's device tree, but not the files: only the two texts are written anew. *)
Example model_change_leaves_firmware_behind :
  let k := after_register "n2" "pi3" "dc:a6:32:00:00:01" (after_register "n1" "pi4" "dc:a6:32:00:00:01" pi_lab) in
  match pi_nodes k !! "d83add36" with
  | Some d => (match d !! "config.txt" with Some (Text t) => existsb (String.eqb "device_tree=bcm2710-rpi-3-b.dtb") (split_on newline t) | _ => false end,
               entry_exists lab_files d "bcm2710-rpi-3-b.dtb", entry_exists lab_files d "bootcode.bin") = (true, false, false)
  | None => False
  end.
Proof. by vm_compute. Qed.

(** A registration that fails, as the MAC address is taken, has rewritten the files. *)
Example failed_registration_writes_files :
  let k := after_register "n1" "pi4" "dc:a6:32:00:00:01" pi_lab in
  let k' := after_register "n2" "pi5" "aa:bb:cc:dd:ee:00" k in
  map pi_model (nodes (db k')) = [None; Some "pi4"] /\
  match pi_nodes k' !! "d83add36" with
  | Some d => match d !! "config.txt" with Some (Text t) => existsb (String.eqb "# Pi Model: pi5") (split_on newline t) | _ => false end = true
  | None => False
  end.
Proof. by vm_compute. Qed.

(** A pending Pi is told that it installs, and stays pending; the callback it is given
    then fails, as it does for every pending node (deploy_callbacks_fail_on_pending). *)
Example deploying_pi_stays_pending :
  let n := (new_pi None 1 "n1" "d83add36" "dc:a6:32:00:00:01" "pi4" None) <| workflow_id := Some "w" |>
           <| core ::= fun x => with_state 2 "pending" x |> in
  let file := JObj [("id", JStr "w"); ("name", JStr "W"); ("install_method", JStr "image")] in
  let '(r, c') := get_pi_boot_instructions (P := strict_pydantic) true None "http://lab" (path_of "/w") id (fun _ => true)
    (fun _ => Loaded file) "10.0.0.1" "/srv/nfsroot" lab_files 9 "n2" "d83add36" None None None
    {| db := empty_db <| nodes := [n] |>; sent := []; pi_nodes := ∅ |} in
  match r with Ok a => (pr_state a, pr_action a) = ("installing", Some "deploy_image") | Err _ => False end /\
  map node_state (nodes (db c')) = ["pending"].
Proof. by vm_compute. Qed.
