(* ===== verification/Health.v ===== *)
(** * Node health and alerts

    [core/health_service.py] with the acknowledgement of [api/routes/health.py],
    and [core/agent_status_job.py].  The scores are computed in floats
    (Floats).  One check reads the clock once; datetimes without a
    zone are read as UTC, as the code does, so that a column is a number of
    microseconds.  Alerts are never deleted; [fresh n] is the identifier of the
    [n]-th. *)
From S2P Require Import Prelude Floats PyStr SqlTable NodeLifecycle Controller.
From stdpp Require Import base tactics list gmap relations strings pretty.
From Stdlib Require Import ZArith QArith Qround Lia Lqa.
Open Scope string_scope.
Open Scope Z_scope.

Record HealthSettings := {
  stale_threshold_minutes : Z;
  offline_threshold_minutes : Z;
  score_staleness_weight : Z;
  score_install_failures_weight : Z;
  score_boot_stability_weight : Z;
  alert_on_stale : bool;
  alert_on_offline : bool;
  alert_on_score_below : Z
}.

Definition default_settings : HealthSettings :=
  {| stale_threshold_minutes := 15; offline_threshold_minutes := 60; score_staleness_weight := 40;
     score_install_failures_weight := 30; score_boot_stability_weight := 30; alert_on_stale := true;
     alert_on_offline := true; alert_on_score_below := 50 |}.

Definition ALERT_SEVERITY : list (string * string) :=
  [("node_stale", "warning"); ("node_offline", "critical"); ("low_health_score", "warning"); ("install_timeout", "critical")].

(** The three entries of the breakdown, none of them positive for a node seen in
    the past. *)
Record Breakdown := { staleness : Z; install_failures : Z; boot_stability : Z }.

Section Health.
Variable fl : Q -> Q.
Variable settings : HealthSettings.
Variable fresh : nat -> string.

(** [(now - last_seen).total_seconds() / 60] *)
Definition minutes_since (now last_seen : Z) : Q :=
  fdiv fl (fdiv fl (inject_Z (now - last_seen)) (inject_Z 1000000)) (inject_Z 60).

Definition determine_health_status (now : Z) (node : NodeRow) : string :=
  match last_seen_at node with
  | None => "unknown"
  | Some t =>
      let m := minutes_since now t in
      if Qle_bool m (inject_Z (stale_threshold_minutes settings)) then "healthy"
      else if Qle_bool m (inject_Z (offline_threshold_minutes settings)) then "stale"
      else "offline"
  end.

(** [-int(ratio * weight)] *)
Definition penalty (ratio : Q) (weight : Z) : Z := - trunc (fmul fl ratio (inject_Z weight)).

(** Nothing checks the settings: a threshold of zero minutes divides by zero. *)
Definition staleness_penalty (now : Z) (node : NodeRow) : result server_error Z :=
  match last_seen_at node with
  | None => Ok (- score_staleness_weight settings)
  | Some t =>
      if offline_threshold_minutes settings =? 0 then Err ZeroDivisionError
      else Ok (penalty (fmin1 (fdiv fl (minutes_since now t) (inject_Z (offline_threshold_minutes settings))))
                 (score_staleness_weight settings))
  end.

Definition score_breakdown (now : Z) (node : NodeRow) : result server_error Breakdown :=
  s ← staleness_penalty now node;
  Ok {|
     staleness := s;
     install_failures :=
       if 0 <? n_install_attempts (core node)
       then penalty (fmin1 (fdiv fl (inject_Z (n_install_attempts (core node))) (inject_Z 5)))
              (score_install_failures_weight settings)
       else 0;
     boot_stability :=
       if 10 <? n_boot_count (core node)
       then penalty (fmin1 (fdiv fl (inject_Z (n_boot_count (core node) - 10)) (inject_Z 20)))
              (score_boot_stability_weight settings)
       else 0 |}.

Definition total (b : Breakdown) : Z := staleness b + install_failures b + boot_stability b.

Definition calculate_health_score (now : Z) (node : NodeRow) : result server_error (Z * Breakdown) :=
  b ← score_breakdown now node;
  Ok (Z.max 0 (Z.min 100 (100 + total b)), b).

(** ** Alerts *)

Definition update_node_health (now : Z) (node : NodeRow) : ControllerM (string * Z) :=
  let new_status := determine_health_status now node in
  '(new_score, _) ← lift (calculate_health_score now node);
  update_node (node_id node) (fun n => n <| health_status := new_status |> <| health_score := new_score |>);;
  mret (new_status, new_score).

Definition is_active (node alert_type : string) (a : HealthAlert) : bool :=
  String.eqb (ha_node_id a) node && String.eqb (ha_alert_type a) alert_type && String.eqb (ha_status a) "active".

Definition set_alerts (f : list HealthAlert -> list HealthAlert) : ControllerM unit :=
  set_db (fun d => d <| health_alerts ::= f |>).

Definition _create_alert_if_new (node alert_type message : string) : ControllerM (option HealthAlert) :=
  d ← get_db;
  existing ← scalar_one_or_none (sql_select (is_active node alert_type) (health_alerts d));
  match existing with
  | Some _ => mret None
  | None =>
      let alert := {| ha_id := fresh (length (health_alerts d)); ha_node_id := node; ha_alert_type := alert_type;
                      ha_severity := default "warning" (assoc_get alert_type ALERT_SEVERITY); ha_status := "active";
                      ha_message := message; ha_acknowledged_at := None; ha_resolved_at := None |} in
      set_alerts (fun t => (t ++ [alert])%list);;
      mret (Some alert)
  end.

Definition resolve_alert (now : Z) (node alert_type : string) : ControllerM bool :=
  d ← get_db;
  alert ← scalar_one_or_none (sql_select (is_active node alert_type) (health_alerts d));
  match alert with
  | Some _ =>
      set_alerts (fun t => (sql_update (is_active node alert_type)
        (fun a => a <| ha_status := "resolved" |> <| ha_resolved_at := Some now |>) t).1);;
      mret true
  | None => mret false
  end.

Definition node_name (n : NodeRow) : string :=
  match hostname n with Some h => if String.eqb h "" then mac_address n else h | None => mac_address n end.

Definition stale_message (n : NodeRow) : string :=
  "Node " ++ node_name n ++ " is stale (no heartbeat for >" ++ pretty (stale_threshold_minutes settings) ++ "m)".
Definition offline_message (n : NodeRow) : string :=
  "Node " ++ node_name n ++ " is offline (no heartbeat for >" ++ pretty (offline_threshold_minutes settings) ++ "m)".
Definition low_score_message (n : NodeRow) (score : Z) : string :=
  "Node " ++ node_name n ++ " health score is " ++ pretty score ++ " (below threshold "
  ++ pretty (alert_on_score_below settings) ++ ")".

Definition opt_list {A} (x : option A) : list A := match x with Some a => [a] | None => [] end.

Definition status_alerts (now : Z) (node : NodeRow) (new_status : string) : ControllerM (list HealthAlert) :=
  if String.eqb new_status "stale" && alert_on_stale settings then
    alert ← _create_alert_if_new (node_id node) "node_stale" (stale_message node); mret (opt_list alert)
  else if String.eqb new_status "offline" && alert_on_offline settings then
    alert ← _create_alert_if_new (node_id node) "node_offline" (offline_message node);
    resolve_alert now (node_id node) "node_stale";;
    mret (opt_list alert)
  else if String.eqb new_status "healthy" then
    resolve_alert now (node_id node) "node_stale";;
    resolve_alert now (node_id node) "node_offline";;
    mret []
  else mret [].

Definition score_alerts (now : Z) (node : NodeRow) (new_score : Z) : ControllerM (list HealthAlert) :=
  let threshold := alert_on_score_below settings in
  if (0 <? threshold) && (new_score <? threshold) then
    alert ← _create_alert_if_new (node_id node) "low_health_score" (low_score_message node new_score);
    mret (opt_list alert)
  else if (0 <? threshold) && (threshold <=? new_score) then
    resolve_alert now (node_id node) "low_health_score";; mret []
  else mret [].

Definition check_node (now : Z) (node : NodeRow) : ControllerM (list HealthAlert) :=
  '(new_status, new_score) ← update_node_health now node;
  a1 ← status_alerts now node new_status;
  a2 ← score_alerts now node new_score;
  mret (a1 ++ a2)%list.

Fixpoint check_nodes (now : Z) (ns : list NodeRow) : ControllerM (list HealthAlert) :=
  match ns with
  | [] => mret []
  | n :: ns => a ← check_node now n; b ← check_nodes now ns; mret (a ++ b)%list
  end.

Definition not_retired (n : NodeRow) : bool := negb (String.eqb (node_state n) "retired").

Definition check_all_nodes (now : Z) : ControllerM (list HealthAlert) :=
  d ← get_db;
  check_nodes now (sql_select not_retired (nodes d)).

(** [api/routes/health.py] *)
Definition acknowledge_alert (now : Z) (alert_id : string) : ControllerM unit :=
  d ← get_db;
  match sql_find ha_id alert_id (health_alerts d) with
  | None => raise (HTTPException 404 "Alert not found")
  | Some a =>
      if negb (String.eqb (ha_status a) "active")
      then raise (HTTPException 400 ("Cannot acknowledge alert with status '" ++ ha_status a ++ "'"))
      else set_alerts (fun t => (sql_update (has_key ha_id alert_id)
             (fun a => a <| ha_status := "acknowledged" |> <| ha_acknowledged_at := Some now |>) t).1)
  end.

(** ** Snapshots and summary *)

(** [node.health_score or 100] *)
Definition score_or_100 (n : NodeRow) : Z := if health_score n =? 0 then 100 else health_score n.

Definition create_snapshot (now : Z) (node : NodeRow) : ControllerM NodeHealthSnapshot :=
  let snapshot :=
    {| hs_node_id := node_id node;
       hs_health_status := if String.eqb (health_status node) "" then "unknown" else health_status node;
       hs_health_score := score_or_100 node;
       hs_last_seen_seconds_ago :=
         match last_seen_at node with
         | Some t => trunc (fdiv fl (inject_Z (now - t)) (inject_Z 1000000))
         | None => 0
         end;
       hs_boot_count := n_boot_count (core node); hs_install_attempts := n_install_attempts (core node);
       hs_ip_address := ip_address node |} in
  set_db (fun d => d <| health_snapshots ::= fun t => (t ++ [snapshot])%list |>);;
  mret snapshot.

Record HealthSummary := {
  total_nodes : Z;
  by_status : list (string * Z);
  average_score : Z;
  active_alerts : Z;
  critical_alerts : Z
}.

Fixpoint count_status (ns : list NodeRow) (acc : list (string * Z)) : list (string * Z) :=
  match ns with
  | [] => acc
  | n :: ns => count_status ns (assoc_set (health_status n) (default 0 (assoc_get (health_status n) acc) + 1) acc)
  end.

(** [round(float(avg), 1)] in tenths is a parameter. *)
Definition get_summary (average : list Z -> Z) : ControllerM HealthSummary :=
  d ← get_db;
  let ns := sql_select not_retired (nodes d) in
  let active a := String.eqb (ha_status a) "active" in
  mret {| total_nodes := foldr (fun kv acc => kv.2 + acc) 0 (count_status ns []);
          by_status := count_status ns [];
          average_score := average (map health_score ns);
          active_alerts := sql_count active (health_alerts d);
          critical_alerts := sql_count (fun a => active a && String.eqb (ha_severity a) "critical") (health_alerts d) |}.

End Health.

(** ** [core/agent_status_job.py] *)

Definition HEARTBEAT_INTERVAL : Z := 60.
Definition DEGRADED_THRESHOLD : Z := 2.
Definition OFFLINE_THRESHOLD : Z := 5.

Record Site := { site_id : string; is_site : bool; agent_last_seen : option Z; agent_status : option string }.

Definition status_after (elapsed : Z) : string :=
  if HEARTBEAT_INTERVAL * OFFLINE_THRESHOLD * 1000000 <? elapsed then "offline"
  else if HEARTBEAT_INTERVAL * DEGRADED_THRESHOLD * 1000000 <? elapsed then "degraded"
  else "online".

(** The loop over the sites: the table left and how many changed. *)
Fixpoint update_agent_statuses (now : Z) (sites : list Site) : list Site * nat :=
  match sites with
  | [] => ([], 0%nat)
  | s :: sites =>
      let '(rest, n) := update_agent_statuses now sites in
      match is_site s, agent_last_seen s with
      | true, Some t =>
          let new_status := status_after (now - t) in
          if bool_decide (agent_status s = Some new_status) then (s :: rest, n)
          else (s <| agent_status := Some new_status |> :: rest, S n)
      | _, _ => (s :: rest, n)
      end
  end.

Definition get_status_for_last_seen (now : Z) (last_seen : option Z) : string :=
  match last_seen with None => "offline" | Some t => status_after (now - t) end.

(** ** Scores *)

Record settings_ok (s : HealthSettings) : Prop := {
  ok_offline : 0 < offline_threshold_minutes s <= 2 ^ 53;
  ok_staleness : 0 <= score_staleness_weight s;
  ok_failures : 0 <= score_install_failures_weight s;
  ok_stability : 0 <= score_boot_stability_weight s;
  ok_weights : score_staleness_weight s + score_install_failures_weight s + score_boot_stability_weight s <= 100
}.

Section Scores.
Context (fl : Q -> Q) `{!Rounding fl}.

(** A penalty lies between nothing and the weight, and grows with the ratio. *)
Lemma penalty_range r w : (0 <= r <= 1)%Q -> 0 <= w <= 100 -> - w <= penalty fl r w <= 0.
Proof.
  intros Hr Hw. pose proof (inject_nonneg w (proj1 Hw)) as Hw'. unfold penalty, fmul.
  enough (0 <= trunc (fl (r * inject_Z w)) <= w) by lia.
  assert (0 <= fl (r * inject_Z w))%Q by (apply fl_nonneg, Qmult_le_0_compat; [apply Hr|done]).
  split.
  - rewrite trunc_floor by done. change 0 with (Qfloor 0). by apply Qfloor_resp_le.
  - rewrite <- (trunc_int (fl (inject_Z w)) w) at 2; [|lia|apply fl_int; lia].
    apply trunc_mono; [done|]. apply fl_mono. nra.
Qed.

Lemma penalty_antitone r r' w : (0 <= r)%Q -> (r <= r')%Q -> 0 <= w -> penalty fl r' w <= penalty fl r w.
Proof.
  intros Hr H Hw. pose proof (inject_nonneg w Hw). unfold penalty, fmul.
  enough (trunc (fl (r * inject_Z w)) <= trunc (fl (r' * inject_Z w))) by lia.
  apply trunc_mono; [apply fl_nonneg; nra|]. apply fl_mono. nra.
Qed.

Lemma penalty_full r w : (1 <= r)%Q -> 0 <= w <= 100 -> penalty fl (fmin1 r) w = - w.
Proof.
  intros Hr Hw. unfold fmin1. rewrite (proj2 (Qle_bool_iff 1 r) Hr). unfold penalty, fmul. f_equal.
  apply trunc_int; [lia|]. rewrite (fl_ext _ (inject_Z w)) by lra. apply fl_int. lia.
Qed.

Lemma minutes_since_mono now now' t : now <= now' -> (minutes_since fl now t <= minutes_since fl now' t)%Q.
Proof.
  intros H. unfold minutes_since. apply fdiv_mono; [done|]. apply fdiv_mono; [done|]. rewrite <- Zle_Qle. lia.
Qed.

Lemma minutes_since_nonneg now t : t <= now -> (0 <= minutes_since fl now t)%Q.
Proof.
  intros H. unfold minutes_since. apply fdiv_nonneg; [done|]. apply fdiv_nonneg; [done|]. apply inject_nonneg. lia.
Qed.

Variables (settings : HealthSettings) (node : NodeRow).
Hypothesis Hs : settings_ok settings.

Definition seen_before (now : Z) : Prop := forall t, last_seen_at node = Some t -> t <= now.

(** Every entry of the breakdown stays within its weight. *)
Lemma breakdown_range now b : seen_before now -> score_breakdown fl settings now node = Ok b ->
  - score_staleness_weight settings <= staleness b <= 0 /\
  - score_install_failures_weight settings <= install_failures b <= 0 /\
  - score_boot_stability_weight settings <= boot_stability b <= 0.
Proof.
  intros Ht. destruct Hs as [H1 H2 H3 H4 H5]. unfold score_breakdown, staleness_penalty.
  assert ((offline_threshold_minutes settings =? 0) = false) as -> by lia.
  set (p1 := if 0 <? _ then _ else _). set (p2 := if 10 <? _ then _ else _).
  assert (- score_install_failures_weight settings <= p1 <= 0) as P1.
  { subst p1. destruct (0 <? _) eqn:E; [|lia]. apply penalty_range; [|lia]. apply fmin1_range, fdiv_nonneg; [done|]. apply inject_nonneg. lia. }
  assert (- score_boot_stability_weight settings <= p2 <= 0) as P2.
  { subst p2. destruct (10 <? _) eqn:E; [|lia]. apply penalty_range; [|lia]. apply fmin1_range, fdiv_nonneg; [done|]. apply inject_nonneg. lia. }
  clearbody p1 p2. destruct (last_seen_at node) as [t|] eqn:E; intros [= <-]; cbn; (split; [|done]); [|lia].
  apply penalty_range; [|lia]. apply fmin1_range, fdiv_nonneg; [apply inject_pos; lia|]. by apply minutes_since_nonneg, Ht.
Qed.

Lemma breakdown_defined now : exists b, score_breakdown fl settings now node = Ok b.
Proof.
  destruct Hs as [H1 _ _ _ _]. unfold score_breakdown, staleness_penalty. assert ((offline_threshold_minutes settings =? 0) = false) as -> by lia.
  destruct (last_seen_at node); by eexists.
Qed.

(** The health score.  With settings whose weights are not negative and sum to
    at most 100, a node that was not seen in the future, and any rounding that is
    monotone and keeps integers: every penalty is between 0 and its weight, so that
    the clamping of the score never acts and the score is exactly 100 plus the
    penalties; while nothing is heard of the node, neither the score nor any
    penalty improves; and a node that has become offline, like one never seen,
    has lost the whole staleness weight. *)
Theorem health_score_bounds now now' : seen_before now -> now <= now' -> exists b b' score score',
  calculate_health_score fl settings now node = Ok (score, b) /\ calculate_health_score fl settings now' node = Ok (score', b') /\
  (- score_staleness_weight settings <= staleness b <= 0 /\
   - score_install_failures_weight settings <= install_failures b <= 0 /\
   - score_boot_stability_weight settings <= boot_stability b <= 0) /\
  score = 100 + total b /\
  0 <= score <= 100 /\
  staleness b' <= staleness b /\
  score' <= score /\
  (determine_health_status fl settings now node ∈ ["offline"; "unknown"] ->
     staleness b = - score_staleness_weight settings).
Proof.
  intros Ht Hle. assert (Ht' : seen_before now') by (intros t E; specialize (Ht t E); lia).
  pose proof Hs as [H1 H2 H3 H4 H5]. destruct (breakdown_defined now) as [b Eb]. destruct (breakdown_defined now') as [b' Eb'].
  pose proof (breakdown_range now b Ht Eb) as Hb. pose proof (breakdown_range now' b' Ht' Eb') as Hb'.
  unfold calculate_health_score. rewrite Eb, Eb'. cbn. do 4 eexists. do 2 (split; [done|]).
  unfold score_breakdown, staleness_penalty in Eb, Eb'. assert ((offline_threshold_minutes settings =? 0) = false) as Ez by lia. rewrite Ez in Eb, Eb'.
  assert (Hst : staleness b' <= staleness b).
  { destruct (last_seen_at node) as [t|] eqn:El; injection Eb as <-; injection Eb' as <-; cbn; [|lia].
    apply penalty_antitone; [| |lia].
    - apply fmin1_range, fdiv_nonneg; [apply inject_pos; lia|]. by apply minutes_since_nonneg, Ht.
    - apply fmin1_mono, fdiv_mono; [apply inject_pos; lia|]. by apply minutes_since_mono. }
  assert (install_failures b' = install_failures b /\ boot_stability b' = boot_stability b) as [Hi Hbs]
    by (destruct (last_seen_at node); injection Eb as <-; by injection Eb' as <-).
  unfold total in *. split; [done|]. split; [lia|]. split; [lia|]. split; [done|]. split; [lia|].
  intros Hst'. unfold determine_health_status in *.
  destruct (last_seen_at node) as [t|] eqn:E; injection Eb as <-; [|done]. cbn [staleness].
  apply penalty_full; [|lia].
  destruct (Qle_bool _ (inject_Z (stale_threshold_minutes settings))); [by apply list_elem_of_In in Hst' as [|[|[]]]|].
  destruct (Qle_bool _ (inject_Z (offline_threshold_minutes settings))) eqn:Eo; [by apply list_elem_of_In in Hst' as [|[|[]]]|].
  rewrite <- not_true_iff_false, Qle_bool_iff in Eo. pose proof (inject_pos _ (proj1 H1)).
  unfold fdiv. apply Qle_trans with (fl 1).
  - change 1%Q with (inject_Z 1). rewrite fl_int; [apply Qle_refl|lia].
  - apply fl_mono. apply Qle_shift_div_l; [done|]. lra.
Qed.
End Scores.

(** With the default settings a node heard of 30 minutes ago has lost 20 points. *)
Definition lab_node : NodeRow := (new_node "n1" "aa:bb:cc:dd:ee:01") <| last_seen_at := Some 0 |>.
Definition minutes (m : Z) : Z := m * 60 * 1000000.

Lemma default_settings_ok : settings_ok default_settings.
Proof. by split. Qed.

Lemma health_score_bounds_witness :
  exists b b', score_breakdown (fun x => x) default_settings (minutes 30) lab_node = Ok b /\
    score_breakdown (fun x => x) default_settings (minutes 61) lab_node = Ok b' /\
    (b = {| staleness := -20; install_failures := 0; boot_stability := 0 |} /\ staleness b' = -40) /\
    staleness b' <= staleness b.
Proof.
  destruct (health_score_bounds (fun x => x) default_settings lab_node
    default_settings_ok (minutes 30) (minutes 61)) as (b & b' & s & s' & E & E' & _ & _ & _ & H & _); [by intros t [= <-]|done|].
  exists b, b'. vm_compute in E, E'. injection E as <- <-. injection E' as <- <-. done.
Defined.

(** A threshold of zero minutes lets the score of every node that was ever seen fail. *)
Example no_threshold_no_score :
  calculate_health_score (fun x => x) (default_settings <| offline_threshold_minutes := 0 |>) (minutes 30) lab_node = Err ZeroDivisionError.
Proof. done. Qed.

(** ** Alerts *)

Section Alerts.
Context (fl : Q -> Q) (settings : HealthSettings) (fresh : nat -> string).
Local Abbreviation check_all := (check_all_nodes fl settings fresh).
Local Abbreviation status_of := (determine_health_status fl settings).

(** Whether the score of a node divides by zero, and its value where it does not. *)
Definition unscored (n : NodeRow) : bool := (offline_threshold_minutes settings =? 0) && bool_decide (is_Some (last_seen_at n)).
Definition score_of (now : Z) (n : NodeRow) : Z :=
  match calculate_health_score fl settings now n with Ok (score, _) => score | Err _ => 0 end.

Lemma score_run now n : if unscored n then calculate_health_score fl settings now n = Err ZeroDivisionError
  else exists b, calculate_health_score fl settings now n = Ok (score_of now n, b).
Proof.
  unfold score_of, unscored, calculate_health_score, score_breakdown, staleness_penalty.
  destruct (last_seen_at n); [|rewrite andb_false_r; cbn; by eexists]. cbn. destruct (_ =? 0); cbn; [done|by eexists].
Qed.

(** How many active alerts of a type a node has. *)
Definition active (n t : string) (c : Controller) : nat := length (sql_select (is_active n t) (health_alerts (db c))).

Definition one_active (c : Controller) : Prop := forall n t, (active n t c <= 1)%nat.

(** What may happen to the alerts: the periodic check, an acknowledgement, the
    resolution of an alert that a node's report asks for, and any request that at most
    deletes alerts, whatever it does to the nodes. *)
Inductive health_step : Controller -> Controller -> Prop :=
| step_check c now : health_step c (request (check_all now) c).2
| step_acknowledge c now id : health_step c (request (acknowledge_alert now id) c).2
| step_resolve c now n t : health_step c (request (resolve_alert now n t) c).2
| step_other c c' : sublist (health_alerts (db c')) (health_alerts (db c)) -> health_step c c'.

(** One alert type of one node changed as [k] says, the others did not. *)
Definition only (n t : string) (k : nat) (c c' : Controller) : Prop :=
  active n t c' = k /\ (forall n' t', (n', t') ≠ (n, t) -> active n' t' c' = active n' t' c) /\
  nodes (db c') = nodes (db c).

Lemma is_active_true n t a :
  is_active n t a = true <-> ha_node_id a = n /\ ha_alert_type a = t /\ ha_status a = "active".
Proof. unfold is_active. rewrite !andb_true_iff, !String.eqb_eq. tauto. Qed.

Lemma is_active_other n t n' t' a : (n', t') ≠ (n, t) -> is_active n t a = true -> is_active n' t' a = false.
Proof.
  intros H (<- & <- & _)%is_active_true. apply not_true_is_false. intros (H1 & H2 & _)%is_active_true.
  apply H. by rewrite H1, H2.
Qed.

Lemma scalar_run {R} (rows : list R) (c : Controller) : (length rows <= 1)%nat ->
  scalar_one_or_none rows c = (Ok (head rows), c).
Proof. destruct rows as [|r [|]]; cbn; [done..|lia]. Qed.

Lemma alert_create_run n t m c : (active n t c <= 1)%nat ->
  exists x c', _create_alert_if_new fresh n t m c = (Ok x, c') /\ only n t 1 c c'.
Proof.
  intros H. unfold _create_alert_if_new. rewrite (bind_Ok get_db _ _ (db c) c eq_refl).
  rewrite (bind_Ok _ _ _ _ _ (scalar_run _ c H)).
  destruct (sql_select _ _) as [|a rows] eqn:E; cbn.
  - eexists _, _. split; [done|]. unfold only, active, set. cbn. split_and!; [| |done].
    + rewrite select_app, E. cbn. unfold is_active at 1. cbn. by rewrite !String.eqb_refl.
    + intros n' t' Hne. rewrite select_app. cbn. rewrite (is_active_other n t n' t'); [|done|].
      * by rewrite app_nil_r.
      * by apply is_active_true.
  - eexists _, _. split; [done|]. split_and!; [|done..].
    unfold active in *. rewrite E in *. destruct rows; cbn in *; [done|lia].
Qed.

Lemma resolve_run now n t c : (active n t c <= 1)%nat ->
  exists x c', resolve_alert now n t c = (Ok x, c') /\ only n t 0 c c'.
Proof.
  intros H. unfold resolve_alert. rewrite (bind_Ok get_db _ _ (db c) c eq_refl).
  rewrite (bind_Ok _ _ _ _ _ (scalar_run _ c H)).
  destruct (sql_select _ _) as [|a rows] eqn:E; cbn.
  - eexists _, _. split; [done|]. split_and!; [|done..]. unfold active. by rewrite E.
  - eexists _, _. split; [done|]. unfold only, active, set. cbn. split_and!; [| |done].
    + enough (forall l, sql_select (is_active n t) (map (fun r => if is_active n t r then
        r <| ha_status := "resolved" |> <| ha_resolved_at := Some now |> else r) l) = []) as Hn.
      { unfold set in Hn. cbn in Hn. by rewrite Hn. }
      intros l. induction l as [|x l IH]; [done|]. cbn. destruct (is_active n t x) eqn:Ex.
      * unfold is_active at 1. cbn. rewrite andb_false_r. exact IH.
      * by rewrite Ex.
    + intros n' t' Hne. f_equal. apply (select_update_other (is_active n' t') (is_active n t)).
      * intros r Hr. rewrite (is_active_other _ _ _ _ _ Hne Hr). unfold is_active. cbn. by rewrite andb_false_r.
      * intros r Hr. by apply (is_active_other n t).
Qed.

(** How a check changes the number of active alerts of a type. *)
Definition after_status (st t : string) (before : nat) : nat :=
  if String.eqb st "stale" && alert_on_stale settings then if String.eqb t "node_stale" then 1%nat else before
  else if String.eqb st "offline" && alert_on_offline settings then
    if String.eqb t "node_stale" then 0%nat else if String.eqb t "node_offline" then 1%nat else before
  else if String.eqb st "healthy" then
    if String.eqb t "node_offline" || String.eqb t "node_stale" then 0%nat else before
  else before.

Definition after_score (score : Z) (t : string) (before : nat) : nat :=
  if String.eqb t "low_health_score" && (0 <? alert_on_score_below settings)
  then if score <? alert_on_score_below settings then 1%nat else 0%nat
  else before.

(** The alerts of one node changed by [f], and nothing else. *)
Definition changes (n : string) (f : string -> nat -> nat) (c c' : Controller) : Prop :=
  (forall t, active n t c' = f t (active n t c)) /\
  (forall n' t, n' ≠ n -> active n' t c' = active n' t c) /\ nodes (db c') = nodes (db c).

Lemma changes_refl n c : changes n (fun _ k => k) c c.
Proof. done. Qed.

Lemma changes_trans n f g c c' c'' : changes n f c c' -> changes n g c' c'' ->
  changes n (fun t k => g t (f t k)) c c''.
Proof.
  intros (H1 & H2 & H3) (K1 & K2 & K3). split_and!.
  - intros t. by rewrite K1, H1.
  - intros n' t Hn. by rewrite K2, H2.
  - by rewrite K3.
Qed.

Lemma changes_ext n f g c c' : (forall t k, f t k = g t k) -> changes n f c c' -> changes n g c c'.
Proof. intros H (H1 & H2). split; [|done]. intros t. by rewrite H1, H. Qed.

Lemma only_changes n t k c c' :
  only n t k c c' -> changes n (fun t' b => if String.eqb t' t then k else b) c c'.
Proof.
  intros (H1 & H2 & H3). split_and!; [| |done].
  - intros t'. destruct (String.eqb_spec t' t) as [->|Hne]; [done|]. apply H2. by intros [= ->].
  - intros n' t' Hn. apply H2. by intros [= -> ->].
Qed.

Lemma create_changes n t m c : (active n t c <= 1)%nat ->
  exists x c', _create_alert_if_new fresh n t m c = (Ok x, c') /\
    changes n (fun t' b => if String.eqb t' t then 1%nat else b) c c'.
Proof. intros H. destruct (alert_create_run n t m c H) as (x & c' & E & Ho). eauto using only_changes. Qed.

Lemma resolve_changes now n t c : (active n t c <= 1)%nat ->
  exists x c', resolve_alert now n t c = (Ok x, c') /\
    changes n (fun t' b => if String.eqb t' t then 0%nat else b) c c'.
Proof. intros H. destruct (resolve_run now n t c H) as (x & c' & E & Ho). eauto using only_changes. Qed.

Lemma status_alerts_run now node st c : one_active c ->
  exists l c', status_alerts settings fresh now node st c = (Ok l, c') /\
    changes (node_id node) (after_status st) c c'.
Proof.
  intros Hc. unfold status_alerts, after_status.
  destruct (String.eqb st "stale" && _); [|destruct (String.eqb st "offline" && _); [|destruct (String.eqb st "healthy")]].
  - destruct (create_changes (node_id node) "node_stale" (stale_message settings node) c (Hc _ _)) as (x & c' & E & H).
    rewrite (bind_Ok _ _ _ _ _ E). eexists _, _. split; [done|exact H].
  - destruct (create_changes (node_id node) "node_offline" (offline_message settings node) c (Hc _ _)) as (x & c1 & E & H1).
    rewrite (bind_Ok _ _ _ _ _ E). destruct (resolve_changes now (node_id node) "node_stale" c1) as (y & c2 & E2 & H2).
    { rewrite (proj1 H1). cbn. apply Hc. }
    rewrite (bind_Ok _ _ _ _ _ E2). eexists _, _. split; [done|].
    eapply changes_ext; [|by eapply changes_trans]. done.
  - destruct (resolve_changes now (node_id node) "node_stale" c (Hc _ _)) as (x & c1 & E & H1).
    rewrite (bind_Ok _ _ _ _ _ E). destruct (resolve_changes now (node_id node) "node_offline" c1) as (y & c2 & E2 & H2).
    { rewrite (proj1 H1). cbn. apply Hc. }
    rewrite (bind_Ok _ _ _ _ _ E2). eexists _, _. split; [done|].
    eapply changes_ext; [|by eapply changes_trans]. intros t k. cbn.
    destruct (String.eqb t "node_offline"); [done|]. by destruct (String.eqb t "node_stale").
  - eexists _, _. split; [done|apply changes_refl].
Qed.

Lemma score_alerts_run now node score c : (active (node_id node) "low_health_score" c <= 1)%nat ->
  exists l c', score_alerts settings fresh now node score c = (Ok l, c') /\
    changes (node_id node) (after_score score) c c'.
Proof.
  intros Hc. unfold score_alerts, after_score.
  destruct (0 <? alert_on_score_below settings) eqn:Et; cbn [andb].
  - destruct (score <? alert_on_score_below settings) eqn:Es.
    + destruct (create_changes (node_id node) "low_health_score" (low_score_message settings node score) c Hc)
        as (x & c' & E & H).
      rewrite (bind_Ok _ _ _ _ _ E). eexists _, _. split; [done|].
      eapply changes_ext; [|exact H]. intros t k. cbn. by rewrite andb_true_r.
    + rewrite Z.leb_antisym, Es. cbn [negb].
      destruct (resolve_changes now (node_id node) "low_health_score" c Hc) as (x & c' & E & H).
      rewrite (bind_Ok _ _ _ _ _ E). eexists _, _. split; [done|].
      eapply changes_ext; [|exact H]. intros t k. cbn. by rewrite andb_true_r.
  - eexists _, _. split; [done|]. eapply changes_ext; [|apply changes_refl]. intros t k. by rewrite andb_false_r.
Qed.

Definition checked (now : Z) (n : NodeRow) : NodeRow :=
  n <| health_status := status_of now n |> <| health_score := score_of now n |>.

Definition alerts_after (now : Z) (node : NodeRow) (t : string) (before : nat) : nat :=
  after_score (score_of now node) t (after_status (status_of now node) t before).

Lemma after_status_one st t k : (k <= 1)%nat -> (after_status st t k <= 1)%nat.
Proof. unfold after_status. intros H. repeat case_match; lia. Qed.

Lemma alerts_after_one now node t k : (k <= 1)%nat -> (alerts_after now node t k <= 1)%nat.
Proof.
  intros H%(after_status_one (status_of now node) t). unfold alerts_after, after_score. repeat case_match; lia.
Qed.

Lemma update_health_run now node c : unscored node = false ->
  update_node_health fl settings now node c = (Ok (status_of now node, score_of now node),
    c <| db ::= fun d => d <| nodes ::= fun t => (sql_update (has_key node_id (node_id node)) (fun r =>
      r <| health_status := status_of now node |> <| health_score := score_of now node |>) t).1 |> |>).
Proof.
  intros Hz. pose proof (score_run now node) as H. rewrite Hz in H. destruct H as [b Eb]. unfold update_node_health. rewrite Eb. done.
Qed.

Lemma update_health_fails now node c : unscored node = true -> update_node_health fl settings now node c = (Err ZeroDivisionError, c).
Proof. intros Hz. pose proof (score_run now node) as H. rewrite Hz in H. unfold update_node_health. by rewrite H. Qed.

Lemma check_node_run now node c : one_active c -> unscored node = false ->
  exists l c', check_node fl settings fresh now node c = (Ok l, c') /\ one_active c' /\
    (forall t, active (node_id node) t c' = alerts_after now node t (active (node_id node) t c)) /\
    (forall n' t, n' ≠ node_id node -> active n' t c' = active n' t c) /\
    nodes (db c') = (sql_update (has_key node_id (node_id node)) (fun r =>
      r <| health_status := status_of now node |> <| health_score := score_of now node |>) (nodes (db c))).1.
Proof.
  intros Hc Hz. unfold check_node.
  set (c0 := c <| db ::= fun d => d <| nodes ::= fun t => (sql_update (has_key node_id (node_id node)) (fun r =>
      r <| health_status := status_of now node |> <| health_score := score_of now node |>) t).1 |> |>).
  rewrite (bind_Ok _ _ c (status_of now node, score_of now node) c0) by by apply update_health_run.
  assert (Hc0 : one_active c0) by exact Hc.
  destruct (status_alerts_run now node (status_of now node) c0 Hc0) as (l1 & c1 & E1 & H1).
  rewrite (bind_Ok _ _ _ _ _ E1).
  destruct (score_alerts_run now node (score_of now node) c1) as (l2 & c2 & E2 & H2).
  { rewrite (proj1 H1). apply after_status_one, Hc0. }
  rewrite (bind_Ok _ _ _ _ _ E2). destruct (changes_trans _ _ _ _ _ _ H1 H2) as (K1 & K2 & K3).
  eexists _, _. split; [done|]. split; [|split; [exact K1|split; [exact K2|exact K3]]].
  intros n t. destruct (decide (n = node_id node)) as [->|Hn]; [|by rewrite K2].
  rewrite K1. apply (alerts_after_one now node t), Hc0.
Qed.

Lemma check_nodes_run now ns c : one_active c -> existsb unscored ns = false ->
  exists l c', check_nodes fl settings fresh now ns c = (Ok l, c') /\ one_active c' /\
    (NoDup (node_id <$> ns) ->
       (forall node t, node ∈ ns ->
          active (node_id node) t c' = alerts_after now node t (active (node_id node) t c) /\
          sql_find node_id (node_id node) (nodes (db c'))
          = (fun r => r <| health_status := status_of now node |> <| health_score := score_of now node |>)
              <$> sql_find node_id (node_id node) (nodes (db c))) /\
       (forall n t, (n ∉ node_id <$> ns) -> active n t c' = active n t c /\
          sql_find node_id n (nodes (db c')) = sql_find node_id n (nodes (db c)))).
Proof.
  revert c. induction ns as [|x ns IH]; intros c Hc Hz.
  - eexists _, _. split; [done|]. split; [done|]. intros _. split; [|done]. by intros node t H%elem_of_nil.
  - apply orb_false_iff in Hz as [Hz Hzs]. destruct (check_node_run now x c Hc Hz) as (l1 & c1 & E1 & Hc1 & Hx & Ho & Hn).
    destruct (IH c1 Hc1 Hzs) as (l2 & c2 & E2 & Hc2 & Hrest). cbn [check_nodes].
    rewrite (bind_Ok _ _ _ _ _ E1), (bind_Ok _ _ _ _ _ E2). eexists _, _. split; [done|]. split; [done|].
    assert (Hfind : forall n, sql_find node_id n (nodes (db c1)) = if String.eqb (node_id x) n then
      (fun r => r <| health_status := status_of now x |> <| health_score := score_of now x |>)
        <$> sql_find node_id n (nodes (db c)) else sql_find node_id n (nodes (db c))).
    { intros n. rewrite Hn, sql_find_update by done.
      destruct (sql_find node_id n (nodes (db c))) as [r|] eqn:Er; [|by destruct (String.eqb _ _)].
      apply sql_find_Some_1 in Er as [_ <-]. cbn. unfold has_key. rewrite String.eqb_sym. by destruct (String.eqb _ _). }
    intros [Hnx Hnd]%NoDup_cons. destruct (Hrest Hnd) as [H1 H2]. split.
    + intros node t [->|Hin]%elem_of_cons.
      * destruct (H2 (node_id x) t Hnx) as [-> ->]. by rewrite Hx, Hfind, String.eqb_refl.
      * destruct (H1 node t Hin) as [-> ->].
        assert (node_id node ≠ node_id x) as Hne.
        { intros Heq. apply Hnx. rewrite <- Heq. by apply list_elem_of_fmap_2. }
        rewrite Ho by done. split; [done|]. rewrite Hfind.
        destruct (String.eqb_spec (node_id x) (node_id node)); [congruence|done].
    + intros n t [Hne Hni]%not_elem_of_cons. destruct (H2 n t Hni) as [-> ->].
      rewrite Ho by done. split; [done|]. rewrite Hfind.
      destruct (String.eqb_spec (node_id x) n); [congruence|done].
Qed.

Lemma request_run {A} (m : ControllerM A) c a c' : m c = (Ok a, c') -> request m c = (Ok a, c').
Proof. intros H. by apply request_Ok. Qed.

(** A check of a node without a score fails, after the nodes before it. *)
Lemma check_nodes_fails now ns c : one_active c -> existsb unscored ns = true ->
  (check_nodes fl settings fresh now ns c).1 = Err ZeroDivisionError.
Proof.
  revert c. induction ns as [|x ns IH]; intros c Hc Hz; [done|]. cbn [check_nodes existsb] in *. destruct (unscored x) eqn:Ex.
  - unfold check_node at 1. by rewrite (bind_Err _ _ c ZeroDivisionError c) by by rewrite (bind_Err _ _ _ _ _ (update_health_fails now x c Ex)).
  - destruct (check_node_run now x c Hc Ex) as (l & c1 & E & Hc1 & _). rewrite (bind_Ok _ _ _ _ _ E). specialize (IH c1 Hc1 Hz).
    destruct (check_nodes _ _ _ now ns c1) as [r c2] eqn:E2. cbn in IH. subst r. by rewrite (bind_Err _ _ _ _ _ E2).
Qed.

(** Whether the next check meets such a node. *)
Definition check_divides_by_zero (c : Controller) : bool := existsb unscored (sql_select not_retired (nodes (db c))).

Lemma check_all_run now c : one_active c ->
  if check_divides_by_zero c then exists c', request (check_all now) c = (Err ZeroDivisionError, c') /\ db c' = db c
  else exists l c', request (check_all now) c = (Ok l, c') /\ one_active c' /\
    check_nodes fl settings fresh now (sql_select not_retired (nodes (db c))) c = (Ok l, c').
Proof.
  intros Hc. unfold check_divides_by_zero. destruct (existsb _ _) eqn:Hz.
  - pose proof (check_nodes_fails now _ c Hc Hz) as H. unfold request, check_all_nodes. rewrite (bind_Ok get_db _ _ (db c) c eq_refl).
    destruct (check_nodes _ _ _ _ _ c) as [r c']. cbn in H. subst r. by eexists.
  - destruct (check_nodes_run now (sql_select not_retired (nodes (db c))) c Hc Hz) as (l & c' & E & Hc' & _).
    exists l, c'. split; [|done]. apply request_run. unfold check_all_nodes.
    by rewrite (bind_Ok get_db _ _ (db c) c eq_refl).
Qed.

Lemma one_active_sublist c c' :
  (forall n t, sublist (sql_select (is_active n t) (health_alerts (db c'))) (sql_select (is_active n t) (health_alerts (db c)))) ->
  one_active c -> one_active c'.
Proof. intros H Hc n t. specialize (Hc n t). specialize (H n t). apply sublist_length in H. unfold active in *. lia. Qed.

Lemma acknowledge_sublist now id c n t :
  sublist (sql_select (is_active n t) (health_alerts (db (request (acknowledge_alert now id) c).2)))
    (sql_select (is_active n t) (health_alerts (db c))).
Proof.
  unfold request. destruct (acknowledge_alert now id c) as [[u|e] c'] eqn:E; [|done].
  unfold acknowledge_alert in E. rewrite (bind_Ok get_db _ _ (db c) c eq_refl) in E.
  destruct (sql_find ha_id id (health_alerts (db c))) as [a|]; [|done].
  destruct (negb _); [done|]. injection E as [= _ <-]. unfold set. cbn -[sql_update].
  apply select_update_sublist. intros r _. unfold is_active. cbn. by rewrite andb_false_r.
Qed.

Lemma step_one_active c c' : health_step c c' -> one_active c -> one_active c'.
Proof.
  intros [c1 now|c1 now id|c1 now n t|c1 c2 H] Hc.
  - pose proof (check_all_run now c1 Hc) as H. destruct (check_divides_by_zero c1); [destruct H as (c2 & -> & H)|by destruct H as (l & c2 & -> & Hc2 & _)].
    intros n t. unfold active. cbn. rewrite H. apply Hc.
  - eapply one_active_sublist; [|exact Hc]. intros n t. apply acknowledge_sublist.
  - destruct (resolve_run now n t c1 (Hc n t)) as (x & c2 & E & H1 & H2 & _).
    rewrite (request_run _ _ _ _ E). cbn. intros n' t'.
    destruct (decide ((n', t') = (n, t))) as [[= -> ->]|Hne]; [lia|]. rewrite H2 by done. apply Hc.
  - eapply one_active_sublist; [|exact Hc]. intros n t. by apply select_sublist.
Qed.

Lemma reachable_one_active c c' : one_active c -> rtc health_step c c' -> one_active c'.
Proof. intros Hc H. induction H as [|x y z Hs _ IH]; [done|]. apply IH. by eapply step_one_active. Qed.

End Alerts.

Definition exact (x : Q) : Q := x.
#[export] Instance exact_exact : Rounding exact := exact_rounding.
Definition alert_name (n : nat) : string := "a" ++ pretty n.
Definition lab : Controller := {| db := empty_db <| nodes := [lab_node] |>; sent := []; pi_nodes := ∅ |}.
Definition lab_check (t : Z) (c : Controller) : result server_error (list HealthAlert) * Controller :=
  request (check_all_nodes exact default_settings alert_name (minutes t)) c.


(** Without a threshold no check of a node that was ever seen ends. *)
Example check_divides_by_zero_there :
  (request (check_all_nodes exact (default_settings <| offline_threshold_minutes := 0 |>) alert_name (minutes 30)) lab).1 = Err ZeroDivisionError.
Proof. by vm_compute. Qed.

(** Acknowledging an alert does not silence it: the next check raises it again, as
    only active alerts count. *)
Example acknowledged_alert_returns :
  let c1 := (lab_check 61 lab).2 in
  let c2 := (request (acknowledge_alert (minutes 62) "a0") c1).2 in
  let '(r, c3) := lab_check 66 c2 in
  match r with Ok l => map ha_alert_type l | Err _ => [] end = ["node_offline"] /\
  map ha_status (health_alerts (db c3)) = ["acknowledged"; "active"].
Proof. by vm_compute. Qed.

(** A node that lost everything is recorded with a full score. *)
Example worst_score_is_recorded_as_best :
  let node := lab_node <| health_score := 0 |> <| health_status := "offline" |> in
  match (create_snapshot exact (minutes 90) node lab).1 with Ok s => hs_health_score s | Err _ => 0 end = 100.
Proof. by vm_compute. Qed.

(** ** Agents of sites *)

(** The job leaves every site with a known agent in the status that a reader
    computes from the time of its last heartbeat, leaves the others alone, and reports
    how many statuses it changed; a second run at the same time changes nothing. *)
Theorem agent_statuses_are_current now sites :
  let '(sites', n) := update_agent_statuses now sites in
  sites' = map (fun s => if is_site s && bool_decide (is_Some (agent_last_seen s))
                         then s <| agent_status := Some (get_status_for_last_seen now (agent_last_seen s)) |> else s) sites /\
  n = length (List.filter (fun p => negb (bool_decide (agent_status p.1 = agent_status p.2))) (zip sites sites')) /\
  update_agent_statuses now sites' = (sites', 0%nat).
Proof.
  induction sites as [|s sites IH]; [done|]. cbn [update_agent_statuses].
  destruct (update_agent_statuses now sites) as [rest n]. destruct IH as (-> & -> & IH).
  destruct s as [id [|] [t|] st]; cbn [is_site agent_last_seen agent_status map andb bool_decide].
  2-4: cbn in *; rewrite ?IH; rewrite ?bool_decide_eq_true_2 by done; done.
  destruct (bool_decide (st = Some (status_after (now - t)))) eqn:E.
  - apply bool_decide_eq_true in E as ->. cbn in *. rewrite IH, !bool_decide_eq_true_2 by (done || eauto). done.
  - cbn in *. rewrite IH, E. rewrite !(bool_decide_eq_true_2 (Some _ = _)) by done. done.
Qed.
