(* ===== verification/Inventory.v ===== *)
(** * The node inventory

    [api/routes/nodes.py]: creating, updating, tagging, commanding and retiring
    nodes, the bulk operations, the statistics and the whole of a node's report.
    The lifecycle services are NodeLifecycle's, run on one row of the table; the
    health services are Health's.  A request body is the record its schema makes,
    or [None] when validation fails.  [fresh n] is the [n]-th uuid a request makes,
    [group_exists] looks a group up; sets of node ids are taken in the order of
    the table. *)
From S2P Require Import Prelude Floats PyStr SqlTable NodeLifecycle PiManager Controller Boot Health.
From stdpp Require Import base tactics list gmap relations strings pretty.
From Stdlib Require Import Ascii ZArith QArith Lia.
Open Scope string_scope.
Open Scope Z_scope.
#[local] Arguments String.append !_ _ : simpl nomatch.

(** ** Schemas *)

Definition is_word_char (c : ascii) : bool :=
  let n := N_of_ascii c in
  (((48 <=? n) && (n <=? 57)) || ((65 <=? n) && (n <=? 90)) || ((97 <=? n) && (n <=? 122)) || (n =? 95) || (n =? 45))%N.

(** [^[a-zA-Z0-9_-]+$], which accepts a final line feed. *)
Definition TAG_PATTERN (s : string) : bool :=
  let s := before_final_newline s in negb (String.eqb s "") && str_forall is_word_char s.

Definition tag_ok (v : string) : bool :=
  negb (String.eqb v "") && (String.length v <=? 50)%nat && TAG_PATTERN v.

(** [TagCreate] and [BulkAddTagRequest]. *)
Definition tag_create (tag : string) : option string := if tag_ok tag then Some (lower tag) else None.
Definition bulk_tag (tag : string) : option string :=
  let v := lower (strip tag) in if tag_ok v then Some v else None.

Record NodeCreate := {
  nc_mac_address : string;
  nc_hostname : option string;
  nc_arch : string;
  nc_boot_mode : string;
  nc_group_id : option string;
  nc_vendor : option string;
  nc_model : option string;
  nc_serial_number : option string;
  nc_system_uuid : option string;
  nc_pi_model : option string
}.

Definition valid_arch : list string := ["x86_64"; "arm64"; "aarch64"].
Definition valid_boot_mode : list string := ["bios"; "uefi"; "pi"].

Definition node_create (r : NodeCreate) : option NodeCreate :=
  if MAC_PATTERN (nc_mac_address r) && existsb (String.eqb (nc_arch r)) valid_arch
     && existsb (String.eqb (nc_boot_mode r)) valid_boot_mode
  then Some {| nc_mac_address := Boot.normalize_mac (nc_mac_address r); nc_hostname := nc_hostname r; nc_arch := nc_arch r;
               nc_boot_mode := nc_boot_mode r; nc_group_id := nc_group_id r; nc_vendor := nc_vendor r;
               nc_model := nc_model r; nc_serial_number := nc_serial_number r; nc_system_uuid := nc_system_uuid r;
               nc_pi_model := nc_pi_model r |}
  else None.

(** A field of [model_dump(exclude_unset=True)]: [None] if it is not set. *)
Record NodeUpdate := {
  nu_hostname : option (option string);
  nu_workflow_id : option (option string);
  nu_group_id : option (option string);
  nu_vendor : option (option string);
  nu_model : option (option string);
  nu_serial_number : option (option string);
  nu_system_uuid : option (option string);
  nu_pi_model : option (option string)
}.

(** The fields of [NodeReport] that the inventory reads, and those of the lifecycle. *)
Record StatusReport := {
  sr_mac_address : string;
  sr_ip_address : option string;
  sr_hostname : option string;
  sr_vendor : option string;
  sr_model : option string;
  sr_serial_number : option string;
  sr_system_uuid : option string;
  sr_report : NodeReport
}.

Definition commands : list string := ["poweroff"; "reboot"; "rescan"].

Record NodeResponse := { nr_node : NodeRow; nr_tags : list string }.

Record NodeStats := { ns_total : Z; ns_by_state : list (string * Z); ns_discovered_last_hour : Z; ns_installing_count : Z }.

Section Inventory.
Variable fl : Q -> Q.
Variable settings : HealthSettings.
Variable group_exists : string -> bool.
Variable install_timeout_minutes : Z.

Definition of_node (id : string) (t : NodeTag) : bool := String.eqb (nt_node_id t) id.
Definition has_tag (tag : string) (t : NodeTag) : bool := String.eqb (nt_tag t) tag.

(** [NodeResponse.from_node] *)
Definition from_node (d : Database) (n : NodeRow) : NodeResponse :=
  {| nr_node := n; nr_tags := map nt_tag (sql_select (of_node (node_id n)) (node_tags d)) |}.

Definition node_response (id : string) : ControllerM NodeResponse :=
  d ← get_db;
  match sql_find node_id id (nodes d) with
  | Some n => mret (from_node d n)
  | None => raise NoResultFound
  end.

Definition set_tags (f : list NodeTag -> list NodeTag) : ControllerM unit := set_db (fun d => d <| node_tags ::= f |>).

(** [if x: query = query.where(column == x)] *)
Definition matches_opt (x : option string) (v : option string) : bool :=
  match x with
  | Some s => if String.eqb s "" then true else bool_decide (v = Some s)
  | None => true
  end.

Definition list_nodes (state group tag : option string) : ControllerM (list NodeResponse) :=
  d ← get_db;
  let tagged n := match tag with
                  | Some t => if String.eqb t "" then true
                              else existsb (fun x => of_node (node_id n) x && has_tag (lower t) x) (node_tags d)
                  | None => true
                  end in
  mret (map (from_node d) (sql_select (fun n => matches_opt state (Some (node_state n)) && matches_opt group (group_id n)
                                                && tagged n) (nodes d))).

Fixpoint count_states (ns : list NodeRow) (acc : list (string * Z)) : list (string * Z) :=
  match ns with
  | [] => acc
  | n :: ns => count_states ns (assoc_set (node_state n) (default 0 (assoc_get (node_state n) acc) + 1) acc)
  end.

Definition get_node_stats (now : Z) : ControllerM NodeStats :=
  d ← get_db;
  let by_state := count_states (nodes d) [] in
  mret {| ns_total := sql_count (fun _ => true) (nodes d);
          ns_by_state := by_state;
          ns_discovered_last_hour := sql_count (fun n => String.eqb (node_state n) "discovered"
                                                         && (now - 3600 * 1000000 <=? created_at n)) (nodes d);
          ns_installing_count := default 0 (assoc_get "installing" by_state) |}.

(** *** Bulk operations *)

Definition in_ids (ids : list string) (id : string) : bool := existsb (String.eqb id) ids.

(** [update(Node).where(Node.id.in_(ids)).values(...)], and its row count. *)
Definition update_nodes_in (ids : list string) (f : NodeRow -> NodeRow) : ControllerM Z :=
  d ← get_db;
  let '(t, n) := sql_update (fun r => in_ids ids (node_id r)) f (nodes d) in
  set_db (fun d => d <| nodes := t |>);; mret n.

Definition bulk_assign_group (ids : list string) (group : option string) : ControllerM Z :=
  if is_set group && negb (group_exists (default "" group)) then raise (HTTPException 404 "Group not found")
  else update_nodes_in ids (fun n => n <| group_id := group |>).

Definition bulk_assign_workflow (ids : list string) (workflow : option string) : ControllerM Z :=
  update_nodes_in ids (fun n => n <| workflow_id := workflow |>).

(** The nodes to tag: they exist and do not have the tag. *)
Definition nodes_to_tag (ids : list string) (tag : string) (d : Database) : list string :=
  List.filter (fun id => negb (existsb (fun t => of_node id t && has_tag tag t) (node_tags d)))
    (map node_id (sql_select (fun n => in_ids ids (node_id n)) (nodes d))).

Fixpoint new_tags (fresh : nat -> string) (n : nat) (ids : list string) (tag : string) : list NodeTag :=
  match ids with
  | [] => []
  | id :: ids => {| nt_id := fresh n; nt_node_id := id; nt_tag := tag |} :: new_tags fresh (S n) ids tag
  end.

Definition bulk_add_tag (fresh : nat -> string) (ids : list string) (tag : string) : ControllerM Z :=
  match bulk_tag tag with
  | None => raise ValidationError
  | Some tag =>
      d ← get_db;
      let to := nodes_to_tag ids tag d in
      set_tags (fun t => (t ++ new_tags fresh 0 to tag)%list);;
      mret (Z.of_nat (length to))
  end.

Definition bulk_remove_tag (ids : list string) (tag : string) : ControllerM Z :=
  let tag := lower (strip tag) in
  d ← get_db;
  let '(t, n) := sql_delete (fun t => in_ids ids (nt_node_id t) && has_tag tag t) (node_tags d) in
  set_tags (fun _ => t);; mret n.

Fixpoint bulk_states (now : Z) (new_state : string) (ids : list string) : ControllerM (Z * list (string * string)) :=
  match ids with
  | [] => mret (0, [])
  | id :: ids =>
      r ← on_node id (bulk_change_one now new_state);
      '(updated, errors) ← bulk_states now new_state ids;
      match r with
      | Some msg => mret (updated, (id, msg) :: errors)
      | None => mret (updated + 1, errors)
      end
  end.

Definition bulk_change_state (now : Z) (ids : list string) (new_state : string) : ControllerM (Z * list (string * string)) :=
  if negb (existsb (String.eqb new_state) NodeStateMachine.STATES) then raise ValidationError
  else
    d ← get_db;
    bulk_states now new_state (map node_id (sql_select (fun n => in_ids ids (node_id n)) (nodes d))).

(** *** Single nodes *)

Definition created_node (now : Z) (id : string) (r : NodeCreate) : NodeRow :=
  (new_node id (nc_mac_address r)) <| hostname := nc_hostname r |> <| arch := nc_arch r |> <| boot_mode := nc_boot_mode r |>
    <| group_id := nc_group_id r |> <| vendor := nc_vendor r |> <| hw_model := nc_model r |>
    <| serial_number := nc_serial_number r |> <| system_uuid := nc_system_uuid r |> <| pi_model := nc_pi_model r |>
    <| created_at := now |>.

Definition create_node (now : Z) (id : string) (body : NodeCreate) : ControllerM NodeResponse :=
  match node_create body with
  | None => raise ValidationError
  | Some r =>
      existing ← find_by_mac (nc_mac_address r);
      match existing with
      | Some _ => raise (HTTPException 409 ("Node with MAC " ++ nc_mac_address r ++ " already exists"))
      | None => insert_node (created_node now id r);; node_response id
      end
  end.

Definition get_stalled_nodes (now : Z) : ControllerM (list NodeResponse) :=
  if install_timeout_minutes <=? 0 then mret []
  else
    d ← get_db;
    let threshold := now - install_timeout_minutes * 60 * 1000000 in
    let stalled n := String.eqb (node_state n) "installing"
                     && match n_state_changed_at (core n) with Some t => t <? threshold | None => false end in
    mret (map (from_node d) (order_by (fun n => default 0 (n_state_changed_at (core n))) (sql_select stalled (nodes d)))).

Definition get_node (id : string) : ControllerM NodeResponse := need_node id;; node_response id.

Definition update_fields (u : NodeUpdate) (n : NodeRow) : NodeRow :=
  n <| hostname ::= fun x => default x (nu_hostname u) |> <| workflow_id ::= fun x => default x (nu_workflow_id u) |>
    <| group_id ::= fun x => default x (nu_group_id u) |> <| vendor ::= fun x => default x (nu_vendor u) |>
    <| hw_model ::= fun x => default x (nu_model u) |> <| serial_number ::= fun x => default x (nu_serial_number u) |>
    <| system_uuid ::= fun x => default x (nu_system_uuid u) |> <| pi_model ::= fun x => default x (nu_pi_model u) |>.

Definition update_node (id : string) (u : NodeUpdate) : ControllerM NodeResponse :=
  need_node id;;
  Controller.update_node id (update_fields u);;
  node_response id.

(** [StateTransition] checks the state. *)
Definition transition_node_state (now : Z) (id state : string) (comment : option string) (force : bool) : ControllerM NodeResponse :=
  if negb (existsb (String.eqb state) NodeStateMachine.STATES) then raise ValidationError
  else
    need_node id;;
    on_node id (NodeLifecycle.transition_node_state now state comment force);;
    node_response id.

(** The transition of [retire_node]: an invalid one is a 400. *)
Definition retire (now : Z) : NodeM unit :=
  catch (StateTransitionService.transition now "retired" "admin" None None None false)
    (fun e => match e with
              | InvalidTransition e => raise (NodeLifecycle.HTTPException 400 (invalid_message e))
              | e => raise e
              end).

Definition retire_node (now : Z) (id : string) : ControllerM NodeResponse :=
  node ← need_node id;
  on_node id (retire now);;
  (if String.eqb (boot_mode node) "pi" && is_set (serial_number node)
   then on_pi (delete_node_directory (default "" (serial_number node)));; mret tt
   else mret tt);;
  node_response id.

Definition add_node_tag (fresh : nat -> string) (id tag : string) : ControllerM NodeResponse :=
  match tag_create tag with
  | None => raise ValidationError
  | Some tag =>
      need_node id;;
      d ← get_db;
      if existsb (fun t => of_node id t && has_tag tag t) (node_tags d)
      then raise (HTTPException 409 ("Tag '" ++ tag ++ "' already exists on node"))
      else
        set_tags (fun t => (t ++ new_tags fresh 0 [id] tag)%list);;
        node_response id
  end.

(** The tag's first row is deleted. *)
Definition remove_node_tag (id tag : string) : ControllerM NodeResponse :=
  need_node id;;
  d ← get_db;
  match sql_select (fun t => of_node id t && has_tag (lower tag) t) (node_tags d) with
  | [] => raise (HTTPException 404 ("Tag '" ++ tag ++ "' not found on node"))
  | t :: _ => set_tags (fun ts => (sql_delete (has_key nt_id (nt_id t)) ts).1);; node_response id
  end.

(** *** Commands *)

Definition send_node_command (id command : string) : ControllerM string :=
  if negb (existsb (String.eqb command) commands) then raise ValidationError
  else
    need_node id;;
    Controller.update_node id (fun n => n <| pending_command := Some command |>);;
    broadcast "node.command" (JObj [("node_id", JStr id); ("command", JStr command)]);;
    mret ("Command '" ++ command ++ "' queued for node").

Definition get_node_command (id : string) (clear : bool) : ControllerM (option string) :=
  node ← need_node id;
  (if clear && is_set (pending_command node)
   then Controller.update_node id (fun n => n <| pending_command := None |>) else mret tt);;
  mret (pending_command node).

(** *** Reports *)

(** [if report.x: node.x = report.x] *)
Definition given_or (x y : option string) : option string := if is_set x then x else y.

Definition reported (now : Z) (r : StatusReport) (n : NodeRow) : NodeRow :=
  let changed := is_set (sr_ip_address r) && negb (bool_decide (ip_address n = sr_ip_address r)) in
  let n := n <| last_seen_at := Some now |> in
  let n := if changed then n <| previous_ip_address := ip_address n |> <| last_ip_change_at := Some now |> else n in
  n <| ip_address ::= given_or (sr_ip_address r) |> <| hostname ::= given_or (sr_hostname r) |>
    <| vendor ::= given_or (sr_vendor r) |> <| hw_model ::= given_or (sr_model r) |>
    <| serial_number ::= given_or (sr_serial_number r) |> <| system_uuid ::= given_or (sr_system_uuid r) |>.

(** The end of a report: the status and score of the node that was just heard of. *)
Definition refresh_health (now : Z) (id : string) : ControllerM unit :=
  node ← need_node id;
  let old_status := health_status node in
  '(new_status, new_score) ← update_node_health fl settings now node;
  (if String.eqb new_status "healthy" then
     resolve_alert now id "node_stale";; resolve_alert now id "node_offline";; mret tt
   else mret tt);;
  if negb (String.eqb old_status new_status) then
    broadcast "health:status_changed"
      (JObj [("node_id", JStr id); ("old_status", JStr old_status); ("new_status", JStr new_status);
             ("health_score", JNum new_score)])
  else mret tt.

Definition report_node_status (now : Z) (r : StatusReport) (client : option string) : ControllerM string :=
  if negb (MAC_PATTERN (sr_mac_address r)) then raise ValidationError
  else
    let mac := Boot.normalize_mac (sr_mac_address r) in
    found ← find_by_mac mac;
    match found with
    | None => raise (HTTPException 404 ("Node with MAC " ++ mac ++ " not found"))
    | Some node =>
        let id := node_id node in
        let client_ip := match client with Some c => Some c | None => sr_ip_address r end in
        Controller.update_node id (reported now r);;
        message ← on_node id (report_dispatch now (sr_report r) client_ip);
        refresh_health now id;;
        mret message
    end.

End Inventory.

(** ** Laws *)

(** No service of the lifecycle changes a node's keys. *)
Definition keyed_as (i m : string) (s : Session) : Prop := n_id (s_node s) = i /\ n_mac_address (s_node s) = m.

Section Keys.
Variables (i m : string).
#[local] Abbreviation keyed := (keyed_as i m).

Lemma keyed_set_node f : (forall n, n_id (f n) = n_id n /\ n_mac_address (f n) = n_mac_address n) -> keeps keyed (set_node f).
Proof. intros Hf s [H1 H2]. unfold keyed_as. cbn. by destruct (Hf (s_node s)) as [-> ->]. Qed.

Lemma keyed_get : keeps keyed (get_state (E := lifecycle_error)).
Proof. by intros s Hs. Qed.
Lemma keyed_raise {A} (e : lifecycle_error) : keeps keyed (raise (A := A) e).
Proof. by intros s Hs. Qed.
Lemma keyed_event e : keeps keyed (add_event e).
Proof. by intros s Hs. Qed.
Lemma keyed_log l : keeps keyed (add_log l).
Proof. by intros s Hs. Qed.

#[local] Hint Resolve keyed_get keyed_raise keyed_event keyed_log : pyboot.
#[local] Hint Extern 1 (keeps _ (set_node _)) => apply keyed_set_node; intros; by split : pyboot.
#[local] Hint Extern 1 (keeps _ (if ?b then _ else _)) => destruct b : pyboot.

Lemma keyed_transition now to by_ uid c md force : keeps keyed (StateTransitionService.transition now to by_ uid c md force).
Proof. unfold StateTransitionService.transition. auto 20 with pyboot. Qed.
#[local] Hint Resolve keyed_transition : pyboot.

Lemma keyed_failure now error : keeps keyed (StateTransitionService.handle_install_failure now error).
Proof. unfold StateTransitionService.handle_install_failure, StateTransitionService.record_failure. auto 10 with pyboot. Qed.
#[local] Hint Resolve keyed_failure : pyboot.

Lemma keyed_report now report ip : keeps keyed (report_dispatch now report ip).
Proof.
  unfold report_dispatch, _handle_event, _handle_legacy_installation_status, EventService.log_event, in_states, node_state,
    failure_message. repeat case_match; auto 20 with pyboot.
Qed.

Lemma keyed_retire now : keeps keyed (retire now).
Proof. unfold retire. apply keeps_catch; [auto with pyboot|]. intros []; auto with pyboot. Qed.

Lemma keyed_bulk now st : keeps keyed (bulk_change_one now st).
Proof. unfold bulk_change_one. apply keeps_catch; [auto with pyboot|]. intros []; auto with pyboot. Qed.

Lemma keyed_admin now st comment force : keeps keyed (NodeLifecycle.transition_node_state now st comment force).
Proof.
  unfold NodeLifecycle.transition_node_state. apply keeps_catch; [auto with pyboot|]. unfold NodeLifecycle.node_state.
  intros []; auto with pyboot.
Qed.
End Keys.

(** Running a lifecycle service on a row that is there. *)
Lemma on_node_run {A} (m : NodeM A) n c :
  keys_unique node_id (nodes (db c)) -> sql_find node_id (node_id n) (nodes (db c)) = Some n ->
  (forall i x, keeps (keyed_as i x) m) ->
  let '(res, s) := m {| s_node := core n; s_logs := node_logs (db c); s_events := node_events (db c) |} in
  exists c', on_node (node_id n) m c = (match res with Ok a => Ok a | Err e => Err (LifecycleError e) end, c') /\
    sql_find node_id (node_id n) (nodes (db c')) = Some (n <| core := s_node s |>) /\
    (forall k, k ≠ node_id n -> sql_find node_id k (nodes (db c')) = sql_find node_id k (nodes (db c))) /\
    keys_unique node_id (nodes (db c')) /\ map mac_address (nodes (db c')) = map mac_address (nodes (db c)) /\
    db c' = (db c) <| nodes := nodes (db c') |> <| node_logs := s_logs s |> <| node_events := s_events s |> /\
    map node_id (nodes (db c')) = map node_id (nodes (db c)) /\
    nodes (db c') = (sql_update (has_key node_id (node_id n)) (fun r => r <| core := s_node s |>) (nodes (db c))).1.
Proof.
  intros Hu Hn Hm. unfold on_node. rewrite Hn.
  pose proof (Hm (node_id n) (mac_address n)
    {| s_node := core n; s_logs := node_logs (db c); s_events := node_events (db c) |} (conj eq_refl eq_refl)) as [Hi Hx].
  destruct (m _) as [res s]. cbn in Hi, Hx. eexists. split; [done|].
  set (f := fun r => r <| core := s_node s |>).
  assert (Hf : forall r, r ∈ nodes (db c) -> has_key node_id (node_id n) r = true -> r = n).
  { intros r Hr ?%has_key_true. apply (key_elem_inj node_id (nodes (db c))); [done|done| |done]. by apply sql_find_Some_1 in Hn as [? _]. }
  assert (Hmap : forall (key : NodeRow -> string), key (f n) = key n ->
    map key (sql_update (has_key node_id (node_id n)) f (nodes (db c))).1 = map key (nodes (db c))).
  { intros key Hk. cbn. rewrite map_map. apply map_ext_in. intros r Hr%list_elem_of_In.
    destruct (has_key node_id (node_id n) r) eqn:E; [|done]. by rewrite (Hf r Hr E). }
  assert (Hfind : forall k, sql_find node_id k (sql_update (has_key node_id (node_id n)) f (nodes (db c))).1
    = (fun r => if has_key node_id (node_id n) r then f r else r) <$> sql_find node_id k (nodes (db c))).
  { intros k. apply sql_find_update_on. intros r Hr E. by rewrite (Hf r Hr E). }
  split; [|split; [|split; [|split; [|split; [done|split; [by apply Hmap|done]]]]]].
  - change (sql_find node_id (node_id n) (sql_update (has_key node_id (node_id n)) f (nodes (db c))).1 = Some (f n)).
    rewrite Hfind, Hn. cbn. by rewrite (proj2 (has_key_true node_id _ n)).
  - intros k Hk. change (sql_find node_id k (sql_update (has_key node_id (node_id n)) f (nodes (db c))).1 = sql_find node_id k (nodes (db c))).
    rewrite Hfind. destruct (sql_find node_id k (nodes (db c))) as [r|] eqn:E; [|done]. cbn.
    apply sql_find_Some_1 in E as [_ E]. by rewrite (proj2 (has_key_false node_id _ r)) by congruence.
  - unfold keys_unique. change (NoDup (map node_id (sql_update (has_key node_id (node_id n)) f (nodes (db c))).1)).
    rewrite Hmap; [done|exact Hi].
  - apply Hmap. exact Hx.
Qed.

(** An update of a row that is there. *)
Lemma update_row_run f n c :
  keys_unique node_id (nodes (db c)) -> sql_find node_id (node_id n) (nodes (db c)) = Some n ->
  (forall r, node_id (f r) = node_id r /\ mac_address (f r) = mac_address r) ->
  exists c', Controller.update_node (node_id n) f c = (Ok tt, c') /\
    sql_find node_id (node_id n) (nodes (db c')) = Some (f n) /\
    (forall k, k ≠ node_id n -> sql_find node_id k (nodes (db c')) = sql_find node_id k (nodes (db c))) /\
    keys_unique node_id (nodes (db c')) /\ map mac_address (nodes (db c')) = map mac_address (nodes (db c)) /\
    db c' = (db c) <| nodes := nodes (db c') |> /\ sent c' = sent c /\ pi_nodes c' = pi_nodes c.
Proof.
  intros Hu Hn Hf. eexists. split; [done|].
  assert (Hfind : forall k, sql_find node_id k (sql_update (has_key node_id (node_id n)) f (nodes (db c))).1
    = (fun r => if has_key node_id (node_id n) r then f r else r) <$> sql_find node_id k (nodes (db c))).
  { intros k. apply sql_find_update. intros r. by destruct (Hf r). }
  split; [|split; [|split; [|split; [|done]]]].
  - change (sql_find node_id (node_id n) (sql_update (has_key node_id (node_id n)) f (nodes (db c))).1 = Some (f n)).
    rewrite Hfind, Hn. cbn. by rewrite (proj2 (has_key_true node_id _ n)).
  - intros k Hk. change (sql_find node_id k (sql_update (has_key node_id (node_id n)) f (nodes (db c))).1 = sql_find node_id k (nodes (db c))).
    rewrite Hfind. destruct (sql_find node_id k (nodes (db c))) as [r|] eqn:E; [|done]. cbn.
    apply sql_find_Some_1 in E as [_ E]. by rewrite (proj2 (has_key_false node_id _ r)) by congruence.
  - apply keys_unique_update; [|done]. intros r. by destruct (Hf r).
  - cbn. rewrite map_map. apply map_ext. intros r. destruct (has_key _ _ _); [|done]. by destruct (Hf r).
Qed.

Lemma resolve_frame now n t c : let c' := (resolve_alert now n t c).2 in
  db c' = (db c) <| health_alerts := health_alerts (db c') |>.
Proof.
  unfold resolve_alert. rewrite (bind_Ok get_db _ c (db c) c eq_refl). unfold scalar_one_or_none.
  destruct (sql_select _ _) as [|a [|]]; [by destruct c as [[]]..].
Qed.

(** *** Reports *)

Section Reports.
Context (fl : Q -> Q) `{!Rounding fl} (settings : HealthSettings).
#[local] Abbreviation report := (report_node_status fl settings).

Lemma minutes_since_now t : (minutes_since fl t t <= 0)%Q.
Proof.
  assert (H0 : (fl 0 == 0)%Q) by (change 0%Q with (inject_Z 0); by rewrite fl_int).
  assert (Hd : forall x z, (x <= 0)%Q -> (0 < z)%Q -> (fdiv fl x z <= 0)%Q).
  { intros x z Hx Hz. rewrite <- H0. unfold fdiv. apply fl_mono. apply Qle_shift_div_r; [done|]. by rewrite Qmult_0_l. }
  unfold minutes_since. apply Hd; [|done]. apply Hd; [|done]. by rewrite Z.sub_diag.
Qed.

(** A node that was just heard of is healthy. *)
Lemma seen_now_is_healthy now n : 0 <= stale_threshold_minutes settings -> last_seen_at n = Some now ->
  determine_health_status fl settings now n = "healthy".
Proof.
  intros Hs Hn. unfold determine_health_status. rewrite Hn.
  rewrite (proj2 (Qle_bool_iff _ _)); [done|]. apply Qle_trans with 0%Q; [apply minutes_since_now|]. by apply inject_nonneg.
Qed.

(** The end of a report, for a node heard of now. *)
Lemma refresh_health_run now n c :
  keys_unique node_id (nodes (db c)) -> sql_find node_id (node_id n) (nodes (db c)) = Some n -> one_active c ->
  0 <= stale_threshold_minutes settings -> last_seen_at n = Some now -> offline_threshold_minutes settings ≠ 0 ->
  exists c', refresh_health fl settings now (node_id n) c = (Ok tt, c') /\
    sql_find node_id (node_id n) (nodes (db c')) = Some (checked fl settings now n) /\
    node_logs (db c') = node_logs (db c) /\ node_events (db c') = node_events (db c) /\
    active (node_id n) "node_stale" c' = 0%nat /\ active (node_id n) "node_offline" c' = 0%nat /\
    (forall k, k ≠ node_id n -> sql_find node_id k (nodes (db c')) = sql_find node_id k (nodes (db c)) /\
                                forall t, active k t c' = active k t c).
Proof.
  intros Hu Hn Ha Hst Hseen Hz. pose proof (seen_now_is_healthy now n Hst Hseen) as Hh.
  unfold refresh_health. rewrite (bind_Ok (need_node _) _ c n c) by (by rewrite need_node_run, Hn).
  assert (unscored settings n = false) as Hz' by (unfold unscored; apply andb_false_iff; left; lia).
  set (g := fun x => x <| health_status := "healthy" |> <| health_score := score_of fl settings now n |>).
  destruct (update_row_run g n c Hu Hn (fun x => conj eq_refl eq_refl)) as (c3 & E3 & F3 & O3 & _ & _ & D3 & _).
  rewrite (bind_Ok _ _ c ("healthy", score_of fl settings now n) c3)
    by (rewrite update_health_run, Hh by done; unfold Controller.update_node in E3; injection E3 as <-; done).
  assert (A3 : health_alerts (db c3) = health_alerts (db c)) by (by rewrite D3).
  assert (Ha3 : one_active c3) by (intros k t; unfold active; rewrite A3; apply Ha).
  destruct (resolve_changes now (node_id n) "node_stale" c3 (Ha3 _ _)) as (x4 & c4 & E4 & C4).
  destruct (resolve_changes now (node_id n) "node_offline" c4) as (x5 & c5 & E5 & C5).
  { rewrite (proj1 C4). cbn. apply Ha3. }
  pose proof (resolve_frame now (node_id n) "node_stale" c3) as D4. rewrite E4 in D4. cbn in D4.
  pose proof (resolve_frame now (node_id n) "node_offline" c4) as D5. rewrite E5 in D5. cbn in D5.
  change (String.eqb "healthy" "healthy") with true. cbv iota.
  rewrite (bind_Ok _ _ c3 tt c5) by (rewrite (bind_Ok _ _ _ _ _ E4), (bind_Ok _ _ _ _ _ E5); done).
  set (bc := if negb (String.eqb (health_status n) "healthy") then _ else _).
  assert (exists c6, bc c5 = (Ok tt, c6) /\ db c6 = db c5) as (c6 & E6 & D6).
  { unfold bc. destruct (negb _); eexists; by split. }
  exists c6. split; [exact E6|]. rewrite D6.
  assert (Hn5 : nodes (db c5) = nodes (db c3)) by (by rewrite (proj2 (proj2 C5)), (proj2 (proj2 C4))).
  assert (Hact : forall k t, active k t c6 = active k t c5) by (intros k t; unfold active; by rewrite D6).
  split; [rewrite Hn5, F3; unfold checked; by rewrite Hh|].
  split; [rewrite D5, D4, D3; done|]. split; [rewrite D5, D4, D3; done|].
  split; [rewrite Hact, (proj1 C5), (proj1 C4); done|]. split; [rewrite Hact, (proj1 C5); done|].
  intros k Hk. split; [rewrite Hn5, O3 by done; done|].
  intros t. rewrite Hact, (proj1 (proj2 C5)), (proj1 (proj2 C4)) by done. unfold active. by rewrite A3.
Qed.

(** With a threshold of zero it fails, as the node was just seen. *)
Lemma refresh_health_fails now n c : sql_find node_id (node_id n) (nodes (db c)) = Some n -> last_seen_at n = Some now ->
  offline_threshold_minutes settings = 0 -> refresh_health fl settings now (node_id n) c = (Err ZeroDivisionError, c).
Proof.
  intros Hn Hseen Hz. unfold refresh_health. rewrite (bind_Ok (need_node _) _ c n c) by (by rewrite need_node_run, Hn).
  rewrite (bind_Err _ _ c ZeroDivisionError c); [done|]. apply update_health_fails. unfold unscored. by rewrite Hseen, Hz.
Qed.

(** The row a report leaves: the report's values, the lifecycle's columns, the health. *)
Definition report_row (now : Z) (r : StatusReport) (s : Session) (n : NodeRow) : NodeRow :=
  checked fl settings now ((reported now r n) <| core := s_node s |>).

(** C5: A report is one step of the lifecycle on the reporting node's row, and more.  The
    handler fails exactly as the lifecycle's dispatch does, or, where the settings'
    offline threshold is zero, in the division of the node's score, and then nothing is
    stored.  Otherwise the row has the lifecycle's columns as the dispatch leaves them,
    the audit log and the events grow as the dispatch says, the node has been seen
    now, is healthy and has its score, its stale and offline alerts are resolved, and
    no other node and no other node's alert has changed. *)
Theorem report_refines_lifecycle now r client c n :
  keys_unique node_id (nodes (db c)) -> one_active c -> 0 <= stale_threshold_minutes settings ->
  MAC_PATTERN (sr_mac_address r) = true ->
  sql_find mac_address (Boot.normalize_mac (sr_mac_address r)) (nodes (db c)) = Some n ->
  let client_ip := match client with Some x => Some x | None => sr_ip_address r end in
  let '(res, s) := report_dispatch now (sr_report r) client_ip
                     {| s_node := core n; s_logs := node_logs (db c); s_events := node_events (db c) |} in
  let '(res', c') := request (report now r client) c in
  match res with
  | Err e => res' = Err (LifecycleError e) /\ db c' = db c
  | Ok msg =>
      if offline_threshold_minutes settings =? 0 then res' = Err ZeroDivisionError /\ db c' = db c else
      res' = Ok msg /\
      sql_find node_id (node_id n) (nodes (db c')) = Some (report_row now r s n) /\
      health_status (report_row now r s n) = "healthy" /\
      node_logs (db c') = s_logs s /\ node_events (db c') = s_events s /\
      active (node_id n) "node_stale" c' = 0%nat /\ active (node_id n) "node_offline" c' = 0%nat /\
      (forall k, k ≠ node_id n -> sql_find node_id k (nodes (db c')) = sql_find node_id k (nodes (db c)) /\
                                  forall t, active k t c' = active k t c)
  end.
Proof.
  intros Hu Ha Hst Hmac Hfind client_ip. pose proof (find_by_id _ _ _ Hu Hfind) as Hid.
  set (f := reported now r).
  assert (Hf : forall x, node_id (f x) = node_id x /\ mac_address (f x) = mac_address x).
  { intros x. unfold f, reported. by destruct (_ && _). }
  destruct (update_row_run f n c Hu Hid Hf) as (c1 & E1 & F1 & O1 & U1 & _ & D1 & _).
  assert (Hcore : core (f n) = core n) by (unfold f, reported; by destruct (_ && _)).
  assert (Hfid : node_id (f n) = node_id n) by apply Hf.
  rewrite <- Hfid in F1.
  pose proof (on_node_run (report_dispatch now (sr_report r) client_ip) (f n) c1 U1 F1 (fun i x => keyed_report i x _ _ _)) as Hon.
  rewrite Hcore in Hon. replace (node_logs (db c1)) with (node_logs (db c)) in Hon by (by rewrite D1).
  replace (node_events (db c1)) with (node_events (db c)) in Hon by (by rewrite D1).
  destruct (report_dispatch now (sr_report r) client_ip _) as [res s] eqn:Es.
  destruct Hon as (c2 & E2 & F2 & O2 & U2 & _ & D2 & _). rewrite Hfid in E2, F2, O2.
  unfold request, report_node_status. rewrite Hmac. cbn [negb].
  rewrite (bind_Ok (find_by_mac _) _ c (Some n) c) by (unfold find_by_mac; rewrite (bind_Ok get_db _ c (db c) c eq_refl), Hfind; done).
  rewrite (bind_Ok _ _ _ _ _ E1). fold client_ip.
  destruct res as [msg|e]; [|by rewrite (bind_Err _ _ _ _ _ E2)].
  rewrite (bind_Ok _ _ _ _ _ E2). set (row := (f n) <| core := s_node s |>) in *.
  assert (Hrow : node_id row = node_id n) by apply (sql_find_Some_1 _ _ _ _ F2).
  assert (Hseen : last_seen_at row = Some now) by (unfold row, f, reported; by destruct (_ && _)).
  assert (A2 : health_alerts (db c2) = health_alerts (db c)) by (by rewrite D2, D1).
  assert (Ha2 : one_active c2) by (intros k t; unfold active; rewrite A2; apply Ha).
  rewrite <- Hrow in F2. destruct (Z.eqb_spec (offline_threshold_minutes settings) 0) as [Hz|Hz].
  { pose proof (refresh_health_fails now row c2 F2 Hseen Hz) as E3. rewrite Hrow in E3. by rewrite (bind_Err _ _ _ _ _ E3). }
  destruct (refresh_health_run now row c2 U2 F2 Ha2 Hst Hseen Hz)
    as (c3 & E3 & F3 & L3 & V3 & S3 & T3 & O3).
  rewrite Hrow in *. rewrite (bind_Ok _ _ _ _ _ E3). unfold mret, M_ret. cbv beta iota.
  rewrite F3, L3, V3, S3, T3, D2.
  do 2 (split; [done|]). split; [apply (seen_now_is_healthy now row Hst Hseen)|]. do 4 (split; [done|]).
  intros k Hk. destruct (O3 k Hk) as [-> Hact]. split; [by rewrite O2, O1|].
  intros t. rewrite Hact. unfold active. by rewrite A2.
Qed.
End Reports.

(** *** Any requests *)

Inductive inventory_request : Type :=
| CreateNode (now : Z) (id : string) (body : NodeCreate)
| UpdateNode (id : string) (u : NodeUpdate)
| Transition (now : Z) (id state : string) (comment : option string) (force : bool)
| Retire (now : Z) (id : string)
| AddTag (fresh : nat -> string) (id tag : string)
| RemoveTag (id tag : string)
| BulkGroup (ids : list string) (group : option string)
| BulkWorkflow (ids : list string) (workflow : option string)
| BulkAddTag (fresh : nat -> string) (ids : list string) (tag : string)
| BulkRemoveTag (ids : list string) (tag : string)
| BulkState (now : Z) (ids : list string) (state : string)
| SendCommand (id command : string)
| GetCommand (id : string) (clear : bool)
| Report (now : Z) (r : StatusReport) (client : option string).

Section Requests.
Context (fl : Q -> Q) (settings : HealthSettings) (group_exists : string -> bool).

Definition handle (r : inventory_request) : ControllerM unit :=
  match r with
  | CreateNode now id body => create_node now id body;; mret tt
  | UpdateNode id u => update_node id u;; mret tt
  | Transition now id state comment force => transition_node_state now id state comment force;; mret tt
  | Retire now id => retire_node now id;; mret tt
  | AddTag fresh id tag => add_node_tag fresh id tag;; mret tt
  | RemoveTag id tag => remove_node_tag id tag;; mret tt
  | BulkGroup ids group => bulk_assign_group group_exists ids group;; mret tt
  | BulkWorkflow ids workflow => bulk_assign_workflow ids workflow;; mret tt
  | BulkAddTag fresh ids tag => bulk_add_tag fresh ids tag;; mret tt
  | BulkRemoveTag ids tag => bulk_remove_tag ids tag;; mret tt
  | BulkState now ids state => bulk_change_state now ids state;; mret tt
  | SendCommand id command => send_node_command id command;; mret tt
  | GetCommand id clear => get_node_command id clear;; mret tt
  | Report now r client => report_node_status fl settings now r client;; mret tt
  end.

Definition run_requests (rs : list inventory_request) (c : Controller) : Controller :=
  fold_left (fun c r => (request (handle r) c).2) rs c.

Definition tag_key (t : NodeTag) : string * string := (nt_node_id t, nt_tag t).

(** A stored tag is lower-case and 1 to 50 characters long. *)
Definition tag_wf (v : string) : Prop := lower v = v /\ (1 <= String.length v <= 50)%nat.

Definition node_wf (n : NodeRow) : Prop := arch n ∈ valid_arch /\ boot_mode n ∈ valid_boot_mode.

Record inventory_wf (d : Database) : Prop := {
  wf_keys : nodes_keyed d;
  wf_nodes : Forall node_wf (nodes d);
  wf_tags_once : NoDup (map tag_key (node_tags d));
  wf_tags : Forall (fun t => tag_wf (nt_tag t) /\ nt_node_id t ∈ map node_id (nodes d)) (node_tags d)
}.

(** *** Steps that keep it *)

Lemma tag_ok_length v : tag_ok v = true -> (1 <= String.length v <= 50)%nat.
Proof.
  unfold tag_ok. destruct (String.eqb_spec v ""); [done|]. cbn [negb andb].
  destruct (Nat.leb_spec (String.length v) 50); [|done]. intros _. destruct v; [done|]. cbn [String.length] in *. lia.
Qed.

Lemma tag_create_wf tag v : tag_create tag = Some v -> tag_wf v.
Proof.
  unfold tag_create. destruct (tag_ok tag) eqn:E; [|done]. intros [= <-]. split; [apply lower_idemp|].
  unfold lower. rewrite str_map_length. by apply tag_ok_length.
Qed.

Lemma bulk_tag_wf tag v : bulk_tag tag = Some v -> tag_wf v.
Proof.
  unfold bulk_tag. destruct (tag_ok _) eqn:E; [|done]. intros [= <-]. split; [apply lower_idemp|by apply tag_ok_length].
Qed.

Lemma wf_frame d d' : inventory_wf d -> node_tags d' = node_tags d ->
  map node_id (nodes d') = map node_id (nodes d) -> map mac_address (nodes d') = map mac_address (nodes d) ->
  Forall node_wf (nodes d') -> inventory_wf d'.
Proof.
  intros [[H1 H2] H3 H4 H5] Ht Hi Hm Hn. split; [|done|by rewrite Ht|by rewrite Ht, Hi].
  unfold nodes_keyed, keys_unique in *. change (NoDup (map node_id (nodes d')) /\ NoDup (map mac_address (nodes d'))).
  rewrite Hi, Hm. done.
Qed.

(** An update of rows that keeps the keys and the kinds. *)
Definition keeps_row (f : NodeRow -> NodeRow) : Prop :=
  forall n, node_id (f n) = node_id n /\ mac_address (f n) = mac_address n /\ arch (f n) = arch n /\ boot_mode (f n) = boot_mode n.

Lemma inventory_wf_update (Q : NodeRow -> bool) f d : keeps_row f -> inventory_wf d ->
  inventory_wf (d <| nodes := (sql_update Q f (nodes d)).1 |>).
Proof.
  intros Hf Hd. apply (wf_frame d); [done|done|..].
  - cbn. rewrite map_map. apply map_ext. intros n. destruct (Q n); [|done]. by destruct (Hf n).
  - cbn. rewrite map_map. apply map_ext. intros n. destruct (Q n); [|done]. by destruct (Hf n) as (_ & ? & _).
  - cbn. apply Forall_map. eapply Forall_impl; [apply (wf_nodes d Hd)|]. intros n [H1 H2]. cbn.
    destruct (Q n); [|done]. unfold node_wf. by destruct (Hf n) as (_ & _ & -> & ->).
Qed.

#[local] Abbreviation keeps_wf := (keeps_db inventory_wf).

Lemma keeps_update_node id f : keeps_row f -> keeps_wf (Controller.update_node id f).
Proof. intros Hf c a c' Hc [= _ <-]. by apply (inventory_wf_update (has_key node_id id) f). Qed.

Lemma keeps_update_in ids f : keeps_row f -> keeps_wf (update_nodes_in ids f).
Proof. intros Hf c a c' Hc [= _ <-]. by apply (inventory_wf_update (fun r => in_ids ids (node_id r)) f). Qed.

Lemma keeps_on_pi {A} (m : M pi_tree pi_error A) : keeps_wf (on_pi m).
Proof. intros c a c' Hc. unfold on_pi. destruct (m (pi_nodes c)). by intros [= _ <-]. Qed.

Lemma keeps_node_response id : keeps_wf (node_response id).
Proof. unfold node_response. keeps_db_steps. Qed.

Lemma keeps_find_by_mac m : keeps_wf (find_by_mac m).
Proof. unfold find_by_mac. keeps_db_steps. Qed.

Lemma keeps_resolve now n t : keeps_wf (resolve_alert now n t).
Proof.
  intros c a c' Hc E. pose proof (resolve_frame now n t c) as H. rewrite E in H. cbn in H. rewrite H.
  by apply (wf_frame (db c)); [..|apply (wf_nodes _ Hc)].
Qed.

Lemma keeps_on_node {A} id (m : NodeM A) : (forall i x, keeps (keyed_as i x) m) -> keeps_wf (on_node id m).
Proof.
  intros Hm c a c' Hc E. pose proof Hc as [[Hu Hmac] Hn Hto Ht].
  destruct (sql_find node_id id (nodes (db c))) as [n|] eqn:Ef; [|unfold on_node in E; by rewrite Ef in E].
  pose proof (sql_find_Some_1 _ _ _ _ Ef) as [Hin Hid]. subst id.
  pose proof (on_node_run m n c Hu Ef Hm) as H. destruct (m _) as [res s].
  destruct H as (c2 & E2 & _ & _ & _ & Hmacs & Hd & Hids & Hnodes). rewrite E in E2. injection E2 as _ <-.
  apply (wf_frame (db c)); [done|by rewrite Hd|done|done|]. rewrite Hnodes. cbn. apply Forall_map.
  eapply Forall_impl; [exact Hn|]. intros x Hx. cbn. by destruct (has_key node_id (node_id n) x).
Qed.

Lemma keeps_insert r : node_wf r -> keeps_wf (insert_node r).
Proof.
  intros Hr c a c' [[Hu Hm] Hn Hto Ht] E. rewrite insert_node_run in E.
  destruct (existsb _ _) eqn:Em; [done|]. destruct (bool_decide _) eqn:Ei; [done|]. injection E as _ <-.
  apply bool_decide_eq_false in Ei. split.
  - unfold nodes_keyed, keys_unique in *.
    change (NoDup (map node_id (nodes (db c) ++ [r])%list) /\ NoDup (map mac_address (nodes (db c) ++ [r])%list)).
    rewrite !map_app. split; (apply NoDup_app; split; [done|]; split; [|apply NoDup_singleton]).
    + intros y Hy ->%list_elem_of_singleton. done.
    + intros y Hy ->%list_elem_of_singleton. apply (list_elem_of_fmap mac_address) in Hy as (x & Hx & Hin).
      rewrite <- not_true_iff_false, existsb_exists in Em. apply Em. exists x. split; [by apply list_elem_of_In|].
      by apply String.eqb_eq.
  - change (Forall node_wf (nodes (db c) ++ [r])%list). apply Forall_app. split; [done|]. by apply Forall_cons_2; [|apply Forall_nil_2].
  - done.
  - eapply Forall_impl; [exact Ht|]. intros t [H1 H2]. split; [done|].
    change (nt_node_id t ∈ map node_id (nodes (db c) ++ [r])%list). rewrite map_app. apply elem_of_app. by left.
Qed.

Lemma wf_set_tags ts d : inventory_wf d -> NoDup (map tag_key ts) ->
  Forall (fun t => tag_wf (nt_tag t) /\ nt_node_id t ∈ map node_id (nodes d)) ts -> inventory_wf (d <| node_tags := ts |>).
Proof. intros [H1 H2 H3 H4] H5 H6. by split. Qed.

Lemma wf_delete_tags (Q : NodeTag -> bool) d : inventory_wf d -> inventory_wf (d <| node_tags := (sql_delete Q (node_tags d)).1 |>).
Proof.
  intros Hd. apply wf_set_tags; [done|..].
  - eapply sublist_NoDup; [apply (wf_tags_once d Hd)|]. apply (fmap_sublist tag_key), filter_sublist.
  - apply Forall_forall. intros t [Hin _]%elem_of_delete. by apply (proj1 (Forall_forall _ _) (wf_tags d Hd)).
Qed.

Lemma new_tags_keys fresh n ids tag : map tag_key (new_tags fresh n ids tag) = map (fun id => (id, tag)) ids.
Proof. revert n. induction ids as [|id ids IH]; intros n; [done|]. cbn. by rewrite IH. Qed.

(** Rows for nodes that exist and lack the tag. *)
Lemma wf_add_tags fresh ids tag d : inventory_wf d -> tag_wf tag -> NoDup ids ->
  (forall id, id ∈ ids -> id ∈ map node_id (nodes d) /\ existsb (fun t => of_node id t && has_tag tag t) (node_tags d) = false) ->
  inventory_wf (d <| node_tags := (node_tags d ++ new_tags fresh 0 ids tag)%list |>).
Proof.
  intros Hd Htag Hids Hnew. apply wf_set_tags; [done|..].
  - rewrite map_app, new_tags_keys. apply NoDup_app. split; [apply (wf_tags_once d Hd)|]. split.
    + intros k (t & -> & Ht)%(list_elem_of_fmap tag_key) (id & Heq & Hid)%(list_elem_of_fmap (fun id => (id, tag))).
      destruct (Hnew id Hid) as [_ Hno]. rewrite <- not_true_iff_false, existsb_exists in Hno. apply Hno.
      exists t. split; [by apply list_elem_of_In|]. injection Heq as H1 H2. unfold of_node, has_tag. by rewrite H1, H2, !String.eqb_refl.
    + apply (NoDup_fmap_2 (fun id => (id, tag))). done.
  - apply Forall_app. split; [apply (wf_tags d Hd)|]. clear Hids. generalize 0%nat.
    induction ids as [|id ids IH]; intros n; [apply Forall_nil_2|]. cbn [new_tags]. apply Forall_cons_2.
    + split; [done|]. apply Hnew, list_elem_of_here.
    + apply IH. intros x Hx. apply Hnew. by right.
Qed.

Lemma keeps_set_tags_delete (Q : NodeTag -> bool) : keeps_wf (set_tags (fun ts => (sql_delete Q ts).1)).
Proof. intros c a c' Hc [= _ <-]. by apply (wf_delete_tags Q). Qed.

#[local] Hint Extern 1 (keeps_row _) => (intros ?; repeat split) : pyboot.

Lemma reported_keeps_row now r : keeps_row (reported now r).
Proof. intros n. unfold reported. by destruct (_ && _). Qed.

Lemma keeps_bulk_states now st ids : keeps_wf (bulk_states now st ids).
Proof.
  induction ids as [|id ids IH]; [apply keeps_db_ret|]. cbn [bulk_states].
  apply keeps_db_bind; [|intros r; apply keeps_db_bind; [done|intros []; keeps_db_steps]].
  apply keeps_on_node. intros i x. apply keyed_bulk.
Qed.

Lemma keeps_add_node_tag fresh id tag : keeps_wf (add_node_tag fresh id tag).
Proof.
  intros c a c' Hc. unfold add_node_tag. destruct (tag_create tag) as [v|] eqn:Ev; [|done].
  unfold mbind at 1, M_bind at 1. rewrite need_node_run.
  destruct (sql_find node_id id (nodes (db c))) as [n|] eqn:En; [|done].
  rewrite (bind_Ok get_db _ c (db c) c eq_refl). destruct (existsb _ _) eqn:Ex; [done|].
  set (c1 := c <| db ::= fun d => d <| node_tags := (node_tags d ++ new_tags fresh 0 [id] v)%list |> |>).
  rewrite (bind_Ok _ _ c tt c1) by done. apply keeps_node_response.
  apply (wf_add_tags fresh [id] v); [done|by eapply tag_create_wf|apply NoDup_singleton|].
  intros y ->%list_elem_of_singleton. split; [|done]. apply sql_find_Some_1 in En as [Hin <-].
  by apply (list_elem_of_fmap_2 node_id).
Qed.

Lemma keeps_bulk_add_tag fresh ids tag : keeps_wf (bulk_add_tag fresh ids tag).
Proof.
  intros c a c' Hc. unfold bulk_add_tag. destruct (bulk_tag tag) as [v|] eqn:Ev; [|done].
  rewrite (bind_Ok get_db _ c (db c) c eq_refl). set (to := nodes_to_tag ids v (db c)).
  set (c1 := c <| db ::= fun d => d <| node_tags := (node_tags d ++ new_tags fresh 0 to v)%list |> |>).
  rewrite (bind_Ok _ _ c tt c1) by done. intros [= _ <-].
  apply (wf_add_tags fresh to v); [done|by eapply bulk_tag_wf|..].
  - unfold to, nodes_to_tag. eapply sublist_NoDup; [|apply filter_sublist].
    apply (keys_unique_select node_id). apply (wf_keys _ Hc).
  - intros id Hid. unfold to, nodes_to_tag in Hid. apply list_elem_of_In, filter_In in Hid as [Hin Hno%negb_true_iff].
    split; [|done]. apply list_elem_of_In, (list_elem_of_fmap node_id) in Hin as (n & -> & [Hn _]%elem_of_sql_select).
    by apply (list_elem_of_fmap_2 node_id).
Qed.

Lemma keeps_create now id body : keeps_wf (create_node now id body).
Proof.
  unfold create_node, node_create. destruct (MAC_PATTERN _); [|apply keeps_db_raise]. cbn [andb].
  destruct (existsb (String.eqb (nc_arch body)) valid_arch) eqn:Ea; [|apply keeps_db_raise]. cbn [andb].
  destruct (existsb (String.eqb (nc_boot_mode body)) valid_boot_mode) eqn:Eb; [|apply keeps_db_raise].
  apply keeps_db_bind; [apply keeps_find_by_mac|]. intros []; [apply keeps_db_raise|].
  apply keeps_db_bind; [|intros _; apply keeps_node_response]. apply keeps_insert.
  apply existsb_exists in Ea as (x & Hx & ->%String.eqb_eq). apply existsb_exists in Eb as (y & Hy & ->%String.eqb_eq).
  split; cbn [arch boot_mode created_node]; by apply list_elem_of_In.
Qed.

(** Every handler, down to the steps above. *)
Ltac keeps_wf_steps :=
  keeps_db_steps;
  first [ apply keeps_node_response | apply keeps_find_by_mac | apply keeps_resolve | apply keeps_on_pi
        | apply keeps_set_tags_delete | apply keeps_bulk_states | apply keeps_create | apply keeps_add_node_tag
        | apply keeps_bulk_add_tag
        | (apply keeps_update_in; by intros ?) | (apply keeps_update_node; by intros ?)
        | (apply keeps_on_node; intros ? ?;
           first [apply keyed_report | apply keyed_retire | apply keyed_admin]) ].

Lemma keeps_refresh_health now id : keeps_wf (refresh_health fl settings now id).
Proof.
  apply keeps_db_bind; [apply keeps_db_need_node|intros n2].
  apply keeps_db_bind; [|intros [st score]].
  { unfold update_node_health. apply keeps_db_bind; [apply keeps_db_lift|intros [score b]].
    apply keeps_db_bind; [by apply keeps_update_node|intros _; apply keeps_db_ret]. }
  apply keeps_db_bind; [|intros _].
  - destruct (String.eqb st "healthy"); [|apply keeps_db_ret].
    apply keeps_db_bind; [apply keeps_resolve|intros _].
    apply keeps_db_bind; [apply keeps_resolve|intros _; apply keeps_db_ret].
  - destruct (negb _); [apply keeps_db_broadcast|apply keeps_db_ret].
Qed.

Lemma keeps_report_status now r client : keeps_wf (report_node_status fl settings now r client).
Proof.
  unfold report_node_status. destruct (negb _); [apply keeps_db_raise|].
  apply keeps_db_bind; [apply keeps_find_by_mac|]. intros [n|]; [|apply keeps_db_raise].
  apply keeps_db_bind; [apply keeps_update_node, reported_keeps_row|intros _].
  apply keeps_db_bind; [apply keeps_on_node; intros i x; apply keyed_report|intros msg].
  apply keeps_db_bind; [apply keeps_refresh_health|intros _; apply keeps_db_ret].
Qed.

#[local] Opaque update_nodes_in Controller.update_node resolve_alert on_node on_pi node_response find_by_mac set_tags
  bulk_states.

Lemma inventory_keeps_handle r : keeps_wf (handle r).
Proof.
  destruct r; cbn [handle]; (apply keeps_db_bind; [|intros ?; apply keeps_db_ret]);
    unfold update_node, transition_node_state, retire_node, remove_node_tag, bulk_assign_group, bulk_assign_workflow,
      bulk_change_state, send_node_command, get_node_command.
  - apply keeps_create.
  - keeps_wf_steps.
  - keeps_wf_steps.
  - keeps_wf_steps.
  - apply keeps_add_node_tag.
  - keeps_wf_steps.
  - keeps_wf_steps.
  - keeps_wf_steps.
  - apply keeps_bulk_add_tag.
  - intros c a c' Hc [= _ <-]. by apply (wf_delete_tags (fun t => in_ids ids (nt_node_id t) && has_tag (lower (strip tag)) t)).
  - keeps_wf_steps.
  - keeps_wf_steps.
  - keeps_wf_steps.
  - apply keeps_report_status.
Qed.

(** C26: The inventory stays well formed.  From a database where identifiers and MAC
    addresses are unique, architectures and boot modes are the known ones, and tags are
    lower-case, of 1 to 50 characters, on nodes that exist and never twice on one
    node, any sequence of requests leads to such a database: whatever the handlers
    do, and however they fail, no unique constraint is broken. *)
Theorem inventory_well_formed rs c : inventory_wf (db c) -> inventory_wf (db (run_requests rs c)).
Proof.
  revert c. induction rs as [|r rs IH]; intros c Hc; [done|]. apply IH.
  by apply (keeps_db_request inventory_wf), Hc; apply inventory_keeps_handle.
Qed.
End Requests.

(** ** Examples *)

Definition rack_node : NodeRow := new_node "n1" "aa:bb:cc:dd:ee:01".
Definition rack : Controller := {| db := empty_db <| nodes := [rack_node] |>; sent := []; pi_nodes := ∅ |}.
Definition heartbeat_report : StatusReport :=
  {| sr_mac_address := "AA-BB-CC-DD-EE-01"; sr_ip_address := Some "10.0.0.7"; sr_hostname := None; sr_vendor := None;
     sr_model := None; sr_serial_number := None; sr_system_uuid := None;
     sr_report := {| r_event := Some heartbeat; r_status := "success"; r_message := None; r_event_metadata := None;
                     r_installation_status := None; r_installation_progress := None; r_installation_error := None |} |}.
Definition uuid (n : nat) : string := "u" ++ pretty n.

Lemma report_refines_lifecycle_witness :
  let '(r, c') := request (report_node_status exact default_settings 7 heartbeat_report None) rack in
  r = Ok "Heartbeat received" /\ active "n1" "node_stale" c' = 0%nat /\ length (node_events (db c')) = 1%nat.
Proof.
  assert (Ha : one_active rack) by (intros n t; cbn; lia).
  pose proof (report_refines_lifecycle exact default_settings 7 heartbeat_report None rack rack_node
    (NoDup_singleton _) Ha ltac:(done) eq_refl eq_refl) as H.
  destruct (request _ rack) as [r c'].
  destruct H as (H1 & _ & _ & _ & H5 & H6 & _). split; [exact H1|]. split; [exact H6|]. by rewrite H5.
Defined.

Lemma inventory_well_formed_witness :
  let d := db (run_requests exact default_settings (fun _ => true)
                 [AddTag uuid "n1" "Web"; AddTag uuid "n1" "WEB"; BulkAddTag uuid ["n1"; "n1"] " web "; Retire 9 "n1"] rack) in
  inventory_wf d /\ map tag_key (node_tags d) = [("n1", "web")] /\ map node_state (nodes d) = ["retired"].
Proof.
  intros d. split; [|by vm_compute]. apply (inventory_well_formed exact default_settings (fun _ => true)).
  split.
  - split; apply NoDup_singleton.
  - apply Forall_cons_2; [split; apply list_elem_of_here|apply Forall_nil_2].
  - apply NoDup_nil_2.
  - apply Forall_nil_2.
Defined.

(** A tag may end with a line feed: the pattern's [$] matches before it. *)
Example tag_with_a_line_feed :
  tag_create ("web" ++ String newline "") = Some ("web" ++ String newline "").
Proof. reflexivity. Qed.
