(* ===== verification/AuditTrail.v ===== *)
(** * The audit trail of the nodes

    Every request of the controller that touches nodes, together: the inventory and the
    reports (Inventory), the deploy callbacks of [api/routes/nodes.py] (NodeLifecycle),
    booting over iPXE, GRUB and on a Pi (Boot, PiBoot), disks (Disks), cloning (Clone)
    and the health job (Health).  A state is changed by the lifecycle's transition, which
    logs it, and by cloning, which assigns it. *)
From S2P Require Import Prelude SqlTable Paths NodeLifecycle PiManager Controller Workflows.
From S2P Require Disks Clone Boot PiBoot Health Inventory.
From stdpp Require Import base tactics list strings gmap relations.
From Stdlib Require Import ZArith QArith Lia.
Open Scope string_scope.
Open Scope Z_scope.

(** ** Requests *)

Inductive node_request : Type :=
| InventoryRequest (r : Inventory.inventory_request)
| InstalledCallback (now : Z) (id : string) (body : option json) (client_ip : option string)
| InstallFailedCallback (now : Z) (id : string) (body : option json)
| CloneReadyCallback (id : string) (body : option json) (client_ip : option string)
| BootScript (now : Z) (id mac : string) (client_ip vendor model serial uuid : option string)
| GrubConfig (mac : string)
| BootStatus (now : Z) (mac : string) (client : option string)
| PiBootRequest (now : Z) (id serial : string) (mac mode client_ip : option string)
| PiRegister (now : Z) (id : string) (r : PiBoot.PiRegisterRequest) (client_ip : option string)
| DiskRequest (r : Disks.disk_request)
| CloneRequest (r : Clone.clone_request)
| HealthCheck (now : Z)
| AcknowledgeAlert (now : Z) (id : string).

(** The two requests that assign a state. *)
Definition assigns_state (r : node_request) : bool :=
  match r with CloneRequest (Clone.SourceReady _ _ _) | CloneRequest (Clone.Start _ _) => true | _ => false end.

Definition forced (r : node_request) : bool :=
  match r with InventoryRequest (Inventory.Transition _ _ _ _ force) => force | _ => false end.

Section Handling.
Context `{JT : JsonText} `{PD : Pydantic}.
Context (fl : Q -> Q) (settings : Health.HealthSettings) (group_exists : string -> bool) (fresh : nat -> string).
Context (auto_register : bool) (default_group_id : option string) (install_timeout_minutes : Z) (server : string) (reads_aware : bool).
Context (workflows_dir : PurePath) (resolve : PurePath -> PurePath) (exists_ : PurePath -> bool) (load : PurePath -> load_result).
Context (default_nfs_server nfs_root_path : string) (has : pi_source -> string -> bool).
Context (int_div : Z -> Z -> Z) (ca_initialized : bool) (issue_session_cert : option string -> string -> string * string) (isoformat : Z -> string).

(** A callback of a node: it must exist. *)
Definition callback (id : string) (m : NodeM string) : ControllerM unit := need_node id;; on_node id m;; mret tt.

Definition handle (r : node_request) : ControllerM unit :=
  match r with
  | InventoryRequest r => Inventory.handle fl settings group_exists r
  | InstalledCallback now id body ip => callback id (node_installed_callback now body ip)
  | InstallFailedCallback now id body => callback id (node_install_failed_callback now body)
  | CloneReadyCallback id body ip => callback id (clone_source_ready body ip)
  | BootScript now id mac ip vendor model serial uuid =>
      Boot.get_boot_script auto_register default_group_id install_timeout_minutes server reads_aware workflows_dir resolve exists_ load
        now id mac ip vendor model serial uuid;; mret tt
  | GrubConfig mac => Boot.get_grub_config server workflows_dir resolve exists_ load mac;; mret tt
  | BootStatus now mac client => Boot.get_boot_status server now mac client;; mret tt
  | PiBootRequest now id serial mac mode ip =>
      PiBoot.get_pi_boot_instructions auto_register default_group_id server workflows_dir resolve exists_ load default_nfs_server nfs_root_path has
        now id serial mac mode ip;; mret tt
  | PiRegister now id r ip => PiBoot.register_pi_node default_group_id server has now id r ip;; mret tt
  | DiskRequest r => Disks.handle isoformat r
  | CloneRequest r => Clone.handle int_div ca_initialized issue_session_cert reads_aware r
  | HealthCheck now => Health.check_all_nodes fl settings fresh now;; mret tt
  | AcknowledgeAlert now id => Health.acknowledge_alert now id
  end.

Definition run_requests (rs : list node_request) (c : Controller) : Controller :=
  fold_left (fun c r => (request (handle r) c).2) rs c.

(** ** An invariant of every node and its entries *)

Definition entries (id : string) (l : list NodeStateLog) : list NodeStateLog := List.filter (fun e => String.eqb (l_node_id e) id) l.

Lemma entries_app id l l' : entries id (l ++ l')%list = (entries id l ++ entries id l')%list.
Proof. unfold entries. apply List.filter_app. Qed.

Lemma entries_own id l : Forall (fun e => l_node_id e = id) l -> entries id l = l.
Proof. unfold entries. induction 1 as [|e l <- _ IH]; [done|]. cbn. by rewrite String.eqb_refl, IH. Qed.

Lemma entries_none id l : Forall (fun e => l_node_id e <> id) l -> entries id l = [].
Proof. unfold entries. induction 1 as [|e l He _ IH]; [done|]. cbn. by rewrite (proj2 (String.eqb_neq _ _) He). Qed.

Section Following.
Context (d0 : Database) (P : string -> string -> list NodeStateLog -> Prop) (F G : Prop).
Context (Hmove : forall logs l, P (l_node_id l) (l_from_state l) logs -> F \/ NodeStateMachine.can_transition (l_from_state l) (l_to_state l) = true ->
  validate_state (l_to_state l) = true -> P (l_node_id l) (l_to_state l) (logs ++ [l])%list).
Context (Hgap : forall i st logs, G -> st ∈ Clone.clone_boot_states -> P i st logs -> P i "pending" logs).
Context (Hnew : forall i, i ∉ map node_id (nodes d0) -> P i "discovered" []).

(** The entries made since [d0]. *)
Definition made (d : Database) : list NodeStateLog := drop (length (node_logs d0)) (node_logs d).

Record followed (d : Database) : Prop := {
  fw_keys : keys_unique node_id (nodes d);
  fw_old : forall i, i ∈ map node_id (nodes d0) -> i ∈ map node_id (nodes d);
  fw_logs : node_logs d = (node_logs d0 ++ made d)%list;
  fw_known : Forall (fun e => l_node_id e ∈ map node_id (nodes d)) (made d);
  fw_rows : forall n, n ∈ nodes d -> P (node_id n) (node_state n) (entries (node_id n) (made d))
}.

Lemma followed_start : keys_unique node_id (nodes d0) -> (forall n, n ∈ nodes d0 -> P (node_id n) (node_state n) []) -> followed d0.
Proof.
  intros Hu Hp. assert (made d0 = []) as E by apply drop_all. split; [done|done|by rewrite E, app_nil_r|by rewrite E|]. intros n Hn. rewrite E. by apply Hp.
Qed.

Lemma followed_frame d d' : nodes d' = nodes d -> node_logs d' = node_logs d -> followed d -> followed d'.
Proof. intros En El [H1 H2 H3 H4 H5]. assert (made d' = made d) as Em by (unfold made; by rewrite El). by split; rewrite ?Em, ?En, ?El. Qed.

Lemma update_ids (Q : NodeRow -> bool) f t : (forall n, node_id (f n) = node_id n) -> map node_id (sql_update Q f t).1 = map node_id t.
Proof. intros Hf. cbn. rewrite map_map. apply map_ext. intros n. by destruct (Q n). Qed.

(** An update of rows that moves no node, or moves it as [P] allows. *)
Lemma followed_update (Q : NodeRow -> bool) f d : (forall n, node_id (f n) = node_id n) ->
  (forall n logs, P (node_id n) (node_state n) logs -> P (node_id n) (node_state (f n)) logs) ->
  followed d -> followed (d <| nodes ::= fun t => (sql_update Q f t).1 |>).
Proof.
  intros Hi Hs [H1 H2 H3 H4 H5]. change (made (d <| nodes ::= fun t => (sql_update Q f t).1 |>)) with (made d).
  split; change (nodes (d <| nodes ::= fun t => (sql_update Q f t).1 |>)) with (sql_update Q f (nodes d)).1; rewrite ?update_ids by done; try done.
  - unfold keys_unique. change (NoDup (map node_id (sql_update Q f (nodes d)).1)). by rewrite update_ids.
  - intros n Hn. cbn in Hn. apply (list_elem_of_fmap (fun r => if Q r then f r else r)) in Hn as (x & -> & Hx). specialize (H5 x Hx).
    change (made (d <| nodes ::= _ |>)) with (made d). destruct (Q x); [|done]. rewrite Hi. by apply Hs.
Qed.

Lemma follows_update_node id f : (forall n, node_id (f n) = node_id n) ->
  (forall n logs, P (node_id n) (node_state n) logs -> P (node_id n) (node_state (f n)) logs) -> keeps_db followed (update_node id f).
Proof. intros Hi Hs c a c' Hc [= _ <-]. by apply followed_update. Qed.

Lemma follows_set_db f : (forall d, nodes (f d) = nodes d /\ node_logs (f d) = node_logs d) -> keeps_db followed (set_db f).
Proof. intros Hf c a c' Hc [= _ <-]. destruct (Hf (db c)) as [H1 H2]. by apply (followed_frame (db c)). Qed.

Lemma follows_on_pi {A} (m : M pi_tree pi_error A) : keeps_db followed (on_pi m).
Proof. intros c a c' Hc. unfold on_pi. destruct (m (pi_nodes c)). by intros [= _ <-]. Qed.

(** A service on one row. *)
Definition row_follows (d : Database) (i j st : string) (logs : list NodeStateLog) : Prop :=
  j = i /\ exists ls, logs = (node_logs d ++ ls)%list /\ Forall (fun e => l_node_id e = i) ls /\ P i st (entries i (made d) ++ ls)%list.

Lemma row_moves d i logs l : row_follows d i (l_node_id l) (l_from_state l) logs ->
  F \/ NodeStateMachine.can_transition (l_from_state l) (l_to_state l) = true -> validate_state (l_to_state l) = true ->
  row_follows d i (l_node_id l) (l_to_state l) (logs ++ [l])%list.
Proof.
  intros (Hj & ls & -> & Hls & HP) HF Hv. split; [done|]. exists (ls ++ [l])%list. rewrite !app_assoc. split; [done|].
  split; [apply Forall_app; by split; [|apply Forall_singleton]|]. rewrite <- Hj in HP |- *. by apply Hmove.
Qed.

Lemma follows_on_node {A} id (m : NodeM A) : (forall d i, keeps (on_log (row_follows d i)) m) -> keeps_db followed (on_node id m).
Proof.
  intros Hm c a c' Hc. unfold on_node. destruct (sql_find node_id id (nodes (db c))) as [n|] eqn:Ef; [|done].
  apply sql_find_Some_1 in Ef as [Hin Hid]. pose proof Hc as [H1 H2 H3 H4 H5]. set (s0 := {| s_node := core n; s_logs := _; s_events := _ |}).
  specialize (Hm (db c) id s0). destruct (m s0) as [r s]. cbn [fst snd] in Hm.
  destruct Hm as (Hi & ls & El & Hls & HP).
  { split; [done|]. exists []. rewrite !app_nil_r. split; [done|]. split; [done|]. rewrite <- Hid. by apply H5. }
  intros [= _ <-]. cbn [db].
  set (g := fun r : NodeRow => r <| core := s_node s |>).
  assert (forall i, i ∈ map node_id (nodes (db c)) -> i ∈ map node_id (sql_update (has_key node_id id) g (nodes (db c))).1) as Hkeep.
  { intros i Hx. apply (list_elem_of_fmap node_id) in Hx as (x & -> & Hx). apply (list_elem_of_fmap node_id).
    destruct (has_key node_id id x) eqn:Ek.
    - exists (g x). split; [unfold g, node_id; cbn; rewrite Hi; unfold has_key in Ek; by apply String.eqb_eq in Ek|].
      apply (list_elem_of_fmap (fun r => if has_key node_id id r then g r else r)). exists x. by rewrite Ek.
    - exists x. split; [done|]. apply (list_elem_of_fmap (fun r => if has_key node_id id r then g r else r)). exists x. by rewrite Ek. }
  assert (map node_id (sql_update (has_key node_id id) g (nodes (db c))).1 = map node_id (nodes (db c))) as Eids.
  { cbn. rewrite map_map. apply map_ext. intros x. destruct (has_key node_id id x) eqn:Ek; [|done]. unfold has_key in Ek. apply String.eqb_eq in Ek.
    unfold g, node_id. cbn. by rewrite Hi. }
  match goal with |- followed ?d => set (d' := d) end.
  assert (nodes d' = (sql_update (has_key node_id id) g (nodes (db c))).1) as En by done.
  assert (node_logs d' = (node_logs (db c) ++ ls)%list) as Elogs by done.
  assert (made d' = (made (db c) ++ ls)%list) as Em by (unfold made at 1; rewrite Elogs, H3, <- app_assoc; apply drop_app_length).
  split; rewrite ?Em, ?En, ?Eids.
  - unfold keys_unique. change (NoDup (map node_id (nodes d'))). by rewrite En, Eids.
  - done.
  - rewrite Elogs, H3 at 1. by rewrite app_assoc.
  - apply Forall_app. split; [done|]. eapply Forall_impl; [exact Hls|]. cbn. intros e ->. rewrite <- Hid. by apply (list_elem_of_fmap_2 node_id).
  - intros x Hx. cbn in Hx. apply (list_elem_of_fmap (fun r => if has_key node_id id r then g r else r)) in Hx as (y & -> & Hy).
    rewrite entries_app. destruct (has_key node_id id y) eqn:Ek; unfold has_key in Ek.
    + change (node_id (g y)) with (n_id (s_node s)). change (node_state (g y)) with (n_state (s_node s)). rewrite Hi. by rewrite (entries_own id ls).
    + apply String.eqb_neq in Ek. rewrite (entries_none _ ls), app_nil_r; [by apply H5|].
      eapply Forall_impl; [exact Hls|]. cbn. congruence.
Qed.

(** A new node. *)
Lemma followed_insert r d : node_state r = "discovered" -> node_id r ∉ map node_id (nodes d) -> followed d -> followed (d <| nodes := (nodes d ++ [r])%list |>).
Proof.
  intros Hs Hr [H1 H2 H3 H4 H5]. set (d' := d <| nodes := _ |>). assert (nodes d' = (nodes d ++ [r])%list) as En by done. change (made d') with (made d).
  assert (map node_id (nodes d') = (map node_id (nodes d) ++ [node_id r])%list) as Ei by (rewrite En; apply map_app).
  split; rewrite ?Ei; try done.
  - unfold keys_unique. change (NoDup (map node_id (nodes d'))). rewrite Ei. apply NoDup_app. split; [done|]. split; [|apply NoDup_singleton].
    by intros i Hi ->%list_elem_of_singleton.
  - intros i Hi. apply elem_of_app. left. by apply H2.
  - eapply Forall_impl; [exact H4|]. intros e He. apply elem_of_app. by left.
  - change (made d') with (made d). intros n [Hn|Hn]%elem_of_app; [by apply H5|]. apply list_elem_of_singleton in Hn as ->. rewrite Hs, entries_none.
    + apply Hnew. intros Hi. by apply Hr, H2.
    + eapply Forall_impl; [exact H4|]. intros e He Ee. cbv beta in *. apply Hr. by rewrite <- Ee.
Qed.

Lemma follows_insert r : node_state r = "discovered" -> keeps_db followed (insert_node r).
Proof.
  intros Hs c a c' Hc E. rewrite insert_node_run in E. destruct (existsb _ _); [done|]. destruct (bool_decide _) eqn:Ei; [done|]. injection E as _ <-.
  apply bool_decide_eq_false in Ei. by apply followed_insert.
Qed.

(** *** The handlers *)

Ltac steady := first [by intros ? | by intros ? ?].

Lemma reported_steady now r n : node_id (Inventory.reported now r n) = node_id n /\ node_state (Inventory.reported now r n) = node_state n.
Proof. unfold Inventory.reported. by destruct (_ && _). Qed.

#[local] Opaque insert_node update_node set_db on_node on_pi.

(** Down to the steps that change the database. *)
Ltac follow := repeat first
  [ progress keeps_db_steps
  | unfold Health.set_alerts, Inventory.set_tags, Disks.set_operations, Clone.update_session; apply follows_set_db; by intros ?
  | apply follows_update_node; by intros ?
  | apply follows_on_pi
  | apply follows_insert; done ].

Lemma follows_check now : keeps_db followed (Health.check_all_nodes fl settings fresh now).
Proof.
  unfold Health.check_all_nodes. apply keeps_db_bind; [apply keeps_db_get_db|intros d]. generalize (sql_select Health.not_retired (nodes d)). intros l.
  induction l as [|n l IH]; cbn [Health.check_nodes]; [apply keeps_db_ret|]. apply keeps_db_bind; [|intros a; apply keeps_db_bind; [done|intros b; apply keeps_db_ret]].
  unfold Health.check_node, Health.status_alerts, Health.score_alerts, Health.update_node_health, Health.resolve_alert, Health._create_alert_if_new. follow.
Qed.

Lemma follows_bulk_states now st ids : keeps_db followed (Inventory.bulk_states now st ids).
Proof.
  induction ids as [|id ids IH]; cbn [Inventory.bulk_states]; [apply keeps_db_ret|].
  apply keeps_db_bind; [|intros r; apply keeps_db_bind; [done|intros []; keeps_db_steps]].
  apply follows_on_node. intros d i. eapply keeps_bulk_one. intros; by apply row_moves.
Qed.

Lemma follows_update_in ids f : (forall n, node_id (f n) = node_id n) -> (forall n, node_state (f n) = node_state n) ->
  keeps_db followed (Inventory.update_nodes_in ids f).
Proof.
  intros Hi Hs c a c' Hc [= _ <-].
  apply (followed_update (fun r => Inventory.in_ids ids (node_id r)) f); [done| |done]. intros n logs. by rewrite Hs.
Qed.

Lemma follows_retire now i d : keeps (on_log (row_follows d i)) (Inventory.retire now).
Proof.
  unfold Inventory.retire. apply keeps_catch.
  - apply (keeps_transition _ F); [intros; by apply row_moves|by right].
  - intros []; apply keeps_raise.
Qed.

Lemma follows_report now r client : keeps_db followed (Inventory.report_node_status fl settings now r client).
Proof.
  unfold Inventory.report_node_status. destruct (negb _); [apply keeps_db_raise|]. apply keeps_db_bind; [unfold Boot.find_by_mac; keeps_db_steps|]. intros [n|]; [|apply keeps_db_raise].
  apply keeps_db_bind; [apply follows_update_node; [intros x; apply reported_steady|intros x logs; by rewrite (proj2 (reported_steady now r x))]|intros _].
  apply keeps_db_bind; [apply follows_on_node; intros d i; apply (keeps_report _ F); intros; by apply row_moves|intros msg].
  unfold Inventory.refresh_health, Health.update_node_health, Health.resolve_alert. follow.
Qed.

Lemma follows_inventory r : F \/ forced (InventoryRequest r) = false -> keeps_db followed (Inventory.handle fl settings group_exists r).
Proof.
  intros HF. destruct r; cbn [Inventory.handle forced] in *; (apply keeps_db_bind; [|intros ?; apply keeps_db_ret]).
  - unfold Inventory.create_node, Boot.find_by_mac, Inventory.node_response. follow.
  - unfold Inventory.update_node, Inventory.node_response. follow.
  - unfold Inventory.transition_node_state. destruct (existsb _ _) eqn:Ev; [|apply keeps_db_raise]. cbn [negb].
    apply keeps_db_bind; [apply keeps_db_need_node|intros _]. apply keeps_db_bind; [|intros _; unfold Inventory.node_response; follow].
    apply follows_on_node. intros d i. apply (keeps_admin _ F); [intros; by apply row_moves|done|done].
  - unfold Inventory.retire_node. apply keeps_db_bind; [apply keeps_db_need_node|intros n]. apply keeps_db_bind; [|intros _; unfold Inventory.node_response; follow].
    apply follows_on_node. intros d i. apply follows_retire.
  - unfold Inventory.add_node_tag, Inventory.node_response. follow.
  - unfold Inventory.remove_node_tag, Inventory.node_response. follow.
  - unfold Inventory.bulk_assign_group. destruct (_ && _); [apply keeps_db_raise|]. by apply follows_update_in.
  - unfold Inventory.bulk_assign_workflow. by apply follows_update_in.
  - unfold Inventory.bulk_add_tag. follow.
  - unfold Inventory.bulk_remove_tag. follow.
  - unfold Inventory.bulk_change_state. destruct (negb _); [apply keeps_db_raise|]. apply keeps_db_bind; [apply keeps_db_get_db|intros d]. apply follows_bulk_states.
  - unfold Inventory.send_node_command. follow.
  - unfold Inventory.get_node_command. follow.
  - apply follows_report.
Qed.

Lemma follows_callback id m : (forall d i, keeps (on_log (row_follows d i)) m) -> keeps_db followed (callback id m).
Proof.
  intros Hm. unfold callback. apply keeps_db_bind; [apply keeps_db_need_node|intros _]. apply keeps_db_bind; [by apply follows_on_node|intros _; apply keeps_db_ret].
Qed.

Lemma follows_disks r : keeps_db followed (Disks.handle isoformat r).
Proof.
  destruct r; cbn [Disks.handle]; unfold Disks.queue_partition_operation, Disks.remove_partition_operation, Disks.update_operation_status,
    Disks.apply_partition_operations, Disks.receive_disk_report, Disks.trigger_disk_scan, Disks.update_partition_mode_status, Disks.partition_mode_heartbeat; follow.
Qed.

(** What cloning assigns. *)
Lemma clone_boot_moves now w n logs : G -> P (node_id n) (node_state n) logs ->
  P (node_id n) (node_state (Clone.trigger_clone_boot now w n)) logs.
Proof.
  intros HG HP. unfold Clone.trigger_clone_boot. change (node_state (n <| workflow_id := Some w |>)) with (node_state n).
  match goal with |- P _ (node_state (if ?b then _ else _)) _ => destruct b eqn:E end; [|exact HP]. apply (Hgap _ (node_state n)); [done| |exact HP].
  apply existsb_exists in E as (x & Hx & ->%String.eqb_eq). by apply list_elem_of_In.
Qed.

Lemma follows_clone_boot now w id : G -> keeps_db followed (update_node id (Clone.trigger_clone_boot now w)).
Proof. intros HG. apply follows_update_node; [intros n; apply Clone.trigger_clone_boot_id|intros n logs; by apply clone_boot_moves]. Qed.

Lemma follows_clone r : (assigns_state (CloneRequest r) = true -> G) -> keeps_db followed (Clone.handle int_div ca_initialized issue_session_cert reads_aware r).
Proof.
  intros HG. destruct r; cbn [Clone.handle assigns_state] in *;
    unfold Clone.create_clone_session, Clone.update_clone_session, Clone.delete_clone_session, Clone.clone_source_ready, Clone.clone_progress, Clone.clone_complete,
      Clone.clone_failed, Clone.start_clone_session, Clone.update_resize_plan, Clone.update_staging_status, Clone.source_complete,
      Clone.check_node, Clone.session_response, Clone.need_session, Clone.find_session;
    repeat first [progress follow | apply follows_clone_boot; by apply HG].
Qed.

#[local] Transparent set_db.
Lemma follows_register {A} r (k : A) : node_state r = "discovered" -> keeps_db followed
  (d ← get_db; match sql_insert node_id r (nodes d) with None => raise IntegrityError | Some t => set_db (fun d => d <| nodes := t |>);; mret k end).
Proof.
  intros Hs c a c' Hc. rewrite (bind_Ok get_db _ c (db c) c eq_refl). unfold sql_insert. destruct (sql_find _ _ _) eqn:E; [done|]. intros [= _ <-].
  apply sql_find_None in E. by apply followed_insert.
Qed.
#[local] Opaque set_db.

Lemma follows_boot_script now id mac ip vendor model serial uuid : keeps_db followed
  (Boot.get_boot_script auto_register default_group_id install_timeout_minutes server reads_aware workflows_dir resolve exists_ load now id mac ip vendor model serial uuid).
Proof.
  unfold Boot.get_boot_script, Boot.validate_mac, Boot.find_by_mac. apply keeps_db_bind; [follow|intros m]. apply keeps_db_bind; [follow|]. intros [n|].
  - apply keeps_db_bind; [follow|intros _]. unfold Boot.script_for_state, Boot.pending_script, Boot.installing_script.
    repeat first [progress follow | apply follows_on_node; intros d i; apply (keeps_failure _ F); intros; by apply row_moves].
  - destruct (negb auto_register); [apply keeps_db_ret|]. by apply follows_register.
Qed.

Lemma follows_touch_pi now ip mac id : keeps_db followed (update_node id (PiBoot.touch_pi now ip mac)).
Proof.
  assert (forall n, node_id (PiBoot.touch_pi now ip mac n) = node_id n /\ node_state (PiBoot.touch_pi now ip mac n) = node_state n) as H
    by (intros n; unfold PiBoot.touch_pi; by destruct (_ && _)).
  apply follows_update_node; [intros n; apply H|intros n logs; by rewrite (proj2 (H n))].
Qed.

Lemma handle_follows r : F \/ forced r = false -> (assigns_state r = true -> G) -> keeps_db followed (handle r).
Proof.
  intros HF HG. destruct r as [r|now id body ip|now id body|id body ip|now id mac ip vendor model serial uuid|mac|now mac client|now id serial mac mode ip|now id r ip|r|r|now|now id];
    cbn [handle].
  - by apply follows_inventory.
  - apply follows_callback. intros d i. apply (keeps_installed _ F). intros; by apply row_moves.
  - apply follows_callback. intros d i. apply (keeps_install_failed _ F). intros; by apply row_moves.
  - apply follows_callback. intros d i. apply keeps_clone_ready.
  - apply keeps_db_bind; [apply follows_boot_script|intros _; apply keeps_db_ret].
  - unfold Boot.get_grub_config, Boot.validate_mac, Boot.find_by_mac. follow.
  - unfold Boot.get_boot_status, Boot.validate_mac, Boot.find_by_mac, Boot.wait_or_install. follow.
  - unfold PiBoot.get_pi_boot_instructions, PiBoot.valid_mac, PiBoot.find_by_serial, PiBoot.response_for_state, PiBoot.pending_response, PiBoot.flush_nodes.
    repeat first [progress follow | apply follows_touch_pi].
  - unfold PiBoot.register_pi_node, PiBoot.find_by_serial, PiBoot.flush_nodes. follow.
  - apply follows_disks.
  - by apply follows_clone.
  - apply keeps_db_bind; [apply follows_check|intros _; apply keeps_db_ret].
  - unfold Health.acknowledge_alert. follow.
Qed.

Lemma run_follows rs c : F \/ existsb forced rs = false -> (existsb assigns_state rs = true -> G) -> followed (db c) -> followed (db (run_requests rs c)).
Proof.
  unfold run_requests. revert c. induction rs as [|r rs IH]; intros c HF HG Hc; [done|]. cbn [fold_left existsb] in *. apply IH.
  - destruct HF as [|[_ ?]%orb_false_iff]; auto.
  - intros H. apply HG. rewrite H. apply orb_true_r.
  - apply keeps_db_request; [|done]. apply handle_follows; [destruct HF as [|[? _]%orb_false_iff]; auto|]. intros H. apply HG. by rewrite H.
Qed.
End Following.

(** ** Trails *)

(** The entries lead from one state to another, each from where the one before it ended; with [gaps] there may be moves to pending
    between them that nobody logged. *)
Inductive trail (gaps : bool) (start : string) : list NodeStateLog -> string -> Prop :=
| trail_start : trail gaps start [] start
| trail_entry logs l : trail gaps start logs (l_from_state l) -> trail gaps start (logs ++ [l])%list (l_to_state l)
| trail_gap logs st : gaps = true -> st ∈ Clone.clone_boot_states -> trail gaps start logs st -> trail gaps start logs "pending".

Lemma trail_complete start logs st : trail false start logs st -> trail_end start logs = Some st.
Proof. induction 1 as [|logs l _ IH|]; [done|by apply trail_end_snoc|done]. Qed.

(** The state a node had, and the one a new node gets. *)
Definition start_state (d : Database) (id : string) : string :=
  match sql_find node_id id (nodes d) with Some n => node_state n | None => "discovered" end.

Lemma start_of_old d n : keys_unique node_id (nodes d) -> n ∈ nodes d -> start_state d (node_id n) = node_state n.
Proof. intros Hu Hn. unfold start_state. by rewrite (sql_find_Some node_id _ _ _ Hu Hn eq_refl). Qed.

Lemma start_of_new d i : i ∉ map node_id (nodes d) -> start_state d i = "discovered".
Proof. intros Hi. unfold start_state. apply sql_find_None in Hi. by rewrite Hi. Qed.

(** C2: Whatever requests the controller serves, on nodes, their boots, disks, health and clones, forced ones and failing ones included, and
    whatever nodes they add: no node is lost, the audit log only grows, and the new entries of every node are consecutive, from the state
    the node had (a new node: discovered) to the state it has, but for unlogged moves to pending that starting a clone or reporting its source ready
    makes; without those two requests the trail is complete. *)
Theorem state_changes_are_logged rs c : keys_unique node_id (nodes (db c)) ->
  let d := db (run_requests rs c) in
  (forall i, i ∈ map node_id (nodes (db c)) -> i ∈ map node_id (nodes d)) /\ node_logs d = (node_logs (db c) ++ made (db c) d)%list /\
  forall n, n ∈ nodes d ->
    let logs := entries (node_id n) (made (db c) d) in
    let start := start_state (db c) (node_id n) in
    trail (existsb assigns_state rs) start logs (node_state n)
    /\ (existsb assigns_state rs = false -> trail_end start logs = Some (node_state n)).
Proof.
  intros Hu. destruct (run_follows (db c) (fun i st logs => trail (existsb assigns_state rs) (start_state (db c) i) logs st) True (existsb assigns_state rs = true))
    with (rs := rs) (c := c) as [H1 H2 H3 H4 H5]; try done.
  - intros logs l H _ _. by apply trail_entry.
  - intros i st logs HG Hst H. by eapply trail_gap.
  - intros i Hi. rewrite (start_of_new _ _ Hi). apply trail_start.
  - by left.
  - apply followed_start; [done|]. intros n Hn. rewrite <- (start_of_old _ _ Hu Hn). apply trail_start.
  - split; [done|]. split; [done|]. intros n Hn. specialize (H5 n Hn). split; [done|]. intros E. rewrite E in H5. by apply trail_complete.
Qed.

(** A step of the lifecycle, or the one cloning makes. *)
Definition life_or_clone (clones : bool) (s t : NodeState) : Prop :=
  lifecycle s t \/ clones = true /\ s ∈ [discovered; active; installed] /\ t = pending.

Definition legal_entry (l : NodeStateLog) : Prop := exists s t, l_from_state l = state_name s /\ l_to_state l = state_name t /\ lifecycle s t.

(** C3: Without force, every new entry of the audit log is a step of the lifecycle, and every node goes from the state it had to the one it has by such
    steps, but for the moves to pending of a clone: without these it follows the lifecycle. *)
Theorem unforced_nodes_follow_lifecycle rs c : keys_unique node_id (nodes (db c)) ->
  Forall (fun n => validate_state (node_state n) = true) (nodes (db c)) -> existsb forced rs = false ->
  let d := db (run_requests rs c) in
  forall n, n ∈ nodes d ->
    Forall legal_entry (entries (node_id n) (made (db c) d)) /\
    exists s t, start_state (db c) (node_id n) = state_name s /\ node_state n = state_name t /\ rtc (life_or_clone (existsb assigns_state rs)) s t.
Proof.
  intros Hu Hv Hf. set (G := existsb assigns_state rs).
  set (Q := fun i st logs => Forall legal_entry logs /\ exists s t, start_state (db c) i = state_name s /\ st = state_name t /\ rtc (life_or_clone G) s t).
  destruct (run_follows (db c) Q False (G = true)) with (rs := rs) (c := c) as [_ _ _ _ H]; try done.
  - intros logs l [Hl (s & t & Hs & Ht & Hr)] [[]|Hcan] _. pose proof Hcan as Hcan2. rewrite Ht in Hcan2. apply can_transition_lifecycle in Hcan2 as (t' & Ht' & Hlc).
    split; [apply Forall_app; split; [done|]; apply Forall_singleton; by exists t, t'|]. exists s, t'. split; [done|]. split; [done|]. eapply rtc_r; [exact Hr|]. by left.
  - intros i st logs HG Hst [Hl (s & t & Hs & -> & Hr)]. split; [done|]. exists s, pending. split; [done|]. split; [done|]. eapply rtc_r; [exact Hr|]. right.
    split; [done|]. split; [|done]. apply list_elem_of_In in Hst as [E|[E|[E|[]]]]; destruct t; try discriminate E; apply (bool_decide_unpack _); by vm_compute.
  - intros i Hi. split; [constructor|]. exists discovered, discovered. rewrite (start_of_new _ _ Hi). by split; [|split].
  - by right.
  - apply followed_start; [done|]. intros n Hn. split; [constructor|]. rewrite (start_of_old _ _ Hu Hn).
    rewrite Forall_forall in Hv. specialize (Hv n Hn). apply validate_state_spec, STATES_name in Hv as [s Es]. exists s, s. by split; [|split].
Qed.
End Handling.

(** ** Concrete runs *)

#[local] Instance demo_driver : JsonText := {| column_text _ := None; json_str _ := "{}" |}.
#[local] Existing Instance Controller.strict_pydantic.

#[local] Abbreviation demo_run := (run_requests Health.exact Health.default_settings (fun _ => true) Health.alert_name true None 60 "http://s" true (path_of "/w") id Boot.no_file Boot.no_text
    "nfs" "/srv" (fun _ _ => false) (fun _ _ => 0) false (fun _ _ => ("c", "k")) (fun _ => "")).

Definition mac1 : string := "aa:bb:cc:dd:ee:01".
Definition node_named (id mac st : string) : NodeRow := (new_node id mac) <| core ::= fun n => with_state 0 st n |>.
Definition two_nodes : Controller :=
  {| db := empty_db <| nodes := [node_named "a" mac1 "installing"; node_named "b" "aa:bb:cc:dd:ee:02" "active"] |>; sent := []; pi_nodes := ∅ |}.

Definition report_of (mac : string) (e : event_kind) : Inventory.StatusReport :=
  {| Inventory.sr_mac_address := mac; Inventory.sr_ip_address := None; Inventory.sr_hostname := None; Inventory.sr_vendor := None;
     Inventory.sr_model := None; Inventory.sr_serial_number := None; Inventory.sr_system_uuid := None; Inventory.sr_report := report0 e |}.

Definition clone_of (source : string) : Clone.CloneSessionCreate :=
  {| Clone.cc_name := None; Clone.cc_source_node_id := source; Clone.cc_target_node_id := Some "b"; Clone.cc_source_device := "/dev/sda";
     Clone.cc_target_device := "/dev/sda"; Clone.cc_clone_mode := "direct"; Clone.cc_staging_backend_id := None; Clone.cc_resize_mode := "none" |}.

(** A node is installed, boots and is cloned; another machine shows up. *)
Definition a_life : list node_request :=
  [InstalledCallback 1 "a" None None; InventoryRequest (Inventory.Report 2 (report_of mac1 first_boot) None);
   BootScript 3 "c" "aa:bb:cc:dd:ee:03" None None None None None;
   CloneRequest (Clone.Create 4 "s" (clone_of "a")); CloneRequest (Clone.Start 5 "s")].

Lemma state_changes_are_logged_witness :
  let d := db (demo_run a_life two_nodes) in
  map node_state (nodes d) = ["pending"; "active"; "discovered"] /\ map l_to_state (node_logs d) = ["installed"; "active"]
  /\ forall n, n ∈ nodes d -> trail (existsb assigns_state a_life) (start_state (db two_nodes) (node_id n)) (entries (node_id n) (made (db two_nodes) d)) (node_state n).
Proof.
  intros d. split; [by vm_compute|]. split; [by vm_compute|]. intros n Hn.
  assert (keys_unique node_id (nodes (db two_nodes))) as Hu by (apply (bool_decide_unpack (NoDup ["a"; "b"])); by vm_compute).
  destruct (state_changes_are_logged Health.exact Health.default_settings (fun _ => true) Health.alert_name true None 60 "http://s" true (path_of "/w") id Boot.no_file Boot.no_text
    "nfs" "/srv" (fun _ _ => false) (fun _ _ => 0) false (fun _ _ => ("c", "k")) (fun _ => "") a_life two_nodes Hu) as (_ & _ & H).
  exact (proj1 (H n Hn)).
Defined.

Lemma unforced_nodes_follow_lifecycle_witness :
  let d := db (demo_run (take 3 a_life) two_nodes) in
  map node_state (nodes d) = ["active"; "active"; "discovered"] /\ forall n, n ∈ nodes d -> Forall legal_entry (entries (node_id n) (made (db two_nodes) d)).
Proof.
  intros d. split; [by vm_compute|]. intros n Hn.
  assert (keys_unique node_id (nodes (db two_nodes))) as Hu by (apply (bool_decide_unpack (NoDup ["a"; "b"])); by vm_compute).
  exact (proj1 (unforced_nodes_follow_lifecycle Health.exact Health.default_settings (fun _ => true) Health.alert_name true None 60 "http://s" true (path_of "/w") id Boot.no_file Boot.no_text
    "nfs" "/srv" (fun _ _ => false) (fun _ _ => 0) false (fun _ _ => ("c", "k")) (fun _ => "") (take 3 a_life) two_nodes Hu
    ltac:(by repeat constructor) eq_refl n Hn)).
Defined.
