(* ===== verification/FileSync.v ===== *)
(** * The agent's cache synchronisation

    [agent/sync.py]: the service that fills the content cache from the central
    controller, by the cache's policy, file by file, counting what it
    transferred and what failed.  The network and the clock are parameters,
    indexed by the calls made so far, as both change under the service.  The
    asyncio lock of a scheduled run is a flag, as in ContentCache. *)
From S2P Require Import Prelude PyStr Paths Controller ContentCache.
From stdpp Require Import base tactics list strings gmap pretty.
From Stdlib Require Import Ascii ZArith Lia.
Open Scope string_scope.
#[local] Arguments String.append !_ _ : simpl nomatch.

(** ** Data *)

Inductive sync_status : Type := success | partial | failed.

Record SyncResult := {
  files_synced : Z;
  bytes_transferred : Z;
  errors : list string;
  duration_seconds : Z;          (* microseconds *)
  status : sync_status
}.

Definition no_result : SyncResult :=
  {| files_synced := 0; bytes_transferred := 0; errors := []; duration_seconds := 0; status := success |}.

Record CacheSyncService := {
  central_url : string;
  site_id : string;
  content_cache : ContentCache;
  _session : bool;
  _last_sync_at : option Z;
  _last_sync_result : option SyncResult;
  _sync_lock : bool;
  calls : nat                    (* to the network and the clock *)
}.

(** [central_url.rstrip("/")] *)
Fixpoint rstrip_slash (s : string) : string :=
  match s with
  | EmptyString => EmptyString
  | String c r =>
      match rstrip_slash r with
      | EmptyString => if Ascii.eqb c "/" then EmptyString else String c EmptyString
      | r' => String c r'
      end
  end.

Definition new_sync_service (url site : string) (cache : ContentCache) : CacheSyncService :=
  {| central_url := rstrip_slash url; site_id := site; content_cache := cache; _session := false;
     _last_sync_at := None; _last_sync_result := None; _sync_lock := false; calls := 0 |}.

(** What a request gives: an answer whose body may still fail to be read or
    decoded, or an exception, a [ClientError] or another one (a timeout). *)
Inductive fault : Type := ClientError (e : string) | OtherError.
Inductive reply : Type :=
| Response (code : Z) (body : result fault (list Z)) (decoded : result fault json)
| NoReply (f : fault).

(** An exception that leaves the operation, or a task that waits forever. *)
Inductive sync_error : Type := Raised | Hangs.

Abbreviation SyncM A := (M CacheSyncService sync_error A).

Definition ESSENTIAL_BOOTLOADERS : list string :=
  ["ipxe.efi"; "undionly.kpxe"; "snponly.efi"; "grub/grubx64.efi"; "grub/grub.cfg"].

Definition start_service : SyncM unit := modify (fun s => s <| _session := true |>).
Definition stop_service : SyncM unit := modify (fun s => s <| _session := false |>).

(** ** Operations *)

Section Service.
Context (network : nat -> string -> reply) (clock : nat -> Z) (py_text : json -> string).

Definition now : SyncM Z :=
  s ← get_state; put_state (s <| calls ::= S |>);; mret (clock (calls s)).

(** [self._session.get(url)], an [AttributeError] before [start]. *)
Definition fetch (url : string) : SyncM reply :=
  s ← get_state;
  if _session s then put_state (s <| calls ::= S |>);; mret (network (calls s) url) else raise Raised.

(** A call of the cache: its exceptions as values, its deadlock as ours. *)
Definition on_cache {A} (m : CacheM A) : SyncM (result string A) :=
  fun s => match m (content_cache s) with
           | (Ok a, c) => (Ok (Ok a), s <| content_cache := c |>)
           | (Err (ContentCache.ValueError msg), c) => (Ok (Err msg), s <| content_cache := c |>)
           | (Err Deadlock, c) => (Err Hangs, s <| content_cache := c |>)
           end.

Definition uncaught {A} (r : result string A) : SyncM A :=
  match r with Ok a => mret a | Err _ => raise Raised end.

Definition _download_file (url : string) : SyncM (option (list Z)) :=
  r ← fetch url;
  match r with
  | Response code body _ =>
      if (code =? 200)%Z then
        match body with
        | Ok b => mret (Some b)
        | Err (ClientError _) => mret None
        | Err OtherError => raise Raised
        end
      else mret None
  | NoReply (ClientError _) => mret None
  | NoReply OtherError => raise Raised
  end.

Definition file_url (central category path : string) : string :=
  if String.eqb category "bootloaders" then central ++ "/tftp/" ++ path
  else central ++ "/api/v1/files/" ++ category ++ "/" ++ path.

Definition add_error (e : string) (r : SyncResult) : SyncResult := r <| errors ::= fun l => (l ++ [e])%list |>.
Definition add_file (content : list Z) (r : SyncResult) : SyncResult :=
  r <| files_synced ::= Z.succ |> <| bytes_transferred ::= fun n => (n + Z.of_nat (length content))%Z |>.

Definition download_error (category path : string) : string := "Failed to download: " ++ category ++ "/" ++ path.
Definition cache_error_text (category path e : string) : string :=
  "Failed to cache " ++ category ++ "/" ++ path ++ ": " ++ e.

(** The result object is passed along and returned. *)
Definition _sync_file (category path : string) (r : SyncResult) : SyncM (bool * SyncResult) :=
  t ← now;
  hit ← on_cache (ContentCache.get t category path);
  hit ← uncaught hit;
  match hit with
  | Some _ => mret (true, r)
  | None =>
      s ← get_state;
      content ← _download_file (file_url (central_url s) category path);
      match content with
      | None => mret (false, add_error (download_error category path) r)
      | Some content =>
          t ← now;
          stored ← on_cache (put t category path content None);
          match stored with
          | Ok _ => mret (true, add_file content r)
          | Err e => mret (false, add_error (cache_error_text category path e) r)
          end
      end
  end.

Definition set_status (r : SyncResult) : SyncResult :=
  match errors r with
  | [] => r
  | _ => r <| status := if (0 <? files_synced r)%Z then partial else failed |>
  end.

(** The end of every run: the duration and the status. *)
Definition finish (start : Z) (r : SyncResult) : SyncM SyncResult :=
  t ← now; mret (set_status (r <| duration_seconds := t - start |>)%Z).

Fixpoint sync_all (category : string) (paths : list string) (r : SyncResult) : SyncM SyncResult :=
  match paths with
  | [] => mret r
  | p :: paths => br ← _sync_file category p r; sync_all category paths br.2
  end.

Definition sync_bootloaders : SyncM SyncResult :=
  start ← now;
  r ← sync_all "bootloaders" ESSENTIAL_BOOTLOADERS no_result;
  finish start r.

(** The [files] of a listing, or the text of the error to report. *)
Definition fetch_files (url what : string) : SyncM (result string json) :=
  r ← fetch url;
  let decoded :=
    match r with
    | Response code _ d => if (code =? 200)%Z then Ok d else Err (what ++ ": " ++ pretty code)
    | NoReply f => Ok (Err f)
    end in
  match decoded with
  | Err e => mret (Err e)
  | Ok (Err (ClientError e)) => mret (Err (what ++ ": " ++ e))
  | Ok (Err OtherError) => raise Raised
  | Ok (Ok data) => match jget "files" (JArr []) data with Some files => mret (Ok files) | None => raise Raised end
  end.

Definition as_list (j : json) : SyncM (list json) :=
  match iterate j with Some l => mret l | None => raise Raised end.
Definition field (k : string) (dflt : string) (item : json) : SyncM json :=
  match jget k (JStr dflt) item with Some v => mret v | None => raise Raised end.
Definition as_string (j : json) : SyncM string :=
  match j with JStr s => mret s | _ => raise Raised end.

(** [_sync_file] on fields of a listing: the cache raises on a category or a
    path that is no string. *)
Definition sync_item (category path : json) (r : SyncResult) : SyncM SyncResult :=
  c ← as_string category; p ← as_string path;
  br ← _sync_file c p r; mret br.2.

Fixpoint sync_assigned (items : list json) (r : SyncResult) : SyncM SyncResult :=
  match items with
  | [] => mret r
  | item :: items =>
      category ← field "category" "templates" item;
      path ← field "path" "" item;
      r ← (if truthy path then sync_item category path r else mret r);
      sync_assigned items r
  end.

Definition sync_assigned_content : SyncM SyncResult :=
  start ← now;
  s ← get_state;
  l ← fetch_files (central_url s ++ "/api/v1/sites/" ++ site_id s ++ "/assigned-content") "Failed to get assigned content";
  match l with
  | Err e => mret ((add_error e no_result) <| status := failed |>)
  | Ok files =>
      items ← as_list files;
      r ← sync_assigned items no_result;
      finish start r
  end.

Definition text (j : json) : string := match j with JStr s => s | _ => py_text j end.

Fixpoint sync_matching (pats : list string) (items : list json) (r : SyncResult) : SyncM SyncResult :=
  match items with
  | [] => mret r
  | item :: items =>
      c ← field "category" "" item;
      p ← field "path" "" item;
      r ← (if existsb (fnmatch (text c ++ "/" ++ text p)) pats then
             category ← field "category" "templates" item;
             sync_item category p r
           else mret r);
      sync_matching pats items r
  end.

Definition sync_patterns (pats : list string) : SyncM SyncResult :=
  start ← now;
  s ← get_state;
  l ← fetch_files (central_url s ++ "/api/v1/files") "Failed to list files";
  match l with
  | Err e => mret ((add_error e no_result) <| status := failed |>)
  | Ok files =>
      items ← as_list files;
      r ← sync_matching pats items no_result;
      finish start r
  end.

Fixpoint sync_every (items : list json) (r : SyncResult) : SyncM SyncResult :=
  match items with
  | [] => mret r
  | item :: items =>
      category ← field "category" "templates" item;
      path ← field "path" "" item;
      r ← sync_item category path r;
      sync_every items r
  end.

Definition full_sync : SyncM SyncResult :=
  start ← now;
  b ← sync_bootloaders;
  let r := no_result <| files_synced := files_synced b |> <| bytes_transferred := bytes_transferred b |>
             <| errors := errors b |> in
  s ← get_state;
  l ← fetch_files (central_url s ++ "/api/v1/files") "Failed to list files";
  match l with
  | Err e => mret ((add_error e r) <| status := partial |>)
  | Ok files =>
      items ← as_list files;
      r ← sync_every items r;
      finish start r
  end.

Definition add_results (a b : SyncResult) : SyncResult :=
  set_status {| files_synced := files_synced a + files_synced b; bytes_transferred := bytes_transferred a + bytes_transferred b;
     errors := errors a ++ errors b; duration_seconds := duration_seconds a + duration_seconds b; status := success |}.

(** [async with self._sync_lock] *)
Definition with_sync_lock {A} (m : SyncM A) : SyncM A :=
  fun s =>
    if _sync_lock s then (Err Hangs, s)
    else match m (s <| _sync_lock := true |>) with
         | (Err Hangs, s') => (Err Hangs, s')
         | (r, s') => (r, s' <| _sync_lock := false |>)
         end.

Definition sync_by_policy : SyncM SyncResult :=
  s ← get_state;
  match policy (content_cache s) with
  | Minimal => sync_bootloaders
  | Assigned => b ← sync_bootloaders; a ← sync_assigned_content; mret (add_results b a)
  | Mirror => full_sync
  | Pattern =>
      b ← sync_bootloaders;
      s ← get_state;
      p ← sync_patterns (patterns (content_cache s)); mret (add_results b p)
  | OtherPolicy _ => sync_bootloaders
  end.

Definition run_scheduled_sync : SyncM SyncResult :=
  with_sync_lock (
    r ← sync_by_policy;
    t ← now;
    modify (fun s => s <| _last_sync_at := Some t |> <| _last_sync_result := Some r |>);;
    mret r).

Fixpoint clear_categories (cats : list string) : SyncM unit :=
  match cats with
  | [] => mret tt
  | c :: cats => n ← on_cache (clear (Some c)); uncaught n;; clear_categories cats
  end.

Definition run_manual_sync (force : bool) (categories : option (list string)) : SyncM SyncResult :=
  with_sync_lock (
    (if force then
       match categories with
       | Some (c :: cats) => clear_categories (c :: cats)
       | _ => n ← on_cache (clear None); uncaught n;; mret tt
       end
     else mret tt);;
    run_scheduled_sync).
End Service.

(** ** What the cache does for one file *)

(** The set-up of the cache, which no operation changes, with the lock free. *)
Record same_cache (c c' : ContentCache) : Prop := {
  sc_dir : cache_dir c' = cache_dir c;
  sc_categories : categories c' = categories c;
  sc_policy : policy c' = policy c;
  sc_patterns : patterns c' = patterns c;
  sc_max : max_size_bytes c' = max_size_bytes c;
  sc_free : locked c' = false
}.

Lemma same_cache_refl c : locked c = false -> same_cache c c.
Proof. by constructor. Qed.
Lemma same_cache_trans c1 c2 c3 : same_cache c1 c2 -> same_cache c2 c3 -> same_cache c1 c3.
Proof. intros [] []. constructor; congruence. Qed.

(** Entries whose key is that of a bootloader never expire. *)
Definition lasting (c : ContentCache) : Prop :=
  forall path e, assoc_get (_get_cache_key "bootloaders" path) (metadata c) = Some e -> ce_expires_at e = None.

(** Nothing in the cache may be evicted. *)
Definition fixed (c : ContentCache) : Prop :=
  Forall (fun kv => always_cached (categories c) kv.2 = true) (metadata c).

Lemma fixed_not_evictable c : fixed c -> evictable c = false.
Proof.
  unfold fixed, evictable. induction 1 as [|kv m Hkv _ IH]; [done|]. cbn [map existsb]. by rewrite Hkv.
Qed.

Definition path_in (c : ContentCache) (category path : string) : PurePath :=
  _get_file_path (cache_dir c) category path.

(** The entries of other keys are as they were. *)
Definition others_kept (keys : list string) (c c' : ContentCache) : Prop :=
  forall k, k ∉ keys -> assoc_get k (metadata c') = assoc_get k (metadata c).

Lemma others_kept_del keys k c c' : k ∈ keys -> metadata c' = assoc_del k (metadata c) -> others_kept keys c c'.
Proof. intros Hk E x Hx. rewrite E, assoc_get_del_ne; [done|]. by intros ->. Qed.

Lemma others_kept_set keys k e c c' : k ∈ keys -> metadata c' = assoc_set k e (metadata c) -> others_kept keys c c'.
Proof. intros Hk E x Hx. rewrite E, assoc_get_set_ne; [done|]. by intros ->. Qed.

Lemma others_kept_trans keys1 keys2 keys c1 c2 c3 : keys1 ⊆ keys -> keys2 ⊆ keys ->
  others_kept keys1 c1 c2 -> others_kept keys2 c2 c3 -> others_kept keys c1 c3.
Proof. intros S1 S2 H1 H2 k Hk. rewrite H2, H1; [done| |]; intros ?; apply Hk; [by apply S1|by apply S2]. Qed.

Record get_spec (t : Z) (category path : string) (c : ContentCache) (hit : option PurePath) (c' : ContentCache) : Prop := {
  gs_same : same_cache c c';
  gs_frame q : q ≠ path_in c category path -> files c' !! q = files c !! q;
  gs_hit : match hit with
           | Some p => p = path_in c category path /\ is_Some (files c !! p) /\ files c' = files c
           | None => files c' !! path_in c category path = None
           end;
  gs_others : others_kept [_get_cache_key category path] c c';
  gs_lasting : lasting c -> lasting c';
  gs_fixed : fixed c -> fixed c'
}.

Lemma evict_free category path c :
  locked c = false ->
  exists b c', evict category path c = (Ok b, c') /\ same_cache c c'
    /\ files c' = delete (path_in c category path) (files c)
    /\ (metadata c' = metadata c \/ metadata c' = assoc_del (_get_cache_key category path) (metadata c)).
Proof.
  intros Hl. unfold evict, with_lock. rewrite Hl. unfold_M. cbn.
  destruct (assoc_get (_get_cache_key category path) (metadata c)) eqn:He; cbn; do 2 eexists; (split; [done|]);
    (split; [done|]); (split; [done|]); [by right|by left].
Qed.

Lemma get_outcome t category path c :
  locked c = false ->
  exists hit c', ContentCache.get t category path c = (Ok hit, c') /\ get_spec t category path c hit c'.
Proof.
  intros Hl. unfold ContentCache.get. rewrite (bind_Ok _ _ c c c) by done. fold (path_in c category path).
  unfold file_exists. destruct (files c !! path_in c category path) as [content|] eqn:Hf.
  2:{ rewrite bool_decide_false by (by intros []). do 2 eexists. split; [done|]. constructor; cbn; [done..| | |].
      - by apply (others_kept_del _ (_get_cache_key category path)); [left|].
      - intros HL p e He. eapply HL, assoc_get_del_Some, He.
      - apply Forall_assoc_del. }
  rewrite bool_decide_true by done. cbn [negb].
  destruct (assoc_get (_get_cache_key category path) (metadata c)) as [e|] eqn:He.
  2:{ do 2 eexists. split; [done|]. by constructor. }
  destruct (expired t e).
  - destruct (evict_free category path c Hl) as (b & c' & Hev & Hsame & Hfiles & Hm).
    rewrite (bind_Ok _ _ _ _ _ Hev). do 2 eexists. split; [done|]. constructor; [done|..]; rewrite ?Hfiles.
    + intros q Hq. by rewrite lookup_delete_ne.
    + apply lookup_delete_eq.
    + destruct Hm as [Hm|Hm]; [intros k _; by rewrite Hm|]. by apply (others_kept_del _ (_get_cache_key category path)); [left|].
    + intros HL p e' He'. destruct Hm as [Hm|Hm]; rewrite Hm in He'; [by eapply HL|].
      eapply HL, assoc_get_del_Some, He'.
    + unfold fixed. rewrite (sc_categories _ _ Hsame). destruct Hm as [-> | ->]; [done|]. apply Forall_assoc_del.
  - do 2 eexists. split; [done|]. constructor; cbn; [done..| | |].
    + by eapply (others_kept_set _ (_get_cache_key category path)); [left|].
    + intros HL p e' [[Hk ->]|He']%assoc_get_set_Some; [|by eapply HL]. cbn. rewrite Hk in He. by eapply HL.
    + intros HF. apply Forall_assoc_set; [|done]. apply assoc_get_In in He.
      exact (proj1 (List.Forall_forall _ _) HF _ He).
Qed.

Record put_spec (category path : string) (content : list Z) (c : ContentCache) (r : result string PurePath) (c' : ContentCache) : Prop := {
  ps_same : same_cache c c';
  ps_frame q : q ≠ path_in c category path -> with_suffix ".tmp" (path_in c category path) ≠ Some q ->
               files c' !! q = files c !! q;
  ps_stored : match r with
              | Ok p => p = path_in c category path /\ files c' !! p = Some content
              | Err _ => c' = c
              end;
  ps_others : others_kept [_get_cache_key category path] c c';
  ps_lasting : categories c = DEFAULT_CATEGORIES -> category = "bootloaders" -> lasting c -> lasting c';
  ps_fixed : categories c = DEFAULT_CATEGORIES -> category = "bootloaders" -> fixed c -> fixed c'
}.

(** [put] stores the file, refuses it, or never returns. *)
Lemma put_cases t category path content c :
  locked c = false ->
  match put t category path content None c with
  | (Ok p, c') => put_spec category path content c (Ok p) c'
  | (Err (ContentCache.ValueError m), c') => put_spec category path content c (Err m) c'
  | (Err Deadlock, c') => too_full (Z.of_nat (length content)) c && evictable c = true
  end.
Proof.
  intros Hl. rewrite put_outcome by done. fold (path_in c category path).
  assert (forall m, put_spec category path content c (Err m) c) as Hsame
    by (intros m; constructor; [by apply same_cache_refl|done..]).
  destruct (should_cache category path c); [|apply Hsame].
  destruct (_ && _) eqn:Hfull; [done|].
  destruct (with_suffix ".tmp" (path_in c category path)) as [tp|] eqn:Ht; [|apply Hsame].
  constructor; cbn; [done|..].
  - intros q Hq Hqt. change (_get_file_path (cache_dir c) category path) with (path_in c category path).
    rewrite lookup_insert_ne, lookup_delete_ne by congruence. done.
  - split; [done|]. apply lookup_insert_eq.
  - by eapply (others_kept_set _ (_get_cache_key category path)); [left|].
  - intros Hc -> HL p e. cbn [stored metadata]. intros [[_ ->]|He]%assoc_get_set_Some; [|by eapply HL].
    cbn. unfold expires_at. by rewrite Hc.
  - intros Hc -> HF. apply Forall_assoc_set; [|done]. unfold always_cached. cbn. by rewrite Hc.
Qed.

(** ** What a synchronisation leaves alone

    A synchronisation changes the cache and the count of calls only; unless it
    hangs, the cache keeps its set-up and its lock is free again. *)

Definition rest (s s' : CacheSyncService) : Prop :=
  s' = s <| content_cache := content_cache s' |> <| calls := calls s' |>.

Lemma rest_refl s : rest s s.
Proof. by destruct s. Qed.
Lemma rest_trans s1 s2 s3 : rest s1 s2 -> rest s2 s3 -> rest s1 s3.
Proof. unfold rest. intros H1 H2. rewrite H2, H1. done. Qed.

Definition tidy {A} (m : SyncM A) : Prop :=
  forall s, locked (content_cache s) = false ->
  let '(r, s') := m s in
  rest s s' /\ (r = Err Hangs \/ same_cache (content_cache s) (content_cache s')).

Lemma tidy_ret {A} (a : A) : tidy (mret a).
Proof. intros s Hs. split; [apply rest_refl|]. right. by apply same_cache_refl. Qed.
Lemma tidy_raise {A} e : tidy (raise (A := A) e).
Proof. intros s Hs. split; [apply rest_refl|]. right. by apply same_cache_refl. Qed.
Lemma tidy_get : tidy get_state.
Proof. intros s Hs. split; [apply rest_refl|]. right. by apply same_cache_refl. Qed.

Lemma tidy_bind {A B} (m : SyncM A) (f : A -> SyncM B) : tidy m -> (forall a, tidy (f a)) -> tidy (m ≫= f).
Proof.
  intros Hm Hf s Hs. specialize (Hm s Hs). destruct (m s) as [[a|e] s1] eqn:E.
  - destruct Hm as [Hr [?|Hc]]; [done|]. rewrite (bind_Ok _ _ _ _ _ E).
    specialize (Hf a s1 (sc_free _ _ Hc)). destruct (f a s1) as [r s2]. destruct Hf as [Hr2 Hc2].
    split; [by eapply rest_trans|]. destruct Hc2; [by left|]. right. by eapply same_cache_trans.
  - rewrite (bind_Err _ _ _ _ _ E). destruct Hm as [Hr Hc]. split; [done|]. destruct Hc as [Hc|Hc]; [left; congruence|by right].
Qed.

(** A cache operation with a free lock that hangs or keeps the set-up. *)
Definition tidy_cache {A} (m : CacheM A) : Prop :=
  forall c, locked c = false -> let '(r, c') := m c in r = Err Deadlock \/ same_cache c c'.

Lemma tidy_on_cache {A} (m : CacheM A) : tidy_cache m -> tidy (on_cache m).
Proof.
  intros Hm s Hs. specialize (Hm _ Hs). unfold on_cache. destruct (m (content_cache s)) as [[a|[msg|]] c'];
    (split; [by destruct s|]); destruct Hm; by (done || auto).
Qed.

Lemma tidy_cache_get t category path : tidy_cache (ContentCache.get t category path).
Proof.
  intros c Hc. destruct (get_outcome t category path c Hc) as (hit & c' & -> & H). right. apply H.
Qed.

Lemma tidy_cache_put t category path content : tidy_cache (put t category path content None).
Proof.
  intros c Hc. pose proof (put_cases t category path content c Hc) as H.
  destruct (put _ _ _ _ _ _) as [[p|[m|]] c']; [right; apply H|right; apply H|by left].
Qed.

Lemma evict_all_outcome entries c :
  locked c = false ->
  exists n c', evict_all entries c = (Ok n, c') /\ same_cache c c'
    /\ Forall (fun e => files c' !! path_in c (ce_category e) (ce_path e) = None) entries
    /\ (forall p, files c !! p = None -> files c' !! p = None).
Proof.
  revert c. induction entries as [|e entries IH]; intros c Hc; [by do 2 eexists|]. cbn [evict_all].
  destruct (evict_free (ce_category e) (ce_path e) c Hc) as (b & c1 & E & H & Hf & _). rewrite (bind_Ok _ _ _ _ _ E).
  destruct (IH c1 (sc_free _ _ H)) as (n & c2 & E2 & H2 & Hall & Hnone). rewrite (bind_Ok _ _ _ _ _ E2).
  do 2 eexists. split; [done|]. split; [by eapply same_cache_trans|].
  unfold path_in in *. rewrite (sc_dir _ _ H) in Hall. split.
  - constructor; [|done]. apply Hnone. rewrite Hf. apply lookup_delete_eq.
  - intros p Hp. apply Hnone. rewrite Hf. by apply lookup_delete_None; right.
Qed.

Lemma clear_outcome category c :
  locked c = false ->
  exists n c', clear category c = (Ok n, c') /\ same_cache c c'
    /\ (category = None -> forall k e, (k, e) ∈ metadata c -> files c' !! path_in c (ce_category e) (ce_path e) = None).
Proof.
  intros Hc. unfold clear. rewrite (bind_Ok _ _ c c c) by done.
  destruct (evict_all_outcome (List.filter (in_category category) (map snd (metadata c))) c Hc)
    as (n & c' & -> & H & Hall & _). do 2 eexists. split; [done|]. split; [done|].
  intros -> k e He. rewrite List.Forall_forall in Hall. apply Hall, filter_In. split; [|done].
  apply (in_map snd _ (k, e)), list_elem_of_In, He.
Qed.

Lemma tidy_cache_clear category : tidy_cache (clear category).
Proof. intros c Hc. destruct (clear_outcome category c Hc) as (n & c' & -> & H & _). by right. Qed.

#[export] Hint Resolve tidy_ret tidy_raise tidy_get tidy_bind tidy_on_cache tidy_cache_get tidy_cache_put
  tidy_cache_clear : pyboot.
#[local] Hint Extern 1 (tidy (match ?x with _ => _ end)) => destruct x : pyboot.

Section Tidy.
Context (network : nat -> string -> reply) (clock : nat -> Z) (py_text : json -> string).

Lemma tidy_now : tidy (now clock).
Proof. intros s Hs. split; [by destruct s|]. right. by apply same_cache_refl. Qed.

Lemma tidy_fetch url : tidy (fetch network url).
Proof.
  intros s Hs. unfold fetch. rewrite (bind_Ok _ _ s s s) by done.
  destruct (_session s) eqn:E; (split; [by destruct s|]); right; by apply same_cache_refl.
Qed.
#[local] Hint Resolve tidy_now tidy_fetch : pyboot.

Lemma tidy_sync_file category path r : tidy (_sync_file network clock category path r).
Proof. unfold _sync_file, uncaught, _download_file. auto 30 with pyboot. Qed.
#[local] Hint Resolve tidy_sync_file : pyboot.

Lemma tidy_sync_all category paths r : tidy (sync_all network clock category paths r).
Proof. revert r. induction paths as [|p paths IH]; intros r; cbn [sync_all]; auto 10 with pyboot. Qed.

Lemma tidy_finish start r : tidy (finish clock start r).
Proof. unfold finish. auto with pyboot. Qed.

Lemma tidy_item category path r : tidy (sync_item network clock category path r).
Proof. unfold sync_item, as_string. auto 10 with pyboot. Qed.
#[local] Hint Resolve tidy_sync_all tidy_finish tidy_item : pyboot.

Lemma tidy_assigned items r : tidy (sync_assigned network clock items r).
Proof. revert r. induction items as [|i items IH]; intros r; cbn [sync_assigned]; unfold field; auto 10 with pyboot. Qed.

Lemma tidy_matching pats items r : tidy (sync_matching network clock py_text pats items r).
Proof. revert r. induction items as [|i items IH]; intros r; cbn [sync_matching]; unfold field; auto 10 with pyboot. Qed.

Lemma tidy_every items r : tidy (sync_every network clock items r).
Proof. revert r. induction items as [|i items IH]; intros r; cbn [sync_every]; unfold field; auto 10 with pyboot. Qed.

Lemma tidy_fetch_files url what : tidy (fetch_files network url what).
Proof. unfold fetch_files. auto 10 with pyboot. Qed.
#[local] Hint Resolve tidy_assigned tidy_matching tidy_every tidy_fetch_files : pyboot.

Lemma tidy_by_policy : tidy (sync_by_policy network clock py_text).
Proof.
  unfold sync_by_policy, full_sync, sync_patterns, sync_assigned_content, sync_bootloaders, as_list.
  auto 20 with pyboot.
Qed.

Lemma tidy_clear_categories cats : tidy (clear_categories cats).
Proof. induction cats as [|c cats IH]; cbn [clear_categories]; unfold uncaught; auto 10 with pyboot. Qed.
End Tidy.

(** ** The runs and their lock *)

(** The clearing of a forced run: it succeeds, or waits for a cache lock that is taken. *)
Lemma clear_never_raises category s :
  let '(r, s') := on_cache (clear category) s in
  rest s s' /\ ((exists n, r = Ok (Ok n)) \/ r = Err Hangs).
Proof.
  unfold on_cache. destruct (locked (content_cache s)) eqn:Hl.
  - unfold clear. rewrite (bind_Ok _ _ (content_cache s) (content_cache s) (content_cache s)) by done.
    destruct (List.filter _ _) as [|e entries]; cbn [evict_all].
    + split; [by destruct s|]. left. by eexists.
    + rewrite (bind_Err _ _ _ _ _ (evict_taken _ _ _ Hl)). split; [by destruct s|]. by right.
  - destruct (clear_outcome category _ Hl) as (n & c' & -> & _). split; [by destruct s|]. left. by eexists.
Qed.

Lemma clear_categories_never_raises cats s :
  let '(r, s') := clear_categories cats s in rest s s' /\ (r = Ok tt \/ r = Err Hangs).
Proof.
  revert s. induction cats as [|c cats IH]; intros s; cbn [clear_categories]; [split; [apply rest_refl|by left]|].
  pose proof (clear_never_raises (Some c) s) as H. destruct (on_cache (clear (Some c)) s) as [r s1] eqn:E.
  destruct H as [Hr [[n ->]| ->]].
  - rewrite (bind_Ok _ _ _ _ _ E). cbn [uncaught]. rewrite (bind_Ok _ _ s1 n s1) by done.
    specialize (IH s1). destruct (clear_categories cats s1). destruct IH as [Hr2 ?].
    split; [by eapply rest_trans|done].
  - rewrite (bind_Err _ _ _ _ _ E). split; [done|by right].
Qed.

Section Runs.
Context (network : nat -> string -> reply) (clock : nat -> Z) (py_text : json -> string).

Lemma sync_lock_taken {A} (m : SyncM A) s : _sync_lock s = true -> with_sync_lock m s = (Err Hangs, s).
Proof. unfold with_sync_lock. by intros ->. Qed.

Lemma rest_lock s s' : rest s s' -> _sync_lock s' = _sync_lock s.
Proof. unfold rest. by intros ->. Qed.

(** A manual synchronisation never returns: it holds the lock that the scheduled run it starts
    waits for.  The lock stays taken, so that no later synchronisation, scheduled or manual,
    returns either. *)
Theorem manual_sync_never_returns force categories s :
  let '(r, s') := run_manual_sync network clock py_text force categories s in
  r = Err Hangs
  /\ _last_sync_result s' = _last_sync_result s
  /\ run_scheduled_sync network clock py_text s' = (Err Hangs, s')
  /\ (forall force' categories', run_manual_sync network clock py_text force' categories' s' = (Err Hangs, s')).
Proof.
  destruct (_sync_lock s) eqn:Hl.
  { unfold run_manual_sync at 1. rewrite sync_lock_taken by done.
    split; [done|]. split; [done|]. split; [|intros]; by apply sync_lock_taken. }
  unfold run_manual_sync at 1, with_sync_lock at 1. rewrite Hl. set (s0 := s <| _sync_lock := true |>).
  assert (exists r s1, (if force then
       match categories with
       | Some (c :: cats) => clear_categories (c :: cats)
       | _ => n ← on_cache (clear None); uncaught n;; mret tt
       end else mret tt) s0 = (r, s1) /\ rest s0 s1 /\ (r = Ok tt \/ r = Err Hangs)) as (r & s1 & E & Hr & Hcase).
  { assert (exists r s1, (n ← on_cache (clear None); uncaught n;; mret tt) s0 = (r, s1)
        /\ rest s0 s1 /\ (r = Ok tt \/ r = Err Hangs)) as Hnone.
    { pose proof (clear_never_raises None s0) as H. destruct (on_cache (clear None) s0) as [r s1] eqn:E.
      destruct H as [Hr [[n ->]| ->]]; do 2 eexists.
      - rewrite (bind_Ok _ _ _ _ _ E). split; [done|]. split; [done|by left].
      - rewrite (bind_Err _ _ _ _ _ E). split; [done|]. split; [done|by right]. }
    destruct force; [|do 2 eexists; split; [done|]; split; [apply rest_refl|by left]].
    destruct categories as [[|c cats]|]; [exact Hnone| |exact Hnone].
    pose proof (clear_categories_never_raises (c :: cats) s0) as H. destruct (clear_categories (c :: cats) s0).
    do 2 eexists. split; [done|exact H]. }
  assert (_sync_lock s1 = true) as Hl1 by by rewrite (rest_lock _ _ Hr).
  assert (_last_sync_result s1 = _last_sync_result s) as Hlast by by rewrite Hr.
  destruct Hcase as [-> | ->].
  - rewrite (bind_Ok _ _ _ _ _ E). unfold run_scheduled_sync at 1. rewrite sync_lock_taken by done.
    split; [done|]. split; [done|]. split; [|intros]; by apply sync_lock_taken.
  - rewrite (bind_Err _ _ _ _ _ E).
    split; [done|]. split; [done|]. split; [|intros]; by apply sync_lock_taken.
Qed.

(** A scheduled synchronisation, with both locks free, either waits forever on a full cache or
    frees both locks, keeps the cache's set-up, and records its result when it has one. *)
Theorem scheduled_sync_frees_locks s (Hl : _sync_lock s = false) (Hc : locked (content_cache s) = false) :
  let '(r, s') := run_scheduled_sync network clock py_text s in
  r = Err Hangs
  \/ _sync_lock s' = false /\ same_cache (content_cache s) (content_cache s')
     /\ _last_sync_result s' = match r with Ok res => Some res | Err _ => _last_sync_result s end.
Proof.
  unfold run_scheduled_sync, with_sync_lock. rewrite Hl. set (s0 := s <| _sync_lock := true |>).
  pose proof (tidy_by_policy network clock py_text s0 Hc) as H.
  destruct (sync_by_policy network clock py_text s0) as [[res|e] s1] eqn:E.
  - rewrite (bind_Ok _ _ _ _ _ E). destruct H as [Hr [?|Hs]]; [done|]. right. cbn. done.
  - rewrite (bind_Err _ _ _ _ _ E). destruct H as [Hr [[= ->]|Hs]]; [by left|]. destruct e; [|by left].
    right. cbn. split; [done|]. split; [done|]. by rewrite Hr.
Qed.
End Runs.

(** ** One file *)

Record file_step (category path : string) (r : SyncResult) (s : CacheSyncService) (b : bool) (r' : SyncResult)
    (s' : CacheSyncService) : Prop := {
  fs_rest : rest s s';
  fs_same : same_cache (content_cache s) (content_cache s');
  fs_frame q :
    q ≠ path_in (content_cache s) category path ->
    with_suffix ".tmp" (path_in (content_cache s) category path) ≠ Some q ->
    files (content_cache s') !! q = files (content_cache s) !! q;
  fs_others : others_kept [_get_cache_key category path] (content_cache s) (content_cache s');
  fs_outcome :
    (b = true /\ is_Some (files (content_cache s') !! path_in (content_cache s) category path)
     /\ (r' = r \/ exists content, r' = add_file content r))
    \/ (b = false /\ exists e, r' = add_error e r
        /\ (e = download_error category path \/ exists m, e = cache_error_text category path m));
  fs_lasting :
    categories (content_cache s) = DEFAULT_CATEGORIES -> category = "bootloaders" ->
    lasting (content_cache s) -> lasting (content_cache s');
  fs_fixed :
    categories (content_cache s) = DEFAULT_CATEGORIES -> category = "bootloaders" ->
    fixed (content_cache s) -> fixed (content_cache s')
}.

Section Files.
Context (network : nat -> string -> reply) (clock : nat -> Z).

(** A download touches nothing but the count of calls. *)
Lemma download_outcome url s content s1 :
  _download_file network url s = (Ok content, s1) -> rest s s1 /\ content_cache s1 = content_cache s.
Proof.
  unfold _download_file, fetch. unfold_M. destruct (_session s) eqn:Hs; [|done]. destruct (network _ url) as [code body d|[]];
    [destruct (_ =? _)%Z; [destruct body as [|[]]|]|..]; intros [= <- <-]; by destruct s.
Qed.

Lemma sync_file_ok category path r s b r' s' :
  locked (content_cache s) = false ->
  _sync_file network clock category path r s = (Ok (b, r'), s') -> file_step category path r s b r' s'.
Proof.
  intros Hl. unfold _sync_file. rewrite (bind_Ok _ _ s (clock (calls s)) (s <| calls ::= S |>)) by done.
  destruct (get_outcome (clock (calls s)) category path (content_cache s) Hl) as (hit & c1 & Hget & Hg).
  set (s1 := s <| calls ::= S |> <| content_cache := c1 |>).
  rewrite (bind_Ok _ _ _ (Ok hit) s1) by (unfold on_cache; cbn; by rewrite Hget).
  cbn [uncaught]. rewrite (bind_Ok _ _ s1 hit s1) by done.
  assert (rest s s1) as Hr1 by by destruct s. destruct hit as [p|].
  { intros [= <- <- <-]. destruct (gs_hit _ _ _ _ _ _ Hg) as (-> & Hsome & Hfiles).
    constructor; [done|apply Hg|by intros; apply Hg|apply Hg| |by intros; apply Hg..].
    left. cbn. rewrite Hfiles. split; [done|]. by split; [|left]. }
  rewrite (bind_Ok _ _ s1 s1 s1) by done.
  step_M content s2 Hd. apply download_outcome in Hd as [Hr2 Hc2]. change (content_cache s1) with c1 in Hc2.
  destruct content as [content|].
  2:{ intros [= <- <- <-]. constructor; rewrite ?Hc2; [by eapply rest_trans|apply Hg|by intros; apply Hg|apply Hg| |by intros; apply Hg..].
      right. split; [done|]. eexists. split; [done|by left]. }
  rewrite (bind_Ok _ _ s2 (clock (calls s2)) (s2 <| calls ::= S |>)) by done.
  pose proof (put_cases (clock (calls s2)) category path content c1 (sc_free _ _ (gs_same _ _ _ _ _ _ Hg))) as Hp.
  destruct (put _ _ _ _ _ _) as [st c3] eqn:Hput. unfold on_cache, mbind, M_bind. cbn. rewrite Hc2, Hput.
  assert (path_in c1 category path = path_in (content_cache s) category path) as Hpath
    by (unfold path_in; by rewrite (sc_dir _ _ (gs_same _ _ _ _ _ _ Hg))).
  assert (forall res, put_spec category path content c1 res c3 ->
            same_cache (content_cache s) c3
            /\ (forall q, q ≠ path_in (content_cache s) category path ->
                 with_suffix ".tmp" (path_in (content_cache s) category path) ≠ Some q ->
                 files c3 !! q = files (content_cache s) !! q)
            /\ others_kept [_get_cache_key category path] (content_cache s) c3
            /\ (categories (content_cache s) = DEFAULT_CATEGORIES -> category = "bootloaders" ->
                lasting (content_cache s) -> lasting c3)
            /\ (categories (content_cache s) = DEFAULT_CATEGORIES -> category = "bootloaders" ->
                fixed (content_cache s) -> fixed c3)) as Hboth.
  { intros res H. split; [by eapply same_cache_trans; [apply Hg|apply H]|]. split.
    - intros q Hq1 Hq2. rewrite (ps_frame _ _ _ _ _ _ H) by by rewrite Hpath. by apply Hg.
    - split; [eapply others_kept_trans; [done|done|apply Hg|apply H]|]. rewrite <- (sc_categories _ _ (gs_same _ _ _ _ _ _ Hg)).
      split; intros Hcat -> HL; (apply H; [done..|by apply Hg]). }
  assert (rest s (s2 <| calls ::= S |> <| content_cache := c3 |>)) as Hr3
    by (eapply rest_trans; [exact Hr1|]; eapply rest_trans; [exact Hr2|]; by destruct s2).
  destruct st as [p|[m|]]; [| |done]; intros [= <- <- <-]; destruct (Hboth _ Hp) as (? & ? & ? & ? & ?); constructor; try done.
  - left. split; [done|]. destruct (ps_stored _ _ _ _ _ _ Hp) as [-> Hf]. cbn. rewrite <- Hpath, Hf.
    split; [by eexists|]. right. by eexists.
  - right. split; [done|]. eexists. split; [done|]. right. by eexists.
Qed.

(** ** Many files *)

(** Storing [q] leaves the file of [p] alone. *)
Definition apart (c : ContentCache) (category p q : string) : Prop :=
  path_in c category p ≠ path_in c category q
  /\ with_suffix ".tmp" (path_in c category q) ≠ Some (path_in c category p).

Definition reported (category path : string) (r : SyncResult) : Prop :=
  exists e, e ∈ errors r /\ (e = download_error category path \/ exists m, e = cache_error_text category path m).

(** A result that counts the files of [n] more attempts. *)
Record counts (n : nat) (r r' : SyncResult) : Prop := {
  ct_files : (files_synced r <= files_synced r')%Z;
  ct_bytes : (bytes_transferred r <= bytes_transferred r')%Z;
  ct_errors : exists es, errors r' = (errors r ++ es)%list;
  ct_total : (files_synced r' + Z.of_nat (length (errors r')) <= files_synced r + Z.of_nat (length (errors r)) + Z.of_nat n)%Z;
  ct_status : status r' = status r
}.

Lemma counts_step category path r s b r' s' : file_step category path r s b r' s' -> counts 1 r r'.
Proof.
  intros H. destruct (fs_outcome _ _ _ _ _ _ _ H) as [(_ & _ & [->|[content ->]])|(_ & e & -> & _)];
    constructor; cbn; rewrite ?length_app; cbn; try done; try lia;
    first [by exists []; rewrite app_nil_r|by eexists].
Qed.

Lemma counts_trans m n r1 r2 r3 : counts m r1 r2 -> counts n r2 r3 -> counts (m + n) r1 r3.
Proof.
  intros [F1 B1 [e1 E1] T1 S1] [F2 B2 [e2 E2] T2 S2]. constructor; try lia; [|congruence].
  exists (e1 ++ e2)%list. by rewrite E2, E1, app_assoc.
Qed.

Lemma counts_reported category path n r r' : counts n r r' -> reported category path r -> reported category path r'.
Proof.
  intros H (e & He & Hcase). exists e. split; [|done]. destruct (ct_errors _ _ _ H) as [es ->].
  apply elem_of_app. by left.
Qed.

(** Every file of the list is on disk or reported, files apart from all of them stay. *)
Record files_step (category : string) (paths : list string) (r : SyncResult) (s : CacheSyncService) (r' : SyncResult)
    (s' : CacheSyncService) : Prop := {
  ss_rest : rest s s';
  ss_same : same_cache (content_cache s) (content_cache s');
  ss_counts : counts (length paths) r r';
  ss_frame q : Forall (fun p => q ≠ path_in (content_cache s) category p
                               /\ with_suffix ".tmp" (path_in (content_cache s) category p) ≠ Some q) paths ->
    files (content_cache s') !! q = files (content_cache s) !! q;
  ss_others : others_kept (_get_cache_key category <$> paths) (content_cache s) (content_cache s');
  ss_done : ForallOrdPairs (apart (content_cache s) category) paths ->
    Forall (fun p => is_Some (files (content_cache s') !! path_in (content_cache s) category p)
                     \/ reported category p r') paths;
  ss_lasting : categories (content_cache s) = DEFAULT_CATEGORIES -> category = "bootloaders" ->
    lasting (content_cache s) -> lasting (content_cache s')
}.

Lemma sync_all_ok category paths r s r' s' :
  locked (content_cache s) = false ->
  sync_all network clock category paths r s = (Ok r', s') -> files_step category paths r s r' s'.
Proof.
  revert r s. induction paths as [|p paths IH]; intros r s Hl; cbn [sync_all].
  { intros [= <- <-]. constructor; [apply rest_refl|by apply same_cache_refl| |done|by intros k|by constructor|done].
    constructor; try done; [|cbn; lia]. exists []. by rewrite app_nil_r. }
  step_M br s1 H1. destruct br as [b r1]. apply sync_file_ok in H1; [|done]. cbn [snd]. intros H2.
  pose proof (fs_same _ _ _ _ _ _ _ H1) as Hs1. apply IH in H2; [|apply Hs1].
  assert (forall q, path_in (content_cache s1) category q = path_in (content_cache s) category q) as Hpath
    by (intros q; unfold path_in; by rewrite (sc_dir _ _ Hs1)).
  assert (forall q q', apart (content_cache s1) category q q' <-> apart (content_cache s) category q q') as Hap
    by (intros q q'; unfold apart; by rewrite !Hpath).
  destruct H2 as [Hr2 Hs2 Hc2 Hf2 Ho2 Hd2 Hl2]. constructor.
  - eapply rest_trans; [apply H1|done].
  - by eapply same_cache_trans.
  - by apply (counts_trans 1 (length paths) _ r1); [eapply counts_step|].
  - intros q [Hq Hqs]%Forall_cons. rewrite <- (fs_frame _ _ _ _ _ _ _ H1); [|apply Hq..].
    apply Hf2. eapply Forall_impl; [done|]. intros q'. cbn beta. by rewrite Hpath.
  - eapply others_kept_trans; [| |apply H1|exact Ho2]; [intros k ->%list_elem_of_singleton; by left|intros k Hk; by right].
  - intros Hord. inversion Hord as [|? ? Hp Hps]; subst. constructor.
    + destruct (fs_outcome _ _ _ _ _ _ _ H1) as [(_ & Hsome & _)|(_ & e & -> & He)].
      * left. rewrite Hf2; [done|]. eapply Forall_impl; [done|]. intros q'. cbn beta. by rewrite Hpath.
      * right. eapply counts_reported; [done|]. exists e. split; [|done]. apply elem_of_app. right. by left.
    + specialize (Hd2 ltac:(clear -Hps Hap; induction Hps; constructor; [|done];
                            eapply Forall_impl; [done|]; intros q'; apply Hap)).
      eapply Forall_impl; [exact Hd2|]. intros q. cbn beta. by rewrite Hpath.
  - intros Hcat Hb HL. apply Hl2; [by rewrite (sc_categories _ _ Hs1)|done|]. by apply H1.
Qed.

(** A file that is on disk under a lasting entry is found again, whatever the time. *)
Lemma get_lasting t path c :
  locked c = false -> lasting c -> is_Some (files c !! path_in c "bootloaders" path) ->
  exists c', ContentCache.get t "bootloaders" path c = (Ok (Some (path_in c "bootloaders" path)), c').
Proof.
  intros Hl HL Hsome. unfold ContentCache.get. rewrite (bind_Ok _ _ c c c) by done.
  fold (path_in c "bootloaders" path). unfold file_exists. rewrite bool_decide_true by done. cbn [negb].
  destruct (assoc_get _ (metadata c)) as [e|] eqn:He; [|by eexists].
  unfold expired. rewrite (HL _ _ He). by eexists.
Qed.

Lemma sync_all_cached paths r s :
  locked (content_cache s) = false -> lasting (content_cache s) ->
  Forall (fun p => is_Some (files (content_cache s) !! path_in (content_cache s) "bootloaders" p)) paths ->
  exists s', sync_all network clock "bootloaders" paths r s = (Ok r, s')
    /\ files (content_cache s') = files (content_cache s).
Proof.
  revert s. induction paths as [|p paths IH]; intros s Hl HL Hall; [by eexists|].
  apply Forall_cons in Hall as [Hp Hall]. cbn [sync_all].
  destruct (get_lasting (clock (calls s)) p _ Hl HL Hp) as [c' Hget].
  destruct (get_outcome (clock (calls s)) "bootloaders" p _ Hl) as (hit & c1 & E & Hg).
  rewrite Hget in E. injection E as <- <-. destruct (gs_hit _ _ _ _ _ _ Hg) as (_ & _ & Hfiles).
  set (s1 := s <| calls ::= S |> <| content_cache := c' |>).
  assert (_sync_file network clock "bootloaders" p r s = (Ok (true, r), s1)) as Hsync.
  { unfold _sync_file. rewrite (bind_Ok _ _ s (clock (calls s)) (s <| calls ::= S |>)) by done.
    by rewrite (bind_Ok _ _ _ (Ok (Some (path_in (content_cache s) "bootloaders" p))) s1)
      by (unfold on_cache; cbn; by rewrite Hget). }
  rewrite (bind_Ok _ _ _ _ _ Hsync). pose proof (gs_same _ _ _ _ _ _ Hg) as Hsame.
  destruct (IH s1) as (s2 & E2 & F2).
  - apply Hsame.
  - by apply Hg.
  - eapply Forall_impl; [exact Hall|]. intros q. cbn. unfold path_in. by rewrite Hfiles, (sc_dir _ _ Hsame).
  - exists s2. split; [done|]. by rewrite F2.
Qed.
End Files.

(** ** The bootloaders *)

Lemma with_suffix_last sfx rt l name :
  with_suffix sfx {| root := rt; parts := l ++ [name] |} = Some {| root := rt; parts := l ++ [stem name ++ sfx] |}.
Proof. unfold with_suffix. cbn [parts root]. rewrite rev_app_distr. cbn. by rewrite rev_involutive. Qed.

(** Where a bootloader is: the category's directory and its own parts. *)
Lemma bootloader_path c b l name :
  path_of (safe_path b) = {| root := ""; parts := l ++ [name] |} ->
  path_in c "bootloaders" b
  = {| root := root (cache_dir c); parts := (parts (cache_dir c) ++ "bootloaders" :: l) ++ [name] |}.
Proof.
  intros H. unfold path_in, _get_file_path. rewrite H. unfold path_join. cbn.
  by rewrite <- !app_assoc.
Qed.

Definition bootloader_parts : list (string * (list string * string)) :=
  [("ipxe.efi", ([], "ipxe.efi")); ("undionly.kpxe", ([], "undionly.kpxe")); ("snponly.efi", ([], "snponly.efi"));
   ("grub/grubx64.efi", (["grub"], "grubx64.efi")); ("grub/grub.cfg", (["grub"], "grub.cfg"))].

Lemma bootloaders_apart c : ForallOrdPairs (apart c "bootloaders") ESSENTIAL_BOOTLOADERS.
Proof.
  assert (forall b l name, In (b, (l, name)) bootloader_parts ->
            path_in c "bootloaders" b
            = {| root := root (cache_dir c); parts := (parts (cache_dir c) ++ "bootloaders" :: l) ++ [name] |}) as Hp
    by (intros b l name Hin; apply bootloader_path; cbn in Hin;
        repeat destruct Hin as [Hin|Hin]; try (injection Hin as <- <- <-; reflexivity); done).
  assert (forall b l name b' l' name', In (b, (l, name)) bootloader_parts -> In (b', (l', name')) bootloader_parts ->
            (l ++ [name] ≠ l' ++ [name'])%list -> (l' ++ [(stem name' ++ ".tmp")%string] ≠ l ++ [name])%list ->
            apart c "bootloaders" b b') as Hap.
  { intros b l name b' l' name' Hb Hb' H1 H2. unfold apart. rewrite (Hp _ _ _ Hb), (Hp _ _ _ Hb'), with_suffix_last.
    split; intros H; injection H; rewrite <- !app_assoc; cbn [app]; intros H'; apply app_inv_head in H';
      injection H'; done. }
  repeat (constructor; [repeat (constructor; [eapply Hap; [cbn; tauto..|done|done]|]); constructor|]).
  constructor.
Qed.

Section Bootloaders.
Context (network : nat -> string -> reply) (clock : nat -> Z).

Definition on_disk (s : CacheSyncService) (b : string) : Prop :=
  is_Some (files (content_cache s) !! path_in (content_cache s) "bootloaders" b).

Lemma sync_bootloaders_step s r s' :
  locked (content_cache s) = false ->
  sync_bootloaders network clock s = (Ok r, s') ->
  exists r1 s1 d,
    files_step "bootloaders" ESSENTIAL_BOOTLOADERS no_result (s <| calls ::= S |>) r1 s1
    /\ r = set_status (r1 <| duration_seconds := d |>) /\ s' = s1 <| calls ::= S |>.
Proof.
  intros Hl. unfold sync_bootloaders. rewrite (bind_Ok _ _ s (clock (calls s)) (s <| calls ::= S |>)) by done.
  step_M r1 s1 H1. apply sync_all_ok in H1; [|done]. unfold finish.
  rewrite (bind_Ok _ _ s1 (clock (calls s1)) (s1 <| calls ::= S |>)) by done.
  intros [= <- <-]. by do 3 eexists.
Qed.

(** Files and status. *)
Lemma sync_bootloaders_outcome s r s' (Hl : locked (content_cache s) = false)
    (H : sync_bootloaders network clock s = (Ok r, s')) :
  Forall (fun b => on_disk s' b \/ reported "bootloaders" b r) ESSENTIAL_BOOTLOADERS
  /\ (status r = success <-> errors r = [])
  /\ (status r = success -> Forall (on_disk s') ESSENTIAL_BOOTLOADERS)
  /\ (status r = failed <-> errors r ≠ [] /\ files_synced r = 0%Z)
  /\ (0 <= files_synced r)%Z /\ (files_synced r + Z.of_nat (length (errors r)) <= 5)%Z.
Proof.
  apply sync_bootloaders_step in H as (r1 & s1 & d & Hs & -> & ->); [|done].
  destruct (ss_counts _ _ _ _ _ _ Hs) as [Hf _ _ Ht Hst]. cbn in Hf, Ht, Hst.
  pose proof (ss_done _ _ _ _ _ _ Hs (bootloaders_apart _)) as Hd.
  assert (Forall (fun b => on_disk (s1 <| calls ::= S |>) b \/ reported "bootloaders" b r1) ESSENTIAL_BOOTLOADERS) as Hd'.
  { eapply Forall_impl; [exact Hd|]. intros b. unfold on_disk, path_in. cbn.
    by rewrite (sc_dir _ _ (ss_same _ _ _ _ _ _ Hs)). }
  unfold set_status. cbn. destruct (errors r1) as [|e es] eqn:He.
  - assert (Forall (on_disk (s1 <| calls ::= S |>)) ESSENTIAL_BOOTLOADERS) as Hall.
    { eapply Forall_impl; [exact Hd'|]. intros b [?|(e & He' & _)]; [done|]. rewrite He in He'. by apply not_elem_of_nil in He'. }
    split; [eapply Forall_impl; [exact Hall|by left]|]. cbn. rewrite ?He, Hst. split; [done|]. split; [done|].
    split; [by split; [|intros []]|]. cbn in *. lia.
  - split.
    { eapply Forall_impl; [exact Hd'|]. intros b [?|Hr]; [by left|right]. unfold reported in *. by rewrite He in Hr. }
    cbn. cbn in Ht.
    destruct (Z.ltb_spec 0 (files_synced r1)); (split; [by split|]); (split; [done|]); (split; [|lia]);
      split; try done; [intros [_ ?]; lia|intros _; split; [done|lia]].
Qed.

(** C40: when a synchronisation of the bootloaders returns, every essential bootloader is on the
    agent's disk or its failure is reported by name; the status is success exactly when nothing
    is reported, so that after a success all of them are on disk, and it is failed when only
    failures were counted. Every file but the bootloaders' own and their temporaries, every entry of another key, the
    set-up of the cache and the service's other state are as before. *)
Theorem bootloaders_synced_or_reported s r s' (Hl : locked (content_cache s) = false)
    (H : sync_bootloaders network clock s = (Ok r, s')) :
  Forall (fun b => on_disk s' b \/ reported "bootloaders" b r) ESSENTIAL_BOOTLOADERS
  /\ (status r = success <-> errors r = [])
  /\ (status r = success -> Forall (on_disk s') ESSENTIAL_BOOTLOADERS)
  /\ (status r = failed <-> errors r ≠ [] /\ files_synced r = 0%Z)
  /\ (0 <= files_synced r)%Z /\ (files_synced r + Z.of_nat (length (errors r)) <= 5)%Z
  /\ (forall q, Forall (fun b => q ≠ path_in (content_cache s) "bootloaders" b
                       /\ with_suffix ".tmp" (path_in (content_cache s) "bootloaders" b) ≠ Some q) ESSENTIAL_BOOTLOADERS ->
        files (content_cache s') !! q = files (content_cache s) !! q)
  /\ others_kept (_get_cache_key "bootloaders" <$> ESSENTIAL_BOOTLOADERS) (content_cache s) (content_cache s')
  /\ same_cache (content_cache s) (content_cache s') /\ rest s s'.
Proof.
  pose proof (sync_bootloaders_outcome s r s' Hl H) as (H1 & H2 & H3 & H4 & H5 & H6).
  apply sync_bootloaders_step in H as (r1 & s1 & d & Hs & _ & ->); [|done].
  do 6 (split; [done|]). split; [apply (ss_frame _ _ _ _ _ _ Hs)|]. split; [exact (ss_others _ _ _ _ _ _ Hs)|].
  split; [exact (ss_same _ _ _ _ _ _ Hs)|]. pose proof (ss_rest _ _ _ _ _ _ Hs) as Hr. unfold rest in *. by rewrite Hr.
Qed.

(** Once a synchronisation of the bootloaders has succeeded, the next one finds them all, whatever
    the network answers and however late it runs: it downloads and reports nothing, and the files
    stay as they are. *)
Theorem bootloader_sync_idempotent s r s' (Hl : locked (content_cache s) = false)
    (Hcat : categories (content_cache s) = DEFAULT_CATEGORIES) (HL : lasting (content_cache s))
    (H : sync_bootloaders network clock s = (Ok r, s')) (Hok : status r = success) :
  forall network' clock', exists d s'',
    sync_bootloaders network' clock' s' = (Ok (no_result <| duration_seconds := d |>), s'')
    /\ files (content_cache s'') = files (content_cache s').
Proof.
  intros network' clock'.
  apply sync_bootloaders_step in H as (r1 & s1 & d & Hs & -> & ->); [|done].
  assert (Forall (on_disk (s1 <| calls ::= S |>)) ESSENTIAL_BOOTLOADERS) as Hall.
  { eapply Forall_impl; [exact (ss_done _ _ _ _ _ _ Hs (bootloaders_apart _))|]. intros b.
    unfold on_disk, path_in. cbn. rewrite (sc_dir _ _ (ss_same _ _ _ _ _ _ Hs)). intros [?|(e & He & _)]; [done|].
    exfalso. revert Hok. unfold set_status. cbn. destruct (errors r1); [by apply not_elem_of_nil in He|].
    by destruct (0 <? _)%Z. }
  set (s0 := s1 <| calls ::= S |>). unfold sync_bootloaders.
  rewrite (bind_Ok _ _ s0 (clock' (calls s0)) (s0 <| calls ::= S |>)) by done.
  destruct (sync_all_cached network' clock' ESSENTIAL_BOOTLOADERS no_result (s0 <| calls ::= S |>)) as (s2 & E & F).
  - apply (ss_same _ _ _ _ _ _ Hs).
  - by apply (ss_lasting _ _ _ _ _ _ Hs).
  - exact Hall.
  - rewrite (bind_Ok _ _ _ _ _ E). do 2 eexists. split; [done|]. exact F.
Qed.
End Bootloaders.

(** ** A synchronisation that returns *)

(** A network whose failures are answers and [ClientError]s: no timeouts. *)
Definition calm (network : nat -> string -> reply) : Prop :=
  forall n url, match network n url with
                | Response _ body _ => body ≠ Err OtherError
                | NoReply f => f ≠ OtherError
                end.

Section Returns.
Context (network : nat -> string -> reply) (clock : nat -> Z) (py_text : json -> string) (Hcalm : calm network).

Lemma download_returns url s :
  _session s = true -> exists content, _download_file network url s = (Ok content, s <| calls ::= S |>).
Proof.
  intros Hs. unfold _download_file, fetch. unfold_M. rewrite Hs. pose proof (Hcalm (calls s) url) as H.
  destruct (network (calls s) url) as [code body d|f].
  - destruct (code =? 200)%Z; [|by eexists]. destruct body as [b|[e|]]; [by eexists..|done].
  - destruct f; [by eexists|done].
Qed.

(** What a run of the bootloaders needs. *)
Record ready (s : CacheSyncService) : Prop := {
  rd_free : locked (content_cache s) = false;
  rd_session : _session s = true;
  rd_categories : categories (content_cache s) = DEFAULT_CATEGORIES;
  rd_fixed : fixed (content_cache s)
}.

Lemma sync_file_returns path r s :
  ready s -> exists br s', _sync_file network clock "bootloaders" path r s = (Ok br, s').
Proof.
  intros [Hl Hs Hcat HF]. unfold _sync_file.
  rewrite (bind_Ok _ _ s (clock (calls s)) (s <| calls ::= S |>)) by done.
  destruct (get_outcome (clock (calls s)) "bootloaders" path (content_cache s) Hl) as (hit & c1 & Hget & Hg).
  set (s1 := s <| calls ::= S |> <| content_cache := c1 |>).
  rewrite (bind_Ok _ _ _ (Ok hit) s1) by (unfold on_cache; cbn; by rewrite Hget).
  cbn [uncaught]. rewrite (bind_Ok _ _ s1 hit s1) by done. destruct hit as [p|]; [by do 2 eexists|].
  rewrite (bind_Ok _ _ s1 s1 s1) by done.
  destruct (download_returns (file_url (central_url s1) "bootloaders" path) s1 Hs) as [content Hd].
  rewrite (bind_Ok _ _ _ _ _ Hd). destruct content as [content|]; [|by do 2 eexists].
  set (s2 := s1 <| calls ::= S |>). rewrite (bind_Ok _ _ s2 (clock (calls s2)) (s2 <| calls ::= S |>)) by done.
  pose proof (put_cases (clock (calls s2)) "bootloaders" path content c1 (sc_free _ _ (gs_same _ _ _ _ _ _ Hg))) as Hp.
  rewrite (fixed_not_evictable c1), andb_false_r in Hp by by apply Hg.
  unfold on_cache, mbind, M_bind. change (content_cache (s2 <| calls ::= S |>)) with c1.
  destruct (put _ _ _ _ _ _) as [[p|[m|]] c3]; [by do 2 eexists..|done].
Qed.

Lemma ready_step category path r s b r' s' :
  category = "bootloaders" -> file_step category path r s b r' s' -> ready s -> ready s'.
Proof.
  intros -> H [Hl Hs Hcat HF]. pose proof (fs_same _ _ _ _ _ _ _ H) as Hsame. constructor.
  - apply Hsame.
  - by rewrite (fs_rest _ _ _ _ _ _ _ H).
  - by rewrite (sc_categories _ _ Hsame).
  - by apply H.
Qed.

Lemma sync_all_returns paths r s :
  ready s -> exists r' s', sync_all network clock "bootloaders" paths r s = (Ok r', s').
Proof.
  revert r s. induction paths as [|p paths IH]; intros r s Hr; [by do 2 eexists|]. cbn [sync_all].
  destruct (sync_file_returns p r s Hr) as ([b r1] & s1 & E). rewrite (bind_Ok _ _ _ _ _ E).
  apply IH. eapply ready_step; [done|by apply (sync_file_ok network clock), E; apply Hr|done].
Qed.

(** Under the minimal policy, on a cache that holds nothing but bootloaders and a network without
    timeouts, a scheduled synchronisation returns and frees its lock, however full the cache is
    and whatever the controller answers. *)
Theorem minimal_sync_returns s (Hp : policy (content_cache s) = Minimal) (Hl : _sync_lock s = false) (Hr : ready s) :
  exists r s', run_scheduled_sync network clock py_text s = (Ok r, s') /\ _sync_lock s' = false
    /\ _last_sync_result s' = Some r.
Proof.
  unfold run_scheduled_sync, with_sync_lock. rewrite Hl. set (s0 := s <| _sync_lock := true |>).
  assert (exists r1 s1, sync_by_policy network clock py_text s0 = (Ok r1, s1)) as (r1 & s1 & E).
  { unfold sync_by_policy. rewrite (bind_Ok _ _ s0 s0 s0) by done. change (content_cache s0) with (content_cache s).
    rewrite Hp. unfold sync_bootloaders.
    rewrite (bind_Ok _ _ s0 (clock (calls s0)) (s0 <| calls ::= S |>)) by done.
    destruct (sync_all_returns ESSENTIAL_BOOTLOADERS no_result (s0 <| calls ::= S |>)) as (r1 & s1 & E);
      [by destruct Hr; constructor|].
    rewrite (bind_Ok _ _ _ _ _ E). by do 2 eexists. }
  rewrite (bind_Ok _ _ _ _ _ E). by do 2 eexists.
Qed.
End Returns.

(** ** An example *)

Definition sample_service (p : CachePolicy) : CacheSyncService :=
  (new_sync_service "http://central/" "site1" (new_cache "/var/cache" 1 p [] ∅ None)) <| _session := true |>.

(** The controller has every file but the GRUB configuration. *)
Definition sample_network (n : nat) (url : string) : reply :=
  if String.eqb url "http://central/tftp/grub/grub.cfg" then Response 404 (Ok []) (Ok JNull)
  else Response 200 (Ok [1; 2; 3]%Z) (Ok (JObj [])).
Definition full_network (n : nat) (url : string) : reply := Response 200 (Ok [1; 2; 3]%Z) (Ok (JObj [])).

Definition result_of {A} (dflt : A) (x : result sync_error A * CacheSyncService) : A :=
  match x.1 with Ok a => a | Err _ => dflt end.

Lemma result_of_ok {A} (dflt : A) x : is_ok x.1 = true -> x = (Ok (result_of dflt x), x.2).
Proof. by destruct x as [[a|e] s]. Qed.

Lemma bootloaders_synced_or_reported_witness :
  let x := sync_bootloaders sample_network Z.of_nat (sample_service Minimal) in
  let r := result_of no_result x in
  status r = partial /\ errors r = ["Failed to download: bootloaders/grub/grub.cfg"]
  /\ Forall (fun b => on_disk x.2 b \/ reported "bootloaders" b r) ESSENTIAL_BOOTLOADERS.
Proof.
  intros x r. split; [by vm_compute|]. split; [by vm_compute|].
  refine (proj1 (bootloaders_synced_or_reported sample_network Z.of_nat (sample_service Minimal) r x.2 eq_refl _)).
  apply result_of_ok. vm_compute. reflexivity.
Defined.

Lemma bootloader_sync_idempotent_witness :
  let x := sync_bootloaders full_network Z.of_nat (sample_service Mirror) in
  exists d s'', sync_bootloaders sample_network Z.of_nat x.2 = (Ok (no_result <| duration_seconds := d |>), s'')
    /\ files (content_cache s'') = files (content_cache x.2).
Proof.
  intros x.
  refine (bootloader_sync_idempotent full_network Z.of_nat (sample_service Mirror) (result_of no_result x) x.2
            eq_refl eq_refl _ _ _ sample_network Z.of_nat).
  - intros path e H. cbv in H. discriminate H.
  - apply result_of_ok. vm_compute. reflexivity.
  - vm_compute. reflexivity.
Defined.

Lemma scheduled_sync_frees_locks_witness :
  let '(r, s') := run_scheduled_sync sample_network Z.of_nat (fun _ => "") (sample_service Mirror) in
  r = Err Hangs \/ _sync_lock s' = false.
Proof.
  pose proof (scheduled_sync_frees_locks sample_network Z.of_nat (fun _ => "") (sample_service Mirror) eq_refl eq_refl) as H.
  destruct (run_scheduled_sync _ _ _ _) as [r s']. destruct H as [H|(H & _)]; [by left|by right].
Defined.

Lemma minimal_sync_returns_witness :
  exists r s', run_scheduled_sync sample_network Z.of_nat (fun _ => "") (sample_service Minimal) = (Ok r, s')
    /\ _sync_lock s' = false /\ _last_sync_result s' = Some r.
Proof.
  refine (minimal_sync_returns sample_network Z.of_nat (fun _ => "") _ (sample_service Minimal) eq_refl eq_refl _).
  - intros n url. unfold sample_network. by destruct (String.eqb _ _).
  - constructor; [done..|]. apply Forall_nil_2.
Defined.
