(* ===== verification/TemplateRecords.v ===== *)
(** * Template records and their versions

    [api/routes/templates.py]: the table of templates with unique names, and of
    their numbered versions.  The hash of a content and the order in which a set
    of names is listed in a message are parameters; foreign keys are not
    enforced (SQLite's default), the unique name, the primary keys and
    [NOT NULL] are. *)
From S2P Require Import Prelude PyStr SqlTable Controller Templates.
From stdpp Require Import base tactics list strings pretty.
From Stdlib Require Import Ascii ZArith Lia.
Open Scope string_scope.
#[local] Arguments String.append !_ _ : simpl nomatch.

(** ** Data *)

Record Template := {
  t_id : string;
  t_name : string;
  t_type : string;
  t_os_family : option string;
  t_os_name : option string;
  t_os_version : option string;
  t_architecture : string;
  t_file_path : option string;
  t_storage_backend_id : option string;
  t_size_bytes : option Z;
  t_checksum : option string;
  t_current_version_id : option string;
  t_description : option string
}.

Record TemplateVersion := {
  v_id : string;
  v_template_id : string;
  v_major : Z;
  v_minor : Z;
  v_content : string;
  v_content_hash : string;
  v_size_bytes : Z;
  v_commit_message : option string
}.

Record TemplateDB := {
  templates : list Template;
  versions : list TemplateVersion;
  backends : list StorageBackend
}.

Abbreviation TemplateM A := (M TemplateDB server_error A).

Record TemplateCreate := {
  tc_name : string;
  tc_type : string;
  tc_os_family : option string;
  tc_os_name : option string;
  tc_os_version : option string;
  tc_architecture : string;
  tc_file_path : option string;
  tc_storage_backend_id : option string;
  tc_size_bytes : option Z;
  tc_checksum : option string;
  tc_description : option string
}.

(** The outer [None] is a field that is not set. *)
Record TemplateUpdate := {
  tu_name : option (option string);
  tu_type : option (option string);
  tu_os_family : option (option string);
  tu_os_name : option (option string);
  tu_os_version : option (option string);
  tu_architecture : option (option string);
  tu_file_path : option (option string);
  tu_storage_backend_id : option (option string);
  tu_size_bytes : option (option Z);
  tu_checksum : option (option string);
  tu_description : option (option string)
}.

Definition VALID_TYPES : list string := ["iso"; "kickstart"; "preseed"; "autounattend"; "cloud-init"; "script"].
Definition VALID_OS_FAMILIES : list string := ["linux"; "windows"; "bsd"].
Definition VALID_ARCHITECTURES : list string := ["x86_64"; "aarch64"; "armv7l"].

(** ** Version strings *)

(** [TemplateVersion.version_string] *)
Definition version_string (v : TemplateVersion) : string := "v" ++ pretty (v_major v) ++ "." ++ pretty (v_minor v).

(** The end of the text, before a last newline as well, as [$] has it. *)
Definition at_end (s : string) : bool := String.eqb s "" || String.eqb s (String "010" EmptyString).

(** [^v?(\d+)(?:\.(\d+))?$] *)
Definition parse_version_string (version_str : string) : option (Z * Z) :=
  let s := match version_str with String "v" r => r | s => s end in
  let '(d, r) := span is_digit s in
  major ← digits_value d 0 false;
  if at_end r then Some (major, 0%Z)
  else match r with
       | String "." r' =>
           let '(d', e) := span is_digit r' in
           minor ← digits_value d' 0 false;
           if at_end e then Some (major, minor) else None
       | _ => None
       end.

(** [content.encode("utf-8")] *)
Definition utf8_char (c : ascii) : list Z :=
  let n := Z.of_nat (nat_of_ascii c) in
  if (n <? 128)%Z then [n] else [(192 + n / 64)%Z; (128 + n mod 64)%Z].
Definition utf8 (s : string) : list Z := concat (map utf8_char (String.list_ascii_of_string s)).

Section Handlers.
Context (sha256 : list Z -> string) (listed : list string -> string).

Definition compute_content_hash (content : string) : string := sha256 (utf8 content).

Definition get_tables : TemplateM TemplateDB := get_state.
Definition set_templates (f : list Template -> list Template) : TemplateM unit :=
  modify (fun d => d <| templates ::= f |>).

Definition one_or_none {R} (rows : list R) : TemplateM (option R) :=
  match rows with
  | [] => mret None
  | [r] => mret (Some r)
  | _ => raise MultipleResultsFound
  end.

Definition need_template (id : string) : TemplateM Template :=
  d ← get_tables;
  match sql_find t_id id (templates d) with
  | Some t => mret t
  | None => raise (HTTPException 404 "Template not found")
  end.

Definition one_of (l : list string) (s : string) : bool := existsb (String.eqb s) l.
Definition check (ok : bool) (status : Z) (detail : string) : TemplateM unit :=
  if ok then mret tt else raise (HTTPException status detail).

Definition bad_type : string := "Invalid template type. Must be one of: " ++ listed VALID_TYPES.
Definition bad_family : string := "Invalid OS family. Must be one of: " ++ listed VALID_OS_FAMILIES.
Definition bad_architecture : string := "Invalid architecture. Must be one of: " ++ listed VALID_ARCHITECTURES.

(** [if x and x not in valid] *)
Definition set_in (l : list string) (x : option string) : bool :=
  match x with Some s => String.eqb s "" || one_of l s | None => true end.

Definition check_name (name : string) : TemplateM unit :=
  d ← get_tables;
  existing ← one_or_none (sql_select (has_key t_name name) (templates d));
  match existing with
  | Some _ => raise (HTTPException 409 "Template with this name already exists")
  | None => mret tt
  end.

Definition check_backend (id : string) : TemplateM unit :=
  d ← get_tables;
  check (match sql_find sb_id id (backends d) with Some _ => true | None => false end) 404 "Storage backend not found".

(** *** Templates *)

Definition filter_by (x : option string) (col : Template -> option string) (t : Template) : bool :=
  match x with
  | Some s => if String.eqb s "" then true else bool_decide (col t = Some s)
  | None => true
  end.

Definition list_templates (type os_family os_name architecture : option string) : TemplateM (list Template) :=
  d ← get_tables;
  mret (order_by_text t_name (sql_select (fun t =>
    filter_by type (fun t => Some (t_type t)) t && filter_by os_family t_os_family t
    && filter_by os_name t_os_name t && filter_by architecture (fun t => Some (t_architecture t)) t) (templates d))).

Definition get_template (id : string) : TemplateM Template := need_template id.

Definition new_template (id : string) (r : TemplateCreate) : Template :=
  {| t_id := id; t_name := tc_name r; t_type := tc_type r; t_os_family := tc_os_family r; t_os_name := tc_os_name r;
     t_os_version := tc_os_version r; t_architecture := tc_architecture r; t_file_path := tc_file_path r;
     t_storage_backend_id := tc_storage_backend_id r; t_size_bytes := tc_size_bytes r; t_checksum := tc_checksum r;
     t_current_version_id := None; t_description := tc_description r |}.

(** [db.add(template)] and [db.flush()] *)
Definition insert_template (t : Template) : TemplateM unit :=
  d ← get_tables;
  match sql_insert t_id t (templates d) with
  | None => raise IntegrityError
  | Some l => if existsb (has_key t_name (t_name t)) (templates d) then raise IntegrityError
              else set_templates (fun _ => l)
  end.

Definition create_template (id : string) (r : TemplateCreate) : TemplateM Template :=
  check (one_of VALID_TYPES (tc_type r)) 400 bad_type;;
  check (set_in VALID_OS_FAMILIES (tc_os_family r)) 400 bad_family;;
  check (one_of VALID_ARCHITECTURES (tc_architecture r)) 400 bad_architecture;;
  check_name (tc_name r);;
  match tc_storage_backend_id r with
  | Some b => if String.eqb b "" then mret tt else check_backend b
  | None => mret tt
  end;;
  insert_template (new_template id r);;
  mret (new_template id r).

(** A set column that may not be null; [None] is the violation. *)
Definition set_required (x : option (option string)) (old : string) : option string :=
  match x with None => Some old | Some v => v end.

Definition apply_fields (u : TemplateUpdate) (t : Template) : option Template :=
  name ← set_required (tu_name u) (t_name t);
  type ← set_required (tu_type u) (t_type t);
  arch ← set_required (tu_architecture u) (t_architecture t);
  Some {| t_id := t_id t; t_name := name; t_type := type; t_os_family := default (t_os_family t) (tu_os_family u);
          t_os_name := default (t_os_name t) (tu_os_name u); t_os_version := default (t_os_version t) (tu_os_version u);
          t_architecture := arch; t_file_path := default (t_file_path t) (tu_file_path u);
          t_storage_backend_id := default (t_storage_backend_id t) (tu_storage_backend_id u);
          t_size_bytes := default (t_size_bytes t) (tu_size_bytes u); t_checksum := default (t_checksum t) (tu_checksum u);
          t_current_version_id := t_current_version_id t; t_description := default (t_description t) (tu_description u) |}.

(** [if data.x and data.x != template.x] *)
Definition changed (x : option (option string)) (old : option string) : option string :=
  match x with
  | Some (Some s) => if String.eqb s "" || bool_decide (Some s = old) then None else Some s
  | _ => None
  end.

Definition update_template (id : string) (u : TemplateUpdate) : TemplateM Template :=
  t ← need_template id;
  check (set_in VALID_TYPES (default None (tu_type u))) 400 bad_type;;
  check (set_in VALID_OS_FAMILIES (default None (tu_os_family u))) 400 bad_family;;
  check (set_in VALID_ARCHITECTURES (default None (tu_architecture u))) 400 bad_architecture;;
  match changed (tu_name u) (Some (t_name t)) with Some n => check_name n | None => mret tt end;;
  match changed (tu_storage_backend_id u) (t_storage_backend_id t) with Some b => check_backend b | None => mret tt end;;
  d ← get_tables;
  match apply_fields u t with
  | None => raise IntegrityError
  | Some t' =>
      if existsb (fun x => negb (has_key t_id id x) && has_key t_name (t_name t') x) (templates d) then raise IntegrityError
      else set_templates (fun l => (sql_update (has_key t_id id) (fun _ => t') l).1);; mret t'
  end.

(** The versions go with their template. *)
Definition delete_template (id : string) : TemplateM Template :=
  t ← need_template id;
  modify (fun d => d <| versions ::= fun l => (sql_delete (has_key v_template_id id) l).1 |>
                     <| templates ::= fun l => (sql_delete (has_key t_id id) l).1 |>);;
  mret t.

(** *** Versions *)

Definition ver_lt (v w : TemplateVersion) : bool :=
  (v_major v <? v_major w)%Z || (v_major v =? v_major w)%Z && (v_minor v <? v_minor w)%Z.

(** [max(versions, key=lambda v: (v.major, v.minor))]: the first of the largest. *)
Definition max_version (v : TemplateVersion) (vs : list TemplateVersion) : TemplateVersion :=
  fold_left (fun m w => if ver_lt m w then w else m) vs v.

Definition versions_of (id : string) (d : TemplateDB) : list TemplateVersion :=
  sql_select (has_key v_template_id id) (versions d).

Definition next_version (bump : string) (vs : list TemplateVersion) : Z * Z :=
  match vs with
  | [] => (1, 0)%Z
  | v :: vs =>
      let latest := max_version v vs in
      if String.eqb bump "major" then (v_major latest + 1, 0)%Z else (v_major latest, v_minor latest + 1)%Z
  end.

Definition create_template_version (vid id content : string) (commit_message : option string) (bump : string)
    : TemplateM TemplateVersion :=
  if (10000000 <? Z.of_nat (String.length content))%Z then raise ValidationError
  else
    need_template id;;
    check (one_of ["major"; "minor"] bump) 400 "Invalid bump type. Must be 'major' or 'minor'";;
    d ← get_tables;
    let '(major, minor) := next_version bump (versions_of id d) in
    let v := {| v_id := vid; v_template_id := id; v_major := major; v_minor := minor; v_content := content;
                v_content_hash := compute_content_hash content; v_size_bytes := Z.of_nat (length (utf8 content));
                v_commit_message := commit_message |} in
    match sql_insert v_id v (versions d) with
    | None => raise IntegrityError
    | Some l =>
        modify (fun d => d <| versions := l |>);;
        set_templates (fun l => (sql_update (has_key t_id id) (fun t => t <| t_current_version_id := Some vid |>) l).1);;
        mret v
    end.

(** The order of the listing: two stable sorts. *)
Definition list_template_versions (id : string) : TemplateM (list TemplateVersion) :=
  need_template id;;
  d ← get_tables;
  mret (order_by_desc v_major (order_by_desc v_minor (versions_of id d))).

Definition get_template_version (id version : string) : TemplateM TemplateVersion :=
  t ← need_template id;
  d ← get_tables;
  r ← (if String.eqb (lower version) "latest" then
         if is_set (t_current_version_id t)
         then mret (sql_find v_id (default "" (t_current_version_id t)) (versions d))
         else raise (HTTPException 404 "No versions available for this template")
       else
         match parse_version_string version with
         | None => raise (HTTPException 400 ("Invalid version format: " ++ version))
         | Some (major, minor) =>
             one_or_none (sql_select (fun v => (v_major v =? major)%Z && (v_minor v =? minor)%Z) (versions_of id d))
         end);
  match r with
  | Some v => mret v
  | None => raise (HTTPException 404 ("Version " ++ version ++ " not found for this template"))
  end.

(** *** Requests *)

Inductive template_request : Type :=
| CreateTemplate (id : string) (r : TemplateCreate)
| UpdateTemplate (id : string) (u : TemplateUpdate)
| DeleteTemplate (id : string)
| CreateVersion (vid id content : string) (commit_message : option string) (bump : string).

Definition handle_template (r : template_request) : TemplateM unit :=
  match r with
  | CreateTemplate id r => create_template id r;; mret tt
  | UpdateTemplate id u => update_template id u;; mret tt
  | DeleteTemplate id => delete_template id;; mret tt
  | CreateVersion vid id content commit bump => create_template_version vid id content commit bump;; mret tt
  end.

Definition run_templates (rs : list template_request) (d : TemplateDB) : TemplateDB :=
  fold_left (fun d r => (with_db (handle_template r) d).2) rs d.
End Handlers.

Example parse_1 : parse_version_string "v1.10" = Some (1, 10)%Z. Proof. reflexivity. Qed.
Example parse_2 : parse_version_string "3" = Some (3, 0)%Z. Proof. reflexivity. Qed.
Example parse_3 : parse_version_string "v1." = None. Proof. reflexivity. Qed.

(** ** Version numbers *)

Lemma ver_lt_spec v w :
  ver_lt v w = true <-> (v_major v < v_major w \/ v_major v = v_major w /\ v_minor v < v_minor w)%Z.
Proof. unfold ver_lt. rewrite orb_true_iff, andb_true_iff, !Z.ltb_lt, Z.eqb_eq. done. Qed.

Lemma ver_lt_false v w :
  ver_lt v w = false <-> (v_major w < v_major v \/ v_major w = v_major v /\ v_minor w <= v_minor v)%Z.
Proof. rewrite <- not_true_iff_false, ver_lt_spec. lia. Qed.

Lemma max_version_spec v vs :
  max_version v vs ∈ v :: vs /\ Forall (fun w => ver_lt (max_version v vs) w = false) (v :: vs).
Proof.
  unfold max_version. revert v. induction vs as [|w vs IH]; intros v; cbn [fold_left].
  { split; [by left|]. constructor; [apply ver_lt_false; lia|constructor]. }
  destruct (ver_lt v w) eqn:E.
  - destruct (IH w) as [H1 H2]. split; [by right|]. constructor; [|done].
    apply Forall_cons in H2 as [Hw _]. apply ver_lt_spec in E. apply ver_lt_false in Hw. apply ver_lt_false. lia.
  - destruct (IH v) as [H1 H2]. apply Forall_cons in H2 as [Hv H2]. split.
    + apply elem_of_cons in H1 as [->|H1]; [by left|by right; right].
    + constructor; [done|]. constructor; [|done]. apply ver_lt_false in E, Hv. apply ver_lt_false. lia.
Qed.

(** The next number is above every number there is. *)
Lemma next_version_above bump vs major minor v :
  next_version bump vs = (major, minor) -> v_major v = major -> v_minor v = minor ->
  Forall (fun w => ver_lt w v = true) vs.
Proof.
  intros H <- <-. destruct vs as [|w vs]; [constructor|]. cbn [next_version] in H.
  destruct (max_version_spec w vs) as [_ Hall]. eapply Forall_impl; [exact Hall|].
  intros x Hx%ver_lt_false. apply ver_lt_spec. destruct (String.eqb bump "major"); injection H as <- <-; lia.
Qed.

Lemma next_version_positive bump vs :
  Forall (fun w => (1 <= v_major w)%Z /\ (0 <= v_minor w)%Z) vs ->
  (1 <= (next_version bump vs).1)%Z /\ (0 <= (next_version bump vs).2)%Z.
Proof.
  intros H. destruct vs as [|w vs]; [done|]. cbn [next_version].
  destruct (max_version_spec w vs) as [Hin _]. rewrite Forall_forall in H. specialize (H _ Hin).
  destruct (String.eqb bump "major"); cbn; lia.
Qed.

(** ** The invariant *)

Definition current_ok (d : TemplateDB) (t : Template) : Prop :=
  match t_current_version_id t with
  | None => versions_of (t_id t) d = []
  | Some i => exists v, v ∈ versions_of (t_id t) d /\ v_id v = i
                /\ Forall (fun w => w = v \/ ver_lt w v = true) (versions_of (t_id t) d)
  end.

Record store_wf (d : TemplateDB) : Prop := {
  tw_ids : keys_unique t_id (templates d);
  tw_names : keys_unique t_name (templates d);
  tw_fields : Forall (fun t => set_in VALID_TYPES (Some (t_type t)) = true
                               /\ set_in VALID_ARCHITECTURES (Some (t_architecture t)) = true
                               /\ set_in VALID_OS_FAMILIES (t_os_family t) = true) (templates d);
  tw_vids : keys_unique v_id (versions d);
  tw_parents : Forall (fun v => v_template_id v ∈ t_id <$> templates d) (versions d);
  tw_numbers : Forall (fun v => (1 <= v_major v)%Z /\ (0 <= v_minor v)%Z) (versions d);
  tw_distinct : forall v w, v ∈ versions d -> w ∈ versions d -> v_template_id v = v_template_id w ->
                v = w \/ ver_lt v w = true \/ ver_lt w v = true;
  tw_current : Forall (current_ok d) (templates d)
}.

(** Code that raises nothing keeps the store well-formed. *)
Definition safe {A} (m : TemplateM A) : Prop := forall d a d', store_wf d -> m d = (Ok a, d') -> store_wf d'.

Lemma keeps_safe {A} (m : TemplateM A) : safe m -> keeps store_wf (with_db m).
Proof. intros Hm d Hd. unfold with_db. destruct (m d) as [[a|e] d'] eqn:E; [by eapply Hm|done]. Qed.

Lemma find_template id d t : sql_find t_id id (templates d) = Some t -> t ∈ templates d /\ t_id t = id.
Proof. apply sql_find_Some_1. Qed.

Lemma need_template_ok id d t d' :
  need_template id d = (Ok t, d') -> d' = d /\ t ∈ templates d /\ t_id t = id /\ sql_find t_id id (templates d) = Some t.
Proof.
  unfold need_template, get_tables. rewrite (bind_Ok _ _ d d d) by done.
  destruct (sql_find t_id id (templates d)) as [x|] eqn:E; [|done]. intros [= -> ->].
  destruct (sql_find_Some_1 _ _ _ _ E). done.
Qed.

Lemma check_ok b st s d u d' : check b st s d = (Ok u, d') -> b = true /\ d' = d.
Proof. unfold check. destruct b; [by intros [= _ <-]|done]. Qed.

Lemma check_name_ok n d u d' : check_name n d = (Ok u, d') -> d' = d /\ n ∉ t_name <$> templates d.
Proof.
  unfold check_name, get_tables. rewrite (bind_Ok _ _ d d d) by done.
  destruct (sql_select (has_key t_name n) (templates d)) as [|x [|y l]] eqn:E; cbn; [|done..].
  intros [= _ <-]. split; [done|]. intros (t & -> & Ht)%list_elem_of_fmap.
  assert (t ∈ sql_select (has_key t_name (t_name t)) (templates d)) as H
    by (apply elem_of_sql_select; split; [done|]; by apply has_key_true).
  rewrite E in H. by apply not_elem_of_nil in H.
Qed.

Lemma check_backend_ok b d u d' : check_backend b d = (Ok u, d') -> d' = d.
Proof. unfold check_backend, get_tables. rewrite (bind_Ok _ _ d d d) by done. by intros [_ ->]%check_ok. Qed.

(** *** Steps that keep it *)

Lemma versions_of_nil id d : store_wf d -> id ∉ t_id <$> templates d -> versions_of id d = [].
Proof.
  intros Hd Hid. destruct (versions_of id d) as [|v l] eqn:E; [done|]. destruct Hid.
  assert (v ∈ versions_of id d) as [Hv Hk]%elem_of_sql_select by (rewrite E; by left).
  apply has_key_true in Hk as <-. pose proof (tw_parents _ Hd) as H. rewrite Forall_forall in H. by apply H.
Qed.

Lemma wf_insert d t l :
  store_wf d -> sql_insert t_id t (templates d) = Some l -> t_name t ∉ t_name <$> templates d ->
  t_current_version_id t = None ->
  set_in VALID_TYPES (Some (t_type t)) = true -> set_in VALID_ARCHITECTURES (Some (t_architecture t)) = true ->
  set_in VALID_OS_FAMILIES (t_os_family t) = true -> store_wf (d <| templates := l |>).
Proof.
  intros Hd Hins Hname Hcur H1 H2 H3. pose proof (keys_unique_insert t_id _ _ _ (tw_ids _ Hd) Hins) as Hids.
  unfold sql_insert in Hins. destruct (sql_find t_id (t_id t) (templates d)) eqn:E; [done|].
  injection Hins as <-. apply sql_find_None in E. constructor; cbn; try apply Hd; try done.
  - unfold keys_unique. rewrite fmap_app, NoDup_app. split; [apply Hd|]. split; [|apply NoDup_singleton].
    by intros x Hx ->%list_elem_of_singleton.
  - apply Forall_app. split; [apply Hd|]. by apply Forall_singleton.
  - eapply Forall_impl; [apply Hd|]. intros v. cbn. rewrite fmap_app, elem_of_app. by left.
  - apply Forall_app. split; [apply Hd|]. apply Forall_singleton. unfold current_ok. rewrite Hcur.
    by apply (versions_of_nil (t_id t) d).
Qed.

Lemma elem_of_existsb {R} (key : R -> string) k (t : list R) :
  existsb (has_key key k) t = false -> k ∉ key <$> t.
Proof.
  intros H (r & -> & Hr)%list_elem_of_fmap. apply not_true_iff_false in H. apply H, existsb_exists.
  exists r. split; [by apply list_elem_of_In|]. by apply has_key_true.
Qed.

Lemma create_template_safe listed id r : safe (create_template listed id r).
Proof.
  intros d a d' Hd. unfold create_template.
  step_M u1 d1 H1. apply check_ok in H1 as [Htype ->]. step_M u2 d2 H2. apply check_ok in H2 as [Hfam ->].
  step_M u3 d3 H3. apply check_ok in H3 as [Harch ->]. step_M u4 d4 H4. apply check_name_ok in H4 as [-> Hname].
  step_M u5 d5 H5. assert (d5 = d) as ->.
  { destruct (tc_storage_backend_id r) as [b|]; [destruct (String.eqb b "")|];
      by (apply check_backend_ok in H5 || injection H5). }
  step_M u6 d6 H6. intros [= _ <-]. revert H6. unfold insert_template, get_tables.
  rewrite (bind_Ok _ _ d d d) by done. destruct (sql_insert t_id _ _) as [l|] eqn:E; [|done].
  destruct (existsb _ _); [done|]. intros [= _ <-].
  apply (wf_insert d (new_template id r) l); try done.
  - change (String.eqb (tc_type r) "" || one_of VALID_TYPES (tc_type r) = true). by rewrite Htype, orb_true_r.
  - change (String.eqb (tc_architecture r) "" || one_of VALID_ARCHITECTURES (tc_architecture r) = true).
    by rewrite Harch, orb_true_r.
Qed.

Lemma apply_fields_ok u t t' :
  apply_fields u t = Some t' ->
  t_id t' = t_id t /\ t_current_version_id t' = t_current_version_id t
  /\ t_os_family t' = default (t_os_family t) (tu_os_family u)
  /\ (t_type t' = t_type t \/ tu_type u = Some (Some (t_type t')))
  /\ (t_architecture t' = t_architecture t \/ tu_architecture u = Some (Some (t_architecture t'))).
Proof.
  unfold apply_fields, set_required.
  destruct (tu_name u) as [[n|]|], (tu_type u) as [[ty|]|], (tu_architecture u) as [[ar|]|]; cbn; try done;
    intros [= <-]; cbn; auto 10.
Qed.

Lemma wf_update_row d t t' :
  store_wf d -> t ∈ templates d -> t_id t' = t_id t -> t_current_version_id t' = t_current_version_id t ->
  existsb (fun x => negb (has_key t_id (t_id t) x) && has_key t_name (t_name t') x) (templates d) = false ->
  set_in VALID_TYPES (Some (t_type t')) = true /\ set_in VALID_ARCHITECTURES (Some (t_architecture t')) = true
    /\ set_in VALID_OS_FAMILIES (t_os_family t') = true ->
  store_wf {| templates := (sql_update (has_key t_id (t_id t)) (fun _ => t') (templates d)).1; versions := versions d;
              backends := backends d |}.
Proof.
  intros Hd Hin Hid Hcur Hex Hfields. pose proof (tw_ids _ Hd) as Hu.
  assert (t_id <$> (sql_update (has_key t_id (t_id t)) (fun _ => t') (templates d)).1 = t_id <$> templates d) as Hids.
  { by apply update_row_keys. }
  constructor; cbn [templates versions]; try apply Hd.
  - unfold keys_unique. by rewrite Hids.
  - by apply unique_update; [..|apply Hd| | |].
  - apply Forall_forall. intros x (y & Hy & ->)%elem_of_update. pose proof (tw_fields _ Hd) as H.
    rewrite Forall_forall in H. destruct (has_key _ _ y); [apply Hfields|by apply H].
  - eapply Forall_impl; [apply Hd|]. intros v. cbn beta. by rewrite Hids.
  - apply Forall_forall. intros x (y & Hy & ->)%elem_of_update. pose proof (tw_current _ Hd) as H.
    rewrite Forall_forall in H. destruct (has_key t_id (t_id t) y) eqn:E; [|by apply H].
    specialize (H _ Hin). unfold current_ok in *. by rewrite Hid, Hcur.
Qed.

Lemma update_template_safe listed id u : safe (update_template listed id u).
Proof.
  intros d a d' Hd. unfold update_template. step_M t d0 H0. apply need_template_ok in H0 as (-> & Hin & <- & _).
  step_M u1 d1 H1. apply check_ok in H1 as [Htype ->]. step_M u2 d2 H2. apply check_ok in H2 as [Hfam ->].
  step_M u3 d3 H3. apply check_ok in H3 as [Harch ->]. step_M u4 d4 H4.
  assert (d4 = d) as -> by (destruct (changed _ _); [by apply check_name_ok in H4 as [-> _]|by injection H4]).
  step_M u5 d5 H5.
  assert (d5 = d) as -> by (destruct (changed (tu_storage_backend_id u) _); [by apply check_backend_ok in H5|by injection H5]).
  unfold get_tables. rewrite (bind_Ok _ _ d d d) by done.
  destruct (apply_fields u t) as [t'|] eqn:E; [|done]. apply apply_fields_ok in E as (Hid & Hcur & Hf & Ht & Ha).
  destruct (existsb _ _) eqn:Hex; [done|]. unfold_M. cbn. intros [= _ <-].
  apply wf_update_row; try done. pose proof (tw_fields _ Hd) as H. rewrite Forall_forall in H.
  destruct (H _ Hin) as (Hot & Hoa & Hof). split; [|split].
  - destruct Ht as [->|Ht]; [done|]. by rewrite Ht in Htype.
  - destruct Ha as [->|Ha]; [done|]. by rewrite Ha in Harch.
  - rewrite Hf. by destruct (tu_os_family u).
Qed.

Lemma delete_template_safe id : safe (delete_template id).
Proof.
  intros d a d' Hd. unfold delete_template. step_M t d0 H0. apply need_template_ok in H0 as (-> & Hin & <- & _).
  unfold_M. intros [= _ <-]. constructor; cbn [templates versions].
  - by apply keys_unique_delete, Hd.
  - apply (keys_unique_sublist t_name _ (templates d)); [apply filter_sublist|apply Hd].
  - apply Forall_forall. intros x [Hx _]%elem_of_delete. pose proof (tw_fields _ Hd) as H. rewrite Forall_forall in H. by apply H.
  - by apply keys_unique_delete, Hd.
  - apply Forall_forall. intros v [Hv Hne]%elem_of_delete. apply has_key_false in Hne.
    pose proof (tw_parents _ Hd) as H. rewrite Forall_forall in H. specialize (H _ Hv).
    apply list_elem_of_fmap in H as (t' & Ht' & Hin'). rewrite Ht'. apply list_elem_of_fmap_2, elem_of_delete.
    split; [done|]. apply has_key_false. congruence.
  - apply Forall_forall. intros v [Hv _]%elem_of_delete. pose proof (tw_numbers _ Hd) as H. rewrite Forall_forall in H. by apply H.
  - intros v w [Hv _]%elem_of_delete [Hw _]%elem_of_delete. by apply Hd.
  - apply Forall_forall. intros x [Hx Hne]%elem_of_delete. apply has_key_false in Hne.
    pose proof (tw_current _ Hd) as H. rewrite Forall_forall in H. specialize (H _ Hx).
    assert (forall d1, versions d1 = (sql_delete (has_key v_template_id (t_id t)) (versions d)).1 ->
              versions_of (t_id x) d1 = versions_of (t_id x) d) as Hv.
    { intros d1 E. unfold versions_of, sql_select. rewrite E. cbn. clear -Hne.
      induction (versions d) as [|v l IH]; [done|]. cbn.
      destruct (has_key v_template_id (t_id t) v) eqn:E1; cbn; rewrite IH; [|done].
      apply has_key_true in E1. by rewrite (proj2 (has_key_false v_template_id _ _)) by congruence. }
    unfold current_ok. by rewrite Hv.
Qed.

(** The store after a version was added to a template. *)
Definition with_version (v : TemplateVersion) (d : TemplateDB) : TemplateDB :=
  {| templates := (sql_update (has_key t_id (v_template_id v)) (fun t => t <| t_current_version_id := Some (v_id v) |>) (templates d)).1;
     versions := (versions d ++ [v])%list; backends := backends d |}.

Lemma create_version_ok sha256 vid id content commit bump d v d' :
  create_template_version sha256 vid id content commit bump d = (Ok v, d') ->
  v_id v = vid /\ v_template_id v = id /\ v_content v = content /\ v_content_hash v = compute_content_hash sha256 content
  /\ v_commit_message v = commit
  /\ next_version bump (versions_of id d) = (v_major v, v_minor v)
  /\ (id ∈ t_id <$> templates d) /\ (vid ∉ v_id <$> versions d) /\ d' = with_version v d.
Proof.
  unfold create_template_version. destruct (_ <? _)%Z; [done|].
  step_M t d0 H0. apply need_template_ok in H0 as (-> & Hin & <- & _).
  step_M u1 d1 H1. apply check_ok in H1 as [_ ->]. unfold get_tables. rewrite (bind_Ok _ _ d d d) by done.
  destruct (next_version bump _) as [major minor] eqn:E. unfold sql_insert.
  destruct (sql_find v_id _ (versions d)) eqn:Ev; [done|]. unfold_M. intros [= <- <-].
  apply sql_find_None in Ev. cbn in *. split; [done|]. do 5 (split; [done|]).
  split; [by apply list_elem_of_fmap_2|]. done.
Qed.

Lemma versions_of_snoc id v d ts bs :
  versions_of id {| templates := ts; versions := (versions d ++ [v])%list; backends := bs |}
  = if String.eqb (v_template_id v) id then (versions_of id d ++ [v])%list else versions_of id d.
Proof.
  unfold versions_of, sql_select. cbn [versions]. rewrite List.filter_app. cbn [List.filter].
  unfold has_key at 2. destruct (String.eqb _ _); [done|]. apply app_nil_r.
Qed.

Lemma wf_with_version bump v d :
  store_wf d -> next_version bump (versions_of (v_template_id v) d) = (v_major v, v_minor v) ->
  v_template_id v ∈ t_id <$> templates d -> v_id v ∉ v_id <$> versions d -> store_wf (with_version v d).
Proof.
  intros Hd Hn Hin Hvid. pose proof (next_version_above _ _ _ _ v Hn eq_refl eq_refl) as Habove.
  pose proof (next_version_positive bump (versions_of (v_template_id v) d)) as Hpos. rewrite Hn in Hpos.
  assert (forall {A} (col : Template -> A), (forall t i, col (t <| t_current_version_id := i |>) = col t) ->
     col <$> (templates (with_version v d)) = col <$> templates d) as Hcol.
  { intros A col Hc. cbn. clear -Hc. induction (templates d) as [|t l IH]; [done|]. cbn. rewrite IH. f_equal.
    by destruct (has_key _ _ t); [apply Hc|]. }
  constructor.
  - unfold keys_unique. rewrite (Hcol _ t_id) by done. apply Hd.
  - unfold keys_unique. rewrite (Hcol _ t_name) by done. apply Hd.
  - apply Forall_forall. intros x (y & Hy & ->)%elem_of_update. pose proof (tw_fields _ Hd) as H.
    rewrite Forall_forall in H. specialize (H _ Hy). by destruct (has_key _ _ y).
  - unfold keys_unique. cbn. rewrite fmap_app, NoDup_app. split; [apply Hd|]. split; [|apply NoDup_singleton].
    by intros x Hx ->%list_elem_of_singleton.
  - rewrite (Hcol _ t_id) by done. apply Forall_app. split; [apply Hd|]. by apply Forall_singleton.
  - apply Forall_app. split; [apply Hd|]. apply Forall_singleton, Hpos.
    apply Forall_forall. intros w [Hw _]%elem_of_sql_select. pose proof (tw_numbers _ Hd) as H. rewrite Forall_forall in H. by apply H.
  - assert (forall w, w ∈ versions d -> v_template_id w = v_template_id v -> ver_lt w v = true) as Hlt.
    { intros w Hw Hid. rewrite Forall_forall in Habove. apply Habove, elem_of_sql_select.
      split; [done|]. by apply has_key_true. }
    intros w1 w2 [H1|H1%list_elem_of_singleton]%elem_of_app [H2|H2%list_elem_of_singleton]%elem_of_app Heq;
      subst; auto. by apply Hd.
  - apply Forall_forall. intros x (t & Ht & ->)%elem_of_update. pose proof (tw_current _ Hd) as H.
    rewrite Forall_forall in H. specialize (H _ Ht). unfold current_ok, with_version.
    destruct (has_key t_id (v_template_id v) t) eqn:E.
    + apply has_key_true in E. cbn -[versions_of sql_update]. rewrite E, versions_of_snoc, String.eqb_refl. exists v.
      split; [apply elem_of_app; right; by left|]. split; [done|]. apply Forall_app. split.
      * eapply Forall_impl; [exact Habove|]. by right.
      * apply Forall_singleton. by left.
    + apply has_key_false in E. rewrite versions_of_snoc, (proj2 (String.eqb_neq _ _)) by congruence. exact H.
Qed.

Lemma create_version_safe sha256 vid id content commit bump :
  safe (create_template_version sha256 vid id content commit bump).
Proof.
  intros d v d' Hd (H1 & H2 & _ & _ & _ & Hn & Hin & Hvid & ->)%create_version_ok.
  subst. by apply (wf_with_version bump).
Qed.

Lemma serve_template_wf sha256 listed r : keeps store_wf (with_db (handle_template sha256 listed r)).
Proof.
  apply keeps_safe. intros d [] d' Hd. destruct r as [id r|id u|id|vid id content commit bump]; cbn [handle_template];
    (step_M a d1 H; intros [= <-]; revert Hd H);
    [apply create_template_safe|apply update_template_safe|apply delete_template_safe|apply create_version_safe].
Qed.

(** The template store stays well-formed over any requests, those that fail included: identifiers and
    names are unique, types and architectures are known ones or empty, every version belongs to a
    template and has a number of its own from v1.0 on, and each template's current version is the
    one with the greatest number, or none when there are no versions. *)
Theorem template_store_well_formed sha256 listed rs d :
  store_wf d -> store_wf (run_templates sha256 listed rs d).
Proof.
  unfold run_templates. revert d. induction rs as [|r rs IH]; intros d Hd; [done|]. apply IH.
  by apply serve_template_wf.
Qed.

(** ** Reading versions back *)

Lemma singleton_of {A} (l : list A) (x : A) : NoDup l -> (forall y, y ∈ l <-> y = x) -> l = [x].
Proof.
  intros Hnd Hall. destruct l as [|a [|b l]].
  - by destruct (not_elem_of_nil x); apply Hall.
  - f_equal. apply Hall. by left.
  - apply NoDup_cons in Hnd as [Ha _]. destruct Ha. rewrite (proj1 (Hall a)), (proj1 (Hall b)); [|right|]; by left.
Qed.

Lemma pretty_digits z : (0 <= z)%Z -> str_forall is_digit (pretty z) = true.
Proof.
  intros Hz. destruct z as [|p|p]; [done| |lia]. change (pretty (Zpos p)) with (pretty_N_go (Npos p) "").
  apply pretty_N_go_forall; [|done]. intros n. unfold pretty_N_char. by repeat case_match.
Qed.

(** What [version_string] prints, [parse_version_string] reads. *)
Lemma parse_version_string_roundtrip v :
  (0 <= v_major v)%Z -> (0 <= v_minor v)%Z -> parse_version_string (version_string v) = Some (v_major v, v_minor v).
Proof.
  intros Hmaj Hmin. unfold parse_version_string, version_string. cbn [String.append].
  rewrite span_stop by (by apply pretty_digits || done). rewrite digits_value_pretty by done. cbn.
  by rewrite span_all, digits_value_pretty by (by apply pretty_digits || done).
Qed.

Lemma get_numbered_version d v :
  store_wf d -> v ∈ versions d ->
  get_template_version (v_template_id v) (version_string v) d = (Ok v, d).
Proof.
  intros Hd Hv. pose proof (tw_parents _ Hd) as Hp. rewrite Forall_forall in Hp.
  specialize (Hp _ Hv). apply list_elem_of_fmap in Hp as (t & Ht & Hin).
  pose proof (tw_numbers _ Hd) as Hn. rewrite Forall_forall in Hn. destruct (Hn _ Hv) as [Hmaj Hmin].
  unfold get_template_version, need_template, get_tables.
  rewrite (bind_Ok _ _ d t d) by (rewrite (bind_Ok _ _ d d d) by done; by rewrite (sql_find_Some _ _ _ t (tw_ids _ Hd) Hin)).
  rewrite (bind_Ok _ _ d d d) by done.
  replace (String.eqb (lower (version_string v)) "latest") with false by done.
  rewrite parse_version_string_roundtrip by lia.
  rewrite (singleton_of _ v); [done|..].
  - do 2 (eapply sublist_NoDup; [|apply filter_sublist]). eapply NoDup_fmap_1, Hd.
  - intros w. rewrite elem_of_sql_select. unfold versions_of. rewrite elem_of_sql_select, has_key_true.
    rewrite andb_true_iff, !Z.eqb_eq. split; [|intros ->; by auto].
    intros [[Hw Hid] [H1 H2]]. destruct (tw_distinct _ Hd w v Hw Hv Hid) as [|[H|H]]; [done|..];
      apply ver_lt_spec in H; lia.
Qed.

Lemma get_latest_version d t i v :
  store_wf d -> t ∈ templates d -> t_current_version_id t = Some i -> i ≠ "" -> v ∈ versions d -> v_id v = i ->
  get_template_version (t_id t) "latest" d = (Ok v, d).
Proof.
  intros Hd Hin Hcur Hi Hv Hid. unfold get_template_version, need_template, get_tables.
  rewrite (bind_Ok _ _ d t d) by (rewrite (bind_Ok _ _ d d d) by done; by rewrite (sql_find_Some _ _ _ t (tw_ids _ Hd) Hin)).
  rewrite (bind_Ok _ _ d d d) by done. rewrite Hcur. cbn. rewrite (proj2 (String.eqb_neq _ _) Hi). cbn.
  rewrite (sql_find_Some v_id (versions d) i v (tw_vids _ Hd) Hv Hid). done.
Qed.

(** A version that was created is the current one at once: it is read back as the latest and under its
    own number, its content is what was sent, its number is above those of all other versions of
    the template and follows the bump, and these are read back under their numbers as before. *)
Theorem created_version_is_current sha256 vid id content commit bump d v d'
    (Hd : store_wf d) (Hvid : vid ≠ "")
    (H : create_template_version sha256 vid id content commit bump d = (Ok v, d')) :
  v_content v = content
  /\ get_template_version id "latest" d' = (Ok v, d')
  /\ get_template_version id (version_string v) d' = (Ok v, d')
  /\ Forall (fun w => ver_lt w v = true /\ get_template_version id (version_string w) d' = (Ok w, d')) (versions_of id d)
  /\ (versions_of id d = [] -> version_string v = "v1.0")
  /\ (forall w, w ∈ versions_of id d -> (forall w', w' ∈ versions_of id d -> ver_lt w w' = false) ->
        (v_major v, v_minor v)
        = if String.eqb bump "major" then (v_major w + 1, 0)%Z else (v_major w, v_minor w + 1)%Z).
Proof.
  pose proof (create_version_safe _ _ _ _ _ _ d v d' Hd H) as Hd'.
  apply create_version_ok in H as (<- & <- & <- & _ & _ & Hn & Hin & Hnew & ->).
  split; [done|]. set (d' := with_version v d) in *.
  assert (v ∈ versions d') as Hv by (apply elem_of_app; right; by left).
  split.
  { apply list_elem_of_fmap in Hin as (t & Ht & Hin). rewrite Ht.
    refine (get_latest_version d' (t <| t_current_version_id := Some (v_id v) |>) (v_id v) v Hd' _ eq_refl Hvid Hv eq_refl).
    apply elem_of_update. exists t. split; [done|]. by rewrite Ht, (proj2 (has_key_true t_id _ _)). }
  split; [by apply get_numbered_version|]. split; [|split].
  - pose proof (next_version_above _ _ _ _ v Hn eq_refl eq_refl) as Habove.
    apply Forall_forall. intros w Hw. rewrite Forall_forall in Habove. split; [by apply Habove|].
    apply elem_of_sql_select in Hw as [Hw <-%has_key_true]. apply get_numbered_version; [done|].
    apply elem_of_app. by left.
  - intros Hnil. rewrite Hnil in Hn. injection Hn as Hmaj Hmin. unfold version_string. by rewrite <- Hmaj, <- Hmin.
  - intros w Hw Hmax. rewrite <- Hn. destruct (versions_of (v_template_id v) d) as [|x l] eqn:E; [by apply not_elem_of_nil in Hw|].
    cbn [next_version]. destruct (max_version_spec x l) as [Hm Hge]. rewrite Forall_forall in Hge.
    pose proof (Hmax _ Hm) as H1%ver_lt_false. pose proof (Hge _ Hw) as H2%ver_lt_false.
    assert (v_major (max_version x l) = v_major w /\ v_minor (max_version x l) = v_minor w) as [-> ->] by lia. done.
Qed.

(** ** An example *)

Definition sample_create : TemplateCreate :=
  {| tc_name := "ubuntu"; tc_type := "preseed"; tc_os_family := Some "linux"; tc_os_name := None; tc_os_version := None;
     tc_architecture := "x86_64"; tc_file_path := None; tc_storage_backend_id := None; tc_size_bytes := None;
     tc_checksum := None; tc_description := None |}.
Definition no_templates : TemplateDB := {| templates := []; versions := []; backends := [] |}.
Definition sample_store : TemplateDB :=
  run_templates (fun _ => "hash") (PyStr.join ", ") [CreateTemplate "t1" sample_create; CreateTemplate "t2" sample_create;
    CreateVersion "v1" "t1" "one" None "minor"; CreateVersion "v2" "t1" "two" None "minor"] no_templates.

Lemma no_templates_wf : store_wf no_templates.
Proof. constructor; try (by constructor). intros v w Hv. by apply not_elem_of_nil in Hv. Qed.

Lemma sample_store_wf : store_wf sample_store.
Proof. repeat (apply serve_template_wf). apply no_templates_wf. Qed.

Lemma template_store_well_formed_witness :
  store_wf sample_store /\ map t_id (templates sample_store) = ["t1"]
  /\ map version_string (versions sample_store) = ["v1.0"; "v1.1"].
Proof.
  split; [|split; by vm_compute].
  exact (template_store_well_formed _ _ _ _ no_templates_wf).
Defined.

Lemma created_version_is_current_witness :
  let x := create_template_version (fun _ => "hash") "v3" "t1" "three" None "major" sample_store in
  exists v, x.1 = Ok v /\ version_string v = "v2.0" /\ get_template_version "t1" "latest" x.2 = (Ok v, x.2).
Proof.
  intros x. assert (exists v, x = (Ok v, x.2) /\ version_string v = "v2.0") as (v & E & Hv)
    by (eexists; split; vm_compute; reflexivity).
  exists v. split; [by rewrite E|]. split; [done|].
  exact (proj1 (proj2 (created_version_is_current (fun _ => "hash") "v3" "t1" "three" None "major" sample_store v x.2
    sample_store_wf ltac:(done) E))).
Defined.
