(* ===== verification/Sites.v ===== *)
(** * Sites and their agents

    [api/routes/sites.py] and [api/routes/agents.py].  A site is a row of the
    device groups with [is_site]; the table is held in two parts with the same
    keys, the columns every group has (the [GroupDB] of Groups) and the columns
    of sites, present exactly when [is_site] is true.  The hash of a token is a
    parameter, as are the token and the time. *)
From S2P Require Import Prelude PyStr SqlTable Controller Health Groups.
From stdpp Require Import base tactics list strings pretty relations.
From Stdlib Require Import Ascii ZArith Lia.
Open Scope string_scope.
#[local] Arguments String.append !_ _ : simpl nomatch.

(** ** Data *)

Record SiteCols := {
  s_agent_url : option string;
  s_agent_token_hash : option string;
  s_agent_status : option string;
  s_agent_last_seen : option Z;
  s_autonomy_level : option string;
  s_conflict_resolution : option string;
  s_cache_policy : option string;
  s_cache_patterns_json : option string;
  s_cache_max_size_gb : option Z;
  s_cache_retention_days : option Z;
  s_discovery_method : option string;
  s_discovery_config_json : option string;
  s_migration_policy : option string
}.

Record SiteDB := {
  tree : GroupDB;
  sites : list (string * SiteCols);
  home_sites : list (string * string);       (* a node and its [home_site_id] *)
  sync_states : list string;                 (* the [site_id]s *)
  sync_conflicts : list (string * bool)      (* [site_id] and whether it is resolved *)
}.

Abbreviation SiteM A := (M SiteDB group_error A).

Definition AUTONOMY_LEVELS : list string := ["readonly"; "limited"; "full"].
Definition CONFLICT_RESOLUTIONS : list string := ["central_wins"; "last_write"; "site_wins"; "manual"].
Definition CACHE_POLICIES : list string := ["minimal"; "assigned"; "mirror"; "pattern"].
Definition DISCOVERY_METHODS : list string := ["dhcp"; "dns"; "anycast"; "fallback"].
Definition MIGRATION_POLICIES : list string := ["manual"; "auto_accept"; "auto_release"; "bidirectional"].

Record SiteCreate := {
  sc_name : string;
  sc_description : option string;
  sc_parent_id : option string;
  sc_agent_url : option string;
  sc_autonomy_level : string;
  sc_conflict_resolution : string;
  sc_cache_policy : string;
  sc_cache_patterns_json : option string;
  sc_cache_max_size_gb : option Z;
  sc_cache_retention_days : Z;
  sc_discovery_method : string;
  sc_discovery_config_json : option string;
  sc_migration_policy : string
}.

(** The outer [None] is a field that is not set. *)
Record SiteUpdate := {
  su_name : option (option string);
  su_description : option (option string);
  su_parent_id : option (option string);
  su_agent_url : option (option string);
  su_autonomy_level : option (option string);
  su_conflict_resolution : option (option string);
  su_cache_policy : option (option string);
  su_cache_patterns_json : option (option string);
  su_cache_max_size_gb : option (option Z);
  su_cache_retention_days : option (option Z);
  su_discovery_method : option (option string);
  su_discovery_config_json : option (option string);
  su_migration_policy : option (option string)
}.

Definition one_of (l : list string) (s : string) : bool := existsb (String.eqb s) l.
Definition at_least_1 (x : option Z) : bool := match x with Some z => (1 <=? z)%Z | None => true end.
Definition none_or (l : list string) (x : option string) : bool :=
  match x with Some s => one_of l s | None => true end.

Definition site_create_valid (c : SiteCreate) : bool :=
  validate_name (sc_name c) && one_of AUTONOMY_LEVELS (sc_autonomy_level c)
  && one_of CONFLICT_RESOLUTIONS (sc_conflict_resolution c) && one_of CACHE_POLICIES (sc_cache_policy c)
  && one_of DISCOVERY_METHODS (sc_discovery_method c) && one_of MIGRATION_POLICIES (sc_migration_policy c)
  && at_least_1 (sc_cache_max_size_gb c) && (1 <=? sc_cache_retention_days c)%Z.

Definition site_update_valid (u : SiteUpdate) : bool :=
  none_or AUTONOMY_LEVELS (default None (su_autonomy_level u))
  && none_or CONFLICT_RESOLUTIONS (default None (su_conflict_resolution u))
  && none_or CACHE_POLICIES (default None (su_cache_policy u))
  && none_or DISCOVERY_METHODS (default None (su_discovery_method u))
  && none_or MIGRATION_POLICIES (default None (su_migration_policy u))
  && at_least_1 (default None (su_cache_max_size_gb u)) && at_least_1 (default None (su_cache_retention_days u)).

(** ** Handlers *)

Section Handlers.
Context (like : string -> string -> bool) (sha256 : string -> string).

Definition on_tree {A} (m : GroupM A) : SiteM A :=
  fun s => let '(r, d) := m (tree s) in (r, s <| tree := d |>).

Definition is_site (s : SiteDB) (id : string) : bool :=
  match assoc_get id (sites s) with Some _ => true | None => false end.

(** [select(DeviceGroup).where(id == ..., is_site == True)] with the handlers' 404. *)
Definition need_site (id : string) : SiteM (DeviceGroup * SiteCols) :=
  s ← get_state;
  match sql_find g_id id (groups (tree s)), assoc_get id (sites s) with
  | Some g, Some c => mret (g, c)
  | _, _ => raise (HTTPException 404 "Site not found")
  end.

Definition set_cols (id : string) (f : SiteCols -> SiteCols) : SiteM unit :=
  modify (fun s => s <| sites ::= map (fun kv => if String.eqb id kv.1 then (kv.1, f kv.2) else kv) |>).

(** *** Settings *)

Definition compute_effective_site_settings (fuel : nat) (site : DeviceGroup) (t : list DeviceGroup)
    : option (option string * bool) :=
  '(wf, auto) ← inherit fuel t (g_parent_id site) (g_default_workflow_id site) (g_auto_provision site);
  Some (wf, default false auto).

Record SiteResponse := {
  sr_group : DeviceGroup;
  sr_cols : SiteCols;
  sr_node_count : Z;
  sr_children_count : Z;
  sr_effective_workflow_id : option string;
  sr_effective_auto_provision : bool
}.

(** [SiteResponse.from_site] *)
Definition from_site (g : DeviceGroup) (c : SiteCols) (node_count children_count : Z) (wf : option string) (auto : bool)
    : SiteResponse :=
  {| sr_group := g; sr_cols := c; sr_node_count := node_count; sr_children_count := children_count;
     sr_effective_workflow_id := match truthy_id wf with Some w => Some w | None => g_default_workflow_id g end;
     sr_effective_auto_provision := default auto (g_auto_provision g) |}.

Definition count_nodes (id : string) (s : SiteDB) : Z :=
  sql_count (fun n : string * string => String.eqb n.2 id) (home_sites s).
Definition count_children (id : string) (s : SiteDB) : Z :=
  sql_count (fun r => bool_decide (g_parent_id r = Some id) && is_site s (g_id r)) (groups (tree s)).

(** [None] when the walk up has not ended within [fuel] steps. *)
Definition get_site (fuel : nat) (id : string) : SiteM (option SiteResponse) :=
  '(g, c) ← need_site id;
  s ← get_state;
  mret ('(wf, auto) ← compute_effective_site_settings fuel g (groups (tree s));
        Some (from_site g c (count_nodes id s) (count_children id s) wf auto)).

Definition list_sites (parent_id : option string) : SiteM (list SiteResponse) :=
  s ← get_state;
  let keep r := is_site s (g_id r)
                && match truthy_id parent_id with Some p => bool_decide (g_parent_id r = Some p) | None => true end in
  mret (omap (fun g => c ← assoc_get (g_id g) (sites s);
                       Some (from_site g c (count_nodes (g_id g) s) (count_children (g_id g) s) None false))
             (sql_select keep (groups (tree s)))).

(** *** Creating *)

Definition new_cols (c : SiteCreate) : SiteCols :=
  {| s_agent_url := sc_agent_url c; s_agent_token_hash := None; s_agent_status := None; s_agent_last_seen := None;
     s_autonomy_level := Some (sc_autonomy_level c); s_conflict_resolution := Some (sc_conflict_resolution c);
     s_cache_policy := Some (sc_cache_policy c); s_cache_patterns_json := sc_cache_patterns_json c;
     s_cache_max_size_gb := sc_cache_max_size_gb c; s_cache_retention_days := Some (sc_cache_retention_days c);
     s_discovery_method := Some (sc_discovery_method c); s_discovery_config_json := sc_discovery_config_json c;
     s_migration_policy := Some (sc_migration_policy c) |}.

Definition name_taken (n : string) : string := "Site or group '" ++ n ++ "' already exists".

(** The parent of a site must be a site. *)
Definition site_parent (parent_id : option string) (not_site : string) : SiteM (option DeviceGroup) :=
  s ← get_state;
  match truthy_id parent_id with
  | None => mret None
  | Some pid =>
      match sql_find g_id pid (groups (tree s)) with
      | None => raise (HTTPException 404 "Parent not found")
      | Some p => if is_site s pid then mret (Some p) else raise (HTTPException 400 not_site)
      end
  end.

Definition new_site (id : string) (c : SiteCreate) (path : string) (depth : Z) : DeviceGroup :=
  {| g_id := id; g_name := sc_name c; g_description := sc_description c; g_parent_id := sc_parent_id c;
     g_path := path; g_depth := depth; g_default_workflow_id := None; g_auto_provision := None |}.

Definition create_site (id : string) (c : SiteCreate) : SiteM SiteResponse :=
  if negb (site_create_valid c) then raise (HTTPException 422 "validation error")
  else
    s ← get_state;
    match sql_find g_name (sc_name c) (groups (tree s)) with
    | Some _ => raise (HTTPException 409 (name_taken (sc_name c)))
    | None =>
        parent ← site_parent (sc_parent_id c) "Sites can only be nested under other sites, not regular groups";
        let '(path, depth) :=
          match parent with
          | Some p => (g_path p ++ "/" ++ sc_name c, g_depth p + 1)%Z
          | None => ("/" ++ sc_name c, 0%Z)
          end in
        let site := new_site id c path depth in
        on_tree (modify (fun d => set_groups (groups d ++ [site]) d);; flush);;
        modify (fun s => s <| sites ::= fun l => (l ++ [(id, new_cols c)])%list |>);;
        mret (from_site site (new_cols c) 0 0 None false)
    end.

(** *** Updating *)

Definition reparent_site (site : DeviceGroup) (new_name : string) (new_parent_id : option string) : SiteM unit :=
  if bool_decide (new_parent_id = Some (g_id site)) then raise (HTTPException 400 "Cannot set site as its own parent")
  else
    parent ← site_parent new_parent_id "Sites can only be nested under other sites";
    match parent with
    | Some p =>
        if startswith (g_path site ++ "/") (g_path p) || String.eqb (g_id p) (g_id site) then
          raise (HTTPException 400 "Cannot move site under itself or its descendant")
        else on_tree (move_subtree like site (g_path p ++ "/" ++ new_name) (g_depth p + 1) new_parent_id)
    | None => on_tree (move_subtree like site ("/" ++ new_name) 0 new_parent_id)
    end.

(** The part of an update that concerns every group's columns. *)
Definition group_fields (u : SiteUpdate) : DeviceGroupUpdate :=
  {| gu_name := su_name u; gu_description := su_description u; gu_parent_id := su_parent_id u;
     gu_default_workflow_id := None; gu_auto_provision := None |}.

Definition apply_site_fields (u : SiteUpdate) (c : SiteCols) : SiteCols :=
  {| s_agent_url := default (s_agent_url c) (su_agent_url u); s_agent_token_hash := s_agent_token_hash c;
     s_agent_status := s_agent_status c; s_agent_last_seen := s_agent_last_seen c;
     s_autonomy_level := default (s_autonomy_level c) (su_autonomy_level u);
     s_conflict_resolution := default (s_conflict_resolution c) (su_conflict_resolution u);
     s_cache_policy := default (s_cache_policy c) (su_cache_policy u);
     s_cache_patterns_json := default (s_cache_patterns_json c) (su_cache_patterns_json u);
     s_cache_max_size_gb := default (s_cache_max_size_gb c) (su_cache_max_size_gb u);
     s_cache_retention_days := default (s_cache_retention_days c) (su_cache_retention_days u);
     s_discovery_method := default (s_discovery_method c) (su_discovery_method u);
     s_discovery_config_json := default (s_discovery_config_json c) (su_discovery_config_json u);
     s_migration_policy := default (s_migration_policy c) (su_migration_policy u) |}.

Definition update_site (id : string) (u : SiteUpdate) : SiteM (option SiteResponse) :=
  if negb (site_update_valid u) then raise (HTTPException 422 "validation error")
  else
    '(site, _) ← need_site id;
    s ← get_state;
    let given_name := match su_name u with Some n => truthy_id n | None => None end in
    if match given_name with
       | Some n => negb (String.eqb n (g_name site))
                   && match sql_find g_name n (groups (tree s)) with Some _ => true | None => false end
       | None => false
       end
    then raise (HTTPException 409 (name_taken (default "" given_name)))
    else
      match su_parent_id u with
      | Some new_parent_id =>
          reparent_site site (match su_name u with Some n => name_str n | None => g_name site end) new_parent_id
      | None =>
          match su_name u with
          | Some n => on_tree (rename like site (name_str n))
          | None => mret tt
          end
      end;;
      match su_name u with
      | Some None => raise GroupIntegrityError      (* NOT NULL *)
      | _ => mret tt
      end;;
      on_tree (modify (fun d => set_groups (sql_update (has_key g_id id) (apply_fields (group_fields u)) (groups d)).1 d);;
               flush);;
      set_cols id (apply_site_fields u);;
      s ← get_state;
      mret (g ← sql_find g_id id (groups (tree s)); c ← assoc_get id (sites s);
            Some (from_site g c (count_nodes id s) (count_children id s) None false)).

(** *** Deleting *)

(** The rows of a table that refer to a deleted one by a relationship without a
    cascade lose their reference. *)
Definition orphan (id : string) (r : DeviceGroup) : DeviceGroup :=
  {| g_id := g_id r; g_name := g_name r; g_description := g_description r;
     g_parent_id := if bool_decide (g_parent_id r = Some id) then None else g_parent_id r;
     g_path := g_path r; g_depth := g_depth r; g_default_workflow_id := g_default_workflow_id r;
     g_auto_provision := g_auto_provision r |}.

Definition remove_site (id : string) (s : SiteDB) : SiteDB :=
  s <| tree := {| groups := map (orphan id) (sql_delete (has_key g_id id) (groups (tree s))).1;
                  node_groups := (sql_delete (fun n : string * string => String.eqb n.2 id) (node_groups (tree s))).1 |} |>
    <| sites := assoc_del id (sites s) |>.

Definition delete_site (id : string) : SiteM unit :=
  need_site id;;
  s ← get_state;
  if (0 <? count_children id s)%Z then
    raise (HTTPException 400 ("Cannot delete site with " ++ pretty (count_children id s)
                              ++ " child site(s). Remove children first."))
  else if (0 <? count_nodes id s)%Z then
    raise (HTTPException 400 ("Cannot delete site with " ++ pretty (count_nodes id s)
                              ++ " assigned node(s). Reassign nodes first."))
  else modify (remove_site id).

(** *** Reading *)

(** The nodes of a site, by [home_site_id]. *)
Definition list_site_nodes (id : string) (include_descendant_sites : bool) : SiteM (list string) :=
  '(site, _) ← need_site id;
  s ← get_state;
  let ids := id :: (if include_descendant_sites
                    then map g_id (sql_select (fun r => like (g_path site ++ "/") (g_path r) && is_site s (g_id r))
                                              (groups (tree s)))
                    else []) in
  mret (map fst (sql_select (fun n : string * string => bool_decide (n.2 ∈ ids)) (home_sites s))).

Record SiteHealth := {
  sh_agent_status : option string;
  sh_agent_last_seen : option Z;
  sh_pending_sync_items : Z;
  sh_conflicts_pending : Z;
  sh_nodes_count : Z;
  sh_cache_max_gb : option Z
}.

Definition get_site_health (id : string) : SiteM SiteHealth :=
  '(_, c) ← need_site id;
  s ← get_state;
  mret {| sh_agent_status := s_agent_status c; sh_agent_last_seen := s_agent_last_seen c;
          sh_pending_sync_items := sql_count (String.eqb id) (sync_states s);
          sh_conflicts_pending := sql_count (fun x : string * bool => String.eqb id x.1 && negb x.2) (sync_conflicts s);
          sh_nodes_count := count_nodes id s; sh_cache_max_gb := s_cache_max_size_gb c |}.

(** The status and message of the answer; nothing is queued. *)
Definition trigger_site_sync (id : string) : SiteM (string * string) :=
  '(_, c) ← need_site id;
  mret (if bool_decide (s_agent_status c = Some "online") then ("started", "Sync started - site agent is online")
        else ("queued", "Sync queued - site agent is "
                        ++ match s_agent_status c with Some st => if String.eqb st "" then "unknown" else st
                                                     | None => "unknown" end)).

(** ** Agents *)

Definition hash_token (token : string) : string := sha256 token.
Definition verify_token (token token_hash : string) : bool := String.eqb (hash_token token) token_hash.

Definition generate_agent_token (id token : string) : SiteM string :=
  need_site id;;
  set_cols id (fun c => c <| s_agent_token_hash := Some (hash_token token) |>);;
  mret token.

Record AgentConfig := {
  ac_site_id : string;
  ac_site_name : string;
  ac_autonomy_level : option string;
  ac_cache_policy : option string;
  ac_cache_max_size_gb : option Z;
  ac_cache_retention_days : option Z;
  ac_heartbeat_interval : Z
}.

(** The agent is heard of. *)
Definition seen (now : Z) (c : SiteCols) : SiteCols :=
  c <| s_agent_status := Some "online" |> <| s_agent_last_seen := Some now |>.

Definition register_agent (now : Z) (id token agent_url : string) : SiteM AgentConfig :=
  '(g, c) ← need_site id;
  match truthy_id (s_agent_token_hash c) with
  | None => raise (HTTPException 400 "No registration token configured for this site. Generate one first.")
  | Some h =>
      if verify_token token h then
        set_cols id (fun c => seen now (c <| s_agent_url := Some agent_url |>));;
        mret {| ac_site_id := id; ac_site_name := g_name g; ac_autonomy_level := s_autonomy_level c;
                ac_cache_policy := s_cache_policy c; ac_cache_max_size_gb := s_cache_max_size_gb c;
                ac_cache_retention_days := s_cache_retention_days c; ac_heartbeat_interval := 60 |}
      else raise (HTTPException 401 "Invalid registration token")
  end.

(** The commands of the answer are always none. *)
Definition agent_heartbeat (now : Z) (id : string) : SiteM unit :=
  need_site id;; set_cols id (seen now).

Definition get_agent_status (now : Z) (id : string) : SiteM (option string) :=
  '(_, c) ← need_site id;
  mret (match s_agent_last_seen c with
        | Some t =>
            if (5 * 60 * 1000000 <? now - t)%Z then Some "offline"
            else if (2 * 60 * 1000000 <? now - t)%Z then Some "degraded"
            else s_agent_status c
        | None => s_agent_status c
        end).

(** ** Requests *)

Inductive site_request : Type :=
| CreateSite (id : string) (c : SiteCreate)
| UpdateSite (id : string) (u : SiteUpdate)
| DeleteSite (id : string)
| GenerateToken (id token : string)
| Register (now : Z) (id token agent_url : string)
| Heartbeat (now : Z) (id : string).

Definition handle_site (r : site_request) : SiteM unit :=
  match r with
  | CreateSite id c => create_site id c;; mret tt
  | UpdateSite id u => update_site id u;; mret tt
  | DeleteSite id => delete_site id
  | GenerateToken id token => generate_agent_token id token;; mret tt
  | Register now id token url => register_agent now id token url;; mret tt
  | Heartbeat now id => agent_heartbeat now id
  end.

Definition serve_site (s : SiteDB) (r : site_request) : SiteDB := (with_db (handle_site r) s).2.
Definition run_sites (rs : list site_request) (s : SiteDB) : SiteDB := fold_left serve_site rs s.

(** A request on the groups' endpoints works on the same table; the columns of a
    site go with its row. *)
Definition serve_group (r : group_request) (s : SiteDB) : SiteDB :=
  let d := serve like r (tree s) in
  s <| tree := d |> <| sites ::= List.filter (fun kv : string * SiteCols => existsb (has_key g_id kv.1) (groups d)) |>.
End Handlers.

(** ** What a well-formed table of sites is *)

Definition agent_states : list string := ["online"; "degraded"; "offline"].

Definition cols_ok (c : SiteCols) : bool :=
  none_or AUTONOMY_LEVELS (s_autonomy_level c) && none_or CONFLICT_RESOLUTIONS (s_conflict_resolution c)
  && none_or CACHE_POLICIES (s_cache_policy c) && none_or DISCOVERY_METHODS (s_discovery_method c)
  && none_or MIGRATION_POLICIES (s_migration_policy c) && at_least_1 (s_cache_max_size_gb c)
  && at_least_1 (s_cache_retention_days c) && none_or agent_states (s_agent_status c).

(** Sites lie under sites only, and nothing but sites under them. *)
Definition nested (site : string -> bool) (t : list DeviceGroup) : Prop :=
  forall r p, child_of t r p -> site (g_id r) = site (g_id p).

Record site_wf (s : SiteDB) : Prop := {
  sw_tree : tree_wf (groups (tree s));
  sw_keys : NoDup (sites s).*1;
  sw_rows id : is_site s id = true -> id ∈ g_id <$> groups (tree s);
  sw_nested : nested (is_site s) (groups (tree s));
  sw_cols : Forall (fun kv => cols_ok kv.2 = true) (sites s)
}.

(** What holds of the table whatever the names are. *)
Record site_links (s : SiteDB) : Prop := {
  sl_linked : linked (groups (tree s));
  sl_keys : NoDup (sites s).*1;
  sl_rows id : is_site s id = true -> id ∈ g_id <$> groups (tree s);
  sl_nested : nested (is_site s) (groups (tree s));
  sl_cols : Forall (fun kv => cols_ok kv.2 = true) (sites s)
}.

Lemma wf_links s : site_wf s -> site_links s.
Proof. intros []. constructor; try done. by apply tree_linked. Qed.

Lemma links_wf s : tree_wf (groups (tree s)) -> site_links s -> site_wf s.
Proof. intros H []. by constructor. Qed.

(** *** Running the handlers *)

Lemma on_tree_Ok {A} (m : GroupM A) s x s' :
  on_tree m s = (Ok x, s') -> m (tree s) = (Ok x, tree s') /\ s' = s <| tree := tree s' |>.
Proof. unfold on_tree. destruct (m (tree s)) as [r d]. by intros [= -> <-]. Qed.

Lemma need_site_Ok id s g c s' :
  need_site id s = (Ok (g, c), s') ->
  s' = s /\ sql_find g_id id (groups (tree s)) = Some g /\ assoc_get id (sites s) = Some c /\ g ∈ groups (tree s) /\ g_id g = id.
Proof.
  unfold need_site. unfold_M. destruct (sql_find g_id id (groups (tree s))) as [g'|] eqn:E; [|done].
  destruct (assoc_get id (sites s)); [|done]. intros [= -> -> <-]. destruct (sql_find_Some_1 _ _ _ _ E). done.
Qed.

Lemma site_parent_Ok pid msg s p s' :
  site_parent pid msg s = (Ok p, s') ->
  s' = s /\ match p with
            | None => truthy_id pid = None
            | Some p => truthy_id pid = Some (g_id p) /\ p ∈ groups (tree s) /\ is_site s (g_id p) = true
            end.
Proof.
  unfold site_parent. unfold_M. destruct (truthy_id pid) as [i|]; [|by intros [= <- <-]].
  destruct (sql_find g_id i (groups (tree s))) as [q|] eqn:E; [|done].
  apply sql_find_Some_1 in E as [Hq <-]. destruct (is_site s (g_id q)) eqn:Hs; [|done]. by intros [= <- <-].
Qed.

Lemma set_cols_keys id f (l : list (string * SiteCols)) :
  (map (fun kv => if String.eqb id kv.1 then (kv.1, f kv.2) else kv) l).*1 = l.*1.
Proof. induction l as [|[k c] l IH]; [done|]. cbn. rewrite IH. by destruct (String.eqb id k). Qed.

Lemma assoc_get_map {A} id (f : A -> A) k (l : list (string * A)) :
  assoc_get k (map (fun kv => if String.eqb id kv.1 then (kv.1, f kv.2) else kv) l)
  = (if String.eqb id k then f else fun x => x) <$> assoc_get k l.
Proof.
  induction l as [|[k' c] l IH]; [by destruct (String.eqb id k)|]. cbn.
  destruct (String.eqb_spec id k') as [->|Hne]; cbn; destruct (String.eqb_spec k k') as [->|Hk]; try done.
  - by rewrite String.eqb_refl.
  - by rewrite (proj2 (String.eqb_neq _ _) Hne).
Qed.

Lemma is_site_map id f s k l :
  sites s = map (fun kv : string * SiteCols => if String.eqb id kv.1 then (kv.1, f kv.2) else kv) l ->
  is_site s k = match assoc_get k l with Some _ => true | None => false end.
Proof. unfold is_site. intros ->. rewrite assoc_get_map. by destruct (assoc_get k l). Qed.

(** A change of one site's columns. *)
Lemma set_cols_links id f s :
  (forall c, cols_ok c = true -> cols_ok (f c) = true) -> site_links s ->
  site_links (s <| sites ::= map (fun kv => if String.eqb id kv.1 then (kv.1, f kv.2) else kv) |>).
Proof.
  intros Hf Hs. set (s' := s <| sites ::= _ |>).
  assert (forall k, is_site s' k = is_site s k) as Hsite by (intros k; by rewrite (is_site_map id f s' k (sites s))).
  constructor.
  - apply Hs.
  - cbn. rewrite set_cols_keys. apply Hs.
  - intros k. rewrite Hsite. apply Hs.
  - intros r p Hc. rewrite !Hsite. by apply Hs.
  - cbn. apply Forall_forall. intros kv (kv' & -> & Hin)%list_elem_of_fmap. pose proof (sl_cols _ Hs) as H.
    rewrite Forall_forall in H. specialize (H _ Hin). destruct (String.eqb id kv'.1); [|done]. by apply Hf.
Qed.

Lemma set_cols_wf id f s :
  (forall c, cols_ok c = true -> cols_ok (f c) = true) -> site_wf s ->
  site_wf (s <| sites ::= map (fun kv => if String.eqb id kv.1 then (kv.1, f kv.2) else kv) |>).
Proof. intros Hf Hs. apply links_wf; [apply Hs|]. by apply set_cols_links, wf_links. Qed.

Lemma set_cols_Ok id f s x s' :
  (forall c, cols_ok c = true -> cols_ok (f c) = true) -> site_links s -> set_cols id f s = (Ok x, s') ->
  site_links s' /\ tree s' = tree s.
Proof. intros Hf Hs H. apply (f_equal snd) in H. cbn [snd] in H. subst s'. split; [by apply set_cols_links|done]. Qed.

Lemma seen_ok now c : cols_ok c = true -> cols_ok (seen now c) = true.
Proof. unfold cols_ok, seen. cbn. rewrite !andb_true_iff. tauto. Qed.

(** *** Moving a site *)

Lemma nested_map site t (F : DeviceGroup -> DeviceGroup) g :
  nested site t -> (forall r, g_id (F r) = g_id r) ->
  (forall r, r ∈ t -> r = g \/ g_parent_id (F r) = g_parent_id r) ->
  site (g_id g) = true -> (forall pid, truthy_id (g_parent_id (F g)) = Some pid -> site pid = true) ->
  nested site (map F t).
Proof.
  intros Hn Hid Hp Hg Hpg r' p' (Hr' & Hp' & E).
  apply list_elem_of_fmap in Hr' as (r & -> & Hr), Hp' as (p & -> & Hpt). rewrite !Hid in *.
  destruct (Hp r Hr) as [->|Heq].
  - by rewrite Hg, (Hpg _ E).
  - apply Hn. rewrite Heq in E. done.
Qed.

Lemma reparent_site_Ok like g n np s x s' :
  reparent_site like g n np s = (Ok x, s') ->
  exists path depth, new_home (groups (tree s)) g np n path depth
    /\ move_subtree like g path depth np (tree s) = (Ok x, tree s')
    /\ s' = s <| tree := tree s' |> /\ (forall pid, truthy_id np = Some pid -> is_site s pid = true).
Proof.
  unfold reparent_site. case_bool_decide; [done|]. step_M p s1 H1. apply site_parent_Ok in H1 as [-> H1].
  unfold new_home. destruct p as [p|].
  - destruct H1 as (E & Hp & Hs). rewrite E. destruct (_ || _) eqn:Ein; [done|]. apply orb_false_iff in Ein as [E1 E2].
    intros [Hm Hs']%on_tree_Ok. do 2 eexists. split; [|split; [exact Hm|split; [done|by intros ? [= <-]]]].
    exists p. repeat split; try done. intros ->. by rewrite String.eqb_refl in E2.
  - rewrite H1. intros [Hm Hs']%on_tree_Ok. do 2 eexists. split; [done|]. split; [exact Hm|]. split; [done|]. by intros.
Qed.

Lemma finish_site_Ok id u d x d' :
  (modify (fun d => set_groups (sql_update (has_key g_id id) (apply_fields u) (groups d)).1 d);; flush) d = (Ok x, d') ->
  groups d' = (sql_update (has_key g_id id) (apply_fields u) (groups d)).1 /\ NoDup (g_name <$> groups d').
Proof.
  unfold mbind, M_bind, modify. intros (-> & Hn & _)%flush_Ok. by split.
Qed.

(** *** The links between the rows *)

Lemma apply_site_fields_ok u c : site_update_valid u = true -> cols_ok c = true -> cols_ok (apply_site_fields u c) = true.
Proof.
  unfold site_update_valid, cols_ok. rewrite !andb_true_iff. cbn.
  destruct (su_autonomy_level u), (su_conflict_resolution u), (su_cache_policy u), (su_discovery_method u),
    (su_migration_policy u), (su_cache_max_size_gb u), (su_cache_retention_days u); cbn; tauto.
Qed.

Lemma rows_links s t : site_links s -> linked (groups t) -> nested (is_site s) (groups t) ->
  g_id <$> groups t = g_id <$> groups (tree s) -> site_links (s <| tree := t |>).
Proof. intros Hs Ht Hn Hk. constructor; cbn; [done|apply Hs| |done|apply Hs]. rewrite Hk. apply Hs. Qed.

(** Rows that keep their ids and parents, but for one site that comes under a site. *)
Lemma map_links s t g F : site_links s -> g ∈ groups (tree s) -> is_site s (g_id g) = true -> groups t = map F (groups (tree s)) ->
  (forall r, g_id (F r) = g_id r) -> (forall r, r ∈ groups (tree s) -> r = g \/ g_parent_id (F r) = g_parent_id r) ->
  (forall pid, truthy_id (g_parent_id (F g)) = Some pid -> is_site s pid = true) -> NoDup (g_name <$> groups t) ->
  site_links (s <| tree := t |>).
Proof.
  intros Hs Hg Hsite Et Hid Hpar Hnew Hn.
  assert (g_id <$> groups t = g_id <$> groups (tree s)) as Ek.
  { rewrite Et. change (map F ?l) with (F <$> l). rewrite <- list_fmap_compose. apply list_fmap_ext. intros _ r _. apply Hid. }
  apply rows_links; [done| |rewrite Et; apply (nested_map _ _ _ g); [apply Hs|done..]|done].
  constructor; [rewrite Ek; apply Hs|done|]. rewrite Ek, Et. intros r' pid (r & -> & Hr)%list_elem_of_fmap E.
  destruct (Hpar r Hr) as [->|E']; [by apply Hs, Hnew|]. rewrite E' in E. by apply (lk_parents _ (sl_linked _ Hs) r).
Qed.

Lemma site_parent_is_site s g pid : site_links s -> g ∈ groups (tree s) -> is_site s (g_id g) = true ->
  truthy_id (g_parent_id g) = Some pid -> is_site s pid = true.
Proof.
  intros Hs Hg Hsite E. pose proof (lk_parents _ (sl_linked _ Hs) g pid Hg E) as (p & -> & Hp)%list_elem_of_fmap.
  by rewrite <- (sl_nested _ Hs g p).
Qed.

Section Links.
Variable like : string -> string -> bool.

(** The part of an update before the fields are set. *)
Definition moving (u : SiteUpdate) (g : DeviceGroup) : SiteM unit :=
  match su_parent_id u with
  | Some np => reparent_site like g (match su_name u with Some n => name_str n | None => g_name g end) np
  | None => match su_name u with Some n => on_tree (rename like g (name_str n)) | None => mret tt end
  end.

Lemma update_site_Ok id u s r s' : update_site like id u s = (Ok r, s') ->
  exists g s1 s3, g ∈ groups (tree s) /\ g_id g = id /\ is_site s (g_id g) = true /\ site_update_valid u = true
    /\ (forall n, su_name u = Some n -> n ≠ None) /\ moving u g s = (Ok tt, s1) /\ s3 = s1 <| tree := tree s3 |>
    /\ groups (tree s3) = (sql_update (has_key g_id (g_id g)) (apply_fields (group_fields u)) (groups (tree s1))).1
    /\ NoDup (g_name <$> groups (tree s3))
    /\ s' = s3 <| sites ::= map (fun kv => if String.eqb (g_id g) kv.1 then (kv.1, apply_site_fields u kv.2) else kv) |>.
Proof.
  unfold update_site. destruct (site_update_valid u) eqn:Hv; [|done]. cbn [negb].
  step_M gc s0 H0. destruct gc as [g c]. apply need_site_Ok in H0 as (-> & _ & Hc & Hg & <-).
  rewrite (bind_Ok _ _ s s s) by done. lazymatch goal with |- (if ?b then _ else _) _ = _ -> _ => destruct b end; [done|].
  step_M [] s1 Hmid. step_M [] s2 Hnull.
  assert (s2 = s1 /\ forall n, su_name u = Some n -> n ≠ None) as [-> Hnone]
    by (destruct (su_name u) as [[n|]|]; [by injection Hnull as <-; split; [|intros ? [= <-]]|done|by injection Hnull as <-]).
  step_M [] s3 Hfin. apply on_tree_Ok in Hfin as [Hfin Hs3]. apply finish_site_Ok in Hfin as [Ht Hn].
  intros H. apply (f_equal snd) in H. cbn [snd] in H. unfold_M. cbn [snd] in H. exists g, s1, s3. repeat (split; [done|]).
  split; [unfold is_site; by rewrite Hc|]. by repeat (split; [done|]).
Qed.

Lemma update_links g u s s1 s3 : site_links s -> g ∈ groups (tree s) -> is_site s (g_id g) = true -> site_update_valid u = true ->
  moving u g s = (Ok tt, s1) -> s3 = s1 <| tree := tree s3 |> ->
  groups (tree s3) = (sql_update (has_key g_id (g_id g)) (apply_fields (group_fields u)) (groups (tree s1))).1 ->
  NoDup (g_name <$> groups (tree s3)) ->
  site_links (s3 <| sites ::= map (fun kv => if String.eqb (g_id g) kv.1 then (kv.1, apply_site_fields u kv.2) else kv) |>).
Proof.
  intros Hs Hg Hsite Hv Hmid Hs3 Ht Hn. apply set_cols_links; [intros c; by apply apply_site_fields_ok|].
  assert (forall r, r ∈ groups (tree s) -> has_key g_id (g_id g) r = true -> r = g) as Hself.
  { intros r Hr E%has_key_true. by apply (key_elem_inj g_id (groups (tree s))); [apply (sl_linked _ Hs)|..]. }
  assert (forall path depth np, move_subtree like g path depth np (tree s) = (Ok tt, tree s1) -> s1 = s <| tree := tree s1 |> ->
    (forall pid, truthy_id np = Some pid -> is_site s pid = true) -> site_links s3) as Hmoved.
  { intros path depth np Hm Hs1 Hnp. apply (f_equal snd) in Hm. unfold move_subtree, modify in Hm. cbn [snd] in Hm.
    rewrite <- Hm in Ht. unfold sql_update in Ht. cbn [fst groups set_groups] in Ht. rewrite !map_map in Ht.
    rewrite Hs3, Hs1. eapply (map_links s (tree s3) g); [done|done|done|exact Ht| | | |done].
    - intros r. cbv beta. destruct (like _ _); by repeat match goal with |- context [has_key ?a ?b ?c] => destruct (has_key a b c) end.
    - intros r Hr. destruct (has_key g_id (g_id g) r) eqn:E; [left; by apply Hself|right].
      assert (forall x, g_id x = g_id r -> has_key g_id (g_id g) x = false) as Hf by (intros x Ex; unfold has_key in *; by rewrite Ex).
      cbv beta. destruct (like _ _); rewrite !Hf by (rewrite ?Hf by done; done); reflexivity.
    - intros pid. assert (forall x, g_id x = g_id g -> has_key g_id (g_id g) x = true) as Ht' by (intros x; by apply has_key_true).
      cbv beta. destruct (like _ _); rewrite !Ht' by (rewrite ?Ht' by done; done); apply Hnp. }
  unfold moving in Hmid. destruct (su_parent_id u) as [np|].
  - apply reparent_site_Ok in Hmid as (path & depth & _ & Hm & Hs1 & Hpid). by eapply Hmoved.
  - destruct (su_name u) as [n|].
    + apply on_tree_Ok in Hmid as [Hm Hs1]. revert Hm. unfold rename, get_groups. rewrite (bind_Ok _ _ (tree s) (groups (tree s)) (tree s)) by done.
      step_M path d1 E. assert (d1 = tree s) as -> by (by repeat case_match; injection E). intros Hm.
      eapply Hmoved; [done|done|]. intros pid. by apply site_parent_is_site.
    + injection Hmid as <-. rewrite Hs3. unfold sql_update in Ht. cbn [fst] in Ht.
      eapply (map_links s (tree s3) g); [done|done|done|exact Ht| | | |done].
      * intros r. cbv beta. by case_match.
      * intros r _. right. cbv beta. by case_match.
      * intros pid E. apply (site_parent_is_site s g); [done..|]. revert E. cbv beta. by case_match.
Qed.

(** What creating a site does to the table. *)
Lemma create_site_Ok id c s r s' : create_site id c s = (Ok r, s') ->
  exists parent path depth, site_create_valid c = true
  /\ s' = s <| tree := set_groups (groups (tree s) ++ [new_site id c path depth])%list (tree s) |>
            <| sites ::= fun l => (l ++ [(id, new_cols c)])%list |>
  /\ match parent with
     | None => truthy_id (sc_parent_id c) = None /\ path = "/" ++ sc_name c /\ depth = 0%Z
     | Some p => truthy_id (sc_parent_id c) = Some (g_id p) /\ p ∈ groups (tree s) /\ is_site s (g_id p) = true
                 /\ path = g_path p ++ "/" ++ sc_name c /\ depth = (g_depth p + 1)%Z
     end
  /\ NoDup (g_name <$> (groups (tree s) ++ [new_site id c path depth])%list)
  /\ NoDup (g_id <$> (groups (tree s) ++ [new_site id c path depth])%list).
Proof.
  clear like. unfold create_site. destruct (site_create_valid c) eqn:Hv; [|done]. cbn [negb].
  rewrite (bind_Ok _ _ s s s) by done. destruct (sql_find g_name _ _); [done|].
  step_M parent s0 Hp. apply site_parent_Ok in Hp as [-> Hp].
  destruct parent as [p|]; step_M [] s1 Hins; apply on_tree_Ok in Hins as [Hins ->]; revert Hins;
    unfold mbind, M_bind, modify; intros (-> & Hn & Hi)%flush_Ok; intros [= _ <-].
  - exists (Some p). do 2 eexists. split; [done|]. split; [reflexivity|]. by destruct Hp as (? & ? & ?).
  - exists None. do 2 eexists. split; [done|]. split; [reflexivity|]. done.
Qed.

Lemma create_site_links id c s r s' : site_links s -> create_site id c s = (Ok r, s') -> site_links s'.
Proof.
  clear like. intros Hs (parent & path & depth & Hv & -> & Hp & Hn & Hi)%create_site_Ok. set (site := new_site id c path depth) in *.
  assert (forall pid, truthy_id (sc_parent_id c) = Some pid -> is_site s pid = true) as Hpar.
  { intros pid E. destruct parent as [p|]; destruct Hp as [Hp Hrest]; [|congruence]. rewrite Hp in E. injection E as <-. apply Hrest. }
  assert (cols_ok (new_cols c) = true) as Hcols.
  { unfold site_create_valid in Hv. rewrite !andb_true_iff in Hv. unfold cols_ok. cbn. rewrite !andb_true_iff. tauto. }
  set (s' := s <| tree := _ |> <| sites ::= _ |>).
  assert (id ∉ g_id <$> groups (tree s)) as Hnew.
  { rewrite fmap_app, NoDup_app in Hi. destruct Hi as (_ & Hi & _). intros H. apply (Hi _ H). by left. }
  assert (assoc_get id (sites s) = None) as Hnone.
  { destruct (assoc_get id (sites s)) eqn:E; [|done]. destruct Hnew. apply (sl_rows _ Hs). unfold is_site. by rewrite E. }
  assert (forall k, is_site s' k = is_site s k || String.eqb k id) as Hsite.
  { intros k. unfold is_site. cbn. clear. induction (sites s) as [|[k' x] l IH]; cbn; [by destruct (String.eqb k _)|].
    by destruct (String.eqb k k'). }
  constructor.
  - constructor; cbn; [done|done|]. rewrite fmap_app. intros x pid [Hx| ->%list_elem_of_singleton]%elem_of_app E; apply elem_of_app; left.
    + by apply (lk_parents _ (sl_linked _ Hs) x).
    + by apply (sl_rows _ Hs), Hpar.
  - cbn. rewrite fmap_app. apply NoDup_app. split; [apply Hs|]. split; [|apply NoDup_singleton].
    intros x Hx ->%list_elem_of_singleton. by apply assoc_get_None in Hnone.
  - intros k. rewrite Hsite. cbn. rewrite fmap_app, elem_of_app. intros [H|H%String.eqb_eq]%orb_true_iff.
    + left. by apply (sl_rows _ Hs).
    + right. rewrite H. by left.
  - cbn. intros x p (Hx & Hp' & E). rewrite !Hsite.
    assert (forall y, y ∈ groups (tree s) -> String.eqb (g_id y) id = false) as Hold.
    { intros y Hy. apply String.eqb_neq. intros H. apply Hnew. rewrite <- H. by apply list_elem_of_fmap_2. }
    apply elem_of_app in Hx as [Hx| ->%list_elem_of_singleton].
    + pose proof (lk_parents _ (sl_linked _ Hs) x _ Hx E) as Hpid. assert (p ∈ groups (tree s)) as Hin.
      { apply elem_of_app in Hp' as [?| ->%list_elem_of_singleton]; [done|]. by destruct Hnew. }
      rewrite !Hold by done. rewrite !orb_false_r. by apply (sl_nested _ Hs).
    + cbn [new_site g_id site]. by rewrite String.eqb_refl, (Hpar _ E), orb_true_r.
  - cbn. apply Forall_app. split; [apply Hs|]. by apply Forall_singleton.
Qed.

Lemma truthy_orphan id r :
  truthy_id (g_parent_id r) ≠ Some id -> truthy_id (g_parent_id (orphan id r)) = truthy_id (g_parent_id r).
Proof.
  intros H. cbn. case_bool_decide as E; [|done]. rewrite E in *. cbn in *. by destruct (String.eqb id "").
Qed.

(** A site that may be deleted has nothing below it. *)
Lemma deletable_is_leaf s g c :
  site_links s -> g ∈ groups (tree s) -> assoc_get (g_id g) (sites s) = Some c -> (count_children (g_id g) s <= 0)%Z ->
  forall r, r ∈ groups (tree s) -> truthy_id (g_parent_id r) ≠ Some (g_id g).
Proof.
  intros Hs Hg Hc Hcount r Hr E. assert (is_site s (g_id g) = true) as Hsite by (unfold is_site; by rewrite Hc).
  assert (child_of (groups (tree s)) r g) as Hch by done. apply (sl_nested _ Hs) in Hch.
  unfold count_children, sql_count in Hcount. destruct (sql_select _ _) as [|x l] eqn:Es; [|cbn in Hcount; lia].
  apply (not_elem_of_nil r). rewrite <- Es. apply elem_of_sql_select. split; [done|].
  rewrite Hch, Hsite, andb_true_r. apply bool_decide_eq_true. by apply truthy_id_Some.
Qed.

(** What deleting a site does. *)
Lemma delete_site_Ok id s x s' : delete_site id s = (Ok x, s') ->
  exists g c, g ∈ groups (tree s) /\ g_id g = id /\ assoc_get (g_id g) (sites s) = Some c /\ (count_children (g_id g) s <= 0)%Z
    /\ s' = remove_site (g_id g) s.
Proof.
  unfold delete_site. step_M gc s0 H0. destruct gc as [g c].
  apply need_site_Ok in H0 as (-> & _ & Hc & Hg & <-). rewrite (bind_Ok _ _ s s s) by done.
  destruct (Z.ltb_spec 0 (count_children (g_id g) s)) as [|Hcount]; [done|].
  destruct (0 <? count_nodes _ s)%Z; [done|]. intros H. apply (f_equal snd) in H. cbn [snd] in H. by exists g, c.
Qed.

Lemma delete_site_links id s x s' : site_links s -> delete_site id s = (Ok x, s') -> site_links s'.
Proof.
  intros Hs (g & c & Hg & <- & Hc & Hcount & ->)%delete_site_Ok.
  pose proof (deletable_is_leaf s g c Hs Hg Hc Hcount) as Hleaf.
  assert (forall k, k ≠ g_id g -> is_site (remove_site (g_id g) s) k = is_site s k) as Hsite.
  { intros k Hk. unfold is_site. change (sites (remove_site (g_id g) s)) with (assoc_del (g_id g) (sites s)).
    by rewrite assoc_get_del_ne. }
  assert (forall A (col : DeviceGroup -> A) l, (forall r, col (orphan (g_id g) r) = col r) -> col <$> map (orphan (g_id g)) l = col <$> l) as Hcol.
  { intros A col l H. change (map ?f l) with (f <$> l). rewrite <- list_fmap_compose. apply list_fmap_ext. intros _ r _. apply H. }
  assert (forall pid, pid ≠ g_id g -> pid ∈ g_id <$> groups (tree s) ->
    pid ∈ g_id <$> map (orphan (g_id g)) (sql_delete (has_key g_id (g_id g)) (groups (tree s))).1) as Hstay.
  { intros pid Hne (r & -> & Hr)%list_elem_of_fmap. rewrite Hcol by done. apply list_elem_of_fmap_2, elem_of_delete.
    split; [done|]. by apply has_key_false. }
  assert (groups (tree (remove_site (g_id g) s)) = map (orphan (g_id g)) (sql_delete (has_key g_id (g_id g)) (groups (tree s))).1) as Egr by done.
  constructor; rewrite ?Egr.
  - constructor; [rewrite Hcol by done; apply keys_unique_delete, (sl_linked _ Hs)|
      rewrite Hcol by done; apply (keys_unique_delete g_name), (sl_linked _ Hs)|].
    intros r' pid (r & -> & Hr)%list_elem_of_fmap E. apply elem_of_delete in Hr as [Hr _].
    rewrite truthy_orphan in E by by apply Hleaf. apply Hstay; [|by apply (lk_parents _ (sl_linked _ Hs) r)].
    intros ->. by apply (Hleaf r Hr).
  - apply NoDup_assoc_del, Hs.
  - intros k Hk. destruct (decide (k = g_id g)) as [->|Hne].
    { revert Hk. unfold is_site. change (sites (remove_site (g_id g) s)) with (assoc_del (g_id g) (sites s)).
      by rewrite assoc_get_del_eq. }
    rewrite Hsite in Hk by done. apply (sl_rows _ Hs) in Hk. by apply Hstay.
  - intros r' p' (Hr' & Hp' & E). apply list_elem_of_fmap in Hr' as (r & -> & Hr), Hp' as (p & -> & Hp).
    apply elem_of_delete in Hr as [Hr Hr2%has_key_false], Hp as [Hp Hp2%has_key_false].
    rewrite truthy_orphan in E by by apply Hleaf. change (g_id (orphan ?i ?x)) with (g_id x) in *.
    rewrite !Hsite by done. by apply (sl_nested _ Hs).
  - apply Forall_assoc_del, Hs.
Qed.

(** Requests on the agents leave the tree as it is. *)
Lemma agent_request_Ok sha256 r s x s' : site_links s -> handle_site like sha256 r s = (Ok x, s') ->
  match r with GenerateToken _ _ | Register _ _ _ _ | Heartbeat _ _ => site_links s' /\ tree s' = tree s | _ => True end.
Proof.
  intros Hs. destruct r as [| | |id token|now id token url|now id]; cbn [handle_site]; try done.
  - step_M y s1 H. intros [= _ <-]. revert H. unfold generate_agent_token. step_M gc s0 H0. destruct gc as [g c].
    apply need_site_Ok in H0 as (-> & _). step_M [] s2 H. intros [= _ <-]. revert Hs H. by apply set_cols_Ok.
  - step_M y s1 H. intros [= _ <-]. revert H. unfold register_agent. step_M gc s0 H0. destruct gc as [g c].
    apply need_site_Ok in H0 as (-> & _). destruct (truthy_id _) as [h|]; [|done]. destruct (verify_token _ _ _); [|done].
    step_M [] s2 H. intros [= _ <-]. revert Hs H. apply set_cols_Ok. intros k Hk. by apply seen_ok.
  - unfold agent_heartbeat. step_M gc s0 H0. destruct gc as [g c]. apply need_site_Ok in H0 as (-> & _).
    apply set_cols_Ok; [|done]. intros k. apply seen_ok.
Qed.

Lemma serve_site_links sha256 r s : site_links s -> site_links (serve_site like sha256 s r).
Proof.
  intros Hs. unfold serve_site, with_db. destruct (handle_site like sha256 r s) as [[x|e] s'] eqn:E; [cbn [snd]|done].
  pose proof (agent_request_Ok sha256 r s x s' Hs E) as H. destruct r; try apply H; revert E; cbn [handle_site].
  - step_M y s1 E. intros [= _ <-]. by eapply create_site_links.
  - step_M y s1 E. intros [= _ <-]. apply update_site_Ok in E as (g & s2 & s3 & Hg & <- & Hsite & Hv & _ & Hmid & Hs3 & Ht & Hn & ->).
    by apply (update_links g u s s2 s3).
  - by apply delete_site_links.
Qed.
End Links.

Section Moves.
Context (like : string -> string -> bool).
Hypothesis like_plain : forall q s, plain q = true -> plain s = true -> like q s = startswith q s.

(** What an update does to the rows: it moves the site, or leaves all places as they are. *)
Lemma update_rows g u s s1 t' :
  site_wf s -> g ∈ groups (tree s) -> is_site s (g_id g) = true ->
  clean_name (updated_name (group_fields u) g) = true -> (forall n, su_name u = Some n -> n ≠ None) ->
  match su_parent_id u with
  | Some np => reparent_site like g (match su_name u with Some n => name_str n | None => g_name g end) np
  | None => match su_name u with Some n => on_tree (rename like g (name_str n)) | None => mret tt end
  end s = (Ok tt, s1) ->
  t' = (sql_update (has_key g_id (g_id g)) (apply_fields (group_fields u)) (groups (tree s1))).1 ->
  NoDup (g_name <$> t') ->
  tree_wf t' /\ nested (is_site s) t' /\ s1 = s <| tree := tree s1 |> /\ g_id <$> t' = g_id <$> groups (tree s).
Proof.
  intros Hs Hg Hsite Hclean Hnone Hmid Ht' Hn. pose proof (sw_tree _ Hs) as Hwf.
  assert (forall F, (forall r, g_id (F r) = g_id r) -> g_id <$> map F (groups (tree s)) = g_id <$> groups (tree s)) as Hkeys.
  { intros F HF. change (map F ?l) with (F <$> l). rewrite <- list_fmap_compose. apply list_fmap_ext. intros _ r _. apply HF. }
  assert (forall np path depth,
     new_home (groups (tree s)) g np (updated_name (group_fields u) g) path depth ->
     move_subtree like g path depth np (tree s) = (Ok tt, tree s1) ->
     (forall pid, truthy_id np = Some pid -> is_site s pid = true) ->
     tree_wf t' /\ nested (is_site s) t' /\ g_id <$> t' = g_id <$> groups (tree s)) as Hmoved.
  { intros np path depth Hhome Hm Hpid. split; [by eapply moved_update_wf|].
    rewrite Ht', (moved_table like like_plain g path depth np (group_fields u) (tree s) tt) by done.
    split; [|apply Hkeys, relocate_id]. apply (nested_map _ _ _ g); [apply Hs|apply relocate_id| |done|].
    - intros r Hr. destruct (decide (r = g)) as [->|Hne]; [by left|]. right.
      by apply (relocate_other_keys (groups (tree s)) Hwf g Hg).
    - by rewrite relocate_self. }
  assert (updated_name (group_fields u) g = match su_name u with Some n => name_str n | None => g_name g end) as Eu.
  { unfold updated_name, apply_fields. cbn. destruct (su_name u) as [[n|]|] eqn:E; [done| |done]. by destruct (Hnone _ eq_refl). }
  destruct (su_parent_id u) as [np|].
  - apply reparent_site_Ok in Hmid as (path & depth & Hhome & Hm & Hs1 & Hpid). rewrite <- Eu in Hhome.
    destruct (Hmoved _ _ _ Hhome Hm Hpid) as (? & ? & ?). done.
  - destruct (su_name u) as [n|] eqn:En.
    + apply on_tree_Ok in Hmid as [Hm Hs1]. apply rename_Ok in Hm as (path & depth & Hhome & Hm); [|done..].
      rewrite <- Eu in Hhome. destruct (Hmoved _ _ _ Hhome Hm) as (? & ? & ?); [|done].
      intros pid E. destruct (root_or_child _ Hwf g Hg) as [[E' _]|(p & Hc & _)]; [congruence|].
      assert (is_site s (g_id p) = true) as Hp by by rewrite <- (sw_nested _ Hs _ _ Hc).
      destruct Hc as (_ & _ & E'). rewrite E' in E. by injection E as <-.
    + injection Hmid as <-. rewrite Ht'. unfold sql_update. cbn [fst]. split; [|split; [|split]].
      * apply same_columns_wf; [done|]. intros r. case_match; [|done]. unfold apply_fields; cbn. by rewrite En.
      * apply (nested_map _ _ _ g); [apply Hs|by intros r; case_match| |done|].
        -- intros r Hr. right. by case_match.
        -- intros pid E. destruct (root_or_child _ Hwf g Hg) as [[E' _]|(p & Hc & _)].
           ++ revert E. case_match; cbn; congruence.
           ++ assert (truthy_id (g_parent_id g) = Some pid) as E2 by (revert E; by case_match).
              destruct Hc as (Hr & Hp & E'). rewrite E' in E2. injection E2 as <-.
              by rewrite <- (sw_nested _ Hs g p).
      * by destruct s.
      * apply Hkeys. intros r. by case_match.
Qed.

Definition clean_site_request (r : site_request) : bool :=
  match r with
  | CreateSite _ c => clean_name (sc_name c)
  | UpdateSite _ u => match su_name u with Some (Some n) => clean_name n | _ => true end
  | _ => true
  end.

Lemma update_site_wf id u s r s' :
  site_wf s -> clean_site_request (UpdateSite id u) = true -> update_site like id u s = (Ok r, s') -> site_wf s'.
Proof.
  intros Hs Hclean H. apply update_site_Ok in H as (g & s1 & s3 & Hg & <- & Hsite & Hv & Hnone & Hmid & Hs3 & Ht & Hn & ->).
  assert (clean_name (updated_name (group_fields u) g) = true) as Hcl.
  { unfold updated_name, apply_fields. cbn in *. destruct (su_name u) as [[n|]|]; [done|by destruct (Hnone _ eq_refl)|].
    by apply (sw_tree _ Hs). }
  destruct (update_rows g u s s1 _ Hs Hg Hsite Hcl Hnone Hmid Ht) as (Hwf & _); [done|].
  apply links_wf; [exact Hwf|]. apply wf_links in Hs. by apply (update_links like g u s s1 s3).
Qed.

Lemma create_site_wf id c s r s' :
  site_wf s -> clean_site_request (CreateSite id c) = true -> create_site id c s = (Ok r, s') -> site_wf s'.
Proof.
  intros Hs Hclean H. apply links_wf; [|by eapply create_site_links, H; apply wf_links].
  apply create_site_Ok in H as (parent & path & depth & _ & -> & Hp & Hn & Hi). cbn.
  apply insert_row_wf; [apply Hs|done| |done|done]. unfold placed. cbn.
  destruct parent as [p|]; [|by destruct Hp as (-> & ?)]. destruct Hp as (-> & Hp & _ & ?). by exists p.
Qed.

(** *** Deleting *)

Lemma orphan_wf t id :
  tree_wf t -> (forall r, r ∈ t -> truthy_id (g_parent_id r) ≠ Some id) -> tree_wf (map (orphan id) t).
Proof.
  intros Hwf Hleaf.
  assert (forall A (col : DeviceGroup -> A), (forall r, col (orphan id r) = col r) -> col <$> map (orphan id) t = col <$> t) as Hcol.
  { intros A col Hc. change (map ?f ?l) with (f <$> l). rewrite <- list_fmap_compose. apply list_fmap_ext. intros _ r _. apply Hc. }
  constructor.
  - rewrite Hcol by done. apply Hwf.
  - rewrite Hcol by done. apply Hwf.
  - intros r' (r & -> & Hr)%list_elem_of_fmap. exact (wf_clean _ Hwf r Hr).
  - intros r' (r & -> & Hr)%list_elem_of_fmap. pose proof (wf_placed _ Hwf r Hr) as H. unfold placed in *.
    rewrite truthy_orphan by by apply Hleaf. cbn. destruct (truthy_id _); [|done]. destruct H as (p & Hp & H).
    exists (orphan id p). split; [by apply (list_elem_of_fmap_2 (orphan id))|exact H].
Qed.

Lemma delete_site_wf id s x s' : site_wf s -> delete_site id s = (Ok x, s') -> site_wf s'.
Proof.
  intros Hs H. pose proof (delete_site_links _ _ _ _ (wf_links _ Hs) H) as Hl. apply links_wf; [|done].
  apply delete_site_Ok in H as (g & c & Hg & <- & Hc & Hcount & ->).
  pose proof (deletable_is_leaf s g c (wf_links _ Hs) Hg Hc Hcount) as Hleaf. cbn [remove_site tree groups].
  apply orphan_wf; [by apply delete_leaf_wf; [apply Hs|]|]. intros r [Hr _]%elem_of_delete. by apply Hleaf.
Qed.

Lemma handle_site_wf sha256 r s x s' :
  site_wf s -> clean_site_request r = true -> handle_site like sha256 r s = (Ok x, s') -> site_wf s'.
Proof.
  intros Hs Hclean E. pose proof (agent_request_Ok like sha256 r s x s' (wf_links _ Hs) E) as H. revert E.
  destruct r as [id c|id u|id|id token|now id token url|now id]; try (intros _; apply links_wf; [rewrite (proj2 H); apply Hs|apply H]);
    cbn [handle_site].
  - step_M y s1 E. intros [= _ <-]. by eapply create_site_wf.
  - step_M y s1 E. intros [= _ <-]. by eapply update_site_wf.
  - by apply delete_site_wf.
Qed.

Lemma serve_site_wf sha256 r s : site_wf s -> clean_site_request r = true -> site_wf (serve_site like sha256 s r).
Proof.
  intros Hs Hclean. unfold serve_site, with_db. destruct (handle_site like sha256 r s) as [[x|e] s'] eqn:E; [|done].
  by eapply handle_site_wf.
Qed.
End Moves.

(** ** The properties *)


(** In a well-formed table a site's nodes with those of its descendant sites are exactly the nodes
    whose home is the site or a site below it, and the settings shown for it are those of the
    nearest site or the site itself that sets them. *)
Theorem site_reads_follow_the_tree like s g c
    (Hlike : forall q s, plain q = true -> plain s = true -> like q s = startswith q s)
    (Hs : site_wf s) (Hg : g ∈ groups (tree s)) (Hc : assoc_get (g_id g) (sites s) = Some c) :
  (exists ns, list_site_nodes like (g_id g) true s = (Ok ns, s)
     /\ forall n, n ∈ ns <-> exists home, (n, home) ∈ home_sites s
            /\ (home = g_id g \/ exists r, below (groups (tree s)) r g /\ g_id r = home))
  /\ exists anc,
       get_group_ancestors (Z.to_nat (g_depth g)) (g_id g) (groups (tree s)) = Some anc
       /\ compute_effective_site_settings (Z.to_nat (g_depth g)) g (groups (tree s))
          = Some (first_set g_default_workflow_id (g :: anc), default false (first_set g_auto_provision (g :: anc))).
Proof.
  pose proof (sw_tree _ Hs) as Hwf. pose proof (sql_find_Some g_id _ _ g (wf_ids _ Hwf) Hg eq_refl) as Hf.
  assert (forall r p, below (groups (tree s)) r p -> is_site s (g_id r) = is_site s (g_id p)) as Hall.
  { induction 1 as [r p H|r q p H _ IH]; [by apply (sw_nested _ Hs)|]. rewrite <- IH. by apply (sw_nested _ Hs). }
  assert (is_site s (g_id g) = true) as Hsite by (unfold is_site; by rewrite Hc).
  assert (forall r, r ∈ sql_select (fun r => like (g_path g ++ "/") (g_path r) && is_site s (g_id r)) (groups (tree s))
                    <-> below (groups (tree s)) r g) as Hsel.
  { intros r. rewrite elem_of_sql_select, andb_true_iff. split.
    - intros (Hr & E & _). rewrite (like_below like Hlike (groups (tree s))) in E by done.
      by apply (prefix_below (groups (tree s))).
    - intros H. assert (r ∈ groups (tree s)) as Hr by (destruct H as [? ? H|? ? ? H]; apply H).
      split; [done|]. rewrite (Hall _ _ H), (like_below like Hlike (groups (tree s))) by done.
      split; [|done]. by apply (prefix_below (groups (tree s))). }
  split.
  - unfold list_site_nodes, need_site. unfold_M. rewrite Hf, Hc. eexists. split; [reflexivity|].
    intros n. change (map fst) with (fmap (M := list) (@fst string string)). rewrite list_elem_of_fmap. split.
    + intros ([n' home] & -> & [Hn E%bool_decide_eq_true]%elem_of_sql_select). exists home. split; [done|].
      apply elem_of_cons in E as [E|E]; [by left|right].
      apply list_elem_of_fmap in E as (r & E & Hr%Hsel). by exists r.
    + intros (home & Hn & E). exists (n, home). split; [done|]. apply elem_of_sql_select. split; [done|].
      apply bool_decide_eq_true, elem_of_cons. cbn [snd]. destruct E as [E|(r & Hr%Hsel & <-)]; [by left|right].
      by apply (list_elem_of_fmap_2 g_id).
  - destruct (ancestors_chain _ Hwf g Hg) as (anc & Hwalk & _ & _ & Hinh).
    exists anc. unfold get_group_ancestors, compute_effective_site_settings. rewrite Hf, Hinh.
    split; [exact Hwalk|]. unfold first_set. cbn. by destruct (g_default_workflow_id g), (g_auto_provision g).
Qed.

(** *** Agents *)

Lemma need_site_set_cols id f s g c :
  sql_find g_id id (groups (tree s)) = Some g -> assoc_get id (sites s) = Some c ->
  let s' := s <| sites ::= map (fun kv => if String.eqb id kv.1 then (kv.1, f kv.2) else kv) |> in
  need_site id s' = (Ok (g, f c), s').
Proof.
  intros Hg Hc s'. unfold need_site. unfold_M. cbn. rewrite Hg, assoc_get_map, Hc, String.eqb_refl. done.
Qed.

Lemma register_Ok sha256 now id token url s g c :
  need_site id s = (Ok (g, c), s) -> s_agent_token_hash c = Some (sha256 token) -> sha256 token ≠ "" ->
  exists cfg s', register_agent sha256 now id token url s = (Ok cfg, s') /\ ac_site_id cfg = id /\ ac_site_name cfg = g_name g
    /\ need_site id s' = (Ok (g, seen now (c <| s_agent_url := Some url |>)), s').
Proof.
  intros Hn Hh Hne. pose proof Hn as (_ & Hg & Hc & _)%need_site_Ok.
  pose proof (need_site_set_cols id (fun x => seen now (x <| s_agent_url := Some url |>)) s g c Hg Hc) as Hn'.
  cbv zeta in Hn'. unfold register_agent. rewrite (bind_Ok _ _ _ _ _ Hn), Hh. cbn [truthy_id].
  unfold verify_token, hash_token. rewrite (proj2 (String.eqb_neq _ _) Hne), String.eqb_refl.
  do 2 eexists. split; [reflexivity|]. split; [done|]. split; [done|exact Hn'].
Qed.

(** The hash kept for the agent of [id], when [id] is a site. *)
Definition token_hash (id : string) (s : SiteDB) : option (option string) := s_agent_token_hash <$> assoc_get id (sites s).

Lemma token_hash_map id k f s : (forall c, s_agent_token_hash (f c) = s_agent_token_hash c) \/ k ≠ id ->
  token_hash id (s <| sites ::= map (fun kv => if String.eqb k kv.1 then (kv.1, f kv.2) else kv) |>) = token_hash id s.
Proof.
  intros H. unfold token_hash. cbn. rewrite assoc_get_map. destruct (assoc_get id (sites s)) as [c|]; [|done]. cbn.
  destruct (String.eqb_spec k id) as [->|]; [|done]. destruct H as [H|H]; [by rewrite H|done].
Qed.

Lemma token_hash_set id f s :
  token_hash id (s <| sites ::= map (fun kv => if String.eqb id kv.1 then (kv.1, f kv.2) else kv) |>)
  = (fun c => s_agent_token_hash (f c)) <$> assoc_get id (sites s).
Proof. unfold token_hash. cbn. rewrite assoc_get_map, String.eqb_refl. by destruct (assoc_get id (sites s)). Qed.

Lemma moving_keeps_sites like u g s s1 : moving like u g s = (Ok tt, s1) -> sites s1 = sites s.
Proof.
  unfold moving. destruct (su_parent_id u) as [np|].
  - intros (path & depth & _ & _ & -> & _)%reparent_site_Ok. done.
  - destruct (su_name u); [|by intros [= <-]]. by intros [_ ->]%on_tree_Ok.
Qed.

(** Only generating a token, deleting the site and creating it anew change the hash kept for it. *)
Lemma serve_token_hash like sha256 r s id : let s' := serve_site like sha256 s r in
  token_hash id s' = token_hash id s
  \/ match r with
     | GenerateToken i t => i = id /\ token_hash id s' = Some (Some (sha256 t))
     | DeleteSite i => i = id /\ token_hash id s' = None
     | CreateSite i _ => i = id /\ token_hash id s' = Some None
     | _ => False
     end.
Proof.
  unfold serve_site, with_db. destruct (handle_site like sha256 r s) as [[x|e] s'] eqn:E; [cbn [snd]|by left]. revert E.
  destruct r as [i c|i u|i|i token|now i token url|now i]; cbn [handle_site].
  - step_M y s1 E. intros [= _ <-]. apply create_site_Ok in E as (_ & path & depth & _ & -> & _). unfold token_hash. cbn.
    induction (sites s) as [|[k v] l IH]; cbn; [by destruct (String.eqb_spec id i) as [->|]; [right|left]|].
    destruct (String.eqb id k); [by left|done].
  - step_M y s1 E. intros [= _ <-]. apply update_site_Ok in E as (g & s2 & s3 & _ & _ & _ & _ & _ & Hm & Hs3 & _ & _ & ->). left.
    rewrite token_hash_map by (by left). unfold token_hash. rewrite Hs3. cbn. by rewrite (moving_keeps_sites _ _ _ _ _ Hm).
  - intros (g & c & _ & <- & _ & _ & ->)%delete_site_Ok. unfold token_hash. cbn.
    destruct (decide (id = g_id g)) as [->|]; [right; by rewrite assoc_get_del_eq|left; by rewrite assoc_get_del_ne].
  - step_M y s1 E. intros [= _ <-]. revert E. unfold generate_agent_token. step_M gc s0 H0. destruct gc as [g c].
    apply need_site_Ok in H0 as (-> & _ & Hc & _). step_M [] s2 H2. intros [= _ <-].
    apply (f_equal snd) in H2. cbn [snd set_cols modify] in H2. unfold set_cols, modify in H2. cbn [snd] in H2. subst s2.
    destruct (decide (i = id)) as [->|];
      [right|left; apply (token_hash_map _ _ (fun c => c <| s_agent_token_hash := Some (hash_token sha256 token) |>)); by right].
    split; [done|]. rewrite (token_hash_set id (fun c => c <| s_agent_token_hash := Some (hash_token sha256 token) |>)). by rewrite Hc.
  - step_M y s1 E. intros [= _ <-]. revert E. unfold register_agent. step_M gc s0 H0. destruct gc as [g c].
    apply need_site_Ok in H0 as (-> & _). destruct (truthy_id _) as [h|]; [|done]. destruct (verify_token _ _ _); [|done].
    step_M [] s2 H2. intros [= _ <-]. apply (f_equal snd) in H2. unfold set_cols, modify in H2. cbn [snd] in H2. subst s2.
    left. apply (token_hash_map _ _ (fun c => seen now (c <| s_agent_url := Some url |>))). by left.
  - unfold agent_heartbeat. step_M gc s0 H0. destruct gc as [g c]. apply need_site_Ok in H0 as (-> & _).
    intros H2. apply (f_equal snd) in H2. unfold set_cols, modify in H2. cbn [snd] in H2. subst s'. left. apply (token_hash_map _ _ (seen now)). by left.
Qed.

(** A request that leaves the token of [id] as it is, except by deleting the site. *)
Definition no_new_token (id : string) (r : site_request) : bool :=
  match r with GenerateToken i _ => negb (String.eqb i id) | _ => true end.
Definition no_deletion (id : string) (r : site_request) : bool :=
  match r with DeleteSite i => negb (String.eqb i id) | _ => true end.

Lemma run_token_hash like sha256 id h rs s : forallb (no_new_token id) rs = true -> token_hash id s = Some (Some h) ->
  let s' := run_sites like sha256 rs s in
  (forall h', token_hash id s' = Some (Some h') -> h' = h)
  /\ (forallb (no_deletion id) rs = true -> token_hash id s' = Some (Some h)).
Proof.
  intros Hrs Hh s'. split.
  - assert (forall h', token_hash id s = Some (Some h') -> h' = h) as H0 by (intros h'; congruence). clear Hh. subst s'. unfold run_sites.
    revert s H0. induction rs as [|r rs IH]; intros s H0; [done|]. cbn in Hrs. apply andb_true_iff in Hrs as [Hr Hrs]. cbn [fold_left].
    apply IH; [done|]. intros h' Hh'. pose proof (serve_token_hash like sha256 r s id) as [E|E]; [apply H0; congruence|].
    destruct r; try done; destruct E as [-> E]; [congruence|congruence|]. cbn in Hr. by rewrite String.eqb_refl in Hr.
  - subst s'. unfold run_sites. revert s Hh. induction rs as [|r rs IH]; intros s Hh Hd; [done|].
    cbn in Hrs, Hd. apply andb_true_iff in Hrs as [Hr Hrs], Hd as [Hdr Hd]. cbn [fold_left]. apply IH; [done| |done].
    pose proof (serve_token_hash like sha256 r s id) as [E|E]; [congruence|].
    destruct r as [i c|i u|i|i t| |]; try done; destruct E as [-> E].
    + revert E. unfold serve_site, with_db. destruct (handle_site like sha256 (CreateSite id c) s) as [[x|e] s'] eqn:E'; [|by cbn [snd]; rewrite Hh].
      revert E'. cbn [handle_site snd]. step_M y s1 E1. intros [= _ <-]. apply create_site_Ok in E1 as (_ & path & depth & _ & -> & _).
      revert Hh. unfold token_hash. cbn. induction (sites s) as [|[k v] l IHl]; cbn; [done|]. destruct (String.eqb id k); [congruence|done].
    + cbn in Hdr. by rewrite String.eqb_refl in Hdr.
    + cbn in Hr. by rewrite String.eqb_refl in Hr.
Qed.

Lemma run_links like sha256 rs s : site_links s -> site_links (run_sites like sha256 rs s).
Proof.
  unfold run_sites. revert s. induction rs as [|r rs IH]; intros s Hs; [done|]. by apply IH, serve_site_links.
Qed.

Lemma known_token id h s : site_links s -> token_hash id s = Some (Some h) ->
  exists g c, need_site id s = (Ok (g, c), s) /\ g_id g = id /\ s_agent_token_hash c = Some h.
Proof.
  intros Hs Hh. unfold token_hash in Hh. destruct (assoc_get id (sites s)) as [c|] eqn:Ec; [|done]. injection Hh as Hh.
  assert (id ∈ g_id <$> groups (tree s)) as (g & -> & Hg)%list_elem_of_fmap by (apply (sl_rows _ Hs); unfold is_site; by rewrite Ec).
  exists g, c. split; [|done]. unfold need_site. unfold_M.
  by rewrite (sql_find_Some g_id _ _ g (lk_ids _ (sl_linked _ Hs)) Hg eq_refl), Ec.
Qed.

Lemma generate_Ok sha256 id token s : site_links s -> is_site s id = true ->
  exists s1, generate_agent_token sha256 id token s = (Ok token, s1) /\ site_links s1 /\ token_hash id s1 = Some (Some (sha256 token)).
Proof.
  intros Hs Hid. pose proof (sl_rows _ Hs id Hid) as (g & -> & Hg)%list_elem_of_fmap. unfold is_site in Hid.
  destruct (assoc_get (g_id g) (sites s)) as [c|] eqn:Ec; [|done].
  eexists. unfold generate_agent_token, need_site. unfold_M.
  rewrite (sql_find_Some g_id _ _ g (lk_ids _ (sl_linked _ Hs)) Hg eq_refl), Ec. split; [reflexivity|]. split.
  - by apply set_cols_links.
  - rewrite (token_hash_set _ (fun c => c <| s_agent_token_hash := Some (hash_token sha256 token) |>)). by rewrite Ec.
Qed.

Lemma register_refused sha256 now id other url s : (forall h, token_hash id s = Some (Some h) -> h ≠ sha256 other) ->
  exists e, register_agent sha256 now id other url s = (Err e, s)
  /\ (forall h, h ≠ "" -> token_hash id s = Some (Some h) -> site_links s -> e = HTTPException 401 "Invalid registration token").
Proof.
  intros Hh. unfold register_agent. destruct (need_site id s) as [[[g c]|e] s0] eqn:E.
  - rewrite (bind_Ok _ _ _ _ _ E). apply need_site_Ok in E as (-> & _ & Hc & _).
    unfold token_hash in *. rewrite Hc in *. cbn in *. destruct (s_agent_token_hash c) as [h|] eqn:Et; cbn [truthy_id].
    + destruct (String.eqb_spec h "") as [->|]; [eexists; split; [reflexivity|congruence]|].
      unfold verify_token, hash_token. rewrite (proj2 (String.eqb_neq (sha256 other) h)) by (apply not_eq_sym; by apply Hh).
      by eexists.
    + eexists. split; [reflexivity|congruence].
  - rewrite (bind_Err _ _ _ _ _ E). assert (s0 = s) as -> by (revert E; unfold need_site; unfold_M; by repeat case_match; intros [= _ <-]).
    exists e. split; [done|]. intros h _ Ht Hs. destruct (known_token id h s Hs Ht) as (g & c & E' & _). congruence.
Qed.

Lemma register_accepted sha256 now id token url s : site_links s -> token_hash id s = Some (Some (sha256 token)) -> sha256 token ≠ "" ->
  exists cfg s', register_agent sha256 now id token url s = (Ok cfg, s') /\ ac_site_id cfg = id
    /\ get_agent_status now id s' = (Ok (Some "online"), s').
Proof.
  intros Hs Hh Hne. destruct (known_token _ _ _ Hs Hh) as (g & c & Hn & _ & Hc).
  destruct (register_Ok sha256 now id token url s g c Hn Hc Hne) as (cfg & s' & E & Hid & _ & Hn'). exists cfg, s'.
  split; [exact E|]. split; [done|]. unfold get_agent_status. rewrite (bind_Ok _ _ _ _ _ Hn'). cbn. by rewrite Z.sub_diag.
Qed.


(** The answer announces a token for one use within 24 hours; it works again and again until another one
    is generated. *)
Theorem token_is_never_spent like sha256 s id token rs
    (Hs : site_links s) (Hid : is_site s id = true) (Hne : sha256 token ≠ "")
    (Hrs : forallb (no_new_token id) rs = true) (Hd : forallb (no_deletion id) rs = true) :
  exists s1, generate_agent_token sha256 id token s = (Ok token, s1)
  /\ forall now url, exists cfg s3, register_agent sha256 now id token url (run_sites like sha256 rs s1) = (Ok cfg, s3).
Proof.
  destruct (generate_Ok sha256 id token s Hs Hid) as (s1 & E & Hs1 & Hh). exists s1. split; [done|]. intros now url.
  destruct (run_token_hash like sha256 id _ rs s1 Hrs Hh) as [_ Hkept].
  destruct (register_accepted sha256 now id token url (run_sites like sha256 rs s1)) as (cfg & s3 & E' & _); [by apply run_links|auto|done|].
  by exists cfg, s3.
Qed.

(** For a site whose agent was last heard of when it came online, the endpoint answers the status that
    the periodic job would write. *)
Theorem agent_status_as_the_job_writes now id s g c t
    (Hg : sql_find g_id id (groups (tree s)) = Some g) (Hc : assoc_get id (sites s) = Some c)
    (Ht : s_agent_last_seen c = Some t) (Hst : s_agent_status c = Some "online") :
  get_agent_status now id s = (Ok (Some (get_status_for_last_seen now (Some t))), s).
Proof.
  unfold get_agent_status, need_site. unfold_M. rewrite Hg, Hc, Ht. cbn [get_status_for_last_seen].
  unfold status_after, HEARTBEAT_INTERVAL, OFFLINE_THRESHOLD, DEGRADED_THRESHOLD.
  change (5 * 60 * 1000000)%Z with (60 * 5 * 1000000)%Z. change (2 * 60 * 1000000)%Z with (60 * 2 * 1000000)%Z.
  destruct (_ <? _)%Z; [done|]. by destruct (_ <? _)%Z; rewrite ?Hst.
Qed.

(** Deleting a site looks at the sites below it only: a regular group below it stays behind as a root
    with the path and depth it had, so that the table is no forest any more. *)
Theorem deleted_site_leaves_groups s g c r
    (Hwf : tree_wf (groups (tree s))) (Hc : assoc_get (g_id g) (sites s) = Some c)
    (Hr : child_of (groups (tree s)) r g)
    (Hchildren : count_children (g_id g) s = 0%Z) (Hnodes : count_nodes (g_id g) s = 0%Z) :
  exists s', delete_site (g_id g) s = (Ok tt, s')
    /\ orphan (g_id g) r ∈ groups (tree s') /\ g_parent_id (orphan (g_id g) r) = None
    /\ g_path (orphan (g_id g) r) = g_path g ++ "/" ++ g_name r
    /\ ~ tree_wf (groups (tree s')).
Proof.
  pose proof (child_place _ Hwf r g Hr) as [Hpath Hdepth]. pose proof (child_longer _ Hwf r g Hr) as Hlong.
  destruct Hr as (Hr & Hg & E). pose proof (sql_find_Some g_id _ _ g (wf_ids _ Hwf) Hg eq_refl) as Hf.
  assert (need_site (g_id g) s = (Ok (g, c), s)) as H0 by (unfold need_site; unfold_M; by rewrite Hf, Hc).
  exists (remove_site (g_id g) s). split.
  { unfold delete_site. rewrite (bind_Ok _ _ _ _ _ H0), (bind_Ok _ _ s s s) by done. by rewrite Hchildren, Hnodes. }
  assert (orphan (g_id g) r ∈ groups (tree (remove_site (g_id g) s))) as Hin.
  { apply (list_elem_of_fmap_2 (orphan (g_id g))). apply elem_of_delete. split; [done|]. apply has_key_false.
    intros Heq. assert (r = g) as -> by (by eapply by_id). lia. }
  assert (g_parent_id (orphan (g_id g) r) = None) as Hpar.
  { cbn. by rewrite (truthy_id_Some _ _ E), bool_decide_eq_true_2. }
  split; [done|]. split; [done|]. split; [done|]. intros Hwf'.
  pose proof (wf_placed _ Hwf' _ Hin) as H. unfold placed in H. rewrite Hpar in H. destruct H as [_ Hd]. cbn in Hd.
  destruct (ancestors_chain _ Hwf g Hg) as (anc & _ & Hlen & _). lia.
Qed.

(** ** An example *)

Definition sample_site (name : string) (parent_id : option string) : SiteCreate :=
  {| sc_name := name; sc_description := None; sc_parent_id := parent_id; sc_agent_url := None;
     sc_autonomy_level := "readonly"; sc_conflict_resolution := "central_wins"; sc_cache_policy := "minimal";
     sc_cache_patterns_json := None; sc_cache_max_size_gb := None; sc_cache_retention_days := 30;
     sc_discovery_method := "dhcp"; sc_discovery_config_json := None; sc_migration_policy := "manual" |}.

Definition move_site (parent_id : option string) : SiteUpdate :=
  {| su_name := None; su_description := None; su_parent_id := Some parent_id; su_agent_url := None;
     su_autonomy_level := Some (Some "full"); su_conflict_resolution := None; su_cache_policy := None;
     su_cache_patterns_json := None; su_cache_max_size_gb := None; su_cache_retention_days := None;
     su_discovery_method := None; su_discovery_config_json := None; su_migration_policy := None |}.

Definition no_sites : SiteDB :=
  {| tree := no_groups; sites := []; home_sites := []; sync_states := []; sync_conflicts := [] |}.

Definition sample_site_requests : list site_request :=
  [CreateSite "1" (sample_site "eu" None); CreateSite "2" (sample_site "paris" (Some "1"));
   CreateSite "3" (sample_site "lab" (Some "2")); CreateSite "4" (sample_site "us" None);
   UpdateSite "2" (move_site (Some "4")); GenerateToken "3" "secret"; Register 5 "3" "secret" "http://lab";
   DeleteSite "4"; DeleteSite "1"].

Definition sample_sites : SiteDB := run_sites startswith (fun t => t) sample_site_requests no_sites.

Lemma no_sites_wf : site_wf no_sites.
Proof.
  constructor; cbn; [apply no_groups_wf|constructor|by intros id|by intros r p [H _]; apply not_elem_of_nil in H|constructor].
Qed.

Lemma sample_sites_wf : site_wf sample_sites.
Proof. unfold sample_sites, run_sites. cbn [fold_left sample_site_requests]. by repeat (apply serve_site_wf; [done| |reflexivity]); apply no_sites_wf. Qed.


Definition paris : DeviceGroup :=
  {| g_id := "2"; g_name := "paris"; g_description := None; g_parent_id := Some "4"; g_path := "/us/paris"; g_depth := 1;
     g_default_workflow_id := None; g_auto_provision := None |}.
Definition paris_cols : SiteCols := apply_site_fields (move_site None) (new_cols (sample_site "paris" None)).

Lemma paris_found : sql_find g_id "2" (groups (tree sample_sites)) = Some paris.
Proof. vm_compute. reflexivity. Qed.
Lemma paris_cols_found : assoc_get "2" (sites sample_sites) = Some paris_cols.
Proof. vm_compute. reflexivity. Qed.

Definition with_homes : SiteDB := sample_sites <| home_sites := [("n1", "3"); ("n2", "4")] |>.

Example paris_nodes : (list_site_nodes startswith "2" true with_homes).1 = Ok ["n1"].
Proof. vm_compute. reflexivity. Qed.

Lemma with_homes_wf : site_wf with_homes.
Proof. destruct sample_sites_wf. by constructor. Qed.

Lemma site_reads_follow_the_tree_witness :
  exists ns, list_site_nodes startswith "2" true with_homes = (Ok ns, with_homes)
    /\ forall n, n ∈ ns <-> exists home, (n, home) ∈ home_sites with_homes
            /\ (home = "2" \/ exists r, below (groups (tree with_homes)) r paris /\ g_id r = home).
Proof.
  exact (proj1 (site_reads_follow_the_tree startswith with_homes paris paris_cols (fun q s _ _ => eq_refl) with_homes_wf
    (proj1 (sql_find_Some_1 _ _ _ _ paris_found)) paris_cols_found)).
Defined.

(** After an update of another site, a heartbeat and a wrong guess. *)
Definition later_requests : list site_request :=
  [UpdateSite "3" (move_site (Some "4")); Heartbeat 3 "2"; Register 4 "2" "guess" "http://x"].


(** The example after a heartbeat of the agent in Paris. *)
Definition heard : SiteDB := serve_site startswith (fun t => t) sample_sites (Heartbeat 0 "2").

Lemma agent_status_as_the_job_writes_witness :
  get_agent_status 200000000 "2" heard = (Ok (Some "degraded"), heard).
Proof.
  refine (agent_status_as_the_job_writes 200000000 "2" heard paris (seen 0 paris_cols) 0 _ _ _ _); vm_compute; reflexivity.
Defined.

(** The example with a regular group below Paris, whose site below is gone. *)
Definition with_rack : SiteDB :=
  serve_group startswith (Create "9" (plain_create "rack" (Some "2"))) (serve_site startswith (fun t => t) sample_sites (DeleteSite "3")).
Definition rack : DeviceGroup :=
  {| g_id := "9"; g_name := "rack"; g_description := None; g_parent_id := Some "2"; g_path := "/us/paris/rack"; g_depth := 2;
     g_default_workflow_id := None; g_auto_provision := None |}.

Lemma deleted_site_leaves_groups_witness :
  exists s', delete_site "2" with_rack = (Ok tt, s') /\ ~ tree_wf (groups (tree s')).
Proof.
  destruct (deleted_site_leaves_groups with_rack paris paris_cols rack) as (s' & E & _ & _ & _ & Hn).
  - apply (serve_wf startswith); [done|reflexivity|]. by apply serve_site_wf; [|apply sample_sites_wf|].
  - vm_compute. reflexivity.
  - split; [|split]; [| |reflexivity]; [refine (proj1 (sql_find_Some_1 g_id "9" _ _ _))|refine (proj1 (sql_find_Some_1 g_id "2" _ _ _))]; vm_compute; reflexivity.
  - vm_compute. reflexivity.
  - vm_compute. reflexivity.
  - exists s'. split; [exact E|exact Hn].
Defined.
