(* ===== verification/Scheduler.v ===== *)
(** * The scheduler of synchronisation jobs

    [core/scheduler.py].  What it uses of APScheduler is an interface: the
    table of scheduled calls, how a call is added and removed, and which
    triggers the library accepts.  The theorems are for every implementation
    with the documented laws; a finite map is one. *)
From S2P Require Import Prelude PyStr Controller.
From stdpp Require Import base tactics list strings gmap infinite.
From Stdlib Require Import Ascii ZArith Lia.
Open Scope string_scope.

(** ** The library *)

(** The fields [CronTrigger] is called with. *)
Record CronTrigger := {
  ct_day : option Z;
  ct_day_of_week : option Z;
  ct_hour : option Z;
  ct_minute : option Z
}.

#[export] Instance CronTrigger_eq_dec : EqDecision CronTrigger.
Proof. solve_decision. Defined.

(** A call the library makes at the trigger's times: [_execute_job] with its
    argument, which is the job's id, or [None]. *)
Record ScheduledCall := { trigger : CronTrigger; argument : option string }.

#[export] Instance ScheduledCall_eq_dec : EqDecision ScheduledCall.
Proof. solve_decision. Defined.

Class APScheduler (S : Type) := {
  calls : S -> gmap string ScheduledCall;
  trigger_ok : CronTrigger -> bool;                     (* [CronTrigger] raises no [ValueError] *)
  add_call : option string -> ScheduledCall -> S -> S;  (* [add_job(..., id=..., replace_existing=True)] *)
  remove_call : string -> S -> S;                       (* [remove_job], for a call that exists *)
  next_run : ScheduledCall -> S -> option Z             (* [next_run_time] *)
}.

Definition field_ok (lo hi : Z) (x : option Z) : bool :=
  match x with Some z => (lo <=? z)%Z && (z <=? hi)%Z | None => true end.
Definition fields_ok (t : CronTrigger) : bool :=
  field_ok 1 31 (ct_day t) && field_ok 0 6 (ct_day_of_week t) && field_ok 0 23 (ct_hour t) && field_ok 0 59 (ct_minute t).

(** A call added without an id gets a fresh one. *)
Class APSchedulerLaws (S : Type) {A : APScheduler S} := {
  trigger_ok_law t : trigger_ok t = fields_ok t;
  add_call_law k c s : calls (add_call (Some k) c s) = <[k := c]> (calls s);
  add_call_fresh c s : exists k, calls s !! k = None /\ calls (add_call None c s) = <[k := c]> (calls s);
  remove_call_law k s : calls (remove_call k s) = delete k (calls s)
}.

(** ** The scheduler *)

Section Scheduler.
Context {S : Type} {A : APScheduler S}.

Abbreviation SchedulerM X := (M S server_error X).

(** [remove_job]: a missing job, and so the id [None], is no error. *)
Definition remove_job (job_id : option string) : SchedulerM unit :=
  match job_id with
  | Some k => modify (fun s => match calls s !! k with Some _ => remove_call k s | None => s end)
  | None => mret tt
  end.

(** [hour, minute = map(int, schedule_time.split(":"))] *)
Definition parse_time (schedule_time : string) : option (Z * Z) :=
  match map py_int (split_on ":" schedule_time) with
  | [Some hour; Some minute] => Some (hour, minute)
  | _ => None
  end.

Definition cron_trigger (schedule : string) (schedule_day : option Z) (hour minute : Z) : option CronTrigger :=
  if String.eqb schedule "hourly" then
    Some {| ct_day := None; ct_day_of_week := None; ct_hour := None; ct_minute := Some 0%Z |}
  else if String.eqb schedule "daily" then
    Some {| ct_day := None; ct_day_of_week := None; ct_hour := Some hour; ct_minute := Some minute |}
  else if String.eqb schedule "weekly" then
    Some {| ct_day := None; ct_day_of_week := schedule_day; ct_hour := Some hour; ct_minute := Some minute |}
  else if String.eqb schedule "monthly" then
    Some {| ct_day := schedule_day; ct_day_of_week := None; ct_hour := Some hour; ct_minute := Some minute |}
  else None.

Definition hour_minute (schedule_time : option string) : SchedulerM (Z * Z) :=
  match schedule_time with
  | Some t => if String.eqb t "" then mret (0%Z, 0%Z)
              else match parse_time t with Some hm => mret hm | None => raise ValueError end
  | None => mret (0%Z, 0%Z)
  end.

(** The trigger for the schedule, and the call it makes. *)
Definition add_trigger (job_id : option string) (schedule : string) (schedule_day : option Z) (hour minute : Z)
    : SchedulerM (option Z) :=
  match cron_trigger schedule schedule_day hour minute with
  | None => mret None
  | Some t =>
      if trigger_ok t then
        let call := {| trigger := t; argument := job_id |} in
        modify (add_call job_id call);;
        s ← get_state;
        mret (next_run call s)
      else raise ValueError
  end.

Definition schedule_job (job_id : option string) (schedule : string) (schedule_day : option Z)
    (schedule_time : option string) : SchedulerM (option Z) :=
  remove_job job_id;;
  if String.eqb schedule "manual" then mret None
  else
    '(hour, minute) ← hour_minute schedule_time;
    add_trigger job_id schedule schedule_day hour minute.

Definition get_next_run_time (job_id : option string) : SchedulerM (option Z) :=
  s ← get_state;
  mret (match job_id with
        | Some k => match calls s !! k with Some c => next_run c s | None => None end
        | None => None
        end).
End Scheduler.

(** ** What a schedule needs to be accepted *)

Definition SCHEDULES : list string := ["manual"; "hourly"; "daily"; "weekly"; "monthly"].

(** [^([01]\d|2[0-3]):[0-5]\d$] *)
Definition clock_time (s : string) : bool :=
  match s with
  | String a (String b (String ":" (String c (String d EmptyString)))) =>
      match digit_value a, digit_value b, digit_value c, digit_value d with
      | Some x, Some y, Some z, Some _ => ((x <=? 1) || (x =? 2) && (y <=? 3))%Z && (z <=? 5)%Z
      | _, _, _, _ => false
      end
  | _ => false
  end.

(** The day that a schedule takes, if it is given. *)
Definition day_ok (schedule : string) (day : option Z) : bool :=
  if String.eqb schedule "weekly" then field_ok 0 6 day
  else if String.eqb schedule "monthly" then field_ok 1 31 day
  else true.

Example clock_1 : clock_time "23:59" = true. Proof. reflexivity. Qed.
Example clock_2 : clock_time "24:00" = false. Proof. reflexivity. Qed.
Example time_1 : parse_time "07:30" = Some (7, 30)%Z. Proof. reflexivity. Qed.

(** ** A finite map as the library *)

Record MapScheduler := { ms_calls : gmap string ScheduledCall; ms_next : CronTrigger -> Z }.

#[export] Instance map_scheduler : APScheduler MapScheduler := {
  calls := ms_calls;
  trigger_ok := fields_ok;
  add_call k c s := s <| ms_calls ::= <[default (fresh (dom (ms_calls s))) k := c]> |>;
  remove_call k s := s <| ms_calls ::= delete k |>;
  next_run c s := Some (ms_next s (trigger c))
}.

#[export] Instance map_scheduler_laws : APSchedulerLaws MapScheduler.
Proof.
  constructor; try done. intros c s. exists (fresh (dom (ms_calls s))). split; [|done].
  apply not_elem_of_dom, is_fresh.
Qed.

(** ** What scheduling does *)

Section Theorems.
Context {S : Type} {A : APScheduler S} {L : APSchedulerLaws S}.

Lemma remove_job_calls k s : calls (remove_job (Some k) s).2 = delete k (calls s).
Proof.
  unfold remove_job, modify. cbn. destruct (calls s !! k) eqn:E; [apply remove_call_law|].
  by rewrite delete_id.
Qed.

Lemma digit_value_cases c x : digit_value c = Some x ->
  c ∈ ["0"; "1"; "2"; "3"; "4"; "5"; "6"; "7"; "8"; "9"]%char /\ (0 <= x <= 9)%Z.
Proof.
  intros H. split.
  - revert H. destruct c as [[] [] [] [] [] [] [] []]; vm_compute digit_value; try done; intros _; set_solver.
  - revert H. unfold digit_value. destruct (_ && _) eqn:E; [|done]. intros [= <-].
    apply andb_true_iff in E as [H1%Nat.leb_le H2%Nat.leb_le]. lia.
Qed.

Lemma py_int_two a b x y : digit_value a = Some x -> digit_value b = Some y ->
  py_int (String a (String b EmptyString)) = Some (10 * x + y)%Z /\ Ascii.eqb ":" a = false /\ Ascii.eqb ":" b = false.
Proof.
  intros Ha Hb. pose proof (digit_value_cases _ _ Ha) as [Ia _]. pose proof (digit_value_cases _ _ Hb) as [Ib _].
  repeat (apply elem_of_cons in Ia as [->|Ia]); try (by apply not_elem_of_nil in Ia); injection Ha as <-;
    repeat (apply elem_of_cons in Ib as [->|Ib]); try (by apply not_elem_of_nil in Ib); injection Hb as <-; by vm_compute.
Qed.

(** A time of the form HH:MM is read as an hour and a minute. *)
Lemma clock_time_parse t : clock_time t = true ->
  exists h m, parse_time t = Some (h, m) /\ (0 <= h <= 23)%Z /\ (0 <= m <= 59)%Z.
Proof.
  destruct t as [|a [|b [|x [|c [|d [|]]]]]]; cbn; try done; try (by destruct x as [[] [] [] [] [] [] [] []]).
  destruct (Ascii.eqb_spec ":" x) as [<-|Hx]; [|by destruct x as [[] [] [] [] [] [] [] []]].
  destruct (digit_value a) as [va|] eqn:Ea; [|done]. destruct (digit_value b) as [vb|] eqn:Eb; [|done].
  destruct (digit_value c) as [vc|] eqn:Ec; [|done]. destruct (digit_value d) as [vd|] eqn:Ed; [|done].
  intros H. destruct (py_int_two a b va vb Ea Eb) as (H1 & Na & Nb). destruct (py_int_two c d vc vd Ec Ed) as (H2 & Nc & Nd).
  pose proof (proj2 (digit_value_cases _ _ Ea)). pose proof (proj2 (digit_value_cases _ _ Eb)).
  pose proof (proj2 (digit_value_cases _ _ Ec)). pose proof (proj2 (digit_value_cases _ _ Ed)).
  exists (10 * va + vb)%Z, (10 * vc + vd)%Z. unfold parse_time. cbn [split_on]. rewrite Na, Nb, Nc, Nd. cbn [Ascii.eqb Bool.eqb map]. rewrite H1, H2. split; [done|].
  apply andb_true_iff in H as [H Hz%Z.leb_le]. apply orb_true_iff in H as [H%Z.leb_le|[H%Z.eqb_eq Hb%Z.leb_le]%andb_true_iff]; lia.
Qed.

(** The schedules a job may have, with the day and time they need. *)
Record schedule_valid (schedule : string) (day : option Z) (time : option string) : Prop := {
  sv_schedule : schedule ∈ SCHEDULES;
  sv_day : day_ok schedule day = true;
  sv_time t : time = Some t -> clock_time t = true
}.

Lemma cron_trigger_ok schedule day h m :
  day_ok schedule day = true -> (0 <= h <= 23)%Z -> (0 <= m <= 59)%Z -> schedule ∈ SCHEDULES -> schedule ≠ "manual" ->
  exists t, cron_trigger schedule day h m = Some t /\ fields_ok t = true.
Proof.
  intros Hd Hh Hm Hs Hne.
  assert (field_ok 0 23 (Some h) = true) as Eh by (cbn; by rewrite !(proj2 (Z.leb_le _ _)) by lia).
  assert (field_ok 0 59 (Some m) = true) as Em by (cbn; by rewrite !(proj2 (Z.leb_le _ _)) by lia).
  unfold fields_ok. repeat (apply elem_of_cons in Hs as [->|Hs]); try (by apply not_elem_of_nil in Hs); try done;
    (eexists; split; [reflexivity|]); cbn [ct_day ct_day_of_week ct_hour ct_minute]; rewrite ?Eh, ?Em; unfold day_ok in Hd; cbn in *;
    by rewrite ?Hd.
Qed.

Lemma hour_minute_run time (s : S) : (hour_minute time s).2 = s.
Proof. unfold hour_minute. unfold_M. by repeat case_match. Qed.

(** A call is added for the trigger, or nothing happens. *)
Lemma add_trigger_run id schedule day h m s :
  ((add_trigger id schedule day h m s).2 = s
   /\ (forall t, cron_trigger schedule day h m = Some t -> trigger_ok t = false))
  \/ exists next t, cron_trigger schedule day h m = Some t /\ trigger_ok t = true
     /\ add_trigger id schedule day h m s = (Ok next, add_call id {| trigger := t; argument := id |} s).
Proof.
  unfold add_trigger. unfold_M. destruct (cron_trigger _ _ _ _) as [t|]; [|by left].
  destruct (trigger_ok t) eqn:E; [right; by do 2 eexists|left]. split; [done|]. by intros t' [= <-].
Qed.

(** However it ends, a new schedule for a job leaves all other calls alone, and the job has the
    call that its schedule asks for, with its own id as the argument, or none: a schedule that is
    refused or manual has lost the one before. *)
Lemma schedule_job_replaces k schedule day time s r s' :
  schedule_job (Some k) schedule day time s = (r, s') ->
  (forall k', k' ≠ k -> calls s' !! k' = calls s !! k')
  /\ (calls s' !! k = None
      \/ exists next h m t, r = Ok next /\ cron_trigger schedule day h m = Some t /\ trigger_ok t = true
          /\ calls s' !! k = Some {| trigger := t; argument := Some k |}).
Proof.
  pose proof (remove_job_calls k s) as Hr. unfold schedule_job. rewrite (bind_Ok _ _ s tt (remove_job (Some k) s).2) by done.
  set (s0 := (remove_job (Some k) s).2) in *.
  assert (calls s0 !! k = None) as H0 by (rewrite Hr; apply lookup_delete_eq).
  assert (forall k', k' ≠ k -> calls s0 !! k' = calls s !! k') as H1 by (intros k' Hk; rewrite Hr; by apply lookup_delete_ne).
  clearbody s0.
  destruct (String.eqb schedule "manual"); [intros [= <- <-]; auto|].
  pose proof (hour_minute_run time s0) as Hs. destruct (hour_minute time s0) as [[[h m]|e] s1] eqn:E; cbn in Hs; subst s1;
    [|rewrite (bind_Err _ _ _ _ _ E); intros [= <- <-]; auto].
  rewrite (bind_Ok _ _ _ _ _ E). cbv beta iota. destruct (add_trigger_run (Some k) schedule day h m s0) as [[H _]|(next & t & Ht & Hok & ->)].
  - intros Hrun. rewrite Hrun in H. cbn in H. subst s'. auto.
  - intros [= <- <-]. rewrite add_call_law. split; [intros k' Hk; rewrite lookup_insert_ne by done; auto|right].
    do 4 eexists. split; [reflexivity|]. split; [exact Ht|]. split; [done|]. apply lookup_insert_eq.
Qed.

Lemma hour_minute_valid time (s : S) : (forall t, time = Some t -> clock_time t = true) ->
  exists h m, hour_minute time s = (Ok (h, m), s) /\ (0 <= h <= 23)%Z /\ (0 <= m <= 59)%Z
    /\ (forall x, time = Some x -> parse_time x = Some (h, m)).
Proof.
  intros Ht. destruct time as [t|]; [|exists 0%Z, 0%Z; repeat split; done || lia].
  destruct (clock_time_parse t (Ht t eq_refl)) as (h & m & Hp & Hh & Hm). exists h, m. unfold hour_minute. rewrite Hp.
  destruct (String.eqb_spec t "") as [->|_]; [by specialize (Ht "" eq_refl)|].
  repeat split; try lia. by intros x [= <-].
Qed.

(** A schedule the schemas accept is never refused. *)
Lemma schedule_job_valid id schedule day time s : schedule_valid schedule day time ->
  exists next s', schedule_job id schedule day time s = (Ok next, s')
  /\ forall k, id = Some k -> schedule ≠ "manual" -> exists h m t,
        cron_trigger schedule day h m = Some t /\ calls s' !! k = Some {| trigger := t; argument := Some k |}
        /\ (forall x, time = Some x -> parse_time x = Some (h, m)).
Proof.
  intros [Hs Hd Ht]. unfold schedule_job. rewrite (bind_Ok _ _ s tt (remove_job id s).2) by (by destruct id).
  destruct (String.eqb_spec schedule "manual") as [->|Hne]; [do 2 eexists; by split|].
  destruct (hour_minute_valid time (remove_job id s).2 Ht) as (h & m & E & Hh & Hm & Hx).
  rewrite (bind_Ok _ _ _ _ _ E). cbv beta iota. destruct (cron_trigger_ok schedule day h m Hd Hh Hm Hs Hne) as (t & Hct & Hok).
  destruct (add_trigger_run id schedule day h m (remove_job id s).2) as [[_ H]|(next & t' & Ht' & _ & ->)].
  { specialize (H t Hct). rewrite trigger_ok_law in H. congruence. }
  rewrite Hct in Ht'. injection Ht' as <-. do 2 eexists. split; [reflexivity|]. intros k -> _. exists h, m, t.
  split; [done|]. split; [|done]. rewrite add_call_law. apply lookup_insert_eq.
Qed.

(** Scheduling without an id: no call is made with a job's id that was not made before. *)
Lemma schedule_job_anonymous schedule day time s r s' k :
  schedule_job None schedule day time s = (r, s') ->
  (forall n c, calls s !! n = Some c -> argument c ≠ Some k) -> forall n c, calls s' !! n = Some c -> argument c ≠ Some k.
Proof.
  intros H Hs. unfold schedule_job in H. rewrite (bind_Ok _ _ s tt s) in H by done.
  destruct (String.eqb schedule "manual"); [by injection H as _ <-|].
  pose proof (hour_minute_run time s) as Hhm. destruct (hour_minute time s) as [[[h m]|e] s1] eqn:E; cbn in Hhm; subst s1;
    [|rewrite (bind_Err _ _ _ _ _ E) in H; by injection H as _ <-].
  rewrite (bind_Ok _ _ _ _ _ E) in H. cbv beta iota in H. destruct (add_trigger_run None schedule day h m s) as [[Hsame _]|(next & t & _ & _ & Hadd)].
  { rewrite H in Hsame. cbn in Hsame. by subst s'. }
  rewrite Hadd in H. injection H as _ <-. intros n c.
  destruct (add_call_fresh {| trigger := t; argument := None |} s) as (f & Hf & ->).
  destruct (decide (f = n)) as [->|Hne]; [rewrite lookup_insert_eq; by intros [= <-]|].
  rewrite lookup_insert_ne by done. apply Hs.
Qed.

(** The schedules the library takes. *)
Definition schedule_accepted (schedule : string) (day : option Z) (time : option string) : Prop :=
  schedule = "manual" \/ exists h m t,
    (forall s : S, hour_minute time s = (Ok (h, m), s)) /\ cron_trigger schedule day h m = Some t /\ fields_ok t = true.

Lemma hour_minute_Ok time (s : S) h m s' :
  hour_minute time s = (Ok (h, m), s') -> forall s0 : S, hour_minute time s0 = (Ok (h, m), s0).
Proof. unfold hour_minute. unfold_M. intros H s0. revert H. by repeat case_match; intros [= <- <-]. Qed.

Lemma cron_trigger_known schedule day h m : schedule ∈ SCHEDULES -> schedule ≠ "manual" -> cron_trigger schedule day h m ≠ None.
Proof. intros Hs Hne. repeat (apply elem_of_cons in Hs as [->|Hs]); try done. by apply not_elem_of_nil in Hs. Qed.

Lemma schedule_job_accepts id schedule day time s next s' : schedule ∈ SCHEDULES ->
  schedule_job id schedule day time s = (Ok next, s') -> schedule_accepted schedule day time.
Proof.
  intros Hs. unfold schedule_job. rewrite (bind_Ok _ _ s tt (remove_job id s).2) by (by destruct id).
  destruct (String.eqb_spec schedule "manual") as [->|Hne]; [by left|].
  intros H. right. revert H. cbv iota. step_M [h m] s1 E. pose proof (hour_minute_Ok _ _ _ _ _ E) as Hall.
  destruct (cron_trigger schedule day h m) as [t|] eqn:Et; [|by destruct (cron_trigger_known schedule day h m Hs Hne)].
  unfold add_trigger. rewrite Et. destruct (trigger_ok t) eqn:Eok; [|done]. intros _. exists h, m, t.
  by rewrite trigger_ok_law in Eok.
Qed.

Lemma schedule_accepted_runs k schedule day time s : schedule_accepted schedule day time -> schedule ≠ "manual" ->
  exists next s' h m t, schedule_job (Some k) schedule day time s = (Ok next, s')
  /\ cron_trigger schedule day h m = Some t /\ calls s' = <[k := {| trigger := t; argument := Some k |}]> (delete k (calls s)).
Proof.
  intros [->|(h & m & t & Hhm & Ht & Hok)] Hne; [done|]. unfold schedule_job.
  rewrite (bind_Ok _ _ s tt (remove_job (Some k) s).2) by done. rewrite (proj2 (String.eqb_neq _ _) Hne).
  rewrite (bind_Ok _ _ _ _ _ (Hhm _)). cbv beta iota. unfold add_trigger. rewrite Ht, trigger_ok_law, Hok.
  do 5 eexists. split; [reflexivity|]. split; [exact Ht|]. by rewrite add_call_law, remove_job_calls.
Qed.

Lemma schedule_valid_accepted schedule day time (s : S) : schedule_valid schedule day time -> schedule_accepted schedule day time.
Proof.
  intros H. destruct (schedule_job_valid None schedule day time s H) as (next & s' & E & _).
  eapply schedule_job_accepts; [apply H|exact E].
Qed.
End Theorems.
