(* ===== verification/SyncService.v ===== *)
(** * The synchronisation service

    [core/sync.py]: rsync is run for a job, at most three at a time, its output
    is read line by line and its progress broadcast, and the versions of a
    destination are pruned.  What the processes print, when they end and the
    loop's clock are given by the events of a run (SyncJobs); of the file system
    only directories matter. *)
From S2P Require Import Prelude PyStr Paths SqlTable Controller.
From stdpp Require Import base tactics list sorting strings gmap pretty.
From Stdlib Require Import Ascii ZArith Lia.
Open Scope string_scope.
#[local] Arguments String.append !_ _ : simpl nomatch.

(** ** Rows *)

Record Backend := {
  bk_id : string;
  bk_status : string;
  bk_mount_point : option string
}.

Record SyncJob := {
  j_id : string;
  j_name : string;
  j_source_url : string;
  j_destination_backend_id : string;
  j_destination_path : string;
  j_include_pattern : option string;
  j_exclude_pattern : option string;
  j_schedule : string;
  j_schedule_day : option Z;
  j_schedule_time : option string;
  j_verify_checksums : bool;
  j_delete_removed : bool;
  j_keep_versions : Z;
  j_status : string;
  j_last_run_at : option Z;
  j_last_error : option string;
  j_next_run_at : option Z
}.

Record SyncJobRun := {
  r_id : string;
  r_job_id : string;
  r_started_at : Z;
  r_completed_at : option Z;
  r_status : string;
  r_files_synced : Z;
  r_bytes_transferred : Z;
  r_progress_percent : Z;
  r_error : option string
}.

Record SyncDB := { jobs : list SyncJob; runs : list SyncJobRun; sync_backends : list Backend }.

Record SyncProgress := {
  p_job_id : string;
  p_run_id : string;
  p_status : string;
  p_current_file : option string;
  p_files_synced : Z;
  p_bytes_transferred : Z;
  p_progress_percent : Z;
  p_error : option string
}.

(** ** Tasks *)

(** [Receiving]: the process, the directory of the versions, what was counted so far. *)
Inductive phase : Type :=
| Waiting
| Receiving (process : Z) (base : PurePath) (files bytes : Z).

(** A call of [run_sync] with the objects it was given; these belong to no
    session any more and keep their attributes. *)
Record Task := { tk_job : SyncJob; tk_run : SyncJobRun; tk_phase : phase }.

Record SyncService := {
  running_processes : list (string * Z);
  last_broadcast : list (string * Z);     (* times of the loop, microseconds *)
  tasks : list Task;
  directories : gset PurePath;
  progress : list (Z * SyncProgress);     (* sent so far, with the loop's time *)
  terminated : list Z                     (* processes *)
}.

Abbreviation World := (SyncDB * SyncService)%type.

Definition MAX_CONCURRENT_SYNCS : nat := 3.

Definition receiving (t : Task) : bool := match tk_phase t with Receiving _ _ _ _ => true | Waiting => false end.

(** The holders of the semaphore. *)
Definition active (s : SyncService) : nat := length (List.filter receiving (tasks s)).

Record Clock := { loop_time : Z; utc_now : Z }.

(** ** The name of a version *)

Record Civil := { year : Z; month : Z; day : Z; hour : Z; minute : Z; second : Z }.

(** [%m], [%d], [%H], [%M] and [%S] *)
Definition two_digits (z : Z) : string := if (z <? 10)%Z then "0" ++ pretty z else pretty z.

(** [strftime("%Y-%m-%dT%H:%M:%S")] *)
Definition timestamp (t : Civil) : string :=
  pretty (year t) ++ "-" ++ two_digits (month t) ++ "-" ++ two_digits (day t) ++ "T"
  ++ two_digits (hour t) ++ ":" ++ two_digits (minute t) ++ ":" ++ two_digits (second t).

(** ** The command *)

Definition _build_rsync_command (job : SyncJob) (dest_path : string) : list string :=
  (["rsync"; "-avz"; "--progress"; "--info=progress2"]
   ++ (match j_include_pattern job with Some p => if String.eqb p "" then [] else ["--include"; p] | None => [] end)
   ++ (match j_exclude_pattern job with Some p => if String.eqb p "" then [] else ["--exclude"; p] | None => [] end)
   ++ (if j_verify_checksums job then ["--checksum"] else [])
   ++ (if j_delete_removed job then ["--delete"] else [])
   ++ [j_source_url job; (dest_path ++ "/")%string])%list.

(** ** Its output *)

Definition nonempty (s : string) : bool := negb (String.eqb s "").

(** [\w] on 8-bit characters *)
Definition is_word (c : ascii) : bool :=
  is_digit c || is_lower c || is_upper c || Ascii.eqb c "_"
  || existsb (N.eqb (N_of_ascii c)) [170; 178; 179; 181; 185; 186; 188; 189; 190]%N
  || (in_range 192 255 c && negb (N.eqb (N_of_ascii c) 215) && negb (N.eqb (N_of_ascii c) 247)).

Fixpoint last_char (s : string) : option ascii :=
  match s with
  | EmptyString => None
  | String c EmptyString => Some c
  | String _ r => last_char r
  end.

(** [[\d.]+\w+/s] at the start: the word may begin inside the run of digits and
    dots only when nothing else follows that run. *)
Definition match_speed (s : string) : bool :=
  let '(d, r) := span (fun c => is_digit c || Ascii.eqb c ".") s in
  let '(w, r') := span is_word r in
  nonempty d
  && (nonempty w || (2 <=? String.length d)%nat && match last_char d with Some c => is_digit c | None => false end)
  && startswith "/s" r'.

(** [([\d,]+)\s+(\d+)%\s+([\d.]+\w+/s)] at the start, the first two groups. *)
Definition match_progress (s : string) : option (string * string) :=
  let '(n, r) := span (fun c => is_digit c || Ascii.eqb c ",") s in
  let '(sp, r) := span is_space r in
  let '(pct, r) := span is_digit r in
  match r with
  | String "%" r =>
      let '(sp', r) := span is_space r in
      if nonempty n && nonempty sp && nonempty pct && nonempty sp' && match_speed r then Some (n, pct) else None
  | _ => None
  end.

(** [PROGRESS_PATTERN.search] *)
Fixpoint search_progress (s : string) : option (string * string) :=
  match match_progress s with
  | Some m => Some m
  | None => match s with EmptyString => None | String _ r => search_progress r end
  end.

Definition without_commas (s : string) : string := str_replace "," "" s.

(** [line.split()[-1]], of a stripped line. *)
Fixpoint last_word (s : string) : string :=
  match s with
  | EmptyString => EmptyString
  | String c r => if str_forall (fun d => negb (is_space d)) s then s else last_word r
  end.

Example progress_1 : search_progress "    1,234,567,890  45%   12.34MB/s    0:05:23" = Some ("1,234,567,890", "45").
Proof. vm_compute. reflexivity. Qed.
Example progress_2 : search_progress "sent 1,234 bytes  received 35 bytes  2,538.00 bytes/sec" = None.
Proof. vm_compute. reflexivity. Qed.
Example progress_3 : match_speed "12/s" = true. Proof. vm_compute. reflexivity. Qed.
Example progress_4 : match_speed "1./s" = false. Proof. vm_compute. reflexivity. Qed.

(** ** Broadcasts *)

Section Service.
Context (no_result : string).           (* the text of [NoResultFound] *)

Abbreviation ServiceM A := (M (SyncDB * SyncService) string A).

Definition on_service (f : SyncService -> SyncService) : ServiceM unit := modify (fun x => (x.1, f x.2)).
Definition on_db (f : SyncDB -> SyncDB) : ServiceM unit := modify (fun x => (f x.1, x.2)).

Definition progress_of (tk : Task) (status : string) (file : option string) (files bytes percent : Z) (error : option string)
    : SyncProgress :=
  {| p_job_id := j_id (tk_job tk); p_run_id := r_id (tk_run tk); p_status := status; p_current_file := file;
     p_files_synced := files; p_bytes_transferred := bytes; p_progress_percent := percent; p_error := error |}.

Definition broadcast_progress (c : Clock) (p : SyncProgress) : ServiceM unit :=
  on_service (fun s => s <| progress ::= fun l => (l ++ [(loop_time c, p)])%list |>).

Definition _broadcast_throttled (c : Clock) (p : SyncProgress) : ServiceM unit :=
  x ← get_state;
  if (loop_time c - default 0 (assoc_get (p_job_id p) (last_broadcast x.2)) <? 500000)%Z then mret tt
  else
    on_service (fun s => s <| last_broadcast ::= assoc_set (p_job_id p) (loop_time c) |>);;
    broadcast_progress c p.

(** ** Versions and old runs *)

Definition below_path (p q : PurePath) : bool :=
  String.eqb (root p) (root q) && bool_decide (parts p `prefix_of` parts q).

Definition child (p : PurePath) (name : string) : PurePath := {| root := root p; parts := (parts p ++ [name])%list |}.

(** The names of the directories in [base]. *)
Definition child_name (base p : PurePath) : option string :=
  match rev (parts p) with
  | name :: _ => if bool_decide (p = child base name) then Some name else None
  | [] => None
  end.
Definition iterdir (base : PurePath) (dirs : gset PurePath) : list string := omap (child_name base) (elements dirs).

(** [mkdir(parents=True, exist_ok=True)] *)
Fixpoint prefixes {A} (l : list A) : list (list A) :=
  match l with [] => [[]] | x :: l => [] :: map (cons x) (prefixes l) end.
Definition mkdir (p : PurePath) (dirs : gset PurePath) : gset PurePath :=
  list_to_set (map (fun l => {| root := root p; parts := l |}) (prefixes (parts p))) ∪ dirs.

(** [shutil.rmtree] *)
Definition rmtree (p : PurePath) (dirs : gset PurePath) : gset PurePath := filter (fun q => below_path p q = false) dirs.

(** The names that go: all but the last [keep] in order. *)
Definition old_versions (keep_versions : Z) (names : list string) : list string :=
  drop (Z.to_nat keep_versions) (rev (order_by_text id names)).

Definition prune (base : PurePath) (keep_versions : Z) (dirs : gset PurePath) : gset PurePath :=
  if (keep_versions <=? 0)%Z then dirs
  else foldr (fun name => rmtree (child base name)) dirs (old_versions keep_versions (iterdir base dirs)).

Definition _prune_versions (base : PurePath) (keep_versions : Z) : ServiceM unit :=
  on_service (fun s => s <| directories ::= prune base keep_versions |>).

Definition _cleanup_old_runs (c : Clock) (job_id : string) : ServiceM unit :=
  let cutoff := (utc_now c - 30 * 24 * 60 * 60 * 1000000)%Z in
  on_db (fun d => d <| runs ::= fun l =>
    (sql_delete (fun r => String.eqb (r_job_id r) job_id && (r_started_at r <? cutoff)%Z) l).1 |>).

(** ** A run, from await to await *)

Definition set_job (id : string) (f : SyncJob -> SyncJob) : ServiceM unit :=
  on_db (fun d => d <| jobs ::= fun l => (sql_update (has_key j_id id) f l).1 |>).
Definition set_run (id : string) (f : SyncJobRun -> SyncJobRun) : ServiceM unit :=
  on_db (fun d => d <| runs ::= fun l => (sql_update (has_key r_id id) f l).1 |>).
Definition set_task (i : nat) (p : phase) : ServiceM unit :=
  on_service (fun s => s <| tasks ::= alter (fun tk => tk <| tk_phase := p |>) i |>).
Definition drop_task (i : nat) : ServiceM unit := on_service (fun s => s <| tasks ::= delete i |>).
Definition set_process (job_id : string) (p : Z) : ServiceM unit :=
  on_service (fun s => s <| running_processes ::= assoc_set job_id p |>).
Definition drop_process (job_id : string) : ServiceM unit :=
  on_service (fun s => s <| running_processes ::= assoc_del job_id |>).

(** The [except] of [_execute_sync]. *)
Definition fail_sync (c : Clock) (tk : Task) (e : string) : ServiceM unit :=
  set_run (r_id (tk_run tk)) (fun r => r <| r_completed_at := Some (utc_now c) |> <| r_status := "failed" |>
                                         <| r_error := Some e |>);;
  set_job (j_id (tk_job tk)) (fun j => j <| j_status := "failed" |> <| j_last_run_at := Some (utc_now c) |>
                                         <| j_last_error := Some e |>);;
  broadcast_progress c (progress_of tk "failed" None 0 0 0 (Some e)).

(** The directory of a job's versions, [Path(mount_point) / job.destination_path]. *)
Definition versions_dir (mount_point : string) (job : SyncJob) : PurePath :=
  path_join (path_of mount_point) (path_of (j_destination_path job)).

(** Up to the start of the process; [spawned] is the process or what was raised. *)
Definition start_sync (i : nat) (tk : Task) (t : Civil) (spawned : result string Z) : ServiceM unit :=
  x ← get_state;
  match sql_find bk_id (j_destination_backend_id (tk_job tk)) (sync_backends x.1) with
  | Some b =>
      match bk_mount_point b with
      | Some mount_point =>
          if String.eqb mount_point "" then raise "Backend not mounted or not found"
          else
            let base := versions_dir mount_point (tk_job tk) in
            on_service (fun s => s <| directories ::= mkdir (child base (timestamp t)) |>);;
            match spawned with
            | Err e => raise e
            | Ok p => set_process (j_id (tk_job tk)) p;; set_task i (Receiving p base 0 0)
            end
      | None => raise "Backend not mounted or not found"
      end
  | None => raise "Backend not mounted or not found"
  end.

(** One line of the output, or the exception of reading or decoding it. *)
Definition read_line (i : nat) (c : Clock) (tk : Task) (p : Z) (base : PurePath) (files bytes : Z) (received : result string string)
    : ServiceM unit :=
  match received with
  | Err e => raise e
  | Ok line =>
      let line_str := strip line in
      if String.eqb line_str "" then mret tt
      else
        match search_progress line_str with
        | Some (bytes_str, percent) =>
            match py_int (without_commas bytes_str), py_int percent with
            | Some b, Some pct =>
                set_task i (Receiving p base files b);;
                _broadcast_throttled c (progress_of tk "running" None files b pct None)
            | _, _ => raise "invalid literal for int() with base 10: ''"
            end
        | None =>
            if negb (startswith " " line_str) && str_contains "/" line_str then
              set_task i (Receiving p base (files + 1) bytes);;
              _broadcast_throttled c (progress_of tk "running" (Some (last_word line_str)) (files + 1) bytes
                                                  (r_progress_percent (tk_run tk)) None)
            else mret tt
        end
  end.

Definition exit_message (code : Z) : string := "rsync exited with code " ++ pretty code.

(** After the process has ended. *)
Definition end_sync (c : Clock) (tk : Task) (base : PurePath) (files bytes returncode : Z) : ServiceM bool :=
  drop_process (j_id (tk_job tk));;
  let success := (returncode =? 0)%Z in
  let error := exit_message returncode in
  x ← get_state;
  match sql_find r_id (r_id (tk_run tk)) (runs x.1), sql_find j_id (j_id (tk_job tk)) (jobs x.1) with
  | Some _, Some _ =>
      set_run (r_id (tk_run tk)) (fun r =>
        r <| r_completed_at := Some (utc_now c) |> <| r_status := if success then "success" else "failed" |>
          <| r_files_synced := files |> <| r_bytes_transferred := bytes |>
          <| r_progress_percent ::= fun p => if success then 100%Z else p |>
          <| r_error ::= fun e => if success then e else Some error |>);;
      set_job (j_id (tk_job tk)) (fun j =>
        j <| j_status := if success then "synced" else "failed" |> <| j_last_run_at := Some (utc_now c) |>
          <| j_last_error ::= fun e => if success then e else Some error |>);;
      broadcast_progress c (progress_of tk (if success then "success" else "failed") None files bytes
                                        (if success then 100 else 0) (if success then None else Some error));;
      (if success then _prune_versions base (j_keep_versions (tk_job tk)) else mret tt);;
      _cleanup_old_runs c (j_id (tk_job tk));;
      mret success
  | _, _ => raise no_result
  end.

(** An exception ends the run, and with it the task. *)
Definition guarded (i : nat) (c : Clock) (tk : Task) (m : ServiceM unit) : ServiceM unit :=
  catch m (fun e => fail_sync c tk e;; drop_task i).

(** *** The steps of the tasks *)

Definition task_starts (i : nat) (c : Clock) (t : Civil) (spawned : result string Z) : ServiceM unit :=
  x ← get_state;
  match tasks x.2 !! i with
  | Some tk =>
      match tk_phase tk with
      | Waiting => if (active x.2 <? MAX_CONCURRENT_SYNCS)%nat then guarded i c tk (start_sync i tk t spawned) else mret tt
      | Receiving _ _ _ _ => mret tt
      end
  | None => mret tt
  end.

Definition task_reads (i : nat) (c : Clock) (received : result string string) : ServiceM unit :=
  x ← get_state;
  match tasks x.2 !! i with
  | Some tk =>
      match tk_phase tk with
      | Receiving p base files bytes => guarded i c tk (read_line i c tk p base files bytes received)
      | Waiting => mret tt
      end
  | None => mret tt
  end.

Definition task_ends (i : nat) (c : Clock) (returncode : Z) : ServiceM unit :=
  x ← get_state;
  match tasks x.2 !! i with
  | Some tk =>
      match tk_phase tk with
      | Receiving _ base files bytes => guarded i c tk (end_sync c tk base files bytes returncode;; drop_task i)
      | Waiting => mret tt
      end
  | None => mret tt
  end.

Definition cancel_sync (job_id : string) : ServiceM bool :=
  x ← get_state;
  match assoc_get job_id (running_processes x.2) with
  | Some p =>
      on_service (fun s => s <| terminated ::= fun l => (l ++ [p])%list |>);;
      drop_process job_id;;
      mret true
  | None => mret false
  end.

Definition is_running (job_id : string) (s : SyncService) : bool :=
  match assoc_get job_id (running_processes s) with Some _ => true | None => false end.
End Service.

(** ** Names of versions are ordered as their times *)

Record civil_ok (t : Civil) : Prop := {
  co_year : (1000 <= year t <= 9999)%Z;
  co_month : (1 <= month t <= 12)%Z;
  co_day : (1 <= day t <= 31)%Z;
  co_hour : (0 <= hour t <= 23)%Z;
  co_minute : (0 <= minute t <= 59)%Z;
  co_second : (0 <= second t <= 59)%Z
}.

Definition then_compare (x y : comparison) : comparison := match x with Eq => y | _ => x end.

Definition civil_compare (a b : Civil) : comparison :=
  then_compare (Z.compare (year a) (year b)) (then_compare (Z.compare (month a) (month b))
    (then_compare (Z.compare (day a) (day b)) (then_compare (Z.compare (hour a) (hour b))
      (then_compare (Z.compare (minute a) (minute b)) (Z.compare (second a) (second b)))))).

Lemma forallb_seqZ (p : Z -> bool) lo len z : forallb p (seqZ lo len) = true -> (lo <= z < lo + len)%Z -> p z = true.
Proof. rewrite forallb_forall. intros H Hz. by apply H, list_elem_of_In, elem_of_seqZ. Qed.

Lemma two_digits_compare a b : (0 <= a < 100)%Z -> (0 <= b < 100)%Z ->
  String.compare (two_digits a) (two_digits b) = Z.compare a b
  /\ String.length (two_digits a) = String.length (two_digits b).
Proof.
  intros Ha Hb.
  assert (forallb (fun a => forallb (fun b =>
    bool_decide (String.compare (two_digits a) (two_digits b) = Z.compare a b)
    && Nat.eqb (String.length (two_digits a)) (String.length (two_digits b))) (seqZ 0 100)) (seqZ 0 100) = true) as H
    by (vm_compute; reflexivity).
  apply (forallb_seqZ _ 0 100 a) in H; [|done]. apply (forallb_seqZ _ 0 100 b) in H; [|done].
  apply andb_true_iff in H as [H1%bool_decide_eq_true H2%Nat.eqb_eq]. done.
Qed.

Lemma pretty_N_two q s : (10 <= q < 100)%N -> pretty_N_go q s = two_digits (Z.of_N q) ++ s.
Proof.
  intros Hq. assert (Z.of_N q ∈ seqZ 10 90) as H by (apply elem_of_seqZ; lia). rewrite <- (N2Z.id q) at 1. revert H.
  generalize (Z.of_N q). clear. intros q. vm_compute seqZ.
  intros H. repeat (apply elem_of_cons in H as [->|H]; [by vm_compute|]). by apply not_elem_of_nil in H.
Qed.

Lemma two_digits_chars r : (r < 100)%N ->
  two_digits (Z.of_N r) = String (pretty_N_char (r / 10)) (String (pretty_N_char (r mod 10)) "").
Proof.
  intros Hr. assert (forallb (fun r => String.eqb (two_digits r)
    (String (pretty_N_char (Z.to_N r / 10)) (String (pretty_N_char (Z.to_N r mod 10)) ""))) (seqZ 0 100) = true) as H
    by (vm_compute; reflexivity).
  apply (forallb_seqZ _ 0 100 (Z.of_N r)), String.eqb_eq in H; [|lia]. by rewrite N2Z.id in H.
Qed.

Lemma pretty_year y : (1000 <= y <= 9999)%Z -> pretty y = two_digits (y / 100) ++ two_digits (y mod 100).
Proof.
  intros Hy. assert (exists n, y = Z.of_N n /\ (1000 <= n <= 9999)%N) as (n & -> & Hn) by (exists (Z.to_N y); lia).
  clear Hy. assert (10 <= n / 100 < 100)%N as H1
    by (split; [apply N.div_le_lower_bound|apply N.Div0.div_lt_upper_bound]; lia).
  assert (n mod 100 < 100)%N as H2 by (apply N.mod_lt; done).
  assert (0 < n)%N as H3 by lia. assert (0 < n / 10)%N as H4 by (apply N.div_str_pos; lia).
  replace (Z.of_N n / 100)%Z with (Z.of_N (n / 100)) by (by rewrite N2Z.inj_div).
  replace (Z.of_N n mod 100)%Z with (Z.of_N (n mod 100)) by (by rewrite N2Z.inj_mod).
  rewrite <- pretty_N_two, two_digits_chars by done.
  replace (pretty (Z.of_N n)) with (pretty_N_go n "") by (by destruct n).
  rewrite (pretty_N_go_step n), (pretty_N_go_step (n / 10)) by done.
  rewrite N.Div0.div_div. f_equal.
  assert (n / 10 mod 10 = n mod 100 / 10 /\ n mod 10 = (n mod 100) mod 10)%N as [-> ->]; [|done].
  change 100%N with (10 * 10)%N. rewrite N.Div0.mod_mul_r. split.
  - rewrite N.add_comm, N.mul_comm, N.div_add_l, (N.div_small (n mod 10)), N.add_0_r by (try done; apply N.mod_lt; done). done.
  - rewrite N.add_comm, N.mul_comm, N.add_comm, N.Div0.mod_add, N.Div0.mod_mod. done.
Qed.
Lemma compare_field a b x y : (0 <= a < 100)%Z -> (0 <= b < 100)%Z ->
  String.compare (two_digits a ++ x) (two_digits b ++ y) = then_compare (Z.compare a b) (String.compare x y).
Proof.
  intros Ha Hb. destruct (two_digits_compare a b Ha Hb) as [H1 H2]. rewrite str_compare_app by done.
  rewrite H1. by destruct (Z.compare a b).
Qed.

Lemma compare_year a b x y : (1000 <= a <= 9999)%Z -> (1000 <= b <= 9999)%Z ->
  String.compare (pretty a ++ x) (pretty b ++ y) = then_compare (Z.compare a b) (String.compare x y).
Proof.
  intros Ha Hb. rewrite !pretty_year, !str_app_assoc by done.
  pose proof (Z.div_mod a 100 ltac:(done)). pose proof (Z.div_mod b 100 ltac:(done)).
  pose proof (Z.mod_pos_bound a 100 ltac:(done)). pose proof (Z.mod_pos_bound b 100 ltac:(done)).
  rewrite !compare_field by (try done; lia).
  destruct (Z.compare_spec (a / 100) (b / 100)), (Z.compare_spec (a mod 100) (b mod 100)), (Z.compare_spec a b);
    cbn; (done || lia).
Qed.

Lemma timestamp_compare a b : civil_ok a -> civil_ok b ->
  String.compare (timestamp a) (timestamp b) = civil_compare a b.
Proof.
  intros [] []. unfold timestamp, civil_compare. rewrite compare_year by done.
  replace (two_digits (second a)) with (two_digits (second a) ++ "") by apply str_app_nil_r.
  replace (two_digits (second b)) with (two_digits (second b) ++ "") by apply str_app_nil_r.
  do 5 (f_equal; cbn [String.append String.compare Ascii.compare N_of_ascii]; rewrite compare_field by lia).
  by destruct (Z.compare (second a) (second b)).
Qed.

(** ** Pruning *)

Lemma child_name_Some base p n : child_name base p = Some n <-> p = child base n.
Proof.
  unfold child_name. split.
  - destruct (rev (parts p)) as [|m l]; [done|]. case_bool_decide as E; [|done]. by intros [= <-].
  - intros ->. cbn. rewrite rev_app_distr. cbn. by rewrite bool_decide_eq_true_2.
Qed.

Lemma child_inj base m n : child base m = child base n -> m = n.
Proof. unfold child. intros [= H]. by apply app_inj_tail in H as [_ ->]. Qed.

Lemma elem_of_iterdir base dirs n : n ∈ iterdir base dirs <-> child base n ∈ dirs.
Proof.
  unfold iterdir. rewrite list_elem_of_omap. split.
  - intros (p & Hp%elem_of_elements & ->%child_name_Some). done.
  - intros H. exists (child base n). by rewrite elem_of_elements, child_name_Some.
Qed.

Lemma NoDup_iterdir base dirs : NoDup (iterdir base dirs).
Proof.
  unfold iterdir. pose proof (NoDup_elements dirs) as H. induction H as [|p l Hp Hl IH]; cbn; [constructor|].
  destruct (child_name base p) as [n|] eqn:E; [|done]. constructor; [|done].
  rewrite list_elem_of_omap. intros (q & Hq & ->%child_name_Some). by apply child_name_Some in E as ->.
Qed.

Lemma below_path_spec p q : below_path p q = true <-> root p = root q /\ parts p `prefix_of` parts q.
Proof. unfold below_path. by rewrite andb_true_iff, String.eqb_eq, bool_decide_eq_true. Qed.

Lemma below_child base m n : below_path (child base m) (child base n) = true <-> m = n.
Proof.
  rewrite below_path_spec. cbn. split; [|by intros ->]. intros [_ [k H]]. rewrite <- app_assoc in H.
  apply app_inv_head in H. by injection H.
Qed.

Lemma elem_of_rmtrees base names dirs q :
  q ∈ foldr (fun name => rmtree (child base name)) dirs names
  <-> q ∈ dirs /\ forall n, n ∈ names -> below_path (child base n) q = false.
Proof.
  induction names as [|m names IH]; cbn.
  - split; [intros H; split; [done|]; by intros n ?%not_elem_of_nil|by intros []].
  - unfold rmtree at 1. rewrite elem_of_filter, IH. split.
    + intros (Hm & Hq & H). split; [done|]. intros n [->|Hn]%elem_of_cons; auto.
    + intros [Hq H]. split; [apply H; by left|]. split; [done|]. intros n Hn. apply H. by right.
Qed.

Definition newest (keep : Z) (names : list string) : list string := take (Z.to_nat keep) (rev (order_by_text id names)).

Lemma elem_of_rev {A} (x : A) l : x ∈ rev l <-> x ∈ l.
Proof. rewrite !list_elem_of_In. symmetry. apply in_rev. Qed.

Lemma newest_and_old keep names n : n ∈ names <-> n ∈ newest keep names \/ n ∈ old_versions keep names.
Proof.
  unfold newest, old_versions. rewrite <- elem_of_app, take_drop, elem_of_rev.
  by rewrite order_by_text_perm.
Qed.

Lemma newest_after_old keep names n o :
  NoDup names -> n ∈ newest keep names -> o ∈ old_versions keep names -> String.compare o n = Lt.
Proof.
  intros Hnd Hn Ho. pose proof (order_by_text_ordered id names) as H. unfold ordered_by_text in H.
  set (l := rev (order_by_text id names)) in *.
  assert (order_by_text id names = rev (drop (Z.to_nat keep) l) ++ rev (take (Z.to_nat keep) l))%list as E
    by (rewrite <- rev_app_distr, take_drop; symmetry; apply rev_involutive).
  assert (NoDup (order_by_text id names)) as Hnd' by (by rewrite order_by_text_perm).
  rewrite E in H, Hnd'. unfold newest, old_versions in *. fold l in Hn, Ho.
  assert (o ∈ rev (drop (Z.to_nat keep) l)) as Ho' by (by apply elem_of_rev).
  assert (n ∈ rev (take (Z.to_nat keep) l)) as Hn' by (by apply elem_of_rev).
  pose proof (StronglySorted_app_1_elem_of _ _ _ _ _ H Ho' Hn') as Hle. apply str_leb_spec in Hle as [Heq|]; [|done].
  apply NoDup_app in Hnd' as (_ & Hd & _). destruct (Hd o Ho'). unfold id in Heq. by subst.
Qed.

Lemma newest_length keep names : length (newest keep names) = Nat.min (Z.to_nat keep) (length names).
Proof. unfold newest. by rewrite length_take, length_rev, (Permutation_length (order_by_text_perm id names)). Qed.

Lemma NoDup_newest keep names : NoDup names -> NoDup (newest keep names).
Proof.
  intros H. unfold newest. eapply sublist_NoDup; [|apply sublist_take].
  apply NoDup_ListNoDup, NoDup_rev, NoDup_ListNoDup. by rewrite order_by_text_perm.
Qed.

(** What is left of the versions: the newest, as many as are to be kept. *)
Lemma iterdir_prune base keep dirs : (0 < keep)%Z -> iterdir base (prune base keep dirs) ≡ₚ newest keep (iterdir base dirs).
Proof.
  intros Hk. pose proof (NoDup_iterdir base dirs) as Hnd.
  apply NoDup_Permutation; [apply NoDup_iterdir|by apply NoDup_newest|]. intros n.
  rewrite elem_of_iterdir. unfold prune. rewrite (proj2 (Z.leb_gt _ _)) by done. rewrite elem_of_rmtrees, <- elem_of_iterdir.
  rewrite (newest_and_old keep). split.
  - intros [[H|H] Hn]; [done|]. specialize (Hn n H). by rewrite (proj2 (below_child base n n) eq_refl) in Hn.
  - intros H. split; [by left|]. intros o Ho. apply not_true_iff_false. intros ->%below_child.
    pose proof (newest_after_old _ _ _ _ Hnd H Ho) as Hlt. by rewrite str_compare_refl in Hlt.
Qed.

(** Pruning leaves the directories with the greatest names, as many as are to be kept, removes the
    others with all that is below them, and touches nothing else; with nothing to keep it removes
    nothing. *)
Theorem pruning_keeps_newest base keep dirs :
  (keep <= 0 -> prune base keep dirs = dirs)%Z
  /\ (0 < keep -> let dirs' := prune base keep dirs in
      length (iterdir base dirs') = Nat.min (Z.to_nat keep) (length (iterdir base dirs))
      /\ (forall n o, n ∈ iterdir base dirs' -> o ∈ iterdir base dirs -> o ∉ iterdir base dirs' -> String.compare o n = Lt)
      /\ (forall q, q ∈ dirs' <-> q ∈ dirs /\ forall o, o ∈ iterdir base dirs -> o ∉ iterdir base dirs' ->
                                                 below_path (child base o) q = false))%Z.
Proof.
  split; [intros Hk; unfold prune; by rewrite (proj2 (Z.leb_le _ _))|]. intros Hk dirs'.
  pose proof (iterdir_prune base keep dirs Hk) as Hp. fold dirs' in Hp. pose proof (NoDup_iterdir base dirs) as Hnd.
  assert (forall o, o ∈ iterdir base dirs -> o ∉ iterdir base dirs' -> o ∈ old_versions keep (iterdir base dirs)) as Hold.
  { intros o Ho Ho'. rewrite Hp in Ho'. by apply (newest_and_old keep) in Ho as [|]. }
  split; [by rewrite Hp, newest_length|]. split.
  - intros n o Hn Ho Ho'. rewrite Hp in Hn. eapply newest_after_old; eauto.
  - intros q. unfold dirs' at 1, prune. rewrite (proj2 (Z.leb_gt _ _)) by done. rewrite elem_of_rmtrees.
    split; (intros [Hq H]; split; [done|]); [auto|]. intros o Ho. apply H; [by apply (newest_and_old keep); right|].
    rewrite Hp. intros Hn. pose proof (newest_after_old _ _ _ _ Hnd Hn Ho) as Hlt. by rewrite str_compare_refl in Hlt.
Qed.

(** Directories that are no versions count as versions: here three of them push out the one just made. *)
Example foreign_directories_push_out_versions :
  let base := path_of "/srv/images" in
  iterdir base (prune base 3 (list_to_set (map (child base) ["lts"; "rolling"; "testing"; "2024-05-01T00:00:00"])))
  ≡ₚ ["testing"; "rolling"; "lts"].
Proof. intros base. rewrite iterdir_prune by done. vm_compute. reflexivity. Qed.

Lemma prune_keeps_greatest base keep dirs t :
  civil_ok t -> child base (timestamp t) ∈ dirs ->
  (forall n, n ∈ iterdir base dirs -> exists t', civil_ok t' /\ n = timestamp t' /\ civil_compare t' t ≠ Gt) ->
  child base (timestamp t) ∈ prune base keep dirs.
Proof.
  intros Ht Hin Hall. destruct (Z.leb_spec keep 0) as [Hk|Hk]; [by rewrite (proj1 (pruning_keeps_newest base keep dirs))|].
  apply elem_of_iterdir. rewrite iterdir_prune by done. apply elem_of_iterdir in Hin.
  pose proof Hin as Hin'. apply (newest_and_old keep) in Hin' as [|Hold]; [done|].
  destruct (newest keep (iterdir base dirs)) as [|n l] eqn:E.
  { pose proof (newest_length keep (iterdir base dirs)) as Hl. rewrite E in Hl. cbn in Hl.
    destruct (iterdir base dirs); [by apply not_elem_of_nil in Hin|]. cbn in Hl. lia. }
  assert (n ∈ newest keep (iterdir base dirs)) as Hn by (rewrite E; by left).
  pose proof (newest_after_old _ _ _ _ (NoDup_iterdir base dirs) Hn Hold) as Hlt.
  destruct (Hall n) as (t' & Ht' & -> & Hc); [by apply (newest_and_old keep); left|].
  rewrite String.compare_antisym, timestamp_compare in Hlt by done. by destruct (civil_compare t' t).
Qed.

(** ** A run that succeeds *)

Section Service.
Context (no_result : string).

Lemma run_on_service f x : on_service f x = (Ok tt, (x.1, f x.2)).
Proof. done. Qed.
Lemma run_on_db f x : on_db f x = (Ok tt, (f x.1, x.2)).
Proof. done. Qed.

(** When rsync ends well the run and its job say so, the task is over, and of the versions at most
    as many remain as are to be kept, the one just made among them, as long as the directory holds
    nothing but earlier versions. *)
Theorem successful_sync_keeps_its_version i c d s tk p base files bytes r j t
    (Hr : keys_unique r_id (runs d)) (Hrun : sql_find r_id (r_id (tk_run tk)) (runs d) = Some r)
    (Hjob : sql_find j_id (j_id (tk_job tk)) (jobs d) = Some j)
    (Hrecent : (utc_now c - 30 * 24 * 60 * 60 * 1000000 <= r_started_at r)%Z)
    (Htk : tasks s !! i = Some tk) (Hph : tk_phase tk = Receiving p base files bytes)
    (Ht : civil_ok t) (Hmine : child base (timestamp t) ∈ directories s)
    (Hothers : forall n, n ∈ iterdir base (directories s) ->
       exists t', civil_ok t' /\ n = timestamp t' /\ civil_compare t' t ≠ Gt) :
  exists d' s', task_ends no_result i c 0 (d, s) = (Ok tt, (d', s'))
  /\ (exists j', sql_find j_id (j_id (tk_job tk)) (jobs d') = Some j' /\ j_status j' = "synced" /\ j_last_run_at j' = Some (utc_now c))
  /\ (exists r', sql_find r_id (r_id (tk_run tk)) (runs d') = Some r' /\ r_status r' = "success"
        /\ r_completed_at r' = Some (utc_now c) /\ r_files_synced r' = files /\ r_bytes_transferred r' = bytes
        /\ r_progress_percent r' = 100%Z)
  /\ tasks s' = delete i (tasks s) /\ is_running (j_id (tk_job tk)) s' = false
  /\ child base (timestamp t) ∈ directories s'
  /\ ((0 < j_keep_versions (tk_job tk))%Z ->
      (length (iterdir base (directories s')) <= Z.to_nat (j_keep_versions (tk_job tk)))%nat).
Proof.
  do 2 eexists. split.
  { unfold task_ends, guarded, catch, end_sync, set_run, set_job, broadcast_progress, _prune_versions, _cleanup_old_runs,
      drop_process, drop_task, on_db, on_service, get_state, modify.
    unfold_M. cbn [fst snd]. rewrite Htk. cbn [fst snd]. rewrite Hph. cbn [runs jobs fst snd Z.eqb].
    cbn -[sql_find sql_update sql_delete prune]. rewrite Hrun, Hjob. cbn -[sql_find sql_update sql_delete prune]. reflexivity. }
  cbn [tasks directories jobs runs]. split; [|split; [|split; [done|split; [|split]]]].
  - eexists. rewrite sql_find_update by done. rewrite Hjob. cbn [fmap option_fmap option_map].
    by rewrite (proj2 (has_key_true j_id _ _) (proj2 (sql_find_Some_1 _ _ _ _ Hjob))).
  - eexists. rewrite sql_find_delete by (apply keys_unique_update; done). rewrite sql_find_update by done. rewrite Hrun.
    cbn [fmap option_fmap option_map]. rewrite (proj2 (has_key_true r_id _ _) (proj2 (sql_find_Some_1 _ _ _ _ Hrun))).
    cbn [r_job_id r_started_at]. rewrite (proj2 (Z.ltb_ge _ _)), andb_false_r by done. done.
  - unfold is_running. cbn [running_processes]. by rewrite assoc_get_del_eq.
  - by apply prune_keeps_greatest.
  - intros Hk. rewrite iterdir_prune, newest_length by done. lia.
Qed.

(** ** Invariants of the tasks *)

Lemma keeps_on_service (P : World -> Prop) f : (forall d s, P (d, s) -> P (d, f s)) -> keeps P (on_service f).
Proof. intros H [d s] Hx. by apply H. Qed.
Lemma keeps_on_db (P : World -> Prop) f : (forall d s, P (d, s) -> P (f d, s)) -> keeps P (on_db f).
Proof. intros H [d s] Hx. by apply H. Qed.
(** *** Progress is throttled *)

Definition running_times (job_id : string) (l : list (Z * SyncProgress)) : list Z :=
  omap (fun x => if String.eqb (p_job_id x.2) job_id && String.eqb (p_status x.2) "running" then Some x.1 else None) l.

Lemma running_times_snoc job l t p :
  running_times job (l ++ [(t, p)])
  = (running_times job l ++ if String.eqb (p_job_id p) job && String.eqb (p_status p) "running" then [t] else [])%list.
Proof. unfold running_times. rewrite omap_app. cbn. by destruct (_ && _). Qed.

#[local] Arguments running_times : simpl never.

Definition spaced (l : list Z) : Prop := StronglySorted (fun a b => a + 500000 <= b)%Z l.

Definition throttled (x : World) : Prop :=
  forall job, spaced (running_times job (progress x.2))
  /\ forall t, t ∈ running_times job (progress x.2) -> exists t0, assoc_get job (last_broadcast x.2) = Some t0 /\ (t <= t0)%Z.

Lemma throttled_same d s d' s' :
  progress s' = progress s -> last_broadcast s' = last_broadcast s -> throttled (d, s) -> throttled (d', s').
Proof. unfold throttled. cbn. by intros -> ->. Qed.

Lemma throttled_broadcast c p : String.eqb (p_status p) "running" = false -> keeps throttled (broadcast_progress c p).
Proof.
  intros Hp. apply keeps_on_service. intros d s H job. specialize (H job). cbn in *.
  by rewrite running_times_snoc, Hp, andb_false_r, app_nil_r.
Qed.

Lemma throttled_progress c p : keeps throttled (_broadcast_throttled c p).
Proof.
  intros [d s] H. unfold _broadcast_throttled. rewrite (bind_Ok _ _ (d, s) (d, s) (d, s)) by done. cbn [snd].
  destruct (Z.ltb_spec (loop_time c - default 0%Z (assoc_get (p_job_id p) (last_broadcast s))) 500000) as [|Hge]; [done|].
  unfold broadcast_progress, on_service. unfold_M. intros job. destruct (H job) as [Hs Hle]. cbn in Hs, Hle |- *. rewrite running_times_snoc.
  destruct (String.eqb_spec (p_job_id p) job) as [<-|Hne]; cbn [andb].
  - rewrite assoc_get_set_eq. destruct (String.eqb (p_status p) "running").
    + split.
      * apply StronglySorted_app_2; [|done|by repeat constructor]. intros t t' Ht ->%list_elem_of_singleton.
        destruct (Hle t Ht) as (t0 & E & Hle'). rewrite E in Hge. cbn in Hge. lia.
      * intros t [Ht| ->%list_elem_of_singleton]%elem_of_app; [|by eexists].
        destruct (Hle t Ht) as (t0 & E & Hle'). rewrite E in Hge. cbn in Hge. eexists. split; [done|]. lia.
    + rewrite app_nil_r. split; [done|]. intros t Ht. destruct (Hle t Ht) as (t0 & E & Hle'). rewrite E in Hge. cbn in Hge.
      eexists. split; [done|]. lia.
  - rewrite app_nil_r. split; [done|]. intros t Ht. rewrite assoc_get_set_ne by done. by apply Hle.
Qed.

Lemma keeps_throttled_service f :
  (forall s, progress (f s) = progress s /\ last_broadcast (f s) = last_broadcast s) -> keeps throttled (on_service f).
Proof. intros Hf. apply keeps_on_service. intros d s. destruct (Hf s). by apply throttled_same. Qed.
Lemma keeps_throttled_db f : keeps throttled (on_db f).
Proof. by apply keeps_on_db. Qed.

Ltac throttled_steps :=
  keeps_steps; first [apply throttled_progress | apply throttled_broadcast; done | apply keeps_throttled_db
                     | apply keeps_throttled_service; intros ?; split; reflexivity].

Lemma throttled_fail c tk e : keeps throttled (fail_sync c tk e).
Proof. unfold fail_sync, set_run, set_job. by throttled_steps. Qed.

Lemma throttled_guarded i c tk m : keeps throttled m -> keeps throttled (guarded i c tk m).
Proof. intros Hm. apply keeps_catch; [done|]. intros e. apply keeps_bind; [apply throttled_fail|]. intros _.
  apply keeps_throttled_service. intros ?. split; reflexivity.
Qed.

Lemma throttled_starts i c t spawned : keeps throttled (task_starts i c t spawned).
Proof.
  unfold task_starts. keeps_steps. apply throttled_guarded. unfold start_sync, set_process, set_task. by throttled_steps.
Qed.

Lemma throttled_reads i c received : keeps throttled (task_reads i c received).
Proof. unfold task_reads. keeps_steps. apply throttled_guarded. unfold read_line, set_task. by throttled_steps. Qed.

Lemma throttled_ends i c code : keeps throttled (task_ends no_result i c code).
Proof.
  unfold task_ends. keeps_steps. apply throttled_guarded.
  unfold end_sync, set_run, set_job, drop_process, drop_task, _prune_versions, _cleanup_old_runs.
  keeps_steps; try throttled_steps. all: apply throttled_broadcast; by destruct (code =? 0)%Z.
Qed.

(** *** At most three at a time *)

Definition bounded (x : World) : Prop := (active x.2 <= MAX_CONCURRENT_SYNCS)%nat.

Lemma receiving_alter (p : phase) i l : (match p with Waiting => False | _ => True end) ->
  (length (List.filter receiving (alter (fun tk => tk <| tk_phase := p |>) i l))
   <= length (List.filter receiving l) + match l !! i with Some tk => if receiving tk then 0 else 1 | None => 0 end)%nat.
Proof.
  intros Hp. revert i. induction l as [|tk l IH]; intros [|i]; cbn; try lia.
  - destruct p; [done|]. cbn. destruct (receiving tk); cbn; lia.
  - destruct (receiving tk); cbn; [apply le_n_S|]; apply IH.
Qed.

Lemma receiving_delete i l : (length (List.filter receiving (delete i l)) <= length (List.filter receiving l))%nat.
Proof.
  revert i. induction l as [|tk l IH]; intros [|i]; cbn; try lia; [destruct (receiving tk); cbn; lia|].
  destruct (receiving tk); cbn; [apply le_n_S|]; apply IH.
Qed.

Lemma bounded_same d s d' s' : tasks s' = tasks s -> bounded (d, s) -> bounded (d', s').
Proof. unfold bounded, active. cbn. by intros ->. Qed.

Lemma keeps_bounded_service f : (forall s, tasks (f s) = tasks s) -> keeps bounded (on_service f).
Proof. intros Hf. apply keeps_on_service. intros d s. by apply bounded_same. Qed.

Lemma bounded_drop i : keeps bounded (drop_task i).
Proof.
  apply keeps_on_service. intros d s. unfold bounded, active. cbn. pose proof (receiving_delete i (tasks s)). lia.
Qed.

Lemma bounded_throttled c p : keeps bounded (_broadcast_throttled c p).
Proof. unfold _broadcast_throttled. keeps_steps; by apply keeps_bounded_service. Qed.

Lemma bounded_fail c tk e : keeps bounded (fail_sync c tk e).
Proof. unfold fail_sync. keeps_steps; first [by apply keeps_on_db | by apply keeps_bounded_service]. Qed.

Lemma bounded_guarded i c tk m : keeps bounded m -> keeps bounded (guarded i c tk m).
Proof.
  intros Hm. apply keeps_catch; [done|]. intros e. apply keeps_bind; [apply bounded_fail|]. intros _. apply bounded_drop.
Qed.

(** A task that holds the semaphore already may go on. *)
Lemma bounded_guarded_holder i c tk (m : M World string unit) x :
  (match tasks x.2 !! i with Some tk => receiving tk = true | None => True end) ->
  keeps (fun y => bounded y /\ match tasks y.2 !! i with Some tk => receiving tk = true | None => True end) m ->
  bounded x -> bounded (guarded i c tk m x).2.
Proof.
  intros Hi Hm Hx. unfold guarded, catch. specialize (Hm x (conj Hx Hi)).
  destruct (m x) as [[[]|e] y]; cbn in Hm; [apply Hm|]. destruct Hm as [Hm _].
  apply (keeps_bind bounded (fail_sync c tk e) (fun _ => drop_task i)); [apply bounded_fail|intros _; apply bounded_drop|done].
Qed.

Definition holds (i : nat) (x : World) : Prop :=
  bounded x /\ match tasks x.2 !! i with Some tk => receiving tk = true | None => True end.

Lemma keeps_holds_service i f : (forall s, tasks (f s) = tasks s) -> keeps (holds i) (on_service f).
Proof. intros Hf [d s] [Hb Hi]. split; [by apply (bounded_same d s); [apply Hf|]|]. cbn. by rewrite Hf. Qed.

Lemma holds_set_task i q base files bytes : keeps (holds i) (set_task i (Receiving q base files bytes)).
Proof.
  intros [d s] [Hb Hi]. split.
  - unfold bounded, active in *. cbn in *. pose proof (receiving_alter (Receiving q base files bytes) i (tasks s) I) as H. cbn in H.
    destruct (tasks s !! i); [rewrite Hi in H|]; lia.
  - cbn [snd tasks] in *. unfold set_task. cbn. rewrite list_lookup_alter, decide_True by done. by destruct (tasks s !! i).
Qed.

Lemma bounded_reads i c received : keeps bounded (task_reads i c received).
Proof.
  intros x Hx. unfold task_reads. rewrite (bind_Ok _ _ x x x) by done.
  destruct (tasks x.2 !! i) as [tk|] eqn:E; [|done]. destruct (tk_phase tk) as [|q base files bytes] eqn:Ep; [done|].
  apply bounded_guarded_holder; [rewrite E; unfold receiving; by rewrite Ep| |done].
  unfold read_line, _broadcast_throttled, broadcast_progress.
  keeps_steps; first [apply holds_set_task | by apply keeps_holds_service].
Qed.

Lemma bounded_ends i c code : keeps bounded (task_ends no_result i c code).
Proof.
  unfold task_ends. keeps_steps. apply bounded_guarded. unfold end_sync, _prune_versions, _cleanup_old_runs, set_run, set_job.
  keeps_steps; first [by apply keeps_on_db | by apply keeps_bounded_service | apply bounded_drop].
Qed.

Lemma bounded_starts i c t spawned : keeps bounded (task_starts i c t spawned).
Proof.
  intros x Hx. unfold task_starts. rewrite (bind_Ok _ _ x x x) by done.
  destruct (tasks x.2 !! i) as [tk|] eqn:E; [|done]. destruct (tk_phase tk) eqn:Ep; [|done].
  destruct (Nat.ltb_spec (active x.2) MAX_CONCURRENT_SYNCS) as [Hlt|]; [|done].
  unfold guarded, catch. destruct (start_sync i tk t spawned x) as [[[]|e] y] eqn:Em.
  - revert Em. unfold start_sync. rewrite (bind_Ok _ _ x x x) by done. unfold set_process, set_task, on_service. unfold_M.
    destruct (sql_find _ _ _) as [b|]; [|done]. destruct (bk_mount_point b) as [mount|]; [|done].
    destruct (String.eqb mount ""); [done|]. destruct spawned as [q|e]; [|done]. intros [= <-].
    unfold bounded, active in *. cbn in *.
    pose proof (receiving_alter (Receiving q (versions_dir mount (tk_job tk)) 0 0) i (tasks x.2) I) as Ha. cbn in Ha.
    rewrite E in Ha. destruct (receiving tk); lia.
  - assert (bounded y) as Hy.
    { revert Em. unfold start_sync. rewrite (bind_Ok _ _ x x x) by done. unfold set_process, set_task, on_service. unfold_M.
      repeat case_match; by intros [= _ <-]. }
    apply (keeps_bind bounded (fail_sync c tk e) (fun _ => drop_task i)); [apply bounded_fail|intros _; apply bounded_drop|done].
Qed.
End Service.

(** ** A run that ends *)

Definition ending_job : SyncJob :=
  {| j_id := "j1"; j_name := "ubuntu"; j_source_url := "https://mirror/ubuntu/"; j_destination_backend_id := "b1";
     j_destination_path := "images"; j_include_pattern := None; j_exclude_pattern := None; j_schedule := "manual";
     j_schedule_day := None; j_schedule_time := None; j_verify_checksums := true; j_delete_removed := false;
     j_keep_versions := 1; j_status := "running"; j_last_run_at := None; j_last_error := None; j_next_run_at := None |}.
Definition ending_run : SyncJobRun :=
  {| r_id := "r1"; r_job_id := "j1"; r_started_at := 50; r_completed_at := None; r_status := "running"; r_files_synced := 0;
     r_bytes_transferred := 0; r_progress_percent := 0; r_error := None |}.
Definition ending_base : PurePath := path_of "/srv/images".
Definition ending_time (s : Z) : Civil := {| year := 2024; month := 5; day := 5; hour := 3; minute := 30; second := s |}.
Definition ending_service : SyncService :=
  {| running_processes := [("j1", 4242%Z)]; last_broadcast := [];
     tasks := [{| tk_job := ending_job; tk_run := ending_run; tk_phase := Receiving 4242 ending_base 3 1000 |}];
     directories := {[child ending_base (timestamp (ending_time 1)); child ending_base (timestamp (ending_time 9))]};
     progress := []; terminated := [] |}.

Lemma successful_sync_keeps_its_version_witness :
  let d := {| jobs := [ending_job]; runs := [ending_run]; sync_backends := [] |} in
  exists d' s', task_ends "none" 0 {| loop_time := 90; utc_now := 90 |} 0 (d, ending_service) = (Ok tt, (d', s'))
  /\ child ending_base (timestamp (ending_time 9)) ∈ directories s' /\ (length (iterdir ending_base (directories s')) <= 1)%nat.
Proof.
  assert (forall s, (0 <= s <= 59)%Z -> civil_ok (ending_time s)) as Hc by (intros s Hs; constructor; cbn; lia).
  destruct (successful_sync_keeps_its_version "none" 0 {| loop_time := 90; utc_now := 90 |}
    {| jobs := [ending_job]; runs := [ending_run]; sync_backends := [] |} ending_service
    {| tk_job := ending_job; tk_run := ending_run; tk_phase := Receiving 4242 ending_base 3 1000 |}
    4242 ending_base 3 1000 ending_run ending_job (ending_time 9)) as (d' & s' & E & _ & _ & _ & _ & H1 & H2).
  - apply NoDup_singleton.
  - reflexivity.
  - reflexivity.
  - vm_compute. discriminate.
  - reflexivity.
  - reflexivity.
  - apply Hc. lia.
  - cbn [directories ending_service]. set_solver.
  - intros n Hn%elem_of_iterdir. cbn [directories ending_service] in Hn.
    apply elem_of_union in Hn as [Hn%elem_of_singleton%child_inj|Hn%elem_of_singleton%child_inj].
    + exists (ending_time 1). split; [apply Hc; lia|]. by split.
    + exists (ending_time 9). split; [apply Hc; lia|]. by split.
  - exists d', s'. split; [exact E|]. split; [exact H1|]. by apply H2.
Defined.
