(* ===== verification/SyncJobs.v ===== *)
(** * Synchronisation jobs

    [api/routes/sync_jobs.py] with the schemas it validates by, and the
    registration of the jobs at start-up ([main.py]), on the synchronisation
    service and the scheduler.  A run of the server is a sequence of events: a
    request, a call of the scheduler, a step of a task.  A request that raises
    is undone in the database only: what it did to the scheduler, the processes
    and the rate limit stays. *)
From S2P Require Import Prelude PyStr Paths SqlTable Controller Scheduler SyncService.
From stdpp Require Import base tactics list strings gmap pretty.
From Stdlib Require Import Ascii ZArith Lia.
Open Scope string_scope.
#[local] Arguments String.append !_ _ : simpl nomatch.

(** ** Request bodies *)

Record SyncJobCreate := {
  c_name : string;
  c_source_url : string;
  c_destination_backend_id : string;
  c_destination_path : string;
  c_include_pattern : option string;
  c_exclude_pattern : option string;
  c_schedule : string;
  c_schedule_day : option Z;
  c_schedule_time : option string;
  c_verify_checksums : bool;
  c_delete_removed : bool;
  c_keep_versions : Z
}.

(** A field that is null counts as not given. *)
Record SyncJobUpdate := {
  u_name : option string;
  u_source_url : option string;
  u_destination_path : option string;
  u_include_pattern : option string;
  u_exclude_pattern : option string;
  u_schedule : option string;
  u_schedule_day : option Z;
  u_schedule_time : option string;
  u_verify_checksums : option bool;
  u_delete_removed : option bool;
  u_keep_versions : option Z
}.

Definition alnum (c : ascii) : bool := is_lower c || is_upper c || is_digit c.
Definition name_char (c : ascii) : bool := alnum c || Ascii.eqb c "-".

(** [^[a-zA-Z0-9][a-zA-Z0-9\-]*[a-zA-Z0-9]$|^[a-zA-Z0-9]$] and the bounds on the length. *)
Definition job_name_ok (s : string) : bool :=
  (3 <=? String.length s)%nat && (String.length s <=? 100)%nat && str_forall name_char s
  && match s with String c _ => alnum c | EmptyString => false end
  && match last_char s with Some c => alnum c | None => false end.

(** [v.strip("/")] *)
Definition strip_slashes (s : string) : string := rstrip "/" (lstrip "/" s).

Definition at_most (n : nat) (x : option string) : bool :=
  match x with Some s => (String.length s <=? n)%nat | None => true end.
Definition for_given {A} (p : A -> bool) (x : option A) : bool := match x with Some a => p a | None => true end.
Definition path_ok (s : string) : bool := (String.length s <=? 500)%nat && negb (str_contains ".." s).
Definition keep_ok (k : Z) : bool := (0 <=? k)%Z && (k <=? 10)%Z.
Definition is_schedule (s : string) : bool := existsb (String.eqb s) SCHEDULES.

(** [validate_schedule_requirements] *)
Definition schedule_complete (schedule : string) (day : option Z) (time : option string) : bool :=
  let timed := existsb (String.eqb schedule) ["daily"; "weekly"; "monthly"] in
  (negb timed || match time with Some t => negb (String.eqb t "") | None => false end)
  && (negb (String.eqb schedule "weekly" || String.eqb schedule "monthly") || match day with Some _ => true | None => false end).

(** What the schema checks: [None] is the [ValidationError]. *)
Definition validate_create (d : SyncJobCreate) : option SyncJobCreate :=
  if job_name_ok (c_name d) && path_ok (c_destination_path d) && at_most 500 (c_include_pattern d)
     && at_most 500 (c_exclude_pattern d) && is_schedule (c_schedule d) && day_ok (c_schedule d) (c_schedule_day d)
     && for_given clock_time (c_schedule_time d) && keep_ok (c_keep_versions d)
     && schedule_complete (c_schedule d) (c_schedule_day d) (c_schedule_time d)
  then Some (d <| c_destination_path ::= strip_slashes |>) else None.

Definition validate_update (u : SyncJobUpdate) : option SyncJobUpdate :=
  if for_given job_name_ok (u_name u) && for_given path_ok (u_destination_path u) && for_given is_schedule (u_schedule u)
     && for_given clock_time (u_schedule_time u) && for_given keep_ok (u_keep_versions u)
  then Some (u <| u_destination_path ::= fmap (M := option) strip_slashes |>) else None.

(** ** The server *)

Section Server.
Context {S : Type} {A : APScheduler S} (no_result : string).

Record Server : Type := {
  sdb : SyncDB;
  service : SyncService;
  scheduler : S;
  manual_run_times : list (string * Z)
}.

Abbreviation ServerM X := (M Server server_error X).

Definition on_scheduler {X} (m : M S server_error X) : ServerM X :=
  fun s => let '(r, x) := m (scheduler s) in (r, s <| scheduler := x |>).

(** A step of the service; its exceptions have been dealt with. *)
Definition on_tasks {X} (m : M (SyncDB * SyncService) string X) (s : Server) : Server :=
  let x := (m (sdb s, service s)).2 in s <| sdb := x.1 |> <| service := x.2 |>.

Definition request_job {X} (m : ServerM X) : ServerM X :=
  fun s => match m s with
           | (Ok a, s') => (Ok a, s')
           | (Err e, s') => (Err e, s' <| sdb := sdb s |>)
           end.

Definition need_job (id : string) : ServerM SyncJob :=
  s ← get_state;
  match sql_find j_id id (jobs (sdb s)) with
  | Some j => mret j
  | None => raise (HTTPException 404 "Sync job not found")
  end.

Definition set_jobs (f : list SyncJob -> list SyncJob) : ServerM unit := modify (fun s => s <| sdb ::= fun d => d <| jobs ::= f |> |>).
Definition set_runs (f : list SyncJobRun -> list SyncJobRun) : ServerM unit := modify (fun s => s <| sdb ::= fun d => d <| runs ::= f |> |>).

Definition find_backend (id : string) : ServerM (option Backend) :=
  s ← get_state; mret (sql_find bk_id id (sync_backends (sdb s))).

(** *** Reading *)

Definition truthy_is (x : option string) (v : string) : bool :=
  match x with Some s => String.eqb s "" || String.eqb s v | None => true end.

Definition list_sync_jobs (status backend_id : option string) : ServerM (list SyncJob) :=
  s ← get_state;
  mret (sql_select (fun j => truthy_is status (j_status j) && truthy_is backend_id (j_destination_backend_id j)) (jobs (sdb s))).

Definition get_sync_job (id : string) : ServerM SyncJob := need_job id.

Definition get_sync_job_history (id : string) (limit offset : nat) : ServerM (list SyncJobRun * Z) :=
  need_job id;;
  s ← get_state;
  let own r := String.eqb (r_job_id r) id in
  mret (take limit (drop offset (order_by_desc r_started_at (sql_select own (runs (sdb s))))), sql_count own (runs (sdb s))).

(** *** Creating *)

Definition new_job (id : string) (d : SyncJobCreate) : SyncJob :=
  {| j_id := id; j_name := c_name d; j_source_url := c_source_url d; j_destination_backend_id := c_destination_backend_id d;
     j_destination_path := c_destination_path d; j_include_pattern := c_include_pattern d;
     j_exclude_pattern := c_exclude_pattern d; j_schedule := c_schedule d; j_schedule_day := c_schedule_day d;
     j_schedule_time := c_schedule_time d; j_verify_checksums := c_verify_checksums d; j_delete_removed := c_delete_removed d;
     j_keep_versions := c_keep_versions d; j_status := "idle"; j_last_run_at := None; j_last_error := None;
     j_next_run_at := None |}.

Definition insert_job (j : SyncJob) : ServerM unit :=
  s ← get_state;
  match sql_insert j_id j (jobs (sdb s)) with
  | None => raise IntegrityError
  | Some l => if existsb (has_key j_name (j_name j)) (jobs (sdb s)) then raise IntegrityError else set_jobs (fun _ => l)
  end.

Definition check_free (name : string) : ServerM unit :=
  s ← get_state;
  match sql_find j_name name (jobs (sdb s)) with
  | Some _ => raise (HTTPException 409 ("Job '" ++ name ++ "' already exists"))
  | None => mret tt
  end.

(** The id is made by the flush, so that the job that is scheduled has none. *)
Definition create_sync_job (id : string) (d : SyncJobCreate) : ServerM SyncJob :=
  match validate_create d with
  | None => raise ValidationError
  | Some d =>
      check_free (c_name d);;
      b ← find_backend (c_destination_backend_id d);
      match b with
      | None => raise (HTTPException 400 "Destination backend not found")
      | Some _ =>
          next ← (if String.eqb (c_schedule d) "manual" then mret None
                  else on_scheduler (schedule_job None (c_schedule d) (c_schedule_day d) (c_schedule_time d)));
          let job := (new_job id d) <| j_next_run_at := next |> in
          insert_job job;;
          mret job
      end
  end.

(** *** Updating *)

Definition given {X} (x : option X) (old : X) : X := default old x.
Definition given_opt {X} (x : option X) (old : option X) : option X := match x with Some _ => x | None => old end.

Definition apply_update (u : SyncJobUpdate) (j : SyncJob) : SyncJob :=
  {| j_id := j_id j; j_name := match u_name u with Some n => if String.eqb n "" then j_name j else n | None => j_name j end;
     j_source_url := given (u_source_url u) (j_source_url j); j_destination_backend_id := j_destination_backend_id j;
     j_destination_path := given (u_destination_path u) (j_destination_path j);
     j_include_pattern := given_opt (u_include_pattern u) (j_include_pattern j);
     j_exclude_pattern := given_opt (u_exclude_pattern u) (j_exclude_pattern j);
     j_schedule := given (u_schedule u) (j_schedule j); j_schedule_day := given_opt (u_schedule_day u) (j_schedule_day j);
     j_schedule_time := given_opt (u_schedule_time u) (j_schedule_time j);
     j_verify_checksums := given (u_verify_checksums u) (j_verify_checksums j);
     j_delete_removed := given (u_delete_removed u) (j_delete_removed j);
     j_keep_versions := given (u_keep_versions u) (j_keep_versions j); j_status := j_status j;
     j_last_run_at := j_last_run_at j; j_last_error := j_last_error j; j_next_run_at := j_next_run_at j |}.

Definition schedule_changed (u : SyncJobUpdate) : bool :=
  match u_schedule u, u_schedule_day u, u_schedule_time u with None, None, None => false | _, _, _ => true end.

Definition check_name (u : SyncJobUpdate) (job : SyncJob) : ServerM unit :=
  match u_name u with
  | Some n => if String.eqb n "" || String.eqb n (j_name job) then mret tt else check_free n
  | None => mret tt
  end.

Definition update_sync_job (id : string) (u : SyncJobUpdate) : ServerM SyncJob :=
  match validate_update u with
  | None => raise ValidationError
  | Some u =>
      job ← need_job id;
      if String.eqb (j_status job) "running" then raise (HTTPException 400 "Cannot update running job")
      else
        check_name u job;;
        let job := apply_update u job in
        next ← (if schedule_changed u then
                  if String.eqb (j_schedule job) "manual" then on_scheduler (remove_job (Some id));; mret None
                  else on_scheduler (schedule_job (Some id) (j_schedule job) (j_schedule_day job) (j_schedule_time job))
                else mret (j_next_run_at job));
        let job := job <| j_next_run_at := next |> in
        set_jobs (fun l => (sql_update (has_key j_id id) (fun _ => job) l).1);;
        mret job
  end.

(** *** Deleting, running, cancelling *)

Definition cancel (id : string) : ServerM bool :=
  fun s => match cancel_sync id (sdb s, service s) with
           | (Ok b, x) => (Ok b, s <| sdb := x.1 |> <| service := x.2 |>)
           | (Err _, x) => (Err RuntimeError, s)
           end.

(** The runs go with their job. *)
Definition delete_sync_job (id : string) : ServerM unit :=
  job ← need_job id;
  (if String.eqb (j_status job) "running" then cancel id;; mret tt else mret tt);;
  on_scheduler (remove_job (Some id));;
  set_runs (fun l => (sql_delete (fun r => String.eqb (r_job_id r) id) l).1);;
  set_jobs (fun l => (sql_delete (has_key j_id id) l).1).

Definition new_run (run_id job_id : string) (now : Z) : SyncJobRun :=
  {| r_id := run_id; r_job_id := job_id; r_started_at := now; r_completed_at := None; r_status := "running";
     r_files_synced := 0; r_bytes_transferred := 0; r_progress_percent := 0; r_error := None |}.

Definition insert_run (r : SyncJobRun) : ServerM unit :=
  s ← get_state;
  match sql_insert r_id r (runs (sdb s)) with None => raise IntegrityError | Some l => set_runs (fun _ => l) end.

Definition set_status (id st : string) : ServerM unit :=
  set_jobs (fun l => (sql_update (has_key j_id id) (fun j => j <| j_status := st |>) l).1).

(** A new task: it starts when the loop gets to it. *)
Definition create_task (job : SyncJob) (r : SyncJobRun) : ServerM unit :=
  modify (fun s => s <| service ::= fun x =>
    x <| tasks ::= fun l => (l ++ [{| tk_job := job; tk_run := r; tk_phase := Waiting |}])%list |> |>).

Definition run_sync_job (c : Clock) (run_id id : string) : ServerM SyncJobRun :=
  s ← get_state;
  if (loop_time c - default 0 (assoc_get id (manual_run_times s)) <? 60000000)%Z then
    raise (HTTPException 429 "Rate limit: wait 1 minute between manual runs")
  else
    modify (fun s => s <| manual_run_times ::= assoc_set id (loop_time c) |>);;
    job ← need_job id;
    if String.eqb (j_status job) "running" then raise (HTTPException 400 "Job is already running")
    else
      b ← find_backend (j_destination_backend_id job);
      match b with
      | None => raise (HTTPException 400 "Destination backend not found")
      | Some b =>
          if String.eqb (bk_status b) "online" then
            let r := new_run run_id id (utc_now c) in
            insert_run r;;
            set_status id "running";;
            create_task (job <| j_status := "running" |>) r;;
            mret r
          else raise (HTTPException 400 "Destination backend is not online")
      end.

Definition cancel_sync_job (id : string) : ServerM bool :=
  job ← need_job id;
  if String.eqb (j_status job) "running" then
    cancelled ← cancel id;
    (if cancelled : bool then set_status id "idle" else mret tt);;
    mret cancelled
  else raise (HTTPException 400 "Job is not running").

(** *** The scheduler's call *)

Definition _scheduled_job_callback (c : Clock) (run_id : string) (job_id : option string) : ServerM unit :=
  s ← get_state;
  match job_id with
  | None => mret tt
  | Some id =>
      match sql_find j_id id (jobs (sdb s)) with
      | None => mret tt
      | Some job =>
          if String.eqb (j_status job) "running" then mret tt
          else
            b ← find_backend (j_destination_backend_id job);
            match b with
            | Some b =>
                if String.eqb (bk_status b) "online" then
                  let r := new_run run_id id (utc_now c) in
                  insert_run r;;
                  set_status id "running";;
                  next ← on_scheduler (get_next_run_time (Some id));
                  let job := job <| j_status := "running" |> <| j_next_run_at ::= fun o => match next with Some _ => next | None => o end |> in
                  set_jobs (fun l => (sql_update (has_key j_id id) (fun _ => job) l).1);;
                  create_task job r
                else
                  set_jobs (fun l => (sql_update (has_key j_id id)
                    (fun j => j <| j_status := "failed" |> <| j_last_error := Some "Backend not online" |>) l).1)
            | None =>
                set_jobs (fun l => (sql_update (has_key j_id id)
                  (fun j => j <| j_status := "failed" |> <| j_last_error := Some "Backend not online" |>) l).1)
            end
      end
  end.

Definition set_next_run (id : string) (next : option Z) : ServerM unit :=
  match next with
  | Some _ => set_jobs (fun l => (sql_update (has_key j_id id) (fun j => j <| j_next_run_at := next |>) l).1)
  | None => mret tt
  end.

(** [_register_scheduled_jobs] of [main.py] *)
Fixpoint register_jobs (l : list SyncJob) : ServerM unit :=
  match l with
  | [] => mret tt
  | j :: l =>
      next ← on_scheduler (schedule_job (Some (j_id j)) (j_schedule j) (j_schedule_day j) (j_schedule_time j));
      set_next_run (j_id j) next;;
      register_jobs l
  end.
Definition _register_scheduled_jobs : ServerM unit :=
  s ← get_state;
  register_jobs (sql_select (fun j => negb (String.eqb (j_schedule j) "manual")) (jobs (sdb s))).

(** ** Events *)

Inductive event : Type :=
| Create (id : string) (d : SyncJobCreate)
| Update (id : string) (u : SyncJobUpdate)
| Delete (id : string)
| Run (run_id id : string)
| Cancel (id : string)
| Scheduled (run_id call : string)                  (* the scheduler makes a call *)
| Starts (i : nat) (t : Civil) (spawned : result string Z)
| Reads (i : nat) (received : result string string)
| Ends (i : nat) (returncode : Z).

Definition step (s : Server) (e : Clock * event) : Server :=
  let '(c, e) := e in
  match e with
  | Create id d => (request_job (create_sync_job id d) s).2
  | Update id u => (request_job (update_sync_job id u) s).2
  | Delete id => (request_job (delete_sync_job id) s).2
  | Run run_id id => (request_job (run_sync_job c run_id id) s).2
  | Cancel id => (request_job (cancel_sync_job id) s).2
  | Scheduled run_id call =>
      match calls (scheduler s) !! call with
      | Some x => (request_job (_scheduled_job_callback c run_id (argument x)) s).2
      | None => s
      end
  | Starts i t spawned => on_tasks (task_starts i c t spawned) s
  | Reads i received => on_tasks (task_reads i c received) s
  | Ends i returncode => on_tasks (task_ends no_result i c returncode) s
  end.

Definition run_server (es : list (Clock * event)) (s : Server) : Server := fold_left step es s.
End Server.

(** ** Destinations *)

Definition clean_path (s : string) : Prop := startswith "/" s = false /\ str_contains ".." s = false.

Lemma lstrip_head c s r : lstrip c s ≠ String c r.
Proof. induction s as [|d s IH]; [done|]. cbn. destruct (Ascii.eqb_spec c d) as [->|Hne]; [done|]. by intros [= -> _]. Qed.

Lemma strip_slashes_clean s : str_contains ".." s = false -> clean_path (strip_slashes s).
Proof.
  intros H. unfold strip_slashes. destruct (lstrip_suffix "/" s) as [a Ha]. destruct (rstrip_prefix "/" (lstrip "/" s)) as [b Hb]. split.
  - apply not_true_iff_false. intros (r & E)%startswith_spec. rewrite E in Hb. cbn in Hb. by apply (lstrip_head "/" s (r ++ b)).
  - apply not_true_iff_false. intros Hc. rewrite Ha, Hb in H. by rewrite str_contains_infix in H.
Qed.

Lemma clean_parts s : clean_path s -> root (path_of s) = "" /\ ".." ∉ parts (path_of s).
Proof.
  intros [H1 H2]. split.
  - cbn. unfold path_root. rewrite H1. destruct (startswith "//" s) eqn:E; [|done].
    apply startswith_spec in E as [r ->]. 
    assert (startswith "/" ("//" ++ r) = true) as E by (apply startswith_spec; by exists ("/" ++ r)). congruence.
  - cbn. rewrite list_elem_of_In, filter_In, <- list_elem_of_In. intros [H%split_contains _]. congruence.
Qed.

(** ** Well-formed tables *)

Definition JOB_STATES : list string := ["idle"; "running"; "synced"; "failed"].

Section Rows.
Context {S : Type} {A : APScheduler S} {L : APSchedulerLaws S} (no_result : string).

Abbreviation server := (Server (S := S)).

Record job_ok (j : SyncJob) : Prop := {
  jo_status : j_status j ∈ JOB_STATES;
  jo_path : clean_path (j_destination_path j);
  jo_keep : keep_ok (j_keep_versions j) = true;
  jo_schedule : j_schedule j ∈ SCHEDULES;
  jo_accepted : schedule_accepted (S := S) (j_schedule j) (j_schedule_day j) (j_schedule_time j)
}.

Definition run_ok (r : SyncJobRun) : Prop :=
  (r_status r = "running" /\ r_completed_at r = None)
  \/ ((r_status r = "success" \/ r_status r = "failed") /\ r_completed_at r ≠ None).

Record jobs_wf (d : SyncDB) : Prop := {
  jw_ids : keys_unique j_id (jobs d);
  jw_names : keys_unique j_name (jobs d);
  jw_jobs : Forall job_ok (jobs d);
  jw_run_ids : keys_unique r_id (runs d);
  jw_runs : Forall run_ok (runs d);
  jw_parents : Forall (fun r => r_job_id r ∈ j_id <$> jobs d) (runs d)
}.

(** A task works for a directory that cannot leave the backend. *)
Definition task_ok (tk : Task) : Prop := clean_path (j_destination_path (tk_job tk)).

(** *** Steps of the tables *)

Lemma jobs_wf_update d P f : jobs_wf d -> (forall j, j_id (f j) = j_id j /\ j_name (f j) = j_name j) ->
  (forall j, job_ok j -> P j = true -> job_ok (f j)) -> jobs_wf (d <| jobs ::= fun l => (sql_update P f l).1 |>).
Proof.
  intros Hd Hk Hf. assert (j_id <$> (sql_update P f (jobs d)).1 = j_id <$> jobs d) as Hids by (apply update_keys; apply Hk).
  constructor; cbn [jobs runs]; try apply Hd.
  - apply keys_unique_update; [apply Hk|apply Hd].
  - apply keys_unique_update; [apply Hk|apply Hd].
  - apply Forall_forall. intros j (i & Hi & ->)%elem_of_update. pose proof (jw_jobs _ Hd) as H. rewrite Forall_forall in H.
    specialize (H i Hi). destruct (P i) eqn:E; auto.
  - pose proof (jw_parents _ Hd) as H. cbn. change (map _ _) with (sql_update P f (jobs d)).1. by rewrite Hids.
Qed.

(** One job's row in place of another with the same key and name. *)
Lemma jobs_wf_row d j j' : jobs_wf d -> j ∈ jobs d -> j_id j' = j_id j -> j_name j' = j_name j -> job_ok j' ->
  jobs_wf (d <| jobs ::= fun l => (sql_update (has_key j_id (j_id j)) (fun _ => j') l).1 |>).
Proof.
  intros Hd Hin Hid Hname Hok. constructor; cbn -[sql_update]; try apply Hd.
  - unfold keys_unique. rewrite update_row_keys by done. apply Hd.
  - apply unique_update; try done; [apply Hd..|]. apply not_true_iff_false. rewrite existsb_exists.
    intros (x & Hx%list_elem_of_In & [Hne%negb_true_iff%has_key_false E%has_key_true]%andb_true_iff).
    apply Hne. f_equal. apply (key_elem_inj j_name (jobs d)); [apply Hd|done..|congruence].
  - apply Forall_forall. intros x (y & Hy & ->)%elem_of_update. pose proof (jw_jobs _ Hd) as H. rewrite Forall_forall in H.
    destruct (has_key _ _ y); [done|by apply H].
  - eapply Forall_impl; [apply (jw_parents _ Hd)|]. intros r. cbn beta. by rewrite update_row_keys.
Qed.

Lemma jobs_wf_update_runs d P f : jobs_wf d -> (forall r, r_id (f r) = r_id r /\ r_job_id (f r) = r_job_id r) ->
  (forall r, run_ok (f r)) -> jobs_wf (d <| runs ::= fun l => (sql_update P f l).1 |>).
Proof.
  intros Hd Hk Hf. constructor; cbn [jobs runs]; try apply Hd.
  - apply keys_unique_update; [apply Hk|apply Hd].
  - apply Forall_forall. intros r (i & Hi & ->)%elem_of_update. pose proof (jw_runs _ Hd) as H. rewrite Forall_forall in H.
    specialize (H i Hi). destruct (P i) eqn:E; auto.
  - apply Forall_forall. intros r (i & Hi & ->)%elem_of_update. pose proof (jw_parents _ Hd) as H. rewrite Forall_forall in H.
    specialize (H i Hi). destruct (Hk i) as [_ E]. cbn. destruct (P i); [by rewrite E|done].
Qed.

Lemma jobs_wf_delete_runs d P : jobs_wf d -> jobs_wf (d <| runs ::= fun l => (sql_delete P l).1 |>).
Proof.
  intros Hd. constructor; cbn [jobs runs]; try apply Hd.
  - apply keys_unique_delete, Hd.
  - apply Forall_forall. intros r [Hr _]%elem_of_delete. pose proof (jw_runs _ Hd) as H. rewrite Forall_forall in H. auto.
  - apply Forall_forall. intros r [Hr _]%elem_of_delete. pose proof (jw_parents _ Hd) as H. rewrite Forall_forall in H. by apply H.
Qed.

Lemma jobs_wf_insert d j : jobs_wf d -> job_ok j -> j_id j ∉ j_id <$> jobs d -> j_name j ∉ j_name <$> jobs d ->
  jobs_wf (d <| jobs ::= fun l => (l ++ [j])%list |>).
Proof.
  intros Hd Hj Hid Hname. constructor; cbn [jobs runs]; try apply Hd.
  - unfold keys_unique. cbn. rewrite fmap_app, NoDup_app. split; [apply Hd|]. split; [by intros x Hx ->%list_elem_of_singleton|apply NoDup_singleton].
  - unfold keys_unique. cbn. rewrite fmap_app, NoDup_app. split; [apply Hd|]. split; [by intros x Hx ->%list_elem_of_singleton|apply NoDup_singleton].
  - cbn. apply Forall_app. split; [apply Hd|]. by apply Forall_singleton.
  - eapply Forall_impl; [apply (jw_parents _ Hd)|]. cbn. intros r Hr. rewrite fmap_app. apply elem_of_app. by left.
Qed.

Lemma jobs_wf_insert_run d r : jobs_wf d -> run_ok r -> r_id r ∉ r_id <$> runs d -> r_job_id r ∈ j_id <$> jobs d ->
  jobs_wf (d <| runs ::= fun l => (l ++ [r])%list |>).
Proof.
  intros Hd Hr Hid Hjob. constructor; cbn [jobs runs]; try apply Hd.
  - unfold keys_unique. cbn. rewrite fmap_app, NoDup_app. split; [apply Hd|]. split; [by intros x Hx ->%list_elem_of_singleton|apply NoDup_singleton].
  - cbn. apply Forall_app. split; [apply Hd|]. by apply Forall_singleton.
  - cbn. apply Forall_app. split; [apply Hd|]. by apply Forall_singleton.
Qed.

Lemma jobs_wf_delete d id : jobs_wf d ->
  jobs_wf (d <| runs ::= fun l => (sql_delete (fun r => String.eqb (r_job_id r) id) l).1 |>
             <| jobs ::= fun l => (sql_delete (has_key j_id id) l).1 |>).
Proof.
  intros Hd. constructor; cbn [jobs runs].
  - apply keys_unique_delete, Hd.
  - apply keys_unique_delete, Hd.
  - apply Forall_forall. intros j [Hj _]%elem_of_delete. pose proof (jw_jobs _ Hd) as H. rewrite Forall_forall in H. auto.
  - apply keys_unique_delete, Hd.
  - apply Forall_forall. intros r [Hr _]%elem_of_delete. pose proof (jw_runs _ Hd) as H. rewrite Forall_forall in H. auto.
  - apply Forall_forall. intros r [Hr Hne%String.eqb_neq]%elem_of_delete. pose proof (jw_parents _ Hd) as H.
    rewrite Forall_forall in H. specialize (H _ Hr). apply list_elem_of_fmap in H as (j & E & Hj). rewrite E.
    apply list_elem_of_fmap_2, elem_of_delete. split; [done|]. apply has_key_false. congruence.
Qed.

(** *** Requests *)

Record server_ok (s : server) : Prop := {
  so_db : jobs_wf (sdb s);
  so_tasks : Forall task_ok (tasks (service s));
  so_throttled : throttled (sdb s, service s);
  so_bounded : bounded (sdb s, service s)
}.

(** Operations that leave the service alone, that never fail, and that leave it alone if they fail. *)
Definition silent {X} (m : M server server_error X) : Prop := forall s, service (m s).2 = service s.
Definition total {X} (m : M server server_error X) : Prop := forall s, is_ok (m s).1 = true.
Definition quiet {X} (m : M server server_error X) : Prop := forall s e s', m s = (Err e, s') -> service s' = service s.
Definition safe {X} (m : M server server_error X) : Prop := forall s a s', server_ok s -> m s = (Ok a, s') -> server_ok s'.

Lemma silent_bind {X Y} (m : M server server_error X) (f : X -> M server server_error Y) :
  silent m -> (forall a, silent (f a)) -> silent (m ≫= f).
Proof.
  intros Hm Hf s. specialize (Hm s). unfold mbind, M_bind. destruct (m s) as [[a|e] s1]; cbn in *; [|done].
  specialize (Hf a s1). congruence.
Qed.

Lemma total_bind {X Y} (m : M server server_error X) (f : X -> M server server_error Y) :
  total m -> (forall a, total (f a)) -> total (m ≫= f).
Proof. intros Hm Hf s. specialize (Hm s). unfold mbind, M_bind. destruct (m s) as [[a|e] s1]; cbn in *; [apply Hf|done]. Qed.

Lemma quiet_total {X} (m : M server server_error X) : total m -> quiet m.
Proof. intros Hm s e s' E. specialize (Hm s). by rewrite E in Hm. Qed.

Lemma quiet_bind {X Y} (m : M server server_error X) (f : X -> M server server_error Y) :
  silent m -> (forall a, quiet (f a)) -> quiet (m ≫= f).
Proof.
  intros Hm Hf s e s'. specialize (Hm s). unfold mbind, M_bind. destruct (m s) as [[a|e1] s1]; cbn in *.
  - intros H%Hf. congruence.
  - by intros [= _ <-].
Qed.

Lemma request_safe {X} (m : M server server_error X) : safe m -> quiet m -> keeps server_ok (request_job m).
Proof.
  intros Hs Hq s Hok. unfold request_job. destruct (m s) as [[a|e] s'] eqn:E; cbn.
  - by eapply Hs.
  - specialize (Hq _ _ _ E). destruct Hok. constructor; cbn; by rewrite ?Hq.
Qed.

Lemma silent_on_scheduler {X} (m : M S server_error X) : silent (on_scheduler m).
Proof. intros s. unfold on_scheduler. by destruct (m (scheduler s)). Qed.

Ltac quiet_steps :=
  repeat match goal with
    | |- quiet (create_task _ _ ≫= _) => apply quiet_total
    | |- quiet (_ ≫= _) => apply quiet_bind; [|intros ?]
    | |- silent (_ ≫= _) => apply silent_bind; [|intros ?]
    | |- total (_ ≫= _) => apply total_bind; [|intros ?]
    | |- silent (on_scheduler _) => apply silent_on_scheduler
    | |- _ (match ?x with _ => _ end) => destruct x eqn:?
    | |- _ (let _ := _ in _) => cbv zeta
    end; try (by intros ?); try (by intros ? ? ? [= _ <-]).

Lemma silent_need_job id : silent (need_job (S := S) id).
Proof. unfold need_job. quiet_steps. Qed.
Lemma silent_find_backend id : silent (find_backend (S := S) id).
Proof. unfold find_backend. quiet_steps. Qed.
Lemma silent_check_free n : silent (check_free (S := S) n).
Proof. unfold check_free. quiet_steps. Qed.
Lemma silent_check_name u job : silent (check_name (S := S) u job).
Proof. unfold check_name. quiet_steps. apply silent_check_free. Qed.
Lemma silent_insert_job j : silent (insert_job (S := S) j).
Proof. unfold insert_job. quiet_steps. Qed.
Lemma silent_insert_run r : silent (insert_run (S := S) r).
Proof. unfold insert_run. quiet_steps. Qed.
Lemma total_cancel id : total (cancel (S := S) id).
Proof. intros s. unfold cancel, cancel_sync. rewrite (bind_Ok _ _ (sdb s, service s) (sdb s, service s) (sdb s, service s)) by done.
  by destruct (assoc_get _ _). Qed.

#[local] Hint Resolve silent_need_job silent_find_backend silent_check_free silent_check_name silent_insert_job silent_insert_run : pyboot.

Lemma quiet_handlers :
  (forall id d, quiet (create_sync_job (S := S) id d)) /\ (forall id u, quiet (update_sync_job (S := S) id u))
  /\ (forall id, quiet (delete_sync_job (S := S) id)) /\ (forall c run_id id, quiet (run_sync_job (S := S) c run_id id))
  /\ (forall id, quiet (cancel_sync_job (S := S) id)) /\ (forall c run_id id, quiet (_scheduled_job_callback (S := S) c run_id id)).
Proof.
  split_and!.
  - intros id d. unfold create_sync_job. quiet_steps; auto with pyboot.
  - intros id u. unfold update_sync_job. quiet_steps; auto with pyboot.
  - intros id. unfold delete_sync_job. apply quiet_bind; [auto with pyboot|]. intros j. apply quiet_total. quiet_steps; apply total_cancel.
  - intros c run_id id. unfold run_sync_job. quiet_steps; auto with pyboot.
  - intros id. unfold cancel_sync_job. apply quiet_bind; [auto with pyboot|]. intros j. destruct (String.eqb _ _); [|by intros s e s' [= _ <-]].
    apply quiet_total. quiet_steps; apply total_cancel.
  - intros c run_id id. unfold _scheduled_job_callback. quiet_steps; auto with pyboot.
Qed.

(** *** What the operations do when they succeed *)

Lemma need_job_Ok id (s : server) j s' : need_job id s = (Ok j, s') ->
  s' = s /\ sql_find j_id id (jobs (sdb s)) = Some j /\ j ∈ jobs (sdb s) /\ j_id j = id.
Proof.
  unfold need_job. unfold_M. destruct (sql_find j_id id (jobs (sdb s))) as [x|] eqn:E; [|done].
  intros [= -> <-]. by destruct (sql_find_Some_1 _ _ _ _ E).
Qed.

Lemma check_free_Ok n (s : server) u s' : check_free n s = (Ok u, s') -> s' = s /\ n ∉ j_name <$> jobs (sdb s).
Proof.
  unfold check_free. unfold_M. destruct (sql_find j_name n (jobs (sdb s))) eqn:E; [done|]. intros [= _ <-].
  split; [done|]. by apply sql_find_None in E.
Qed.

Lemma on_scheduler_Ok {X} (m : M S server_error X) (s : server) a s' : on_scheduler m s = (Ok a, s') ->
  m (scheduler s) = (Ok a, scheduler s') /\ s' = s <| scheduler := scheduler s' |>.
Proof. unfold on_scheduler. destruct (m (scheduler s)) as [r x]. by intros [= -> <-]. Qed.

Lemma insert_job_Ok j (s : server) u s' : insert_job j s = (Ok u, s') ->
  s' = s <| sdb ::= (fun d => d <| jobs ::= (fun l => (l ++ [j])%list) |>) |>
  /\ (j_id j ∉ j_id <$> jobs (sdb s)) /\ (j_name j ∉ j_name <$> jobs (sdb s)).
Proof.
  unfold insert_job, sql_insert. unfold_M. destruct (sql_find j_id (j_id j) (jobs (sdb s))) eqn:E; [done|].
  destruct (existsb _ _) eqn:Ex; [done|]. intros [= _ <-]. split; [done|]. split; [by apply sql_find_None|].
  intros (x & Hx & Hin)%list_elem_of_fmap. apply not_true_iff_false in Ex. apply Ex, existsb_exists. exists x.
  split; [by apply list_elem_of_In|]. by apply has_key_true.
Qed.

Lemma insert_run_Ok r (s : server) u s' : insert_run r s = (Ok u, s') ->
  s' = s <| sdb ::= (fun d => d <| runs ::= (fun l => (l ++ [r])%list) |>) |> /\ r_id r ∉ r_id <$> runs (sdb s).
Proof.
  unfold insert_run, sql_insert. unfold_M. destruct (sql_find r_id (r_id r) (runs (sdb s))) eqn:E; [done|].
  intros [= _ <-]. split; [done|]. by apply sql_find_None.
Qed.

Lemma server_ok_db (s : server) d x y : jobs_wf d -> server_ok s ->
  server_ok {| sdb := d; service := service s; scheduler := x; manual_run_times := y |}.
Proof. intros Hd []. by constructor. Qed.

Lemma is_schedule_spec s : is_schedule s = true <-> s ∈ SCHEDULES.
Proof.
  unfold is_schedule. rewrite existsb_exists. split.
  - by intros (x & Hx%list_elem_of_In & ->%String.eqb_eq).
  - intros H. exists s. by rewrite <- list_elem_of_In, String.eqb_eq.
Qed.

Lemma validate_create_Some d d' : validate_create d = Some d' ->
  clean_path (c_destination_path d') /\ keep_ok (c_keep_versions d') = true
  /\ schedule_valid (c_schedule d') (c_schedule_day d') (c_schedule_time d').
Proof.
  unfold validate_create. destruct (_ && _) eqn:E; [|done]. intros [= <-]. cbn.
  rewrite !andb_true_iff in E. destruct E as ((((((((_ & Hp) & _) & _) & Hs) & Hd) & Ht) & Hk) & _).
  split; [|split; [done|]].
  - apply strip_slashes_clean. unfold path_ok in Hp. apply andb_true_iff in Hp as [_ Hp]. by apply negb_true_iff in Hp.
  - constructor; [by apply is_schedule_spec|done|]. intros t E. by rewrite E in Ht.
Qed.

Lemma create_job_Ok id d (s : server) j s' : create_sync_job id d s = (Ok j, s') ->
  exists d' next, validate_create d = Some d' /\ j = (new_job id d') <| j_next_run_at := next |>
  /\ (id ∉ j_id <$> jobs (sdb s)) /\ (c_name d' ∉ j_name <$> jobs (sdb s))
  /\ s' = {| sdb := (sdb s) <| jobs ::= fun l => (l ++ [j])%list |>; service := service s; scheduler := scheduler s';
             manual_run_times := manual_run_times s |}
  /\ (if String.eqb (c_schedule d') "manual" then scheduler s' = scheduler s /\ next = None
      else schedule_job None (c_schedule d') (c_schedule_day d') (c_schedule_time d') (scheduler s) = (Ok next, scheduler s')).
Proof.
  unfold create_sync_job. destruct (validate_create d) as [d'|]; [|done].
  step_M u s1 H1. apply check_free_Ok in H1 as [-> Hname]. unfold find_backend. step_M b s2 H2. injection H2 as _ <-.
  destruct b as [b|]; [|done]. step_M next s3 H3. step_M u' s4 H4. unfold_M. intros [= <- <-].
  exists d', next. destruct (String.eqb (c_schedule d') "manual").
  - injection H3 as <- <-. apply insert_job_Ok in H4 as (-> & Hid & Hn). by destruct s.
  - apply on_scheduler_Ok in H3 as [H3 E]. apply insert_job_Ok in H4 as (-> & Hid & Hn). rewrite E in Hid, Hn |- *.
    split; [done|]. split; [done|]. split; [done|]. split; [done|]. by destruct s.
Qed.

Lemma create_safe id d : safe (create_sync_job (S := S) id d).
Proof.
  intros s j s' Hs (d' & next & Hv & -> & Hid & Hname & -> & Hsch)%create_job_Ok. apply server_ok_db; [|done].
  destruct (validate_create_Some _ _ Hv) as (Hp & Hk & Hsv). apply jobs_wf_insert; try done; [apply Hs|].
  constructor; cbn; try done; [set_solver|apply Hsv|]. by apply (schedule_valid_accepted _ _ _ (scheduler s)).
Qed.

Lemma update_job_Ok id u (s : server) j s' : update_sync_job id u s = (Ok j, s') ->
  exists u' job next, validate_update u = Some u' /\ sql_find j_id id (jobs (sdb s)) = Some job /\ j_status job ≠ "running"
  /\ j = (apply_update u' job) <| j_next_run_at := next |>
  /\ (j_name j = j_name job \/ j_name j ∉ j_name <$> jobs (sdb s))
  /\ s' = {| sdb := (sdb s) <| jobs ::= fun l => (sql_update (has_key j_id id) (fun _ => j) l).1 |>; service := service s;
             scheduler := scheduler s'; manual_run_times := manual_run_times s |}
  /\ (if schedule_changed u' then
         let job' := apply_update u' job in
         if String.eqb (j_schedule job') "manual" then True
         else schedule_job (Some id) (j_schedule job') (j_schedule_day job') (j_schedule_time job') (scheduler s)
              = (Ok next, scheduler s')
       else scheduler s' = scheduler s /\ next = j_next_run_at job).
Proof.
  unfold update_sync_job. destruct (validate_update u) as [u'|]; [|done].
  step_M job s1 H1. apply need_job_Ok in H1 as (-> & Hfind & _).
  destruct (String.eqb_spec (j_status job) "running") as [|Hst]; [done|]. cbv zeta.
  step_M x s2 H2. assert (s2 = s /\ (j_name (apply_update u' job) = j_name job
                                     \/ j_name (apply_update u' job) ∉ j_name <$> jobs (sdb s))) as [-> Hname].
  { unfold check_name in H2. cbn. destruct (u_name u') as [n|]; [|injection H2 as _ <-; auto]. destruct (String.eqb n "") eqn:En; [injection H2 as _ <-; auto|].
    cbn in H2. destruct (String.eqb_spec n (j_name job)); [injection H2 as _ <-; auto|]. apply check_free_Ok in H2 as [-> H]. auto. }
  step_M next s3 H3. step_M x' s4 H4. injection H4 as _ <-. intros [= <- <-]. exists u', job, next. do 5 (split; [done|]).
  destruct (schedule_changed u').
  - cbv zeta. destruct (String.eqb (j_schedule (apply_update u' job)) "manual").
    + unfold on_scheduler in H3. cbn in H3. injection H3 as <- <-. by destruct s.
    + apply on_scheduler_Ok in H3 as [H3 ->]. destruct s. split; [done|exact H3].
  - injection H3 as <- <-. by destruct s.
Qed.

Lemma validate_update_Some u u' : validate_update u = Some u' ->
  (forall x, u_destination_path u' = Some x -> clean_path x) /\ (forall x, u_keep_versions u' = Some x -> keep_ok x = true)
  /\ (forall x, u_schedule u' = Some x -> x ∈ SCHEDULES).
Proof.
  unfold validate_update. destruct (_ && _) eqn:E; [|done]. intros [= <-]. cbn.
  rewrite !andb_true_iff in E. destruct E as ((((_ & Hp) & Hs) & _) & Hk).
  split; [|split]; intros x.
  - destruct (u_destination_path u) as [y|]; [|done]. cbn. intros [= <-]. apply strip_slashes_clean.
    unfold path_ok in Hp. apply andb_true_iff in Hp as [_ Hp]. by apply negb_true_iff in Hp.
  - intros E. by rewrite E in Hk.
  - intros E. rewrite E in Hs. by apply is_schedule_spec.
Qed.

Lemma job_elem_ok d j : jobs_wf d -> j ∈ jobs d -> job_ok j.
Proof. intros Hd. pose proof (jw_jobs _ Hd) as H. rewrite Forall_forall in H. auto. Qed.

Lemma update_safe id u : safe (update_sync_job (S := S) id u).
Proof.
  intros s j s' Hs (u' & job & next & Hv & [Hin Hid]%sql_find_Some_1 & Hst & Hj & Hname & Hs' & Hsch)%update_job_Ok.
  rewrite Hs'. apply server_ok_db; [|done]. pose proof (so_db _ Hs) as Hd. pose proof (job_elem_ok _ _ Hd Hin) as Hok.
  destruct (validate_update_Some _ _ Hv) as (Hp & Hk & Hsc).
  assert (j_id j = j_id job) as Hid' by (by subst j).
  assert (j_schedule j ∈ SCHEDULES) as Hsched.
  { subst j. cbn. unfold given. destruct (u_schedule u') as [x|]; cbn; [by apply Hsc|apply Hok]. }
  assert (job_ok j) as Hjok.
  { constructor; [subst j; apply Hok|..|done|].
    - subst j. cbn. unfold given. destruct (u_destination_path u') as [x|]; cbn; [by apply Hp|apply Hok].
    - subst j. cbn. unfold given. destruct (u_keep_versions u') as [x|]; cbn; [by apply Hk|apply Hok].
    - destruct (schedule_changed u') eqn:Ec.
      + subst j. cbv zeta in Hsch. destruct (String.eqb_spec (j_schedule (apply_update u' job)) "manual") as [E|_]; [by left|].
        exact (schedule_job_accepts _ _ _ _ _ _ _ Hsched Hsch).
      + assert (j_schedule j = j_schedule job /\ j_schedule_day j = j_schedule_day job /\ j_schedule_time j = j_schedule_time job)
          as (-> & -> & ->); [|apply Hok]. subst j. cbn. unfold schedule_changed in Ec.
        by destruct (u_schedule u'), (u_schedule_day u'), (u_schedule_time u'). }
  assert (forall x, x ∈ jobs (sdb s) -> x ≠ job -> j_name x ≠ j_name j) as Hnew.
  { intros x Hx Hne Heq. destruct Hname as [E|E]; [|apply E; rewrite <- Heq; by apply list_elem_of_fmap_2].
    apply Hne. apply (key_elem_inj j_name _ x job (jw_names _ Hd)); congruence. }
  subst id. constructor; cbn -[sql_update]; try apply Hd.
  - unfold keys_unique. rewrite update_row_keys by done. apply Hd.
  - apply unique_update; try done; [apply Hd..|]. apply not_true_iff_false. rewrite existsb_exists.
    intros (x & Hx%list_elem_of_In & [Hne%negb_true_iff%has_key_false E%has_key_true]%andb_true_iff).
    apply (Hnew x Hx); [congruence|done].
  - apply Forall_forall. intros x (y & Hy & ->)%elem_of_update. destruct (has_key _ _ y); [done|by eapply job_elem_ok].
  - eapply Forall_impl; [apply (jw_parents _ Hd)|]. intros r. cbn beta. by rewrite update_row_keys.
Qed.

Lemma cancel_run id (s : server) : exists b x, cancel id s = (Ok b, s <| service := x |>)
  /\ tasks x = tasks (service s) /\ progress x = progress (service s) /\ last_broadcast x = last_broadcast (service s)
  /\ (b = false -> x = service s) /\ b = is_running id (service s).
Proof.
  unfold cancel, cancel_sync, is_running. rewrite (bind_Ok _ _ (sdb s, service s) (sdb s, service s) (sdb s, service s)) by done. cbn [snd].
  destruct (assoc_get id (running_processes (service s))) as [p|]; cbn; do 2 eexists; (split; [by destruct s|done]).
Qed.

Lemma server_ok_service (s : server) x : tasks x = tasks (service s) -> progress x = progress (service s) ->
  last_broadcast x = last_broadcast (service s) -> server_ok s -> server_ok (s <| service := x |>).
Proof.
  intros Ht Hp Hl []. constructor; cbn; [done|by rewrite Ht|by eapply throttled_same|by eapply bounded_same].
Qed.

Lemma cancel_safe id : safe (cancel (S := S) id).
Proof.
  intros s a s' Hs H. destruct (cancel_run id s) as (b & x & E & Ht & Hp & Hl & _). rewrite E in H. injection H as _ <-.
  by apply server_ok_service.
Qed.

Lemma set_status_wf d id st : st ∈ JOB_STATES -> jobs_wf d ->
  jobs_wf (d <| jobs ::= fun l => (sql_update (has_key j_id id) (fun j => j <| j_status := st |>) l).1 |>).
Proof. intros Hst Hd. apply jobs_wf_update; [done|done|]. intros j [] _. by constructor. Qed.

Lemma delete_safe id : safe (delete_sync_job (S := S) id).
Proof.
  intros s a s' Hs. unfold delete_sync_job. step_M j s1 H1. apply need_job_Ok in H1 as (-> & _).
  step_M u s2 H2. assert (server_ok s2) as Hs2.
  { destruct (String.eqb _ _); [|by injection H2 as _ <-]. revert H2. step_M b s3 H3. intros [= _ <-]. by eapply cancel_safe. }
  step_M u' s3 H3. apply on_scheduler_Ok in H3 as [_ ->]. unfold set_runs, set_jobs. unfold_M. intros [= _ <-].
  apply (server_ok_db s2); [|done]. cbn. apply (jobs_wf_delete (sdb s2) id), Hs2.
Qed.

Lemma cancel_job_safe id : safe (cancel_sync_job (S := S) id).
Proof.
  intros s a s' Hs. unfold cancel_sync_job. step_M j s1 H1. apply need_job_Ok in H1 as (-> & _).
  destruct (String.eqb _ _); [|done]. step_M b s2 H2. apply cancel_safe in H2; [|done].
  unfold set_status, set_jobs. destruct b; unfold_M; intros [= _ <-]; [|done].
  apply (server_ok_db s2); [|done]. apply set_status_wf; [set_solver|apply H2].
Qed.

(** A run is recorded and its task made. *)
Lemma start_run_ok (s : server) run_id id now j x y tk :
  server_ok s -> id ∈ j_id <$> jobs (sdb s) -> run_id ∉ r_id <$> runs (sdb s) -> task_ok tk -> tk_phase tk = Waiting ->
  jobs_wf ((sdb s) <| runs ::= fun l => (l ++ [new_run run_id id now])%list |> <| jobs := j |>) ->
  server_ok {| sdb := (sdb s) <| runs ::= fun l => (l ++ [new_run run_id id now])%list |> <| jobs := j |>;
               service := (service s) <| tasks ::= fun l => (l ++ [tk])%list |>; scheduler := x; manual_run_times := y |}.
Proof.
  intros [] Hid Hrun Htk Hw Hwf. constructor; cbn; try done.
  - apply Forall_app. split; [done|]. by apply Forall_singleton.
  - unfold bounded, active in *. cbn in *. rewrite List.filter_app, length_app. cbn. unfold receiving at 2. rewrite Hw. cbn. lia.
Qed.

Lemma run_job_safe c run_id id : safe (run_sync_job (S := S) c run_id id).
Proof.
  intros s a s' Hs. unfold run_sync_job. rewrite (bind_Ok _ _ s s s) by done. destruct (_ <? _)%Z; [done|].
  step_M u s1 H1. injection H1 as _ <-. step_M job s2 H2. apply need_job_Ok in H2 as (-> & _ & Hin & Hid). cbn in Hin.
  destruct (String.eqb _ _); [done|]. step_M b s3 H3. injection H3 as _ <-. destruct b as [b|]; [|done].
  destruct (String.eqb _ _); [|done]. cbv zeta. step_M u2 s4 H4. apply insert_run_Ok in H4 as [-> Hr]. cbn in Hr.
  unfold set_status, set_jobs, create_task. unfold_M. intros [= _ <-].
  pose proof (so_db _ Hs) as Hd. pose proof (list_elem_of_fmap_2 j_id _ _ Hin) as Hfm. rewrite Hid in Hfm.
  apply (start_run_ok s run_id id (utc_now c)); try done; [apply (job_elem_ok _ _ Hd Hin)|].
  pose proof (jobs_wf_insert_run (sdb s) (new_run run_id id (utc_now c)) Hd (or_introl (conj eq_refl eq_refl)) Hr Hfm) as Hd'.
  pose proof (set_status_wf _ id "running" ltac:(set_solver) Hd') as H. exact H.
Qed.

Lemma scheduled_safe c run_id arg : safe (_scheduled_job_callback (S := S) c run_id arg).
Proof.
  intros s a s' Hs. unfold _scheduled_job_callback. rewrite (bind_Ok _ _ s s s) by done.
  destruct arg as [id|]; [|by intros [= _ <-]]. pose proof (so_db _ Hs) as Hd.
  destruct (sql_find j_id id (jobs (sdb s))) as [job|] eqn:Ej; [|by intros [= _ <-]].
  apply sql_find_Some_1 in Ej as [Hin Hid]. pose proof (job_elem_ok _ _ Hd Hin) as Hok.
  destruct (String.eqb _ _); [by intros [= _ <-]|].
  assert (forall e, jobs_wf ((sdb s) <| jobs ::= fun l => (sql_update (has_key j_id id)
            (fun j => j <| j_status := "failed" |> <| j_last_error := e |>) l).1 |>)) as Hfail.
  { intros e. apply jobs_wf_update; [done|done|]. intros j [] _. constructor; cbn; try done. do 3 right. by left. }
  step_M b s3 H3. injection H3 as _ <-. destruct b as [b|]; [destruct (String.eqb _ _)|].
  - cbv zeta. step_M u2 s4 H4. apply insert_run_Ok in H4 as [-> Hr].
    step_M u3 s5 H5. injection H5 as _ <-. step_M next s6 H6. apply on_scheduler_Ok in H6 as [_ ->].
    unfold set_jobs, create_task. unfold_M. intros [= _ <-].
    pose proof (list_elem_of_fmap_2 j_id _ _ Hin) as Hfm. rewrite Hid in Hfm.
    apply (start_run_ok s run_id id (utc_now c)); try done; [apply Hok|].
    set (job' := job <| j_status := "running" |> <| j_next_run_at ::= (fun o => match next with Some _ => next | None => o end) |>).
    pose proof (jobs_wf_insert_run (sdb s) (new_run run_id id (utc_now c)) Hd (or_introl (conj eq_refl eq_refl)) Hr Hfm) as Hd'.
    pose proof (jobs_wf_row _ job job' Hd' Hin eq_refl eq_refl) as Hrow. rewrite Hid in Hrow.
    assert (job_ok job') as Hok' by (constructor; cbn; try apply Hok; set_solver).
    specialize (Hrow Hok'). cbn -[sql_update] in Hrow.
    rewrite <- (sql_update_compose (has_key j_id id) (fun j => j <| j_status := "running" |>) (fun _ => job')) in Hrow by done.
    exact Hrow.
  - unfold set_jobs. unfold_M. intros [= _ <-]. apply (server_ok_db s); [apply Hfail|done].
  - unfold set_jobs. unfold_M. intros [= _ <-]. apply (server_ok_db s); [apply Hfail|done].
Qed.

(** *** Steps of the tasks *)

Definition world_ok (x : World) : Prop := jobs_wf x.1 /\ Forall task_ok (tasks x.2).

Lemma world_ok_service f : (forall s, tasks (f s) = tasks s) -> keeps world_ok (on_service f).
Proof. intros Hf. apply keeps_on_service. intros d s [H1 H2]. split; [done|]. cbn in *. by rewrite Hf. Qed.

Lemma world_ok_set_task i ph : keeps world_ok (set_task i ph).
Proof.
  apply keeps_on_service. intros d s [H1 H2]. split; [done|]. cbn in *. apply Forall_alter; [done|]. by intros tk _ Htk.
Qed.

Lemma world_ok_drop_task i : keeps world_ok (drop_task i).
Proof. apply keeps_on_service. intros d s [H1 H2]. split; [done|]. cbn in *. by apply Forall_delete. Qed.

Lemma world_ok_set_run id f : (forall r, r_id (f r) = r_id r /\ r_job_id (f r) = r_job_id r) -> (forall r, run_ok (f r)) ->
  keeps world_ok (set_run id f).
Proof. intros Hf Ho. apply keeps_on_db. intros d s [H1 H2]. split; [|done]. by apply jobs_wf_update_runs. Qed.

Lemma world_ok_set_job id st f : st ∈ JOB_STATES ->
  (forall j, f j = (f j) <| j_status := st |> /\ j_id (f j) = j_id j /\ j_name (f j) = j_name j
     /\ j_destination_path (f j) = j_destination_path j /\ j_keep_versions (f j) = j_keep_versions j
     /\ j_schedule (f j) = j_schedule j /\ j_schedule_day (f j) = j_schedule_day j /\ j_schedule_time (f j) = j_schedule_time j) ->
  keeps world_ok (set_job id f).
Proof.
  intros Hst Hf. apply keeps_on_db. intros d s [H1 H2]. split; [|done].
  apply jobs_wf_update; [done|intros j; destruct (Hf j) as (_ & ? & ? & _); done|].
  intros j Hj _. destruct (Hf j) as (E & _ & _ & Hp & Hk & Hs & Hd & Ht).
  constructor; [by rewrite E|rewrite Hp|rewrite Hk|rewrite Hs|rewrite Hs, Hd, Ht]; apply Hj.
Qed.

Lemma world_ok_cleanup c id : keeps world_ok (_cleanup_old_runs c id).
Proof. apply keeps_on_db. intros d s [H1 H2]. split; [|done]. by apply jobs_wf_delete_runs. Qed.

Lemma world_ok_throttled c pr : keeps world_ok (_broadcast_throttled c pr).
Proof. unfold _broadcast_throttled. keeps_steps; by apply world_ok_service. Qed.

Lemma world_ok_fail c tk e : keeps world_ok (fail_sync c tk e).
Proof.
  unfold fail_sync. keeps_steps.
  - apply world_ok_set_run; [done|]. intros r. right. split; [by right|done].
  - apply (world_ok_set_job _ "failed"); [do 3 right; by left|done].
  - by apply world_ok_service.
Qed.

Lemma world_ok_guarded i c tk m : keeps world_ok m -> keeps world_ok (guarded i c tk m).
Proof.
  intros Hm. apply keeps_catch; [done|]. intros e. apply keeps_bind; [apply world_ok_fail|]. intros _. apply world_ok_drop_task.
Qed.

Lemma world_ok_starts i c t spawned : keeps world_ok (task_starts i c t spawned).
Proof.
  unfold task_starts. keeps_steps. apply world_ok_guarded. unfold start_sync.
  keeps_steps; first [apply world_ok_set_task | by apply world_ok_service].
Qed.

Lemma world_ok_reads i c received : keeps world_ok (task_reads i c received).
Proof.
  unfold task_reads. keeps_steps. apply world_ok_guarded. unfold read_line.
  keeps_steps; first [apply world_ok_set_task | apply world_ok_throttled].
Qed.

Lemma world_ok_ends i c code : keeps world_ok (task_ends no_result i c code).
Proof.
  unfold task_ends. keeps_steps. apply world_ok_guarded. unfold end_sync, _prune_versions.
  keeps_steps; try first [apply world_ok_drop_task | apply world_ok_cleanup | by apply world_ok_service].
  - apply world_ok_set_run; [done|]. intros r. right. cbn. destruct (code =? 0)%Z; auto.
  - apply (world_ok_set_job _ (if (code =? 0)%Z then "synced" else "failed")); [|done].
    destruct (code =? 0)%Z; [do 2 right; by left|do 3 right; by left].
Qed.

Lemma tasks_safe {X} (m : M World string X) s :
  keeps world_ok m -> keeps throttled m -> keeps bounded m -> server_ok s -> server_ok (on_tasks m s).
Proof.
  intros H1 H2 H3 []. unfold on_tasks. destruct (H1 (sdb s, service s)) as [Hd Ht]; [done|].
  specialize (H2 (sdb s, service s) so_throttled0). specialize (H3 (sdb s, service s) so_bounded0).
  destruct (m (sdb s, service s)) as [r [d x]]. by constructor.
Qed.

Lemma step_ok s e : server_ok s -> server_ok (step no_result s e).
Proof.
  intros Hs. destruct quiet_handlers as (Q1 & Q2 & Q3 & Q4 & Q5 & Q6).
  destruct e as [c [id d|id u|id|run_id id|id|run_id call|i t spawned|i received|i code]]; cbn [step].
  - by apply (request_safe _ (create_safe id d) (Q1 id d)).
  - by apply (request_safe _ (update_safe id u) (Q2 id u)).
  - by apply (request_safe _ (delete_safe id) (Q3 id)).
  - by apply (request_safe _ (run_job_safe c run_id id) (Q4 c run_id id)).
  - by apply (request_safe _ (cancel_job_safe id) (Q5 id)).
  - destruct (calls (scheduler s) !! call) as [x|]; [|done]. by apply (request_safe _ (scheduled_safe c run_id (argument x)) (Q6 c run_id _)).
  - apply tasks_safe; [apply world_ok_starts|apply throttled_starts|apply bounded_starts|done].
  - apply tasks_safe; [apply world_ok_reads|apply throttled_reads|apply bounded_reads|done].
  - apply tasks_safe; [apply world_ok_ends|apply throttled_ends|apply bounded_ends|done].
Qed.

Lemma run_server_ok es s : server_ok s -> server_ok (run_server no_result es s).
Proof. unfold run_server. revert s. induction es as [|e es IH]; intros s Hs; [done|]. cbn. by apply IH, step_ok. Qed.

(** C35: over any requests, calls of the scheduler and steps of the tasks, in any order and with any
    outcome of rsync, jobs and runs stay well-formed: keys are unique, every run belongs to a job, a
    run is finished exactly when it says so, states, versions to keep and schedules are legal, and the
    destination of every job, and of every task on its way, is relative and without dot-dots. *)
Theorem sync_jobs_well_formed es s : server_ok s ->
  let s' := run_server no_result es s in jobs_wf (sdb s') /\ Forall task_ok (tasks (service s')).
Proof. intros Hs s'. pose proof (run_server_ok es s Hs) as []. done. Qed.

(** C37: at no time do more than three tasks run rsync, and of the progress messages about one job any two
    are at least half a second apart. *)
Theorem syncs_are_limited es s job : server_ok s ->
  let s' := run_server no_result es s in
  (active (service s') <= MAX_CONCURRENT_SYNCS)%nat /\ spaced (running_times job (progress (service s'))).
Proof. intros Hs s'. pose proof (run_server_ok es s Hs) as [_ _ Ht Hb]. split; [exact Hb|apply (Ht job)]. Qed.

(** *** Where files are written *)

Lemma elem_of_prefixes {B} (l k : list B) : k ∈ prefixes l <-> k `prefix_of` l.
Proof.
  revert k. induction l as [|x l IH]; intros k; cbn.
  - rewrite list_elem_of_singleton. split; [by intros ->|]. intros ->%prefix_nil_inv. done.
  - rewrite elem_of_cons, list_elem_of_fmap. split.
    + intros [->|(k' & -> & Hk)]; [apply prefix_nil|]. apply prefix_cons. by apply IH.
    + destruct k as [|y k]; [by left|]. intros H. right. exists k.
      pose proof (prefix_cons_inv_1 _ _ _ _ H) as ->. split; [done|]. apply IH. by eapply prefix_cons_inv_2.
Qed.

Lemma elem_of_mkdir p dirs q : q ∈ mkdir p dirs <-> q ∈ dirs \/ root q = root p /\ parts q `prefix_of` parts p.
Proof.
  unfold mkdir. rewrite elem_of_union, elem_of_list_to_set, list_elem_of_fmap. split.
  - intros [(k & -> & Hk%elem_of_prefixes)|Hq]; [by right|by left].
  - intros [Hq|[Hr Hp]]; [by right|left]. exists (parts q). rewrite elem_of_prefixes. destruct q as [r l]. cbn in *. by subst.
Qed.

Lemma timestamp_no_dots t : timestamp t ≠ "..".
Proof.
  intros E. apply (f_equal String.length) in E. unfold timestamp in E. rewrite !str_app_length in E. cbn in E. lia.
Qed.

(** A directory outside of a mount point that is only passed, or one inside that is reached without
    dot-dots. *)
Definition inside (mount_point : string) (q : PurePath) : Prop :=
  below_path q (path_of mount_point) = true
  \/ exists l, root q = path_root mount_point /\ parts q = (parts (path_of mount_point) ++ l)%list /\ ".." ∉ l.

Lemma version_inside mount_point job t q :
  clean_path (j_destination_path job) -> root q = root (child (versions_dir mount_point job) (timestamp t)) ->
  parts q `prefix_of` parts (child (versions_dir mount_point job) (timestamp t)) -> inside mount_point q.
Proof.
  intros [Hroot Hdots]%clean_parts Hr Hp. unfold versions_dir, path_join in *.
  rewrite Hroot in *. cbn [String.eqb Ascii.eqb Bool.eqb root parts child] in *. rewrite <- app_assoc in Hp.
  set (rest := (parts (path_of (j_destination_path job)) ++ [timestamp t])%list) in *.
  destruct (prefix_weak_total (parts q) (parts (path_of mount_point)) _ Hp (prefix_app_r _ _ _ (reflexivity _))) as [H|[l El]].
  - left. apply below_path_spec. done.
  - right. exists l. split; [done|]. split; [done|]. rewrite El in Hp. apply prefix_app_inv in Hp as [k E].
    intros Hin. assert (".." ∈ rest) as H by (rewrite E; apply elem_of_app; by left).
    apply elem_of_app in H as [H|H%list_elem_of_singleton]; [done|]. by destruct (timestamp_no_dots t).
Qed.

(** Whatever happened before, a task that starts makes directories of its backend's mount point
    only: those on the way to it, and below it some that are reached without dot-dots. *)
Theorem sync_stays_inside_its_backend es s c i t spawned q : server_ok s ->
  let s1 := run_server no_result es s in
  q ∈ directories (service (step no_result s1 (c, Starts i t spawned))) ->
  q ∈ directories (service s1)
  \/ exists b mount_point, b ∈ sync_backends (sdb s1) /\ bk_mount_point b = Some mount_point /\ inside mount_point q.
Proof.
  intros Hs s1. pose proof (run_server_ok es s Hs) as Hok. fold s1 in Hok. cbn [step]. unfold on_tasks, task_starts.
  rewrite (bind_Ok _ _ (sdb s1, service s1) (sdb s1, service s1) (sdb s1, service s1)) by done. cbn [snd].
  destruct (tasks (service s1) !! i) as [tk|] eqn:Etk; [|by left]. destruct (tk_phase tk); [|by left].
  destruct (_ <? _)%nat; [|by left]. pose proof (so_tasks _ Hok) as Ht. rewrite Forall_forall in Ht.
  specialize (Ht tk ltac:(by eapply list_elem_of_lookup_2)).
  assert (forall e x, directories (guarded i c tk (fun _ => (Err e, x)) (sdb s1, service s1)).2.2 = directories x.2) as Hfail by done.
  unfold guarded, catch, start_sync. rewrite (bind_Ok _ _ (sdb s1, service s1) (sdb s1, service s1) (sdb s1, service s1)) by done. cbn [fst].
  destruct (sql_find bk_id _ _) as [b|] eqn:Eb; [|by left]. apply sql_find_Some_1 in Eb as [Hb _].
  destruct (bk_mount_point b) as [m|] eqn:Em; [|by left]. destruct (String.eqb m ""); [by left|]. cbv zeta.
  rewrite (bind_Ok _ _ _ _ _ (run_on_service _ _)).
  destruct spawned as [p|e]; cbn; (intros [H|[H1 H2]]%elem_of_mkdir; [by left|right]; exists b, m;
    split; [done|]; split; [done|]; by eapply version_inside).
Qed.
End Rows.

(** ** A server *)

Definition clock (t : Z) : Clock := {| loop_time := t * 1000000; utc_now := t * 1000000 |}.
Definition civil (y mo d h mi s : Z) : Civil := {| year := y; month := mo; day := d; hour := h; minute := mi; second := s |}.

Definition sunday_job : SyncJob :=
  {| j_id := "j1"; j_name := "ubuntu"; j_source_url := "https://mirror/ubuntu/"; j_destination_backend_id := "b1";
     j_destination_path := "images/ubuntu"; j_include_pattern := None; j_exclude_pattern := None; j_schedule := "weekly";
     j_schedule_day := Some 6%Z; j_schedule_time := Some "03:30"; j_verify_checksums := true; j_delete_removed := false;
     j_keep_versions := 3; j_status := "idle"; j_last_run_at := None; j_last_error := None; j_next_run_at := None |}.

Definition sunday_server : Server (S := MapScheduler) :=
  {| sdb := {| jobs := [sunday_job]; runs := [];
               sync_backends := [{| bk_id := "b1"; bk_status := "online"; bk_mount_point := Some "/srv/nfs" |}] |};
     service := {| running_processes := []; last_broadcast := []; tasks := []; directories := mkdir (path_of "/srv/nfs") ∅;
                   progress := []; terminated := [] |};
     scheduler := {| ms_calls := {["j1" := {| trigger := {| ct_day := None; ct_day_of_week := Some 6%Z; ct_hour := Some 3%Z;
                                                            ct_minute := Some 30%Z |}; argument := Some "j1" |}]};
                     ms_next := fun _ => 7%Z |};
     manual_run_times := [] |}.

Lemma sunday_server_ok : server_ok sunday_server.
Proof.
  assert (job_ok (S := MapScheduler) sunday_job) as Hj.
  { constructor; try (by vm_compute); [set_solver|set_solver|]. right. exists 3%Z, 30%Z.
    eexists. split; [by intros s|]. split; [reflexivity|by vm_compute]. }
  constructor; [constructor|..]; cbn.
  - apply NoDup_singleton.
  - apply NoDup_singleton.
  - by apply Forall_singleton.
  - constructor.
  - done.
  - done.
  - done.
  - intros job. split; [constructor|]. by intros t ?%not_elem_of_nil.
  - unfold bounded, active. cbn. lia.
Qed.

(** The job is called, runs, says how far it is, and ends well. *)
Definition sunday_night : list (Clock * event) :=
  [(clock 100, Scheduled "r1" "j1"); (clock 101, Starts 0 (civil 2024 5 5 3 30 1) (Ok 4242%Z));
   (clock 102, Reads 0 (Ok "noble.img")); (clock 103, Reads 0 (Ok "  1,000  50%   12.34MB/s    0:00:01"));
   (clock 104, Ends 0 0)].

Example sunday_ends_well :
  let s := run_server "none" sunday_night sunday_server in
  (j_status <$> jobs (sdb s), r_status <$> runs (sdb s), r_bytes_transferred <$> runs (sdb s), tasks (service s))
  = (["synced"], ["success"], [1000%Z], []).
Proof. vm_compute. reflexivity. Qed.

Lemma sync_jobs_well_formed_witness :
  let s := run_server "none" sunday_night sunday_server in
  jobs_wf (S := MapScheduler) (sdb s) /\ Forall task_ok (tasks (service s)).
Proof. exact (sync_jobs_well_formed "none" sunday_night sunday_server sunday_server_ok). Defined.

Lemma syncs_are_limited_witness :
  let s := run_server "none" sunday_night sunday_server in
  (active (service s) <= MAX_CONCURRENT_SYNCS)%nat /\ spaced (running_times "j1" (progress (service s))).
Proof. exact (syncs_are_limited "none" sunday_night sunday_server "j1" sunday_server_ok). Defined.

Lemma sync_stays_inside_its_backend_witness :
  let s1 := run_server "none" [(clock 100, Scheduled "r1" "j1")] sunday_server in
  let q := path_of "/srv/nfs/images/ubuntu/2024-05-05T03:30:01" in
  q ∈ directories (service s1) \/ exists b m, b ∈ sync_backends (sdb s1) /\ bk_mount_point b = Some m /\ inside m q.
Proof.
  apply (sync_stays_inside_its_backend "none" [(clock 100, Scheduled "r1" "j1")] sunday_server (clock 101) 0
           (civil 2024 5 5 3 30 1) (Ok 4242%Z)); [exact sunday_server_ok|].
  assert (bool_decide (path_of "/srv/nfs/images/ubuntu/2024-05-05T03:30:01" ∈ directories (service (step "none"
    (run_server "none" [(clock 100, Scheduled "r1" "j1")] sunday_server)
    (clock 101, Starts 0 (civil 2024 5 5 3 30 1) (Ok 4242%Z))))) = true) as H by (vm_compute; reflexivity).
  by apply bool_decide_eq_true in H.
Defined.
