(* ===== verification/SyncLife.v ===== *)
(** * What becomes of synchronisation jobs

    The controller starts anew ([main.py]): its tasks, processes and the calls of
    the scheduler are gone, the tables are not, and the jobs are scheduled
    again from their rows.  Over the events of SyncJobs: which jobs the
    scheduler calls, and what happens to one that the tables call running when
    nothing runs. *)
From S2P Require Import Prelude PyStr Paths SqlTable Controller Scheduler SyncService SyncJobs.
From stdpp Require Import base tactics list strings gmap.
From Stdlib Require Import Ascii ZArith Lia.
Open Scope string_scope.

Section Life.
Context {S : Type} {A : APScheduler S} {L : APSchedulerLaws S} (no_result : string).

Abbreviation server := (Server (S := S)).

(** ** Starting anew *)

(** [SyncService.__init__]; the directories stay. *)
Definition new_service (s : SyncService) : SyncService :=
  {| running_processes := []; last_broadcast := []; tasks := []; directories := directories s; progress := []; terminated := [] |}.

(** The scheduler is new and so are the times of manual runs. *)
Definition restart (x : S) (s : server) : server :=
  {| sdb := sdb s; service := new_service (service s); scheduler := x; manual_run_times := [] |}.

Definition start_up (x : S) (s : server) : server := (request_job _register_scheduled_jobs (restart x s)).2.

(** ** A job that nothing runs *)

Definition is_marked (id : string) (d : SyncDB) : Prop :=
  exists j, sql_find j_id id (jobs d) = Some j /\ j_status j = "running".

(** No task for the job, no process. *)
Definition unattended (id : string) (x : SyncService) : Prop :=
  Forall (fun tk => j_id (tk_job tk) ≠ id) (tasks x) /\ is_running id x = false.

Definition stuck (id : string) (x : World) : Prop := is_marked id x.1 /\ unattended id x.2.

Lemma is_marked_update id d P f : is_marked id d -> (forall j, P j = true -> j_id (f j) = j_id j) ->
  (forall j, P j = true -> j_id j = id -> j_status j = "running" -> j_status (f j) = "running") ->
  is_marked id (d <| jobs ::= fun l => (sql_update P f l).1 |>).
Proof.
  intros (j & Hj & Hst) Hk Hf. exists (if P j then f j else j). cbn -[sql_update sql_find]. rewrite sql_find_update_on by auto.
  rewrite Hj. split; [done|]. destruct (P j) eqn:E; [|done]. apply Hf; [done| |done]. by apply sql_find_Some_1 in Hj as [_ ?].
Qed.

Lemma is_marked_insert id d j : is_marked id d -> is_marked id (d <| jobs ::= fun l => (l ++ [j])%list |>).
Proof. intros (j' & Hj & Hst). exists j'. cbn -[sql_find]. by rewrite sql_find_app, Hj. Qed.

Lemma is_marked_delete id id' d : id' ≠ id -> is_marked id d -> is_marked id (d <| jobs ::= fun l => (sql_delete (has_key j_id id') l).1 |>).
Proof.
  intros Hne (j & Hj & Hst). exists j. cbn -[sql_delete sql_find]. rewrite sql_find_delete_ne; [done|].
  intros r <-. by apply has_key_false.
Qed.

Lemma is_marked_status id id' d : is_marked id d ->
  is_marked id (d <| jobs ::= fun l => (sql_update (has_key j_id id') (fun j => j <| j_status := "running" |>) l).1 |>).
Proof. intros H. by apply is_marked_update. Qed.

(** *** Steps of other tasks *)

Lemma stuck_on_service id f : (forall s, unattended id s -> unattended id (f s)) -> keeps (stuck id) (on_service f).
Proof. intros Hf [d s] [H1 H2]. split; [done|]. by apply Hf. Qed.

Lemma stuck_on_runs id f : keeps (stuck id) (on_db (fun d => d <| runs ::= f |>)).
Proof. by intros [d s] [H1 H2]. Qed.

Lemma stuck_set_job id id' f : id' ≠ id -> (forall j, j_id (f j) = j_id j) -> keeps (stuck id) (set_job id' f).
Proof.
  intros Hne Hf [d s] [H1 H2]. split; [|done]. apply is_marked_update; [done|auto|].
  intros j E%has_key_true Hj. congruence.
Qed.

Lemma stuck_set_process id id' p : id' ≠ id -> keeps (stuck id) (set_process id' p).
Proof.
  intros Hne. apply stuck_on_service. intros s [H1 H2]. split; [done|]. unfold is_running in *. cbn.
  by rewrite assoc_get_set_ne.
Qed.

Lemma stuck_drop_process id id' : id' ≠ id -> keeps (stuck id) (drop_process id').
Proof.
  intros Hne. apply stuck_on_service. intros s [H1 H2]. split; [done|]. unfold is_running in *. cbn.
  by rewrite assoc_get_del_ne.
Qed.

Lemma stuck_set_task id i ph : keeps (stuck id) (set_task i ph).
Proof.
  apply stuck_on_service. intros s [H1 H2]. split; [|done]. cbn. apply Forall_alter; [done|]. by intros tk _ Htk.
Qed.

Lemma stuck_drop_task id i : keeps (stuck id) (drop_task i).
Proof. apply stuck_on_service. intros s [H1 H2]. split; [|done]. cbn. by apply Forall_delete. Qed.

Ltac stuck_steps :=
  keeps_steps; first [by apply stuck_set_job | by apply stuck_set_process | by apply stuck_drop_process | apply stuck_set_task
                     | apply stuck_drop_task | apply stuck_on_runs | by apply stuck_on_service].

Section Other.
Context (id : string) (i : nat) (c : Clock) (tk : Task) (Hne : j_id (tk_job tk) ≠ id).

Lemma stuck_guarded m : keeps (stuck id) m -> keeps (stuck id) (guarded i c tk m).
Proof. intros Hm. apply keeps_catch; [done|]. intros e. unfold fail_sync, set_run, broadcast_progress. stuck_steps. Qed.

Lemma stuck_start t spawned : keeps (stuck id) (start_sync i tk t spawned).
Proof. unfold start_sync. stuck_steps. Qed.

Lemma stuck_read p base files bytes received : keeps (stuck id) (read_line i c tk p base files bytes received).
Proof. unfold read_line, _broadcast_throttled, broadcast_progress. stuck_steps. Qed.

Lemma stuck_end base files bytes code : keeps (stuck id) (end_sync no_result c tk base files bytes code;; drop_task i).
Proof. unfold end_sync, set_run, broadcast_progress, _prune_versions, _cleanup_old_runs. stuck_steps. Qed.
End Other.

(** A step of the task, if there is one, keeps what the task's own code keeps. *)
Lemma stuck_step id i (f : World -> Task -> M World string unit) :
  (forall x tk, j_id (tk_job tk) ≠ id -> keeps (stuck id) (f x tk)) ->
  keeps (stuck id) (x ← get_state; match tasks x.2 !! i with Some tk => f x tk | None => mret tt end).
Proof.
  intros Hf [d s] Hx. rewrite (bind_Ok _ _ (d, s) (d, s) (d, s)) by done. cbn [snd].
  destruct (tasks s !! i) as [tk|] eqn:E; [|done]. apply Hf; [|done].
  destruct Hx as [_ [H _]]. cbn in H. rewrite Forall_forall in H. by eapply H, list_elem_of_lookup_2.
Qed.

(** *** Requests *)

Definition stuck_job (id : string) (s : server) : Prop := stuck id (sdb s, service s).

Lemma stuck_tasks {X} id (m : M World string X) s : keeps (stuck id) m -> stuck_job id s -> stuck_job id (on_tasks m s).
Proof.
  intros Hm Hs. unfold on_tasks, stuck_job. specialize (Hm (sdb s, service s) Hs). by destruct (m (sdb s, service s)) as [r [d x]].
Qed.

Lemma stuck_request {X} id (m : M server server_error X) :
  (forall s a s', stuck_job id s -> m s = (Ok a, s') -> stuck_job id s') -> quiet m -> keeps (stuck_job id) (request_job m).
Proof.
  intros Hm Hq s Hs. unfold request_job. destruct (m s) as [[a|e] s'] eqn:E; cbn; [by eapply Hm|].
  destruct Hs as [H1 H2]. split; [done|]. cbn in *. by rewrite (Hq _ _ _ E).
Qed.

Lemma marked_found id d j : is_marked id d -> sql_find j_id id (jobs d) = Some j -> String.eqb (j_status j) "running" = true.
Proof. intros (j' & -> & Hst) [= ->]. by apply String.eqb_eq. Qed.

Lemma unattended_run id job r x : unattended id x -> j_id job ≠ id ->
  unattended id (x <| tasks ::= fun l => (l ++ [{| tk_job := job; tk_run := r; tk_phase := Waiting |}])%list |>).
Proof. intros [H1 H2] Hne. split; [|done]. cbn. apply Forall_app. split; [done|]. by apply Forall_singleton. Qed.

Lemma stuck_create (id id' : string) d (s : server) a s' : stuck_job id s -> create_sync_job id' d s = (Ok a, s') -> stuck_job id s'.
Proof.
  intros [H1 H2] (d' & next & _ & _ & _ & _ & -> & _)%create_job_Ok. split; [by apply is_marked_insert|done].
Qed.

Lemma stuck_update (id id' : string) u (s : server) a s' : stuck_job id s -> update_sync_job id' u s = (Ok a, s') -> stuck_job id s'.
Proof.
  intros [H1 H2] (u' & job & next & _ & Hf & Hst & Ha & _ & -> & _)%update_job_Ok. split; [|done]. cbn [fst sdb].
  pose proof (proj2 (sql_find_Some_1 _ _ _ _ Hf)) as Hid.
  destruct (decide (id' = id)) as [->|Hne]; [by apply (marked_found _ _ _ H1), String.eqb_eq in Hf|].
  apply is_marked_update; [done|..]; intros j ->%has_key_true; [by subst a|]. by intros ->.
Qed.

Lemma unattended_cancel (id id' : string) (s : server) b s' : id' ≠ id -> SyncJobs.cancel id' s = (Ok b, s') -> unattended id (service s) ->
  sdb s' = sdb s /\ unattended id (service s').
Proof.
  unfold SyncJobs.cancel, cancel_sync. rewrite (bind_Ok _ _ (sdb s, service s) (sdb s, service s) (sdb s, service s)) by done. cbn [snd].
  intros Hne. destruct (assoc_get id' (running_processes (service s))); cbn; intros [= _ <-]; [|by destruct s].
  intros [H1 H2]. split; [done|]. split; [done|]. unfold is_running in *. cbn. by rewrite assoc_get_del_ne.
Qed.

Lemma stuck_delete (id id' : string) (s : server) a s' : id' ≠ id -> stuck_job id s -> delete_sync_job id' s = (Ok a, s') -> stuck_job id s'.
Proof.
  intros Hne [H1 H2]. unfold delete_sync_job. step_M j s1 Hj. apply need_job_Ok in Hj as (-> & _).
  step_M u s2 Hc. assert (sdb s2 = sdb s /\ unattended id (service s2)) as [E Hu].
  { destruct (String.eqb _ _); [|by injection Hc as _ <-]. revert Hc. step_M b s3 H3. intros [= _ <-]. by eapply unattended_cancel. }
  step_M u' s3 H3. apply on_scheduler_Ok in H3 as [_ ->]. unfold set_runs, set_jobs. unfold_M. intros [= _ <-].
  split; [|done]. cbn [fst sdb]. rewrite E. exact (is_marked_delete id id' _ Hne H1).
Qed.

(** A job for which nothing runs is not cancelled, *)
Lemma cancel_stuck id (s : server) : stuck_job id s -> cancel_sync_job id s = (Ok false, s).
Proof.
  intros [(j & Hj & Hst) [_ Hr]]. unfold cancel_sync_job, need_job. cbn in Hj. unfold_M. rewrite Hj.
  rewrite (proj2 (String.eqb_eq _ _) Hst). destruct (cancel_run id s) as (b & x & -> & _ & _ & _ & Hx & Hb).
  cbn in Hr. rewrite Hr in Hb. subst b. rewrite (Hx eq_refl). by destruct s.
Qed.

(** and not run. *)
Lemma run_stuck c r id (s : server) : stuck_job id s -> is_ok (run_sync_job c r id s).1 = false.
Proof.
  intros [(j & Hj & Hst) _]. unfold run_sync_job, need_job. cbn in Hj. unfold_M. destruct (_ <? _)%Z; [done|]. cbn [sdb].
  cbn -[sql_find]. rewrite Hj. by rewrite (proj2 (String.eqb_eq _ _) Hst).
Qed.

Lemma stuck_cancel (id id' : string) (s : server) a s' : stuck_job id s -> cancel_sync_job id' s = (Ok a, s') -> stuck_job id s'.
Proof.
  intros Hs. destruct (decide (id' = id)) as [->|Hne]; [rewrite cancel_stuck by done; by intros [= _ <-]|].
  destruct Hs as [H1 H2]. unfold cancel_sync_job. step_M j s1 Hj. apply need_job_Ok in Hj as (-> & _).
  destruct (String.eqb _ _); [|done]. step_M b s2 Hc. apply (unattended_cancel id) in Hc as [E Hu]; [|done..].
  unfold set_status, set_jobs. destruct b; unfold_M; intros [= _ <-]; (split; [|done]); cbn [fst sdb]; rewrite E; try done.
  apply is_marked_update; [done|done|]. intros j' Hj%has_key_true. congruence.
Qed.

Lemma stuck_run (id : string) c r id' (s : server) a s' : stuck_job id s -> run_sync_job c r id' s = (Ok a, s') -> stuck_job id s'.
Proof.
  intros Hs Hrun. assert (id' ≠ id) as Hne by (intros ->; pose proof (run_stuck c r id s Hs) as H; by rewrite Hrun in H).
  destruct Hs as [H1 H2]. revert Hrun. unfold run_sync_job. rewrite (bind_Ok _ _ s s s) by done. destruct (_ <? _)%Z; [done|].
  step_M u s1 E1. injection E1 as _ <-. step_M job s2 E2. apply need_job_Ok in E2 as (-> & _ & _ & Hid).
  destruct (String.eqb _ _); [done|]. step_M b s3 E3. injection E3 as _ <-. destruct b as [b|]; [|done].
  destruct (String.eqb _ _); [|done]. cbv zeta. step_M u2 s4 E4. apply insert_run_Ok in E4 as [-> _].
  unfold set_status, set_jobs, create_task. unfold_M. intros [= _ <-]. split; cbn [fst snd sdb service].
  - exact (is_marked_status id id' _ H1).
  - apply unattended_run; [done|]. cbn. congruence.
Qed.

Lemma stuck_scheduled id c r arg (s : server) a s' : stuck_job id s -> _scheduled_job_callback c r arg s = (Ok a, s') -> stuck_job id s'.
Proof.
  intros [H1 H2]. unfold _scheduled_job_callback. rewrite (bind_Ok _ _ s s s) by done.
  destruct arg as [id'|]; [|by intros [= _ <-]]. destruct (sql_find j_id id' (jobs (sdb s))) as [job|] eqn:Ej; [|by intros [= _ <-]].
  pose proof (proj2 (sql_find_Some_1 _ _ _ _ Ej)) as Hid. cbn [fst snd] in *.
  destruct (String.eqb (j_status job) "running") eqn:Est; [by intros [= _ <-]|].
  assert (id' ≠ id) as Hne by (intros ->; apply (marked_found _ _ _ H1) in Ej; congruence).
  assert (forall e, is_marked id ((sdb s) <| jobs ::= fun l => (sql_update (has_key j_id id')
            (fun j => j <| j_status := "failed" |> <| j_last_error := e |>) l).1 |>)) as Hfail.
  { intros e. apply is_marked_update; [done|done|]. intros j ->%has_key_true E. congruence. }
  step_M b s3 H3. injection H3 as _ <-.
  destruct b as [b|]; [destruct (String.eqb (bk_status b) _)|]; try (unfold set_jobs; unfold_M; intros [= _ <-]; split; [apply Hfail|done]).
  cbv zeta. step_M u2 s4 H4. apply insert_run_Ok in H4 as [-> _].
  step_M u3 s5 H5. injection H5 as _ <-. step_M next s6 H6. apply on_scheduler_Ok in H6 as [_ ->].
  unfold set_jobs, create_task. unfold_M. intros [= _ <-]. split; cbn [fst snd sdb service].
  - pose proof (is_marked_status id id' _ H1) as H.
    set (row := job <| j_status := "running" |> <| j_next_run_at ::= (fun o => match next with Some _ => next | None => o end) |>).
    refine (is_marked_update id _ (has_key j_id id') (fun _ => row) H _ _).
    + intros j Hj%has_key_true. cbn. congruence.
    + done.
  - apply unattended_run; [done|]. cbn. congruence.
Qed.

Lemma stuck_event (id : string) (s : server) e : (forall c, e ≠ (c, SyncJobs.Delete id)) -> stuck_job id s -> stuck_job id (step no_result s e).
Proof.
  intros Hnd Hs. destruct quiet_handlers as (Q1 & Q2 & Q3 & Q4 & Q5 & Q6).
  destruct e as [c [id' d|id' u|id'|r id'|id'|r call|i t spawned|i received|i code]]; cbn [step].
  - apply (stuck_request id _ ltac:(apply stuck_create) (Q1 id' d)), Hs.
  - apply (stuck_request id _ ltac:(apply stuck_update) (Q2 id' u)), Hs.
  - assert (id' ≠ id) as Hne by (intros ->; by apply (Hnd c)).
    apply (stuck_request id _ (fun s a s' => stuck_delete id id' s a s' Hne) (Q3 id')), Hs.
  - apply (stuck_request id _ ltac:(apply stuck_run) (Q4 c r id')), Hs.
  - apply (stuck_request id _ ltac:(apply stuck_cancel) (Q5 id')), Hs.
  - destruct (calls (scheduler s) !! call) as [x|]; [|done].
    apply (stuck_request id _ ltac:(apply stuck_scheduled) (Q6 c r (argument x))), Hs.
  - apply stuck_tasks; [|done]. refine (stuck_step id i (fun x tk => _) _). intros x tk Hne. keeps_steps. by apply stuck_guarded, stuck_start.
  - apply stuck_tasks; [|done]. refine (stuck_step id i (fun x tk => _) _). intros x tk Hne. keeps_steps. by apply stuck_guarded, stuck_read.
  - apply stuck_tasks; [|done]. refine (stuck_step id i (fun x tk => _) _). intros x tk Hne. keeps_steps. by apply stuck_guarded, stuck_end.
Qed.

Lemma stuck_events (id : string) es (s : server) : (forall c, (c, SyncJobs.Delete id) ∉ es) -> stuck_job id s -> stuck_job id (run_server no_result es s).
Proof.
  unfold run_server. revert s. induction es as [|e es IH]; intros s Hnd Hs; [done|]. cbn. apply IH.
  - intros c Hin. apply (Hnd c). by right.
  - apply stuck_event; [|done]. intros c ->. apply (Hnd c). by left.
Qed.

(** *** Registration *)

Lemma register_jobs_marked id l : keeps (stuck_job id) (register_jobs (S := S) l).
Proof.
  induction l as [|j l IH]; cbn [register_jobs]; [apply keeps_ret|]. apply keeps_bind.
  - intros s [H1 H2]. unfold on_scheduler. by destruct (schedule_job _ _ _ _ _).
  - intros next. apply keeps_bind; [|done]. unfold set_next_run. destruct next as [z|]; [|apply keeps_ret]. intros s [H1 H2]. split; [|done].
    unfold set_jobs, modify. cbn [fst snd sdb]. by apply is_marked_update.
Qed.

Lemma start_up_stuck id x s : is_marked id (sdb s) -> stuck_job id (start_up x s).
Proof.
  intros H. unfold start_up, request_job.
  assert (stuck_job id (restart x s)) as H0 by (split; [exact H|split; [by constructor|done]]).
  assert (keeps (stuck_job id) (_register_scheduled_jobs (S := S))) as Hk.
  { unfold _register_scheduled_jobs. apply keeps_bind; [apply keeps_get_state|]. intros s'. apply register_jobs_marked. }
  specialize (Hk _ H0). destruct (_register_scheduled_jobs (restart x s)) as [[u|e] s1]; cbn in Hk |- *; [done|].
  split; [apply H0|apply Hk].
Qed.

(** C36: a job that was running when the controller stopped stays so for ever, unless it is deleted:
    after the restart, whatever is requested, scheduled or done by tasks, the table says that it
    runs, there is no task and no process for it, cancelling does nothing, and running it is
    refused. *)
Theorem interrupted_job_is_stuck x s es id : is_marked id (sdb s) -> (forall c, (c, SyncJobs.Delete id) ∉ es) ->
  let s' := run_server no_result es (start_up x s) in
  is_marked id (sdb s') /\ unattended id (service s') /\ cancel_sync_job id s' = (Ok false, s')
  /\ forall c r, is_ok (run_sync_job c r id s').1 = false.
Proof.
  intros Hm Hnd s'. assert (stuck_job id s') as Hs by (apply stuck_events, start_up_stuck; done).
  destruct (Hs) as [H1 H2]. split; [done|]. split; [done|]. split; [by apply cancel_stuck|]. intros c r. by apply run_stuck.
Qed.

(** ** Which jobs are called *)

(** The call that a row asks for. *)
Definition scheduled_as (j : SyncJob) (c : ScheduledCall) : Prop :=
  argument c = Some (j_id j) /\ exists h m, (forall s : S, hour_minute (j_schedule_time j) s = (Ok (h, m), s))
    /\ cron_trigger (j_schedule j) (j_schedule_day j) h m = Some (trigger c).

Lemma schedule_row_run j (s : S) : job_ok (S := S) j -> j_schedule j ≠ "manual" -> exists next s' c,
  schedule_job (Some (j_id j)) (j_schedule j) (j_schedule_day j) (j_schedule_time j) s = (Ok next, s')
  /\ scheduled_as j c /\ calls s' = <[j_id j := c]> (delete (j_id j) (calls s)).
Proof.
  intros Hj Hne. destruct (jo_accepted _ Hj) as [E|(h & m & t & Hhm & Ht & Hok)]; [done|].
  unfold schedule_job. rewrite (bind_Ok _ _ s tt (remove_job (Some (j_id j)) s).2) by done. rewrite (proj2 (String.eqb_neq _ _) Hne).
  rewrite (bind_Ok _ _ _ _ _ (Hhm _)). cbv beta iota. unfold add_trigger. rewrite Ht, trigger_ok_law, Hok.
  do 3 eexists. split; [reflexivity|]. rewrite add_call_law, remove_job_calls. split; [|reflexivity]. split; [done|].
  exists h, m. split; [done|exact Ht].
Qed.

Lemma register_jobs_run l (s : server) : Forall (fun j => job_ok (S := S) j /\ j_schedule j ≠ "manual") l -> keys_unique j_id l ->
  exists s', register_jobs l s = (Ok tt, s')
  /\ (forall j, j ∈ l -> exists c, calls (scheduler s') !! j_id j = Some c /\ scheduled_as j c)
  /\ (forall k, k ∉ j_id <$> l -> calls (scheduler s') !! k = calls (scheduler s) !! k).
Proof.
  revert s. induction l as [|j l IH]; intros s Hl Hk.
  { exists s. split; [done|]. split; [by intros j ?%not_elem_of_nil|done]. }
  apply Forall_cons in Hl as [[Hj Hne] Hl]. unfold keys_unique in Hk. rewrite fmap_cons, NoDup_cons in Hk. destruct Hk as [Hnew Hk].
  destruct (schedule_row_run j (scheduler s) Hj Hne) as (next & x & c & Hrun & Hc & Hcalls). cbn [register_jobs].
  rewrite (bind_Ok _ _ _ next (s <| scheduler := x |>)) by (unfold on_scheduler; by rewrite Hrun).
  assert (exists s1, set_next_run (j_id j) next (s <| scheduler := x |>) = (Ok tt, s1) /\ scheduler s1 = x) as (s1 & E & Hx)
    by (destruct next; by eexists).
  rewrite (bind_Ok _ _ _ _ _ E).
  destruct (IH s1 Hl Hk) as (s' & Hs' & H1 & H2). rewrite Hx, Hcalls in H2. exists s'. split; [exact Hs'|]. split.
  - intros j' [->|Hin]%elem_of_cons; [|auto]. exists c. rewrite H2, lookup_insert_eq by done. done.
  - intros k. rewrite fmap_cons, not_elem_of_cons. intros [Hkj Hkl]. by rewrite H2, lookup_insert_ne, lookup_delete_ne by done.
Qed.

(** Starting the controller succeeds, and then the scheduler calls each job that is not manual, as
    its row says, and the others not. *)
Theorem start_up_schedules_jobs x s : jobs_wf (S := S) (sdb s) -> calls x = ∅ ->
  is_ok (_register_scheduled_jobs (restart x s)).1 = true
  /\ forall j, j ∈ jobs (sdb s) ->
       if String.eqb (j_schedule j) "manual" then calls (scheduler (start_up x s)) !! j_id j = None
       else exists c, calls (scheduler (start_up x s)) !! j_id j = Some c /\ scheduled_as j c.
Proof.
  intros Hd Hx. unfold start_up, request_job, _register_scheduled_jobs.
  rewrite (bind_Ok _ _ (restart x s) (restart x s) (restart x s)) by done. cbn [sdb restart].
  set (l := sql_select _ (jobs (sdb s))).
  assert (forall j, j ∈ l <-> j ∈ jobs (sdb s) /\ j_schedule j ≠ "manual") as Hl.
  { intros j. unfold l. rewrite elem_of_sql_select, negb_true_iff, String.eqb_neq. done. }
  destruct (register_jobs_run l (restart x s)) as (s' & -> & H1 & H2).
  - apply Forall_forall. intros j [Hin Hne]%Hl. split; [by eapply job_elem_ok|done].
  - apply keys_unique_select, Hd.
  - split; [done|]. intros j Hin. cbn. destruct (String.eqb_spec (j_schedule j) "manual") as [E|E]; [|by apply H1, Hl].
    rewrite H2; [cbn; by rewrite Hx|]. intros (j' & Hid & [Hin' Hne]%Hl)%list_elem_of_fmap.
    apply Hne. by rewrite (key_elem_inj j_id _ j j' (jw_ids _ Hd) Hin Hin' Hid) in E.
Qed.

(** No call of the scheduler is for the job. *)
Definition uncalled (id : string) (s : server) : Prop :=
  forall n c, calls (scheduler s) !! n = Some c -> argument c ≠ Some id.

Lemma uncalled_same id (s s' : server) : scheduler s' = scheduler s -> uncalled id s -> uncalled id s'.
Proof. unfold uncalled. by intros ->. Qed.

Lemma uncalled_modify id f : (forall s, scheduler (f s) = scheduler s) -> keeps (E := server_error) (uncalled id) (modify f).
Proof. intros Hf s. apply (uncalled_same id s (f s)), Hf. Qed.

Lemma uncalled_scheduler {X} id (m : M S server_error X) :
  (forall x x' r, (forall n c, calls x !! n = Some c -> argument c ≠ Some id) -> m x = (r, x') ->
     forall n c, calls x' !! n = Some c -> argument c ≠ Some id) -> keeps (uncalled id) (on_scheduler m).
Proof.
  intros Hm s Hs. unfold on_scheduler. destruct (m (scheduler s)) as [r x] eqn:E. exact (Hm _ _ _ Hs E).
Qed.

Lemma uncalled_anonymous id schedule day time : keeps (uncalled id) (on_scheduler (schedule_job None schedule day time)).
Proof. apply uncalled_scheduler. intros x x' r Hx E. by eapply schedule_job_anonymous. Qed.

Lemma uncalled_schedule id id' schedule day time : id' ≠ id ->
  keeps (uncalled id) (on_scheduler (schedule_job (Some id') schedule day time)).
Proof.
  intros Hne. apply uncalled_scheduler. intros x x' r Hx E n c Hc.
  destruct (schedule_job_replaces _ _ _ _ _ _ _ E) as [H1 H2]. destruct (decide (n = id')) as [->|Hn].
  - destruct H2 as [H2|(next & h & m & t & _ & _ & _ & H2)]; [congruence|].
    rewrite H2 in Hc. injection Hc as <-. cbn. congruence.
  - rewrite H1 in Hc by done. by eapply Hx.
Qed.

Lemma uncalled_remove id id' : keeps (uncalled id) (on_scheduler (remove_job (Some id'))).
Proof.
  apply uncalled_scheduler. intros x x' r Hx E n c Hc. pose proof (remove_job_calls id' x) as H. rewrite E in H. cbn in H.
  rewrite H in Hc. apply lookup_delete_Some in Hc as [_ Hc]. by eapply Hx.
Qed.

Lemma uncalled_next id k : keeps (uncalled id) (on_scheduler (get_next_run_time k)).
Proof. apply uncalled_scheduler. unfold get_next_run_time. unfold_M. by intros x x' r Hx [= _ <-]. Qed.

Lemma uncalled_cancel id id' : keeps (uncalled id) (SyncJobs.cancel id').
Proof. intros s Hs. unfold SyncJobs.cancel. by destruct (cancel_sync id' (sdb s, service s)) as [[b|e] x]. Qed.

Lemma uncalled_request {X} id (m : M server server_error X) : keeps (uncalled id) m -> keeps (uncalled id) (request_job m).
Proof.
  intros Hm s Hs. specialize (Hm s Hs). unfold request_job. by destruct (m s) as [[a|e] s'].
Qed.

Ltac uncalled_steps :=
  unfold need_job, find_backend, check_name, check_free, insert_job, insert_run, set_status, set_jobs, set_runs, create_task;
  keeps_steps; first [by apply uncalled_modify | apply uncalled_anonymous | by apply uncalled_schedule | apply uncalled_remove
                     | apply uncalled_next | apply uncalled_cancel].

Lemma uncalled_event id s e : (forall c u, e ≠ (c, Update id u)) -> uncalled id s -> uncalled id (step no_result s e).
Proof.
  intros Hnu Hs. destruct e as [c [id' d|id' u|id'|r id'|id'|r call|i t spawned|i received|i code]]; cbn [step]; try done.
  - apply uncalled_request; [|done]. unfold create_sync_job. uncalled_steps.
  - assert (id' ≠ id) as Hne by (intros ->; by apply (Hnu c u)).
    apply uncalled_request; [|done]. unfold update_sync_job. uncalled_steps.
  - apply uncalled_request; [|done]. unfold delete_sync_job. uncalled_steps.
  - apply uncalled_request; [|done]. unfold run_sync_job. uncalled_steps.
  - apply uncalled_request; [|done]. unfold cancel_sync_job. uncalled_steps.
  - destruct (calls (scheduler s) !! call) as [x|]; [|done]. apply uncalled_request; [|done].
    unfold _scheduled_job_callback. uncalled_steps.
Qed.

(** A job that is created with a schedule is not called at its times: after the request, whatever
    happens short of an update of the job, no call of the scheduler is for it. *)
Theorem created_job_is_not_called c id d es s : uncalled id s -> (forall c u, (c, Update id u) ∉ es) ->
  uncalled id (run_server no_result ((c, Create id d) :: es) s).
Proof.
  intros Hs Hnu. unfold run_server. cbn [fold_left]. assert (uncalled id (step no_result s (c, Create id d))) as H
    by (apply uncalled_event; [by intros|done]).
  revert H. generalize (step no_result s (c, Create id d)). clear Hs.
  induction es as [|e es IH]; intros s' Hs; [done|]. cbn. apply IH.
  - intros c' u Hin. apply (Hnu c' u). by right.
  - apply uncalled_event; [|done]. intros c' u ->. apply (Hnu c' u). by left.
Qed.

(** An update whose schedule the library refuses fails and changes no row, but the call that the job
    had is gone. *)
Theorem refused_update_loses_the_call c id u s s' : update_sync_job id u s = (Err ValueError, s') ->
  let s2 := step no_result s (c, Update id u) in sdb s2 = sdb s /\ calls (scheduler s2) !! id = None.
Proof.
  intros H. cbn [step]. unfold request_job. rewrite H. cbn. split; [done|]. revert H. unfold update_sync_job.
  destruct (validate_update u) as [u'|]; [|done]. destruct (need_job id s) as [[job|e] s1] eqn:E1.
  2:{ rewrite (bind_Err _ _ _ _ _ E1). intros [= -> ->]. revert E1. unfold need_job. unfold_M. by case_match. }
  rewrite (bind_Ok _ _ _ _ _ E1). destruct (String.eqb _ _); [done|]. destruct (check_name u' job s1) as [[[]|e] s2] eqn:E2.
  2:{ rewrite (bind_Err _ _ _ _ _ E2). intros [= -> ->]. revert E2. unfold check_name, check_free. unfold_M. by repeat case_match. }
  rewrite (bind_Ok _ _ _ _ _ E2). cbv zeta. destruct (schedule_changed u'); [|done].
  destruct (String.eqb (j_schedule _) _); [done|]. unfold on_scheduler. unfold_M.
  destruct (schedule_job _ _ _ _ _) as [[next|e] x] eqn:Ex; [done|]. intros [= -> <-]. cbn.
  by destruct (schedule_job_replaces _ _ _ _ _ _ _ Ex) as [_ [H|(next & h & m & t & Hr & _)]].
Qed.
End Life.

(** ** Witnesses *)

Definition fresh_scheduler : MapScheduler := {| ms_calls := ∅; ms_next := fun _ => 9%Z |}.

(** The controller stops while the job runs. *)
Definition interrupted : Server (S := MapScheduler) := run_server "none" (take 2 sunday_night) sunday_server.

Lemma interrupted_job_is_stuck_witness :
  let s := run_server "none" [(clock 700000, Scheduled "r2" "j1")] (start_up fresh_scheduler interrupted) in
  is_marked "j1" (sdb s) /\ unattended "j1" (service s) /\ cancel_sync_job "j1" s = (Ok false, s)
  /\ forall c r, is_ok (run_sync_job c r "j1" s).1 = false.
Proof.
  apply (interrupted_job_is_stuck "none" fresh_scheduler interrupted [(clock 700000, Scheduled "r2" "j1")] "j1").
  - exists (sunday_job <| j_status := "running" |> <| j_next_run_at := Some 7%Z |>). split; [vm_compute; reflexivity|done].
  - intros c [H|H%not_elem_of_nil]%elem_of_cons; [discriminate H|done].
Defined.

Lemma start_up_schedules_jobs_witness :
  exists c, calls (scheduler (start_up fresh_scheduler sunday_server)) !! "j1" = Some c /\ scheduled_as (S := MapScheduler) sunday_job c.
Proof.
  destruct (start_up_schedules_jobs fresh_scheduler sunday_server (so_db _ sunday_server_ok)) as [_ H]; [done|].
  apply (H sunday_job). by left.
Defined.

Definition nightly : SyncJobCreate :=
  {| c_name := "debian"; c_source_url := "https://mirror/debian/"; c_destination_backend_id := "b1"; c_destination_path := "/debian/";
     c_include_pattern := None; c_exclude_pattern := None; c_schedule := "daily"; c_schedule_day := None;
     c_schedule_time := Some "02:00"; c_verify_checksums := true; c_delete_removed := false; c_keep_versions := 2 |}.

(** The job is there, and has a time it is said to run next. *)
Example nightly_created :
  let s := step "none" sunday_server (clock 5, Create "j2" nightly) in
  (fun j => (j_destination_path j, j_next_run_at j)) <$> sql_find j_id "j2" (jobs (sdb s)) = Some ("debian", Some 7%Z).
Proof. vm_compute. reflexivity. Qed.

Lemma created_job_is_not_called_witness :
  uncalled "j2" (run_server "none" ((clock 5, Create "j2" nightly) :: sunday_night) sunday_server).
Proof.
  apply (created_job_is_not_called "none" (clock 5) "j2" nightly sunday_night sunday_server).
  - intros n c Hc. cbn in Hc. apply lookup_singleton_Some in Hc as [_ <-]. done.
  - intros c u Hin. repeat (apply elem_of_cons in Hin as [Hin|Hin]; [discriminate Hin|]). by apply not_elem_of_nil in Hin.
Defined.

(** A day of the month is no day of the week. *)
Definition bad_day : SyncJobUpdate :=
  {| u_name := None; u_source_url := None; u_destination_path := None; u_include_pattern := None; u_exclude_pattern := None;
     u_schedule := None; u_schedule_day := Some 15%Z; u_schedule_time := None; u_verify_checksums := None;
     u_delete_removed := None; u_keep_versions := None |}.

Lemma refused_update_loses_the_call_witness :
  calls (scheduler sunday_server) !! "j1" ≠ None
  /\ let s := step "none" sunday_server (clock 5, Update "j1" bad_day) in
     sdb s = sdb sunday_server /\ calls (scheduler s) !! "j1" = None.
Proof.
  split; [by vm_compute|].
  apply (refused_update_loses_the_call "none" (clock 5) "j1" bad_day sunday_server (update_sync_job "j1" bad_day sunday_server).2).
  vm_compute. reflexivity.
Defined.
