(* ===== verification/Accounts.v ===== *)
(** * Accounts and sessions

    [api/routes/users.py], [api/routes/auth.py], [services/audit.py], and the
    groups' synchronisation of [services/ldap.py], on the tables of users, roles,
    groups, sessions and keys of [db/models.py].  bcrypt, SHA-256 and JWT are an
    interface with the laws the code relies on; whether bcrypt and PyJWT are
    installed is a parameter, as the code has a fallback for both.  What an LDAP
    server answers is an argument.  Times read from the database are naive and
    are instants here; foreign keys are not enforced (SQLite's default). *)
From S2P Require Import Prelude PyStr SqlTable Controller.
From stdpp Require Import base tactics list strings pretty.
From stdpp Require countable.
From Stdlib Require Import Ascii ZArith Lia.
Open Scope string_scope.
#[local] Arguments String.append !_ _ : simpl nomatch.

(** ** Rows

    Columns that the handlers neither read nor write are left out. *)

Record User := {
  u_id : string;
  u_username : string;
  u_email : option string;
  u_password_hash : string;
  u_role : string;
  u_role_id : option string;
  u_is_service_account : bool;
  u_service_account_description : option string;
  u_owner_id : option string;
  u_expires_at : option Z;
  u_auth_source : string;
  u_is_active : bool;
  u_failed_login_attempts : Z;
  u_locked_until : option Z;
  u_last_login_at : option Z;
  u_created_at : Z
}.

#[export] Instance User_eq_dec : EqDecision User.
Proof. solve_decision. Defined.

Record RefreshToken := {
  rt_id : string;
  rt_user_id : string;
  rt_token_hash : string;
  rt_expires_at : Z
}.

Record ApiKey := {
  k_id : string;
  k_service_account_id : string;
  k_name : string;
  k_key_hash : string;
  k_key_prefix : string;
  k_is_active : bool;
  k_expires_at : option Z;
  k_last_used_at : option Z;
  k_last_used_ip : option string;
  k_created_by_id : string
}.

Record Role := { ro_id : string; ro_name : string; ro_description : option string; ro_is_system_role : bool }.
Record Permission := { pm_id : string; pm_resource : string; pm_action : string }.

Record UserGroup := {
  ug_id : string;
  ug_name : string;
  ug_description : option string;
  ug_requires_approval : bool;
  ug_ldap_group_dn : option string
}.

Record AuditLog := {
  al_actor_id : option string;
  al_actor_type : string;
  al_actor_username : string;
  al_actor_ip : option string;
  al_action : string;
  al_resource_type : string;
  al_resource_id : option string;
  al_resource_name : option string;
  al_details : option json;
  al_result : string;
  al_error_message : option string;
  al_auth_method : option string
}.

(** The association tables are lists of pairs, the owner first. *)
Record AccountsDB := {
  users : list User;
  refresh_tokens : list RefreshToken;
  api_keys : list ApiKey;
  roles : list Role;
  permissions : list Permission;
  role_permissions : list (string * string);
  user_groups : list UserGroup;
  group_members : list (string * string);
  group_roles : list (string * string);
  group_device_groups : list (string * string);
  group_tags : list (string * string);
  group_nodes : list (string * string);
  audit_logs : list AuditLog
}.

Abbreviation AccountsM A := (M AccountsDB server_error A).

(** What the middleware leaves on a request; [st_user] is what the audit reads. *)
Record RequestState := {
  st_user_id : option string;
  st_username : option string;
  st_role : option string;
  st_auth_method : option string;
  st_user : option User;
  client_host : option string
}.

(** ** Cryptography *)

Record Payload := { pl_sub : string; pl_username : string; pl_role : string }.

Class Crypto := {
  bcrypt_hash : string -> string -> string;      (* [hashpw(password, salt)], salt first *)
  bcrypt_check : string -> string -> bool;       (* [checkpw(password, hash)] *)
  sha256_hex : string -> string;
  jwt_encode : Payload -> Z -> Z -> string;      (* [iat], [exp] *)
  jwt_decode : Z -> string -> option Payload     (* at a time *)
}.

(** A token carries whole seconds. *)
Definition seconds (t : Z) : Z := (t / 1000000 * 1000000)%Z.

Class CryptoLaws {C : Crypto} := {
  bcrypt_prefix salt p : startswith "$2" (bcrypt_hash salt p) = true;
  bcrypt_accepts salt p : bcrypt_check p (bcrypt_hash salt p) = true;
  jwt_decode_encode now p iat exp :
    jwt_decode now (jwt_encode p iat exp) = if (seconds iat <=? now)%Z && (now <? seconds exp)%Z then Some p else None;
  jwt_is_no_key p iat exp : startswith "pb_" (jwt_encode p iat exp) = false
}.

Definition ACCESS_TOKEN_EXPIRY_MINUTES : Z := 15.
Definition REFRESH_TOKEN_EXPIRY_DAYS : Z := 7.
Definition MAX_FAILED_ATTEMPTS : Z := 5.
Definition LOCKOUT_DURATION_MINUTES : Z := 15.
Definition minutes (n : Z) : Z := (n * 60 * 1000000)%Z.
Definition days (n : Z) : Z := minutes (n * 24 * 60).

Section Handlers.
Context {C : Crypto} (BCRYPT_AVAILABLE JWT_AVAILABLE : bool) (listed : list string -> string).

Definition hash_password (salt password : string) : string :=
  if BCRYPT_AVAILABLE then bcrypt_hash salt password else sha256_hex password.

Definition verify_password (password password_hash : string) : bool :=
  if BCRYPT_AVAILABLE && startswith "$2" password_hash then bcrypt_check password password_hash
  else String.eqb (sha256_hex password) password_hash.

Definition create_access_token (now : Z) (user_id username role : string) : string * Z :=
  let expires_at := (now + minutes ACCESS_TOKEN_EXPIRY_MINUTES)%Z in
  let expires_in := (ACCESS_TOKEN_EXPIRY_MINUTES * 60)%Z in
  if JWT_AVAILABLE then
    (jwt_encode {| pl_sub := user_id; pl_username := username; pl_role := role |} now expires_at, expires_in)
  else (user_id ++ ":" ++ username ++ ":" ++ role ++ ":" ++ pretty (expires_at / 1000000)%Z, expires_in).

Definition verify_access_token (now : Z) (token : string) : option Payload :=
  if JWT_AVAILABLE then jwt_decode now token
  else
    match split_on ":" token with
    | [user_id; username; role; exp] =>
        match py_int exp with
        | Some e => if (e * 1000000 <? now)%Z then None
                    else Some {| pl_sub := user_id; pl_username := username; pl_role := role |}
        | None => None
        end
    | _ => None
    end.

Definition hash_refresh_token (token : string) : string := sha256_hex token.

(** ** The tables *)

Definition get_accounts : AccountsM AccountsDB := get_state.
Definition set_users (f : list User -> list User) : AccountsM unit := modify (fun d => d <| users ::= f |>).
Definition set_tokens (f : list RefreshToken -> list RefreshToken) : AccountsM unit := modify (fun d => d <| refresh_tokens ::= f |>).

Definition check (ok : bool) (status : Z) (detail : string) : AccountsM unit :=
  if ok then mret tt else raise (HTTPException status detail).

(** [scalar_one_or_none] *)
Definition one_or_none {R} (rows : list R) : AccountsM (option R) :=
  match rows with
  | [] => mret None
  | [r] => mret (Some r)
  | _ => raise MultipleResultsFound
  end.

Definition find_user (id : string) : AccountsM (option User) := d ← get_accounts; mret (sql_find u_id id (users d)).

Definition need_user (id : string) : AccountsM User :=
  u ← find_user id;
  match u with Some u => mret u | None => raise (HTTPException 404 "User not found") end.

Definition has_email (e : string) (u : User) : bool := bool_decide (u_email u = Some e).

(** Unique columns; null is no value. *)
Definition clashes (u x : User) : bool :=
  has_key u_username (u_username u) x || match u_email u with Some e => has_email e x | None => false end.

Definition insert_user (u : User) : AccountsM unit :=
  d ← get_accounts;
  match sql_insert u_id u (users d) with
  | None => raise IntegrityError
  | Some l => if existsb (clashes u) (users d) then raise IntegrityError else set_users (fun _ => l)
  end.

(** The row of a changed object, at the flush. *)
Definition write_user (u : User) : AccountsM unit :=
  d ← get_accounts;
  if existsb (fun x => negb (has_key u_id (u_id u) x) && clashes u x) (users d) then raise IntegrityError
  else set_users (fun l => (sql_update (has_key u_id (u_id u)) (fun _ => u) l).1).

Definition insert_token (t : RefreshToken) : AccountsM unit :=
  d ← get_accounts;
  match sql_insert rt_id t (refresh_tokens d) with
  | None => raise IntegrityError
  | Some l => if existsb (has_key rt_token_hash (rt_token_hash t)) (refresh_tokens d) then raise IntegrityError
              else set_tokens (fun _ => l)
  end.

Definition write_token (t : RefreshToken) : AccountsM unit :=
  d ← get_accounts;
  if existsb (fun x => negb (has_key rt_id (rt_id t) x) && has_key rt_token_hash (rt_token_hash t) x) (refresh_tokens d)
  then raise IntegrityError
  else set_tokens (fun l => (sql_update (has_key rt_id (rt_id t)) (fun _ => t) l).1).

(** ** The audit log *)

Definition audit_action (rq : RequestState) (action resource_type : string) (resource_id resource_name : option string)
    (details : option json) (result : string) (error_message : option string) : AccountsM unit :=
  let entry :=
    {| al_actor_id := u_id <$> st_user rq;
       al_actor_type := match st_user rq with
                        | Some u => if u_is_service_account u then "service_account" else "user"
                        | None => "anonymous"
                        end;
       al_actor_username := match st_user rq with Some u => u_username u | None => "anonymous" end;
       al_actor_ip := client_host rq; al_action := action; al_resource_type := resource_type;
       al_resource_id := resource_id; al_resource_name := resource_name; al_details := details; al_result := result;
       al_error_message := error_message; al_auth_method := st_auth_method rq |} in
  modify (fun d => d <| audit_logs ::= fun l => (l ++ [entry])%list |>).

(** ** Who asks *)

Definition get_current_user (now : Z) (authorization : option string) : AccountsM User :=
  match authorization with
  | Some h =>
      if startswith "Bearer " h then
        match verify_access_token now (str_drop 7 h) with
        | None => raise (HTTPException 401 "Invalid or expired token")
        | Some payload =>
            u ← find_user (pl_sub payload);
            match u with
            | None => raise (HTTPException 401 "User not found")
            | Some user => if u_is_active user then mret user else raise (HTTPException 401 "Account disabled")
            end
        end
      else raise (HTTPException 401 "Not authenticated")
  | None => raise (HTTPException 401 "Not authenticated")
  end.

(** ** Users *)

Record UserCreate := { uc_username : string; uc_email : option string; uc_password : string; uc_role : string }.
Record UserUpdate := { uu_email : option string; uu_role : option string; uu_is_active : option bool }.
Record PasswordChange := { pc_current_password : option string; pc_new_password : string }.

Definition VALID_ROLES : list string := ["admin"; "operator"; "approver"; "viewer"].
Definition valid_role (r : string) : bool := existsb (String.eqb r) VALID_ROLES.
Definition invalid_role : string := "Invalid role. Must be one of: " ++ listed VALID_ROLES.

Definition is_admin (u : User) : bool := String.eqb (u_role u) "admin".

Definition list_users (limit offset : nat) (role : option string) (is_active : option bool) (current_user : User)
    : AccountsM (list User * Z) :=
  check (is_admin current_user) 403 "Admin access required";;
  d ← get_accounts;
  let wanted u :=
    match role with Some r => String.eqb r "" || String.eqb (u_role u) r | None => true end
    && match is_active with Some b => Bool.eqb (u_is_active u) b | None => true end in
  mret (take limit (drop offset (order_by_desc u_created_at (sql_select wanted (users d)))), sql_count wanted (users d)).

Definition get_user (user_id : string) (current_user : User) : AccountsM User :=
  check (String.eqb (u_id current_user) user_id || is_admin current_user) 403 "Access denied";;
  need_user user_id.

(** A row with the columns' defaults. *)
Definition new_user (id username : string) (email : option string) (password_hash role : string) (now : Z) : User :=
  {| u_id := id; u_username := username; u_email := email; u_password_hash := password_hash; u_role := role;
     u_role_id := None; u_is_service_account := false; u_service_account_description := None; u_owner_id := None;
     u_expires_at := None; u_auth_source := "local"; u_is_active := true; u_failed_login_attempts := 0;
     u_locked_until := None; u_last_login_at := None; u_created_at := now |}.

(** [if data.email: ...]: no other user has it. *)
Definition check_email (email : string) (others : User -> bool) : AccountsM unit :=
  if String.eqb email "" then mret tt
  else
    d ← get_accounts;
    existing ← one_or_none (sql_select (fun u => has_email email u && others u) (users d));
    check (match existing with Some _ => false | None => true end) 400 "Email already exists".

Definition check_username (username : string) : AccountsM unit :=
  d ← get_accounts;
  existing ← one_or_none (sql_select (has_key u_username username) (users d));
  check (match existing with Some _ => false | None => true end) 400 "Username already exists".

Definition check_password (password : string) : AccountsM unit :=
  check (8 <=? String.length password)%nat 400 "Password must be at least 8 characters".

Definition create_user (now : Z) (rq : RequestState) (id salt : string) (data : UserCreate) (current_user : User) : AccountsM User :=
  check (is_admin current_user) 403 "Admin access required";;
  check (valid_role (uc_role data)) 400 invalid_role;;
  check_username (uc_username data);;
  match uc_email data with Some e => check_email e (fun _ => true) | None => mret tt end;;
  check_password (uc_password data);;
  let user := new_user id (uc_username data) (uc_email data) (hash_password salt (uc_password data)) (uc_role data) now in
  insert_user user;;
  audit_action rq "create" "user" (Some (u_id user)) (Some (u_username user)) None "success" None;;
  mret user.

(** [func.count()] of the users that satisfy it *)
Definition count_users (P : User -> bool) : AccountsM Z := d ← get_accounts; mret (sql_count P (users d)).

(** Each assignment is written when the next statement flushes. *)
Definition update_email (user : User) (email : option string) : AccountsM User :=
  match email with
  | None => mret user
  | Some e =>
      check_email e (fun u => negb (has_key u_id (u_id user) u));;
      let user := user <| u_email := if String.eqb e "" then None else Some e |> in
      write_user user;;
      mret user
  end.

Definition update_role (user : User) (role : option string) : AccountsM User :=
  match role with
  | None => mret user
  | Some r =>
      check (valid_role r) 400 invalid_role;;
      (if is_admin user && negb (String.eqb r "admin") then
         admin_count ← count_users is_admin;
         check (1 <? admin_count)%Z 400 "Cannot demote last admin"
       else mret tt);;
      let user := user <| u_role := r |> in
      write_user user;;
      mret user
  end.

Definition update_active (user : User) (active : option bool) : AccountsM User :=
  match active with
  | None => mret user
  | Some b =>
      (if is_admin user && negb b then
         active_admin_count ← count_users (fun u => is_admin u && u_is_active u);
         check (1 <? active_admin_count)%Z 400 "Cannot disable last active admin"
       else mret tt);;
      let user := user <| u_is_active := b |> in
      write_user user;;
      mret user
  end.

Definition updated_fields (admin : bool) (data : UserUpdate) : list json :=
  (match uu_email data with Some _ => [JStr "email"] | None => [] end
   ++ (if admin then
         match uu_role data with Some _ => [JStr "role"] | None => [] end
         ++ match uu_is_active data with Some _ => [JStr "is_active"] | None => [] end
       else []))%list.

Definition update_user (rq : RequestState) (user_id : string) (data : UserUpdate) (current_user : User) : AccountsM User :=
  let is_self := String.eqb (u_id current_user) user_id in
  let admin := is_admin current_user in
  check (is_self || admin) 403 "Access denied";;
  user ← need_user user_id;
  check (admin || match uu_role data, uu_is_active data with None, None => true | _, _ => false end)
        403 "Only admins can change role or status";;
  user ← update_email user (uu_email data);
  user ← (if admin then u ← update_role user (uu_role data); update_active u (uu_is_active data) else mret user);
  match updated_fields admin data with
  | [] => mret tt
  | fields => audit_action rq "update" "user" (Some (u_id user)) (Some (u_username user))
                           (Some (JObj [("updated_fields", JArr fields)])) "success" None
  end;;
  mret user.

Definition change_password (user_id salt : string) (data : PasswordChange) (current_user : User) : AccountsM unit :=
  let is_self := String.eqb (u_id current_user) user_id in
  let admin := is_admin current_user in
  check (is_self || admin) 403 "Access denied";;
  user ← need_user user_id;
  (if is_self && negb admin then
     match pc_current_password data with
     | Some p =>
         check (negb (String.eqb p "")) 400 "Current password required";;
         check (verify_password p (u_password_hash user)) 400 "Current password incorrect"
     | None => raise (HTTPException 400 "Current password required")
     end
   else mret tt);;
  check_password (pc_new_password data);;
  write_user (user <| u_password_hash := hash_password salt (pc_new_password data) |>);;
  set_tokens (fun l => (sql_delete (has_key rt_user_id user_id) l).1).

(** The sessions and memberships of the user go too; keys and what the user owns do not. *)
Definition delete_user (rq : RequestState) (user_id : string) (current_user : User) : AccountsM unit :=
  check (is_admin current_user) 403 "Admin access required";;
  check (negb (String.eqb (u_id current_user) user_id)) 400 "Cannot delete yourself";;
  user ← need_user user_id;
  (if is_admin user then
     admin_count ← count_users is_admin;
     check (1 <? admin_count)%Z 400 "Cannot delete last admin"
   else mret tt);;
  set_tokens (fun l => (sql_delete (has_key rt_user_id user_id) l).1);;
  modify (fun d => d <| group_members ::= fun l => (sql_delete (fun m => String.eqb m.2 user_id) l).1 |>);;
  set_users (fun l => (sql_delete (has_key u_id user_id) l).1);;
  audit_action rq "delete" "user" (Some user_id) (Some (u_username user)) None "success" None.

(** ** LDAP *)

Record LdapUser := {
  lu_username : string;
  lu_email : option string;
  lu_display_name : option string;
  lu_dn : string;
  lu_groups : list string
}.

Definition mapped_groups (d : AccountsDB) : list UserGroup :=
  sql_select (fun g => match ug_ldap_group_dn g with Some _ => true | None => false end) (user_groups d).

Definition in_list (l : list string) (s : string) : bool := existsb (String.eqb s) l.

(** [group.ldap_group_dn in ldap_groups] *)
Definition wanted_groups (ldap_groups : list string) (d : AccountsDB) : list string :=
  map ug_id (List.filter (fun g => match ug_ldap_group_dn g with Some dn => in_list ldap_groups dn | None => false end) (mapped_groups d)).

(** The sets' order is that of the table of groups here. *)
Definition sync_user_groups (user : User) (ldap_groups : list string) : AccountsM unit :=
  d ← get_accounts;
  let target := wanted_groups ldap_groups d in
  let current := map fst (List.filter (fun m => String.eqb m.2 (u_id user)) (group_members d)) in
  let mapped := map ug_id (mapped_groups d) in
  let missing := List.filter (fun g => negb (in_list current g)) target in
  let stale m := String.eqb m.2 (u_id user) && in_list mapped m.1 && negb (in_list target m.1) in
  modify (fun d => d <| group_members := (List.filter (fun m => negb (stale m)) (group_members d)
                                          ++ map (fun g => (g, u_id user)) missing)%list |>).

(** ** Sessions *)

Definition whole_minutes (t : Z) : Z := (t / 1000000 mod 86400 / 60)%Z.

Definition login_failure (rq : RequestState) (user : User) (details : list (string * json)) (message : string) : AccountsM unit :=
  audit_action rq "login" "session" (Some (u_id user)) (Some (u_username user)) (Some (JObj details)) "failure" (Some message).

Definition password_failed (now : Z) (user : User) : User :=
  let attempts := (u_failed_login_attempts user + 1)%Z in
  user <| u_failed_login_attempts := attempts |>
       <| u_locked_until ::= fun l =>
            if (MAX_FAILED_ATTEMPTS <=? attempts)%Z then Some (now + minutes LOCKOUT_DURATION_MINUTES)%Z else l |>.

Definition local_login (now : Z) (rq : RequestState) (username password : string) : AccountsM User :=
  d ← get_accounts;
  found ← one_or_none (sql_select (has_key u_username username) (users d));
  match found with
  | None =>
      audit_action rq "login" "session" None (Some username) (Some (JObj [("reason", JStr "User not found")])) "failure"
                   (Some "Invalid credentials");;
      raise (HTTPException 401 "Invalid credentials")
  | Some user =>
      if String.eqb (u_auth_source user) "ldap" then
        login_failure rq user [("reason", JStr "LDAP user attempted local auth")] "LDAP authentication required";;
        raise (HTTPException 401 "LDAP authentication required")
      else
        let locked := match u_locked_until user with Some t => (now <? t)%Z | None => false end in
        if locked then
          let remaining := whole_minutes (default 0%Z (u_locked_until user) - now)%Z in
          let message := "Account locked. Try again in " ++ pretty remaining ++ " minutes." in
          login_failure rq user [("reason", JStr "Account locked"); ("remaining_minutes", JNum remaining)] message;;
          raise (HTTPException 423 message)
        else if negb (u_is_active user) then
          login_failure rq user [("reason", JStr "Account disabled")] "Account disabled";;
          raise (HTTPException 401 "Account disabled")
        else if negb (verify_password password (u_password_hash user)) then
          let user := password_failed now user in
          write_user user;;
          login_failure rq user [("reason", JStr "Invalid password"); ("failed_attempts", JNum (u_failed_login_attempts user))]
                        "Invalid credentials";;
          raise (HTTPException 401 "Invalid credentials")
        else
          let user := user <| u_failed_login_attempts := 0%Z |> <| u_locked_until := None |> <| u_last_login_at := Some now |> in
          write_user user;;
          mret user
  end.

(** The table of users has no column for the display name that a new user is given. *)
Definition ldap_login (now : Z) (l : LdapUser) : AccountsM User :=
  d ← get_accounts;
  found ← one_or_none (sql_select (has_key u_username (lu_username l)) (users d));
  match found with
  | None => raise TypeError
  | Some user =>
      sync_user_groups user (lu_groups l);;
      let user := user <| u_last_login_at := Some now |> in
      write_user user;;
      mret user
  end.

(** The access token and the refresh token of the cookie. *)
Definition login (now : Z) (rq : RequestState) (username password : string) (ldap : option LdapUser) (token_id fresh : string)
    : AccountsM (string * string) :=
  user ← match ldap with Some l => ldap_login now l | None => local_login now rq username password end;
  let access := (create_access_token now (u_id user) (u_username user) (u_role user)).1 in
  insert_token {| rt_id := token_id; rt_user_id := u_id user; rt_token_hash := hash_refresh_token fresh;
                  rt_expires_at := now + days REFRESH_TOKEN_EXPIRY_DAYS |};;
  audit_action rq "login" "session" (Some (u_id user)) (Some (u_username user))
               (Some (JObj [("auth_source", JStr (match ldap with Some _ => "ldap" | None => "local" end))])) "success" None;;
  mret (access, fresh).

Definition find_session (token : string) : AccountsM (option RefreshToken) :=
  d ← get_accounts; one_or_none (sql_select (has_key rt_token_hash (hash_refresh_token token)) (refresh_tokens d)).

Definition drop_session (t : RefreshToken) : AccountsM unit := set_tokens (fun l => (sql_delete (has_key rt_id (rt_id t)) l).1).

(** The cookie, if there is one that is not empty. *)
Definition logout (cookie : option string) : AccountsM unit :=
  match cookie with
  | Some token =>
      if String.eqb token "" then mret tt
      else
        record ← find_session token;
        match record with Some t => drop_session t | None => mret tt end
  | None => mret tt
  end.

Definition refresh_session (now : Z) (token fresh : string) : AccountsM (string * string) :=
  record ← find_session token;
  match record with
  | None => raise (HTTPException 401 "Invalid refresh token")
  | Some t =>
      if (rt_expires_at t <? now)%Z then drop_session t;; raise (HTTPException 401 "Refresh token expired")
      else
        user ← find_user (rt_user_id t);
        match user with
        | Some user =>
            if u_is_active user then
              let access := (create_access_token now (u_id user) (u_username user) (u_role user)).1 in
              let t' := t <| rt_token_hash := hash_refresh_token fresh |>
                          <| rt_expires_at := (now + days REFRESH_TOKEN_EXPIRY_DAYS)%Z |> in
              write_token t';;
              mret (access, fresh)
            else drop_session t;; raise (HTTPException 401 "User not found or disabled")
        | None => drop_session t;; raise (HTTPException 401 "User not found or disabled")
        end
  end.

Definition refresh_tokens_route (now : Z) (cookie : option string) (fresh : string) : AccountsM (string * string) :=
  match cookie with
  | Some token => if String.eqb token "" then raise (HTTPException 401 "No refresh token") else refresh_session now token fresh
  | None => raise (HTTPException 401 "No refresh token")
  end.

(** ** Requests *)

Inductive account_request : Type :=
| Login (username password : string) (ldap : option LdapUser) (token_id fresh : string)
| Logout (cookie : option string)
| Refresh (cookie : option string) (fresh : string)
| CreateUser (id salt : string) (data : UserCreate)
| UpdateUser (user_id : string) (data : UserUpdate)
| ChangePassword (user_id salt : string) (data : PasswordChange)
| DeleteUser (user_id : string).

(** A request at a time, with its [Authorization] header. *)
Definition handle_account (now : Z) (rq : RequestState) (authorization : option string) (r : account_request) : AccountsM unit :=
  match r with
  | Login username password ldap token_id fresh => login now rq username password ldap token_id fresh;; mret tt
  | Logout cookie => logout cookie
  | Refresh cookie fresh => refresh_tokens_route now cookie fresh;; mret tt
  | CreateUser id salt data => u ← get_current_user now authorization; create_user now rq id salt data u;; mret tt
  | UpdateUser user_id data => u ← get_current_user now authorization; update_user rq user_id data u;; mret tt
  | ChangePassword user_id salt data => u ← get_current_user now authorization; change_password user_id salt data u
  | DeleteUser user_id => u ← get_current_user now authorization; delete_user rq user_id u
  end.

Record Call := { at_time : Z; state_of : RequestState; header : option string }.

Definition serve_account (d : AccountsDB) (x : Call * account_request) : AccountsDB :=
  (with_db (handle_account (at_time x.1) (state_of x.1) (header x.1) x.2) d).2.
Definition run_accounts (xs : list (Call * account_request)) (d : AccountsDB) : AccountsDB := fold_left serve_account xs d.
End Handlers.

(** ** Well-formed accounts *)

Definition emails (l : list User) : list string := omap u_email l.

Record accounts_ok (d : AccountsDB) : Prop := {
  ao_ids : keys_unique u_id (users d);
  ao_names : keys_unique u_username (users d);
  ao_emails : NoDup (emails (users d));
  ao_token_ids : keys_unique rt_id (refresh_tokens d);
  ao_tokens : keys_unique rt_token_hash (refresh_tokens d)
}.

Lemma accounts_ok_users d l : keys_unique u_id l -> keys_unique u_username l -> NoDup (emails l) ->
  accounts_ok d -> accounts_ok (d <| users := l |>).
Proof. intros H1 H2 H3 []. by constructor. Qed.

Lemma accounts_ok_tokens d l : keys_unique rt_id l -> keys_unique rt_token_hash l -> accounts_ok d -> accounts_ok (d <| refresh_tokens := l |>).
Proof. intros H1 H2 []. by constructor. Qed.

Lemma accounts_ok_delete_tokens d P : accounts_ok d -> accounts_ok (d <| refresh_tokens ::= fun l => (sql_delete P l).1 |>).
Proof. intros H. apply accounts_ok_tokens; [apply keys_unique_delete, H..|done]. Qed.

Lemma elem_of_emails e l : e ∈ emails l <-> exists u, u ∈ l /\ u_email u = Some e.
Proof. unfold emails. apply list_elem_of_omap. Qed.

Lemma has_email_spec e u : has_email e u = true <-> u_email u = Some e.
Proof. apply bool_decide_eq_true. Qed.

Lemma clashes_false u x : clashes u x = false <->
  u_username x ≠ u_username u /\ forall e, u_email u = Some e -> u_email x ≠ Some e.
Proof.
  unfold clashes. rewrite orb_false_iff, has_key_false. destruct (u_email u) as [e|].
  - rewrite <- not_true_iff_false, has_email_spec. split; intros [H1 H2]; (split; [done|]); [by intros e' [= <-]|auto].
  - split; intros [H1 H2]; by split.
Qed.

Lemma sublist_emails l1 l2 : sublist l1 l2 -> sublist (emails l1) (emails l2).
Proof. unfold emails. induction 1 as [|x l1 l2 _ IH|x l1 l2 _ IH]; cbn; [done|..]; destruct (u_email x); first [done | by apply sublist_skip | by apply sublist_cons]. Qed.

(** A new row, at the end. *)
Lemma insert_user_Ok u d a d' : insert_user u d = (Ok a, d') ->
  d' = d <| users ::= fun l => (l ++ [u])%list |> /\ (u_id u ∉ u_id <$> users d) /\ Forall (fun x => clashes u x = false) (users d).
Proof.
  unfold insert_user, sql_insert, get_accounts. unfold_M. destruct (sql_find _ _ _) eqn:E; [done|].
  destruct (existsb _ _) eqn:Ex; [done|]. intros [= _ <-]. split; [done|]. split; [by apply sql_find_None|].
  apply Forall_forall. intros x Hx. apply not_true_iff_false. intros Hc. apply not_true_iff_false in Ex. apply Ex, existsb_exists.
  exists x. by rewrite <- list_elem_of_In.
Qed.

Lemma accounts_ok_insert d u : (u_id u ∉ u_id <$> users d) -> Forall (fun x => clashes u x = false) (users d) ->
  accounts_ok d -> accounts_ok (d <| users ::= fun l => (l ++ [u])%list |>).
Proof.
  intros Hid Hc Hd. rewrite Forall_forall in Hc. apply (accounts_ok_users d (users d ++ [u])%list); [..|done].
  - unfold keys_unique. rewrite fmap_app, NoDup_app. split; [apply Hd|]. split; [by intros x Hx ->%list_elem_of_singleton|apply NoDup_singleton].
  - unfold keys_unique. rewrite fmap_app, NoDup_app. split; [apply Hd|]. split; [|apply NoDup_singleton].
    intros x (y & -> & Hy)%list_elem_of_fmap E%list_elem_of_singleton. by destruct (proj1 (clashes_false _ _) (Hc y Hy)).
  - unfold emails. rewrite omap_app, NoDup_app. split; [apply Hd|]. cbn. split; [|destruct (u_email u); [apply NoDup_singleton|constructor]].
    intros e (y & Hy & He)%elem_of_emails. destruct (u_email u) as [e'|] eqn:Eu; [|by intros ?%not_elem_of_nil].
    intros ->%list_elem_of_singleton. by destruct (proj2 (proj1 (clashes_false _ _) (Hc y Hy)) e' Eu).
Qed.

(** One user's row in place of another. *)
Definition put_user (u : User) (d : AccountsDB) : AccountsDB :=
  d <| users ::= fun l => (sql_update (has_key u_id (u_id u)) (fun _ => u) l).1 |>.

Lemma write_user_Ok u d a d' : write_user u d = (Ok a, d') ->
  d' = put_user u d /\ forall x, x ∈ users d -> u_id x ≠ u_id u -> clashes u x = false.
Proof.
  unfold write_user, get_accounts. unfold_M. destruct (existsb _ _) eqn:Ex; [done|]. intros [= _ <-]. split; [done|].
  intros x Hx Hne. apply not_true_iff_false. intros Hc. apply not_true_iff_false in Ex. apply Ex, existsb_exists.
  exists x. rewrite <- list_elem_of_In, Hc, andb_true_r, negb_true_iff, has_key_false. done.
Qed.

(** The row is in the table, or the table stays. *)
Lemma put_user_split u d : keys_unique u_id (users d) ->
  (put_user u d = d /\ u_id u ∉ u_id <$> users d)
  \/ exists l1 r l2, users d = (l1 ++ r :: l2)%list /\ u_id r = u_id u /\ users (put_user u d) = (l1 ++ u :: l2)%list.
Proof.
  intros Hu. destruct (decide (u_id u ∈ u_id <$> users d)) as [(r & E & Hr)%list_elem_of_fmap|Hn].
  - right. destruct (update_key_split u_id (fun _ => u) (users d) r Hu Hr) as (l1 & l2 & E1 & E2).
    exists l1, r, l2. split; [done|]. split; [done|]. cbn -[sql_update]. by rewrite E.
  - left. split; [|done]. unfold put_user. destruct d. cbn -[sql_update] in *. f_equal. by apply update_absent.
Qed.

Lemma accounts_ok_put u d : (forall x, x ∈ users d -> u_id x ≠ u_id u -> clashes u x = false) ->
  accounts_ok d -> accounts_ok (put_user u d).
Proof.
  intros Hc Hd. destruct (put_user_split u d (ao_ids _ Hd)) as [[-> _]|(l1 & r & l2 & E1 & Er & E2)]; [done|].
  assert (forall x, x ∈ (l1 ++ l2)%list -> clashes u x = false) as Hother.
  { intros x Hx. apply Hc; [rewrite E1, elem_of_app, elem_of_cons; apply elem_of_app in Hx; tauto|]. pose proof (ao_ids _ Hd) as Hnd. rewrite E1 in Hnd. unfold keys_unique in Hnd.
    rewrite fmap_app, fmap_cons, NoDup_app in Hnd. destruct Hnd as (_ & H1 & [H2 _]%NoDup_cons). intros He.
    apply elem_of_app in Hx as [Hx|Hx]; apply (list_elem_of_fmap_2 u_id) in Hx; rewrite He, <- Er in Hx; [|done].
    apply (H1 _ Hx). by left. }
  pose proof (accounts_ok_users d (l1 ++ u :: l2)) as H. unfold put_user in *. cbn -[sql_update] in E2.
  replace (d <| users ::= _ |>) with (d <| users := (l1 ++ u :: l2)%list |>) by (rewrite <- E2; by destruct d). apply H; [..|done].
  - unfold keys_unique. pose proof (ao_ids _ Hd) as Hnd. rewrite E1 in Hnd. unfold keys_unique in Hnd.
    rewrite fmap_app, fmap_cons in Hnd |- *. by rewrite Er in Hnd.
  - pose proof (ao_names _ Hd) as Hnd. rewrite E1 in Hnd. unfold keys_unique in *. rewrite <- Permutation_middle in Hnd |- *.
    rewrite !fmap_cons, !NoDup_cons in *. destruct Hnd as [_ Hnd]. split; [|done].
    intros (x & Ex & Hx)%list_elem_of_fmap. by destruct (proj1 (clashes_false _ _) (Hother x Hx)).
  - pose proof (ao_emails _ Hd) as Hnd. rewrite E1 in Hnd. assert (NoDup (emails (l1 ++ l2))) as Hnd'.
    { eapply sublist_NoDup; [|apply sublist_emails, (sublist_app l1 l1 l2 (r :: l2)); [done|by constructor]]. done. }
    unfold emails in *. rewrite omap_app in Hnd' |- *. cbn. destruct (u_email u) as [e|] eqn:Eu; [|done].
    rewrite <- Permutation_middle. constructor; [|done]. rewrite <- omap_app. intros (x & Hx & He)%elem_of_emails.
    by destruct (proj2 (proj1 (clashes_false _ _) (Hother x Hx)) e Eu).
Qed.

Section Theorems.
Context {C : Crypto} {L : CryptoLaws} (BCRYPT JWT : bool) (listed : list string -> string).

Abbreviation served := (serve_account BCRYPT JWT listed).
Abbreviation ran := (run_accounts BCRYPT JWT listed).

Lemma keeps_insert_user u : keeps accounts_ok (insert_user u).
Proof.
  intros d Hd. destruct (insert_user u d) as [[a|e] d'] eqn:E; cbn.
  - apply insert_user_Ok in E as (-> & Hid & Hc). by apply accounts_ok_insert.
  - revert E. unfold insert_user, get_accounts. unfold_M. by repeat case_match; intros [= _ <-].
Qed.

Lemma keeps_write_user u : keeps accounts_ok (write_user u).
Proof.
  intros d Hd. destruct (write_user u d) as [[a|e] d'] eqn:E; cbn.
  - apply write_user_Ok in E as [-> Hc]. by apply accounts_ok_put.
  - revert E. unfold write_user, get_accounts. unfold_M. by case_match; intros [= _ <-].
Qed.

Lemma insert_token_Ok t d a d' : insert_token t d = (Ok a, d') ->
  d' = d <| refresh_tokens ::= fun l => (l ++ [t])%list |>
  /\ (rt_id t ∉ rt_id <$> refresh_tokens d) /\ (rt_token_hash t ∉ rt_token_hash <$> refresh_tokens d).
Proof.
  unfold insert_token, sql_insert, get_accounts. unfold_M. destruct (sql_find _ _ _) eqn:E; [done|].
  destruct (existsb _ _) eqn:Ex; [done|]. intros [= _ <-]. split; [done|]. split; [by apply sql_find_None|].
  intros (x & Hx & Hin)%list_elem_of_fmap. apply not_true_iff_false in Ex. apply Ex, existsb_exists. exists x.
  by rewrite <- list_elem_of_In, has_key_true.
Qed.

Lemma keys_unique_snoc {R} (key : R -> string) x t : key x ∉ key <$> t -> keys_unique key t -> keys_unique key (t ++ [x])%list.
Proof.
  unfold keys_unique. intros Hx Ht. rewrite fmap_app, NoDup_app. split; [done|].
  split; [by intros y Hy ->%list_elem_of_singleton|apply NoDup_singleton].
Qed.

Lemma keeps_insert_token t : keeps accounts_ok (insert_token t).
Proof.
  intros d Hd. destruct (insert_token t d) as [[a|e] d'] eqn:E; cbn.
  - apply insert_token_Ok in E as (-> & Hid & Hh). apply accounts_ok_tokens; [by apply keys_unique_snoc, Hd..|done].
  - revert E. unfold insert_token, get_accounts. unfold_M. by repeat case_match; intros [= _ <-].
Qed.

Lemma keeps_delete_users P : keeps (E := server_error) accounts_ok (set_users (fun l => (sql_delete P l).1)).
Proof.
  intros d Hd. unfold set_users, modify. cbn [snd]. apply (accounts_ok_users d (sql_delete P (users d)).1); [..|done].
  - apply keys_unique_delete, Hd.
  - apply keys_unique_delete, Hd.
  - eapply sublist_NoDup; [apply (ao_emails _ Hd)|]. apply sublist_emails, filter_sublist.
Qed.

Lemma keeps_delete_tokens P : keeps (E := server_error) accounts_ok (set_tokens (fun l => (sql_delete P l).1)).
Proof. intros d Hd. by apply accounts_ok_delete_tokens. Qed.

Lemma keeps_write_token t : keeps accounts_ok (write_token t).
Proof.
  intros d Hd. unfold write_token, get_accounts. unfold_M. destruct (existsb _ _) eqn:Ex; [done|]. unfold set_tokens, modify. cbn [snd].
  destruct (decide (rt_id t ∈ rt_id <$> refresh_tokens d)) as [(r & Er & Hr)%list_elem_of_fmap|Hn].
  - apply (accounts_ok_tokens d (sql_update (has_key rt_id (rt_id t)) (fun _ => t) (refresh_tokens d)).1); [..|done]; rewrite Er.
    + unfold keys_unique. rewrite update_row_keys by done. apply Hd.
    + apply unique_update; [apply Hd..|done|done|]. by rewrite <- Er.
  - pose proof (update_absent rt_id (rt_id t) (fun _ => t) _ Hn) as E. destruct d. cbn -[sql_update] in *. by rewrite E.
Qed.

(** What every operation on the tables keeps, every request keeps. *)
Record kept_by_operations (P : AccountsDB -> Prop) : Prop := {
  kept_insert_user u : keeps P (insert_user u);
  kept_write_user u : keeps P (write_user u);
  kept_insert_token t : keeps P (insert_token t);
  kept_write_token t : keeps P (write_token t);
  kept_delete_users Q : keeps (E := server_error) P (set_users (fun l => (sql_delete Q l).1));
  kept_delete_tokens Q : keeps (E := server_error) P (set_tokens (fun l => (sql_delete Q l).1));
  kept_audit rq a t i n de r e : keeps P (audit_action rq a t i n de r e);
  kept_leave Q : keeps (E := server_error) P (modify (fun d => d <| group_members ::= fun l => (sql_delete Q l).1 |>));
  kept_sync u gs : keeps P (sync_user_groups u gs)
}.

Create HintDb accounts discriminated.
#[local] Hint Resolve kept_insert_user kept_write_user kept_insert_token kept_write_token kept_delete_users kept_delete_tokens
  kept_audit kept_leave kept_sync : accounts.

Ltac accounts_steps :=
  unfold check_email, check_username, check_password, need_user, find_user, find_session, drop_session, login_failure,
    count_users, check, one_or_none, get_accounts;
  keeps_steps; auto with accounts.

Lemma keeps_current_user P now h : keeps P (get_current_user JWT now h).
Proof. unfold get_current_user. accounts_steps. Qed.

Lemma keeps_handle_account P now rq h r : kept_by_operations P -> keeps P (handle_account BCRYPT JWT listed now rq h r).
Proof.
  intros HP.
  destruct r as [username password ldap token_id fresh|cookie|cookie fresh|id salt data|user_id data|user_id salt data|user_id]; cbn [handle_account].
  - unfold login, local_login, ldap_login. accounts_steps.
  - unfold logout. accounts_steps.
  - unfold refresh_tokens_route, refresh_session. accounts_steps.
  - apply keeps_bind; [apply keeps_current_user|]. intros u. unfold create_user. accounts_steps.
  - apply keeps_bind; [apply keeps_current_user|]. intros u. unfold update_user, update_email, update_role, update_active. accounts_steps.
  - apply keeps_bind; [apply keeps_current_user|]. intros u. unfold change_password. accounts_steps.
  - apply keeps_bind; [apply keeps_current_user|]. intros u. unfold delete_user. accounts_steps.
Qed.

Lemma accounts_ok_kept : kept_by_operations accounts_ok.
Proof.
  constructor; [apply keeps_insert_user|apply keeps_write_user|apply keeps_insert_token|apply keeps_write_token|
    apply keeps_delete_users|apply keeps_delete_tokens|by intros; intros d []..|].
  intros u gs. unfold sync_user_groups, get_accounts. apply keeps_bind; [apply keeps_get_state|]. intros d0. by intros d [].
Qed.

Lemma run_accounts_ok xs d : accounts_ok d -> accounts_ok (ran xs d).
Proof.
  unfold run_accounts. revert d. induction xs as [|x xs IH]; intros d Hd; [done|]. cbn. apply IH.
  unfold serve_account. apply keeps_with_db; [apply keeps_handle_account, accounts_ok_kept|done].
Qed.

(** ** What requests do to the users *)

Definition row_set (u : User) (l : list User) : list User := (sql_update (has_key u_id (u_id u)) (fun _ => u) l).1.

Lemma row_set_split u0 u l : keys_unique u_id l -> sql_find u_id (u_id u) l = Some u0 ->
  exists l1 l2, l = (l1 ++ u0 :: l2)%list /\ row_set u l = (l1 ++ u :: l2)%list.
Proof.
  intros Hu [Hin Hid]%sql_find_Some_1. unfold row_set. rewrite <- Hid. by apply (update_key_split u_id (fun _ => u)).
Qed.

Lemma row_set_self u l : keys_unique u_id l -> sql_find u_id (u_id u) l = Some u -> row_set u l = l.
Proof. intros Hu Hf. by destruct (row_set_split u u l Hu Hf) as (l1 & l2 & -> & ->). Qed.

Lemma row_set_set u u' l : u_id u' = u_id u -> row_set u' (row_set u l) = row_set u' l.
Proof.
  intros E. unfold row_set. rewrite E. cbn. rewrite map_map. apply map_ext. intros r.
  destruct (has_key u_id (u_id u) r) eqn:Er; [|by rewrite Er]. by rewrite (proj2 (has_key_true u_id (u_id u) u)).
Qed.

Lemma row_set_find u l : (exists u0, sql_find u_id (u_id u) l = Some u0) -> sql_find u_id (u_id u) (row_set u l) = Some u.
Proof.
  intros [u0 H]. unfold row_set. rewrite sql_find_update_on by (by intros r _ ->%has_key_true). rewrite H. cbn.
  by rewrite (proj2 (has_key_true u_id (u_id u) u0) (proj2 (sql_find_Some_1 _ _ _ _ H))).
Qed.

Lemma row_set_unique u l : keys_unique u_id l -> keys_unique u_id (row_set u l).
Proof.
  unfold row_set. intros H. destruct (decide (u_id u ∈ u_id <$> l)) as [(r & Er & Hr)%list_elem_of_fmap|Hn].
  - unfold keys_unique. rewrite Er. by rewrite update_row_keys.
  - by rewrite update_absent.
Qed.

Definition admins (l : list User) : Z := sql_count is_admin l.
Definition one (b : bool) : Z := if b then 1 else 0.

Lemma count_middle P (l1 l2 : list User) u : sql_count P (l1 ++ u :: l2) = (sql_count P (l1 ++ l2) + one (P u))%Z.
Proof. unfold sql_count, sql_select. rewrite !List.filter_app, !length_app. cbn. destruct (P u); cbn; lia. Qed.

Lemma row_set_admins u0 u l : keys_unique u_id l -> sql_find u_id (u_id u) l = Some u0 ->
  (admins (row_set u l) + one (is_admin u0) = admins l + one (is_admin u))%Z.
Proof.
  intros Hu Hf. destruct (row_set_split u0 u l Hu Hf) as (l1 & l2 & -> & ->). unfold admins. rewrite !count_middle. lia.
Qed.

Lemma find_user_run id d : find_user id d = (Ok (sql_find u_id id (users d)), d).
Proof. done. Qed.

Lemma need_user_Ok id d u d' : need_user id d = (Ok u, d') -> d' = d /\ sql_find u_id id (users d) = Some u /\ u_id u = id.
Proof.
  unfold need_user. rewrite (bind_Ok _ _ _ _ _ (find_user_run id d)). destruct (sql_find u_id id (users d)) as [x|] eqn:E; [|done].
  intros [= -> <-]. by destruct (sql_find_Some_1 _ _ _ _ E).
Qed.

Lemma check_Ok b n t d a d' : check b n t d = (Ok a, d') -> b = true /\ d' = d.
Proof. unfold check. unfold_M. destruct b; [|done]. by intros [= _ <-]. Qed.

Lemma one_or_none_Ok {R} (l : list R) d r d' : one_or_none l d = (Ok r, d') -> d' = d /\ r = head l.
Proof. unfold one_or_none. unfold_M. by destruct l as [|x [|]]; intros [= <- <-]. Qed.

Lemma check_email_Ok e P d a d' : check_email e P d = (Ok a, d') -> d' = d.
Proof.
  unfold check_email. destruct (String.eqb e ""); [by intros [= _ <-]|]. unfold get_accounts. step_M x s1 H1. injection H1 as _ <-.
  step_M r s2 H2. apply one_or_none_Ok in H2 as [-> _]. by intros [_ ->]%check_Ok.
Qed.

Lemma check_username_Ok n d a d' : check_username n d = (Ok a, d') -> d' = d.
Proof.
  unfold check_username, get_accounts. step_M x s1 H1. injection H1 as _ <-.
  step_M r s2 H2. apply one_or_none_Ok in H2 as [-> _]. by intros [_ ->]%check_Ok.
Qed.

(** The row [u] of the table becomes [u'], and nothing else of users and sessions changes. *)
Record edited (u u' : User) (d d' : AccountsDB) : Prop := {
  ed_id : u_id u' = u_id u;
  ed_users : users d' = row_set u' (users d);
  ed_tokens : refresh_tokens d' = refresh_tokens d
}.

Definition current (u : User) (d : AccountsDB) : Prop := keys_unique u_id (users d) /\ sql_find u_id (u_id u) (users d) = Some u.

Lemma edited_current u u' d d' : edited u u' d d' -> current u d -> current u' d'.
Proof.
  intros [Hid Hu _] [H1 H2]. unfold current. rewrite Hu. split; [by apply row_set_unique|].
  apply row_set_find. exists u. by rewrite Hid.
Qed.

Lemma edited_refl u d : current u d -> edited u u d d.
Proof. intros [H1 H2]. constructor; [done| |done]. by rewrite row_set_self. Qed.

Lemma edited_trans u1 u2 u3 d1 d2 d3 : edited u1 u2 d1 d2 -> edited u2 u3 d2 d3 -> edited u1 u3 d1 d3.
Proof.
  intros [I1 U1 T1] [I2 U2 T2]. constructor; [congruence| |congruence]. by rewrite U2, U1, row_set_set.
Qed.

Lemma write_user_edited u u' d a d' : u_id u' = u_id u -> write_user u' d = (Ok a, d') -> edited u u' d d'.
Proof. intros E [-> _]%write_user_Ok. by constructor. Qed.

Lemma audit_edited u u' d0 d rq a t i n de r e x d' : edited u u' d0 d -> audit_action rq a t i n de r e d = (Ok x, d') -> edited u u' d0 d'.
Proof. intros [] [= _ <-]. by constructor. Qed.

Lemma update_email_Ok u e d u' d' : current u d -> update_email u e d = (Ok u', d') ->
  edited u u' d d' /\ exists x, u' = u <| u_email := x |>.
Proof.
  intros Hc. unfold update_email. destruct e as [e|].
  - step_M a s1 H1. apply check_email_Ok in H1 as ->. cbv zeta. step_M b s2 H2. intros [= <- <-].
    split; [by eapply write_user_edited|]. by eexists.
  - intros [= <- <-]. split; [by apply edited_refl|]. exists (u_email u). by destruct u.
Qed.

(** The last of several is not demoted. *)
Lemma update_role_Ok u r d u' d' : current u d -> update_role listed u r d = (Ok u', d') ->
  edited u u' d d' /\ u_is_active u' = u_is_active u /\ (is_admin u = true -> is_admin u' = false -> (1 < admins (users d))%Z).
Proof.
  intros Hc. unfold update_role. destruct r as [r|]; [|intros [= <- <-]; split; [by apply edited_refl|by split; [|congruence]]].
  step_M a s1 H1. apply check_Ok in H1 as [_ ->]. step_M a2 s2 H2. cbv zeta. step_M a3 s3 H3. intros [= <- <-].
  assert (s2 = d /\ (is_admin u = true -> String.eqb r "admin" = false -> (1 < admins (users d))%Z)) as [-> Hl].
  { destruct (is_admin u && negb (String.eqb r "admin")) eqn:E.
    - revert H2. unfold count_users, get_accounts. step_M n s4 H4. injection H4 as <- <-. intros [Hn%Z.ltb_lt ->]%check_Ok. by split.
    - injection H2 as _ <-. split; [done|]. intros Ea Er. by rewrite Ea, Er in E. }
  split; [by eapply write_user_edited|]. split; [done|]. intros Ea. by apply Hl.
Qed.

Lemma update_active_Ok u b d u' d' : current u d -> update_active u b d = (Ok u', d') -> edited u u' d d' /\ u_role u' = u_role u.
Proof.
  intros Hc. unfold update_active. destruct b as [b|]; [|intros [= <- <-]; split; [by apply edited_refl|done]].
  step_M a2 s2 H2. cbv zeta. step_M a3 s3 H3. intros [= <- <-]. assert (s2 = d) as ->.
  { destruct (is_admin u && negb b); [|by injection H2 as _ <-]. revert H2. unfold count_users, get_accounts.
    step_M n s4 H4. injection H4 as _ <-. by intros [_ ->]%check_Ok. }
  split; [by eapply write_user_edited|done].
Qed.

Lemma update_user_Ok rq id data cu d u' d' : keys_unique u_id (users d) -> update_user listed rq id data cu d = (Ok u', d') ->
  exists u, current u d /\ u_id u = id /\ edited u u' d d'
  /\ (is_admin u = true -> is_admin u' = false -> (1 < admins (users d))%Z)
  /\ (is_admin cu = false -> u_id cu = id /\ exists x, u' = u <| u_email := x |>).
Proof.
  intros Hk. unfold update_user. cbv zeta. step_M a s1 H1. apply check_Ok in H1 as [Hself ->].
  step_M u s2 H2. apply need_user_Ok in H2 as (-> & Hf & Hid). assert (current u d) as Hc by (split; [done|by rewrite Hid]).
  step_M a3 s3 H3. apply check_Ok in H3 as [_ ->]. step_M u1 s4 H4. destruct (update_email_Ok _ _ _ _ _ Hc H4) as [He [x Hx]].
  step_M u2 s5 H5. step_M a6 s6 H6. intros [= <- <-].
  assert (edited u u2 d s5 /\ (is_admin u = true -> is_admin u2 = false -> (1 < admins (users d))%Z)
          /\ (is_admin cu = false -> u2 = u1)) as (He2 & Hl & Hn).
  { pose proof (edited_current _ _ _ _ He Hc) as Hc1. assert (is_admin u1 = is_admin u) as Ea by (by rewrite Hx).
    assert (admins (users s4) = admins (users d)) as En.
    { pose proof (row_set_admins u u1 (users d) Hk) as H. rewrite (ed_id _ _ _ _ He), Ea, <- (ed_users _ _ _ _ He) in H.
      specialize (H (proj2 Hc)). lia. }
    destruct (is_admin cu).
    - revert H5. step_M u3 s7 H7. destruct (update_role_Ok _ _ _ _ _ Hc1 H7) as (He3 & _ & Hl3).
      intros H8%update_active_Ok; [|by eapply edited_current]. destruct H8 as [He4 Hr].
      split; [by eapply edited_trans, edited_trans|]. split; [|done]. unfold is_admin at 2. rewrite Hr.
      intros E1 E2. rewrite <- En. apply Hl3; [congruence|done].
    - injection H5 as <- <-. split; [done|]. split; [congruence|done]. }
  exists u. split; [done|]. split; [done|]. split.
  { destruct (updated_fields _ _); [by injection H6 as _ <-|]. eapply audit_edited; [exact He2|exact H6]. }
  split; [done|]. intros Ha. rewrite Ha, orb_false_r in Hself. apply String.eqb_eq in Hself. rewrite (Hn Ha). by split; [|exists x].
Qed.

Lemma create_user_Ok now rq id salt data cu d u d' : create_user BCRYPT listed now rq id salt data cu d = (Ok u, d') ->
  is_admin cu = true /\ users d' = (users d ++ [u])%list /\ refresh_tokens d' = refresh_tokens d.
Proof.
  unfold create_user. step_M a1 s1 H1. apply check_Ok in H1 as [Ha ->]. step_M a2 s2 H2. apply check_Ok in H2 as [_ ->].
  step_M a3 s3 H3. apply check_username_Ok in H3 as ->. step_M a4 s4 H4. assert (s4 = d) as ->.
  { destruct (uc_email data); [by apply check_email_Ok in H4|by injection H4 as _ <-]. }
  step_M a5 s5 H5. apply check_Ok in H5 as [_ ->]. cbv zeta. step_M a6 s6 H6. apply insert_user_Ok in H6 as [-> _].
  step_M a7 s7 H7. injection H7 as _ <-. by intros [= <- <-].
Qed.

Lemma change_password_Ok id salt data cu d a d' : keys_unique u_id (users d) ->
  change_password BCRYPT id salt data cu d = (Ok a, d') ->
  exists u, current u d /\ u_id u = id
  /\ users d' = row_set (u <| u_password_hash := hash_password BCRYPT salt (pc_new_password data) |>) (users d)
  /\ refresh_tokens d' = (sql_delete (has_key rt_user_id id) (refresh_tokens d)).1
  /\ (is_admin cu = false -> u_id cu = id /\ exists p, pc_current_password data = Some p /\ verify_password BCRYPT p (u_password_hash u) = true).
Proof.
  intros Hk. unfold change_password. cbv zeta. step_M a1 s1 H1. apply check_Ok in H1 as [Hself ->].
  step_M u s2 H2. apply need_user_Ok in H2 as (-> & Hf & Hid). step_M a3 s3 H3. step_M a4 s4 H4.
  unfold check_password in H4. apply check_Ok in H4 as [_ ->]. step_M a5 s5 H5. apply write_user_Ok in H5 as [-> _]. intros [= _ <-].
  assert (s3 = d /\ (is_admin cu = false -> exists p, pc_current_password data = Some p /\ verify_password BCRYPT p (u_password_hash u) = true))
    as [-> Hp].
  { destruct (String.eqb (u_id cu) id && negb (is_admin cu)) eqn:E.
    - destruct (pc_current_password data) as [p|]; [|done]. revert H3. step_M a6 s6 H6. apply check_Ok in H6 as [_ ->].
      intros [Hv ->]%check_Ok. split; [done|]. by exists p.
    - injection H3 as _ <-. split; [done|]. intros Ha. rewrite Ha, orb_false_r in Hself. by rewrite Hself, Ha in E. }
  exists u. split; [split; [done|by rewrite Hid]|]. do 3 (split; [done|]).
  intros Ha. split; [|auto]. rewrite Ha, orb_false_r in Hself. by apply String.eqb_eq.
Qed.

Lemma delete_user_Ok rq id cu d a d' : delete_user rq id cu d = (Ok a, d') ->
  is_admin cu = true /\ u_id cu ≠ id /\ exists u, sql_find u_id id (users d) = Some u
  /\ users d' = (sql_delete (has_key u_id id) (users d)).1
  /\ refresh_tokens d' = (sql_delete (has_key rt_user_id id) (refresh_tokens d)).1
  /\ (is_admin u = true -> (1 < admins (users d))%Z).
Proof.
  unfold delete_user. step_M a1 s1 H1. apply check_Ok in H1 as [Ha ->]. step_M a2 s2 H2. apply check_Ok in H2 as [Hne ->].
  step_M u s3 H3. apply need_user_Ok in H3 as (-> & Hf & Hid). step_M a4 s4 H4. step_M a5 s5 H5. step_M a6 s6 H6. step_M a7 s7 H7.
  injection H5 as _ <-. injection H6 as _ <-. injection H7 as _ <-. intros [= _ <-]. split; [done|].
  apply negb_true_iff, String.eqb_neq in Hne. split; [done|]. exists u.
  assert (s4 = d /\ (is_admin u = true -> (1 < admins (users d))%Z)) as [-> Hl]; [|done].
  destruct (is_admin u); [|by injection H4 as _ <-]. revert H4. unfold count_users, get_accounts. step_M n s8 H8. injection H8 as <- <-.
  intros [Hn%Z.ltb_lt ->]%check_Ok. done.
Qed.

(** *** Logging in *)

Lemma head_select_Some {R} (P : R -> bool) l x : head (sql_select P l) = Some x -> x ∈ l /\ P x = true.
Proof. destruct (sql_select P l) as [|y t] eqn:E; [done|]. intros [= ->]. apply elem_of_sql_select. rewrite E. by left. Qed.

Lemma current_elem u d : keys_unique u_id (users d) -> u ∈ users d -> current u d.
Proof. intros Hk Hu. split; [done|]. by apply sql_find_Some. Qed.

(** The record of a session changes; of the account only the counters. *)
Record logged_in (u : User) (d d' : AccountsDB) : Prop := {
  li_user : exists u0, current u0 d /\ edited u0 u d d' /\ is_admin u = is_admin u0
}.

Lemma local_login_Ok now rq username password d u d' : keys_unique u_id (users d) ->
  local_login BCRYPT now rq username password d = (Ok u, d') ->
  exists u0, current u0 d /\ u_username u0 = username /\ verify_password BCRYPT password (u_password_hash u0) = true
  /\ edited u0 u d d' /\ is_admin u = is_admin u0.
Proof.
  intros Hk. unfold local_login, get_accounts, login_failure. step_M x s1 H1. injection H1 as <- <-.
  step_M found s2 H2. apply one_or_none_Ok in H2 as [-> ->]. destruct (head _) as [u0|] eqn:Eh.
  2:{ step_M a s3 H3. done. }
  apply head_select_Some in Eh as [Hin Hn%has_key_true]. cbv zeta. destruct (String.eqb (u_auth_source u0) "ldap"); [step_M a s3 H3; done|].
  destruct (match u_locked_until u0 with Some t => _ | None => false end); [step_M a s3 H3; done|].
  destruct (negb (u_is_active u0)); [step_M a s3 H3; done|].
  destruct (verify_password BCRYPT password (u_password_hash u0)) eqn:Ev; cbn [negb].
  - step_M a s3 H3. intros [= <- <-]. exists u0. split; [by apply current_elem|]. split; [done|]. split; [done|].
    split; [by eapply write_user_edited|done].
  - step_M a s3 H3. step_M a2 s4 H4. done.
Qed.

Lemma ldap_login_Ok now l d u d' : keys_unique u_id (users d) -> ldap_login now l d = (Ok u, d') ->
  exists u0, current u0 d /\ u_username u0 = lu_username l /\ edited u0 u d d' /\ is_admin u = is_admin u0.
Proof.
  intros Hk. unfold ldap_login, get_accounts. step_M x s1 H1. injection H1 as <- <-.
  step_M found s2 H2. apply one_or_none_Ok in H2 as [-> ->]. destruct (head _) as [u0|] eqn:Eh; [|done].
  apply head_select_Some in Eh as [Hin Hn%has_key_true]. step_M a s3 H3. cbv zeta. step_M b s4 H4. intros [= <- <-].
  exists u0. split; [by apply current_elem|]. split; [done|]. split; [|done].
  assert (users s3 = users d /\ refresh_tokens s3 = refresh_tokens d) as [E1 E2] by (by injection H3 as _ <-).
  apply (write_user_edited u0) in H4 as [Hi Hu Ht]; [|done]. constructor; [done|by rewrite <- E1|by rewrite <- E2].
Qed.

Lemma login_Ok now rq username password ldap tid fresh d p d' : keys_unique u_id (users d) ->
  login BCRYPT JWT now rq username password ldap tid fresh d = (Ok p, d') ->
  exists u0 u, current u0 d /\ u_id u = u_id u0 /\ users d' = row_set u (users d) /\ is_admin u = is_admin u0
  /\ (ldap = None -> u_username u0 = username /\ verify_password BCRYPT password (u_password_hash u0) = true).
Proof.
  intros Hk. unfold login. step_M u s1 H1. cbv zeta. step_M a s2 H2. apply insert_token_Ok in H2 as (-> & _ & _).
  step_M a2 s3 H3. injection H3 as _ <-. intros [= _ <-].
  destruct ldap as [l|].
  - destruct (ldap_login_Ok _ _ _ _ _ Hk H1) as (u0 & Hc & _ & He & Ha). exists u0, u. split; [done|]. split; [apply He|].
    split; [apply (ed_users _ _ _ _ He)|]. by split.
  - destruct (local_login_Ok _ _ _ _ _ _ _ Hk H1) as (u0 & Hc & Hn & Hv & He & Ha). exists u0, u. split; [done|].
    split; [apply He|]. split; [apply (ed_users _ _ _ _ He)|]. by split.
Qed.

Lemma find_session_Ok t d r d' : find_session t d = (Ok r, d') ->
  d' = d /\ forall x, r = Some x -> x ∈ refresh_tokens d /\ rt_token_hash x = hash_refresh_token t.
Proof.
  unfold find_session, get_accounts. step_M x s1 H1. injection H1 as <- <-. intros [-> ->]%one_or_none_Ok. split; [done|].
  intros x Hx. apply head_select_Some in Hx as [Hin Hh%has_key_true]. done.
Qed.

Lemma refresh_session_Ok now token fresh d p d' : refresh_session JWT now token fresh d = (Ok p, d') ->
  exists t u, t ∈ refresh_tokens d /\ rt_token_hash t = hash_refresh_token token /\ (now <= rt_expires_at t)%Z
  /\ sql_find u_id (rt_user_id t) (users d) = Some u /\ u_is_active u = true
  /\ p = ((create_access_token JWT now (u_id u) (u_username u) (u_role u)).1, fresh)
  /\ existsb (fun x => negb (has_key rt_id (rt_id t) x) && has_key rt_token_hash (hash_refresh_token fresh) x) (refresh_tokens d) = false
  /\ d' = d <| refresh_tokens ::= fun l => (sql_update (has_key rt_id (rt_id t))
       (fun _ => t <| rt_token_hash := hash_refresh_token fresh |> <| rt_expires_at := (now + days REFRESH_TOKEN_EXPIRY_DAYS)%Z |>) l).1 |>.
Proof.
  unfold refresh_session. step_M record s1 H1. apply find_session_Ok in H1 as [-> Hr]. destruct record as [t|]; [|done].
  destruct (Hr t eq_refl) as [Hin Hh]. destruct (Z.ltb_spec (rt_expires_at t) now) as [|Hle]; [by unfold_M|].
  rewrite (bind_Ok _ _ _ _ _ (find_user_run _ d)). destruct (sql_find u_id (rt_user_id t) (users d)) as [u|] eqn:Eu; [|by unfold_M].
  destruct (u_is_active u) eqn:Ea; [|by unfold_M]. cbv zeta. step_M a s2 H2. intros [= <- <-]. exists t, u.
  do 6 (split; [done|]). revert H2. unfold write_token, get_accounts. unfold_M. cbn [rt_id rt_token_hash].
  destruct (existsb _ _) eqn:Ex; [done|]. intros [= _ <-]. split; [first [exact Ex|done]|done].
Qed.

(** *** The theorems *)

Lemma current_admins u d : current u d -> is_admin u = true -> (1 <= admins (users d))%Z.
Proof.
  intros [Hk Hf] Ha. apply sql_find_Some_1 in Hf as [(l1 & l2 & ->)%list_elem_of_split _]. unfold admins.
  rewrite count_middle, Ha. cbn. unfold sql_count. lia.
Qed.

Lemma edited_admins u0 u d l : current u0 d -> u_id u = u_id u0 -> l = row_set u (users d) ->
  (admins l + one (is_admin u0) = admins (users d) + one (is_admin u))%Z.
Proof. intros [Hk Hf] E ->. apply row_set_admins; [done|]. by rewrite E. Qed.

Lemma get_current_user_run now h d u d' : get_current_user JWT now h d = (Ok u, d') ->
  d' = d /\ u ∈ users d /\ u_is_active u = true.
Proof.
  unfold get_current_user. destruct h as [h|]; [|done]. destruct (startswith _ _); [|done].
  destruct (verify_access_token _ _ _) as [p|]; [|done]. rewrite (bind_Ok _ _ _ _ _ (find_user_run _ d)).
  destruct (sql_find _ _ _) as [x|] eqn:E; [|done]. destruct (u_is_active x) eqn:Ea; [|done]. intros [= -> <-].
  by destruct (sql_find_Some_1 _ _ _ _ E).
Qed.

Lemma handle_keeps_admin now rq h r d a d' : accounts_ok d -> (1 <= admins (users d))%Z ->
  handle_account BCRYPT JWT listed now rq h r d = (Ok a, d') -> (1 <= admins (users d'))%Z.
Proof.
  intros Hd H1. pose proof (ao_ids _ Hd) as Hk.
  destruct r as [username password ldap tid fresh|cookie|cookie fresh|id salt data|id data|id salt data|id]; cbn [handle_account].
  - step_M p s1 E. intros [= _ <-]. destruct (login_Ok _ _ _ _ _ _ _ _ _ _ Hk E) as (u0 & u & Hc & Hid & Hu & Ha & _).
    pose proof (edited_admins _ _ _ _ Hc Hid Hu) as H. rewrite Ha in H. lia.
  - unfold logout. destruct cookie as [t|]; [|by intros [= _ <-]]. destruct (String.eqb t ""); [by intros [= _ <-]|].
    step_M r s1 E. apply find_session_Ok in E as [-> _]. destruct r; by intros [= _ <-].
  - step_M p s1 E. intros [= _ <-]. revert E. unfold refresh_tokens_route. destruct cookie as [t|]; [|done].
    destruct (String.eqb t ""); [done|]. intros (t' & u & _ & _ & _ & _ & _ & _ & _ & ->)%refresh_session_Ok. done.
  - step_M cu s1 E1. apply get_current_user_run in E1 as [-> _]. step_M u s2 E2. intros [= _ <-].
    apply create_user_Ok in E2 as (_ & -> & _). unfold admins, sql_count, sql_select in *. rewrite List.filter_app, length_app. lia.
  - step_M cu s1 E1. apply get_current_user_run in E1 as [-> _]. step_M u s2 E2. intros [= _ <-].
    destruct (update_user_Ok _ _ _ _ _ _ _ Hk E2) as (u0 & Hc & _ & He & Hl & _).
    pose proof (edited_admins _ _ _ _ Hc (ed_id _ _ _ _ He) (ed_users _ _ _ _ He)) as H.
    destruct (is_admin u0), (is_admin u); cbn in H; lia.
  - step_M cu s1 E1. apply get_current_user_run in E1 as [-> _]. intros E2.
    destruct (change_password_Ok _ _ _ _ _ _ _ Hk E2) as (u0 & Hc & _ & Hu & _).
    set (u1 := u0 <| u_password_hash := _ |>) in Hu. assert (u_id u1 = u_id u0 /\ is_admin u1 = is_admin u0) as [Ei Ea] by done.
    pose proof (edited_admins u0 u1 _ _ Hc Ei Hu) as H. rewrite Ea in H. lia.
  - step_M cu s1 E1. apply get_current_user_run in E1 as [-> _]. intros (_ & _ & u & Hf & Hu & _ & Hl)%delete_user_Ok.
    apply sql_find_Some_1 in Hf as [Hin <-]. destruct (delete_key_split u_id _ _ Hk Hin) as (l1 & l2 & E1 & E2).
    rewrite Hu, E2. rewrite E1 in H1, Hl. unfold admins in *. rewrite count_middle in H1, Hl.
    destruct (is_admin u); cbn in *; [|lia]. specialize (Hl eq_refl). lia.
Qed.

(** There is always an administrator, over any logins, sessions and requests on users. *)
Theorem an_admin_remains xs d : accounts_ok d -> (1 <= admins (users d))%Z -> (1 <= admins (users (ran xs d)))%Z.
Proof.
  unfold run_accounts. revert d. induction xs as [|x xs IH]; intros d Hd H1; [done|]. cbn.
  pose proof (run_accounts_ok [x] d Hd) as Hd'. unfold run_accounts in Hd'. cbn in Hd'. apply IH; [done|]. clear IH Hd'.
  unfold serve_account, with_db. destruct (handle_account _ _ _ _ _ _ _ d) as [[a|e] d'] eqn:E; [|done].
  by eapply handle_keeps_admin.
Qed.

(** Requests that need a user. *)
Definition manages (r : account_request) : bool :=
  match r with CreateUser _ _ _ | UpdateUser _ _ | ChangePassword _ _ _ | DeleteUser _ => true | _ => false end.

(** The address an update leaves. *)
Definition new_email (data : UserUpdate) (u : User) : option string :=
  match uu_email data with Some e => if String.eqb e "" then None else Some e | None => u_email u end.

(** All that somebody without the role may change: of the own row the address, and the password with the
    old one, which closes the own sessions.  Every other column, row and table is as before; an update
    adds at most one entry to the audit log. *)
Inductive own_change (cu : User) (d : AccountsDB) : account_request -> AccountsDB -> Prop :=
| own_nothing r : own_change cu d r d
| own_address data u entries :
    sql_find u_id (u_id cu) (users d) = Some u -> (length entries <= 1)%nat ->
    own_change cu d (UpdateUser (u_id cu) data)
      (d <| users := row_set (u <| u_email := new_email data u |>) (users d) |>
         <| audit_logs := (audit_logs d ++ entries)%list |>)
| own_password salt data u p :
    sql_find u_id (u_id cu) (users d) = Some u ->
    pc_current_password data = Some p -> verify_password BCRYPT p (u_password_hash u) = true ->
    own_change cu d (ChangePassword (u_id cu) salt data)
      (d <| users := row_set (u <| u_password_hash := hash_password BCRYPT salt (pc_new_password data) |>) (users d) |>
         <| refresh_tokens := (sql_delete (has_key rt_user_id (u_id cu)) (refresh_tokens d)).1 |>).

Lemma update_email_written u e d u' d' : current u d -> update_email u e d = (Ok u', d') ->
  u' = u <| u_email := match e with Some e => if String.eqb e "" then None else Some e | None => u_email u end |>
  /\ d' = d <| users := row_set u' (users d) |>.
Proof.
  intros [Hk Hf]. unfold update_email. destruct e as [e|].
  - step_M a s1 H1. apply check_email_Ok in H1 as ->. cbv zeta. step_M b s2 H2. apply write_user_Ok in H2 as [-> _].
    by intros [= <- <-].
  - intros [= <- <-]. assert (u <| u_email := u_email u |> = u) as E by by destruct u. rewrite E. split; [done|].
    rewrite row_set_self by done. by destruct d.
Qed.

Lemma update_user_own rq id data cu d u' d' : keys_unique u_id (users d) -> is_admin cu = false ->
  update_user listed rq id data cu d = (Ok u', d') -> own_change cu d (UpdateUser id data) d'.
Proof.
  intros Hk Ha. unfold update_user. cbv zeta. rewrite Ha. step_M a s1 H1. apply check_Ok in H1 as [Hself ->].
  rewrite orb_false_r in Hself. apply String.eqb_eq in Hself as <-.
  step_M u s2 H2. apply need_user_Ok in H2 as (-> & Hf & Hid). assert (current u d) as Hc by (split; [done|by rewrite Hid]).
  step_M a3 s3 H3. apply check_Ok in H3 as [_ ->]. step_M u1 s4 H4. apply update_email_written in H4 as [-> ->]; [|done].
  step_M u2 s5 H5. injection H5 as <- <-. step_M a6 s6 H6. intros [= _ <-].
  destruct (updated_fields false data); injection H6 as _ <-.
  - pose proof (own_address cu d data u [] Hf) as H. unfold set in *. cbn in *. rewrite app_nil_r in H. apply H. lia.
  - apply (own_address cu d data u [_]); [done|cbn; lia].
Qed.

Lemma change_password_own id salt data cu d a d' : keys_unique u_id (users d) -> is_admin cu = false ->
  change_password BCRYPT id salt data cu d = (Ok a, d') -> own_change cu d (ChangePassword id salt data) d'.
Proof.
  intros Hk Ha H. destruct (change_password_Ok _ _ _ _ _ _ _ Hk H) as (u & [_ Hf] & Hid & _ & _ & Hn).
  destruct (Hn Ha) as [<- (p & Hp & Hv)]. rewrite Hid in Hf. revert H. unfold change_password. cbv zeta.
  step_M a1 s1 H1. apply check_Ok in H1 as [_ ->]. step_M u1 s2 H2. apply need_user_Ok in H2 as (-> & Hf1 & _).
  assert (u1 = u) as -> by congruence. step_M a3 s3 H3. step_M a4 s4 H4. unfold check_password in H4. apply check_Ok in H4 as [_ ->].
  step_M a5 s5 H5. apply write_user_Ok in H5 as [-> _]. intros [= _ <-]. assert (s3 = d) as ->; [|by eapply own_password].
  rewrite String.eqb_refl, Ha, Hp in H3. cbn [andb negb] in H3. revert H3. step_M a6 s6 H6. apply check_Ok in H6 as [_ ->].
  by intros [_ ->]%check_Ok.
Qed.


(** ** Guessing *)

(** A wrong guess at a time, from somewhere. *)
Definition wrong_guess (u : User) (x : Call * account_request) : Prop :=
  exists p tid fresh, x.2 = Login (u_username u) p None tid fresh /\ verify_password BCRYPT p (u_password_hash u) = false.

Lemma wrong_guess_serve u d x : accounts_ok d -> u ∈ users d -> wrong_guess u x -> served d x = d.
Proof.
  intros Hd Hu (p & tid & fresh & Hx & Hv). unfold serve_account, with_db. rewrite Hx. cbn [handle_account].
  destruct (login BCRYPT JWT (at_time x.1) (state_of x.1) (u_username u) p None tid fresh d) as [[a|e] d'] eqn:E; [|by rewrite (bind_Err _ _ _ _ _ E)].
  destruct (login_Ok _ _ _ _ _ _ _ _ _ _ (ao_ids _ Hd) E) as (u0 & u1 & Hc & _ & _ & _ & Hp).
  destruct (Hp eq_refl) as [Hn Hok]. assert (u0 = u) as ->; [|congruence].
  apply (key_elem_inj u_username (users d)); [apply Hd|by destruct (sql_find_Some_1 _ _ _ _ (proj2 Hc))|done|done].
Qed.

(** A row that keeps its unique columns can be written. *)
Lemma write_user_same u u' d : accounts_ok d -> u ∈ users d -> u_id u' = u_id u -> u_username u' = u_username u ->
  u_email u' = u_email u -> write_user u' d = (Ok tt, put_user u' d).
Proof.
  intros Hd Hu Hid Hn He. unfold write_user, get_accounts. unfold_M. destruct (existsb _ _) eqn:Ex; [|done].
  apply existsb_exists in Ex as (x & Hx%list_elem_of_In & [Hne%negb_true_iff%has_key_false Hc]%andb_true_iff).
  apply not_false_iff_true in Hc. destruct Hc. rewrite Hid in Hne. apply clashes_false. rewrite Hn, He. split.
  - intros E. apply Hne. f_equal. by apply (key_elem_inj u_username (users d)); [apply Hd|..].
  - intros e Eu Hxe. apply Hne. f_equal. pose proof (ao_emails _ Hd) as Hnd.
    apply list_elem_of_split in Hu as (l1 & l2 & E). rewrite E in Hx, Hnd. unfold emails in Hnd. rewrite omap_app in Hnd. cbn in Hnd.
    rewrite Eu in Hnd. apply NoDup_app in Hnd as (_ & H1 & [H2 _]%NoDup_cons).
    apply elem_of_app in Hx as [Hx|[->|Hx]%elem_of_cons]; [|done|].
    + destruct (H1 e); [apply elem_of_emails; by exists x|by left].
    + destruct H2. apply elem_of_emails. by exists x.
Qed.

(** a local account is never locked by wrong passwords: after any number of them, at any times, nothing
    has changed, and the right one is accepted. *)
Theorem guessing_is_never_locked_out u p xs d now rq tid fresh : accounts_ok d -> u ∈ users d ->
  u_auth_source u ≠ "ldap" -> u_is_active u = true -> u_locked_until u = None ->
  verify_password BCRYPT p (u_password_hash u) = true -> Forall (wrong_guess u) xs ->
  tid ∉ rt_id <$> refresh_tokens d -> hash_refresh_token fresh ∉ rt_token_hash <$> refresh_tokens d ->
  ran xs d = d /\ is_ok (login BCRYPT JWT now rq (u_username u) p None tid fresh d).1 = true.
Proof.
  intros Hd Hu Hs Ha Hl Hv Hxs Htid Hfresh. split.
  - unfold run_accounts. induction Hxs as [|x xs Hx _ IH]; [done|]. cbn. by rewrite (wrong_guess_serve u).
  - unfold login, local_login, get_accounts, one_or_none. unfold_M. rewrite (select_key u_username _ _ (ao_names _ Hd) Hu).
    rewrite (proj2 (String.eqb_neq _ _) Hs), Hl, Ha, Hv. cbn [negb]. cbv zeta.
    set (u' := u <| u_failed_login_attempts := 0%Z |> <| u_locked_until := None |> <| u_last_login_at := Some now |>).
    rewrite (write_user_same u u') by done. unfold insert_token, sql_insert, get_accounts. unfold_M.
    cbn -[sql_find existsb has_key pretty]. rewrite (proj2 (sql_find_None rt_id _ _) Htid).
    destruct (existsb _ _) eqn:Ex; [|done]. apply existsb_exists in Ex as (x & Hx%list_elem_of_In & Hh%has_key_true).
    destruct Hfresh. rewrite <- Hh. by apply list_elem_of_fmap_2.
Qed.

(** ** Sessions *)

Lemma find_session_None t d : hash_refresh_token t ∉ rt_token_hash <$> refresh_tokens d -> find_session t d = (Ok None, d).
Proof.
  intros H. unfold find_session, get_accounts, one_or_none. unfold_M.
  destruct (sql_select _ (refresh_tokens d)) as [|x l] eqn:E; [done|].
  assert (x ∈ sql_select (has_key rt_token_hash (hash_refresh_token t)) (refresh_tokens d)) as [Hx Hk%has_key_true]%elem_of_sql_select
    by (rewrite E; by left).
  destruct H. rewrite <- Hk. by apply list_elem_of_fmap_2.
Qed.

Lemma find_session_Some t x d : accounts_ok d -> x ∈ refresh_tokens d -> rt_token_hash x = hash_refresh_token t ->
  find_session t d = (Ok (Some x), d).
Proof.
  intros Hd Hx Hh. unfold find_session, get_accounts. unfold_M. unfold one_or_none. unfold_M.
  rewrite <- Hh. by rewrite (select_key rt_token_hash _ _ (ao_tokens _ Hd) Hx).
Qed.

Lemma write_token_fresh t d : (rt_token_hash t ∉ rt_token_hash <$> refresh_tokens d) ->
  write_token t d = (Ok tt, d <| refresh_tokens ::= fun l => (sql_update (has_key rt_id (rt_id t)) (fun _ => t) l).1 |>).
Proof.
  intros H. unfold write_token, get_accounts. unfold_M. destruct (existsb _ _) eqn:Ex; [|done].
  apply existsb_exists in Ex as (x & Hx%list_elem_of_In & [_ Hk%has_key_true]%andb_true_iff). destruct H. rewrite <- Hk.
  by apply list_elem_of_fmap_2.
Qed.

(** C21: refreshing replaces the token of one session and nothing else: the row keeps its id and its user,
    who is active, and the access token returned is that user's; the old token is worth nothing from then
    on, and the new one renews the session of the same user for seven days. *)
Theorem refreshing_rotates_tokens now token fresh d p d' : accounts_ok d ->
  hash_refresh_token fresh ≠ hash_refresh_token token -> refresh_session JWT now token fresh d = (Ok p, d') ->
  (forall now' f, refresh_session JWT now' token f d' = (Err (HTTPException 401 "Invalid refresh token"), d'))
  /\ exists s u, s ∈ refresh_tokens d /\ rt_token_hash s = hash_refresh_token token
     /\ sql_find u_id (rt_user_id s) (users d) = Some u /\ u_is_active u = true
     /\ p = ((create_access_token JWT now (u_id u) (u_username u) (u_role u)).1, fresh)
     /\ d' = d <| refresh_tokens ::= fun l => (sql_update (has_key rt_id (rt_id s)) (fun _ =>
               s <| rt_token_hash := hash_refresh_token fresh |>
                 <| rt_expires_at := (now + days REFRESH_TOKEN_EXPIRY_DAYS)%Z |>) l).1 |>
     /\ forall now' f, (now' <= now + days REFRESH_TOKEN_EXPIRY_DAYS)%Z ->
          hash_refresh_token f ∉ rt_token_hash <$> refresh_tokens d' ->
          exists d'', refresh_session JWT now' fresh f d'
                      = (Ok ((create_access_token JWT now' (u_id u) (u_username u) (u_role u)).1, f), d'').
Proof.
  intros Hd Hne H. apply refresh_session_Ok in H as (t & u & Hin & Hh & Hexp & Hu & Ha & Ep & Hfree & Ed').
  assert (accounts_ok d') as Hok.
  { rewrite Ed'. pose proof (keeps_write_token (t <| rt_token_hash := hash_refresh_token fresh |>
      <| rt_expires_at := (now + days REFRESH_TOKEN_EXPIRY_DAYS)%Z |>) d Hd) as H. unfold write_token, get_accounts in H. unfold_M.
    cbn -[existsb sql_update has_key] in H. rewrite Hfree in H. exact H. }
  set (t' := t <| rt_token_hash := hash_refresh_token fresh |> <| rt_expires_at := _ |>) in *.
  assert (users d' = users d) as Eu by (by rewrite Ed').
  assert (forall x, x ∈ refresh_tokens d' -> x = t' \/ (x ∈ refresh_tokens d /\ rt_id x ≠ rt_id t)) as Hrows.
  { intros x. rewrite Ed'. cbn -[sql_update]. intros (y & Hy & ->)%elem_of_update.
    destruct (has_key rt_id (rt_id t) y) eqn:E; [by left|right]. by apply has_key_false in E. }
  assert (t' ∈ refresh_tokens d') as Ht'.
  { rewrite Ed'. cbn -[sql_update]. apply elem_of_update. exists t. by rewrite (proj2 (has_key_true rt_id _ t)). }
  split.
  - intros now' f. unfold refresh_session. rewrite (bind_Ok _ _ d' None d'); [done|]. apply find_session_None.
    intros (x & Ex & Hx)%list_elem_of_fmap. destruct (Hrows x Hx) as [->|[Hx' Hid]]; [by apply Hne|].
    apply Hid. f_equal. apply (key_elem_inj rt_token_hash (refresh_tokens d)); [apply Hd|done|done|congruence].
  - exists t, u. do 6 (split; [done|]). apply sql_find_Some_1 in Hu as [Hu Hid]. intros now' f Hle Hf.
    unfold refresh_session. rewrite (bind_Ok _ _ _ _ _ (find_session_Some fresh t' d' Hok Ht' eq_refl)).
    assert ((rt_expires_at t' <? now')%Z = false) as -> by (apply Z.ltb_ge; exact Hle).
    rewrite (bind_Ok _ _ _ _ _ (find_user_run _ d')). rewrite Eu. change (rt_user_id t') with (rt_user_id t).
    rewrite (sql_find_Some u_id (users d) _ u (ao_ids _ Hd) Hu Hid), Ha. cbv zeta.
    erewrite bind_Ok; [by eexists|]. apply write_token_fresh. exact Hf.
Qed.

(** *** Access tokens *)

Definition no_colon (s : string) : bool := str_forall (fun c => negb (Ascii.eqb ":" c)) s.

Lemma pretty_no_colon (z : Z) : no_colon (pretty z) = true.
Proof. apply pretty_Z_forall; [|done]. intros n. unfold pretty_N_char. by repeat case_match. Qed.

(** What a token lives: to the whole second, the last one included where there is no JWT. *)
Definition token_alive (now now' : Z) : bool :=
  let exp := seconds (now + minutes ACCESS_TOKEN_EXPIRY_MINUTES) in
  if JWT then (seconds now <=? now')%Z && (now' <? exp)%Z else (now' <=? exp)%Z.

Lemma verify_created now now' id name role : (0 <= now)%Z ->
  (JWT = false -> no_colon id = true /\ no_colon name = true /\ no_colon role = true) ->
  verify_access_token JWT now' (create_access_token JWT now id name role).1
  = if token_alive now now' then Some {| pl_sub := id; pl_username := name; pl_role := role |} else None.
Proof.
  intros Hpos Hc. unfold verify_access_token, create_access_token, token_alive. cbv zeta. destruct JWT; cbn [fst].
  - apply jwt_decode_encode.
  - destruct (Hc eq_refl) as (H1 & H2 & H3). set (t := pretty _).
    change (id ++ ":" ++ name ++ ":" ++ role ++ ":" ++ t) with (PyStr.join ":" [id; name; role; t]).
    rewrite split_on_join; [|done|by repeat constructor; [..|apply pretty_no_colon]]. unfold t.
    rewrite py_int_pretty by (apply Z.div_pos; unfold minutes, ACCESS_TOKEN_EXPIRY_MINUTES; lia).
    fold (seconds (now + minutes ACCESS_TOKEN_EXPIRY_MINUTES)). destruct (Z.ltb_spec (seconds (now + minutes ACCESS_TOKEN_EXPIRY_MINUTES)) now');
      [rewrite (proj2 (Z.leb_gt _ _))|rewrite (proj2 (Z.leb_le _ _))]; done.
Qed.

(** An access token identifies the user it was made for, for as long as it lives and the account is
    active, and nobody before and after. *)
Theorem access_token_identifies now now' u d : accounts_ok d -> u ∈ users d -> (0 <= now)%Z ->
  (JWT = false -> no_colon (u_id u) = true /\ no_colon (u_username u) = true /\ no_colon (u_role u) = true) ->
  get_current_user JWT now' (Some ("Bearer " ++ (create_access_token JWT now (u_id u) (u_username u) (u_role u)).1)) d
  = (if token_alive now now' then
       if u_is_active u then Ok u else Err (HTTPException 401 "Account disabled")
     else Err (HTTPException 401 "Invalid or expired token"), d).
Proof.
  intros Hd Hu Hpos Hc. unfold get_current_user. rewrite startswith_app.
  rewrite (str_drop_app "Bearer " _ : str_drop 7 _ = _), (verify_created _ _ _ _ _ Hpos Hc).
  destruct (token_alive now now'); [|done]. cbn [pl_sub]. rewrite (bind_Ok _ _ _ _ _ (find_user_run _ d)).
  rewrite (sql_find_Some u_id (users d) _ u (ao_ids _ Hd) Hu eq_refl). by destruct (u_is_active u).
Qed.

(** *** Passwords *)

Lemma verify_hashed salt p : verify_password BCRYPT p (hash_password BCRYPT salt p) = true.
Proof.
  unfold verify_password, hash_password. destruct BCRYPT; cbn [andb]; [by rewrite bcrypt_prefix, bcrypt_accepts|apply String.eqb_refl].
Qed.

(** A new password is accepted from then on, it ends the user's sessions (none of their refresh tokens
    is worth anything any more) and nobody else's, and touches no other account. *)
Theorem password_change_ends_sessions cu id salt data d a d' : accounts_ok d ->
  change_password BCRYPT id salt data cu d = (Ok a, d') ->
  (exists u, sql_find u_id id (users d') = Some u /\ verify_password BCRYPT (pc_new_password data) (u_password_hash u) = true)
  /\ (forall now token fresh t, t ∈ refresh_tokens d -> rt_user_id t = id -> rt_token_hash t = hash_refresh_token token ->
        refresh_session JWT now token fresh d' = (Err (HTTPException 401 "Invalid refresh token"), d'))
  /\ (forall t, rt_user_id t ≠ id -> t ∈ refresh_tokens d' <-> t ∈ refresh_tokens d)
  /\ forall u, u_id u ≠ id -> u ∈ users d' <-> u ∈ users d.
Proof.
  intros Hd H. destruct (change_password_Ok _ _ _ _ _ _ _ (ao_ids _ Hd) H) as (u & Hc & Hid & Hu & Ht & _).
  assert (forall t, t ∈ refresh_tokens d' <-> t ∈ refresh_tokens d /\ rt_user_id t ≠ id) as Hrows.
  { intros t. rewrite Ht, elem_of_delete, has_key_false. done. }
  set (u' := u <| u_password_hash := _ |>) in Hu. destruct (row_set_split u u' (users d) (ao_ids _ Hd)) as (l1 & l2 & E1 & E2); [apply Hc|].
  split; [|split; [|split]].
  - exists u'. split; [|apply verify_hashed]. rewrite Hu. apply sql_find_Some; [|rewrite E2; apply elem_of_app; right; by left|done].
    pose proof (ao_ids _ Hd) as Hk. rewrite E2. rewrite E1 in Hk. unfold keys_unique in *. by rewrite fmap_app, fmap_cons in *.
  - intros now token fresh t Hin Ho Hh. unfold refresh_session. rewrite (bind_Ok _ _ d' None d'); [done|]. apply find_session_None.
    intros (x & Ex & [Hx Hne]%Hrows)%list_elem_of_fmap. apply Hne.
    assert (x = t) as ->; [|done]. apply (key_elem_inj rt_token_hash (refresh_tokens d)); [apply Hd|done|done|congruence].
  - intros t Hne. rewrite Hrows. by intuition.
  - intros x Hne. rewrite Hu, E2, E1, !elem_of_app, !elem_of_cons. split; (intros [?|[->|?]]; [by left|done|by right; right]).
Qed.

End Theorems.

(** ** The groups of a directory *)

Definition mapped_to (d : AccountsDB) (g : string) (P : string -> Prop) : Prop :=
  exists r dn, r ∈ user_groups d /\ ug_id r = g /\ ug_ldap_group_dn r = Some dn /\ P dn.

Lemma in_list_spec l s : in_list l s = true <-> s ∈ l.
Proof.
  unfold in_list. rewrite existsb_exists. split; [intros (x & Hx%list_elem_of_In & ->%String.eqb_eq); done|].
  intros H. exists s. by rewrite <- list_elem_of_In, String.eqb_refl.
Qed.

Lemma wanted_groups_spec gs d g : g ∈ wanted_groups gs d <-> mapped_to d g (fun dn => dn ∈ gs).
Proof.
  unfold wanted_groups, mapped_groups. setoid_rewrite list_elem_of_fmap. split.
  - intros (r & -> & [[Hr _]%elem_of_sql_select H]%elem_of_sql_select). destruct (ug_ldap_group_dn r) as [dn|] eqn:E; [|done].
    exists r, dn. rewrite <- in_list_spec. done.
  - intros (r & dn & Hr & <- & E & H). exists r. split; [done|]. apply elem_of_sql_select. rewrite E, in_list_spec.
    split; [|done]. apply elem_of_sql_select. by rewrite E.
Qed.

Lemma mapped_groups_spec d g : g ∈ map ug_id (mapped_groups d) <-> mapped_to d g (fun _ => True).
Proof.
  unfold mapped_groups. setoid_rewrite list_elem_of_fmap. split.
  - intros (r & -> & [Hr H]%elem_of_sql_select). destruct (ug_ldap_group_dn r) as [dn|] eqn:E; [|done]. by exists r, dn.
  - intros (r & dn & Hr & <- & E & _). exists r. split; [done|]. apply elem_of_sql_select. by rewrite E.
Qed.

Lemma in_list_false l s : in_list l s = false <-> s ∉ l.
Proof. rewrite <- not_true_iff_false, in_list_spec. done. Qed.

Lemma elem_of_memberships (g u : string) l : g ∈ map fst (List.filter (fun m : string * string => String.eqb m.2 u) l) <-> (g, u) ∈ l.
Proof.
  setoid_rewrite list_elem_of_fmap. split.
  - intros ([g' u'] & -> & [H E%String.eqb_eq]%elem_of_sql_select). cbn in *. by subst.
  - intros H. exists (g, u). split; [done|]. apply elem_of_sql_select. cbn. by rewrite String.eqb_refl.
Qed.

(** The memberships after a synchronisation. *)
Definition synchronised (d : AccountsDB) (user : User) (gs : list string) (g u : string) : Prop :=
  (g, u) ∈ group_members d /\ (u = u_id user -> ~ mapped_to d g (fun _ => True))
  \/ u = u_id user /\ mapped_to d g (fun dn => dn ∈ gs).

Lemma mapped_to_weaken d g P : mapped_to d g P -> mapped_to d g (fun _ => True).
Proof. intros (r & dn & H1 & H2 & H3 & _). by exists r, dn. Qed.

Lemma sync_run user gs d : exists stale missing,
  sync_user_groups user gs d = (Ok tt, d <| group_members := (List.filter (fun m => negb (stale m)) (group_members d)
                                                              ++ map (fun g => (g, u_id user)) missing)%list |>)
  /\ (forall g u, stale (g, u) = true <-> u = u_id user /\ mapped_to d g (fun _ => True) /\ ~ mapped_to d g (fun dn => dn ∈ gs))
  /\ (forall g, g ∈ missing <-> mapped_to d g (fun dn => dn ∈ gs) /\ (g, u_id user) ∉ group_members d)
  /\ (keys_unique ug_id (user_groups d) -> NoDup missing).
Proof.
  unfold sync_user_groups, get_accounts. unfold_M. cbv zeta. eexists _, _. split; [reflexivity|]. split; [|split].
  - intros g u. cbn [fst snd]. rewrite !andb_true_iff, String.eqb_eq, in_list_spec, mapped_groups_spec, negb_true_iff, in_list_false, wanted_groups_spec.
    tauto.
  - intros g. change (List.filter ?P ?l) with (sql_select P l) at 1. rewrite elem_of_sql_select, wanted_groups_spec, negb_true_iff, in_list_false.
    by setoid_rewrite elem_of_memberships.
  - intros Hk. eapply sublist_NoDup; [exact Hk|]. etrans; [apply filter_sublist|]. unfold wanted_groups, mapped_groups.
    apply fmap_sublist. etrans; apply filter_sublist.
Qed.

Lemma filter_everything {R} (P : R -> bool) l : (forall x, x ∈ l -> P x = true) -> List.filter P l = l.
Proof.
  induction l as [|x l IH]; [done|]. intros H. cbn. rewrite H by (by left). f_equal. apply IH. intros y Hy. apply H. by right.
Qed.

Lemma set_members d l : group_members (d <| group_members := l |>) = l.
Proof. done. Qed.

Lemma mapped_or_not d g (gs : list string) : mapped_to d g (fun dn => dn ∈ gs) \/ ~ mapped_to d g (fun dn => dn ∈ gs).
Proof. rewrite <- wanted_groups_spec. destruct (decide (g ∈ wanted_groups gs d)); auto. Qed.

Lemma sync_members user (gs : list string) d g u : (g, u) ∈ group_members (sync_user_groups user gs d).2 <-> synchronised d user gs g u.
Proof.
  destruct (sync_run user gs d) as (stale & missing & -> & Hs & Hm & _). cbn [snd].
  rewrite set_members, elem_of_app. setoid_rewrite list_elem_of_fmap. change (List.filter ?P ?l) with (sql_select P l).
  rewrite elem_of_sql_select, negb_true_iff, <- not_true_iff_false, Hs. unfold synchronised.
  pose proof (mapped_to_weaken d g (fun dn => dn ∈ gs)) as Hw. split.
  - intros [[Hin Hn]|(g' & [= -> ->] & [Hg' _]%Hm)]; [|by right].
    destruct (decide (u = u_id user)) as [->|Hne]; [|left; done].
    destruct (mapped_or_not d g gs); [by right; split|left; split; [done|tauto]].
  - intros [[Hin Hn]|[-> Hg]]; [left; tauto|]. destruct (decide ((g, u_id user) ∈ group_members d)); [left; tauto|].
    right. exists g. rewrite Hm. done.
Qed.

(** A synchronisation leaves the user in exactly the mapped groups that the directory names, leaves
    every other membership as it is, adds none twice, and a second one changes nothing. *)
Theorem ldap_groups_are_synchronised user gs d :
  let d' := (sync_user_groups user gs d).2 in
  (forall g u, (g, u) ∈ group_members d' <-> synchronised d user gs g u)
  /\ (keys_unique ug_id (user_groups d) -> NoDup (group_members d) -> NoDup (group_members d'))
  /\ sync_user_groups user gs d' = (Ok tt, d').
Proof.
  intros d'. split; [apply sync_members|].
  assert (user_groups d' = user_groups d) as Eg by (unfold d'; by destruct (sync_run user gs d) as (? & ? & -> & _)).
  assert (forall g P, mapped_to d' g P <-> mapped_to d g P) as Hmap by (intros; unfold mapped_to; by rewrite Eg). split.
  - unfold d'. destruct (sync_run user gs d) as (stale & missing & -> & Hs & Hm & Hnd). intros Hk Hn. cbn [snd]. rewrite set_members.
    apply NoDup_app. split; [eapply sublist_NoDup; [exact Hn|apply filter_sublist]|]. split.
    + intros [g u] [Hin _]%elem_of_sql_select (g' & [= -> ->] & [_ H]%Hm)%list_elem_of_fmap. done.
    + apply NoDup_fmap_2; [by intros ?? [= ->]|auto].
  - destruct (sync_run user gs d') as (stale & missing & -> & Hs & Hm & _). f_equal.
    assert (missing = []) as ->.
    { destruct missing as [|g l]; [done|]. exfalso. destruct (proj1 (Hm g)) as [H1 H2]; [by left|]. apply H2, sync_members.
      right. split; [done|]. by apply Hmap. }
    cbn [map]. rewrite app_nil_r, (filter_everything _ (group_members d')); [by destruct d'|]. intros [g u] Hin. apply negb_true_iff, not_true_iff_false. rewrite Hs. intros (-> & H1 & H2).
    rewrite Hmap in H1, H2. apply sync_members in Hin as [[_ H3]|[_ H3]]; [by apply H3|done].
Qed.

(** ** A cryptography with the laws *)

Fixpoint string_of_positive (p : positive) : string :=
  match p with xH => "" | xO p => String "0" (string_of_positive p) | xI p => String "1" (string_of_positive p) end.
Fixpoint positive_of_string (s : string) : positive :=
  match s with
  | EmptyString => xH
  | String c s => if Ascii.eqb c "1" then xI (positive_of_string s) else xO (positive_of_string s)
  end.

Lemma positive_string p : positive_of_string (string_of_positive p) = p.
Proof. by induction p as [p IH|p IH|]; cbn; rewrite ?IH. Qed.

#[export] Instance toy_crypto : Crypto := {|
  bcrypt_hash salt p := "$2" ++ p;
  bcrypt_check p h := String.eqb h ("$2" ++ p);
  sha256_hex s := "#" ++ s;
  jwt_encode p iat exp := "ey" ++ string_of_positive (countable.encode (pl_sub p, pl_username p, pl_role p, iat, exp));
  jwt_decode now t :=
    if startswith "ey" t then
      match countable.decode (positive_of_string (str_drop 2 t)) with
      | Some (s, u, r, iat, exp) =>
          if (seconds iat <=? now)%Z && (now <? seconds exp)%Z then Some {| pl_sub := s; pl_username := u; pl_role := r |} else None
      | None => None
      end
    else None
|}.

#[export] Instance toy_crypto_laws : CryptoLaws (C := toy_crypto).
Proof.
  split; intros; cbn [bcrypt_hash bcrypt_check jwt_encode jwt_decode toy_crypto].
  - apply startswith_app.
  - apply String.eqb_refl.
  - rewrite startswith_app, (str_drop_app "ey" _ : str_drop 2 _ = _), positive_string, countable.decode_encode. by destruct p.
  - done.
Qed.

(** ** Concrete accounts *)

Definition root_user : User := new_user "1" "root" None "$2correct" "admin" 0.
Definition eve_user : User := new_user "2" "eve" (Some "eve@x") "$2evil1234" "viewer" 0.
Definition one_session : RefreshToken := {| rt_id := "t1"; rt_user_id := "2"; rt_token_hash := "#old"; rt_expires_at := days 7 |}.
Definition accounts0 : AccountsDB :=
  {| users := [root_user; eve_user]; refresh_tokens := [one_session]; api_keys := []; roles := []; permissions := [];
     role_permissions := []; user_groups := [{| ug_id := "g"; ug_name := "ops"; ug_description := None;
                                                ug_requires_approval := false; ug_ldap_group_dn := Some "cn=ops" |}];
     group_members := []; group_roles := []; group_device_groups := []; group_tags := []; group_nodes := []; audit_logs := [] |}.
Definition nobody : RequestState :=
  {| st_user_id := None; st_username := None; st_role := None; st_auth_method := None; st_user := None; client_host := None |}.
Definition call0 (h : option string) : Call := {| at_time := 0; state_of := nobody; header := h |}.
Definition no_list (l : list string) : string := "".

Lemma accounts0_ok : accounts_ok accounts0.
Proof. constructor; apply (bool_decide_unpack _); by vm_compute. Qed.

(** The header of somebody who has just logged in. *)
Definition bearer (u : User) : option string := Some ("Bearer " ++ (create_access_token true 0 (u_id u) (u_username u) (u_role u)).1).

Example eve_is_seen : get_current_user true 0 (bearer eve_user) accounts0 = (Ok eve_user, accounts0).
Proof. vm_compute. reflexivity. Qed.

Example a_demotion_by_eve : (handle_account true true no_list 0 nobody (bearer eve_user)
    (UpdateUser "2" {| uu_email := None; uu_role := Some "admin"; uu_is_active := None |}) accounts0).1
  = Err (HTTPException 403 "Only admins can change role or status").
Proof. vm_compute. reflexivity. Qed.

Lemma an_admin_remains_witness :
  (1 <= admins (users (run_accounts true true no_list [(call0 (bearer root_user), DeleteUser "1");
     (call0 (bearer root_user), UpdateUser "1" {| uu_email := None; uu_role := Some "viewer"; uu_is_active := None |})] accounts0)))%Z.
Proof. apply an_admin_remains; [exact accounts0_ok|by vm_compute]. Defined.

Definition new_address : UserUpdate := {| uu_email := Some "eve@example.org"; uu_role := None; uu_is_active := None |}.


Definition guess (p : string) : Call * account_request := (call0 None, Login "eve" p None "t2" "new").

Lemma guessing_is_never_locked_out_witness :
  run_accounts true true no_list (replicate 10 (guess "wrong")) accounts0 = accounts0
  /\ is_ok (login true true 0 nobody "eve" "evil1234" None "t2" "new" accounts0).1 = true.
Proof.
  apply (guessing_is_never_locked_out true true no_list eve_user "evil1234"); try by vm_compute.
  - exact accounts0_ok.
  - right. by left.
  - apply Forall_replicate. by exists "wrong", "t2", "new".
  - apply (bool_decide_unpack _). by vm_compute.
  - apply (bool_decide_unpack _). by vm_compute.
Defined.

Lemma refreshing_rotates_tokens_witness : exists d',
  refresh_session true 5 "old" "new" accounts0 = (Ok ((create_access_token true 5 "2" "eve" "viewer").1, "new"), d')
  /\ refresh_session true 6 "old" "newer" d' = (Err (HTTPException 401 "Invalid refresh token"), d').
Proof.
  eexists. split; [by vm_compute|]. eapply (refreshing_rotates_tokens true 5 "old" "new" accounts0); [exact accounts0_ok|done|].
  by vm_compute.
Defined.

Lemma access_token_identifies_witness : get_current_user true 5 (bearer eve_user) accounts0 = (Ok eve_user, accounts0).
Proof.
  etransitivity; [apply (access_token_identifies true 0 5 eve_user accounts0); [exact accounts0_ok|by right; left|lia|done]|].
  by vm_compute.
Defined.

Lemma password_change_ends_sessions_witness : exists d',
  change_password true "2" "salt" {| pc_current_password := Some "evil1234"; pc_new_password := "longer than before" |} eve_user accounts0
    = (Ok tt, d')
  /\ refresh_session true 6 "old" "newer" d' = (Err (HTTPException 401 "Invalid refresh token"), d').
Proof.
  eexists. split; [by vm_compute|].
  eapply (password_change_ends_sessions true true eve_user "2" "salt" {| pc_current_password := Some "evil1234"; pc_new_password := "longer than before" |});
    [exact accounts0_ok|by vm_compute|by left|done|done].
Defined.

Lemma ldap_groups_are_synchronised_witness : ("g", "2") ∈ group_members (sync_user_groups eve_user ["cn=ops"] accounts0).2.
Proof.
  apply (ldap_groups_are_synchronised eve_user ["cn=ops"] accounts0). right. split; [done|].
  eexists _, "cn=ops". split; [by left|]. repeat split. by left.
Defined.
