(* ===== verification/Access.v ===== *)
(** * Access: the middleware, permissions, roles, groups and API keys

    [api/middleware/auth.py], [api/dependencies/auth.py], [utils/api_keys.py],
    [api/routes/roles.py], [api/routes/user_groups.py] and
    [api/routes/service_accounts.py], on the tables of Accounts.  A request goes
    through the middleware, which commits on its own, and then runs its handler in
    a transaction.  The handlers commit as their last step on the tables, so
    nothing of theirs is undone afterwards.  What they answer is left out, except
    for a new key; the escalation role of the approval rules, which deleting a
    role clears, is in Rules.  [datetime.fromisoformat] is a parameter. *)
From S2P Require Import Prelude PyStr SqlTable Controller Accounts.
From stdpp Require Import base tactics list strings pretty.
From Stdlib Require Import Ascii ZArith Lia.
Open Scope string_scope.
#[local] Arguments String.append !_ _ : simpl nomatch.

(** ** API keys *)

Section Keys.
Context {C : Crypto}.

(** The whole key, its prefix and the hash of its secret. *)
Definition generate_api_key (environment key_id secret salt : string) : string * string * string :=
  let prefix := "pb_" ++ environment ++ "_" ++ key_id in
  (prefix ++ "_" ++ secret, prefix, bcrypt_hash salt secret).

Definition verify_api_key (full_key stored_hash : string) : bool :=
  match split_on "_" full_key with
  | [_; _; _; secret] => bcrypt_check secret stored_hash
  | _ => false
  end.

Definition parse_api_key (full_key : string) : option (string * string) :=
  match split_on "_" full_key with
  | [a; b; c; secret] => Some (a ++ "_" ++ b ++ "_" ++ c, secret)
  | _ => None
  end.
End Keys.

(** ** The middleware *)

Definition PUBLIC_PATHS : list string :=
  ["/"; "/health"; "/api/docs"; "/api/redoc"; "/api/openapi.json"; "/api/v1/auth/login"; "/api/v1/auth/refresh"; "/api/v1/boot";
   "/api/v1/ipxe"; "/api/v1/report"].
Definition PUBLIC_PREFIXES : list string := ["/assets"; "/api/v1/boot/"; "/api/v1/ipxe/"].
Definition PUBLIC_EXTENSIONS : list string :=
  [".png"; ".jpg"; ".jpeg"; ".gif"; ".svg"; ".ico"; ".css"; ".js"; ".woff"; ".woff2"; ".ttf"; ".eot"].

Definition is_public_path (path : string) : bool :=
  in_list PUBLIC_PATHS path
  || existsb (fun prefix => startswith prefix path) PUBLIC_PREFIXES
  || existsb (fun ext => endswith ext path) PUBLIC_EXTENSIONS.

(** The handler is called with the request's state, or the request is answered. *)
Inductive passage : Type :=
| Called (rq : RequestState)
| Answered (status : Z) (detail : string).

Definition unidentified (client : option string) : RequestState :=
  {| st_user_id := None; st_username := None; st_role := None; st_auth_method := None; st_user := None; client_host := client |}.

Definition identified (client : option string) (id name role method : string) : RequestState :=
  {| st_user_id := Some id; st_username := Some name; st_role := Some role; st_auth_method := Some method; st_user := None;
     client_host := client |}.

Section Access.
Context {C : Crypto} (BCRYPT_AVAILABLE JWT_AVAILABLE : bool) (listed : list string -> string) (fromisoformat : string -> option Z).

Definition expired (now : Z) (expires_at : option Z) : bool :=
  match expires_at with Some t => (t <? now)%Z | None => false end.

Definition find_key (prefix : string) : AccountsM (option ApiKey) :=
  d ← get_accounts; one_or_none (sql_select (has_key k_key_prefix prefix) (api_keys d)).

Definition touch_key (now : Z) (ip : string) (k : ApiKey) : ApiKey :=
  k <| k_last_used_at := Some now |> <| k_last_used_ip := Some ip |>.

(** The user, or the error. *)
Definition authenticate_api_key (now : Z) (key client_ip : string) : AccountsM (User + string) :=
  match parse_api_key key with
  | None => mret (inr "Invalid API key format")
  | Some (prefix, _) =>
      api_key ← find_key prefix;
      match api_key with
      | None => mret (inr "API key not found")
      | Some api_key =>
          if negb (k_is_active api_key) then mret (inr "API key is disabled")
          else if expired now (k_expires_at api_key) then mret (inr "API key has expired")
          else if negb (verify_api_key key (k_key_hash api_key)) then mret (inr "Invalid API key")
          else
            user ← find_user (k_service_account_id api_key);
            match user with
            | None => mret (inr "Service account not found")
            | Some user =>
                if negb (u_is_active user) then mret (inr "Service account is disabled")
                else if expired now (u_expires_at user) then mret (inr "Service account has expired")
                else
                  modify (fun d => d <| api_keys ::= fun l => (sql_update (has_key k_id (k_id api_key)) (touch_key now client_ip) l).1 |>);;
                  mret (inl user)
            end
      end
  end.

Definition dispatch (now : Z) (path : string) (authorization client : option string) : AccountsM passage :=
  if is_public_path path then mret (Called (unidentified client))
  else
    let auth_header := default "" authorization in
    if String.eqb auth_header "" then mret (Answered 401 "Not authenticated")
    else if negb (startswith "Bearer " auth_header) then mret (Answered 401 "Invalid authentication scheme")
    else
      let token := str_drop 7 auth_header in
      if startswith "pb_" token then
        answer ← authenticate_api_key now token (default "unknown" client);
        match answer with
        | inr error => mret (Answered 401 error)
        | inl user => mret (Called (identified client (u_id user) (u_username user) (u_role user) "api_key"))
        end
      else
        match verify_access_token JWT_AVAILABLE now token with
        | None => mret (Answered 401 "Invalid or expired token")
        | Some p => mret (Called (identified client (pl_sub p) (pl_username p) (pl_role p) "jwt"))
        end.

(** ** Permissions *)

Definition get_current_user_from_state (rq : RequestState) : AccountsM User :=
  let user_id := default "" (st_user_id rq) in
  if String.eqb user_id "" then raise (HTTPException 401 "Not authenticated")
  else
    user ← find_user user_id;
    match user with
    | None => raise (HTTPException 401 "User not found")
    | Some user => if u_is_active user then mret user else raise (HTTPException 401 "Account disabled")
    end.

Definition role_ref (d : AccountsDB) (u : User) : option Role :=
  match u_role_id u with Some id => sql_find ro_id id (roles d) | None => None end.

Definition linked (l : list (string * string)) (a b : string) : bool :=
  existsb (fun m => String.eqb m.1 a && String.eqb m.2 b) l.

Definition role_perms (d : AccountsDB) (r : Role) : list Permission :=
  sql_select (fun p => linked (role_permissions d) (ro_id r) (pm_id p)) (permissions d).

Definition has_permission (d : AccountsDB) (u : User) (resource action : string) : bool :=
  match role_ref d u with
  | Some r => existsb (fun p => String.eqb (pm_resource p) resource && String.eqb (pm_action p) action) (role_perms d r)
  | None => false
  end.

Definition require_permission (resource action : string) (rq : RequestState) : AccountsM User :=
  user ← get_current_user_from_state rq;
  d ← get_accounts;
  if is_admin user then mret user
  else if has_permission d user resource action then mret user
  else raise (HTTPException 403 ("Permission denied: " ++ resource ++ ":" ++ action)).

Definition require_any_permission (wanted : list (string * string)) (rq : RequestState) : AccountsM User :=
  user ← get_current_user_from_state rq;
  d ← get_accounts;
  if is_admin user then mret user
  else if existsb (fun p => has_permission d user p.1 p.2) wanted then mret user
  else raise (HTTPException 403 "Permission denied").

Definition require_role (wanted : list string) (rq : RequestState) : AccountsM User :=
  user ← get_current_user_from_state rq;
  check (in_list wanted (u_role user)) 403 "Insufficient permissions";;
  mret user.

(** ** Links

    Rows of two foreign keys, the owner first, which together are unique. *)

Definition links := list (string * string).

Definition add_link (owner target : string) (l : links) : option links :=
  if linked l owner target then None else Some (l ++ [(owner, target)])%list.

Fixpoint add_links (owner : string) (targets : list string) (l : links) : option links :=
  match targets with
  | [] => Some l
  | t :: targets => match add_link owner t l with Some l => add_links owner targets l | None => None end
  end.

Definition unlink_owner (owner : string) (l : links) : links := List.filter (fun m => negb (String.eqb m.1 owner)) l.
Definition unlink_target (target : string) (l : links) : links := List.filter (fun m => negb (String.eqb m.2 target)) l.

(** Remove what there is, add the new. *)
Definition replace_links (owner : string) (targets : list string) (l : links) : option links :=
  add_links owner targets (unlink_owner owner l).

Definition write_links (set_links : links -> AccountsDB -> AccountsDB) (l : option links) : AccountsM unit :=
  match l with Some l => modify (set_links l) | None => raise IntegrityError end.

(** ** Roles *)

Record RoleCreate := { rc_name : string; rc_description : option string; rc_permission_ids : list string }.
Record RoleUpdate := { ru_name : option string; ru_description : option string; ru_permission_ids : option (list string) }.

Definition need_role (role_id : string) : AccountsM Role :=
  d ← get_accounts;
  match sql_find ro_id role_id (roles d) with
  | Some r => mret r
  | None => raise (HTTPException 404 "Role not found")
  end.

(** No other row has the name. *)
Definition check_role_name (name : string) (others : Role -> bool) : AccountsM unit :=
  d ← get_accounts;
  existing ← one_or_none (sql_select (fun r => has_key ro_name name r && others r) (roles d));
  check (match existing with Some _ => false | None => true end) 400 "Role name already exists".

Definition insert_role (r : Role) : AccountsM unit :=
  d ← get_accounts;
  match sql_insert ro_id r (roles d) with
  | Some l => modify (fun d => d <| roles := l |>)
  | None => raise IntegrityError
  end.

Definition set_permissions (l : links) (d : AccountsDB) : AccountsDB := d <| role_permissions := l |>.

Definition create_role (id : string) (data : RoleCreate) : AccountsM unit :=
  check_role_name (rc_name data) (fun _ => true);;
  insert_role {| ro_id := id; ro_name := rc_name data; ro_description := rc_description data; ro_is_system_role := false |};;
  d ← get_accounts;
  write_links set_permissions (add_links id (rc_permission_ids data) (role_permissions d)).

(** The name is free, so the row can be written. *)
Definition write_role (r : Role) : AccountsM unit :=
  modify (fun d => d <| roles ::= fun l => (sql_update (has_key ro_id (ro_id r)) (fun _ => r) l).1 |>).

Definition update_role_row (role_id : string) (data : RoleUpdate) : AccountsM unit :=
  role ← need_role role_id;
  check (negb (ro_is_system_role role)) 400 "Cannot modify system roles";;
  match ru_name data with
  | Some name => check_role_name name (fun r => negb (has_key ro_id role_id r))
  | None => mret tt
  end;;
  write_role (role <| ro_name ::= fun n => default n (ru_name data) |>
                   <| ro_description ::= fun x => match ru_description data with Some y => Some y | None => x end |>);;
  match ru_permission_ids data with
  | Some ids => d ← get_accounts; write_links set_permissions (replace_links role_id ids (role_permissions d))
  | None => mret tt
  end.

(** Its links go with a role, not the references of users. *)
Definition delete_role (role_id : string) : AccountsM unit :=
  role ← need_role role_id;
  check (negb (ro_is_system_role role)) 400 "Cannot delete system roles";;
  modify (fun d => d <| roles ::= fun l => (sql_delete (has_key ro_id role_id) l).1 |>
                     <| role_permissions ::= unlink_owner role_id |> <| group_roles ::= unlink_target role_id |>).

(** ** User groups *)

Record UserGroupCreate := { gc_name : string; gc_description : option string; gc_requires_approval : bool }.
Record UserGroupUpdate := { gu_name : option string; gu_description : option string; gu_requires_approval : option bool }.

Definition need_group (group_id : string) : AccountsM UserGroup :=
  d ← get_accounts;
  match sql_find ug_id group_id (user_groups d) with
  | Some g => mret g
  | None => raise (HTTPException 404 "User group not found")
  end.

Definition check_group_name (name : string) (others : UserGroup -> bool) : AccountsM unit :=
  d ← get_accounts;
  existing ← one_or_none (sql_select (fun g => has_key ug_name name g && others g) (user_groups d));
  check (match existing with Some _ => false | None => true end) 400 "Group name already exists".

Definition insert_group (g : UserGroup) : AccountsM unit :=
  d ← get_accounts;
  match sql_insert ug_id g (user_groups d) with
  | Some l => modify (fun d => d <| user_groups := l |>)
  | None => raise IntegrityError
  end.

Definition create_user_group (id : string) (data : UserGroupCreate) : AccountsM unit :=
  check_group_name (gc_name data) (fun _ => true);;
  insert_group {| ug_id := id; ug_name := gc_name data; ug_description := gc_description data;
                  ug_requires_approval := gc_requires_approval data; ug_ldap_group_dn := None |}.

Definition write_group (g : UserGroup) : AccountsM unit :=
  modify (fun d => d <| user_groups ::= fun l => (sql_update (has_key ug_id (ug_id g)) (fun _ => g) l).1 |>).

Definition update_user_group (group_id : string) (data : UserGroupUpdate) : AccountsM unit :=
  group ← need_group group_id;
  match gu_name data with
  | Some name => check_group_name name (fun g => negb (has_key ug_id group_id g))
  | None => mret tt
  end;;
  write_group (group <| ug_name ::= fun n => default n (gu_name data) |>
                     <| ug_description ::= fun x => match gu_description data with Some y => Some y | None => x end |>
                     <| ug_requires_approval ::= fun b => default b (gu_requires_approval data) |>).

(** All its links go with a group. *)
Definition delete_user_group (group_id : string) : AccountsM unit :=
  need_group group_id;;
  modify (fun d => d <| user_groups ::= fun l => (sql_delete (has_key ug_id group_id) l).1 |>
                     <| group_members ::= unlink_owner group_id |> <| group_roles ::= unlink_owner group_id |>
                     <| group_device_groups ::= unlink_owner group_id |> <| group_tags ::= unlink_owner group_id |>
                     <| group_nodes ::= unlink_owner group_id |>).

Definition assign (get_links : AccountsDB -> links) (set_links : links -> AccountsDB -> AccountsDB) (group_id : string)
    (targets : list string) : AccountsM unit :=
  need_group group_id;;
  d ← get_accounts;
  write_links set_links (replace_links group_id targets (get_links d)).

Definition assign_members := assign group_members (fun l d => d <| group_members := l |>).
Definition assign_roles := assign group_roles (fun l d => d <| group_roles := l |>).
Definition assign_device_groups := assign group_device_groups (fun l d => d <| group_device_groups := l |>).
Definition assign_tags := assign group_tags (fun l d => d <| group_tags := l |>).
Definition assign_nodes := assign group_nodes (fun l d => d <| group_nodes := l |>).

(** ** Service accounts *)

Record ServiceAccountCreate := {
  sc_username : string;
  sc_description : option string;
  sc_role_id : option string;
  sc_expires_at : option string
}.

Record ServiceAccountUpdate := {
  su_description : option string;
  su_role_id : option string;
  su_expires_at : option string;
  su_is_active : option bool
}.

Record ApiKeyCreate := { kc_name : string; kc_expires_at : option string }.

Definition need_service_account (account_id : string) : AccountsM User :=
  d ← get_accounts;
  account ← one_or_none (sql_select (fun u => has_key u_id account_id u && u_is_service_account u) (users d));
  match account with
  | Some u => mret u
  | None => raise (HTTPException 404 "Service account not found")
  end.

Definition find_role (role_id : string) : AccountsM Role :=
  d ← get_accounts;
  match sql_find ro_id role_id (roles d) with
  | Some r => mret r
  | None => raise (HTTPException 400 "Invalid role ID")
  end.

Definition parse_expires_at (s : string) : AccountsM Z :=
  match fromisoformat (str_replace "Z" "+00:00" s) with
  | Some t => mret t
  | None => raise (HTTPException 400 "Invalid expires_at format")
  end.

(** [if s: ...] *)
Definition when_truthy {A} (s : option string) (f : string -> AccountsM A) : AccountsM (option A) :=
  match s with
  | Some s => if String.eqb s "" then mret None else x ← f s; mret (Some x)
  | None => mret None
  end.

Definition new_service_account (now : Z) (id salt : string) (data : ServiceAccountCreate) (role : option Role) (expires_at : option Z)
    (owner : User) : User :=
  (new_user id (sc_username data) (Some (sc_username data ++ "@service.local"))
           (hash_password BCRYPT_AVAILABLE salt ("svc-" ++ sc_username data ++ "-disabled"))
           (match role with Some r => ro_name r | None => "viewer" end) now)
    <| u_role_id := sc_role_id data |> <| u_is_service_account := true |>
    <| u_service_account_description := sc_description data |> <| u_owner_id := Some (u_id owner) |> <| u_expires_at := expires_at |>.

Definition create_service_account (now : Z) (id salt : string) (data : ServiceAccountCreate) (current_user : User) : AccountsM unit :=
  check_username (sc_username data);;
  role ← when_truthy (sc_role_id data) find_role;
  expires_at ← when_truthy (sc_expires_at data) parse_expires_at;
  insert_user (new_service_account now id salt data role expires_at current_user).

Definition update_service_account (account_id : string) (data : ServiceAccountUpdate) : AccountsM unit :=
  account ← need_service_account account_id;
  let account := account <| u_service_account_description ::= fun x => match su_description data with Some y => Some y | None => x end |> in
  account ← match su_role_id data with
            | Some id => role ← find_role id; mret (account <| u_role_id := Some id |> <| u_role := ro_name role |>)
            | None => mret account
            end;
  account ← match su_expires_at data with
            | Some s => t ← parse_expires_at s; mret (account <| u_expires_at := Some t |>)
            | None => mret account
            end;
  write_user (account <| u_is_active ::= fun b => default b (su_is_active data) |>).

(** Memberships go with the row; keys and sessions do not. *)
Definition delete_service_account (account_id : string) : AccountsM unit :=
  need_service_account account_id;;
  modify (fun d => d <| group_members ::= fun l => (sql_delete (fun m => String.eqb m.2 account_id) l).1 |>);;
  set_users (fun l => (sql_delete (has_key u_id account_id) l).1).

Definition same_key_name (account_id name : string) (k : ApiKey) : bool :=
  has_key k_service_account_id account_id k && has_key k_name name k.

Definition insert_key (k : ApiKey) : AccountsM unit :=
  d ← get_accounts;
  match sql_insert k_id k (api_keys d) with
  | None => raise IntegrityError
  | Some l =>
      if existsb (fun x => has_key k_key_prefix (k_key_prefix k) x || same_key_name (k_service_account_id k) (k_name k) x) (api_keys d)
      then raise IntegrityError
      else modify (fun d => d <| api_keys := l |>)
  end.

(** The whole key, which is shown this once. *)
Definition create_api_key (id key_id secret salt account_id : string) (data : ApiKeyCreate) (current_user : User) : AccountsM string :=
  need_service_account account_id;;
  d ← get_accounts;
  existing ← one_or_none (sql_select (same_key_name account_id (kc_name data)) (api_keys d));
  check (match existing with Some _ => false | None => true end) 400 "API key name already exists";;
  expires_at ← when_truthy (kc_expires_at data) parse_expires_at;
  let '(full_key, prefix, key_hash) := generate_api_key "live" key_id secret salt in
  insert_key {| k_id := id; k_service_account_id := account_id; k_name := kc_name data; k_key_hash := key_hash; k_key_prefix := prefix;
                k_is_active := true; k_expires_at := expires_at; k_last_used_at := None; k_last_used_ip := None;
                k_created_by_id := u_id current_user |};;
  mret full_key.

Definition revoke_api_key (account_id key_id : string) : AccountsM unit :=
  d ← get_accounts;
  api_key ← one_or_none (sql_select (fun k => has_key k_id key_id k && has_key k_service_account_id account_id k) (api_keys d));
  match api_key with
  | None => raise (HTTPException 404 "API key not found")
  | Some k => modify (fun d => d <| api_keys ::= fun l => (sql_delete (has_key k_id (k_id k)) l).1 |>)
  end.

(** ** Requests *)

Inductive access_request : Type :=
| AccountRequest (r : account_request)
| CreateRole (id : string) (data : RoleCreate)
| UpdateRole (role_id : string) (data : RoleUpdate)
| DeleteRole (role_id : string)
| CreateUserGroup (id : string) (data : UserGroupCreate)
| UpdateUserGroup (group_id : string) (data : UserGroupUpdate)
| DeleteUserGroup (group_id : string)
| AssignMembers (group_id : string) (user_ids : list string)
| AssignRoles (group_id : string) (role_ids : list string)
| AssignDeviceGroups (group_id : string) (device_group_ids : list string)
| AssignTags (group_id : string) (tags : list string)
| AssignNodes (group_id : string) (node_ids : list string)
| CreateServiceAccount (id salt : string) (data : ServiceAccountCreate)
| UpdateServiceAccount (account_id : string) (data : ServiceAccountUpdate)
| DeleteServiceAccount (account_id : string)
| CreateApiKey (id key_id secret salt account_id : string) (data : ApiKeyCreate)
| RevokeApiKey (account_id key_id : string).

(** The action of the permission on users that a route requires. *)
Definition action_of (r : access_request) : string :=
  match r with
  | CreateRole _ _ | CreateUserGroup _ _ | CreateServiceAccount _ _ _ => "create"
  | DeleteRole _ | DeleteUserGroup _ | DeleteServiceAccount _ => "delete"
  | _ => "update"
  end.

(** The routes that require a permission, for the user who has it. *)
Definition permitted (now : Z) (r : access_request) (current_user : User) : AccountsM unit :=
  match r with
  | AccountRequest _ => mret tt
  | CreateRole id data => create_role id data
  | UpdateRole role_id data => update_role_row role_id data
  | DeleteRole role_id => delete_role role_id
  | CreateUserGroup id data => create_user_group id data
  | UpdateUserGroup group_id data => update_user_group group_id data
  | DeleteUserGroup group_id => delete_user_group group_id
  | AssignMembers group_id user_ids => assign_members group_id user_ids
  | AssignRoles group_id role_ids => assign_roles group_id role_ids
  | AssignDeviceGroups group_id ids => assign_device_groups group_id ids
  | AssignTags group_id tags => assign_tags group_id tags
  | AssignNodes group_id node_ids => assign_nodes group_id node_ids
  | CreateServiceAccount id salt data => create_service_account now id salt data current_user
  | UpdateServiceAccount account_id data => update_service_account account_id data
  | DeleteServiceAccount account_id => delete_service_account account_id
  | CreateApiKey id key_id secret salt account_id data => create_api_key id key_id secret salt account_id data current_user;; mret tt
  | RevokeApiKey account_id key_id => revoke_api_key account_id key_id
  end.

Definition handle_access (now : Z) (rq : RequestState) (authorization : option string) (r : access_request) : AccountsM unit :=
  match r with
  | AccountRequest r => handle_account BCRYPT_AVAILABLE JWT_AVAILABLE listed now rq authorization r
  | r => current_user ← require_permission "user" (action_of r) rq; permitted now r current_user
  end.

(** A request as it arrives. *)
Record Arrival := { ar_time : Z; ar_path : string; ar_authorization : option string; ar_client : option string; ar_request : access_request }.

Definition arrive (x : Arrival) (d : AccountsDB) : result server_error unit * AccountsDB :=
  match with_db (dispatch (ar_time x) (ar_path x) (ar_authorization x) (ar_client x)) d with
  | (Ok (Called rq), d) => with_db (handle_access (ar_time x) rq (ar_authorization x) (ar_request x)) d
  | (Ok (Answered status detail), d) => (Err (HTTPException status detail), d)
  | (Err e, d) => (Err e, d)
  end.

Definition run_access (xs : list Arrival) (d : AccountsDB) : AccountsDB := fold_left (fun d x => (arrive x d).2) xs d.
End Access.

(** ** Well-formed tables *)

Record access_ok (d : AccountsDB) : Prop := {
  ac_accounts : accounts_ok d;
  ac_key_ids : keys_unique k_id (api_keys d);
  ac_prefixes : keys_unique k_key_prefix (api_keys d);
  ac_key_names : NoDup ((fun k => (k_service_account_id k, k_name k)) <$> api_keys d);
  ac_role_ids : keys_unique ro_id (roles d);
  ac_role_names : keys_unique ro_name (roles d);
  ac_group_ids : keys_unique ug_id (user_groups d);
  ac_group_names : keys_unique ug_name (user_groups d);
  ac_role_permissions : NoDup (role_permissions d);
  ac_members : NoDup (group_members d);
  ac_group_roles : NoDup (group_roles d);
  ac_device_groups : NoDup (group_device_groups d);
  ac_tags : NoDup (group_tags d);
  ac_nodes : NoDup (group_nodes d)
}.

Lemma linked_true l a b : linked l a b = true <-> (a, b) ∈ l.
Proof.
  unfold linked. rewrite existsb_exists. split.
  - intros ([x y] & H%list_elem_of_In & [E1%String.eqb_eq E2%String.eqb_eq]%andb_true_iff). cbn in *. by subst.
  - intros H. exists (a, b). rewrite <- list_elem_of_In. cbn. by rewrite !String.eqb_refl.
Qed.

Lemma add_link_Some a b l l' : add_link a b l = Some l' -> l' = (l ++ [(a, b)])%list /\ (a, b) ∉ l.
Proof.
  unfold add_link. destruct (linked l a b) eqn:E; [done|]. intros [= <-]. split; [done|]. by rewrite <- linked_true, E.
Qed.

Lemma add_links_Some a ts l l' : add_links a ts l = Some l' ->
  l' = (l ++ map (pair a) ts)%list /\ NoDup ts /\ forall t, t ∈ ts -> (a, t) ∉ l.
Proof.
  revert l. induction ts as [|t ts IH]; intros l; cbn.
  - intros [= <-]. rewrite app_nil_r. split; [done|]. split; [constructor|]. by intros t ?%not_elem_of_nil.
  - destruct (add_link a t l) as [l1|] eqn:E; [|done]. apply add_link_Some in E as [-> Hn]. intros (-> & Hd & H)%IH.
    rewrite <- (assoc_L (++)%list). cbn. split; [done|]. split.
    + constructor; [|done]. intros Hin. apply (H t Hin). apply elem_of_app. right. by left.
    + intros t' [->|Hin]%elem_of_cons; [done|]. intros H'. apply (H t' Hin). apply elem_of_app. by left.
Qed.

Lemma add_links_fresh a ts l : NoDup ts -> (forall t, t ∈ ts -> (a, t) ∉ l) -> add_links a ts l = Some (l ++ map (pair a) ts)%list.
Proof.
  revert l. induction ts as [|t ts IH]; intros l Hd H; cbn; [by rewrite app_nil_r|]. apply NoDup_cons in Hd as [Ht Hd].
  unfold add_link. destruct (linked l a t) eqn:E; [by destruct (H t); [left|apply linked_true]|].
  rewrite IH; [by rewrite <- (assoc_L (++)%list)|done|]. intros t' Ht' [Hin|[= ->]%list_elem_of_singleton]%elem_of_app; [|done].
  apply (H t'); [by right|done].
Qed.

Lemma add_links_NoDup a ts l l' : add_links a ts l = Some l' -> NoDup l -> NoDup l'.
Proof.
  intros (-> & Hd & H)%add_links_Some Hl. apply NoDup_app. split; [done|]. split.
  - intros [x y] Hin (t & [= -> ->] & Ht)%list_elem_of_fmap. by apply (H t).
  - apply NoDup_fmap_2; [by intros ?? [= ->]|done].
Qed.

Lemma elem_of_unlink a x y l : (x, y) ∈ unlink_owner a l <-> (x, y) ∈ l /\ x ≠ a.
Proof.
  unfold unlink_owner. change (List.filter ?P ?t) with (sql_select P t). rewrite elem_of_sql_select. cbn.
  rewrite negb_true_iff, String.eqb_neq. done.
Qed.

Lemma unlink_NoDup (P : string * string -> bool) (l : links) : NoDup l -> NoDup (List.filter P l).
Proof. intros H. eapply sublist_NoDup; [exact H|apply filter_sublist]. Qed.

(** A replacement succeeds exactly without duplicates, and then the owner has the new links and everybody
    else what they had. *)
Lemma replace_links_spec a ts l : if decide (NoDup ts)
  then replace_links a ts l = Some (unlink_owner a l ++ map (pair a) ts)%list
  else replace_links a ts l = None.
Proof.
  unfold replace_links. destruct (decide (NoDup ts)) as [H|H].
  - apply add_links_fresh; [done|]. by intros t _ [_ ?]%elem_of_unlink.
  - destruct (add_links a ts (unlink_owner a l)) as [l'|] eqn:E; [|done]. by apply add_links_Some in E as (_ & ? & _).
Qed.

Lemma accounts_ok_same d d' : users d' = users d -> refresh_tokens d' = refresh_tokens d -> accounts_ok d -> accounts_ok d'.
Proof. intros E1 E2 []. constructor; congruence. Qed.

(** One table after the other. *)
Ltac columns := constructor; [by (eapply accounts_ok_same; [..|eassumption])|..].

(** *** The requests on accounts *)

Definition rest (d : AccountsDB) :=
  (api_keys d, roles d, user_groups d, role_permissions d, group_roles d, group_device_groups d, group_tags d, group_nodes d, permissions d).

Lemma access_ok_rest d d' : access_ok d -> accounts_ok d' -> rest d' = rest d -> NoDup (group_members d') -> access_ok d'.
Proof. intros [] Ha [= E1 E2 E3 E4 E5 E6 E7 E8 _] Hm. constructor; congruence. Qed.

Lemma rest_kept {A} (m : AccountsM A) : keeps accounts_ok m ->
  (forall d, rest (m d).2 = rest d /\ group_members (m d).2 = group_members d) -> keeps access_ok m.
Proof.
  intros Hk Hr d Hd. destruct (Hr d) as [E1 E2]. apply (access_ok_rest d); [done|apply Hk, Hd|done|]. rewrite E2. apply Hd.
Qed.

Ltac by_rest k := intros; apply rest_kept; [apply k, accounts_ok_kept|];
  intros d; unfold insert_user, write_user, insert_token, write_token, get_accounts; unfold_M; by repeat case_match.

Lemma access_ok_kept `{Crypto} : kept_by_operations access_ok.
Proof.
  constructor.
  - by_rest kept_insert_user.
  - by_rest kept_write_user.
  - by_rest kept_insert_token.
  - by_rest kept_write_token.
  - by_rest kept_delete_users.
  - by_rest kept_delete_tokens.
  - by_rest kept_audit.
  - intros Q d Hd. apply (access_ok_rest d); [done|apply (kept_leave _ accounts_ok_kept), Hd|done|].
    eapply sublist_NoDup; [apply (ac_members _ Hd)|apply filter_sublist].
  - intros u gs d Hd. apply (access_ok_rest d); [done|apply (kept_sync _ accounts_ok_kept), Hd|done|].
    destruct (sync_run u gs d) as (stale & missing & -> & _ & Hm & Hnd). cbn [snd]. rewrite set_members.
    apply NoDup_app. split; [apply unlink_NoDup, Hd|]. split.
    + intros [g x] [Hin _]%elem_of_sql_select (g' & [= -> ->] & [_ H']%Hm)%list_elem_of_fmap. done.
    + apply NoDup_fmap_2; [by intros ?? [= ->]|]. apply Hnd, Hd.
Qed.

(** *** What the handlers do *)

Section Specs.
Context {C : Crypto} (BCRYPT : bool) (fromisoformat : string -> option Z).

Lemma select_head_None {R} (P : R -> bool) l : head (sql_select P l) = None -> forall x, x ∈ l -> P x = false.
Proof.
  destruct (sql_select P l) as [|y t] eqn:E; [|done]. intros _ x Hx. apply not_true_iff_false. intros HP.
  apply (not_elem_of_nil x). rewrite <- E. by apply elem_of_sql_select.
Qed.

Lemma need_role_Ok id d r d' : need_role id d = (Ok r, d') -> d' = d /\ r ∈ roles d /\ ro_id r = id.
Proof.
  unfold need_role, get_accounts. unfold_M. destruct (sql_find ro_id id (roles d)) as [x|] eqn:E; [|done]. intros [= -> <-].
  by apply sql_find_Some_1 in E.
Qed.

Lemma check_role_name_Ok name P d a d' : check_role_name name P d = (Ok a, d') ->
  d' = d /\ forall r, r ∈ roles d -> P r = true -> ro_name r ≠ name.
Proof.
  unfold check_role_name, get_accounts. step_M x s1 H1. injection H1 as <- <-. step_M r s2 H2. apply one_or_none_Ok in H2 as [-> ->].
  intros [Hn ->]%check_Ok. split; [done|]. destruct (head _) eqn:E; [done|]. intros y Hy HP <-.
  pose proof (select_head_None _ _ E y Hy) as H. cbn in H. rewrite HP, andb_true_r in H. by apply has_key_false in H.
Qed.

Lemma insert_role_Ok r d a d' : insert_role r d = (Ok a, d') -> d' = d <| roles := (roles d ++ [r])%list |> /\ ro_id r ∉ ro_id <$> roles d.
Proof.
  unfold insert_role, sql_insert, get_accounts. unfold_M. destruct (sql_find _ _ _) eqn:E; [done|]. intros [= _ <-].
  split; [done|]. by apply sql_find_None.
Qed.

Lemma write_links_Ok f l d a d' : write_links f l d = (Ok a, d') -> exists l', l = Some l' /\ d' = f l' d.
Proof. unfold write_links. unfold_M. destruct l as [l|]; [|done]. intros [= _ <-]. by exists l. Qed.

Lemma create_role_Ok id data d a d' : create_role id data d = (Ok a, d') ->
  exists l, add_links id (rc_permission_ids data) (role_permissions d) = Some l
  /\ d' = d <| roles ::= fun t => (t ++ [{| ro_id := id; ro_name := rc_name data; ro_description := rc_description data;
                                            ro_is_system_role := false |}])%list |> <| role_permissions := l |>
  /\ (id ∉ ro_id <$> roles d) /\ rc_name data ∉ ro_name <$> roles d.
Proof.
  unfold create_role. step_M x s1 H1. apply check_role_name_Ok in H1 as [-> Hn]. step_M y s2 H2. apply insert_role_Ok in H2 as [-> Hid].
  unfold get_accounts. step_M z s3 H3. injection H3 as <- <-. intros (l & E & ->)%write_links_Ok. exists l. split; [exact E|]. split; [done|].
  split; [exact Hid|]. intros (r & Er & Hr)%list_elem_of_fmap. by apply (Hn r Hr).
Qed.

Definition changed_role (data : RoleUpdate) (role : Role) : Role :=
  role <| ro_name ::= fun n => default n (ru_name data) |>
       <| ro_description ::= fun x => match ru_description data with Some y => Some y | None => x end |>.

Definition role_row_set (r : Role) (l : list Role) : list Role := (sql_update (has_key ro_id (ro_id r)) (fun _ => r) l).1.

Lemma update_role_row_Ok id data d a d' : update_role_row id data d = (Ok a, d') ->
  exists r l, r ∈ roles d /\ ro_id r = id /\ ro_is_system_role r = false
  /\ (forall n, ru_name data = Some n -> forall x, x ∈ roles d -> ro_id x ≠ id -> ro_name x ≠ n)
  /\ d' = d <| roles := role_row_set (changed_role data r) (roles d) |> <| role_permissions := l |>
  /\ match ru_permission_ids data with Some ids => replace_links id ids (role_permissions d) = Some l | None => l = role_permissions d end.
Proof.
  unfold update_role_row. step_M r s1 H1. apply need_role_Ok in H1 as (-> & Hr & Hid). step_M x s2 H2. apply check_Ok in H2 as [Hs%negb_true_iff ->].
  step_M y s3 H3. step_M z s4 H4.
  assert (s3 = d /\ forall n, ru_name data = Some n -> forall x, x ∈ roles d -> ro_id x ≠ id -> ro_name x ≠ n) as [-> Hn].
  { destruct (ru_name data) as [n|]; [|by injection H3 as _ <-]. apply check_role_name_Ok in H3 as [-> H]. split; [done|].
    intros n' [= <-] x0 Hx Hne. apply H; [done|]. by apply negb_true_iff, has_key_false. }
  injection H4 as _ <-. fold (changed_role data r). destruct (ru_permission_ids data) as [ids|].
  - unfold get_accounts. step_M w s5 H5. injection H5 as <- <-. intros (l & E & ->)%write_links_Ok. exists r, l. do 4 (split; [done|]).
    split; [done|exact E].
  - intros [= _ <-]. exists r, (role_permissions d). do 4 (split; [done|]). split; [by destruct d|done].
Qed.

Lemma delete_role_Ok id d a d' : delete_role id d = (Ok a, d') ->
  (exists r, r ∈ roles d /\ ro_id r = id /\ ro_is_system_role r = false)
  /\ d' = d <| roles ::= fun l => (sql_delete (has_key ro_id id) l).1 |>
            <| role_permissions ::= unlink_owner id |> <| group_roles ::= unlink_target id |>.
Proof.
  unfold delete_role. step_M r s1 H1. apply need_role_Ok in H1 as (-> & Hr & Hid). step_M x s2 H2. apply check_Ok in H2 as [Hs%negb_true_iff ->].
  intros [= _ <-]. split; [by exists r|done].
Qed.

Lemma need_group_Ok id d g d' : need_group id d = (Ok g, d') -> d' = d /\ g ∈ user_groups d /\ ug_id g = id.
Proof.
  unfold need_group, get_accounts. unfold_M. destruct (sql_find ug_id id (user_groups d)) as [x|] eqn:E; [|done]. intros [= -> <-].
  by apply sql_find_Some_1 in E.
Qed.

Lemma check_group_name_Ok name P d a d' : check_group_name name P d = (Ok a, d') ->
  d' = d /\ forall g, g ∈ user_groups d -> P g = true -> ug_name g ≠ name.
Proof.
  unfold check_group_name, get_accounts. step_M x s1 H1. injection H1 as <- <-. step_M r s2 H2. apply one_or_none_Ok in H2 as [-> ->].
  intros [Hn ->]%check_Ok. split; [done|]. destruct (head _) eqn:E; [done|]. intros y Hy HP <-.
  pose proof (select_head_None _ _ E y Hy) as H. cbn in H. rewrite HP, andb_true_r in H. by apply has_key_false in H.
Qed.

Lemma insert_group_Ok g d a d' : insert_group g d = (Ok a, d') ->
  d' = d <| user_groups := (user_groups d ++ [g])%list |> /\ ug_id g ∉ ug_id <$> user_groups d.
Proof.
  unfold insert_group, sql_insert, get_accounts. unfold_M. destruct (sql_find _ _ _) eqn:E; [done|]. intros [= _ <-].
  split; [done|]. by apply sql_find_None.
Qed.

Lemma create_user_group_Ok id data d a d' : create_user_group id data d = (Ok a, d') ->
  exists g, ug_id g = id /\ ug_name g = gc_name data /\ d' = d <| user_groups := (user_groups d ++ [g])%list |>
  /\ (id ∉ ug_id <$> user_groups d) /\ gc_name data ∉ ug_name <$> user_groups d.
Proof.
  unfold create_user_group. step_M x s1 H1. apply check_group_name_Ok in H1 as [-> Hn]. intros [-> Hid]%insert_group_Ok.
  exists {| ug_id := id; ug_name := gc_name data; ug_description := gc_description data;
            ug_requires_approval := gc_requires_approval data; ug_ldap_group_dn := None |}.
  do 3 (split; [done|]). split; [exact Hid|].
  intros (r & Er & Hr)%list_elem_of_fmap. by apply (Hn r Hr).
Qed.

Definition changed_group (data : UserGroupUpdate) (g : UserGroup) : UserGroup :=
  g <| ug_name ::= fun n => default n (gu_name data) |>
    <| ug_description ::= fun x => match gu_description data with Some y => Some y | None => x end |>
    <| ug_requires_approval ::= fun b => default b (gu_requires_approval data) |>.

Definition group_row_set (g : UserGroup) (l : list UserGroup) : list UserGroup := (sql_update (has_key ug_id (ug_id g)) (fun _ => g) l).1.

Lemma update_user_group_Ok id data d a d' : update_user_group id data d = (Ok a, d') ->
  exists g g', g ∈ user_groups d /\ ug_id g = id /\ ug_id g' = id /\ d' = d <| user_groups := group_row_set g' (user_groups d) |>
  /\ (ug_name g' = ug_name g \/ forall x, x ∈ user_groups d -> ug_id x ≠ id -> ug_name x ≠ ug_name g').
Proof.
  unfold update_user_group. step_M g s1 H1. apply need_group_Ok in H1 as (-> & Hg & Hid). step_M y s3 H3. intros [= _ <-].
  exists g, (changed_group data g). split; [exact Hg|]. do 2 (split; [exact Hid|]). unfold changed_group. destruct (gu_name data) as [n|].
  - apply check_group_name_Ok in H3 as [-> H]. split; [by destruct d|]. right. intros x0 Hx Hne. apply H; [done|].
    by apply negb_true_iff, has_key_false.
  - injection H3 as _ <-. split; [by destruct d|by left].
Qed.

Lemma delete_user_group_Ok id d a d' : delete_user_group id d = (Ok a, d') ->
  d' = d <| user_groups ::= fun l => (sql_delete (has_key ug_id id) l).1 |>
         <| group_members ::= unlink_owner id |> <| group_roles ::= unlink_owner id |>
         <| group_device_groups ::= unlink_owner id |> <| group_tags ::= unlink_owner id |> <| group_nodes ::= unlink_owner id |>.
Proof. unfold delete_user_group. step_M g s1 H1. apply need_group_Ok in H1 as (-> & _ & _). by intros [= _ <-]. Qed.

Lemma assign_Ok f g id ts d a d' : assign f g id ts d = (Ok a, d') -> exists l, replace_links id ts (f d) = Some l /\ d' = g l d.
Proof.
  unfold assign, get_accounts. step_M x s1 H1. apply need_group_Ok in H1 as (-> & _ & _). step_M y s2 H2. injection H2 as <- <-.
  apply write_links_Ok.
Qed.

Lemma need_service_account_Ok id d u d' : need_service_account id d = (Ok u, d') ->
  d' = d /\ u ∈ users d /\ u_id u = id /\ u_is_service_account u = true.
Proof.
  unfold need_service_account, get_accounts. step_M x s1 H1. injection H1 as <- <-. step_M r s2 H2. apply one_or_none_Ok in H2 as [-> ->].
  destruct (head _) as [y|] eqn:E; [|by unfold_M]. intros [= <- <-]. split; [done|].
  by apply head_select_Some in E as [Hu [Hid%has_key_true Hs]%andb_true_iff].
Qed.

Lemma when_truthy_keeps {A} s (f : string -> AccountsM A) d a d' : (forall x d a d', f x d = (Ok a, d') -> d' = d) ->
  when_truthy s f d = (Ok a, d') -> d' = d.
Proof.
  intros Hf. unfold when_truthy. destruct s as [s|]; [|by intros [= _ <-]]. destruct (String.eqb s ""); [by intros [= _ <-]|].
  step_M x s1 H1. intros [= _ <-]. by apply Hf in H1.
Qed.

Lemma find_role_Ok id d r d' : find_role id d = (Ok r, d') -> d' = d.
Proof. unfold find_role, get_accounts. unfold_M. by destruct (sql_find _ _ _); intros [= _ <-]. Qed.

Lemma parse_expires_at_Ok s d r d' : parse_expires_at fromisoformat s d = (Ok r, d') -> d' = d.
Proof. unfold parse_expires_at. unfold_M. by destruct (fromisoformat _); intros [= _ <-]. Qed.

Lemma create_service_account_Ok now id salt data cu d a d' :
  create_service_account BCRYPT fromisoformat now id salt data cu d = (Ok a, d') -> exists u, insert_user u d = (Ok a, d').
Proof.
  unfold create_service_account. step_M x s1 H1. apply check_username_Ok in H1 as ->. step_M r s2 H2.
  apply when_truthy_keeps in H2 as ->; [|apply find_role_Ok]. step_M t s3 H3. apply when_truthy_keeps in H3 as ->; [|apply parse_expires_at_Ok].
  intros H. by eexists.
Qed.

Lemma update_service_account_Ok id data d a d' : update_service_account fromisoformat id data d = (Ok a, d') ->
  exists u, write_user u d = (Ok a, d').
Proof.
  unfold update_service_account. step_M u s1 H1. apply need_service_account_Ok in H1 as (-> & _). cbv zeta. step_M v s2 H2. step_M w s3 H3.
  assert (s2 = d) as ->.
  { destruct (su_role_id data); [|by injection H2 as _ <-]. revert H2. step_M r s4 H4. apply find_role_Ok in H4 as ->. by intros [= _ <-]. }
  assert (s3 = d) as ->.
  { destruct (su_expires_at data); [|by injection H3 as _ <-]. revert H3. step_M r s4 H4. apply parse_expires_at_Ok in H4 as ->. by intros [= _ <-]. }
  intros H. by eexists.
Qed.

Lemma insert_key_Ok k d a d' : insert_key k d = (Ok a, d') ->
  d' = d <| api_keys := (api_keys d ++ [k])%list |> /\ (k_id k ∉ k_id <$> api_keys d) /\ (k_key_prefix k ∉ k_key_prefix <$> api_keys d)
  /\ (k_service_account_id k, k_name k) ∉ ((fun x => (k_service_account_id x, k_name x)) <$> api_keys d).
Proof.
  unfold insert_key, sql_insert, get_accounts. unfold_M. destruct (sql_find _ _ _) eqn:E; [done|]. destruct (existsb _ _) eqn:Ex; [done|].
  intros [= _ <-]. split; [done|]. split; [by apply sql_find_None|]. apply not_true_iff_false in Ex. rewrite existsb_exists in Ex. split.
  - intros (x & Hx & Hin)%list_elem_of_fmap. apply Ex. exists x. rewrite <- list_elem_of_In. split; [done|].
    apply orb_true_iff. left. by apply has_key_true.
  - intros (x & [= E1 E2] & Hin)%list_elem_of_fmap. apply Ex. exists x. rewrite <- list_elem_of_In. split; [done|].
    apply orb_true_iff. right. unfold same_key_name. by rewrite !(proj2 (has_key_true _ _ _)).
Qed.

(** The row of a new key. *)
Definition new_key (id key_id secret salt account_id : string) (data : ApiKeyCreate) (expires_at : option Z) (cu : User) : ApiKey :=
  {| k_id := id; k_service_account_id := account_id; k_name := kc_name data; k_key_hash := bcrypt_hash salt secret;
     k_key_prefix := "pb_live_" ++ key_id; k_is_active := true; k_expires_at := expires_at; k_last_used_at := None;
     k_last_used_ip := None; k_created_by_id := u_id cu |}.

(** The expiry a request asks for; [None] when it cannot be read. *)
Definition asked_expiry (s : option string) : option (option Z) :=
  match s with
  | Some s => if String.eqb s "" then Some None else Some <$> fromisoformat (str_replace "Z" "+00:00" s)
  | None => Some None
  end.

Lemma asked_expiry_Ok s d e d' : when_truthy s (parse_expires_at fromisoformat) d = (Ok e, d') -> asked_expiry s = Some e /\ d' = d.
Proof.
  unfold when_truthy, parse_expires_at, asked_expiry. unfold_M. destruct s as [s|]; [|by intros [= <- <-]].
  destruct (String.eqb s ""); [by intros [= <- <-]|]. destruct (fromisoformat _); [|done]. by intros [= <- <-].
Qed.

Lemma create_api_key_Ok id key_id secret salt account data cu d key d' :
  create_api_key fromisoformat id key_id secret salt account data cu d = (Ok key, d') ->
  (exists u, u ∈ users d /\ u_id u = account /\ u_is_service_account u = true)
  /\ key = "pb_live_" ++ key_id ++ "_" ++ secret
  /\ exists e, asked_expiry (kc_expires_at data) = Some e /\ insert_key (new_key id key_id secret salt account data e cu) d = (Ok tt, d').
Proof.
  unfold create_api_key. step_M u s1 H1. apply need_service_account_Ok in H1 as (-> & Hu & Hid & Hs). unfold get_accounts.
  step_M x s2 H2. injection H2 as <- <-. step_M r s3 H3. apply one_or_none_Ok in H3 as [-> _]. step_M y s4 H4. apply check_Ok in H4 as [_ ->].
  step_M e s5 H5. apply asked_expiry_Ok in H5 as [He ->]. cbn [generate_api_key]. unfold generate_api_key.
  step_M z s6 H6. intros [= <- <-]. split; [by exists u|]. split; [done|]. exists e. split; [done|]. by destruct z.
Qed.

Lemma revoke_api_key_Ok account id d a d' : revoke_api_key account id d = (Ok a, d') ->
  (exists k, k ∈ api_keys d /\ k_id k = id /\ k_service_account_id k = account)
  /\ d' = d <| api_keys ::= fun l => (sql_delete (has_key k_id id) l).1 |>.
Proof.
  unfold revoke_api_key, get_accounts. step_M x s1 H1. injection H1 as <- <-. step_M r s2 H2. apply one_or_none_Ok in H2 as [-> ->].
  destruct (head _) as [k|] eqn:E; [|by unfold_M]. apply head_select_Some in E as [Hk [Hid%has_key_true Ha%has_key_true]%andb_true_iff].
  intros [= _ <-]. split; [by exists k|]. by rewrite Hid.
Qed.
End Specs.

Section Theorems.
Context {C : Crypto} (BCRYPT JWT : bool) (listed : list string -> string) (fromisoformat : string -> option Z).

Abbreviation ran := (run_access BCRYPT JWT listed fromisoformat).
Abbreviation arrived := (arrive BCRYPT JWT listed fromisoformat).

Lemma access_ok_replace f g id ts d a d' :
  (forall l d, NoDup l -> access_ok d -> access_ok (g l d)) -> (forall d, access_ok d -> NoDup (f d)) ->
  access_ok d -> assign f g id ts d = (Ok a, d') -> access_ok d'.
Proof.
  intros Hg Hf Hd (l & E & ->)%assign_Ok. apply Hg; [|done]. eapply add_links_NoDup; [exact E|]. by apply unlink_NoDup, Hf.
Qed.

Lemma access_ok_roles d l : keys_unique ro_id l -> keys_unique ro_name l -> access_ok d -> access_ok (d <| roles := l |>).
Proof. intros H1 H2 []. by columns. Qed.

Lemma access_ok_groups d l : keys_unique ug_id l -> keys_unique ug_name l -> access_ok d -> access_ok (d <| user_groups := l |>).
Proof. intros H1 H2 []. by columns. Qed.

Lemma access_ok_permissions d l : NoDup l -> access_ok d -> access_ok (d <| role_permissions := l |>).
Proof. intros H1 []. by columns. Qed.

Lemma access_ok_keys d l : keys_unique k_id l -> keys_unique k_key_prefix l ->
  NoDup ((fun k => (k_service_account_id k, k_name k)) <$> l) -> access_ok d -> access_ok (d <| api_keys := l |>).
Proof. intros H1 H2 H3 []. by columns. Qed.

Lemma unique_snoc {R K} (f : R -> K) l x : f x ∉ f <$> l -> NoDup (f <$> l) -> NoDup (f <$> (l ++ [x])%list).
Proof.
  intros Hx Hl. rewrite fmap_app, NoDup_app. split; [done|]. split; [by intros y Hy ->%list_elem_of_singleton|apply NoDup_singleton].
Qed.

Lemma unique_filter {R K} (f : R -> K) (P : R -> bool) l : NoDup (f <$> l) -> NoDup (f <$> List.filter P l).
Proof. intros H. eapply sublist_NoDup; [exact H|]. apply fmap_sublist, filter_sublist. Qed.

Lemma unlinked_NoDup d a : access_ok d ->
  NoDup (unlink_owner a (group_members d)) /\ NoDup (unlink_owner a (group_roles d)) /\ NoDup (unlink_owner a (group_device_groups d))
  /\ NoDup (unlink_owner a (group_tags d)) /\ NoDup (unlink_owner a (group_nodes d)) /\ NoDup (unlink_owner a (role_permissions d))
  /\ NoDup (unlink_target a (group_roles d)).
Proof. intros []. by repeat split; apply unlink_NoDup. Qed.

Lemma permitted_ok now r cu d a d' : access_ok d -> permitted BCRYPT fromisoformat now r cu d = (Ok a, d') -> access_ok d'.
Proof.
  intros Hd. destruct r as [r|id data|id data|id|id data|id data|id|id ts|id ts|id ts|id ts|id ts|id salt data|id data|id|id kid sec salt acc data|acc id];
    cbn [permitted].
  - by intros [= _ <-].
  - intros (l & El & -> & Hid & Hn)%create_role_Ok. apply access_ok_permissions; [eapply add_links_NoDup; [exact El|apply Hd]|].
    apply (access_ok_roles d (roles d ++ [_])%list); [apply unique_snoc; [done|apply Hd]..|done].
  - intros (r & l & Hr & <- & _ & Hn & -> & El)%update_role_row_Ok. apply access_ok_permissions.
    { destruct (ru_permission_ids data) as [ids|]; [|subst; apply Hd]. eapply add_links_NoDup; [exact El|]. apply unlink_NoDup, Hd. }
    apply access_ok_roles; [..|done].
    + unfold keys_unique, role_row_set. rewrite (update_keys_same ro_id r) by done. apply Hd.
    + apply (unique_or_free ro_id ro_name r); [apply Hd..|done|done|]. cbn.
      destruct (ru_name data) as [n|]; [right; by apply Hn|by left].
  - intros [_ ->]%delete_role_Ok. destruct (unlinked_NoDup d id Hd) as (_ & _ & _ & _ & _ & H1 & H2). destruct Hd. columns; try done;
      by apply keys_unique_delete.
  - intros (g & Eg & En & -> & Hid & Hn)%create_user_group_Ok. apply access_ok_groups; [apply unique_snoc; [congruence|apply Hd]..|done].
  - intros (g & g' & Hg & Hid & Hid' & -> & Hn)%update_user_group_Ok. apply access_ok_groups; [..|done].
    + unfold keys_unique, group_row_set. rewrite (update_keys_same ug_id g) by congruence. apply Hd.
    + apply (unique_or_free ug_id ug_name g); [apply Hd..|done|congruence|]. rewrite Hid. done.
  - intros ->%delete_user_group_Ok. destruct (unlinked_NoDup d id Hd) as (H1 & H2 & H3 & H4 & H5 & _). destruct Hd. columns; try done;
      by apply keys_unique_delete.
  - intros H. eapply access_ok_replace; [| |exact Hd|exact H]; [intros l d0 Hl []; by columns|by intros ? []].
  - intros H. eapply access_ok_replace; [| |exact Hd|exact H]; [intros l d0 Hl []; by columns|by intros ? []].
  - intros H. eapply access_ok_replace; [| |exact Hd|exact H]; [intros l d0 Hl []; by columns|by intros ? []].
  - intros H. eapply access_ok_replace; [| |exact Hd|exact H]; [intros l d0 Hl []; by columns|by intros ? []].
  - intros H. eapply access_ok_replace; [| |exact Hd|exact H]; [intros l d0 Hl []; by columns|by intros ? []].
  - intros [u E]%create_service_account_Ok. pose proof (kept_insert_user _ access_ok_kept u d Hd) as H. by rewrite E in H.
  - intros [u E]%update_service_account_Ok. pose proof (kept_write_user _ access_ok_kept u d Hd) as H. by rewrite E in H.
  - unfold delete_service_account. step_M u s1 H1. apply need_service_account_Ok in H1 as (-> & _). intros E.
    match type of E with ?m d = _ => assert (keeps access_ok m) as Hm by
      (apply keeps_bind; [apply (kept_leave _ access_ok_kept)|intros; apply (kept_delete_users _ access_ok_kept)]) end.
    specialize (Hm d Hd). by rewrite E in Hm.
  - step_M key s1 H1. apply create_api_key_Ok in H1 as (_ & _ & e & _ & (-> & H1 & H2 & H3)%insert_key_Ok). intros [= _ <-].
    apply access_ok_keys; [apply unique_snoc; [done|apply Hd]..|done].
  - intros [_ ->]%revoke_api_key_Ok. apply (access_ok_keys d (sql_delete (has_key k_id id) (api_keys d)).1); [apply unique_filter, Hd..|done].
Qed.

(** *** Arrivals *)

(** Only the columns of a key's last use change. *)
Definition forget_use (k : ApiKey) : ApiKey := k <| k_last_used_at := None |> <| k_last_used_ip := None |>.
Definition only_used (d d' : AccountsDB) : Prop :=
  d' = d <| api_keys := api_keys d' |> /\ map forget_use (api_keys d') = map forget_use (api_keys d).

Lemma only_used_refl d : only_used d d.
Proof. split; [by destruct d|done]. Qed.

Lemma only_used_touch d P now ip : only_used d (d <| api_keys ::= fun l => (sql_update P (touch_key now ip) l).1 |>).
Proof.
  split; [done|]. cbn. rewrite map_map. apply map_ext. intros k. by destruct (P k).
Qed.

Lemma one_or_none_here {R} (l : list R) d : one_or_none l d = (Ok (head l), d) \/ one_or_none l d = (Err MultipleResultsFound, d).
Proof. destruct l as [|x [|y l]]; [left; done|left; done|by right]. Qed.

(** What a key must be for its holder to be known. *)
Record key_accepted (now : Z) (token : string) (k : ApiKey) (u : User) (d : AccountsDB) : Prop := {
  ka_key : k ∈ api_keys d;
  ka_prefix : exists secret, parse_api_key token = Some (k_key_prefix k, secret);
  ka_verified : verify_api_key token (k_key_hash k) = true;
  ka_active : k_is_active k = true /\ expired now (k_expires_at k) = false;
  ka_user : u ∈ users d /\ u_id u = k_service_account_id k;
  ka_account : u_is_active u = true /\ expired now (u_expires_at u) = false
}.

Lemma authenticate_cases now token ip d : let '(r, d') := authenticate_api_key now token ip d in
  only_used d d' /\ (forall u, r = Ok (inl u) -> exists k, key_accepted now token k u d).
Proof.
  unfold authenticate_api_key, find_key, get_accounts. destruct (parse_api_key token) as [[prefix secret]|] eqn:Ep.
  2:{ split; [apply only_used_refl|by intros]. }
  rewrite <- bind_assoc. rewrite (bind_Ok _ _ d d d) by done. set (l := sql_select _ (api_keys d)).
  destruct (one_or_none_here l d) as [E|E]; [rewrite (bind_Ok _ _ _ _ _ E)|rewrite (bind_Err _ _ _ _ _ E); split; [apply only_used_refl|by intros]].
  destruct (head l) as [k|] eqn:Eh; [|split; [apply only_used_refl|by intros]].
  apply head_select_Some in Eh as [Hk Hp%has_key_true].
  destruct (k_is_active k) eqn:Ha; [|split; [apply only_used_refl|by intros]].
  destruct (expired now (k_expires_at k)) eqn:Ee; [split; [apply only_used_refl|by intros]|].
  destruct (verify_api_key token (k_key_hash k)) eqn:Ev; [|split; [apply only_used_refl|by intros]]. cbn [negb].
  rewrite (bind_Ok _ _ _ _ _ (find_user_run _ d)).
  destruct (sql_find u_id (k_service_account_id k) (users d)) as [u|] eqn:Eu; [|split; [apply only_used_refl|by intros]].
  destruct (u_is_active u) eqn:Hu; [|split; [apply only_used_refl|by intros]].
  destruct (expired now (u_expires_at u)) eqn:Eue; [split; [apply only_used_refl|by intros]|]. cbn [negb].
  split; [apply only_used_touch|]. intros u' [= <-]. exists k. apply sql_find_Some_1 in Eu. constructor; try done.
  exists secret. by rewrite Hp.
Qed.

(** Whom the middleware lets through on a path that is not public. *)
Definition credentials (now : Z) (authorization : option string) (id : string) (d : AccountsDB) : Prop :=
  exists token, authorization = Some ("Bearer " ++ token)
  /\ ((startswith "pb_" token = true /\ exists k u, key_accepted now token k u d /\ u_id u = id)
      \/ (startswith "pb_" token = false /\ exists p, verify_access_token JWT now token = Some p /\ pl_sub p = id)).

Lemma dispatch_cases now path auth client d : let '(r, d') := dispatch JWT now path auth client d in
  only_used d d' /\ (forall rq, r = Ok (Called rq) ->
     (is_public_path path = true /\ rq = unidentified client)
     \/ (is_public_path path = false /\ exists id, st_user_id rq = Some id /\ credentials now auth id d)).
Proof.
  unfold dispatch. destruct (is_public_path path) eqn:Ep; [split; [apply only_used_refl|intros rq [= <-]; by left]|].
  cbv zeta. destruct auth as [h|]; [change (default "" (Some h)) with h|split; [apply only_used_refl|by intros]].
  destruct (String.eqb h ""); [split; [apply only_used_refl|by intros]|].
  destruct (startswith "Bearer " h) eqn:Eb; cbn [negb]; [|split; [apply only_used_refl|by intros]].
  apply startswith_spec in Eb as [token ->]. rewrite (str_drop_app "Bearer " token : str_drop 7 _ = token).
  destruct (startswith "pb_" token) eqn:Et.
  - pose proof (authenticate_cases now token (default "unknown" client) d) as H.
    destruct (authenticate_api_key _ _ _ d) as [[[u|e]|e] d'] eqn:E.
    + rewrite (bind_Ok _ _ _ _ _ E). destruct H as [Hu H]. split; [done|]. intros rq [= <-]. right. split; [done|].
      exists (u_id u). split; [done|]. exists token. split; [done|]. left. split; [done|]. destruct (H u eq_refl) as [k Hk]. by exists k, u.
    + rewrite (bind_Ok _ _ _ _ _ E). split; [apply H|by intros].
    + rewrite (bind_Err _ _ _ _ _ E). split; [apply H|by intros].
  - destruct (verify_access_token JWT now token) as [p|] eqn:Ev; split; try apply only_used_refl; [|by intros].
    intros rq [= <-]. right. split; [done|]. exists (pl_sub p). split; [done|]. exists token. split; [done|]. right. split; [done|]. by exists p.
Qed.

Lemma only_used_column {K} (f : ApiKey -> K) l l' : (forall k, f (forget_use k) = f k) -> map forget_use l' = map forget_use l -> f <$> l' = f <$> l.
Proof.
  intros Hf E. change (f <$> l' = f <$> l) with (map f l' = map f l). apply (f_equal (map f)) in E. rewrite !map_map in E.
  by setoid_rewrite Hf in E.
Qed.

Lemma only_used_ok d d' : only_used d d' -> access_ok d -> access_ok d'.
Proof.
  intros [-> E] []. columns; try done; cbn [api_keys] in *; unfold keys_unique.
  - by rewrite (only_used_column k_id _ _ (fun _ => eq_refl) E).
  - by rewrite (only_used_column k_key_prefix _ _ (fun _ => eq_refl) E).
  - by rewrite (only_used_column (fun k => (k_service_account_id k, k_name k)) _ _ (fun _ => eq_refl) E).
Qed.

Definition on_accounts (r : access_request) : bool := match r with AccountRequest _ => true | _ => false end.

(** An arrival changes what the handler changes, after the middleware. *)
Lemma arrive_cases x d : let '(r, d') := arrived x d in
  (exists e, r = Err e /\ only_used d d')
  \/ exists rq d1, only_used d d1 /\ r = Ok tt
     /\ ((is_public_path (ar_path x) = true /\ rq = unidentified (ar_client x))
         \/ (is_public_path (ar_path x) = false /\ exists id, st_user_id rq = Some id /\ credentials (ar_time x) (ar_authorization x) id d))
     /\ handle_access BCRYPT JWT listed fromisoformat (ar_time x) rq (ar_authorization x) (ar_request x) d1 = (Ok tt, d').
Proof.
  unfold arrive, with_db. pose proof (dispatch_cases (ar_time x) (ar_path x) (ar_authorization x) (ar_client x) d) as H.
  destruct (dispatch _ _ _ _ _ d) as [[[rq|st de]|e] d1]; destruct H as [Hu H].
  - destruct (handle_access _ _ _ _ _ _ _ _ d1) as [[[]|e] d2] eqn:E; [|left; by exists e].
    right. exists rq, d1. do 2 (split; [done|]). split; [by apply H|done].
  - left. by eexists.
  - left. exists e. split; [done|apply only_used_refl].
Qed.

Lemma require_permission_Ok resource action rq d u d' : require_permission resource action rq d = (Ok u, d') ->
  d' = d /\ st_user_id rq = Some (u_id u) /\ u ∈ users d /\ u_is_active u = true
  /\ (is_admin u = true \/ has_permission d u resource action = true).
Proof.
  unfold require_permission, get_current_user_from_state. destruct (st_user_id rq) as [id|]; [|done]. change (default "" (Some id)) with id.
  cbv zeta. destruct (String.eqb id ""); [done|]. step_M v s1 H1. revert H1. rewrite (bind_Ok _ _ _ _ _ (find_user_run _ d)).
  destruct (sql_find u_id id (users d)) as [w|] eqn:E; [|by unfold_M]. destruct (u_is_active w) eqn:Ha; [|by unfold_M]. intros [= <- <-].
  apply sql_find_Some_1 in E as [Hw <-]. unfold get_accounts. step_M d1 s2 H2. injection H2 as <- <-.
  destruct (is_admin w) eqn:Hadm; [intros [= <- <-]; auto 10|]. destruct (has_permission d w resource action) eqn:Hp; [|by unfold_M].
  intros [= <- <-]. auto 10.
Qed.

Lemma handle_access_permitted now rq auth r d a d' : on_accounts r = false ->
  handle_access BCRYPT JWT listed fromisoformat now rq auth r d = (Ok a, d') ->
  exists cu, st_user_id rq = Some (u_id cu) /\ cu ∈ users d /\ u_is_active cu = true
  /\ (is_admin cu = true \/ has_permission d cu "user" (action_of r) = true)
  /\ permitted BCRYPT fromisoformat now r cu d = (Ok a, d').
Proof.
  intros Hr. assert (handle_access BCRYPT JWT listed fromisoformat now rq auth r
    = (cu ← require_permission "user" (action_of r) rq; permitted BCRYPT fromisoformat now r cu)) as -> by (by destruct r).
  step_M cu s1 H1. apply require_permission_Ok in H1 as (-> & Hid & Hin & Ha & Hp). intros H. by exists cu.
Qed.

Lemma handle_access_ok now rq auth r d a d' : access_ok d ->
  handle_access BCRYPT JWT listed fromisoformat now rq auth r d = (Ok a, d') -> access_ok d'.
Proof.
  intros Hd E. destruct (on_accounts r) eqn:Hr.
  - destruct r as [r| | | | | | | | | | | | | | | |]; try done. cbn [handle_access] in E.
    pose proof (keeps_handle_account BCRYPT JWT listed access_ok now rq auth r access_ok_kept d Hd) as H. by rewrite E in H.
  - apply handle_access_permitted in E as (cu & _ & _ & _ & _ & E); [|done]. by eapply permitted_ok.
Qed.

Lemma arrive_ok x d : access_ok d -> access_ok (arrived x d).2.
Proof.
  intros Hd. pose proof (arrive_cases x d) as H. destruct (arrived x d) as [r d'].
  destruct H as [(e & _ & Hu)|(rq & d1 & Hu & _ & _ & E)]; [by apply (only_used_ok d)|].
  eapply handle_access_ok; [|exact E]. by apply (only_used_ok d).
Qed.

(** Over any requests on accounts, roles, groups and keys, whoever sends them: identifiers, names, addresses,
    token hashes and key prefixes stay unique, an account's keys have different names, and nothing is linked
    twice. *)
Theorem access_tables_well_formed xs d : access_ok d -> access_ok (ran xs d).
Proof.
  unfold run_access. revert d. induction xs as [|x xs IH]; intros d Hd; [done|]. cbn. apply IH, arrive_ok, Hd.
Qed.

(** *** Permissions *)

(** C18: a request on roles, groups, service accounts or keys that changes anything comes from an active user who
    proved to be it, by a token or by a key, and who is an administrator or has the permission; every other
    one changes at most when a key was last used. *)
Theorem protected_routes_need_permission x d : on_accounts (ar_request x) = false ->
  match arrived x d with
  | (Ok _, _) =>
      is_public_path (ar_path x) = false
      /\ exists cu, cu ∈ users d /\ u_is_active cu = true /\ credentials (ar_time x) (ar_authorization x) (u_id cu) d
         /\ (is_admin cu = true \/ has_permission d cu "user" (action_of (ar_request x)) = true)
  | (Err _, d') => only_used d d'
  end.
Proof.
  intros Hr. pose proof (arrive_cases x d) as H. destruct (arrived x d) as [r d'].
  destruct H as [(e & -> & Hu)|(rq & d1 & [E1 E2] & -> & Hrq & E)]; [done|].
  apply handle_access_permitted in E as (cu & Hid & Hin & Ha & Hp & _); [|done].
  destruct Hrq as [[_ ->]|(Hpath & id & Hid' & Hc)]; [done|]. split; [done|]. assert (id = u_id cu) as -> by congruence.
  rewrite E1 in Hin, Hp. by exists cu.
Qed.

(** *** The system's roles *)

Definition roles_part (d : AccountsDB) := (roles d, role_permissions d, permissions d).

Lemma roles_part_kept v : kept_by_operations (fun d => roles_part d = v).
Proof.
  constructor; intros; intros d Hd;
    unfold insert_user, write_user, insert_token, write_token, sync_user_groups, get_accounts; unfold_M; by repeat case_match.
Qed.

Definition links_of (a : string) (l : links) : links := List.filter (fun m => String.eqb m.1 a) l.

Lemma links_of_app a l1 l2 : links_of a (l1 ++ l2)%list = (links_of a l1 ++ links_of a l2)%list.
Proof. apply List.filter_app. Qed.

Lemma links_of_new a b ts : a ≠ b -> links_of a (map (pair b) ts) = [].
Proof. intros H. induction ts as [|t ts IH]; [done|]. cbn. by rewrite (proj2 (String.eqb_neq _ _)). Qed.

Lemma links_of_unlink a b l : a ≠ b -> links_of a (unlink_owner b l) = links_of a l.
Proof.
  intros H. unfold links_of, unlink_owner. induction l as [|[x y] l IH]; [done|]. cbn. destruct (String.eqb_spec x b) as [->|Hx]; cbn.
  - by rewrite (proj2 (String.eqb_neq b a)).
  - destruct (String.eqb x a); by rewrite IH.
Qed.

Lemma linked_links_of l a b : linked (links_of a l) a b = linked l a b.
Proof.
  apply eq_true_iff_eq. rewrite !linked_true. unfold links_of. change (List.filter ?P ?t) with (sql_select P t).
  rewrite elem_of_sql_select. cbn. rewrite String.eqb_refl. tauto.
Qed.

#[local] Arguments links_of : simpl never.
#[local] Arguments unlink_owner : simpl never.

(** What makes a role what it is. *)
Definition role_is (r : Role) (L : links) (P : list Permission) (d : AccountsDB) : Prop :=
  r ∈ roles d /\ links_of (ro_id r) (role_permissions d) = L /\ permissions d = P.

Lemma role_is_perms r d d' : r ∈ roles d' -> links_of (ro_id r) (role_permissions d') = links_of (ro_id r) (role_permissions d) ->
  permissions d' = permissions d -> role_perms d' r = role_perms d r.
Proof.
  intros _ E1 E2. unfold role_perms. rewrite E2. apply List.filter_ext. intros p.
  by rewrite <- linked_links_of, E1, linked_links_of.
Qed.

Lemma permitted_keeps_role r L P now q cu d a d' : access_ok d -> ro_is_system_role r = true -> role_is r L P d ->
  permitted BCRYPT fromisoformat now q cu d = (Ok a, d') -> role_is r L P d'.
Proof.
  intros Hd Hs (Hr & HL & HP) H.
  assert (forall y, y ∈ roles d -> ro_is_system_role y = false -> ro_id r ≠ ro_id y) as Hne.
  { intros y Hy Hys E. assert (r = y) as ->; [|congruence]. by apply (key_elem_inj ro_id (roles d)); [apply Hd|..]. }
  assert (roles_part d' = roles_part d -> role_is r L P d') as Hsame by (intros [= E1 E2 E3]; unfold role_is; by rewrite E1, E2, E3).
  revert H. destruct q as [q|id data|id data|id|id data|id data|id|id ts|id ts|id ts|id ts|id ts|id salt data|id data|id|id kid sec salt acc data|acc id];
    cbn [permitted].
  - by intros [= _ <-].
  - intros (l & El & -> & Hid & _)%create_role_Ok. apply add_links_Some in El as (-> & _ & _). split; [|split; [|done]].
    + cbn. apply elem_of_app. by left.
    + cbn. rewrite links_of_app, links_of_new, app_nil_r; [done|]. intros <-. apply Hid. by apply list_elem_of_fmap_2.
  - intros (y & l & Hy & <- & Hys & _ & -> & El)%update_role_row_Ok. specialize (Hne y Hy Hys). split; [|split; [|done]].
    + cbn -[role_row_set]. unfold role_row_set. apply elem_of_update. exists r. split; [done|].
      by rewrite (proj2 (has_key_false ro_id _ r)).
    + cbn -[role_row_set]. destruct (ru_permission_ids data) as [ids|]; [|by subst]. apply add_links_Some in El as (-> & _ & _).
      by rewrite links_of_app, links_of_new, app_nil_r, links_of_unlink.
  - intros [(y & Hy & <- & Hys) ->]%delete_role_Ok. specialize (Hne y Hy Hys). split; [|split; [|done]].
    + cbn -[sql_delete]. apply elem_of_delete. split; [done|]. by apply has_key_false.
    + cbn. by rewrite links_of_unlink.
  - intros (g & _ & _ & -> & _)%create_user_group_Ok. by apply Hsame.
  - intros (g & g' & _ & _ & _ & -> & _)%update_user_group_Ok. by apply Hsame.
  - intros ->%delete_user_group_Ok. by apply Hsame.
  - intros (l & _ & ->)%assign_Ok. by apply Hsame.
  - intros (l & _ & ->)%assign_Ok. by apply Hsame.
  - intros (l & _ & ->)%assign_Ok. by apply Hsame.
  - intros (l & _ & ->)%assign_Ok. by apply Hsame.
  - intros (l & _ & ->)%assign_Ok. by apply Hsame.
  - intros [u E]%create_service_account_Ok. apply Hsame. pose proof (kept_insert_user _ (roles_part_kept (roles_part d)) u d eq_refl) as H. by rewrite E in H.
  - intros [u E]%update_service_account_Ok. apply Hsame. pose proof (kept_write_user _ (roles_part_kept (roles_part d)) u d eq_refl) as H. by rewrite E in H.
  - unfold delete_service_account. step_M u s1 H1. apply need_service_account_Ok in H1 as (-> & _). intros [= _ <-]. by apply Hsame.
  - step_M key s1 H1. apply create_api_key_Ok in H1 as (_ & _ & e & _ & (-> & _)%insert_key_Ok). intros [= _ <-]. by apply Hsame.
  - intros [_ ->]%revoke_api_key_Ok. by apply Hsame.
Qed.

(** No request touches the permissions themselves. *)
Lemma permitted_permissions now q cu d a d' : permitted BCRYPT fromisoformat now q cu d = (Ok a, d') -> permissions d' = permissions d.
Proof.
  destruct q as [q|id data|id data|id|id data|id data|id|id ts|id ts|id ts|id ts|id ts|id salt data|id data|id|id kid sec salt acc data|acc id];
    cbn [permitted].
  - by intros [= _ <-].
  - by intros (l & El & -> & _)%create_role_Ok.
  - by intros (y & l & _ & _ & _ & _ & -> & _)%update_role_row_Ok.
  - by intros [_ ->]%delete_role_Ok.
  - by intros (g & _ & _ & -> & _)%create_user_group_Ok.
  - by intros (g & g' & _ & _ & _ & -> & _)%update_user_group_Ok.
  - by intros ->%delete_user_group_Ok.
  - by intros (l & _ & ->)%assign_Ok.
  - by intros (l & _ & ->)%assign_Ok.
  - by intros (l & _ & ->)%assign_Ok.
  - by intros (l & _ & ->)%assign_Ok.
  - by intros (l & _ & ->)%assign_Ok.
  - intros [u E]%create_service_account_Ok. pose proof (kept_insert_user _ (roles_part_kept (roles_part d)) u d eq_refl) as H. rewrite E in H. by injection H.
  - intros [u E]%update_service_account_Ok. pose proof (kept_write_user _ (roles_part_kept (roles_part d)) u d eq_refl) as H. rewrite E in H. by injection H.
  - unfold delete_service_account. step_M u s1 H1. apply need_service_account_Ok in H1 as (-> & _). by intros [= _ <-].
  - step_M key s1 H1. apply create_api_key_Ok in H1 as (_ & _ & e & _ & (-> & _)%insert_key_Ok). by intros [= _ <-].
  - by intros [_ ->]%revoke_api_key_Ok.
Qed.

Lemma arrive_permissions x d : permissions (arrived x d).2 = permissions d.
Proof.
  pose proof (arrive_cases x d) as H. destruct (arrived x d) as [r d']. cbn.
  destruct H as [(e & _ & [-> _])|(rq & d1 & [E1 _] & _ & _ & E)]; [done|]. transitivity (permissions d1); [|by rewrite E1].
  destruct (on_accounts (ar_request x)) eqn:Eo.
  - destruct (ar_request x) as [y| | | | | | | | | | | | | | | |]; try done. cbn [handle_access] in E.
    pose proof (keeps_handle_account BCRYPT JWT listed _ (ar_time x) rq (ar_authorization x) y (roles_part_kept (roles_part d1)) d1 eq_refl) as Hk.
    rewrite E in Hk. by injection Hk.
  - apply handle_access_permitted in E as (cu & _ & _ & _ & _ & E); [|done]. by apply permitted_permissions in E.
Qed.

(** C19: a system role is as it was, its permissions included, after any requests. *)
Theorem system_roles_are_fixed xs d r : access_ok d -> r ∈ roles d -> ro_is_system_role r = true ->
  r ∈ roles (ran xs d) /\ role_perms (ran xs d) r = role_perms d r.
Proof.
  intros Hd Hr Hs. set (L := links_of (ro_id r) (role_permissions d)). set (P := permissions d).
  assert (role_is r L P (ran xs d)) as (H1 & H2 & H3); [|by split; [|apply role_is_perms]].
  assert (role_is r L P d) as H by done. clearbody L P. clear Hr. revert d Hd H. unfold run_access.
  induction xs as [|x xs IH]; intros d Hd H; [done|]. cbn. apply IH; [by apply arrive_ok|]. clear IH.
  pose proof (arrive_cases x d) as Hx. destruct (arrived x d) as [q d']. cbn.
  assert (forall d1, only_used d d1 -> role_is r L P d1) as Hused by (by intros d1 [-> _]).
  destruct Hx as [(e & _ & Hu)|(rq & d1 & Hu & _ & _ & E)]; [by apply Hused|]. specialize (Hused d1 Hu). destruct (on_accounts (ar_request x)) eqn:Eo.
  - destruct (ar_request x) as [y| | | | | | | | | | | | | | | |]; try done. cbn [handle_access] in E.
    pose proof (keeps_handle_account BCRYPT JWT listed _ (ar_time x) rq (ar_authorization x) y (roles_part_kept (roles_part d1)) d1 eq_refl) as Hk.
    rewrite E in Hk. injection Hk as E1 E2 E3. unfold role_is. by rewrite E1, E2, E3.
  - apply handle_access_permitted in E as (cu & _ & _ & _ & _ & E); [|done].
    eapply permitted_keeps_role; [|exact Hs|exact Hused|exact E]. by apply (only_used_ok d).
Qed.

(** *** The life of a key *)

(** What the holder of the key [k] of the account [u] is answered. *)
Definition key_answer (now : Z) (k : ApiKey) (u : User) : User + string :=
  if expired now (k_expires_at k) then inr "API key has expired"
  else if negb (u_is_active u) then inr "Service account is disabled"
  else if expired now (u_expires_at u) then inr "Service account has expired" else inl u.

Lemma authenticate_known now token ip k u secret d : access_ok d -> k ∈ api_keys d -> parse_api_key token = Some (k_key_prefix k, secret) ->
  verify_api_key token (k_key_hash k) = true -> k_is_active k = true -> u ∈ users d -> u_id u = k_service_account_id k ->
  (authenticate_api_key now token ip d).1 = Ok (key_answer now k u).
Proof.
  intros Hd Hk Hp Hv Ha Hu Hid. unfold authenticate_api_key, key_answer, find_key, get_accounts. rewrite Hp.
  rewrite <- bind_assoc. rewrite (bind_Ok _ _ d d d) by done. rewrite (select_key k_key_prefix _ _ (ac_prefixes _ Hd) Hk).
  rewrite (bind_Ok _ _ d (Some k) d) by done. rewrite Ha. cbn [negb]. destruct (expired now (k_expires_at k)); [done|].
  rewrite Hv. cbn [negb]. rewrite (bind_Ok _ _ _ _ _ (find_user_run _ d)).
  rewrite (sql_find_Some u_id (users d) _ u (ao_ids _ (ac_accounts _ Hd)) Hu Hid).
  destruct (u_is_active u); [|done]. by destruct (expired now (u_expires_at u)).
Qed.

Definition no_underscore (s : string) : bool := str_forall (fun c => negb (Ascii.eqb "_" c)) s.

Lemma split_key a b : no_underscore a = true -> no_underscore b = true ->
  split_on "_" ("pb_live_" ++ a ++ "_" ++ b) = ["pb"; "live"; a; b].
Proof.
  intros Ha Hb. change ("pb_live_" ++ a ++ "_" ++ b) with (PyStr.join "_" ["pb"; "live"; a; b]).
  apply split_on_join; [done|]. by repeat constructor.
Qed.

Lemma dispatch_bearer_key now path token client d : is_public_path path = false -> startswith "pb_" token = true ->
  dispatch JWT now path (Some ("Bearer " ++ token)) client d
  = (answer ← authenticate_api_key now token (default "unknown" client);
     match answer with
     | inr error => mret (Answered 401 error)
     | inl user => mret (Called (identified client (u_id user) (u_username user) (u_role user) "api_key"))
     end) d.
Proof.
  intros Hp Ht. unfold dispatch. rewrite Hp. cbv zeta. change (default "" (Some ?h)) with h. rewrite startswith_app.
  rewrite (str_drop_app "Bearer " token : str_drop 7 _ = token), Ht. done.
Qed.

(** C20: a key is kept with the expiry asked for. In any tables that still have it and its account, its
    holder comes in as that service account while the key has not expired and the account is active and
    has not expired; afterwards the answer is 401 with the reason; and once it is revoked it is unknown. *)
Theorem key_opens_until_revoked id key_id secret salt account data cu d key d1 : access_ok d -> CryptoLaws ->
  no_underscore key_id = true -> no_underscore secret = true ->
  create_api_key fromisoformat id key_id secret salt account data cu d = (Ok key, d1) ->
  exists k, access_ok d1 /\ k ∈ api_keys d1 /\ account ∈ u_id <$> users d1
    /\ asked_expiry fromisoformat (kc_expires_at data) = Some (k_expires_at k)
    /\ forall d' k', access_ok d' -> k' ∈ api_keys d' -> forget_use k' = forget_use k ->
       (forall u now path client, u ∈ users d' -> u_id u = account -> is_public_path path = false ->
          (dispatch JWT now path (Some ("Bearer " ++ key)) client d').1
          = Ok (if expired now (k_expires_at k) then Answered 401 "API key has expired"
                else if negb (u_is_active u) then Answered 401 "Service account is disabled"
                else if expired now (u_expires_at u) then Answered 401 "Service account has expired"
                else Called (identified client account (u_username u) (u_role u) "api_key")))
       /\ forall d2, revoke_api_key account id d' = (Ok tt, d2) -> forall now path client, is_public_path path = false ->
          dispatch JWT now path (Some ("Bearer " ++ key)) client d2 = (Ok (Answered 401 "API key not found"), d2).
Proof.
  intros Hd HL Hki Hse H. assert (access_ok d1) as Hd1.
  { apply (permitted_ok 0 (CreateApiKey id key_id secret salt account data) cu d tt d1 Hd). cbn [permitted]. by rewrite (bind_Ok _ _ _ _ _ H). }
  apply create_api_key_Ok in H as ((u0 & Hu0 & Hid0 & _) & -> & e & He & (-> & _)%insert_key_Ok).
  set (k := new_key _ _ _ _ _ _ _ _) in *. set (key := "pb_live_" ++ key_id ++ "_" ++ secret).
  exists k. split; [done|]. split; [apply elem_of_app; right; by left|]. split; [rewrite <- Hid0; by apply list_elem_of_fmap_2|]. split; [done|].
  intros d' k' Hd' Hk' Hsame. pose proof (f_equal k_id Hsame) as S1. pose proof (f_equal k_key_prefix Hsame) as S2.
  pose proof (f_equal k_key_hash Hsame) as S3. pose proof (f_equal k_is_active Hsame) as S4. pose proof (f_equal k_expires_at Hsame) as S5.
  pose proof (f_equal k_service_account_id Hsame) as S6. cbn in S1, S2, S3, S4, S5, S6.
  assert (parse_api_key key = Some (k_key_prefix k', secret)) as Hparse by (unfold parse_api_key, key; by rewrite split_key, S2).
  assert (startswith "pb_" key = true) as Hpb by done.
  split.
  - intros u now path client Hu Hid Hpath. rewrite (dispatch_bearer_key _ _ _ _ _ Hpath Hpb).
    assert (verify_api_key key (k_key_hash k') = true) as Hv.
    { unfold verify_api_key, key. rewrite split_key, S3 by done. apply bcrypt_accepts. }
    pose proof (authenticate_known now key (default "unknown" client) k' u secret d' Hd' Hk' Hparse Hv S4 Hu ltac:(congruence)) as E.
    destruct (authenticate_api_key _ _ _ _) as [r d2] eqn:Er. cbn in E. subst r. rewrite (bind_Ok _ _ _ _ _ Er). unfold key_answer.
    rewrite S5. change (k_expires_at k) with e. destruct (expired now e); [done|]. destruct (u_is_active u); [|done].
    cbn [negb]. destruct (expired now (u_expires_at u)); [done|]. by rewrite Hid.
  - intros d2 [_ ->]%revoke_api_key_Ok now path client Hpath. rewrite (dispatch_bearer_key _ _ _ _ _ Hpath Hpb).
    match goal with |- _ ?s = _ => set (d2 := s) end. rewrite (bind_Ok _ _ d2 (inr "API key not found") d2); [done|].
    unfold authenticate_api_key. rewrite Hparse. rewrite (bind_Ok _ _ d2 None d2); [done|].
    assert (find_key (k_key_prefix k') d2 = one_or_none (sql_select (has_key k_key_prefix (k_key_prefix k')) (api_keys d2)) d2) as -> by done.
    destruct (sql_select _ _) as [|x l] eqn:E; [done|].
    assert (x ∈ sql_select (has_key k_key_prefix (k_key_prefix k')) (api_keys d2)) as [Hx Hxp%has_key_true]%elem_of_sql_select by (rewrite E; by left).
    unfold d2 in Hx. cbn -[sql_delete] in Hx. apply elem_of_delete in Hx as [Hx Hne%has_key_false].
    destruct Hne. rewrite <- S1. f_equal. by apply (key_elem_inj k_key_prefix (api_keys d')); [apply Hd'|..].
Qed.
End Theorems.

(** ** Assignments *)

(** Assigning members replaces them: it succeeds exactly for an existing group and users without repetition,
    and then the group has these members and every other group its own. *)
Theorem assignment_replaces_members id ts d : access_ok d ->
  let '(r, d') := assign_members id ts d in
  (r = Ok tt <-> id ∈ ug_id <$> user_groups d /\ NoDup ts)
  /\ (r = Ok tt -> forall g u, (g, u) ∈ group_members d' <-> if String.eqb g id then u ∈ ts else (g, u) ∈ group_members d)
  /\ (r ≠ Ok tt -> d' = d).
Proof.
  intros Hd. unfold assign_members, assign, need_group, get_accounts. destruct (sql_find ug_id id (user_groups d)) as [g0|] eqn:E.
  - rewrite (bind_Ok _ _ d g0 d) by (unfold_M; by rewrite E). rewrite (bind_Ok _ _ d d d) by done.
    apply sql_find_Some_1 in E as [Hin <-]. pose proof (replace_links_spec (ug_id g0) ts (group_members d)) as H.
    destruct (decide (NoDup ts)) as [Hn|Hn]; rewrite H; unfold_M; cbn.
    + split; [split; [intros _; split; [by apply list_elem_of_fmap_2|done]|done]|]. split; [|done]. intros _ g u.
      rewrite elem_of_app, elem_of_unlink. setoid_rewrite list_elem_of_fmap. destruct (String.eqb_spec g (ug_id g0)) as [->|Hg].
      * split; [by intros [[_ ?]|(t & [= ->] & Ht)]|]. intros Hu. right. by exists u.
      * split; [by intros [[? _]|(t & [= ? _] & _)]|]. intros Hu. by left.
    + split; [by split; [|intros [_ ?]]|]. by split.
  - rewrite (bind_Err _ _ d (HTTPException 404 "User group not found") d) by (unfold_M; by rewrite E).
    apply sql_find_None in E. split; [by split; [|intros [? _]]|]. by split.
Qed.

(** ** Concrete requests *)

Definition user_updater : Role := {| ro_id := "r1"; ro_name := "helpdesk"; ro_description := None; ro_is_system_role := false |}.
Definition admin_role : Role := {| ro_id := "r0"; ro_name := "admin"; ro_description := None; ro_is_system_role := true |}.
Definition clerk : User := (new_user "3" "clerk" None "$2abcdefgh" "viewer" 0) <| u_role_id := Some "r1" |>.

Definition access0 : AccountsDB :=
  accounts0 <| users := [root_user; eve_user; clerk] |> <| roles := [admin_role; user_updater] |>
            <| permissions := [{| pm_id := "p1"; pm_resource := "user"; pm_action := "update" |};
                               {| pm_id := "p2"; pm_resource := "user"; pm_action := "create" |}] |>
            <| role_permissions := [("r1", "p1"); ("r1", "p2"); ("r0", "p1")] |>.

Lemma access0_ok : access_ok access0.
Proof. constructor; [constructor|..]; apply (bool_decide_unpack _); by vm_compute. Qed.

Definition iso (s : string) : option Z := None.
Definition from (u : User) (r : access_request) : Arrival :=
  {| ar_time := 0; ar_path := "/api/v1/roles"; ar_authorization := bearer u; ar_client := None; ar_request := r |}.
Definition robot : ServiceAccountCreate := {| sc_username := "robot"; sc_description := None; sc_role_id := Some "r0"; sc_expires_at := None |}.

(** Who may create users may create an administrator: a service account with the role of one, and a key
    that opens it. *)
Definition as_clerk : list Arrival :=
  [from clerk (CreateServiceAccount "4" "salt" robot);
   from clerk (CreateApiKey "k" "00000000" "secret" "salt" "4" {| kc_name := "key"; kc_expires_at := None |})].

Example user_creators_make_administrators :
  (dispatch true 0 "/api/v1/roles" (Some "Bearer pb_live_00000000_secret") None (run_access true true no_list iso as_clerk access0)).1
  = Ok (Called (identified None "4" "robot" "admin" "api_key")).
Proof. vm_compute. reflexivity. Qed.

(** A service account can log in with a password, which its name gives away. *)
Example service_account_password :
  is_ok (login true true 0 nobody "robot" "svc-robot-disabled" None "t2" "new" (run_access true true no_list iso as_clerk access0)).1 = true.
Proof. vm_compute. reflexivity. Qed.

(** Site agents send no credentials, and the endpoints they call are not public. *)
Theorem agents_are_refused `{Crypto} jwt now path client d :
  path ∈ ["/api/v1/agents/register"; "/api/v1/agents/heartbeat"] ->
  dispatch jwt now path None client d = (Ok (Answered 401 "Not authenticated"), d).
Proof.
  intros Hp. assert (is_public_path path = false) as E by (repeat (apply elem_of_cons in Hp as [->|Hp]; [by vm_compute|]); by apply not_elem_of_nil in Hp).
  unfold dispatch. by rewrite E.
Qed.

Lemma access_tables_well_formed_witness :
  access_ok (run_access true true no_list iso (as_clerk ++ [from root_user (AccountRequest (DeleteUser "2"))])%list access0).
Proof. apply access_tables_well_formed, access0_ok. Defined.

Lemma system_roles_are_fixed_witness :
  admin_role ∈ roles (run_access true true no_list iso
    [from root_user (DeleteRole "r0"); from clerk (UpdateRole "r0" {| ru_name := Some "x"; ru_description := None; ru_permission_ids := Some [] |})] access0).
Proof. apply system_roles_are_fixed; [exact access0_ok|by left|done]. Defined.

Lemma protected_routes_need_permission_witness :
  (arrive true true no_list iso (from eve_user (DeleteRole "r1")) access0).1 = Err (HTTPException 403 "Permission denied: user:delete")
  /\ only_used access0 (arrive true true no_list iso (from eve_user (DeleteRole "r1")) access0).2.
Proof.
  pose proof (protected_routes_need_permission true true no_list iso (from eve_user (DeleteRole "r1")) access0 eq_refl) as H.
  destruct (arrive _ _ _ _ _ _) as [r d'] eqn:E. vm_compute in E. injection E as <- <-. split; [done|exact H].
Defined.

Definition iso_2030 (s : string) : option Z := if String.eqb s "2030-01-01" then Some 100%Z else None.
Definition short_lived : ApiKeyCreate := {| kc_name := "key"; kc_expires_at := Some "2030-01-01" |}.

(** A key that expires at 100: it opens at 99, and neither later nor after it is revoked. *)
Lemma key_opens_until_revoked_witness : exists d1 k,
  create_api_key iso_2030 "k" "00000000" "secret" "salt" "4" short_lived clerk
    (run_access true true no_list iso (take 1 as_clerk) access0) = (Ok "pb_live_00000000_secret", d1)
  /\ k_expires_at k = Some 100%Z
  /\ (forall u, u ∈ users d1 -> u_id u = "4" -> u_is_active u = true -> u_expires_at u = None ->
       (dispatch true 99 "/api/v1/roles" (Some ("Bearer " ++ "pb_live_00000000_secret")) None d1).1
         = Ok (Called (identified None "4" (u_username u) (u_role u) "api_key"))
       /\ (dispatch true 101 "/api/v1/roles" (Some ("Bearer " ++ "pb_live_00000000_secret")) None d1).1
         = Ok (Answered 401 "API key has expired"))
  /\ forall d2, revoke_api_key "4" "k" d1 = (Ok tt, d2) ->
       dispatch true 0 "/api/v1/roles" (Some ("Bearer " ++ "pb_live_00000000_secret")) None d2 = (Ok (Answered 401 "API key not found"), d2).
Proof.
  exists (create_api_key iso_2030 "k" "00000000" "secret" "salt" "4" short_lived clerk
    (run_access true true no_list iso (take 1 as_clerk) access0)).2.
  destruct (key_opens_until_revoked true true iso_2030 "k" "00000000" "secret" "salt" "4" short_lived clerk
    (run_access true true no_list iso (take 1 as_clerk) access0) "pb_live_00000000_secret"
    (create_api_key iso_2030 "k" "00000000" "secret" "salt" "4" short_lived clerk
      (run_access true true no_list iso (take 1 as_clerk) access0)).2) as (k & Hok & Hk & _ & He & H);
    [apply access_tables_well_formed, access0_ok|exact toy_crypto_laws|done|done|by vm_compute|].
  exists k. destruct (H _ k Hok Hk eq_refl) as [Hu Hr]. injection He as He. rewrite <- He in Hu.
  split; [by vm_compute|]. split; [done|]. split; [|intros d2 H2; by apply Hr].
  intros u Hin Hid Ha Hx. split.
  - rewrite (Hu u 99%Z "/api/v1/roles" None Hin Hid eq_refl), Ha, Hx. reflexivity.
  - rewrite (Hu u 101%Z "/api/v1/roles" None Hin Hid eq_refl). reflexivity.
Defined.

Lemma assignment_replaces_members_witness : (assign_members "g" ["2"; "3"] access0).1 = Ok tt.
Proof.
  pose proof (assignment_replaces_members "g" ["2"; "3"] access0 access0_ok) as H. destruct (assign_members _ _ _) as [r d'].
  apply H. split; apply (bool_decide_unpack _); by vm_compute.
Defined.
