(* ===== verification/Seed.v ===== *)
(** * The default rows of the database

    [db/seed.py], on the tables of Accounts: permissions, roles and their
    permissions, user groups and their roles, and the first administrator.  One
    session adds them all and commits at the end.  The uuid that the run draws for
    a row is a parameter; the descriptions of permissions are left out, as they
    are in the table. *)
From S2P Require Import Prelude PyStr SqlTable Controller Accounts Access.
From stdpp Require Import base tactics list strings countable pretty.
From Stdlib Require Import ZArith Lia.
Open Scope string_scope.
#[local] Arguments String.append !_ _ : simpl nomatch.

(** ** The defaults *)

Definition PERMISSIONS : list (string * string) :=
  [("node", "create"); ("node", "read"); ("node", "update"); ("node", "delete"); ("node", "transition");
   ("group", "create"); ("group", "read"); ("group", "update"); ("group", "delete");
   ("user", "create"); ("user", "read"); ("user", "update"); ("user", "delete");
   ("workflow", "read"); ("workflow", "execute");
   ("storage", "create"); ("storage", "read"); ("storage", "update"); ("storage", "delete");
   ("system", "read"); ("system", "configure");
   ("approval", "read"); ("approval", "vote"); ("approval", "manage");
   ("audit", "read"); ("audit", "export");
   ("ldap", "read"); ("ldap", "write")].

(** No list of permissions is the star. *)
Record RoleDef := { rd_description : string; rd_is_system_role : bool; rd_permissions : option (list (string * string)) }.

Definition ROLES : list (string * RoleDef) :=
  [("admin", {| rd_description := "Full system access"; rd_is_system_role := true; rd_permissions := None |});
   ("operator", {| rd_description := "Node and workflow management"; rd_is_system_role := true; rd_permissions := Some
      [("node", "create"); ("node", "read"); ("node", "update"); ("node", "transition"); ("group", "read"); ("workflow", "read");
       ("workflow", "execute"); ("storage", "read"); ("system", "read"); ("approval", "read"); ("approval", "vote")] |});
   ("viewer", {| rd_description := "Read-only access"; rd_is_system_role := true; rd_permissions := Some
      [("node", "read"); ("group", "read"); ("workflow", "read"); ("storage", "read"); ("system", "read"); ("approval", "read")] |});
   ("auditor", {| rd_description := "Audit log access"; rd_is_system_role := true; rd_permissions := Some
      [("node", "read"); ("group", "read"); ("system", "read"); ("audit", "read"); ("audit", "export")] |})].

Record GroupDef := { gd_description : string; gd_requires_approval : bool; gd_roles : list string }.

Definition USER_GROUPS : list (string * GroupDef) :=
  [("Administrators", {| gd_description := "Full system administrators"; gd_requires_approval := false; gd_roles := ["admin"] |});
   ("Operators", {| gd_description := "Node operators and workflow managers"; gd_requires_approval := false; gd_roles := ["operator"] |});
   ("Viewers", {| gd_description := "Read-only access for monitoring"; gd_requires_approval := false; gd_roles := ["viewer"] |});
   ("Auditors", {| gd_description := "Audit and compliance team"; gd_requires_approval := false; gd_roles := ["auditor"] |})].

(** ** Seeding *)

(** The rows that may be added. *)
Inductive default_row : Type :=
| PermissionRow (ra : string * string)
| RoleRow (name : string)
| GroupRow (name : string)
| AdminRow.

(** A dict with distinct keys, in the order of its insertions. *)
Definition dict_get {K V} `{EqDecision K} (k : K) (m : list (K * V)) : option V := snd <$> List.find (fun kv => bool_decide (kv.1 = k)) m.

Definition pair_of (p : Permission) : string * string := (pm_resource p, pm_action p).
Definition is_permission (ra : string * string) (p : Permission) : bool := bool_decide (pair_of p = ra).

Definition insert_permission (p : Permission) : AccountsM unit :=
  d ← get_accounts;
  match sql_insert pm_id p (permissions d) with
  | None => raise IntegrityError
  | Some l => if existsb (is_permission (pair_of p)) (permissions d) then raise IntegrityError else modify (fun d => d <| permissions := l |>)
  end.

Section Seed.
Context {C : Crypto} (BCRYPT_AVAILABLE : bool) (uuid4 : default_row -> string) (salt : string) (now : Z).

Definition new_permission (ra : string * string) : Permission :=
  {| pm_id := uuid4 (PermissionRow ra); pm_resource := ra.1; pm_action := ra.2 |}.

Definition seed_permission (ra : string * string) : AccountsM ((string * string) * Permission) :=
  d ← get_accounts;
  perm ← one_or_none (sql_select (is_permission ra) (permissions d));
  match perm with
  | Some perm => mret (ra, perm)
  | None => insert_permission (new_permission ra);; mret (ra, new_permission ra)
  end.

Definition seed_permissions : AccountsM (list ((string * string) * Permission)) := mapM seed_permission PERMISSIONS.

Definition granted (def : RoleDef) (perm_map : list ((string * string) * Permission)) : list Permission :=
  match rd_permissions def with
  | None => perm_map.*2
  | Some wanted => omap (fun p => dict_get p perm_map) wanted
  end.

Definition new_role (name : string) (def : RoleDef) : Role :=
  {| ro_id := uuid4 (RoleRow name); ro_name := name; ro_description := Some (rd_description def); ro_is_system_role := rd_is_system_role def |}.

Definition seed_role (perm_map : list ((string * string) * Permission)) (x : string * RoleDef) : AccountsM (string * Role) :=
  let '(role_name, role_def) := x in
  d ← get_accounts;
  role ← one_or_none (sql_select (has_key ro_name role_name) (roles d));
  match role with
  | Some role => mret (role_name, role)
  | None =>
      let role := new_role role_name role_def in
      insert_role role;;
      d ← get_accounts;
      write_links set_permissions (add_links (ro_id role) (pm_id <$> granted role_def perm_map) (role_permissions d));;
      mret (role_name, role)
  end.

Definition seed_roles (perm_map : list ((string * string) * Permission)) : AccountsM (list (string * Role)) := mapM (seed_role perm_map) ROLES.

Definition new_user_group (name : string) (def : GroupDef) : UserGroup :=
  {| ug_id := uuid4 (GroupRow name); ug_name := name; ug_description := Some (gd_description def);
     ug_requires_approval := gd_requires_approval def; ug_ldap_group_dn := None |}.

Definition seed_user_group (role_map : list (string * Role)) (x : string * GroupDef) : AccountsM (string * UserGroup) :=
  let '(group_name, group_def) := x in
  d ← get_accounts;
  group ← one_or_none (sql_select (has_key ug_name group_name) (user_groups d));
  match group with
  | Some group => mret (group_name, group)
  | None =>
      let group := new_user_group group_name group_def in
      insert_group group;;
      d ← get_accounts;
      write_links (fun l d => d <| group_roles := l |>)
        (add_links (ug_id group) (ro_id <$> omap (fun n => dict_get n role_map) (gd_roles group_def)) (group_roles d));;
      mret (group_name, group)
  end.

Definition seed_user_groups (role_map : list (string * Role)) : AccountsM (list (string * UserGroup)) := mapM (seed_user_group role_map) USER_GROUPS.

Definition admin_user (role_map : list (string * Role)) : User :=
  (new_user (uuid4 AdminRow) "admin" (Some "admin@localhost") (hash_password BCRYPT_AVAILABLE salt "admin") "admin" now)
    <| u_role_id := ro_id <$> dict_get "admin" role_map |>.

Definition seed_admin_user (role_map : list (string * Role)) : AccountsM unit :=
  d ← get_accounts;
  match users d with
  | _ :: _ => mret tt
  | [] => insert_user (admin_user role_map)
  end.

Definition seed_database : AccountsM unit := with_db (
  perm_map ← seed_permissions;
  role_map ← seed_roles perm_map;
  seed_user_groups role_map;;
  seed_admin_user role_map).
End Seed.

(** ** What seeding adds *)

(** Six tables grow at the end, and nothing else changes. *)
Definition appended (d d' : AccountsDB) : Prop :=
  exists ps rs ls us gs ms, d' = d <| permissions ::= fun l => (l ++ ps)%list |> <| roles ::= fun l => (l ++ rs)%list |>
    <| role_permissions ::= fun l => (l ++ ls)%list |> <| users ::= fun l => (l ++ us)%list |>
    <| user_groups ::= fun l => (l ++ gs)%list |> <| group_roles ::= fun l => (l ++ ms)%list |>.

Lemma appended_refl d : appended d d.
Proof. exists [], [], [], [], [], []. destruct d. cbn. by rewrite !app_nil_r. Qed.

Lemma appended_trans d1 d2 d3 : appended d1 d2 -> appended d2 d3 -> appended d1 d3.
Proof.
  intros (p & r & l & u & g & m & ->) (p' & r' & l' & u' & g' & m' & ->).
  exists (p ++ p')%list, (r ++ r')%list, (l ++ l')%list, (u ++ u')%list, (g ++ g')%list, (m ++ m')%list. destruct d1. cbn. by rewrite !(assoc_L (++)%list).
Qed.

#[export] Instance appended_preorder : PreOrder appended.
Proof. split; [exact appended_refl|exact appended_trans]. Qed.

Definition fixed_part (d : AccountsDB) := (refresh_tokens d, api_keys d, group_members d, group_device_groups d, group_tags d, group_nodes d, audit_logs d).

Section Runs.
Context {C : Crypto}.

(** A loop that keeps an invariant and only appends establishes what each round does. *)
Lemma mapM_run {X Y} (I : AccountsDB -> Prop) (R : X -> Y -> AccountsDB -> Prop) (f : X -> AccountsM Y) l :
  (forall x d, x ∈ l -> I d -> exists y d', f x d = (Ok y, d') /\ I d' /\ appended d d' /\ R x y d') ->
  (forall x y d d', R x y d -> appended d d' -> R x y d') ->
  forall d, I d -> exists ys d', mapM f l d = (Ok ys, d') /\ I d' /\ appended d d' /\ Forall2 (fun x y => R x y d') l ys.
Proof.
  intros Hf HR. induction l as [|x l IH]; intros d Hd; [by exists [], d|].
  destruct (Hf x d) as (y & d1 & E1 & H1 & A1 & R1); [by left|done|].
  destruct (fun H => IH H d1 H1) as (ys & d2 & E2 & H2 & A2 & R2); [intros z e Hz; apply Hf; by right|].
  exists (y :: ys), d2. cbn. rewrite (bind_Ok _ _ _ _ _ E1), (bind_Ok _ _ _ _ _ E2).
  split; [done|]. split; [done|]. split; [by etrans|]. constructor; [by apply (HR x y d1)|done].
Qed.

(** A loop whose rounds change nothing. *)
Lemma mapM_idle {X Y} (R : X -> Y -> Prop) (f : X -> AccountsM Y) l d : (forall x, x ∈ l -> exists y, f x d = (Ok y, d) /\ R x y) ->
  exists ys, mapM f l d = (Ok ys, d) /\ Forall2 R l ys.
Proof.
  induction l as [|x l IH]; intros Hf; [by exists []|]. destruct (Hf x) as (y & E & Hy); [by left|].
  destruct IH as (ys & E' & Hys); [intros z Hz; apply Hf; by right|]. exists (y :: ys). cbn. rewrite (bind_Ok _ _ _ _ _ E), (bind_Ok _ _ _ _ _ E').
  split; [done|by constructor].
Qed.

Lemma dict_get_found {K V} `{EqDecision K} (Q : K -> V -> Prop) ks (m : list (K * V)) k :
  Forall2 (fun k y => y.1 = k /\ Q k y.2) ks m -> k ∈ ks -> exists v, dict_get k m = Some v /\ Q k v.
Proof.
  unfold dict_get. induction 1 as [|k' [k2 v] ks m [Ek Hv] _ IH]; [by intros ?%not_elem_of_nil|]. cbn in *. subst k2.
  destruct (decide (k' = k)) as [->|Hne]; [rewrite bool_decide_true by done; intros _; by exists v|rewrite bool_decide_false by done].
  intros [->|Hin]%elem_of_cons; [done|]. by apply IH.
Qed.

Lemma omap_found {K V} (Q : K -> V -> Prop) (g : K -> option V) ks : (forall k, k ∈ ks -> exists v, g k = Some v /\ Q k v) -> Forall2 Q ks (omap g ks).
Proof.
  induction ks as [|k ks IH]; intros Hg; [constructor|]. cbn. destruct (Hg k) as (v & -> & Hv); [by left|].
  constructor; [done|]. apply IH. intros k' Hk. apply Hg. by right.
Qed.

Lemma NoDup_fmap_elem {R K} (f : R -> K) l x y : NoDup (f <$> l) -> x ∈ l -> y ∈ l -> f x = f y -> x = y.
Proof.
  induction l as [|z l IH]; [by intros _ ?%not_elem_of_nil|]. rewrite fmap_cons, NoDup_cons. intros [Hz Hl].
  intros [->|Hx]%elem_of_cons [->|Hy]%elem_of_cons E; [done|..|by apply IH].
  - destruct Hz. rewrite E. by apply list_elem_of_fmap_2.
  - destruct Hz. rewrite <- E. by apply list_elem_of_fmap_2.
Qed.

Lemma links_NoDup (l : links) a (ts : list string) : NoDup l -> NoDup ts -> (forall b, (a, b) ∉ l) -> NoDup (l ++ map (pair a) ts)%list.
Proof.
  intros Hl Hts Hn. apply NoDup_app. split; [done|]. split; [|apply NoDup_fmap_2; [by intros ?? [= ->]|done]].
  intros [x y] Hin (t & [= -> ->] & _)%list_elem_of_fmap. by apply (Hn t).
Qed.

(** Rows of a table that are known by their keys. *)
Definition known {K V} (key : V -> K) (P : list V) (k : K) (v : V) : Prop := v ∈ P /\ key v = k.

Lemma known_ids {K V} (key : V -> K) (id : V -> string) P ks vs v : keys_unique id P -> NoDup (key <$> P) -> Forall2 (known key P) ks vs -> v ∈ P ->
  id v ∈ id <$> vs <-> key v ∈ ks.
Proof.
  intros Hi Hn H Hv. induction H as [|k q ks vs [Hq <-] _ IH]; [cbn; by rewrite !elem_of_nil|].
  rewrite fmap_cons, !elem_of_cons, IH. split; (intros [E|?]; [left|by right]); f_equal; [by apply (key_elem_inj id P)|].
  by apply (NoDup_fmap_elem key P).
Qed.

Lemma known_NoDup {K V} (key : V -> K) (id : V -> string) P ks vs : keys_unique id P -> NoDup ks -> Forall2 (known key P) ks vs -> NoDup (id <$> vs).
Proof.
  intros Hi Hn H.
  assert (key <$> vs = ks) as E by (clear Hn; induction H as [|k q ks vs [_ <-] _ IH]; [done|by rewrite fmap_cons, IH]).
  assert (forall q, q ∈ vs -> q ∈ P) as Hin.
  { clear Hn E. induction H as [|k q ks vs [Hq _] _ IH]; [by intros ? ?%not_elem_of_nil|]. by intros y [->|Hy]%elem_of_cons; [|apply IH]. }
  apply NoDup_fmap_2_strong; [|apply (NoDup_fmap_1 key); by rewrite E]. intros p q Hp Hq Eid. apply (key_elem_inj id P); [done| | |done]; by apply Hin.
Qed.

(** A dict from the keys to their rows. *)
Definition dict_of {K V} (key : V -> K) (P : list V) (ks : list K) (m : list (K * V)) : Prop := Forall2 (fun k y => y.1 = k /\ known key P k y.2) ks m.

Lemma dict_known {K V} `{EqDecision K} (key : V -> K) P ks (m : list (K * V)) l : dict_of key P ks m -> Forall (fun k => k ∈ ks) l ->
  Forall2 (known key P) l (omap (fun k => dict_get k m) l).
Proof. intros Hm Hl. apply omap_found. intros k Hk. apply (dict_get_found _ ks); [done|]. by apply (proj1 (Forall_forall _ _) Hl). Qed.

(** The row of a key, or none. *)
Lemma one_or_none_key {R K} `{EqDecision K} (key : R -> K) (P : R -> bool) k l (d : AccountsDB) : (forall r, P r = true <-> key r = k) ->
  NoDup (key <$> l) ->
  (exists r, one_or_none (sql_select P l) d = (Ok (Some r), d) /\ r ∈ l /\ key r = k)
  \/ one_or_none (sql_select P l) d = (Ok None, d) /\ k ∉ key <$> l.
Proof.
  intros HP Hl. destruct (sql_select P l) as [|r t] eqn:E.
  - right. split; [done|]. intros (r & -> & Hr)%list_elem_of_fmap. apply (not_elem_of_nil r). rewrite <- E. apply elem_of_sql_select. by rewrite HP.
  - left. exists r. assert (r ∈ sql_select P l) as [Hr Hk]%elem_of_sql_select by (rewrite E; by left).
    assert (t = []) as ->; [|split; [done|]; split; [done|by apply HP]].
    assert (NoDup (key <$> sql_select P l)) as Hn by (eapply sublist_NoDup; [exact Hl|]; apply fmap_sublist, filter_sublist).
    rewrite E in Hn. destruct t as [|r' t]; [done|]. cbn in Hn. apply NoDup_cons in Hn as [[]%not_elem_of_cons _].
    assert (r' ∈ sql_select P l) as [_ Hk']%elem_of_sql_select by (rewrite E; right; by left). apply HP in Hk, Hk'. congruence.
Qed.
End Runs.

(** ** Seeding succeeds *)

Section Seeding.
Context {C : Crypto} (BCRYPT_AVAILABLE : bool) (uuid4 : default_row -> string) (salt : string) (now : Z) (uuid4_inj : Inj (=) (=) uuid4).

(** Tables as they are before and while seeding: what has an identifier that the run draws is the row it draws it for. *)
Record seed_ok (d : AccountsDB) : Prop := {
  sd_access : access_ok d;
  sd_ids : keys_unique pm_id (permissions d);
  sd_pairs : NoDup (pair_of <$> permissions d);
  sd_permissions p x : p ∈ permissions d -> pm_id p = uuid4 x -> x = PermissionRow (pair_of p);
  sd_roles r x : r ∈ roles d -> ro_id r = uuid4 x -> x = RoleRow (ro_name r);
  sd_groups g x : g ∈ user_groups d -> ug_id g = uuid4 x -> x = GroupRow (ug_name g);
  sd_links a b x : (a, b) ∈ role_permissions d -> a = uuid4 x -> a ∈ ro_id <$> roles d;
  sd_group_links a b x : (a, b) ∈ group_roles d -> a = uuid4 x -> a ∈ ug_id <$> user_groups d
}.

Lemma is_permission_true ra p : is_permission ra p = true <-> pair_of p = ra.
Proof. unfold is_permission. by rewrite bool_decide_eq_true. Qed.

Lemma insert_permission_run p d : (pm_id p ∉ pm_id <$> permissions d) -> (pair_of p ∉ pair_of <$> permissions d) ->
  insert_permission p d = (Ok tt, d <| permissions := (permissions d ++ [p])%list |>).
Proof.
  intros Hi Hp. unfold insert_permission, get_accounts, sql_insert. unfold_M. apply sql_find_None in Hi as ->.
  destruct (existsb _ _) eqn:E; [|done]. apply existsb_exists in E as (x & Hx & Ex%is_permission_true). destruct Hp. rewrite <- Ex.
  apply list_elem_of_fmap_2. by apply list_elem_of_In.
Qed.

Lemma seed_permission_run ra d : seed_ok d -> exists p d', seed_permission uuid4 ra d = (Ok (ra, p), d') /\ seed_ok d' /\ appended d d'
  /\ (exists ps, d' = d <| permissions ::= fun l => (l ++ ps)%list |> /\ forall p, p ∈ ps -> pair_of p = ra) /\ p ∈ permissions d' /\ pair_of p = ra.
Proof.
  intros Hd. unfold seed_permission, get_accounts. rewrite (bind_Ok _ _ d d d) by done.
  destruct (one_or_none_key pair_of (is_permission ra) ra (permissions d) d (is_permission_true ra) (sd_pairs _ Hd)) as [(p & E & Hp & Hr)|[E Hn]];
    rewrite (bind_Ok _ _ _ _ _ E).
  - exists p, d. split; [done|]. split; [done|]. split; [done|]. split; [|done]. exists []. split; [|by intros ? ?%not_elem_of_nil]. destruct d. cbn. by rewrite app_nil_r.
  - set (p := new_permission uuid4 ra). assert (pair_of p = ra) as Ep by by destruct ra.
    assert (pm_id p ∉ pm_id <$> permissions d) as Hi.
    { intros (q & Eq & Hq)%list_elem_of_fmap. symmetry in Eq. apply (sd_permissions _ Hd) in Eq; [|done]. injection Eq as ->.
      by apply Hn, list_elem_of_fmap_2. }
    rewrite (bind_Ok _ _ d tt _ (insert_permission_run p d Hi ltac:(by rewrite Ep))).
    exists p, (d <| permissions := (permissions d ++ [p])%list |>). split; [done|]. split; [|split; [|split; [exists [p]; split; [done|by intros q ->%list_elem_of_singleton]|]]].
    + destruct Hd as [[] H1 H2 H3 H4 H5 H6 H7]. constructor; [by columns|..]; cbn; try done.
      * by apply keys_unique_snoc.
      * rewrite fmap_app, NoDup_app. split; [done|]. split; [|apply NoDup_singleton]. intros y Hy ->%list_elem_of_singleton. by rewrite Ep in Hy.
      * intros q x [Hq| ->%list_elem_of_singleton]%elem_of_app Ex; [by apply H3|]. apply uuid4_inj in Ex. by rewrite Ep.
    + exists [p], [], [], [], [], []. destruct d. cbn. by rewrite !app_nil_r.
    + cbn. split; [|done]. apply elem_of_app. right. by left.
Qed.

(** *** Roles *)

Definition wanted (def : RoleDef) : list (string * string) := default PERMISSIONS (rd_permissions def).

Lemma wanted_known x : x ∈ ROLES -> Forall (fun ra => ra ∈ PERMISSIONS) (wanted x.2) /\ NoDup (wanted x.2).
Proof. revert x. apply Forall_forall. apply (bool_decide_unpack _). by vm_compute. Qed.

Lemma granted_known P pm x : dict_of pair_of P PERMISSIONS pm -> x ∈ ROLES -> Forall2 (known pair_of P) (wanted x.2) (granted x.2 pm).
Proof.
  intros Hpm [Hk _]%wanted_known. unfold granted, wanted in *. destruct (rd_permissions x.2) as [l|]; cbn in *; [by apply (dict_known _ _ PERMISSIONS)|].
  apply Forall2_fmap_r. eapply Forall2_impl; [exact Hpm|]. by intros ra y [_ ?].
Qed.

(** The role of a definition has its permissions and no others. *)
Definition has_wanted (d : AccountsDB) (r : Role) (def : RoleDef) : Prop :=
  forall p, p ∈ permissions d -> linked (role_permissions d) (ro_id r) (pm_id p) = true <-> pair_of p ∈ wanted def.
Definition default_role (d : AccountsDB) (r : Role) : Prop := exists def, (ro_name r, def) ∈ ROLES
  /\ ro_description r = Some (rd_description def) /\ ro_is_system_role r = rd_is_system_role def /\ has_wanted d r def.

Record roles_seeding (P : list Permission) (R0 : list Role) (d : AccountsDB) : Prop := {
  rs_ok : seed_ok d;
  rs_permissions : permissions d = P;
  rs_roles r : r ∈ roles d -> r ∈ R0 \/ default_role d r
}.

Lemma linked_app l1 l2 a b : linked (l1 ++ l2) a b = linked l1 a b || linked l2 a b.
Proof. unfold linked. apply existsb_app. Qed.

Lemma linked_new a ts a' b : linked (map (pair a) ts) a' b = true <-> a' = a /\ b ∈ ts.
Proof. rewrite linked_true, (list_elem_of_fmap (pair a)). split; [by intros (t & [= -> ->] & Ht)|]. intros [-> Hb]. by exists b. Qed.

Lemma has_wanted_new d id name ts r def : ro_id r ≠ id -> has_wanted d r def ->
  has_wanted (d <| roles := (roles d ++ [name])%list |> <| role_permissions := (role_permissions d ++ map (pair id) ts)%list |>) r def.
Proof.
  intros Hne Hr p Hp. cbn -[linked] in *. rewrite linked_app, orb_true_iff, linked_new. rewrite <- (Hr p Hp). split; [by intros [?|[? _]]|by left].
Qed.

Lemma seed_role_run P R0 pm x d : dict_of pair_of P PERMISSIONS pm -> x ∈ ROLES -> roles_seeding P R0 d ->
  exists y d', seed_role uuid4 pm x d = (Ok y, d') /\ roles_seeding P R0 d' /\ appended d d'
    /\ users d' = users d /\ user_groups d' = user_groups d /\ y.1 = x.1 /\ y.2 ∈ roles d' /\ ro_name y.2 = x.1.
Proof.
  intros Hpm Hx [Hd HP HR]. destruct x as [n def]. unfold seed_role, get_accounts. rewrite (bind_Ok _ _ d d d) by done.
  pose proof (sd_access _ Hd) as Ha. pose proof (granted_known P pm _ Hpm Hx) as Hk.
  pose proof (known_NoDup pair_of pm_id P _ _ ltac:(rewrite <- HP; apply Hd) (proj2 (wanted_known _ Hx)) Hk) as Hg. cbn [snd fst] in Hg, Hk.
  destruct (one_or_none_key ro_name (has_key ro_name n) n (roles d) d (has_key_true ro_name n) (ac_role_names _ Ha)) as [(r & E & Hr & Hn)|[E Hn]];
    rewrite (bind_Ok _ _ _ _ _ E); [by exists (n, r), d|].
  set (r := new_role uuid4 n def).
  assert (ro_id r ∉ ro_id <$> roles d) as Hi.
  { intros (q & Eq & Hq)%list_elem_of_fmap. symmetry in Eq. apply (sd_roles _ Hd) in Eq; [|done]. injection Eq as ->. by apply Hn, list_elem_of_fmap_2. }
  assert (forall b, (ro_id r, b) ∉ role_permissions d) as Hl by (intros b Hb; apply Hi; by apply (sd_links _ Hd _ b (RoleRow n))).
  set (d1 := d <| roles := (roles d ++ [r])%list |>).
  assert (insert_role r d = (Ok tt, d1)) as E1 by (unfold insert_role, get_accounts, sql_insert; unfold_M; by apply sql_find_None in Hi as ->).
  rewrite (bind_Ok _ _ _ _ _ E1), (bind_Ok _ _ d1 d1 d1) by done. rewrite add_links_fresh by done.
  set (ls := map (pair (ro_id r)) _). exists (n, r), (d1 <| role_permissions := (role_permissions d ++ ls)%list |>). split; [done|].
  split; [|split; [by exists [], [r], ls, [], [], []; destruct d; cbn; rewrite !app_nil_r|split; [done|split; [done|split; [done|split; [|done]]]]]].
  constructor.
  - destruct Hd as [[] H1 H2 H3 H4 H5 H6 H7]. constructor; [columns|..]; cbn; try done.
    + by apply keys_unique_snoc.
    + by apply keys_unique_snoc.
    + by apply links_NoDup.
    + intros q z [Hq| ->%list_elem_of_singleton]%elem_of_app Ez; [by apply H4|]. by apply uuid4_inj in Ez.
    + intros a b z [Hin|(t & [= -> ->] & _)%list_elem_of_fmap]%elem_of_app Ez; rewrite fmap_app; apply elem_of_app.
      * left. by apply (H6 _ b z).
      * right. by left.
  - done.
  - intros q [Hq| ->%list_elem_of_singleton]%elem_of_app.
    + destruct (HR q Hq) as [?|(qd & Hqd & Hdesc & Hsys & Hw)]; [by left|right]. exists qd. split; [done|]. split; [done|]. split; [done|].
      apply has_wanted_new; [|done]. intros Eq. apply Hi. rewrite <- Eq. by apply list_elem_of_fmap_2.
    + right. exists def. split; [done|]. split; [done|]. split; [done|]. intros p Hp. cbn -[linked] in Hp |- *. rewrite HP in Hp.
      rewrite linked_app, orb_true_iff. unfold ls. rewrite linked_new.
      rewrite (known_ids pair_of pm_id P _ _ p ltac:(rewrite <- HP; apply Hd) ltac:(rewrite <- HP; apply Hd) Hk Hp). split; [|by right].
      by intros [Hb%linked_true|[_ ?]]; [destruct (Hl (pm_id p))|].
  - cbn. apply elem_of_app. right. by left.
Qed.

(** *** User groups *)

Lemma named_roles_known x : x ∈ USER_GROUPS -> Forall (fun n => n ∈ ROLES.*1) (gd_roles x.2) /\ NoDup (gd_roles x.2).
Proof. revert x. apply Forall_forall. apply (bool_decide_unpack _). by vm_compute. Qed.

Definition has_named_roles (d : AccountsDB) (g : UserGroup) (def : GroupDef) : Prop :=
  forall r, r ∈ roles d -> linked (group_roles d) (ug_id g) (ro_id r) = true <-> ro_name r ∈ gd_roles def.
Definition default_group (d : AccountsDB) (g : UserGroup) : Prop := exists def, (ug_name g, def) ∈ USER_GROUPS
  /\ ug_description g = Some (gd_description def) /\ ug_requires_approval g = gd_requires_approval def /\ has_named_roles d g def.

Record groups_seeding (R : list Role) (G0 : list UserGroup) (d : AccountsDB) : Prop := {
  gs_ok : seed_ok d;
  gs_roles : roles d = R;
  gs_groups g : g ∈ user_groups d -> g ∈ G0 \/ default_group d g
}.

Lemma seed_user_group_run R G0 rm x d : dict_of ro_name R ROLES.*1 rm -> x ∈ USER_GROUPS -> groups_seeding R G0 d ->
  exists y d', seed_user_group uuid4 rm x d = (Ok y, d') /\ groups_seeding R G0 d'
    /\ (exists gs ms, d' = d <| user_groups ::= fun l => (l ++ gs)%list |> <| group_roles ::= fun l => (l ++ ms)%list |>)
    /\ x.1 ∈ ug_name <$> user_groups d'.
Proof.
  intros Hrm Hx [Hd HR HG]. destruct x as [n def]. unfold seed_user_group, get_accounts. rewrite (bind_Ok _ _ d d d) by done.
  pose proof (sd_access _ Hd) as Ha. destruct (named_roles_known _ Hx) as [Hk Hn]. apply (dict_known ro_name R _ rm _ Hrm) in Hk.
  pose proof (known_NoDup ro_name ro_id R _ _ ltac:(rewrite <- HR; apply Ha) Hn Hk) as Hg. cbn [snd fst] in Hg, Hk. clear Hn.
  destruct (one_or_none_key ug_name (has_key ug_name n) n (user_groups d) d (has_key_true ug_name n) (ac_group_names _ Ha)) as [(g & E & Hin & Hn)|[E Hn]];
    rewrite (bind_Ok _ _ _ _ _ E).
  { exists (n, g), d. split; [done|]. split; [done|]. split; [exists [], []; destruct d; cbn; by rewrite !app_nil_r|].
    cbn. rewrite <- Hn. by apply list_elem_of_fmap_2. }
  set (g := new_user_group uuid4 n def).
  assert (ug_id g ∉ ug_id <$> user_groups d) as Hi.
  { intros (q & Eq & Hq)%list_elem_of_fmap. symmetry in Eq. apply (sd_groups _ Hd) in Eq; [|done]. injection Eq as ->. by apply Hn, list_elem_of_fmap_2. }
  assert (forall b, (ug_id g, b) ∉ group_roles d) as Hl by (intros b Hb; apply Hi; by apply (sd_group_links _ Hd _ b (GroupRow n))).
  set (d1 := d <| user_groups := (user_groups d ++ [g])%list |>).
  assert (insert_group g d = (Ok tt, d1)) as E1 by (unfold insert_group, get_accounts, sql_insert; unfold_M; by apply sql_find_None in Hi as ->).
  rewrite (bind_Ok _ _ _ _ _ E1), (bind_Ok _ _ d1 d1 d1) by done. rewrite add_links_fresh by done.
  set (ms := map (pair (ug_id g)) _). exists (n, g), (d1 <| group_roles := (group_roles d ++ ms)%list |>). split; [done|].
  split; [|split; [by exists [g], ms|cbn; rewrite fmap_app; apply elem_of_app; right; by left]].
  constructor; [|done|].
  - destruct Hd as [[] H1 H2 H3 H4 H5 H6 H7]. constructor; [columns|..]; cbn; try done.
    + by apply keys_unique_snoc.
    + by apply keys_unique_snoc.
    + by apply links_NoDup.
    + intros q z [Hq| ->%list_elem_of_singleton]%elem_of_app Ez; [by apply H5|]. by apply uuid4_inj in Ez.
    + intros a b z [Hin|(t & [= -> ->] & _)%list_elem_of_fmap]%elem_of_app Ez; rewrite fmap_app; apply elem_of_app.
      * left. by apply (H7 _ b z).
      * right. by left.
  - intros q [Hq| ->%list_elem_of_singleton]%elem_of_app.
    + destruct (HG q Hq) as [?|(qd & Hqd & Hdesc & Hap & Hw)]; [by left|right]. exists qd. split; [done|]. split; [done|]. split; [done|].
      intros r Hr. cbn -[linked] in Hr |- *. rewrite linked_app, orb_true_iff. unfold ms. rewrite linked_new, <- (Hw r Hr).
      split; [|by left]. intros [?|[Eq _]]; [done|]. destruct Hi. rewrite <- Eq. by apply list_elem_of_fmap_2.
    + right. exists def. split; [done|]. split; [done|]. split; [done|]. intros r Hr. cbn -[linked] in Hr |- *. rewrite HR in Hr.
      rewrite linked_app, orb_true_iff. unfold ms. rewrite linked_new.
      rewrite (known_ids ro_name ro_id R _ _ r ltac:(rewrite <- HR; apply Ha) ltac:(rewrite <- HR; apply Ha) Hk Hr). split; [|by right].
      by intros [Hb%linked_true|[_ ?]]; [destruct (Hl (ro_id r))|].
Qed.

(** *** The whole run *)

(** Every default row is there. *)
Record complete (d : AccountsDB) : Prop := {
  co_permissions ra : ra ∈ PERMISSIONS -> ra ∈ pair_of <$> permissions d;
  co_roles n : n ∈ ROLES.*1 -> n ∈ ro_name <$> roles d;
  co_groups n : n ∈ USER_GROUPS.*1 -> n ∈ ug_name <$> user_groups d;
  co_users : users d ≠ []
}.

Lemma seed_permissions_run d0 : seed_ok d0 -> exists pm d, seed_permissions uuid4 d0 = (Ok pm, d) /\ seed_ok d
  /\ (exists ps, d = d0 <| permissions ::= fun l => (l ++ ps)%list |> /\ forall p, p ∈ ps -> pair_of p ∈ PERMISSIONS) /\ dict_of pair_of (permissions d) PERMISSIONS pm.
Proof.
  intros H0. unfold seed_permissions, dict_of, known.
  destruct (mapM_run (fun d => seed_ok d /\ exists ps, d = d0 <| permissions ::= fun l => (l ++ ps)%list |> /\ forall p, p ∈ ps -> pair_of p ∈ PERMISSIONS)
              (fun ra y d => y.1 = ra /\ y.2 ∈ permissions d /\ pair_of y.2 = ra) (seed_permission uuid4) PERMISSIONS) with (d := d0)
    as (pm & d & E & [Hd Hps] & _ & HR); [..|by exists pm, d].
  - intros ra d Hra [Hd (ps & -> & Hps)]. destruct (seed_permission_run ra _ Hd) as (p & d' & E & Hd' & Ha & (qs & -> & Hqs) & Hp & Er).
    exists (ra, p), (d0 <| permissions ::= fun l => (l ++ ps)%list |> <| permissions ::= fun l => (l ++ qs)%list |>). split; [exact E|].
    split; [|done]. split; [done|]. exists (ps ++ qs)%list. split; [cbn; by rewrite (assoc_L (++)%list)|].
    intros q [Hq|Hq]%elem_of_app; [by apply Hps|by rewrite (Hqs q Hq)].
  - intros ra y d d' (H1 & H2 & H3) (ps & ? & ? & ? & ? & ? & ->). split; [done|]. split; [|done]. cbn. apply elem_of_app. by left.
  - split; [done|]. exists []. split; [|by intros ? ?%not_elem_of_nil]. destruct d0. cbn. by rewrite app_nil_r.
Qed.

Lemma seed_roles_run d0 pm : seed_ok d0 -> dict_of pair_of (permissions d0) PERMISSIONS pm -> exists rm d, seed_roles uuid4 pm d0 = (Ok rm, d)
  /\ roles_seeding (permissions d0) (roles d0) d /\ appended d0 d /\ users d = users d0 /\ user_groups d = user_groups d0
  /\ dict_of ro_name (roles d) ROLES.*1 rm.
Proof.
  intros H0 Hpm. unfold seed_roles.
  destruct (mapM_run (fun d => roles_seeding (permissions d0) (roles d0) d /\ users d = users d0 /\ user_groups d = user_groups d0)
              (fun x y d => y.1 = x.1 /\ y.2 ∈ roles d /\ ro_name y.2 = x.1) (seed_role uuid4 pm) ROLES) with (d := d0)
    as (rm & d & E & (Hd & Hu & Hg) & Ha & HR); [..|exists rm, d; do 5 (split; [done|]); by apply Forall2_fmap_l].
  - intros x d Hx (Hd & Hu & Hg). destruct (seed_role_run _ _ pm x d Hpm Hx Hd) as (y & d' & E & Hd' & Ha & Hu' & Hg' & HR).
    exists y, d'. split; [done|]. split; [|done]. split; [done|]. by rewrite Hu', Hg'.
  - intros x y d d' (H1 & H2 & H3) (? & rs & ? & ? & ? & ? & ->). split; [done|]. split; [|done]. cbn. apply elem_of_app. by left.
  - split; [|done]. split; [done..|]. intros r Hr. by left.
Qed.

Lemma seed_user_groups_run d0 rm : seed_ok d0 -> dict_of ro_name (roles d0) ROLES.*1 rm -> exists gm d, seed_user_groups uuid4 rm d0 = (Ok gm, d)
  /\ groups_seeding (roles d0) (user_groups d0) d
  /\ (exists gs ms, d = d0 <| user_groups ::= fun l => (l ++ gs)%list |> <| group_roles ::= fun l => (l ++ ms)%list |>)
  /\ forall n, n ∈ USER_GROUPS.*1 -> n ∈ ug_name <$> user_groups d.
Proof.
  intros H0 Hrm. unfold seed_user_groups.
  destruct (mapM_run (fun d => groups_seeding (roles d0) (user_groups d0) d
                /\ exists gs ms, d = d0 <| user_groups ::= fun l => (l ++ gs)%list |> <| group_roles ::= fun l => (l ++ ms)%list |>)
              (fun x y d => x.1 ∈ ug_name <$> user_groups d) (seed_user_group uuid4 rm) USER_GROUPS) with (d := d0)
    as (gm & d & E & (Hd & Hs) & Ha & HR).
  - intros x d Hx [Hd (gs & ms & ->)]. destruct (seed_user_group_run _ _ rm x _ Hrm Hx Hd) as (y & d' & E & Hd' & (gs' & ms' & ->) & Hn).
    eexists y, _. split; [exact E|]. split; [split; [exact Hd'|]|split; [|exact Hn]].
    + exists (gs ++ gs')%list, (ms ++ ms')%list. cbn. by rewrite !(assoc_L (++)%list).
    + exists [], [], [], [], gs', ms'. cbn. by rewrite !app_nil_r.
  - intros x y d d' H (? & ? & ? & ? & gs & ? & ->). cbn. rewrite fmap_app. apply elem_of_app. by left.
  - split; [split; [done..|]; intros g Hg; by left|]. exists [], []. destruct d0. cbn. by rewrite !app_nil_r.
  - exists gm, d. do 3 (split; [done|]). intros n (x & -> & Hx)%list_elem_of_fmap. by apply Forall2_length in HR as Hl;
      apply list_elem_of_lookup in Hx as [i Hi]; destruct (Forall2_lookup_l _ _ _ _ _ HR Hi) as (y & _ & ?).
Qed.

(** What is there after a run, from [d] to [d']. *)
Record seeded (d d' : AccountsDB) : Prop := {
  se_access : access_ok d';
  se_appended : appended d d';
  se_complete : complete d';
  se_permissions p : p ∈ permissions d' -> p ∈ permissions d \/ pair_of p ∈ PERMISSIONS;
  se_roles r : r ∈ roles d' -> r ∈ roles d \/ default_role d' r;
  se_groups g : g ∈ user_groups d' -> g ∈ user_groups d \/ default_group d' g;
  se_users : users d ≠ [] -> users d' = users d;
  se_admin : users d = [] -> exists u, users d' = [u] /\ u_username u = "admin" /\ is_admin u = true /\ u_is_active u = true
                             /\ verify_password BCRYPT_AVAILABLE "admin" (u_password_hash u) = true
}.

Lemma seed_admin_user_run rm d : seed_ok d -> exists us, seed_admin_user BCRYPT_AVAILABLE uuid4 salt now rm d = (Ok tt, d <| users ::= fun l => (l ++ us)%list |>)
  /\ (users d ≠ [] -> us = []) /\ (users d = [] -> us = [admin_user BCRYPT_AVAILABLE uuid4 salt now rm]).
Proof.
  intros Hd. unfold seed_admin_user, get_accounts. rewrite (bind_Ok _ _ d d d) by done. destruct (users d) as [|u l] eqn:E.
  - exists [admin_user BCRYPT_AVAILABLE uuid4 salt now rm]. split; [|done]. unfold insert_user, get_accounts, sql_insert, set_users. unfold_M.
    rewrite E. cbn. destruct d. cbn in E. by subst.
  - exists []. split; [|done]. destruct d. cbn. by rewrite app_nil_r.
Qed.

Lemma seed_database_run d : CryptoLaws -> seed_ok d -> exists d', seed_database BCRYPT_AVAILABLE uuid4 salt now d = (Ok tt, d') /\ seeded d d'
  /\ seed_ok d'.
Proof.
  intros HL Hd. unfold seed_database, with_db.
  destruct (seed_permissions_run d Hd) as (pm & d1 & E1 & H1 & (ps & Ed1 & Hps) & Hpm). rewrite (bind_Ok _ _ _ _ _ E1).
  destruct (seed_roles_run d1 pm H1 Hpm) as (rm & d2 & E2 & [H2 HP2 HR2] & Ha2 & Hu2 & Hg2 & Hrm). rewrite (bind_Ok _ _ _ _ _ E2).
  destruct (seed_user_groups_run d2 rm H2 Hrm) as (gm & d3 & E3 & [H3 HR3 HG3] & (gs & ms & Ed3) & Hn3). rewrite (bind_Ok _ _ _ _ _ E3).
  destruct (seed_admin_user_run rm d3 H3) as (us & E4 & Hus & Hus'). rewrite E4. eexists. split; [done|].
  assert (roles d1 = roles d /\ user_groups d1 = user_groups d /\ users d1 = users d) as (Er1 & Eg1 & Eu1) by by rewrite Ed1.
  assert (permissions d3 = permissions d2 /\ role_permissions d3 = role_permissions d2 /\ users d3 = users d2) as (Ep3 & El3 & Eu3) by by rewrite Ed3.
  assert (users d3 = users d) as Eu by congruence. rewrite Eu in Hus, Hus'.
  assert (access_ok (d3 <| users ::= fun l => (l ++ us)%list |>)) as Hok.
  { pose proof (sd_access _ H3) as Ha3. destruct (users d) as [|u l] eqn:E.
    - rewrite Hus' by done. eapply access_ok_rest; [exact Ha3| |done|apply Ha3]. apply (accounts_ok_users d3); [..|apply Ha3]; rewrite Eu; cbn;
        apply NoDup_singleton.
    - rewrite Hus by done. replace (d3 <| users ::= _ |>) with d3; [done|]. destruct d3. cbn. by rewrite app_nil_r. }
  split; [constructor; [exact Hok|..]|].
  - etrans; [etrans|]; [|exact Ha2|].
    + rewrite Ed1. exists ps, [], [], [], [], []. destruct d. cbn. by rewrite !app_nil_r.
    + rewrite Ed3. exists [], [], [], us, gs, ms. destruct d2. cbn. by rewrite !app_nil_r.
  - constructor; cbn.
    + rewrite Ep3, HP2. intros ra Hra. destruct (dict_get_found _ _ _ ra Hpm Hra) as (p & _ & Hp & <-). by apply list_elem_of_fmap_2.
    + rewrite HR3. intros n Hn. destruct (dict_get_found _ _ _ n Hrm Hn) as (r & _ & Hr & <-). by apply list_elem_of_fmap_2.
    + exact Hn3.
    + rewrite Eu. destruct (users d) as [|u l]; [by rewrite Hus'|done].
  - cbn. rewrite Ep3, HP2, Ed1. intros p [Hp|Hp]%elem_of_app; [by left|right; by apply Hps].
  - cbn. rewrite HR3. intros r Hr. destruct (HR2 r Hr) as [Hr'|(def & Hdef & Hde & Hs & Hw)]; [left; by rewrite <- Er1|right].
    exists def. do 3 (split; [done|]). intros p. cbn -[linked]. rewrite Ep3, El3. apply Hw.
  - cbn. intros g Hg. destruct (HG3 g Hg) as [Hg'|(def & Hdef & Hde & Hs & Hw)]; [left; by rewrite <- Eg1, <- Hg2|right].
    exists def. do 3 (split; [done|]). intros r. cbn -[linked]. apply Hw.
  - cbn. intros Hne. by rewrite Eu, Hus, app_nil_r.
  - cbn. intros Hnil. rewrite Eu, Hnil, Hus' by done. eexists. split; [done|]. do 3 (split; [done|]). cbn.
    unfold verify_password, hash_password. destruct BCRYPT_AVAILABLE; [|by rewrite String.eqb_refl]. by rewrite bcrypt_prefix, bcrypt_accepts.
  - destruct H3. constructor; done.
Qed.

(** A complete database stays as it is. *)
Lemma seed_database_idle d : access_ok d -> NoDup (pair_of <$> permissions d) -> complete d ->
  seed_database BCRYPT_AVAILABLE uuid4 salt now d = (Ok tt, d).
Proof.
  intros Ha Hp [C1 C2 C3 C4]. unfold seed_database, with_db.
  destruct (mapM_idle (fun _ _ => True) (seed_permission uuid4) PERMISSIONS d) as (pm & E1 & _).
  { intros ra Hra. unfold seed_permission, get_accounts. rewrite (bind_Ok _ _ d d d) by done.
    destruct (one_or_none_key pair_of (is_permission ra) ra (permissions d) d (is_permission_true ra) Hp) as [(p & E & _)|[_ []]]; [|by apply C1].
    rewrite (bind_Ok _ _ _ _ _ E). by eexists. }
  unfold seed_permissions. rewrite (bind_Ok _ _ _ _ _ E1).
  destruct (mapM_idle (fun _ _ => True) (seed_role uuid4 pm) ROLES d) as (rm & E2 & _).
  { intros [n def] Hx. unfold seed_role, get_accounts. rewrite (bind_Ok _ _ d d d) by done.
    destruct (one_or_none_key ro_name (has_key ro_name n) n (roles d) d (has_key_true ro_name n) (ac_role_names _ Ha)) as [(r & E & _)|[_ []]];
      [|by apply C2, (list_elem_of_fmap_2 fst _ (n, def))].
    rewrite (bind_Ok _ _ _ _ _ E). by eexists. }
  unfold seed_roles. rewrite (bind_Ok _ _ _ _ _ E2).
  destruct (mapM_idle (fun _ _ => True) (seed_user_group uuid4 rm) USER_GROUPS d) as (gm & E3 & _).
  { intros [n def] Hx. unfold seed_user_group, get_accounts. rewrite (bind_Ok _ _ d d d) by done.
    destruct (one_or_none_key ug_name (has_key ug_name n) n (user_groups d) d (has_key_true ug_name n) (ac_group_names _ Ha)) as [(r & E & _)|[_ []]];
      [|by apply C3, (list_elem_of_fmap_2 fst _ (n, def))].
    rewrite (bind_Ok _ _ _ _ _ E). by eexists. }
  unfold seed_user_groups. rewrite (bind_Ok _ _ _ _ _ E3). unfold seed_admin_user, get_accounts. rewrite (bind_Ok _ _ d d d) by done.
  by destruct (users d).
Qed.
End Seeding.

(** The run draws identifiers that are new. *)
Record unused (uuid4 : default_row -> string) (d : AccountsDB) : Prop := {
  un_inj : Inj (=) (=) uuid4;
  un_permissions x : uuid4 x ∉ pm_id <$> permissions d;
  un_roles x : uuid4 x ∉ ro_id <$> roles d;
  un_groups x : uuid4 x ∉ ug_id <$> user_groups d;
  un_role_links x : uuid4 x ∉ (role_permissions d).*1;
  un_group_links x : uuid4 x ∉ (group_roles d).*1
}.

Lemma unused_ok uuid4 d : unused uuid4 d -> access_ok d -> keys_unique pm_id (permissions d) -> NoDup (pair_of <$> permissions d) -> seed_ok uuid4 d.
Proof.
  intros [_ U1 U2 U3 U4 U5] Ha Hi Hp. constructor; try done.
  - intros p x Hin E. destruct (U1 x). rewrite <- E. by apply list_elem_of_fmap_2.
  - intros p x Hin E. destruct (U2 x). rewrite <- E. by apply list_elem_of_fmap_2.
  - intros p x Hin E. destruct (U3 x). rewrite <- E. by apply list_elem_of_fmap_2.
  - intros a b x Hin E. destruct (U4 x). rewrite <- E. by apply (list_elem_of_fmap_2 fst _ (a, b)).
  - intros a b x Hin E. destruct (U5 x). rewrite <- E. by apply (list_elem_of_fmap_2 fst _ (a, b)).
Qed.

(** C16: Seeding a well-formed database succeeds: every default permission, role and group is there then, what was there before is as it was, a
    role that it makes has the permissions of its definition and no others, a group the roles of its definition, and where there was no user
    there is one, an administrator whose password is admin.  Seeding again, with whatever uuids, changes nothing. *)
Theorem seeding_completes_once {C : Crypto} bcrypt uuid4 salt now d : CryptoLaws -> unused uuid4 d -> access_ok d ->
  keys_unique pm_id (permissions d) -> NoDup (pair_of <$> permissions d) ->
  exists d', seed_database bcrypt uuid4 salt now d = (Ok tt, d') /\ seeded bcrypt d d'
    /\ forall uuid4' salt' now', seed_database bcrypt uuid4' salt' now' d' = (Ok tt, d').
Proof.
  intros HL Hu Ha Hi Hp. pose proof (un_inj _ _ Hu). destruct (seed_database_run bcrypt uuid4 salt now _ d HL (unused_ok uuid4 d Hu Ha Hi Hp)) as (d' & E & Hs & Hd').
  exists d'. split; [exact E|]. split; [exact Hs|]. intros uuid4' salt' now'. apply seed_database_idle; [apply Hs|apply Hd'|apply Hs].
Qed.

(** ** Examples *)

#[export] Instance default_row_eq_dec : EqDecision default_row.
Proof. solve_decision. Defined.
#[export] Instance default_row_countable : Countable default_row.
Proof.
  apply (inj_countable'
    (fun x => match x with PermissionRow ra => inl (inl ra) | RoleRow n => inl (inr n) | GroupRow n => inr (Some n) | AdminRow => inr None end)
    (fun y => match y with inl (inl ra) => PermissionRow ra | inl (inr n) => RoleRow n | inr (Some n) => GroupRow n | inr None => AdminRow end)).
  by intros [].
Defined.

Definition drawn (x : default_row) : string := pretty (Npos (encode x)).

Definition empty_accounts : AccountsDB :=
  {| users := []; refresh_tokens := []; api_keys := []; roles := []; permissions := []; role_permissions := []; user_groups := [];
     group_members := []; group_roles := []; group_device_groups := []; group_tags := []; group_nodes := []; audit_logs := [] |}.

Lemma empty_unused : unused drawn empty_accounts.
Proof. constructor; [|intros x H; by apply elem_of_nil in H..]. intros x y E. unfold drawn in E. by apply (inj pretty) in E; injection E as E%(inj encode). Qed.

Lemma empty_access_ok : access_ok empty_accounts.
Proof. constructor; [constructor|..]; apply (bool_decide_unpack _); by vm_compute. Qed.

Definition first_run : AccountsDB := (seed_database true drawn "salt" 0 empty_accounts).2.

Example permissions_of_roles :
  (fun r => (ro_name r, length (role_perms first_run r))) <$> roles first_run = [("admin", 28); ("operator", 11); ("viewer", 6); ("auditor", 5)]%nat.
Proof. by vm_compute. Qed.

(** A role that is there already gets nothing new: a permission that a later version defines is not given to the administrators' role. *)
Example existing_roles_get_nothing :
  let d := empty_accounts <| roles := [{| ro_id := "r"; ro_name := "admin"; ro_description := None; ro_is_system_role := true |}] |> in
  (fun r => (ro_name r, length (role_perms (seed_database true drawn "salt" 0 d).2 r))) <$> roles (seed_database true drawn "salt" 0 d).2
  = [("admin", 0); ("operator", 11); ("viewer", 6); ("auditor", 5)]%nat.
Proof. by vm_compute. Qed.

Lemma seeding_completes_once_witness :
  exists d', seed_database true drawn "salt" 0 empty_accounts = (Ok tt, d') /\ seeded true empty_accounts d'
    /\ forall uuid4' salt' now', seed_database true uuid4' salt' now' d' = (Ok tt, d').
Proof. apply seeding_completes_once; [exact toy_crypto_laws|exact empty_unused|exact empty_access_ok|constructor|constructor]. Defined.
