(* ===== verification/Rules.v ===== *)
(** * The management of approval rules

    [api/routes/approval_rules.py], behind the middleware and the permissions of
    Access, on the rules and approvals of Approvals.  Deleting a rule clears the
    reference of its approvals, and deleting a role the escalation role of the
    rules, as the ORM does without [passive_deletes].  A run mixes requests on
    accounts and rules with whatever is done to approvals. *)
From S2P Require Import Prelude PyStr SqlTable Controller Accounts Access Seed.
From S2P Require Approvals.
From stdpp Require Import base tactics list strings.
From Stdlib Require Import ZArith Lia.
Import Approvals(ApprovalRule, ru_id, ru_name, ru_scope_type, ru_scope_id, ru_operations, ru_required_approvers, ru_escalation_timeout_hours,
  ru_escalation_role_id, ru_is_active, ru_priority, ApprovalDB, Approval, approvals, rules, ap_id, ap_rule_id, approval_op, approval_serve).
Open Scope string_scope.
#[local] Arguments String.append !_ _ : simpl nomatch.

Record ApprovalRuleCreate := {
  nc_name : string;
  nc_scope_type : string;
  nc_scope_id : option string;
  nc_operations : list string;
  nc_required_approvers : Z;
  nc_escalation_timeout_hours : Z;
  nc_escalation_role_id : option string;
  nc_is_active : bool;
  nc_priority : Z
}.

Record ApprovalRuleUpdate := {
  nu_name : option string;
  nu_scope_type : option string;
  nu_scope_id : option string;
  nu_operations : option (list string);
  nu_required_approvers : option Z;
  nu_escalation_timeout_hours : option Z;
  nu_escalation_role_id : option string;
  nu_is_active : option bool;
  nu_priority : option Z
}.

Record RulesWorld := { accounts : AccountsDB; approval_db : ApprovalDB }.
Abbreviation RulesM A := (M RulesWorld server_error A).

Definition SCOPE_TYPES : list string := ["device_group"; "user_group"; "global"].

Definition check_scope_type (s : string) : RulesM unit :=
  if in_list SCOPE_TYPES s then mret tt
  else raise (HTTPException 400 ("Invalid scope_type. Must be one of: " ++ PyStr.join ", " SCOPE_TYPES)).

Definition get_rules : RulesM (list ApprovalRule) := w ← get_state; mret (rules (approval_db w)).
Definition set_rules (f : list ApprovalRule -> list ApprovalRule) : RulesM unit := modify (fun w => w <| approval_db ::= fun d => d <| rules ::= f |> |>).

Definition check_rule_name (name : string) (others : ApprovalRule -> bool) : RulesM unit :=
  l ← get_rules;
  match sql_select (fun r => has_key ru_name name r && others r) l with
  | [] => mret tt
  | [_] => raise (HTTPException 400 "Approval rule name already exists")
  | _ => raise MultipleResultsFound
  end.

Definition insert_rule (r : ApprovalRule) : RulesM unit :=
  l ← get_rules;
  match sql_insert ru_id r l with
  | Some l => set_rules (fun _ => l)
  | None => raise IntegrityError
  end.

Definition new_rule (id : string) (data : ApprovalRuleCreate) : ApprovalRule :=
  {| ru_id := id; ru_name := nc_name data; ru_scope_type := nc_scope_type data; ru_scope_id := nc_scope_id data;
     ru_operations := Some (nc_operations data); ru_required_approvers := nc_required_approvers data;
     ru_escalation_timeout_hours := nc_escalation_timeout_hours data; ru_escalation_role_id := nc_escalation_role_id data;
     ru_is_active := nc_is_active data; ru_priority := nc_priority data |}.

(** The name is free, so the row can be written. *)
Definition create_rule (id : string) (data : ApprovalRuleCreate) : RulesM unit :=
  check_scope_type (nc_scope_type data);;
  check_rule_name (nc_name data) (fun _ => true);;
  insert_rule (new_rule id data).

Definition need_rule (rule_id : string) : RulesM ApprovalRule :=
  l ← get_rules;
  match sql_find ru_id rule_id l with
  | Some r => mret r
  | None => raise (HTTPException 404 "Approval rule not found")
  end.

(** What is not given stays: no field can be set to null again. *)
Definition changed_rule (data : ApprovalRuleUpdate) (r : ApprovalRule) : ApprovalRule :=
  r <| ru_scope_type ::= fun x => default x (nu_scope_type data) |>
    <| ru_name ::= fun x => default x (nu_name data) |>
    <| ru_scope_id ::= fun x => match nu_scope_id data with Some y => Some y | None => x end |>
    <| ru_operations ::= fun x => match nu_operations data with Some y => Some y | None => x end |>
    <| ru_required_approvers ::= fun x => default x (nu_required_approvers data) |>
    <| ru_escalation_timeout_hours ::= fun x => default x (nu_escalation_timeout_hours data) |>
    <| ru_escalation_role_id ::= fun x => match nu_escalation_role_id data with Some y => Some y | None => x end |>
    <| ru_is_active ::= fun x => default x (nu_is_active data) |>
    <| ru_priority ::= fun x => default x (nu_priority data) |>.

Definition update_rule (rule_id : string) (data : ApprovalRuleUpdate) : RulesM unit :=
  rule ← need_rule rule_id;
  match nu_scope_type data with Some s => check_scope_type s | None => mret tt end;;
  match nu_name data with Some name => check_rule_name name (fun r => negb (has_key ru_id rule_id r)) | None => mret tt end;;
  set_rules (fun l => (sql_update (has_key ru_id rule_id) (fun _ => changed_rule data rule) l).1).

Definition forget_rule (rule_id : string) (a : Approval) : Approval :=
  if bool_decide (ap_rule_id a = Some rule_id) then a <| ap_rule_id := None |> else a.

Definition delete_rule (rule_id : string) : RulesM unit :=
  need_rule rule_id;;
  modify (fun w => w <| approval_db ::= fun d => d <| rules ::= fun l => (sql_delete (has_key ru_id rule_id) l).1 |>
                                                  <| approvals ::= map (forget_rule rule_id) |> |>).

(** ** Requests *)

Inductive rule_request : Type :=
| CreateRule (id : string) (data : ApprovalRuleCreate)
| UpdateRule (rule_id : string) (data : ApprovalRuleUpdate)
| DeleteRule (rule_id : string).

Definition rule_action (r : rule_request) : string :=
  match r with CreateRule _ _ => "create" | UpdateRule _ _ => "update" | DeleteRule _ => "delete" end.

Definition manage (r : rule_request) : RulesM unit :=
  match r with
  | CreateRule id data => create_rule id data
  | UpdateRule id data => update_rule id data
  | DeleteRule id => delete_rule id
  end.

Definition in_accounts {A} (m : AccountsM A) : RulesM A := fun w => let '(r, d) := m (accounts w) in (r, w <| accounts := d |>).

Definition handle_rule (rq : RequestState) (r : rule_request) : RulesM unit :=
  in_accounts (require_permission "approval_rule" (rule_action r) rq);; manage r.

Record RuleArrival := { ra_time : Z; ra_path : string; ra_authorization : option string; ra_client : option string; ra_request : rule_request }.

Section Runs.
Context {C : Crypto} (BCRYPT_AVAILABLE JWT_AVAILABLE : bool) (listed : list string -> string) (fromisoformat : string -> option Z).

Definition arrive_rule (x : RuleArrival) (w : RulesWorld) : result server_error unit * RulesWorld :=
  match with_db (in_accounts (dispatch JWT_AVAILABLE (ra_time x) (ra_path x) (ra_authorization x) (ra_client x))) w with
  | (Ok (Called rq), w) => with_db (handle_rule rq (ra_request x)) w
  | (Ok (Answered status detail), w) => (Err (HTTPException status detail), w)
  | (Err e, w) => (Err e, w)
  end.

Inductive event : Type :=
| AccountEvent (x : Arrival)
| RuleEvent (x : RuleArrival)
| ApprovalEvent (o : approval_op).

Definition forget_role (role_id : string) (r : ApprovalRule) : ApprovalRule :=
  if bool_decide (ru_escalation_role_id r = Some role_id) then r <| ru_escalation_role_id := None |> else r.

(** Deleting a role clears the references of the rules. *)
Definition on_rules (r : access_request) (l : list ApprovalRule) : list ApprovalRule :=
  match r with DeleteRole id => map (forget_role id) l | _ => l end.

Definition step (e : event) (w : RulesWorld) : RulesWorld :=
  match e with
  | AccountEvent x =>
      let '(r, d) := arrive BCRYPT_AVAILABLE JWT_AVAILABLE listed fromisoformat x (accounts w) in
      let w := w <| accounts := d |> in
      match r with
      | Ok _ => w <| approval_db ::= fun d => d <| rules ::= on_rules (ar_request x) |> |>
      | Err _ => w
      end
  | RuleEvent x => (arrive_rule x w).2
  | ApprovalEvent o => w <| approval_db ::= fun d => approval_serve d o |>
  end.

Definition run (es : list event) (w : RulesWorld) : RulesWorld := fold_left (fun w e => step e w) es w.
End Runs.

(** ** What the handlers do *)

Lemma check_scope_type_Ok s w a w' : check_scope_type s w = (Ok a, w') -> w' = w /\ s ∈ SCOPE_TYPES.
Proof. unfold check_scope_type. destruct (in_list SCOPE_TYPES s) eqn:E; [|done]. intros [= _ <-]. by apply in_list_spec in E. Qed.

Lemma check_rule_name_Ok name P w a w' : check_rule_name name P w = (Ok a, w') ->
  w' = w /\ forall r, r ∈ rules (approval_db w) -> P r = true -> ru_name r ≠ name.
Proof.
  unfold check_rule_name, get_rules. unfold_M. destruct (sql_select _ _) as [|x [|y l]] eqn:E; [|done..]. intros [= _ <-]. split; [done|].
  intros r Hr HP <-. apply (not_elem_of_nil r). rewrite <- E. apply elem_of_sql_select. split; [done|]. by rewrite HP, (proj2 (has_key_true _ _ _)).
Qed.

Lemma need_rule_Ok id w r w' : need_rule id w = (Ok r, w') -> w' = w /\ r ∈ rules (approval_db w) /\ ru_id r = id.
Proof.
  unfold need_rule, get_rules. unfold_M. destruct (sql_find ru_id id _) as [x|] eqn:E; [|done]. intros [= -> <-]. by apply sql_find_Some_1 in E.
Qed.

Lemma create_rule_Ok id data w a w' : create_rule id data w = (Ok a, w') ->
  w' = w <| approval_db ::= fun d => d <| rules ::= fun l => (l ++ [new_rule id data])%list |> |> /\ nc_scope_type data ∈ SCOPE_TYPES
  /\ (id ∉ ru_id <$> rules (approval_db w)) /\ forall r, r ∈ rules (approval_db w) -> ru_name r ≠ nc_name data.
Proof.
  unfold create_rule. step_M x s1 H1. apply check_scope_type_Ok in H1 as [-> Hs]. step_M y s2 H2. apply check_rule_name_Ok in H2 as [-> Hn].
  unfold insert_rule, get_rules, sql_insert, set_rules. unfold_M. destruct (sql_find _ _ _) eqn:E; [done|]. intros [= _ <-]. split; [done|].
  split; [done|]. split; [by apply sql_find_None in E|]. intros r Hr. by apply Hn.
Qed.

Lemma update_rule_Ok id data w a w' : update_rule id data w = (Ok a, w') -> exists r, r ∈ rules (approval_db w) /\ ru_id r = id
  /\ (forall s, nu_scope_type data = Some s -> s ∈ SCOPE_TYPES)
  /\ (forall n, nu_name data = Some n -> forall x, x ∈ rules (approval_db w) -> ru_id x ≠ id -> ru_name x ≠ n)
  /\ w' = w <| approval_db ::= fun d => d <| rules ::= fun l => (sql_update (has_key ru_id id) (fun _ => changed_rule data r) l).1 |> |>.
Proof.
  unfold update_rule. step_M r s1 H1. apply need_rule_Ok in H1 as (-> & Hr & Hid). step_M x s2 H2. step_M y s3 H3. intros [= _ <-].
  assert (s2 = w /\ forall s, nu_scope_type data = Some s -> s ∈ SCOPE_TYPES) as [-> Hs].
  { destruct (nu_scope_type data) as [s|]; [|by injection H2 as _ <-]. apply check_scope_type_Ok in H2 as [-> Hs]. split; [done|]. by intros ? [= <-]. }
  assert (s3 = w /\ forall n, nu_name data = Some n -> forall x, x ∈ rules (approval_db w) -> ru_id x ≠ id -> ru_name x ≠ n) as [-> Hn].
  { destruct (nu_name data) as [n|]; [|by injection H3 as _ <-]. apply check_rule_name_Ok in H3 as [-> Hn]. split; [done|]. intros ? [= <-] z Hz Hne.
    apply Hn; [done|]. by apply negb_true_iff, has_key_false. }
  by exists r.
Qed.

Lemma delete_rule_Ok id w a w' : delete_rule id w = (Ok a, w') -> id ∈ ru_id <$> rules (approval_db w)
  /\ w' = w <| approval_db ::= fun d => d <| rules ::= fun l => (sql_delete (has_key ru_id id) l).1 |> <| approvals ::= map (forget_rule id) |> |>.
Proof. unfold delete_rule. step_M r s1 H1. apply need_rule_Ok in H1 as (-> & Hr & <-). intros [= _ <-]. split; [by apply list_elem_of_fmap_2|done]. Qed.

(** ** Well-formed rules *)

(** Nothing that is done to approvals touches the rules. *)
Lemma keeps_rules_update R id f : keeps (fun d => rules d = R) (Approvals.update_approval id f).
Proof. by intros d Hd. Qed.
Lemma keeps_rules_insert R a : keeps (fun d => rules d = R) (Approvals.insert_approval a).
Proof. intros d Hd. unfold Approvals.insert_approval. unfold_M. by destruct (sql_insert _ _ _). Qed.
Lemma keeps_rules_find R id : keeps (fun d => rules d = R) (Approvals.find_approval id).
Proof. by intros d Hd. Qed.
#[local] Hint Resolve keeps_rules_update keeps_rules_insert keeps_rules_find : pyboot.

Lemma keeps_rules_escalate R now m l : keeps (fun d => rules d = R) (Approvals.escalate_or_expire now m l).
Proof.
  induction l as [|a l IH]; cbn [Approvals.escalate_or_expire]; [apply keeps_ret|]. unfold Approvals.escalate_approval.
  keeps_steps; auto with pyboot.
Qed.

Lemma serve_rules d o : rules (approval_serve d o) = rules d.
Proof.
  unfold approval_serve.
  assert (keeps (fun d' => rules d' = rules d) (with_db (Approvals.approval_handle o))) as H; [|by apply H].
  apply keeps_with_db. destruct o; cbn [Approvals.approval_handle];
    unfold Approvals.create_approval, Approvals.create_approval_request, Approvals.vote_on_approval, Approvals.cast_vote, Approvals.approve_request,
      Approvals.reject_request, Approvals.legacy_cast_vote, Approvals.cancel_approval_post, Approvals.cancel_approval, Approvals.cancel_approval_delete,
      Approvals.get_approval_stats, Approvals._expire_old_approvals, Approvals.process_escalations, Approvals.process_expired_approvals;
    repeat first [progress keeps_steps | apply keeps_with_db | apply keeps_rules_escalate | solve [auto with pyboot] | by intros ? ?].
Qed.

Record rules_ok (w : RulesWorld) : Prop := {
  rk_ids : keys_unique ru_id (rules (approval_db w));
  rk_names : keys_unique ru_name (rules (approval_db w));
  rk_scopes : Forall (fun r => ru_scope_type r ∈ SCOPE_TYPES) (rules (approval_db w));
  rk_operations : Forall (fun r => is_Some (ru_operations r)) (rules (approval_db w));
  rk_approval_ids : keys_unique ap_id (approvals (approval_db w));
  rk_four_eyes : Forall Approvals.four_eyes (approvals (approval_db w))
}.

Lemma forget_rule_ok id l : keys_unique ap_id l -> Forall Approvals.four_eyes l ->
  keys_unique ap_id (map (forget_rule id) l) /\ Forall Approvals.four_eyes (map (forget_rule id) l).
Proof.
  intros Hu Hf. split.
  - unfold keys_unique. change (map ?f l) with (f <$> l). rewrite <- list_fmap_compose. erewrite list_fmap_ext; [exact Hu|]. intros _ a _. cbn. unfold forget_rule.
    by destruct (bool_decide _).
  - apply Forall_fmap. eapply Forall_impl; [exact Hf|]. intros a []. cbn. unfold forget_rule. by destruct (bool_decide _).
Qed.

Lemma manage_ok r w a w' : rules_ok w -> manage r w = (Ok a, w') -> rules_ok w'.
Proof.
  intros [H1 H2 H3 H4 H5 H6]. destruct r as [id data|id data|id]; cbn [manage].
  - intros (-> & Hs & Hid & Hn)%create_rule_Ok. constructor; cbn; [by apply keys_unique_snoc|apply keys_unique_snoc; [|done]|..|done|done].
    + intros (r & Er & Hr)%list_elem_of_fmap. by apply (Hn r Hr).
    + apply Forall_app. split; [done|]. by constructor.
    + apply Forall_app. split; [done|]. by constructor; [eexists|].
  - intros (r & Hr & Hid & Hs & Hn & ->)%update_rule_Ok. constructor; cbn -[sql_update]; [..|done|done].
    + unfold keys_unique. rewrite <- Hid. by rewrite (update_keys_same ru_id r (changed_rule data r)).
    + rewrite <- Hid. apply (unique_or_free ru_id ru_name r (changed_rule data r)); [done|done|done|done|]. cbn.
      destruct (nu_name data) as [n|]; [right; rewrite Hid; by apply Hn|by left].
    + apply Forall_forall. intros x (y & Hy & ->)%elem_of_update. rewrite Forall_forall in H3. destruct (has_key ru_id id y); [|by apply H3]. cbn.
      destruct (nu_scope_type data) as [s|]; [by apply Hs|by apply H3].
    + apply Forall_forall. intros x (y & Hy & ->)%elem_of_update. rewrite Forall_forall in H4. destruct (has_key ru_id id y); [|by apply H4]. cbn.
      destruct (nu_operations data) as [s|]; [by eexists|by apply H4].
  - intros [_ ->]%delete_rule_Ok. destruct (forget_rule_ok id _ H5 H6). constructor; cbn -[sql_delete]; try done; [by apply keys_unique_delete..| |];
      rewrite Forall_forall in H3, H4 |- *; intros x [Hx _]%elem_of_delete; auto.
Qed.

Section Theorems.
Context {C : Crypto} (BCRYPT JWT : bool) (listed : list string -> string) (fromisoformat : string -> option Z).
Abbreviation ran := (run BCRYPT JWT listed fromisoformat).
Abbreviation stepped := (step BCRYPT JWT listed fromisoformat).

(** A request on rules that succeeds comes from an administrator or somebody with the permission, and does what its handler does. *)
Lemma arrive_rule_Ok x w w' : arrive_rule JWT x w = (Ok tt, w') -> is_public_path (ra_path x) = false
  /\ exists d1 cu, only_used (accounts w) d1 /\ cu ∈ users (accounts w) /\ u_is_active cu = true
     /\ credentials JWT (ra_time x) (ra_authorization x) (u_id cu) (accounts w)
     /\ (is_admin cu = true \/ has_permission d1 cu "approval_rule" (rule_action (ra_request x)) = true)
     /\ manage (ra_request x) (w <| accounts := d1 |>) = (Ok tt, w').
Proof.
  unfold arrive_rule, with_db, in_accounts.
  pose proof (dispatch_cases JWT (ra_time x) (ra_path x) (ra_authorization x) (ra_client x) (accounts w)) as H.
  destruct (dispatch _ _ _ _ _ _) as [[[rq|st de]|e] d1]; destruct H as [Hu H]; [|done..]. specialize (H rq eq_refl). intros E.
  destruct (handle_rule _ _ _) as [[[]|e] w2] eqn:Eh; [|done]. injection E as <-. revert Eh. unfold handle_rule. step_M cu w3 H3.
  unfold in_accounts in H3. cbn [accounts] in H3. destruct (require_permission _ _ _ _) as [[cu'|e] d2] eqn:Er; [|done]. injection H3 as -> <-.
  apply require_permission_Ok in Er as (-> & Hid & Hin & Ha & Hp).
  destruct H as [[_ ->]|(Hpath & id & Hid' & Hc)]; [done|]. intros Em. split; [done|]. assert (id = u_id cu) as -> by congruence.
  pose proof Hu as [E1 _]. exists d1, cu. assert (users d1 = users (accounts w)) as <- by by rewrite E1. do 5 (split; [done|]).
  destruct w; exact Em.
Qed.

Lemma arrive_rule_Err x w e w' : arrive_rule JWT x w = (Err e, w') -> approval_db w' = approval_db w.
Proof.
  unfold arrive_rule, with_db, in_accounts. destruct (dispatch _ _ _ _ _ _) as [[[rq|st de]|e'] d1]; try (by intros [= _ <-]).
  destruct (handle_rule _ _ _) as [[a|e'] w2]; by intros [= _ <-].
Qed.

Lemma manage_accounts r w a w' : manage r w = (Ok a, w') -> accounts w' = accounts w.
Proof.
  destruct r as [id data|id data|id]; cbn [manage].
  - by intros (-> & _)%create_rule_Ok.
  - by intros (r & _ & _ & _ & _ & ->)%update_rule_Ok.
  - by intros [_ ->]%delete_rule_Ok.
Qed.

Lemma on_rules_ok r l : keys_unique ru_id l -> keys_unique ru_name l -> Forall (fun r => ru_scope_type r ∈ SCOPE_TYPES) l ->
  Forall (fun r => is_Some (ru_operations r)) l ->
  keys_unique ru_id (on_rules r l) /\ keys_unique ru_name (on_rules r l) /\ Forall (fun r => ru_scope_type r ∈ SCOPE_TYPES) (on_rules r l)
  /\ Forall (fun r => is_Some (ru_operations r)) (on_rules r l).
Proof.
  intros H1 H2 H3 H4. destruct r; cbn; try done.
  assert (forall K (f : ApprovalRule -> K), (forall x, f (forget_role role_id x) = f x) -> f <$> map (forget_role role_id) l = f <$> l) as Hf.
  { intros K f Hf. change (map ?g l) with (g <$> l). rewrite <- list_fmap_compose. apply list_fmap_ext. intros _ x _. apply Hf. }
  unfold keys_unique. rewrite !Hf by (intros x; unfold forget_role; by destruct (bool_decide _)). do 2 (split; [done|]).
  split; apply Forall_fmap; [apply (Forall_impl _ _ _ H3)|apply (Forall_impl _ _ _ H4)]; intros x Hx; cbn; unfold forget_role; by destruct (bool_decide _).
Qed.

Lemma rules_step_ok e w : rules_ok w -> rules_ok (stepped e w).
Proof.
  intros Hw. destruct e as [x|x|o]; cbn [step].
  - destruct (arrive _ _ _ _ x (accounts w)) as [[u|e] d]; destruct Hw as [H1 H2 H3 H4 H5 H6]; [|by constructor].
    destruct (on_rules_ok (ar_request x) _ H1 H2 H3 H4) as (? & ? & ? & ?). by constructor.
  - destruct (arrive_rule JWT x w) as [[[]|e] w'] eqn:E; cbn.
    + apply arrive_rule_Ok in E as (_ & d1 & cu & _ & _ & _ & _ & _ & Em). eapply manage_ok; [|exact Em]. by destruct Hw.
    + apply arrive_rule_Err in E. destruct Hw. by constructor; rewrite E.
  - destruct Hw as [H1 H2 H3 H4 H5 H6]. destruct (Approvals.good_serve (fun _ => true) [] ltac:(constructor) (approval_db w) o) as (G1 & G2 & _);
      [done|split; [done|]; split; [by eapply Forall_impl; [exact H6|]; intros x Hx|]; by intros ? ?%not_elem_of_nil|].
    constructor; cbn; rewrite ?serve_rules; try done. eapply Forall_impl; [exact G2|]. by intros x [].
Qed.

(** C30: over any requests on accounts, roles and rules and whatever is done to approvals: rules have unique identifiers and names, a known scope and a
    readable list of operations; approvals have unique identifiers, and each is approved or rejected only by as many votes as it requires, of distinct
    names other than the requester's, whatever is done to the rules meanwhile. *)
Theorem rules_stay_well_formed es w : rules_ok w -> rules_ok (ran es w).
Proof. unfold run. revert w. induction es as [|e es IH]; intros w Hw; [done|]. cbn. by apply IH, rules_step_ok. Qed.

Lemma step_permissions e w : permissions (accounts (stepped e w)) = permissions (accounts w).
Proof.
  destruct e as [x|x|o]; cbn [step]; [| |done].
  - pose proof (arrive_permissions BCRYPT JWT listed fromisoformat x (accounts w)) as H. by destruct (arrive _ _ _ _ x (accounts w)) as [[u|e] d].
  - destruct (arrive_rule JWT x w) as [[[]|e] w'] eqn:E; cbn.
    + apply arrive_rule_Ok in E as (_ & d1 & cu & [E1 _] & _ & _ & _ & _ & Em). apply manage_accounts in Em as ->. cbn. by rewrite E1.
    + revert E. unfold arrive_rule, with_db, in_accounts.
      pose proof (dispatch_cases JWT (ra_time x) (ra_path x) (ra_authorization x) (ra_client x) (accounts w)) as H.
      destruct (dispatch _ _ _ _ _ _) as [[[rq|st de]|e'] d1]; destruct H as [[E1 _] _];
        [destruct (handle_rule _ _ _) as [[a|e2] w2]|..]; intros [= _ <-]; cbn; try done; by rewrite E1.
Qed.

(** With the permissions that seeding gives, whatever roles are made and given to whom, and whatever requests came before, a request on the
    approval rules succeeds only for an active administrator who proved to be it: the permissions on approval rules do not exist. *)
Theorem only_administrators_manage_rules es w x w' : (forall p, p ∈ permissions (accounts w) -> pair_of p ∈ PERMISSIONS) ->
  arrive_rule JWT x (ran es w) = (Ok tt, w') ->
  exists cu, cu ∈ users (accounts (ran es w)) /\ u_is_active cu = true /\ is_admin cu = true
    /\ credentials JWT (ra_time x) (ra_authorization x) (u_id cu) (accounts (ran es w)).
Proof.
  intros HP. assert (permissions (accounts (ran es w)) = permissions (accounts w)) as E.
  { clear HP. unfold run. revert w. induction es as [|e es IH]; intros w; [done|]. cbn. by rewrite IH, step_permissions. }
  intros (_ & d1 & cu & [E1 _] & Hcu & Ha & Hc & [Hadm|Hp] & _)%arrive_rule_Ok; [by exists cu|]. exfalso. revert Hp. unfold has_permission.
  destruct (role_ref d1 cu) as [r|]; [|done]. intros (p & [Hp _]%list_elem_of_In%elem_of_sql_select & [Er Ea]%andb_true_iff)%existsb_exists.
  rewrite E1 in Hp. cbn in Hp. rewrite E in Hp. apply HP in Hp. apply String.eqb_eq in Er, Ea. unfold pair_of in Hp. rewrite Er, Ea in Hp. revert Hp.
  destruct (ra_request x); cbn [rule_action]; apply (bool_decide_unpack (_ ∉ _)); by vm_compute.
Qed.
End Theorems.

(** ** Examples *)

Definition no_iso (s : string) : option Z := None.
Definition world0 (l : list Approval) : RulesWorld :=
  {| accounts := first_run; approval_db := Approvals.set_approvals l (Approvals.db0 [Approvals.rule "r1" "global" None ["*"] 1]) |}.
Definition the_admin : User := admin_user true drawn "salt" 0 (List.map (fun r => (ro_name r, r)) (roles first_run)).
Definition asks (u : User) (r : rule_request) : RuleArrival :=
  {| ra_time := 0; ra_path := "/api/v1/approval-rules"; ra_authorization := bearer u; ra_client := None; ra_request := r |}.
Abbreviation ran0 := (run true true no_list no_iso).

Definition wipes : ApprovalRuleCreate :=
  {| nc_name := "wipes"; nc_scope_type := "device_group"; nc_scope_id := None; nc_operations := ["node.wipe"]; nc_required_approvers := 2;
     nc_escalation_timeout_hours := 72; nc_escalation_role_id := None; nc_is_active := true; nc_priority := 5 |}.

(** An approver made by seeding's own roles may read and vote, but not manage a rule. *)
Definition new_operator : account_request :=
  CreateUser "op" "salt" {| uc_username := "op"; uc_email := None; uc_password := "password"; uc_role := "operator" |}.
Definition operator_user : User := new_user "op" "op" None (hash_password true "salt" "password") "operator" 0.

Example operators_manage_no_rules :
  let w := ran0 [AccountEvent (from the_admin (AccountRequest new_operator))] (world0 []) in
  (arrive_rule true (asks operator_user (CreateRule "r2" wipes)) w).1 = Err (HTTPException 403 "Permission denied: approval_rule:create")
  /\ (arrive_rule true (asks the_admin (CreateRule "r2" wipes)) w).1 = Ok tt.
Proof. by vm_compute. Qed.

(** A rule for a group of devices may name none, and then never applies. *)
Example rule_without_its_group :
  let d := approval_db (ran0 [RuleEvent (asks the_admin (DeleteRule "r1")); RuleEvent (asks the_admin (CreateRule "r2" wipes))] (world0 [])) in
  length (rules d) = 1%nat /\ Approvals.find_matching_rule "node.wipe" "u" (Some "g") d = None.
Proof. by vm_compute. Qed.

(** Deleting a rule takes its pending requests' deadlines away: the next four runs of the job expire them, however soon they come. *)
Example deleted_rule_hastens_expiry :
  let jobs := map (fun t => ApprovalEvent (Approvals.OpEscalate t)) [10; 11; 12; 13]%Z in
  let status es := Approvals.ap_status <$> approvals (approval_db (ran0 es (world0 [Approvals.undecided]))) in
  status jobs = [Approvals.ApPending] /\ status (RuleEvent (asks the_admin (DeleteRule "r1")) :: jobs) = [Approvals.ApExpired].
Proof. by vm_compute. Qed.

Lemma rules_stay_well_formed_witness :
  let es := [RuleEvent (asks the_admin (CreateRule "r2" wipes)); RuleEvent (asks the_admin (CreateRule "r3" wipes));
             RuleEvent (asks the_admin (DeleteRule "r1")); ApprovalEvent (Approvals.OpEscalate 10)] in
  rules_ok (ran0 es (world0 [Approvals.undecided])) /\ map ru_id (rules (approval_db (ran0 es (world0 [Approvals.undecided])))) = ["r2"].
Proof.
  intros es. split; [|by vm_compute]. apply (rules_stay_well_formed true true no_list no_iso es (world0 [Approvals.undecided])).
  split; cbn.
  - apply NoDup_singleton.
  - apply NoDup_singleton.
  - apply Forall_singleton. apply (bool_decide_unpack _). by vm_compute.
  - apply Forall_singleton. by eexists.
  - apply NoDup_singleton.
  - repeat constructor; cbn; try discriminate; by intros ?%not_elem_of_nil.
Defined.

Lemma only_administrators_manage_rules_witness :
  let w := ran0 [AccountEvent (from the_admin (AccountRequest new_operator))] (world0 []) in
  exists cu, cu ∈ users (accounts w) /\ u_is_active cu = true /\ is_admin cu = true /\ credentials true 0 (bearer the_admin) (u_id cu) (accounts w).
Proof.
  intros w. destruct (arrive_rule true (asks the_admin (CreateRule "r2" wipes)) w) as [[[]|e] w'] eqn:E; [|by vm_compute in E].
  apply (only_administrators_manage_rules true true no_list no_iso [AccountEvent (from the_admin (AccountRequest new_operator))] (world0 [])
           (asks the_admin (CreateRule "r2" wipes)) w'); [|exact E].
  apply Forall_forall. apply (bool_decide_unpack _). by vm_compute.
Defined.
