(* ===== verification/Luns.v ===== *)
(** * iSCSI LUNs

    [api/routes/luns.py] and [core/iscsi.py], with the schemas they validate by.
    The programs that the service starts act on the host, whose state and whose
    answers are parameters: [targetcli], LVM, and the directory of the backing
    files.  A run is a sequence of requests, of background tasks and of restarts,
    which forget the tasks.  While a task runs no request changes its row, so a
    task is one step.  The tables of back ends and of nodes belong to other
    parts, and change at any time.  What a request did on the host stays when it
    raises. *)
From S2P Require Import Prelude PyStr SqlTable Controller.
From stdpp Require Import base tactics list strings pretty relations.
From Stdlib Require Import Ascii ZArith Lia.
Open Scope string_scope.
#[local] Arguments String.append !_ _ : simpl nomatch.

(** ** Names *)

Definition ascii_alnum (c : ascii) : bool := is_lower c || is_upper c || is_digit c.

(** [str.isalnum] on the 8-bit characters: letters, digits and other numbers. *)
Definition isalnum (c : ascii) : bool :=
  ascii_alnum c || existsb (N.eqb (N_of_ascii c)) [170; 178; 179; 181; 185; 186; 188; 189; 190]%N
  || in_range 192 214 c || in_range 216 246 c || in_range 248 255 c.

Fixpoint last_char (s : string) : option ascii :=
  match s with
  | EmptyString => None
  | String c EmptyString => Some c
  | String _ r => last_char r
  end.

Definition first_char (s : string) : option ascii := match s with String c _ => Some c | EmptyString => None end.

(** The pattern of two alternatives, without its [$]. *)
Definition safe_word (s : string) : bool :=
  match first_char s, last_char s with
  | Some a, Some b => ascii_alnum a && ascii_alnum b && str_forall (fun c => ascii_alnum c || Ascii.eqb c "-") s
  | _, _ => false
  end.

Definition newline : ascii := "010".

(** [$] also matches before a newline at the end. *)
Fixpoint without_newline (s : string) : string :=
  match s with
  | EmptyString => EmptyString
  | String c EmptyString => if Ascii.eqb c newline then EmptyString else s
  | String c r => String c (without_newline r)
  end.

Definition _validate_safe_name (name : string) : bool :=
  negb (String.eqb name "") && (String.length name <=? 100)%nat && (safe_word name || safe_word (without_newline name)).

(** The schemas' validator. *)
Definition validate_name (v : string) : option string :=
  if (2 <=? String.length v)%nat && str_forall (fun c => isalnum c || Ascii.eqb c "-") v
     && negb (startswith "-" v) && negb (endswith "-" v)
  then Some (lower v) else None.

Definition generate_iqn (name : string) : string := "iqn.2026-01.local.pureboot:" ++ name.
Definition generate_initiator_iqn (mac : string) : string := "iqn.2026-01.local.pureboot:node:" ++ lower (str_replace ":" "" mac).

(** ** Rows and bodies *)

Record IscsiLun := {
  l_id : string;
  l_name : string;
  l_size_gb : Z;
  l_backend_id : string;
  l_iqn : string;
  l_lun_number : Z;
  l_purpose : string;
  l_status : string;
  l_error_message : option string;
  l_assigned_node_id : option string;
  l_chap_enabled : bool;
  l_chap_username : option string;
  l_chap_password_encrypted : option string
}.

(** The settings of a back end, where its JSON can be read. *)
Record IscsiConfig := {
  target_name : option string;
  portal_ip : option string;
  portal_port : option Z;
  backingstore_type : option string;
  backingstore_path : option string
}.

Record LunBackend := { lb_id : string; lb_name : string; lb_type : string; lb_config : option IscsiConfig }.
Record LunNode := { ln_id : string; ln_mac_address : string; ln_hostname : option string }.

Record IscsiLunCreate := {
  lc_name : string;
  lc_size_gb : Z;
  lc_backend_id : string;
  lc_purpose : string;
  lc_chap_enabled : bool
}.
Record IscsiLunUpdate := { lu_name : option string; lu_chap_enabled : option bool }.

Definition PURPOSES : list string := ["boot_from_san"; "install_source"; "auto_provision"].

Definition lun_create (b : IscsiLunCreate) : option IscsiLunCreate :=
  match validate_name (lc_name b) with
  | Some n => if (1 <=? lc_size_gb b)%Z && (lc_size_gb b <=? 10000)%Z && existsb (String.eqb (lc_purpose b)) PURPOSES
              then Some (b <| lc_name := n |>) else None
  | None => None
  end.

Definition lun_update (b : IscsiLunUpdate) : option IscsiLunUpdate :=
  match lu_name b with
  | Some n => match validate_name n with Some n => Some (b <| lu_name := Some n |>) | None => None end
  | None => Some b
  end.

Inductive task_kind : Type := Creation | Deletion.

(** ** The host *)

Section Luns.
Context {T : Type}
  (targetcli : string -> T -> (bool * string) * T)
  (makedirs : string -> T -> bool * T)                                 (* [false]: raises *)
  (remove : string -> T -> T)                                          (* an [OSError] is swallowed *)
  (lvcreate : Z -> string -> string -> T -> option (bool * string) * T) (* [None]: raises *)
  (lvremove : string -> T -> bool * T)
  (encrypt_password : string -> string) (decrypt_password : string -> option string)
  (str_of : server_error -> string).

Record World := {
  luns : list IscsiLun;
  backends : list LunBackend;
  nodes : list LunNode;
  host : T;
  tasks : list (string * task_kind)
}.

Abbreviation LunM A := (M World server_error A).

Definition _run_targetcli (command : string) : LunM (bool * string) :=
  fun w => let '(r, t) := targetcli command (host w) in (Ok r, w <| host := t |>).

Definition on_host {A} (f : T -> A * T) : LunM A := fun w => let '(a, t) := f (host w) in (Ok a, w <| host := t |>).

Record IscsiLunService := {
  s_target_name : string;
  s_portal_ip : string;
  s_portal_port : Z;
  s_backingstore_type : string;
  s_backingstore_path : string
}.

Definition lun_service (c : IscsiConfig) : IscsiLunService :=
  {| s_target_name := default "iqn.2026-01.local.pureboot:target1" (target_name c);
     s_portal_ip := default "0.0.0.0" (portal_ip c);
     s_portal_port := default 3260%Z (portal_port c);
     s_backingstore_type := default "file" (backingstore_type c);
     s_backingstore_path := default "/var/lib/pureboot/luns" (backingstore_path c) |}.

Definition service_of (b : LunBackend) : LunM IscsiLunService :=
  match lb_config b with Some c => mret (lun_service c) | None => raise ValueError end.

Definition create_backingstore (s : IscsiLunService) (name : string) (size_gb : Z) : LunM (bool * string) :=
  if negb (_validate_safe_name name) then mret (false, "Invalid name: " ++ name)
  else if String.eqb (s_backingstore_type s) "file" then
    made ← on_host (makedirs (s_backingstore_path s));
    if (made : bool) then
      _run_targetcli ("/backstores/fileio create " ++ name ++ " " ++ s_backingstore_path s ++ "/" ++ name ++ ".img " ++ pretty size_gb
                      ++ "G sparse=true")
    else raise OSError
  else if String.eqb (s_backingstore_type s) "block" then
    let vg_name := s_backingstore_path s in
    answer ← on_host (lvcreate size_gb name vg_name);
    match answer with
    | None => raise OSError
    | Some (false, message) => mret (false, message)
    | Some (true, _) => _run_targetcli ("/backstores/block create " ++ name ++ " /dev/" ++ vg_name ++ "/" ++ name)
    end
  else mret (false, "Unknown backingstore type: " ++ s_backingstore_type s).

Definition delete_backingstore (s : IscsiLunService) (name : string) : LunM (bool * string) :=
  if negb (_validate_safe_name name) then mret (false, "Invalid name: " ++ name)
  else if String.eqb (s_backingstore_type s) "file" then
    answer ← _run_targetcli ("/backstores/fileio delete " ++ name);
    (if fst (answer : bool * string) then on_host (fun t => (tt, remove (s_backingstore_path s ++ "/" ++ name ++ ".img") t)) else mret tt);;
    mret answer
  else if String.eqb (s_backingstore_type s) "block" then
    answer ← _run_targetcli ("/backstores/block delete " ++ name);
    if fst (answer : bool * string) then
      removed ← on_host (lvremove ("/dev/" ++ s_backingstore_path s ++ "/" ++ name));
      if (removed : bool) then mret answer else raise OSError
    else mret answer
  else mret (false, "Unknown backingstore type: " ++ s_backingstore_type s).

Definition tpg (s : IscsiLunService) : string := "/iscsi/" ++ s_target_name s ++ "/tpg1".

Definition create_target_lun (s : IscsiLunService) (name : string) (lun_number : Z) : LunM (bool * string) :=
  if negb (_validate_safe_name name) then mret (false, "Invalid name: " ++ name)
  else
    let backingstore := if String.eqb (s_backingstore_type s) "file" then "fileio" else "block" in
    _run_targetcli (tpg s ++ "/luns create /backstores/" ++ backingstore ++ "/" ++ name ++ " lun=" ++ pretty lun_number).

Definition delete_target_lun (s : IscsiLunService) (lun_number : Z) : LunM (bool * string) :=
  _run_targetcli (tpg s ++ "/luns delete lun" ++ pretty lun_number).

Definition create_acl (s : IscsiLunService) (initiator_iqn : string) : LunM (bool * string) :=
  _run_targetcli (tpg s ++ "/acls create " ++ initiator_iqn).
Definition delete_acl (s : IscsiLunService) (initiator_iqn : string) : LunM (bool * string) :=
  _run_targetcli (tpg s ++ "/acls delete " ++ initiator_iqn).
Definition set_chap (s : IscsiLunService) (initiator_iqn username password : string) : LunM (bool * string) :=
  _run_targetcli (tpg s ++ "/acls/" ++ initiator_iqn ++ " set auth userid=" ++ username ++ " password=" ++ password).
Definition save_config : LunM (bool * string) := _run_targetcli "saveconfig".

Definition ensure_target_exists (s : IscsiLunService) : LunM (bool * string) :=
  listing ← _run_targetcli "/iscsi ls";
  if str_contains (s_target_name s) (snd (listing : bool * string)) then mret (true, "Target exists")
  else
    created ← _run_targetcli ("/iscsi create " ++ s_target_name s);
    if negb (fst (created : bool * string)) then mret (false, snd created)
    else
      _run_targetcli (tpg s ++ "/portals create " ++ s_portal_ip s ++ " " ++ pretty (s_portal_port s));;
      _run_targetcli (tpg s ++ " set attribute authentication=0");;
      _run_targetcli (tpg s ++ " set attribute generate_node_acls=0");;
      save_config.

(** ** The tables *)

Definition set_luns (f : list IscsiLun -> list IscsiLun) : LunM unit := modify (fun w => w <| luns ::= f |>).

Definition find_lun (id : string) : LunM (option IscsiLun) := w ← get_state; mret (sql_find l_id id (luns w)).
Definition find_backend (id : string) : LunM (option LunBackend) := w ← get_state; mret (sql_find lb_id id (backends w)).
Definition find_node (id : string) : LunM (option LunNode) := w ← get_state; mret (sql_find ln_id id (nodes w)).

Definition need_lun (id : string) : LunM IscsiLun :=
  lun ← find_lun id;
  match lun with Some l => mret l | None => raise (HTTPException 404 "LUN not found") end.

(** [scalar_one_or_none] *)
Definition scalar {R} (rows : list R) : LunM (option R) :=
  match rows with [] => mret None | [r] => mret (Some r) | _ => raise MultipleResultsFound end.

Definition refuse_if (b : bool) (status : Z) (detail : string) : LunM unit :=
  if b then raise (HTTPException status detail) else mret tt.

(** No other LUN has the name. *)
Definition check_lun_name (name : string) (others : IscsiLun -> bool) : LunM unit :=
  w ← get_state;
  existing ← scalar (sql_select (fun l => has_key l_name name l && others l) (luns w));
  refuse_if (match existing with Some _ => true | None => false end) 400 "LUN name already exists".

(** The row's columns, at the commit. *)
Definition write_lun (id : string) (f : IscsiLun -> IscsiLun) : LunM unit :=
  set_luns (fun t => (sql_update (has_key l_id id) f t).1).

Definition set_lun_status (id status : string) (message : option string) : LunM unit :=
  write_lun id (fun l => l <| l_status := status |> <| l_error_message := message |>).

(** The database's part of a request that raises is undone. *)
Definition transaction {A} (m : LunM A) : LunM A :=
  fun w => match m w with
           | (Ok a, w') => (Ok a, w')
           | (Err e, w') => (Err e, w' <| luns := luns w |>)
           end.

(** [attempt] goes on when the program succeeds. *)
Definition attempt {A} (m : LunM (bool * string)) (failed : string -> LunM A) (next : LunM A) : LunM A :=
  r ← m; if fst (r : bool * string) then next else failed (snd r).

(** ** Background tasks *)

Definition creation_body (lun_id : string) : LunM unit :=
  lun ← find_lun lun_id;
  match lun with
  | None => mret tt
  | Some lun =>
      backend ← find_backend (l_backend_id lun);
      match backend with
      | None => set_lun_status lun_id "error" (Some "Backend not found")
      | Some backend =>
          service ← service_of backend;
          let failed what message := set_lun_status lun_id "error" (Some (what ++ message)) in
          attempt (ensure_target_exists service) (failed "Failed to ensure target: ")
            (attempt (create_backingstore service (l_name lun) (l_size_gb lun)) (failed "Failed to create backingstore: ")
              (attempt (create_target_lun service (l_name lun) (l_lun_number lun))
                (fun message => delete_backingstore service (l_name lun);; failed "Failed to create LUN: " message)
                (save_config;; set_lun_status lun_id "ready" None)))
      end
  end.

Definition _create_lun_background (lun_id : string) : LunM unit :=
  catch (creation_body lun_id) (fun e => set_lun_status lun_id "error" (Some (str_of e))).

Definition deletion_body (lun_id : string) : LunM unit :=
  lun ← find_lun lun_id;
  match lun with
  | None => mret tt
  | Some lun =>
      backend ← find_backend (l_backend_id lun);
      match backend with
      | None => set_luns (fun t => (sql_delete (has_key l_id lun_id) t).1)
      | Some backend =>
          service ← service_of backend;
          delete_target_lun service (l_lun_number lun);;
          delete_backingstore service (l_name lun);;
          save_config;;
          set_luns (fun t => (sql_delete (has_key l_id lun_id) t).1)
      end
  end.

Definition _delete_lun_background (lun_id : string) : LunM unit :=
  catch (deletion_body lun_id) (fun e => set_lun_status lun_id "error" (Some ("Delete failed: " ++ str_of e))).

(** ** Requests *)

(** The answer reads the row of the back end, and of the node where there is one: both must be loaded. *)
Definition from_lun (backend_loaded node_loaded : bool) (lun : IscsiLun) : LunM IscsiLun :=
  if backend_loaded && (node_loaded || match l_assigned_node_id lun with None => true | Some _ => false end)
  then mret lun else raise MissingGreenlet.

Fixpoint from_luns (rows : list IscsiLun) : LunM (list IscsiLun) :=
  match rows with
  | [] => mret []
  | l :: rows => x ← from_lun false false l; xs ← from_luns rows; mret (x :: xs)
  end.

(** [if filter: ...] *)
Definition matches (filter : option string) (column : string) : bool :=
  match filter with Some s => String.eqb s "" || String.eqb s column | None => true end.

Definition list_luns (backend_id status purpose : option string) : LunM (list IscsiLun) :=
  w ← get_state;
  from_luns (sql_select (fun l => matches backend_id (l_backend_id l) && matches status (l_status l) && matches purpose (l_purpose l)) (luns w)).

Definition get_lun (lun_id : string) : LunM IscsiLun := lun ← need_lun lun_id; from_lun false false lun.

Definition new_lun (id chap_password : string) (body : IscsiLunCreate) (lun_number : Z) : IscsiLun :=
  {| l_id := id; l_name := lc_name body; l_size_gb := lc_size_gb body; l_backend_id := lc_backend_id body; l_iqn := generate_iqn (lc_name body);
     l_lun_number := lun_number; l_purpose := lc_purpose body; l_status := "creating"; l_error_message := None; l_assigned_node_id := None;
     l_chap_enabled := lc_chap_enabled body;
     l_chap_username := if lc_chap_enabled body then Some (lc_name body) else None;
     l_chap_password_encrypted := if lc_chap_enabled body then Some (encrypt_password chap_password) else None |}.

Definition insert_lun (lun : IscsiLun) : LunM unit :=
  w ← get_state;
  match sql_insert l_id lun (luns w) with
  | None => raise IntegrityError
  | Some t => if existsb (has_key l_iqn (l_iqn lun)) (luns w) then raise IntegrityError else set_luns (fun _ => t)
  end.

(** The number after the last one. *)
Definition next_lun_number (backend_id : string) : LunM Z :=
  w ← get_state;
  last_lun ← scalar (order_by_desc l_lun_number (sql_select (has_key l_backend_id backend_id) (luns w)));
  mret (match last_lun with Some l => l_lun_number l + 1 | None => 0 end)%Z.

Definition start_task (lun_id : string) (k : task_kind) : LunM unit :=
  modify (fun w => w <| tasks ::= fun l => (l ++ [(lun_id, k)])%list |>).

Definition create_lun (id chap_password : string) (body : IscsiLunCreate) : LunM IscsiLun :=
  lun ← transaction (
    backend ← find_backend (lc_backend_id body);
    match backend with
    | None => raise (HTTPException 404 "Backend not found")
    | Some backend =>
        refuse_if (negb (String.eqb (lb_type backend) "iscsi")) 400 "Backend must be iSCSI type";;
        check_lun_name (lc_name body) (fun _ => true);;
        lun_number ← next_lun_number (lc_backend_id body);
        let lun := new_lun id chap_password body lun_number in
        insert_lun lun;;
        mret lun
    end);
  start_task id Creation;;
  from_lun true false lun.

Definition ready_or_active (status : string) : bool := String.eqb status "ready" || String.eqb status "active".
Definition given (s : option string) : bool := match s with Some s => negb (String.eqb s "") | None => false end.

Definition update_name (name : option string) (lun : IscsiLun) : IscsiLun :=
  match name with Some n => lun <| l_name := n |> <| l_iqn := generate_iqn n |> | None => lun end.

Definition update_chap (chap_password : string) (enabled : option bool) (lun : IscsiLun) : IscsiLun :=
  match enabled with
  | None => lun
  | Some b =>
      let lun := lun <| l_chap_enabled := b |> in
      if b && negb (given (l_chap_username lun))
      then lun <| l_chap_username := Some (l_name lun) |> <| l_chap_password_encrypted := Some (encrypt_password chap_password) |>
      else lun
  end.

Definition update_lun (lun_id chap_password : string) (body : IscsiLunUpdate) : LunM IscsiLun :=
  lun ← transaction (
    lun ← need_lun lun_id;
    refuse_if (negb (ready_or_active (l_status lun))) 400 ("Cannot update LUN in " ++ l_status lun ++ " status");;
    match lu_name body with
    | Some n => check_lun_name n (fun l => negb (has_key l_id lun_id l))
    | None => mret tt
    end;;
    let lun := update_chap chap_password (lu_chap_enabled body) (update_name (lu_name body) lun) in
    write_lun lun_id (fun _ => lun);;
    mret lun);
  from_lun false false lun.

Definition delete_lun (lun_id : string) : LunM unit :=
  transaction (
    lun ← need_lun lun_id;
    refuse_if (String.eqb (l_status lun) "creating") 400 "Cannot delete LUN while creating";;
    refuse_if (String.eqb (l_status lun) "deleting") 400 "LUN already being deleted";;
    refuse_if (given (l_assigned_node_id lun)) 400 "Cannot delete assigned LUN - unassign first";;
    write_lun lun_id (fun l => l <| l_status := "deleting" |>));;
  start_task lun_id Deletion.

(** CHAP for the initiator, if the LUN wants it; the ACL goes again when it fails. *)
Definition set_lun_chap (service : IscsiLunService) (initiator_iqn : string) (lun : IscsiLun) : LunM unit :=
  match l_chap_username lun, l_chap_password_encrypted lun with
  | Some username, Some encrypted =>
      if l_chap_enabled lun && negb (String.eqb username "") && negb (String.eqb encrypted "") then
        match decrypt_password encrypted with
        | None => raise ValueError
        | Some password =>
            attempt (set_chap service initiator_iqn username password)
              (fun message => delete_acl service initiator_iqn;; raise (HTTPException 500 ("Failed to set CHAP: " ++ message)))
              (mret tt)
        end
      else mret tt
  | _, _ => mret tt
  end.

Definition assign_lun (lun_id node_id : string) : LunM IscsiLun :=
  lun ← transaction (
    lun ← need_lun lun_id;
    refuse_if (negb (ready_or_active (l_status lun))) 400 ("Cannot assign LUN in " ++ l_status lun ++ " status");;
    refuse_if (given (l_assigned_node_id lun)) 400 "LUN already assigned";;
    node ← find_node node_id;
    match node with
    | None => raise (HTTPException 404 "Node not found")
    | Some node =>
        backend ← find_backend (l_backend_id lun);
        match backend with
        | None => raise (HTTPException 500 "Backend not found for LUN")
        | Some backend =>
            service ← service_of backend;
            let initiator_iqn := generate_initiator_iqn (ln_mac_address node) in
            attempt (create_acl service initiator_iqn) (fun message => raise (HTTPException 500 ("Failed to create ACL: " ++ message)))
              (set_lun_chap service initiator_iqn lun;;
               save_config;;
               let assigned l := l <| l_assigned_node_id := Some (ln_id node) |> <| l_status := "active" |> in
               write_lun lun_id assigned;;
               mret (assigned lun))
        end
    end);
  from_lun true true lun.

Definition unassign_lun (lun_id : string) : LunM IscsiLun :=
  answer ← transaction (
    lun ← need_lun lun_id;
    refuse_if (negb (given (l_assigned_node_id lun))) 400 "LUN not assigned";;
    node ← find_node (default "" (l_assigned_node_id lun));
    backend_loaded ← match node with
      | Some node =>
          backend ← find_backend (l_backend_id lun);
          match backend with
          | Some backend =>
              service ← service_of backend;
              delete_acl service (generate_initiator_iqn (ln_mac_address node));;
              save_config;;
              mret true
          | None => mret false
          end
      | None => mret false
      end;
    let unassigned l := l <| l_assigned_node_id := None |> <| l_status := "ready" |> in
    write_lun lun_id unassigned;;
    mret (backend_loaded, unassigned lun));
  from_lun (fst (answer : bool * IscsiLun)) false (snd answer).

(** ** Runs *)

Inductive lun_event : Type :=
| CreateLun (id chap_password : string) (body : IscsiLunCreate)
| UpdateLun (lun_id chap_password : string) (body : IscsiLunUpdate)
| DeleteLun (lun_id : string)
| AssignLun (lun_id node_id : string)
| UnassignLun (lun_id : string)
| TaskRuns (lun_id : string)
| ServerRestarts
| BackendsChange (l : list LunBackend)
| NodesChange (l : list LunNode).

Definition forget_task (lun_id : string) (l : list (string * task_kind)) : list (string * task_kind) :=
  List.filter (fun t => negb (String.eqb t.1 lun_id)) l.

Definition run_task (lun_id : string) : LunM unit :=
  w ← get_state;
  match assoc_get lun_id (tasks w) with
  | None => mret tt
  | Some k =>
      modify (fun w => w <| tasks ::= forget_task lun_id |>);;
      match k with Creation => _create_lun_background lun_id | Deletion => _delete_lun_background lun_id end
  end.

(** A body that the schema refuses does nothing. *)
Definition handle_lun (e : lun_event) : LunM unit :=
  match e with
  | CreateLun id p b => match lun_create b with Some b => create_lun id p b;; mret tt | None => raise ValidationError end
  | UpdateLun id p b => match lun_update b with Some b => update_lun id p b;; mret tt | None => raise ValidationError end
  | DeleteLun id => delete_lun id
  | AssignLun id node => assign_lun id node;; mret tt
  | UnassignLun id => unassign_lun id;; mret tt
  | TaskRuns id => run_task id
  | ServerRestarts => modify (fun w => w <| tasks := [] |>)
  | BackendsChange l => modify (fun w => w <| backends := l |>)
  | NodesChange l => modify (fun w => w <| nodes := l |>)
  end.

Definition run_luns (es : list lun_event) (w : World) : World := fold_left (fun w e => (handle_lun e w).2) es w.
End Luns.

(** ** Well-formed LUNs *)

Definition STATUSES : list string := ["creating"; "ready"; "active"; "error"; "deleting"].

Definition plain_name (n : string) : bool := (2 <=? String.length n)%nat && str_forall (fun c => isalnum c || Ascii.eqb c "-") n.

Record lun_ok (l : IscsiLun) : Prop := {
  lo_name : plain_name (l_name l) = true;
  lo_iqn : l_iqn l = generate_iqn (l_name l);
  lo_size : (1 <= l_size_gb l <= 10000)%Z;
  lo_purpose : l_purpose l ∈ PURPOSES;
  lo_status : l_status l ∈ STATUSES;
  lo_assigned : if String.eqb (l_status l) "active" then given (l_assigned_node_id l) = true else l_assigned_node_id l = None;
  lo_credentials : l_chap_username l = None <-> l_chap_password_encrypted l = None;
  lo_chap : l_chap_enabled l = true -> l_chap_username l ≠ None
}.

Definition status_of_task (k : task_kind) : string := match k with Creation => "creating" | Deletion => "deleting" end.

Definition on_backend (b : string) (l : IscsiLun) : bool := has_key l_backend_id b l.

Section Invariant.
Context {T : Type}.

Record luns_ok (w : World (T := T)) : Prop := {
  wl_ids : keys_unique l_id (luns w);
  wl_names : keys_unique l_name (luns w);
  wl_numbers : NoDup ((fun l => (l_backend_id l, l_lun_number l)) <$> luns w);
  wl_two : forall b, (sql_count (on_backend b) (luns w) <= 2)%Z;
  wl_luns : Forall lun_ok (luns w);
  wl_tasks : NoDup (tasks w).*1;
  wl_status : Forall (fun t => exists l, l ∈ luns w /\ l_id l = t.1 /\ l_status l = status_of_task t.2) (tasks w);
  wl_nodes : Forall (fun n => ln_id n ≠ "") (nodes w)
}.

(** The row [l] becomes [l']. *)
Definition row_becomes (l l' : IscsiLun) (t t' : list IscsiLun) : Prop :=
  l ∈ t /\ l_id l' = l_id l /\ t' = (sql_update (has_key l_id (l_id l)) (fun _ => l') t).1.

(** The life of the LUNs: what one event may do to the table and to the tasks. *)
Inductive change (w w' : World (T := T)) : Prop :=
| Unchanged : luns w' = luns w -> (tasks w' = tasks w \/ tasks w' = []) -> change w w'
| Added l : luns w' = (luns w ++ [l])%list -> tasks w' = (tasks w ++ [(l_id l, Creation)])%list ->
    lun_ok l -> l_status l = "creating" -> (l_id l ∉ l_id <$> luns w) -> (l_name l ∉ l_name <$> luns w) ->
    (sql_count (on_backend (l_backend_id l)) (luns w) <= 1)%Z ->
    (forall x, x ∈ luns w -> l_backend_id x = l_backend_id l -> l_lun_number x ≠ l_lun_number l) -> change w w'
| Edited l l' : row_becomes l l' (luns w) (luns w') -> tasks w' = tasks w -> lun_ok l' -> ready_or_active (l_status l) = true ->
    (l_status l' = l_status l /\ l_assigned_node_id l' = l_assigned_node_id l /\ l_backend_id l' = l_backend_id l
     /\ l_lun_number l' = l_lun_number l) ->
    (l_name l' = l_name l \/ forall x, x ∈ luns w -> l_id x ≠ l_id l -> l_name x ≠ l_name l') -> change w w'
| Doomed l : row_becomes l (l <| l_status := "deleting" |>) (luns w) (luns w') -> tasks w' = (tasks w ++ [(l_id l, Deletion)])%list ->
    l_status l ∈ ["ready"; "error"] -> change w w'
| Assigned l node : row_becomes l (l <| l_assigned_node_id := Some node |> <| l_status := "active" |>) (luns w) (luns w') ->
    tasks w' = tasks w -> node ≠ "" -> l_status l = "ready" -> change w w'
| Unassigned l : row_becomes l (l <| l_assigned_node_id := None |> <| l_status := "ready" |>) (luns w) (luns w') ->
    tasks w' = tasks w -> l_status l = "active" -> change w w'
| Settled l k s m : row_becomes l (l <| l_status := s |> <| l_error_message := m |>) (luns w) (luns w') -> (l_id l, k) ∈ tasks w ->
    tasks w' = forget_task (l_id l) (tasks w) -> s = "error" \/ s = "ready" /\ k = Creation -> change w w'
| Removed l : l ∈ luns w -> (l_id l, Deletion) ∈ tasks w -> luns w' = (sql_delete (has_key l_id (l_id l)) (luns w)).1 ->
    tasks w' = forget_task (l_id l) (tasks w) -> change w w'.
End Invariant.

Section Life.
Context {T : Type}.
Implicit Types w : World (T := T).

Lemma elem_of_row_becomes l l' t t' x : keys_unique l_id t -> row_becomes l l' t t' -> x ∈ t' <-> x = l' \/ (x ∈ t /\ l_id x ≠ l_id l).
Proof.
  intros Hk (Hl & E & ->). rewrite elem_of_update. split.
  - intros (y & Hy & ->). destruct (has_key l_id (l_id l) y) eqn:H; [by left|]. apply has_key_false in H. by right.
  - intros [->|[Hx Hne]]; [exists l|exists x]; [by rewrite (proj2 (has_key_true l_id _ l))|by rewrite (proj2 (has_key_false l_id _ x))].
Qed.

Lemma elem_of_forget id k x l : (x, k) ∈ forget_task id l <-> (x, k) ∈ l /\ x ≠ id.
Proof.
  unfold forget_task. change (List.filter ?P ?t) with (sql_select P t). rewrite elem_of_sql_select. cbn.
  by rewrite negb_true_iff, String.eqb_neq.
Qed.

(** The table and the tasks, without what other parts keep. *)
Record life_ok (w : World (T := T)) : Prop := {
  lf_ids : keys_unique l_id (luns w);
  lf_names : keys_unique l_name (luns w);
  lf_numbers : NoDup ((fun l => (l_backend_id l, l_lun_number l)) <$> luns w);
  lf_two : forall b, (sql_count (on_backend b) (luns w) <= 2)%Z;
  lf_luns : Forall lun_ok (luns w);
  lf_tasks : NoDup (tasks w).*1;
  lf_status : Forall (fun t => exists l, l ∈ luns w /\ l_id l = t.1 /\ l_status l = status_of_task t.2) (tasks w)
}.

Lemma luns_ok_life w : luns_ok w <-> life_ok w /\ Forall (fun n => ln_id n ≠ "") (nodes w).
Proof. split; [intros []; split; [by constructor|done]|intros [[] H]; by constructor]. Qed.

(** A row changes, its back end and number stay. *)
Lemma life_ok_row w w' l l' : life_ok w -> row_becomes l l' (luns w) (luns w') -> lun_ok l' -> l_backend_id l' = l_backend_id l ->
  l_lun_number l' = l_lun_number l -> (l_name l' = l_name l \/ forall x, x ∈ luns w -> l_id x ≠ l_id l -> l_name x ≠ l_name l') ->
  NoDup (tasks w').*1 ->
  (forall id k, (id, k) ∈ tasks w' -> (id = l_id l /\ l_status l' = status_of_task k) \/ (id ≠ l_id l /\ (id, k) ∈ tasks w)) -> life_ok w'.
Proof.
  intros [] Hb Hok Eb En Hn Ht Hs. pose proof Hb as (Hl & Ei & El). pose proof (fun x => elem_of_row_becomes _ _ _ _ x lf_ids0 Hb) as Hin.
  constructor.
  - rewrite El, <- Ei. unfold keys_unique. by rewrite (update_keys_same l_id l l').
  - rewrite El, <- Ei. by apply (unique_or_free l_id l_name l).
  - rewrite El, update_column_same; [done..|]. by rewrite Eb, En.
  - intros b. rewrite El, update_count_same; [done..|]. unfold on_backend, has_key. by rewrite Eb.
  - apply Forall_forall. intros x [->|[Hx _]]%Hin; [done|]. by apply (proj1 (Forall_forall _ _) lf_luns0).
  - done.
  - apply Forall_forall. intros [id k] Hid. cbn. destruct (Hs id k Hid) as [[-> E]|[Hne Hin']].
    + exists l'. split; [apply Hin; by left|done].
    + destruct (proj1 (Forall_forall _ _) lf_status0 _ Hin') as (x & Hx & Ex & Es). cbn in *. exists x. split; [|done].
      apply Hin. right. split; [done|congruence].
Qed.

Lemma task_status w l k : life_ok w -> l ∈ luns w -> (l_id l, k) ∈ tasks w -> l_status l = status_of_task k.
Proof.
  intros Hw Hl Ht. destruct (proj1 (Forall_forall _ _) (lf_status _ Hw) _ Ht) as (x & Hx & Ex & Es). cbn in *.
  assert (x = l) as ->; [|done]. by apply (key_elem_inj l_id (luns w)); [apply Hw|..].
Qed.

Lemma forget_NoDup id (l : list (string * task_kind)) : NoDup l.*1 -> NoDup (forget_task id l).*1.
Proof. intros H. eapply sublist_NoDup; [exact H|]. apply fmap_sublist, filter_sublist. Qed.

Lemma lun_in w l : life_ok w -> l ∈ luns w -> lun_ok l.
Proof. intros Hw Hl. by apply (proj1 (Forall_forall _ _) (lf_luns _ Hw)). Qed.

(** A row with another status, assignment or message. *)
Lemma lun_ok_status l s m : lun_ok l -> s ∈ STATUSES -> s ≠ "active" -> l_assigned_node_id l = None ->
  lun_ok (l <| l_status := s |> <| l_error_message := m |>).
Proof. intros [] Hs Hne Ha. constructor; try done. cbn. by rewrite (proj2 (String.eqb_neq _ _) Hne). Qed.

Lemma not_assigned l : lun_ok l -> l_status l ≠ "active" -> l_assigned_node_id l = None.
Proof. intros [] H. revert lo_assigned0. by rewrite (proj2 (String.eqb_neq _ _) H). Qed.

Lemma same_tasks w l l' : life_ok w -> l ∈ luns w -> (forall k, l_status l ≠ status_of_task k) ->
  forall id k, (id, k) ∈ tasks w -> (id = l_id l /\ l_status l' = status_of_task k) \/ (id ≠ l_id l /\ (id, k) ∈ tasks w).
Proof.
  intros Hw Hl Hs id k Ht. right. split; [|done]. intros ->. by apply (Hs k), (task_status w).
Qed.

(** Whatever may happen to well-formed LUNs leaves them well formed. *)
Lemma change_ok w w' : life_ok w -> change w w' -> life_ok w'.
Proof.
  intros Hw [El Et|l El Et Hok Hc Hid Hn Hcount Hnum|l l' Hb Et Hok Hr (Es & Ea & Eb & En) Hn|l Hb Et Hs|l node Hb Et Hnode Hs|l Hb Et Hs
            |l k s m Hb Hin Et Hs|l Hl Hin El Et].
  - destruct Hw. constructor; rewrite ?El; try done; destruct Et as [->| ->]; try done; constructor.
  - destruct Hw. constructor; rewrite ?El, ?Et.
    + unfold keys_unique. rewrite fmap_app, NoDup_app. split; [done|]. split; [by intros x Hx ->%list_elem_of_singleton|apply NoDup_singleton].
    + unfold keys_unique. rewrite fmap_app, NoDup_app. split; [done|]. split; [by intros x Hx ->%list_elem_of_singleton|apply NoDup_singleton].
    + rewrite fmap_app, NoDup_app. split; [done|]. split; [|apply NoDup_singleton].
      intros p (x & -> & Hx)%list_elem_of_fmap [= E1 E2]%list_elem_of_singleton. by apply (Hnum x Hx).
    + intros b. specialize (lf_two0 b). unfold sql_count, sql_select in *. rewrite List.filter_app, length_app. cbn.
      destruct (on_backend b l) eqn:E; cbn; [|lia]. apply has_key_true in E as <-. lia.
    + apply Forall_app. split; [done|]. by constructor.
    + rewrite fmap_app, NoDup_app. split; [done|]. split; [|apply NoDup_singleton].
      intros x (t & -> & Ht)%list_elem_of_fmap Et1%list_elem_of_singleton.
      destruct (proj1 (Forall_forall _ _) lf_status0 _ Ht) as (y & Hy & Ey & _). apply Hid. cbn in *. rewrite <- Et1, <- Ey. by apply list_elem_of_fmap_2.
    + apply Forall_app. split.
      * eapply Forall_impl; [exact lf_status0|]. intros t (x & Hx & H). exists x. split; [|done]. apply elem_of_app. by left.
      * constructor; [|done]. exists l. split; [|done]. apply elem_of_app. right. by left.
  - apply (life_ok_row w w' l l'); try done; rewrite ?Et; [apply Hw|]. apply same_tasks; [done|apply Hb|].
    intros k E. unfold ready_or_active in Hr. rewrite E in Hr. by destruct k.
  - pose proof (lun_in w l Hw (proj1 Hb)) as Hl. assert (l_assigned_node_id l = None) as Ha.
    { apply not_assigned; [done|]. intros E. rewrite E in Hs. by repeat (apply elem_of_cons in Hs as [Hs|Hs]; [done|]); apply not_elem_of_nil in Hs. }
    assert (forall k, (l_id l, k) ∉ tasks w) as Hfree.
    { intros k Ht. rewrite (task_status w l k Hw (proj1 Hb) Ht) in Hs. destruct k; by repeat (apply elem_of_cons in Hs as [Hs|Hs]; [done|]); apply not_elem_of_nil in Hs. }
    apply (life_ok_row w w' l _ Hw Hb); [|done|done|by left| |].
    + destruct Hl. constructor; try done. by repeat (first [by left|right]).
    + rewrite Et, fmap_app, NoDup_app. split; [apply Hw|]. split; [|apply NoDup_singleton].
      intros x (t & -> & Ht)%list_elem_of_fmap Et1%list_elem_of_singleton. destruct t as [i k]. cbn in Et1. subst i. by apply (Hfree k).
    + intros id k. rewrite Et, elem_of_app, list_elem_of_singleton. intros [Ht|[= -> ->]]; [right|left; done].
      split; [|done]. intros ->. by apply (Hfree k).
  - pose proof (lun_in w l Hw (proj1 Hb)) as Hl. apply (life_ok_row w w' l _ Hw Hb); [|done|done|by left| |]; rewrite ?Et.
    + destruct Hl. constructor; try done; [by repeat (first [by left|right])|]. cbn. apply negb_true_iff. by apply String.eqb_neq.
    + apply Hw.
    + apply same_tasks; [done|apply Hb|]. intros k E. rewrite E in Hs. by destruct k.
  - pose proof (lun_in w l Hw (proj1 Hb)) as Hl. apply (life_ok_row w w' l _ Hw Hb); [|done|done|by left| |]; rewrite ?Et.
    + destruct Hl. constructor; try done. by repeat (first [by left|right]).
    + apply Hw.
    + apply same_tasks; [done|apply Hb|]. intros k E. rewrite E in Hs. by destruct k.
  - pose proof (lun_in w l Hw (proj1 Hb)) as Hl. pose proof (task_status w l k Hw (proj1 Hb) Hin) as Est.
    apply (life_ok_row w w' l _ Hw Hb); [|done|done|by left| |]; rewrite ?Et.
    + apply lun_ok_status; [done| | |apply not_assigned; [done|by rewrite Est; destruct k]];
        destruct Hs as [->|[-> _]]; [by repeat (first [by left|right])|by repeat (first [by left|right])|done|done].
    + apply forget_NoDup, Hw.
    + intros id k' [Ht Hne]%elem_of_forget. by right.
  - destruct Hw. constructor; rewrite ?El, ?Et.
    + by apply keys_unique_delete.
    + by apply keys_unique_delete.
    + eapply sublist_NoDup; [exact lf_numbers0|]. apply fmap_sublist, filter_sublist.
    + intros b. specialize (lf_two0 b). unfold sql_count in *.
      pose proof (sublist_length _ _ (select_delete_sublist (on_backend b) (has_key l_id (l_id l)) (luns w))). lia.
    + apply Forall_forall. intros x [Hx _]%elem_of_delete. by apply (proj1 (Forall_forall _ _) lf_luns0).
    + by apply forget_NoDup.
    + apply Forall_forall. intros [id k] [Ht Hne]%elem_of_forget.
      destruct (proj1 (Forall_forall _ _) lf_status0 _ Ht) as (x & Hx & Ex & Es). cbn in *. exists x. split; [|done].
      apply elem_of_delete. split; [done|]. apply has_key_false. congruence.
Qed.
End Life.

(** ** The code refines the life of LUNs *)

Section Refinement.
Context {T : Type} (targetcli : string -> T -> (bool * string) * T) (makedirs : string -> T -> bool * T) (remove : string -> T -> T)
  (lvcreate : Z -> string -> string -> T -> option (bool * string) * T) (lvremove : string -> T -> bool * T)
  (encrypt_password : string -> string) (decrypt_password : string -> option string) (str_of : server_error -> string).
Implicit Types w : World (T := T).

Abbreviation LunsM A := (M (World (T := T)) server_error A).
Abbreviation handle := (handle_lun targetcli makedirs remove lvcreate lvremove encrypt_password decrypt_password str_of).

(** It acts on the host only. *)
Definition table (w : World (T := T)) := (luns w, tasks w, nodes w).
Definition quiet {A} (m : LunsM A) : Prop := forall v, keeps (fun w => table w = v) m.

Lemma quiet_Ok {A} (m : LunsM A) w r w' : quiet m -> m w = (r, w') -> luns w' = luns w /\ tasks w' = tasks w /\ nodes w' = nodes w.
Proof. intros Hm E. specialize (Hm (table w) w eq_refl). rewrite E in Hm. by injection Hm as -> -> ->. Qed.

Lemma quiet_run c : quiet (_run_targetcli targetcli c).
Proof. intros v w Hw. unfold _run_targetcli. by destruct (targetcli c (host w)) as [r t]. Qed.

Lemma quiet_host {A} (f : T -> A * T) : quiet (on_host f).
Proof. intros v w Hw. unfold on_host. by destruct (f (host w)) as [r t]. Qed.

Create HintDb luns discriminated.
#[local] Hint Resolve quiet_run quiet_host : luns.

Ltac quiet_steps := intros ?; keeps_steps; first [apply quiet_run | apply quiet_host | idtac].

Lemma quiet_service b : quiet (service_of (T := T) b).
Proof. unfold service_of. by quiet_steps. Qed.
Lemma quiet_create_backingstore s n z : quiet (create_backingstore targetcli makedirs lvcreate s n z).
Proof. unfold create_backingstore. by quiet_steps. Qed.
Lemma quiet_delete_backingstore s n : quiet (delete_backingstore targetcli remove lvremove s n).
Proof. unfold delete_backingstore. by quiet_steps. Qed.
Lemma quiet_target_lun s n z : quiet (create_target_lun targetcli s n z).
Proof. unfold create_target_lun. by quiet_steps. Qed.
Lemma quiet_ensure s : quiet (ensure_target_exists targetcli s).
Proof. unfold ensure_target_exists, save_config. by quiet_steps. Qed.
Lemma quiet_chap s i l : quiet (set_lun_chap targetcli decrypt_password s i l).
Proof. unfold set_lun_chap, attempt, delete_acl, set_chap. by quiet_steps. Qed.

Lemma need_lun_Ok id w l w' : need_lun id w = (Ok l, w') -> w' = w /\ l ∈ luns w /\ l_id l = id.
Proof.
  unfold need_lun, find_lun. unfold_M. destruct (sql_find l_id id (luns w)) as [x|] eqn:E; [|done]. intros [= -> <-].
  by apply sql_find_Some_1 in E.
Qed.

Lemma refuse_if_Ok b n t w a w' : refuse_if (T := T) b n t w = (Ok a, w') -> b = false /\ w' = w.
Proof. unfold refuse_if. unfold_M. destruct b; [done|]. by intros [= _ <-]. Qed.

Lemma scalar_Ok {R} (l : list R) w r w' : scalar (T := T) l w = (Ok r, w') -> w' = w /\ r = head l /\ (length l <= 1)%nat.
Proof. unfold scalar. unfold_M. destruct l as [|x [|]]; intros [= <- <-]; cbn; auto with lia. Qed.

Lemma check_lun_name_Ok n P w a w' : check_lun_name n P w = (Ok a, w') ->
  w' = w /\ forall x, x ∈ luns w -> P x = true -> l_name x ≠ n.
Proof.
  unfold check_lun_name. step_M x s1 H1. injection H1 as <- <-. step_M r s2 H2. apply scalar_Ok in H2 as (-> & -> & _).
  intros [Hn ->]%refuse_if_Ok. split; [done|]. destruct (sql_select _ _) as [|y t] eqn:E; [|done]. intros x Hx HP <-.
  apply (not_elem_of_nil x). rewrite <- E. apply elem_of_sql_select. by rewrite HP, andb_true_r, has_key_true.
Qed.

Lemma next_lun_number_Ok b w n w' : next_lun_number b w = (Ok n, w') ->
  w' = w /\ (sql_count (on_backend b) (luns w) <= 1)%Z /\ forall x, x ∈ luns w -> l_backend_id x = b -> l_lun_number x ≠ n.
Proof.
  unfold next_lun_number. step_M x s1 H1. injection H1 as <- <-. set (sel := sql_select _ _).
  step_M r s2 H2. apply scalar_Ok in H2 as (-> & -> & Hl). intros [= <- <-]. split; [done|].
  pose proof (order_by_perm (fun r => (- l_lun_number r)%Z) sel) as Hp. fold (order_by_desc l_lun_number sel) in Hp.
  pose proof (Permutation_length Hp) as Hlen. split; [change (sql_count (on_backend b) (luns w)) with (Z.of_nat (length sel)); lia|]. intros x Hx Eb.
  assert (x ∈ order_by_desc l_lun_number sel) as Hin by (rewrite Hp; apply elem_of_sql_select; by rewrite has_key_true).
  clear Hlen Hp. destruct (order_by_desc l_lun_number sel) as [|y [|]]; cbn in *; [by apply not_elem_of_nil in Hin| |lia].
  apply list_elem_of_singleton in Hin as ->. lia.
Qed.

Lemma insert_lun_Ok l w a w' : insert_lun l w = (Ok a, w') -> w' = w <| luns := (luns w ++ [l])%list |> /\ l_id l ∉ l_id <$> luns w.
Proof.
  unfold insert_lun, sql_insert. unfold_M. destruct (sql_find _ _ _) eqn:E; [done|]. destruct (existsb _ _); [done|].
  intros [= _ <-]. split; [done|]. by apply sql_find_None.
Qed.

Lemma transaction_cases {A} (m : LunsM A) w : (forall v, keeps (fun w => (tasks w, nodes w) = v) m) ->
  match transaction m w with
  | (Ok a, w') => m w = (Ok a, w')
  | (Err _, w') => luns w' = luns w /\ tasks w' = tasks w /\ nodes w' = nodes w
  end.
Proof.
  intros Hm. specialize (Hm (tasks w, nodes w) w eq_refl). unfold transaction. destruct (m w) as [[a|e] w']; [done|].
  by injection Hm as E1 E2.
Qed.

Lemma after_same {A B} (m : LunsM A) (f : A -> LunsM B) w : (forall a s, (f a s).2 = s) -> ((m ≫= f) w).2 = (m w).2.
Proof. intros H. unfold mbind, M_bind. destruct (m w) as [[a|e] s]; [apply H|done]. Qed.

Lemma from_lun_same a b l w : (from_lun (T := T) a b l w).2 = w.
Proof. unfold from_lun. unfold_M. by destruct (_ && _). Qed.

(** A transaction, then what cannot fail on the tables. *)
Lemma transaction_change {A} (m : LunsM A) w : (forall v, keeps (fun w => (tasks w, nodes w) = v) m) ->
  (forall a w', m w = (Ok a, w') -> change w w') -> change w (transaction m w).2.
Proof.
  intros Hk Hm. pose proof (transaction_cases m w Hk) as H. destruct (transaction m w) as [[a|e] w']; cbn; [by apply (Hm a)|].
  apply Unchanged; [apply H|left; apply H].
Qed.

Lemma row_of l l' w : l ∈ luns w -> l_id l' = l_id l ->
  row_becomes l l' (luns w) (sql_update (has_key l_id (l_id l)) (fun _ => l') (luns w)).1.
Proof. by repeat split. Qed.

(** Writing columns of a row is putting the changed row in its place. *)
Lemma update_columns (f : IscsiLun -> IscsiLun) l t : keys_unique l_id t -> l ∈ t ->
  (sql_update (has_key l_id (l_id l)) f t).1 = (sql_update (has_key l_id (l_id l)) (fun _ => f l) t).1.
Proof.
  intros Hk Hl. cbn. apply map_ext_in. intros x Hx. destruct (has_key l_id (l_id l) x) eqn:E; [|done]. apply has_key_true in E.
  f_equal. apply (key_elem_inj l_id t); [done|by apply list_elem_of_In|done|done].
Qed.

Ltac tasks_kept := intros ?; unfold need_lun, find_lun, find_backend, find_node, check_lun_name, next_lun_number, insert_lun, scalar, refuse_if,
  write_lun, set_luns; keeps_steps; try (intros ? ?; done).

Lemma lower_plain s : str_forall (fun c => isalnum c || Ascii.eqb c "-") s = true -> str_forall (fun c => isalnum c || Ascii.eqb c "-") (lower s) = true.
Proof.
  unfold lower. rewrite str_forall_map. apply str_forall_impl. intros c. destruct c as [[] [] [] [] [] [] [] []]; by vm_compute.
Qed.

Lemma validate_plain v n : validate_name v = Some n -> plain_name n = true.
Proof.
  unfold validate_name, plain_name. destruct (2 <=? String.length v)%nat eqn:E; [|done]. destruct (str_forall _ v) eqn:Ev; [|done].
  destruct (_ && _); [|done]. intros [= <-]. rewrite lower_plain by done. rewrite andb_true_r. unfold lower. by rewrite str_map_length.
Qed.

Lemma create_change id p b0 b w : life_ok w -> lun_create b0 = Some b -> change w (create_lun encrypt_password id p b w).2.
Proof.
  intros Hw Hb. unfold create_lun.
  match goal with |- change _ ((transaction ?m ≫= _) w).2 => set (body := m); pose proof (transaction_cases body w) as H end.
  destruct (transaction body w) as [[l|e] w1] eqn:E.
  - rewrite (bind_Ok _ _ _ _ _ E). rewrite after_same by (intros; apply from_lun_same).
    assert (body w = (Ok l, w1)) as Eb by (apply H; unfold body; tasks_kept). clear H E. revert Eb. unfold body.
    step_M o s1 H1. injection H1 as <- <-. destruct (sql_find _ _ _) as [bk|]; [|by unfold_M].
    step_M a2 s2 H2. apply refuse_if_Ok in H2 as [_ ->]. step_M a3 s3 H3. apply check_lun_name_Ok in H3 as [-> Hn].
    step_M n s4 H4. apply next_lun_number_Ok in H4 as (-> & Hc & Hnum). cbv zeta. step_M a5 s5 H5. apply insert_lun_Ok in H5 as [-> Hid].
    intros [= <- <-]. unfold lun_create in Hb. destruct (validate_name _) as [nm|] eqn:Ev; [|done].
    destruct (_ && _) eqn:Es in Hb; [|done]. injection Hb as <-. apply andb_true_iff in Es as [[E1%Z.leb_le E2%Z.leb_le]%andb_true_iff E3].
    apply (Added _ _ (new_lun encrypt_password id p (b0 <| lc_name := nm |>) n)); try done.
    + constructor; try done; [by apply (validate_plain (lc_name b0))| | |by cbn; destruct (lc_chap_enabled b0)|by cbn; intros ->].
      * apply existsb_exists in E3 as (x & Hx%list_elem_of_In & E4%String.eqb_eq). cbn. by rewrite E4.
      * by left.
    + intros (x & Ex & Hx)%list_elem_of_fmap. by apply (Hn x Hx).
  - rewrite (bind_Err _ _ _ _ _ E). destruct H as (E1 & E2 & _); [unfold body; tasks_kept|]. by apply Unchanged; [|left].
Qed.

Lemma lun_update_plain b0 b n : lun_update b0 = Some b -> lu_name b = Some n -> plain_name n = true.
Proof.
  unfold lun_update. destruct (lu_name b0) as [m|] eqn:E.
  - destruct (validate_name m) as [k|] eqn:Ev; [|done]. intros [= <-] [= <-]. by apply (validate_plain m).
  - intros [= <-]. congruence.
Qed.

Lemma updated_ok l p name chap : lun_ok l -> (forall n, name = Some n -> plain_name n = true) ->
  lun_ok (update_chap encrypt_password p chap (update_name name l)).
Proof.
  intros Hl Hn. assert (lun_ok (update_name name l)) as Hl'.
  { destruct name as [n|]; [|done]. destruct Hl. constructor; try done. by apply Hn. }
  unfold update_chap. destruct chap as [b|]; [|done]. revert Hl'. generalize (update_name name l). intros x []. cbv zeta. cbn [l_chap_username].
  destruct b; cbn [andb]; [|by constructor]. change (l_chap_username (x <| l_chap_enabled := true |>)) with (l_chap_username x).
  destruct (given (l_chap_username x)) eqn:Eg; cbn [negb]; constructor; try done. cbn. intros _ E. by rewrite E in Eg.
Qed.

Lemma updated_same l p name chap : let l' := update_chap encrypt_password p chap (update_name name l) in
  l_id l' = l_id l /\ l_status l' = l_status l /\ l_assigned_node_id l' = l_assigned_node_id l /\ l_backend_id l' = l_backend_id l
  /\ l_lun_number l' = l_lun_number l /\ l_name l' = default (l_name l) name.
Proof.
  unfold update_chap, update_name. cbv zeta. destruct chap as [[]|], name; cbn; try done; by destruct (negb _).
Qed.

Lemma update_change id p b0 b w : life_ok w -> lun_update b0 = Some b -> change w (update_lun encrypt_password id p b w).2.
Proof.
  intros Hw Hb. unfold update_lun. rewrite after_same by (intros; apply from_lun_same). apply transaction_change; [tasks_kept|].
  intros l' w'. step_M l s1 H1. apply need_lun_Ok in H1 as (-> & Hl & <-). step_M a2 s2 H2. apply refuse_if_Ok in H2 as [Hr%negb_false_iff ->].
  step_M a3 s3 H3. cbv zeta. step_M a4 s4 H4. intros [= _ <-]. injection H4 as _ <-.
  pose proof (updated_same l p (lu_name b) (lu_chap_enabled b)) as (Ei & Es & Ea & Eb & En & Enm).
  assert (s3 = w /\ forall n, lu_name b = Some n -> forall x, x ∈ luns w -> l_id x ≠ l_id l -> l_name x ≠ n) as [-> Hn].
  { destruct (lu_name b) as [n|]; [|by injection H3 as _ <-]. apply check_lun_name_Ok in H3 as [-> H]. split; [done|].
    intros n' [= <-] x Hx Hne. apply H; [done|]. by apply negb_true_iff, has_key_false. }
  apply (Edited _ _ l (update_chap encrypt_password p (lu_chap_enabled b) (update_name (lu_name b) l))); [by apply row_of|done| |done|done|].
  - apply updated_ok; [by apply (lun_in w)|]. intros n Hln. by apply (lun_update_plain b0 b).
  - rewrite Enm. destruct (lu_name b) as [n|]; [right; by apply Hn|by left].
Qed.

Lemma delete_change id w : life_ok w -> change w (delete_lun id w).2.
Proof.
  intros Hw. unfold delete_lun.
  match goal with |- change _ ((transaction ?m ≫= _) w).2 => set (body := m); pose proof (transaction_cases body w) as H end.
  destruct (transaction body w) as [[l|e] w1] eqn:E.
  - rewrite (bind_Ok _ _ _ _ _ E). assert (body w = (Ok l, w1)) as Eb by (apply H; unfold body; tasks_kept). clear H E. revert Eb. unfold body.
    step_M x s1 H1. apply need_lun_Ok in H1 as (-> & Hx & <-). step_M a2 s2 H2. apply refuse_if_Ok in H2 as [Hc%String.eqb_neq ->].
    step_M a3 s3 H3. apply refuse_if_Ok in H3 as [Hd%String.eqb_neq ->]. step_M a4 s4 H4. apply refuse_if_Ok in H4 as [Ha ->]. intros [= _ <-].
    pose proof (lun_in w x Hw Hx) as Hok. apply (Doomed _ _ x); [..|done|].
    + split; [done|]. split; [done|]. cbn -[sql_update]. apply update_columns; [apply Hw|done].
    + assert (l_status x ≠ "active") as Hna by (intros Ea; pose proof (lo_assigned x Hok) as Hg; rewrite Ea in Hg; cbn in Hg; congruence).
      pose proof (lo_status x Hok) as Hs. repeat (apply elem_of_cons in Hs as [Hs|Hs]; [first [done|rewrite Hs; by repeat (first [by left|right])]|]).
      by apply not_elem_of_nil in Hs.
  - rewrite (bind_Err _ _ _ _ _ E). destruct H as (E1 & E2 & _); [unfold body; tasks_kept|]. by apply Unchanged; [|left].
Qed.

Lemma quiet_keeps {A} (m : LunsM A) v : quiet m -> keeps (fun w => (tasks w, nodes w) = v) m.
Proof.
  intros Hm w <-. specialize (Hm (table w) w eq_refl). unfold table in Hm. by injection Hm as _ -> ->.
Qed.

Lemma attempt_Ok {A} (m : LunsM (bool * string)) (failed : string -> LunsM A) next w a w' : quiet m -> attempt m failed next w = (Ok a, w') ->
  exists s, table s = table w /\ (next s = (Ok a, w') \/ exists msg, failed msg s = (Ok a, w')).
Proof.
  intros Hm. unfold attempt. step_M r s H. specialize (Hm (table w) w eq_refl). rewrite H in Hm. cbn in Hm.
  destruct (fst r); intros E; exists s; split; [done|by left|done|right; by exists (snd r)].
Qed.

Lemma quiet_eq {A} (m : LunsM A) w r w' : quiet m -> m w = (r, w') -> table w' = table w.
Proof. intros Hm E. specialize (Hm (table w) w eq_refl). by rewrite E in Hm. Qed.

Ltac tasks_kept_host := tasks_kept; unfold attempt, create_acl, delete_acl, save_config in *; keeps_steps; try (intros ? ?; done);
  apply quiet_keeps; eauto with luns.
#[local] Hint Resolve quiet_service quiet_chap quiet_ensure quiet_create_backingstore quiet_delete_backingstore quiet_target_lun : luns.

Lemma assign_change id node_id w : luns_ok w ->
  change w (assign_lun targetcli decrypt_password id node_id w).2.
Proof.
  intros [Hw Hnodes]%luns_ok_life. unfold assign_lun. rewrite after_same by (intros; apply from_lun_same). apply transaction_change; [tasks_kept_host|].
  intros l' w'. step_M l s1 H1. apply need_lun_Ok in H1 as (-> & Hl & <-). step_M a2 s2 H2. apply refuse_if_Ok in H2 as [Hr%negb_false_iff ->].
  step_M a3 s3 H3. apply refuse_if_Ok in H3 as [Hg ->]. step_M o s4 H4. injection H4 as <- <-.
  destruct (sql_find ln_id node_id (nodes w)) as [n|] eqn:En; [|by unfold_M]. apply sql_find_Some_1 in En as [Hn _].
  step_M o5 s5 H5. injection H5 as <- <-. destruct (sql_find lb_id _ _) as [b|]; [|by unfold_M].
  step_M sv s6 H6. apply quiet_eq in H6; [|apply quiet_service]. cbv zeta.
  intros (s & Es & [H|[msg [=]]])%attempt_Ok; [|apply quiet_run]. revert H.
  step_M a7 s7 H7. apply quiet_eq in H7; [|apply quiet_chap]. step_M a8 s8 H8. apply quiet_eq in H8; [|apply quiet_run].
  step_M a9 s9 H9. injection H9 as _ <-. intros [= _ <-].
  rewrite H7, Es, H6 in H8. injection H8 as E1 E2 E3.
  apply (Assigned _ _ l (ln_id n)); [|done|by apply (proj1 (Forall_forall _ _) Hnodes)|].
  - split; [done|]. split; [done|]. cbn -[sql_update]. rewrite E1. apply update_columns; [apply Hw|done].
  - pose proof (lo_assigned l (lun_in w l Hw Hl)) as Ha. unfold ready_or_active in Hr. apply orb_true_iff in Hr as [Hr|Hr]; [by apply String.eqb_eq in Hr|].
    rewrite Hr in Ha. congruence.
Qed.

Lemma unassign_change id w : life_ok w -> change w (unassign_lun targetcli id w).2.
Proof.
  intros Hw. unfold unassign_lun. rewrite after_same by (intros; apply from_lun_same). apply transaction_change; [tasks_kept_host|].
  intros l' w'. step_M l s1 H1. apply need_lun_Ok in H1 as (-> & Hl & <-). step_M a2 s2 H2. apply refuse_if_Ok in H2 as [Hg%negb_false_iff ->].
  step_M o s3 H3. injection H3 as <- <-. step_M loaded s4 H4. cbv zeta. step_M a5 s5 H5. injection H5 as _ <-. intros [= _ <-].
  assert (table s4 = table w) as [= E1 E2 E3].
  { eapply quiet_eq; [|exact H4]. unfold find_backend, save_config. quiet_steps; first [by intros ? ?|apply quiet_service|idtac]. }
  apply (Unassigned _ _ l); [|done|].
  - split; [done|]. split; [done|]. cbn -[sql_update]. rewrite E1. apply update_columns; [apply Hw|done].
  - pose proof (lo_assigned l (lun_in w l Hw Hl)) as Ha. destruct (String.eqb (l_status l) "active") eqn:E; [by apply String.eqb_eq|].
    by rewrite Ha in Hg.
Qed.
(** What a task leaves: the table it wants, or an exception and the table as it was. *)
Definition leaves_at (F : list IscsiLun -> list IscsiLun -> Prop) (m : LunsM unit) w : Prop :=
  match m w with
  | (Ok _, w') => F (luns w) (luns w') /\ tasks w' = tasks w /\ nodes w' = nodes w
  | (Err _, w') => table w' = table w
  end.
Definition leaves F (m : LunsM unit) : Prop := forall w, leaves_at F m w.

Lemma leaves_bind {A} F (m : LunsM A) (f : A -> LunsM unit) : quiet m -> (forall a, leaves F (f a)) -> leaves F (m ≫= f).
Proof.
  intros Hm Hf w. specialize (Hm (table w) w eq_refl). unfold leaves_at, mbind, M_bind. destruct (m w) as [[a|e] s]; cbn in Hm; [|done].
  injection Hm as E1 E2 E3. specialize (Hf a s). unfold leaves_at in Hf. destruct (f a s) as [[a'|e] s'].
  - by rewrite E1, E2, E3 in Hf.
  - rewrite Hf. unfold table. by rewrite E1, E2, E3.
Qed.

Lemma leaves_attempt F (m : LunsM (bool * string)) failed next : quiet m -> (forall msg, leaves F (failed msg)) -> leaves F next ->
  leaves F (attempt m failed next).
Proof. intros Hm Hf Hn. apply leaves_bind; [done|]. intros [[] msg]; [exact Hn|apply Hf]. Qed.

Definition status_set (id s : string) (t t' : list IscsiLun) : Prop :=
  exists m, t' = (sql_update (has_key l_id id) (fun l => l <| l_status := s |> <| l_error_message := m |>) t).1.
Definition created (id : string) (t t' : list IscsiLun) : Prop := status_set id "error" t t' \/ status_set id "ready" t t'.

Lemma leaves_status id s m : s = "error" \/ s = "ready" -> leaves (created id) (set_lun_status id s m).
Proof. intros [->| ->] w; (split; [|done]); [left|right]; by exists m. Qed.

Lemma leaves_removed id : leaves (fun t t' => t' = (sql_delete (has_key l_id id) t).1) (set_luns (fun t => (sql_delete (has_key l_id id) t).1)).
Proof. by intros w. Qed.

Lemma find_lun_of l w : keys_unique l_id (luns w) -> l ∈ luns w -> find_lun (l_id l) w = (Ok (Some l), w).
Proof. intros Hk Hl. unfold find_lun. unfold_M. by rewrite (sql_find_Some l_id (luns w) (l_id l) l). Qed.

Ltac leaves_steps := repeat match goal with
  | |- leaves _ (attempt _ _ _) => apply leaves_attempt; [| |]
  | |- leaves _ (_ ≫= _) => apply leaves_bind; [|intros ?]
  | |- leaves _ (set_lun_status _ _ _) => apply leaves_status; by auto
  | |- leaves _ (set_luns _) => apply leaves_removed
  | |- leaves _ (let _ := _ in _) => cbv zeta
  | |- leaves _ (match ?x with _ => _ end) => destruct x
  | |- forall _, leaves _ _ => intros ?
  end.

Lemma quiet_find_backend id : quiet (find_backend (T := T) id).
Proof. unfold find_backend. by quiet_steps. Qed.
#[local] Hint Resolve quiet_find_backend : luns.

Lemma creation_leaves l w : keys_unique l_id (luns w) -> l ∈ luns w ->
  leaves_at (created (l_id l)) (creation_body targetcli makedirs remove lvcreate lvremove (l_id l)) w.
Proof.
  intros Hk Hl. unfold leaves_at, creation_body. rewrite (bind_Ok _ _ _ _ _ (find_lun_of l w Hk Hl)).
  match goal with |- match ?m w with _ => _ end => cut (leaves (created (l_id l)) m); [intros H; apply H|] end.
  leaves_steps; unfold save_config; auto with luns.
Qed.

Lemma deletion_leaves l w : keys_unique l_id (luns w) -> l ∈ luns w ->
  leaves_at (fun t t' => t' = (sql_delete (has_key l_id (l_id l)) t).1) (deletion_body targetcli remove lvremove (l_id l)) w.
Proof.
  intros Hk Hl. unfold leaves_at, deletion_body. rewrite (bind_Ok _ _ _ _ _ (find_lun_of l w Hk Hl)).
  match goal with |- match ?m w with _ => _ end =>
    cut (leaves (fun t t' => t' = (sql_delete (has_key l_id (l_id l)) t).1) m); [intros H; apply H|] end.
  leaves_steps; unfold save_config, delete_target_lun; auto with luns.
Qed.

(** The task's end: [F], or the row in error. *)
Lemma catch_leaves F (m : LunsM unit) (h : server_error -> LunsM unit) id w : leaves_at F m w ->
  (forall e, h e = set_lun_status id "error" (Some (str_of e)) \/ h e = set_lun_status id "error" (Some ("Delete failed: " ++ str_of e))) ->
  let w' := (catch m h w).2 in tasks w' = tasks w /\ (F (luns w) (luns w') \/ status_set id "error" (luns w) (luns w')).
Proof.
  intros Hm Hh. unfold leaves_at in Hm. unfold catch. destruct (m w) as [[[]|e] s]; cbv zeta.
  - destruct Hm as (HF & E & _). split; [done|by left].
  - injection Hm as E1 E2 E3. destruct (Hh e) as [-> | ->]; cbn -[sql_update]; (split; [done|right]); rewrite <- E1; by eexists.
Qed.

Lemma settled l k s w w' : life_ok w -> l ∈ luns w -> (l_id l, k) ∈ tasks w -> tasks w' = forget_task (l_id l) (tasks w) ->
  status_set (l_id l) s (luns w) (luns w') -> s = "error" \/ s = "ready" /\ k = Creation -> change w w'.
Proof.
  intros Hw Hl Hk Et (m & E) Hs. apply (Settled _ _ l k s m); [|done..]. split; [done|]. split; [done|]. rewrite E.
  apply (update_columns (fun l => l <| l_status := s |> <| l_error_message := m |>)); [apply Hw|done].
Qed.

Lemma task_change id w : life_ok w -> change w (run_task targetcli makedirs remove lvcreate lvremove str_of id w).2.
Proof.
  intros Hw. unfold run_task. rewrite (bind_Ok _ _ w w w) by done. destruct (assoc_get id (tasks w)) as [k|] eqn:Ek; [|by apply Unchanged; [|left]].
  apply assoc_get_In, list_elem_of_In in Ek. destruct (proj1 (Forall_forall _ _) (lf_status _ Hw) _ Ek) as (l & Hl & Ei & Es). cbn in Ei, Es. subst id.
  rewrite (bind_Ok _ _ _ tt (w <| tasks ::= forget_task (l_id l) |>)) by done. set (w1 := w <| tasks ::= _ |>).
  assert (keys_unique l_id (luns w1)) as Hk1 by apply Hw. assert (l ∈ luns w1) as Hl1 by done.
  destruct k; [unfold _create_lun_background|unfold _delete_lun_background].
  - destruct (catch_leaves _ _ (fun e => set_lun_status (l_id l) "error" (Some (str_of e))) (l_id l) w1 (creation_leaves l w1 Hk1 Hl1)) as [Et H];
      [by left|]. cbv zeta in *. destruct H as [[H|H]|H];
      [apply (settled l Creation "error") |apply (settled l Creation "ready")|apply (settled l Creation "error")]; auto.
  - destruct (catch_leaves _ _ (fun e => set_lun_status (l_id l) "error" (Some ("Delete failed: " ++ str_of e))) (l_id l) w1 (deletion_leaves l w1 Hk1 Hl1))
      as [Et H]; [by right|]. cbv zeta in *. destruct H as [H|H]; [by apply (Removed _ _ l)|by apply (settled l Deletion "error"); auto].
Qed.

(** Rows of other parts are rows: a node has an id. *)
Definition lun_event_ok (e : lun_event) : Prop := match e with NodesChange l => Forall (fun n => ln_id n ≠ "") l | _ => True end.

Lemma discard_result {A} (m : LunsM A) w : ((m ≫= fun _ => mret tt) w).2 = (m w).2.
Proof. by apply after_same. Qed.

Lemma handle_change e w : luns_ok w -> change w (handle e w).2.
Proof.
  intros Hw. pose proof (proj1 (proj1 (luns_ok_life w) Hw)) as Hl. destruct e; cbn [handle_lun].
  - destruct (lun_create body) eqn:E; [|by apply Unchanged; [|left]]. rewrite discard_result. by apply create_change with body.
  - destruct (lun_update body) eqn:E; [|by apply Unchanged; [|left]]. rewrite discard_result. by apply update_change with body.
  - by apply delete_change.
  - rewrite discard_result. by apply assign_change.
  - rewrite discard_result. by apply unassign_change.
  - by apply task_change.
  - by apply Unchanged; [|right].
  - by apply Unchanged; [|left].
  - by apply Unchanged; [|left].
Qed.

Lemma quiet_nodes {A} (m : LunsM A) v : quiet m -> keeps (fun w => nodes w = v) m.
Proof. intros Hm w <-. specialize (Hm (table w) w eq_refl). by injection Hm. Qed.

Lemma keeps_transaction {A} (m : LunsM A) v : keeps (fun w => nodes w = v) m -> keeps (fun w => nodes w = v) (transaction m).
Proof. intros Hm w Hw. specialize (Hm w Hw). unfold transaction. by destruct (m w) as [[]]. Qed.

Lemma nodes_kept e w : nodes (handle e w).2 = match e with NodesChange l => l | _ => nodes w end.
Proof.
  assert (forall m : LunsM unit, keeps (fun s => nodes s = nodes w) m -> nodes (m w).2 = nodes w) as Hk by (intros m Hm; by apply Hm).
  destruct e; [..|done|done]; apply Hk; clear Hk; cbn [handle_lun];
    unfold create_lun, update_lun, delete_lun, assign_lun, unassign_lun, run_task, _create_lun_background, _delete_lun_background, creation_body,
      deletion_body, start_task, attempt, from_lun, create_acl, delete_acl, delete_target_lun, save_config, need_lun, find_lun, find_backend, find_node,
      check_lun_name, next_lun_number, insert_lun, scalar, refuse_if, set_lun_status, write_lun, set_luns; keeps_steps;
    try (apply keeps_transaction; keeps_steps);
    try (by intros ? ?); apply quiet_nodes; auto with luns.
Qed.

Lemma handle_ok e w : luns_ok w -> lun_event_ok e -> luns_ok (handle e w).2.
Proof.
  intros Hw He. apply luns_ok_life. split.
  - apply (change_ok w); [by apply luns_ok_life|by apply handle_change].
  - rewrite nodes_kept. apply luns_ok_life in Hw as [_ Hn]. by destruct e.
Qed.

(** ** Runs *)

Abbreviation run := (run_luns targetcli makedirs remove lvcreate lvremove encrypt_password decrypt_password str_of).

(** By induction on the run, from any property that each event keeps. *)
Lemma run_invariant (I : World (T := T) -> Prop) es : (forall e w, lun_event_ok e -> luns_ok w -> I w -> I (handle e w).2) ->
  Forall lun_event_ok es -> forall w, luns_ok w -> I w -> I (run es w) /\ luns_ok (run es w).
Proof.
  intros Hstep He. induction He as [|e es He _ IH]; intros w Hw HI; [done|]. apply IH; [by apply handle_ok|by apply Hstep].
Qed.

(** C34: Every run of requests, background tasks, restarts and changes of the other tables is a path of the life of LUNs, and keeps the LUNs
    well formed: names, ids and numbers of a back end are unique, there are at most two LUNs to a back end, one is active if and only if it is
    assigned, and a task belongs to a LUN that is being created or deleted. *)
Theorem luns_refine_their_life es w : luns_ok w -> Forall lun_event_ok es -> rtc change w (run es w) /\ luns_ok (run es w).
Proof.
  intros Hw He. revert es He w Hw. induction 1 as [|e es He _ IH]; intros w Hw; [by split; [constructor|]|].
  destruct (IH (handle e w).2) as [Hc Hok]; [by apply handle_ok|]. split; [|done].
  by eapply rtc_l; [apply handle_change|].
Qed.

(** The LUN [l] is being created or deleted, and no task does it. *)
Definition interrupted l w : Prop := l ∈ luns w /\ (l_status l = "creating" \/ l_status l = "deleting") /\ l_id l ∉ (tasks w).*1.

Lemma change_interrupted l w w' : luns_ok w -> change w w' -> interrupted l w -> interrupted l w'.
Proof.
  intros Hok Hc (Hl & Hs & Ht). pose proof (wl_ids w Hok) as Hk.
  assert (forall x x', row_becomes x x' (luns w) (luns w') -> x ≠ l -> l ∈ luns w') as Hother.
  { intros x x' Hb Hne. apply (elem_of_row_becomes _ _ _ _ _ Hk Hb). right. split; [done|]. intros E. by apply Hne, (key_elem_inj l_id (luns w)); [|apply Hb|..]. }
  assert (forall id k, (id, k) ∈ tasks w -> id ≠ l_id l) as Htask.
  { intros id k H ->. apply Ht. by apply (list_elem_of_fmap_2 fst) in H. }
  destruct Hc as [El Et|x El Et _ _ Hid _ _ _|x x' Hb Et _ Hr _ _|x Hb Et Hx|x node Hb Et _ Hx|x Hb Et Hx|x k s m Hb Hin Et _|x Hx Hin El Et].
  - unfold interrupted. rewrite El. split; [done|]. split; [done|]. destruct Et as [->| ->]; [done|apply not_elem_of_nil].
  - unfold interrupted. rewrite El, Et, fmap_app. split; [apply elem_of_app; by left|]. split; [done|].
    rewrite elem_of_app. intros [H|H%list_elem_of_singleton]; [done|]. apply Hid. cbn in H. rewrite <- H. by apply list_elem_of_fmap_2.
  - split; [|split; [done|by rewrite Et]]. apply (Hother _ _ Hb). intros ->. unfold ready_or_active in Hr. by destruct Hs as [Hs|Hs]; rewrite Hs in Hr.
  - assert (x ≠ l) as Hne.
    { intros ->. apply elem_of_cons in Hx as [Hx|Hx%list_elem_of_singleton]; rewrite Hx in Hs; by destruct Hs. }
    split; [by apply (Hother _ _ Hb)|split; [done|]]. rewrite Et, fmap_app, elem_of_app.
    intros [H|H%list_elem_of_singleton]; [done|]. by apply Hne, (key_elem_inj l_id (luns w)); [|apply Hb|..].
  - split; [|split; [done|by rewrite Et]]. apply (Hother _ _ Hb). intros ->. rewrite Hx in Hs. by destruct Hs.
  - split; [|split; [done|by rewrite Et]]. apply (Hother _ _ Hb). intros ->. rewrite Hx in Hs. by destruct Hs.
  - split; [apply (Hother _ _ Hb); intros ->; by apply (Htask _ _ Hin)|split; [done|]]. rewrite Et.
    intros ((i & j) & E & [H _]%elem_of_forget)%list_elem_of_fmap. by apply (Htask _ _ H).
  - unfold interrupted. rewrite El. split; [|split; [done|]].
    + apply elem_of_delete. split; [done|]. apply has_key_false. intros E. by apply (Htask _ _ Hin).
    + rewrite Et. intros ((i & j) & E & [H _]%elem_of_forget)%list_elem_of_fmap. by apply (Htask _ _ H).
Qed.

(** A LUN whose creation or deletion a restart interrupts stays as it is for ever: whatever requests come, tasks run and servers restart, its row
    stays in the table with its name, its number and its status. *)
Theorem interrupted_lun_stays es w l : luns_ok w -> Forall lun_event_ok es -> l ∈ luns w -> (l_status l = "creating" \/ l_status l = "deleting") ->
  l ∈ luns (run (ServerRestarts :: es) w).
Proof.
  intros Hw He Hl Hs. apply (run_invariant (interrupted l) es); [|done|by apply (handle_ok ServerRestarts)|].
  - intros e s _ Hok. by apply change_interrupted, handle_change.
  - split; [done|]. split; [done|]. apply not_elem_of_nil.
Qed.

(** A back end holds two LUNs at most: where there are two, every request for a third is refused and changes nothing.  The search for the last
    number reads all the LUNs of the back end and accepts one row at most. *)
Theorem third_lun_is_refused id p b w backend : luns_ok w -> sql_find lb_id (lc_backend_id b) (backends w) = Some backend -> lb_type backend = "iscsi" ->
  sql_count (on_backend (lc_backend_id b)) (luns w) = 2%Z -> exists e, handle (CreateLun id p b) w = (Err e, w).
Proof.
  intros Hw Hb Hty H2. cbn. destruct (lun_create b) as [b'|] eqn:Eb; [|by eexists].
  assert (lc_backend_id b' = lc_backend_id b) as Ei.
  { unfold lun_create in Eb. destruct (validate_name _); [|done]. destruct (_ && _) in Eb; [|done]. by injection Eb as <-. }
  cut (exists e, create_lun encrypt_password id p b' w = (Err e, w)); [intros (e & E); exists e; by rewrite (bind_Err _ _ _ _ _ E)|].
  unfold create_lun. match goal with |- context [transaction ?m] => set (body := m) end.
  cut (exists e w', body w = (Err e, w') /\ w' <| luns := luns w |> = w).
  { intros (e & w' & E & Ew). exists e. apply bind_Err. unfold transaction. by rewrite E, Ew. }
  unfold body. rewrite Ei. unfold find_backend, refuse_if, check_lun_name. unfold_M. rewrite Hb, Hty. cbn -[sql_select next_lun_number].
  unfold scalar. unfold_M. destruct (sql_select _ (luns w)) as [|x [|y t]]; [|by eexists _, w; destruct w|by eexists _, w; destruct w].
  change (refuse_if false 400 "LUN name already exists" w) with (@Ok server_error _ tt, w). cbv iota.
  assert (next_lun_number (lc_backend_id b) w = (Err MultipleResultsFound, w)) as ->.
  { unfold next_lun_number. unfold_M. unfold scalar. unfold_M.
    pose proof (Permutation_length (order_by_perm (fun r => (- l_lun_number r)%Z) (sql_select (has_key l_backend_id (lc_backend_id b)) (luns w)))) as Hl.
    fold (order_by_desc l_lun_number (sql_select (has_key l_backend_id (lc_backend_id b)) (luns w))) in Hl.
    change (length (sql_select (has_key l_backend_id (lc_backend_id b)) (luns w))) with
      (length (sql_select (on_backend (lc_backend_id b)) (luns w))) in Hl.
    unfold sql_count in H2. destruct (order_by_desc _ _) as [|x [|y t]]; cbn in Hl; [lia|lia|done]. }
  eexists _, w. by destruct w.
Qed.
End Refinement.

(** ** Examples *)

(** A host on which every command succeeds, and that keeps what it was told to do, the last first. *)
Module Tame.
Definition targetcli (c : string) (t : list string) : (bool * string) * list string := ((true, ""), c :: t).
Definition makedirs (_ : string) (t : list string) : bool * list string := (true, t).
Definition remove (f : string) (t : list string) : list string := ("rm " ++ f) :: t.
Definition lvcreate (_ : Z) (_ _ : string) (t : list string) : option (bool * string) * list string := (Some (true, ""), t).
Definition lvremove (_ : string) (t : list string) : bool * list string := (true, t).
Definition encrypt (s : string) : string := "e:" ++ s.
Definition decrypt (s : string) : option string := Some (String.substring 2 (String.length s - 2) s).
Definition str_of (_ : server_error) : string := "error".
Abbreviation handle := (handle_lun targetcli makedirs remove lvcreate lvremove encrypt decrypt str_of).
Abbreviation run := (run_luns targetcli makedirs remove lvcreate lvremove encrypt decrypt str_of).

Definition no_settings : IscsiConfig :=
  {| target_name := None; portal_ip := None; portal_port := None; backingstore_type := None; backingstore_path := None |}.
Definition world0 : World (T := list string) :=
  {| luns := []; backends := [{| lb_id := "b1"; lb_name := "san"; lb_type := "iscsi"; lb_config := Some no_settings |}];
     nodes := [{| ln_id := "n1"; ln_mac_address := "52:54:00:AA:BB:01"; ln_hostname := None |}]; host := []; tasks := [] |}.
Definition body (name : string) : IscsiLunCreate :=
  {| lc_name := name; lc_size_gb := 20; lc_backend_id := "b1"; lc_purpose := "boot_from_san"; lc_chap_enabled := true |}.

Lemma world0_ok : luns_ok world0.
Proof. constructor; try constructor; try done; constructor. Qed.

(** The life of a LUN, to its assignment. *)
Definition served : list lun_event := [CreateLun "l1" "secret" (body "Disk-A"); TaskRuns "l1"; AssignLun "l1" "n1"].

Example served_luns : (fun l => (l_name l, l_status l, l_assigned_node_id l)) <$> luns (run served world0) = [("disk-a", "active", Some "n1")].
Proof. by vm_compute. Qed.

Example served_commands : rev (host (run served world0)) =
  ["/iscsi ls"; "/iscsi create iqn.2026-01.local.pureboot:target1";
   "/iscsi/iqn.2026-01.local.pureboot:target1/tpg1/portals create 0.0.0.0 3260";
   "/iscsi/iqn.2026-01.local.pureboot:target1/tpg1 set attribute authentication=0";
   "/iscsi/iqn.2026-01.local.pureboot:target1/tpg1 set attribute generate_node_acls=0"; "saveconfig";
   "/backstores/fileio create disk-a /var/lib/pureboot/luns/disk-a.img 20G sparse=true";
   "/iscsi/iqn.2026-01.local.pureboot:target1/tpg1/luns create /backstores/fileio/disk-a lun=0"; "saveconfig";
   "/iscsi/iqn.2026-01.local.pureboot:target1/tpg1/acls create iqn.2026-01.local.pureboot:node:525400aabb01";
   "/iscsi/iqn.2026-01.local.pureboot:target1/tpg1/acls/iqn.2026-01.local.pureboot:node:525400aabb01 set auth userid=disk-a password=secret";
   "saveconfig"].
Proof. by vm_compute. Qed.

(** A LUN that was renamed leaves its backing file behind when it is deleted: the name of the new row is deleted, under which there is none. *)
Definition renamed : list lun_event :=
  [CreateLun "l1" "secret" (body "disk-a"); TaskRuns "l1"; UpdateLun "l1" "" {| lu_name := Some "disk-b"; lu_chap_enabled := None |};
   DeleteLun "l1"; TaskRuns "l1"].

Example renamed_leaves_its_store : luns (run renamed world0) = [] /\
  List.filter (fun c => startswith "/backstores" c || startswith "rm" c) (rev (host (run renamed world0))) =
    ["/backstores/fileio create disk-a /var/lib/pureboot/luns/disk-a.img 20G sparse=true"; "/backstores/fileio delete disk-b";
     "rm /var/lib/pureboot/luns/disk-b.img"].
Proof. by vm_compute. Qed.

(** The answer to a change of a LUN is always an error, though the change is made. *)
Example update_answers_an_error : let w := run [CreateLun "l1" "secret" (body "disk-a"); TaskRuns "l1"] world0 in
  let '(r, w') := handle (UpdateLun "l1" "" {| lu_name := Some "disk-b"; lu_chap_enabled := None |}) w in
  r = Err MissingGreenlet /\ l_name <$> luns w' = ["disk-b"].
Proof. by vm_compute. Qed.

End Tame.
Import Tame.

Lemma luns_refine_their_life_witness : let w := run served world0 in rtc change world0 w /\ luns_ok w.
Proof. apply (luns_refine_their_life targetcli makedirs remove lvcreate lvremove encrypt decrypt str_of served world0 world0_ok). by repeat constructor. Defined.

Definition one_created : World := (handle (CreateLun "l1" "secret" (body "disk-a")) world0).2.

Lemma interrupted_lun_stays_witness : (l_id <$> luns (run [ServerRestarts; TaskRuns "l1"; DeleteLun "l1"] one_created)) = ["l1"] /\
  new_lun encrypt "l1" "secret" (body "disk-a") 0 ∈ luns (run [ServerRestarts; TaskRuns "l1"; DeleteLun "l1"] one_created).
Proof.
  split; [by vm_compute|].
  apply (interrupted_lun_stays targetcli makedirs remove lvcreate lvremove encrypt decrypt str_of [TaskRuns "l1"; DeleteLun "l1"] one_created).
  - by apply handle_ok; [apply world0_ok|].
  - by repeat constructor.
  - by vm_compute; left.
  - by left.
Defined.

Definition two_created : World := (handle (CreateLun "l2" "secret" (body "disk-b")) one_created).2.

Lemma third_lun_is_refused_witness : exists e, handle (CreateLun "l3" "secret" (body "disk-c")) two_created = (Err e, two_created).
Proof.
  eapply (third_lun_is_refused targetcli makedirs remove lvcreate lvremove encrypt decrypt str_of); [|by vm_compute..].
  by repeat (apply handle_ok; [|done]); apply world0_ok.
Defined.
