(* ===== verification/Shares.v ===== *)
(** * The tree of files of a share

    What [core/storage.py] does to the files below a mount point, by [pathlib],
    [open] and [shutil]: a tree is a finite map from paths, lists of names below
    the mount point, to files and directories.  Times, permissions and symbolic
    links are left out, and the disk never fills up.  The empty map is a mount
    point that is not there. *)
From S2P Require Import Prelude.
From stdpp Require Import base tactics list strings gmap.
From Stdlib Require Import ZArith Lia.
Open Scope string_scope.

Abbreviation path := (list string).

Inductive entry : Type := File (content : list Z) | Directory.

#[export] Instance entry_eq_dec : EqDecision entry.
Proof. solve_decision. Defined.

Abbreviation tree := (gmap path entry).

(** The directory an entry lies in. *)
Definition parent (p : path) : path := removelast p.

Definition exists_at (p : path) (t : tree) : bool := bool_decide (is_Some (t !! p)).
Definition is_dir (p : path) (t : tree) : bool := bool_decide (t !! p = Some Directory).
Definition is_file (p : path) (t : tree) : bool := match t !! p with Some (File _) => true | _ => false end.

(** [q] is [p] or lies below it. *)
Definition below (p q : path) : bool := bool_decide (p `prefix_of` q).

(** The proper ancestors, the mount point first. *)
Definition ancestors (p : path) : list path := (fun n => take n p) <$> seq 0 (length p).

(** The path goes through a file: [NotADirectoryError]. *)
Definition blocked (p : path) (t : tree) : bool := existsb (fun q => is_file q t) (ancestors p).

Inductive fs_error : Type :=
| NotFound                     (* [FileNotFoundError] *)
| OtherOSError.

(** [open(p, "wb")] and writing. *)
Definition write_file (p : path) (content : list Z) (t : tree) : result fs_error tree :=
  if is_dir p t || bool_decide (p = []) then Err OtherOSError
  else if blocked p t then Err OtherOSError
  else if is_dir (parent p) t then Ok (<[p := File content]> t)
  else Err NotFound.

(** The missing ones of [l] become directories. *)
Definition make_dirs (l : list path) (t : tree) : tree :=
  fold_left (fun t q => match t !! q with None => <[q := Directory]> t | Some _ => t end) l t.

(** [p.mkdir(parents=True)] where [p] does not exist. *)
Definition mkdir_parents (p : path) (t : tree) : result fs_error tree :=
  if blocked p t then Err OtherOSError else Ok (make_dirs (ancestors p ++ [p])%list t).

Definition cut (p : path) (t : tree) : tree := filter (fun kv => below p kv.1 = false) t.

(** [shutil.rmtree] and [unlink].  The contents go first; what is mounted cannot be removed itself. *)
Definition rmtree (mounted : bool) (p : path) (t : tree) : result fs_error unit * tree :=
  if mounted && bool_decide (p = []) then (Err OtherOSError, filter (fun kv => kv.1 = []) t) else (Ok tt, cut p t).

Definition unlink (p : path) (t : tree) : tree := delete p t.

(** What is [p] or below it is [q] or below it. *)
Definition moved (p q k : path) : path := if below p k then (q ++ drop (length p) k)%list else k.
Definition rename (p q : path) (t : tree) : tree := list_to_map ((fun kv => (moved p q kv.1, kv.2)) <$> map_to_list t).

(** [shutil.move(p, q)] where [p] exists and [q] does not.  A directory that cannot be renamed is copied, with the directories that are missing
    above its new place, and the old one is removed. *)
Definition move (p q : path) (t : tree) : result fs_error tree :=
  if blocked q t then Err OtherOSError
  else if below p q then Err OtherOSError
  else if is_dir (parent q) t then Ok (rename p q t)
  else if is_dir p t then Ok (rename p q (make_dirs (ancestors q) t))
  else Err NotFound.

(** The names in a directory, in the order of the map, which stands for that of the file system. *)
Definition child_of (p k : path) : option string :=
  match reverse k with
  | name :: _ => if bool_decide (k = (p ++ [name])%list) then Some name else None
  | [] => None
  end.
Definition children (p : path) (t : tree) : list (string * entry) :=
  omap (fun kv => (fun n => (n, kv.2)) <$> child_of p kv.1) (map_to_list t).

Definition file_count (t : tree) : Z :=
  Z.of_nat (length (List.filter (fun kv => match kv.2 with File _ => true | Directory => false end) (map_to_list t))).

(** ** Well-formed trees *)

(** Every entry lies in a directory, and the mount point is one. *)
Definition tree_ok (t : tree) : Prop :=
  forall p e, t !! p = Some e -> match p with [] => e = Directory | _ => t !! parent p = Some Directory end.

Lemma tree_ok_empty : tree_ok ∅.
Proof. by intros p e. Qed.

Lemma below_spec p q : below p q = true <-> exists r, q = (p ++ r)%list.
Proof. unfold below. by rewrite bool_decide_eq_true. Qed.

Lemma below_refl p : below p p = true.
Proof. apply below_spec. exists []. by rewrite app_nil_r. Qed.

Lemma parent_app p x : parent (p ++ [x])%list = p.
Proof. unfold parent. by rewrite removelast_last. Qed.

Lemma path_cases (p : path) : p = [] \/ exists q x, p = (q ++ [x])%list.
Proof. destruct p as [|x p] using rev_ind; [by left|right]. by exists p, x. Qed.

Lemma below_parent p q : below p q = true -> q ≠ p -> below p (parent q) = true.
Proof.
  intros (r & ->)%below_spec Hne. destruct (path_cases r) as [->|(s & x & ->)]; [by rewrite app_nil_r in Hne|].
  rewrite app_assoc, parent_app. apply below_spec. by exists s.
Qed.

Lemma below_of_parent p x k : below p (x :: k) = false -> below p (parent (x :: k)) = false.
Proof.
  intros E. apply not_true_is_false. intros (r & Er)%below_spec. apply not_true_iff_false in E. apply E.
  destruct (path_cases (x :: k)) as [|(s & y & Es)]; [done|]. rewrite Es, parent_app in Er. subst s.
  apply below_spec. exists (r ++ [y])%list. by rewrite Es, app_assoc.
Qed.

Lemma elem_of_ancestors p q : q ∈ ancestors p <-> exists r x, p = (q ++ x :: r)%list.
Proof.
  unfold ancestors. rewrite list_elem_of_fmap. split.
  - intros (n & -> & Hn). apply elem_of_seq in Hn. pose proof (take_drop n p) as E.
    destruct (drop n p) as [|x r] eqn:Ed; [|by exists r, x].
    assert (length (drop n p) = 0) as Hl by (by rewrite Ed). rewrite length_drop in Hl. lia.
  - intros (r & x & ->). exists (length q). rewrite take_app_length. split; [done|]. apply elem_of_seq. rewrite length_app. cbn. lia.
Qed.

Section Trees.
Implicit Types t : tree.

(** Whatever lies below something that is there lies in directories. *)
Lemma ancestor_dir t p e r x : tree_ok t -> t !! (p ++ x :: r)%list = Some e -> t !! p = Some Directory.
Proof.
  intros Ht. revert x e. induction r as [|y r IH] using rev_ind; intros x e He.
  - specialize (Ht _ _ He). destruct (p ++ [x])%list eqn:E; [by destruct p|]. rewrite <- E, parent_app in Ht. done.
  - pose proof (Ht _ _ He) as Hd. rewrite app_comm_cons, app_assoc in He, Hd.
    destruct ((p ++ x :: r) ++ [y])%list eqn:E; [by destruct (p ++ x :: r)%list|]. rewrite <- E, parent_app in Hd. by apply (IH x Directory).
Qed.

Lemma not_blocked t p e : tree_ok t -> t !! p = Some e -> blocked p t = false.
Proof.
  intros Ht He. unfold blocked. apply not_true_is_false. intros (q & Hq%list_elem_of_In & Hf)%existsb_exists.
  apply elem_of_ancestors in Hq as (r & x & ->). pose proof (ancestor_dir t q e r x Ht He) as Hd. unfold is_file in Hf. by rewrite Hd in Hf.
Qed.

Lemma is_dir_true p t : is_dir p t = true <-> t !! p = Some Directory.
Proof. unfold is_dir. apply bool_decide_eq_true. Qed.

Lemma write_file_ok p content t t' : tree_ok t -> write_file p content t = Ok t' -> tree_ok t'.
Proof.
  intros Ht. unfold write_file. destruct (is_dir p t || _) eqn:Ed; [done|]. destruct (blocked p t); [done|].
  destruct (is_dir (parent p) t) eqn:Ep; [|done]. intros [= <-] q e. apply orb_false_iff in Ed as [Ed Hne]. apply bool_decide_eq_false in Hne.
  apply is_dir_true in Ep.
  assert (forall k, t !! k = Some Directory -> <[p := File content]> t !! k = Some Directory) as Hkeep.
  { intros k Hk. rewrite lookup_insert_ne; [done|]. intros ->. unfold is_dir in Ed. apply bool_decide_eq_false in Ed. done. }
  rewrite lookup_insert_Some. intros [[<- <-]|[Hpq He]].
  - destruct p; [done|]. by apply Hkeep.
  - specialize (Ht _ _ He). destruct q; [done|]. by apply Hkeep.
Qed.

(** *** Directories *)

Lemma make_dirs_lookup l t k : make_dirs l t !! k = match t !! k with Some e => Some e | None => if decide (k ∈ l) then Some Directory else None end.
Proof.
  revert t. induction l as [|q l IH]; intros t; cbn.
  - destruct (t !! k); [done|]. by destruct (decide _) as [H|]; [apply not_elem_of_nil in H|].
  - rewrite IH. destruct (decide (k = q)) as [->|Hne].
    + destruct (t !! q) as [e|] eqn:Eq; [by rewrite Eq|]. rewrite lookup_insert_eq, decide_True; [done|]. by left.
    + assert (match t !! q with None => <[q:=Directory]> t | Some _ => t end !! k = t !! k) as ->
        by (destruct (t !! q); [done|by rewrite lookup_insert_ne]).
      destruct (t !! k); [done|]. destruct (decide (k ∈ l)) as [H|H].
      * rewrite decide_True; [done|]. by right.
      * rewrite decide_False; [done|]. by intros [?|?]%elem_of_cons.
Qed.

Lemma make_dirs_ok l t : tree_ok t -> (forall k, k ∈ l -> k ≠ [] -> parent k ∈ l /\ is_file (parent k) t = false) -> tree_ok (make_dirs l t).
Proof.
  intros Ht Hl k e. rewrite !make_dirs_lookup. destruct (t !! k) as [e'|] eqn:Ek.
  - intros [= <-]. specialize (Ht _ _ Ek). destruct k; [done|]. by rewrite Ht.
  - destruct (decide (k ∈ l)) as [Hk|]; [|done]. intros [= <-]. destruct k as [|x k]; [done|].
    destruct (Hl _ Hk) as [Hp Hf]; [done|]. unfold is_file in Hf.
    destruct (t !! parent (x :: k)) as [[]|]; [done..|]. by rewrite decide_True.
Qed.

Lemma parent_ancestor p q : q ∈ ancestors p -> q ≠ [] -> parent q ∈ ancestors p.
Proof.
  intros (r & x & ->)%elem_of_ancestors Hne. destruct (path_cases q) as [->|(s & y & ->)]; [done|]. rewrite parent_app.
  apply elem_of_ancestors. exists (x :: r), y. by rewrite <- app_assoc.
Qed.

Lemma parent_is_ancestor p : p ≠ [] -> parent p ∈ ancestors p.
Proof. intros Hne. destruct (path_cases p) as [->|(q & x & ->)]; [done|]. rewrite parent_app. apply elem_of_ancestors. by exists [], x. Qed.

Lemma not_file_above p t q : blocked p t = false -> q ∈ ancestors p -> is_file q t = false.
Proof.
  intros Hb Hq. apply not_true_is_false. intros Hf. apply not_true_iff_false in Hb. apply Hb. apply existsb_exists. exists q. by rewrite <- list_elem_of_In.
Qed.

Lemma ancestors_made_ok p t : tree_ok t -> blocked p t = false -> tree_ok (make_dirs (ancestors p) t).
Proof.
  intros Ht Hb. apply make_dirs_ok; [done|]. intros k Hk Hne. pose proof (parent_ancestor _ _ Hk Hne) as Hp. split; [done|]. by apply (not_file_above p).
Qed.

Lemma mkdir_parents_ok p t t' : tree_ok t -> mkdir_parents p t = Ok t' -> tree_ok t'.
Proof.
  intros Ht. unfold mkdir_parents. destruct (blocked p t) eqn:Hb; [done|]. intros [= <-]. apply make_dirs_ok; [done|].
  intros k [Hk| ->%list_elem_of_singleton]%elem_of_app Hne.
  - pose proof (parent_ancestor _ _ Hk Hne) as Hp. split; [apply elem_of_app; by left|]. by apply (not_file_above p).
  - pose proof (parent_is_ancestor _ Hne) as Hp. split; [apply elem_of_app; by left|]. by apply (not_file_above p).
Qed.

(** *** Removing *)

Lemma cut_lookup p t k : cut p t !! k = if below p k then None else t !! k.
Proof.
  unfold cut. destruct (below p k) eqn:E.
  - apply map_lookup_filter_None. right. intros e _. cbn. congruence.
  - destruct (t !! k) as [e|] eqn:Ek; [by apply map_lookup_filter_Some|]. apply map_lookup_filter_None. by left.
Qed.

Lemma cut_ok p t : tree_ok t -> tree_ok (cut p t).
Proof.
  intros Ht k e. rewrite !cut_lookup. destruct (below p k) eqn:E; [done|]. intros Hk. specialize (Ht _ _ Hk). destruct k as [|x k]; [done|].
  by rewrite below_of_parent.
Qed.

Lemma rmtree_ok b p t : tree_ok t -> tree_ok (rmtree b p t).2.
Proof.
  intros Ht. unfold rmtree. destruct (b && _); [|by apply cut_ok]. cbn [snd]. intros k e. rewrite map_lookup_filter_Some. cbn.
  intros [Hk ->]. exact (Ht _ _ Hk).
Qed.

Lemma unlink_ok p c t : tree_ok t -> t !! p = Some (File c) -> tree_ok (unlink p t).
Proof.
  intros Ht Hp k e. unfold unlink. rewrite lookup_delete_Some. intros [Hne Hk]. specialize (Ht _ _ Hk). destruct k as [|x k]; [done|].
  rewrite lookup_delete_ne; [done|]. intros ->. by rewrite Hp in Ht.
Qed.

(** *** Moving *)

Lemma moved_below p q r : moved p q (p ++ r)%list = (q ++ r)%list.
Proof. unfold moved. rewrite (proj2 (below_spec p _)) by by exists r. by rewrite drop_app_length. Qed.

Lemma moved_other p q k : below p k = false -> moved p q k = k.
Proof. unfold moved. by intros ->. Qed.

(** Nothing is below what is not there. *)
Lemma nothing_below t q k e : tree_ok t -> t !! q = None -> t !! k = Some e -> below q k = false.
Proof.
  intros Ht Hq Hk. apply not_true_is_false. intros (r & ->)%below_spec. destruct r as [|x r]; [by rewrite app_nil_r, Hq in Hk|].
  by rewrite (ancestor_dir t q e r x Ht Hk) in Hq.
Qed.

Lemma rename_lookup p q t k e : tree_ok t -> t !! q = None -> rename p q t !! k = Some e <-> exists k', t !! k' = Some e /\ k = moved p q k'.
Proof.
  intros Ht Hq. unfold rename. rewrite <- elem_of_list_to_map.
  - rewrite list_elem_of_fmap. split.
    + intros ([k' e'] & [= -> ->] & Hk%elem_of_map_to_list). by exists k'.
    + intros (k' & Hk & ->). exists (k', e). split; [done|]. by apply elem_of_map_to_list.
  - rewrite <- list_fmap_compose. change (_ ∘ _) with (moved p q ∘ @fst path entry). rewrite list_fmap_compose.
    apply NoDup_fmap_2_strong; [|apply NoDup_fst_map_to_list].
    assert (forall k, k ∈ (map_to_list t).*1 -> below q k = false) as Hfree.
    { intros k0 ([k1 e1] & -> & Hk%elem_of_map_to_list)%list_elem_of_fmap. by apply (nothing_below t q k1 e1). }
    intros x y Hx%Hfree Hy%Hfree. unfold moved. destruct (below p x) eqn:Ex, (below p y) eqn:Ey.
    + apply below_spec in Ex as (r & ->), Ey as (r' & ->). rewrite !drop_app_length. by intros ->%app_inv_head.
    + intros <-. exfalso. apply not_true_iff_false in Hy. apply Hy, below_spec. by eexists.
    + intros ->. exfalso. apply not_true_iff_false in Hx. apply Hx, below_spec. by eexists.
    + done.
Qed.

Lemma rename_ok p q t : tree_ok t -> t !! q = None -> below p q = false -> t !! parent q = Some Directory -> p ≠ [] -> q ≠ [] -> tree_ok (rename p q t).
Proof.
  intros Ht Hq Hpq Hd Hp Hq0 k e (k' & Hk & ->)%rename_lookup; [|done..]. destruct (below p k') eqn:E.
  - apply below_spec in E as (r & ->). rewrite moved_below. destruct (path_cases r) as [->|(s & x & ->)].
    + rewrite app_nil_r. destruct q as [|y q']; [done|]. apply rename_lookup; [done..|]. exists (parent (y :: q')). split; [done|].
      by rewrite moved_other; [|apply below_of_parent].
    + rewrite app_assoc. destruct ((q ++ s) ++ [x])%list eqn:E; [by destruct (q ++ s)%list|]. rewrite <- E, parent_app. apply rename_lookup; [done..|].
      exists (p ++ s)%list. split; [|by rewrite moved_below]. by apply (ancestor_dir t (p ++ s) e [] x); [|rewrite <- app_assoc].
  - rewrite moved_other by done. pose proof (Ht _ _ Hk) as Hk'. destruct k' as [|x k']; [done|]. apply rename_lookup; [done..|].
    exists (parent (x :: k')). split; [done|]. by rewrite moved_other; [|apply below_of_parent].
Qed.

Lemma below_root q : below [] q = true.
Proof. apply below_spec. by exists q. Qed.

Lemma ancestors_not_below q : q ∉ ancestors q.
Proof. intros (r & x & E)%elem_of_ancestors. apply (f_equal length) in E. rewrite length_app in E. cbn in E. lia. Qed.

(** What a move does: [t'] is [t], perhaps with more directories, and what was [p] or below it is [q] or below it. *)
Lemma move_spec p q t t' : tree_ok t -> is_Some (t !! p) -> t !! q = None -> move p q t = Ok t' ->
  exists u, tree_ok u /\ u !! q = None /\ (forall k e, t !! k = Some e -> u !! k = Some e) /\ t' = rename p q u /\ below p q = false
            /\ u !! parent q = Some Directory /\ p ≠ [] /\ q ≠ [].
Proof.
  intros Ht [e Hp] Hq. unfold move. destruct (blocked q t) eqn:Hb; [done|]. destruct (below p q) eqn:Hpq; [done|].
  assert (p ≠ []) as Hp0 by (intros ->; by rewrite below_root in Hpq).
  assert (t !! [] = Some Directory) as Hroot by (destruct p as [|x p']; [done|]; by apply (ancestor_dir t [] e p' x)).
  assert (q ≠ []) as Hq0 by (intros ->; congruence).
  destruct (is_dir (parent q) t) eqn:Hd.
  - intros [= <-]. exists t. repeat split; try done. by apply is_dir_true.
  - destruct (is_dir p t); [|done]. intros [= <-]. exists (make_dirs (ancestors q) t). repeat split; try done.
    + by apply ancestors_made_ok.
    + rewrite make_dirs_lookup, Hq, decide_False; [done|]. apply ancestors_not_below.
    + intros k e' Hk. by rewrite make_dirs_lookup, Hk.
    + rewrite make_dirs_lookup. pose proof (parent_is_ancestor q Hq0) as Ha. pose proof (not_file_above _ _ _ Hb Ha) as Hf. unfold is_file in Hf.
      destruct (t !! parent q) as [[]|]; [done..|]. by rewrite decide_True.
Qed.

Lemma move_ok p q t t' : tree_ok t -> is_Some (t !! p) -> t !! q = None -> move p q t = Ok t' -> tree_ok t'.
Proof. intros Ht Hp Hq H. destruct (move_spec p q t t' Ht Hp Hq H) as (u & ? & ? & _ & -> & ? & ? & ? & ?). by apply rename_ok. Qed.

Lemma move_lookup p q r t t' e : tree_ok t -> is_Some (t !! p) -> t !! q = None -> move p q t = Ok t' ->
  t !! (p ++ r)%list = Some e -> t' !! (q ++ r)%list = Some e.
Proof.
  intros Ht Hp Hq H Hr. destruct (move_spec p q t t' Ht Hp Hq H) as (u & ? & ? & Hu & -> & ? & ? & ? & ?).
  apply rename_lookup; [done..|]. exists (p ++ r)%list. split; [by apply Hu|by rewrite moved_below].
Qed.

Lemma move_source p q t t' : tree_ok t -> is_Some (t !! p) -> t !! q = None -> move p q t = Ok t' -> t' !! p = None.
Proof.
  intros Ht Hp Hq H. destruct (move_spec p q t t' Ht Hp Hq H) as (u & Hu & Huq & Hk & -> & Hpq & ? & ? & ?).
  destruct (rename p q u !! p) as [e|] eqn:E; [|done]. apply rename_lookup in E as (k & Hk' & E); [|done..]. unfold moved in E.
  destruct (below p k) eqn:Eb; [|by rewrite <- E, below_refl in Eb]. exfalso.
  assert (below q p = true) as Hb by (apply below_spec; by eexists).
  destruct Hp as [e' Hp]. apply Hk in Hp. by rewrite (nothing_below u q p e' Hu Huq Hp) in Hb.
Qed.

(** *** What is left alone *)

Lemma write_file_other p c t t' k : write_file p c t = Ok t' -> k ≠ p -> t' !! k = t !! k.
Proof.
  unfold write_file. destruct (is_dir p t || _); [done|]. destruct (blocked p t); [done|]. destruct (is_dir (parent p) t); [|done].
  intros [= <-] Hne. by rewrite lookup_insert_ne.
Qed.

Lemma write_file_written p c t t' : write_file p c t = Ok t' -> t' !! p = Some (File c).
Proof.
  unfold write_file. destruct (is_dir p t || _); [done|]. destruct (blocked p t); [done|]. destruct (is_dir (parent p) t); [|done].
  intros [= <-]. by rewrite lookup_insert_eq.
Qed.

Lemma mkdir_parents_keeps p t t' k e : mkdir_parents p t = Ok t' -> t !! k = Some e -> t' !! k = Some e.
Proof. unfold mkdir_parents. destruct (blocked p t); [done|]. intros [= <-] Hk. by rewrite make_dirs_lookup, Hk. Qed.

Lemma mkdir_parents_made p t t' : t !! p = None -> mkdir_parents p t = Ok t' -> t' !! p = Some Directory.
Proof.
  unfold mkdir_parents. destruct (blocked p t); [done|]. intros Hp [= <-]. rewrite make_dirs_lookup, Hp, decide_True; [done|].
  apply elem_of_app. right. by left.
Qed.

Lemma rmtree_other b p t k : below p k = false -> (rmtree b p t).2 !! k = t !! k.
Proof.
  intros Hk. unfold rmtree. destruct (b && bool_decide (p = [])) eqn:E; cbn [snd].
  - apply andb_true_iff in E as [_ ->%bool_decide_eq_true]. by rewrite below_root in Hk.
  - by rewrite cut_lookup, Hk.
Qed.

Lemma rmtree_gone p t t' b k : rmtree b p t = (Ok tt, t') -> below p k = true -> t' !! k = None.
Proof. unfold rmtree. destruct (b && _); [done|]. intros [= <-] Hk. by rewrite cut_lookup, Hk. Qed.

Lemma move_other p q t t' k e : tree_ok t -> is_Some (t !! p) -> t !! q = None -> move p q t = Ok t' ->
  t !! k = Some e -> below p k = false -> t' !! k = Some e.
Proof.
  intros Ht Hp Hq H Hk Hb. destruct (move_spec p q t t' Ht Hp Hq H) as (u & ? & ? & Hu & -> & ? & ? & ? & ?).
  apply rename_lookup; [done..|]. exists k. split; [by apply Hu|by rewrite moved_other].
Qed.

(** *** Listing *)

Lemma elem_of_children p t n e : (n, e) ∈ children p t <-> t !! (p ++ [n])%list = Some e.
Proof.
  unfold children. rewrite list_elem_of_omap. split.
  - intros ([k e'] & Hk%elem_of_map_to_list & H). cbn in H. unfold child_of in H. destruct (reverse k) as [|m ?]; [done|].
    destruct (bool_decide (k = (p ++ [m])%list)) eqn:E; [|done]. apply bool_decide_eq_true in E. injection H as -> ->. by rewrite <- E.
  - intros H. exists ((p ++ [n])%list, e). split; [by apply elem_of_map_to_list|]. cbn. unfold child_of. rewrite reverse_app. cbn.
    by rewrite bool_decide_true.
Qed.
End Trees.
