(* ===== verification/Storage.v ===== *)
(** * The storage services

    [core/storage.py]: one [Record] of operations per kind of back end, as the
    code's two protocols have it, and the factory.  An NFS share is a tree of
    files behind a mount point, on which other programs may mount and unmount;
    while nothing is mounted there, the mount point is a directory of the
    controller's own disk.  HTTP servers, S3 servers and the programs [mount],
    [umount] and [showmount] are parameters that act on a state of their own.
    An iterator over content is the list of what it yields. *)
From S2P Require Import Prelude PyStr SqlTable Paths Shares Controller.
From S2P Require Tftp.
From stdpp Require Import base tactics list strings gmap pretty sorting.
From Stdlib Require Import Ascii ZArith Lia.
Open Scope string_scope.
#[local] Arguments String.append !_ _ : simpl nomatch.

(** ** Data *)

Record FileInfo := {
  fi_name : string;
  fi_path : string;
  fi_type : string;
  fi_size : option Z;
  fi_mime_type : option string;
  fi_item_count : option Z
}.

(** What a service raises, with the text where a handler shows it. *)
Inductive storage_error : Type :=
| FileNotFoundError (text : string)
| InvalidValue (text : string)          (* [ValueError] *)
| OtherException.

Record Stats := { used_bytes : Z; total_bytes : option Z; st_file_count : Z }.
Definition no_stats : Stats := {| used_bytes := 0; total_bytes := None; st_file_count := 0 |}.

(** A validated configuration, as [model_dump] gives it. *)
Record NfsConfig := { server : string; export_path : string; mount_options : option string }.
Record HttpConfig := { base_url : string; auth_method : string; username : option string; password : option string }.
Record S3Config := {
  endpoint : string; bucket : string; region : option string; access_key_id : string; secret_access_key : option string;
  cdn_enabled : bool; cdn_url : option string
}.
Record IscsiTargetConfig := { target : string; port : Z; chap_enabled : bool }.
Inductive config : Type :=
| Nfs (c : NfsConfig)
| Http (c : HttpConfig)
| S3 (c : S3Config)
| Iscsi (c : IscsiTargetConfig).

Inductive http_method : Type := HEAD | GET | PUT | DELETE.
Record http_request := {
  rq_method : http_method;
  rq_url : string;
  rq_auth : option (string * string);
  rq_headers : list (string * string);
  rq_data : option (list Z)
}.
Record http_response := {
  rs_status : Z;
  rs_content_type : option string;
  rs_content_length : option string;
  rs_text : string;
  rs_chunks : list (list Z)
}.
Inductive http_outcome : Type :=
| Answered (r : http_response)
| ClientError (text : string)
| OtherFailure (text : string).         (* a timeout, for one *)

Inductive command_outcome : Type :=
| Exits (code : Z) (stdout stderr : string)
| TimedOut
| NotInstalled
| Raises (text : string).

Record Stores {T : Type} := {
  exports : gmap string tree;           (* what the NFS servers export, by source *)
  locals : gmap string tree;            (* the directories of the mount points *)
  mounted : gmap string string;         (* the source that is mounted for a back end *)
  outside : T
}.
Arguments Stores : clear implicits.

Section Services.
Context {T : Type}
  (http : http_request -> T -> http_outcome * T)
  (mount_command : string -> option string -> string -> T -> bool * T)
  (umount_command : string -> T -> bool * T)
  (showmount : string -> T -> command_outcome * T)
  (disk_usage : string -> T -> option (Z * Z) * T)
  (guess_type : string -> option string)
  (os_text int_text : string -> string).

Abbreviation StoreM A := (M (Stores T) storage_error A).

(** [StorageBackendService] and [FileBrowserService] *)
Record BackendService := {
  test_connection : StoreM (bool * string);
  get_stats : StoreM Stats;
  mount : StoreM (option string);
  unmount : StoreM unit;
  supports_write : bool;
  list_files : string -> StoreM (list FileInfo);
  download_file : string -> StoreM (list (list Z) * string * Z);
  upload_file : string -> string -> list (list Z) -> StoreM FileInfo;
  delete_files : list string -> StoreM Z;
  create_folder : string -> StoreM FileInfo;
  move_file : string -> string -> StoreM FileInfo
}.

Definition on_outside {A} (f : T -> A * T) : StoreM A := fun w => let '(a, t) := f (outside w) in (Ok a, w <| outside := t |>).

(** ** Sorting a listing *)

(** The key [(f.type != "directory", f.name.lower())]. *)
Definition key_leb (f g : FileInfo) : bool :=
  let d f := String.eqb (fi_type f) "directory" in
  if Bool.eqb (d f) (d g) then String.leb (lower (fi_name f)) (lower (fi_name g)) else d f.

Fixpoint insert_info (f : FileInfo) (l : list FileInfo) : list FileInfo :=
  match l with
  | [] => [f]
  | g :: r => if key_leb f g then f :: l else g :: insert_info f r
  end.
(** [sorted], which is stable. *)
Definition sorted_infos (l : list FileInfo) : list FileInfo := fold_right insert_info [] l.

(** ** NFS *)

Section Share.
Variables (backend_id : string) (c : NfsConfig).

Definition mount_point : string := "/tmp/pureboot/nfs/" ++ backend_id.

Definition root_only : tree := {[ [] := Directory ]}.

(** [os.path.ismount] *)
Definition is_mounted (w : Stores T) : bool := bool_decide (is_Some (mounted w !! backend_id)).

(** The tree below the mount point. *)
Definition share (w : Stores T) : tree :=
  match mounted w !! backend_id with
  | Some source => default root_only (exports w !! source)
  | None => default ∅ (locals w !! backend_id)
  end.
Definition set_share (t : tree) : StoreM unit := modify (fun w =>
  match mounted w !! backend_id with
  | Some source => w <| exports ::= <[source := t]> |>
  | None => w <| locals ::= <[backend_id := t]> |>
  end).

Definition make_mount_point : StoreM unit := modify (fun w =>
  if is_mounted w then w
  else if exists_at [] (share w) then w else w <| locals ::= <[backend_id := root_only]> |>).

Definition nfs_source : string := server c ++ ":" ++ export_path c.

Definition nfs_mount : StoreM (option string) :=
  make_mount_point;;
  w ← get_state;
  if is_mounted w then mret (Some mount_point)
  else
    let options := match mount_options c with Some "" => None | o => o end in
    done ← on_outside (mount_command nfs_source options mount_point);
    if (done : bool) then modify (fun w => w <| mounted ::= <[backend_id := nfs_source]> |>);; mret (Some mount_point)
    else mret None.

Definition nfs_unmount : StoreM unit :=
  w ← get_state;
  if is_mounted w then
    done ← on_outside (umount_command mount_point);
    if (done : bool) then modify (fun w => w <| mounted ::= delete backend_id |>) else mret tt
  else mret tt.

Definition nfs_test_connection : StoreM (bool * string) :=
  r ← on_outside (showmount (server c));
  mret match r with
       | TimedOut => (false, "Connection test timed out")
       | NotInstalled => (false, "showmount command not found (nfs-common not installed)")
       | Raises text => (false, "Connection test failed: " ++ text)
       | Exits code stdout stderr =>
           if negb (code =? 0)%Z then (false, "Cannot reach NFS server: " ++ strip stderr)
           else if negb (str_contains (export_path c) stdout) then (false, "Export " ++ export_path c ++ " not found on " ++ server c)
           else (true, "NFS server reachable, export " ++ export_path c ++ " available")
       end.

Definition nfs_get_stats : StoreM Stats :=
  w ← get_state;
  there ← (if is_mounted w then mret true
           else r ← nfs_mount; mret (match r with Some m => negb (String.eqb m "") | None => false end));
  if (there : bool) then
    usage ← on_outside (disk_usage mount_point);
    w ← get_state;
    mret match usage with
         | Some (used, total) => {| used_bytes := used; total_bytes := Some total; st_file_count := file_count (share w) |}
         | None => no_stats
         end
  else mret no_stats.

(** [if not os.path.ismount(...): await self.mount()]: whether that worked is not looked at. *)
Definition ensure_mounted : StoreM unit :=
  w ← get_state; if is_mounted w then mret tt else nfs_mount;; mret tt.

Definition NUL : ascii := "000".

(** The names below the mount point.  A path without dot-dots, where there are no links, stays inside. *)
Definition _validate_path (p : string) : result storage_error path :=
  if str_contains ".." p then Err (InvalidValue "Path traversal not allowed")
  else if negb (lacks NUL p) then Err (InvalidValue "Path outside storage root")
  else Ok (parts (path_of (lstrip "/" p))).

Definition validated (p : string) : StoreM path := lift_result (_validate_path p).

Definition get_share : StoreM tree := w ← get_state; mret (share w).

Definition name_of (p : path) : string := List.last p "".
Definition rel_path (p : path) : string := "/" ++ PyStr.join "/" p.

(** An operation of the file system; [where] names the path in its message. *)
Definition on_share (where_ : path) (f : tree -> result fs_error tree) : StoreM unit :=
  t ← get_share;
  match f t with
  | Ok t' => set_share t'
  | Err NotFound => raise (FileNotFoundError (os_text (mount_point ++ rel_path where_)))
  | Err OtherOSError => raise OtherException
  end.

Definition directory_info (name p : string) (items : Z) : FileInfo :=
  {| fi_name := name; fi_path := p; fi_type := "directory"; fi_size := None; fi_mime_type := None; fi_item_count := Some items |}.
Definition file_info (name p : string) (size : Z) : FileInfo :=
  {| fi_name := name; fi_path := p; fi_type := "file"; fi_size := Some size; fi_mime_type := guess_type name; fi_item_count := None |}.

Definition item_count (p : path) (t : tree) : Z := Z.of_nat (length (children p t)).

(** What a listing says of the entry [name] of the directory [p]. *)
Definition info_of (p : path) (t : tree) (child : string * entry) : FileInfo :=
  let q := (p ++ [child.1])%list in
  match child.2 with
  | Directory => directory_info child.1 (rel_path q) (item_count q t)
  | File content => file_info child.1 (rel_path q) (Z.of_nat (length content))
  end.

Definition nfs_list_files (p : string) : StoreM (list FileInfo) :=
  ensure_mounted;;
  q ← validated p;
  t ← get_share;
  if negb (exists_at q t) then raise (FileNotFoundError ("Path not found: " ++ p))
  else if negb (is_dir q t) then raise (InvalidValue ("Not a directory: " ++ p))
  else mret (sorted_infos (info_of q t <$> children q t)).

Definition nfs_download_file (p : string) : StoreM (list (list Z) * string * Z) :=
  ensure_mounted;;
  q ← validated p;
  t ← get_share;
  match t !! q with
  | None => raise (FileNotFoundError ("File not found: " ++ p))
  | Some Directory => raise (InvalidValue ("Not a file: " ++ p))
  | Some (File content) =>
      mret (Tftp.read_chunks 8192 content, default "application/octet-stream" (guess_type (name_of q)), Z.of_nat (length content))
  end.

Definition nfs_upload_file (p filename : string) (content : list (list Z)) : StoreM FileInfo :=
  ensure_mounted;;
  q ← validated p;
  t ← get_share;
  if negb (exists_at q t) then raise (FileNotFoundError ("Directory not found: " ++ p))
  else if str_contains "/" filename || str_contains ".." filename then raise (InvalidValue "Invalid filename")
  else if negb (lacks NUL filename) then raise (InvalidValue "embedded null byte")
  else
    let file := (q ++ parts (path_of filename))%list in
    on_share file (write_file file (concat content));;
    mret (file_info filename (rel_path file) (Z.of_nat (length (concat content)))).

Definition remove_entry (q : path) : StoreM unit :=
  w ← get_state;
  if is_dir q (share w) then
    let '(r, t) := rmtree (is_mounted w) q (share w) in
    set_share t;;
    match r with Ok _ => mret tt | Err _ => raise OtherException end
  else set_share (unlink q (share w)).

Fixpoint delete_loop (paths : list string) (deleted : Z) : StoreM Z :=
  match paths with
  | [] => mret deleted
  | p :: paths =>
      q ← validated p;
      t ← get_share;
      if exists_at q t then remove_entry q;; delete_loop paths (deleted + 1)%Z else delete_loop paths deleted
  end.

Definition nfs_delete_files (paths : list string) : StoreM Z := ensure_mounted;; delete_loop paths 0.

Definition nfs_create_folder (p : string) : StoreM FileInfo :=
  ensure_mounted;;
  q ← validated p;
  t ← get_share;
  if exists_at q t then raise (InvalidValue ("Path already exists: " ++ p))
  else
    on_share q (mkdir_parents q);;
    mret (directory_info (name_of q) p 0).

Definition nfs_move_file (source destination : string) : StoreM FileInfo :=
  ensure_mounted;;
  src ← validated source;
  dst ← validated destination;
  t ← get_share;
  if negb (exists_at src t) then raise (FileNotFoundError ("Source not found: " ++ source))
  else if exists_at dst t then raise (InvalidValue ("Destination already exists: " ++ destination))
  else
    on_share dst (Shares.move src dst);;
    t ← get_share;
    match t !! dst with
    | Some (File content) => mret (file_info (name_of dst) destination (Z.of_nat (length content)))
    | _ => mret (directory_info (name_of dst) destination (item_count dst t))
    end.

Definition nfs_service : BackendService :=
  {| test_connection := nfs_test_connection; get_stats := nfs_get_stats; mount := nfs_mount; unmount := nfs_unmount; supports_write := true;
     list_files := nfs_list_files; download_file := nfs_download_file; upload_file := nfs_upload_file; delete_files := nfs_delete_files;
     create_folder := nfs_create_folder; move_file := nfs_move_file |}.
End Share.

(** ** Listings as text *)

(** [re.finditer]: the matches of [m] from the left, each after the one before; [m] gives the rest of the text. *)
Fixpoint finditer {A} (fuel : nat) (m : string -> option (A * string)) (s : string) : list A :=
  match fuel with
  | O => []
  | S fuel =>
      match m s with
      | Some (a, rest) => a :: finditer fuel m rest
      | None => match s with String _ r => finditer fuel m r | EmptyString => [] end
      end
  end.
Definition find_all {A} (m : string -> option (A * string)) (s : string) : list A := finditer (S (String.length s)) m s.

(** The rest after the literal [p]. *)
Definition literal (p s : string) : option string := if startswith p s then Some (str_drop (String.length p) s) else None.
(** With [re.IGNORECASE]; [p] is in lower case. *)
Definition literal_ci (p s : string) : option string :=
  if startswith p (lower s) then Some (str_drop (String.length p) s) else None.

(** One or more characters of a class. *)
Definition some_of (p : ascii -> bool) (s : string) : option (string * string) :=
  match span p s with (EmptyString, _) => None | (w, r) => Some (w, r) end.

Definition not_char (c : ascii) (d : ascii) : bool := negb (Ascii.eqb c d).
Definition quote : ascii := "034".

(** An anchor element whose first attribute is a reference, with a text, by its pattern with [re.IGNORECASE].  Every class of the pattern
    excludes the character that follows it, so that there is one way to match. *)
Definition anchor (s : string) : option ((string * string) * string) :=
  s ← literal_ci "<a" s;
  '(_, s) ← some_of is_space s;
  s ← literal_ci "href=" s;
  s ← literal (String quote "") s;
  '(href, s) ← some_of (not_char quote) s;
  s ← literal (String quote "") s;
  let '(_, s) := span (not_char ">") s in
  s ← literal ">" s;
  '(name, s) ← some_of (not_char "<") s;
  s ← literal_ci "</a>" s;
  Some ((href, name), s).

(** [base_path] and a name: the path of an entry. *)
Definition listed_path (base_path name : string) : string :=
  if String.eqb base_path "/" then "/" ++ name else rstrip "/" base_path ++ "/" ++ name.

Definition plain_info (name p : string) (dir : bool) (size : option Z) : FileInfo :=
  {| fi_name := name; fi_path := p; fi_type := if dir then "directory" else "file"; fi_size := if dir then None else size;
     fi_mime_type := if dir then None else guess_type name; fi_item_count := None |}.

Definition anchor_info (base_path : string) (a : string * string) : option FileInfo :=
  let '(href, text) := a in
  let name := strip text in
  if existsb (String.eqb name) ["../"; ".."; "Parent Directory"; "Name"; ""] then None
  else if startswith "?" href || startswith "/" href then None
  else
    let clean_name := rstrip "/" name in
    Some (plain_info clean_name (listed_path base_path clean_name) (endswith "/" href) None).

Definition _parse_directory_listing (html base_path : string) : list FileInfo :=
  sorted_infos (omap (anchor_info base_path) (find_all anchor html)).

(** The pattern of a common prefix. *)
Definition common_prefix (s : string) : option (string * string) :=
  s ← literal "<CommonPrefixes><Prefix>" s;
  '(prefix, s) ← some_of (not_char "<") s;
  s ← literal "</Prefix></CommonPrefixes>" s;
  Some (prefix, s).

(** The first element [tag] with some text in it, and the rest: a lazy [.*?] before it. *)
Fixpoint first_element (tag s : string) : option (string * string) :=
  match (r ← literal ("<" ++ tag ++ ">") s; '(w, r) ← some_of (not_char "<") r; r ← literal ("</" ++ tag ++ ">") r; Some (w, r)) with
  | Some x => Some x
  | None => match s with String _ r => first_element tag r | EmptyString => None end
  end.
Fixpoint after_first (p s : string) : option string :=
  match literal p s with
  | Some r => Some r
  | None => match s with String _ r => after_first p r | EmptyString => None end
  end.

(** The pattern of an object, with [re.DOTALL]: what matches later in the text matches from an earlier start too, so that the first element of each
    kind is the match. *)
Definition contents (s : string) : option ((string * string) * string) :=
  s ← literal "<Contents>" s;
  '(key, s) ← first_element "Key" s;
  '(size, s) ← first_element "Size" s;
  s ← after_first "</Contents>" s;
  Some ((key, size), s).

Definition last_part (s : string) : string := List.last (split_on "/" s) "".

Definition prefix_info (prefix : string) : option FileInfo :=
  let name := last_part (rstrip "/" prefix) in
  if String.eqb name "" then None else Some (plain_info name ("/" ++ rstrip "/" prefix) true None).

(** [int(size)] raises before the markers of directories are left out. *)
Fixpoint key_infos (l : list (string * string)) : result storage_error (list FileInfo) :=
  match l with
  | [] => Ok []
  | (key, size) :: l =>
      match py_int size with
      | None => Err (InvalidValue (int_text size))
      | Some n =>
          match key_infos l with
          | Err e => Err e
          | Ok infos => Ok (if endswith "/" key then infos else plain_info (last_part key) ("/" ++ key) false (Some n) :: infos)
          end
      end
  end.

Definition _parse_s3_listing (xml_content : string) : result storage_error (list FileInfo) :=
  match key_infos (find_all contents xml_content) with
  | Err e => Err e
  | Ok files => Ok (sorted_infos (omap prefix_info (find_all common_prefix xml_content) ++ files))
  end.

(** ** HTTP *)

Definition send (r : http_request) : StoreM http_outcome := on_outside (http r).

Definition no_traversal (p : string) : StoreM unit :=
  if str_contains ".." p then raise (InvalidValue "Path traversal not allowed") else mret tt.

(** An answer below 400; [what] names the request in the messages. *)
Definition answered (what : string) (failed : Z -> storage_error) (o : http_outcome) : StoreM http_response :=
  match o with
  | Answered r => if (400 <=? rs_status r)%Z then raise (failed (rs_status r)) else mret r
  | ClientError text => raise (InvalidValue (what ++ " failed: " ++ text))
  | OtherFailure _ => raise OtherException
  end.

Definition error_status (what : string) (status : Z) : storage_error := InvalidValue (what ++ pretty status).
Definition missing_or (missing what : string) (status : Z) : storage_error :=
  if (status =? 404)%Z then FileNotFoundError missing else error_status what status.

Definition content_length (r : http_response) : StoreM Z :=
  match rs_content_length r with
  | None => mret 0%Z
  | Some s => match py_int s with Some n => mret n | None => raise (InvalidValue (int_text s)) end
  end.

Definition stream (r : http_response) : StoreM (list (list Z) * string * Z) :=
  n ← content_length r;
  mret (rs_chunks r, default "application/octet-stream" (rs_content_type r), n).

Section HttpShare.
Variable c : HttpConfig.

Definition _get_auth : option (string * string) :=
  if String.eqb (auth_method c) "basic" then
    match username c with
    | Some u => if String.eqb u "" then None else Some (u, default "" (password c))
    | None => None
    end
  else None.

Definition _get_headers : list (string * string) :=
  if String.eqb (auth_method c) "bearer" then
    match password c with
    | Some p => if String.eqb p "" then [] else [("Authorization", "Bearer " ++ p)]
    | None => []
    end
  else [].

Definition http_request_of (m : http_method) (url : string) : http_request :=
  {| rq_method := m; rq_url := url; rq_auth := _get_auth; rq_headers := _get_headers; rq_data := None |}.

Definition http_test_connection : StoreM (bool * string) :=
  o ← send (http_request_of HEAD (base_url c));
  mret match o with
       | Answered r =>
           if (rs_status r <? 400)%Z then (true, "HTTP endpoint reachable (status " ++ pretty (rs_status r) ++ ")")
           else (false, "HTTP endpoint returned status " ++ pretty (rs_status r))
       | ClientError text => (false, "HTTP connection failed: " ++ text)
       | OtherFailure text => (false, "Connection test failed: " ++ text)
       end.

Definition http_list_files (p : string) : StoreM (list FileInfo) :=
  no_traversal p;;
  let url := base_url c ++ p in
  o ← send (http_request_of GET (if endswith "/" url then url else url ++ "/"));
  r ← answered "HTTP request" (missing_or ("Path not found: " ++ p) "HTTP error: ") o;
  mret (_parse_directory_listing (rs_text r) p).

Definition http_download_file (p : string) : StoreM (list (list Z) * string * Z) :=
  no_traversal p;;
  o ← send (http_request_of GET (base_url c ++ p));
  r ← answered "HTTP download" (missing_or ("File not found: " ++ p) "HTTP error: ") o;
  stream r.

Definition read_only {A} : StoreM A := raise (InvalidValue "HTTP backends are read-only").

Definition http_service : BackendService :=
  {| test_connection := http_test_connection; get_stats := mret no_stats; mount := mret None; unmount := mret tt; supports_write := false;
     list_files := http_list_files; download_file := http_download_file; upload_file _ _ _ := read_only; delete_files _ := read_only;
     create_folder _ := read_only; move_file _ _ := read_only |}.
End HttpShare.

(** ** S3: the requests carry no credentials *)

Section S3Share.
Variable c : S3Config.

Definition s3_url (key : string) : string := endpoint c ++ "/" ++ bucket c ++ "/" ++ key.
Definition s3_request (m : http_method) (url : string) (headers : list (string * string)) (data : option (list Z)) : http_request :=
  {| rq_method := m; rq_url := url; rq_auth := None; rq_headers := headers; rq_data := data |}.

Definition s3_test_connection : StoreM (bool * string) :=
  o ← send (s3_request GET (endpoint c ++ "/" ++ bucket c ++ "?list-type=2&max-keys=1") [] None);
  match o with
  | Answered r => mret (if (rs_status r <? 400)%Z then (true, "S3 bucket accessible") else (false, "S3 error: " ++ pretty (rs_status r)))
  | ClientError text => mret (false, "S3 connection failed: " ++ text)
  | OtherFailure _ => raise OtherException
  end.

Definition s3_prefix (p : string) : string :=
  let prefix := lstrip "/" p in
  let prefix := if negb (String.eqb prefix "") && negb (endswith "/" prefix) then prefix ++ "/" else prefix in
  if String.eqb prefix "/" then "" else prefix.

Definition s3_list_files (p : string) : StoreM (list FileInfo) :=
  no_traversal p;;
  o ← send (s3_request GET (endpoint c ++ "/" ++ bucket c ++ "?list-type=2&prefix=" ++ s3_prefix p ++ "&delimiter=/") [] None);
  r ← answered "S3 request" (error_status "S3 error: ") o;
  lift_result (_parse_s3_listing (rs_text r)).

Definition s3_download_file (p : string) : StoreM (list (list Z) * string * Z) :=
  no_traversal p;;
  o ← send (s3_request GET (s3_url (lstrip "/" p)) [] None);
  r ← answered "S3 download" (missing_or ("File not found: " ++ p) "S3 error: ") o;
  stream r.

Definition s3_key (p filename : string) : string :=
  let base := rstrip "/" (lstrip "/" p) in
  if String.eqb base "" then filename else base ++ "/" ++ filename.

Definition s3_upload_file (p filename : string) (content : list (list Z)) : StoreM FileInfo :=
  if str_contains ".." p || str_contains ".." filename then raise (InvalidValue "Path traversal not allowed")
  else
    let key := s3_key p filename in
    let data := concat content in
    o ← send (s3_request PUT (s3_url key) [] (Some data));
    answered "S3 upload" (error_status "S3 upload error: ") o;;
    mret (file_info filename ("/" ++ key) (Z.of_nat (length data))).

Fixpoint s3_delete_loop (paths : list string) (deleted : Z) : StoreM Z :=
  match paths with
  | [] => mret deleted
  | p :: paths =>
      if str_contains ".." p then s3_delete_loop paths deleted
      else
        o ← send (s3_request DELETE (s3_url (lstrip "/" p)) [] None);
        match o with
        | Answered r => s3_delete_loop paths (if (rs_status r <? 400)%Z then deleted + 1 else deleted)%Z
        | ClientError _ => s3_delete_loop paths deleted
        | OtherFailure _ => raise OtherException
        end
  end.

Definition s3_create_folder (p : string) : StoreM FileInfo :=
  no_traversal p;;
  o ← send (s3_request PUT (s3_url (rstrip "/" (lstrip "/" p) ++ "/")) [] (Some []));
  answered "S3 create folder" (error_status "S3 create folder error: ") o;;
  mret (directory_info (last_part (rstrip "/" p)) p 0).

(** The answer to the deletion of the source is not looked at. *)
Definition s3_move_file (source destination : string) : StoreM FileInfo :=
  if str_contains ".." source || str_contains ".." destination then raise (InvalidValue "Path traversal not allowed")
  else
    let src_key := lstrip "/" source in
    let dst_key := lstrip "/" destination in
    o ← send (s3_request PUT (s3_url dst_key) [("x-amz-copy-source", "/" ++ bucket c ++ "/" ++ src_key)] None);
    match o with
    | Answered r => if (400 <=? rs_status r)%Z then raise (error_status "S3 copy error: " (rs_status r)) else mret tt
    | ClientError text => raise (InvalidValue ("S3 move failed: " ++ text))
    | OtherFailure _ => raise OtherException
    end;;
    o ← send (s3_request DELETE (s3_url src_key) [] None);
    match o with
    | Answered _ => mret (plain_info (last_part (rstrip "/" destination)) destination false None)
    | ClientError text => raise (InvalidValue ("S3 move failed: " ++ text))
    | OtherFailure _ => raise OtherException
    end.

Definition s3_service : BackendService :=
  {| test_connection := s3_test_connection; get_stats := mret no_stats; mount := mret None; unmount := mret tt; supports_write := true;
     list_files := s3_list_files; download_file := s3_download_file; upload_file := s3_upload_file; delete_files l := s3_delete_loop l 0;
     create_folder := s3_create_folder; move_file := s3_move_file |}.
End S3Share.

(** ** iSCSI, and the factory *)

Definition not_a_browser {A} (what : string) : StoreM A := raise (InvalidValue ("iSCSI is block storage - file " ++ what ++ " not applicable")).

Definition iscsi_service : BackendService :=
  {| test_connection := mret (false, "iSCSI backend not yet implemented"); get_stats := mret no_stats; mount := mret None; unmount := mret tt;
     supports_write := false; list_files _ := not_a_browser "browsing"; download_file _ := not_a_browser "operations";
     upload_file _ _ _ := not_a_browser "operations"; delete_files _ := not_a_browser "operations"; create_folder _ := not_a_browser "operations";
     move_file _ _ := not_a_browser "operations" |}.

(** A constructor reads the keys that it needs from the configuration, whichever schema it was validated by. *)
Definition get_backend_service (backend_id backend_type : string) (c : config) : result server_error BackendService :=
  if String.eqb backend_type "nfs" then match c with Nfs c => Ok (nfs_service backend_id c) | _ => Err KeyError end
  else if String.eqb backend_type "http" then match c with Http c => Ok (http_service c) | _ => Err KeyError end
  else if String.eqb backend_type "s3" then match c with S3 c => Ok (s3_service c) | _ => Err KeyError end
  else if String.eqb backend_type "iscsi" then Ok iscsi_service
  else Err ValueError.
End Services.

(** ** Well-formed stores *)

Section Laws.
Context {T : Type}.
Implicit Types w : Stores T.

Abbreviation StoreM A := (M (Stores T) storage_error A).

Definition trees_ok w : Prop := map_Forall (fun _ t => tree_ok t) (exports w) /\ map_Forall (fun _ t => tree_ok t) (locals w).

(** What the server exports as [source]. *)
Definition exported (source : string) w : tree := default root_only (exports w !! source).

Lemma root_only_ok : tree_ok root_only.
Proof. intros p e. unfold root_only. rewrite lookup_singleton_Some. by intros [<- <-]. Qed.

Lemma exported_ok source w : trees_ok w -> tree_ok (exported source w).
Proof. intros [He _]. unfold exported. destruct (exports w !! source) eqn:E; [by apply (He source)|apply root_only_ok]. Qed.

Lemma share_ok id w : trees_ok w -> tree_ok (share id w).
Proof.
  intros Hw. unfold share. destruct (mounted w !! id) as [s|]; [by apply exported_ok|]. destruct Hw as [_ Hl].
  destruct (locals w !! id) eqn:E; [by apply (Hl id)|apply tree_ok_empty].
Qed.

(** A change of the stores that leaves the entries of every export alone, those of [X] apart, and unmounts nothing. *)
Definition spares (X : path -> Prop) w w' : Prop :=
  trees_ok w' /\ (forall source k e, exported source w !! k = Some e -> ~ X k -> exported source w' !! k = Some e)
  /\ (forall id source, mounted w !! id = Some source -> mounted w' !! id = Some source).

Lemma spares_refl X w : trees_ok w -> spares X w w.
Proof. intros Hw. by split. Qed.

Lemma spares_trans X w1 w2 w3 : spares X w1 w2 -> spares X w2 w3 -> spares X w1 w3.
Proof. intros (_ & H1 & M1) (H & H2 & M2). repeat split; [apply H|apply H|naive_solver..]. Qed.

Definition touches {A} (X : path -> Prop) (m : StoreM A) : Prop := forall w, trees_ok w -> spares X w (m w).2.

Lemma touches_ret {A} X (a : A) : touches X (mret a).
Proof. intros w Hw. by apply spares_refl. Qed.
Lemma touches_raise {A} X e : touches X (raise e : StoreM A).
Proof. intros w Hw. by apply spares_refl. Qed.
Lemma touches_get X : touches X get_state.
Proof. intros w Hw. by apply spares_refl. Qed.
Lemma touches_lift {A} X (r : result storage_error A) : touches X (lift_result r).
Proof. intros w Hw. by apply spares_refl. Qed.
Lemma touches_bind {A B} X (m : StoreM A) (f : A -> StoreM B) : touches X m -> (forall a, touches X (f a)) -> touches X (m ≫= f).
Proof.
  intros Hm Hf w Hw. specialize (Hm w Hw). unfold mbind, M_bind. destruct (m w) as [[a|e] w']; [|done]. cbn in Hm.
  eapply spares_trans; [exact Hm|]. apply Hf. apply Hm.
Qed.

Lemma spares_outside X w t : trees_ok w -> spares X w (w <| outside := t |>).
Proof. intros [He Hl]. by repeat split. Qed.

Lemma touches_outside {A} X (f : T -> A * T) : touches X (on_outside f).
Proof. intros w Hw. unfold on_outside. destruct (f (outside w)) as [a t]. by apply spares_outside. Qed.

(** A tree with the entries outside [X] that it had. *)
Definition tree_spares (X : path -> Prop) (t t' : tree) : Prop := tree_ok t' /\ forall k e, t !! k = Some e -> ~ X k -> t' !! k = Some e.

Lemma set_share_spares id X w t : trees_ok w -> tree_spares X (share id w) t -> spares X w (set_share id t w).2.
Proof.
  intros [He Hl] [Ht Hk]. unfold set_share, modify. unfold share in Hk. destruct (mounted w !! id) as [s|] eqn:Em; cbn [snd]; repeat split.
  - by apply map_Forall_insert_2.
  - done.
  - intros source k e H HX. unfold exported in *. cbn. destruct (decide (source = s)) as [->|Hne].
    + rewrite lookup_insert_eq. by apply Hk.
    + by rewrite lookup_insert_ne.
  - done.
  - done.
  - by apply map_Forall_insert_2.
  - done.
  - done.
Qed.

Lemma touches_mount_point id X : touches X (make_mount_point id).
Proof.
  intros w Hw. unfold make_mount_point, modify. cbn [snd]. destruct (is_mounted id w); [by apply spares_refl|].
  destruct (exists_at [] (share id w)); [by apply spares_refl|]. destruct Hw as [He Hl]. repeat split; try done. cbn.
  by apply map_Forall_insert_2; [apply root_only_ok|].
Qed.

(** What is not mounted may be mounted. *)
Lemma touches_mounting X w id source : trees_ok w -> is_mounted id w = false -> spares X w (w <| mounted ::= <[id := source]> |>).
Proof.
  intros [He Hl] Hm. repeat split; try done. intros i s Hi. cbn. rewrite lookup_insert_ne; [done|]. intros ->.
  unfold is_mounted in Hm. apply bool_decide_eq_false in Hm. apply Hm. by rewrite Hi.
Qed.

End Laws.

(** Take what an operation touches apart into its steps. *)
Ltac touches_steps :=
  repeat match goal with
    | |- touches _ (_ ≫= _) => apply touches_bind; [|intros ?]
    | |- touches _ get_state => apply touches_get
    | |- touches _ (mret _) => apply touches_ret
    | |- touches _ (raise _) => apply touches_raise
    | |- touches _ (lift_result _) => apply touches_lift
    | |- touches _ (validated _) => apply touches_lift
    | |- touches _ (get_share _) => unfold get_share
    | |- touches _ (on_outside _) => apply touches_outside
    | |- touches _ (make_mount_point _) => apply touches_mount_point
    | |- touches _ (match ?x with _ => _ end) => destruct x eqn:?
    | |- touches _ (let _ := _ in _) => cbv zeta
    end.

Section Operations.
Context {T : Type}.
Implicit Types w : Stores T.

Section Programs.
Context
  (http : http_request -> T -> http_outcome * T)
  (mount_command : string -> option string -> string -> T -> bool * T)
  (umount_command : string -> T -> bool * T)
  (showmount : string -> T -> command_outcome * T)
  (disk_usage : string -> T -> option (Z * Z) * T)
  (guess_type : string -> option string)
  (os_text int_text : string -> string)
  (id : string) (c : NfsConfig).

Definition nothing : path -> Prop := fun _ => False.

Lemma touches_nfs_mount X : touches X (nfs_mount mount_command id c).
Proof.
  unfold nfs_mount. apply touches_bind; [apply touches_mount_point|]. intros _ w Hw. unfold_M. destruct (is_mounted id w) eqn:Em; [by apply spares_refl|].
  unfold on_outside. destruct (mount_command _ _ _ _) as [[] t]; cbn [snd]; [|by apply spares_outside].
  apply (spares_trans _ _ (w <| outside := t |>)); [by apply spares_outside|]. by apply touches_mounting; [apply (spares_outside X w t)|].
Qed.

Lemma touches_ensure X : touches X (ensure_mounted mount_command id c).
Proof. unfold ensure_mounted. touches_steps. apply touches_nfs_mount. Qed.

Lemma touches_stats X : touches X (nfs_get_stats mount_command disk_usage id c).
Proof. unfold nfs_get_stats. touches_steps. apply touches_nfs_mount. Qed.

Lemma touches_list X p : touches X (nfs_list_files mount_command guess_type id c p).
Proof. unfold nfs_list_files. touches_steps; apply touches_ensure. Qed.

Lemma touches_download X p : touches X (nfs_download_file mount_command guess_type id c p).
Proof. unfold nfs_download_file. touches_steps; apply touches_ensure. Qed.

(** An operation on the tree touches what it touches there. *)
Lemma touches_on_share X q f : (forall t t', tree_ok t -> f t = Ok t' -> tree_spares X t t') -> touches (T := T) X (on_share os_text id q f).
Proof.
  intros Hf w Hw. unfold on_share, get_share. unfold_M. destruct (f (share id w)) as [t|[]] eqn:E; [|by apply spares_refl..].
  apply set_share_spares; [done|]. apply (Hf (share id w)); [by apply share_ok|done].
Qed.

Lemma touches_upload p filename content (X : path -> Prop) :
  (forall q, _validate_path p = Ok q -> X (q ++ parts (path_of filename))%list) ->
  touches X (nfs_upload_file mount_command guess_type os_text id c p filename content).
Proof.
  intros HX. unfold nfs_upload_file. apply touches_bind; [apply touches_ensure|]. intros _ w Hw. unfold validated.
  destruct (_validate_path p) as [q|e]; [|by apply spares_refl]. specialize (HX q eq_refl). unfold mbind at 1, M_bind, lift_result. revert w Hw.
  match goal with |- forall w, _ -> spares X w (?m w).2 => change (touches X m) end. touches_steps. apply touches_on_share.
  intros t t' Ht Hw. split; [by apply (write_file_ok _ _ _ _ Ht Hw)|]. intros k e Hk Hn. rewrite (write_file_other _ _ _ _ _ Hw); [done|]. by intros ->.
Qed.

Lemma touches_folder p : touches nothing (nfs_create_folder mount_command os_text id c p).
Proof.
  unfold nfs_create_folder. touches_steps; [apply touches_ensure|]. apply touches_on_share.
  intros t t' Ht Hm. split; [by apply (mkdir_parents_ok _ _ _ Ht Hm)|]. intros k e Hk _. by apply (mkdir_parents_keeps _ _ _ _ _ Hm).
Qed.

Lemma touches_remove (X : path -> Prop) q w : trees_ok w -> exists_at q (share id w) = true -> (forall k, below q k = true -> X k) ->
  spares X w (remove_entry id q w).2.
Proof.
  intros Hw Hq HX. unfold remove_entry. rewrite (bind_Ok _ _ _ w w) by done. pose proof (share_ok id w Hw) as Ht. destruct (is_dir q (share id w)) eqn:Hd.
  - destruct (rmtree (is_mounted id w) q (share id w)) as [r t] eqn:Er. assert (tree_spares X (share id w) t) as Hs.
    { pose proof (rmtree_ok (is_mounted id w) q _ Ht) as H. rewrite Er in H. split; [done|]. intros k e Hk Hn.
      assert (below q k = false) as Hb by (apply not_true_is_false; intros H'; by apply Hn, HX).
      pose proof (rmtree_other (is_mounted id w) q (share id w) k Hb) as H'. rewrite Er in H'. cbn in H'. by rewrite H'. }
    pose proof (set_share_spares id X w t Hw Hs) as H. unfold mbind, M_bind. destruct (set_share id t w) as [[[]|e] w'] eqn:E; [|done]. by destruct r.
  - apply set_share_spares; [done|]. unfold exists_at in Hq. apply bool_decide_eq_true in Hq as [e He].
    destruct e as [f|]; [|unfold is_dir in Hd; rewrite He in Hd; by apply bool_decide_eq_false in Hd].
    split; [by apply (unlink_ok q f)|]. intros k e Hk Hn. unfold unlink. rewrite lookup_delete_ne; [done|]. intros ->. apply Hn, HX, below_refl.
Qed.

Lemma touches_delete (X : path -> Prop) paths :
  (forall p q k, p ∈ paths -> _validate_path p = Ok q -> below q k = true -> X k) ->
  touches X (nfs_delete_files mount_command id c paths).
Proof.
  intros HX. unfold nfs_delete_files. apply touches_bind; [apply touches_ensure|]. intros _. generalize 0%Z. induction paths as [|p paths IH]; intros n.
  - apply touches_ret.
  - cbn [delete_loop]. assert (forall p q k, p ∈ paths -> _validate_path p = Ok q -> below q k = true -> X k) as HX'.
    { intros p' q' k Hp. apply HX. by right. }
    specialize (IH HX'). intros w Hw. unfold validated. destruct (_validate_path p) as [q|e] eqn:Eq; [|by apply spares_refl].
    rewrite (bind_Ok _ _ _ q w) by done. rewrite (bind_Ok _ _ _ (share id w) w) by done. destruct (exists_at q (share id w)) eqn:He; [|by apply IH].
    pose proof (touches_remove X q w Hw He (fun k => HX p q k (list_elem_of_here _ _) Eq)) as H. unfold mbind, M_bind.
    destruct (remove_entry id q w) as [[[]|e] w'] eqn:E; [|done]. cbn in H. eapply spares_trans; [exact H|]. by apply IH, H.
Qed.

Lemma touches_move (X : path -> Prop) s d : (forall q k, _validate_path s = Ok q -> below q k = true -> X k) ->
  touches X (nfs_move_file mount_command guess_type os_text id c s d).
Proof.
  intros HX. unfold nfs_move_file. apply touches_bind; [apply touches_ensure|]. intros _ w Hw. unfold validated.
  destruct (_validate_path s) as [p|e] eqn:Es; [|by apply spares_refl]. rewrite (bind_Ok _ _ _ p w) by done.
  destruct (_validate_path d) as [q|e] eqn:Ed; [|by apply spares_refl]. rewrite (bind_Ok _ _ _ q w) by done. rewrite (bind_Ok _ _ _ (share id w) w) by done.
  destruct (exists_at p (share id w)) eqn:Ep; cbn [negb]; [|by apply spares_refl]. destruct (exists_at q (share id w)) eqn:Eq; [by apply spares_refl|].
  unfold exists_at in Ep, Eq. apply bool_decide_eq_true in Ep. apply bool_decide_eq_false in Eq.
  assert (share id w !! q = None) as Hq by (destruct (share id w !! q); [by destruct Eq|done]).
  assert (spares X w (on_share os_text id q (Shares.move p q) w).2) as H.
  { unfold on_share, get_share. unfold_M. pose proof (share_ok id w Hw) as Ht.
    destruct (Shares.move p q (share id w)) as [t|[]] eqn:Em; [|by apply spares_refl..]. apply set_share_spares; [done|]. split; [by apply (move_ok p q _ _ Ht)|].
    intros k e Hk Hn. apply (move_other p q _ _ _ _ Ht Ep Hq Em Hk). apply not_true_is_false. intros Hb. by apply Hn, (HX p). }
  unfold mbind at 1, M_bind. destruct (on_share _ _ _ _ _) as [[[]|e] w']; [|done]. eapply spares_trans; [exact H|].
  cbn [snd]. match goal with |- spares X w' (?m w').2 => cut (touches X m); [intros Ht; by apply Ht, H|] end. touches_steps.
Qed.

(** *** What the operations answer *)

Lemma share_mounted source w : mounted w !! id = Some source -> share id w = exported source w.
Proof. intros E. unfold share, exported. by rewrite E. Qed.

Lemma ensure_mounted_done source w : mounted w !! id = Some source -> ensure_mounted mount_command id c w = (Ok tt, w).
Proof. intros E. unfold ensure_mounted. unfold_M. unfold is_mounted. by rewrite bool_decide_true by by rewrite E. Qed.

Lemma on_share_Ok q f w a w' : on_share os_text id q f w = (Ok a, w') -> exists t, f (share id w) = Ok t /\ w' = (set_share id t w).2.
Proof. unfold on_share, get_share. unfold_M. destruct (f (share id w)) as [t|[]] eqn:E; [|done..]. intros [= _ <-]. by exists t. Qed.

Lemma share_set t w : share id (set_share id t w).2 = t.
Proof. unfold share, set_share, modify. destruct (mounted w !! id) as [s|] eqn:E; cbn; rewrite E; by rewrite lookup_insert_eq. Qed.

(** After an upload the file is there. *)
Lemma upload_Ok p filename content w info w' : nfs_upload_file mount_command guess_type os_text id c p filename content w = (Ok info, w') ->
  exists q, _validate_path p = Ok q /\ share id w' !! (q ++ parts (path_of filename))%list = Some (File (concat content))
    /\ fi_path info = rel_path (q ++ parts (path_of filename)) /\ fi_size info = Some (Z.of_nat (length (concat content))).
Proof.
  unfold nfs_upload_file. step_M a s1 H1. step_M q s2 H2. injection H2 as Hq <-. step_M t s3 H3. injection H3 as <- <-.
  destruct (negb (exists_at _ _)); [done|]. destruct (_ || _); [done|]. destruct (negb (lacks _ _)); [done|]. cbv zeta.
  step_M b s4 H4. intros [= <- <-]. apply on_share_Ok in H4 as (t & Ht & ->). exists q. split; [done|]. split; [|done].
  rewrite share_set. by apply (write_file_written _ _ (share id s1)).
Qed.

(** A file is downloaded in chunks of 8192 bytes. *)
Lemma download_file_of source w p q content : mounted w !! id = Some source -> _validate_path p = Ok q -> exported source w !! q = Some (File content) ->
  nfs_download_file mount_command guess_type id c p w =
    (Ok (Tftp.read_chunks 8192 content, default "application/octet-stream" (guess_type (name_of q)), Z.of_nat (length content)), w).
Proof.
  intros Hm Hp Hq. unfold nfs_download_file. rewrite (bind_Ok _ _ _ _ _ (ensure_mounted_done source w Hm)). unfold validated. rewrite Hp.
  rewrite (bind_Ok _ _ _ q w) by done. rewrite (bind_Ok _ _ _ (share id w) w) by done. by rewrite (share_mounted source w Hm), Hq.
Qed.

Lemma insert_info_perm f l : insert_info f l ≡ₚ f :: l.
Proof.
  induction l as [|g l IH]; cbn; [done|]. destruct (key_leb f g); [done|]. rewrite IH. apply Permutation_swap.
Qed.
Lemma sorted_infos_perm l : sorted_infos l ≡ₚ l.
Proof. induction l as [|f l IH]; cbn; [done|]. by rewrite insert_info_perm, IH. Qed.

Lemma key_leb_total f g : key_leb f g = false -> key_leb g f = true.
Proof.
  unfold key_leb. set (a := String.eqb (fi_type f) "directory"). set (b := String.eqb (fi_type g) "directory").
  destruct a, b; cbn; try done; intros H%str_leb_false; apply str_leb_spec; by right.
Qed.

Lemma insert_info_sorted f l : Sorted (fun x y => key_leb x y = true) l -> Sorted (fun x y => key_leb x y = true) (insert_info f l).
Proof.
  induction 1 as [|g l Hl IH Hd]; cbn; [by repeat constructor|]. destruct (key_leb f g) eqn:E; [by repeat constructor|].
  apply key_leb_total in E. constructor; [done|]. destruct l as [|h l]; cbn in *; [by constructor|].
  destruct (key_leb f h); constructor; [done|]. by inversion Hd.
Qed.
Lemma sorted_infos_sorted l : Sorted (fun x y => key_leb x y = true) (sorted_infos l).
Proof. induction l; cbn; [constructor|by apply insert_info_sorted]. Qed.

(** A listing of a directory on the share has exactly its entries, directories first and then by name. *)
Lemma listing_of source w p q : mounted w !! id = Some source -> _validate_path p = Ok q -> exported source w !! q = Some Directory ->
  exists l, nfs_list_files mount_command guess_type id c p w = (Ok l, w) /\ Sorted (fun x y => key_leb x y = true) l
    /\ forall f, f ∈ l <-> exists name e, exported source w !! (q ++ [name])%list = Some e /\ f = info_of guess_type q (exported source w) (name, e).
Proof.
  intros Hm Hp Hq. set (t := exported source w) in *. exists (sorted_infos (info_of guess_type q t <$> children q t)). split; [|split].
  - unfold nfs_list_files. rewrite (bind_Ok _ _ _ _ _ (ensure_mounted_done source w Hm)). unfold validated. rewrite Hp.
    rewrite (bind_Ok _ _ _ q w) by done. rewrite (bind_Ok _ _ _ (share id w) w) by done. rewrite (share_mounted source w Hm). fold t.
    unfold exists_at, is_dir. by rewrite !bool_decide_true by (by rewrite Hq).
  - apply sorted_infos_sorted.
  - intros f. rewrite sorted_infos_perm, list_elem_of_fmap. split.
    + intros ([name e] & -> & H%elem_of_children). by exists name, e.
    + intros (name & e & H & ->). exists (name, e). split; [done|]. by apply elem_of_children.
Qed.
End Programs.

(** ** Paths stay inside the mount point *)

Lemma startswith_cons c d s : startswith (String c "") (String d s) = Ascii.eqb c d.
Proof. unfold startswith. cbn. destruct (ascii_dec c d) as [->|Hne]; [rewrite Ascii.eqb_refl; by destruct s|]. by rewrite (proj2 (Ascii.eqb_neq c d) Hne). Qed.

Lemma split_on_forall c s : Forall (fun x => lacks c x = true) (split_on c s).
Proof.
  induction s as [|d s IH]; cbn; [by repeat constructor|]. destruct (Ascii.eqb c d) eqn:E; [by constructor|].
  destruct (split_on c s) as [|w ws]; [by repeat constructor; cbn; rewrite E|]. apply Forall_cons in IH as [Hw Hws].
  constructor; [|done]. unfold lacks in *. cbn. by rewrite E.
Qed.

(** A name of the file system. *)
Definition plain (n : string) : Prop := n ≠ "" /\ n ≠ "." /\ str_contains ".." n = false /\ lacks "/" n = true /\ lacks NUL n = true.

Lemma str_contains_lstrip p c s : str_contains p (lstrip c s) = true -> str_contains p s = true.
Proof. destruct (lstrip_suffix c s) as [a E]. intros H. rewrite E, <- (str_app_nil_r (lstrip c s)). by apply str_contains_infix. Qed.

Lemma lacks_lstrip d c s : lacks d s = true -> lacks d (lstrip c s) = true.
Proof. destruct (lstrip_suffix c s) as [a E]. rewrite E at 1. rewrite lacks_app. by intros [_ H]%andb_true_iff. Qed.

Lemma parts_plain s : str_contains ".." s = false -> lacks NUL s = true -> Forall plain (parts (path_of s)).
Proof.
  intros Hs H0. cbn. apply Forall_forall. intros n Hn. change (n ∈ sql_select (fun x => negb (String.eqb x "") && negb (String.eqb x ".")) (split_on "/" s)) in Hn.
  apply elem_of_sql_select in Hn as [Hn [H1%negb_true_iff H2%negb_true_iff]%andb_true_iff]. pose proof (split_on_forall "/" s) as Hf.
  pose proof (proj1 (Forall_forall _ _) Hf _ Hn) as Hl. apply split_contains, str_contains_spec in Hn as (a & b & ->). repeat split.
  - by apply String.eqb_neq.
  - by apply String.eqb_neq.
  - apply not_true_is_false. intros Hc. apply not_true_iff_false in Hs. apply Hs. by apply str_contains_infix.
  - done.
  - rewrite !lacks_app in H0. by apply andb_true_iff in H0 as [_ [H0 _]%andb_true_iff].
Qed.

Lemma validated_plain p q : _validate_path p = Ok q -> Forall plain q.
Proof.
  unfold _validate_path. destruct (str_contains ".." p) eqn:Hd; [done|]. destruct (lacks NUL p) eqn:H0; [|done]. intros [= <-]. apply parts_plain.
  - apply not_true_is_false. intros H%str_contains_lstrip. congruence.
  - by apply lacks_lstrip.
Qed.

Lemma dots_app a b : str_contains ".." (a ++ String "/" b) = str_contains ".." a || str_contains ".." b.
Proof.
  induction a as [|c a IH]; [done|]. cbn [String.append str_contains]. rewrite IH, orb_assoc. f_equal. f_equal.
  unfold startswith. destruct a as [|d a]; cbn [String.prefix String.append].
  - by destruct (ascii_dec _ c).
  - destruct (ascii_dec _ c); [|done]. destruct (ascii_dec _ d); [|done]. by destruct a.
Qed.

Lemma join_plain q : Forall plain q -> str_contains ".." (PyStr.join "/" q) = false /\ lacks NUL (PyStr.join "/" q) = true.
Proof.
  induction 1 as [|n q Hn _ [IH1 IH2]]; [done|]. destruct Hn as (_ & _ & Hd & _ & H0). destruct q as [|m q]; [done|].
  change (PyStr.join "/" (n :: m :: q)) with (n ++ String "/" (PyStr.join "/" (m :: q))). by rewrite dots_app, Hd, IH1, lacks_app, H0.
Qed.

Lemma parts_join q : Forall plain q -> parts (path_of (PyStr.join "/" q)) = q.
Proof.
  intros Hq. cbn [parts path_of]. destruct q as [|n q]; [done|]. rewrite split_on_join; [|done|].
  - induction Hq as [|m q' (H1 & H2 & _) _ IH]; [done|]. cbn [List.filter]. rewrite (proj2 (String.eqb_neq m "") H1), (proj2 (String.eqb_neq m ".") H2).
    cbn. by rewrite IH.
  - eapply Forall_impl; [exact Hq|]. by intros m (_ & _ & _ & H & _).
Qed.

Lemma lstrip_join q : Forall plain q -> lstrip "/" (PyStr.join "/" q) = PyStr.join "/" q.
Proof.
  intros Hq. destruct Hq as [|n q (H1 & _ & _ & H2 & _) _]; [done|]. destruct n as [|d n]; [done|].
  assert (Ascii.eqb "/" d = false) as Hd by (apply negb_true_iff; exact (proj1 (proj1 (andb_true_iff _ _) H2))).
  destruct q; cbn [PyStr.join String.append lstrip]; by rewrite Hd.
Qed.

(** The path that an answer gives names the file. *)
Lemma rel_path_valid q : Forall plain q -> _validate_path (rel_path q) = Ok q.
Proof.
  intros Hq. destruct (join_plain q Hq) as [Hd H0]. unfold _validate_path, rel_path.
  change ("/" ++ PyStr.join "/" q) with ("" ++ String "/" (PyStr.join "/" q)). rewrite dots_app, Hd. cbn [str_contains orb String.append].
  assert (lacks NUL (String "/" (PyStr.join "/" q)) = true) as -> by exact H0. cbn [negb]. f_equal.
  change (lstrip "/" (String "/" (PyStr.join "/" q))) with (lstrip "/" (PyStr.join "/" q)). by rewrite lstrip_join, parts_join.
Qed.
End Operations.

(** ** What a service promises *)

Section Promises.
Context {T : Type}.

(** The entries that a request names, and may change. *)
Definition uploads (p filename : string) (k : path) : Prop := exists q, _validate_path p = Ok q /\ k = (q ++ parts (path_of filename))%list.
Definition deletes (paths : list string) (k : path) : Prop := exists p q, p ∈ paths /\ _validate_path p = Ok q /\ below q k = true.
Definition moves (source : string) (k : path) : Prop := exists q, _validate_path source = Ok q /\ below q k = true.

(** The laws of the operations: each leaves every entry alone that it does not name, on every share, and only [unmount] unmounts, its own share. *)
Class ServiceLaws (id : string) (s : BackendService (T := T)) : Prop := {
  law_test : touches nothing (test_connection s);
  law_stats : touches nothing (get_stats s);
  law_mount : touches nothing (mount s);
  law_list p : touches nothing (Storage.list_files s p);
  law_download p : touches nothing (Storage.download_file s p);
  law_upload p filename content : touches (uploads p filename) (Storage.upload_file s p filename content);
  law_delete paths : touches (deletes paths) (Storage.delete_files s paths);
  law_folder p : touches nothing (Storage.create_folder s p);
  law_move source destination : touches (moves source) (Storage.move_file s source destination);
  law_unmount w : trees_ok w -> let w' := (unmount s w).2 in
    exports w' = exports w /\ locals w' = locals w /\ forall i, i ≠ id -> mounted w' !! i = mounted w !! i
}.

Context
  (http : http_request -> T -> http_outcome * T)
  (mount_command : string -> option string -> string -> T -> bool * T)
  (umount_command : string -> T -> bool * T)
  (showmount : string -> T -> command_outcome * T)
  (disk_usage : string -> T -> option (Z * Z) * T)
  (guess_type : string -> option string)
  (os_text int_text : string -> string).

#[export] Instance nfs_laws id c : ServiceLaws id (nfs_service mount_command umount_command showmount disk_usage guess_type os_text id c).
Proof.
  constructor; cbn [nfs_service test_connection get_stats mount Storage.list_files Storage.download_file Storage.upload_file Storage.delete_files
    Storage.create_folder Storage.move_file unmount].
  - unfold nfs_test_connection. touches_steps.
  - apply touches_stats.
  - apply touches_nfs_mount.
  - intros p. apply touches_list.
  - intros p. apply touches_download.
  - intros p filename content. apply touches_upload. intros q Hq. by exists q.
  - intros paths. apply touches_delete. intros p q k Hp Hq Hk. by exists p, q.
  - intros p. apply touches_folder.
  - intros s d. apply touches_move. intros q k Hq Hk. by exists q.
  - intros w Hw. unfold nfs_unmount, on_outside. unfold_M. destruct (is_mounted id w); [|done]. destruct (umount_command _ _) as [[] t]; [|done].
    cbn. repeat split. intros i Hi. by rewrite lookup_delete_ne.
Qed.

Lemma touches_send X r : touches X (send http r).
Proof. apply touches_outside. Qed.

Ltac remote_steps := unfold no_traversal, answered, stream, content_length, not_a_browser, read_only in *;
  repeat first [progress touches_steps | match goal with |- touches _ (send _ _) => apply touches_send end].

#[export] Instance http_laws id c : ServiceLaws id (http_service http guess_type int_text c).
Proof.
  constructor; cbn [http_service test_connection get_stats mount Storage.list_files Storage.download_file Storage.upload_file Storage.delete_files
    Storage.create_folder Storage.move_file unmount]; intros; unfold http_test_connection, http_list_files, http_download_file; [remote_steps..|done].
Qed.

#[export] Instance s3_laws id c : ServiceLaws id (s3_service http guess_type int_text c).
Proof.
  constructor; cbn [s3_service test_connection get_stats mount Storage.list_files Storage.download_file Storage.upload_file Storage.delete_files
    Storage.create_folder Storage.move_file unmount]; intros;
    unfold s3_test_connection, s3_list_files, s3_download_file, s3_upload_file, s3_create_folder, s3_move_file; [remote_steps..| |remote_steps|remote_steps|done].
  generalize (deletes paths) as X, 0%Z as n. intros X. induction paths as [|p paths IH]; intros n; cbn [s3_delete_loop]; remote_steps; apply IH.
Qed.

#[export] Instance iscsi_laws id : ServiceLaws id iscsi_service.
Proof.
  constructor; cbn [iscsi_service test_connection get_stats mount Storage.list_files Storage.download_file Storage.upload_file Storage.delete_files
    Storage.create_folder Storage.move_file unmount]; intros; [remote_steps..|done].
Qed.

(** Every service that the factory makes keeps the promises. *)
Lemma service_laws id ty c s :
  get_backend_service http mount_command umount_command showmount disk_usage guess_type os_text int_text id ty c = Ok s -> ServiceLaws id s.
Proof.
  unfold get_backend_service. repeat (destruct (String.eqb _ _); [destruct c; try done; intros [= <-]; apply _|]). done.
Qed.
End Promises.

(** ** Reading a directory's page *)

Section Pages.

Definition shrinks {A} (m : string -> option (A * string)) : Prop := forall s a r, m s = Some (a, r) -> (String.length r < String.length s)%nat.

(** Fuel for every character is enough. *)
Lemma finditer_fuel {A} (m : string -> option (A * string)) : shrinks m ->
  forall n s f1 f2, (String.length s < n)%nat -> (String.length s < f1)%nat -> (String.length s < f2)%nat -> finditer f1 m s = finditer f2 m s.
Proof.
  intros Hm. induction n as [|n IH]; intros s f1 f2 Hn H1 H2; [lia|]. destruct f1 as [|f1], f2 as [|f2]; [lia..|]. cbn [finditer].
  destruct (m s) as [[a r]|] eqn:E.
  - specialize (Hm _ _ _ E). rewrite (IH r f1 f2) by lia. done.
  - destruct s as [|c s]; [done|]. cbn in *. by apply IH; lia.
Qed.

Lemma find_all_match {A} (m : string -> option (A * string)) s a r : shrinks m -> m s = Some (a, r) -> find_all m s = a :: find_all m r.
Proof.
  intros Hm E. unfold find_all at 1. cbn [finditer]. rewrite E. f_equal. specialize (Hm _ _ _ E) as Hl.
  apply (finditer_fuel m Hm (S (String.length r))); lia.
Qed.

Lemma find_all_skip {A} (m : string -> option (A * string)) c s : m (String c s) = None -> find_all m (String c s) = find_all m s.
Proof. intros E. unfold find_all at 1. cbn [finditer]. rewrite E. done. Qed.

Lemma find_all_nil {A} (m : string -> option (A * string)) : m "" = None -> find_all m "" = [].
Proof. unfold find_all. cbn. by intros ->. Qed.

Lemma literal_length p s r : literal p s = Some r -> String.length s = (String.length p + String.length r)%nat.
Proof.
  unfold literal. destruct (startswith p s) eqn:E; [|done]. intros [= <-]. apply startswith_spec in E as [r ->]. by rewrite str_drop_app, str_app_length.
Qed.
Lemma literal_ci_length p s r : literal_ci p s = Some r -> String.length s = (String.length p + String.length r)%nat.
Proof.
  unfold literal_ci. destruct (startswith p (lower s)) eqn:E; [|done]. intros [= <-]. apply startswith_spec in E as [r E].
  apply (f_equal String.length) in E. unfold lower in E. rewrite str_map_length, str_app_length in E. rewrite str_length_drop. lia.
Qed.
Lemma span_length p s : (String.length (span p s).1 + String.length (span p s).2 = String.length s)%nat.
Proof. induction s as [|c s IH]; [done|]. cbn. destruct (p c); [|done]. destruct (span p s); cbn in *. lia. Qed.
Lemma some_of_length p s w r : some_of p s = Some (w, r) -> (String.length r < String.length s)%nat.
Proof.
  unfold some_of. pose proof (span_length p s) as H. destruct (span p s) as [[|c w'] r']; [done|]. intros [= <- <-]. cbn in H. lia.
Qed.

Lemma anchor_shrinks : shrinks anchor.
Proof.
  intros s a r. unfold anchor.
  destruct (literal_ci "<a" s) as [s1|] eqn:E1; [|done]. cbn -[literal literal_ci some_of span].
  destruct (some_of is_space s1) as [[w1 s2]|] eqn:E2; [|done]. cbn -[literal literal_ci some_of span].
  destruct (literal_ci "href=" s2) as [s3|] eqn:E3; [|done]. cbn -[literal literal_ci some_of span].
  destruct (literal _ s3) as [s4|] eqn:E4; [|done]. cbn -[literal literal_ci some_of span].
  destruct (some_of _ s4) as [[href s5]|] eqn:E5; [|done]. cbn -[literal literal_ci some_of span].
  destruct (literal _ s5) as [s6|] eqn:E6; [|done]. cbn -[literal literal_ci some_of span].
  pose proof (span_length (not_char ">") s6) as H. destruct (span _ s6) as [w7 s7]. cbn [fst snd] in H.
  destruct (literal _ s7) as [s8|] eqn:E8; [|done]. cbn -[literal literal_ci some_of span].
  destruct (some_of _ s8) as [[nm s9]|] eqn:E9; [|done]. cbn -[literal literal_ci some_of span].
  destruct (literal_ci _ s9) as [s10|] eqn:E10; [|done]. cbn. intros [= _ <-].
  apply literal_ci_length in E1, E3, E10. apply literal_length in E4, E6, E8. apply some_of_length in E2, E5, E9. cbn in *. lia.
Qed.

(** Text in which no anchor starts, whatever follows. *)
Fixpoint no_anchor (s : string) : bool :=
  match s with
  | EmptyString => true
  | String c r => (if Ascii.eqb c "<" then match r with String d _ => negb (Ascii.eqb (ascii_lower d) "a") | EmptyString => false end else true) && no_anchor r
  end.

Lemma anchor_needs s : startswith "<a" (lower s) = false -> anchor s = None.
Proof. intros H. unfold anchor, literal_ci. by rewrite H. Qed.

Lemma ascii_lower_lt c : Ascii.eqb c "<" = false -> Ascii.eqb (ascii_lower c) "<" = false.
Proof. destruct c as [[] [] [] [] [] [] [] []]; by vm_compute. Qed.

Lemma prefix_two a b c d s : String.prefix (String a (String b "")) (String c (String d s)) = Ascii.eqb a c && Ascii.eqb b d.
Proof.
  cbn [String.prefix]. destruct (ascii_dec a c) as [->|H]; [rewrite Ascii.eqb_refl|by rewrite (proj2 (Ascii.eqb_neq a c) H)].
  destruct (ascii_dec b d) as [->|H]; [rewrite Ascii.eqb_refl; by destruct s|by rewrite (proj2 (Ascii.eqb_neq b d) H)].
Qed.

Lemma find_all_text t s : no_anchor t = true -> find_all anchor (t ++ s) = find_all anchor s.
Proof.
  induction t as [|c t IH]; cbn [String.append no_anchor]; [done|]. intros [Hc Ht]%andb_true_iff. rewrite find_all_skip; [by apply IH|].
  apply anchor_needs. unfold lower. cbn [str_map]. destruct (Ascii.eqb c "<") eqn:E.
  - apply Ascii.eqb_eq in E as ->. destruct t as [|d t]; [done|]. unfold startswith. cbn [String.append str_map]. rewrite prefix_two.
    rewrite Ascii.eqb_sym in Hc. apply negb_true_iff in Hc. by rewrite Hc, andb_false_r.
  - apply ascii_lower_lt in E. unfold startswith. destruct (t ++ s) as [|d r]; cbn [str_map].
    + cbn [String.prefix]. destruct (ascii_dec _ (ascii_lower c)) as [H|]; [by rewrite <- H in E|done].
    + rewrite prefix_two, Ascii.eqb_sym, E. done.
Qed.

(** An anchor as servers write it. *)
Definition anchor_text (href name : string) : string := "<a href=" ++ String quote (href ++ String quote (">" ++ name ++ "</a>")).

Lemma some_of_stop p w c r : w ≠ "" -> str_forall p w = true -> p c = false -> some_of p (w ++ String c r) = Some (w, String c r).
Proof. intros Hw H1 H2. unfold some_of. rewrite span_stop by done. by destruct w. Qed.

Lemma literal_app p s : literal p (p ++ s) = Some s.
Proof. unfold literal. by rewrite startswith_app, str_drop_app. Qed.
Lemma literal_ci_app p s : lower p = p -> literal_ci p (p ++ s) = Some s.
Proof. intros E. unfold literal_ci. by rewrite lower_app, E, startswith_app, str_drop_app. Qed.

Lemma anchor_of href name s : href ≠ "" -> lacks quote href = true -> name ≠ "" -> lacks "<" name = true ->
  anchor (anchor_text href name ++ s) = Some ((href, name), s).
Proof.
  intros H1 H2 H3 H4. unfold anchor_text. rewrite str_app_assoc. cbn [String.append]. rewrite !str_app_assoc. cbn [String.append]. rewrite !str_app_assoc.
  unfold anchor. set (rest := href ++ _).
  change (literal_ci "<a" _) with (Some (String " " (String "h" (String "r" (String "e" (String "f" (String "=" (String quote rest)))))))). cbn [mbind option_bind].
  change (some_of is_space _) with (Some (" ", String "h" (String "r" (String "e" (String "f" (String "=" (String quote rest))))))). cbn [mbind option_bind].
  change (literal_ci "href=" _) with (Some (String quote rest)). cbn [mbind option_bind].
  change (literal (String quote "") (String quote rest)) with (literal (String quote "") (String quote "" ++ rest)). rewrite literal_app. cbn [mbind option_bind]. unfold rest.
  rewrite some_of_stop; [|done|done|done]. cbn [mbind option_bind].
  change (String quote (String ">" (name ++ "</a>" ++ s))) with (String quote "" ++ ">" ++ name ++ "</a>" ++ s). rewrite literal_app. cbn [mbind option_bind].
  change (span (not_char ">") (">" ++ name ++ "</a>" ++ s)) with ("", ">" ++ name ++ "</a>" ++ s). cbv iota beta.
  rewrite literal_app. cbn [mbind option_bind]. change (name ++ "</a>" ++ s) with (name ++ String "<" ("/a>" ++ s)). cbn [mbind option_bind].
  rewrite some_of_stop; [|done|done|done]. cbn [mbind option_bind].
  change (String "<" ("/a>" ++ s)) with ("</a>" ++ s). by rewrite literal_ci_app.
Qed.

(** A page: some text, then for each entry an anchor and the text after it. *)
Fixpoint page (rows : list (string * string * string)) : string :=
  match rows with
  | [] => ""
  | (href, name, tail) :: rows => anchor_text href name ++ tail ++ page rows
  end.

Definition row_ok (row : string * string * string) : Prop :=
  let '(href, name, tail) := row in
  href ≠ "" /\ lacks quote href = true /\ name ≠ "" /\ lacks "<" name = true /\ no_anchor tail = true.

Lemma find_all_page head rows : no_anchor head = true -> Forall row_ok rows -> find_all anchor (head ++ page rows) = fst <$> rows.
Proof.
  intros Hh Hr. rewrite find_all_text by done. induction Hr as [|[[href name] tail] rows (H1 & H2 & H3 & H4 & H5) _ IH]; [done|]. cbn [page].
  rewrite (find_all_match _ _ _ _ anchor_shrinks (anchor_of href name _ H1 H2 H3 H4)). by rewrite find_all_text, IH.
Qed.

(** A file or a directory as such a page shows it: the name of a directory with a slash. *)
Record entry_shown := { e_name : string; e_dir : bool; e_tail : string }.
Definition shown (e : entry_shown) : string := if e_dir e then e_name e ++ "/" else e_name e.
Definition row_of_entry (e : entry_shown) : string * string * string := (shown e, shown e, e_tail e).

Definition shown_ok (e : entry_shown) : Prop :=
  e_name e ≠ "" /\ e_name e ≠ ".." /\ e_name e ≠ "Name" /\ startswith "?" (e_name e) = false /\ no_anchor (e_tail e) = true
  /\ str_forall (fun c => negb (Ascii.eqb quote c) && negb (Ascii.eqb "<" c) && negb (Ascii.eqb "/" c) && negb (is_space c)) (e_name e) = true.

Lemma str_forall_app_true p x y : str_forall p (x ++ y) = true <-> str_forall p x = true /\ str_forall p y = true.
Proof. by rewrite str_forall_app, andb_true_iff. Qed.

Lemma rstrip_lacks c w : lacks c w = true -> rstrip c w = w /\ rstrip c (w ++ String c "") = w.
Proof.
  induction w as [|d w IH]; cbn [rstrip String.append].
  - intros _. by rewrite Ascii.eqb_refl.
  - unfold lacks in *. cbn [str_forall]. intros [Hd%negb_true_iff Hw]%andb_true_iff. destruct (IH Hw) as [-> ->]. rewrite Hd. by destruct w.
Qed.

Lemma endswith_slash w : lacks "/" w = true -> endswith "/" w = false.
Proof.
  intros H. apply not_true_is_false. intros (r & ->)%endswith_spec. rewrite lacks_app in H. apply andb_true_iff in H as [_ H]. done.
Qed.

Lemma shown_row e : shown_ok e -> row_ok (row_of_entry e).
Proof.
  intros (H1 & _ & _ & _ & H5 & H6). unfold row_of_entry, row_ok, shown.
  assert (forall c, c = quote \/ c = "<"%char -> lacks c (if e_dir e then e_name e ++ "/" else e_name e) = true) as Hl.
  { intros c Hc. assert (lacks c (e_name e) = true) as Hn.
    { unfold lacks. eapply str_forall_impl; [|exact H6]. intros d Hd. rewrite !andb_true_iff in Hd. destruct Hd as [[[? ?] ?] ?]. by destruct Hc as [->| ->]. }
    destruct (e_dir e); [|done]. rewrite lacks_app, Hn. by destruct Hc as [->| ->]. }
  assert ((if e_dir e then e_name e ++ "/" else e_name e) ≠ "") as Hne by (destruct (e_dir e), (e_name e); done).
  repeat split; auto.
Qed.

Context (guess_type : string -> option string).

Lemma anchor_info_shown base e : shown_ok e ->
  anchor_info guess_type base (shown e, shown e) = Some (plain_info guess_type (e_name e) (listed_path base (e_name e)) (e_dir e) None).
Proof.
  intros (H1 & H2 & H3 & H4 & _ & H6). unfold anchor_info.
  assert (lacks "/" (e_name e) = true) as Hs.
  { unfold lacks. eapply str_forall_impl; [|exact H6]. intros d Hd. rewrite !andb_true_iff in Hd. by destruct Hd as [[[? ?] ?] ?]. }
  assert (str_forall (fun c => negb (is_space c)) (shown e) = true) as Hsp.
  { assert (str_forall (fun c => negb (is_space c)) (e_name e) = true) as Hn.
    { eapply str_forall_impl; [|exact H6]. intros d Hd. rewrite !andb_true_iff in Hd. by destruct Hd as [_ ?]. }
    unfold shown. destruct (e_dir e); [|done]. by apply str_forall_app_true. }
  rewrite (strip_id _ Hsp). destruct (rstrip_lacks "/" (e_name e) Hs) as [Hr1 Hr2].
  assert (rstrip "/" (shown e) = e_name e) as Hr by (unfold shown; by destruct (e_dir e)). rewrite Hr.
  assert (endswith "/" (shown e) = e_dir e) as ->.
  { unfold shown. destruct (e_dir e); [apply endswith_spec; by eexists|by apply endswith_slash]. }
  assert (startswith "?" (shown e) = false /\ startswith "/" (shown e) = false) as [-> ->].
  { unfold shown. destruct (e_name e) as [|c n]; [done|]. unfold lacks in Hs. cbn [str_forall] in Hs. apply andb_true_iff in Hs as [Hs%negb_true_iff _].
    rewrite startswith_cons in H4. destruct (e_dir e); cbn [String.append]; by rewrite !startswith_cons. }
  assert (existsb (String.eqb (shown e)) ["../"; ".."; "Parent Directory"; "Name"; ""] = false) as ->; [|done].
  apply not_true_is_false. intros (x & Hx & E%String.eqb_eq)%existsb_exists. subst x.
  cbn in Hx. repeat destruct Hx as [Hx|Hx]; try done; rewrite <- Hx in Hr, Hsp; [by rewrite <- Hr in H2|by rewrite <- Hr in H2|done|by rewrite <- Hr in H3|].
  by rewrite <- Hr in H1.
Qed.

(** The page of a directory, as Apache and nginx write it, is read back: every entry once, with its kind and its path, in order. *)
Lemma page_is_read_back head base es : no_anchor head = true -> Forall shown_ok es ->
  _parse_directory_listing guess_type (head ++ page (row_of_entry <$> es)) base =
    sorted_infos ((fun e => plain_info guess_type (e_name e) (listed_path base (e_name e)) (e_dir e) None) <$> es).
Proof.
  intros Hh He. unfold _parse_directory_listing. rewrite find_all_page; [|done|].
  - f_equal. induction He as [|e es H _ IH]; [done|]. cbn [fmap list_fmap omap list_omap]. change (row_of_entry e).1 with (shown e, shown e).
    by rewrite anchor_info_shown, IH.
  - apply Forall_fmap. eapply Forall_impl; [exact He|]. apply shown_row.
Qed.
End Pages.
