(* ===== verification/FileRoutes.v ===== *)
(** * Files and storage back ends

    [api/routes/storage.py] and [api/routes/files.py], with the schemas they
    validate by, on the services of Storage.  The database's part of a request
    that raises is undone, what a service did stays.  Foreign keys are not
    enforced, as SQLite has it unless told otherwise.  The digest, the
    conversions of Pydantic, the text of its errors, and whether the ORM
    fetches the columns that the database computes when it updates a row, are
    parameters; SQLAlchemy does so only where a mapper asks for it. *)
From S2P Require Import Prelude PyStr SqlTable Paths Controller Shares Storage.
From S2P Require Tftp.
From stdpp Require Import base tactics list strings gmap pretty.
From Stdlib Require Import Ascii ZArith Lia.
Open Scope string_scope.
#[local] Arguments String.append !_ _ : simpl nomatch.

(** ** Rows and bodies *)

Record BackendRow := {
  b_id : string;
  b_name : string;
  b_type : string;
  b_status : string;
  b_config_json : config;
  b_used_bytes : Z;
  b_total_bytes : option Z;
  b_file_count : Z;
  b_mount_point : option string
}.

#[export] Instance BackendRow_eq_dec : EqDecision BackendRow.
Proof. assert (EqDecision config) by (repeat red; repeat decide equality). solve_decision. Defined.

Record FileChecksum := {
  fc_id : string;
  fc_backend_id : string;
  fc_file_path : string;
  fc_checksum_sha256 : string;
  fc_size_bytes : Z
}.

Record StorageBackendCreate := { bc_name : string; bc_type : string; bc_config : list (string * json) }.
Record StorageBackendUpdate := { bu_name : option string; bu_config : option (list (string * json)) }.

Record StorageBackendResponse := {
  br_id : string;
  br_name : string;
  br_type : string;
  br_status : string;
  br_enabled : bool;
  br_config : config;
  br_used_bytes : Z;
  br_total_bytes : option Z;
  br_available_bytes : option Z;
  br_file_count : Z
}.

Record StorageFile := { sf_info : FileInfo; sf_checksum_sha256 : option string }.

(** A download as it is sent: the headers and what the iterator yields. *)
Record Download := { d_media_type : string; d_filename : string; d_content_length : option Z; d_chunks : list (list Z) }.

Definition BACKEND_TYPES : list string := ["nfs"; "iscsi"; "s3"; "http"].
Definition AUTH_METHODS : list string := ["none"; "basic"; "bearer"].

Definition backend_create_ok (b : StorageBackendCreate) : bool :=
  (1 <=? String.length (bc_name b))%nat && (String.length (bc_name b) <=? 100)%nat && existsb (String.eqb (bc_type b)) BACKEND_TYPES.

Definition absolute (p : string) : bool := startswith "/" p && negb (str_contains ".." p).

(** [FolderCreate], [FileMove] and [FileDelete] *)
Definition folder_create (p : string) : option string :=
  if absolute p then Some (if String.eqb (rstrip "/" p) "" then "/" else rstrip "/" p) else None.
Definition file_move (source destination : string) : option (string * string) :=
  if absolute source && absolute destination then Some (source, destination) else None.
Definition file_delete (paths : list string) : option (list string) := if forallb absolute paths then Some paths else None.

(** ** Configurations *)

Section Validation.
Context `{P : Pydantic}.

(** A field without a default, and one with. *)
Definition required {A} (conv : json -> option A) (k : string) (kvs : list (string * json)) : option A := assoc_get k kvs ≫= conv.
Definition with_default {A} (conv : json -> option A) (dflt : A) (k : string) (kvs : list (string * json)) : option A :=
  match assoc_get k kvs with Some j => conv j | None => Some dflt end.

Definition guarded_by {A} (b : A -> bool) (a : A) : option A := if b a then Some a else None.

Definition nfs_config (kvs : list (string * json)) : option NfsConfig :=
  server ← required to_str "server" kvs ≫= guarded_by (fun s => negb (String.eqb s "") && (String.length s <=? 255)%nat);
  export_path ← required to_str "export_path" kvs ≫= guarded_by (startswith "/");
  mount_options ← with_default (optional to_str) (Some "vers=4.1") "mount_options" kvs;
  Some {| server := server; export_path := export_path; mount_options := mount_options |}.

Definition http_config (kvs : list (string * json)) : option HttpConfig :=
  base_url ← required to_str "base_url" kvs ≫= guarded_by (fun s => startswith "http://" s || startswith "https://" s);
  auth_method ← with_default to_str "none" "auth_method" kvs ≫= guarded_by (fun s => existsb (String.eqb s) AUTH_METHODS);
  username ← with_default (optional to_str) None "username" kvs;
  password ← with_default (optional to_str) None "password" kvs;
  Some {| base_url := rstrip "/" base_url; auth_method := auth_method; username := username; password := password |}.

Definition s3_config (kvs : list (string * json)) : option S3Config :=
  endpoint ← required to_str "endpoint" kvs;
  bucket ← required to_str "bucket" kvs;
  region ← with_default (optional to_str) None "region" kvs;
  access_key_id ← required to_str "access_key_id" kvs;
  secret_access_key ← with_default (optional to_str) None "secret_access_key" kvs;
  cdn_enabled ← with_default to_bool false "cdn_enabled" kvs;
  cdn_url ← with_default (optional to_str) None "cdn_url" kvs;
  Some {| endpoint := endpoint; bucket := bucket; region := region; access_key_id := access_key_id; secret_access_key := secret_access_key;
          cdn_enabled := cdn_enabled; cdn_url := cdn_url |}.

Definition iscsi_config (kvs : list (string * json)) : option IscsiTargetConfig :=
  target ← required to_str "target" kvs;
  port ← with_default to_int 3260%Z "port" kvs;
  chap_enabled ← with_default to_bool false "chap_enabled" kvs;
  Some {| target := target; port := port; chap_enabled := chap_enabled |}.

Definition validate_config (backend_type : string) (kvs : list (string * json)) : result server_error config :=
  let checked (o : option config) : result server_error config :=
    match o with Some c => Ok c | None => Err (HTTPException 400 "invalid configuration") end in
  if String.eqb backend_type "nfs" then checked (Nfs <$> nfs_config kvs)
  else if String.eqb backend_type "http" then checked (Http <$> http_config kvs)
  else if String.eqb backend_type "s3" then checked (S3 <$> s3_config kvs)
  else if String.eqb backend_type "iscsi" then checked (Iscsi <$> iscsi_config kvs)
  else Err (HTTPException 400 ("Unknown backend type: " ++ backend_type)).
End Validation.

(** [config.pop]: a key that is gone is [None]. *)
Definition without_secrets (c : config) : config :=
  match c with
  | Http c => Http {| base_url := base_url c; auth_method := auth_method c; username := username c; password := None |}
  | S3 c => S3 {| endpoint := endpoint c; bucket := bucket c; region := region c; access_key_id := access_key_id c; secret_access_key := None;
                  cdn_enabled := cdn_enabled c; cdn_url := cdn_url c |}
  | c => c
  end.

Definition from_backend (b : BackendRow) : StorageBackendResponse :=
  {| br_id := b_id b; br_name := b_name b; br_type := b_type b; br_status := b_status b; br_enabled := negb (String.eqb (b_status b) "offline");
     br_config := without_secrets (b_config_json b); br_used_bytes := b_used_bytes b; br_total_bytes := b_total_bytes b;
     br_available_bytes := (fun total => Z.max 0 (total - b_used_bytes b)) <$> b_total_bytes b; br_file_count := b_file_count b |}.

(** ** Handlers *)

Section Routes.
Context {T : Type} `{P : Pydantic}
  (http : http_request -> T -> http_outcome * T)
  (mount_command : string -> option string -> string -> T -> bool * T)
  (umount_command : string -> T -> bool * T)
  (showmount : string -> T -> command_outcome * T)
  (disk_usage : string -> T -> option (Z * Z) * T)
  (guess_type : string -> option string)
  (os_text int_text : string -> string)
  (sha256_hex : list Z -> string)
  (refetches : bool).

Record StorageWorld := { backends : list BackendRow; checksums : list FileChecksum; stores : Stores T }.

Abbreviation RouteM A := (M StorageWorld server_error A).
Abbreviation service_of := (get_backend_service http mount_command umount_command showmount disk_usage guess_type os_text int_text).

Definition find_backend (id : string) : RouteM BackendRow :=
  w ← get_state;
  match sql_find b_id id (backends w) with Some b => mret b | None => raise (HTTPException 404 "Backend not found") end.

Definition get_backend_and_service (backend_id : string) : RouteM (BackendRow * BackendService) :=
  backend ← find_backend backend_id;
  service ← lift_result (service_of (b_id backend) (b_type backend) (b_config_json backend));
  mret (backend, service).

(** A call of the service in the handlers' [try]; [missing] says whether they catch [FileNotFoundError]. *)
Definition attempt_service {A} (missing : bool) (m : M (Stores T) storage_error A) : RouteM A := fun w =>
  let '(r, s) := m (stores w) in
  (match r with
   | Ok a => Ok a
   | Err (FileNotFoundError text) => Err (if missing then HTTPException 404 text else OSError)
   | Err (InvalidValue text) => Err (HTTPException 400 text)
   | Err OtherException => Err OSError
   end, w <| stores := s |>).

(** A call of the service outside any [try]. *)
Definition call_service {A} (m : M (Stores T) storage_error A) : RouteM A := fun w =>
  let '(r, s) := m (stores w) in
  (match r with
   | Ok a => Ok a
   | Err (FileNotFoundError _) => Err OSError
   | Err (InvalidValue _) => Err ValueError
   | Err OtherException => Err OSError
   end, w <| stores := s |>).

(** The session's transaction. *)
Definition in_session {A} (m : RouteM A) : RouteM A := fun w =>
  match m w with
  | (Ok a, w') => (Ok a, w')
  | (Err e, w') => (Err e, w' <| backends := backends w |> <| checksums := checksums w |>)
  end.

Definition list_files (backend_id p : string) : RouteM (list StorageFile) :=
  '(_, service) ← get_backend_and_service backend_id;
  files ← attempt_service true (Storage.list_files service p);
  mret ((fun f => {| sf_info := f; sf_checksum_sha256 := None |}) <$> files).

Definition download_file (backend_id p : string) : RouteM Download :=
  '(_, service) ← get_backend_and_service backend_id;
  '(chunks, mime_type, size) ← attempt_service true (Storage.download_file service p);
  mret {| d_media_type := mime_type; d_filename := last_part p; d_content_length := if (0 <? size)%Z then Some size else None; d_chunks := chunks |}.

Definition check_write (service : BackendService (T := T)) : RouteM unit :=
  if supports_write service then mret tt else raise (HTTPException 400 "Backend is read-only").

(** The path under which the checksum is kept. *)
Definition stored_path (p filename : string) : string :=
  let file_path := rstrip "/" p ++ "/" ++ filename in
  if startswith "/" file_path then file_path else "/" ++ file_path.

Definition checksum_of (backend_id file_path : string) (r : FileChecksum) : bool :=
  String.eqb backend_id (fc_backend_id r) && String.eqb file_path (fc_file_path r).

Definition store_checksum (fresh backend_id file_path checksum : string) (size : Z) : RouteM unit :=
  w ← get_state;
  match sql_select (checksum_of backend_id file_path) (checksums w) with
  | [] =>
      let record := {| fc_id := fresh; fc_backend_id := backend_id; fc_file_path := file_path; fc_checksum_sha256 := checksum; fc_size_bytes := size |} in
      match sql_insert fc_id record (checksums w) with
      | Some l => modify (fun w => w <| checksums := l |>)
      | None => raise IntegrityError
      end
  | [_] => modify (fun w => w <| checksums ::= fun l =>
             (sql_update (checksum_of backend_id file_path) (fun r => r <| fc_checksum_sha256 := checksum |> <| fc_size_bytes := size |>) l).1 |>)
  | _ => raise MultipleResultsFound
  end.

Definition upload_file (fresh backend_id p filename : string) (content : list Z) (expected_checksum : option string) : RouteM StorageFile :=
  '(_, service) ← get_backend_and_service backend_id;
  check_write service;;
  let computed_checksum := sha256_hex content in
  (match expected_checksum with
   | Some e => if negb (String.eqb e "") && negb (String.eqb computed_checksum (lower e))
               then raise (HTTPException 422 ("Checksum mismatch: expected " ++ e ++ ", got " ++ computed_checksum)) else mret tt
   | None => mret tt
   end);;
  info ← attempt_service true (Storage.upload_file service p filename (Tftp.read_chunks 8192 content));
  store_checksum fresh backend_id (stored_path p filename) computed_checksum (Z.of_nat (length content));;
  mret {| sf_info := info; sf_checksum_sha256 := Some computed_checksum |}.

Definition delete_files (backend_id : string) (paths : list string) : RouteM Z :=
  '(_, service) ← get_backend_and_service backend_id;
  check_write service;;
  attempt_service false (Storage.delete_files service paths).

Definition delete_files_post : string -> list string -> RouteM Z := delete_files.

Definition create_folder (backend_id p : string) : RouteM StorageFile :=
  '(_, service) ← get_backend_and_service backend_id;
  check_write service;;
  info ← attempt_service false (Storage.create_folder service p);
  mret {| sf_info := info; sf_checksum_sha256 := None |}.

Definition move_file (backend_id source destination : string) : RouteM StorageFile :=
  '(_, service) ← get_backend_and_service backend_id;
  check_write service;;
  info ← attempt_service true (Storage.move_file service source destination);
  mret {| sf_info := info; sf_checksum_sha256 := None |}.

(** *** Back ends *)

Definition check_free (name : string) : RouteM unit :=
  w ← get_state;
  match sql_select (has_key b_name name) (backends w) with
  | [] => mret tt
  | [_] => raise (HTTPException 409 ("Backend '" ++ name ++ "' already exists"))
  | _ => raise MultipleResultsFound
  end.

Definition insert_backend (b : BackendRow) : RouteM unit :=
  w ← get_state;
  match sql_insert b_id b (backends w) with
  | None => raise IntegrityError
  | Some l => if existsb (has_key b_name (b_name b)) (backends w) then raise IntegrityError else modify (fun w => w <| backends := l |>)
  end.

(** The columns that changed, at the flush. *)
Definition write_backend (b : BackendRow) : RouteM unit :=
  modify (fun w => w <| backends ::= fun l => (sql_update (has_key b_id (b_id b)) (fun _ => b) l).1 |>).

Definition list_backends : RouteM (list StorageBackendResponse) := w ← get_state; mret (from_backend <$> backends w).

Definition new_backend (id : string) (b : StorageBackendCreate) (c : config) : BackendRow :=
  {| b_id := id; b_name := bc_name b; b_type := bc_type b; b_status := "offline"; b_config_json := c; b_used_bytes := 0; b_total_bytes := None;
     b_file_count := 0; b_mount_point := None |}.

Definition create_backend (id : string) (b : StorageBackendCreate) : RouteM StorageBackendResponse :=
  if backend_create_ok b then
    check_free (bc_name b);;
    validated_config ← lift_result (validate_config (bc_type b) (bc_config b));
    let backend := new_backend id b validated_config in
    insert_backend backend;;
    mret (from_backend backend)
  else raise ValidationError.

Definition get_backend (id : string) : RouteM StorageBackendResponse := backend ← find_backend id; mret (from_backend backend).

(** [if backend_data.name and backend_data.name != backend.name] *)
Definition rename_backend (name : option string) (backend : BackendRow) : RouteM BackendRow :=
  match name with
  | Some n => if negb (String.eqb n "") && negb (String.eqb n (b_name backend)) then check_free n;; mret (backend <| b_name := n |>) else mret backend
  | None => mret backend
  end.

Definition reconfigure (c : option (list (string * json))) (backend : BackendRow) : RouteM BackendRow :=
  match c with
  | None | Some [] => mret backend
  | Some c => validated_config ← lift_result (validate_config (b_type backend) c); mret (backend <| b_config_json := validated_config |>)
  end.

(** The answer reads [updated_at], which the database computes when the flush writes the row. *)
Definition updated_response (before backend : BackendRow) : RouteM StorageBackendResponse :=
  if refetches || bool_decide (backend = before) then mret (from_backend backend) else raise MissingGreenlet.

Definition update_backend (id : string) (b : StorageBackendUpdate) : RouteM StorageBackendResponse :=
  before ← find_backend id;
  backend ← rename_backend (bu_name b) before;
  backend ← reconfigure (bu_config b) backend;
  write_backend backend;;
  updated_response before backend.

Definition delete_backend (id : string) : RouteM string :=
  backend ← find_backend id;
  (if String.eqb (b_type backend) "nfs" && (match b_mount_point backend with Some m => negb (String.eqb m "") | None => false end)
   then service ← lift_result (service_of (b_id backend) (b_type backend) (b_config_json backend)); call_service (unmount service)
   else mret tt);;
  modify (fun w => w <| backends ::= fun l => (sql_delete (has_key b_id id) l).1 |>);;
  mret id.

Definition with_stats (m : string) (s : Stats) (b : BackendRow) : BackendRow :=
  b <| b_mount_point := Some m |> <| b_used_bytes := used_bytes s |> <| b_total_bytes := total_bytes s |> <| b_file_count := st_file_count s |>.

Definition test_backend (id : string) : RouteM (bool * string) :=
  backend ← find_backend id;
  service ← lift_result (service_of (b_id backend) (b_type backend) (b_config_json backend));
  '(success, message) ← call_service (test_connection service);
  let backend := backend <| b_status := if (success : bool) then "online" else "error" |> in
  backend ← (if (success : bool) && String.eqb (b_type backend) "nfs" then
               mount_point ← call_service (mount service);
               match mount_point with
               | Some m => if String.eqb m "" then mret backend else stats ← call_service (get_stats service); mret (with_stats m stats backend)
               | None => mret backend
               end
             else mret backend);
  write_backend backend;;
  mret (success, message).

(** ** Runs *)

Inductive storage_event : Type :=
| ListFiles (backend_id p : string)
| Download_ (backend_id p : string)
| Upload (fresh backend_id p filename : string) (content : list Z) (expected_checksum : option string)
| DeleteFiles (backend_id : string) (paths : list string)
| CreateFolder (backend_id p : string)
| MoveFile (backend_id source destination : string)
| ListBackends
| CreateBackend (id : string) (b : StorageBackendCreate)
| GetBackend (id : string)
| UpdateBackend (id : string) (b : StorageBackendUpdate)
| DeleteBackend (id : string)
| TestBackend (id : string)
| ShareChanges (source : string) (t : tree)            (* other clients of the export *)
| MountChanges (backend_id : string) (source : option string)    (* other programs, a reboot *)
| OutsideChanges (f : T -> T).

Definition discard {A} (m : RouteM A) : RouteM unit := m;; mret tt.

(** A request; a body that its schema refuses does nothing. *)
Definition handle_storage (e : storage_event) : RouteM unit :=
  match e with
  | ListFiles b p => in_session (discard (list_files b p))
  | Download_ b p => in_session (discard (download_file b p))
  | Upload fresh b p f content sum => in_session (discard (upload_file fresh b p f content sum))
  | DeleteFiles b paths => match file_delete paths with Some l => in_session (discard (delete_files b l)) | None => raise ValidationError end
  | CreateFolder b p => match folder_create p with Some p => in_session (discard (create_folder b p)) | None => raise ValidationError end
  | MoveFile b s d => match file_move s d with Some (s, d) => in_session (discard (move_file b s d)) | None => raise ValidationError end
  | ListBackends => in_session (discard list_backends)
  | CreateBackend id b => in_session (discard (create_backend id b))
  | GetBackend id => in_session (discard (get_backend id))
  | UpdateBackend id b => in_session (discard (update_backend id b))
  | DeleteBackend id => in_session (discard (delete_backend id))
  | TestBackend id => in_session (discard (test_backend id))
  | ShareChanges source t => modify (fun w => w <| stores ::= fun s : Stores T => s <| exports ::= <[source := t]> |> |>)
  | MountChanges b source => modify (fun w => w <| stores ::= fun s : Stores T => s <| mounted ::= partial_alter (fun _ => source) b |> |>)
  | OutsideChanges f => modify (fun w => w <| stores ::= fun s : Stores T => s <| outside ::= f |> |>)
  end.

Definition run_storage (es : list storage_event) (w : StorageWorld) : StorageWorld := fold_left (fun w e => (handle_storage e w).2) es w.
End Routes.

(** ** Well-formed tables *)

(** The configuration is of the kind that the type says. *)
Definition config_ok (ty : string) (c : config) : bool :=
  match c with
  | Nfs c => String.eqb ty "nfs" && startswith "/" (export_path c)
  | Http c => String.eqb ty "http" && existsb (String.eqb (auth_method c)) AUTH_METHODS
  | S3 _ => String.eqb ty "s3"
  | Iscsi _ => String.eqb ty "iscsi"
  end.

Section Invariant.
Context {T : Type}.
Implicit Types w : StorageWorld (T := T).

Record storage_ok w : Prop := {
  so_ids : keys_unique b_id (backends w);
  so_names : keys_unique b_name (backends w);
  so_configs : Forall (fun b => config_ok (b_type b) (b_config_json b) = true) (backends w);
  so_records : keys_unique fc_id (checksums w);
  so_paths : NoDup ((fun r => (fc_backend_id r, fc_file_path r)) <$> checksums w);
  so_trees : trees_ok (stores w)
}.

Definition storage_event_ok (e : storage_event (T := T)) : Prop := match e with ShareChanges _ t => tree_ok t | _ => True end.
End Invariant.

Section Validated.
Context `{P : Pydantic}.

Lemma guarded_Some {A} (b : A -> bool) a a' : guarded_by b a = Some a' -> a' = a /\ b a = true.
Proof. unfold guarded_by. destruct (b a) eqn:E; [|done]. by intros [= <-]. Qed.

Lemma validated_config ty c c' : validate_config ty c = Ok c' -> config_ok ty c' = true.
Proof.
  rename c into kvs. unfold validate_config.
  destruct (String.eqb_spec ty "nfs") as [->|_].
  { destruct (nfs_config kvs) as [k|] eqn:E; [|done]. intros [= <-]. unfold nfs_config in E.
    destruct (required to_str "server" kvs ≫= _) as [sv|]; [|done]. cbn [mbind option_bind] in E.
    destruct (required to_str "export_path" kvs) as [ep|]; [|done]. cbn [mbind option_bind] in E.
    destruct (guarded_by _ ep) as [ep'|] eqn:Eg; [|done]. cbn [mbind option_bind] in E. apply guarded_Some in Eg as [-> Eg].
    destruct (with_default _ _ _ kvs); [|done]. cbn [mbind option_bind] in E. injection E as <-. exact Eg. }
  destruct (String.eqb_spec ty "http") as [->|_].
  { destruct (http_config kvs) as [k|] eqn:E; [|done]. intros [= <-]. unfold http_config in E.
    destruct (required to_str "base_url" kvs ≫= _) as [u|]; [|done]. cbn [mbind option_bind] in E.
    destruct (with_default to_str "none" "auth_method" kvs) as [am|]; [|done]. cbn [mbind option_bind] in E.
    destruct (guarded_by _ am) as [am'|] eqn:Eg; [|done]. cbn [mbind option_bind] in E. apply guarded_Some in Eg as [-> Eg].
    destruct (with_default _ _ "username" kvs); [|done]. cbn [mbind option_bind] in E.
    destruct (with_default _ _ "password" kvs); [|done]. cbn [mbind option_bind] in E. injection E as <-. exact Eg. }
  destruct (String.eqb_spec ty "s3") as [->|_]; [by destruct (s3_config kvs) as [k|]; [intros [= <-]|]|].
  destruct (String.eqb_spec ty "iscsi") as [->|_]; [by destruct (iscsi_config kvs) as [k|]; [intros [= <-]|]|]. done.
Qed.
End Validated.

(** ** What a request changes *)

Section Changes.
Context {T : Type} `{P : Pydantic}
  (http : http_request -> T -> http_outcome * T)
  (mount_command : string -> option string -> string -> T -> bool * T)
  (umount_command : string -> T -> bool * T)
  (showmount : string -> T -> command_outcome * T)
  (disk_usage : string -> T -> option (Z * Z) * T)
  (guess_type : string -> option string)
  (os_text int_text : string -> string)
  (sha256_hex : list Z -> string)
  (refetches : bool).
Implicit Types w : StorageWorld (T := T).

Abbreviation RouteM A := (M (StorageWorld (T := T)) server_error A).
Abbreviation handle := (handle_storage http mount_command umount_command showmount disk_usage guess_type os_text int_text sha256_hex refetches).
Abbreviation run := (run_storage http mount_command umount_command showmount disk_usage guess_type os_text int_text sha256_hex refetches).
Abbreviation with_service := (get_backend_and_service http mount_command umount_command showmount disk_usage guess_type os_text int_text).

(** *** The shares *)

Definition route_touches {A} (X : path -> Prop) (m : RouteM A) : Prop :=
  forall w, trees_ok (stores w) -> spares X (stores w) (stores (m w).2).

Lemma route_same {A} X (m : RouteM A) : (forall w, stores (m w).2 = stores w) -> route_touches X m.
Proof. intros H w Hw. rewrite H. by apply spares_refl. Qed.

Lemma route_bind {A B} X (m : RouteM A) (f : A -> RouteM B) : route_touches X m -> (forall a, route_touches X (f a)) -> route_touches X (m ≫= f).
Proof.
  intros Hm Hf w Hw. specialize (Hm w Hw). unfold mbind, M_bind. destruct (m w) as [[a|e] w']; [|done]. cbn in Hm.
  eapply spares_trans; [exact Hm|]. apply Hf. apply Hm.
Qed.

Lemma route_attempt {A} X b (m : M (Stores T) storage_error A) : touches X m -> route_touches X (attempt_service b m).
Proof. intros Hm w Hw. specialize (Hm _ Hw). unfold attempt_service. by destruct (m (stores w)) as [r s]. Qed.

Lemma route_call {A} X (m : M (Stores T) storage_error A) : touches X m -> route_touches X (call_service m).
Proof. intros Hm w Hw. specialize (Hm _ Hw). unfold call_service. by destruct (m (stores w)) as [r s]. Qed.

Lemma route_session {A} X (m : RouteM A) : route_touches X m -> route_touches X (in_session m).
Proof. intros Hm w Hw. specialize (Hm w Hw). unfold in_session. by destruct (m w) as [[] w']. Qed.

Lemma find_backend_Ok id w b w' : find_backend id w = (Ok b, w') -> w' = w /\ b ∈ backends w /\ b_id b = id.
Proof.
  unfold find_backend. unfold_M. destruct (sql_find b_id id (backends w)) as [x|] eqn:E; [|done]. intros [= -> <-].
  by apply sql_find_Some_1 in E.
Qed.

Lemma find_backend_same id w : (find_backend id w).2 = w.
Proof. unfold find_backend. unfold_M. by destruct (sql_find b_id id (backends w)). Qed.

(** A service that a request gets keeps its promises. *)
Lemma with_service_Ok id w b s w' : with_service id w = (Ok (b, s), w') -> w' = w /\ b ∈ backends w /\ b_id b = id /\ ServiceLaws id s.
Proof.
  unfold get_backend_and_service. step_M x w1 H1. apply find_backend_Ok in H1 as (-> & Hx & <-). step_M s' w2 H2. intros [= -> -> <-].
  injection H2 as H2 <-. split; [done|]. split; [done|]. split; [done|]. by apply service_laws in H2.
Qed.

Lemma with_service_same id w : (with_service id w).2 = w.
Proof.
  unfold get_backend_and_service. pose proof (find_backend_same id w) as H. unfold mbind, M_bind. destruct (find_backend id w) as [[b|e] w']; [|done].
  cbn in H. subst w'. unfold lift_result. by destruct (get_backend_service _ _ _ _ _ _ _ _ _ _ _).
Qed.

Lemma route_with_service {A} X id (f : BackendRow * BackendService -> RouteM A) :
  (forall b s, ServiceLaws id s -> route_touches X (f (b, s))) -> route_touches X (with_service id ≫= f).
Proof.
  intros Hf w Hw. pose proof (with_service_same id w) as Hs. unfold mbind, M_bind. destruct (with_service id w) as [[[b s]|e] w'] eqn:E.
  - apply with_service_Ok in E as (-> & _ & _ & Hl). by apply Hf.
  - cbn in Hs |- *. rewrite Hs. by apply spares_refl.
Qed.

Lemma route_find {A} X id (f : BackendRow -> RouteM A) : (forall b, b_id b = id -> route_touches X (f b)) -> route_touches X (find_backend id ≫= f).
Proof.
  intros Hf w Hw. pose proof (find_backend_same id w) as Hs. unfold mbind, M_bind. destruct (find_backend id w) as [[b|e] w'] eqn:E.
  - apply find_backend_Ok in E as (-> & _ & Hb). by apply Hf.
  - cbn in Hs |- *. rewrite Hs. by apply spares_refl.
Qed.

Lemma route_service {A} X id ty c (f : BackendService -> RouteM A) : (forall s, ServiceLaws id s -> route_touches X (f s)) ->
  route_touches X (lift_result (get_backend_service http mount_command umount_command showmount disk_usage guess_type os_text int_text id ty c) ≫= f).
Proof.
  intros Hf w Hw. unfold mbind, M_bind, lift_result.
  destruct (get_backend_service _ _ _ _ _ _ _ _ id ty c) as [s|e] eqn:E; [|by apply spares_refl]. apply service_laws in E. by apply Hf.
Qed.

(** The entries that a request names. *)
Definition names (e : storage_event (T := T)) (k : path) : Prop :=
  match e with
  | Upload _ _ p filename _ _ => uploads p filename k
  | DeleteFiles _ paths => deletes paths k
  | MoveFile _ source _ => moves source k
  | _ => False
  end.

(** The shares that an event unmounts, or may change as others like. *)
Definition disturbs_mount (id : string) (e : storage_event (T := T)) : Prop :=
  match e with DeleteBackend i | MountChanges i _ => i = id | _ => False end.
Definition disturbs_share (source : string) (e : storage_event (T := T)) : Prop :=
  match e with ShareChanges s _ => s = source | _ => False end.

Ltac route_steps :=
  repeat match goal with
    | |- route_touches _ (in_session _) => apply route_session
    | |- route_touches _ (discard _) => unfold discard
    | |- route_touches _ (get_backend_and_service _ _ _ _ _ _ _ _ _ ≫= _) => apply route_with_service; intros ? ? ?
    | |- route_touches _ (find_backend _ ≫= _) => apply route_find; intros ? ?
    | |- route_touches _ (lift_result (get_backend_service _ _ _ _ _ _ _ _ _ _ _) ≫= _) => apply route_service; intros ? ?
    | |- route_touches _ (_ ≫= _) => apply route_bind; [|intros ?]
    | |- route_touches _ (attempt_service _ _) => apply route_attempt
    | |- route_touches _ (call_service _) => apply route_call
    | |- route_touches _ (mret _) => by apply route_same
    | |- route_touches _ (raise _) => by apply route_same
    | |- route_touches _ (lift_result _) => by apply route_same
    | |- route_touches _ get_state => by apply route_same
    | |- route_touches _ (modify _) => by apply route_same
    | |- route_touches _ (match ?x with _ => _ end) => destruct x eqn:?
    | |- route_touches _ (let _ := _ in _) => cbv zeta
    end.

Lemma route_store X fresh b fp sum n : route_touches X (store_checksum fresh b fp sum n).
Proof. unfold store_checksum. route_steps. Qed.

Lemma route_free X n : route_touches X (check_free n).
Proof. unfold check_free. route_steps. Qed.

(** A request leaves every entry alone that it does not name. *)
Lemma handle_spares e w : trees_ok (stores w) ->
  match e with DeleteBackend _ | ShareChanges _ _ | MountChanges _ _ => True | _ => spares (names e) (stores w) (stores (handle e w).2) end.
Proof.
  intros Hw. revert w Hw.
  assert (forall m : RouteM unit, route_touches (names e) m -> forall w, trees_ok (stores w) -> spares (names e) (stores w) (stores (m w).2)) as Hm
    by (intros m Hm w Hw; by apply Hm).
  destruct e; try done; apply Hm; clear Hm; cbn [handle_storage].
  - unfold list_files. route_steps. apply law_list.
  - unfold download_file. route_steps. apply law_download.
  - unfold upload_file, check_write. route_steps; [apply law_upload|apply route_store].
  - unfold file_delete. destruct (forallb absolute paths); [|by apply route_same]. unfold delete_files, check_write. route_steps. apply law_delete.
  - destruct (folder_create p); [|by apply route_same]. unfold create_folder, check_write. route_steps. apply law_folder.
  - unfold file_move. destruct (_ && _); [|by apply route_same]. unfold move_file, check_write. route_steps. apply law_move.
  - unfold create_backend, insert_backend. route_steps. apply route_free.
  - unfold get_backend. route_steps.
  - unfold update_backend, rename_backend, reconfigure, write_backend, updated_response. route_steps; apply route_free.
  - unfold test_backend, write_backend. route_steps; [apply law_test|apply law_mount|apply law_stats].
Qed.

(** The shares are the same, and what is mounted too, [id] apart. *)
Definition unmounted_at_most (id : string) w w' : Prop :=
  exports (stores w') = exports (stores w) /\ locals (stores w') = locals (stores w)
  /\ forall i, i ≠ id -> mounted (stores w') !! i = mounted (stores w) !! i.

Lemma call_unmount id s w0 : trees_ok (stores w0) -> ServiceLaws id s -> keeps (unmounted_at_most id w0) (call_service (unmount s)).
Proof.
  intros Ht Hs w (H1 & H2 & H3). assert (trees_ok (stores w)) as Hw by (unfold trees_ok; by rewrite H1, H2).
  pose proof (law_unmount _ Hw) as (E1 & E2 & E3). unfold call_service. destruct (unmount s (stores w)) as [r st]. cbn in *.
  unfold unmounted_at_most. cbn. rewrite E1, E2. split; [done|]. split; [done|]. intros i Hi. by rewrite E3, H3.
Qed.

Lemma delete_backend_stores id w : trees_ok (stores w) -> unmounted_at_most id w (handle (DeleteBackend id) w).2.
Proof.
  intros Hw. cbn [handle_storage].
  assert (keeps (unmounted_at_most id w) (discard (delete_backend http mount_command umount_command showmount disk_usage guess_type os_text int_text id))) as Hk.
  { unfold discard. apply keeps_bind; [|intros ?; apply keeps_ret]. unfold delete_backend.
    intros s Hs. pose proof (find_backend_same id s) as Hf. unfold mbind at 1, M_bind. destruct (find_backend id s) as [[b|e] s'] eqn:E; cbn in Hf; subst s'; [|done].
    apply find_backend_Ok in E as (_ & _ & Hb). revert s Hs. match goal with |- forall s, _ -> unmounted_at_most id w (?m s).2 => change (keeps (unmounted_at_most id w) m) end.
    apply keeps_bind; [|intros ?; keeps_steps; by intros ? ?]. destruct (_ && _); [|apply keeps_ret]. intros s Hs. unfold mbind, M_bind, lift_result.
    destruct (get_backend_service _ _ _ _ _ _ _ _ (b_id b) _ _) as [sv|e] eqn:E; [|done]. apply service_laws in E. rewrite Hb in E. by apply (call_unmount id sv). }
  specialize (Hk w). unfold in_session. destruct (discard _ w) as [[] w']; by apply Hk.
Qed.

(** *** The tables *)

Definition rows w := (backends w, checksums w).

Lemma keeps_attempt {A} v b (m : M (Stores T) storage_error A) : keeps (fun w => rows w = v) (attempt_service b m).
Proof. intros w Hw. unfold attempt_service. by destruct (m (stores w)) as [r s]. Qed.
Lemma keeps_call {A} v (m : M (Stores T) storage_error A) : keeps (fun w => rows w = v) (call_service m).
Proof. intros w Hw. unfold call_service. by destruct (m (stores w)) as [r s]. Qed.
Lemma keeps_find v id : keeps (fun w => rows w = v) (find_backend id).
Proof. intros w Hw. by rewrite find_backend_same. Qed.
Lemma keeps_with_service v id : keeps (fun w => rows w = v) (with_service id).
Proof. intros w Hw. by rewrite with_service_same. Qed.

Ltac rows_kept := intros ?; keeps_steps; first [apply keeps_attempt | apply keeps_call | apply keeps_find | apply keeps_with_service | by intros ? ?].

Lemma session_rows {A} (m : RouteM A) w : rows (in_session m w).2 = match m w with (Ok _, w') => rows w' | (Err _, _) => rows w end.
Proof. unfold in_session. by destruct (m w) as [[a|e] w']. Qed.

(** A request on files other than an upload changes no row. *)
Lemma session_same {A} (m : RouteM A) w : (forall v, keeps (fun w => rows w = v) m) -> rows (in_session m w).2 = rows w.
Proof. intros Hm. rewrite session_rows. specialize (Hm (rows w) w eq_refl). by destruct (m w) as [[a|e] w']. Qed.

Definition changes_rows (e : storage_event (T := T)) : bool :=
  match e with Upload _ _ _ _ _ _ | CreateBackend _ _ | UpdateBackend _ _ | DeleteBackend _ | TestBackend _ => true | _ => false end.

Lemma handle_same_rows e w : changes_rows e = false -> rows (handle e w).2 = rows w.
Proof.
  destruct e; try done; intros _; cbn [handle_storage];
    unfold file_delete, folder_create, file_move; repeat case_match; try done; apply session_same;
    unfold discard, list_files, download_file, delete_files, create_folder, move_file, check_write, list_backends, get_backend; rows_kept.
Qed.

Definition tables_ok (v : list BackendRow * list FileChecksum) : Prop :=
  keys_unique b_id v.1 /\ keys_unique b_name v.1 /\ Forall (fun b => config_ok (b_type b) (b_config_json b) = true) v.1
  /\ keys_unique fc_id v.2 /\ NoDup ((fun r => (fc_backend_id r, fc_file_path r)) <$> v.2).

Lemma storage_ok_split w : storage_ok w <-> tables_ok (rows w) /\ trees_ok (stores w).
Proof. unfold tables_ok. split; [intros []; tauto|intros [(? & ? & ? & ? & ?) ?]; by constructor]. Qed.

Lemma checksum_of_spec b fp r : checksum_of b fp r = true <-> fc_backend_id r = b /\ fc_file_path r = fp.
Proof. unfold checksum_of. rewrite andb_true_iff, !String.eqb_eq. by split; intros [-> ->]. Qed.

(** The record of a file is made or renewed, and no other one changes. *)
Lemma store_checksum_Ok fresh b fp sum n w a w' : store_checksum fresh b fp sum n w = (Ok a, w') -> tables_ok (rows w) ->
  tables_ok (rows w') /\ backends w' = backends w
  /\ (exists r, sql_select (checksum_of b fp) (checksums w') = [r] /\ fc_checksum_sha256 r = sum /\ fc_size_bytes r = n)
  /\ (forall b' fp', (b', fp') ≠ (b, fp) -> sql_select (checksum_of b' fp') (checksums w') = sql_select (checksum_of b' fp') (checksums w)).
Proof.
  unfold store_checksum. unfold_M. intros E (H1 & H2 & H3 & H4 & H5). cbn in H4, H5. destruct (sql_select (checksum_of b fp) (checksums w)) as [|r [|]] eqn:Es; [| |done].
  - destruct (sql_insert _ _ _) as [l|] eqn:Ei; [|done]. injection E as _ <-. pose proof (keys_unique_insert fc_id _ _ _ H4 Ei) as Hk.
    unfold sql_insert in Ei. destruct (sql_find _ _ _); [done|]. injection Ei as <-. cbn. split; [|split; [done|split]].
    + repeat split; try done. cbn. rewrite fmap_app, NoDup_app. split; [done|]. split; [|apply NoDup_singleton].
      intros x (r & -> & Hr)%list_elem_of_fmap [= E1 E2]%list_elem_of_singleton. apply (not_elem_of_nil r). rewrite <- Es.
      apply elem_of_sql_select. split; [done|]. by apply checksum_of_spec.
    + rewrite select_app, Es. cbn. unfold checksum_of at 1. cbn. rewrite !String.eqb_refl. cbn. by eexists.
    + intros b' fp' Hne. rewrite select_app. cbn. unfold checksum_of at 2. cbn.
      destruct (String.eqb_spec b' b) as [->|]; [|by rewrite app_nil_r]. destruct (String.eqb_spec fp' fp) as [->|]; [done|by rewrite app_nil_r].
  - injection E as _ <-. set (f := fun r : FileChecksum => r <| fc_checksum_sha256 := sum |> <| fc_size_bytes := n |>). cbn -[sql_update].
    assert (forall K (g : FileChecksum -> K), (forall r, g (f r) = g r) -> g <$> (sql_update (checksum_of b fp) f (checksums w)).1 = g <$> checksums w) as Hg.
    { intros K g Hf. cbn. generalize (checksums w). intros l. induction l as [|x l IH]; [done|]. cbn. rewrite IH. f_equal. by destruct (checksum_of b fp x). }
    split; [|split; [done|split]].
    + repeat split; try done; cbn -[sql_update]; unfold keys_unique; by rewrite Hg.
    + exists (f r). split; [|done]. pose proof (select_update_map (checksum_of b fp) f (checksums w) (fun _ => eq_refl)) as Hm. by rewrite Es in Hm.
    + intros b' fp' Hne. apply select_update_other; [done|]. intros x (<- & <-)%checksum_of_spec. apply not_true_is_false.
      intros (E1 & E2)%checksum_of_spec. by subst.
Qed.

Lemma attempt_service_Ok {A} b (m : M (Stores T) storage_error A) w a w' : attempt_service b m w = (Ok a, w') ->
  m (stores w) = (Ok a, stores w') /\ rows w' = rows w.
Proof. unfold attempt_service. destruct (m (stores w)) as [[x|[]] s]; [|done..]. by intros [= -> <-]. Qed.

Abbreviation upload := (upload_file http mount_command umount_command showmount disk_usage guess_type os_text int_text sha256_hex).

Lemma upload_spec fresh b p filename content expected w a w' : upload fresh b p filename content expected w = (Ok a, w') ->
  exists row service info w1, row ∈ backends w /\ b_id row = b
    /\ get_backend_service http mount_command umount_command showmount disk_usage guess_type os_text int_text b (b_type row) (b_config_json row) = Ok service
    /\ Storage.upload_file service p filename (Tftp.read_chunks 8192 content) (stores w) = (Ok info, stores w1) /\ rows w1 = rows w
    /\ store_checksum fresh b (stored_path p filename) (sha256_hex content) (Z.of_nat (length content)) w1 = (Ok tt, w')
    /\ stores w' = stores w1 /\ a = {| sf_info := info; sf_checksum_sha256 := Some (sha256_hex content) |}.
Proof.
  unfold upload_file, get_backend_and_service. step_M x s1 H1. revert H1. step_M row s2 H2. apply find_backend_Ok in H2 as (-> & Hr & Hb).
  step_M service s3 H3. injection H3 as H3 <-. intros [= <- <-]. cbv iota beta. step_M y s4 H4.
  assert (s4 = w) as -> by (unfold check_write in H4; destruct (supports_write service); [by injection H4|done]). cbv zeta. step_M z s5 H5.
  assert (s5 = w) as -> by (revert H5; destruct expected as [e|]; [destruct (_ && _); [done|]|]; by intros [= _ <-]).
  step_M info s6 H6. apply attempt_service_Ok in H6 as [H6 Hr6]. step_M u s7 H7. intros [= <- <-]. destruct u.
  exists row, service, info, s6. rewrite Hb in H3. repeat split; try done.
  revert H7. unfold store_checksum. unfold_M. destruct (sql_select _ _) as [|? [|]]; [destruct (sql_insert _ _ _)| |]; [|done| |done]; by intros [= <-].
Qed.

Lemma free_name_Ok n w a w' : check_free n w = (Ok a, w') -> w' = w /\ forall x, x ∈ backends w -> b_name x ≠ n.
Proof.
  unfold check_free. unfold_M. destruct (sql_select _ _) as [|y [|]] eqn:E; [|done..]. intros [= _ <-]. split; [done|]. intros x Hx <-.
  apply (not_elem_of_nil x). rewrite <- E. apply elem_of_sql_select. by rewrite has_key_true.
Qed.

(** A row changes, its id stays. *)
Lemma write_backend_ok b b' w : tables_ok (rows w) -> b ∈ backends w -> b_id b' = b_id b -> config_ok (b_type b') (b_config_json b') = true ->
  (b_name b' = b_name b \/ forall x, x ∈ backends w -> b_name x ≠ b_name b') -> tables_ok (rows (write_backend b' w).2).
Proof.
  intros (H1 & H2 & H3 & H4 & H5) Hb Ei Hc Hn. cbn -[sql_update] in *. split; [|split; [|split; [|done]]]; cbn -[sql_update].
  - unfold keys_unique. by rewrite (update_keys_same b_id b b').
  - apply (unique_or_free b_id b_name b b'); try done. destruct Hn as [Hn|Hn]; [by left|right]. intros x Hx _. by apply Hn.
  - apply Forall_forall. intros x (y & Hy & ->)%elem_of_update. destruct (has_key b_id (b_id b') y); [done|]. by apply (proj1 (Forall_forall _ _) H3).
Qed.

(** An update writes one row, of the id and the type it had, with a free name and a configuration of its type. *)
Definition rewrites w w' : Prop :=
  exists x z v, x ∈ backends w /\ b_id z = b_id x /\ b_type z = b_type x /\ config_ok (b_type z) (b_config_json z) = true
    /\ (b_name z = b_name x \/ forall r, r ∈ backends w -> b_name r ≠ b_name z) /\ rows v = rows w /\ rows w' = rows (write_backend z v).2.

Lemma rewrites_ok w w' : rewrites w w' -> tables_ok (rows w) -> tables_ok (rows w').
Proof.
  intros (x & z & v & Hx & Ei & _ & Hc & Hn & Hv & ->) Ht. pose proof (f_equal fst Hv) as Eb. cbn in Eb.
  apply (write_backend_ok x z v); rewrite ?Hv, ?Eb; done.
Qed.

Lemma config_in x w : tables_ok (rows w) -> x ∈ backends w -> config_ok (b_type x) (b_config_json x) = true.
Proof. intros (_ & _ & H & _) Hx. by apply (proj1 (Forall_forall _ _) H). Qed.

Lemma rename_backend_Ok n x w y w' : rename_backend n x w = (Ok y, w') ->
  w' = w /\ b_id y = b_id x /\ b_type y = b_type x /\ b_config_json y = b_config_json x
  /\ (b_name y = b_name x \/ forall r, r ∈ backends w -> b_name r ≠ b_name y).
Proof.
  unfold rename_backend. destruct n as [n|]; [destruct (_ && _)|].
  - step_M v s5 H5. apply free_name_Ok in H5 as [-> Hf]. intros [= <- <-]. cbn. repeat split. by right.
  - intros [= <- <-]. repeat split. by left.
  - intros [= <- <-]. repeat split. by left.
Qed.

Lemma reconfigure_Ok c y w z w' : config_ok (b_type y) (b_config_json y) = true -> reconfigure c y w = (Ok z, w') ->
  w' = w /\ b_id z = b_id y /\ b_type z = b_type y /\ b_name z = b_name y /\ config_ok (b_type z) (b_config_json z) = true.
Proof.
  intros Hy. assert ((mret y : RouteM BackendRow) w = (Ok z, w') ->
    w' = w /\ b_id z = b_id y /\ b_type z = b_type y /\ b_name z = b_name y /\ config_ok (b_type z) (b_config_json z) = true) as Hsame by (by intros [= <- <-]).
  assert (forall j, (v ← lift_result (validate_config (b_type y) j); mret (y <| b_config_json := v |>) : RouteM BackendRow) w = (Ok z, w') ->
    w' = w /\ b_id z = b_id y /\ b_type z = b_type y /\ b_name z = b_name y /\ config_ok (b_type z) (b_config_json z) = true) as Hnew.
  { intros j. step_M v s6 H6. injection H6 as H6 <-. intros [= <- <-]. cbn. repeat split. by apply (validated_config (b_type y) j). }
  unfold reconfigure. destruct c as [[|? ?]|]; try exact Hsame; apply Hnew.
Qed.

Lemma update_rewrites id b w a w' : tables_ok (rows w) -> update_backend refetches id b w = (Ok a, w') -> rewrites w w'.
Proof.
  intros Ht. unfold update_backend. step_M x s1 H1. apply find_backend_Ok in H1 as (-> & Hx & Hi). step_M y s2 H2. step_M z s3 H3. step_M u s4 H4.
  unfold updated_response. destruct (_ || _); [|done]. intros [= _ <-].
  apply rename_backend_Ok in H2 as (-> & Ey & Ety & Ecy & Hny). pose proof (config_in x w Ht Hx) as Hcx.
  apply reconfigure_Ok in H3 as (-> & Ez & Etz & En & Hz); [|by rewrite Ety, Ecy]. exists x, z, w. rewrite Ez, Etz, Ey, Ety.
  repeat split; try done; [by rewrite <- Ety, <- Etz|by rewrite En|by injection H4 as _ <-].
Qed.

Lemma create_spec id b w a w' : create_backend id b w = (Ok a, w') ->
  exists c, config_ok (bc_type b) c = true /\ (id ∉ b_id <$> backends w) /\ (forall x, x ∈ backends w -> b_name x ≠ bc_name b)
    /\ rows w' = ((backends w ++ [new_backend id b c])%list, checksums w).
Proof.
  unfold create_backend. destruct (backend_create_ok b); [|done]. step_M x s1 H1. apply free_name_Ok in H1 as [-> Hf]. step_M c s2 H2. injection H2 as H2 <-.
  apply validated_config in H2. cbv zeta. step_M u s3 H3. intros [= _ <-]. exists c. split; [done|].
  revert H3. unfold insert_backend, sql_insert. unfold_M. destruct (sql_find _ _ _) eqn:E; [done|]. destruct (existsb _ _); [done|]. intros [= _ <-].
  by apply sql_find_None in E.
Qed.

Lemma create_tables id b w a w' : create_backend id b w = (Ok a, w') -> tables_ok (rows w) -> tables_ok (rows w').
Proof.
  intros (c & Hc & Hid & Hf & ->)%create_spec (K1 & K2 & K3 & K4 & K5). cbn in *. split; [|split; [|split; [|done]]]; cbn.
  - unfold keys_unique. rewrite fmap_app, NoDup_app. split; [done|]. split; [by intros y Hy ->%list_elem_of_singleton|apply NoDup_singleton].
  - unfold keys_unique. rewrite fmap_app, NoDup_app. split; [done|]. split; [|apply NoDup_singleton].
    intros y (r & -> & Hr)%list_elem_of_fmap En%list_elem_of_singleton. by apply (Hf r).
  - apply Forall_app. split; [done|]. by constructor.
Qed.

Abbreviation delete := (delete_backend http mount_command umount_command showmount disk_usage guess_type os_text int_text).
Abbreviation test := (test_backend http mount_command umount_command showmount disk_usage guess_type os_text int_text).

Lemma call_service_Ok {A} (m : M (Stores T) storage_error A) w a w' : call_service m w = (Ok a, w') -> m (stores w) = (Ok a, stores w') /\ rows w' = rows w.
Proof. unfold call_service. destruct (m (stores w)) as [[x|[]] s]; [|done..]. by intros [= -> <-]. Qed.

Lemma delete_spec id w a w' : delete id w = (Ok a, w') -> rows w' = ((sql_delete (has_key b_id id) (backends w)).1, checksums w).
Proof.
  unfold delete_backend. step_M x s1 H1. apply find_backend_Ok in H1 as (-> & _ & _). step_M y s2 H2. step_M u s3 H3. intros [= _ <-].
  assert (rows s2 = rows w) as Hr.
  { revert H2. destruct (_ && _); [|by intros [= _ <-]]. step_M sv s4 H4. injection H4 as _ <-. by intros [_ ?]%call_service_Ok. }
  injection H3 as _ <-. injection Hr as E1 E2. unfold rows. cbn. by rewrite E1, E2.
Qed.

Lemma delete_tables id w a w' : delete id w = (Ok a, w') -> tables_ok (rows w) -> tables_ok (rows w').
Proof.
  intros ->%delete_spec (K1 & K2 & K3 & K4 & K5). cbn in *. split; [|split; [|split; [|done]]].
  - by apply keys_unique_delete.
  - by apply keys_unique_delete.
  - apply Forall_forall. intros r [Hr _]%elem_of_delete. by apply (proj1 (Forall_forall _ _) K3).
Qed.

Lemma test_rewrites id w a w' : tables_ok (rows w) -> test id w = (Ok a, w') -> rewrites w w'.
Proof.
  intros Ht. unfold test_backend. step_M x s1 H1. apply find_backend_Ok in H1 as (-> & Hx & Hi). step_M sv s2 H2. injection H2 as _ <-.
  step_M r s3 H3. destruct r as [success message]. apply call_service_Ok in H3 as [_ Hr3]. cbv zeta.
  step_M y s4 H4. step_M u s5 H5. intros [= _ <-].
  assert (rows s4 = rows w /\ b_id y = b_id x /\ b_name y = b_name x /\ b_type y = b_type x /\ b_config_json y = b_config_json x) as (Hr4 & Ey & En & Ety & Ec).
  { revert H4. destruct (_ && _); [|by intros [= <- <-]]. step_M m s6 H6. apply call_service_Ok in H6 as [_ Hr6]. destruct m as [m|]; [|intros [= <- <-]; by rewrite Hr6].
    destruct (String.eqb m ""); [intros [= <- <-]; by rewrite Hr6|]. step_M st s7 H7. apply call_service_Ok in H7 as [_ Hr7]. intros [= <- <-]. by rewrite Hr7, Hr6. }
  exists x, y, s4. repeat split; try done; [rewrite Ety, Ec; by apply (config_in x w)|by left|by injection H5 as _ <-].
Qed.

Lemma discard_rows {A} (m : RouteM A) w (Q : list BackendRow * list FileChecksum -> Prop) :
  Q (rows w) -> (forall a w', m w = (Ok a, w') -> Q (rows w')) -> Q (rows (in_session (discard m) w).2).
Proof.
  intros Hw Hm. rewrite session_rows. unfold discard, mbind, M_bind. destruct (m w) as [[a|e] w'] eqn:E; [|done]. by apply (Hm a).
Qed.

Lemma handle_tables e w : tables_ok (rows w) -> tables_ok (rows (handle e w).2).
Proof.
  intros Ht. destruct (changes_rows e) eqn:E; [|by rewrite handle_same_rows].
  destruct e; try done; cbn [handle_storage]; apply discard_rows; try done; intros a w' Hm.
  - apply upload_spec in Hm as (row & sv & info & w1 & _ & _ & _ & _ & Hr & Hs & _ & _). apply store_checksum_Ok in Hs as [H _]; [done|by rewrite Hr].
  - by apply (create_tables _ _ _ _ _ Hm).
  - by apply (rewrites_ok w); [apply (update_rewrites _ _ _ _ _ Ht Hm)|].
  - by apply (delete_tables _ _ _ _ Hm).
  - by apply (rewrites_ok w); [apply (test_rewrites _ _ _ _ Ht Hm)|].
Qed.

Lemma handle_trees e w : trees_ok (stores w) -> storage_event_ok e -> trees_ok (stores (handle e w).2).
Proof.
  intros Hw He. pose proof (handle_spares e w Hw) as Hs. destruct e; try exact (proj1 Hs).
  - destruct (delete_backend_stores id w Hw) as (H1 & H2 & _). unfold trees_ok. by rewrite H1, H2.
  - destruct Hw as [H1 H2]. split; [|done]. cbn. by apply map_Forall_insert_2.
  - done.
Qed.

Lemma handle_storage_ok e w : storage_ok w -> storage_event_ok e -> storage_ok (handle e w).2.
Proof. intros [Ht Hw]%storage_ok_split He. apply storage_ok_split. split; [by apply handle_tables|by apply handle_trees]. Qed.

Lemma run_storage_ok es w : storage_ok w -> Forall storage_event_ok es -> storage_ok (run es w).
Proof. intros Hw He. revert w Hw. induction He as [|e es He _ IH]; intros w Hw; [done|]. by apply IH, handle_storage_ok. Qed.

(** *** One path, one file *)

Lemma split_on_app c a b : split_on c (a ++ String c b) = (split_on c a ++ split_on c b)%list.
Proof.
  induction a as [|d a IH]; cbn [String.append split_on]; [by rewrite Ascii.eqb_refl|]. destruct (Ascii.eqb c d); [by rewrite IH|].
  rewrite IH. pose proof (split_on_nonempty c a). by destruct (split_on c a).
Qed.

Lemma parts_app a b : parts (path_of (a ++ String "/" b)) = (parts (path_of a) ++ parts (path_of b))%list.
Proof. cbn [parts path_of]. by rewrite split_on_app, List.filter_app. Qed.

Lemma parts_slash s : parts (path_of (String "/" s)) = parts (path_of s).
Proof. exact (parts_app "" s). Qed.

Lemma parts_lstrip s : parts (path_of (lstrip "/" s)) = parts (path_of s).
Proof.
  induction s as [|d s IH]; [done|]. cbn [lstrip]. destruct (Ascii.eqb "/" d) eqn:E; [|done]. apply Ascii.eqb_eq in E as <-. by rewrite IH, parts_slash.
Qed.

Fixpoint slashes (n : nat) : string := match n with O => "" | S n => String "/" (slashes n) end.

Lemma rstrip_slashes s : exists n, s = rstrip "/" s ++ slashes n.
Proof.
  induction s as [|d s [n IH]]; [by exists 0%nat|]. cbn [rstrip]. destruct (rstrip "/" s) as [|c r].
  - destruct (Ascii.eqb "/" d) eqn:E.
    + apply Ascii.eqb_eq in E as <-. exists (S n). cbn. by rewrite IH at 1.
    + exists n. cbn. by rewrite IH at 1.
  - exists n. cbn. by rewrite IH at 1.
Qed.

Lemma parts_slashes n : parts (path_of (slashes n)) = [].
Proof. induction n as [|n IH]; [done|]. cbn [slashes]. by rewrite parts_slash, IH. Qed.

Lemma parts_rstrip s : parts (path_of (rstrip "/" s)) = parts (path_of s).
Proof.
  destruct (rstrip_slashes s) as [n E]. rewrite E at 2. destruct n as [|n]; cbn [slashes].
  - by rewrite str_app_nil_r.
  - by rewrite parts_app, parts_slashes, app_nil_r.
Qed.

(** The path under which the checksum is kept determines the file. *)
Lemma parts_stored p filename : parts (path_of (stored_path p filename)) = (parts (path_of (lstrip "/" p)) ++ parts (path_of filename))%list.
Proof.
  unfold stored_path. change ("/" ++ filename) with (String "/" filename).
  assert (parts (path_of (rstrip "/" p ++ String "/" filename)) = (parts (path_of (lstrip "/" p)) ++ parts (path_of filename))%list) as E
    by (by rewrite parts_app, parts_rstrip, parts_lstrip).
  destruct (startswith "/" _); [done|]. cbn [String.append]. by rewrite parts_slash, E.
Qed.

Lemma validate_parts p q : _validate_path p = Ok q -> q = parts (path_of (lstrip "/" p)).
Proof. unfold _validate_path. destruct (str_contains _ _); [done|]. destruct (negb _); [done|]. by intros [= <-]. Qed.

Lemma same_stored p filename p' filename' q q' : stored_path p filename = stored_path p' filename' ->
  _validate_path p = Ok q -> _validate_path p' = Ok q' -> (q ++ parts (path_of filename))%list = (q' ++ parts (path_of filename'))%list.
Proof. intros E ->%validate_parts ->%validate_parts. by rewrite <- !parts_stored, E. Qed.

(** *** What other events leave alone *)

Lemma handle_mounted e w id source : trees_ok (stores w) -> mounted (stores w) !! id = Some source -> ~ disturbs_mount id e ->
  mounted (stores (handle e w).2) !! id = Some source.
Proof.
  intros Hw Hm He. pose proof (handle_spares e w Hw) as Hs. destruct e; try exact (proj2 (proj2 Hs) _ _ Hm).
  - destruct (delete_backend_stores id0 w Hw) as (_ & _ & H). rewrite H; [done|]. intros ->. by apply He.
  - done.
  - cbn. rewrite lookup_partial_alter_ne; [done|]. intros ->. by apply He.
Qed.

Lemma handle_exported e w source k en : trees_ok (stores w) -> exported source (stores w) !! k = Some en -> ~ disturbs_share source e -> ~ names e k ->
  exported source (stores (handle e w).2) !! k = Some en.
Proof.
  intros Hw Hk He Hn. pose proof (handle_spares e w Hw) as Hs. destruct e; try exact (proj1 (proj2 Hs) _ _ _ Hk Hn).
  - destruct (delete_backend_stores id w Hw) as (H & _ & _). unfold exported in *. by rewrite H.
  - unfold exported in *. cbn. rewrite lookup_insert_ne; [done|]. intros ->. by apply He.
  - done.
Qed.

(** There is a back end of the id, of the type. *)
Definition backend_there (id ty : string) (v : list BackendRow * list FileChecksum) : Prop := exists b, b ∈ v.1 /\ b_id b = id /\ b_type b = ty.

Lemma rewrites_there w w' id ty : rewrites w w' -> backend_there id ty (rows w) -> tables_ok (rows w) -> backend_there id ty (rows w').
Proof.
  intros (x & z & v & Hx & Ei & Ety & _ & _ & Hv & ->) (b & Hb & <- & <-) (Hk & _). cbn in Hb, Hk. pose proof (f_equal fst Hv) as Eb. cbn in Eb.
  unfold backend_there. cbn -[sql_update]. rewrite Eb. destruct (decide (b_id b = b_id z)) as [E|E].
  - assert (b = x) as -> by (apply (key_elem_inj b_id (backends w)); [done..|congruence]). exists z. split; [|done].
    apply elem_of_update. exists x. split; [done|]. by rewrite (proj2 (has_key_true b_id _ x)).
  - exists b. split; [|done]. apply elem_of_update. exists b. split; [done|]. by rewrite (proj2 (has_key_false b_id _ b)).
Qed.

Lemma handle_there e w id ty : tables_ok (rows w) -> backend_there id ty (rows w) -> ~ disturbs_mount id e -> backend_there id ty (rows (handle e w).2).
Proof.
  intros Ht Hb He. destruct (changes_rows e) eqn:E; [|by rewrite handle_same_rows].
  destruct e; try done; cbn [handle_storage]; apply discard_rows; try done; intros a w' Hm.
  - apply upload_spec in Hm as (row & sv & info & w1 & _ & _ & _ & _ & Hr & Hs & _ & _). rewrite <- Hr in Ht, Hb.
    apply store_checksum_Ok in Hs as (_ & Eb & _); [|done]. destruct Hb as (b & Hb & H). exists b. split; [|done]. cbn in *. by rewrite Eb.
  - apply create_spec in Hm as (c & _ & _ & _ & ->). destruct Hb as (r & Hr & H). exists r. split; [|done]. apply elem_of_app. by left.
  - by apply (rewrites_there w w'); [apply (update_rewrites _ _ _ _ _ Ht Hm)|..].
  - apply delete_spec in Hm as ->. destruct Hb as (r & Hr & Hid & Hty). exists r. split; [|done].
    apply elem_of_delete. split; [done|]. apply has_key_false. intros E'. apply He. congruence.
  - by apply (rewrites_there w w'); [apply (test_rewrites _ _ _ _ Ht Hm)|..].
Qed.

(** The service of an NFS back end. *)
Lemma nfs_row id row w : storage_ok w -> backend_there id "nfs" (rows w) -> row ∈ backends w -> b_id row = id ->
  b_type row = "nfs" /\ exists c, b_config_json row = Nfs c.
Proof.
  intros Hw (b & Hb & <- & Hty) Hr E. assert (row = b) as -> by (apply (key_elem_inj b_id (backends w)); [apply Hw|done..]). split; [done|].
  pose proof (proj1 (Forall_forall _ _) (so_configs w Hw) b Hb) as Hc. cbn in Hc. rewrite Hty in Hc. destruct (b_config_json b); [by eexists|done..].
Qed.

Abbreviation download := (download_file http mount_command umount_command showmount disk_usage guess_type os_text int_text).

Lemma nfs_upload_spec fresh b p filename content expected w a w' : storage_ok w -> backend_there b "nfs" (rows w) ->
  upload fresh b p filename content expected w = (Ok a, w') ->
  exists q w1, _validate_path p = Ok q /\ share b (stores w') !! (q ++ parts (path_of filename))%list = Some (File content)
    /\ fi_path (sf_info a) = rel_path (q ++ parts (path_of filename)) /\ str_contains ".." filename = false /\ lacks NUL filename = true
    /\ rows w1 = rows w /\ store_checksum fresh b (stored_path p filename) (sha256_hex content) (Z.of_nat (length content)) w1 = (Ok tt, w').
Proof.
  intros Hw Hb Hu. apply upload_spec in Hu as (row & sv & info & w1 & Hr & Hid & Hsv & Hup & Hr1 & Hst & Es & ->).
  destruct (nfs_row b row w Hw Hb Hr Hid) as [Hty [c Hc]]. rewrite Hty, Hc in Hsv. injection Hsv as <-. cbn [Storage.upload_file nfs_service] in Hup.
  pose proof (upload_Ok _ _ _ _ _ _ _ _ _ _ _ Hup) as (q & Hq & Hf & Hp & _).
  rewrite (proj1 (Tftp.read_chunks_spec 8192 content ltac:(done))) in Hf. exists q, w1. rewrite Es. split; [done|]. split; [done|]. split; [done|].
  assert (str_contains ".." filename = false /\ lacks NUL filename = true) as [H1 H2]; [|done].
  revert Hup. unfold nfs_upload_file. step_M x s1 K1. step_M y s2 K2. step_M t s3 K3. destruct (negb (exists_at _ _)); [done|].
  destruct (str_contains "/" filename); [done|]. destruct (str_contains ".." filename); [done|]. by destruct (lacks NUL filename).
Qed.

(** The file [k] of the NFS back end [b] is as it was uploaded, and so is its checksum. *)
Record in_place (b source : string) (k : path) (fp : string) (content : list Z) w : Prop := {
  ip_ok : storage_ok w;
  ip_backend : backend_there b "nfs" (rows w);
  ip_mounted : mounted (stores w) !! b = Some source;
  ip_file : exported source (stores w) !! k = Some (File content);
  ip_record : exists r, sql_select (checksum_of b fp) (checksums w) = [r] /\ fc_checksum_sha256 r = sha256_hex content
                        /\ fc_size_bytes r = Z.of_nat (length content)
}.

Definition undisturbed (b source : string) (k : path) (e : storage_event (T := T)) : Prop :=
  storage_event_ok e /\ ~ disturbs_mount b e /\ ~ disturbs_share source e /\ ~ names e k.

Lemma session_select {A} (m : RouteM A) w Q : (forall a w', m w = (Ok a, w') -> sql_select Q (checksums w') = sql_select Q (checksums w)) ->
  sql_select Q (checksums (in_session (discard m) w).2) = sql_select Q (checksums w).
Proof. intros Hm. apply (discard_rows m w (fun v => sql_select Q v.2 = _)); [done|exact Hm]. Qed.

Lemma handle_record b source p filename q content e w : let k := (q ++ parts (path_of filename))%list in
  _validate_path p = Ok q -> in_place b source k (stored_path p filename) content w -> ~ names e k ->
  sql_select (checksum_of b (stored_path p filename)) (checksums (handle e w).2) = sql_select (checksum_of b (stored_path p filename)) (checksums w).
Proof.
  intros k Hq [Hw Hb _ _ _] Hn. assert (tables_ok (rows w)) as Ht by (by apply storage_ok_split in Hw as [? _]).
  destruct (changes_rows e) eqn:E; [|pose proof (handle_same_rows e w E) as H; by injection H as _ ->].
  assert (forall v, rows v = rows w -> checksums v = checksums w) as Hsnd by (by intros v [= _ ->]).
  destruct e; try done; cbn [handle_storage].
  - apply session_select. intros a w' Hm.
    destruct (decide (backend_id = b)) as [->|Hne].
    + destruct (nfs_upload_spec _ _ _ _ _ _ _ _ _ Hw Hb Hm) as (q' & w1 & Hq' & _ & _ & _ & _ & Hr & Hs). rewrite <- Hr in Ht.
      apply store_checksum_Ok in Hs as (_ & _ & _ & Ho); [|done]. rewrite Ho, (Hsnd w1 Hr); [done|]. intros [= Es]. apply Hn. exists q'. split; [done|].
      by apply (same_stored p filename p0 filename0).
    + apply upload_spec in Hm as (row & sv & info & w1 & _ & _ & _ & _ & Hr & Hs & _ & _). rewrite <- Hr in Ht.
      apply store_checksum_Ok in Hs as (_ & _ & _ & Ho); [|done]. rewrite Ho, (Hsnd w1 Hr); [done|]. intros [= <- _]. done.
  - apply session_select. intros a w' (c & _ & _ & _ & Er)%create_spec. by injection Er as _ ->.
  - apply session_select. intros a w' (x & z & v & _ & _ & _ & _ & _ & Hv & Er)%update_rewrites; [|done].
    injection Er as _ ->. cbn. by rewrite (Hsnd v Hv).
  - apply session_select. intros a w' Er%delete_spec. by injection Er as _ ->.
  - apply session_select. intros a w' (x & z & v & _ & _ & _ & _ & _ & Hv & Er)%test_rewrites; [|done].
    injection Er as _ ->. cbn. by rewrite (Hsnd v Hv).
Qed.

Lemma handle_in_place b source p filename q content e w : let k := (q ++ parts (path_of filename))%list in _validate_path p = Ok q ->
  in_place b source k (stored_path p filename) content w -> undisturbed b source k e -> in_place b source k (stored_path p filename) content (handle e w).2.
Proof.
  intros k Hq Hi (He & Hm & Hs & Hn). pose proof (ip_ok _ _ _ _ _ _ Hi) as Hw. pose proof Hw as [Ht Htr]%storage_ok_split. constructor.
  - by apply handle_storage_ok.
  - by apply handle_there; [|apply Hi|].
  - by apply handle_mounted; [|apply Hi|].
  - by apply handle_exported; [|apply Hi|..].
  - rewrite (handle_record b source p filename q content e w Hq Hi Hn). apply Hi.
Qed.

Lemma upload_in_place fresh b p filename content expected w a w' source : storage_ok w -> backend_there b "nfs" (rows w) ->
  upload fresh b p filename content expected w = (Ok a, w') -> mounted (stores w') !! b = Some source ->
  exists q, _validate_path p = Ok q /\ in_place b source (q ++ parts (path_of filename)) (stored_path p filename) content w'
    /\ _validate_path (fi_path (sf_info a)) = Ok (q ++ parts (path_of filename))%list.
Proof.
  intros Hw Hb Hu Hm. pose proof Hw as [Ht Htr]%storage_ok_split.
  assert (in_session (discard (upload fresh b p filename content expected)) w = (Ok tt, w')) as Hd
    by (unfold in_session, discard; by rewrite (bind_Ok _ _ _ _ _ Hu)).
  pose proof (handle_storage_ok (Upload fresh b p filename content expected) w Hw I) as Hok. cbn [handle_storage] in Hok. rewrite Hd in Hok.
  pose proof (handle_there (Upload fresh b p filename content expected) w b "nfs" Ht Hb (fun H => H)) as Hth. cbn [handle_storage] in Hth. rewrite Hd in Hth.
  destruct (nfs_upload_spec _ _ _ _ _ _ _ _ _ Hw Hb Hu) as (q & w1 & Hq & Hf & Hp & Hd1 & Hd2 & Hr & Hs). rewrite <- Hr in Ht.
  apply store_checksum_Ok in Hs as (_ & _ & Hrec & _); [|done]. exists q. split; [done|]. split.
  - constructor; [done..| |done]. by rewrite <- (share_mounted b source).
  - rewrite Hp. apply rel_path_valid. apply Forall_app. split; [by apply (validated_plain p)|by apply parts_plain].
Qed.

(** C38: A file that was uploaded to a mounted NFS share is downloaded as it was, with its length, and its checksum is on record, after any other
    requests and whatever happens to other back ends, as long as no request names the file or a directory above it, the share stays mounted and
    nobody else writes to it. *)
Theorem uploaded_file_is_downloaded fresh b p filename content expected w a w1 source es :
  storage_ok w -> backend_there b "nfs" (rows w) -> upload fresh b p filename content expected w = (Ok a, w1) ->
  mounted (stores w1) !! b = Some source -> (forall k, uploads p filename k -> Forall (undisturbed b source k) es) ->
  let w2 := run es w1 in
  (exists d, download b (fi_path (sf_info a)) w2 = (Ok d, w2) /\ concat (d_chunks d) = content
             /\ d_content_length d = if decide (content = []) then None else Some (Z.of_nat (length content)))
  /\ exists r, sql_select (checksum_of b (stored_path p filename)) (checksums w2) = [r] /\ fc_checksum_sha256 r = sha256_hex content
               /\ fc_size_bytes r = Z.of_nat (length content).
Proof.
  intros Hw Hb Hu Hm Hes. destruct (upload_in_place _ _ _ _ _ _ _ _ _ _ Hw Hb Hu Hm) as (q & Hq & Hi & Hv).
  assert (Forall (undisturbed b source (q ++ parts (path_of filename))) es) as He by (apply Hes; by exists q).
  clear Hes Hu Hm. revert He w1 Hi. induction 1 as [|e es He _ IH]; intros w1 Hi w2; [|by apply IH, handle_in_place].
  destruct Hi as [Hok Hth Hm Hf Hrec]. split; [|done]. destruct (id Hth) as (row & Hr & Hid & _).
  destruct (nfs_row b row w1 Hok Hth Hr Hid) as [Hty [c Hc]]. unfold download_file.
  assert (with_service b w1 = (Ok (row, nfs_service mount_command umount_command showmount disk_usage guess_type os_text b c), w1)) as Es.
  { unfold get_backend_and_service, find_backend. unfold_M. rewrite (sql_find_Some b_id (backends w1) b row); [|apply Hok|done..].
    by rewrite Hty, Hc, Hid. }
  rewrite (bind_Ok _ _ _ _ _ Es).
  pose proof (download_file_of mount_command guess_type b c source (stores w1) _ _ content Hm Hv Hf) as Hd.
  unfold mbind, M_bind, attempt_service, nfs_service. cbn [Storage.download_file]. rewrite Hd. eexists. split; [by destruct w1|]. cbn [d_chunks d_content_length].
  split; [by apply (Tftp.read_chunks_spec 8192)|]. by destruct content.
Qed.

(** Over any requests on back ends and files, those that fail included, and whatever other programs mount, the identifiers and the names of back
    ends stay unique, each configuration is of its back end's type, no file has two checksums, and every share is a tree of files. *)
Theorem storage_stays_well_formed es w : storage_ok w -> Forall storage_event_ok es -> storage_ok (run es w).
Proof. apply run_storage_ok. Qed.
End Changes.

(** ** Answers *)

(** What an answer shows of a back end does not depend on the secrets in its row. *)
Lemma answers_hide_secrets b c : without_secrets c = without_secrets (b_config_json b) -> from_backend (b <| b_config_json := c |>) = from_backend b.
Proof. intros E. unfold from_backend. cbn. by rewrite E. Qed.

Section Deviations.
Context {T : Type}
  (mount_command : string -> option string -> string -> T -> bool * T) (guess_type : string -> option string) (os_text : string -> string).

(** Deleting the path of the root, which the schema accepts, empties a mounted share and then fails. *)
Lemma deleting_the_root id c source (w : Stores T) : mounted w !! id = Some source -> exported source w !! [] = Some Directory ->
  nfs_delete_files mount_command id c ["/"] w = (Err OtherException, w <| exports ::= <[source := filter (fun kv => kv.1 = []) (exported source w)]> |>).
Proof.
  intros Hm Hr. unfold nfs_delete_files. rewrite (bind_Ok _ _ _ _ _ (ensure_mounted_done mount_command id c source w Hm)). cbn [delete_loop].
  rewrite (bind_Ok _ _ _ [] w) by done. rewrite (bind_Ok _ _ _ (share id w) w) by done. rewrite (share_mounted id source w Hm).
  unfold exists_at. rewrite bool_decide_true by (by rewrite Hr). apply bind_Err. unfold remove_entry. rewrite (bind_Ok _ _ _ w w) by done.
  rewrite (share_mounted id source w Hm). unfold is_dir. rewrite bool_decide_true by done. unfold rmtree, is_mounted. rewrite Hm.
  rewrite bool_decide_true by done. cbn [andb]. rewrite bool_decide_true by done. unfold set_share. unfold_M. by rewrite Hm.
Qed.
End Deviations.

(** ** Examples *)

(** A site with one NFS server; [mount] works if the state says so. *)
Module Site.
#[local] Existing Instance strict_pydantic.
Definition http (_ : http_request) (t : bool) : http_outcome * bool := (ClientError "", t).
Definition mount_command (_ : string) (_ : option string) (_ : string) (t : bool) : bool * bool := (t, t).
Definition umount_command (_ : string) (t : bool) : bool * bool := (true, t).
Definition showmount (_ : string) (t : bool) : command_outcome * bool := (Exits 0 "/srv *" "", t).
Definition disk_usage (_ : string) (t : bool) : option (Z * Z) * bool := (Some (1, 10)%Z, t).
Definition guess_type (_ : string) : option string := None.
Definition os_text (p : string) : string := "No such file or directory: " ++ p.
Definition sha256_hex (l : list Z) : string := pretty (Z.of_nat (length l)).

Abbreviation handle := (handle_storage http mount_command umount_command showmount disk_usage guess_type os_text os_text sha256_hex false).
Abbreviation run := (run_storage http mount_command umount_command showmount disk_usage guess_type os_text os_text sha256_hex false).
Abbreviation upload := (upload_file http mount_command umount_command showmount disk_usage guess_type os_text os_text sha256_hex).
Abbreviation download := (download_file http mount_command umount_command showmount disk_usage guess_type os_text os_text).

Definition empty_world (mounts : bool) : StorageWorld :=
  {| backends := []; checksums := []; stores := {| exports := ∅; locals := ∅; mounted := ∅; outside := mounts |} |}.
Definition nfs : StorageBackendCreate :=
  {| bc_name := "share"; bc_type := "nfs"; bc_config := [("server", JStr "nas"); ("export_path", JStr "/srv")] |}.
Definition with_nfs (mounts : bool) : StorageWorld := run [CreateBackend "b1" nfs; TestBackend "b1"] (empty_world mounts).

Lemma empty_ok mounts : storage_ok (empty_world mounts).
Proof. repeat split; try constructor; by apply map_Forall_empty. Qed.

Lemma with_nfs_ok mounts : storage_ok (with_nfs mounts).
Proof. apply run_storage_ok; [apply empty_ok|by repeat constructor]. Qed.

Definition uploaded : storage_event (T := bool) := Upload "c1" "b1" "/images" "disk.img" [1; 2; 3]%Z None.

Example tested : (fun b => (b_status b, b_mount_point b)) <$> backends (with_nfs true) = [("online", Some "/tmp/pureboot/nfs/b1")].
Proof. by vm_compute. Qed.

Example upload_needs_a_directory : (handle uploaded (with_nfs true)).1 = Err (HTTPException 404 "Directory not found: /images").
Proof. by vm_compute. Qed.

(** While the share cannot be mounted, a file goes to the disk of the controller, and is out of sight when the share is there again. *)
Example upload_without_a_share :
  let es := [CreateFolder "b1" "/images"; uploaded; OutsideChanges (fun _ => true)] in
  fi_name <$> match (Storage.list_files (nfs_service mount_command umount_command showmount disk_usage guess_type os_text "b1"
      {| server := "nas"; export_path := "/srv"; mount_options := None |}) "/images" (stores (run [CreateFolder "b1" "/images"; uploaded] (with_nfs false)))).1
    with Ok l => l | Err _ => [] end = ["disk.img"]
  /\ (download "b1" "/images/disk.img" (run es (with_nfs false))).1 = Err (HTTPException 404 "File not found: /images/disk.img").
Proof. by vm_compute. Qed.

(** The checksum of a file stays where the file was when it is moved or deleted. *)
Example checksums_stay_behind :
  let es := [CreateFolder "b1" "/images"; uploaded; MoveFile "b1" "/images/disk.img" "/disk.img"; DeleteFiles "b1" ["/disk.img"]] in
  (fun r => (fc_file_path r, fc_checksum_sha256 r)) <$> checksums (run es (with_nfs true)) = [("/images/disk.img", "3")].
Proof. by vm_compute. Qed.

(** As SQLAlchemy has it, a request that changes a back end fails, and one that changes nothing is answered. *)
Example updates_are_undone :
  let rename n := UpdateBackend "b1" {| bu_name := Some n; bu_config := None |} in
  (handle (rename "other") (with_nfs true)).1 = Err MissingGreenlet
  /\ b_name <$> backends (handle (rename "other") (with_nfs true)).2 = ["share"]
  /\ (handle (rename "share") (with_nfs true)).1 = Ok tt.
Proof. by vm_compute. Qed.

(** If it were to fetch the column: a client that sends back the configuration that it got, to change one thing, removes the password. *)
Example password_lost :
  let web := {| bc_name := "web"; bc_type := "http"; bc_config := [("base_url", JStr "http://web"); ("auth_method", JStr "basic");
                                                                        ("username", JStr "u"); ("password", JStr "p")] |} in
  let back := {| bu_name := None; bu_config := Some [("base_url", JStr "http://web"); ("auth_method", JStr "basic"); ("username", JStr "u")] |} in
  (fun b => match b_config_json b with Http c => password c | _ => None end) <$>
    backends (run_storage http mount_command umount_command showmount disk_usage guess_type os_text os_text sha256_hex true
                [CreateBackend "b2" web; UpdateBackend "b2" back] (empty_world true)) = [None].
Proof. by vm_compute. Qed.
End Site.
Import Site.
#[local] Existing Instance strict_pydantic.

Definition with_images : StorageWorld := run [CreateFolder "b1" "/images"] (with_nfs true).
Definition later : list (storage_event (T := bool)) := [ListFiles "b1" "/"; DeleteFiles "b1" ["/other"]; UpdateBackend "b1" {| bu_name := Some "s"; bu_config := None |}].

Lemma uploaded_file_is_downloaded_witness :
  match upload "c1" "b1" "/images" "disk.img" [1; 2; 3]%Z None with_images with
  | (Ok a, w1) =>
      (exists d, download "b1" (fi_path (sf_info a)) (run later w1) = (Ok d, run later w1) /\ concat (d_chunks d) = [1; 2; 3]%Z
                 /\ d_content_length d = Some 3%Z)
      /\ exists r, sql_select (checksum_of "b1" "/images/disk.img") (checksums (run later w1)) = [r] /\ fc_checksum_sha256 r = "3"
                   /\ fc_size_bytes r = 3%Z
  | _ => False
  end.
Proof.
  destruct (upload "c1" "b1" "/images" "disk.img" [1; 2; 3]%Z None with_images) as [[a|e] w1] eqn:E; [|by vm_compute in E].
  apply (uploaded_file_is_downloaded http mount_command umount_command showmount disk_usage guess_type os_text os_text sha256_hex false
           "c1" "b1" "/images" "disk.img" [1; 2; 3]%Z None with_images a w1 "nas:/srv" later).
  - apply run_storage_ok; [apply with_nfs_ok|by repeat constructor].
  - eexists. split; [by left|]. by vm_compute.
  - exact E.
  - vm_compute in E. by injection E as _ <-.
  - intros k (q & Hq & ->). injection Hq as <-. repeat constructor; try (by intros []); try done.
    intros (p & q & Hp%list_elem_of_singleton & Hv & Hb). subst p. injection Hv as <-. by vm_compute in Hb.
Defined.

Example storage_stays_well_formed_here : storage_ok (run [CreateBackend "b1" nfs; uploaded] (empty_world true)).
Proof.
  apply (storage_stays_well_formed http mount_command umount_command showmount disk_usage guess_type os_text os_text sha256_hex false); [apply empty_ok|by repeat constructor].
Qed.
